(* ===== verification/_CoqProject ===== *)
-Q . S2P
Prelude.v
Contract.v
Fallible.v
StorageLemmas.v
Types.v
Storage.v
Codec.v
Access.v
Chain.v
Logging.v
Batch.v
Queries.v
Versions.v
Archive.v
Governance.v
Schemas.v
Proposals.v
Retention.v
Invariant.v
Submission.v
VersionSpec.v
Ledger.v
Reads.v
AppendOnly.v
Footprint.v
Sample.v
LedgerProps.v
Admission.v
Clearance.v
SubmissionProps.v
ReplayProps.v
QueryProps.v
VersionProps.v
GovernanceProps.v
RetentionSpec.v
RetentionProps.v
ArchiveProps.v
SchemaProps.v
Tenants.v
TenantSpec.v
TenantTyping.v
TenantLife.v
TenantProps.v
Carbon.v
Regions.v
Incidents.v
Runbooks.v
ReportTypes.v
ReportValidation.v
ReportTracker.v
ReportProps.v
TrailProps.v
Capacity.v
Passports.v
PassportProps.v
Sandbox.v
SandboxProps.v
Tax.v
TaxProps.v
Regulators.v
Disclosure.v
EventPrivacy.v
SupplyChain.v
Esg.v
FinOps.v
Analytics.v
AnalyticsProps.v
Catalog.v
Cbdc.v
CbdcProps.v
Supervision.v
SupervisionProps.v
Dao.v
DaoProps.v
Markets.v
MarketsProps.v
Rwa.v
RwaProps.v
SearchIndex.v
Reserves.v
