(* ===== verification/Prelude.v ===== *)
(** * AuditLedger: a verified model of the audit-ledger contract

    The program is a Soroban smart contract, [AuditLedger] (src/lib.rs), with a
    second [contractimpl] block for retention and compliance
    (src/data_retention.rs).  It keeps an append-only, hash-chained log of audit
    events in contract storage and surrounds it with governance.  This
    development models the contract as pure Rocq functions on an explicit state
    and proves what holds of it in every reachable state.

    ** Parts of the program and their files

    - Host and storage (soroban-sdk, used by every function): [Types] has the
      contract types, error codes and storage keys; [Storage] the three stores
      (instance, persistent, temporary) as typed maps from [DataKey], the
      invocation context [Ctx], the state [St] and the contract monad [M], in
      which [raise e] is a contract error, [panic] a trap (overflow, [unwrap] of
      [None]) and [require_auth] the host's check of a signature.  A failing
      call has no effect: it returns [Err] without a state.
    - [Codec]: the byte routines (little-endian integers, packed index arrays,
      substring search, minimum-length schemas, run-length encoding).
    - [Access]: [initialize], owners, roles, pause, ownership transfer.
    - [Chain]: event identifiers, event hashes, [total_events] and the
      verification of the chain.
    - [Logging]: the submission checks, deduplication lookups, storing, indexing
      and emitting of an event; [log_event], [log_event_with_hierarchy],
      [log_event_with_custom_key], [log_event_signed].  [Batch] has
      [log_events], and the nonce entry point with its configuration.
    - [Queries]: lookups, pages, filters, search, statistics.
    - [Versions]: [update_event], [rollback_event], history, tags, diffs.
    - [Governance] (caps, limits, TTL, webhooks, lists, modes,
      deduplication policies), [Schemas] (registry, compatibility), [Archive]
      (snapshots and the archive), [Proposals]
      (multi-signature actions), [Retention] (policies, holds, exceptions,
      erasure, sweep, operational records).
    - [Ledger]: the whole contract as a transition system.  [call] lists its
      state-changing entry points, [exec] runs one, [reachable] are the states
      after a successful [initialize] and any sequence of successful calls, each
      in its own context; storage eviction is a step of its own.

    The comment of each definition names the function it translates and its
    lines.  A function that the source writes inline several times (reading the
    event at a position, the opening lines of the governance calls) is one
    definition, used where the source repeats it.

    ** Reasoning

    - [StorageLemmas]: inversion of successful runs ([minv]), the footprint
      predicate [keeps K m] and the invariant predicate [preserves P m] with
      their hint databases, and the invariant rules of loops.
    - [Invariant]: the ledger invariant [Live] - positions are [0..n), each with
      an event under the identifier of its content, linked to its predecessor,
      the totals agreeing - and its stability.  [Invariant],
      [Submission] and [VersionSpec] show what each kind of write does to it;
      [Ledger] that every entry point keeps it.
    - [Reads]: the log as an abstract list of events, and every read as a
      function of that list: the specification that the storage layout refines.
    - [AppendOnly]: which calls can change a stored event.  [Footprint]: which
      keys each call can write.  [Clearance]: who must have signed each call.
    - [Admission], [RetentionSpec]: closed forms of the admission tests and the
      replay bookkeeping, and of retention.
    - [Sample]: a concrete host and short histories on which the properties are
      instantiated.

    ** Theorems

    - [LedgerProps]: in every reachable state the chain verifies, events are
      content-addressed, the totals agree, the log is append-only except for
      revisions, and range verification decides the chain.
    - [SubmissionProps], [ReplayProps]: what one or several submissions append;
      the admission tests; duplicates, rate limits, nonces.
    - [QueryProps]: pages are slices, scans are filters, statistics count.
    - [VersionProps]: updates and rollbacks.  [RetentionProps]: erasure, the
      report and the sweep.  [SchemaProps], and [ArchiveProps] for
      snapshots and the archive.
    - [GovernanceProps]: clearances, footprints and proposals.

    ** The other modules of the crate

    The crate declares further modules next to the ledger.  Those with storage
    are contracts of their own: each has a layout (its keys, the type each key
    is read at, its errors) and uses the monad of [Contract]; those without are
    libraries on values, in the two monads of [Fallible] ([result] and, for a
    function with a [&mut] argument, [SM]), with the casts and the signed
    integers next to them.  A component is one file with its data, its
    operations and its theorems; where it is large the theorems are in a file
    named after it that ends in [Props].

    - [Tenants] (src/multi_tenant.rs), with its lemmas in [TenantSpec],
      [TenantTyping], [TenantLife] and its theorems in [TenantProps]:
      isolation, the log of a tenant, its life cycle, its limits, what deletion
      leaves behind, the failure conditions of a submission.
    - [Carbon] (src/carbon_credits.rs): the totals are those of the acts of any
      history, and of the stored credits in an orderly one.  [Regions]
      (src/multi_region.rs): one primary.  [Incidents]
      (src/incident_management.rs): states, timeline, breaker.  [Runbooks]
      (src/runbook_automation.rs): when an operation moves the controls, and that
      anybody may act under a running execution.
      [Capacity] (src/capacity_planning.rs).  [Passports]
      (src/digital_passport.rs): the history is one walk per registration.
    - [ReportTypes], [ReportValidation], [ReportTracker] (src/regulatory_reporting.rs, src/report_generators.rs,
      src/report_validation.rs, src/submission_tracker.rs,
      src/reporting_audit_trail.rs): generated reports validate, the tracker is
      a state machine, the trail is tamper-evident ([ReportProps], [TrailProps]).
    - [Sandbox] (src/sandbox_types.rs and the five modules next
      to it): volumes are confined, applications only advance, exits are final.
    - [Tax] (src/tax.rs, src/vat_engine.rs, src/tax_engines.rs,
      src/tax_audit_trail.rs): net and gross, first-in-first-out costs against a
      specification, totals, transfer prices.
    - [Regulators], [Disclosure] (src/regulator.rs,
      src/regulator_events.rs, src/compliance_validators.rs, src/disclosure.rs,
      src/tamper_evidence.rs, src/data_sharing.rs): what the root of the fields
      commits to, what the checks of links conclude, who is given access.
    - [EventPrivacy] (src/contract_event_privacy.rs): breaches are kept.
      [Analytics] (src/privacy_preserving_analytics.rs): the privacy budget and
      the rounds.  [Catalog] (src/data_governance.rs): policies, access,
      requests.  [SupplyChain] (src/supply_chain.rs): custody, certifications, verification.  [Esg] (src/esg_reporting.rs):
      scores.  [FinOps] (src/finops.rs): cost centers, budgets, anomalies.
    - [Cbdc] (src/cbdc_types.rs and the four modules next to it):
      conversion, fees, settlement, reconciliation, access lists, what the
      hashes bind.
    - [Supervision] (src/suptech_types.rs and the five modules next
      to it), with [SupervisionProps]: permissions, alerts, rule sets, the
      verdicts on reports, transmissions, scores.

    Further files of src/ have the same shape and are declared by no [mod] item
    of src/lib.rs.  They are modelled as they are written, against the SDK they
    were written for: [env.invoker()] is an argument [invoker] of the functions
    that ask for it.

    - [Dao] (src/dao_governance.rs, src/dao_treasury.rs,
      src/dao_dispute_resolution.rs), with [DaoProps]: the tallies are the votes
      cast, what executes a proposal, a fund holds its deposits less the
      allocations executed and its budget is never reset, signers are distinct,
      verdicts follow the votes.
    - [Markets] (src/prediction_markets.rs, src/prediction_market_oracle.rs,
      src/parametric_insurance.rs, src/token_gating.rs,
      src/reputation_system.rs), with [MarketsProps]: shares and capital are
      accounted for, positions are paid once, listings sell what they list,
      reputations follow from their history.
    - [Rwa] (src/rwa_types.rs, src/rwa_asset.rs, src/rwa_valuation.rs,
      src/rwa_compliance.rs, src/rwa_custody.rs, src/rwa_kyc_aml.rs,
      src/rwa_monitoring.rs, src/rwa_tokenization.rs, src/rwa_oracle.rs), with
      [RwaProps]: the registry's indices and life cycles, valuations, transfers,
      the consensus on prices and its chain.
    - [SearchIndex] (src/inverted_index.rs): the keywords of a text against the
      steps of the comment, where words fit the buffer, the packed buckets as lists, a search as a scan of the log.
    - [Reserves] (src/stablecoin_reserves.rs, src/stablecoin_reserves_impl.rs,
      src/cross_chain_bridge.rs, src/asset_lifecycle.rs,
      src/asset_lifecycle_impl.rs): Merkle roots against trees, the total of the
      reserves, what a recorded balance rests on, what tokens can be traded.

    ** Parameters, bounds and fuel

    What no file of the repository defines is a parameter.  The class [Crypto]
    holds [sha256]; [Host] adds the payload bits of a symbol and
    [default_nonce_max_value], a function that the contract calls and nothing
    declares; [AddressXdr] is the encoding of an address, [SliceHash] the
    conversion [BytesN::from_slice] that [FinOps] uses.  [is_zero] of
    [SupplyChain], [saturating_shl] of [ReportTracker] and [get_ch_rate] of
    [Tax] are called by the source and declared nowhere; they are arguments of
    the functions that use them.  [CollisionFree] is the only fact used of the
    hash by the ledger: identifiers of different positions differ; [Sample] has
    an instance.  Elsewhere a theorem that speaks of equal hashes has the
    collision as one of its outcomes.  [u32] and [u64] are integers with the
    overflow check of the release profile written out at each addition.  Loops
    over a list or a range recurse on it.  Five recursions carry fuel:
    [compress_loop] and [runs_loop] with the length of the payload (every round
    consumes a byte), [quoted_fields] with the length of the text (every round
    consumes two quotation marks), [reduce_levels] and the [reduce] of
    [Reserves] with the number of hashes (every level has fewer).

    ** Not modelled

    The contents of published events are kept as topic and data lists; the cost
    accounting of the host is not.  A second [require_auth] of one address in
    one invocation (as in [process_erasure_request], which calls [update_event])
    is the same check again in the model, whatever the host makes of it.
    Eviction is modelled as the loss of any entries of temporary and persistent
    storage between calls; the instance storage, which has a lifetime of its
    own, stays.  Of the files under src/ that no [mod] item of src/lib.rs declares,
    and that are no part of the compiled crate, those named above are modelled;
    the others (anti-corruption, export controls, green computing, privacy
    metrics and more) are not: they repeat the shape of registries modelled here
    and nothing in the crate can call them.  Nor are the services of the
    bridge, the APIs, the SDKs and the infrastructure. *)

From stdpp Require Export prelude strings list_numbers.

#[global] Open Scope Z_scope.

(** ** Machine integers

    [u32] and [u64] values are kept as [Z].  The release profile of the crate
    sets [overflow-checks = true] (Cargo.toml), so an overflowing [+] panics:
    see [u32_add] of [Storage]. *)

Definition u32_max : Z := 4294967295.
Definition u64_max : Z := 18446744073709551615.

Definition is_u32 (z : Z) : Prop := 0 <= z <= u32_max.
Definition is_u64 (z : Z) : Prop := 0 <= z <= u64_max.
Definition is_byte (z : Z) : Prop := 0 <= z < 256.

(** [saturating_add], [saturating_sub] and [saturating_mul] of the Rust
    standard library. *)
Definition u32_sat_add (a b : Z) : Z := Z.min (a + b) u32_max.
Definition u64_sat_sub (a b : Z) : Z := Z.max (a - b) 0.
Definition u64_sat_mul (a b : Z) : Z := Z.min (a * b) u64_max.

(** Bytes are lists of [u8] values kept as [Z]; [BytesN<32>] is such a list
    of length 32. *)
Abbreviation Bytes := (list Z).
Abbreviation Hash := (list Z).

(** [len()] of a host vector or byte string. *)
Definition len {A} (l : list A) : Z := Z.of_nat (length l).

(** [get(i)] of a host vector or byte string: [None] out of range. *)
Definition vget {A} (l : list A) (i : Z) : option A :=
  if Z.leb 0 i then l !! Z.to_nat i else None.

(** [0..n] and [a..b] as lists of indices. *)
Definition range (a b : Z) : list Z := seqZ a (b - a).

(** The bytes of a host string. *)
Definition str_bytes (s : string) : Bytes :=
  (fun c => Z.of_N (Ascii.N_of_ascii c)) <$> String.list_ascii_of_string s.

(** ** Lemmas on indices and lists *)

Create HintDb ledger.
Create Rewrite HintDb ledger.

Lemma len_nil {A} : len (@nil A) = 0.
Proof. done. Qed.

Lemma len_cons {A} (x : A) l : len (x :: l) = 1 + len l.
Proof. unfold len; simpl; lia. Qed.

Lemma len_app {A} (l k : list A) : len (l ++ k) = len l + len k.
Proof. unfold len; rewrite length_app; lia. Qed.

Lemma len_nonneg {A} (l : list A) : 0 <= len l.
Proof. unfold len; lia. Qed.

#[export] Hint Rewrite @len_nil @len_cons @len_app : ledger.
#[export] Hint Resolve len_nonneg : ledger.

Lemma range_nil a b : b <= a -> range a b = [].
Proof. intros H; unfold range; apply seqZ_nil; lia. Qed.

Lemma range_cons a b : a < b -> range a b = a :: range (a + 1) b.
Proof.
  intros H; unfold range; rewrite seqZ_cons by lia.
  f_equal. f_equal; lia.
Qed.

Lemma range_app a b c : a <= b -> b <= c -> range a c = range a b ++ range b c.
Proof.
  intros H1 H2; unfold range.
  replace (c - a) with ((b - a) + (c - b)) by lia.
  rewrite seqZ_app by lia. by replace (a + (b - a)) with b by lia.
Qed.

Lemma range_snoc a b : a <= b -> range a (b + 1) = range a b ++ [b].
Proof.
  intros H; rewrite (range_app a b (b + 1)) by lia.
  rewrite (range_cons b) by lia. by rewrite (range_nil (b + 1)) by lia.
Qed.

Lemma elem_of_range a b i : i ∈ range a b <-> a <= i < b.
Proof. unfold range; rewrite elem_of_seqZ; lia. Qed.

Lemma vget_Some_bounds {A} (l : list A) i x : vget l i = Some x -> 0 <= i < len l.
Proof.
  unfold vget, len; destruct (Z.leb_spec 0 i); [|done].
  intros ?%lookup_lt_Some; lia.
Qed.

Lemma vget_None {A} (l : list A) i : len l <= i -> vget l i = None.
Proof.
  unfold vget, len; intros; destruct (Z.leb_spec 0 i); [|done].
  apply lookup_ge_None; lia.
Qed.

Lemma vget_is_Some {A} (l : list A) i : 0 <= i < len l -> is_Some (vget l i).
Proof.
  unfold vget, len; intros; destruct (Z.leb_spec 0 i); [|lia].
  apply lookup_lt_is_Some; lia.
Qed.

Lemma vget_app_l {A} (l k : list A) i : i < len l -> vget (l ++ k) i = vget l i.
Proof.
  unfold vget, len; intros; destruct (Z.leb_spec 0 i); [|done].
  apply lookup_app_l; lia.
Qed.

Lemma vget_app_r {A} (l k : list A) i : len l <= i -> vget (l ++ k) i = vget k (i - len l).
Proof.
  unfold vget, len; intros.
  destruct (Z.leb_spec 0 i); [|lia].
  destruct (Z.leb_spec 0 (i - Z.of_nat (length l))); [|lia].
  rewrite lookup_app_r by lia. f_equal; lia.
Qed.

Lemma vget_nth {A} (l : list A) (n : nat) : vget l (Z.of_nat n) = l !! n.
Proof.
  unfold vget. destruct (Z.leb_spec 0 (Z.of_nat n)); [|lia]. by rewrite Nat2Z.id.
Qed.

(** ** Tactics *)

(** Case analysis on the Boolean integer comparisons of a hypothesis or the
    goal. *)
Ltac zcase :=
  repeat match goal with
  | H : Z.leb _ _ = true |- _ => apply Z.leb_le in H
  | H : Z.leb _ _ = false |- _ => apply Z.leb_gt in H
  | H : Z.ltb _ _ = true |- _ => apply Z.ltb_lt in H
  | H : Z.ltb _ _ = false |- _ => apply Z.ltb_ge in H
  | H : Z.eqb _ _ = true |- _ => apply Z.eqb_eq in H
  | H : Z.eqb _ _ = false |- _ => apply Z.eqb_neq in H
  | H : (_ && _)%bool = true |- _ => apply andb_true_iff in H; destruct H
  | H : (_ && _)%bool = false |- _ => apply andb_false_iff in H
  | H : (_ || _)%bool = false |- _ => apply orb_false_iff in H; destruct H
  | H : (_ || _)%bool = true |- _ => apply orb_true_iff in H
  | H : negb _ = true |- _ => apply negb_true_iff in H
  | H : negb _ = false |- _ => apply negb_false_iff in H
  | H : bool_decide _ = true |- _ => apply bool_decide_eq_true in H
  | H : bool_decide _ = false |- _ => apply bool_decide_eq_false in H
  end.

(** ** Sums over a list *)

Definition total_of {A} (f : A -> Z) (l : list A) : Z := foldr (fun x n => f x + n) 0 l.

Lemma total_of_ext {A} (f g : A -> Z) l : (forall x, x ∈ l -> f x = g x) -> total_of f l = total_of g l.
Proof.
  induction l as [|x l IH]; intros H; [done|]. simpl. rewrite (H x), IH; [done| |constructor].
  intros y Hy. apply H. by constructor.
Qed.

Lemma total_of_app {A} (f : A -> Z) l k : total_of f (l ++ k) = total_of f l + total_of f k.
Proof. induction l as [|x l IH]; simpl; [done|]. rewrite IH. lia. Qed.

(** One element changes its share. *)
Lemma total_of_update {A} (f g : A -> Z) l x :
  NoDup l -> x ∈ l -> (forall y, y <> x -> g y = f y) ->
  total_of g l = total_of f l + (g x - f x).
Proof.
  intros Hn Hx H. induction Hn as [|y l Hy Hn IH]; [inversion Hx|]. simpl.
  apply elem_of_cons in Hx as [->|Hx].
  - rewrite (total_of_ext g f l); [lia|]. intros z Hz. apply H. by intros ->.
  - rewrite IH by done. rewrite (H y); [lia|]. by intros ->.
Qed.

Lemma total_of_nonneg {A} (f : A -> Z) l : (forall x, 0 <= f x) -> 0 <= total_of f l.
Proof. intros H. induction l as [|x l IH]; simpl; [done|]. specialize (H x). lia. Qed.

(** A part of a sum of numbers that are not negative. *)
Lemma total_of_member {A} (f : A -> Z) l x : (forall y, 0 <= f y) -> x ∈ l -> f x <= total_of f l.
Proof.
  intros H. induction l as [|y l IH]; intros Hx; [by apply elem_of_nil in Hx|]. simpl.
  pose proof (total_of_nonneg f l H). apply elem_of_cons in Hx as [->|Hx]; [lia|].
  specialize (IH Hx). specialize (H y). lia.
Qed.
