(* ===== verification/Contract.v ===== *)
(** * Contract storage and the contract monad

    A contract of the crate keeps its state under keys of its own, each read at
    one Rust type, and fails with errors of its own: that is a [Layout].  For
    any layout, the three storages of a Soroban contract (instance, persistent
    and temporary) are typed stores over its keys, and an entry point is a
    function of the ledger context and the contract state that returns a value
    and a new state, or a fault.  A fault rolls back the whole invocation, so
    it carries no state. *)

From Stdlib Require Import Eqdep_dec.
From S2P Require Import Prelude.

(** A host [Symbol] is its text.  An [Address] is its strkey text, the form
    [Address::to_string] gives: two addresses are equal exactly when their
    strkeys are. *)
Abbreviation Symbol := string.
Abbreviation Address := string.

(** ** Layouts

    [key] is the key type of a contract; [ty] the codes of the Rust types its
    values have, [el] their meaning and [key_ty] the type each key is read at;
    [error] its error codes and [datum] what its events carry. *)
Structure Layout := mkLayout {
  key : Type;
  #[canonical=no] ty : Type;
  #[canonical=no] el : ty -> Type;
  #[canonical=no] layout_key_ty : key -> ty;
  #[canonical=no] key_dec : EqDecision key;
  #[canonical=no] ty_dec : EqDecision ty;
  error : Type;
  datum : Type }.

#[global] Existing Instance key_dec.
#[global] Existing Instance ty_dec.

(** The type of the value at a key. *)
Definition kvalue {L : Layout} (k : key L) : Type := el L (layout_key_ty L k).

(** ** Stores *)

Definition kvstore (L : Layout) : Type := forall k : key L, option (kvalue k).

Definition sempty {L} : kvstore L := fun _ => None.

Definition sget {L} (s : kvstore L) (k : key L) : option (kvalue k) := s k.

(** The entry at [k] replaced; the second test never fails when the first
    succeeds, since equal keys have equal types. *)
Definition supd {L} (s : kvstore L) (k : key L) (v : option (kvalue k)) : kvstore L :=
  fun k' =>
    if bool_decide (k = k') then
      match decide (layout_key_ty L k = layout_key_ty L k') with
      | left e => match e in _ = t return option (el L t) with eq_refl => v end
      | right _ => s k'
      end
    else s k'.

Definition sset {L} (s : kvstore L) (k : key L) (v : kvalue k) : kvstore L := supd s k (Some v).
Definition sdel {L} (s : kvstore L) (k : key L) : kvstore L := supd s k None.
Definition shas {L} (s : kvstore L) (k : key L) : bool :=
  match sget s k with Some _ => true | None => false end.

Lemma supd_eq {L} (s : kvstore L) k v : sget (supd s k v) k = v.
Proof.
  unfold sget, supd. rewrite bool_decide_true by done.
  destruct (decide _) as [e|n]; [|done].
  by rewrite (UIP_dec (ty_dec L) e eq_refl).
Qed.

Lemma supd_ne {L} (s : kvstore L) k k' v : k <> k' -> sget (supd s k v) k' = sget s k'.
Proof. intros H; unfold sget, supd. by rewrite bool_decide_false. Qed.

Lemma sset_eq {L} (s : kvstore L) k v : sget (sset s k v) k = Some v.
Proof. apply supd_eq. Qed.
Lemma sset_ne {L} (s : kvstore L) k k' v : k <> k' -> sget (sset s k v) k' = sget s k'.
Proof. apply supd_ne. Qed.
Lemma sdel_eq {L} (s : kvstore L) k : sget (sdel s k) k = None.
Proof. apply supd_eq. Qed.
Lemma sdel_ne {L} (s : kvstore L) k k' : k <> k' -> sget (sdel s k) k' = sget s k'.
Proof. apply supd_ne. Qed.

#[global] Arguments sget : simpl never.
#[global] Arguments sset : simpl never.
#[global] Arguments sdel : simpl never.

(** ** Ledger context, contract state, faults *)

(** What an invocation reads from the ledger: the time, the ledger sequence,
    the addresses that authorised the invocation and the address of the
    contract. *)
Record Ctx := mkCtx {
  cx_timestamp : Z;
  cx_sequence : Z;
  cx_auth : Address -> bool;
  cx_self : Address }.

(** The payload of a published event, for contracts without a payload type of
    their own. *)
Inductive Payload : Type :=
  | PAddr (a : Address)
  | PSym (s : Symbol)
  | PInt (n : Z)
  | PBool (b : bool)
  | PBytes (b : Bytes)
  | PHash (h : Hash).

(** Requests to the host that leave the storage of the contract unchanged. *)
Inductive HostCall (L : Layout) : Type :=
  | ExtendTtl (k : key L) (threshold extend_to : Z)
  | UpdateWasm (h : Hash).
Arguments ExtendTtl {L} k threshold extend_to.
Arguments UpdateWasm {L} h.

Record CSt (L : Layout) := mkSt {
  inst : kvstore L;
  pers : kvstore L;
  temp : kvstore L;
  published : list (list Symbol * list (datum L));
  host_calls : list (HostCall L) }.
Arguments mkSt {L} inst pers temp published host_calls.
Arguments inst {L} _.
Arguments pers {L} _.
Arguments temp {L} _.
Arguments published {L} _.
Arguments host_calls {L} _.

Definition empty_state {L} : CSt L := mkSt sempty sempty sempty [] [].

(** Why an invocation aborts: a contract error, or a panic of the code
    ([unwrap] of [None], arithmetic overflow, an index out of range, an explicit
    [panic!]), or a missing authorisation. *)
Inductive Trap : Set := Unwrap | Overflow | OutOfBounds | Unauthorized | Abort.

Inductive fault (E : Type) : Type :=
  | Raise (e : E)
  | Panic (t : Trap).
Arguments Raise {E} e.
Arguments Panic {E} t.

Inductive result (E A : Type) : Type :=
  | Ok (a : A)
  | Err (f : fault E).
Arguments Ok {E A} a.
Arguments Err {E A} f.

(** What the host computes and no file of the repository defines: [sha256] is
    [env.crypto().sha256], [sym_payload] the raw bits of a symbol value
    ([to_val().get_payload()]). *)
Class Crypto := {
  sha256 : Bytes -> Hash;
  sym_payload : Symbol -> Z }.

(** ** The contract monad *)

Definition CM (L : Layout) (A : Type) : Type := Ctx -> CSt L -> result (error L) (A * CSt L).

Definition ret {L A} (a : A) : CM L A := fun _ s => Ok (a, s).

Definition bind {L A B} (m : CM L A) (f : A -> CM L B) : CM L B :=
  fun c s => match m c s with
             | Ok (a, s') => f a c s'
             | Err e => Err e
             end.

(** The result type is known before the arguments are elaborated. *)
Arguments bind {L A B} & m f.

Declare Scope contract_scope.
Delimit Scope contract_scope with contract.
#[global] Open Scope contract_scope.

Notation "'let*' x ':=' m 'in' k" := (bind m (fun x => k))
  (at level 10, x pattern, m at level 100, k at level 200,
   format "'[v' 'let*'  x  ':='  m  'in' '/' k ']'") : contract_scope.
Notation "'do*' m 'in' k" := (bind m (fun _ => k))
  (at level 10, m at level 100, k at level 200,
   format "'[v' 'do*'  m  'in' '/' k ']'") : contract_scope.

Definition raise {L A} (e : error L) : CM L A := fun _ _ => Err (Raise e).
Definition panic {L A} (t : Trap) : CM L A := fun _ _ => Err (Panic t).

(** [if cond { panic_with_error!(e) }]. *)
Definition reject_if {L} (b : bool) (e : error L) : CM L unit :=
  if b then raise e else ret tt.

(** [unwrap()] and [unwrap_or_else(|| panic_with_error!(e))]. *)
Definition unwrap {L A} (o : option A) : CM L A :=
  match o with Some a => ret a | None => panic Unwrap end.
Definition unwrap_or_raise {L A} (o : option A) (e : error L) : CM L A :=
  match o with Some a => ret a | None => raise e end.

(** Checked [u32] and [u64] addition, the [+] of a build with
    [overflow-checks = true]. *)
Definition u32_add {L} (a b : Z) : CM L Z :=
  if Z.leb (a + b) u32_max then ret (a + b) else panic Overflow.
Definition u64_add {L} (a b : Z) : CM L Z :=
  if Z.leb (a + b) u64_max then ret (a + b) else panic Overflow.
(** Checked multiplication. *)
Definition u32_mul {L} (a b : Z) : CM L Z :=
  if Z.leb (a * b) u32_max then ret (a * b) else panic Overflow.
Definition u64_mul {L} (a b : Z) : CM L Z :=
  if Z.leb (a * b) u64_max then ret (a * b) else panic Overflow.
(** Checked unsigned subtraction. *)
Definition u_sub {L} (a b : Z) : CM L Z :=
  if Z.leb b a then ret (a - b) else panic Overflow.

Definition ledger_timestamp {L} : CM L Z := fun c s => Ok (cx_timestamp c, s).
Definition ledger_sequence {L} : CM L Z := fun c s => Ok (cx_sequence c, s).
Definition current_contract_address {L} : CM L Address := fun c s => Ok (cx_self c, s).

(** [addr.require_auth()]. *)
Definition require_auth {L} (a : Address) : CM L unit :=
  fun c s => if cx_auth c a then Ok (tt, s) else Err (Panic Unauthorized).

(** [env.storage().instance()]. *)
Definition iget {L} (k : key L) : CM L (option (kvalue k)) := fun _ s => Ok (sget (inst s) k, s).
Definition ihas {L} (k : key L) : CM L bool := fun _ s => Ok (shas (inst s) k, s).
Definition iset {L} (k : key L) (v : kvalue k) : CM L unit :=
  fun _ s => Ok (tt, mkSt (sset (inst s) k v) (pers s) (temp s) (published s) (host_calls s)).
Definition iremove {L} (k : key L) : CM L unit :=
  fun _ s => Ok (tt, mkSt (sdel (inst s) k) (pers s) (temp s) (published s) (host_calls s)).

(** [get(..).unwrap_or(d)]. *)
Definition iget_or {L} (k : key L) (d : kvalue k) : CM L (kvalue k) :=
  fun _ s => Ok (match sget (inst s) k with Some v => v | None => d end, s).

(** [env.storage().temporary()]. *)
Definition tget {L} (k : key L) : CM L (option (kvalue k)) := fun _ s => Ok (sget (temp s) k, s).
Definition thas {L} (k : key L) : CM L bool := fun _ s => Ok (shas (temp s) k, s).
Definition tset {L} (k : key L) (v : kvalue k) : CM L unit :=
  fun _ s => Ok (tt, mkSt (inst s) (pers s) (sset (temp s) k v) (published s) (host_calls s)).
Definition tremove {L} (k : key L) : CM L unit :=
  fun _ s => Ok (tt, mkSt (inst s) (pers s) (sdel (temp s) k) (published s) (host_calls s)).

(** [env.storage().persistent()]. *)
Definition pget {L} (k : key L) : CM L (option (kvalue k)) := fun _ s => Ok (sget (pers s) k, s).
Definition pget_or {L} (k : key L) (d : kvalue k) : CM L (kvalue k) :=
  fun _ s => Ok (match sget (pers s) k with Some v => v | None => d end, s).
Definition phas {L} (k : key L) : CM L bool := fun _ s => Ok (shas (pers s) k, s).
Definition pset {L} (k : key L) (v : kvalue k) : CM L unit :=
  fun _ s => Ok (tt, mkSt (inst s) (sset (pers s) k v) (temp s) (published s) (host_calls s)).

Definition host_call {L} (h : HostCall L) : CM L unit :=
  fun _ s => Ok (tt, mkSt (inst s) (pers s) (temp s) (published s) (host_calls s ++ [h])).
Definition pextend_ttl {L} (k : key L) (threshold extend_to : Z) : CM L unit :=
  host_call (ExtendTtl k threshold extend_to).

(** [env.events().publish(topics, data)]. *)
Definition publish {L} (topics : list Symbol) (data : list (datum L)) : CM L unit :=
  fun _ s => Ok (tt, mkSt (inst s) (pers s) (temp s) (published s ++ [(topics, data)])
                          (host_calls s)).

(** [for x in l { ... }] carrying the local variables [b]. *)
Fixpoint fold_m {L A B} (f : B -> A -> CM L B) (b : B) (l : list A) : CM L B :=
  match l with
  | [] => ret b
  | x :: l => let* b' := f b x in fold_m f b' l
  end.

(** [when b m]: a conditional statement without [else]. *)
Definition when {L} (b : bool) (m : CM L unit) : CM L unit := if b then m else ret tt.

(** Running an entry point: the value and the state it returns, with a
    default where it aborts. *)
Definition succeeds {L A} (m : CM L A) (c : Ctx) (s : CSt L) : bool :=
  match m c s with Ok _ => true | Err _ => false end.
Definition post {L A} (m : CM L A) (c : Ctx) (s : CSt L) : CSt L :=
  match m c s with Ok (_, s') => s' | Err _ => s end.
Definition outcome {L A} (m : CM L A) (c : Ctx) (s : CSt L) : result (error L) A :=
  match m c s with Ok (a, _) => Ok a | Err f => Err f end.
