(* ===== verification/Fallible.v ===== *)
(** * Functions that fail, outside of contract storage

    Several modules of the crate are libraries: their functions return a
    [Result] and work on values, or on a [&mut] argument, without touching
    storage.  Here are the two monads they are written in, for any type of
    errors, and the arithmetic of the release profile in the first of them.

    The second part of the file: signed integers, casts and texts. *)

From S2P Require Import Prelude Contract.

(** ** Results

    [result E A] is the outcome of a function of type [Result<A, E>]: a [Raise]
    is the [Err] of the source, which its caller receives, a [Panic] aborts. *)

Definition rbind {E A B} (m : result E A) (f : A -> result E B) : result E B :=
  match m with Ok a => f a | Err e => Err e end.

Notation "'let?' x ':=' m 'in' k" := (rbind m (fun x => k))
  (at level 10, x pattern, m at level 100, k at level 200,
   format "'[v' 'let?'  x  ':='  m  'in' '/' k ']'") : contract_scope.
Notation "'do?' m 'in' k" := (rbind m (fun _ => k))
  (at level 10, m at level 100, k at level 200,
   format "'[v' 'do?'  m  'in' '/' k ']'") : contract_scope.

(** [if cond { return Err(e) }]. *)
Definition fail_if {E} (b : bool) (e : E) : result E unit := if b then Err (Raise e) else Ok tt.

(** Checked [u64] and [u32] addition outside a contract call. *)
Definition u64_plus {E} (a b : Z) : result E Z :=
  if Z.leb (a + b) u64_max then Ok (a + b) else Err (Panic Overflow).
Definition u32_plus {E} (a b : Z) : result E Z :=
  if Z.leb (a + b) u32_max then Ok (a + b) else Err (Panic Overflow).

(** The result of an operation of the source on integers of one type, or the
    panic of the release profile when the type does not hold it. *)
Definition within {E} (lo hi z : Z) : result E Z :=
  if Z.leb lo z && Z.leb z hi then Ok z else Err (Panic Overflow).

Definition u128_max : Z := 2 ^ 128 - 1.
Definition i128_max : Z := 2 ^ 127 - 1.
Definition i128_min : Z := - 2 ^ 127.

Definition u32_chk {E} : Z -> result E Z := within 0 u32_max.
Definition u64_chk {E} : Z -> result E Z := within 0 u64_max.
Definition u128_chk {E} : Z -> result E Z := within 0 u128_max.
Definition i128_chk {E} : Z -> result E Z := within i128_min i128_max.

(** Unsigned division; Rust panics on a zero divisor. *)
Definition div_chk {E} (a b : Z) : result E Z :=
  if Z.eqb b 0 then Err (Panic Overflow) else Ok (a / b).

(** [z as u32] and [z as u8]. *)
Definition as_u32 (z : Z) : Z := z mod 2 ^ 32.
Definition as_u8 (z : Z) : Z := z mod 2 ^ 8.

(** ** Functions on a [&mut] argument

    What such a function wrote stays written when it returns an error. *)

Definition SM (S E A : Type) : Type := S -> result E A * S.

Definition sm_ret {S E A} (a : A) : SM S E A := fun s => (Ok a, s).
Definition sm_bind {S E A B} (m : SM S E A) (f : A -> SM S E B) : SM S E B :=
  fun s => match m s with
           | (Ok a, s') => f a s'
           | (Err e, s') => (Err e, s')
           end.

Notation "'let!' x ':=' m 'in' k" := (sm_bind m (fun x => k))
  (at level 10, x pattern, m at level 100, k at level 200,
   format "'[v' 'let!'  x  ':='  m  'in' '/' k ']'") : contract_scope.
Notation "'do!' m 'in' k" := (sm_bind m (fun _ => k))
  (at level 10, m at level 100, k at level 200,
   format "'[v' 'do!'  m  'in' '/' k ']'") : contract_scope.

Definition sm_get {S E} : SM S E S := fun s => (Ok s, s).
Definition sm_put {S E} (s : S) : SM S E unit := fun _ => (Ok tt, s).

(** The [?] operator on the result of a pure function. *)
Definition sm_try {S E A} (m : result E A) : SM S E A := fun s => (m, s).

(** ** Inversion *)

Lemma rbind_Ok {E A B} (m : result E A) (f : A -> result E B) b :
  rbind m f = Ok b <-> exists a, m = Ok a /\ f a = Ok b.
Proof.
  destruct m as [a|e]; simpl; split; [eauto|by intros (? & [= ->] & ?)|done|by intros (? & ? & ?)].
Qed.

Lemma fail_if_Ok {E} b (e : E) u : fail_if b e = Ok u <-> b = false.
Proof. destruct b, u; naive_solver. Qed.

Lemma within_Ok {E} lo hi z r : @within E lo hi z = Ok r <-> r = z /\ lo <= z <= hi.
Proof.
  unfold within. destruct (Z.leb_spec lo z), (Z.leb_spec z hi); simpl; split;
    try (intros [=]; lia); try (intros [? ?]; lia); try done.
  by intros [-> _].
Qed.

Lemma u32_chk_Ok {E} z r : @u32_chk E z = Ok r <-> r = z /\ 0 <= z <= u32_max.
Proof. apply within_Ok. Qed.
Lemma u64_chk_Ok {E} z r : @u64_chk E z = Ok r <-> r = z /\ 0 <= z <= u64_max.
Proof. apply within_Ok. Qed.
Lemma u128_chk_Ok {E} z r : @u128_chk E z = Ok r <-> r = z /\ 0 <= z <= u128_max.
Proof. apply within_Ok. Qed.
Lemma i128_chk_Ok {E} z r : @i128_chk E z = Ok r <-> r = z /\ i128_min <= z <= i128_max.
Proof. apply within_Ok. Qed.
Lemma div_chk_Ok {E} a b r : @div_chk E a b = Ok r <-> b <> 0 /\ r = a / b.
Proof. unfold div_chk. destruct (Z.eqb_spec b 0); naive_solver. Qed.
Lemma u64_plus_Ok {E} a b r : @u64_plus E a b = Ok r <-> r = a + b /\ a + b <= u64_max.
Proof.
  unfold u64_plus. destruct (Z.leb_spec (a + b) u64_max); split; intros; simplify_eq; try lia.
  by destruct H0 as [-> _].
Qed.
Lemma u32_plus_Ok {E} a b r : @u32_plus E a b = Ok r <-> r = a + b /\ a + b <= u32_max.
Proof.
  unfold u32_plus. destruct (Z.leb_spec (a + b) u32_max); split; intros; simplify_eq; try lia.
  by destruct H0 as [-> _].
Qed.

Lemma sm_bind_run {S E A B} (m : SM S E A) (f : A -> SM S E B) s a s' :
  m s = (Ok a, s') -> sm_bind m f s = f a s'.
Proof. intros H. unfold sm_bind. by rewrite H. Qed.

Lemma sm_bind_Ok {S E A B} (m : SM S E A) (f : A -> SM S E B) s b s2 :
  sm_bind m f s = (Ok b, s2) <-> exists a s1, m s = (Ok a, s1) /\ f a s1 = (Ok b, s2).
Proof.
  unfold sm_bind. destruct (m s) as [[a|e] s1]; split; [eauto|..].
  - by intros (? & ? & [= -> ->] & ?).
  - done.
  - by intros (? & ? & ? & ?).
Qed.

(** Inversion of the hypotheses that state a successful run. *)
Ltac rinv_step :=
  match goal with
  | H : Ok _ = Ok _ |- _ => injection H as ?; subst
  | H : Err _ = Ok _ |- _ => discriminate H
  | H : (Ok _, _) = (Ok _, _) |- _ => injection H as ?; subst
  | H : (Err _, _) = (Ok _, _) |- _ => discriminate H
  | H : rbind _ _ = Ok _ |- _ =>
      let a := fresh "a" in let R := fresh "R" in apply rbind_Ok in H as (a & R & H)
  | H : fail_if _ _ = Ok _ |- _ => apply fail_if_Ok in H
  | H : u32_chk _ = Ok _ |- _ => apply u32_chk_Ok in H as [? ?]; subst
  | H : u64_chk _ = Ok _ |- _ => apply u64_chk_Ok in H as [? ?]; subst
  | H : u128_chk _ = Ok _ |- _ => apply u128_chk_Ok in H as [? ?]; subst
  | H : i128_chk _ = Ok _ |- _ => apply i128_chk_Ok in H as [? ?]; subst
  | H : div_chk _ _ = Ok _ |- _ => apply div_chk_Ok in H as [? ?]; subst
  | H : u64_plus _ _ = Ok _ |- _ => apply u64_plus_Ok in H as [? ?]; subst
  | H : u32_plus _ _ = Ok _ |- _ => apply u32_plus_Ok in H as [? ?]; subst
  | H : sm_bind _ _ _ = (Ok _, _) |- _ =>
      let a := fresh "a" in let s := fresh "s" in let R := fresh "R" in
      apply sm_bind_Ok in H as (a & s & R & H)
  | H : sm_ret _ _ = (Ok _, _) |- _ => injection H as ?; subst
  | H : sm_get _ = (Ok _, _) |- _ => injection H as ?; subst
  | H : sm_put _ _ = (Ok _, _) |- _ => injection H as ?; subst
  | H : sm_try _ _ = (Ok _, _) |- _ => injection H as ? ?; subst
  end.
Ltac rinv := repeat rinv_step; simpl in *.

(** ** Results in a contract

    A computation that may fail, as a step of a contract call. *)
Definition lift {L A} (r : result (error L) A) : CM L A :=
  fun _ s => match r with Ok a => Ok (a, s) | Err e => Err e end.

Lemma lift_Ok {L A} (r : result (error L) A) c s a s' :
  lift r c s = Ok (a, s') <-> r = Ok a /\ s' = s.
Proof. destruct r; simpl; naive_solver. Qed.

(** ** Percentages *)

(** A share of a whole, in per cent, is between 0 and 100. *)
Lemma percent_bounds a b : 0 <= a <= b -> 0 < b -> 0 <= a * 100 / b <= 100.
Proof.
  intros Ha Hb. split; [apply Z.div_pos; lia|].
  apply Z.div_le_upper_bound; lia.
Qed.

(** ** Addresses in XDR

    The serialization of an address, [addr.to_xdr()]: the host computes it. *)
Class AddressXdr := { address_xdr : Address -> Bytes }.

(** * Signed integers, casts and texts

    What the calculators of the crate use beyond [Fallible]: [i64] and [i128]
    arithmetic, [as] casts between widths, saturation, and [str::contains]. *)

Definition i64_max : Z := 2 ^ 63 - 1.
Definition i64_min : Z := - 2 ^ 63.
Definition i64_chk {E} : Z -> result E Z := within i64_min i64_max.

Lemma i64_chk_Ok {E} z r : @i64_chk E z = Ok r <-> r = z /\ i64_min <= z <= i64_max.
Proof. apply within_Ok. Qed.

(** [z as i64] of a [u64], and [z as u64]. *)
Definition as_i64 (z : Z) : Z := if Z.leb z i64_max then z else z - 2 ^ 64.
Definition as_u64 (z : Z) : Z := z mod 2 ^ 64.

(** [i64::saturating_add] and [u64::saturating_add]. *)
Definition i64_sat_add (a b : Z) : Z := Z.max i64_min (Z.min (a + b) i64_max).
Definition u64_sat_add (a b : Z) : Z := Z.min (a + b) u64_max.

(** [s.contains(pattern)] of the Rust standard library. *)
Definition str_contains (s pattern : string) : bool :=
  match String.index 0 pattern s with Some _ => true | None => false end.

(** A loop over a vector whose body may fail. *)
Fixpoint try_fold {E A B} (f : B -> A -> result E B) (b : B) (l : list A) : result E B :=
  match l with
  | [] => Ok b
  | x :: l => let? b := f b x in try_fold f b l
  end.

(** The invariant rule of such a loop: the invariant sees the elements already
    visited. *)
Lemma try_fold_inv {E A B} (I : list A -> B -> Prop) (f : B -> A -> result E B) l b b' :
  (forall k x y y', (exists r, l = k ++ x :: r) -> I k y -> f y x = Ok y' -> I (k ++ [x]) y') ->
  I [] b -> try_fold f b l = Ok b' -> I l b'.
Proof.
  intros Hstep HI H.
  enough (forall r k y, l = k ++ r -> I k y -> try_fold f y r = Ok b' -> I l b') as K
    by (eapply (K l []); eauto).
  clear HI H. induction r as [|x r IH]; intros k y -> HI H; simpl in H; rinv.
  - by rewrite app_nil_r.
  - apply (IH (k ++ [x]) a); [by rewrite <- app_assoc| |done]. eapply Hstep; eauto.
Qed.

(** [iter().sum()], which panics on overflow like [+]. *)
Definition u64_sum {E} (l : list Z) : result E Z := try_fold u64_plus 0 l.

Lemma u64_sum_Ok {E} l r : @u64_sum E l = Ok r -> r = total_of id l.
Proof.
  intros H. apply (try_fold_inv (fun k y => y = total_of id k) _ _ _ _) in H; [done| |done].
  intros k x y y' _ -> R. rinv. rewrite total_of_app. simpl. change (id x) with x. lia.
Qed.
