(* ===== verification/StorageLemmas.v ===== *)
(** * Reasoning about contract computations

    Inversion lemmas and tactics for successful runs of the contract monad,
    the invariant rule of its loops, and footprints: which instance keys a
    computation may change. *)

From stdpp Require Import relations.
From S2P Require Import Prelude Contract Fallible.

(** ** Inversion of successful runs *)

Lemma bind_Ok {L A B} (m : CM L A) (f : A -> CM L B) c s b s2 :
  bind m f c s = Ok (b, s2) <-> exists a s1, m c s = Ok (a, s1) /\ f a c s1 = Ok (b, s2).
Proof.
  unfold bind; destruct (m c s) as [[a s1]|e]; split.
  - eauto.
  - by intros (? & ? & [= -> ->] & ?).
  - done.
  - by intros (? & ? & ? & ?).
Qed.

Lemma bind_run {L A B} (m : CM L A) (f : A -> CM L B) c s a s1 :
  m c s = Ok (a, s1) -> bind m f c s = f a c s1.
Proof. intros H; unfold bind; by rewrite H. Qed.

Lemma bind_Err {L A B} (m : CM L A) (f : A -> CM L B) c s e :
  m c s = Err e -> bind m f c s = Err e.
Proof. intros H; unfold bind; by rewrite H. Qed.

Lemma ret_Ok {L A} (a b : A) c (s s' : CSt L) : ret a c s = Ok (b, s') <-> b = a /\ s' = s.
Proof. unfold ret; naive_solver. Qed.

Lemma reject_if_Ok {L} b e c (s : CSt L) u s' :
  reject_if b e c s = Ok (u, s') <-> b = false /\ s' = s.
Proof. unfold reject_if, ret, raise; destruct b, u; naive_solver. Qed.

Lemma unwrap_Ok {L A} (o : option A) a c (s s' : CSt L) :
  unwrap o c s = Ok (a, s') <-> o = Some a /\ s' = s.
Proof. unfold unwrap, ret, panic; destruct o; naive_solver. Qed.

Lemma unwrap_or_raise_Ok {L A} (o : option A) e a c (s s' : CSt L) :
  unwrap_or_raise o e c s = Ok (a, s') <-> o = Some a /\ s' = s.
Proof. unfold unwrap_or_raise, ret, raise; destruct o; naive_solver. Qed.

Lemma u32_add_Ok {L} a b r c (s s' : CSt L) :
  u32_add a b c s = Ok (r, s') <-> r = a + b /\ a + b <= u32_max /\ s' = s.
Proof.
  unfold u32_add, ret, panic; destruct (Z.leb_spec (a + b) u32_max).
  - naive_solver.
  - split; [done|]. intros (? & ? & ?). lia.
Qed.

Lemma u64_add_Ok {L} a b r c (s s' : CSt L) :
  u64_add a b c s = Ok (r, s') <-> r = a + b /\ a + b <= u64_max /\ s' = s.
Proof.
  unfold u64_add, ret, panic; destruct (Z.leb_spec (a + b) u64_max).
  - naive_solver.
  - split; [done|]. intros (? & ? & ?). lia.
Qed.

Lemma u32_add_run {L} a b c (s : CSt L) : a + b <= u32_max -> u32_add a b c s = Ok (a + b, s).
Proof. intros. by apply u32_add_Ok. Qed.

Lemma u32_mul_Ok {L} a b r c (s s' : CSt L) :
  u32_mul a b c s = Ok (r, s') <-> r = a * b /\ a * b <= u32_max /\ s' = s.
Proof.
  unfold u32_mul, ret, panic; destruct (Z.leb_spec (a * b) u32_max).
  - naive_solver.
  - split; [done|]. intros (? & ? & ?). lia.
Qed.

Lemma u64_mul_Ok {L} a b r c (s s' : CSt L) :
  u64_mul a b c s = Ok (r, s') <-> r = a * b /\ a * b <= u64_max /\ s' = s.
Proof.
  unfold u64_mul, ret, panic; destruct (Z.leb_spec (a * b) u64_max).
  - naive_solver.
  - split; [done|]. intros (? & ? & ?). lia.
Qed.

Lemma u_sub_Ok {L} a b r c (s s' : CSt L) :
  u_sub a b c s = Ok (r, s') <-> r = a - b /\ b <= a /\ s' = s.
Proof.
  unfold u_sub, ret, panic; destruct (Z.leb_spec b a).
  - naive_solver.
  - split; [done|]. intros (? & ? & ?). lia.
Qed.

Lemma require_auth_Ok {L} a c (s : CSt L) u s' :
  require_auth a c s = Ok (u, s') <-> cx_auth c a = true /\ s' = s.
Proof. unfold require_auth; destruct (cx_auth c a), u; naive_solver. Qed.

(** One inversion step on a hypothesis that states a successful run. *)
Ltac minv_step :=
  match goal with
  | H : Ok _ = Ok _ |- _ => injection H as ?; subst
  | H : Err _ = Ok _ |- _ => discriminate H
  | H : bind _ _ _ _ = Ok _ |- _ =>
      let a := fresh "a" in let s := fresh "s" in let H1 := fresh "R" in
      apply bind_Ok in H; destruct H as (a & s & H1 & H)
  | H : ret _ _ _ = Ok _ |- _ => apply ret_Ok in H; destruct H; subst
  | H : raise _ _ _ = Ok _ |- _ => discriminate H
  | H : panic _ _ _ = Ok _ |- _ => discriminate H
  | H : reject_if _ _ _ _ = Ok _ |- _ =>
      let B := fresh "B" in apply reject_if_Ok in H; destruct H as [B ?]; subst
  | H : unwrap _ _ _ = Ok _ |- _ =>
      let B := fresh "U" in apply unwrap_Ok in H; destruct H as [B ?]; subst
  | H : unwrap_or_raise _ _ _ _ = Ok _ |- _ =>
      let B := fresh "U" in apply unwrap_or_raise_Ok in H; destruct H as [B ?]; subst
  | H : u32_add _ _ _ _ = Ok _ |- _ =>
      let B := fresh "L" in apply u32_add_Ok in H; destruct H as (? & B & ?); subst
  | H : u64_add _ _ _ _ = Ok _ |- _ =>
      let B := fresh "L" in apply u64_add_Ok in H; destruct H as (? & B & ?); subst
  | H : u32_mul _ _ _ _ = Ok _ |- _ =>
      let B := fresh "L" in apply u32_mul_Ok in H; destruct H as (? & B & ?); subst
  | H : u64_mul _ _ _ _ = Ok _ |- _ =>
      let B := fresh "L" in apply u64_mul_Ok in H; destruct H as (? & B & ?); subst
  | H : u_sub _ _ _ _ = Ok _ |- _ =>
      let B := fresh "L" in apply u_sub_Ok in H; destruct H as (? & B & ?); subst
  | H : lift _ _ _ = Ok _ |- _ => apply lift_Ok in H; destruct H as [H ?]; subst
  | H : u128_chk _ = Ok _ |- _ =>
      let B := fresh "L" in apply u128_chk_Ok in H; destruct H as [? B]; subst
  | H : require_auth _ _ _ = Ok _ |- _ =>
      let B := fresh "Au" in apply require_auth_Ok in H; destruct H as [B ?]; subst
  | H : when ?b _ _ _ = Ok _ |- _ => unfold when in H
  | H : iget _ _ _ = Ok _ |- _ => injection H as ?; subst
  | H : iget_or _ _ _ _ = Ok _ |- _ => injection H as ?; subst
  | H : ihas _ _ _ = Ok _ |- _ => injection H as ?; subst
  | H : iset _ _ _ _ = Ok _ |- _ => injection H as ?; subst
  | H : iremove _ _ _ = Ok _ |- _ => injection H as ?; subst
  | H : tget _ _ _ = Ok _ |- _ => injection H as ?; subst
  | H : thas _ _ _ = Ok _ |- _ => injection H as ?; subst
  | H : tset _ _ _ _ = Ok _ |- _ => injection H as ?; subst
  | H : tremove _ _ _ = Ok _ |- _ => injection H as ?; subst
  | H : phas _ _ _ = Ok _ |- _ => injection H as ?; subst
  | H : pget _ _ _ = Ok _ |- _ => injection H as ?; subst
  | H : pget_or _ _ _ _ = Ok _ |- _ => injection H as ?; subst
  | H : pset _ _ _ _ = Ok _ |- _ => injection H as ?; subst
  | H : pextend_ttl _ _ _ _ _ = Ok _ |- _ => injection H as ?; subst
  | H : host_call _ _ _ = Ok _ |- _ => injection H as ?; subst
  | H : publish _ _ _ _ = Ok _ |- _ => injection H as ?; subst
  | H : ledger_timestamp _ _ = Ok _ |- _ => injection H as ?; subst
  | H : ledger_sequence _ _ = Ok _ |- _ => injection H as ?; subst
  | H : current_contract_address _ _ = Ok _ |- _ => injection H as ?; subst
  end.

(** Inversion of everything sequential; [mcase] also splits the branches. *)
Ltac minv := repeat minv_step; simpl in *.
Ltac mcase_step :=
  match goal with
  | H : (if ?b then _ else _) _ _ = Ok _ |- _ => destruct b eqn:?
  | H : (match ?x with _ => _ end) _ _ = Ok _ |- _ => destruct x eqn:?
  end.
Ltac mcase := repeat (minv; try mcase_step); simpl in *.

(** Reads of a store after writes at other keys. *)
Ltac key_ne := first [discriminate | congruence | (intros [=]; simplify_eq; lia)].
Ltac sget_simpl :=
  repeat first
    [ rewrite sset_eq | rewrite sdel_eq
    | rewrite sset_ne by key_ne | rewrite sdel_ne by key_ne ].
Tactic Notation "sget_simpl" "in" hyp(H) :=
  repeat first
    [ rewrite sset_eq in H | rewrite sdel_eq in H
    | rewrite sset_ne in H by key_ne | rewrite sdel_ne in H by key_ne ].

Lemma shas_sset_ne {L} (s : kvstore L) k k' v : k <> k' -> shas (sset s k v) k' = shas s k'.
Proof. intros Hk; unfold shas; by rewrite sset_ne. Qed.
Lemma shas_sset_eq {L} (s : kvstore L) k v : shas (sset s k v) k = true.
Proof. unfold shas; by rewrite sset_eq. Qed.
Lemma shas_sdel_ne {L} (s : kvstore L) k k' : k <> k' -> shas (sdel s k) k' = shas s k'.
Proof. intros Hk; unfold shas; by rewrite sdel_ne. Qed.

Lemma shas_false {L} (s : kvstore L) k : shas s k = false -> sget s k = None.
Proof. unfold shas. by destruct (sget s k). Qed.

(** Like [sget_simpl], for keys that differ by a hypothesis. *)
Ltac store_reads :=
  repeat first
    [ rewrite sset_eq
    | rewrite sset_ne by first [discriminate | congruence | (intros [=]; simplify_eq; congruence)] ].

(** ** Loops *)

(** The invariant rule of [for i in a..b]. *)
Lemma fold_m_range_inv {L B} (I : Z -> B -> CSt L -> Prop) (f : B -> Z -> CM L B) c a z b s b' s' :
  (forall i x t x' t', a <= i < z -> I i x t -> f x i c t = Ok (x', t') -> I (i + 1) x' t') ->
  a <= z -> I a b s -> fold_m f b (range a z) c s = Ok (b', s') -> I z b' s'.
Proof.
  intros Hstep Haz. remember (Z.to_nat (z - a)) as n eqn:Hn.
  revert a b s Haz Hn Hstep. induction n as [|n IH]; intros a b s Haz Hn Hstep HI H.
  - rewrite range_nil in H by lia. simpl in H. minv. by replace z with a by lia.
  - rewrite range_cons in H by lia. simpl in H. minv.
    apply (IH (a + 1) a0 s0); [lia | lia | | | done].
    + intros i x t x' t' Hi. apply Hstep; lia.
    + eapply Hstep; [|done|done]; lia.
Qed.

(** The invariant rule of [for x in l]: the invariant sees the elements
    already processed. *)
Lemma fold_m_inv {L A B} (I : list A -> B -> CSt L -> Prop) (f : B -> A -> CM L B) c l b s b' s' :
  (forall k x y t y' t', (exists r, l = k ++ x :: r) -> I k y t -> f y x c t = Ok (y', t') ->
     I (k ++ [x]) y' t') ->
  I [] b s -> fold_m f b l c s = Ok (b', s') -> I l b' s'.
Proof.
  intros Hstep HI H.
  enough (forall r k y t, l = k ++ r -> I k y t -> fold_m f y r c t = Ok (b', s') -> I l b' s')
    as E by (eapply (E l []); eauto).
  clear HI H. induction r as [|x r IH]; intros k y t -> HI H; simpl in H; minv.
  - by rewrite app_nil_r.
  - apply (IH (k ++ [x]) a s0); [by rewrite <- app_assoc | | done].
    eapply Hstep; eauto.
Qed.

(** A loop runs to completion when each iteration does. *)
Lemma fold_m_range_run {L B} (I : Z -> B -> CSt L -> Prop) (f : B -> Z -> CM L B) c a z b s :
  (forall i x t, a <= i < z -> I i x t -> exists x' t', f x i c t = Ok (x', t') /\ I (i + 1) x' t') ->
  a <= z -> I a b s ->
  exists b' s', fold_m f b (range a z) c s = Ok (b', s') /\ I z b' s'.
Proof.
  intros Hstep Haz. remember (Z.to_nat (z - a)) as n eqn:Hn.
  revert a b s Haz Hn Hstep. induction n as [|n IH]; intros a b s Haz Hn Hstep HI.
  - rewrite range_nil by lia. exists b, s. split; [done|]. by replace z with a by lia.
  - rewrite range_cons by lia. simpl.
    destruct (Hstep a b s) as (x & t & Hx & HI'); [lia|done|].
    rewrite (bind_run _ _ _ _ _ _ Hx).
    destruct (IH (a + 1) x t) as (b' & s' & ? & ?); [lia|lia| |done|eauto].
    intros i y u Hi. apply Hstep; lia.
Qed.

(** ** Footprints

    [keeps K m]: no successful run of [m] changes an instance key in [K]. *)

Definition keeps {L A} (K : key L -> bool) (m : CM L A) : Prop :=
  forall c s a s', m c s = Ok (a, s') ->
    forall k, K k = true -> sget (inst s') k = sget (inst s) k.

Create HintDb keeps.

Section Keeps.
Context {L : Layout} (K : key L -> bool).

Lemma keeps_bind {A B} (m : CM L A) (f : A -> CM L B) :
  keeps K m -> (forall a, keeps K (f a)) -> keeps K (bind m f).
Proof.
  intros Hm Hf c s b s' H k Hk. minv.
  rewrite (Hf _ _ _ _ _ H k Hk). by apply (Hm _ _ _ _ R).
Qed.

(** A computation that only reads keeps everything. *)
Lemma keeps_pure {A} (m : CM L A) :
  (forall c s a s', m c s = Ok (a, s') -> inst s' = inst s) -> keeps K m.
Proof. intros H c s a s' R k Hk. by rewrite (H _ _ _ _ R). Qed.

Lemma keeps_iset k v : K k = false -> keeps K (iset k v).
Proof.
  intros Hk c s a s' H k' Hk'. minv. rewrite sset_ne; [done|]. intros ->. congruence.
Qed.

Lemma keeps_iremove k : K k = false -> keeps K (iremove k).
Proof.
  intros Hk c s a s' H k' Hk'. minv. rewrite sdel_ne; [done|]. intros ->. congruence.
Qed.

Lemma keeps_if {A} (b : bool) (m n : CM L A) : keeps K m -> keeps K n -> keeps K (if b then m else n).
Proof. by destruct b. Qed.

Lemma keeps_when b m : keeps K m -> keeps K (when b m).
Proof. intros H; unfold when; destruct b; [done|]. apply keeps_pure; intros; by minv. Qed.

Lemma keeps_fold {A B} (f : B -> A -> CM L B) b l :
  (forall b x, keeps K (f b x)) -> keeps K (fold_m f b l).
Proof.
  intros Hf; revert b; induction l as [|x l IH]; intros b; simpl.
  - apply keeps_pure; intros; by minv.
  - apply keeps_bind; auto.
Qed.
End Keeps.

Ltac keeps_leaf :=
  apply keeps_pure; intros;
  repeat first [progress minv | mcase_step]; try done.

#[export] Hint Resolve keeps_bind keeps_if keeps_when keeps_fold : keeps.
#[export] Hint Extern 1 (keeps _ (iset _ _)) => (apply keeps_iset; reflexivity) : keeps.
#[export] Hint Extern 1 (keeps _ (iremove _)) => (apply keeps_iremove; reflexivity) : keeps.
#[export] Hint Extern 1 (keeps _ (ret _)) => keeps_leaf : keeps.
#[export] Hint Extern 1 (keeps _ (raise _)) => keeps_leaf : keeps.
#[export] Hint Extern 1 (keeps _ (panic _)) => keeps_leaf : keeps.
#[export] Hint Extern 1 (keeps _ (reject_if _ _)) => keeps_leaf : keeps.
#[export] Hint Extern 1 (keeps _ (unwrap _)) => keeps_leaf : keeps.
#[export] Hint Extern 1 (keeps _ (unwrap_or_raise _ _)) => keeps_leaf : keeps.
#[export] Hint Extern 1 (keeps _ (u32_add _ _)) => keeps_leaf : keeps.
#[export] Hint Extern 1 (keeps _ (u64_add _ _)) => keeps_leaf : keeps.
#[export] Hint Extern 1 (keeps _ (u32_mul _ _)) => keeps_leaf : keeps.
#[export] Hint Extern 1 (keeps _ (u_sub _ _)) => keeps_leaf : keeps.
#[export] Hint Extern 1 (keeps _ (require_auth _)) => keeps_leaf : keeps.
#[export] Hint Extern 1 (keeps _ (iget _)) => keeps_leaf : keeps.
#[export] Hint Extern 1 (keeps _ (iget_or _ _)) => keeps_leaf : keeps.
#[export] Hint Extern 1 (keeps _ (ihas _)) => keeps_leaf : keeps.
#[export] Hint Extern 1 (keeps _ (tget _)) => keeps_leaf : keeps.
#[export] Hint Extern 1 (keeps _ (thas _)) => keeps_leaf : keeps.
#[export] Hint Extern 1 (keeps _ (tset _ _)) => keeps_leaf : keeps.
#[export] Hint Extern 1 (keeps _ (tremove _)) => keeps_leaf : keeps.
#[export] Hint Extern 1 (keeps _ (pget _)) => keeps_leaf : keeps.
#[export] Hint Extern 1 (keeps _ (pget_or _ _)) => keeps_leaf : keeps.
#[export] Hint Extern 1 (keeps _ (phas _)) => keeps_leaf : keeps.
#[export] Hint Extern 1 (keeps _ (pset _ _)) => keeps_leaf : keeps.
#[export] Hint Extern 1 (keeps _ (pextend_ttl _ _ _)) => keeps_leaf : keeps.
#[export] Hint Extern 1 (keeps _ (host_call _)) => keeps_leaf : keeps.
#[export] Hint Extern 1 (keeps _ (publish _ _)) => keeps_leaf : keeps.
#[export] Hint Extern 1 (keeps _ ledger_timestamp) => keeps_leaf : keeps.
#[export] Hint Extern 1 (keeps _ ledger_sequence) => keeps_leaf : keeps.
#[export] Hint Extern 1 (keeps _ current_contract_address) => keeps_leaf : keeps.

(** Closes a [keeps] goal by walking over the computation; branches on data
    are split. *)
Ltac keeps_tac :=
  repeat first
    [ progress (intros)
    | solve [eauto 2 with keeps nocore]
    | apply keeps_bind | apply keeps_if | apply keeps_when | apply keeps_fold
    | match goal with |- keeps _ (match ?x with _ => _ end) => destruct x end ].

(** ** Runs in closed form, for concrete states *)

Lemma run_succeeds {L A} (m : CM L A) c s :
  succeeds m c s = true -> exists a, m c s = Ok (a, post m c s).
Proof.
  unfold succeeds, post. destruct (m c s) as [[a s']|]; [eauto|done].
Qed.

Lemma run_outcome {L A} (m : CM L A) c s a :
  outcome m c s = Ok a -> m c s = Ok (a, post m c s).
Proof.
  unfold outcome, post. destruct (m c s) as [[a' s']|]; congruence.
Qed.

Lemma outcome_run {L A} (m : CM L A) c s a s' : m c s = Ok (a, s') -> outcome m c s = Ok a.
Proof. unfold outcome; by intros ->. Qed.

Lemma outcome_Err {L A} (m : CM L A) c s f : m c s = Err f <-> outcome m c s = Err f.
Proof. unfold outcome; destruct (m c s) as [[? ?]|]; naive_solver. Qed.

(** ** Invariants

    [preserves P m]: every successful run of [m] from a store that satisfies
    [P] ends in one; [P] may mention the ledger context. *)

Definition preserves {L A} (P : Ctx -> kvstore L -> Prop) (m : CM L A) : Prop :=
  forall c s a s', m c s = Ok (a, s') -> P c (inst s) -> P c (inst s').

Create HintDb preserves.

Section Preserves.
Context {L : Layout} (P : Ctx -> kvstore L -> Prop).

Lemma preserves_bind {A B} (m : CM L A) (f : A -> CM L B) :
  preserves P m -> (forall a, preserves P (f a)) -> preserves P (bind m f).
Proof. intros Hm Hf c s b s' R HP. minv. eapply Hf; [done|]. by eapply Hm. Qed.

Lemma preserves_if {A} (b : bool) (m n : CM L A) :
  preserves P m -> preserves P n -> preserves P (if b then m else n).
Proof. by destruct b. Qed.

Lemma preserves_when b m : preserves P m -> preserves P (when b m).
Proof. intros Hm. unfold when. destruct b; [done|]. intros c s a s' R. by minv. Qed.

Lemma preserves_fold {A B} (f : B -> A -> CM L B) b l :
  (forall b x, preserves P (f b x)) -> preserves P (fold_m f b l).
Proof.
  intros Hf; revert b; induction l as [|x l IH]; intros b; simpl.
  - intros c s a s' R. by minv.
  - by apply preserves_bind.
Qed.

(** A computation that leaves the instance store alone. *)
Lemma preserves_pure {A} (m : CM L A) :
  (forall c s a s', m c s = Ok (a, s') -> inst s' = inst s) -> preserves P m.
Proof. intros Hm c s a s' R. by rewrite (Hm _ _ _ _ R). Qed.

Lemma preserves_iset k v :
  (forall c st, P c st -> P c (sset st k v)) -> preserves P (iset k v).
Proof. intros Hk c s a s' R HP. minv. by apply Hk. Qed.

Lemma preserves_iremove k :
  (forall c st, P c st -> P c (sdel st k)) -> preserves P (iremove k).
Proof. intros Hk c s a s' R HP. minv. by apply Hk. Qed.
End Preserves.

Ltac preserves_leaf :=
  apply preserves_pure; intros;
  repeat first [progress minv | mcase_step]; try done.

#[export] Hint Extern 1 (preserves _ (ret _)) => preserves_leaf : preserves.
#[export] Hint Extern 1 (preserves _ (raise _)) => preserves_leaf : preserves.
#[export] Hint Extern 1 (preserves _ (panic _)) => preserves_leaf : preserves.
#[export] Hint Extern 1 (preserves _ (reject_if _ _)) => preserves_leaf : preserves.
#[export] Hint Extern 1 (preserves _ (unwrap _)) => preserves_leaf : preserves.
#[export] Hint Extern 1 (preserves _ (unwrap_or_raise _ _)) => preserves_leaf : preserves.
#[export] Hint Extern 1 (preserves _ (u32_add _ _)) => preserves_leaf : preserves.
#[export] Hint Extern 1 (preserves _ (u64_add _ _)) => preserves_leaf : preserves.
#[export] Hint Extern 1 (preserves _ (u32_mul _ _)) => preserves_leaf : preserves.
#[export] Hint Extern 1 (preserves _ (u_sub _ _)) => preserves_leaf : preserves.
#[export] Hint Extern 1 (preserves _ (require_auth _)) => preserves_leaf : preserves.
#[export] Hint Extern 1 (preserves _ (iget _)) => preserves_leaf : preserves.
#[export] Hint Extern 1 (preserves _ (iget_or _ _)) => preserves_leaf : preserves.
#[export] Hint Extern 1 (preserves _ (ihas _)) => preserves_leaf : preserves.
#[export] Hint Extern 1 (preserves _ (tget _)) => preserves_leaf : preserves.
#[export] Hint Extern 1 (preserves _ (thas _)) => preserves_leaf : preserves.
#[export] Hint Extern 1 (preserves _ (tset _ _)) => preserves_leaf : preserves.
#[export] Hint Extern 1 (preserves _ (tremove _)) => preserves_leaf : preserves.
#[export] Hint Extern 1 (preserves _ (pget _)) => preserves_leaf : preserves.
#[export] Hint Extern 1 (preserves _ (pget_or _ _)) => preserves_leaf : preserves.
#[export] Hint Extern 1 (preserves _ (phas _)) => preserves_leaf : preserves.
#[export] Hint Extern 1 (preserves _ (pset _ _)) => preserves_leaf : preserves.
#[export] Hint Extern 1 (preserves _ (pextend_ttl _ _ _)) => preserves_leaf : preserves.
#[export] Hint Extern 1 (preserves _ (host_call _)) => preserves_leaf : preserves.
#[export] Hint Extern 1 (preserves _ (publish _ _)) => preserves_leaf : preserves.
#[export] Hint Extern 1 (preserves _ ledger_timestamp) => preserves_leaf : preserves.
#[export] Hint Extern 1 (preserves _ ledger_sequence) => preserves_leaf : preserves.
#[export] Hint Extern 1 (preserves _ current_contract_address) => preserves_leaf : preserves.

(** Walks over a computation; what is left are the writes and the calls no
    hint covers. *)
Ltac preserves_tac :=
  repeat first
    [ progress (intros)
    | solve [eauto 2 with preserves nocore]
    | apply preserves_bind | apply preserves_if | apply preserves_when | apply preserves_fold
    | match goal with |- preserves _ (match ?x with _ => _ end) => destruct x end ].

(** ** Transition systems *)

(** A property of the initial state that every step keeps holds of every state
    reached from it. *)
Lemma rtc_invariant {A} (R : relation A) (P : A -> Prop) x :
  P x -> (forall y z, rtc R x y -> P y -> R y z -> P z) -> forall y, rtc R x y -> P y.
Proof. intros H0 HS y H. apply (rtc_ind_r (R := R) P x H0); [|done]. intros u v Hu Hv Pu. by apply (HS u v). Qed.
