(* ===== verification/Types.v ===== *)
(** * Data of the AuditLedger contract

    The [#[contracttype]] and [#[contracterror]] types of [src/lib.rs] that the
    contract's entry points use, the records of [src/data_retention.rs] that
    live in the same storage, and the storage keys with the type of value each
    key holds.  Every declaration names the lines of the source it renders. *)

From S2P Require Import Prelude Contract.

(** ** Errors *)

Module ContractError.
(** [ContractError], src/lib.rs:450-767 *)
Inductive ContractError : Set :=
  | CallerNotOwner
  | GlobalMaxLogsReached
  | EventTypeMaxLogsReached
  | EventDoesNotExist
  | EventTypeIndexOutOfBounds
  | NewOwnerIsZero
  | CapNotSet
  | MetadataTooLarge
  | MetadataSchemaViolation
  | ContractNotInitialized
  | TotalEventsOverflow
  | TimestampOutOfRange
  | InvalidSignature
  | ContractPaused
  | RateLimitExceeded
  | SameOwner
  | MaxLogsBelowCurrentCount
  | CapAlreadyRemoved
  | CapNeverSet
  | NonceTooLow
  | NonceExhausted
  | NonceWindowExceeded
  | NonceResetNotExhausted
  | NoEventsForType
  | InvalidPaginationParams
  | InvalidWasmHash
  | SubmitterBlocked
  | CategoryTooLong
  | ReentrancyDetected
  | AlreadyInitialized
  | SnapshotNotFound
  | SnapshotVerificationFailed
  | InvalidVersion
  | MaterialPassportAlreadyExists
  | MaterialPassportNotFound
  | InvalidLoopEventType
  | InvalidFlowQuantity
  | LcaProfileAlreadyExists
  | LcaProfileNotFound
  | InvalidLcaPhase
  | InvalidImpactCategory
  | LcaAlreadyFinalized
  | LcaNotFinalized
  | LcaNormRefNotFound
  | LcaWeightingSchemeNotFound
  | LcaDbEntryNotFound
  | BioImpactNotFound
  | BioOffsetNotFound
  | InvalidLandUseType
  | InvalidEcoServiceCat
  | InvalidLandArea
  | InvalidOffsetQuantity
  | OffsetAlreadyRetired
  | OffsetRetirementExceedsBalance
  | SpeciesObservationNotFound
  | WaterFootprintNotFound
  | WaterRiskNotFound
  | WaterStewardshipNotFound
  | WaterDisclosureNotFound
  | InvalidWaterSector
  | InvalidWaterVolume
  | InvalidScarcityFactor
  | InvalidDisclosureYear
  | EventOnLegalHold
  | LegalHoldNotFound
  | ComplianceExceptionActive
  | EventAlreadyErased
  | ErasureRequestNotFound
  | ErasureRequestAlreadyDecided
  | InvalidRetentionPeriod
  | EmptyComplianceReason
  | OperationalEventNotErasable
  | UnauthorizedOpsRecorder
  | RoleNotGranted
  | InvalidDedupPolicy.

(** [ContractError], src/lib.rs:650-767 *)
Definition code (e : ContractError) : Z :=
  match e with
  | CallerNotOwner => 1
  | GlobalMaxLogsReached => 2
  | EventTypeMaxLogsReached => 3
  | EventDoesNotExist => 4
  | EventTypeIndexOutOfBounds => 5
  | NewOwnerIsZero => 6
  | CapNotSet => 7
  | MetadataTooLarge => 8
  | MetadataSchemaViolation => 32
  | ContractNotInitialized => 9
  | TotalEventsOverflow => 10
  | TimestampOutOfRange => 11
  | InvalidSignature => 12
  | ContractPaused => 13
  | RateLimitExceeded => 14
  | SameOwner => 15
  | MaxLogsBelowCurrentCount => 16
  | CapAlreadyRemoved => 17
  | CapNeverSet => 18
  | NonceTooLow => 19
  | NonceExhausted => 27
  | NonceWindowExceeded => 28
  | NonceResetNotExhausted => 29
  | NoEventsForType => 20
  | InvalidPaginationParams => 21
  | InvalidWasmHash => 22
  | SubmitterBlocked => 23
  | CategoryTooLong => 24
  | ReentrancyDetected => 25
  | AlreadyInitialized => 26
  | SnapshotNotFound => 30
  | SnapshotVerificationFailed => 31
  | InvalidVersion => 33
  | MaterialPassportAlreadyExists => 34
  | MaterialPassportNotFound => 35
  | InvalidLoopEventType => 36
  | InvalidFlowQuantity => 37
  | LcaProfileAlreadyExists => 38
  | LcaProfileNotFound => 39
  | InvalidLcaPhase => 40
  | InvalidImpactCategory => 41
  | LcaAlreadyFinalized => 42
  | LcaNotFinalized => 43
  | LcaNormRefNotFound => 44
  | LcaWeightingSchemeNotFound => 45
  | LcaDbEntryNotFound => 46
  | BioImpactNotFound => 47
  | BioOffsetNotFound => 48
  | InvalidLandUseType => 49
  | InvalidEcoServiceCat => 50
  | InvalidLandArea => 51
  | InvalidOffsetQuantity => 52
  | OffsetAlreadyRetired => 53
  | OffsetRetirementExceedsBalance => 54
  | SpeciesObservationNotFound => 55
  | WaterFootprintNotFound => 56
  | WaterRiskNotFound => 57
  | WaterStewardshipNotFound => 58
  | WaterDisclosureNotFound => 59
  | InvalidWaterSector => 60
  | InvalidWaterVolume => 61
  | InvalidScarcityFactor => 62
  | InvalidDisclosureYear => 63
  | EventOnLegalHold => 64
  | LegalHoldNotFound => 65
  | ComplianceExceptionActive => 66
  | EventAlreadyErased => 67
  | ErasureRequestNotFound => 68
  | ErasureRequestAlreadyDecided => 69
  | InvalidRetentionPeriod => 70
  | EmptyComplianceReason => 71
  | OperationalEventNotErasable => 72
  | UnauthorizedOpsRecorder => 73
  | RoleNotGranted => 74
  | InvalidDedupPolicy => 75
  end.

#[global] Instance ContractError_eq_dec : EqDecision ContractError.
Proof. solve_decision. Defined.
End ContractError.
Abbreviation ContractError := ContractError.ContractError.

(** ** Schemas *)

Module SchemaFormat.
(** [SchemaFormat], src/lib.rs:84-91 *)
Inductive SchemaFormat : Set :=
  | JsonSchemaDraft7
  | JsonSchema201909
  | Protobuf.
#[global] Instance SchemaFormat_eq_dec : EqDecision SchemaFormat.
Proof. solve_decision. Defined.
End SchemaFormat.
Abbreviation SchemaFormat := SchemaFormat.SchemaFormat.

Module SchemaCompatibility.
(** [SchemaCompatibility], src/lib.rs:93-102 *)
Inductive SchemaCompatibility : Set :=
  | Full
  | Backward
  | Forward
  | Breaking
  | Unknown.
#[global] Instance SchemaCompatibility_eq_dec : EqDecision SchemaCompatibility.
Proof. solve_decision. Defined.
End SchemaCompatibility.
Abbreviation SchemaCompatibility := SchemaCompatibility.SchemaCompatibility.

(** [Schema], src/lib.rs:104-112 *)
Record Schema := mkSchema {
  sc_format : SchemaFormat;
  sc_version : Z;
  sc_definition : Bytes;
  sc_compatibility : SchemaCompatibility }.

(** [MigrationFunction], src/lib.rs:114-122 *)
Record MigrationFunction := mkMigrationFunction {
  mf_from_version : Z;
  mf_to_version : Z;
  mf_name : Symbol;
  mf_body : Bytes }.

(** ** Events *)

(** [Event], src/lib.rs:124-161 *)
Record Event := mkEvent {
  ev_index : Z;
  ev_timestamp : Z;
  ev_event_type : Symbol;
  ev_category : Symbol;
  ev_submitter : Address;
  ev_metadata : Bytes;
  ev_sub_event_type : option Symbol;
  ev_version : Z;
  ev_event_hash : Hash;
  ev_prev_hash : Hash;
  ev_parent_event_id : option Hash }.

#[global] Instance Event_eq_dec : EqDecision Event.
Proof. solve_decision. Defined.

(** [EventHeader], src/lib.rs:163-171 *)
Record EventHeader := mkEventHeader {
  eh_index : Z;
  eh_timestamp : Z;
  eh_event_type : Symbol;
  eh_submitter : Address }.

(** [EventVersion], src/lib.rs:769-776 *)
Record EventVersion := mkEventVersion {
  vn_version : Z;
  vn_data : Event;
  vn_updated_at : Z;
  vn_updated_by : Address }.

(** ** Global state records *)

(** [Config], src/lib.rs:173-179 *)
Record Config := mkConfig {
  cfg_global_max_logs : Z;
  cfg_total_events : Z }.

(** [RuntimeState], src/lib.rs:181-200 *)
Record RuntimeState := mkRuntimeState {
  rs_global_max_logs : Z;
  rs_total_events : Z;
  rs_paused : bool;
  rs_allowlist_mode : bool;
  rs_low_cost_mode : bool;
  rs_emission_mode : Z;
  rs_global_metadata_max_size : Z }.

(** [WebhookEntry], src/lib.rs:778-787 *)
Record WebhookEntry := mkWebhookEntry {
  wh_url : Bytes;
  wh_secret : Bytes }.

(** [NonceState], src/lib.rs:789-800 *)
Record NonceState := mkNonceState {
  ns_last_nonce : Z;
  ns_window_size : Z;
  ns_max_nonce : Z }.

(** [ContractStatistics], src/lib.rs:802-811 *)
Record ContractStatistics := mkContractStatistics {
  st_total_events : Z;
  st_events_by_type : list (Symbol * Z);
  st_events_last_hour : Z;
  st_events_last_day : Z;
  st_events_last_week : Z;
  st_top_submitters : list (Address * Z) }.

Module ProposalAction.
(** [ProposalAction], src/lib.rs:857-869 *)
Inductive ProposalAction : Set :=
  | TransferOwnership (a : Address)
  | AddOwner (a : Address)
  | RemoveOwner (a : Address)
  | SetRequiredSignatures (n : Z)
  | SetGlobalMaxLogs (n : Z)
  | SetMetadataSchema (event_type : Symbol) (schema : Bytes)
  | RollbackEvent (index target_version : Z)
  | Pause
  | Unpause.
End ProposalAction.
Abbreviation ProposalAction := ProposalAction.ProposalAction.

(** [Proposal], src/lib.rs:871-880 *)
Record Proposal := mkProposal {
  pr_id : Z;
  pr_proposer : Address;
  pr_action : ProposalAction;
  pr_approvals : list Address;
  pr_expires_at : Z;
  pr_executed : bool }.

(** [Snapshot], src/lib.rs:882-890 *)
Record Snapshot := mkSnapshot {
  sn_id : Z;
  sn_timestamp : Z;
  sn_event_count : Z;
  sn_event_hash : Hash;
  sn_description : Bytes }.

(** [TtlCleanupStats], src/lib.rs:892-904 *)
Record TtlCleanupStats := mkTtlCleanupStats {
  ts_runs : Z;
  ts_ttl_extensions : Z;
  ts_cleaned : Z;
  ts_last_run_ledger : Z }.

(** ** Roles, deduplication policies, archives, versions *)

Module Role.
(** [Role], src/lib.rs:908-923 *)
Inductive Role : Set :=
  | Admin
  | Auditor
  | Submitter
  | Viewer.

(** [Role::rank], src/lib.rs:925-935 *)
Definition rank (r : Role) : Z :=
  match r with
  | Admin => 4
  | Auditor => 3
  | Submitter => 2
  | Viewer => 1
  end.

#[global] Instance Role_eq_dec : EqDecision Role.
Proof. solve_decision. Defined.
End Role.
Abbreviation Role := Role.Role.

Module DedupPolicy.
(** [DedupPolicy], src/lib.rs:942-956 *)
Inductive DedupPolicy : Set :=
  | None
  | ContentHash
  | ContentHashWithTimestamp
  | Custom.

(** The [as u32] cast of the enum: [DedupPolicy], src/lib.rs:947-956 *)
Definition as_u32 (p : DedupPolicy) : Z :=
  match p with
  | None => 0
  | ContentHash => 1
  | ContentHashWithTimestamp => 2
  | Custom => 3
  end.

#[global] Instance DedupPolicy_eq_dec : EqDecision DedupPolicy.
Proof. solve_decision. Defined.
End DedupPolicy.
Abbreviation DedupPolicy := DedupPolicy.DedupPolicy.

(** [ArchiveConfig], src/lib.rs:960-975 *)
Record ArchiveConfig := mkArchiveConfig {
  ac_offchain_storage : bool;
  ac_base_url : Bytes;
  ac_compression : Z }.

(** [ArchiveConfig::default_config], src/lib.rs:977-986 *)
Definition default_archive_config : ArchiveConfig :=
  {| ac_offchain_storage := false; ac_base_url := []; ac_compression := 0 |}.

(** [ArchivedEventRef], src/lib.rs:988-1002 *)
Record ArchivedEventRef := mkArchivedEventRef {
  ar_id : Hash;
  ar_index : Z;
  ar_checksum : Hash;
  ar_url : Bytes;
  ar_archived_at : Z }.

(** [ArchiveStats], src/lib.rs:1004-1014 *)
Record ArchiveStats := mkArchiveStats {
  as_total_archived : Z;
  as_total_compressed : Z;
  as_total_offchain : Z }.

(** [FieldChange], src/lib.rs:1018-1031 *)
Record FieldChange := mkFieldChange {
  fc_field : Symbol;
  fc_from : Bytes;
  fc_to : Bytes }.

(** [VersionComparison], src/lib.rs:1033-1051 *)
Record VersionComparison := mkVersionComparison {
  vc_index : Z;
  vc_from_version : Z;
  vc_to_version : Z;
  vc_same : bool;
  vc_changes : list FieldChange;
  vc_from_hash : Hash;
  vc_to_hash : Hash }.

(** ** Retention records *)

(** [RetentionPolicyData], src/data_retention.rs:53-60 *)
Record RetentionPolicyData := mkRetentionPolicyData {
  rp_retention_days : Z;
  rp_legal_basis : Symbol;
  rp_set_by : Address;
  rp_set_at : Z }.

(** [LegalHoldRecord], src/data_retention.rs:62-72 *)
Record LegalHoldRecord := mkLegalHoldRecord {
  lh_active : bool;
  lh_reason : Bytes;
  lh_placed_by : Address;
  lh_placed_at : Z;
  lh_released_by : option Address;
  lh_released_at : Z }.

(** [ComplianceExceptionRecord], src/data_retention.rs:74-82 *)
Record ComplianceExceptionRecord := mkComplianceExceptionRecord {
  ce_reason : Bytes;
  ce_granted_by : Address;
  ce_granted_at : Z;
  ce_expires_at : Z }.

Module ErasureStatus.
(** [ErasureStatus], src/data_retention.rs:84-90 *)
Inductive ErasureStatus : Set :=
  | Pending
  | Fulfilled
  | Denied.
#[global] Instance ErasureStatus_eq_dec : EqDecision ErasureStatus.
Proof. solve_decision. Defined.
End ErasureStatus.
Abbreviation ErasureStatus := ErasureStatus.ErasureStatus.

(** [ErasureRequestData], src/data_retention.rs:92-104 *)
Record ErasureRequestData := mkErasureRequestData {
  er_requester : Address;
  er_event_index : Z;
  er_reason : Symbol;
  er_requested_at : Z;
  er_status : ErasureStatus;
  er_decided_by : option Address;
  er_decided_at : Z;
  er_justification : Bytes }.

(** [ErasureRecordData], src/data_retention.rs:106-116 *)
Record ErasureRecordData := mkErasureRecordData {
  rd_erased : bool;
  rd_erased_at : Z;
  rd_erased_by : Address;
  rd_original_metadata_hash : Hash;
  rd_reason : Symbol }.

(** [RetentionComplianceReport], src/data_retention.rs:118-128 *)
Record RetentionComplianceReport := mkRetentionComplianceReport {
  rr_checked : Z;
  rr_compliant : Z;
  rr_overdue_blocked_hold : Z;
  rr_overdue_blocked_exception : Z;
  rr_overdue_erasable : Z;
  rr_already_erased : Z }.

(** ** Storage keys *)

Module DataKey.
(** [DataKey]; the keys of the circular-economy, LCA, biodiversity and water
    sections are declared by the source and used by no function of the crate,
    src/lib.rs:202-445 *)
Inductive DataKey : Set :=
  | Owner
  | Config
  | GlobalMaxLogs
  | Paused
  | SubmitterBlocklist (a : Address)
  | AllowlistMode
  | SubmitterAllowlist (a : Address)
  | TotalEvents
  | EventCapSet (s : Symbol)
  | EventMaxLogs (s : Symbol)
  | EventCapRemoved (s : Symbol)
  | EventCapConfig (s : Symbol)
  | EventTypeIndices (s : Symbol)
  | SubmitterEventIndices (a : Address)
  | SubmitterEventCount (a : Address)
  | EventData (h : Hash)
  | EventOrder (n : Z)
  | EventMetadataMaxSize (s : Symbol)
  | GlobalMetadataMaxSize
  | MetadataSchema (s : Symbol)
  | EventSchema (s : Symbol) (n : Z)
  | SchemaVersions (s : Symbol)
  | EventSchemaMigration (s : Symbol) (n : Z) (n2 : Z)
  | RuntimeState
  | EventSignature (h : Hash)
  | EventTypeCount (s : Symbol)
  | EventHeaderKey (h : Hash)
  | EventMeta (h : Hash)
  | EventMetadata (h : Hash)
  | EventVersions (n : Z)
  | EventEmissionConfig
  | EventEmissionVersion
  | LowCostMode
  | SubmitterRateLimit (a : Address)
  | SubmitterRateState (a : Address)
  | SubmitterNonce (a : Address)
  | SubmitterNonceConfig (a : Address)
  | DefaultNonceWindowSize
  | DefaultNonceMaxValue
  | ArchivedTotalEvents
  | ArchivedEventData (h : Hash)
  | ArchivedEventHeaderKey (h : Hash)
  | ArchivedEventMetadata (h : Hash)
  | ArchivedEventArchivedFlag (h : Hash)
  | ArchivedEventOrder (n : Z)
  | EventArchivedFlag (h : Hash)
  | Owners
  | RequiredSignatures
  | ProposalCount
  | Proposal (n : Z)
  | EventTtl
  | ContractVersion
  | EventContentHash (h : Hash)
  | CategoryMaxLen
  | LogEventReentrancyGuard
  | PausedSince
  | WebhookRegistrations (s : Symbol)
  | SnapshotCount
  | SnapshotData (n : Z)
  | TtlCleanupStats
  | ArchiveScanCursor
  | MaterialPassport (h : Hash)
  | AllMaterialIds
  | MaterialLoopEvents (h : Hash)
  | CircularitySnapshot (n : Z)
  | CircularitySnapshotCount
  | CircularityTotals
  | LcaProfile (h : Hash)
  | LcaPhaseImpact (h : Hash) (n : Z)
  | LcaResult (h : Hash)
  | LcaNormRef (s : Symbol)
  | LcaWeightingScheme (s : Symbol)
  | LcaUncertainty (h : Hash)
  | LcaDbEntry (h : Hash)
  | LcaProfileCount
  | BioImpact (h : Hash)
  | BioOffset (h : Hash)
  | BioTotals
  | BioSnapshot (n : Z)
  | BioSnapshotCount
  | EcoServiceRecord (h : Hash)
  | SpeciesObservation (h : Hash)
  | WaterFootprint (h : Hash)
  | WaterRiskAssessment (h : Hash)
  | WaterStewardship (h : Hash)
  | WaterDisclosure (h : Hash)
  | WaterTotals
  | WaterSnapshot (n : Z)
  | WaterSnapshotCount
  | RetentionPolicy (s : Symbol)
  | DefaultRetentionDays
  | LegalHold (n : Z)
  | ComplianceException (n : Z)
  | ErasureRequest (n : Z)
  | ErasureRequestCount
  | ErasureRecord (n : Z)
  | OpsAuditRecorders
  | RbacEnabled
  | Role (a : Address)
  | DedupPolicyConfig
  | DedupPolicyConfigForType (s : Symbol)
  | EventContentHashWithTs (h : Hash)
  | EventCustomKey (h : Hash)
  | PendingCustomDedupKey
  | ArchiveConfig
  | ArchivedCompressedCount
  | ArchivedOffchainCount
  | ArchivedEventRefKey (h : Hash)
  | EventVersionTag (n : Z) (n2 : Z).

#[global] Instance DataKey_eq_dec : EqDecision DataKey.
Proof. solve_decision. Defined.
End DataKey.
Abbreviation DataKey := DataKey.DataKey.
