(* ===== verification/Storage.v ===== *)
(** * The storage layout of the AuditLedger contract

    The type each storage key is read at, what the contract's events carry, and
    the layout they make; [M], [St] and [store] are the contract monad, the
    states and the stores of [Contract] at this layout. *)

From S2P Require Import Prelude Contract Types.

(** ** The type of value each key holds

    The source reads each key at one Rust type.  [Ty] is the code of these
    types, [El] their meaning, [key_ty] the type of a key. *)

Inductive Ty : Set :=
  | TU32 | TU64 | TBool | TSymbol | TBytes | THash | TAddress | TAddresses
  | TU32s | TCap | TConfig | TRuntimeState | TEvent | THeader | TVersions
  | TSchema | TMigration | TRate | TContentTs | TNonce | TProposal | TWebhooks
  | TSnapshot | TCleanup | TRole | TDedup | TArchiveConfig | TArchivedRef
  | TRetention | THold | TException | TErasureReq | TErasureRec | TUnused.

#[global] Instance Ty_eq_dec : EqDecision Ty.
Proof. solve_decision. Defined.

Definition El (t : Ty) : Type :=
  match t with
  | TU32 | TU64 => Z
  | TBool => bool
  | TSymbol => Symbol
  | TBytes => Bytes
  | THash => Hash
  | TAddress => Address
  | TAddresses => list Address
  | TU32s => list Z
  | TCap => option Z
  | TConfig => Config
  | TRuntimeState => RuntimeState
  | TEvent => Event
  | THeader => EventHeader
  | TVersions => list EventVersion
  | TSchema => Schema
  | TMigration => MigrationFunction
  | TRate => Z * Z
  | TContentTs => Z * Z
  | TNonce => NonceState
  | TProposal => Proposal
  | TWebhooks => list WebhookEntry
  | TSnapshot => Snapshot
  | TCleanup => TtlCleanupStats
  | TRole => Role
  | TDedup => DedupPolicy
  | TArchiveConfig => ArchiveConfig
  | TArchivedRef => ArchivedEventRef
  | TRetention => RetentionPolicyData
  | THold => LegalHoldRecord
  | TException => ComplianceExceptionRecord
  | TErasureReq => ErasureRequestData
  | TErasureRec => ErasureRecordData
  | TUnused => unit
  end.

Definition key_ty (k : DataKey) : Ty :=
  match k with
  | DataKey.Owner => TAddress
  | DataKey.Config => TConfig
  | DataKey.GlobalMaxLogs => TU32
  | DataKey.Paused => TBool
  | DataKey.SubmitterBlocklist _ => TBool
  | DataKey.AllowlistMode => TBool
  | DataKey.SubmitterAllowlist _ => TBool
  | DataKey.TotalEvents => TU32
  | DataKey.EventCapSet _ => TBool
  | DataKey.EventMaxLogs _ => TU32
  | DataKey.EventCapRemoved _ => TBool
  | DataKey.EventCapConfig _ => TCap
  | DataKey.EventTypeIndices _ => TBytes
  | DataKey.SubmitterEventIndices _ => TBytes
  | DataKey.SubmitterEventCount _ => TU32
  | DataKey.EventData _ => TEvent
  | DataKey.EventOrder _ => THash
  | DataKey.EventMetadataMaxSize _ => TU32
  | DataKey.GlobalMetadataMaxSize => TU32
  | DataKey.MetadataSchema _ => TBytes
  | DataKey.EventSchema _ _ => TSchema
  | DataKey.SchemaVersions _ => TU32s
  | DataKey.EventSchemaMigration _ _ _ => TMigration
  | DataKey.RuntimeState => TRuntimeState
  | DataKey.EventSignature _ => TBytes
  | DataKey.EventTypeCount _ => TU32
  | DataKey.EventHeaderKey _ => THeader
  | DataKey.EventMeta _ => TEvent
  | DataKey.EventMetadata _ => TBytes
  | DataKey.EventVersions _ => TVersions
  | DataKey.EventEmissionConfig => TU32
  | DataKey.EventEmissionVersion => TU32
  | DataKey.LowCostMode => TBool
  | DataKey.SubmitterRateLimit _ => TU32
  | DataKey.SubmitterRateState _ => TRate
  | DataKey.SubmitterNonce _ => TNonce
  | DataKey.SubmitterNonceConfig _ => TNonce
  | DataKey.DefaultNonceWindowSize => TU32
  | DataKey.DefaultNonceMaxValue => TU32
  | DataKey.ArchivedTotalEvents => TU32
  | DataKey.ArchivedEventData _ => TEvent
  | DataKey.ArchivedEventHeaderKey _ => THeader
  | DataKey.ArchivedEventMetadata _ => TBytes
  | DataKey.ArchivedEventOrder _ => THash
  | DataKey.EventArchivedFlag _ => TBool
  | DataKey.Owners => TAddresses
  | DataKey.RequiredSignatures => TU32
  | DataKey.ProposalCount => TU32
  | DataKey.Proposal _ => TProposal
  | DataKey.EventTtl => TU32
  | DataKey.ContractVersion => TU32
  | DataKey.EventContentHash _ => TU32
  | DataKey.CategoryMaxLen => TU32
  | DataKey.LogEventReentrancyGuard => TBool
  | DataKey.PausedSince => TU64
  | DataKey.WebhookRegistrations _ => TWebhooks
  | DataKey.SnapshotCount => TU32
  | DataKey.SnapshotData _ => TSnapshot
  | DataKey.TtlCleanupStats => TCleanup
  | DataKey.ArchiveScanCursor => TU32
  | DataKey.RetentionPolicy _ => TRetention
  | DataKey.DefaultRetentionDays => TU32
  | DataKey.LegalHold _ => THold
  | DataKey.ComplianceException _ => TException
  | DataKey.ErasureRequest _ => TErasureReq
  | DataKey.ErasureRequestCount => TU32
  | DataKey.ErasureRecord _ => TErasureRec
  | DataKey.OpsAuditRecorders => TAddresses
  | DataKey.RbacEnabled => TBool
  | DataKey.Role _ => TRole
  | DataKey.DedupPolicyConfig => TDedup
  | DataKey.DedupPolicyConfigForType _ => TDedup
  | DataKey.EventContentHashWithTs _ => TContentTs
  | DataKey.EventCustomKey _ => TU32
  | DataKey.PendingCustomDedupKey => THash
  | DataKey.ArchiveConfig => TArchiveConfig
  | DataKey.ArchivedCompressedCount => TU32
  | DataKey.ArchivedOffchainCount => TU32
  | DataKey.ArchivedEventRefKey _ => TArchivedRef
  | DataKey.EventVersionTag _ _ => TSymbol
  | _ => TUnused
  end.

(** The payload of a published event. *)
Inductive Datum : Type :=
  | DAddr (a : Address)
  | DSym (s : Symbol)
  | DU32 (n : Z)
  | DU64 (n : Z)
  | DBool (b : bool)
  | DBytes (b : Bytes)
  | DHash (h : Hash)
  | DOptHash (h : option Hash)
  | DOptU32 (n : option Z)
  | DOptRole (r : option Role).

(** ** The layout *)

Canonical ledger_layout : Layout := {|
  key := DataKey; ty := Ty; el := El; layout_key_ty := key_ty;
  key_dec := _; ty_dec := _; error := ContractError; datum := Datum |}.

Abbreviation value k := (@kvalue ledger_layout k).
Abbreviation store := (kvstore ledger_layout).
Abbreviation St := (CSt ledger_layout).
Abbreviation M := (CM ledger_layout).
Abbreviation res := (result ContractError).

(** ** The host *)

(** [nonce_max_default] stands for [Self::default_nonce_max_value], a function
    that the contract calls and no file of the repository declares, as a
    function of the instance storage. *)
Class Host := {
  host_crypto :: Crypto;
  nonce_max_default : store -> Z }.
