(* ===== verification/Codec.v ===== *)
(** * Byte encodings of the contract

    The pure byte routines of [src/lib.rs]: little-endian integers, the packed
    index arrays, substring search, the minimum-length metadata schema, and
    the tagged run-length encoding of archived metadata. *)

From stdpp Require Import pretty.
From S2P Require Import Prelude Contract.

(** [format!] of a number, and [[0u8; 32]]. *)
Definition decimal (n : Z) : Bytes := str_bytes (pretty n).
Definition zero32 : Hash := replicate 32 0.

(** ** Little-endian integers *)

(** [u64_to_bytes], src/lib.rs:5435-5449 *)
Definition u64_to_bytes (v : Z) : Bytes :=
  [ Z.land v 255;
    Z.land (Z.shiftr v 8) 255;
    Z.land (Z.shiftr v 16) 255;
    Z.land (Z.shiftr v 24) 255;
    Z.land (Z.shiftr v 32) 255;
    Z.land (Z.shiftr v 40) 255;
    Z.land (Z.shiftr v 48) 255;
    Z.land (Z.shiftr v 56) 255 ].

(** [u32_to_bytes], src/lib.rs:5451-5461 *)
Definition u32_to_bytes (v : Z) : Bytes :=
  [ Z.land v 255;
    Z.land (Z.shiftr v 8) 255;
    Z.land (Z.shiftr v 16) 255;
    Z.land (Z.shiftr v 24) 255 ].

(** The four bytes at [off] read as a little-endian [u32], as in
    [get_type_index]; [None] where one of the [get(..).unwrap()] would panic:
    [b0 | (b1 << 8) | (b2 << 16) | (b3 << 24)], src/lib.rs:4897-4901 *)
Definition read_u32_le (packed : Bytes) (off : Z) : option Z :=
  match vget packed off, vget packed (off + 1), vget packed (off + 2), vget packed (off + 3) with
  | Some b0, Some b1, Some b2, Some b3 =>
      Some (Z.lor (Z.lor (Z.lor b0 (Z.shiftl b1 8)) (Z.shiftl b2 16)) (Z.shiftl b3 24))
  | _, _, _, _ => None
  end.

(** [event_type_count]'s [packed.len() / 4], src/lib.rs:5268-5275 *)
Definition packed_count (packed : Bytes) : Z := len packed / 4.

(** The packed array that [push_type_index] builds from a list of indices. *)
Definition pack (l : list Z) : Bytes := l ≫= u32_to_bytes.

(** ** Schemas and search *)

(** [validate_metadata_schema], src/lib.rs:4751-4772 *)
Definition validate_metadata_schema (metadata schema : Bytes) : bool :=
  if Z.ltb (len schema) 4 then true
  else match read_u32_le schema 0 with
       | Some min_len => Z.leb min_len (len metadata)
       | None => false
       end.

(** The inner loop of [bytes_contains], src/lib.rs:5474-5483 *)
Definition matches_at (haystack needle : Bytes) (start : Z) : bool :=
  forallb (fun i => bool_decide (vget haystack (start + i) = vget needle i))
    (range 0 (len needle)).

(** [bytes_contains], src/lib.rs:5463-5488 *)
Definition bytes_contains (haystack needle : Bytes) : bool :=
  if Z.eqb (len needle) 0 then true
  else if Z.ltb (len haystack) (len needle) then false
  else existsb (matches_at haystack needle) (range 0 (len haystack - len needle + 1)).

(** ** Archived metadata *)

(** [is_compressed_tag], src/lib.rs:5837-5840 *)
Definition is_compressed_tag (payload : Bytes) : bool :=
  Z.leb 1 (len payload) && bool_decide (vget payload 0 = Some 1).

(** [tag_raw_bytes], src/lib.rs:5842-5850 *)
Definition tag_raw_bytes (payload : Bytes) : Bytes := 0 :: payload.

(** How many further bytes equal [b]: the inner [while] of [compress_bytes],
    src/lib.rs:5866-5868 *)
Fixpoint leading (b : Z) (l : Bytes) : nat :=
  match l with
  | x :: l => if Z.eqb x b then S (leading b l) else 0%nat
  | [] => 0%nat
  end.

(** The encoding of [run] copies of [b], src/lib.rs:5869-5881 *)
Definition encode_run (b : Z) (run : nat) : Bytes :=
  if Nat.leb 3 run then
    [1; b; Z.land (Z.of_nat run) 255; Z.land (Z.shiftr (Z.of_nat run) 8) 255]
  else
    concat (replicate run (if Z.eqb b 0 || Z.eqb b 1 then [0; b] else [b])).

(** The outer [while] of [compress_bytes]; each round consumes at least one
    byte, so [length payload] rounds are enough, src/lib.rs:5863-5883 *)
Fixpoint compress_loop (fuel : nat) (l : Bytes) : Bytes :=
  match fuel, l with
  | S fuel, b :: rest =>
      let more := leading b rest in
      encode_run b (S more) ++ compress_loop fuel (drop more rest)
  | _, _ => []
  end.

(** [compress_bytes], src/lib.rs:5852-5885 *)
Definition compress_bytes (payload : Bytes) : Bytes :=
  1 :: compress_loop (length payload) payload.

(** The [while i < n] of [expand_archived_metadata], on the bytes that remain:
    [i + 3 < n] says that more than three of them follow the marker,
    src/lib.rs:5903-5934 *)
Fixpoint expand_loop (l : Bytes) : Bytes :=
  match l with
  | [] => []
  | c :: l' =>
      if Z.eqb c 0 then
        match l' with
        | x :: l'' => x :: expand_loop l''
        | [] => []
        end
      else if Z.eqb c 1 then
        match l' with
        | b :: lo :: hi :: ((_ :: _) as l'') =>
            replicate (Z.to_nat (Z.lor lo (Z.shiftl hi 8))) b ++ expand_loop l''
        | _ => expand_loop l'
        end
      else c :: expand_loop l'
  end.

(** [expand_archived_metadata], src/lib.rs:5887-5936 *)
Definition expand_archived_metadata (payload : Bytes) : Bytes :=
  match payload with
  | [] => []
  | tag :: rest =>
      if Z.eqb tag 0 then rest
      else if negb (Z.eqb tag 1) then payload
      else expand_loop rest
  end.

(** The digits of [HEX], src/lib.rs:5946 *)
Definition hex_digit (n : Z) : Z := if Z.ltb n 10 then 48 + n else 87 + n.

(** The reference decomposition of a byte string into its maximal runs. *)
Fixpoint runs_loop (fuel : nat) (l : Bytes) : list (Z * nat) :=
  match fuel, l with
  | S fuel, b :: rest =>
      let more := leading b rest in (b, S more) :: runs_loop fuel (drop more rest)
  | _, _ => []
  end.
Definition runs (l : Bytes) : list (Z * nat) := runs_loop (length l) l.

(** ** Little-endian lemmas *)

Lemma land_255 v : Z.land v 255 = v mod 256.
Proof. change 255 with (Z.ones 8). by rewrite Z.land_ones. Qed.

Lemma lor_shiftl_add a b n : 0 <= n -> 0 <= a < 2 ^ n -> Z.lor a (Z.shiftl b n) = a + b * 2 ^ n.
Proof.
  intros Hn Ha. rewrite <- Z.shiftl_mul_pow2 by done. rewrite <- Z.add_lor_land.
  enough (Z.land a (Z.shiftl b n) = 0) as -> by lia.
  apply Z.bits_inj'; intros i Hi. rewrite Z.land_spec, Z.bits_0.
  destruct (Z.lt_ge_cases i n).
  - rewrite Z.shiftl_spec_low by lia. by rewrite andb_false_r.
  - rewrite <- (Z.mod_small a (2 ^ n)), Z.mod_pow2_bits_high by lia. done.
Qed.

Lemma le_word b0 b1 b2 b3 :
  is_byte b0 -> is_byte b1 -> is_byte b2 ->
  Z.lor (Z.lor (Z.lor b0 (Z.shiftl b1 8)) (Z.shiftl b2 16)) (Z.shiftl b3 24)
  = b0 + b1 * 256 + b2 * 65536 + b3 * 16777216.
Proof.
  unfold is_byte; intros.
  rewrite (lor_shiftl_add b0 b1 8) by (simpl; lia). change (2 ^ 8) with 256.
  rewrite (lor_shiftl_add _ b2 16) by (change (2 ^ 16) with 65536; lia).
  change (2 ^ 16) with 65536.
  rewrite (lor_shiftl_add _ b3 24) by (change (2 ^ 24) with 16777216; lia).
  by change (2 ^ 24) with 16777216.
Qed.

Lemma u32_to_bytes_divmod v :
  u32_to_bytes v = [v mod 256; v / 256 mod 256; v / 65536 mod 256; v / 16777216 mod 256].
Proof. unfold u32_to_bytes. by rewrite !land_255, !Z.shiftr_div_pow2 by lia. Qed.

Lemma le_digits v :
  0 <= v <= u32_max ->
  v mod 256 + v / 256 mod 256 * 256 + v / 65536 mod 256 * 65536
  + v / 16777216 mod 256 * 16777216 = v.
Proof.
  unfold u32_max; intros H.
  change 65536 with (256 * 256) at 1. change 16777216 with (256 * 256 * 256) at 1.
  rewrite <- !Z.div_div by lia.
  pose proof (Z.div_mod v 256). pose proof (Z.div_mod (v / 256) 256).
  pose proof (Z.div_mod (v / 256 / 256) 256).
  rewrite (Z.mod_small (v / 256 / 256 / 256)); [lia|].
  rewrite !Z.div_div by lia. split; [apply Z.div_pos; lia|].
  apply Z.div_lt_upper_bound; lia.
Qed.

Lemma len_u32_to_bytes v : len (u32_to_bytes v) = 4.
Proof. done. Qed.

Lemma u32_to_bytes_bytes v : Forall is_byte (u32_to_bytes v).
Proof.
  rewrite u32_to_bytes_divmod. unfold is_byte.
  repeat constructor; apply Z.mod_pos_bound; lia.
Qed.

Lemma read_u32_le_at p v q :
  is_u32 v -> read_u32_le (p ++ u32_to_bytes v ++ q) (len p) = Some v.
Proof.
  intros [H0 Hv]. unfold read_u32_le, u32_max in *.
  rewrite !(vget_app_r p) by (unfold len; lia).
  replace (len p - len p) with 0 by lia.
  replace (len p + 1 - len p) with 1 by lia.
  replace (len p + 2 - len p) with 2 by lia.
  replace (len p + 3 - len p) with 3 by lia.
  rewrite u32_to_bytes_divmod. unfold vget; cbn -[Z.lor Z.shiftl Z.modulo Z.div]. f_equal.
  rewrite le_word by (apply Z.mod_pos_bound; lia). by apply le_digits.
Qed.

Lemma u32_to_bytes_inj v w : is_u32 v -> is_u32 w -> u32_to_bytes v = u32_to_bytes w -> v = w.
Proof.
  intros Hv Hw E.
  pose proof (read_u32_le_at [] v [] Hv) as H1. pose proof (read_u32_le_at [] w [] Hw) as H2.
  rewrite E in H1. congruence.
Qed.

Lemma pack_app l k : pack (l ++ k) = pack l ++ pack k.
Proof. apply bind_app. Qed.

Lemma len_pack l : len (pack l) = 4 * len l.
Proof.
  induction l as [|x l IH]; [done|].
  change (pack (x :: l)) with (u32_to_bytes x ++ pack l).
  rewrite len_app, IH, len_cons, len_u32_to_bytes. lia.
Qed.

Lemma packed_count_pack l : packed_count (pack l) = len l.
Proof. unfold packed_count. rewrite len_pack, Z.mul_comm. by apply Z.div_mul. Qed.

(** Pushing at the end of a packed array is appending to the list. *)
Lemma pack_snoc l v : pack l ++ u32_to_bytes v = pack (l ++ [v]).
Proof. rewrite pack_app. unfold pack; simpl. done. Qed.

Lemma read_pack l i v :
  Forall is_u32 l -> vget l i = Some v -> read_u32_le (pack l) (i * 4) = Some v.
Proof.
  intros Hl Hi. pose proof (vget_Some_bounds _ _ _ Hi) as Hb.
  unfold vget in Hi. destruct (Z.leb_spec 0 i); [|lia].
  rewrite <- (take_drop_middle _ _ _ Hi), pack_app.
  change (pack (v :: ?k)) with (u32_to_bytes v ++ pack k).
  replace (i * 4) with (len (pack (take (Z.to_nat i) l))).
  - apply read_u32_le_at. by eapply Forall_lookup_1.
  - rewrite len_pack. unfold len in *. rewrite length_take. lia.
Qed.

(** ** Search lemmas *)

Lemma matches_at_spec h n p s :
  h = p ++ n ++ s -> matches_at h n (len p) = true.
Proof.
  intros ->. unfold matches_at. apply forallb_forall.
  intros i Hi%list_elem_of_In%elem_of_range. apply bool_decide_eq_true.
  rewrite vget_app_r by lia. rewrite vget_app_l by lia. f_equal; lia.
Qed.

Lemma matches_at_infix h n a :
  0 <= a -> a + len n <= len h -> matches_at h n a = true ->
  h = take (Z.to_nat a) h ++ n ++ drop (Z.to_nat (a + len n)) h.
Proof.
  intros Ha Hb Hm. unfold matches_at in Hm. rewrite forallb_forall in Hm.
  assert (take (length n) (drop (Z.to_nat a) h) = n) as E.
  { apply list_eq; intros j. destruct (decide (j < length n)%nat) as [Hj|Hj].
    - rewrite lookup_take_lt by done. rewrite lookup_drop.
      specialize (Hm (Z.of_nat j)). rewrite bool_decide_eq_true in Hm.
      rewrite <- (vget_nth n j), <- Hm.
      + unfold vget. destruct (Z.leb_spec 0 (a + Z.of_nat j)); [|lia]. f_equal; lia.
      + apply list_elem_of_In, elem_of_range. unfold len; lia.
    - rewrite lookup_take_ge by lia. by rewrite lookup_ge_None_2 by lia. }
  rewrite <- (take_drop (Z.to_nat a) h) at 1. f_equal.
  rewrite <- (take_drop (length n) (drop (Z.to_nat a) h)), E, drop_drop.
  do 2 f_equal. unfold len; lia.
Qed.

Lemma bytes_contains_infix h n :
  bytes_contains h n = true <-> exists p s, h = p ++ n ++ s.
Proof.
  unfold bytes_contains. destruct (Z.eqb_spec (len n) 0) as [E|E].
  { split; [|done]. intros _. exists [], h. destruct n; [done|]. rewrite len_cons in E.
    pose proof (len_nonneg n). lia. }
  destruct (Z.ltb_spec (len h) (len n)) as [Hl|Hl].
  { split; [done|]. intros (p & s & ->). rewrite !len_app in Hl.
    pose proof (len_nonneg p). pose proof (len_nonneg s). lia. }
  rewrite existsb_exists. split.
  - intros (a & Ha%list_elem_of_In%elem_of_range & Hm).
    rewrite (matches_at_infix h n a) by (done || lia). eauto.
  - intros (p & s & E'). exists (len p). split; [|by eapply matches_at_spec].
    apply list_elem_of_In, elem_of_range. rewrite E', !len_app in *.
    pose proof (len_nonneg p). pose proof (len_nonneg s). lia.
Qed.

(** ** Run-length lemmas *)

Lemma leading_spec b l : l = replicate (leading b l) b ++ drop (leading b l) l.
Proof.
  induction l as [|x l IH]; [done|]. simpl.
  destruct (Z.eqb_spec x b) as [->|]; [|done]. simpl. by rewrite <- IH.
Qed.

Lemma leading_le b l : (leading b l <= length l)%nat.
Proof. induction l as [|x l IH]; simpl; [lia|]. destruct (Z.eqb x b); lia. Qed.

Lemma compress_loop_runs fuel l :
  compress_loop fuel l = runs_loop fuel l ≫= (fun '(b, n) => encode_run b n).
Proof.
  revert l; induction fuel as [|fuel IH]; intros [|b l]; try done.
  cbn [compress_loop runs_loop]. by rewrite IH.
Qed.

Lemma runs_loop_flat fuel l :
  (length l <= fuel)%nat -> l = runs_loop fuel l ≫= (fun '(b, n) => replicate n b).
Proof.
  revert l; induction fuel as [|fuel IH]; intros [|b l] Hl; try done; simpl in Hl; [lia|].
  cbn [runs_loop]. change (mbind ?f (?x :: ?k)) with (f x ++ mbind f k). cbn [replicate app].
  f_equal. rewrite <- IH by (rewrite length_drop; lia). apply leading_spec.
Qed.

Lemma runs_loop_pos fuel l : Forall (fun r => 1 <= Z.of_nat r.2) (runs_loop fuel l).
Proof.
  revert l; induction fuel as [|fuel IH]; intros [|b l]; try done.
  cbn [runs_loop]. constructor; [simpl; lia|done].
Qed.

Lemma encode_run_nonempty b n : (1 <= n)%nat -> exists x k, encode_run b n = x :: k.
Proof.
  unfold encode_run. intros Hn. destruct (Nat.leb_spec 3 n); [eauto|].
  destruct n as [|n]; [lia|]. simpl. destruct (_ || _)%bool; simpl; eauto.
Qed.

Lemma expand_literal b k :
  expand_loop ((if Z.eqb b 0 || Z.eqb b 1 then [0; b] else [b]) ++ k) = b :: expand_loop k.
Proof.
  destruct (Z.eqb_spec b 0) as [->|]; simpl; [done|].
  destruct (Z.eqb_spec b 1) as [->|]; simpl; [done|].
  destruct (Z.eqb_spec b 0); [lia|]. destruct (Z.eqb_spec b 1); [lia|]. done.
Qed.

(** A run is restored when it is short, or when something follows it and its
    length fits 16 bits. *)
Lemma expand_run b n k :
  (n < 3)%nat \/ (Z.of_nat n < 65536 /\ k <> []) ->
  expand_loop (encode_run b n ++ k) = replicate n b ++ expand_loop k.
Proof.
  unfold encode_run. intros H. destruct (Nat.leb_spec 3 n) as [Hn|Hn].
  - destruct H as [|[H Hk]]; [lia|]. destruct k as [|x k]; [done|].
    cbn [app expand_loop Z.eqb Pos.eqb]. f_equal. f_equal.
    change 255 with (Z.ones 8). rewrite !Z.land_ones by lia.
    rewrite lor_shiftl_add by (try apply Z.mod_pos_bound; lia).
    rewrite Z.shiftr_div_pow2 by lia. change (2 ^ 8) with 256.
    rewrite (Z.mod_small (Z.of_nat n / 256)).
    + pose proof (Z.div_mod (Z.of_nat n) 256). lia.
    + split; [apply Z.div_pos; lia|apply Z.div_lt_upper_bound; lia].
  - clear H. induction n as [|n IH]; [done|].
    cbn [replicate concat app]. rewrite <- app_assoc, expand_literal. f_equal. apply IH; lia.
Qed.

Lemma expand_runs rs :
  Forall (fun r => 1 <= Z.of_nat r.2) rs ->
  Forall (fun r => Z.of_nat r.2 < 65536) rs ->
  (forall b n, last rs = Some (b, n) -> (n < 3)%nat) ->
  expand_loop (rs ≫= (fun '(b, n) => encode_run b n)) = rs ≫= (fun '(b, n) => replicate n b).
Proof.
  induction rs as [|[b n] rs IH]; intros H1 H2 Hl; [done|].
  apply Forall_cons in H1 as [H1 H1']. apply Forall_cons in H2 as [H2 H2']. simpl in H1, H2.
  change (mbind ?f (?x :: ?k)) with (f x ++ mbind f k). cbv beta iota.
  rewrite expand_run.
  - f_equal. apply IH; try done. intros b' n' E. apply (Hl b' n').
    rewrite last_cons, E. done.
  - destruct rs as [|[b' n'] rs].
    + left. by apply (Hl b).
    + right. split; [lia|]. apply Forall_cons in H1' as [H1' _]. simpl in H1'.
      change (mbind ?f (?x :: ?k)) with (f x ++ mbind f k). cbv beta iota.
      destruct (encode_run_nonempty b' n') as (x & k & ->); [lia|done].
Qed.
