(* ===== verification/Access.v ===== *)
(** * Initialisation, ownership, roles and the pause switch

    Who may call what: the owner list with its legacy single owner, the
    role-based access control that replaces it when enabled, the pause flag,
    and [initialize]. *)

From S2P Require Import Prelude Contract StorageLemmas Types Storage.

(** [NULL_ACCOUNT], src/lib.rs:72-73 *)
Definition NULL_ACCOUNT : Address := "GAAAAAAAAAAAAAAAAAAAAAAAAAAAAAAAAAAAAAAAAAAAAAAAAAAAAWHF".

(** The all-zero [BytesN<32>], the [prev_hash] of the genesis event. *)
Definition zero_hash : Hash := replicate 32 0.

(** The scan [for i in 0..owners.len() { if owners.get(i).unwrap() == a .. }],
    src/lib.rs:5060-5064 *)
Definition contains_addr (l : list Address) (a : Address) : bool :=
  existsb (fun o => bool_decide (o = a)) l.

Section Access.
Context `{H : Host}.

(** [initialize], src/lib.rs:1799-1863 *)
Definition initialize (owners : list Address) (global_max_logs max_metadata_bytes : Z) : M unit :=
  let* inited := ihas DataKey.Owner in
  do* reject_if inited ContractError.AlreadyInitialized in
  do* reject_if (bool_decide (owners = [])) ContractError.NewOwnerIsZero in
  let* primary := unwrap (vget owners 0) in
  do* require_auth primary in
  do* iset DataKey.Owner primary in
  do* iset DataKey.Owners owners in
  do* iset DataKey.Config
        {| cfg_global_max_logs := global_max_logs; cfg_total_events := 0 |} in
  do* iset DataKey.GlobalMaxLogs global_max_logs in
  do* iset DataKey.GlobalMetadataMaxSize max_metadata_bytes in
  do* iset DataKey.RuntimeState
        {| rs_global_max_logs := global_max_logs;
           rs_total_events := 0;
           rs_paused := false;
           rs_allowlist_mode := false;
           rs_low_cost_mode := false;
           rs_emission_mode := 1;
           rs_global_metadata_max_size := max_metadata_bytes |} in
  do* iset DataKey.TotalEvents 0 in
  do* iset DataKey.Paused false in
  do* iset DataKey.ContractVersion 1 in
  do* iset DataKey.DefaultNonceWindowSize 1000 in
  do* iset DataKey.DefaultNonceMaxValue u32_max in
  do* iset DataKey.RbacEnabled false in
  fold_m (fun _ o => iset (DataKey.Role o) Role.Admin) tt owners.

(** [require_initialized], src/lib.rs:4966-4970 *)
Definition require_initialized : M unit :=
  let* o := ihas DataKey.Owner in
  let* c := ihas DataKey.Config in
  reject_if (negb o || negb c) ContractError.ContractNotInitialized.

(** [rbac_enabled], src/lib.rs:4974-4977 *)
Definition rbac_enabled : M bool := iget_or DataKey.RbacEnabled false.

(** [get_role_of], src/lib.rs:4979-4982 *)
Definition get_role_of (addr : Address) : M (option Role) := iget (DataKey.Role addr).

(** [require_role_min], src/lib.rs:4984-4994 *)
Definition require_role_min (addr : Address) (min : Role) : M unit :=
  let* enabled := rbac_enabled in
  if negb enabled then ret tt
  else
    let* granted := iget_or (DataKey.Role addr) Role.Viewer in
    reject_if (Z.ltb (Role.rank granted) (Role.rank min)) ContractError.RoleNotGranted.

(** [get_owners], src/lib.rs:5044-5049 *)
Definition get_owners : M (list Address) := iget_or DataKey.Owners [].

(** [get_required_signatures], src/lib.rs:5051-5056 *)
Definition get_required_signatures : M Z := iget_or DataKey.RequiredSignatures 1.

(** [is_addr_owner], src/lib.rs:5058-5072 *)
Definition is_addr_owner (addr : Address) : M bool :=
  let* owners := get_owners in
  if contains_addr owners addr then ret true
  else
    let* owner := iget DataKey.Owner in
    match owner with
    | Some o => ret (bool_decide (addr = o))
    | None => ret false
    end.

(** [require_owner], src/lib.rs:4949-4954 *)
Definition require_owner (addr : Address) : M unit :=
  let* o := iget DataKey.Owner in
  let* owner := unwrap o in
  reject_if (bool_decide (addr <> owner)) ContractError.CallerNotOwner.

(** [require_owner_or_multisig], src/lib.rs:4996-5006 *)
Definition require_owner_or_multisig (addr : Address) : M unit :=
  let* enabled := rbac_enabled in
  if enabled then require_role_min addr Role.Admin
  else
    let* owner := is_addr_owner addr in
    reject_if (negb owner) ContractError.CallerNotOwner.

(** [if let Some(true) = get(Paused) { panic }], src/lib.rs:3901-3904 *)
Definition reject_when_paused : M unit :=
  let* p := iget_or DataKey.Paused false in
  reject_if p ContractError.ContractPaused.

(** The opening lines of the governance entry points, as in [pause],
    src/lib.rs:4393-4395 *)
Definition admin_entry (caller : Address) : M unit :=
  do* require_initialized in
  do* require_auth caller in
  require_owner_or_multisig caller.

(** The opening lines of those that are also blocked while paused, as in
    [set_global_max_logs], src/lib.rs:3899-3905 *)
Definition governance_entry (caller : Address) : M unit :=
  do* require_initialized in
  do* require_auth caller in
  do* reject_when_paused in
  require_owner_or_multisig caller.

(** [pause], src/lib.rs:4391-4403 *)
Definition pause (caller : Address) : M unit :=
  do* admin_entry caller in
  let* _already_paused := iget_or DataKey.Paused false in
  do* iset DataKey.Paused true in
  publish ["contract_paused"] [DAddr caller].

(** [unpause], src/lib.rs:4405-4414 *)
Definition unpause (caller : Address) : M unit :=
  do* admin_entry caller in
  do* iset DataKey.Paused false in
  do* iremove DataKey.PausedSince in
  publish ["contract_unpaused"] [DAddr caller].

(** [is_paused], src/lib.rs:4416-4422 *)
Definition is_paused : M bool := iget_or DataKey.Paused false.

(** [paused_since], src/lib.rs:4424-4430 *)
Definition paused_since : M Z := iget_or DataKey.PausedSince 0.

(** [set_role], src/lib.rs:5502-5521 *)
Definition set_role (caller target : Address) (role : option Role) : M unit :=
  do* require_initialized in
  do* require_auth caller in
  let* enabled := rbac_enabled in
  do* (if enabled then require_role_min caller Role.Admin
       else require_owner_or_multisig caller) in
  do* match role with
      | Some r => iset (DataKey.Role target) r
      | None => iremove (DataKey.Role target)
      end in
  publish ["rbac"; "role_set"] [DAddr caller; DAddr target; DOptRole role].

(** [get_role], src/lib.rs:5523-5527 *)
Definition get_role (target : Address) : M (option Role) :=
  do* require_initialized in get_role_of target.

(** [enable_rbac], src/lib.rs:5529-5544 *)
Definition enable_rbac (caller : Address) (enabled : bool) : M unit :=
  do* require_initialized in
  do* require_auth caller in
  let* on := rbac_enabled in
  do* (if on then require_role_min caller Role.Admin
       else require_owner_or_multisig caller) in
  do* iset DataKey.RbacEnabled enabled in
  publish ["rbac"; "rbac_toggled"] [DAddr caller; DBool enabled].

(** [is_rbac_enabled], src/lib.rs:5546-5549 *)
Definition is_rbac_enabled : M bool := rbac_enabled.

(** The loop of [transfer_ownership] that replaces the first occurrence of the
    old owner, src/lib.rs:4017-4022 *)
Fixpoint replace_first (old new : Address) (l : list Address) : list Address :=
  match l with
  | [] => []
  | o :: l => if bool_decide (o = old) then new :: l else o :: replace_first old new l
  end.

(** [transfer_ownership], src/lib.rs:4000-4035 *)
Definition transfer_ownership (caller new_owner : Address) : M unit :=
  do* governance_entry caller in
  let* o := iget DataKey.Owner in
  let* current_owner := unwrap o in
  do* reject_if (bool_decide (new_owner = NULL_ACCOUNT)) ContractError.NewOwnerIsZero in
  do* reject_if (bool_decide (new_owner = current_owner)) ContractError.SameOwner in
  do* iset DataKey.Owner new_owner in
  let* owners := get_owners in
  do* iset DataKey.Owners (replace_first current_owner new_owner owners) in
  let* enabled := rbac_enabled in
  do* when enabled
        (do* iset (DataKey.Role new_owner) Role.Admin in
         let* r := get_role_of current_owner in
         when (bool_decide (r = Some Role.Admin))
           (iremove (DataKey.Role current_owner))) in
  publish ["governance"; "transfer_ownership"]
    [DAddr caller; DAddr current_owner; DAddr new_owner].

(** [add_owner], src/lib.rs:5074-5093 *)
Definition add_owner (caller new_owner : Address) : M unit :=
  do* require_auth caller in
  do* require_owner_or_multisig caller in
  do* reject_if (bool_decide (new_owner = NULL_ACCOUNT)) ContractError.NewOwnerIsZero in
  let* owners := get_owners in
  if contains_addr owners new_owner then ret tt
  else
    do* iset DataKey.Owners (owners ++ [new_owner]) in
    let* enabled := rbac_enabled in
    do* when enabled (iset (DataKey.Role new_owner) Role.Admin) in
    publish ["owner_added"] [DAddr new_owner].

(** [remove_owner], src/lib.rs:5095-5123 *)
Definition remove_owner (caller owner_to_remove : Address) : M unit :=
  do* require_auth caller in
  do* require_owner_or_multisig caller in
  let* owners := get_owners in
  let new_vec := filter (fun o => o <> owner_to_remove) owners in
  if negb (contains_addr owners owner_to_remove) then ret tt
  else
    let* req := get_required_signatures in
    do* when (Z.ltb (len new_vec) req) (iset DataKey.RequiredSignatures (len new_vec)) in
    do* iset DataKey.Owners new_vec in
    publish ["owner_removed"] [DAddr owner_to_remove].

(** [set_required_signatures], src/lib.rs:5125-5135 *)
Definition set_required_signatures (caller : Address) (required : Z) : M unit :=
  do* require_auth caller in
  do* require_owner_or_multisig caller in
  let* owners := get_owners in
  if Z.eqb required 0 || Z.ltb (len owners) required then ret tt
  else
    do* iset DataKey.RequiredSignatures required in
    publish ["required_signatures_set"] [DU32 required].

(** [set_category_max_len], src/lib.rs:4432-4438 *)
Definition set_category_max_len (caller : Address) (max_len : Z) : M unit :=
  do* admin_entry caller in iset DataKey.CategoryMaxLen max_len.

(** [upgrade_contract], src/lib.rs:3093-3112 *)
Definition upgrade_contract (caller : Address) (new_wasm_hash : Hash) : M unit :=
  do* admin_entry caller in
  do* reject_if (bool_decide (new_wasm_hash = zero_hash)) ContractError.InvalidWasmHash in
  do* publish ["contract_upgraded"] [DOptHash None; DHash new_wasm_hash] in
  host_call (UpdateWasm new_wasm_hash).

End Access.
