(* ===== verification/Chain.v ===== *)
(** * The hash chain

    Content-addressed event identifiers, the hash that links each event to
    its predecessor, and [verify_range], the procedure that re-checks the
    links.  [Cells] states what the storage holds at the first [n] positions,
    [linked] what makes one position a link of the chain. *)

From S2P Require Import Prelude Contract StorageLemmas Types Storage Codec Access.

Section Chain.
Context `{H : Host}.

(** The hash inside [compute_event_id], for the contract address [self],
    src/lib.rs:5288-5301 *)
Definition event_id (self submitter : Address) (event_type : Symbol) (metadata : Bytes)
    (timestamp index : Z) : Hash :=
  sha256 (str_bytes self ++ str_bytes submitter ++ u64_to_bytes (sym_payload event_type)
            ++ metadata ++ u64_to_bytes timestamp ++ u32_to_bytes index).

(** [compute_event_id], src/lib.rs:5277-5302 *)
Definition compute_event_id (submitter : Address) (event_type : Symbol) (metadata : Bytes)
    (timestamp index : Z) : M Hash :=
  let* self := current_contract_address in
  ret (event_id self submitter event_type metadata timestamp index).

(** [compute_event_hash], src/lib.rs:5304-5319 *)
Definition compute_event_hash (id prev_hash : Hash) (index timestamp : Z) : Hash :=
  sha256 (id ++ prev_hash ++ u32_to_bytes index ++ u64_to_bytes timestamp).

(** [compute_content_hash], src/lib.rs:5321-5329 *)
Definition compute_content_hash (event_type : Symbol) (submitter : Address) (metadata : Bytes)
    : Hash :=
  sha256 (u64_to_bytes (sym_payload event_type) ++ str_bytes submitter ++ metadata).

(** [total_events], src/lib.rs:2617-2628 *)
Definition total_events : M Z :=
  do* require_initialized in
  let* rs := iget DataKey.RuntimeState in
  match rs with
  | Some rs => ret (rs_total_events rs)
  | None =>
      let* cfg := iget DataKey.Config in
      ret (match cfg with Some c => cfg_total_events c | None => 0 end)
  end.

(** [get(EventOrder(i))] then [get(EventData(id))]: the event stored at a
    position, [None] where either read misses, src/lib.rs:3861-3870 *)
Definition event_at (i : Z) : M (option Event) :=
  let* id := iget (DataKey.EventOrder i) in
  match id with
  | Some id => iget (DataKey.EventData id)
  | None => ret None
  end.

(** The [for i in from..to] loop of [verify_range], src/lib.rs:5347-5366 *)
Fixpoint verify_loop (expected_prev : Hash) (l : list Z) : M bool :=
  match l with
  | [] => ret true
  | i :: l =>
      let* oid := iget (DataKey.EventOrder i) in
      match oid with
      | None => ret false
      | Some id =>
          let* oevt := iget (DataKey.EventData id) in
          match oevt with
          | None => ret false
          | Some evt =>
              if bool_decide (ev_prev_hash evt <> expected_prev) then ret false
              else
                let recomputed := compute_event_hash id (ev_prev_hash evt) i (ev_timestamp evt) in
                if bool_decide (ev_event_hash evt <> recomputed) then ret false
                else verify_loop (ev_event_hash evt) l
          end
      end
  end.

(** [verify_range], src/lib.rs:5331-5367 *)
Definition verify_range (from to : Z) : M bool :=
  if Z.eqb from 0 then verify_loop zero_hash (range from to)
  else
    let* prev := event_at (from - 1) in
    match prev with
    | None => ret false
    | Some prev_evt => verify_loop (ev_event_hash prev_evt) (range from to)
    end.

(** [verify_integrity], src/lib.rs:3719-3725 *)
Definition verify_integrity : M bool :=
  do* require_initialized in
  let* total := total_events in
  verify_range 0 total.

(** [verify_integrity_range], src/lib.rs:3727-3731 *)
Definition verify_integrity_range (from to : Z) : M bool :=
  do* require_initialized in
  verify_range from to.

(** The predecessor hash an event at position [index] is linked to:
    src/lib.rs:2301-2307 *)
Definition link_prev (index : Z) : M (Hash * Z) :=
  if Z.eqb index 0 then ret (zero_hash, 0)
  else
    let* oid := iget (DataKey.EventOrder (index - 1)) in
    let* prev_id := unwrap oid in
    let* oevt := iget (DataKey.EventData prev_id) in
    let* prev_evt := unwrap oevt in
    ret (ev_event_hash prev_evt, ev_timestamp prev_evt).

(** ** What the chain means *)

(** The identifier and event stored at a position. *)
Definition entry (s : store) (i : Z) : option (Hash * Event) :=
  match sget s (DataKey.EventOrder i) with
  | Some id => match sget s (DataKey.EventData id) with Some e => Some (id, e) | None => None end
  | None => None
  end.

(** The hash position [i] has to link to. *)
Definition prev_at (s : store) (i : Z) : option Hash :=
  if Z.eqb i 0 then Some zero_hash
  else match entry s (i - 1) with Some (_, e) => Some (ev_event_hash e) | None => None end.

(** Position [i] holds a link of the chain. *)
Definition linked (s : store) (i : Z) : Prop :=
  exists id e, entry s i = Some (id, e) /\ prev_at s i = Some (ev_prev_hash e) /\
    ev_event_hash e = compute_event_hash id (ev_prev_hash e) i (ev_timestamp e).

(** The event of a position is stored under the identifier that its own
    content hashes to. *)
Definition addressed (self : Address) (id : Hash) (e : Event) : Prop :=
  id = event_id self (ev_submitter e) (ev_event_type e) (ev_metadata e) (ev_timestamp e)
         (ev_index e).

Definition cell (self : Address) (s : store) (i : Z) : Prop :=
  exists id e, entry s i = Some (id, e) /\ ev_index e = i /\ addressed self id e.

Definition Cells (self : Address) (s : store) (n : Z) : Prop :=
  forall i, 0 <= i < n -> cell self s i.

Definition Linked (s : store) (n : Z) : Prop := forall i, 0 <= i < n -> linked s i.

(** The identifiers of different positions differ.  [sha256] is collision
    resistant; the development uses no more of it than this. *)
Class CollisionFree : Prop :=
  event_id_index : forall self a t m ts i a' t' m' ts' j,
    is_u32 i -> is_u32 j ->
    event_id self a t m ts i = event_id self a' t' m' ts' j -> i = j.

(** ** Entries *)

Lemma entry_Some s i id e :
  entry s i = Some (id, e) <->
  sget s (DataKey.EventOrder i) = Some id /\ sget s (DataKey.EventData id) = Some e.
Proof.
  unfold entry. destruct (sget s (DataKey.EventOrder i)) as [id'|]; [|naive_solver].
  destruct (sget s (DataKey.EventData id')) eqn:E; naive_solver.
Qed.

Lemma event_at_Ok i c s r s' :
  event_at i c s = Ok (r, s') <-> s' = s /\ r = snd <$> entry (inst s) i.
Proof.
  unfold event_at, entry, bind, iget, ret.
  destruct (sget (inst s) (DataKey.EventOrder i)) as [id|]; simpl; [|naive_solver].
  destruct (sget (inst s) (DataKey.EventData id)); naive_solver.
Qed.

(** Stores that agree on the order entries and on the event data. *)
Definition ledger_key (k : DataKey) : bool :=
  match k with DataKey.EventOrder _ | DataKey.EventData _ => true | _ => false end.

Definition same_ledger (s s' : store) : Prop :=
  forall k, ledger_key k = true -> sget s' k = sget s k.

#[global] Instance same_ledger_equiv : Equivalence same_ledger.
Proof.
  split; unfold same_ledger.
  - by intros s k.
  - intros s s' E k Hk. by rewrite E.
  - intros s1 s2 s3 E1 E2 k Hk. by rewrite E2, E1.
Qed.

#[global] Instance entry_proper : Proper (same_ledger ==> eq ==> eq) entry.
Proof.
  intros s s' E i _ <-. unfold entry.
  rewrite (E (DataKey.EventOrder i)) by done.
  destruct (sget s (DataKey.EventOrder i)) as [id|]; [|done].
  by rewrite (E (DataKey.EventData id)).
Qed.

#[global] Instance prev_at_proper : Proper (same_ledger ==> eq ==> eq) prev_at.
Proof. intros s s' E i _ <-. unfold prev_at. by rewrite E. Qed.

#[global] Instance linked_proper : Proper (same_ledger ==> eq ==> iff) linked.
Proof. intros s s' E i _ <-. unfold linked. by setoid_rewrite E. Qed.

#[global] Instance cell_proper : Proper (eq ==> same_ledger ==> eq ==> iff) cell.
Proof. intros a _ <- s s' E i _ <-. unfold cell. by setoid_rewrite E. Qed.

#[global] Instance Cells_proper : Proper (eq ==> same_ledger ==> eq ==> iff) Cells.
Proof. intros a _ <- s s' E n _ <-. unfold Cells. by setoid_rewrite E. Qed.

#[global] Instance Linked_proper : Proper (same_ledger ==> eq ==> iff) Linked.
Proof. intros s s' E n _ <-. unfold Linked. by setoid_rewrite E. Qed.

Lemma keeps_same_ledger {A} (m : M A) c s a s' :
  keeps ledger_key m -> m c s = Ok (a, s') -> same_ledger (inst s) (inst s').
Proof. intros K R k Hk. by apply (K _ _ _ _ R). Qed.

(** ** verify_range decides the links *)

Lemma verify_loop_run c s n : forall a p,
  0 <= a -> prev_at (inst s) a = Some p ->
  exists b, verify_loop p (range a (a + Z.of_nat n)) c s = Ok (b, s) /\
    (b = true <-> forall i, a <= i < a + Z.of_nat n -> linked (inst s) i).
Proof.
  induction n as [|n IH]; intros a p Ha Hp.
  { exists true. rewrite range_nil by lia. split; [done|]. split; [intros; lia|done]. }
  rewrite range_cons by lia. simpl. unfold bind, iget.
  assert (forall b : bool, b = false -> ~ linked (inst s) a ->
            b = true <-> (forall i, a <= i < a + Z.of_nat (S n) -> linked (inst s) i)) as No.
  { intros b -> Hn. split; [done|]. intros L. exfalso. apply Hn, L. lia. }
  destruct (sget (inst s) (DataKey.EventOrder a)) as [id|] eqn:Eo.
  2:{ exists false. split; [done|]. apply No; [done|].
      assert (entry (inst s) a = None) as Ee by (unfold entry; by rewrite Eo).
      intros (? & ? & ? & _). congruence. }
  simpl. destruct (sget (inst s) (DataKey.EventData id)) as [e|] eqn:Ed.
  2:{ exists false. split; [done|]. apply No; [done|].
      assert (entry (inst s) a = None) as Ee by (unfold entry; by rewrite Eo, Ed).
      intros (? & ? & ? & _). congruence. }
  assert (entry (inst s) a = Some (id, e)) as Ee by (apply entry_Some; auto).
  case_bool_decide as Hprev.
  { exists false. split; [done|]. apply No; [done|]. intros (? & ? & ? & ? & _). congruence. }
  case_bool_decide as Hhash.
  { exists false. split; [done|]. apply No; [done|]. intros (? & ? & ? & ? & ?). congruence. }
  destruct (IH (a + 1) (ev_event_hash e)) as (b & Rb & Hb); [lia| |].
  { unfold prev_at. destruct (Z.eqb_spec (a + 1) 0); [lia|].
    replace (a + 1 - 1) with a by lia. by rewrite Ee. }
  exists b. replace (a + Z.of_nat (S n)) with (a + 1 + Z.of_nat n) by lia.
  split; [done|]. rewrite Hb. split.
  - intros L i Hi. destruct (decide (i = a)) as [->|]; [|apply L; lia].
    exists id, e. rewrite Hp. split; [done|]. split; [congruence|done].
  - intros L i Hi. apply L; lia.
Qed.

(** [verify_range] always returns, leaves the state alone and answers whether
    every position of the range is a link; a range that does not start at the
    genesis also needs its predecessor. *)
Lemma verify_range_run from to c s :
  0 <= from <= to ->
  exists b, verify_range from to c s = Ok (b, s) /\
    (b = true <-> is_Some (prev_at (inst s) from) /\
                  forall i, from <= i < to -> linked (inst s) i).
Proof.
  intros Hr. unfold verify_range.
  assert (forall p, prev_at (inst s) from = Some p ->
    exists b, verify_loop p (range from to) c s = Ok (b, s) /\
      (b = true <-> is_Some (prev_at (inst s) from) /\
         forall i, from <= i < to -> linked (inst s) i)) as Go.
  { intros p Hp. destruct (verify_loop_run c s (Z.to_nat (to - from)) from p) as (b & Rb & Hb);
      [lia|done|].
    replace (from + Z.of_nat (Z.to_nat (to - from))) with to in * by lia.
    exists b. split; [done|]. rewrite Hb, Hp. naive_solver. }
  destruct (Z.eqb_spec from 0) as [->|Hf]; [by apply Go|].
  destruct (entry (inst s) (from - 1)) as [[id e]|] eqn:Ee.
  - assert (event_at (from - 1) c s = Ok (Some e, s)) as Ev
      by (apply event_at_Ok; by rewrite Ee).
    rewrite (bind_run _ _ _ _ _ _ Ev). apply Go. unfold prev_at.
    destruct (Z.eqb_spec from 0); [lia|]. by rewrite Ee.
  - assert (event_at (from - 1) c s = Ok (None, s)) as Ev
      by (apply event_at_Ok; by rewrite Ee).
    rewrite (bind_run _ _ _ _ _ _ Ev). exists false. split; [done|].
    split; [done|]. intros [[p Hp] _]. unfold prev_at in Hp.
    destruct (Z.eqb_spec from 0); [lia|]. by rewrite Ee in Hp.
Qed.

(** ** Building and rewriting the chain *)

Lemma Linked_prev s n i : Linked s n -> 0 <= i <= n -> is_Some (prev_at s i).
Proof.
  intros L Hi. unfold prev_at. destruct (Z.eqb_spec i 0); [done|].
  destruct (L (i - 1)) as (id & e & -> & _); [lia|]. by eexists.
Qed.

Lemma linked_ext s s' i :
  entry s' i = entry s i -> (i <> 0 -> entry s' (i - 1) = entry s (i - 1)) ->
  linked s i -> linked s' i.
Proof.
  intros E1 E2 (id & e & Ee & Hp & Hh). exists id, e. rewrite E1.
  split; [done|]. split; [|done]. unfold prev_at in *.
  destruct (Z.eqb_spec i 0); [done|]. by rewrite E2.
Qed.

Lemma cell_ext self s s' i : entry s' i = entry s i -> cell self s i -> cell self s' i.
Proof. unfold cell. by intros ->. Qed.

(** With collision-free identifiers, two filled positions hold different
    identifiers. *)
Lemma cells_distinct `{!CollisionFree} self s i j id e e' :
  is_u32 i -> is_u32 j ->
  entry s i = Some (id, e) -> ev_index e = i -> addressed self id e ->
  entry s j = Some (id, e') -> cell self s j -> i = j.
Proof.
  intros Hi Hj Ei <- Ai Ej (id' & e'' & Ej' & Hx & Aj).
  rewrite Ej in Ej'. injection Ej' as <- <-. unfold addressed in *. subst j.
  exact (event_id_index _ _ _ _ _ _ _ _ _ _ _ Hi Hj (eq_trans (eq_sym Ai) Aj)).
Qed.

End Chain.
