(* ===== verification/Logging.v ===== *)
(** * Logging events

    The write path of the contract: the submission checks, deduplication, the
    packed per-type and per-submitter indices, and the entry points
    [log_event], [log_event_with_nonce], [log_event_signed],
    [log_event_with_custom_key] and the batch [log_events]. *)

From S2P Require Import Prelude Contract StorageLemmas Types Storage Codec Access Chain.

(** [DEFAULT_MAX_METADATA_SIZE], src/lib.rs:75-76 *)
Definition DEFAULT_MAX_METADATA_SIZE : Z := 1024.

(** [MAX_TIMESTAMP_DRIFT_SECONDS], src/lib.rs:81-82 *)
Definition MAX_TIMESTAMP_DRIFT_SECONDS : Z := 3600.

(** [increment_address_count] and [increment_symbol_count]: the association
    list with the count of [a] raised by one, and the new count,
    src/lib.rs:4714-4730 *)
Fixpoint increment_count (counts : list (string * Z)) (a : string) : M (list (string * Z) * Z) :=
  match counts with
  | [] => ret ([(a, 1)], 1)
  | (k, n) :: rest =>
      if bool_decide (k = a) then
        let* n' := u32_add n 1 in ret ((a, n') :: rest, n')
      else
        let* r := increment_count rest a in ret ((k, n) :: r.1, r.2)
  end.

(** [increment_address_count], src/lib.rs:4714-4730 *)
Definition increment_address_count := increment_count.

(** [increment_symbol_count], src/lib.rs:4732-4749 *)
Definition increment_symbol_count := increment_count.

Section Logging.
Context `{H : Host}.

(** ** Effective configuration *)

(** [effective_low_cost_mode], src/lib.rs:4625-4627 *)
Definition effective_low_cost_mode : M bool := iget_or DataKey.LowCostMode false.

(** [effective_metadata_max_size], src/lib.rs:4629-4643 *)
Definition effective_metadata_max_size (event_type : Symbol) : M Z :=
  let* per_type := iget (DataKey.EventMetadataMaxSize event_type) in
  match per_type with
  | Some v => ret v
  | None =>
      let* global := iget DataKey.GlobalMetadataMaxSize in
      match global with
      | Some v => ret v
      | None => ret DEFAULT_MAX_METADATA_SIZE
      end
  end.

(** [effective_event_emission_mode], src/lib.rs:4645-4650 *)
Definition effective_event_emission_mode : M Z := iget_or DataKey.EventEmissionConfig 1.

(** [effective_dedup_policy], src/lib.rs:5010-5024 *)
Definition effective_dedup_policy (event_type : Symbol) : M DedupPolicy :=
  let* p := iget (DataKey.DedupPolicyConfigForType event_type) in
  match p with
  | Some p => ret p
  | None => iget_or DataKey.DedupPolicyConfig DedupPolicy.ContentHash
  end.

(** [current_contract_version], src/lib.rs:4956-4958 *)
Definition current_contract_version : M Z := iget_or DataKey.ContractVersion 1.

(** [pending_custom_key], src/lib.rs:5037-5042 *)
Definition pending_custom_key : M (option Hash) := tget DataKey.PendingCustomDedupKey.

(** [validate_metadata_against_schema], src/lib.rs:4855-4868 *)
Definition validate_metadata_against_schema (event_type : Symbol) (metadata : Bytes) : M unit :=
  let* schema := iget (DataKey.MetadataSchema event_type) in
  match schema with
  | Some schema =>
      reject_if (negb (validate_metadata_schema metadata schema))
        ContractError.MetadataSchemaViolation
  | None => ret tt
  end.

(** The global state, rebuilt from the older keys where [RuntimeState] is
    absent, src/lib.rs:2146-2161 *)
Definition runtime_state : M RuntimeState :=
  let* rs := iget DataKey.RuntimeState in
  match rs with
  | Some rs => ret rs
  | None =>
      let* ocfg := iget DataKey.Config in
      let* cfg := unwrap ocfg in
      let* p := iget_or DataKey.Paused false in
      let* a := iget_or DataKey.AllowlistMode false in
      let* l := iget_or DataKey.LowCostMode false in
      let* e := iget_or DataKey.EventEmissionConfig 1 in
      let* m := iget_or DataKey.GlobalMetadataMaxSize 0 in
      ret {| rs_global_max_logs := cfg_global_max_logs cfg;
             rs_total_events := cfg_total_events cfg;
             rs_paused := p;
             rs_allowlist_mode := a;
             rs_low_cost_mode := l;
             rs_emission_mode := e;
             rs_global_metadata_max_size := m |}
  end.

(** ** Packed indices *)

(** [event_type_count], src/lib.rs:5268-5275 *)
Definition event_type_count (event_type : Symbol) : M Z :=
  let* packed := iget_or (DataKey.EventTypeIndices event_type) [] in
  ret (packed_count packed).

(** [push_type_index], src/lib.rs:4872-4883 *)
Definition push_type_index (event_type : Symbol) (global_index : Z) : M unit :=
  let* packed := iget_or (DataKey.EventTypeIndices event_type) [] in
  iset (DataKey.EventTypeIndices event_type) (packed ++ u32_to_bytes global_index).

(** The bounds check and the read shared by [get_type_index] and
    [get_submitter_index], src/lib.rs:4891-4900 *)
Definition read_packed (packed : Bytes) (i : Z) : M Z :=
  if Z.ltb u32_max (i * 4) then panic Overflow
  else
    let* limit := u32_add (i * 4) 4 in
    do* reject_if (Z.ltb (len packed) limit) ContractError.EventTypeIndexOutOfBounds in
    unwrap (read_u32_le packed (i * 4)).

(** [get_type_index], src/lib.rs:4885-4901 *)
Definition get_type_index (event_type : Symbol) (type_index : Z) : M Z :=
  let* o := iget (DataKey.EventTypeIndices event_type) in
  let* packed := unwrap_or_raise o ContractError.EventTypeIndexOutOfBounds in
  read_packed packed type_index.

(** [submitter_count], src/lib.rs:4941-4947 *)
Definition submitter_count (submitter : Address) : M Z :=
  iget_or (DataKey.SubmitterEventCount submitter) 0.

(** [push_submitter_index], src/lib.rs:4905-4921 *)
Definition push_submitter_index (submitter : Address) (global_index : Z) : M unit :=
  let* packed := iget_or (DataKey.SubmitterEventIndices submitter) [] in
  do* iset (DataKey.SubmitterEventIndices submitter) (packed ++ u32_to_bytes global_index) in
  let* count := submitter_count submitter in
  let* count' := u32_add count 1 in
  iset (DataKey.SubmitterEventCount submitter) count'.

(** [get_submitter_index], src/lib.rs:4923-4939 *)
Definition get_submitter_index (submitter : Address) (submitter_index : Z) : M Z :=
  let* o := iget (DataKey.SubmitterEventIndices submitter) in
  let* packed := unwrap_or_raise o ContractError.EventTypeIndexOutOfBounds in
  read_packed packed submitter_index.

(** ** The checks of a submission *)

(** The blocklist and, in allowlist mode, the allowlist,
    src/lib.rs:2116-2144 *)
Definition check_submitter_lists (submitter : Address) : M unit :=
  let* blocked := iget_or (DataKey.SubmitterBlocklist submitter) false in
  do* reject_if blocked ContractError.SubmitterBlocked in
  let* allowlist := iget_or DataKey.AllowlistMode false in
  if allowlist then
    let* a := iget (DataKey.SubmitterAllowlist submitter) in
    do* reject_if (bool_decide (a = Some false)) ContractError.SubmitterBlocked in
    reject_if (bool_decide (a = None)) ContractError.SubmitterBlocked
  else ret tt.

(** The per-submitter rate limit, src/lib.rs:2166-2192 *)
Definition check_rate_limit (submitter : Address) : M unit :=
  let* limit := iget (DataKey.SubmitterRateLimit submitter) in
  match limit with
  | None => ret tt
  | Some limit =>
      let* now := ledger_timestamp in
      let* st := iget_or (DataKey.SubmitterRateState submitter) (0, 0) in
      let '(last_ts, count) := st in
      if Z.eqb now last_ts then
        do* reject_if (Z.leb limit count) ContractError.RateLimitExceeded in
        let* count' := u32_add count 1 in
        iset (DataKey.SubmitterRateState submitter) (now, count')
      else
        do* reject_if (Z.eqb limit 0) ContractError.RateLimitExceeded in
        iset (DataKey.SubmitterRateState submitter) (now, 1)
  end.

(** The metadata size cap and schema, src/lib.rs:2194-2201 *)
Definition check_metadata (event_type : Symbol) (metadata : Bytes) : M unit :=
  let* max_meta := effective_metadata_max_size event_type in
  do* reject_if (Z.ltb max_meta (len metadata)) ContractError.MetadataTooLarge in
  validate_metadata_against_schema event_type metadata.

(** [get::<_, Option<u32>>(EventCapConfig(..)).flatten()],
    src/lib.rs:2209-2214 *)
Definition event_cap (event_type : Symbol) : M (option Z) :=
  let* c := iget (DataKey.EventCapConfig event_type) in
  ret (match c with Some c => c | None => None end).

(** The per-type cap; the count read is kept for the index update,
    src/lib.rs:2207-2220 *)
Definition check_type_cap (event_type : Symbol) : M (option Z) :=
  let* cap := event_cap event_type in
  match cap with
  | Some cap =>
      let* count := event_type_count event_type in
      do* reject_if (Z.leb cap count) ContractError.EventTypeMaxLogsReached in
      ret (Some count)
  | None => ret None
  end.

(** ** Deduplication *)

(** [get(EventOrder(existing_index)).unwrap()], src/lib.rs:2238-2243 *)
Definition existing_id (existing_index : Z) : M (option Hash) :=
  let* o := iget (DataKey.EventOrder existing_index) in
  let* id := unwrap o in
  ret (Some id).

(** The duplicate an event would be rejected for under a policy: the identifier
    to return early, [None] to go on, src/lib.rs:2226-2285 *)
Definition dedup_lookup (policy : DedupPolicy) (event_type : Symbol) (submitter : Address)
    (metadata : Bytes) : M (option Hash) :=
  match policy with
  | DedupPolicy.None => ret None
  | DedupPolicy.ContentHash =>
      let* idx := iget (DataKey.EventContentHash
                          (compute_content_hash event_type submitter metadata)) in
      match idx with
      | Some i => existing_id i
      | None => ret None
      end
  | DedupPolicy.ContentHashWithTimestamp =>
      let* now := ledger_timestamp in
      let* idx := iget (DataKey.EventContentHashWithTs
                          (compute_content_hash event_type submitter metadata)) in
      match idx with
      | Some (i, ts) => if Z.eqb ts now then existing_id i else ret None
      | None => ret None
      end
  | DedupPolicy.Custom =>
      let* key := pending_custom_key in
      match key with
      | Some key =>
          let* idx := iget (DataKey.EventCustomKey key) in
          match idx with
          | Some i => existing_id i
          | None => ret None
          end
      | None => ret None
      end
  end.

(** The dedup map entry of a new event, src/lib.rs:2358-2381 *)
Definition dedup_record (policy : DedupPolicy) (event_type : Symbol) (submitter : Address)
    (metadata : Bytes) (index timestamp : Z) : M unit :=
  match policy with
  | DedupPolicy.ContentHash =>
      iset (DataKey.EventContentHash (compute_content_hash event_type submitter metadata)) index
  | DedupPolicy.ContentHashWithTimestamp =>
      iset (DataKey.EventContentHashWithTs (compute_content_hash event_type submitter metadata))
        (index, timestamp)
  | DedupPolicy.Custom =>
      let* key := pending_custom_key in
      match key with
      | Some key => iset (DataKey.EventCustomKey key) index
      | None => ret tt
      end
  | DedupPolicy.None => ret tt
  end.

(** ** Storing an event *)

(** [EventHeader { .. }] of an event, src/lib.rs:2334-2339 *)
Definition header_of (e : Event) : EventHeader :=
  {| eh_index := ev_index e; eh_timestamp := ev_timestamp e;
     eh_event_type := ev_event_type e; eh_submitter := ev_submitter e |}.

(** The four writes of a new event, src/lib.rs:2328-2345 *)
Definition store_event (id : Hash) (e : Event) : M unit :=
  do* iset (DataKey.EventData id) e in
  do* iset (DataKey.EventOrder (ev_index e)) id in
  do* iset (DataKey.EventHeaderKey id) (header_of e) in
  iset (DataKey.EventMetadata id) (ev_metadata e).

(** The copy in persistent storage when a TTL is configured,
    src/lib.rs:2347-2356 *)
Definition store_persistent (id : Hash) (e : Event) : M unit :=
  let* ttl := iget_or DataKey.EventTtl 0 in
  when (Z.ltb 0 ttl)
    (do* pset (DataKey.EventData id) e in
     pextend_ttl (DataKey.EventData id) ttl ttl).

(** The index update; [type_count_opt] is the count read before the push when
    the type is capped, and otherwise the count is read after it,
    src/lib.rs:2384-2396 *)
Definition update_indices (event_type : Symbol) (submitter : Address) (index : Z)
    (type_count_opt : option Z) : M unit :=
  let* low_cost := effective_low_cost_mode in
  when (negb low_cost)
    (do* push_type_index event_type index in
     do* push_submitter_index submitter index in
     let* n := match type_count_opt with
               | Some n => ret n
               | None => event_type_count event_type
               end in
     let* new_count := u32_add n 1 in
     iset (DataKey.EventTypeCount event_type) new_count).

(** [if let Some(mut rs) = get(RuntimeState) { rs.total_events = ..; set }],
    src/lib.rs:2403-2407 *)
Definition sync_runtime_total (total : Z) : M unit :=
  let* rs := iget DataKey.RuntimeState in
  match rs with
  | Some rs =>
      iset DataKey.RuntimeState
        {| rs_global_max_logs := rs_global_max_logs rs;
           rs_total_events := total;
           rs_paused := rs_paused rs;
           rs_allowlist_mode := rs_allowlist_mode rs;
           rs_low_cost_mode := rs_low_cost_mode rs;
           rs_emission_mode := rs_emission_mode rs;
           rs_global_metadata_max_size := rs_global_metadata_max_size rs |}
  | None => ret tt
  end.

(** The counters after an append, src/lib.rs:2398-2407 *)
Definition bump_totals (cfg : Config) : M unit :=
  let* total := u32_add (cfg_total_events cfg) 1 in
  do* iset DataKey.Config
        {| cfg_global_max_logs := cfg_global_max_logs cfg; cfg_total_events := total |} in
  sync_runtime_total total.

(** [if emission_mode != 3 { publish(("audit", "log_event"), ..) }],
    src/lib.rs:2409-2415 *)
Definition emit_log_event (submitter : Address) (event_type : Symbol) (index : Z) : M unit :=
  let* mode := effective_event_emission_mode in
  when (negb (Z.eqb mode 3))
    (publish ["audit"; "log_event"] [DAddr submitter; DSym event_type; DU32 index]).

(** The timestamp check against the predecessor, src/lib.rs:2299-2301 *)
Definition check_timestamp (index timestamp prev_timestamp : Z) : M unit :=
  if negb (Z.ltb 0 index) then ret tt
  else if Z.ltb timestamp prev_timestamp then raise ContractError.TimestampOutOfRange
  else
    let* limit := u64_add prev_timestamp MAX_TIMESTAMP_DRIFT_SECONDS in
    reject_if (Z.ltb limit timestamp) ContractError.TimestampOutOfRange.

(** The part of [log_event_with_hierarchy] that appends, once no duplicate was
    found, src/lib.rs:2287-2420 *)
Definition append_event (submitter : Address) (event_type : Symbol) (metadata : Bytes)
    (category sub_event_type : option Symbol) (cfg : Config) (type_count_opt : option Z)
    (policy : DedupPolicy) : M Hash :=
  let index := cfg_total_events cfg in
  let* timestamp := ledger_timestamp in
  let* prev := link_prev index in
  let '(prev_hash, prev_timestamp) := prev in
  do* check_timestamp index timestamp prev_timestamp in
  let* id := compute_event_id submitter event_type metadata timestamp index in
  let event_hash := compute_event_hash id prev_hash index timestamp in
  let* version := current_contract_version in
  let evt :=
    {| ev_index := index;
       ev_timestamp := timestamp;
       ev_event_type := event_type;
       ev_category := default "general"%string category;
       ev_submitter := submitter;
       ev_metadata := metadata;
       ev_sub_event_type := sub_event_type;
       ev_version := version;
       ev_event_hash := event_hash;
       ev_prev_hash := prev_hash;
       ev_parent_event_id := None |} in
  do* store_event id evt in
  do* store_persistent id evt in
  do* dedup_record policy event_type submitter metadata index timestamp in
  do* tremove DataKey.PendingCustomDedupKey in
  do* update_indices event_type submitter index type_count_opt in
  do* bump_totals cfg in
  do* emit_log_event submitter event_type index in
  do* tremove DataKey.LogEventReentrancyGuard in
  ret id.

(** The checks that precede deduplication: the runtime state and configuration
    read, the rate limit, the metadata checks and the global cap,
    src/lib.rs:2146-2205 *)
Definition admit_event (submitter : Address) (event_type : Symbol) (metadata : Bytes) : M Config :=
  let* rs := runtime_state in
  let* cfg := iget_or DataKey.Config
                {| cfg_global_max_logs := rs_global_max_logs rs;
                   cfg_total_events := rs_total_events rs |} in
  do* check_rate_limit submitter in
  do* check_metadata event_type metadata in
  do* reject_if (Z.leb (rs_global_max_logs rs) (rs_total_events rs))
        ContractError.GlobalMaxLogsReached in
  ret cfg.

(** The reentrancy guard, src/lib.rs:2100-2106 *)
Definition enter_guard : M unit :=
  let* busy := thas DataKey.LogEventReentrancyGuard in
  do* reject_if busy ContractError.ReentrancyDetected in
  tset DataKey.LogEventReentrancyGuard true.

(** Everything before the append: the authorisation, the guard, the checks, and
    the duplicate found, if any; [validate_event_type] is a no-op in the source,
    src/lib.rs:2095-2285 *)
Definition screening (submitter : Address) (event_type : Symbol) (metadata : Bytes) (force : bool)
    : M (Config * option Z * DedupPolicy * option Hash) :=
  do* require_initialized in
  do* require_auth submitter in
  do* require_role_min submitter Role.Submitter in
  do* enter_guard in
  do* reject_when_paused in
  do* check_submitter_lists submitter in
  let* cfg := admit_event submitter event_type metadata in
  let* type_count_opt := check_type_cap event_type in
  let* policy := effective_dedup_policy event_type in
  let* dup := if force then ret None else dedup_lookup policy event_type submitter metadata in
  ret (cfg, type_count_opt, policy, dup).

(** [log_event_with_hierarchy]: a duplicate returns early, with the guard still
    set, src/lib.rs:2086-2421 *)
Definition log_event_with_hierarchy (submitter : Address) (event_type : Symbol) (metadata : Bytes)
    (category sub_event_type : option Symbol) (force : bool) : M Hash :=
  let* r := screening submitter event_type metadata force in
  let '(cfg, type_count_opt, policy, dup) := r in
  match dup with
  | Some id => ret id
  | None =>
      append_event submitter event_type metadata category sub_event_type cfg type_count_opt policy
  end.

(** [log_event], src/lib.rs:2067-2083 *)
Definition log_event (submitter : Address) (event_type : Symbol) (metadata : Bytes)
    (category sub_event_type : option Symbol) (force : bool) : M Hash :=
  log_event_with_hierarchy submitter event_type metadata category sub_event_type force.

(** [log_event_with_custom_key], src/lib.rs:5607-5634 *)
Definition log_event_with_custom_key (submitter : Address) (event_type : Symbol)
    (metadata : Bytes) (category sub_event_type : option Symbol) (force : bool)
    (custom_key : option Hash) : M Hash :=
  do* match custom_key with
      | Some key => tset DataKey.PendingCustomDedupKey key
      | None => ret tt
      end in
  let* id := log_event_with_hierarchy submitter event_type metadata category sub_event_type force in
  do* tremove DataKey.PendingCustomDedupKey in
  ret id.

(** [log_event_signed], src/lib.rs:4654-4684 *)
Definition log_event_signed (submitter : Address) (event_type : Symbol)
    (metadata signature_payload : Bytes) : M Hash :=
  do* reject_if (negb (Z.eqb (len signature_payload) 96)) ContractError.InvalidSignature in
  let* event_id := log_event_with_hierarchy submitter event_type metadata None None false in
  do* iset (DataKey.EventSignature event_id) signature_payload in
  ret event_id.

(** [get_event_signature], src/lib.rs:4686-4691 *)
Definition get_event_signature (event_id : Hash) : M (option Bytes) :=
  do* require_initialized in iget (DataKey.EventSignature event_id).

End Logging.
