(* ===== verification/Batch.v ===== *)
(** * Nonces

    [log_event_with_nonce] and the nonce configuration.  The stored
    [NonceState] of a submitter advances with each accepted nonce; a
    per-submitter configuration, when present, takes its place in the checks.

    The second part of the file: batches. *)

From S2P Require Import Prelude Contract StorageLemmas Types Storage Codec Access Chain Logging.

Section Nonces.
Context `{H : Host}.

(** [default_nonce_window_size], src/lib.rs:5490-5496 *)
Definition default_nonce_window_size : M Z := iget_or DataKey.DefaultNonceWindowSize 1000.

(** The call of the function that the repository does not declare. *)
Definition default_nonce_max_value : M Z := fun _ s => Ok (nonce_max_default (inst s), s).

(** [get_submitter_nonce_state], src/lib.rs:2502-2512 *)
Definition get_submitter_nonce_state (submitter : Address) : M NonceState :=
  let* o := iget (DataKey.SubmitterNonce submitter) in
  match o with
  | Some st => ret st
  | None =>
      let* w := default_nonce_window_size in
      let* m := default_nonce_max_value in
      ret {| ns_last_nonce := 0; ns_window_size := w; ns_max_nonce := m |}
  end.

(** [get_submitter_nonce], src/lib.rs:2493-2500 *)
Definition get_submitter_nonce (submitter : Address) : M Z :=
  let* o := iget (DataKey.SubmitterNonce submitter) in
  ret (match o with Some st => ns_last_nonce st | None => 0 end).

(** The state the checks use: the configuration where there is one,
    src/lib.rs:2439-2456 *)
Definition effective_nonce_state (submitter : Address) : M NonceState :=
  let* st := get_submitter_nonce_state submitter in
  let* config := iget (DataKey.SubmitterNonceConfig submitter) in
  ret (default st config).

(** The exhaustion, ordering and window checks, src/lib.rs:2458-2475 *)
Definition check_nonce (st : NonceState) (nonce : Z) : M unit :=
  do* reject_if (Z.ltb (ns_max_nonce st) nonce) ContractError.NonceExhausted in
  do* reject_if (Z.eqb nonce 0 || Z.leb nonce (ns_last_nonce st)) ContractError.NonceTooLow in
  reject_if (Z.ltb 0 (ns_window_size st) && Z.ltb (ns_window_size st) (nonce - ns_last_nonce st))
    ContractError.NonceWindowExceeded.

(** [log_event_with_nonce]; [checked_sub] cannot fail after the ordering
    check, src/lib.rs:2423-2491 *)
Definition log_event_with_nonce (submitter : Address) (event_type : Symbol) (metadata : Bytes)
    (nonce : Z) : M Hash :=
  let* st := effective_nonce_state submitter in
  do* check_nonce st nonce in
  let* event_id := log_event_with_hierarchy submitter event_type metadata None None false in
  do* iset (DataKey.SubmitterNonce submitter)
        {| ns_last_nonce := nonce;
           ns_window_size := ns_window_size st;
           ns_max_nonce := ns_max_nonce st |} in
  ret event_id.

(** [set_submitter_nonce_config], src/lib.rs:2514-2551 *)
Definition set_submitter_nonce_config (caller submitter : Address) (window_size max_nonce : Z)
    : M unit :=
  do* admin_entry caller in
  do* reject_if (Z.eqb max_nonce 0) ContractError.NonceExhausted in
  let* current := get_submitter_nonce_state submitter in
  do* iset (DataKey.SubmitterNonceConfig submitter)
        {| ns_last_nonce := ns_last_nonce current;
           ns_window_size := window_size;
           ns_max_nonce := max_nonce |} in
  publish ["nonce_config_set"] [DAddr submitter; DU32 window_size; DU32 max_nonce].

(** [reset_submitter_nonce], src/lib.rs:2553-2580 *)
Definition reset_submitter_nonce (caller submitter : Address) : M unit :=
  do* admin_entry caller in
  let* st := get_submitter_nonce_state submitter in
  do* iset (DataKey.SubmitterNonce submitter)
        {| ns_last_nonce := 0;
           ns_window_size := ns_window_size st;
           ns_max_nonce := ns_max_nonce st |} in
  do* iremove (DataKey.SubmitterNonceConfig submitter) in
  publish ["nonce_reset"] [DAddr submitter; DAddr caller].

(** [set_default_nonce_config], src/lib.rs:2582-2605 *)
Definition set_default_nonce_config (caller : Address) (window_size max_nonce : Z) : M unit :=
  do* admin_entry caller in
  do* reject_if (Z.eqb max_nonce 0) ContractError.NonceExhausted in
  do* iset DataKey.DefaultNonceWindowSize window_size in
  do* iset DataKey.DefaultNonceMaxValue max_nonce in
  publish ["default_nonce_config_set"] [DAddr caller; DU32 window_size; DU32 max_nonce].

(** [get_default_nonce_window_size], src/lib.rs:2607-2610 *)
Definition get_default_nonce_window_size : M Z := default_nonce_window_size.

(** [get_default_nonce_max_value], src/lib.rs:2612-2615 *)
Definition get_default_nonce_max_value : M Z := default_nonce_max_value.

End Nonces.

(** * Batches

    [log_events]: one pass that authorises and checks every event of the
    batch, then one pass that appends them, carrying the running total and the
    hash of the last event. *)

Section Batch.
Context `{H : Host}.

(** An event of a batch: [(submitter, event_type, metadata)]. *)
Abbreviation BatchItem := (Address * Symbol * Bytes)%type.

(** The locals of the checking pass: [submitter_batch_counts],
    [type_batch_counts] and [authorized_submitters], src/lib.rs:1907-1909 *)
Record Checked := mkChecked {
  ck_submitters : list (Address * Z);
  ck_types : list (Symbol * Z);
  ck_authorized : list Address }.

(** The global state a batch starts from: the older keys stand in for a missing
    [RuntimeState], without the allowlist flag, src/lib.rs:1869-1893 *)
Definition batch_runtime_state : M RuntimeState :=
  let* rs := iget DataKey.RuntimeState in
  match rs with
  | Some rs => ret rs
  | None =>
      let* ocfg := iget DataKey.Config in
      let* cfg := unwrap ocfg in
      let* p := iget_or DataKey.Paused false in
      let* l := iget_or DataKey.LowCostMode false in
      let* e := iget_or DataKey.EventEmissionConfig 1 in
      ret {| rs_global_max_logs := cfg_global_max_logs cfg;
             rs_total_events := cfg_total_events cfg;
             rs_paused := p;
             rs_allowlist_mode := false;
             rs_low_cost_mode := l;
             rs_emission_mode := e;
             rs_global_metadata_max_size := 0 |}
  end.

(** The authorisation of a submitter, once per batch, src/lib.rs:1913-1926 *)
Definition authorize_once (ck : Checked) (submitter : Address) : M Checked :=
  if contains_addr (ck_authorized ck) submitter then ret ck
  else
    do* require_auth submitter in
    do* require_role_min submitter Role.Submitter in
    ret {| ck_submitters := ck_submitters ck;
           ck_types := ck_types ck;
           ck_authorized := ck_authorized ck ++ [submitter] |}.

(** The rate limit of a batch item, src/lib.rs:1936-1956 *)
Definition batch_rate_limit (now : Z) (ck : Checked) (submitter : Address) : M Checked :=
  let* limit := iget (DataKey.SubmitterRateLimit submitter) in
  match limit with
  | None => ret ck
  | Some limit =>
      let* st := iget_or (DataKey.SubmitterRateState submitter) (0, 0) in
      let '(last_ts, count) := st in
      let* r := increment_address_count (ck_submitters ck) submitter in
      let '(counts, batch_count) := r in
      do* (if Z.eqb now last_ts then
             let* n := u32_add count batch_count in
             reject_if (Z.ltb limit n) ContractError.RateLimitExceeded
           else reject_if (Z.ltb limit batch_count) ContractError.RateLimitExceeded) in
      ret {| ck_submitters := counts;
             ck_types := ck_types ck;
             ck_authorized := ck_authorized ck |}
  end.

(** The per-type cap of a batch item, src/lib.rs:1958-1969 *)
Definition batch_type_cap (ck : Checked) (event_type : Symbol) : M Checked :=
  let* cap := event_cap event_type in
  match cap with
  | None => ret ck
  | Some cap =>
      let* current_count := event_type_count event_type in
      let* r := increment_symbol_count (ck_types ck) event_type in
      let '(counts, batch_count) := r in
      let* n := u32_add current_count batch_count in
      do* reject_if (Z.ltb cap n) ContractError.EventTypeMaxLogsReached in
      ret {| ck_submitters := ck_submitters ck;
             ck_types := counts;
             ck_authorized := ck_authorized ck |}
  end.

(** One round of the checking pass, src/lib.rs:1911-1970 *)
Definition check_item (now : Z) (ck : Checked) (item : BatchItem) : M Checked :=
  let '(submitter, event_type, metadata) := item in
  let* ck := authorize_once ck submitter in
  do* check_metadata event_type metadata in
  let* ck := batch_rate_limit now ck submitter in
  batch_type_cap ck event_type.

(** The locals of the appending pass: [current_total], [prev_hash] and
    [result_indices], src/lib.rs:1972-1984 *)
Record Appended := mkAppended {
  ap_total : Z;
  ap_prev : Hash;
  ap_indices : list Z }.

(** The index update of a batch item, src/lib.rs:2020-2033 *)
Definition batch_indices (event_type : Symbol) (submitter : Address) (index : Z) : M unit :=
  let* low_cost := effective_low_cost_mode in
  when (negb low_cost)
    (do* push_type_index event_type index in
     do* push_submitter_index submitter index in
     let* n := iget_or (DataKey.EventTypeCount event_type) 0 in
     let* count := u32_add n 1 in
     iset (DataKey.EventTypeCount event_type) count).

(** One round of the appending pass, src/lib.rs:1986-2048 *)
Definition append_item (ap : Appended) (item : BatchItem) : M Appended :=
  let '(submitter, event_type, metadata) := item in
  let index := ap_total ap in
  let* timestamp := ledger_timestamp in
  let* event_id := compute_event_id submitter event_type metadata timestamp index in
  let event_hash := compute_event_hash event_id (ap_prev ap) index timestamp in
  let* version := current_contract_version in
  do* store_event event_id
        {| ev_index := index;
           ev_timestamp := timestamp;
           ev_event_type := event_type;
           ev_category := "general"%string;
           ev_submitter := submitter;
           ev_metadata := metadata;
           ev_sub_event_type := None;
           ev_version := version;
           ev_event_hash := event_hash;
           ev_prev_hash := ap_prev ap;
           ev_parent_event_id := None |} in
  do* batch_indices event_type submitter index in
  do* emit_log_event submitter event_type index in
  let* total := u32_add (ap_total ap) 1 in
  ret {| ap_total := total; ap_prev := event_hash; ap_indices := ap_indices ap ++ [index] |}.

(** [log_events], src/lib.rs:1865-2065 *)
Definition log_events (events : list BatchItem) : M (list Z) :=
  do* require_initialized in
  let* rs := batch_runtime_state in
  do* reject_if (rs_paused rs) ContractError.ContractPaused in
  let global_max := rs_global_max_logs rs in
  let total := rs_total_events rs in
  do* reject_if (Z.ltb u32_max (total + len events) || Z.ltb global_max (total + len events))
        ContractError.GlobalMaxLogsReached in
  let* now := ledger_timestamp in
  do* fold_m (check_item now) {| ck_submitters := []; ck_types := []; ck_authorized := [] |} events in
  let* prev := link_prev total in
  let* ap := fold_m append_item
               {| ap_total := total; ap_prev := prev.1; ap_indices := [] |} events in
  do* iset DataKey.Config
        {| cfg_global_max_logs := global_max; cfg_total_events := ap_total ap |} in
  do* sync_runtime_total (ap_total ap) in
  ret (ap_indices ap).

End Batch.
