(* ===== verification/Queries.v ===== *)
(** * Queries

    The read side of the ledger: lookups by identifier, position, type and
    submitter, the paginated lists, the scans over all events, and the
    statistics. *)

From S2P Require Import Prelude Contract StorageLemmas Types Storage Codec Access Chain Logging.

Section Queries.
Context `{H : Host}.

(** ** Single events *)

(** [stats.ttl_extensions = stats.ttl_extensions.saturating_add(1)] on the
    stored counters, src/lib.rs:2657-2663 *)
Definition count_ttl_extension : M unit :=
  let* stats := iget_or DataKey.TtlCleanupStats
                  {| ts_runs := 0; ts_ttl_extensions := 0; ts_cleaned := 0;
                     ts_last_run_ledger := 0 |} in
  iset DataKey.TtlCleanupStats
    {| ts_runs := ts_runs stats;
       ts_ttl_extensions := u32_sat_add (ts_ttl_extensions stats) 1;
       ts_cleaned := ts_cleaned stats;
       ts_last_run_ledger := ts_last_run_ledger stats |}.

(** [get_event], src/lib.rs:2639-2665 *)
Definition get_event (id : Hash) : M Event :=
  do* require_initialized in
  let* o := iget (DataKey.EventData id) in
  let* evt := unwrap_or_raise o ContractError.EventDoesNotExist in
  let* ttl := iget_or DataKey.EventTtl 0 in
  let* copied := phas (DataKey.EventData id) in
  do* when (Z.ltb 0 ttl && copied)
        (do* pextend_ttl (DataKey.EventData id) ttl ttl in
         count_ttl_extension) in
  ret evt.

(** [get_event_metadata], src/lib.rs:2667-2678 *)
Definition get_event_metadata (id : Hash) : M Bytes :=
  do* require_initialized in
  let* o := iget (DataKey.EventData id) in
  let* evt := unwrap_or_raise o ContractError.EventDoesNotExist in
  ret (ev_metadata evt).

(** [get_event_header], src/lib.rs:2680-2696 *)
Definition get_event_header (id : Hash) : M EventHeader :=
  do* require_initialized in
  let* o := iget (DataKey.EventData id) in
  let* evt := unwrap_or_raise o ContractError.EventDoesNotExist in
  ret (header_of evt).

(** [get_event_by_order], src/lib.rs:2698-2714 *)
Definition get_event_by_order (order : Z) : M Event :=
  do* require_initialized in
  let* oid := iget (DataKey.EventOrder order) in
  let* id := unwrap_or_raise oid ContractError.EventDoesNotExist in
  let* oevt := iget (DataKey.EventData id) in
  unwrap_or_raise oevt ContractError.EventDoesNotExist.

(** [get_event_type_count], src/lib.rs:2630-2637 *)
Definition get_event_type_count (event_type : Symbol) : M Z :=
  iget_or (DataKey.EventTypeCount event_type) 0.

(** [event_count], src/lib.rs:2716-2722 *)
Definition event_count (event_type : Symbol) : M Z :=
  do* require_initialized in
  let* low_cost := effective_low_cost_mode in
  do* reject_if low_cost ContractError.CapNotSet in
  event_type_count event_type.

(** [get(EventOrder(i)).unwrap()] then [get(EventData(id)).unwrap()],
    src/lib.rs:2729-2730 *)
Definition event_at_unwrap (i : Z) : M (Hash * Event) :=
  let* oid := iget (DataKey.EventOrder i) in
  let* id := unwrap oid in
  let* oevt := iget (DataKey.EventData id) in
  let* evt := unwrap oevt in
  ret (id, evt).

(** [get_event_by_type], src/lib.rs:3114-3143 *)
Definition get_event_by_type (event_type : Symbol) (type_index : Z) : M Event :=
  do* require_initialized in
  let* low_cost := effective_low_cost_mode in
  do* reject_if low_cost ContractError.EventTypeIndexOutOfBounds in
  let* count := event_type_count event_type in
  do* reject_if (Z.eqb count 0) ContractError.NoEventsForType in
  do* reject_if (Z.leb count type_index) ContractError.EventTypeIndexOutOfBounds in
  let* global_order := get_type_index event_type type_index in
  let* oid := iget (DataKey.EventOrder global_order) in
  let* event_id := unwrap_or_raise oid ContractError.EventTypeIndexOutOfBounds in
  let* oevt := iget (DataKey.EventData event_id) in
  unwrap_or_raise oevt ContractError.EventDoesNotExist.

(** [submitter_event_count], src/lib.rs:3226-3230 *)
Definition submitter_event_count (submitter : Address) : M Z :=
  do* require_initialized in submitter_count submitter.

(** [get_event_by_submitter], src/lib.rs:3232-3264 *)
Definition get_event_by_submitter (submitter : Address) (submitter_index : Z) : M Event :=
  do* require_initialized in
  let* count := submitter_count submitter in
  do* reject_if (Z.eqb count 0) ContractError.NoEventsForType in
  do* reject_if (Z.leb count submitter_index) ContractError.EventTypeIndexOutOfBounds in
  let* global_order := get_submitter_index submitter submitter_index in
  let* oid := iget (DataKey.EventOrder global_order) in
  let* event_id := unwrap_or_raise oid ContractError.EventDoesNotExist in
  let* oevt := iget (DataKey.EventData event_id) in
  unwrap_or_raise oevt ContractError.EventDoesNotExist.

(** [find_event_by_content], src/lib.rs:4693-4710 *)
Definition find_event_by_content (event_type : Symbol) (submitter : Address) (metadata : Bytes)
    : M (option Event) :=
  do* require_initialized in
  let* idx := iget (DataKey.EventContentHash
                      (compute_content_hash event_type submitter metadata)) in
  match idx with
  | Some index =>
      let* oid := iget (DataKey.EventOrder index) in
      let* id := unwrap oid in
      iget (DataKey.EventData id)
  | None => ret None
  end.

(** ** Pages *)

(** [for i in start..end { results.push_back(get(i)) }], src/lib.rs:3159-3163 *)
Definition collect (get : Z -> M Event) (start stop : Z) : M (list Event) :=
  fold_m (fun results i => let* e := get i in ret (results ++ [e])) [] (range start stop).

(** The end of a page: [offset.saturating_add(limit).min(total)],
    src/lib.rs:3158 *)
Definition page_end (offset limit total : Z) : Z := Z.min (u32_sat_add offset limit) total.

(** [list_events], src/lib.rs:3145-3164 *)
Definition list_events (offset limit : Z) : M (list Event) :=
  if Z.eqb limit 0 then ret []
  else
    do* reject_if (Z.ltb 100 limit) ContractError.InvalidPaginationParams in
    let* total := total_events in
    if Z.leb total offset then ret []
    else collect get_event_by_order offset (page_end offset limit total).

(** [list_events_by_type], src/lib.rs:3166-3185 *)
Definition list_events_by_type (event_type : Symbol) (offset limit : Z) : M (list Event) :=
  if Z.eqb limit 0 then ret []
  else
    do* reject_if (Z.ltb 100 limit) ContractError.InvalidPaginationParams in
    let* total := event_type_count event_type in
    if Z.leb total offset then ret []
    else collect (get_event_by_type event_type) offset (page_end offset limit total).

(** [get_events_by_type], src/lib.rs:3187-3222 *)
Definition get_events_by_type (event_type : Symbol) (start limit : Z) : M (list Event) :=
  do* require_initialized in
  if Z.eqb limit 0 then ret []
  else
    do* reject_if (Z.ltb 100 limit) ContractError.InvalidPaginationParams in
    let* total := event_type_count event_type in
    if Z.eqb total 0 || Z.leb total start then ret []
    else collect (get_event_by_type event_type) start (page_end start limit total).

(** [get_events_by_submitter], src/lib.rs:3266-3300 *)
Definition get_events_by_submitter (submitter : Address) (start limit : Z) : M (list Event) :=
  do* require_initialized in
  if Z.eqb limit 0 then ret []
  else
    do* reject_if (Z.ltb 100 limit) ContractError.InvalidPaginationParams in
    let* total := submitter_count submitter in
    if Z.eqb total 0 || Z.leb total start then ret []
    else collect (get_event_by_submitter submitter) start (page_end start limit total).

(** ** Scans *)

(** The loop that keeps the events of [0..total] a test accepts,
    src/lib.rs:3320-3327 *)
Definition scan_matches (test : Event -> bool) (total : Z) : M (list Event) :=
  fold_m (fun found i =>
            let* evt := get_event_by_order i in
            ret (if test evt then found ++ [evt] else found))
    [] (range 0 total).

(** [for i in offset..end { results.push_back(matches.get(i).unwrap()) }],
    src/lib.rs:3328-3338 *)
Definition page_of (found : list Event) (offset limit : Z) : M (list Event) :=
  if Z.leb (len found) offset then ret []
  else collect (fun i => unwrap (vget found i)) offset (page_end offset limit (len found)).

(** [get_events_by_time_range], src/lib.rs:3302-3339 *)
Definition get_events_by_time_range (start_time end_time offset limit : Z) : M (list Event) :=
  if Z.eqb limit 0 then ret []
  else
    do* reject_if (Z.ltb 100 limit) ContractError.InvalidPaginationParams in
    if Z.ltb end_time start_time then ret []
    else
      let* total := total_events in
      let* found := scan_matches (fun evt => Z.leb start_time (ev_timestamp evt)
                                             && Z.leb (ev_timestamp evt) end_time) total in
      page_of found offset limit.

(** [search_events], src/lib.rs:3341-3369 *)
Definition search_events (query : Bytes) (offset limit : Z) : M (list Event) :=
  if Z.eqb limit 0 then ret []
  else
    do* reject_if (Z.ltb 100 limit) ContractError.InvalidPaginationParams in
    let* total := total_events in
    let* found := scan_matches (fun evt => bytes_contains (ev_metadata evt) query) total in
    page_of found offset limit.

(** [event_count_by_category], src/lib.rs:2724-2736 *)
Definition event_count_by_category (category : Symbol) : M Z :=
  let* total := total_events in
  fold_m (fun cnt i =>
            let* e := event_at_unwrap i in
            if bool_decide (ev_category e.2 = category) then u32_add cnt 1 else ret cnt)
    0 (range 0 total).

(** The [while i < total && added < limit] loop of [list_events_by_category];
    [added] is the length of [out], src/lib.rs:2747-2761 *)
Fixpoint category_loop (category : Symbol) (limit : Z) (out : list EventHeader) (l : list Z)
    : M (list EventHeader) :=
  match l with
  | [] => ret out
  | i :: l =>
      if Z.ltb (len out) limit then
        let* e := event_at_unwrap i in
        category_loop category limit
          (if bool_decide (ev_category e.2 = category) then out ++ [header_of e.2] else out) l
      else ret out
  end.

(** [list_events_by_category], src/lib.rs:2738-2763 *)
Definition list_events_by_category (category : Symbol) (start limit : Z) : M (list EventHeader) :=
  let* total := total_events in
  if Z.leb total start then ret []
  else category_loop category limit [] (range start total).

(** ** Statistics *)

(** [increment_type_count], src/lib.rs:5413-5422 *)
Definition increment_type_count (counts : list (Symbol * Z)) (event_type : Symbol)
    : M (list (Symbol * Z)) :=
  let* r := increment_count counts event_type in ret r.1.

(** [increment_submitter_count], src/lib.rs:5424-5433 *)
Definition increment_submitter_count (counts : list (Address * Z)) (submitter : Address)
    : M (list (Address * Z)) :=
  let* r := increment_count counts submitter in ret r.1.

(** [if elapsed <= window { n += 1 }], src/lib.rs:5391-5399 *)
Definition count_recent (n elapsed window : Z) : M Z :=
  if Z.leb elapsed window then u32_add n 1 else ret n.

(** One round of [collect_statistics]; [st_total_events] is already final,
    src/lib.rs:5383-5401 *)
Definition collect_step (now : Z) (st : ContractStatistics) (i : Z) : M ContractStatistics :=
  let* e := event_at_unwrap i in
  let evt := e.2 in
  let* by_type := increment_type_count (st_events_by_type st) (ev_event_type evt) in
  let* by_submitter := increment_submitter_count (st_top_submitters st) (ev_submitter evt) in
  let* recent :=
    if Z.leb (ev_timestamp evt) now then
      let elapsed := now - ev_timestamp evt in
      let* h := count_recent (st_events_last_hour st) elapsed 3600 in
      let* d := count_recent (st_events_last_day st) elapsed 86400 in
      let* w := count_recent (st_events_last_week st) elapsed 604800 in
      ret (h, d, w)
    else ret (st_events_last_hour st, st_events_last_day st, st_events_last_week st) in
  let '(h, d, w) := recent in
  ret {| st_total_events := st_total_events st;
         st_events_by_type := by_type;
         st_events_last_hour := h;
         st_events_last_day := d;
         st_events_last_week := w;
         st_top_submitters := by_submitter |}.

(** [collect_statistics], src/lib.rs:5369-5411 *)
Definition collect_statistics : M ContractStatistics :=
  let* cfg := iget DataKey.Config in
  let total := match cfg with Some c => cfg_total_events c | None => 0 end in
  let* now := ledger_timestamp in
  fold_m (collect_step now)
    {| st_total_events := total; st_events_by_type := []; st_events_last_hour := 0;
       st_events_last_day := 0; st_events_last_week := 0; st_top_submitters := [] |}
    (range 0 total).

(** [get_statistics], src/lib.rs:4524-4531 *)
Definition get_statistics (caller : Address) : M ContractStatistics :=
  do* require_initialized in
  do* require_auth caller in
  do* require_role_min caller Role.Auditor in
  collect_statistics.

(** [get_metadata_max_size], src/lib.rs:4517-4522 *)
Definition get_metadata_max_size (event_type : Symbol) : M Z :=
  do* require_initialized in effective_metadata_max_size event_type.

End Queries.
