(* ===== verification/Versions.v ===== *)
(** * Updating an event and its versions

    [update_event] and [rollback_event] replace the event at a position, keep
    every version of it, and rebuild the hash chain behind it; the history,
    the tags and the field-level diff read the versions back. *)

From S2P Require Import Prelude Contract StorageLemmas Types Storage Codec Access Chain Logging Queries.

Section Versions.
Context `{H : Host}.

(** The event with another [prev_hash] and the hash recomputed for it,
    src/lib.rs:3476-3478 *)
Definition relink (e : Event) (id prev_hash : Hash) (i : Z) : Event :=
  {| ev_index := ev_index e;
     ev_timestamp := ev_timestamp e;
     ev_event_type := ev_event_type e;
     ev_category := ev_category e;
     ev_submitter := ev_submitter e;
     ev_metadata := ev_metadata e;
     ev_sub_event_type := ev_sub_event_type e;
     ev_version := ev_version e;
     ev_event_hash := compute_event_hash id prev_hash i (ev_timestamp e);
     ev_prev_hash := prev_hash;
     ev_parent_event_id := ev_parent_event_id e |}.

(** One round of the loop that rebuilds the chain behind position [index],
    carrying [next_prev_hash], src/lib.rs:3468-3486 *)
Definition rehash_step (next_prev_hash : Hash) (i : Z) : M Hash :=
  let* r := event_at_unwrap i in
  let '(event_id, e) := r in
  let later_event := relink e event_id next_prev_hash i in
  do* iset (DataKey.EventData event_id) later_event in
  do* iset (DataKey.EventMeta event_id) later_event in
  ret (ev_event_hash later_event).

(** [for i in index + 1..total { .. }], src/lib.rs:3653-3683 *)
Definition rehash_from (next_prev_hash : Hash) (index total : Z) : M unit :=
  let* first := u32_add index 1 in
  do* fold_m rehash_step next_prev_hash (range first total) in
  ret tt.

(** The event with another parent, src/lib.rs:3506-3506 *)
Definition reparent (e : Event) (parent : option Hash) : Event :=
  {| ev_index := ev_index e;
     ev_timestamp := ev_timestamp e;
     ev_event_type := ev_event_type e;
     ev_category := ev_category e;
     ev_submitter := ev_submitter e;
     ev_metadata := ev_metadata e;
     ev_sub_event_type := ev_sub_event_type e;
     ev_version := ev_version e;
     ev_event_hash := ev_event_hash e;
     ev_prev_hash := ev_prev_hash e;
     ev_parent_event_id := parent |}.

(** One round of the loop that redirects the children of the replaced event,
    src/lib.rs:3488-3512 *)
Definition reparent_step (current_id new_id : Hash) (_ : unit) (i : Z) : M unit :=
  let* r := event_at_unwrap i in
  let '(event_id, e) := r in
  when (bool_decide (ev_parent_event_id e = Some current_id))
    (do* iset (DataKey.EventData event_id) (reparent e (Some new_id)) in
     iset (DataKey.EventMeta event_id) (reparent e (Some new_id))).

(** The [prev_hash] of a replaced event, read from its predecessor,
    src/lib.rs:3419-3425 *)
Definition predecessor_hash (index : Z) : M Hash :=
  if Z.eqb index 0 then ret zero_hash
  else
    let* r := event_at_unwrap (index - 1) in
    ret (ev_event_hash r.2).

(** The writes that put the replacement at its position, src/lib.rs:3448-3466 *)
Definition replace_event (index : Z) (new_id : Hash) (e : Event) : M unit :=
  do* iset (DataKey.EventData new_id) e in
  do* iset (DataKey.EventOrder index) new_id in
  do* iset (DataKey.EventHeaderKey new_id) (header_of e) in
  do* iset (DataKey.EventMeta new_id) e in
  iset (DataKey.EventMetadata new_id) (ev_metadata e).

(** The entry of version 0, taken from the event itself, src/lib.rs:3410-3416 *)
Definition original_version (e : Event) : EventVersion :=
  {| vn_version := 0; vn_data := e; vn_updated_at := ev_timestamp e;
     vn_updated_by := ev_submitter e |}.

(** [EventVersions(index)] with the original put first when there is none yet,
    src/lib.rs:3403-3417 *)
Definition versions_of (index : Z) (current : Event) : M (list EventVersion) :=
  let* versions := iget_or (DataKey.EventVersions index) [] in
  ret (if bool_decide (versions = []) then [original_version current] else versions).

(** The version entry of a replacement is appended, src/lib.rs:3443-3449 *)
Definition push_version (index : Z) (versions : list EventVersion) (e : Event) (caller : Address)
    : M unit :=
  let* now := ledger_timestamp in
  iset (DataKey.EventVersions index)
    (versions ++ [{| vn_version := len versions; vn_data := e; vn_updated_at := now;
                     vn_updated_by := caller |}]).

(** The event that replaces [current] at [index] with new metadata,
    src/lib.rs:3427-3441 *)
Definition updated_event (current : Event) (index : Z) (new_id prev_hash : Hash)
    (new_metadata : Bytes) (version : Z) : Event :=
  {| ev_index := index;
     ev_timestamp := ev_timestamp current;
     ev_event_type := ev_event_type current;
     ev_category := ev_category current;
     ev_submitter := ev_submitter current;
     ev_metadata := new_metadata;
     ev_sub_event_type := ev_sub_event_type current;
     ev_version := version;
     ev_event_hash := compute_event_hash new_id prev_hash index (ev_timestamp current);
     ev_prev_hash := prev_hash;
     ev_parent_event_id := ev_parent_event_id current |}.

(** The part of [update_event] that runs when the identifier changes,
    src/lib.rs:3399-3522 *)
Definition apply_update (caller : Address) (index total : Z) (current_id new_id : Hash)
    (current : Event) (new_metadata : Bytes) : M Hash :=
  let* versions := versions_of index current in
  let* prev_hash := predecessor_hash index in
  let* version := current_contract_version in
  let e := updated_event current index new_id prev_hash new_metadata version in
  do* push_version index versions e caller in
  do* replace_event index new_id e in
  do* rehash_from (ev_event_hash e) index total in
  do* fold_m (reparent_step current_id new_id) tt (range 0 total) in
  let* now := ledger_timestamp in
  do* publish ["event_updated"] [DU32 index; DHash current_id; DHash new_id; DAddr caller; DU64 now] in
  ret new_id.

(** [update_event], src/lib.rs:3371-3523 *)
Definition update_event (caller : Address) (index : Z) (new_metadata : Bytes) : M Hash :=
  do* require_auth caller in
  do* require_owner_or_multisig caller in
  let* total := total_events in
  do* reject_if (Z.leb total index) ContractError.EventDoesNotExist in
  let* r := event_at_unwrap index in
  let '(current_id, current) := r in
  do* check_metadata (ev_event_type current) new_metadata in
  let* new_id := compute_event_id (ev_submitter current) (ev_event_type current) new_metadata
                   (ev_timestamp current) index in
  if bool_decide (new_id = current_id) then ret current_id
  else apply_update caller index total current_id new_id current new_metadata.

(** [get_event_history], src/lib.rs:3525-3550 *)
Definition get_event_history (index : Z) : M (list EventVersion) :=
  let* total := total_events in
  if Z.leb total index then ret []
  else
    let* o := iget (DataKey.EventVersions index) in
    match o with
    | Some versions => ret versions
    | None => let* r := event_at_unwrap index in ret [original_version r.2]
    end.

(** The event a rollback writes, src/lib.rs:3608-3620 *)
Definition restored_event (restored : Event) (index : Z) (new_id prev_hash : Hash) (version : Z)
    : Event :=
  {| ev_index := ev_index restored;
     ev_timestamp := ev_timestamp restored;
     ev_event_type := ev_event_type restored;
     ev_category := ev_category restored;
     ev_submitter := ev_submitter restored;
     ev_metadata := ev_metadata restored;
     ev_sub_event_type := ev_sub_event_type restored;
     ev_version := version;
     ev_event_hash := compute_event_hash new_id prev_hash index (ev_timestamp restored);
     ev_prev_hash := prev_hash;
     ev_parent_event_id := ev_parent_event_id restored |}.

(** [rollback_event], src/lib.rs:3552-3691 *)
Definition rollback_event (caller : Address) (index target_version : Z) : M Hash :=
  do* require_auth caller in
  do* require_owner_or_multisig caller in
  let* total := total_events in
  do* reject_if (Z.leb total index) ContractError.EventDoesNotExist in
  let* history := get_event_history index in
  do* reject_if (Z.leb (len history) target_version) ContractError.InvalidVersion in
  let* target := unwrap (vget history target_version) in
  let restored := vn_data target in
  let* new_id := compute_event_id (ev_submitter restored) (ev_event_type restored)
                   (ev_metadata restored) (ev_timestamp restored) index in
  let* oid := iget (DataKey.EventOrder index) in
  let* current_id := unwrap oid in
  if bool_decide (new_id = current_id) then ret new_id
  else
    let* prev_hash := predecessor_hash index in
    let* version := current_contract_version in
    let e := restored_event restored index new_id prev_hash version in
    do* push_version index history e caller in
    do* replace_event index new_id e in
    do* rehash_from (ev_event_hash e) index total in
    let* now := ledger_timestamp in
    do* publish ["versioning"; "event_rolled_back"]
          [DU32 index; DU32 target_version; DAddr caller; DU64 now] in
    ret new_id.

(** [get_event_version_count], src/lib.rs:3693-3697 *)
Definition get_event_version_count (index : Z) : M Z :=
  let* history := get_event_history index in ret (len history).

(** [len_a.cmp(&len_b) as i32], src/lib.rs:3714-3714 *)
Definition cmp_i32 (a b : Z) : Z := match Z.compare a b with Lt => -1 | Eq => 0 | Gt => 1 end.

(** [compare_event_versions], src/lib.rs:3699-3715 *)
Definition compare_event_versions (index a b : Z) : M Z :=
  let* history := get_event_history index in
  if bool_decide (history = []) then ret 0
  else
    do* reject_if (Z.leb (len history) a || Z.leb (len history) b) ContractError.InvalidVersion in
    let* va := unwrap (vget history a) in
    let* vb := unwrap (vget history b) in
    ret (cmp_i32 (len (ev_metadata (vn_data va))) (len (ev_metadata (vn_data vb)))).

(** ** Audit trail, tags, diffs *)

(** [get_event_audit_trail], src/lib.rs:5734-5762 *)
Definition get_event_audit_trail (index : Z) : M (list EventVersion) :=
  do* require_initialized in
  let* total := total_events in
  if Z.leb total index then ret []
  else
    let* o := iget (DataKey.EventVersions index) in
    match o with
    | Some versions => ret versions
    | None => let* r := event_at_unwrap index in ret [original_version r.2]
    end.

(** [tag_event_version], src/lib.rs:5764-5783 *)
Definition tag_event_version (caller : Address) (index version : Z) (tag : Symbol) : M unit :=
  do* admin_entry caller in
  let* total := total_events in
  do* reject_if (Z.leb total index) ContractError.EventDoesNotExist in
  let* trail := get_event_audit_trail index in
  do* reject_if (Z.leb (len trail) version) ContractError.InvalidVersion in
  do* iset (DataKey.EventVersionTag index version) tag in
  publish ["versioning"; "version_tagged"] [DAddr caller; DU32 index; DU32 version; DSym tag].

(** [get_event_version_tag], src/lib.rs:5785-5789 *)
Definition get_event_version_tag (index version : Z) : M (option Symbol) :=
  do* require_initialized in iget (DataKey.EventVersionTag index version).

(** [push_field_change], src/lib.rs:5967-5975 *)
Definition push_field_change (changes : list FieldChange) (field : Symbol) (from to : Bytes)
    : list FieldChange :=
  if bool_decide (from <> to) then
    changes ++ [{| fc_field := field; fc_from := from; fc_to := to |}]
  else changes.

(** [diff_events], with [symbol_bytes] and [strkey_bytes],
    src/lib.rs:5955-5987 *)
Definition diff_events (from to : Event) : list FieldChange :=
  let changes := push_field_change [] "metadata" (ev_metadata from) (ev_metadata to) in
  let changes := push_field_change changes "event_type"
                   (str_bytes (ev_event_type from)) (str_bytes (ev_event_type to)) in
  let changes := push_field_change changes "category"
                   (str_bytes (ev_category from)) (str_bytes (ev_category to)) in
  let changes := push_field_change changes "submitter"
                   (str_bytes (ev_submitter from)) (str_bytes (ev_submitter to)) in
  let changes := push_field_change changes "timestamp"
                   (u64_to_bytes (ev_timestamp from)) (u64_to_bytes (ev_timestamp to)) in
  push_field_change changes "version"
    (u32_to_bytes (ev_version from)) (u32_to_bytes (ev_version to)).

(** [get_event_diff], src/lib.rs:5791-5805 *)
Definition get_event_diff (index from_version to_version : Z) : M (list FieldChange) :=
  do* require_initialized in
  let* trail := get_event_audit_trail index in
  if bool_decide (trail = []) then ret []
  else
    do* reject_if (Z.leb (len trail) from_version || Z.leb (len trail) to_version)
          ContractError.InvalidVersion in
    let* from := unwrap (vget trail from_version) in
    let* to := unwrap (vget trail to_version) in
    ret (diff_events (vn_data from) (vn_data to)).

(** [compare_event_versions_detailed], src/lib.rs:5807-5833 *)
Definition compare_event_versions_detailed (index from_version to_version : Z)
    : M VersionComparison :=
  do* require_initialized in
  let* trail := get_event_audit_trail index in
  do* reject_if (bool_decide (trail = [])) ContractError.EventDoesNotExist in
  do* reject_if (Z.leb (len trail) from_version || Z.leb (len trail) to_version)
        ContractError.InvalidVersion in
  let* from := unwrap (vget trail from_version) in
  let* to := unwrap (vget trail to_version) in
  let changes := diff_events (vn_data from) (vn_data to) in
  ret {| vc_index := index;
         vc_from_version := from_version;
         vc_to_version := to_version;
         vc_same := bool_decide (changes = []);
         vc_changes := changes;
         vc_from_hash := ev_event_hash (vn_data from);
         vc_to_hash := ev_event_hash (vn_data to) |}.

End Versions.
