(* ===== verification/Archive.v ===== *)
(** * Snapshots

    A snapshot records the event count and the hash of the last event; a later
    check compares that hash with the event now at the position.

    The second part of the file: the archive. *)

From S2P Require Import Prelude Contract StorageLemmas Types Storage Codec Access Chain Logging Queries.

Section Snapshots.
Context `{H : Host}.

(** [create_snapshot], src/lib.rs:3735-3789 *)
Definition create_snapshot (caller : Address) (description : Bytes) : M Z :=
  do* admin_entry caller in
  let* total := total_events in
  let* timestamp := ledger_timestamp in
  let* event_hash := if Z.eqb total 0 then ret zero_hash
                     else let* r := event_at_unwrap (total - 1) in ret (ev_event_hash r.2) in
  let* snap_id := iget_or DataKey.SnapshotCount 0 in
  do* iset (DataKey.SnapshotData snap_id)
        {| sn_id := snap_id;
           sn_timestamp := timestamp;
           sn_event_count := total;
           sn_event_hash := event_hash;
           sn_description := description |} in
  let* next := u32_add snap_id 1 in
  do* iset DataKey.SnapshotCount next in
  do* publish ["snapshot_created"] [DU32 snap_id; DU64 timestamp; DU32 total] in
  ret snap_id.

(** [get_snapshot], src/lib.rs:3791-3798 *)
Definition get_snapshot (snapshot_id : Z) : M Snapshot :=
  do* require_initialized in
  let* o := iget (DataKey.SnapshotData snapshot_id) in
  unwrap_or_raise o ContractError.SnapshotNotFound.

(** [snapshot_count], src/lib.rs:3800-3807 *)
Definition snapshot_count : M Z :=
  do* require_initialized in iget_or DataKey.SnapshotCount 0.

(** [verify_snapshot], src/lib.rs:3809-3843 *)
Definition verify_snapshot (snapshot_id : Z) : M bool :=
  let* snapshot := get_snapshot snapshot_id in
  let* current_total := total_events in
  if Z.ltb current_total (sn_event_count snapshot) then ret false
  else if Z.eqb (sn_event_count snapshot) 0 then
    ret (bool_decide (sn_event_hash snapshot = zero_hash))
  else
    let* last := event_at (sn_event_count snapshot - 1) in
    match last with
    | None => ret false
    | Some last_evt => ret (bool_decide (ev_event_hash last_evt = sn_event_hash snapshot))
    end.

End Snapshots.

(** * The archive

    [archive_events] copies the events older than a cutoff to the archive keys,
    compressed and, when configured, reduced to a reference to off-chain
    storage; a cursor keeps a later call from starting again. *)

Section Archive.
Context `{H : Host}.

(** [set_archive_config], src/lib.rs:5707-5722 *)
Definition set_archive_config (caller : Address) (config : ArchiveConfig) : M unit :=
  do* admin_entry caller in
  do* iset DataKey.ArchiveConfig config in
  publish ["archive"; "config_set"]
    [DAddr caller; DBool (ac_offchain_storage config); DU32 (ac_compression config)].

(** [get_archive_config], src/lib.rs:5724-5728 *)
Definition get_archive_config : M (option ArchiveConfig) :=
  do* require_initialized in iget DataKey.ArchiveConfig.

(** The two hexadecimal digits of a byte, src/lib.rs:5947-5951 *)
Definition hex_byte (b : Z) : Bytes :=
  [hex_digit (Z.land (Z.shiftr b 4) 15); hex_digit (Z.land b 15)].

(** [build_archive_url], src/lib.rs:5938-5953 *)
Definition build_archive_url (config : ArchiveConfig) (id : Hash) : Bytes :=
  ac_base_url config ++ (id ≫= hex_byte).

(** The locals of [archive_events], src/lib.rs:2784-2808 *)
Record Progress := mkProgress {
  pg_archived : Z;
  pg_compressed : Z;
  pg_offchain : Z;
  pg_moved : Z;
  pg_cursor : Z }.

(** The event with other metadata, src/lib.rs:2862-2863 *)
Definition with_metadata (e : Event) (m : Bytes) : Event :=
  {| ev_index := ev_index e;
     ev_timestamp := ev_timestamp e;
     ev_event_type := ev_event_type e;
     ev_category := ev_category e;
     ev_submitter := ev_submitter e;
     ev_metadata := m;
     ev_sub_event_type := ev_sub_event_type e;
     ev_version := ev_version e;
     ev_event_hash := ev_event_hash e;
     ev_prev_hash := ev_prev_hash e;
     ev_parent_event_id := ev_parent_event_id e |}.

(** [config.compression == 1], src/lib.rs:2836-2836 *)
Definition compressing (config : ArchiveConfig) : bool := Z.eqb (ac_compression config) 1.

(** The off-chain branch: header, tagged metadata and reference,
    src/lib.rs:2838-2863 *)
Definition archive_offchain (config : ArchiveConfig) (i : Z) (id : Hash) (e : Event) (meta : Bytes)
    : M unit :=
  let* now := ledger_timestamp in
  do* iset (DataKey.ArchivedEventMetadata id)
        (if compressing config then compress_bytes meta else tag_raw_bytes meta) in
  iset (DataKey.ArchivedEventRefKey id)
    {| ar_id := id;
       ar_index := i;
       ar_checksum := ev_event_hash e;
       ar_url := build_archive_url config id;
       ar_archived_at := now |}.

(** The on-chain branch: the full event, its metadata compressed when so
    configured, src/lib.rs:2864-2886 *)
Definition archive_onchain (config : ArchiveConfig) (id : Hash) (e : Event) (meta : Bytes)
    : M unit :=
  if compressing config then
    do* iset (DataKey.ArchivedEventData id) (with_metadata e (compress_bytes meta)) in
    iset (DataKey.ArchivedEventMetadata id) (compress_bytes meta)
  else
    do* iset (DataKey.ArchivedEventData id) e in
    iset (DataKey.ArchivedEventMetadata id) meta.

(** The copy of one event and the counters after it, src/lib.rs:2820-2897 *)
Definition archive_one (config : ArchiveConfig) (pg : Progress) (i : Z) (id : Hash) (e : Event)
    : M Progress :=
  let* header := iget (DataKey.EventHeaderKey id) in
  do* match header with
      | Some h => iset (DataKey.ArchivedEventHeaderKey id) h
      | None => ret tt
      end in
  let* meta := iget_or (DataKey.EventMetadata id) [] in
  do* (if ac_offchain_storage config then archive_offchain config i id e meta
       else archive_onchain config id e meta) in
  let* compressed := if compressing config then u32_add (pg_compressed pg) 1
                     else ret (pg_compressed pg) in
  let* offchain := if ac_offchain_storage config then u32_add (pg_offchain pg) 1
                   else ret (pg_offchain pg) in
  do* iset (DataKey.EventArchivedFlag id) true in
  do* iset (DataKey.ArchivedEventOrder (pg_archived pg)) id in
  let* archived := u32_add (pg_archived pg) 1 in
  let* moved := u32_add (pg_moved pg) 1 in
  let* next := u32_add i 1 in
  ret {| pg_archived := archived;
         pg_compressed := compressed;
         pg_offchain := offchain;
         pg_moved := moved;
         pg_cursor := next |}.

(** The progress with the cursor moved past a position that is skipped. *)
Definition skip_to (pg : Progress) (next : Z) : Progress :=
  {| pg_archived := pg_archived pg;
     pg_compressed := pg_compressed pg;
     pg_offchain := pg_offchain pg;
     pg_moved := pg_moved pg;
     pg_cursor := next |}.

(** The [while i < total] scan; [l] are the positions not yet visited and the
    [break] keeps the cursor where it is, src/lib.rs:2809-2898 *)
Fixpoint archive_loop (config : ArchiveConfig) (cutoff : Z) (pg : Progress) (l : list Z)
    : M Progress :=
  match l with
  | [] => ret pg
  | i :: l =>
      let* oid := iget (DataKey.EventOrder i) in
      let* id := unwrap oid in
      let* flagged := ihas (DataKey.EventArchivedFlag id) in
      if flagged then
        let* next := u32_add i 1 in
        archive_loop config cutoff (skip_to pg next) l
      else
        let* oevt := iget (DataKey.EventData id) in
        let* e := unwrap oevt in
        if Z.leb cutoff (ev_timestamp e) then ret pg
        else
          let* pg := archive_one config pg i id e in
          archive_loop config cutoff pg l
  end.

(** [archive_events], src/lib.rs:2765-2904 *)
Definition archive_events (caller : Address) (cutoff_timestamp : Z) : M Z :=
  do* require_auth caller in
  do* require_owner_or_multisig caller in
  let* total := total_events in
  let* config := iget_or DataKey.ArchiveConfig default_archive_config in
  let* archived := iget_or DataKey.ArchivedTotalEvents 0 in
  let* compressed := iget_or DataKey.ArchivedCompressedCount 0 in
  let* offchain := iget_or DataKey.ArchivedOffchainCount 0 in
  let* cursor := iget_or DataKey.ArchiveScanCursor 0 in
  let* pg := archive_loop config cutoff_timestamp
               {| pg_archived := archived; pg_compressed := compressed; pg_offchain := offchain;
                  pg_moved := 0; pg_cursor := cursor |}
               (range cursor total) in
  do* iset DataKey.ArchiveScanCursor (pg_cursor pg) in
  do* iset DataKey.ArchivedTotalEvents (pg_archived pg) in
  do* when (Z.ltb 0 (pg_moved pg))
        (do* iset DataKey.ArchivedCompressedCount (pg_compressed pg) in
         iset DataKey.ArchivedOffchainCount (pg_offchain pg)) in
  do* publish ["events_archived"] [DU32 (pg_moved pg)] in
  ret (pg_moved pg).

(** The event rebuilt from the parts kept for an off-chain archive,
    src/lib.rs:2921-2950 *)
Definition rebuild_archived (id : Hash) : M Event :=
  let* oproof := iget (DataKey.ArchivedEventRefKey id) in
  let* proof := unwrap_or_raise oproof ContractError.EventDoesNotExist in
  let* oheader := iget (DataKey.ArchivedEventHeaderKey id) in
  let* header := unwrap_or_raise oheader ContractError.EventDoesNotExist in
  let* stored := iget_or (DataKey.ArchivedEventMetadata id) [] in
  let* version := current_contract_version in
  ret {| ev_index := eh_index header;
         ev_timestamp := eh_timestamp header;
         ev_event_type := eh_event_type header;
         ev_category := "general"%string;
         ev_submitter := eh_submitter header;
         ev_metadata := expand_archived_metadata stored;
         ev_sub_event_type := None;
         ev_version := version;
         ev_event_hash := ar_checksum proof;
         ev_prev_hash := zero_hash;
         ev_parent_event_id := None |}.

(** [get_archived_event], src/lib.rs:2906-2951 *)
Definition get_archived_event (id : Hash) : M Event :=
  let* o := iget (DataKey.ArchivedEventData id) in
  match o with
  | Some e =>
      ret (if is_compressed_tag (ev_metadata e)
           then with_metadata e (expand_archived_metadata (ev_metadata e)) else e)
  | None => rebuild_archived id
  end.

(** [get_archived_event_ref], src/lib.rs:2953-2956 *)
Definition get_archived_event_ref (id : Hash) : M (option ArchivedEventRef) :=
  iget (DataKey.ArchivedEventRefKey id).

(** [verify_archived_event_checksum], src/lib.rs:2958-2969 *)
Definition verify_archived_event_checksum (id : Hash) (candidate : Event) : M bool :=
  let* o := iget (DataKey.ArchivedEventRefKey id) in
  ret (match o with
       | Some proof => bool_decide (ev_event_hash candidate = ar_checksum proof)
       | None => false
       end).

(** [get_archive_stats], src/lib.rs:2971-2991 *)
Definition get_archive_stats : M ArchiveStats :=
  do* require_initialized in
  let* archived := iget_or DataKey.ArchivedTotalEvents 0 in
  let* compressed := iget_or DataKey.ArchivedCompressedCount 0 in
  let* offchain := iget_or DataKey.ArchivedOffchainCount 0 in
  ret {| as_total_archived := archived;
         as_total_compressed := compressed;
         as_total_offchain := offchain |}.

(** [get_archived_event_count], src/lib.rs:2993-3015 *)
Definition get_archived_event_count : M Z :=
  let* total := iget_or DataKey.ArchivedTotalEvents 0 in
  fold_m (fun cnt i =>
            let* oid := iget (DataKey.ArchivedEventOrder i) in
            match oid with
            | Some id =>
                let* data := ihas (DataKey.ArchivedEventData id) in
                let* proof := ihas (DataKey.ArchivedEventRefKey id) in
                if data || proof then u32_add cnt 1 else ret cnt
            | None => ret cnt
            end)
    0 (range 0 total).

(** The loop of [list_archived_events], src/lib.rs:3028-3045 *)
Fixpoint list_archived_loop (limit : Z) (out : list EventHeader) (l : list Z)
    : M (list EventHeader) :=
  match l with
  | [] => ret out
  | i :: l =>
      if Z.ltb (len out) limit then
        let* oid := iget (DataKey.ArchivedEventOrder i) in
        let* header := match oid with
                       | Some id => iget (DataKey.ArchivedEventHeaderKey id)
                       | None => ret None
                       end in
        list_archived_loop limit (match header with Some h => out ++ [h] | None => out end) l
      else ret out
  end.

(** [list_archived_events], src/lib.rs:3017-3047 *)
Definition list_archived_events (start limit : Z) : M (list EventHeader) :=
  let* total := iget_or DataKey.ArchivedTotalEvents 0 in
  if Z.leb total start then ret []
  else list_archived_loop limit [] (range start total).

(** One round of [purge_archived_events], src/lib.rs:3062-3086 *)
Definition purge_step (cutoff_timestamp removed i : Z) : M Z :=
  let* oid := iget (DataKey.ArchivedEventOrder i) in
  match oid with
  | None => ret removed
  | Some id =>
      let* oevt := iget (DataKey.ArchivedEventData id) in
      match oevt with
      | None => ret removed
      | Some e =>
          if Z.ltb (ev_timestamp e) cutoff_timestamp then
            do* iremove (DataKey.ArchivedEventData id) in
            do* iremove (DataKey.ArchivedEventHeaderKey id) in
            do* iremove (DataKey.ArchivedEventMetadata id) in
            do* iremove (DataKey.ArchivedEventOrder i) in
            u32_add removed 1
          else ret removed
      end
  end.

(** [purge_archived_events], src/lib.rs:3049-3091 *)
Definition purge_archived_events (caller : Address) (cutoff_timestamp : Z) (confirm : bool) : M Z :=
  do* require_auth caller in
  do* require_owner_or_multisig caller in
  if negb confirm then ret 0
  else
    let* total := iget_or DataKey.ArchivedTotalEvents 0 in
    let* removed := fold_m (purge_step cutoff_timestamp) 0 (range 0 total) in
    do* publish ["archived_events_purged"] [DU32 removed] in
    ret removed.

End Archive.
