(* ===== verification/Governance.v ===== *)
(** * Governance

    The settings the owners control: caps, metadata limits and schemas, the
    TTL of persistent copies, webhooks, the submitter lists, the emission and
    cost modes, rate limits, and storage compaction.

    The second part of the file: deduplication policies. *)

From S2P Require Import Prelude Contract StorageLemmas Types Storage Codec Access Chain Logging.

Section Governance.
Context `{H : Host}.

(** [if let Some(mut rs) = get(RuntimeState) { .. set }], src/lib.rs:3915-3918 *)
Definition update_runtime (f : RuntimeState -> RuntimeState) : M unit :=
  let* rs := iget DataKey.RuntimeState in
  match rs with
  | Some rs => iset DataKey.RuntimeState (f rs)
  | None => ret tt
  end.

Definition with_global_max (v : Z) (rs : RuntimeState) : RuntimeState :=
  mkRuntimeState v (rs_total_events rs) (rs_paused rs) (rs_allowlist_mode rs)
    (rs_low_cost_mode rs) (rs_emission_mode rs) (rs_global_metadata_max_size rs).
Definition with_metadata_max (v : Z) (rs : RuntimeState) : RuntimeState :=
  mkRuntimeState (rs_global_max_logs rs) (rs_total_events rs) (rs_paused rs)
    (rs_allowlist_mode rs) (rs_low_cost_mode rs) (rs_emission_mode rs) v.
Definition with_allowlist (v : bool) (rs : RuntimeState) : RuntimeState :=
  mkRuntimeState (rs_global_max_logs rs) (rs_total_events rs) (rs_paused rs) v
    (rs_low_cost_mode rs) (rs_emission_mode rs) (rs_global_metadata_max_size rs).
Definition with_emission (v : Z) (rs : RuntimeState) : RuntimeState :=
  mkRuntimeState (rs_global_max_logs rs) (rs_total_events rs) (rs_paused rs)
    (rs_allowlist_mode rs) (rs_low_cost_mode rs) v (rs_global_metadata_max_size rs).
Definition with_low_cost (v : bool) (rs : RuntimeState) : RuntimeState :=
  mkRuntimeState (rs_global_max_logs rs) (rs_total_events rs) (rs_paused rs)
    (rs_allowlist_mode rs) v (rs_emission_mode rs) (rs_global_metadata_max_size rs).

(** ** Caps *)

(** [set_global_max_logs], src/lib.rs:3898-3923 *)
Definition set_global_max_logs (caller : Address) (new_max : Z) : M unit :=
  do* governance_entry caller in
  let* total := total_events in
  do* reject_if (Z.ltb new_max total) ContractError.MaxLogsBelowCurrentCount in
  let* ocfg := iget DataKey.Config in
  let* cfg := unwrap ocfg in
  let old_max := cfg_global_max_logs cfg in
  do* iset DataKey.Config
        {| cfg_global_max_logs := new_max; cfg_total_events := cfg_total_events cfg |} in
  do* iset DataKey.GlobalMaxLogs new_max in
  do* update_runtime (with_global_max new_max) in
  publish ["governance"; "set_global_max"] [DAddr caller; DU32 old_max; DU32 new_max].

(** [set_event_max_logs], src/lib.rs:3925-3957 *)
Definition set_event_max_logs (caller : Address) (event_type : Symbol) (new_max : Z) : M unit :=
  do* governance_entry caller in
  do* iset (DataKey.EventCapSet event_type) true in
  do* iset (DataKey.EventMaxLogs event_type) new_max in
  do* iset (DataKey.EventCapConfig event_type) (Some new_max) in
  do* iremove (DataKey.EventCapRemoved event_type) in
  let* low_cost := effective_low_cost_mode in
  let* capped := ihas (DataKey.EventCapConfig event_type) in
  when (negb low_cost && negb capped) (iset (DataKey.EventTypeIndices event_type) []).

(** [remove_event_cap], src/lib.rs:3959-3993 *)
Definition remove_event_cap (caller : Address) (event_type : Symbol) : M unit :=
  do* governance_entry caller in
  let* capped := ihas (DataKey.EventCapConfig event_type) in
  do* (if negb capped then
         let* removed := ihas (DataKey.EventCapRemoved event_type) in
         do* reject_if removed ContractError.CapAlreadyRemoved in
         raise ContractError.CapNeverSet
       else ret tt) in
  do* iremove (DataKey.EventCapConfig event_type) in
  do* iremove (DataKey.EventMaxLogs event_type) in
  do* iset (DataKey.EventCapRemoved event_type) true in
  publish ["governance"; "remove_event_cap"] [DAddr caller; DSym event_type].

(** [has_cap], src/lib.rs:3995-3998 *)
Definition has_cap (event_type : Symbol) : M bool :=
  do* require_initialized in ihas (DataKey.EventCapConfig event_type).

(** ** Metadata *)

(** [set_metadata_max_size], src/lib.rs:4039-4054 *)
Definition set_metadata_max_size (caller : Address) (max_size : Z) : M unit :=
  do* governance_entry caller in
  do* iset DataKey.GlobalMetadataMaxSize max_size in
  update_runtime (with_metadata_max max_size).

(** [set_event_metadata_max_size], src/lib.rs:4056-4068 *)
Definition set_event_metadata_max_size (caller : Address) (event_type : Symbol) (max_size : Z)
    : M unit :=
  do* governance_entry caller in iset (DataKey.EventMetadataMaxSize event_type) max_size.

(** [set_metadata_schema], src/lib.rs:4070-4087 *)
Definition set_metadata_schema (caller : Address) (event_type : Symbol) (schema : Bytes) : M unit :=
  do* governance_entry caller in
  do* iset (DataKey.MetadataSchema event_type) schema in
  publish ["governance"; "set_metadata_schema"] [DAddr caller; DSym event_type; DU32 (len schema)].

(** [get_metadata_schema], src/lib.rs:4089-4096 *)
Definition get_metadata_schema (event_type : Symbol) : M Bytes :=
  do* require_initialized in iget_or (DataKey.MetadataSchema event_type) [].

(** ** Time to live *)

(** [set_event_ttl], src/lib.rs:4229-4250 *)
Definition set_event_ttl (caller : Address) (ttl_ledgers : Z) : M unit :=
  do* governance_entry caller in
  let* old_ttl := iget_or DataKey.EventTtl 0 in
  do* iset DataKey.EventTtl ttl_ledgers in
  publish ["governance"; "set_event_ttl"] [DAddr caller; DU32 old_ttl; DU32 ttl_ledgers].

(** [get_event_ttl], src/lib.rs:4252-4255 *)
Definition get_event_ttl : M Z := iget_or DataKey.EventTtl 0.

(** The counters before the first cleanup, src/lib.rs:4322-4328 *)
Definition no_cleanup : TtlCleanupStats :=
  {| ts_runs := 0; ts_ttl_extensions := 0; ts_cleaned := 0; ts_last_run_ledger := 0 |}.

(** One round of the count of evicted copies, src/lib.rs:4287-4299 *)
Definition expired_step (removed i : Z) : M Z :=
  let* oid := iget (DataKey.EventOrder i) in
  match oid with
  | Some id =>
      let* alive := phas (DataKey.EventData id) in
      if alive then ret removed else u32_add removed 1
  | None => ret removed
  end.

(** [cleanup_expired_events], src/lib.rs:4259-4320 *)
Definition cleanup_expired_events (caller : Address) (start_index batch_size : Z) : M Z :=
  do* admin_entry caller in
  let* ttl := iget_or DataKey.EventTtl 0 in
  if Z.eqb ttl 0 then ret 0
  else
    let* total := total_events in
    let stop := if Z.ltb (u32_sat_add start_index batch_size) total
                then start_index + batch_size else total in
    let* removed := fold_m expired_step 0 (range start_index stop) in
    let* stats := iget_or DataKey.TtlCleanupStats no_cleanup in
    let* now := ledger_sequence in
    do* iset DataKey.TtlCleanupStats
          {| ts_runs := u32_sat_add (ts_runs stats) 1;
             ts_ttl_extensions := ts_ttl_extensions stats;
             ts_cleaned := u32_sat_add (ts_cleaned stats) removed;
             ts_last_run_ledger := now |} in
    do* publish ["ttl_cleanup"; "expired_removed"]
          [DAddr caller; DU32 start_index; DU32 stop; DU32 removed] in
    ret removed.

(** [get_cleanup_stats], src/lib.rs:4322-4328 *)
Definition get_cleanup_stats : M TtlCleanupStats := iget_or DataKey.TtlCleanupStats no_cleanup.

(** ** Webhooks *)

(** The opening lines of the webhook entry points: the legacy owner only,
    src/lib.rs:4335-4337 *)
Definition owner_entry (caller : Address) : M unit :=
  do* require_initialized in
  do* require_auth caller in
  require_owner caller.

(** [register_webhook], src/lib.rs:4329-4350 *)
Definition register_webhook (caller : Address) (event_type : Symbol) (url secret : Bytes) : M unit :=
  do* owner_entry caller in
  let* hooks := iget_or (DataKey.WebhookRegistrations event_type) [] in
  do* iset (DataKey.WebhookRegistrations event_type)
        (hooks ++ [{| wh_url := url; wh_secret := secret |}]) in
  publish ["governance"; "register_webhook"] [DAddr caller; DSym event_type; DBytes url].

(** The loop of [unregister_webhook]: the first entry with the URL is dropped,
    src/lib.rs:4361-4369 *)
Fixpoint remove_first_url (url : Bytes) (hooks : list WebhookEntry) : list WebhookEntry :=
  match hooks with
  | [] => []
  | h :: hooks =>
      if bool_decide (wh_url h = url) then hooks else h :: remove_first_url url hooks
  end.

(** [unregister_webhook], src/lib.rs:4352-4375 *)
Definition unregister_webhook (caller : Address) (event_type : Symbol) (url : Bytes) : M unit :=
  do* owner_entry caller in
  let* hooks := iget_or (DataKey.WebhookRegistrations event_type) [] in
  do* iset (DataKey.WebhookRegistrations event_type) (remove_first_url url hooks) in
  publish ["governance"; "unregister_webhook"] [DAddr caller; DSym event_type; DBytes url].

(** [get_webhooks], src/lib.rs:4377-4389 *)
Definition get_webhooks (event_type : Symbol) : M (list Bytes) :=
  let* hooks := iget_or (DataKey.WebhookRegistrations event_type) [] in
  ret (wh_url <$> hooks).

(** ** Submitter lists *)

(** [block_submitter], src/lib.rs:4440-4451 *)
Definition block_submitter (caller submitter : Address) : M unit :=
  do* admin_entry caller in
  do* iset (DataKey.SubmitterBlocklist submitter) true in
  publish ["submitter_blocked"] [DAddr submitter; DAddr caller].

(** [unblock_submitter], src/lib.rs:4453-4463 *)
Definition unblock_submitter (caller submitter : Address) : M unit :=
  do* admin_entry caller in
  do* iremove (DataKey.SubmitterBlocklist submitter) in
  publish ["submitter_unblocked"] [DAddr submitter; DAddr caller].

(** [enable_allowlist_mode], src/lib.rs:4465-4478 *)
Definition enable_allowlist_mode (caller : Address) : M unit :=
  do* admin_entry caller in
  do* iset DataKey.AllowlistMode true in
  do* update_runtime (with_allowlist true) in
  publish ["allowlist_enabled"] [DAddr caller].

(** [disable_allowlist_mode], src/lib.rs:4480-4488 *)
Definition disable_allowlist_mode (caller : Address) : M unit :=
  do* admin_entry caller in
  do* iset DataKey.AllowlistMode false in
  publish ["allowlist_disabled"] [DAddr caller].

(** [allow_submitter], src/lib.rs:4490-4501 *)
Definition allow_submitter (caller submitter : Address) : M unit :=
  do* admin_entry caller in
  do* iset (DataKey.SubmitterAllowlist submitter) true in
  publish ["submitter_allowed"] [DAddr submitter; DAddr caller].

(** [remove_submitter_from_allowlist], src/lib.rs:4503-4515 *)
Definition remove_submitter_from_allowlist (caller submitter : Address) : M unit :=
  do* admin_entry caller in
  do* iremove (DataKey.SubmitterAllowlist submitter) in
  publish ["submitter_removed_from_allowlist"] [DAddr submitter; DAddr caller].

(** ** Modes and limits *)

(** [set_event_emission_mode], src/lib.rs:4533-4548 *)
Definition set_event_emission_mode (caller : Address) (mode : Z) : M unit :=
  do* admin_entry caller in
  do* iset DataKey.EventEmissionConfig mode in
  do* iset DataKey.EventEmissionVersion 2 in
  update_runtime (with_emission mode).

(** [get_event_emission_mode], src/lib.rs:4550-4557 *)
Definition get_event_emission_mode : M Z :=
  do* require_initialized in
  let* rs := iget DataKey.RuntimeState in
  match rs with
  | Some rs => ret (rs_emission_mode rs)
  | None => effective_event_emission_mode
  end.

(** [set_low_cost_mode], src/lib.rs:4559-4571 *)
Definition set_low_cost_mode (caller : Address) (enabled : bool) : M unit :=
  do* admin_entry caller in
  do* iset DataKey.LowCostMode enabled in
  update_runtime (with_low_cost enabled).

(** [is_low_cost_mode], src/lib.rs:4573-4580 *)
Definition is_low_cost_mode : M bool :=
  do* require_initialized in
  let* rs := iget DataKey.RuntimeState in
  match rs with
  | Some rs => ret (rs_low_cost_mode rs)
  | None => iget_or DataKey.LowCostMode false
  end.

(** [set_submitter_rate_limit], src/lib.rs:4584-4594 *)
Definition set_submitter_rate_limit (caller submitter : Address) (max_per_timestamp : Z) : M unit :=
  do* admin_entry caller in iset (DataKey.SubmitterRateLimit submitter) max_per_timestamp.

(** One round of [compact_storage], src/lib.rs:4609-4618 *)
Definition compact_step (removed : Z) (et : Symbol) : M Z :=
  let* capped := ihas (DataKey.EventCapConfig et) in
  let* indexed := ihas (DataKey.EventTypeIndices et) in
  if negb capped && indexed then
    do* iremove (DataKey.EventTypeIndices et) in
    u32_add removed 1
  else ret removed.

(** [compact_storage], src/lib.rs:4598-4623 *)
Definition compact_storage (caller : Address) (stale_types : list Symbol) : M Z :=
  do* admin_entry caller in
  let* removed := fold_m compact_step 0 stale_types in
  do* publish ["storage_compacted"] [DU32 removed] in
  ret removed.

End Governance.

(** * Deduplication policies

    The global and per-type policies, and the two maintenance scans over the
    dedup maps. *)

Section Dedup.
Context `{H : Host}.

(** [dedup_policy_from_discriminant], src/lib.rs:5026-5035 *)
Definition dedup_policy_from_discriminant (disc : Z) : M DedupPolicy :=
  match disc with
  | 0 => ret DedupPolicy.None
  | 1 => ret DedupPolicy.ContentHash
  | 2 => ret DedupPolicy.ContentHashWithTimestamp
  | 3 => ret DedupPolicy.Custom
  | _ => raise ContractError.InvalidDedupPolicy
  end.

(** [set_dedup_policy], src/lib.rs:5555-5569 *)
Definition set_dedup_policy (caller : Address) (policy : DedupPolicy) : M unit :=
  do* admin_entry caller in
  do* dedup_policy_from_discriminant (DedupPolicy.as_u32 policy) in
  do* iset DataKey.DedupPolicyConfig policy in
  publish ["dedup"; "policy_set"] [DAddr caller; DU32 (DedupPolicy.as_u32 policy)].

(** [get_dedup_policy], src/lib.rs:5571-5578 *)
Definition get_dedup_policy : M DedupPolicy :=
  do* require_initialized in iget_or DataKey.DedupPolicyConfig DedupPolicy.ContentHash.

(** [set_dedup_policy_for_type], src/lib.rs:5580-5599 *)
Definition set_dedup_policy_for_type (caller : Address) (event_type : Symbol)
    (policy : option DedupPolicy) : M unit :=
  do* admin_entry caller in
  do* match policy with
      | Some p =>
          do* dedup_policy_from_discriminant (DedupPolicy.as_u32 p) in
          iset (DataKey.DedupPolicyConfigForType event_type) p
      | None => iremove (DataKey.DedupPolicyConfigForType event_type)
      end in
  publish ["dedup"; "policy_set_type"]
    [DAddr caller; DSym event_type; DOptU32 (DedupPolicy.as_u32 <$> policy)].

(** [get_dedup_policy_for_type], src/lib.rs:5601-5605 *)
Definition get_dedup_policy_for_type (event_type : Symbol) : M DedupPolicy :=
  do* require_initialized in effective_dedup_policy event_type.

(** The event at [idx], if both its order entry and its data are there,
    src/lib.rs:3861-3871 *)
Definition scanned_event (idx : Z) : M (option Event) := event_at idx.

(** Removes the [EventContentHash] entry of an event when it points elsewhere,
    src/lib.rs:3872-3886 *)
Definition drop_stale_hash (content_hash : Hash) (idx cleaned : Z) : M Z :=
  let* stored := iget (DataKey.EventContentHash content_hash) in
  match stored with
  | Some stored_index =>
      if Z.eqb stored_index idx then ret cleaned
      else
        do* iremove (DataKey.EventContentHash content_hash) in
        u32_add cleaned 1
  | None => ret cleaned
  end.

(** The same for the map with timestamps, src/lib.rs:5678-5690 *)
Definition drop_stale_hash_ts (content_hash : Hash) (idx cleaned : Z) : M Z :=
  let* stored := iget (DataKey.EventContentHashWithTs content_hash) in
  match stored with
  | Some (stored_index, _) =>
      if Z.eqb stored_index idx then ret cleaned
      else
        do* iremove (DataKey.EventContentHashWithTs content_hash) in
        u32_add cleaned 1
  | None => ret cleaned
  end.

(** One round of [cleanup_stale_hashes], src/lib.rs:3860-3889 *)
Definition stale_hash_step (cleaned idx : Z) : M Z :=
  let* oevt := scanned_event idx in
  match oevt with
  | None => ret cleaned
  | Some evt =>
      drop_stale_hash (compute_content_hash (ev_event_type evt) (ev_submitter evt)
                         (ev_metadata evt)) idx cleaned
  end.

(** [cleanup_stale_hashes], src/lib.rs:3847-3894 *)
Definition cleanup_stale_hashes (caller : Address) (start_index batch_size : Z) : M Z :=
  do* admin_entry caller in
  let* total := total_events in
  let* limit := u32_add start_index batch_size in
  let* cleaned := fold_m stale_hash_step 0 (range start_index (Z.min limit total)) in
  do* publish ["stale_hashes_cleaned"] [DU32 cleaned] in
  ret cleaned.

(** One round of [cleanup_stale_dedup_entries], src/lib.rs:5653-5694 *)
Definition stale_dedup_step (cleaned idx : Z) : M Z :=
  let* oevt := scanned_event idx in
  match oevt with
  | None => ret cleaned
  | Some evt =>
      let content_hash := compute_content_hash (ev_event_type evt) (ev_submitter evt)
                            (ev_metadata evt) in
      let* cleaned := drop_stale_hash content_hash idx cleaned in
      drop_stale_hash_ts content_hash idx cleaned
  end.

(** [cleanup_stale_dedup_entries], src/lib.rs:5636-5701 *)
Definition cleanup_stale_dedup_entries (caller : Address) (start_index batch_size : Z) : M Z :=
  do* admin_entry caller in
  let* total := total_events in
  let* limit := u32_add start_index batch_size in
  let* cleaned := fold_m stale_dedup_step 0 (range start_index (Z.min limit total)) in
  do* publish ["stale_dedup_cleaned"] [DU32 cleaned] in
  ret cleaned.

End Dedup.
