(* ===== verification/Schemas.v ===== *)
(** * Versioned schemas

    The schema registry and the compatibility check, which compares the
    ["required"] lists of two JSON definitions found by a textual scan. *)

From S2P Require Import Prelude Contract StorageLemmas Types Storage Codec Access Chain Logging.

(** ** UTF-8

    [core::str::from_utf8] of the Rust standard library accepts exactly the
    well-formed sequences of the Unicode standard (table 3-7). *)

Definition cont (b : Z) : bool := Z.leb 128 b && Z.leb b 191.
Definition between (a b x : Z) : bool := Z.leb a x && Z.leb x b.

Fixpoint utf8_valid (l : Bytes) : bool :=
  match l with
  | [] => true
  | b0 :: l1 =>
      if Z.leb b0 127 then utf8_valid l1
      else match l1 with
      | b1 :: l2 =>
          if between 194 223 b0 then cont b1 && utf8_valid l2
          else match l2 with
          | b2 :: l3 =>
              if between 224 239 b0 then
                (if Z.eqb b0 224 then between 160 191 b1
                 else if Z.eqb b0 237 then between 128 159 b1 else cont b1)
                && cont b2 && utf8_valid l3
              else match l3 with
              | b3 :: l4 =>
                  between 240 244 b0
                  && (if Z.eqb b0 240 then between 144 191 b1
                      else if Z.eqb b0 244 then between 128 143 b1 else cont b1)
                  && cont b2 && cont b3 && utf8_valid l4
              | [] => false
              end
          | [] => false
          end
      | [] => false
      end
  end.

(** [s.find(pattern)]: what follows the first occurrence. *)
Fixpoint after_first (pattern text : Bytes) : option Bytes :=
  if bool_decide (take (length pattern) text = pattern) then Some (drop (length pattern) text)
  else match text with
       | [] => None
       | _ :: text => after_first pattern text
       end.

(** [s.find(c)]: what precedes and what follows the first occurrence. *)
Fixpoint split_at_byte (c : Z) (text : Bytes) : option (Bytes * Bytes) :=
  match text with
  | [] => None
  | x :: text =>
      if Z.eqb x c then Some ([], text)
      else match split_at_byte c text with
           | Some (before, rest) => Some (x :: before, rest)
           | None => None
           end
  end.

(** The quotation mark, the opening bracket, and the word the scan looks for. *)
Definition QUOTE : Z := 34.
Definition BRACKET : Z := 91.
Definition REQUIRED : Bytes := QUOTE :: str_bytes "required" ++ [QUOTE].

(** The inner [while parse_cursor < list.len()] loop: every non-empty quoted
    string to the end of the text.  Each round consumes two bytes, so the
    length of the text is enough fuel, src/lib.rs:4834-4849 *)
Fixpoint quoted_fields (fuel : nat) (text : Bytes) : list Bytes :=
  match fuel with
  | O => []
  | S fuel =>
      match split_at_byte QUOTE text with
      | None => []
      | Some (_, rest) =>
          match split_at_byte QUOTE rest with
          | None => []
          | Some (name, rest) =>
              (if bool_decide (name = []) then [] else [name]) ++ quoted_fields fuel rest
          end
      end
  end.

(** [required_fields]; the outer loop runs at most once, src/lib.rs:4814-4853 *)
Definition required_fields (definition : Bytes) : list Bytes :=
  if negb (utf8_valid definition) then []
  else if negb (Z.ltb 9 (len definition)) then []
  else match after_first REQUIRED definition with
       | None => []
       | Some after_required =>
           match split_at_byte BRACKET after_required with
           | None => []
           | Some (_, fields) => quoted_fields (length fields) fields
           end
       end.

(** [contains_all], src/lib.rs:4797-4812 *)
Definition contains_all (left right : list Bytes) : bool :=
  forallb (fun v => existsb (fun x => bool_decide (x = v)) left) right.

(** [contains_u32], src/lib.rs:4774-4781 *)
Definition contains_u32 (values : list Z) (target : Z) : bool :=
  existsb (fun v => Z.eqb v target) values.

(** [insert_u32_sorted], src/lib.rs:4783-4795 *)
Fixpoint insert_u32_sorted (values : list Z) (target : Z) : list Z :=
  match values with
  | [] => [target]
  | v :: values => if Z.ltb target v then target :: v :: values
                   else v :: insert_u32_sorted values target
  end.

(** The comparison of [check_schema_compatibility], src/lib.rs:4188-4212 *)
Definition compatibility (left right : Schema) : SchemaCompatibility :=
  if bool_decide (sc_format left <> sc_format right) then SchemaCompatibility.Breaking
  else if bool_decide (sc_definition left = sc_definition right)
          && Z.eqb (sc_version left) (sc_version right) then SchemaCompatibility.Full
  else
    let left_required := required_fields (sc_definition left) in
    let right_required := required_fields (sc_definition right) in
    if bool_decide (left_required = right_required) then SchemaCompatibility.Full
    else if contains_all left_required right_required
            && negb (contains_all right_required left_required) then SchemaCompatibility.Backward
    else if contains_all right_required left_required
            && negb (contains_all left_required right_required) then SchemaCompatibility.Forward
    else if Z.ltb (sc_version left) (sc_version right) then SchemaCompatibility.Breaking
    else if Z.ltb (sc_version right) (sc_version left) then SchemaCompatibility.Breaking
    else SchemaCompatibility.Unknown.

Section Schemas.
Context `{H : Host}.

(** [register_schema], src/lib.rs:4098-4125 *)
Definition register_schema (caller : Address) (event_type : Symbol) (schema : Schema) (version : Z)
    : M unit :=
  do* governance_entry caller in
  do* reject_if (Z.eqb version 0 || negb (Z.eqb (sc_version schema) version))
        ContractError.InvalidVersion in
  let* versions := iget_or (DataKey.SchemaVersions event_type) [] in
  do* when (negb (contains_u32 versions version))
        (iset (DataKey.SchemaVersions event_type) (insert_u32_sorted versions version)) in
  do* iset (DataKey.EventSchema event_type version) schema in
  publish ["governance"; "register_schema"] [DAddr caller; DSym event_type; DU32 version].

(** [get_schema], src/lib.rs:4127-4131 *)
Definition get_schema (event_type : Symbol) (version : Z) : M (option Schema) :=
  do* require_initialized in iget (DataKey.EventSchema event_type version).

(** [list_schemas], src/lib.rs:4133-4140 *)
Definition list_schemas (event_type : Symbol) : M (list Z) :=
  do* require_initialized in iget_or (DataKey.SchemaVersions event_type) [].

(** [migrate_event_metadata], src/lib.rs:4142-4171 *)
Definition migrate_event_metadata (caller : Address) (event_type : Symbol)
    (from_version to_version : Z) (migration_fn : MigrationFunction) : M unit :=
  do* governance_entry caller in
  do* reject_if (Z.eqb from_version 0 || Z.eqb to_version 0 || Z.eqb from_version to_version)
        ContractError.InvalidVersion in
  do* reject_if (negb (Z.eqb (mf_from_version migration_fn) from_version)
                 || negb (Z.eqb (mf_to_version migration_fn) to_version))
        ContractError.InvalidVersion in
  do* iset (DataKey.EventSchemaMigration event_type from_version to_version) migration_fn in
  publish ["governance"; "migrate_event_metadata"]
    [DAddr caller; DSym event_type; DU32 from_version; DU32 to_version].

(** [get_migration_function], src/lib.rs:4173-4184 *)
Definition get_migration_function (event_type : Symbol) (from_version to_version : Z)
    : M (option MigrationFunction) :=
  do* require_initialized in
  iget (DataKey.EventSchemaMigration event_type from_version to_version).

(** [check_schema_compatibility], src/lib.rs:4186-4213 *)
Definition check_schema_compatibility (left right : Schema) : M SchemaCompatibility :=
  do* require_initialized in ret (compatibility left right).

(** [is_backward_compatible], src/lib.rs:4215-4220 *)
Definition is_backward_compatible (left right : Schema) : M bool :=
  do* require_initialized in
  let* c := check_schema_compatibility left right in
  ret (bool_decide (c = SchemaCompatibility.Full) || bool_decide (c = SchemaCompatibility.Backward)).

(** [is_forward_compatible], src/lib.rs:4222-4227 *)
Definition is_forward_compatible (left right : Schema) : M bool :=
  do* require_initialized in
  let* c := check_schema_compatibility left right in
  ret (bool_decide (c = SchemaCompatibility.Full) || bool_decide (c = SchemaCompatibility.Forward)).

End Schemas.
