(* ===== verification/Proposals.v ===== *)
(** * Multi-signature proposals

    Owners submit, approve and execute proposals; an executed, expired or
    under-approved proposal is left alone. *)

From S2P Require Import Prelude Contract StorageLemmas Types Storage Codec Access Chain Logging Versions.

Section Proposals.
Context `{H : Host}.

(** The opening lines of the proposal entry points, src/lib.rs:5138-5141 *)
Definition owner_only (a : Address) : M unit :=
  do* require_auth a in
  let* owner := is_addr_owner a in
  reject_if (negb owner) ContractError.CallerNotOwner.

(** [submit_proposal], src/lib.rs:5137-5159 *)
Definition submit_proposal (proposer : Address) (action : ProposalAction) (ttl_seconds : Z) : M Z :=
  do* owner_only proposer in
  let* count := iget_or DataKey.ProposalCount 0 in
  let* now := ledger_timestamp in
  let* expires_at := u64_add now ttl_seconds in
  do* iset (DataKey.Proposal count)
        {| pr_id := count;
           pr_proposer := proposer;
           pr_action := action;
           pr_approvals := [proposer];
           pr_expires_at := expires_at;
           pr_executed := false |} in
  let* next := u32_add count 1 in
  do* iset DataKey.ProposalCount next in
  do* publish ["proposal_submitted"] [DU32 count] in
  ret count.

(** The proposal is executed or expired: the early returns shared by approval
    and execution, src/lib.rs:5171-5177 *)
Definition closed (prop : Proposal) (now : Z) : bool :=
  pr_executed prop || Z.ltb (pr_expires_at prop) now.

(** The proposal with one more approval, src/lib.rs:5184 *)
Definition approved_by (prop : Proposal) (approver : Address) : Proposal :=
  {| pr_id := pr_id prop;
     pr_proposer := pr_proposer prop;
     pr_action := pr_action prop;
     pr_approvals := pr_approvals prop ++ [approver];
     pr_expires_at := pr_expires_at prop;
     pr_executed := pr_executed prop |}.

(** [approve_proposal], src/lib.rs:5161-5188 *)
Definition approve_proposal (approver : Address) (proposal_id : Z) : M unit :=
  do* owner_only approver in
  let* o := iget (DataKey.Proposal proposal_id) in
  let* prop := unwrap_or_raise o ContractError.EventDoesNotExist in
  let* now := ledger_timestamp in
  if closed prop now then ret tt
  else if contains_addr (pr_approvals prop) approver then ret tt
  else
    do* iset (DataKey.Proposal proposal_id) (approved_by prop approver) in
    publish ["proposal_approved"] [DU32 proposal_id; DAddr approver].

(** The [match prop.action], src/lib.rs:5213-5261 *)
Definition perform (executor : Address) (action : ProposalAction) : M unit :=
  match action with
  | ProposalAction.TransferOwnership new_owner => iset DataKey.Owner new_owner
  | ProposalAction.AddOwner addr =>
      let* owners := get_owners in
      when (negb (contains_addr owners addr)) (iset DataKey.Owners (owners ++ [addr]))
  | ProposalAction.RemoveOwner addr =>
      let* owners := get_owners in
      iset DataKey.Owners (filter (fun o => o <> addr) owners)
  | ProposalAction.SetRequiredSignatures req => iset DataKey.RequiredSignatures req
  | ProposalAction.SetGlobalMaxLogs v =>
      let* ocfg := iget DataKey.Config in
      match ocfg with
      | Some c =>
          iset DataKey.Config {| cfg_global_max_logs := v; cfg_total_events := cfg_total_events c |}
      | None => ret tt
      end
  | ProposalAction.SetMetadataSchema event_type schema =>
      iset (DataKey.MetadataSchema event_type) schema
  | ProposalAction.RollbackEvent index target_version =>
      do* rollback_event executor index target_version in ret tt
  | ProposalAction.Pause => iset DataKey.Paused true
  | ProposalAction.Unpause => iset DataKey.Paused false
  end.

(** The proposal marked executed, src/lib.rs:5262 *)
Definition executed (prop : Proposal) : Proposal :=
  {| pr_id := pr_id prop;
     pr_proposer := pr_proposer prop;
     pr_action := pr_action prop;
     pr_approvals := pr_approvals prop;
     pr_expires_at := pr_expires_at prop;
     pr_executed := true |}.

(** [execute_proposal], src/lib.rs:5190-5266 *)
Definition execute_proposal (executor : Address) (proposal_id : Z) : M unit :=
  do* owner_only executor in
  let* o := iget (DataKey.Proposal proposal_id) in
  let* prop := unwrap_or_raise o ContractError.EventDoesNotExist in
  let* now := ledger_timestamp in
  if closed prop now then ret tt
  else
    let* approvals_needed := get_required_signatures in
    if Z.ltb (len (pr_approvals prop)) approvals_needed then ret tt
    else
      do* perform executor (pr_action prop) in
      do* iset (DataKey.Proposal proposal_id) (executed prop) in
      publish ["proposal_executed"] [DU32 proposal_id; DAddr executor].

End Proposals.
