(* ===== verification/Retention.v ===== *)
(** * Retention, legal holds, erasure, operational records

    The second [contractimpl] block of the contract: retention policies per
    category, legal holds and compliance exceptions that block erasure, erasure
    requests and their processing, the retention report and sweep, and the
    operational audit log. *)

From S2P Require Import Prelude Contract StorageLemmas Types Storage Codec Access Chain Logging Queries.
From S2P Require Import Versions.

(** [operational_category], src/data_retention.rs:46-51 *)
Definition operational_category : Symbol := "operational".

Section Retention.
Context `{H : Host}.

(** ** Policies *)

(** [set_retention_policy], src/data_retention.rs:136-162 *)
Definition set_retention_policy (caller : Address) (category : Symbol) (retention_days : Z)
    (legal_basis : Symbol) : M unit :=
  do* admin_entry caller in
  do* reject_if (Z.eqb retention_days 0) ContractError.InvalidRetentionPeriod in
  let* now := ledger_timestamp in
  do* iset (DataKey.RetentionPolicy category)
        {| rp_retention_days := retention_days;
           rp_legal_basis := legal_basis;
           rp_set_by := caller;
           rp_set_at := now |} in
  publish ["compliance"; "retention_policy_set"]
    [DAddr caller; DSym category; DU32 retention_days; DSym legal_basis].

(** [get_retention_policy], src/data_retention.rs:164-167 *)
Definition get_retention_policy (category : Symbol) : M (option RetentionPolicyData) :=
  iget (DataKey.RetentionPolicy category).

(** [set_default_retention_days], src/data_retention.rs:169-181 *)
Definition set_default_retention_days (caller : Address) (days : Z) : M unit :=
  do* admin_entry caller in
  do* iset DataKey.DefaultRetentionDays days in
  publish ["compliance"; "default_retention_set"] [DAddr caller; DU32 days].

(** [get_default_retention_days], src/data_retention.rs:183-186 *)
Definition get_default_retention_days : M Z := iget_or DataKey.DefaultRetentionDays 0.

(** [retention_days_for], src/data_retention.rs:188-197 *)
Definition retention_days_for (category : Symbol) : M Z :=
  let* policy := iget (DataKey.RetentionPolicy category) in
  match policy with
  | Some p => ret (rp_retention_days p)
  | None => iget_or DataKey.DefaultRetentionDays 0
  end.

(** ** Legal holds *)

(** [place_legal_hold], src/data_retention.rs:203-229 *)
Definition place_legal_hold (caller : Address) (event_index : Z) (reason : Bytes) : M unit :=
  do* admin_entry caller in
  do* reject_if (Z.eqb (len reason) 0) ContractError.EmptyComplianceReason in
  let* total := total_events in
  do* reject_if (Z.leb total event_index) ContractError.EventDoesNotExist in
  let* now := ledger_timestamp in
  do* iset (DataKey.LegalHold event_index)
        {| lh_active := true;
           lh_reason := reason;
           lh_placed_by := caller;
           lh_placed_at := now;
           lh_released_by := None;
           lh_released_at := 0 |} in
  publish ["compliance"; "legal_hold_placed"] [DAddr caller; DU32 event_index].

(** [release_legal_hold], src/data_retention.rs:231-254 *)
Definition release_legal_hold (caller : Address) (event_index : Z) (justification : Bytes) : M unit :=
  do* admin_entry caller in
  let* o := iget (DataKey.LegalHold event_index) in
  let* hold := unwrap_or_raise o ContractError.LegalHoldNotFound in
  do* reject_if (negb (lh_active hold)) ContractError.LegalHoldNotFound in
  let* now := ledger_timestamp in
  do* iset (DataKey.LegalHold event_index)
        {| lh_active := false;
           lh_reason := lh_reason hold;
           lh_placed_by := lh_placed_by hold;
           lh_placed_at := lh_placed_at hold;
           lh_released_by := Some caller;
           lh_released_at := now |} in
  publish ["compliance"; "legal_hold_released"]
    [DAddr caller; DU32 event_index; DU32 (len justification)].

(** [is_under_legal_hold], src/data_retention.rs:256-263 *)
Definition is_under_legal_hold (event_index : Z) : M bool :=
  let* o := iget (DataKey.LegalHold event_index) in
  ret (match o with Some h => lh_active h | None => false end).

(** [get_legal_hold], src/data_retention.rs:265-268 *)
Definition get_legal_hold (event_index : Z) : M (option LegalHoldRecord) :=
  iget (DataKey.LegalHold event_index).

(** ** Compliance exceptions *)

(** [grant_compliance_exception], src/data_retention.rs:274-301 *)
Definition grant_compliance_exception (caller : Address) (event_index : Z) (reason : Bytes)
    (expires_at : Z) : M unit :=
  do* admin_entry caller in
  do* reject_if (Z.eqb (len reason) 0) ContractError.EmptyComplianceReason in
  let* total := total_events in
  do* reject_if (Z.leb total event_index) ContractError.EventDoesNotExist in
  let* now := ledger_timestamp in
  do* iset (DataKey.ComplianceException event_index)
        {| ce_reason := reason;
           ce_granted_by := caller;
           ce_granted_at := now;
           ce_expires_at := expires_at |} in
  publish ["compliance"; "exception_granted"] [DAddr caller; DU32 event_index; DU64 expires_at].

(** [revoke_compliance_exception], src/data_retention.rs:303-315 *)
Definition revoke_compliance_exception (caller : Address) (event_index : Z) : M unit :=
  do* admin_entry caller in
  do* iremove (DataKey.ComplianceException event_index) in
  publish ["compliance"; "exception_revoked"] [DAddr caller; DU32 event_index].

(** [has_active_compliance_exception], src/data_retention.rs:317-328 *)
Definition has_active_compliance_exception (event_index : Z) : M bool :=
  let* o := iget (DataKey.ComplianceException event_index) in
  let* now := ledger_timestamp in
  ret (match o with
       | Some ex => Z.eqb (ce_expires_at ex) 0 || Z.ltb now (ce_expires_at ex)
       | None => false
       end).

(** [get_compliance_exception], src/data_retention.rs:330-333 *)
Definition get_compliance_exception (event_index : Z) : M (option ComplianceExceptionRecord) :=
  iget (DataKey.ComplianceException event_index).

(** ** Erasure *)

(** [is_event_erased], src/data_retention.rs:453-460 *)
Definition is_event_erased (event_index : Z) : M bool :=
  let* o := iget (DataKey.ErasureRecord event_index) in
  ret (match o with Some r => rd_erased r | None => false end).

(** [get_erasure_record], src/data_retention.rs:448-451 *)
Definition get_erasure_record (event_index : Z) : M (option ErasureRecordData) :=
  iget (DataKey.ErasureRecord event_index).

(** [request_erasure], src/data_retention.rs:339-375 *)
Definition request_erasure (requester : Address) (event_index : Z) (reason : Symbol) : M Z :=
  do* require_initialized in
  do* require_auth requester in
  let* event := get_event_by_order event_index in
  do* reject_if (bool_decide (ev_category event = operational_category))
        ContractError.OperationalEventNotErasable in
  let* erased := is_event_erased event_index in
  do* reject_if erased ContractError.EventAlreadyErased in
  let* request_id := iget_or DataKey.ErasureRequestCount 0 in
  let* now := ledger_timestamp in
  do* iset (DataKey.ErasureRequest request_id)
        {| er_requester := requester;
           er_event_index := event_index;
           er_reason := reason;
           er_requested_at := now;
           er_status := ErasureStatus.Pending;
           er_decided_by := None;
           er_decided_at := 0;
           er_justification := [] |} in
  let* next := u32_add request_id 1 in
  do* iset DataKey.ErasureRequestCount next in
  do* publish ["compliance"; "erasure_requested"]
        [DAddr requester; DU32 event_index; DU32 request_id; DSym reason] in
  ret request_id.

(** [get_erasure_request], src/data_retention.rs:377-380 *)
Definition get_erasure_request (request_id : Z) : M (option ErasureRequestData) :=
  iget (DataKey.ErasureRequest request_id).

(** The redaction of an event and its record, src/data_retention.rs:416-429 *)
Definition redact (caller : Address) (event_index : Z) (event : Event) (reason : Symbol) : M unit :=
  do* update_event caller event_index [] in
  let* now := ledger_timestamp in
  iset (DataKey.ErasureRecord event_index)
    {| rd_erased := true;
       rd_erased_at := now;
       rd_erased_by := caller;
       rd_original_metadata_hash := sha256 (ev_metadata event);
       rd_reason := reason |}.

(** The approval branch: the checks, then the redaction,
    src/data_retention.rs:408-432 *)
Definition fulfil (caller : Address) (event_index : Z) (reason : Symbol) : M unit :=
  let* event := get_event_by_order event_index in
  do* reject_if (bool_decide (ev_category event = operational_category))
        ContractError.OperationalEventNotErasable in
  let* hold := is_under_legal_hold event_index in
  do* reject_if hold ContractError.EventOnLegalHold in
  let* exception := has_active_compliance_exception event_index in
  do* reject_if exception ContractError.ComplianceExceptionActive in
  redact caller event_index event reason.

(** [process_erasure_request], src/data_retention.rs:382-446 *)
Definition process_erasure_request (caller : Address) (request_id : Z) (approve : bool)
    (justification : Bytes) : M unit :=
  do* admin_entry caller in
  let* o := iget (DataKey.ErasureRequest request_id) in
  let* request := unwrap_or_raise o ContractError.ErasureRequestNotFound in
  do* reject_if (bool_decide (er_status request <> ErasureStatus.Pending))
        ContractError.ErasureRequestAlreadyDecided in
  let event_index := er_event_index request in
  do* when approve (fulfil caller event_index (er_reason request)) in
  let* now := ledger_timestamp in
  do* iset (DataKey.ErasureRequest request_id)
        {| er_requester := er_requester request;
           er_event_index := er_event_index request;
           er_reason := er_reason request;
           er_requested_at := er_requested_at request;
           er_status := if approve then ErasureStatus.Fulfilled else ErasureStatus.Denied;
           er_decided_by := Some caller;
           er_decided_at := now;
           er_justification := justification |} in
  publish ["compliance"; "erasure_decided"]
    [DAddr caller; DU32 request_id; DU32 event_index; DBool approve].

(** ** Verification and sweep *)

(** The end of a batch, src/data_retention.rs:473-477 *)
Definition batch_end (start_index batch_size total : Z) : Z :=
  if Z.ltb (u32_sat_add start_index batch_size) total then start_index + batch_size else total.

(** How the report classifies an event. *)
Inductive Verdict : Set := Compliant | AlreadyErased | BlockedHold | BlockedException | Erasable.

(** The classification inside the loop, src/data_retention.rs:492-518 *)
Definition classify (i : Z) (event : Event) : M Verdict :=
  if bool_decide (ev_category event = operational_category) then ret Compliant
  else
    let* erased := is_event_erased i in
    if erased then ret AlreadyErased
    else
      let* retention_days := retention_days_for (ev_category event) in
      if Z.eqb retention_days 0 then ret Compliant
      else
        let* now := ledger_timestamp in
        let retention_seconds := u64_sat_mul retention_days 86400 in
        let age := u64_sat_sub now (ev_timestamp event) in
        if Z.leb age retention_seconds then ret Compliant
        else
          let* hold := is_under_legal_hold i in
          if hold then ret BlockedHold
          else
            let* exception := has_active_compliance_exception i in
            ret (if exception then BlockedException else Erasable).

(** The report with one more event counted under a verdict; the counters are
    [u32] and bounded by the size of the batch, src/data_retention.rs:490-518 *)
Definition count_verdict (r : RetentionComplianceReport) (v : Verdict)
    : M RetentionComplianceReport :=
  let one b := if b : bool then 1 else 0 in
  let* checked := u32_add (rr_checked r) 1 in
  let* compliant := u32_add (rr_compliant r) (one (match v with Compliant => true | _ => false end)) in
  let* hold := u32_add (rr_overdue_blocked_hold r)
                 (one (match v with BlockedHold => true | _ => false end)) in
  let* exception := u32_add (rr_overdue_blocked_exception r)
                      (one (match v with BlockedException => true | _ => false end)) in
  let* erasable := u32_add (rr_overdue_erasable r)
                     (one (match v with Erasable => true | _ => false end)) in
  let* erased := u32_add (rr_already_erased r)
                   (one (match v with AlreadyErased => true | _ => false end)) in
  ret {| rr_checked := checked;
         rr_compliant := compliant;
         rr_overdue_blocked_hold := hold;
         rr_overdue_blocked_exception := exception;
         rr_overdue_erasable := erasable;
         rr_already_erased := erased |}.

(** One round of [verify_retention_compliance], src/data_retention.rs:488-519 *)
Definition report_step (r : RetentionComplianceReport) (i : Z) : M RetentionComplianceReport :=
  let* event := get_event_by_order i in
  let* v := classify i event in
  count_verdict r v.

(** [verify_retention_compliance], src/data_retention.rs:466-522 *)
Definition verify_retention_compliance (start_index batch_size : Z) : M RetentionComplianceReport :=
  do* require_initialized in
  let* total := total_events in
  fold_m report_step
    {| rr_checked := 0; rr_compliant := 0; rr_overdue_blocked_hold := 0;
       rr_overdue_blocked_exception := 0; rr_overdue_erasable := 0; rr_already_erased := 0 |}
    (range start_index (batch_end start_index batch_size total)).

(** One round of [run_retention_sweep]; its guards are those of the report,
    tested in the same order, src/data_retention.rs:543-579 *)
Definition sweep_step (caller : Address) (erased_count i : Z) : M Z :=
  let* event := get_event_by_order i in
  let* v := classify i event in
  match v with
  | Erasable =>
      do* redact caller i event "retention_expired" in
      u32_add erased_count 1
  | _ => ret erased_count
  end.

(** [run_retention_sweep], src/data_retention.rs:524-588 *)
Definition run_retention_sweep (caller : Address) (start_index batch_size : Z) : M Z :=
  do* admin_entry caller in
  let* total := total_events in
  let stop := batch_end start_index batch_size total in
  let* erased_count := fold_m (sweep_step caller) 0 (range start_index stop) in
  do* publish ["compliance"; "retention_sweep"]
        [DAddr caller; DU32 start_index; DU32 stop; DU32 erased_count] in
  ret erased_count.

(** ** Operational records *)

(** [is_addr_ops_recorder], src/data_retention.rs:594-609 *)
Definition is_addr_ops_recorder (addr : Address) : M bool :=
  let* owner := is_addr_owner addr in
  if owner then ret true
  else
    let* recorders := iget_or DataKey.OpsAuditRecorders [] in
    ret (contains_addr recorders addr).

(** [add_ops_recorder], src/data_retention.rs:611-631 *)
Definition add_ops_recorder (caller recorder : Address) : M unit :=
  do* admin_entry caller in
  let* recorders := iget_or DataKey.OpsAuditRecorders [] in
  if contains_addr recorders recorder then ret tt
  else
    do* iset DataKey.OpsAuditRecorders (recorders ++ [recorder]) in
    publish ["ops_recorder_added"] [DAddr recorder; DAddr caller].

(** [remove_ops_recorder], src/data_retention.rs:633-653 *)
Definition remove_ops_recorder (caller recorder : Address) : M unit :=
  do* admin_entry caller in
  let* recorders := iget_or DataKey.OpsAuditRecorders [] in
  do* iset DataKey.OpsAuditRecorders (filter (fun r => r <> recorder) recorders) in
  publish ["ops_recorder_removed"] [DAddr recorder; DAddr caller].

(** [is_ops_recorder], src/data_retention.rs:655-659 *)
Definition is_ops_recorder (addr : Address) : M bool := is_addr_ops_recorder addr.

(** [log_operational_action], src/data_retention.rs:661-678 *)
Definition log_operational_action (caller : Address) (action_type : Symbol) (details : Bytes)
    : M Hash :=
  do* require_initialized in
  let* recorder := is_addr_ops_recorder caller in
  do* reject_if (negb recorder) ContractError.UnauthorizedOpsRecorder in
  log_event_with_hierarchy caller action_type details (Some operational_category) None true.

End Retention.
