(* ===== verification/Invariant.v ===== *)
(** * The ledger invariant

    [Frame self st n]: the positions of the store [st] are [0..n], each holds
    an event stored under the identifier its content hashes to, and the
    recorded versions of a position carry its index.  [Live] adds the links of
    the hash chain and the two totals, which agree with [n] and stay within the
    global cap.  The lemmas say which writes keep them.

    The second part of the file: what appending does. *)

From S2P Require Import Prelude Contract StorageLemmas Types Storage Codec Access Chain Logging Batch.
From S2P Require Import Queries Versions Governance.

Lemma same_ledger_sset st k v : ledger_key k = false -> same_ledger (sset st k v) st.
Proof. intros Hk k' Hk'. rewrite sset_ne; [done|]. intros <-. congruence. Qed.

Section Invariant.
Context `{H : Host}.

Record Frame (self : Address) (st : store) (n : Z) : Prop := {
  fr_owner : shas st DataKey.Owner = true;
  fr_range : 0 <= n <= u32_max;
  fr_dom : forall i, is_Some (sget st (DataKey.EventOrder i)) -> 0 <= i < n;
  fr_cells : Cells self st n;
  fr_versions : forall i vs, sget st (DataKey.EventVersions i) = Some vs ->
                  Forall (fun v => ev_index (vn_data v) = i) vs }.

(** The totals agree with [n] and respect the cap. *)
Record Totals (st : store) (n : Z) : Prop := {
  tot_cfg : exists cfg, sget st DataKey.Config = Some cfg /\ cfg_total_events cfg = n;
  tot_rs : exists rs, sget st DataKey.RuntimeState = Some rs /\ rs_total_events rs = n /\
             n <= rs_global_max_logs rs }.

Record Live (self : Address) (st : store) (n : Z) : Prop := {
  live_frame : Frame self st n;
  live_linked : Linked st n;
  live_totals : Totals st n }.

(** The invariants as predicates on the context and the store. *)
Definition Inv (c : Ctx) (st : store) : Prop := exists n, Live (cx_self c) st n.
Definition Body (n : Z) (c : Ctx) (st : store) : Prop :=
  Frame (cx_self c) st n /\ Linked st n.

(** The keys each looks at. *)
Definition bodily (k : DataKey) : bool :=
  match k with
  | DataKey.EventOrder _ | DataKey.EventData _ | DataKey.EventVersions _ => true
  | _ => false
  end.
Definition totals_key (k : DataKey) : bool :=
  match k with DataKey.Config | DataKey.RuntimeState => true | _ => false end.
Definition vital (k : DataKey) : bool := bodily k || totals_key k.

Lemma Frame_ext self st st' n :
  shas st' DataKey.Owner = true ->
  (forall k, bodily k = true -> sget st' k = sget st k) ->
  Frame self st n -> Frame self st' n.
Proof.
  intros Ho E [_ Hr Hd Hc Hv]. split; [done|done| | |].
  - intros i. rewrite (E (DataKey.EventOrder i)) by done. auto.
  - assert (same_ledger st st') as SL by (intros k Hk; apply E; by destruct k). by rewrite <- SL.
  - intros i vs. rewrite (E (DataKey.EventVersions i)) by done. auto.
Qed.

Lemma Linked_ext st st' n :
  (forall k, bodily k = true -> sget st' k = sget st k) -> Linked st n -> Linked st' n.
Proof.
  intros E. assert (same_ledger st st') as SL by (intros k Hk; apply E; by destruct k).
  by rewrite <- SL.
Qed.

Lemma Totals_ext st st' n :
  (forall k, totals_key k = true -> sget st' k = sget st k) -> Totals st n -> Totals st' n.
Proof.
  intros E [Hc Hrs]. split.
  - by rewrite (E DataKey.Config).
  - by rewrite (E DataKey.RuntimeState).
Qed.

Lemma sset_owner st k v : shas st DataKey.Owner = true -> shas (sset st k v) DataKey.Owner = true.
Proof.
  intros Ho. destruct (decide (k = DataKey.Owner)) as [->|Hne].
  - apply shas_sset_eq.
  - by rewrite shas_sset_ne.
Qed.

Lemma Body_sset n k v c st : bodily k = false -> Body n c st -> Body n c (sset st k v).
Proof.
  intros Hk [F L].
  assert (forall k', bodily k' = true -> sget (sset st k v) k' = sget st k') as E.
  { intros k' Hk'. apply sset_ne. intros <-. congruence. }
  split; [eapply Frame_ext|eapply Linked_ext]; try done. apply sset_owner, (fr_owner _ _ _ F).
Qed.

Lemma Inv_sset k v c st : vital k = false -> Inv c st -> Inv c (sset st k v).
Proof.
  intros [Hk1 Hk2]%orb_false_iff [n [F L T]]. exists n.
  destruct (Body_sset n k v c st Hk1 (conj F L)) as [F' L'].
  split; [done|done|]. eapply Totals_ext; [|done].
  intros k' Hk'. apply sset_ne. intros <-. congruence.
Qed.

Lemma Inv_sdel k c st :
  vital k = false -> k <> DataKey.Owner -> Inv c st -> Inv c (sdel st k).
Proof.
  intros [Hk1 Hk2]%orb_false_iff Hne [n [F L T]]. exists n. split.
  - eapply Frame_ext; [| |done].
    + rewrite shas_sdel_ne by done. apply (fr_owner _ _ _ F).
    + intros k' Hk'. apply sdel_ne. intros <-. congruence.
  - eapply Linked_ext; [|done]. intros k' Hk'. apply sdel_ne. intros <-. congruence.
  - eapply Totals_ext; [|done]. intros k' Hk'. apply sdel_ne. intros <-. congruence.
Qed.

Lemma Inv_iset k v : vital k = false -> preserves Inv (iset k v).
Proof. intros Hk. apply preserves_iset. intros. by apply Inv_sset. Qed.

Lemma Inv_iremove k : vital k = false -> k <> DataKey.Owner -> preserves Inv (iremove k).
Proof. intros Hk Hne. apply preserves_iremove. intros. by apply Inv_sdel. Qed.

Lemma Body_iset n k v : bodily k = false -> preserves (Body n) (iset k v).
Proof. intros Hk. apply preserves_iset. intros. by apply Body_sset. Qed.

(** Rewriting the settings of the runtime state. *)
Lemma Inv_update_runtime f :
  (forall rs, rs_total_events (f rs) = rs_total_events rs /\
     (rs_total_events rs <= rs_global_max_logs rs -> rs_total_events rs <= rs_global_max_logs (f rs))) ->
  preserves Inv (update_runtime f).
Proof.
  intros Hf c s a s' R [n [F L T]]. exists n. unfold update_runtime in R.
  destruct (tot_rs _ _ T) as (rs & Ers & Htot & Hmax).
  minv. rewrite Ers in R. minv. destruct (Hf rs) as [Ht Hm].
  destruct (Body_sset (rs_total_events rs) DataKey.RuntimeState (f rs) c (inst s0) eq_refl (conj F L)).
  split; [done|done|]. split.
  - rewrite sset_ne by done. apply T.
  - exists (f rs). rewrite sset_eq, Ht. auto.
Qed.

(** Rewriting the configuration with the same total. *)
Lemma Live_set_config c st n cfg :
  cfg_total_events cfg = n -> Live (cx_self c) st n -> Live (cx_self c) (sset st DataKey.Config cfg) n.
Proof.
  intros Hcfg [F L T].
  destruct (Body_sset n DataKey.Config cfg c st eq_refl (conj F L)).
  split; [done|done|]. split.
  - exists cfg. by rewrite sset_eq.
  - rewrite sset_ne by done. apply T.
Qed.

(** ** Putting an event at a position *)

Context `{!CollisionFree}.

(** The identifier of another position is not the one an event hashes to. *)
Lemma cell_id_ne self st i id_i e_i id e :
  is_u32 i -> is_u32 (ev_index e) -> cell self st i -> entry st i = Some (id_i, e_i) ->
  addressed self id e -> ev_index e <> i -> id_i <> id.
Proof.
  intros Hi He (id' & e' & E' & Hx & A') E A Hne ->. rewrite E in E'. injection E' as <- <-.
  unfold addressed in *. apply Hne. symmetry. rewrite Hx in A'.
  exact (event_id_index _ _ _ _ _ _ _ _ _ _ _ Hi He (eq_trans (eq_sym A') A)).
Qed.

(** The store with event [e] put at position [j] under [id]. *)
Definition put (st : store) (j : Z) (id : Hash) (e : Event) : store :=
  sset (sset st (DataKey.EventData id) e) (DataKey.EventOrder j) id.

Lemma entry_put_eq st j id e : entry (put st j id e) j = Some (id, e).
Proof. apply entry_Some. unfold put. by sget_simpl. Qed.

Lemma entry_put_ne st j id e i id_i e_i :
  i <> j -> entry st i = Some (id_i, e_i) -> id_i <> id -> entry (put st j id e) i = entry st i.
Proof.
  intros Hne E Hid. rewrite E. apply entry_Some in E as [Eo Ed]. apply entry_Some. unfold put.
  by rewrite !sset_ne by congruence.
Qed.

Lemma put_others self st n j id e i :
  Frame self st n -> is_u32 j -> ev_index e = j -> addressed self id e ->
  0 <= i < n -> i <> j -> entry (put st j id e) i = entry st i.
Proof.
  intros F Hj He A Hi Hne. pose proof (fr_range _ _ _ F).
  destruct (fr_cells _ _ _ F i Hi) as (id_i & e_i & E & _).
  eapply entry_put_ne; [done|done|].
  eapply (cell_id_ne self st i id_i e_i id e); unfold is_u32 in *; [lia|lia| |done|done|lia].
  by apply (fr_cells _ _ _ F).
Qed.

Lemma put_frame self st n j id e :
  Frame self st n -> 0 <= j <= n -> j < u32_max -> ev_index e = j -> addressed self id e ->
  Frame self (put st j id e) (Z.max n (j + 1)).
Proof.
  intros F Hj Hmax He A. pose proof F as [Ho Hr Hd Hc Hv].
  split.
  - by do 2 apply sset_owner.
  - lia.
  - intros i Hi. destruct (decide (i = j)) as [->|Hne]; [lia|].
    unfold put in Hi. rewrite !sset_ne in Hi by congruence. apply Hd in Hi. lia.
  - intros i Hi. destruct (decide (i = j)) as [->|Hne].
    + exists id, e. by rewrite entry_put_eq.
    + eapply cell_ext; [eapply put_others|apply Hc]; unfold is_u32; try done; lia.
  - intros i vs. unfold put. rewrite !sset_ne by discriminate. apply Hv.
Qed.

(** The chain up to and including the new event. *)
Lemma put_linked self st n j id e :
  Frame self st n -> 0 <= j <= n -> j < u32_max -> ev_index e = j -> addressed self id e ->
  Linked st j -> prev_at st j = Some (ev_prev_hash e) ->
  ev_event_hash e = compute_event_hash id (ev_prev_hash e) j (ev_timestamp e) ->
  Linked (put st j id e) (j + 1).
Proof.
  intros F Hj Hmax He A L Hp Hh i Hi.
  assert (forall k, 0 <= k < j -> entry (put st j id e) k = entry st k) as Ek.
  { intros k Hk. eapply put_others; unfold is_u32; try done; lia. }
  destruct (decide (i = j)) as [->|Hne].
  - exists id, e. rewrite entry_put_eq. split; [done|]. split; [|done].
    rewrite <- Hp. unfold prev_at. destruct (Z.eqb_spec j 0); [done|]. by rewrite Ek by lia.
  - eapply (linked_ext st); [apply Ek; lia| intros; apply Ek; lia | apply L; lia].
Qed.

(** ** Rewriting the event at a position under its identifier *)

Definition same_content (e e' : Event) : Prop :=
  ev_index e' = ev_index e /\ ev_submitter e' = ev_submitter e /\
  ev_event_type e' = ev_event_type e /\ ev_metadata e' = ev_metadata e /\
  ev_timestamp e' = ev_timestamp e.

Lemma same_content_addressed self id e e' :
  same_content e e' -> addressed self id e -> addressed self id e'.
Proof. unfold addressed. by intros (-> & -> & -> & -> & ->). Qed.

Section Rewrite.
Context (self : Address) (st : store) (n i : Z) (id : Hash) (e e' : Event).
Context (F : Frame self st n) (Hi : 0 <= i < n) (E : entry st i = Some (id, e))
  (S : same_content e e').

Lemma rewrite_eq : entry (sset st (DataKey.EventData id) e') i = Some (id, e').
Proof using E. apply entry_Some in E as [Eo Ed]. apply entry_Some. by sget_simpl. Qed.

Lemma rewrite_others k :
  0 <= k < n -> k <> i -> entry (sset st (DataKey.EventData id) e') k = entry st k.
Proof using All.
  intros Hk Hne. pose proof (fr_range _ _ _ F).
  destruct (fr_cells _ _ _ F k Hk) as (id_k & e_k & Ek & Hxk & Ak).
  destruct (fr_cells _ _ _ F i Hi) as (id' & e0 & E0 & Hx & A0).
  rewrite E in E0. injection E0 as <- <-.
  assert (id_k <> id).
  { eapply (cell_id_ne self st k id_k e_k id e); unfold is_u32 in *; try done; try lia.
    by apply (fr_cells _ _ _ F). }
  rewrite Ek. apply entry_Some in Ek as [Eo Ed]. apply entry_Some.
  rewrite !sset_ne by congruence. done.
Qed.

Lemma rewrite_frame : Frame self (sset st (DataKey.EventData id) e') n.
Proof using All.
  pose proof F as [Ho Hr Hd Hc Hv]. split; [by apply sset_owner|done| | |].
  - intros k. rewrite sset_ne by discriminate. apply Hd.
  - intros k Hk. destruct (decide (k = i)) as [->|Hne].
    + destruct (Hc i Hi) as (id' & e0 & E0 & Hx & A0). rewrite E in E0. injection E0 as <- <-.
      exists id, e'. rewrite rewrite_eq. split; [done|]. split; [|by eapply same_content_addressed].
      destruct S as [-> _]. done.
    + eapply cell_ext; [by apply rewrite_others|by apply Hc].
  - intros k vs. rewrite sset_ne by discriminate. apply Hv.
Qed.
End Rewrite.

End Invariant.

#[export] Hint Extern 1 (preserves Inv (iset _ _)) => (apply Inv_iset; reflexivity) : preserves.
#[export] Hint Extern 1 (preserves (Body _) (iset _ _)) => (apply Body_iset; reflexivity) : preserves.
#[export] Hint Extern 1 (preserves Inv (iremove _)) =>
  (apply Inv_iremove; [reflexivity | discriminate]) : preserves.

(** * What appending does

    The effect of [append_event] and of the submission entry points on the
    ledger: one more event at the next position, linked and content-addressed,
    every earlier position as it was, both totals raised by one. *)

(** The keys of the invariant, and the owner. *)
Definition guarded (k : DataKey) : bool :=
  match k with DataKey.Owner => true | _ => vital k end.

Lemma keeps_weaken (K K' : DataKey -> bool) {A} (m : M A) :
  (forall k, K' k = true -> K k = true) -> keeps K m -> keeps K' m.
Proof. intros E Hm c s a s' R k Hk. apply (Hm _ _ _ _ R), E, Hk. Qed.

(** Stores that agree on those keys. *)
Definition guard_eq (st st' : store) : Prop :=
  forall k, guarded k = true -> sget st' k = sget st k.

#[global] Instance guard_eq_preorder : PreOrder guard_eq.
Proof.
  split; unfold guard_eq.
  - by intros st k.
  - intros s1 s2 s3 E1 E2 k Hk. by rewrite E2, E1.
Qed.

Lemma keeps_guard {A} (m : M A) c s a s' :
  keeps guarded m -> m c s = Ok (a, s') -> guard_eq (inst s) (inst s').
Proof. intros Hm R k Hk. by apply (Hm _ _ _ _ R). Qed.

(** Inverts the first step of the run [R], which keeps the guarded keys, and
    extends the agreement [E] with it; [kstart] begins one. *)
Tactic Notation "kstart" hyp(R) ident(E) :=
  let a := fresh "a" in let t := fresh "t" in
  apply bind_Ok in R as (a & t & E & R);
  apply keeps_guard in E; [|solve [keeps_tac]].
Tactic Notation "kstep" hyp(R) hyp(E) :=
  let R1 := fresh "R1" in
  kstart R R1; apply (transitivity E) in R1; clear E; rename R1 into E.

Section Append.
Context `{H : Host}.

Lemma keeps_effective_low_cost_mode K : keeps K effective_low_cost_mode.
Proof. unfold effective_low_cost_mode. keeps_tac. Qed.
Lemma keeps_event_type_count K et : keeps K (event_type_count et).
Proof. unfold event_type_count. keeps_tac. Qed.

Lemma keeps_store_persistent K id e : keeps K (store_persistent id e).
Proof. unfold store_persistent. keeps_tac. Qed.
Lemma keeps_dedup_record p et a m i ts : keeps guarded (dedup_record p et a m i ts).
Proof. unfold dedup_record, pending_custom_key. keeps_tac. Qed.
Lemma keeps_push_type_index et i : keeps guarded (push_type_index et i).
Proof. unfold push_type_index. keeps_tac. Qed.
Lemma keeps_push_submitter_index a i : keeps guarded (push_submitter_index a i).
Proof. unfold push_submitter_index, submitter_count. keeps_tac. Qed.
#[local] Hint Resolve keeps_push_type_index keeps_push_submitter_index keeps_event_type_count
  keeps_effective_low_cost_mode : keeps.
Lemma keeps_update_indices et a i o : keeps guarded (update_indices et a i o).
Proof. unfold update_indices. keeps_tac. Qed.
Lemma keeps_batch_indices et a i : keeps guarded (batch_indices et a i).
Proof. unfold batch_indices. keeps_tac. Qed.
Lemma keeps_emit K a et i : keeps K (emit_log_event a et i).
Proof. unfold emit_log_event, effective_event_emission_mode. keeps_tac. Qed.

Lemma link_prev_Ok n c s r s' :
  link_prev n c s = Ok (r, s') -> s' = s /\ prev_at (inst s) n = Some r.1.
Proof.
  unfold link_prev, prev_at, entry, bind, iget, unwrap, ret, panic.
  destruct (Z.eqb_spec n 0); [naive_solver|].
  destruct (sget (inst s) (DataKey.EventOrder (n - 1))) as [id|]; simpl; [|done].
  destruct (sget (inst s) (DataKey.EventData id)); simpl; naive_solver.
Qed.

(** The two totals after [bump_totals]. *)
Lemma bump_totals_Ok cfg c s u s' :
  bump_totals cfg c s = Ok (u, s') ->
  cfg_total_events cfg + 1 <= u32_max /\
  sget (inst s') DataKey.Config =
    Some {| cfg_global_max_logs := cfg_global_max_logs cfg;
            cfg_total_events := cfg_total_events cfg + 1 |} /\
  (forall rs, sget (inst s) DataKey.RuntimeState = Some rs ->
     exists rs', sget (inst s') DataKey.RuntimeState = Some rs' /\
       rs_total_events rs' = cfg_total_events cfg + 1 /\
       rs_global_max_logs rs' = rs_global_max_logs rs) /\
  (forall k, totals_key k = false -> sget (inst s') k = sget (inst s) k).
Proof.
  intros R. unfold bump_totals, sync_runtime_total in R. minv.
  rewrite sset_ne in R by done.
  destruct (sget (inst s) DataKey.RuntimeState) as [rs|] eqn:Ers; minv.
  - split; [done|]. split; [by rewrite sset_ne, sset_eq by done|]. split.
    + intros rs0 [= <-]. eexists. by rewrite sset_eq.
    + intros k Hk. rewrite !sset_ne; [done|by intros <-|by intros <-].
  - split; [done|]. split; [by rewrite sset_eq|]. split; [done|].
    intros k Hk. rewrite sset_ne; [done|by intros <-].
Qed.

(** The keys [store_event] leaves alone. *)
Lemma store_event_Ok id e c s u s' :
  store_event id e c s = Ok (u, s') ->
  (forall k, bodily k = true -> sget (inst s') k = sget (put (inst s) (ev_index e) id e) k) /\
  (forall k, totals_key k = true -> sget (inst s') k = sget (inst s) k) /\
  shas (inst s') DataKey.Owner = shas (inst s) DataKey.Owner.
Proof.
  intros R. unfold store_event in R. minv. unfold put. split; [|split].
  - intros k Hk. rewrite !(sset_ne _ (DataKey.EventMetadata id)) by (by intros <-).
    rewrite !(sset_ne _ (DataKey.EventHeaderKey id)) by (by intros <-). done.
  - intros k Hk. rewrite !sset_ne; [done|by intros <-..].
  - by rewrite !shas_sset_ne.
Qed.

Context `{!CollisionFree}.

(** Storing the next event extends the body of the ledger. *)
Lemma store_event_body self n id e c s u s' :
  cx_self c = self -> Body n c (inst s) -> n < u32_max -> ev_index e = n ->
  addressed self id e -> prev_at (inst s) n = Some (ev_prev_hash e) ->
  ev_event_hash e = compute_event_hash id (ev_prev_hash e) n (ev_timestamp e) ->
  store_event id e c s = Ok (u, s') ->
  Body (n + 1) c (inst s') /\ entry (inst s') n = Some (id, e) /\
  (forall i, 0 <= i < n -> entry (inst s') i = entry (inst s) i) /\
  (forall k, totals_key k = true -> sget (inst s') k = sget (inst s) k).
Proof.
  intros Hself [F L] Hn Hx A Hp Hh R.
  destruct (store_event_Ok _ _ _ _ _ _ R) as (Eb & Et & Eo). rewrite Hx in Eb.
  pose proof (fr_range _ _ _ F).
  assert (same_ledger (put (inst s) n id e) (inst s')) as SL
    by (intros k Hk; apply Eb; by destruct k).
  subst self. split; [|split; [|split]].
  - split.
    + eapply Frame_ext; [|exact Eb|].
      * rewrite Eo. apply (fr_owner _ _ _ F).
      * replace (n + 1) with (Z.max n (n + 1)) by lia. apply put_frame; done || lia.
    + eapply Linked_ext; [exact Eb|]. eapply put_linked; done || lia.
  - rewrite <- SL. apply entry_put_eq.
  - intros i Hi. rewrite <- SL. eapply put_others; unfold is_u32; try done; lia.
  - done.
Qed.

(** What an append leaves in the store [st'], the store before being [st]. *)
Record AppendedTo (c : Ctx) (st st' : store) (n : Z) (id : Hash) (e : Event) : Prop := {
  at_body : Body (n + 1) c st';
  at_entry : entry st' n = Some (id, e);
  at_before : forall i, 0 <= i < n -> entry st' i = entry st i;
  at_index : ev_index e = n;
  at_time : ev_timestamp e = cx_timestamp c;
  at_prev : prev_at st n = Some (ev_prev_hash e);
  at_hash : ev_event_hash e = compute_event_hash id (ev_prev_hash e) n (ev_timestamp e);
  at_addr : addressed (cx_self c) id e }.

Lemma guard_eq_body n c st st' : guard_eq st st' -> Body n c st -> Body n c st'.
Proof.
  intros E [F L].
  assert (forall k, bodily k = true -> sget st' k = sget st k) as Eb
    by (intros k Hk; apply E; by destruct k).
  split; [eapply Frame_ext|eapply Linked_ext]; try done.
  unfold shas. rewrite (E DataKey.Owner) by done. apply (fr_owner _ _ _ F).
Qed.

Lemma guard_eq_ledger st st' : guard_eq st st' -> same_ledger st st'.
Proof. intros E k Hk. apply E. by destruct k. Qed.

Lemma AppendedTo_before c st0 st st' n id e :
  guard_eq st0 st -> AppendedTo c st st' n id e -> AppendedTo c st0 st' n id e.
Proof.
  intros E%guard_eq_ledger [B En Eb Hx Ht Hp Hh Ha]. split; try done.
  - intros i Hi. rewrite Eb by done. by rewrite E.
  - by rewrite E.
Qed.

(** The content an event was submitted with. *)
Definition submitted (e : Event) (a : Address) (et : Symbol) (m : Bytes)
    (cat sub : option Symbol) : Prop :=
  ev_submitter e = a /\ ev_event_type e = et /\ ev_metadata e = m /\
  ev_category e = default "general"%string cat /\ ev_sub_event_type e = sub /\
  ev_parent_event_id e = None.

(** Two stores that agree on the keys of the body and on the owner. *)
Lemma agree_body n c st st' :
  (forall k, guarded k = true -> totals_key k = false -> sget st' k = sget st k) ->
  Body n c st -> Body n c st'.
Proof.
  intros E [F L].
  assert (forall k, bodily k = true -> sget st' k = sget st k) as Eb
    by (intros k Hk; apply E; by destruct k).
  split; [eapply Frame_ext|eapply Linked_ext]; try done.
  unfold shas. rewrite (E DataKey.Owner) by done. apply (fr_owner _ _ _ F).
Qed.

Lemma agree_ledger st st' :
  (forall k, guarded k = true -> totals_key k = false -> sget st' k = sget st k) ->
  same_ledger st st'.
Proof. intros E k Hk. apply E; by destruct k. Qed.

(** Everything [append_event] does. *)
Lemma append_event_spec a et m cat sub cfg tco p c s id s' n :
  Body n c (inst s) -> cfg_total_events cfg = n ->
  append_event a et m cat sub cfg tco p c s = Ok (id, s') ->
  exists e, AppendedTo c (inst s) (inst s') n id e /\ submitted e a et m cat sub /\
    sget (inst s') DataKey.Config =
      Some {| cfg_global_max_logs := cfg_global_max_logs cfg; cfg_total_events := n + 1 |} /\
    (forall rs, sget (inst s) DataKey.RuntimeState = Some rs ->
       exists rs', sget (inst s') DataKey.RuntimeState = Some rs' /\
         rs_total_events rs' = n + 1 /\ rs_global_max_logs rs' = rs_global_max_logs rs).
Proof.
  intros B Hn R. unfold append_event in R. rewrite Hn in R.
  apply bind_Ok in R as (ts & s1 & R1 & R). injection R1 as <- <-.
  apply bind_Ok in R as ([ph pt] & s1 & R1 & R). apply link_prev_Ok in R1 as [-> Hp].
  apply bind_Ok in R as (u & s1 & R1 & R).
  assert (s1 = s) as -> by (unfold check_timestamp in R1; by mcase). clear R1.
  apply bind_Ok in R as (id0 & s1 & R1 & R). unfold compute_event_id in R1. minv.
  unfold current_contract_version in *. minv.
  match goal with R : store_event _ ?ev _ _ = Ok _ |- _ => set (e := ev) in *; rename R into Rs end.
  match goal with R : store_persistent _ _ _ _ = Ok _ |- _ =>
    apply (keeps_store_persistent guarded) in R; rename R into Kp end.
  match goal with R : dedup_record _ _ _ _ _ _ _ _ = Ok _ |- _ =>
    apply keeps_dedup_record in R; rename R into Kd end.
  match goal with R : update_indices _ _ _ _ _ _ = Ok _ |- _ =>
    apply keeps_update_indices in R; rename R into Ki end.
  match goal with R : bump_totals _ _ _ = Ok _ |- _ =>
    apply bump_totals_Ok in R as (Hmax & Ec & Er & Eo) end.
  match goal with R : emit_log_event _ _ _ _ _ = Ok _ |- _ =>
    apply (keeps_emit guarded) in R; rename R into Ke end.
  simpl in *.
  destruct (store_event_body (cx_self c) (cfg_total_events cfg) _ e c _ _ _ eq_refl B
              ltac:(lia) eq_refl eq_refl Hp eq_refl Rs) as (B' & E' & Eb & Et).
  match type of Ke with forall k, _ -> sget ?sf k = _ =>
    assert (forall k, guarded k = true -> totals_key k = false -> sget sf k = sget (inst s2) k) as G
      by (intros k Hk Ht; rewrite (Ke _ Hk), (Eo _ Ht), (Ki _ Hk), (Kd _ Hk); by apply Kp) end.
  exists e. split; [|split; [|split]].
  - split; try done.
    + by eapply agree_body.
    + by rewrite <- (agree_ledger _ _ G).
    + intros i Hi. rewrite <- (agree_ledger _ _ G). by apply Eb.
  - done.
  - by rewrite Ke.
  - intros rs Hrs. rewrite <- (Et DataKey.RuntimeState) in Hrs by done.
    rewrite (Ke DataKey.RuntimeState) by done. apply Er.
    by rewrite (Ki DataKey.RuntimeState), (Kd DataKey.RuntimeState), (Kp DataKey.RuntimeState).
Qed.

End Append.

#[export] Hint Resolve keeps_store_persistent keeps_dedup_record keeps_push_type_index
  keeps_push_submitter_index keeps_event_type_count keeps_effective_low_cost_mode
  keeps_update_indices keeps_batch_indices keeps_emit : keeps.
