(* ===== verification/Submission.v ===== *)
(** * What the submission entry points do

    [log_event_with_hierarchy] either returns the identifier of a duplicate and
    leaves the ledger as it is, or appends the submitted event; a batch appends
    one event per item.  The conditions that make a submission fail are stated
    one by one.

    The second part of the file: what a batch does. *)

From S2P Require Import Prelude Contract StorageLemmas Types Storage Codec Access Chain Logging Batch.
From S2P Require Import Queries Versions Governance Invariant.

(** ** Footprints of the checks *)

Section Footprints.
Context `{H : Host} (K : DataKey -> bool).

Lemma keeps_require_initialized : keeps K require_initialized.
Proof. unfold require_initialized. keeps_tac. Qed.
Lemma keeps_rbac_enabled : keeps K rbac_enabled.
Proof. unfold rbac_enabled. keeps_tac. Qed.
#[local] Hint Resolve keeps_require_initialized keeps_rbac_enabled : keeps.
Lemma keeps_require_role_min a r : keeps K (require_role_min a r).
Proof. unfold require_role_min. keeps_tac. Qed.
#[local] Hint Resolve keeps_require_role_min : keeps.
Lemma keeps_is_addr_owner a : keeps K (is_addr_owner a).
Proof. unfold is_addr_owner, get_owners. keeps_tac. Qed.
#[local] Hint Resolve keeps_is_addr_owner : keeps.
Lemma keeps_require_owner_or_multisig a : keeps K (require_owner_or_multisig a).
Proof. unfold require_owner_or_multisig. keeps_tac. Qed.
#[local] Hint Resolve keeps_require_owner_or_multisig : keeps.
Lemma keeps_reject_when_paused : keeps K reject_when_paused.
Proof. unfold reject_when_paused. keeps_tac. Qed.
#[local] Hint Resolve keeps_reject_when_paused : keeps.
Lemma keeps_admin_entry a : keeps K (admin_entry a).
Proof. unfold admin_entry. keeps_tac. Qed.
Lemma keeps_governance_entry a : keeps K (governance_entry a).
Proof. unfold governance_entry. keeps_tac. Qed.
Lemma keeps_enter_guard : keeps K enter_guard.
Proof. unfold enter_guard. keeps_tac. Qed.
Lemma keeps_check_submitter_lists a : keeps K (check_submitter_lists a).
Proof. unfold check_submitter_lists. keeps_tac. Qed.
Lemma keeps_runtime_state : keeps K runtime_state.
Proof. unfold runtime_state. keeps_tac. Qed.
Lemma keeps_check_metadata et m : keeps K (check_metadata et m).
Proof.
  unfold check_metadata, effective_metadata_max_size, validate_metadata_against_schema. keeps_tac.
Qed.
Lemma keeps_event_cap et : keeps K (event_cap et).
Proof. unfold event_cap. keeps_tac. Qed.
#[local] Hint Resolve keeps_event_cap : keeps.
Lemma keeps_check_type_cap et : keeps K (check_type_cap et).
Proof. unfold check_type_cap. keeps_tac. Qed.
Lemma keeps_effective_dedup_policy et : keeps K (effective_dedup_policy et).
Proof. unfold effective_dedup_policy. keeps_tac. Qed.
Lemma keeps_dedup_lookup p et a m : keeps K (dedup_lookup p et a m).
Proof. unfold dedup_lookup, existing_id, pending_custom_key. keeps_tac. Qed.
Lemma keeps_total_events : keeps K total_events.
Proof. unfold total_events. keeps_tac. Qed.
End Footprints.

#[export] Hint Resolve keeps_require_initialized keeps_rbac_enabled keeps_require_role_min
  keeps_is_addr_owner keeps_require_owner_or_multisig keeps_reject_when_paused keeps_admin_entry
  keeps_governance_entry keeps_enter_guard keeps_check_submitter_lists keeps_runtime_state
  keeps_check_metadata keeps_event_cap keeps_check_type_cap keeps_effective_dedup_policy
  keeps_dedup_lookup keeps_total_events : keeps.

Section Submission.
Context `{H : Host}.

Lemma keeps_check_rate_limit a : keeps guarded (check_rate_limit a).
Proof. unfold check_rate_limit. keeps_tac. Qed.
#[local] Hint Resolve keeps_check_rate_limit : keeps.
Lemma keeps_admit_event a et m : keeps guarded (admit_event a et m).
Proof. unfold admit_event. keeps_tac. Qed.

(** What [admit_event] has checked when it returns. *)
Lemma admit_event_Ok a et m c s cfg s' n :
  Totals (inst s) n -> admit_event a et m c s = Ok (cfg, s') ->
  sget (inst s) DataKey.Config = Some cfg /\ cfg_total_events cfg = n /\
  exists rs, sget (inst s) DataKey.RuntimeState = Some rs /\ n < rs_global_max_logs rs.
Proof.
  intros [(cfg0 & Ec & Hc) (rs & Er & Ht & Hm)] R. unfold admit_event, runtime_state in R.
  minv. rewrite Er in *. minv. rewrite Ec in *. zcase. split; [done|]. split; [done|].
  exists rs. split; [done|lia].
Qed.

(** A duplicate is an event of the ledger. *)
Lemma dedup_lookup_Ok p et a m c s id s' :
  dedup_lookup p et a m c s = Ok (Some id, s') ->
  exists i, sget (inst s) (DataKey.EventOrder i) = Some id.
Proof. unfold dedup_lookup, existing_id, pending_custom_key. intros R. mcase; simplify_eq; eauto. Qed.

Context `{!CollisionFree}.

Lemma keeps_screening a et m force : keeps guarded (screening a et m force).
Proof. unfold screening. pose proof keeps_admit_event. keeps_tac. Qed.

(** What [screening] has found out when it returns. *)
Lemma screening_Ok a et m force c s cfg tco p dup s' n :
  Totals (inst s) n -> screening a et m force c s = Ok ((cfg, tco, p, dup), s') ->
  cfg_total_events cfg = n /\ sget (inst s) DataKey.Config = Some cfg /\
  (exists rs, sget (inst s) DataKey.RuntimeState = Some rs /\ n < rs_global_max_logs rs) /\
  (forall id, dup = Some id -> force = false /\
     exists i, sget (inst s) (DataKey.EventOrder i) = Some id).
Proof.
  intros T R. unfold screening in R. kstart R E. do 5 kstep R E.
  apply bind_Ok in R as (cfg0 & s1 & Ra & R).
  pose proof Ra as Ea. apply keeps_guard in Ea; [|apply keeps_admit_event].
  apply (admit_event_Ok _ _ _ _ _ _ _ n) in Ra as (Ec & Hc & rs & Er & Hm).
  2:{ eapply Totals_ext; [|done]. intros k Hk. apply E. by destruct k. }
  rewrite E in Ec, Er by done. assert (guard_eq (inst s) (inst s1)) as E1 by (by etrans).
  do 2 kstep R E1. apply bind_Ok in R as (d & s3 & Rd & R). minv. simplify_eq.
  split; [done|]. split; [done|]. split; [by exists rs|].
  intros id ->. destruct force; minv; [done|]. split; [done|].
  apply dedup_lookup_Ok in Rd as [i Hi]. exists i. by rewrite <- Hi, E1.
Qed.

(** A submission from a live ledger either appends the submitted event or finds
    a duplicate among the events there. *)
Lemma log_event_spec a et m cat sub force c s id s' n :
  Live (cx_self c) (inst s) n ->
  log_event_with_hierarchy a et m cat sub force c s = Ok (id, s') ->
  (exists e, AppendedTo c (inst s) (inst s') n id e /\ submitted e a et m cat sub /\
     Live (cx_self c) (inst s') (n + 1)) \/
  (force = false /\ guard_eq (inst s) (inst s') /\
     exists i, 0 <= i < n /\ sget (inst s) (DataKey.EventOrder i) = Some id).
Proof.
  intros [F Lk T] R. unfold log_event_with_hierarchy in R.
  apply bind_Ok in R as ([[[cfg tco] p] dup] & s1 & Rs & R).
  pose proof Rs as E. apply keeps_guard in E; [|apply keeps_screening].
  destruct (screening_Ok _ _ _ _ _ _ _ _ _ _ _ n T Rs) as (Hc & Ec & (rs & Er & Hm) & Hd).
  destruct dup as [id0|]; [right|left].
  - minv. destruct (Hd id0 eq_refl) as (-> & i & Hi). split; [done|]. split; [done|].
    exists i. split; [|done]. by apply (fr_dom _ _ _ F).
  - assert (Body n c (inst s1)) as B by (eapply guard_eq_body; [done|by split]).
    destruct (append_event_spec _ _ _ _ _ _ _ _ _ _ _ _ n B Hc R) as (e & A & Hs & Hcfg & Hrs).
    exists e. split; [by eapply AppendedTo_before|]. split; [done|].
    destruct (Hrs rs) as (rs' & Er' & Ht & Hm'); [by rewrite E|].
    destruct (at_body _ _ _ _ _ _ A). split; [done|done|].
    split; [eexists; by rewrite Hcfg|]. exists rs'. split; [done|]. split; [done|lia].
Qed.

Lemma Inv_guard_eq c st st' : guard_eq st st' -> Inv c st -> Inv c st'.
Proof.
  intros E [n [F L T]]. exists n. destruct (guard_eq_body n c st st' E (conj F L)).
  split; [done|done|]. eapply Totals_ext; [|done]. intros k Hk. apply E. by destruct k.
Qed.

Lemma Inv_log_event a et m cat sub force :
  preserves Inv (log_event_with_hierarchy a et m cat sub force).
Proof.
  intros c s id s' R [n L].
  destruct (log_event_spec _ _ _ _ _ _ _ _ _ _ n L R) as [(e & _ & _ & L')|(_ & E & _)].
  - by exists (n + 1).
  - eapply Inv_guard_eq; [done|by exists n].
Qed.

End Submission.

#[export] Hint Resolve keeps_check_rate_limit keeps_admit_event Inv_log_event : keeps preserves.

(** * What a batch does

    [log_events] appends one event per item, in order, at the positions it
    returns, and leaves every earlier position as it was. *)

Section BatchSpec.
Context `{H : Host}.

(** ** Footprints *)

Section Footprints.
Context (K : DataKey -> bool).

Lemma keeps_increment_count l a : keeps K (increment_count l a).
Proof. induction l as [|[k v] l IH]; simpl; keeps_tac. Qed.
#[local] Hint Resolve keeps_increment_count : keeps.
Lemma keeps_authorize_once ck a : keeps K (authorize_once ck a).
Proof. unfold authorize_once. keeps_tac. Qed.
Lemma keeps_batch_rate_limit now ck a : keeps K (batch_rate_limit now ck a).
Proof. unfold batch_rate_limit, increment_address_count. keeps_tac. Qed.
Lemma keeps_batch_type_cap ck et : keeps K (batch_type_cap ck et).
Proof. unfold batch_type_cap, increment_symbol_count. keeps_tac. Qed.
#[local] Hint Resolve keeps_authorize_once keeps_batch_rate_limit keeps_batch_type_cap : keeps.
Lemma keeps_check_item now ck item : keeps K (check_item now ck item).
Proof. unfold check_item. keeps_tac. Qed.
Lemma keeps_batch_runtime_state : keeps K batch_runtime_state.
Proof. unfold batch_runtime_state. keeps_tac. Qed.
Lemma keeps_link_prev n : keeps K (link_prev n).
Proof. unfold link_prev. keeps_tac. Qed.
End Footprints.
#[local] Hint Resolve keeps_check_item keeps_batch_runtime_state keeps_link_prev : keeps.

Context `{!CollisionFree}.

(** One appended item. *)
Lemma append_item_spec ap a et m c s ap' s' :
  Body (ap_total ap) c (inst s) -> prev_at (inst s) (ap_total ap) = Some (ap_prev ap) ->
  append_item ap (a, et, m) c s = Ok (ap', s') ->
  exists id e, AppendedTo c (inst s) (inst s') (ap_total ap) id e /\
    submitted e a et m None None /\
    ap_total ap' = ap_total ap + 1 /\ ap_prev ap' = ev_event_hash e /\
    ap_indices ap' = ap_indices ap ++ [ap_total ap] /\
    (forall k, totals_key k = true -> sget (inst s') k = sget (inst s) k).
Proof.
  intros B Hp R. unfold append_item, compute_event_id, current_contract_version in R. minv.
  match goal with R : store_event _ ?ev _ _ = Ok _ |- _ => set (e := ev) in *; rename R into Rs end.
  match goal with R : batch_indices _ _ _ _ _ = Ok _ |- _ =>
    apply keeps_guard in R; [|apply keeps_batch_indices]; rename R into Ki end.
  match goal with R : emit_log_event _ _ _ _ _ = Ok _ |- _ =>
    apply keeps_guard in R; [|apply keeps_emit]; rename R into Ke end.
  destruct (store_event_body (cx_self c) (ap_total ap) _ e c _ _ _ eq_refl B
              ltac:(lia) eq_refl eq_refl Hp eq_refl Rs) as (B' & E' & Eb & Et).
  apply (transitivity Ki) in Ke. clear Ki.
  eexists _, e. split; [|split; [done|split; [done|split; [done|split; [done|]]]]].
  - split; try done.
    + by eapply guard_eq_body.
    + by rewrite <- (guard_eq_ledger _ _ Ke).
    + intros i Hi. rewrite <- (guard_eq_ledger _ _ Ke). by apply Eb.
  - intros k Hk. rewrite Ke by (by destruct k). by apply Et.
Qed.

(** The state of the appending pass after the items [k]. *)
Record Progressed (c : Ctx) (st : store) (n : Z) (k : list (Address * Symbol * Bytes))
    (ap : Appended) (st' : store) : Prop := {
  pr_total : ap_total ap = n + len k;
  pr_indices : ap_indices ap = range n (n + len k);
  pr_body : Body (n + len k) c st';
  pr_prev : prev_at st' (n + len k) = Some (ap_prev ap);
  pr_before : forall i, 0 <= i < n -> entry st' i = entry st i;
  pr_totals : forall t, totals_key t = true -> sget st' t = sget st t;
  pr_items : forall j a et m, vget k j = Some (a, et, m) ->
    exists id e, entry st' (n + j) = Some (id, e) /\ submitted e a et m None None /\
      ev_timestamp e = cx_timestamp c }.

Lemma progress c st n k ap st1 a et m ap' st2 id e :
  0 <= n -> Progressed c st n k ap st1 ->
  AppendedTo c st1 st2 (ap_total ap) id e -> submitted e a et m None None ->
  ap_total ap' = ap_total ap + 1 -> ap_prev ap' = ev_event_hash e ->
  ap_indices ap' = ap_indices ap ++ [ap_total ap] ->
  (forall t, totals_key t = true -> sget st2 t = sget st1 t) ->
  Progressed c st n (k ++ [(a, et, m)]) ap' st2.
Proof.
  intros Hn [Pt Pi Pb Pp Pe Pk Pj] A Hs Ht Hh Hx Hk. pose proof (len_nonneg k).
  destruct A as [B En Eb _ Et _ _ _]. rewrite Pt in *. rewrite <- Z.add_assoc in *.
  assert (len (k ++ [(a, et, m)]) = len k + 1) as Hl by (by rewrite len_app).
  split; rewrite ?Hl; try done.
  - rewrite Hx, Pi, <- range_snoc by lia. by rewrite Z.add_assoc.
  - unfold prev_at. destruct (Z.eqb_spec (n + (len k + 1)) 0); [lia|].
    replace (n + (len k + 1) - 1) with (n + len k) by lia. by rewrite En, Hh.
  - intros i Hi. rewrite Eb by lia. by apply Pe.
  - intros t Hkt. rewrite Hk by done. by apply Pk.
  - intros j a0 et0 m0 Hj. pose proof (vget_Some_bounds _ _ _ Hj) as Hb. rewrite Hl in Hb.
    destruct (decide (j = len k)) as [->|Hne].
    + rewrite vget_app_r, Z.sub_diag in Hj by lia. injection Hj as <- <- <-. eauto.
    + rewrite vget_app_l in Hj by lia. destruct (Pj _ _ _ _ Hj) as (id' & e' & E' & ? & ?).
      exists id', e'. rewrite Eb by lia. eauto.
Qed.

Lemma append_pass c n s l p ap s' :
  0 <= n -> Body n c (inst s) -> prev_at (inst s) n = Some p ->
  fold_m append_item {| ap_total := n; ap_prev := p; ap_indices := [] |} l c s = Ok (ap, s') ->
  Progressed c (inst s) n l ap (inst s').
Proof.
  intros Hn B Hp R.
  eapply (fold_m_inv (fun k ap t => Progressed c (inst s) n k ap (inst t))); [| |exact R].
  - intros k [[a et] m] ap0 t ap1 t1 _ P R1.
    destruct (append_item_spec ap0 a et m c t ap1 t1) as (id & e & ? & ? & ? & ? & ? & ?); try done.
    + rewrite (pr_total _ _ _ _ _ _ P). apply (pr_body _ _ _ _ _ _ P).
    + rewrite (pr_total _ _ _ _ _ _ P). apply (pr_prev _ _ _ _ _ _ P).
    + by eapply progress.
  - assert (n + len (@nil (Address * Symbol * Bytes)) = n) as E by (rewrite len_nil; lia).
    split; rewrite ?E; try done; [by rewrite range_nil by lia|].
    intros j a et m Hj. apply vget_Some_bounds in Hj. unfold len in Hj. simpl in Hj. lia.
Qed.

Lemma sync_runtime_total_Ok t c s u s' rs :
  sget (inst s) DataKey.RuntimeState = Some rs -> sync_runtime_total t c s = Ok (u, s') ->
  (exists rs', sget (inst s') DataKey.RuntimeState = Some rs' /\ rs_total_events rs' = t /\
     rs_global_max_logs rs' = rs_global_max_logs rs) /\
  (forall k, k <> DataKey.RuntimeState -> sget (inst s') k = sget (inst s) k).
Proof.
  intros Er R. unfold sync_runtime_total in R. minv. rewrite Er in R. minv. split.
  - eexists. by rewrite sset_eq.
  - intros k Hk. by rewrite sset_ne.
Qed.

(** A batch from a live ledger. *)
Lemma log_events_spec l c s r s' n :
  Live (cx_self c) (inst s) n -> log_events l c s = Ok (r, s') ->
  r = range n (n + len l) /\ Live (cx_self c) (inst s') (n + len l) /\
  (forall i, 0 <= i < n -> entry (inst s') i = entry (inst s) i) /\
  (forall j a et m, vget l j = Some (a, et, m) ->
     exists id e, entry (inst s') (n + j) = Some (id, e) /\ submitted e a et m None None /\
       ev_timestamp e = cx_timestamp c).
Proof.
  intros [F Lk T] R. pose proof (fr_range _ _ _ F) as Hr. unfold log_events in R.
  kstart R E. apply bind_Ok in R as (rs & s1 & Rr & R).
  destruct (tot_rs _ _ T) as (rs0 & Er & Ht & Hm).
  unfold batch_runtime_state in Rr. minv. rewrite (E DataKey.RuntimeState), Er in Rr by done. minv.
  match goal with H : fold_m (check_item _) _ _ _ _ = Ok _ |- _ =>
    apply keeps_guard in H; [|keeps_tac]; apply (transitivity E) in H; clear E; rename H into E end.
  match goal with H : link_prev _ _ _ = Ok _ |- _ => apply link_prev_Ok in H as [-> Hp] end.
  match goal with H : fold_m append_item _ _ _ _ = Ok _ |- _ =>
    apply append_pass in H; [rename H into P|lia| |done] end.
  2:{ eapply guard_eq_body; [done|]. by split. }
  match goal with H : sync_runtime_total _ _ _ = Ok _ |- _ =>
    eapply sync_runtime_total_Ok in H as [(rs' & Er' & Ht' & Hm') Eo] end.
  2:{ simpl. rewrite sset_ne by done. rewrite (pr_totals _ _ _ _ _ _ P) by done. by rewrite E. }
  destruct P as [Pt Pi Pb Pp Pe Pk Pj]. simpl in Eo. zcase.
  match goal with |- context [Live _ (inst ?t) _] =>
    assert (forall k, totals_key k = false -> sget (inst t) k = sget (inst s6) k) as Eb end.
  { intros k Hk. rewrite Eo, sset_ne; [done|by intros <-|by intros ->]. }
  assert (same_ledger (inst s6) (inst s8)) as SL by (apply agree_ledger; intros; by apply Eb).
  split; [done|]. split; [|split].
  - destruct (agree_body _ c (inst s6) (inst s8) ltac:(intros; by apply Eb) Pb) as [F' L'].
    split; [done|done|]. split.
    + eexists. rewrite Eo by done. rewrite sset_eq. split; [done|]. simpl. lia.
    + exists rs'. split; [done|]. lia.
  - intros i Hi. rewrite <- SL.
    rewrite Pe by lia. by rewrite <- (guard_eq_ledger _ _ E).
  - intros j a2 et m Hj. destruct (Pj _ _ _ _ Hj) as (id & e & Hj'). exists id, e.
    by rewrite <- SL.
Qed.

Lemma Inv_log_events l : preserves Inv (log_events l).
Proof.
  intros c s r s' R [n L]. destruct (log_events_spec _ _ _ _ _ n L R) as (_ & L' & _).
  by exists (n + len l).
Qed.

End BatchSpec.

#[export] Hint Resolve Inv_log_events : preserves.
