(* ===== verification/VersionSpec.v ===== *)
(** * What updates and rollbacks do

    Both replace one event, keep the content of every other one, and leave a
    fully linked chain behind. *)

From S2P Require Import Prelude Contract StorageLemmas Types Storage Codec Access Chain Logging Batch.
From S2P Require Import Queries Versions Governance Invariant Submission.

Section VersionSpec.
Context `{H : Host}.

Lemma event_at_unwrap_Ok i c s r s' :
  event_at_unwrap i c s = Ok (r, s') <-> s' = s /\ entry (inst s) i = Some r.
Proof.
  unfold event_at_unwrap, entry, bind, iget, unwrap, ret, panic.
  destruct (sget (inst s) (DataKey.EventOrder i)) as [id|]; simpl; [|naive_solver].
  destruct (sget (inst s) (DataKey.EventData id)); simpl; naive_solver.
Qed.

(** What stays of an event when it is re-linked or given another parent. *)
Definition core (e : Event) :=
  (ev_index e, ev_timestamp e, ev_event_type e, ev_category e, ev_submitter e, ev_metadata e,
   ev_sub_event_type e, ev_version e).

Lemma core_same_content e e' : core e' = core e -> same_content e e'.
Proof. unfold core, same_content. intros [=]. auto. Qed.

(** The position holds the same event up to its place in the chain. *)
Definition same_core (st st' : store) (i : Z) : Prop :=
  exists id e e', entry st i = Some (id, e) /\ entry st' i = Some (id, e') /\ core e' = core e.

Lemma same_core_entry st st' st2 i :
  same_core st st' i -> entry st2 i = entry st' i -> same_core st st2 i.
Proof. intros (id & e & e' & ? & ? & ?) E. exists id, e, e'. by rewrite E. Qed.

Lemma same_core_trans st1 st2 st3 i :
  same_core st1 st2 i -> same_core st2 st3 i -> same_core st1 st3 i.
Proof.
  intros (id & e & e' & ? & E2 & ?) (id2 & e2 & e3 & E2' & ? & ?). rewrite E2 in E2'.
  injection E2' as <- <-. exists id, e, e3. split; [done|]. split; [done|]. congruence.
Qed.

Lemma Cells_same_core self st n i : Cells self st n -> 0 <= i < n -> same_core st st i.
Proof. intros C Hi. destruct (C i Hi) as (id & e & E & _). by exists id, e, e. Qed.

Context `{!CollisionFree}.

(** ** The rehash loop *)

(** The state of the loop before position [i], the store at its start being
    [st0] and its first position [m]. *)
Record Rehashing (c : Ctx) (st0 : store) (n m i : Z) (p : Hash) (st : store) : Prop := {
  rh_frame : Frame (cx_self c) st n;
  rh_linked : Linked st i;
  rh_prev : prev_at st i = Some p;
  rh_before : forall k, 0 <= k < m -> entry st k = entry st0 k;
  rh_core : forall k, 0 <= k < n -> same_core st0 st k;
  rh_totals : forall k, totals_key k = true -> sget st k = sget st0 k }.

Lemma rehash_step_ok c st0 n m i p s p' s' :
  0 <= m <= i -> i < n -> Rehashing c st0 n m i p (inst s) ->
  rehash_step p i c s = Ok (p', s') -> Rehashing c st0 n m (i + 1) p' (inst s').
Proof.
  intros Hm Hi [F L P B Co T] R. unfold rehash_step in R.
  apply bind_Ok in R as ([id e] & s1 & R1 & R). apply event_at_unwrap_Ok in R1 as [-> E]. minv.
  set (e' := relink e id p i).
  assert (Hin : 0 <= i < n) by lia.
  assert (S : same_content e e') by done.
  pose proof (rewrite_eq (inst s) i id e e' E) as Eq.
  pose proof (rewrite_others _ _ _ _ _ _ e' F Hin E S) as Ot.
  set (st1 := sset (inst s) (DataKey.EventData id) e') in *.
  assert (forall k, bodily k = true -> sget (sset st1 (DataKey.EventMeta id) e') k = sget st1 k) as Em
    by (intros k Hk; apply sset_ne; by intros <-).
  assert (same_ledger st1 (sset st1 (DataKey.EventMeta id) e')) as SL
    by (intros k Hk; apply Em; by destruct k).
  split.
  - eapply Frame_ext; [|exact Em|by apply (rewrite_frame _ _ _ _ _ _ e' F Hin E S)].
    do 2 apply sset_owner. apply (fr_owner _ _ _ F).
  - rewrite <- SL. intros k Hk. destruct (decide (k = i)) as [->|Hne].
    + exists id, e'. split; [done|]. split; [|done]. simpl. rewrite <- P. unfold prev_at.
      destruct (Z.eqb_spec i 0); [done|]. by rewrite Ot by lia.
    + eapply (linked_ext (inst s)); [apply Ot; lia|intros; apply Ot; lia|apply L; lia].
  - rewrite <- SL. unfold prev_at. destruct (Z.eqb_spec (i + 1) 0); [lia|].
    replace (i + 1 - 1) with i by lia. by rewrite Eq.
  - intros k Hk. rewrite <- SL, Ot by lia. by apply B.
  - intros k Hk. destruct (decide (k = i)) as [->|Hne].
    + destruct (Co i Hk) as (id0 & e0 & e1 & E0 & E1 & Hc). rewrite E in E1. injection E1 as <- <-.
      exists id, e0, e'. rewrite <- SL. done.
    + eapply same_core_entry; [by apply Co|]. rewrite <- SL. by apply Ot.
  - intros k Hk. unfold st1. rewrite !sset_ne; [by apply T|by intros <-|by intros <-].
Qed.

Lemma rehash_from_ok c n j p s u s' :
  0 <= j < n -> Frame (cx_self c) (inst s) n -> Linked (inst s) (j + 1) ->
  prev_at (inst s) (j + 1) = Some p -> rehash_from p j n c s = Ok (u, s') ->
  exists p', Rehashing c (inst s) n (j + 1) n p' (inst s').
Proof.
  intros Hj F L P R. unfold rehash_from in R. minv. exists a0.
  eapply (fold_m_range_inv (fun i p t => Rehashing c (inst s) n (j + 1) i p (inst t)));
    [| | |eassumption]; [|lia|].
  - intros i x t x' t' Hi. apply rehash_step_ok; lia.
  - split; try done. intros k Hk. by eapply Cells_same_core, Hk; apply (fr_cells _ _ _ F).
Qed.

(** ** Installing a replacement *)

Lemma push_version_Ok j vs e a c s u s' :
  push_version j vs e a c s = Ok (u, s') ->
  inst s' = sset (inst s) (DataKey.EventVersions j)
              (vs ++ [{| vn_version := len vs; vn_data := e; vn_updated_at := cx_timestamp c;
                         vn_updated_by := a |}]).
Proof. unfold push_version. intros R. by minv. Qed.

Lemma replace_event_Ok j id e c s u s' :
  replace_event j id e c s = Ok (u, s') ->
  forall k, vital k = true \/ k = DataKey.Owner -> sget (inst s') k = sget (put (inst s) j id e) k.
Proof.
  unfold replace_event, put. intros R k Hk. minv.
  rewrite !(sset_ne _ (DataKey.EventMetadata id)), !(sset_ne _ (DataKey.EventMeta id)),
    !(sset_ne _ (DataKey.EventHeaderKey id)); try done; intros <-; naive_solver.
Qed.

(** The effect of the three steps that update and rollback share. *)
Record Replaced (c : Ctx) (st st' : store) (n j : Z) (id : Hash) (e : Event) : Prop := {
  rp_body : Body n c st';
  rp_entry : entry st' j = Some (id, e);
  rp_before : forall k, 0 <= k < j -> entry st' k = entry st k;
  rp_core : forall k, 0 <= k < n -> k <> j -> same_core st st' k;
  rp_totals : forall k, totals_key k = true -> sget st' k = sget st k }.

Lemma replace_ok c n j id e vs a s s1 s2 s3 u1 u2 u3 :
  Body n c (inst s) -> 0 <= j < n -> ev_index e = j -> addressed (cx_self c) id e ->
  prev_at (inst s) j = Some (ev_prev_hash e) ->
  ev_event_hash e = compute_event_hash id (ev_prev_hash e) j (ev_timestamp e) ->
  Forall (fun v => ev_index (vn_data v) = j) vs ->
  push_version j vs e a c s = Ok (u1, s1) -> replace_event j id e c s1 = Ok (u2, s2) ->
  rehash_from (ev_event_hash e) j n c s2 = Ok (u3, s3) ->
  Replaced c (inst s) (inst s3) n j id e.
Proof.
  intros [F L] Hj Hx A Hp Hh Hv R1%push_version_Ok R2 R3. pose proof (fr_range _ _ _ F) as Hr.
  assert (same_ledger (inst s) (inst s1)) as SL1.
  { intros k Hk. rewrite R1, sset_ne; [done|by intros <-]. }
  assert (F1 : Frame (cx_self c) (inst s1) n).
  { destruct F as [Fo Fr Fd Fc Fv]. rewrite R1. split; [by apply sset_owner|done| | |].
    - intros k. rewrite sset_ne by done. apply Fd.
    - rewrite <- R1. by rewrite <- SL1.
    - intros k ws. destruct (decide (k = j)) as [->|Hne].
      + rewrite sset_eq. intros [= <-]. apply Forall_app. split; [done|]. by apply Forall_singleton.
      + rewrite sset_ne by congruence. apply Fv. }
  rewrite SL1 in L. assert (prev_at (inst s1) j = Some (ev_prev_hash e)) as Hp1 by (by rewrite <- SL1).
  pose proof (replace_event_Ok _ _ _ _ _ _ _ R2) as E2.
  assert (same_ledger (put (inst s1) j id e) (inst s2)) as SL2
    by (intros k Hk; apply E2; left; by destruct k).
  assert (F2 : Frame (cx_self c) (inst s2) n).
  { eapply Frame_ext.
    - unfold shas. rewrite (E2 DataKey.Owner) by auto. do 2 apply sset_owner. apply (fr_owner _ _ _ F1).
    - intros k Hk. apply E2. left. by apply orb_true_iff; left.
    - replace n with (Z.max n (j + 1)) by lia. apply put_frame; done || lia. }
  assert (L2 : Linked (inst s2) (j + 1)).
  { rewrite <- SL2. eapply put_linked; try done; try lia. intros k Hk. apply L. lia. }
  assert (P2 : prev_at (inst s2) (j + 1) = Some (ev_event_hash e)).
  { rewrite <- SL2. unfold prev_at. destruct (Z.eqb_spec (j + 1) 0); [lia|].
    replace (j + 1 - 1) with j by lia. by rewrite entry_put_eq. }
  destruct (rehash_from_ok _ _ _ _ _ _ _ Hj F2 L2 P2 R3) as (p' & [F3 L3 _ B3 C3 T3]).
  assert (forall k, 0 <= k < n -> k <> j -> entry (inst s2) k = entry (inst s) k) as Ek.
  { intros k Hk Hne. rewrite <- SL2, SL1. eapply put_others; unfold is_u32; try done; lia. }
  split.
  - done.
  - rewrite B3 by lia. rewrite <- SL2. apply entry_put_eq.
  - intros k Hk. rewrite B3 by lia. apply Ek; lia.
  - intros k Hk Hne. eapply same_core_trans; [|by apply C3].
    eapply same_core_entry; [by eapply Cells_same_core, Hk; apply (fr_cells _ _ _ F)|by apply Ek].
  - intros k Hk. rewrite T3 by done. rewrite (E2 k) by (left; by apply orb_true_iff; right).
    unfold put. rewrite !sset_ne by (by intros <-). rewrite R1. by rewrite sset_ne by (by intros <-).
Qed.

(** ** The recorded versions *)

Definition versions_key (k : DataKey) : bool :=
  match k with DataKey.EventVersions _ => true | _ => false end.

Lemma keeps_rehash_from p j n : keeps versions_key (rehash_from p j n).
Proof. unfold rehash_from, rehash_step, event_at_unwrap. keeps_tac. Qed.
Lemma keeps_reparent_step cur new u i : keeps versions_key (reparent_step cur new u i).
Proof. unfold reparent_step, event_at_unwrap. keeps_tac. Qed.
Lemma keeps_replace_event j id e : keeps versions_key (replace_event j id e).
Proof. unfold replace_event. keeps_tac. Qed.

(** The versions a revision starts from: those recorded, or the event itself. *)
Definition recorded (st : store) (j : Z) (cur : Event) : list EventVersion :=
  match sget st (DataKey.EventVersions j) with
  | Some (v :: vs) => v :: vs
  | _ => [original_version cur]
  end.

(** ** The reparent loop *)

(** The place of an event in the chain. *)
Definition link_of (e : Event) := (ev_event_hash e, ev_prev_hash e).

Definition same_link (st st' : store) (i : Z) : Prop :=
  exists id e e', entry st i = Some (id, e) /\ entry st' i = Some (id, e') /\
    core e' = core e /\ link_of e' = link_of e.

Record Reparenting (c : Ctx) (st0 : store) (n : Z) (st : store) : Prop := {
  re_frame : Frame (cx_self c) st n;
  re_same : forall k, 0 <= k < n -> same_link st0 st k;
  re_totals : forall k, totals_key k = true -> sget st k = sget st0 k }.

Lemma reparent_step_ok c st0 n cur new i u s u' s' :
  0 <= i < n -> Reparenting c st0 n (inst s) ->
  reparent_step cur new u i c s = Ok (u', s') -> Reparenting c st0 n (inst s').
Proof.
  intros Hin I R. unfold reparent_step in R.
  apply bind_Ok in R as ([id e] & s1 & R1 & R). apply event_at_unwrap_Ok in R1 as [-> E].
  unfold when in R. destruct (bool_decide _); minv; [|done].
  destruct I as [F Sm T]. set (e' := reparent e (Some new)).
  assert (S : same_content e e') by done.
  pose proof (rewrite_eq (inst s) i id e e' E) as Eq.
  pose proof (rewrite_others _ _ _ _ _ _ e' F Hin E S) as Ot.
  set (st1 := sset (inst s) (DataKey.EventData id) e') in *.
  assert (forall k, bodily k = true -> sget (sset st1 (DataKey.EventMeta id) e') k = sget st1 k) as Em
    by (intros k Hk; apply sset_ne; by intros <-).
  assert (same_ledger st1 (sset st1 (DataKey.EventMeta id) e')) as SL
    by (intros k Hk; apply Em; by destruct k).
  split.
  - eapply Frame_ext; [|exact Em|by apply (rewrite_frame _ _ _ _ _ _ e' F Hin E S)].
    do 2 apply sset_owner. apply (fr_owner _ _ _ F).
  - intros k Hk. destruct (Sm k Hk) as (id0 & e0 & e1 & E0 & E1 & Hc & Hl).
    destruct (decide (k = i)) as [->|Hne].
    + rewrite E in E1. injection E1 as <- <-. exists id, e0, e'. rewrite <- SL. done.
    + exists id0, e0, e1. rewrite <- SL, Ot by done. done.
  - intros k Hk. unfold st1. rewrite !sset_ne; [by apply T|by intros <-|by intros <-].
Qed.

(** Positions with the same links form a chain together. *)
Lemma Linked_same_link st st' n :
  (forall k, 0 <= k < n -> same_link st st' k) -> Linked st n -> Linked st' n.
Proof.
  intros Sm L i Hi. destruct (Sm i Hi) as (id & e & e' & E & E' & Hc & [= Hh Hp]).
  destruct (L i Hi) as (id1 & e1 & E1 & P1 & H1). rewrite E in E1. injection E1 as <- <-.
  exists id, e'. split; [done|]. injection Hc as. split; [|congruence].
  rewrite Hp, <- P1. unfold prev_at. destruct (Z.eqb_spec i 0); [done|].
  destruct (Sm (i - 1)) as (id2 & e2 & e2' & E2 & E2' & _ & [= Hh2 _]); [lia|].
  rewrite E2, E2'. by rewrite Hh2.
Qed.

Lemma reparent_ok c n cur new s u s' :
  Body n c (inst s) -> fold_m (reparent_step cur new) tt (range 0 n) c s = Ok (u, s') ->
  Body n c (inst s') /\ (forall k, 0 <= k < n -> same_link (inst s) (inst s') k) /\
  (forall k, totals_key k = true -> sget (inst s') k = sget (inst s) k).
Proof.
  intros [F L] R. pose proof (fr_range _ _ _ F).
  assert (Reparenting c (inst s) n (inst s')) as [F' S' T'].
  { eapply (fold_m_range_inv (fun _ _ t => Reparenting c (inst s) n (inst t)));
      [| | |exact R]; [|lia|].
    - intros i x t x' t' Hi. by apply reparent_step_ok.
    - split; try done. intros k Hk. destruct (fr_cells _ _ _ F k Hk) as (id & e & E & _).
      by exists id, e, e. }
  split; [split; [done|]|done]. by eapply Linked_same_link.
Qed.

Lemma same_link_core st st' i : same_link st st' i -> same_core st st' i.
Proof. intros (id & e & e' & ? & ? & ? & _). by exists id, e, e'. Qed.

(** ** Update and rollback *)

Lemma total_events_Live c s n t s' self :
  Live self (inst s) n -> total_events c s = Ok (t, s') -> t = n /\ s' = s.
Proof.
  intros L R. destruct (tot_rs _ _ (live_totals _ _ _ L)) as (rs & Er & Ht & _).
  unfold total_events in R. apply bind_Ok in R as (u & s1 & R1 & R).
  assert (s1 = s) as -> by (unfold require_initialized in R1; by minv). minv.
  rewrite Er in R. by minv.
Qed.

Lemma predecessor_hash_Ok j c s h s' :
  predecessor_hash j c s = Ok (h, s') -> s' = s /\ prev_at (inst s) j = Some h.
Proof.
  unfold predecessor_hash, prev_at. destruct (Z.eqb_spec j 0); intros R; [by minv|].
  apply bind_Ok in R as ([id e] & s1 & R1 & R). apply event_at_unwrap_Ok in R1 as [-> E].
  minv. by rewrite E.
Qed.

(** The ledger after position [j] was replaced by event [e]: the positions
    before it are as they were, those behind it keep their content. *)
Record Revised (c : Ctx) (st st' : store) (n j : Z) (id : Hash) (e : Event) : Prop := {
  rv_live : Live (cx_self c) st' n;
  rv_entry : exists e', entry st' j = Some (id, e') /\ core e' = core e /\ link_of e' = link_of e;
  rv_core : forall k, 0 <= k < n -> k <> j -> same_core st st' k }.

Lemma Totals_eq st st' n :
  (forall k, totals_key k = true -> sget st' k = sget st k) -> Totals st n -> Totals st' n.
Proof. apply Totals_ext. Qed.

Lemma versions_of_Ok j cur c s vs s' n :
  Frame (cx_self c) (inst s) n -> ev_index cur = j ->
  versions_of j cur c s = Ok (vs, s') ->
  s' = s /\ Forall (fun v => ev_index (vn_data v) = j) vs.
Proof.
  intros F Hx. unfold versions_of, bind, iget_or, ret. intros [= <- <-]. split; [done|].
  case_bool_decide; [by apply Forall_singleton|].
  destruct (sget (inst s) (DataKey.EventVersions j)) as [ws|] eqn:E; [|done].
  by apply (fr_versions _ _ _ F).
Qed.

(** [apply_update] appends the new event to the versions of its position. *)
Lemma apply_update_versions a j n cur_id new_id cur m c s id s' :
  apply_update a j n cur_id new_id cur m c s = Ok (id, s') ->
  exists e, ev_metadata e = m /\
    sget (inst s') (DataKey.EventVersions j) =
      Some (recorded (inst s) j cur ++
              [{| vn_version := len (recorded (inst s) j cur); vn_data := e;
                  vn_updated_at := cx_timestamp c; vn_updated_by := a |}]).
Proof.
  intros R. unfold apply_update in R.
  apply bind_Ok in R as (vs & s1 & R1 & R).
  assert (s1 = s /\ vs = recorded (inst s) j cur) as [-> ->].
  { unfold versions_of, recorded, bind, iget_or, ret in *. injection R1 as <- <-. split; [done|].
    by destruct (sget (inst s) (DataKey.EventVersions j)) as [[|v vs]|]. }
  apply bind_Ok in R as (ph & s1 & R2 & R). apply predecessor_hash_Ok in R2 as [-> _].
  apply bind_Ok in R as (v & s1 & R2 & R). injection R2 as _ <-. cbv zeta in R.
  set (e := updated_event cur j new_id ph m v) in *. exists e. split; [done|].
  apply bind_Ok in R as (u1 & s1 & R2 & R). apply push_version_Ok in R2 as E.
  apply bind_Ok in R as (u2 & s2 & R3 & R). apply bind_Ok in R as (u3 & s3 & R4 & R).
  apply bind_Ok in R as (u4 & s4 & R5 & R).
  assert (inst s' = inst s4) as -> by (by minv).
  assert (keeps versions_key (fold_m (reparent_step cur_id new_id) tt (range 0 n))) as K5
    by (apply keeps_fold; intros; apply keeps_reparent_step).
  rewrite (K5 _ _ _ _ R5), (keeps_rehash_from _ _ _ _ _ _ _ R4), (keeps_replace_event _ _ _ _ _ _ _ R3), E
    by done.
  by rewrite sset_eq.
Qed.

Lemma apply_update_spec a j n cur_id new_id cur m c s id s' :
  Live (cx_self c) (inst s) n -> 0 <= j < n -> ev_index cur = j ->
  new_id = event_id (cx_self c) (ev_submitter cur) (ev_event_type cur) m (ev_timestamp cur) j ->
  apply_update a j n cur_id new_id cur m c s = Ok (id, s') ->
  id = new_id /\ exists e, Revised c (inst s) (inst s') n j new_id e /\
    core e = core (updated_event cur j new_id [] m (ev_version e)).
Proof.
  intros [F L T] Hj Hx Hid R. unfold apply_update in R.
  apply bind_Ok in R as (vs & s1 & R1 & R).
  apply (versions_of_Ok _ _ _ _ _ _ n) in R1 as [-> Hv]; [|done..].
  apply bind_Ok in R as (ph & s1 & R1 & R). apply predecessor_hash_Ok in R1 as [-> Hp].
  apply bind_Ok in R as (v & s1 & R1 & R). injection R1 as _ <-.
  set (e := updated_event cur j new_id ph m v) in *. cbv zeta in R.
  apply bind_Ok in R as (u1 & s1 & R1 & R). apply bind_Ok in R as (u2 & s2 & R2 & R).
  apply bind_Ok in R as (u3 & s3 & R3 & R). apply bind_Ok in R as (u4 & s4 & R4 & R).
  assert (id = new_id /\ inst s' = inst s4) as [-> Es] by (by minv).
  destruct (replace_ok c n j new_id e vs a _ _ _ _ _ _ _ (conj F L) Hj eq_refl Hid Hp eq_refl Hv R1 R2 R3)
    as [B3 E3 _ C3 T3].
  destruct (reparent_ok _ _ _ _ _ _ _ B3 R4) as ([F4 L4] & S4 & T4).
  split; [done|]. exists e. split; [|done]. rewrite Es. split.
  - split; [done|done|]. eapply Totals_ext; [|done]. intros k Hk. by rewrite T4, T3.
  - destruct (S4 j Hj) as (id1 & e1 & e1' & E1 & E1' & Hc & Hl). rewrite E3 in E1.
    injection E1 as <- <-. by exists e1'.
  - intros k Hk Hne. eapply same_core_trans; [by apply C3|]. by apply same_link_core, S4.
Qed.

(** The position of a stored event is its index. *)
Lemma entry_index self st n j id e :
  Frame self st n -> entry st j = Some (id, e) -> 0 <= j < n /\ ev_index e = j.
Proof.
  intros F E. pose proof E as [Eo _]%entry_Some.
  assert (0 <= j < n) as Hj by (apply (fr_dom _ _ _ F); by rewrite Eo). split; [done|].
  destruct (fr_cells _ _ _ F j Hj) as (id' & e' & E' & Hx & _). rewrite E in E'.
  by injection E' as <- <-.
Qed.

Lemma guard_eq_Live c st st' n : guard_eq st st' -> Live (cx_self c) st n -> Live (cx_self c) st' n.
Proof.
  intros E [F L T]. destruct (guard_eq_body n c st st' E (conj F L)). split; [done|done|].
  eapply Totals_ext; [|done]. intros k Hk. apply E. by destruct k.
Qed.

(** The successful runs of [update_event]: the checks have passed, and the rest
    is [apply_update] unless the metadata is the same. *)
Lemma update_event_inv a j m c s id s' n :
  Live (cx_self c) (inst s) n -> update_event a j m c s = Ok (id, s') ->
  exists cur_id cur, entry (inst s) j = Some (cur_id, cur) /\ 0 <= j < n /\ ev_index cur = j /\
    let new_id := event_id (cx_self c) (ev_submitter cur) (ev_event_type cur) m
                    (ev_timestamp cur) j in
    (new_id = cur_id /\ id = cur_id /\ inst s' = inst s) \/
    (new_id <> cur_id /\ exists t, inst t = inst s /\
       apply_update a j n cur_id new_id cur m c t = Ok (id, s')).
Proof.
  intros L R. unfold update_event in R.
  apply bind_Ok in R as (u & s1 & R1 & R). apply require_auth_Ok in R1 as [_ ->].
  apply bind_Ok in R as (u2 & s1 & R1 & R).
  assert (s1 = s) as ->.
  { unfold require_owner_or_multisig, rbac_enabled, require_role_min, is_addr_owner, get_owners,
      rbac_enabled in R1. by mcase. }
  apply bind_Ok in R as (t & s1 & R2 & R). destruct (total_events_Live _ _ _ _ _ _ L R2) as [-> ->]. clear R2.
  apply bind_Ok in R as (u3 & s1 & R2 & R). apply reject_if_Ok in R2 as [B ->].
  apply bind_Ok in R as ([cur_id cur] & s1 & R2 & R). apply event_at_unwrap_Ok in R2 as [-> E].
  destruct (entry_index _ _ _ _ _ _ (live_frame _ _ _ L) E) as [Hj Hx].
  apply bind_Ok in R as (u4 & s1 & R2 & R). apply bind_Ok in R as (new_id & s2 & R3 & R).
  set (new := event_id (cx_self c) (ev_submitter cur) (ev_event_type cur) m (ev_timestamp cur) j).
  assert (new_id = new /\ s2 = s1) as [-> ->] by (unfold compute_event_id in R3; by minv).
  assert (inst s1 = inst s) as Es.
  { unfold check_metadata, effective_metadata_max_size, validate_metadata_against_schema in R2.
    by mcase. }
  exists cur_id, cur. split; [done|]. split; [done|]. split; [done|].
  case_bool_decide; [left; by minv|right]. split; [done|]. exists s1. by split.
Qed.

Lemma update_event_spec a j m c s id s' n :
  Live (cx_self c) (inst s) n -> update_event a j m c s = Ok (id, s') ->
  exists cur_id cur, entry (inst s) j = Some (cur_id, cur) /\ 0 <= j < n /\
    ((id = cur_id /\ inst s' = inst s) \/
     (id <> cur_id /\ exists e, Revised c (inst s) (inst s') n j id e /\
        core e = core (updated_event cur j id [] m (ev_version e)))).
Proof.
  intros L R. destruct (update_event_inv _ _ _ _ _ _ _ _ L R)
    as (cur_id & cur & E & Hj & Hx & [(_ & -> & Es)|(Hne & t & Et & R')]);
    exists cur_id, cur; (split; [done|]); (split; [done|]); [by left|right].
  rewrite <- Et in L. destruct (apply_update_spec _ _ _ _ _ _ _ _ _ _ _ L Hj Hx eq_refl R')
    as (-> & e & Rv & Hc).
  rewrite Et in Rv. split; [done|]. by exists e.
Qed.

Lemma Inv_update_event a j m : preserves Inv (update_event a j m).
Proof.
  intros c s id s' R [n L].
  destruct (update_event_spec _ _ _ _ _ _ _ n L R) as (cur_id & cur & _ & _ & [(_ & ->)|(_ & e & Rv & _)]).
  - by exists n.
  - exists n. apply (rv_live _ _ _ _ _ _ _ Rv).
Qed.

(** [get_event_history] only reads, and its versions carry their position. *)
Lemma get_event_history_Ok j c s vs s' n :
  Live (cx_self c) (inst s) n -> get_event_history j c s = Ok (vs, s') ->
  s' = s /\ Forall (fun v => ev_index (vn_data v) = j) vs.
Proof.
  intros L R. unfold get_event_history in R.
  apply bind_Ok in R as (t & s1 & R1 & R). destruct (total_events_Live _ _ _ _ _ _ L R1) as [-> ->]. clear R1.
  destruct (Z.leb _ _); [by minv|].
  apply bind_Ok in R as (o & s1 & R1 & R). injection R1 as Eo <-.
  destruct o as [ws|].
  - minv. split; [done|]. by apply (fr_versions _ _ _ (live_frame _ _ _ L)).
  - apply bind_Ok in R as ([id e] & s1 & R1 & R). apply event_at_unwrap_Ok in R1 as [-> E].
    minv. split; [done|]. apply Forall_singleton. by eapply entry_index, E; apply L.
Qed.

Lemma rollback_event_spec a j v c s id s' n :
  Live (cx_self c) (inst s) n -> rollback_event a j v c s = Ok (id, s') ->
  0 <= j < n /\ exists vs w, get_event_history j c s = Ok (vs, s) /\ vget vs v = Some w /\
    id = event_id (cx_self c) (ev_submitter (vn_data w)) (ev_event_type (vn_data w))
           (ev_metadata (vn_data w)) (ev_timestamp (vn_data w)) j /\
    ((inst s' = inst s /\ exists e, entry (inst s) j = Some (id, e)) \/
     exists e, Revised c (inst s) (inst s') n j id e /\
       core e = core (restored_event (vn_data w) j id [] (ev_version e))).
Proof.
  intros L R. unfold rollback_event in R.
  apply bind_Ok in R as (u & s1 & R1 & R). apply require_auth_Ok in R1 as [_ ->].
  apply bind_Ok in R as (u2 & s1 & R1 & R).
  assert (s1 = s) as ->.
  { unfold require_owner_or_multisig, rbac_enabled, require_role_min, is_addr_owner, get_owners,
      rbac_enabled in R1. by mcase. }
  apply bind_Ok in R as (t & s1 & R2 & R). destruct (total_events_Live _ _ _ _ _ _ L R2) as [-> ->]. clear R2.
  apply bind_Ok in R as (u3 & s1 & R2 & R). apply reject_if_Ok in R2 as [B ->].
  apply bind_Ok in R as (vs & s1 & R2 & R). pose proof R2 as Rh.
  destruct (get_event_history_Ok _ _ _ _ _ _ L R2) as [-> Hv]. clear R2.
  apply bind_Ok in R as (u4 & s1 & R3 & R). apply reject_if_Ok in R3 as [_ ->].
  apply bind_Ok in R as (w & s1 & R3 & R). apply unwrap_Ok in R3 as [Hw ->].
  cbv zeta in R. set (new_id := event_id (cx_self c) (ev_submitter (vn_data w)) (ev_event_type (vn_data w))
    (ev_metadata (vn_data w)) (ev_timestamp (vn_data w)) j).
  apply bind_Ok in R as (new_id' & s1 & R3 & R).
  assert (new_id' = new_id /\ s1 = s) as [-> ->] by (unfold compute_event_id in R3; by minv).
  apply bind_Ok in R as (oid & s1 & R4 & R). injection R4 as Eo <-.
  apply bind_Ok in R as (cur_id & s1 & R4 & R). apply unwrap_Ok in R4 as [-> ->].
  assert (0 <= j < n) as Hj by (apply (fr_dom _ _ _ (live_frame _ _ _ L)); by rewrite Eo).
  split; [done|]. exists vs, w. split; [done|]. split; [done|].
  destruct (fr_cells _ _ _ (live_frame _ _ _ L) j Hj) as (id1 & e1 & E1 & _).
  pose proof E1 as [Eo1 _]%entry_Some. rewrite Eo in Eo1. injection Eo1 as ->.
  case_bool_decide as Hid; [split; [by minv|left]|].
  { minv. split; [done|]. exists e1. by rewrite <- E1. }
  apply bind_Ok in R as (ph & s1 & R3' & R). apply predecessor_hash_Ok in R3' as [-> Hp].
  apply bind_Ok in R as (ver & s1 & R5 & R). injection R5 as _ <-.
  cbv zeta in R. set (e := restored_event (vn_data w) j new_id ph ver) in *.
  apply bind_Ok in R as (u5 & s1 & R5 & R). apply bind_Ok in R as (u6 & s2 & R6 & R).
  apply bind_Ok in R as (u7 & s3 & R7 & R).
  assert (id = new_id /\ inst s' = inst s3) as [-> Es] by (by minv). split; [done|right].
  assert (ev_index e = j) as Hx.
  { unfold vget in Hw. destruct (Z.leb 0 v); [|done]. by eapply Forall_lookup_1 in Hw; [|exact Hv]. }
  destruct L as [F Lk T].
  assert (addressed (cx_self c) new_id e) as A by (unfold addressed; by rewrite Hx).
  destruct (replace_ok c n j new_id e vs a _ _ _ _ _ _ _ (conj F Lk) Hj Hx A Hp eq_refl Hv R5 R6 R7)
    as [[F3 L3] E3 _ C3 T3].
  exists e. rewrite Es. split; [|done]. split; [|by exists e|done].
  split; [done|done|]. by eapply Totals_ext.
Qed.

Lemma Inv_rollback_event a j v : preserves Inv (rollback_event a j v).
Proof.
  intros c s id s' R [n L].
  destruct (rollback_event_spec _ _ _ _ _ _ _ n L R) as (_ & vs & w & _ & _ & _ & [(-> & _)|(e & Rv & _)]).
  - by exists n.
  - exists n. apply (rv_live _ _ _ _ _ _ _ Rv).
Qed.

End VersionSpec.

#[export] Hint Resolve Inv_update_event Inv_rollback_event : preserves.
