(* ===== verification/Ledger.v ===== *)
(** * The contract as a transition system

    [call] lists the entry points that can change the state, [exec] runs one,
    and a history is a successful [initialize] on empty storage followed by any
    sequence of successful calls, each with its own caller, time and
    authorisations. *)

From S2P Require Import Prelude Contract StorageLemmas Types Storage Codec Access Chain Logging Batch.
From S2P Require Import Queries Versions Archive Governance Schemas Proposals Retention Invariant Submission VersionSpec.

(** The state-changing entry points with their arguments. *)
Inductive call : Type :=
  | CLogEvent (a : Address) (et : Symbol) (m : Bytes) (cat sub : option Symbol) (force : bool)
  | CLogEvents (l : list (Address * Symbol * Bytes))
  | CLogWithNonce (a : Address) (et : Symbol) (m : Bytes) (nonce : Z)
  | CLogWithKey (a : Address) (et : Symbol) (m : Bytes) (cat sub : option Symbol) (force : bool)
      (key : option Hash)
  | CLogSigned (a : Address) (et : Symbol) (m sig : Bytes)
  | CLogOperational (a : Address) (action_type : Symbol) (details : Bytes)
  | CUpdateEvent (a : Address) (i : Z) (m : Bytes)
  | CRollbackEvent (a : Address) (i v : Z)
  | CTagVersion (a : Address) (i v : Z) (tag : Symbol)
  | CGetEvent (id : Hash)
  | CCreateSnapshot (a : Address) (d : Bytes)
  | CArchiveEvents (a : Address) (cutoff : Z)
  | CPurgeArchived (a : Address) (cutoff : Z) (confirm : bool)
  | CSetArchiveConfig (a : Address) (cfg : ArchiveConfig)
  | CSetNonceConfig (a b : Address) (w m : Z)
  | CResetNonce (a b : Address)
  | CSetDefaultNonce (a : Address) (w m : Z)
  | CPause (a : Address)
  | CUnpause (a : Address)
  | CSetRole (a b : Address) (r : option Role)
  | CEnableRbac (a : Address) (b : bool)
  | CTransferOwnership (a b : Address)
  | CAddOwner (a b : Address)
  | CRemoveOwner (a b : Address)
  | CSetRequiredSignatures (a : Address) (n : Z)
  | CSetCategoryMaxLen (a : Address) (n : Z)
  | CUpgrade (a : Address) (h : Hash)
  | CSetGlobalMaxLogs (a : Address) (n : Z)
  | CSetEventMaxLogs (a : Address) (et : Symbol) (n : Z)
  | CRemoveEventCap (a : Address) (et : Symbol)
  | CSetMetadataMaxSize (a : Address) (n : Z)
  | CSetEventMetadataMaxSize (a : Address) (et : Symbol) (n : Z)
  | CSetMetadataSchema (a : Address) (et : Symbol) (b : Bytes)
  | CSetEventTtl (a : Address) (n : Z)
  | CCleanupExpired (a : Address) (i n : Z)
  | CRegisterWebhook (a : Address) (et : Symbol) (url secret : Bytes)
  | CUnregisterWebhook (a : Address) (et : Symbol) (url : Bytes)
  | CBlockSubmitter (a b : Address)
  | CUnblockSubmitter (a b : Address)
  | CEnableAllowlist (a : Address)
  | CDisableAllowlist (a : Address)
  | CAllowSubmitter (a b : Address)
  | CDisallowSubmitter (a b : Address)
  | CSetEmissionMode (a : Address) (n : Z)
  | CSetLowCost (a : Address) (b : bool)
  | CSetRateLimit (a b : Address) (n : Z)
  | CCompactStorage (a : Address) (l : list Symbol)
  | CSetDedupPolicy (a : Address) (p : DedupPolicy)
  | CSetDedupPolicyForType (a : Address) (et : Symbol) (p : option DedupPolicy)
  | CCleanupHashes (a : Address) (i n : Z)
  | CCleanupDedup (a : Address) (i n : Z)
  | CRegisterSchema (a : Address) (et : Symbol) (sc : Schema) (v : Z)
  | CMigrate (a : Address) (et : Symbol) (f t : Z) (fn : MigrationFunction)
  | CSubmitProposal (a : Address) (act : ProposalAction) (ttl : Z)
  | CApproveProposal (a : Address) (i : Z)
  | CExecuteProposal (a : Address) (i : Z)
  | CSetRetentionPolicy (a : Address) (cat : Symbol) (d : Z) (basis : Symbol)
  | CSetDefaultRetention (a : Address) (d : Z)
  | CPlaceHold (a : Address) (i : Z) (r : Bytes)
  | CReleaseHold (a : Address) (i : Z) (j : Bytes)
  | CGrantException (a : Address) (i : Z) (r : Bytes) (exp : Z)
  | CRevokeException (a : Address) (i : Z)
  | CRequestErasure (a : Address) (i : Z) (r : Symbol)
  | CProcessErasure (a : Address) (i : Z) (approve : bool) (j : Bytes)
  | CRetentionSweep (a : Address) (i n : Z)
  | CAddRecorder (a b : Address)
  | CRemoveRecorder (a b : Address).

Section Ledger.
Context `{H : Host}.

Definition run {A} (m : M A) : M unit := let* _x := m in ret tt.

(** The call, its result dropped. *)
Definition exec (k : call) : M unit :=
  match k with
  | CLogEvent a et m cat sub force => run (log_event a et m cat sub force)
  | CLogEvents l => run (log_events l)
  | CLogWithNonce a et m n => run (log_event_with_nonce a et m n)
  | CLogWithKey a et m cat sub force key =>
      run (log_event_with_custom_key a et m cat sub force key)
  | CLogSigned a et m sig => run (log_event_signed a et m sig)
  | CLogOperational a t d => run (log_operational_action a t d)
  | CUpdateEvent a i m => run (update_event a i m)
  | CRollbackEvent a i v => run (rollback_event a i v)
  | CTagVersion a i v t => tag_event_version a i v t
  | CGetEvent id => run (get_event id)
  | CCreateSnapshot a d => run (create_snapshot a d)
  | CArchiveEvents a t => run (archive_events a t)
  | CPurgeArchived a t b => run (purge_archived_events a t b)
  | CSetArchiveConfig a cfg => set_archive_config a cfg
  | CSetNonceConfig a b w m => set_submitter_nonce_config a b w m
  | CResetNonce a b => reset_submitter_nonce a b
  | CSetDefaultNonce a w m => set_default_nonce_config a w m
  | CPause a => pause a
  | CUnpause a => unpause a
  | CSetRole a b r => set_role a b r
  | CEnableRbac a b => enable_rbac a b
  | CTransferOwnership a b => transfer_ownership a b
  | CAddOwner a b => add_owner a b
  | CRemoveOwner a b => remove_owner a b
  | CSetRequiredSignatures a n => set_required_signatures a n
  | CSetCategoryMaxLen a n => set_category_max_len a n
  | CUpgrade a h => upgrade_contract a h
  | CSetGlobalMaxLogs a n => set_global_max_logs a n
  | CSetEventMaxLogs a et n => set_event_max_logs a et n
  | CRemoveEventCap a et => remove_event_cap a et
  | CSetMetadataMaxSize a n => set_metadata_max_size a n
  | CSetEventMetadataMaxSize a et n => set_event_metadata_max_size a et n
  | CSetMetadataSchema a et b => set_metadata_schema a et b
  | CSetEventTtl a n => set_event_ttl a n
  | CCleanupExpired a i n => run (cleanup_expired_events a i n)
  | CRegisterWebhook a et u s => register_webhook a et u s
  | CUnregisterWebhook a et u => unregister_webhook a et u
  | CBlockSubmitter a b => block_submitter a b
  | CUnblockSubmitter a b => unblock_submitter a b
  | CEnableAllowlist a => enable_allowlist_mode a
  | CDisableAllowlist a => disable_allowlist_mode a
  | CAllowSubmitter a b => allow_submitter a b
  | CDisallowSubmitter a b => remove_submitter_from_allowlist a b
  | CSetEmissionMode a n => set_event_emission_mode a n
  | CSetLowCost a b => set_low_cost_mode a b
  | CSetRateLimit a b n => set_submitter_rate_limit a b n
  | CCompactStorage a l => run (compact_storage a l)
  | CSetDedupPolicy a p => set_dedup_policy a p
  | CSetDedupPolicyForType a et p => set_dedup_policy_for_type a et p
  | CCleanupHashes a i n => run (cleanup_stale_hashes a i n)
  | CCleanupDedup a i n => run (cleanup_stale_dedup_entries a i n)
  | CRegisterSchema a et sc v => register_schema a et sc v
  | CMigrate a et f t fn => migrate_event_metadata a et f t fn
  | CSubmitProposal a act ttl => run (submit_proposal a act ttl)
  | CApproveProposal a i => approve_proposal a i
  | CExecuteProposal a i => execute_proposal a i
  | CSetRetentionPolicy a cat d b => set_retention_policy a cat d b
  | CSetDefaultRetention a d => set_default_retention_days a d
  | CPlaceHold a i r => place_legal_hold a i r
  | CReleaseHold a i j => release_legal_hold a i j
  | CGrantException a i r e => grant_compliance_exception a i r e
  | CRevokeException a i => revoke_compliance_exception a i
  | CRequestErasure a i r => run (request_erasure a i r)
  | CProcessErasure a i b j => process_erasure_request a i b j
  | CRetentionSweep a i n => run (run_retention_sweep a i n)
  | CAddRecorder a b => add_ops_recorder a b
  | CRemoveRecorder a b => remove_ops_recorder a b
  end.

(** Some entries of a store are gone. *)
Definition evicted (st st' : store) : Prop :=
  forall k, sget st' k = sget st k \/ sget st' k = None.

(** One successful call, in any context of the contract at [self]. *)
Inductive step (self : Address) : St -> St -> Prop :=
  | step_call k c s s' :
      cx_self c = self -> exec k c s = Ok (tt, s') -> step self s s'
  (** The host drops entries of temporary and persistent storage as their time
      to live ends. *)
  | step_expire s t p :
      evicted (temp s) t -> evicted (pers s) p ->
      step self s (mkSt (inst s) p t (published s) (host_calls s)).

(** The states of a deployed contract. *)
Inductive reachable (self : Address) : St -> Prop :=
  | reach_init c owners max_logs max_bytes s :
      cx_self c = self -> 0 <= max_logs ->
      initialize owners max_logs max_bytes c empty_state = Ok (tt, s) -> reachable self s
  | reach_step s s' : reachable self s -> step self s s' -> reachable self s'.

Context `{!CollisionFree}.

Lemma Inv_keeps {A} (m : M A) : keeps guarded m -> preserves Inv m.
Proof. intros K c s a s' R I. eapply Inv_guard_eq; [by eapply keeps_guard|done]. Qed.

End Ledger.

#[export] Hint Extern 1 (preserves Inv (update_runtime _)) =>
  (apply Inv_update_runtime; done) : preserves.
#[export] Hint Extern 4 (preserves Inv _) =>
  (apply Inv_keeps; solve [eauto 2 with keeps nocore]) : preserves.

Section Preservation.
Context `{H : Host} `{!CollisionFree}.

Lemma Inv_log_event_with_nonce a et m n : preserves Inv (log_event_with_nonce a et m n).
Proof.
  unfold log_event_with_nonce, effective_nonce_state, get_submitter_nonce_state,
    default_nonce_window_size, default_nonce_max_value, check_nonce. preserves_tac.
  apply Inv_keeps, keeps_pure. intros. by minv.
Qed.

Lemma Inv_log_event_with_custom_key a et m cat sub f k :
  preserves Inv (log_event_with_custom_key a et m cat sub f k).
Proof. unfold log_event_with_custom_key. preserves_tac. Qed.

Lemma Inv_log_event_signed a et m sg : preserves Inv (log_event_signed a et m sg).
Proof. unfold log_event_signed. preserves_tac. Qed.

Lemma Inv_log_operational_action a t d : preserves Inv (log_operational_action a t d).
Proof. unfold log_operational_action, is_addr_ops_recorder. preserves_tac. Qed.

Lemma keeps_event_at_unwrap K i : keeps K (event_at_unwrap i).
Proof. unfold event_at_unwrap. keeps_tac. Qed.
Lemma keeps_get_event_by_order K i : keeps K (get_event_by_order i).
Proof. unfold get_event_by_order. keeps_tac. Qed.
#[local] Hint Resolve keeps_event_at_unwrap keeps_get_event_by_order : keeps.
Lemma keeps_get_event_audit_trail K i : keeps K (get_event_audit_trail i).
Proof. unfold get_event_audit_trail. keeps_tac. Qed.
#[local] Hint Resolve keeps_get_event_audit_trail : keeps.

Lemma Inv_tag_event_version a i v t : preserves Inv (tag_event_version a i v t).
Proof. unfold tag_event_version. preserves_tac. Qed.
Lemma Inv_get_event id : preserves Inv (get_event id).
Proof. unfold get_event, count_ttl_extension. preserves_tac. Qed.
Lemma Inv_create_snapshot a d : preserves Inv (create_snapshot a d).
Proof. unfold create_snapshot. preserves_tac. Qed.

Lemma Inv_archive_one cfg pg i id e : preserves Inv (archive_one cfg pg i id e).
Proof. unfold archive_one, archive_offchain, archive_onchain. preserves_tac. Qed.
Lemma Inv_archive_loop cfg cut l : forall pg, preserves Inv (archive_loop cfg cut pg l).
Proof.
  induction l as [|i l IH]; intros pg; simpl; pose proof Inv_archive_one; preserves_tac; auto.
Qed.
Lemma Inv_archive_events a t : preserves Inv (archive_events a t).
Proof. unfold archive_events. pose proof Inv_archive_loop. preserves_tac. Qed.
Lemma Inv_purge_archived_events a t b : preserves Inv (purge_archived_events a t b).
Proof. unfold purge_archived_events, purge_step. preserves_tac. Qed.

Lemma Inv_transfer_ownership a b : preserves Inv (transfer_ownership a b).
Proof. unfold transfer_ownership, get_owners, get_role_of. preserves_tac. Qed.
Lemma Inv_add_owner a b : preserves Inv (add_owner a b).
Proof. unfold add_owner, get_owners. preserves_tac. Qed.
Lemma Inv_remove_owner a b : preserves Inv (remove_owner a b).
Proof. unfold remove_owner, get_owners, get_required_signatures. preserves_tac. Qed.
Lemma Inv_set_role a b r : preserves Inv (set_role a b r).
Proof. unfold set_role. preserves_tac. Qed.

(** Setting the cap checks it against the total first. *)
Lemma Inv_set_global_max_logs a v : preserves Inv (set_global_max_logs a v).
Proof.
  intros c s u s' R [n L]. unfold set_global_max_logs in R.
  apply bind_Ok in R as (u1 & s1 & R1 & R). apply keeps_guard in R1; [|auto with keeps].
  apply (guard_eq_Live c _ _ _ R1) in L. clear R1.
  apply bind_Ok in R as (t & s2 & R1 & R). destruct (total_events_Live _ _ _ _ _ _ L R1) as [-> ->].
  clear R1. apply bind_Ok in R as (u2 & s2 & R1 & R). apply reject_if_Ok in R1 as [B ->].
  apply bind_Ok in R as (o & s2 & R1 & R). injection R1 as Eo <-.
  apply bind_Ok in R as (cfg & s2 & R1 & R). apply unwrap_Ok in R1 as [-> ->].
  destruct (tot_cfg _ _ (live_totals _ _ _ L)) as (cfg' & Ec & Hn). rewrite Eo in Ec.
  injection Ec as <-. zcase.
  destruct (tot_rs _ _ (live_totals _ _ _ L)) as (rs & Er & Ht & Hm).
  unfold update_runtime in R. minv.
  match goal with R : (match sget _ _ with _ => _ end) _ _ = Ok _ |- _ =>
    rewrite !sset_ne, Er in R by done end.
  minv.
  destruct L as [F Lk T]. exists (cfg_total_events cfg).
  match goal with |- Live _ ?st _ => assert (Body (cfg_total_events cfg) c st) as [F' L'] end.
  { do 3 (apply Body_sset; [done|]). by split. }
  split; [done|done|]. split.
  - eexists. by rewrite !sset_ne, sset_eq by done.
  - eexists. rewrite sset_eq. split; [done|]. by simpl.
Qed.

Lemma Inv_set_metadata_max_size a n : preserves Inv (set_metadata_max_size a n).
Proof. unfold set_metadata_max_size. preserves_tac. Qed.
Lemma Inv_enable_allowlist_mode a : preserves Inv (enable_allowlist_mode a).
Proof. unfold enable_allowlist_mode. preserves_tac. Qed.
Lemma Inv_set_event_emission_mode a n : preserves Inv (set_event_emission_mode a n).
Proof. unfold set_event_emission_mode. preserves_tac. Qed.
Lemma Inv_set_low_cost_mode a b : preserves Inv (set_low_cost_mode a b).
Proof. unfold set_low_cost_mode. preserves_tac. Qed.
Lemma Inv_cleanup_expired_events a i n : preserves Inv (cleanup_expired_events a i n).
Proof. unfold cleanup_expired_events, expired_step. preserves_tac. Qed.
Lemma keeps_require_owner K a : keeps K (require_owner a).
Proof. unfold require_owner. keeps_tac. Qed.
#[local] Hint Resolve keeps_require_owner : keeps.
Lemma Inv_compact_storage a l : preserves Inv (compact_storage a l).
Proof. unfold compact_storage, compact_step. preserves_tac. Qed.

Lemma keeps_event_at K i : keeps K (event_at i).
Proof. unfold event_at. keeps_tac. Qed.
#[local] Hint Resolve keeps_event_at : keeps.
Lemma Inv_drop_stale_hash h i n : preserves Inv (drop_stale_hash h i n).
Proof. unfold drop_stale_hash. preserves_tac. Qed.
Lemma Inv_drop_stale_hash_ts h i n : preserves Inv (drop_stale_hash_ts h i n).
Proof. unfold drop_stale_hash_ts. preserves_tac. Qed.
#[local] Hint Resolve Inv_drop_stale_hash Inv_drop_stale_hash_ts : preserves.
Lemma Inv_cleanup_stale_hashes a i n : preserves Inv (cleanup_stale_hashes a i n).
Proof. unfold cleanup_stale_hashes, stale_hash_step, scanned_event. preserves_tac. Qed.
Lemma Inv_cleanup_stale_dedup_entries a i n : preserves Inv (cleanup_stale_dedup_entries a i n).
Proof. unfold cleanup_stale_dedup_entries, stale_dedup_step, scanned_event. preserves_tac. Qed.
Lemma keeps_dedup_policy_from_discriminant K d : keeps K (dedup_policy_from_discriminant d).
Proof. unfold dedup_policy_from_discriminant. keeps_tac. Qed.
#[local] Hint Resolve keeps_dedup_policy_from_discriminant : keeps.

(** The configuration that a proposal writes keeps its total. *)
Lemma Inv_perform a act : preserves Inv (perform a act).
Proof.
  destruct act; simpl; unfold get_owners; try solve [preserves_tac].
  intros c s u s' R [tot L]. apply bind_Ok in R as (o & s1 & R1 & R). injection R1 as <- <-.
  destruct (tot_cfg _ _ (live_totals _ _ _ L)) as (cfg & Ec & Hn).
  rewrite Ec in R. minv. eexists. by eapply Live_set_config.
Qed.
#[local] Hint Resolve Inv_perform : preserves.
Lemma keeps_owner_only K a : keeps K (owner_only a).
Proof. unfold owner_only. keeps_tac. Qed.
#[local] Hint Resolve keeps_owner_only : keeps.
Lemma Inv_submit_proposal a act t : preserves Inv (submit_proposal a act t).
Proof. unfold submit_proposal. preserves_tac. Qed.
Lemma Inv_approve_proposal a i : preserves Inv (approve_proposal a i).
Proof. unfold approve_proposal. preserves_tac. Qed.
Lemma Inv_execute_proposal a i : preserves Inv (execute_proposal a i).
Proof. unfold execute_proposal, get_required_signatures. preserves_tac. Qed.

Lemma keeps_is_under_legal_hold K i : keeps K (is_under_legal_hold i).
Proof. unfold is_under_legal_hold. keeps_tac. Qed.
Lemma keeps_has_active_compliance_exception K i : keeps K (has_active_compliance_exception i).
Proof. unfold has_active_compliance_exception. keeps_tac. Qed.
Lemma keeps_is_event_erased K i : keeps K (is_event_erased i).
Proof. unfold is_event_erased. keeps_tac. Qed.
Lemma keeps_retention_days_for K i : keeps K (retention_days_for i).
Proof. unfold retention_days_for. keeps_tac. Qed.
#[local] Hint Resolve keeps_is_under_legal_hold keeps_has_active_compliance_exception
  keeps_is_event_erased keeps_retention_days_for : keeps.
Lemma keeps_classify K i e : keeps K (classify i e).
Proof. unfold classify. keeps_tac. Qed.
#[local] Hint Resolve keeps_classify : keeps.
Lemma Inv_redact a i e r : preserves Inv (redact a i e r).
Proof. unfold redact. preserves_tac. Qed.
#[local] Hint Resolve Inv_redact : preserves.
Lemma Inv_request_erasure a i r : preserves Inv (request_erasure a i r).
Proof. unfold request_erasure. preserves_tac. Qed.
Lemma Inv_process_erasure_request a i b j : preserves Inv (process_erasure_request a i b j).
Proof. unfold process_erasure_request, fulfil. preserves_tac. Qed.
Lemma Inv_run_retention_sweep a i n : preserves Inv (run_retention_sweep a i n).
Proof. unfold run_retention_sweep, sweep_step. preserves_tac. Qed.

#[local] Hint Resolve Inv_log_event_with_nonce Inv_log_event_with_custom_key Inv_log_event_signed
  Inv_log_operational_action Inv_tag_event_version Inv_get_event Inv_create_snapshot
  Inv_archive_events Inv_purge_archived_events Inv_transfer_ownership Inv_add_owner
  Inv_remove_owner Inv_set_role Inv_set_global_max_logs Inv_set_metadata_max_size
  Inv_enable_allowlist_mode Inv_set_event_emission_mode Inv_set_low_cost_mode
  Inv_cleanup_expired_events Inv_compact_storage Inv_cleanup_stale_hashes
  Inv_cleanup_stale_dedup_entries Inv_submit_proposal Inv_approve_proposal Inv_execute_proposal
  Inv_request_erasure Inv_process_erasure_request Inv_run_retention_sweep : preserves.

Lemma keeps_get_submitter_nonce_state K a : keeps K (get_submitter_nonce_state a).
Proof.
  unfold get_submitter_nonce_state, default_nonce_window_size, default_nonce_max_value. keeps_tac.
  apply keeps_pure. intros. by minv.
Qed.
#[local] Hint Resolve keeps_get_submitter_nonce_state : keeps.
Lemma Inv_set_submitter_nonce_config a b w m : preserves Inv (set_submitter_nonce_config a b w m).
Proof. unfold set_submitter_nonce_config. preserves_tac. Qed.
Lemma Inv_reset_submitter_nonce a b : preserves Inv (reset_submitter_nonce a b).
Proof. unfold reset_submitter_nonce. preserves_tac. Qed.
Lemma Inv_set_required_signatures a n : preserves Inv (set_required_signatures a n).
Proof. unfold set_required_signatures, get_owners. preserves_tac. Qed.
#[local] Hint Resolve Inv_set_submitter_nonce_config Inv_reset_submitter_nonce
  Inv_set_required_signatures : preserves.

(** Every entry point keeps the ledger invariant. *)
Lemma Inv_exec k : preserves Inv (exec k).
Proof. destruct k; simpl; unfold run, log_event; preserves_tac. Qed.

(** [initialize] establishes it, with no events. *)
Lemma initialize_Live owners max_logs max_bytes c u s :
  0 <= max_logs -> initialize owners max_logs max_bytes c empty_state = Ok (u, s) ->
  Inv c (inst s).
Proof.
  intros Hm R. unfold initialize in R.
  repeat (minv_step; cbn [inst pers temp published host_calls] in *).
  match goal with R : fold_m _ _ _ _ _ = Ok _ |- _ =>
    refine (preserves_fold Inv _ _ _ _ _ _ _ _ R _); clear R end.
  { intros. apply Inv_iset. done. }
  exists 0. simpl. split; [split| |split].
  - done.
  - done.
  - intros i [x Hx]. by sget_simpl in Hx.
  - intros i Hi. lia.
  - intros i vs Hx. by sget_simpl in Hx.
  - intros i Hi. lia.
  - eexists. by sget_simpl.
  - eexists. by sget_simpl.
Qed.

Lemma reachable_Live self s : reachable self s -> exists n, Live self (inst s) n.
Proof.
  induction 1 as [c owners ml mb s Hc Hm R|s s' _ IH Hstep];
    [|destruct Hstep as [k c s s' Hc R|s t p _ _]].
  - destruct (initialize_Live _ _ _ _ _ _ Hm R) as [n L]. exists n. by rewrite <- Hc.
  - subst self. exact (Inv_exec k _ _ _ _ R IH).
  - exact IH.
Qed.

End Preservation.
