(* ===== verification/Reads.v ===== *)
(** * The abstract log and the reads

    [Represents st l]: the events of the store [st], in order of position, are
    the list [l].  The read-only operations on a live ledger are functions of
    that list: single reads are [vget], pages are slices, scans are filters. *)

From S2P Require Import Prelude Contract StorageLemmas Types Storage Codec Access Chain Logging Batch.
From S2P Require Import Queries Versions Governance Invariant Submission VersionSpec.

(** The elements a page selects: at most [limit] from [offset] on. *)
Definition slice {A} (offset limit : Z) (l : list A) : list A :=
  take (Z.to_nat limit) (drop (Z.to_nat offset) l).

Lemma len_take_drop {A} (l : list A) n : len (take n l) <= len l.
Proof. unfold len. rewrite length_take. lia. Qed.

Lemma slice_beyond {A} (l : list A) a n : len l <= a -> slice a n l = [].
Proof. unfold len, slice. intros Ha. rewrite drop_ge by lia. by rewrite take_nil. Qed.

Lemma len_slice {A} (l : list A) a n : 0 <= n -> len (slice a n l) <= n.
Proof. unfold len, slice. rewrite length_take. lia. Qed.

Lemma slice_to {A} (l : list A) a b : 0 <= a -> b = len l -> slice a (b - a) l = drop (Z.to_nat a) l.
Proof. unfold slice, len. intros. apply take_ge. rewrite length_drop. lia. Qed.

Lemma slice_snoc {A} (l : list A) a b x :
  0 <= a <= b -> vget l b = Some x -> slice a (b + 1 - a) l = slice a (b - a) l ++ [x].
Proof.
  intros Hab Hx. unfold slice. replace (Z.to_nat (b + 1 - a)) with (S (Z.to_nat (b - a))) by lia.
  apply take_S_r. rewrite lookup_drop. unfold vget in Hx.
  destruct (Z.leb_spec 0 b); [|lia]. rewrite <- Hx. f_equal. lia.
Qed.

Section Reads.
Context `{H : Host}.

(** ** The abstract log *)

Definition Represents (st : store) (l : list Event) : Prop :=
  forall i, snd <$> entry st i = vget l i.

Lemma Represents_prefix self st n :
  Frame self st n -> forall m : nat, Z.of_nat m <= n ->
  exists l, len l = Z.of_nat m /\ forall i, 0 <= i < Z.of_nat m -> snd <$> entry st i = vget l i.
Proof.
  intros F. induction m as [|m IH]; intros Hm; [by exists []; split; [|lia]|].
  destruct IH as (l & Hl & Hg); [lia|].
  destruct (fr_cells _ _ _ F (Z.of_nat m)) as (id & e & E & _); [lia|].
  exists (l ++ [e]). split; [rewrite len_app, len_cons, len_nil; lia|]. intros i Hi.
  destruct (decide (i = Z.of_nat m)) as [->|Hne].
  - rewrite E, vget_app_r by lia. by rewrite Hl, Z.sub_diag.
  - rewrite vget_app_l by lia. apply Hg. lia.
Qed.

Lemma entry_outside self st n i : Frame self st n -> ~ (0 <= i < n) -> entry st i = None.
Proof.
  intros F Hi. unfold entry. destruct (sget st (DataKey.EventOrder i)) as [id|] eqn:E; [|done].
  exfalso. apply Hi, (fr_dom _ _ _ F). by rewrite E.
Qed.

Lemma Represents_exists self st n : Frame self st n -> exists l, Represents st l /\ len l = n.
Proof.
  intros F. pose proof (fr_range _ _ _ F).
  destruct (Represents_prefix _ _ _ F (Z.to_nat n)) as (l & Hl & Hg); [lia|].
  exists l. split; [|lia]. intros i. destruct (decide (0 <= i < n)) as [Hi|Hi].
  - apply Hg. lia.
  - rewrite (entry_outside _ _ _ _ F Hi). destruct (vget l i) eqn:E; [|done].
    apply vget_Some_bounds in E. lia.
Qed.

Lemma Represents_len self st n l : Frame self st n -> Represents st l -> len l = n.
Proof.
  intros F Rp. pose proof (len_nonneg l). pose proof (fr_range _ _ _ F).
  destruct (Z.lt_trichotomy (len l) n) as [Hl|[->|Hl]]; [|done|].
  - destruct (fr_cells _ _ _ F (len l)) as (id & e & E & _); [lia|].
    pose proof (Rp (len l)) as R. rewrite E, vget_None in R by lia. done.
  - destruct (vget_is_Some l n) as [e E]; [lia|].
    pose proof (Rp n) as R. rewrite E, (entry_outside _ _ _ n F) in R by lia. done.
Qed.

Lemma Represents_eq self st n l l' :
  Frame self st n -> Represents st l -> Represents st l' -> l = l'.
Proof.
  intros F R1 R2. apply list_eq. intros k. rewrite <- !vget_nth. by rewrite <- R1, <- R2.
Qed.

Lemma Represents_Some st l i e :
  Represents st l -> vget l i = Some e -> exists id, entry st i = Some (id, e).
Proof.
  intros R E. rewrite <- R in E. destruct (entry st i) as [[id e']|]; [|done].
  injection E as <-. by exists id.
Qed.

(** ** Reads on a live ledger *)

Section Live.
Context (self : Address) (c : Ctx) (s : St) (n : Z) (L : Live self (inst s) n).

Lemma require_initialized_run : require_initialized c s = Ok (tt, s).
Proof using L.
  destruct (tot_cfg _ _ (live_totals _ _ _ L)) as (cfg & Ec & _).
  unfold require_initialized, bind, ihas, reject_if.
  rewrite (fr_owner _ _ _ (live_frame _ _ _ L)). unfold shas at 1. by rewrite Ec.
Qed.

Lemma total_events_run : total_events c s = Ok (n, s).
Proof using L.
  destruct (tot_rs _ _ (live_totals _ _ _ L)) as (rs & Er & Ht & _).
  unfold total_events. rewrite (bind_run _ _ _ _ _ _ require_initialized_run).
  unfold bind, iget. by rewrite Er, <- Ht.
Qed.

Context (l : list Event) (R : Represents (inst s) l).

Lemma get_event_by_order_run i e :
  vget l i = Some e -> get_event_by_order i c s = Ok (e, s).
Proof using L R.
  intros E. destruct (Represents_Some _ _ _ _ R E) as (id & [Eo Ed]%entry_Some).
  unfold get_event_by_order. rewrite (bind_run _ _ _ _ _ _ require_initialized_run).
  unfold bind, iget. by rewrite Eo; simpl; rewrite Ed.
Qed.

Lemma get_event_by_order_none i :
  vget l i = None -> get_event_by_order i c s = Err (Raise ContractError.EventDoesNotExist).
Proof using L R.
  intros E. unfold get_event_by_order. rewrite (bind_run _ _ _ _ _ _ require_initialized_run).
  rewrite <- R in E. unfold entry in E. unfold bind, iget.
  destruct (sget (inst s) (DataKey.EventOrder i)) as [id|]; [|done]. simpl.
  by destruct (sget (inst s) (DataKey.EventData id)).
Qed.

Lemma event_at_unwrap_run i e :
  vget l i = Some e -> exists id, event_at_unwrap i c s = Ok ((id, e), s).
Proof using R.
  intros E. destruct (Represents_Some _ _ _ _ R E) as (id & Ei). exists id.
  by apply event_at_unwrap_Ok.
Qed.

Lemma scan_matches_run (test : Event -> bool) :
  scan_matches test n c s = Ok (filter (fun e => test e = true) l, s).
Proof using L R.
  pose proof (fr_range _ _ _ (live_frame _ _ _ L)) as Hr.
  pose proof (Represents_len _ _ _ _ (live_frame _ _ _ L) R) as Hl.
  unfold scan_matches.
  destruct (fold_m_range_run
    (fun i b t => t = s /\ b = filter (fun e => test e = true) (take (Z.to_nat i) l))
    (fun found i => let* evt := get_event_by_order i in
                    ret (if test evt then found ++ [evt] else found)) c 0 n [] s)
    as (b & s' & Hrun & -> & ->); [|lia|done|].
  - intros i x t Hi [-> ->]. destruct (vget_is_Some l i) as [e E]; [lia|].
    rewrite (bind_run _ _ _ _ _ _ (get_event_by_order_run i e E)).
    eexists _, s. split; [done|]. split; [done|].
    replace (Z.to_nat (i + 1)) with (S (Z.to_nat i)) by lia.
    erewrite (take_S_r _ _ e).
    + rewrite filter_app. destruct (test e) eqn:Te.
      * by rewrite filter_cons_True.
      * rewrite filter_cons_False by (by rewrite Te). by rewrite filter_nil, app_nil_r.
    + unfold vget in E. by destruct (Z.leb_spec 0 i); [|lia].
  - rewrite Hrun. rewrite take_ge by (unfold len in Hl; lia). done.
Qed.
End Live.

(** ** Pages *)

Lemma collect_slice (l : list Event) get c s a b :
  0 <= a <= b -> b <= len l ->
  (forall i e, a <= i < b -> vget l i = Some e -> get i c s = Ok (e, s)) ->
  collect get a b c s = Ok (slice a (b - a) l, s).
Proof.
  intros Ha Hb Hget. unfold collect.
  destruct (fold_m_range_run (fun i r t => t = s /\ r = slice a (i - a) l)
    (fun results i => let* e := get i in ret (results ++ [e])) c a b [] s)
    as (r & s' & Hrun & -> & ->); [|lia| |done].
  - intros i x t Hi [-> ->]. destruct (vget_is_Some l i) as [e E]; [lia|].
    rewrite (bind_run _ _ _ _ _ _ (Hget i e Hi E)).
    eexists _, s. split; [done|]. split; [done|]. symmetry. by apply slice_snoc; [lia|].
  - split; [done|]. rewrite Z.sub_diag. done.
Qed.

(** A page ends at the end of the list or after [limit] elements, whichever is
    first. *)
Lemma slice_page_end (l : list Event) offset limit :
  0 <= offset < len l -> 0 <= limit -> len l <= u32_max ->
  offset <= page_end offset limit (len l) <= len l /\
  slice offset (page_end offset limit (len l) - offset) l = slice offset limit l.
Proof.
  intros Ho Hl Hm. unfold page_end, u32_sat_add. split; [lia|].
  unfold slice. unfold len in *.
  destruct (decide (offset + limit <= Z.of_nat (length l))) as [Hle|Hgt].
  - f_equal. lia.
  - rewrite !take_ge; [done|rewrite length_drop; lia..].
Qed.

Lemma page_of_run (l : list Event) offset limit c s :
  0 <= offset -> 0 <= limit -> len l <= u32_max ->
  page_of l offset limit c s = Ok (slice offset limit l, s).
Proof.
  intros Ho Hl Hm. unfold page_of. destruct (Z.leb_spec (len l) offset) as [Hle|Hlt].
  - by rewrite slice_beyond.
  - destruct (slice_page_end l offset limit) as [Hp Hs]; [lia..|]. rewrite <- Hs.
    apply collect_slice; [lia|lia|]. intros i e _ E. by rewrite E.
Qed.

End Reads.
