(* ===== verification/AppendOnly.v ===== *)
(** * Which calls rewrite events

    Five entry points can change a stored event: the update, the rollback, and
    the three that reach one of them.  Every other call leaves each stored
    event at its position, under its identifier, as it was. *)

From S2P Require Import Prelude Contract StorageLemmas Types Storage Codec Access Chain Logging Batch.
From S2P Require Import Queries Versions Archive Governance Schemas Proposals Retention Invariant Submission VersionSpec.
From S2P Require Import Ledger Reads.

(** The entry points that may rewrite events. *)
Definition revising (k : call) : bool :=
  match k with
  | CUpdateEvent _ _ _ | CRollbackEvent _ _ _ | CExecuteProposal _ _ | CProcessErasure _ _ _ _
  | CRetentionSweep _ _ _ => true
  | _ => false
  end.

(** The entry points that append events. *)
Definition logging (k : call) : bool :=
  match k with
  | CLogEvent _ _ _ _ _ _ | CLogEvents _ | CLogWithNonce _ _ _ _ | CLogWithKey _ _ _ _ _ _ _
  | CLogSigned _ _ _ _ | CLogOperational _ _ _ => true
  | _ => false
  end.

Section AppendOnly.
Context `{H : Host}.

(** Every stored event is still there. *)
Definition Persist (st st' : store) : Prop :=
  forall i x, entry st i = Some x -> entry st' i = Some x.

#[global] Instance Persist_preorder : PreOrder Persist.
Proof.
  split; unfold Persist.
  - by intros st i x.
  - intros s1 s2 s3 E1 E2 i x Hx. by apply E2, E1.
Qed.

Lemma same_ledger_Persist st st' : same_ledger st st' -> Persist st st'.
Proof. intros E i x Hx. by rewrite <- E. Qed.

(** ** Calls that write no event *)

Lemma keeps_update_runtime f : keeps ledger_key (update_runtime f).
Proof. unfold update_runtime. keeps_tac. Qed.
Lemma keeps_submitter_nonce_state K a : keeps K (get_submitter_nonce_state a).
Proof.
  unfold get_submitter_nonce_state, default_nonce_window_size, default_nonce_max_value. keeps_tac.
  apply keeps_pure. intros. by minv.
Qed.
Lemma keeps_read_event K i : keeps K (event_at_unwrap i).
Proof. unfold event_at_unwrap. keeps_tac. Qed.
Lemma keeps_read_event_opt K i : keeps K (event_at i).
Proof. unfold event_at. keeps_tac. Qed.
Lemma keeps_read_by_order K i : keeps K (get_event_by_order i).
Proof. unfold get_event_by_order. keeps_tac. Qed.
#[local] Hint Resolve keeps_update_runtime keeps_submitter_nonce_state keeps_read_event
  keeps_read_event_opt keeps_read_by_order : keeps.
Lemma keeps_archive_loop cfg cut l : forall pg, keeps ledger_key (archive_loop cfg cut pg l).
Proof.
  induction l as [|i l IH]; intros pg; simpl; unfold archive_one, archive_offchain, archive_onchain;
    keeps_tac.
Qed.
Lemma keeps_audit_trail K i : keeps K (get_event_audit_trail i).
Proof. unfold get_event_audit_trail. keeps_tac. Qed.
Lemma keeps_discriminant K d : keeps K (dedup_policy_from_discriminant d).
Proof. unfold dedup_policy_from_discriminant. keeps_tac. Qed.
Lemma keeps_drop_stale_hash h i n : keeps ledger_key (drop_stale_hash h i n).
Proof. unfold drop_stale_hash. keeps_tac. Qed.
Lemma keeps_drop_stale_hash_ts h i n : keeps ledger_key (drop_stale_hash_ts h i n).
Proof. unfold drop_stale_hash_ts. keeps_tac. Qed.
Lemma keeps_owners_only K a : keeps K (owner_only a).
Proof. unfold owner_only. keeps_tac. Qed.
Lemma keeps_legacy_owner K a : keeps K (owner_entry a).
Proof. unfold owner_entry, require_owner. keeps_tac. Qed.
Lemma keeps_erased K i : keeps K (is_event_erased i).
Proof. unfold is_event_erased. keeps_tac. Qed.
#[local] Hint Resolve keeps_archive_loop keeps_audit_trail keeps_discriminant
  keeps_drop_stale_hash keeps_drop_stale_hash_ts keeps_owners_only keeps_legacy_owner keeps_erased
  : keeps.

Lemma keeps_exec k : revising k = false -> logging k = false -> keeps ledger_key (exec k).
Proof.
  destruct k; intros; try discriminate; simpl; unfold run.
  all: try (progress unfold tag_event_version, get_event, count_ttl_extension, create_snapshot).
  all: try (progress unfold archive_events, purge_archived_events, purge_step, set_archive_config).
  all: try (progress unfold set_submitter_nonce_config, reset_submitter_nonce,
              set_default_nonce_config, pause, unpause, set_role, enable_rbac).
  all: try (progress unfold transfer_ownership, add_owner, remove_owner, set_required_signatures,
              set_category_max_len, upgrade_contract, get_owners, get_role_of,
              get_required_signatures).
  all: try (progress unfold set_global_max_logs, set_event_max_logs, remove_event_cap,
              set_metadata_max_size, set_event_metadata_max_size, set_metadata_schema,
              set_event_ttl, cleanup_expired_events, expired_step, register_webhook,
              unregister_webhook).
  all: try (progress unfold block_submitter, unblock_submitter, enable_allowlist_mode,
              disable_allowlist_mode, allow_submitter, remove_submitter_from_allowlist,
              set_event_emission_mode, set_low_cost_mode, set_submitter_rate_limit,
              compact_storage, compact_step).
  all: try (progress unfold set_dedup_policy, set_dedup_policy_for_type, cleanup_stale_hashes,
              cleanup_stale_dedup_entries, stale_hash_step, stale_dedup_step, scanned_event,
              register_schema, migrate_event_metadata, submit_proposal, approve_proposal).
  all: try (progress unfold set_retention_policy, set_default_retention_days, place_legal_hold,
              release_legal_hold, grant_compliance_exception, revoke_compliance_exception,
              request_erasure, add_ops_recorder, remove_ops_recorder).
  all: keeps_tac.
Qed.

Context `{!CollisionFree}.

(** ** Calls that append *)

Definition Grows (st0 : store) (c : Ctx) (st : store) : Prop := Inv c st /\ Persist st0 st.

Lemma Grows_iset st0 k v : vital k = false -> preserves (Grows st0) (iset k v).
Proof.
  intros Hk. apply preserves_iset. intros c st [I P]. split; [by apply Inv_sset|].
  etrans; [done|]. apply same_ledger_Persist. symmetry. apply same_ledger_sset. by destruct k.
Qed.

Lemma Grows_keeps st0 {A} (m : M A) : keeps guarded m -> preserves (Grows st0) m.
Proof.
  intros K c s a s' R [I P]. apply keeps_guard in R; [|done]. split; [by eapply Inv_guard_eq|].
  etrans; [done|]. by apply same_ledger_Persist, guard_eq_ledger.
Qed.

Lemma AppendedTo_Persist c st st' n id e self :
  Frame self st n -> AppendedTo c st st' n id e -> Persist st st'.
Proof.
  intros F A i x Hx. rewrite (at_before _ _ _ _ _ _ A); [done|].
  destruct x as [id' e']. by eapply entry_index.
Qed.

Lemma Grows_log_event st0 a et m cat sub force :
  preserves (Grows st0) (log_event_with_hierarchy a et m cat sub force).
Proof.
  intros c s id s' R [[n L] P].
  destruct (log_event_spec _ _ _ _ _ _ _ _ _ _ n L R) as [(e & A & _ & L')|(_ & E & _)].
  - split; [by exists (n + 1)|]. etrans; [done|]. eapply AppendedTo_Persist, A. apply L.
  - split; [eapply Inv_guard_eq; [done|by exists n]|].
    etrans; [done|]. by apply same_ledger_Persist, guard_eq_ledger.
Qed.

Lemma Grows_log_events st0 l : preserves (Grows st0) (log_events l).
Proof.
  intros c s r s' R [[n L] P]. destruct (log_events_spec _ _ _ _ _ n L R) as (_ & L' & Eb & _).
  split; [by exists (n + len l)|]. etrans; [done|]. intros i [id e] Hx.
  rewrite Eb; [done|]. by eapply entry_index, Hx; apply L.
Qed.
#[local] Hint Resolve Grows_log_event Grows_log_events : preserves.
#[local] Hint Extern 1 (preserves (Grows _) (iset _ _)) => (apply Grows_iset; reflexivity) : preserves.
#[local] Hint Extern 4 (preserves (Grows _) _) =>
  (apply Grows_keeps; solve [eauto 2 with keeps nocore]) : preserves.

Lemma Grows_exec st0 k : logging k = true -> preserves (Grows st0) (exec k).
Proof.
  destruct k; intros; try discriminate; simpl; unfold run, log_event, log_event_with_nonce,
    log_event_with_custom_key, log_event_signed, log_operational_action, effective_nonce_state,
    check_nonce, is_addr_ops_recorder; preserves_tac.
Qed.

(** Every call that does not revise keeps the stored events. *)
Lemma exec_Persist k c s s' :
  revising k = false -> Inv c (inst s) -> exec k c s = Ok (tt, s') -> Persist (inst s) (inst s').
Proof.
  intros Hk I R. destruct (logging k) eqn:Hl.
  - apply (Grows_exec (inst s) k Hl _ _ _ _ R). by split.
  - apply same_ledger_Persist. by apply (keeps_same_ledger _ _ _ _ _ (keeps_exec k Hk Hl) R).
Qed.

End AppendOnly.
