(* ===== verification/Footprint.v ===== *)
(** * What each entry point may write

    [footprint k] are the kinds of instance keys that the call [k] writes, read
    off the source; [exec_footprint] shows that a successful call leaves every
    other key as it was.  The life-cycle properties of proposals, erasure
    requests and settings follow from it. *)

From S2P Require Import Prelude Contract StorageLemmas Types Storage Codec Access Chain Logging Batch.
From S2P Require Import Queries Versions Archive Governance Schemas Proposals Retention Invariant Submission VersionSpec.
From S2P Require Import Ledger Reads AppendOnly.

(** The keys of a stored event. *)
Definition event_key (k : DataKey) : bool :=
  match k with
  | DataKey.EventData _ | DataKey.EventOrder _ | DataKey.EventHeaderKey _ | DataKey.EventMeta _
  | DataKey.EventMetadata _ => true
  | _ => false
  end.

(** The keys of the totals. *)
Definition total_key (k : DataKey) : bool :=
  match k with
  | DataKey.Config | DataKey.RuntimeState | DataKey.TotalEvents => true
  | _ => false
  end.

(** The keys of the indices. *)
Definition index_key (k : DataKey) : bool :=
  match k with
  | DataKey.EventTypeIndices _ | DataKey.EventTypeCount _ | DataKey.SubmitterEventIndices _
  | DataKey.SubmitterEventCount _ => true
  | _ => false
  end.

(** The keys of the dedup maps. *)
Definition dedup_key (k : DataKey) : bool :=
  match k with
  | DataKey.EventContentHash _ | DataKey.EventContentHashWithTs _ | DataKey.EventCustomKey _ => true
  | _ => false
  end.

Definition append_key (k : DataKey) : bool :=
  event_key k || total_key k || index_key k || dedup_key k
  || match k with DataKey.SubmitterRateState _ => true | _ => false end.

Definition revise_key (k : DataKey) : bool :=
  event_key k || match k with DataKey.EventVersions _ => true | _ => false end.

(** The keys of the archive. *)
Definition archive_key (k : DataKey) : bool :=
  match k with
  | DataKey.ArchivedEventData _ | DataKey.ArchivedEventHeaderKey _ | DataKey.ArchivedEventMetadata _
  | DataKey.ArchivedEventOrder _ | DataKey.EventArchivedFlag _ | DataKey.ArchivedEventRefKey _
  | DataKey.ArchivedTotalEvents | DataKey.ArchivedCompressedCount | DataKey.ArchivedOffchainCount
  | DataKey.ArchiveScanCursor => true
  | _ => false
  end.

Definition footprint (k : call) (key : DataKey) : bool :=
  match k with
  | CLogEvent _ _ _ _ _ _ | CLogEvents _ | CLogWithKey _ _ _ _ _ _ _ | CLogOperational _ _ _ =>
      append_key key
  | CLogWithNonce _ _ _ _ => append_key key || if key is DataKey.SubmitterNonce _ then true else false
  | CLogSigned _ _ _ _ => append_key key || if key is DataKey.EventSignature _ then true else false
  | CUpdateEvent _ _ _ | CRollbackEvent _ _ _ => revise_key key
  | CTagVersion _ _ _ _ => if key is DataKey.EventVersionTag _ _ then true else false
  | CGetEvent _ => if key is DataKey.TtlCleanupStats then true else false
  | CCreateSnapshot _ _ =>
      match key with DataKey.SnapshotData _ | DataKey.SnapshotCount => true | _ => false end
  | CArchiveEvents _ _ | CPurgeArchived _ _ _ => archive_key key
  | CSetArchiveConfig _ _ => if key is DataKey.ArchiveConfig then true else false
  | CSetNonceConfig _ _ _ _ => if key is DataKey.SubmitterNonceConfig _ then true else false
  | CResetNonce _ _ =>
      match key with DataKey.SubmitterNonce _ | DataKey.SubmitterNonceConfig _ => true | _ => false end
  | CSetDefaultNonce _ _ _ =>
      match key with DataKey.DefaultNonceWindowSize | DataKey.DefaultNonceMaxValue => true | _ => false end
  | CPause _ => if key is DataKey.Paused then true else false
  | CUnpause _ => match key with DataKey.Paused | DataKey.PausedSince => true | _ => false end
  | CSetRole _ _ _ => if key is DataKey.Role _ then true else false
  | CEnableRbac _ _ => if key is DataKey.RbacEnabled then true else false
  | CTransferOwnership _ _ =>
      match key with DataKey.Owner | DataKey.Owners | DataKey.Role _ => true | _ => false end
  | CAddOwner _ _ => match key with DataKey.Owners | DataKey.Role _ => true | _ => false end
  | CRemoveOwner _ _ =>
      match key with DataKey.Owners | DataKey.RequiredSignatures => true | _ => false end
  | CSetRequiredSignatures _ _ => if key is DataKey.RequiredSignatures then true else false
  | CSetCategoryMaxLen _ _ => if key is DataKey.CategoryMaxLen then true else false
  | CUpgrade _ _ => false
  | CSetGlobalMaxLogs _ _ =>
      match key with
      | DataKey.Config | DataKey.GlobalMaxLogs | DataKey.RuntimeState => true | _ => false end
  | CSetEventMaxLogs _ _ _ =>
      match key with
      | DataKey.EventCapSet _ | DataKey.EventMaxLogs _ | DataKey.EventCapConfig _
      | DataKey.EventCapRemoved _ | DataKey.EventTypeIndices _ => true
      | _ => false
      end
  | CRemoveEventCap _ _ =>
      match key with
      | DataKey.EventMaxLogs _ | DataKey.EventCapConfig _ | DataKey.EventCapRemoved _ => true
      | _ => false
      end
  | CSetMetadataMaxSize _ _ =>
      match key with DataKey.GlobalMetadataMaxSize | DataKey.RuntimeState => true | _ => false end
  | CSetEventMetadataMaxSize _ _ _ => if key is DataKey.EventMetadataMaxSize _ then true else false
  | CSetMetadataSchema _ _ _ => if key is DataKey.MetadataSchema _ then true else false
  | CSetEventTtl _ _ => if key is DataKey.EventTtl then true else false
  | CCleanupExpired _ _ _ => if key is DataKey.TtlCleanupStats then true else false
  | CRegisterWebhook _ _ _ _ | CUnregisterWebhook _ _ _ =>
      if key is DataKey.WebhookRegistrations _ then true else false
  | CBlockSubmitter _ _ | CUnblockSubmitter _ _ =>
      if key is DataKey.SubmitterBlocklist _ then true else false
  | CEnableAllowlist _ =>
      match key with DataKey.AllowlistMode | DataKey.RuntimeState => true | _ => false end
  | CDisableAllowlist _ => if key is DataKey.AllowlistMode then true else false
  | CAllowSubmitter _ _ | CDisallowSubmitter _ _ =>
      if key is DataKey.SubmitterAllowlist _ then true else false
  | CSetEmissionMode _ _ =>
      match key with
      | DataKey.EventEmissionConfig | DataKey.EventEmissionVersion | DataKey.RuntimeState => true
      | _ => false
      end
  | CSetLowCost _ _ =>
      match key with DataKey.LowCostMode | DataKey.RuntimeState => true | _ => false end
  | CSetRateLimit _ _ _ => if key is DataKey.SubmitterRateLimit _ then true else false
  | CCompactStorage _ _ => if key is DataKey.EventTypeIndices _ then true else false
  | CSetDedupPolicy _ _ => if key is DataKey.DedupPolicyConfig then true else false
  | CSetDedupPolicyForType _ _ _ => if key is DataKey.DedupPolicyConfigForType _ then true else false
  | CCleanupHashes _ _ _ | CCleanupDedup _ _ _ => dedup_key key
  | CRegisterSchema _ _ _ _ =>
      match key with DataKey.SchemaVersions _ | DataKey.EventSchema _ _ => true | _ => false end
  | CMigrate _ _ _ _ _ => if key is DataKey.EventSchemaMigration _ _ _ then true else false
  | CSubmitProposal _ _ _ =>
      match key with DataKey.Proposal _ | DataKey.ProposalCount => true | _ => false end
  | CApproveProposal _ _ => if key is DataKey.Proposal _ then true else false
  | CExecuteProposal _ _ =>
      revise_key key
      || match key with
         | DataKey.Proposal _ | DataKey.Owner | DataKey.Owners | DataKey.RequiredSignatures
         | DataKey.Config | DataKey.MetadataSchema _ | DataKey.Paused => true
         | _ => false
         end
  | CSetRetentionPolicy _ _ _ _ => if key is DataKey.RetentionPolicy _ then true else false
  | CSetDefaultRetention _ _ => if key is DataKey.DefaultRetentionDays then true else false
  | CPlaceHold _ _ _ | CReleaseHold _ _ _ => if key is DataKey.LegalHold _ then true else false
  | CGrantException _ _ _ _ | CRevokeException _ _ =>
      if key is DataKey.ComplianceException _ then true else false
  | CRequestErasure _ _ _ =>
      match key with DataKey.ErasureRequest _ | DataKey.ErasureRequestCount => true | _ => false end
  | CProcessErasure _ _ _ _ =>
      revise_key key
      || match key with DataKey.ErasureRequest _ | DataKey.ErasureRecord _ => true | _ => false end
  | CRetentionSweep _ _ _ => revise_key key || if key is DataKey.ErasureRecord _ then true else false
  | CAddRecorder _ _ | CRemoveRecorder _ _ => if key is DataKey.OpsAuditRecorders then true else false
  end.

(** The keys that a call leaves alone. *)
Definition spared (k : call) (key : DataKey) : bool := negb (footprint k key).

Section Footprint.
Context `{H : Host}.

(** ** Reads keep everything *)

Lemma keeps_read_version K : keeps K current_contract_version.
Proof. unfold current_contract_version. keeps_tac. Qed.
Lemma keeps_identify K a et m t i : keeps K (compute_event_id a et m t i).
Proof. unfold compute_event_id. keeps_tac. Qed.
Lemma keeps_predecessor K i : keeps K (predecessor_hash i).
Proof. unfold predecessor_hash, event_at_unwrap. keeps_tac. Qed.
Lemma keeps_versions_of K i e : keeps K (versions_of i e).
Proof. unfold versions_of. keeps_tac. Qed.
Lemma keeps_history K i : keeps K (get_event_history i).
Proof. unfold get_event_history, event_at_unwrap. keeps_tac. Qed.
Lemma keeps_nonce_state K a : keeps K (effective_nonce_state a).
Proof.
  unfold effective_nonce_state. pose proof (keeps_submitter_nonce_state K a). keeps_tac.
Qed.
Lemma keeps_check_nonce K st n : keeps K (check_nonce st n).
Proof. unfold check_nonce. keeps_tac. Qed.
#[local] Hint Resolve keeps_read_version keeps_identify keeps_predecessor keeps_versions_of
  keeps_history keeps_nonce_state keeps_check_nonce keeps_submitter_nonce_state keeps_read_event
  keeps_read_event_opt keeps_read_by_order keeps_discriminant keeps_owners_only keeps_legacy_owner
  keeps_erased keeps_audit_trail : keeps.

(** ** Revisions *)

Definition but_revised (k : DataKey) : bool := negb (revise_key k).

Lemma keeps_revised_rehash p j n : keeps but_revised (rehash_from p j n).
Proof. unfold rehash_from, rehash_step. keeps_tac. Qed.
Lemma keeps_revised_replace j id e : keeps but_revised (replace_event j id e).
Proof. unfold replace_event. keeps_tac. Qed.
Lemma keeps_revised_push j vs e a : keeps but_revised (push_version j vs e a).
Proof. unfold push_version. keeps_tac. Qed.
Lemma keeps_revised_reparent cur new u i : keeps but_revised (reparent_step cur new u i).
Proof. unfold reparent_step. keeps_tac. Qed.
#[local] Hint Resolve keeps_revised_rehash keeps_revised_replace keeps_revised_push
  keeps_revised_reparent : keeps.

Lemma keeps_revised_update a i m : keeps but_revised (update_event a i m).
Proof.
  unfold update_event, apply_update. assert (forall et m, keeps but_revised (check_metadata et m)).
  { intros. unfold check_metadata, effective_metadata_max_size, validate_metadata_against_schema.
    keeps_tac. }
  keeps_tac.
Qed.
Lemma keeps_revised_rollback a i v : keeps but_revised (rollback_event a i v).
Proof. unfold rollback_event. keeps_tac. Qed.

(** ** Appends *)

Definition but_appended (k : DataKey) : bool := negb (append_key k).

Lemma keeps_checked_metadata K et m : keeps K (check_metadata et m).
Proof.
  unfold check_metadata, effective_metadata_max_size, validate_metadata_against_schema. keeps_tac.
Qed.
Lemma keeps_type_count K et : keeps K (event_type_count et).
Proof. unfold event_type_count. keeps_tac. Qed.
Lemma keeps_link_to K n : keeps K (link_prev n).
Proof. unfold link_prev. keeps_tac. Qed.
Lemma keeps_role_min K a r : keeps K (require_role_min a r).
Proof. unfold require_role_min, rbac_enabled. keeps_tac. Qed.
Lemma keeps_policy K et : keeps K (effective_dedup_policy et).
Proof. unfold effective_dedup_policy. keeps_tac. Qed.
Lemma keeps_emitting K a et i : keeps K (emit_log_event a et i).
Proof. unfold emit_log_event, effective_event_emission_mode. keeps_tac. Qed.
Lemma keeps_low_cost K : keeps K effective_low_cost_mode.
Proof. unfold effective_low_cost_mode. keeps_tac. Qed.
Lemma keeps_timestamp K i t p : keeps K (check_timestamp i t p).
Proof. unfold check_timestamp. keeps_tac. Qed.
Lemma keeps_count K l x : keeps K (increment_count l x).
Proof.
  induction l as [|[y n] l IH]; simpl; keeps_tac.
Qed.
#[local] Hint Resolve keeps_checked_metadata keeps_type_count keeps_link_to keeps_role_min keeps_policy
  keeps_emitting keeps_low_cost keeps_timestamp : keeps.
#[local] Hint Extern 1 (keeps _ (increment_address_count _ _)) => apply keeps_count : keeps.
#[local] Hint Extern 1 (keeps _ (increment_symbol_count _ _)) => apply keeps_count : keeps.

Lemma keeps_appended_screening a et m force : keeps but_appended (screening a et m force).
Proof.
  unfold screening, enter_guard, check_submitter_lists, admit_event, runtime_state, check_rate_limit,
    check_type_cap, event_cap, dedup_lookup, existing_id, pending_custom_key, reject_when_paused.
  keeps_tac.
Qed.

Lemma keeps_appended_append a et m cat sub cfg tco p :
  keeps but_appended (append_event a et m cat sub cfg tco p).
Proof.
  unfold append_event, dedup_record, pending_custom_key, store_event, update_indices,
    push_type_index, push_submitter_index, submitter_count, bump_totals, sync_runtime_total,
    store_persistent.
  keeps_tac.
Qed.
#[local] Hint Resolve keeps_appended_screening keeps_appended_append : keeps.

Lemma keeps_appended_log a et m cat sub force :
  keeps but_appended (log_event_with_hierarchy a et m cat sub force).
Proof. unfold log_event_with_hierarchy. keeps_tac. Qed.

Lemma keeps_appended_batch l : keeps but_appended (log_events l).
Proof.
  unfold log_events, batch_runtime_state, check_item, authorize_once, batch_rate_limit,
    batch_type_cap, event_cap, append_item, batch_indices, push_type_index, push_submitter_index,
    submitter_count, store_event, sync_runtime_total.
  keeps_tac.
Qed.

(** ** Every entry point *)

Lemma spared_appended k {A} (m : M A) :
  (forall key, spared k key = true -> but_appended key = true) ->
  keeps but_appended m -> keeps (spared k) m.
Proof. apply keeps_weaken. Qed.
Lemma spared_revised k {A} (m : M A) :
  (forall key, spared k key = true -> but_revised key = true) ->
  keeps but_revised m -> keeps (spared k) m.
Proof. apply keeps_weaken. Qed.

(** [spared k] is included in the class of a shared routine. *)
Ltac included :=
  let key := fresh in intros key; unfold spared, but_appended, but_revised; simpl;
  rewrite ?negb_true_iff, ?orb_false_iff; tauto.

#[local] Hint Extern 2 (keeps _ (log_event_with_hierarchy _ _ _ _ _ _)) =>
  (apply spared_appended; [included|apply keeps_appended_log]) : keeps.
#[local] Hint Extern 2 (keeps _ (log_events _)) =>
  (apply spared_appended; [included|apply keeps_appended_batch]) : keeps.
#[local] Hint Extern 2 (keeps _ (update_event _ _ _)) =>
  (apply spared_revised; [included|apply keeps_revised_update]) : keeps.
#[local] Hint Extern 2 (keeps _ (rollback_event _ _ _)) =>
  (apply spared_revised; [included|apply keeps_revised_rollback]) : keeps.
Lemma keeps_archiving cfg cut l : forall pg, keeps (fun k => negb (archive_key k)) (archive_loop cfg cut pg l).
Proof.
  induction l as [|i l IH]; intros pg; simpl; unfold archive_one, archive_offchain, archive_onchain;
    keeps_tac.
Qed.
#[local] Hint Extern 2 (keeps _ (archive_loop _ _ _ _)) => apply keeps_archiving : keeps.

Lemma exec_spared k : keeps (spared k) (exec k).
Proof.
  destruct k; simpl; unfold run.
  all: try (progress unfold log_event, log_event_with_nonce, log_event_with_custom_key,
              log_event_signed, log_operational_action, is_addr_ops_recorder).
  all: try (progress unfold tag_event_version, get_event, count_ttl_extension, create_snapshot).
  all: try (progress unfold archive_events, purge_archived_events, purge_step, set_archive_config).
  all: try (progress unfold set_submitter_nonce_config, reset_submitter_nonce,
              set_default_nonce_config, pause, unpause, set_role, enable_rbac).
  all: try (progress unfold transfer_ownership, add_owner, remove_owner, set_required_signatures,
              set_category_max_len, upgrade_contract, get_owners, get_role_of,
              get_required_signatures).
  all: try (progress unfold set_global_max_logs, set_event_max_logs, remove_event_cap,
              set_metadata_max_size, set_event_metadata_max_size, set_metadata_schema,
              set_event_ttl, cleanup_expired_events, expired_step, register_webhook,
              unregister_webhook, update_runtime).
  all: try (progress unfold block_submitter, unblock_submitter, enable_allowlist_mode,
              disable_allowlist_mode, allow_submitter, remove_submitter_from_allowlist,
              set_event_emission_mode, set_low_cost_mode, set_submitter_rate_limit,
              compact_storage, compact_step, update_runtime).
  all: try (progress unfold set_dedup_policy, set_dedup_policy_for_type, cleanup_stale_hashes,
              cleanup_stale_dedup_entries, stale_hash_step, stale_dedup_step, scanned_event,
              drop_stale_hash, drop_stale_hash_ts,
              register_schema, migrate_event_metadata, submit_proposal, approve_proposal,
              execute_proposal, perform, get_required_signatures, get_owners).
  all: try (progress unfold set_retention_policy, set_default_retention_days, place_legal_hold,
              release_legal_hold, grant_compliance_exception, revoke_compliance_exception,
              request_erasure, add_ops_recorder, remove_ops_recorder, process_erasure_request,
              fulfil, redact, run_retention_sweep, sweep_step, classify, is_under_legal_hold,
              has_active_compliance_exception, is_event_erased, retention_days_for).
  all: keeps_tac.
Qed.

(** The keys of proposals, erasure requests and the schema registry, which
    [initialize] leaves empty. *)
Definition request_key (k : DataKey) : bool :=
  match k with
  | DataKey.Proposal _ | DataKey.ProposalCount | DataKey.ErasureRequest _
  | DataKey.ErasureRequestCount | DataKey.SchemaVersions _ | DataKey.EventSchema _ _ => true
  | _ => false
  end.

Lemma initialize_spared owners ml mb c u s' key :
  request_key key = true -> initialize owners ml mb c empty_state = Ok (u, s') ->
  sget (inst s') key = None.
Proof.
  intros Hk R.
  assert (keeps request_key (initialize owners ml mb)) as K by (unfold initialize; keeps_tac).
  by rewrite (K _ _ _ _ R).
Qed.

End Footprint.
