(* ===== verification/Sample.v ===== *)
(** * A concrete host and sample histories

    A 32-byte "hash" whose event identifiers differ from position to position,
    so that [CollisionFree] holds of it, and a few short histories of a
    contract running on it.  The witnesses of the properties use them. *)

From S2P Require Import Prelude Contract Fallible StorageLemmas Types Storage Codec Access Chain Logging.
From S2P Require Import Queries Versions Governance Ledger Reads.

(** The last 32 bytes, reversed and padded. *)
Definition tail_hash (l : Bytes) : Hash := take 32 (rev l ++ replicate 32 0).

Definition sample_crypto : Crypto := {|
  sha256 := tail_hash;
  sym_payload := fun s => Z.of_nat (String.length s) |}.

(** Addresses serialized as their text. *)
#[global] Instance sample_xdr : AddressXdr := {| address_xdr := str_bytes |}.

#[global] Instance sample_host : Host := {|
  host_crypto := sample_crypto;
  nonce_max_default := fun st => match sget st DataKey.DefaultNonceMaxValue with
                                 | Some v => v
                                 | None => u32_max
                                 end |}.

Lemma tail_hash_app l v : tail_hash (l ++ u32_to_bytes v) = rev (u32_to_bytes v) ++ take 28 (rev l ++ replicate 32 0).
Proof. unfold tail_hash. by rewrite rev_app_distr. Qed.

#[global] Instance sample_collision_free : CollisionFree.
Proof.
  intros self a t m ts i a' t' m' ts' j Hi Hj E. unfold event_id in E.
  cbn [sha256 sample_crypto host_crypto sample_host] in E. rewrite !app_assoc, !tail_hash_app in E.
  apply app_inj_1 in E as [E _]; [|done].
  apply u32_to_bytes_inj; [done|done|]. by apply rev_inj.
Qed.

Definition owner : Address := "owner".
Definition alice : Address := "alice".
Definition ledger : Address := "ledger".

(** A context at time [t] in which everyone has signed. *)
Definition at_time (t : Z) : Ctx := mkCtx t (t / 5) (fun _ => true) ledger.

Definition s_init : St := post (initialize [owner] 100 64) (at_time 1000) empty_state.

Definition call_at (t : Z) (k : call) (s : St) : St := post (exec k) (at_time t) s.

(** Two events of alice and one of the owner. *)
Definition ev1 : call := CLogEvent alice "login" [1; 2; 3] None None false.
Definition ev2 : call := CLogEvent alice "logout" [4; 5] (Some "security"%string) None false.
Definition ev3 : call := CLogEvent owner "login" [9; 9; 9; 9] None None false.
Definition s1 : St := call_at 1010 ev1 s_init.
Definition s2 : St := call_at 1020 ev2 s1.
Definition s3 : St := call_at 1030 ev3 s2.

Lemma ok_post {A} (m : M A) c s a :
  outcome m c s = Ok a -> m c s = Ok (a, post m c s).
Proof. apply run_outcome. Qed.

Lemma reach_call t k s :
  reachable ledger s -> outcome (exec k) (at_time t) s = Ok tt -> reachable ledger (call_at t k s).
Proof.
  intros Hr Ho. eapply reach_step; [exact Hr|]. eapply (step_call ledger k (at_time t)); [done|].
  by apply ok_post.
Qed.

Lemma reach_start t owners max_logs max_bytes :
  0 <= max_logs ->
  outcome (initialize owners max_logs max_bytes) (at_time t) empty_state = Ok tt ->
  reachable ledger (post (initialize owners max_logs max_bytes) (at_time t) empty_state).
Proof.
  intros Hm Ho. eapply (reach_init ledger (at_time t)); [done|exact Hm|]. by apply ok_post.
Qed.

Lemma s_init_reachable : reachable ledger s_init.
Proof. unfold s_init. apply reach_start; [lia|]. vm_compute. reflexivity. Qed.
Lemma s1_reachable : reachable ledger s1.
Proof. unfold s1. apply reach_call; [apply s_init_reachable|]. vm_compute. reflexivity. Qed.
Lemma s2_reachable : reachable ledger s2.
Proof. unfold s2. apply reach_call; [apply s1_reachable|]. vm_compute. reflexivity. Qed.
Lemma s3_reachable : reachable ledger s3.
Proof. unfold s3. apply reach_call; [apply s2_reachable|]. vm_compute. reflexivity. Qed.

(** The total of a reachable state, from its computed value. *)
Lemma total_run t s n :
  reachable ledger s -> outcome total_events (at_time t) s = Ok n ->
  total_events (at_time t) s = Ok (n, s).
Proof.
  intros [m L]%reachable_Live E. pose proof (total_events_run ledger (at_time t) s m L) as R.
  rewrite (outcome_run _ _ _ _ _ R) in E. by injection E as ->.
Qed.

Example s3_total : outcome total_events (at_time 1040) s3 = Ok 3.
Proof. vm_compute. reflexivity. Qed.
