(* ===== verification/LedgerProps.v ===== *)
(** * Properties of every reachable state

    What holds after any history of calls: the hash chain verifies, every
    position holds the event its identifier addresses, the totals agree and
    respect the cap, and only the revising calls change a stored event. *)

From S2P Require Import Prelude Contract StorageLemmas Types Storage Codec Access Chain Logging Batch.
From S2P Require Import Queries Versions Archive Governance Schemas Proposals Retention Invariant Submission VersionSpec.
From S2P Require Import Ledger Reads AppendOnly Sample.

Section LedgerProps.
Context `{H : Host} `{!CollisionFree}.

Lemma Linked_verifies st n : Linked st n -> 0 <= n ->
  is_Some (prev_at st 0) /\ forall i, 0 <= i < n -> linked st i.
Proof. intros L Hn. split; [by eapply Linked_prev|]. apply L. Qed.

(** C1: Whatever sequence of calls a deployed contract has executed - logging,
    batches, updates, rollbacks, erasures, proposals, governance - the call
    [verify_integrity] returns, returns [true], and changes nothing: the hash
    chain is intact in every reachable state. *)
Theorem reachable_chain_verifies self c s :
  reachable self s -> verify_integrity c s = Ok (true, s).
Proof.
  intros [n L]%reachable_Live. unfold verify_integrity.
  rewrite (bind_run _ _ _ _ _ _ (require_initialized_run _ c _ _ L)).
  rewrite (bind_run _ _ _ _ _ _ (total_events_run _ c _ _ L)).
  pose proof (fr_range _ _ _ (live_frame _ _ _ L)) as Hn.
  destruct (verify_range_run 0 n c s) as (b & Rb & Hb); [lia|].
  rewrite Rb. do 2 f_equal. apply Hb, Linked_verifies; [apply L|lia].
Qed.

(** C10: In every reachable state the stored events are exactly those at the
    positions below [total_events]; the event at position [i] has index [i] and
    is stored under the identifier computed from its own submitter, type,
    metadata, timestamp and index, and different positions have different
    identifiers. *)
Theorem reachable_content_addressed self c s :
  reachable self s ->
  exists n, total_events c s = Ok (n, s) /\
    (forall i, is_Some (entry (inst s) i) <-> 0 <= i < n) /\
    (forall i id e, entry (inst s) i = Some (id, e) ->
       ev_index e = i /\
       id = event_id self (ev_submitter e) (ev_event_type e) (ev_metadata e) (ev_timestamp e) i) /\
    (forall i j id e e', entry (inst s) i = Some (id, e) -> entry (inst s) j = Some (id, e') ->
       i = j).
Proof.
  intros [n L]%reachable_Live. exists n. split; [by apply (total_events_run _ c _ _ L)|].
  pose proof (live_frame _ _ _ L) as F. pose proof (fr_range _ _ _ F).
  assert (forall i id e, entry (inst s) i = Some (id, e) ->
            0 <= i < n /\ ev_index e = i /\ addressed self id e) as G.
  { intros i id e E. destruct (entry_index _ _ _ _ _ _ F E) as [Hi Hx].
    destruct (fr_cells _ _ _ F i Hi) as (id' & e' & E' & _ & A). rewrite E in E'.
    by injection E' as <- <-. }
  split; [|split].
  - intros i. split; [intros [[id e] E]; by eapply G|].
    intros Hi. destruct (fr_cells _ _ _ F i Hi) as (id & e & E & _). by rewrite E.
  - intros i id e E. destruct (G _ _ _ E) as (_ & Hx & A). split; [done|].
    unfold addressed in A. by rewrite Hx in A.
  - intros i j id e e' E1 E2. destruct (G _ _ _ E1) as (Hi & Hx & A), (G _ _ _ E2) as (Hj & _ & _).
    eapply cells_distinct; [| |exact E1|done|done|exact E2|by apply (fr_cells _ _ _ F)];
      unfold is_u32; lia.
Qed.

(** C11: In every reachable state the counter of [Config] and the counter of
    [RuntimeState] are the same, lie in the range of [u32], and do not exceed
    the global maximum of [RuntimeState]. *)
Theorem reachable_totals_agree self s :
  reachable self s ->
  exists cfg rs, sget (inst s) DataKey.Config = Some cfg /\
    sget (inst s) DataKey.RuntimeState = Some rs /\
    cfg_total_events cfg = rs_total_events rs /\ is_u32 (rs_total_events rs) /\
    rs_total_events rs <= rs_global_max_logs rs.
Proof.
  intros [n L]%reachable_Live. destruct (live_totals _ _ _ L) as [(cfg & Ec & Hc) (rs & Er & Ht & Hm)].
  exists cfg, rs. pose proof (fr_range _ _ _ (live_frame _ _ _ L)). unfold is_u32.
  repeat split; try done; lia.
Qed.

(** C2: The log is append-only under every entry point except [update_event],
    [rollback_event], [execute_proposal], [process_erasure_request] and
    [run_retention_sweep]: a successful call of any other one leaves each
    stored event unchanged at its position and under its identifier. *)
Theorem append_only_except_revisions self c k s s' :
  reachable self s -> cx_self c = self -> revising k = false ->
  exec k c s = Ok (tt, s') ->
  forall i id e, entry (inst s) i = Some (id, e) -> entry (inst s') i = Some (id, e).
Proof.
  intros [n L]%reachable_Live <- Hk R i id e E.
  eapply (exec_Persist k c s s'); [done|by exists n|done|done].
Qed.

(** C12: [verify_integrity_range] decides the chain: on an initialised contract
    it always returns without changing anything, and answers [true] exactly when
    the range has a predecessor and every position in it holds an event whose
    [prev_hash] is the hash of the event before (zeros at the start) and whose
    own hash is the hash of its identifier, predecessor, position and time. *)
Theorem verify_integrity_range_decides from to c s :
  0 <= from <= to -> require_initialized c s = Ok (tt, s) ->
  exists b, verify_integrity_range from to c s = Ok (b, s) /\
    (b = true <-> is_Some (prev_at (inst s) from) /\
                  forall i, from <= i < to -> linked (inst s) i).
Proof.
  intros Hr Hi. unfold verify_integrity_range. rewrite (bind_run _ _ _ _ _ _ Hi).
  by apply verify_range_run.
Qed.

End LedgerProps.

(** ** Witnesses *)

Lemma reachable_chain_verifies_witness :
  reachable ledger s3 /\ verify_integrity (at_time 1040) s3 = Ok (true, s3).
Proof.
  split; [apply s3_reachable|].
  apply (reachable_chain_verifies ledger (at_time 1040) s3), s3_reachable.
Defined.

Lemma reachable_content_addressed_witness :
  exists n, total_events (at_time 1040) s3 = Ok (n, s3).
Proof.
  destruct (reachable_content_addressed ledger (at_time 1040) s3 s3_reachable) as (n & Hn & _).
  exists n. exact Hn.
Defined.

Lemma reachable_totals_agree_witness :
  exists cfg, sget (inst s3) DataKey.Config = Some cfg /\ is_u32 (cfg_total_events cfg).
Proof.
  destruct (reachable_totals_agree ledger s3 s3_reachable) as (cfg & rs & Hc & _ & E & Hu & _).
  exists cfg. split; [exact Hc|]. rewrite E. exact Hu.
Defined.

Lemma append_only_except_revisions_witness :
  exec ev3 (at_time 1030) s2 = Ok (tt, s3) /\
  forall i id e, entry (inst s2) i = Some (id, e) -> entry (inst s3) i = Some (id, e).
Proof.
  assert (exec ev3 (at_time 1030) s2 = Ok (tt, s3)) as R.
  { unfold s3, call_at. apply ok_post. vm_compute. reflexivity. }
  split; [exact R|].
  exact (append_only_except_revisions ledger (at_time 1030) ev3 s2 s3 s2_reachable eq_refl eq_refl R).
Defined.

Lemma verify_integrity_range_decides_witness :
  exists b, verify_integrity_range 1 3 (at_time 1040) s3 = Ok (b, s3).
Proof.
  destruct (verify_integrity_range_decides 1 3 (at_time 1040) s3) as (b & Hb & _).
  - lia.
  - destruct (reachable_Live ledger s3 s3_reachable) as [n L].
    exact (require_initialized_run ledger (at_time 1040) s3 n L).
  - exists b. exact Hb.
Defined.
