(* ===== verification/Admission.v ===== *)
(** * The admission tests in closed form

    Each test of [screening] as a function of the settings it reads.

    The second part of the file: what a submission does to the keys behind its
    checks. *)

From S2P Require Import Prelude Contract StorageLemmas Types Storage Codec Access Chain Logging Batch.
From S2P Require Import Queries Versions Archive Governance Schemas Proposals Retention Invariant Submission VersionSpec.
From S2P Require Import Ledger Reads AppendOnly Sample.

(** The value of a setting, with the default the code uses. *)
Definition setting (st : store) (k : DataKey) (d : value k) : value k :=
  match sget st k with Some v => v | None => d end.

Lemma setting_sset_eq st k v d : setting (sset st k v) k d = v.
Proof. unfold setting. by rewrite sset_eq. Qed.
Lemma setting_sset_ne st k k' v d : k <> k' -> setting (sset st k v) k' d = setting st k' d.
Proof. intros Hk. unfold setting. by rewrite sset_ne. Qed.

Section Admission.
Context `{H : Host}.

(** ** Lemmas *)

(** The state after [enter_guard]. *)
Definition with_guard (s : St) : St :=
  mkSt (inst s) (pers s) (sset (temp s) DataKey.LogEventReentrancyGuard true) (published s)
    (host_calls s).

(** The caller may submit, but for the pause and the submitter lists. *)
Record May_submit (c : Ctx) (s : St) (a : Address) : Prop := {
  ms_init : require_initialized c s = Ok (tt, s);
  ms_auth : cx_auth c a = true;
  ms_role : setting (inst s) DataKey.RbacEnabled false = true ->
            Role.rank Role.Submitter <= Role.rank (setting (inst s) (DataKey.Role a) Role.Viewer);
  ms_guard : shas (temp s) DataKey.LogEventReentrancyGuard = false }.

Lemma require_role_min_Ok a r c s u s' :
  require_role_min a r c s = Ok (u, s') <->
  s' = s /\ (setting (inst s) DataKey.RbacEnabled false = true ->
             Role.rank r <= Role.rank (setting (inst s) (DataKey.Role a) Role.Viewer)).
Proof.
  unfold require_role_min, rbac_enabled, bind, iget_or, setting.
  destruct (sget (inst s) DataKey.RbacEnabled) as [[]|]; simpl;
    try (unfold ret; destruct u; naive_solver).
  rewrite reject_if_Ok, Z.ltb_ge. naive_solver.
Qed.

Lemma enter_guard_Ok c s u s' :
  enter_guard c s = Ok (u, s') <->
  shas (temp s) DataKey.LogEventReentrancyGuard = false /\ s' = with_guard s.
Proof.
  unfold enter_guard, bind, thas, tset, reject_if, raise, ret, with_guard.
  destruct (shas (temp s) DataKey.LogEventReentrancyGuard), u; naive_solver.
Qed.

Lemma require_initialized_Ok c s u s' : require_initialized c s = Ok (u, s') -> s' = s.
Proof. unfold require_initialized. intros R. by minv. Qed.

(** The lines of [screening] before the pause test. *)
Lemma May_submit_run a et m force c s :
  May_submit c s a ->
  screening a et m force c s =
    bind reject_when_paused (fun _ =>
      do* check_submitter_lists a in
      let* cfg := admit_event a et m in
      let* tco := check_type_cap et in
      let* p := effective_dedup_policy et in
      let* dup := if force then ret None else dedup_lookup p et a m in
      ret (cfg, tco, p, dup)) c (with_guard s).
Proof.
  intros [Hi Ha Hr Hg]. unfold screening. rewrite (bind_run _ _ _ _ _ _ Hi).
  rewrite (bind_run _ _ c s tt s) by (unfold require_auth; by rewrite Ha).
  rewrite (bind_run _ _ c s tt s) by (by apply require_role_min_Ok).
  by rewrite (bind_run _ _ c s tt (with_guard s)) by (by apply enter_guard_Ok).
Qed.

Lemma screening_May_submit a et m force c s r s' :
  screening a et m force c s = Ok (r, s') -> May_submit c s a.
Proof.
  unfold screening. intros R.
  apply bind_Ok in R as (u1 & s1 & R1 & R). pose proof (require_initialized_Ok _ _ _ _ R1) as ->.
  apply bind_Ok in R as (u2 & s1 & R2 & R). apply require_auth_Ok in R2 as [Ha ->].
  apply bind_Ok in R as (u3 & s1 & R3 & R). apply require_role_min_Ok in R3 as [-> Hr].
  apply bind_Ok in R as (u4 & s1 & R4 & R). apply enter_guard_Ok in R4 as [Hg ->].
  split; try done. by destruct u1.
Qed.

Lemma reject_when_paused_run c s :
  reject_when_paused c s =
    if setting (inst s) DataKey.Paused false then Err (Raise ContractError.ContractPaused)
    else Ok (tt, s).
Proof.
  change (reject_when_paused c s) with
    (reject_if (setting (inst s) DataKey.Paused false) ContractError.ContractPaused c s).
  by destruct (setting _ _ _).
Qed.

Lemma check_submitter_lists_run a c s :
  check_submitter_lists a c s =
    if setting (inst s) (DataKey.SubmitterBlocklist a) false
       || (setting (inst s) DataKey.AllowlistMode false
           && negb (setting (inst s) (DataKey.SubmitterAllowlist a) false))
    then Err (Raise ContractError.SubmitterBlocked) else Ok (tt, s).
Proof.
  unfold check_submitter_lists, bind, iget_or, iget, reject_if, setting, raise, ret.
  destruct (sget (inst s) (DataKey.SubmitterBlocklist a)) as [[]|]; simpl; try done;
    destruct (sget (inst s) DataKey.AllowlistMode) as [[]|]; simpl; try done;
    by destruct (sget (inst s) (DataKey.SubmitterAllowlist a)) as [[]|].
Qed.

(** The metadata limit in force for a type. *)
Definition metadata_limit (st : store) (et : Symbol) : Z :=
  match sget st (DataKey.EventMetadataMaxSize et) with
  | Some v => v
  | None => setting st DataKey.GlobalMetadataMaxSize DEFAULT_MAX_METADATA_SIZE
  end.

(** The schema of the type, if any, accepts the metadata. *)
Definition schema_accepts (st : store) (et : Symbol) (m : Bytes) : bool :=
  match sget st (DataKey.MetadataSchema et) with
  | Some schema => validate_metadata_schema m schema
  | None => true
  end.

Lemma check_metadata_run et m c s :
  check_metadata et m c s =
    if Z.ltb (metadata_limit (inst s) et) (len m) then Err (Raise ContractError.MetadataTooLarge)
    else if schema_accepts (inst s) et m then Ok (tt, s)
    else Err (Raise ContractError.MetadataSchemaViolation).
Proof.
  unfold check_metadata, effective_metadata_max_size, validate_metadata_against_schema,
    metadata_limit, schema_accepts, setting, bind, iget, reject_if, raise, ret.
  destruct (sget (inst s) (DataKey.EventMetadataMaxSize et)) as [v|];
    [|destruct (sget (inst s) DataKey.GlobalMetadataMaxSize) as [v|]];
    (destruct (Z.ltb _ (len m)); [done|]);
    (destruct (sget (inst s) (DataKey.MetadataSchema et)) as [sc|]; [|done]); simpl;
    by destruct (validate_metadata_schema m sc).
Qed.

(** The cap of a type, if one is set. *)
Definition type_cap (st : store) (et : Symbol) : option Z :=
  match sget st (DataKey.EventCapConfig et) with Some o => o | None => None end.

(** How many events the index of a type lists. *)
Definition indexed_count (st : store) (et : Symbol) : Z :=
  packed_count (setting st (DataKey.EventTypeIndices et) []).

Lemma check_type_cap_run et c s :
  check_type_cap et c s =
    match type_cap (inst s) et with
    | Some cap =>
        if Z.leb cap (indexed_count (inst s) et) then
          Err (Raise ContractError.EventTypeMaxLogsReached)
        else Ok (Some (indexed_count (inst s) et), s)
    | None => Ok (None, s)
    end.
Proof.
  unfold check_type_cap, event_cap, type_cap, bind, iget, ret.
  destruct (sget (inst s) (DataKey.EventCapConfig et)) as [[cap|]|]; try done.
  unfold event_type_count, indexed_count, setting, bind, iget_or, ret, reject_if, raise. simpl.
  by destruct (Z.leb cap _).
Qed.

Definition not_rate (k : DataKey) : bool :=
  match k with DataKey.SubmitterRateState _ => false | _ => true end.

Lemma keeps_check_rate_limit' a : keeps not_rate (check_rate_limit a).
Proof. unfold check_rate_limit. keeps_tac. Qed.

Lemma runtime_state_Ok c s rs s' :
  runtime_state c s = Ok (rs, s') ->
  s' = s /\ forall r, sget (inst s) DataKey.RuntimeState = Some r -> rs = r.
Proof.
  unfold runtime_state. intros R. apply bind_Ok in R as (o & s1 & R1 & R). injection R1 as <- <-.
  destruct (sget (inst s) DataKey.RuntimeState) as [r|] eqn:E.
  - minv. split; [done|]. congruence.
  - split; [by minv|done].
Qed.

Lemma admit_event_sound a et m c s cfg s' :
  admit_event a et m c s = Ok (cfg, s') ->
  (forall k, not_rate k = true -> sget (inst s') k = sget (inst s) k) /\
  len m <= metadata_limit (inst s) et /\ schema_accepts (inst s) et m = true /\
  (forall rs, sget (inst s) DataKey.RuntimeState = Some rs ->
     rs_total_events rs < rs_global_max_logs rs).
Proof.
  unfold admit_event. intros R.
  apply bind_Ok in R as (rs & s1 & R1 & R). destruct (runtime_state_Ok _ _ _ _ R1) as [-> Hrs].
  apply bind_Ok in R as (cfg' & s1 & R2 & R). injection R2 as _ <-.
  apply bind_Ok in R as (u & s1 & R2 & R). pose proof (keeps_check_rate_limit' a _ _ _ _ R2) as K.
  apply bind_Ok in R as (u2 & s2 & R3 & R). rewrite check_metadata_run in R3.
  assert (metadata_limit (inst s1) et = metadata_limit (inst s) et) as Em
    by (unfold metadata_limit, setting; by rewrite !K).
  assert (schema_accepts (inst s1) et m = schema_accepts (inst s) et m) as Es
    by (unfold schema_accepts; by rewrite !K).
  rewrite Em, Es in R3.
  apply bind_Ok in R as (u3 & s3 & R4 & R). apply reject_if_Ok in R4 as [B ->]. minv.
  destruct (Z.ltb_spec (metadata_limit (inst s) et) (len m)); [done|].
  destruct (schema_accepts (inst s) et m); [|done]. injection R3 as _ <-. zcase.
  split; [done|]. split; [done|]. split; [done|]. intros rs0 E. by rewrite <- (Hrs _ E).
Qed.

Lemma log_event_Err a et m cat sub force c s f :
  screening a et m force c s = Err f -> log_event a et m cat sub force c s = Err f.
Proof. intros E. unfold log_event, log_event_with_hierarchy. by apply bind_Err. Qed.

End Admission.

(** * What a submission does to the keys behind its checks

    The dedup map, the rate state, the nonce state and the reentrancy guard
    across a successful submission. *)

(** The keys that a submission writes only in its admission tests, or in the
    dedup record, or not at all. *)
Definition side_key (k : DataKey) : bool :=
  match k with
  | DataKey.EventContentHash _ | DataKey.DedupPolicyConfig | DataKey.DedupPolicyConfigForType _
  | DataKey.SubmitterNonce _ | DataKey.SubmitterNonceConfig _ | DataKey.SubmitterRateState _
  | DataKey.SubmitterRateLimit _ => true
  | _ => false
  end.

Section Tracking.
Context `{H : Host}.

(** The dedup policy in force for a type. *)
Definition policy_of (st : store) (et : Symbol) : DedupPolicy :=
  match sget st (DataKey.DedupPolicyConfigForType et) with
  | Some p => p
  | None => setting st DataKey.DedupPolicyConfig DedupPolicy.ContentHash
  end.

Lemma effective_dedup_policy_run et c s :
  effective_dedup_policy et c s = Ok (policy_of (inst s) et, s).
Proof.
  unfold effective_dedup_policy, policy_of, setting, bind, iget, iget_or, ret.
  by destruct (sget (inst s) (DataKey.DedupPolicyConfigForType et)).
Qed.

Lemma keeps_side_store_event id e : keeps side_key (store_event id e).
Proof. unfold store_event. keeps_tac. Qed.
Lemma keeps_side_update_indices et a i o : keeps side_key (update_indices et a i o).
Proof. unfold update_indices, push_type_index, push_submitter_index, submitter_count. keeps_tac. Qed.
Lemma keeps_side_bump_totals cfg : keeps side_key (bump_totals cfg).
Proof. unfold bump_totals, sync_runtime_total. keeps_tac. Qed.
Lemma keeps_check_timestamp K i t p : keeps K (check_timestamp i t p).
Proof. unfold check_timestamp. keeps_tac. Qed.
Lemma keeps_link K n : keeps K (link_prev n).
Proof. unfold link_prev. keeps_tac. Qed.
Lemma keeps_compute_event_id K a et m t i : keeps K (compute_event_id a et m t i).
Proof. unfold compute_event_id. keeps_tac. Qed.
Lemma keeps_current_contract_version K : keeps K current_contract_version.
Proof. unfold current_contract_version. keeps_tac. Qed.
#[local] Hint Resolve keeps_side_store_event keeps_side_update_indices keeps_side_bump_totals
  keeps_check_timestamp keeps_link keeps_compute_event_id keeps_current_contract_version : keeps.

(** The dedup record aside, an append writes none of these keys. *)
Definition but_content (k : DataKey) : bool :=
  match k with DataKey.EventContentHash _ => false | _ => side_key k end.

Lemma keeps_but_content {A} (m : M A) : keeps side_key m -> keeps but_content m.
Proof. apply keeps_weaken. intros k. by destruct k. Qed.

Lemma keeps_append_event a et m cat sub cfg tco p :
  keeps but_content (append_event a et m cat sub cfg tco p).
Proof.
  unfold append_event.
  assert (forall i t, keeps but_content (dedup_record p et a m i t))
    by (intros; unfold dedup_record, pending_custom_key; keeps_tac).
  pose proof (fun id e => keeps_but_content _ (keeps_side_store_event id e)).
  pose proof (fun et a i o => keeps_but_content _ (keeps_side_update_indices et a i o)).
  pose proof (fun cfg => keeps_but_content _ (keeps_side_bump_totals cfg)).
  keeps_tac.
Qed.

(** Under the [ContentHash] policy the append records the position. *)
Lemma append_event_content a et m cat sub cfg tco c s id s' :
  append_event a et m cat sub cfg tco DedupPolicy.ContentHash c s = Ok (id, s') ->
  sget (inst s') (DataKey.EventContentHash (compute_content_hash et a m)) =
    Some (cfg_total_events cfg).
Proof.
  unfold append_event. intros R.
  apply bind_Ok in R as (u1 & t1 & _ & R). apply bind_Ok in R as ([ph pt] & t2 & _ & R).
  apply bind_Ok in R as (u2 & t3 & _ & R). apply bind_Ok in R as (i & t4 & _ & R).
  apply bind_Ok in R as (v & t5 & _ & R). apply bind_Ok in R as (u3 & t6 & _ & R).
  apply bind_Ok in R as (u4 & t7 & _ & R). apply bind_Ok in R as (u5 & t8 & R8 & R).
  injection R8 as _ <-.
  match type of R with ?m0 _ ?t = _ => assert (keeps side_key m0) as K by keeps_tac end.
  rewrite (K _ _ _ _ R) by done. simpl. by rewrite sset_eq.
Qed.

(** ** The admission tests *)

Lemma keeps_not_rate_screening a et m force : keeps not_rate (screening a et m force).
Proof.
  unfold screening. assert (keeps not_rate (admit_event a et m)).
  { unfold admit_event. pose proof (keeps_check_rate_limit' a). keeps_tac. }
  keeps_tac.
Qed.

Lemma keeps_not_rate_log_event a et m cat sub force c s id s' :
  log_event_with_hierarchy a et m cat sub force c s = Ok (id, s') ->
  forall k, but_content k = true -> not_rate k = true -> sget (inst s') k = sget (inst s) k.
Proof.
  unfold log_event_with_hierarchy. intros R k Hk Hk2.
  apply bind_Ok in R as ([[[cfg tco] p] dup] & t & R1 & R).
  rewrite <- (keeps_not_rate_screening _ _ _ _ _ _ _ _ R1 k Hk2). destruct dup; [by minv|].
  by apply (keeps_append_event _ _ _ _ _ _ _ _ _ _ _ _ R).
Qed.

(** The duplicate test of a screening that passed. *)
Lemma screening_dedup a et m c s cfg tco p dup s' :
  screening a et m false c s = Ok ((cfg, tco, p, dup), s') ->
  p = policy_of (inst s) et /\ shas (temp s') DataKey.LogEventReentrancyGuard = true /\
  exists t, dedup_lookup p et a m c t = Ok (dup, s') /\
    (forall k, not_rate k = true -> sget (inst t) k = sget (inst s) k).
Proof.
  intros R. pose proof (screening_May_submit _ _ _ _ _ _ _ _ R) as Ms.
  rewrite (May_submit_run _ _ _ _ _ _ Ms) in R.
  apply bind_Ok in R as (u & s1 & R1 & R). rewrite reject_when_paused_run in R1. simpl in R1.
  destruct (setting (inst s) DataKey.Paused false); [done|]. injection R1 as _ <-.
  apply bind_Ok in R as (u1 & s1 & R1 & R).
  rewrite check_submitter_lists_run in R1. destruct (_ || _); [done|]. injection R1 as _ <-.
  apply bind_Ok in R as (cfg' & s1 & R1 & R).
  destruct (admit_event_sound _ _ _ _ _ _ _ R1) as (K & _). simpl in K.
  assert (temp s1 = temp (with_guard s)) as Et.
  { unfold admit_event, runtime_state, check_rate_limit, check_metadata,
      effective_metadata_max_size, validate_metadata_against_schema in R1. by mcase. }
  apply bind_Ok in R as (tco' & s2 & R2 & R).
  assert (s2 = s1) as -> by (rewrite check_type_cap_run in R2; by repeat case_match; simplify_eq).
  apply bind_Ok in R as (p' & s2 & R3 & R). rewrite effective_dedup_policy_run in R3.
  injection R3 as Ep <-. apply bind_Ok in R as (d & s2 & R3 & R).
  apply ret_Ok in R as [[= -> -> -> ->] ->]. rewrite <- Ep in *.
  split; [|split].
  - unfold policy_of, setting. by rewrite !K.
  - assert (temp s2 = temp s1) as ->.
    { unfold dedup_lookup, existing_id, pending_custom_key in R3. by mcase. }
    rewrite Et. apply shas_sset_eq.
  - by exists s1.
Qed.

End Tracking.
