(* ===== verification/Clearance.v ===== *)
(** * Who may make which call

    [clearance k] are the addresses that must sign the call [k] and the level
    each must hold; [exec_cleared] shows that a successful call had them. *)

From S2P Require Import Prelude Contract StorageLemmas Types Storage Codec Access Chain Logging Batch.
From S2P Require Import Queries Versions Archive Governance Schemas Proposals Retention Invariant Submission VersionSpec.
From S2P Require Import Ledger Reads AppendOnly Admission.

(** What the contract asks of a caller beyond the signature. *)
Inductive level : Set :=
  | Signer
  | SubmitterLevel
  | Recorder
  | LegacyOwner
  | OwnerMember
  | Administrator.

(** The signatures a call needs, with the level of each. *)
Definition clearance (k : call) : list Address * level :=
  match k with
  | CLogEvent a _ _ _ _ _ | CLogWithNonce a _ _ _ | CLogWithKey a _ _ _ _ _ _ | CLogSigned a _ _ _ =>
      ([a], SubmitterLevel)
  | CLogEvents l => ((fun x => x.1.1) <$> l, SubmitterLevel)
  | CLogOperational a _ _ => ([a], Recorder)
  | CGetEvent _ => ([], Signer)
  | CRequestErasure a _ _ => ([a], Signer)
  | CRegisterWebhook a _ _ _ | CUnregisterWebhook a _ _ => ([a], LegacyOwner)
  | CSubmitProposal a _ _ | CApproveProposal a _ | CExecuteProposal a _ => ([a], OwnerMember)
  | CUpdateEvent a _ _ | CRollbackEvent a _ _ | CTagVersion a _ _ _ | CCreateSnapshot a _
  | CArchiveEvents a _ | CPurgeArchived a _ _ | CSetArchiveConfig a _ | CSetNonceConfig a _ _ _
  | CResetNonce a _ | CSetDefaultNonce a _ _ | CPause a | CUnpause a | CSetRole a _ _
  | CEnableRbac a _ | CTransferOwnership a _ | CAddOwner a _ | CRemoveOwner a _
  | CSetRequiredSignatures a _ | CSetCategoryMaxLen a _ | CUpgrade a _ | CSetGlobalMaxLogs a _
  | CSetEventMaxLogs a _ _ | CRemoveEventCap a _ | CSetMetadataMaxSize a _
  | CSetEventMetadataMaxSize a _ _ | CSetMetadataSchema a _ _ | CSetEventTtl a _
  | CCleanupExpired a _ _ | CBlockSubmitter a _ | CUnblockSubmitter a _ | CEnableAllowlist a
  | CDisableAllowlist a | CAllowSubmitter a _ | CDisallowSubmitter a _ | CSetEmissionMode a _
  | CSetLowCost a _ | CSetRateLimit a _ _ | CCompactStorage a _ | CSetDedupPolicy a _
  | CSetDedupPolicyForType a _ _ | CCleanupHashes a _ _ | CCleanupDedup a _ _
  | CRegisterSchema a _ _ _ | CMigrate a _ _ _ _ | CSetRetentionPolicy a _ _ _
  | CSetDefaultRetention a _ | CPlaceHold a _ _ | CReleaseHold a _ _ | CGrantException a _ _ _
  | CRevokeException a _ | CProcessErasure a _ _ _ | CRetentionSweep a _ _ | CAddRecorder a _
  | CRemoveRecorder a _ => ([a], Administrator)
  end.

(** An owner: in the owner list, or the single owner of older contracts. *)
Definition owns (st : store) (a : Address) : bool :=
  contains_addr (setting st DataKey.Owners []) a || bool_decide (sget st DataKey.Owner = Some a).

(** The role of an address reaches [r], where roles are enforced. *)
Definition ranked (st : store) (a : Address) (r : Role) : Prop :=
  setting st DataKey.RbacEnabled false = true ->
  Role.rank r <= Role.rank (setting st (DataKey.Role a) Role.Viewer).

(** The address holds the level. *)
Definition holds (lvl : level) (st : store) (a : Address) : Prop :=
  match lvl with
  | Signer => True
  | SubmitterLevel => ranked st a Role.Submitter
  | Recorder =>
      ranked st a Role.Submitter /\
      (owns st a = true \/ contains_addr (setting st DataKey.OpsAuditRecorders []) a = true)
  | LegacyOwner => sget st DataKey.Owner = Some a
  | OwnerMember => owns st a = true
  | Administrator =>
      if setting st DataKey.RbacEnabled false then ranked st a Role.Admin else owns st a = true
  end.

Section Clearance.
Context `{H : Host}.

(** [demands P m]: the state in which a successful run of [m] starts has [P]. *)
Definition demands {A} (P : Ctx -> store -> Prop) (m : M A) : Prop :=
  forall c s a s', m c s = Ok (a, s') -> P c (inst s).

(** [m] writes no instance key. *)
Definition quiet {A} (m : M A) : Prop := forall st0, preserves (fun _ st => st = st0) m.

Lemma demands_left {A B} P (m : M A) (f : A -> M B) : demands P m -> demands P (bind m f).
Proof. intros D c s b s' (a & s1 & R & _)%bind_Ok. by eapply D. Qed.

Lemma demands_right {A B} P (m : M A) (f : A -> M B) :
  quiet m -> (forall a, demands P (f a)) -> demands P (bind m f).
Proof.
  intros Q D c s b s' (a & s1 & R & R')%bind_Ok. rewrite <- (Q (inst s) c s a s1 R eq_refl).
  by eapply D.
Qed.

Lemma demands_and {A} (P Q : Ctx -> store -> Prop) (m : M A) :
  demands P m -> demands Q m -> demands (fun c st => P c st /\ Q c st) m.
Proof. intros D E c s a s' R. split; [by eapply D|by eapply E]. Qed.

(** A signature and a level. *)
Definition signed (a : Address) (c : Ctx) (_ : store) : Prop := cx_auth c a = true.
Definition at_level (lvl : level) (a : Address) (_ : Ctx) (st : store) : Prop := holds lvl st a.

Lemma demands_auth a : demands (signed a) (require_auth a).
Proof. intros c s u s' [E _]%require_auth_Ok. done. Qed.

Lemma is_addr_owner_run a c s : is_addr_owner a c s = Ok (owns (inst s) a, s).
Proof.
  unfold is_addr_owner, get_owners, owns, setting, bind, iget_or, iget, ret.
  destruct (contains_addr _ a); [done|]. simpl.
  destruct (sget (inst s) DataKey.Owner) as [o|]; [|done]. do 2 f_equal. apply bool_decide_ext.
  split; [by intros ->|by intros [= ->]].
Qed.

Lemma demands_admin a : demands (at_level Administrator a) (require_owner_or_multisig a).
Proof.
  intros c s u s' R. unfold require_owner_or_multisig in R.
  apply bind_Ok in R as (b & s1 & R1 & R). unfold rbac_enabled in R1. injection R1 as Eb <-.
  change (setting (inst s) DataKey.RbacEnabled false = b) in Eb. unfold at_level, holds. rewrite Eb. destruct b.
  - by apply require_role_min_Ok in R as [_ R].
  - apply bind_Ok in R as (o & s1 & R1 & R). rewrite is_addr_owner_run in R1. injection R1 as <- <-.
    apply reject_if_Ok in R as [B _]. by apply negb_false_iff in B.
Qed.

(** The branch of [set_role] and [enable_rbac] on the enforcement of roles. *)
Lemma demands_admin_rbac {A} a (m : M A) :
  demands (at_level Administrator a)
    (let* on := rbac_enabled in
     do* (if on then require_role_min a Role.Admin else require_owner_or_multisig a) in m).
Proof.
  intros c s u s' R. apply bind_Ok in R as (b & s1 & R1 & R). unfold rbac_enabled in R1.
  injection R1 as Eb <-. change (setting (inst s) DataKey.RbacEnabled false = b) in Eb.
  apply bind_Ok in R as (u1 & s1 & R & _).
  destruct b; [|by eapply demands_admin]. unfold at_level, holds. rewrite Eb.
  by apply require_role_min_Ok in R as [_ R].
Qed.

Lemma demands_owner a : demands (at_level LegacyOwner a) (require_owner a).
Proof.
  intros c s u s' R. unfold require_owner in R. apply bind_Ok in R as (o & s1 & R1 & R).
  injection R1 as Eo <-. apply bind_Ok in R as (w & s1 & R1 & R). apply unwrap_Ok in R1 as [-> ->].
  apply reject_if_Ok in R as [B _]. apply bool_decide_eq_false in B. unfold at_level, holds.
  rewrite Eo. f_equal. symmetry. by apply dec_stable.
Qed.

Lemma demands_member a : demands (at_level OwnerMember a) (owner_only a).
Proof.
  unfold owner_only. intros c s u s' R. apply bind_Ok in R as (u1 & s1 & R1 & R).
  apply require_auth_Ok in R1 as [_ ->]. apply bind_Ok in R as (o & s1 & R1 & R).
  rewrite is_addr_owner_run in R1. injection R1 as <- <-.
  apply reject_if_Ok in R as [B _]. by apply negb_false_iff in B.
Qed.

Lemma demands_member_auth a : demands (signed a) (owner_only a).
Proof. unfold owner_only. apply demands_left, demands_auth. Qed.

Lemma demands_submit a et m cat sub force lvl :
  lvl = SubmitterLevel ->
  demands (fun c st => signed a c st /\ at_level lvl a c st)
    (log_event_with_hierarchy a et m cat sub force).
Proof.
  intros -> c s id s' R. unfold log_event_with_hierarchy in R.
  apply bind_Ok in R as (r & s1 & R1 & _). apply screening_May_submit in R1 as [_ Ha Hr _]. done.
Qed.

(** ** The batch *)

Lemma authorize_once_Ok ck a c s ck' s' :
  authorize_once ck a c s = Ok (ck', s') ->
  s' = s /\ (contains_addr (ck_authorized ck) a = true \/
            (signed a c (inst s) /\ at_level SubmitterLevel a c (inst s))) /\
  ck_authorized ck' =
    if contains_addr (ck_authorized ck) a then ck_authorized ck else ck_authorized ck ++ [a].
Proof.
  unfold authorize_once. intros R. destruct (contains_addr _ _) eqn:E.
  - apply ret_Ok in R as [-> ->]. auto.
  - apply bind_Ok in R as (u & s1 & R1 & R). apply require_auth_Ok in R1 as [Ha ->].
    apply bind_Ok in R as (u2 & s1 & R1 & R). apply require_role_min_Ok in R1 as [-> Hr].
    apply ret_Ok in R as [-> ->]. auto.
Qed.

Lemma contains_addr_In l a : contains_addr l a = true <-> a ∈ l.
Proof.
  unfold contains_addr. rewrite existsb_exists. setoid_rewrite bool_decide_eq_true.
  rewrite list_elem_of_In. naive_solver.
Qed.

(** Every address of the pass so far has signed and holds the level. *)
Definition authorized_ok (c : Ctx) (st : store) (l : list Address) : Prop :=
  Forall (fun a => signed a c st /\ at_level SubmitterLevel a c st) l.

Lemma quiet_check_metadata et m : quiet (check_metadata et m).
Proof.
  intros st0. unfold check_metadata, effective_metadata_max_size, validate_metadata_against_schema.
  preserves_tac.
Qed.

Lemma increment_count_quiet l x : quiet (increment_count l x).
Proof. intros st0. induction l as [|[y n] l IH]; simpl; preserves_tac. Qed.

Lemma check_item_authorized now ck a et m c s ck' s' :
  check_item now ck (a, et, m) c s = Ok (ck', s') ->
  authorized_ok c (inst s) (ck_authorized ck) ->
  inst s' = inst s /\ a ∈ ck_authorized ck' /\ (forall b, b ∈ ck_authorized ck -> b ∈ ck_authorized ck') /\
  authorized_ok c (inst s) (ck_authorized ck').
Proof.
  intros R Hok. unfold check_item in R.
  apply bind_Ok in R as (ck1 & s1 & R1 & R). apply authorize_once_Ok in R1 as (-> & Ha & E1).
  apply bind_Ok in R as (u & s2 & R2 & R).
  pose proof (quiet_check_metadata _ _ (inst s) _ _ _ _ R2 eq_refl) as E2.
  apply bind_Ok in R as (ck2 & s3 & R3 & R).
  assert (inst s3 = inst s2 /\ ck_authorized ck2 = ck_authorized ck1) as [E3 A3].
  { unfold batch_rate_limit in R3. apply bind_Ok in R3 as (o & t & Ro & R3). injection Ro as _ <-.
    destruct o as [lim|]; [|by minv].
    apply bind_Ok in R3 as ([ts n] & t & Ro & R3). injection Ro as _ <-.
    apply bind_Ok in R3 as ([cs n'] & t & Ro & R3).
    pose proof (increment_count_quiet _ _ (inst s2) _ _ _ _ Ro eq_refl) as Et.
    apply bind_Ok in R3 as (u1 & t1 & R4 & R3). apply ret_Ok in R3 as [-> ->]. split; [|done].
    rewrite <- Et. by mcase. }
  assert (inst s' = inst s3 /\ ck_authorized ck' = ck_authorized ck2) as [E4 A4].
  { unfold batch_type_cap in R. apply bind_Ok in R as (o & t & Ro & R).
    assert (t = s3) as -> by (unfold event_cap in Ro; by mcase).
    destruct o as [cap|]; [|by minv]. apply bind_Ok in R as (n & t & Ro' & R).
    assert (t = s3) as -> by (unfold event_type_count in Ro'; by mcase).
    apply bind_Ok in R as ([cs n'] & t & Ro2 & R).
    pose proof (increment_count_quiet _ _ (inst s3) _ _ _ _ Ro2 eq_refl) as Et. by minv. }
  split; [congruence|]. rewrite A4, A3, E1.
  destruct (contains_addr (ck_authorized ck) a) eqn:Ec.
  - apply contains_addr_In in Ec. auto.
  - destruct Ha as [|Ha]; [done|]. split; [set_solver|]. split; [set_solver|].
    apply Forall_app. split; [done|]. by apply Forall_singleton.
Qed.

Lemma checking_authorizes now l : forall ck c s ck' s',
  fold_m (check_item now) ck l c s = Ok (ck', s') ->
  authorized_ok c (inst s) (ck_authorized ck) ->
  authorized_ok c (inst s) (ck_authorized ck') /\
  (forall a, a ∈ ck_authorized ck \/ a ∈ ((fun x => x.1.1) <$> l) -> a ∈ ck_authorized ck').
Proof.
  induction l as [|[[a et] m] l IH]; intros ck c s ck' s' R Hok; simpl in R.
  - apply ret_Ok in R as [-> ->]. split; [done|]. set_solver.
  - apply bind_Ok in R as (ck1 & s1 & R1 & R).
    destruct (check_item_authorized _ _ _ _ _ _ _ _ _ R1 Hok) as (Es & Ha & Hin & Hok1).
    rewrite <- Es in Hok1. destruct (IH _ _ _ _ _ R Hok1) as [Hok' Hin']. rewrite Es in Hok'.
    split; [done|]. intros b [Hb|[->|Hb]%elem_of_cons]; auto.
Qed.

Lemma demands_batch l :
  demands (fun c st => authorized_ok c st ((fun x => x.1.1) <$> l)) (log_events l).
Proof.
  intros c s r s' R. unfold log_events in R.
  apply bind_Ok in R as (u1 & s1 & R1 & R). apply require_initialized_Ok in R1 as ->.
  apply bind_Ok in R as (rs & s1 & R1 & R).
  assert (s1 = s) as -> by (unfold batch_runtime_state in R1; by mcase).
  apply bind_Ok in R as (u2 & s1 & R1' & R). apply reject_if_Ok in R1' as [_ ->].
  apply bind_Ok in R as (u3 & s1 & R1' & R). apply reject_if_Ok in R1' as [_ ->].
  apply bind_Ok in R as (now & s1 & R1' & R). injection R1' as _ <-.
  apply bind_Ok in R as (ck & s1 & R2 & _).
  destruct (checking_authorizes _ _ _ _ _ _ _ R2) as [Hok Hin]; [by constructor|].
  apply Forall_forall. intros a Ha. eapply Forall_forall in Hok; [exact Hok|]. apply Hin. auto.
Qed.

(** ** Every entry point *)

Lemma quiet_initialized : quiet require_initialized.
Proof. intros st0. unfold require_initialized. preserves_tac. Qed.
Lemma quiet_paused : quiet reject_when_paused.
Proof. intros st0. unfold reject_when_paused. preserves_tac. Qed.
Lemma quiet_nonce a : quiet (effective_nonce_state a).
Proof.
  intros st0. unfold effective_nonce_state, get_submitter_nonce_state, default_nonce_window_size,
    default_nonce_max_value. preserves_tac. apply preserves_pure. intros. by minv.
Qed.
Lemma quiet_check_nonce st n : quiet (check_nonce st n).
Proof. intros st0. unfold check_nonce. preserves_tac. Qed.
Lemma quiet_leaf {A} (m : M A) : (forall st0, preserves (fun _ st => st = st0) m) -> quiet m.
Proof. done. Qed.

Create HintDb demands.
#[local] Hint Resolve demands_auth demands_admin demands_admin_rbac demands_owner demands_member
  demands_member_auth   quiet_initialized quiet_paused quiet_nonce quiet_check_nonce : demands.
#[local] Hint Extern 2 (quiet _) => (apply quiet_leaf; intros; solve [preserves_tac]) : demands.

Lemma demands_recorder a t d :
  demands (fun c st => signed a c st /\ at_level Recorder a c st) (log_operational_action a t d).
Proof.
  intros c s id s' R. unfold log_operational_action in R.
  apply bind_Ok in R as (u1 & s1 & R1 & R). apply require_initialized_Ok in R1 as ->.
  apply bind_Ok in R as (r & s1 & R1 & R).
  apply bind_Ok in R as (u2 & s2 & R2 & R). apply reject_if_Ok in R2 as [B ->].
  unfold is_addr_ops_recorder in R1. apply bind_Ok in R1 as (o & s2 & R2 & R1).
  rewrite is_addr_owner_run in R2. injection R2 as <- <-.
  assert (s1 = s) as -> by (by mcase).
  destruct (demands_submit _ _ _ _ _ _ SubmitterLevel eq_refl c s id s' R) as [Ha Hl].
  split; [done|]. split; [exact Hl|]. destruct (owns (inst s) a) eqn:Eo; [by left|right].
  apply bind_Ok in R1 as (rs & s2 & R3 & R1). injection R3 as <- <-. injection R1 as <-.
  by apply negb_false_iff in B.
Qed.

(** Reaches the check in an entry point that opens with it. *)
Ltac demands_tac :=
  first [ solve [eauto 2 with demands nocore]
        | apply demands_left; demands_tac
        | apply demands_right; [solve [eauto 2 with demands nocore]|intros; demands_tac] ].

(** One caller: a signature and a level. *)
Lemma demands_one {A} a lvl (m : M A) :
  demands (signed a) m -> demands (at_level lvl a) m ->
  demands (fun c st => Forall (fun a => signed a c st /\ at_level lvl a c st) [a]) m.
Proof. intros D E c s r s' R. apply Forall_singleton. split; [by eapply D|by eapply E]. Qed.

Lemma demands_both {A} a lvl (m : M A) :
  demands (fun c st => signed a c st /\ at_level lvl a c st) m ->
  demands (fun c st => Forall (fun a => signed a c st /\ at_level lvl a c st) [a]) m.
Proof. intros D c s r s' R. apply Forall_singleton. by eapply D. Qed.

Lemma demands_trivial {A} a (m : M A) : demands (at_level Signer a) m.
Proof. done. Qed.
#[local] Hint Resolve demands_trivial : demands.
#[local] Hint Extern 1 (demands _ (log_event_with_hierarchy _ _ _ _ _ _)) =>
  (apply demands_submit; reflexivity) : demands.

Definition cleared (k : call) (c : Ctx) (st : store) : Prop :=
  Forall (fun a => signed a c st /\ at_level (clearance k).2 a c st) (clearance k).1.

Lemma exec_cleared k : demands (cleared k) (exec k).
Proof.
  destruct k; cbv [cleared clearance fst snd]; cbn [exec]; unfold run.
  all: try (apply demands_both; unfold log_event, log_event_with_nonce, log_event_with_custom_key,
              log_event_signed; demands_tac).
  all: try (apply demands_left; apply demands_batch).
  all: try (apply demands_both, demands_left, demands_recorder).
  all: try (intros c s r s' R; by constructor).
  all: apply demands_one.
  all: try (progress unfold update_event, rollback_event, tag_event_version, create_snapshot,
    archive_events, purge_archived_events, set_archive_config, set_submitter_nonce_config,
    reset_submitter_nonce, set_default_nonce_config, pause, unpause, set_role, enable_rbac,
    transfer_ownership, add_owner, remove_owner, set_required_signatures, set_category_max_len,
    upgrade_contract, set_global_max_logs, set_event_max_logs, remove_event_cap,
    set_metadata_max_size, set_event_metadata_max_size, set_metadata_schema, set_event_ttl,
    cleanup_expired_events, register_webhook, unregister_webhook).
  all: try (progress unfold block_submitter, unblock_submitter, enable_allowlist_mode,
    disable_allowlist_mode, allow_submitter, remove_submitter_from_allowlist,
    set_event_emission_mode, set_low_cost_mode, set_submitter_rate_limit, compact_storage,
    set_dedup_policy, set_dedup_policy_for_type, cleanup_stale_hashes,
    cleanup_stale_dedup_entries, register_schema, migrate_event_metadata, submit_proposal,
    approve_proposal, execute_proposal, set_retention_policy, set_default_retention_days,
    place_legal_hold, release_legal_hold, grant_compliance_exception,
    revoke_compliance_exception, request_erasure, process_erasure_request,
    run_retention_sweep, add_ops_recorder, remove_ops_recorder).
  all: try (progress unfold governance_entry, admin_entry, owner_entry).
  all: demands_tac.
Qed.

End Clearance.
