(* ===== verification/SubmissionProps.v ===== *)
(** * Properties of the submission entry points

    What a successful submission has checked and done - what it appends, or what
    a duplicate leaves behind -, what rejects one, and the behaviour of batches. *)

From S2P Require Import Prelude Contract StorageLemmas Types Storage Codec Access Chain Logging Batch.
From S2P Require Import Queries Versions Archive Governance Schemas Proposals Retention Invariant Submission VersionSpec.
From S2P Require Import Ledger Reads AppendOnly Sample Admission.

Section SubmissionProps.
Context `{H : Host}.

(** ** Helper lemmas *)

Lemma guard_eq_entry st st' i : guard_eq st st' -> entry st' i = entry st i.
Proof. intros E%guard_eq_ledger. by rewrite E. Qed.

Lemma log_event_screened a et m cat sub force c s id s' :
  log_event a et m cat sub force c s = Ok (id, s') ->
  exists r s1, screening a et m force c s = Ok (r, s1).
Proof.
  unfold log_event, log_event_with_hierarchy. intros R. apply bind_Ok in R as (r & s1 & R1 & _).
  by exists r, s1.
Qed.

(** The tests behind the pause test, for a run that passed them. *)
Lemma screening_tests a et m force c s r s' :
  screening a et m force c s = Ok (r, s') ->
  May_submit c s a /\ setting (inst s) DataKey.Paused false = false /\
  setting (inst s) (DataKey.SubmitterBlocklist a) false = false /\
  (setting (inst s) DataKey.AllowlistMode false = true ->
     setting (inst s) (DataKey.SubmitterAllowlist a) false = true) /\
  exists cfg s1 tco s2, admit_event a et m c (with_guard s) = Ok (cfg, s1) /\
    check_type_cap et c s1 = Ok (tco, s2).
Proof.
  intros R. pose proof (screening_May_submit _ _ _ _ _ _ _ _ R) as Ms. split; [done|].
  rewrite (May_submit_run _ _ _ _ _ _ Ms) in R.
  apply bind_Ok in R as (u & s1 & R1 & R). rewrite reject_when_paused_run in R1. simpl in R1.
  destruct (setting (inst s) DataKey.Paused false); [done|]. injection R1 as _ <-.
  split; [done|]. apply bind_Ok in R as (u1 & s1 & R1 & R).
  rewrite check_submitter_lists_run in R1. simpl in R1.
  destruct (setting (inst s) (DataKey.SubmitterBlocklist a) false); [done|]. simpl in R1.
  destruct (setting (inst s) DataKey.AllowlistMode false) eqn:Ea; simpl in R1.
  all: [> destruct (setting (inst s) (DataKey.SubmitterAllowlist a) false); [|done]| ].
  all: injection R1 as _ <-; (split; [done|]); (split; [done|]).
  all: apply bind_Ok in R as (cfg & s2 & R2 & R); apply bind_Ok in R as (tco & s3 & R3 & _).
  all: by exists cfg, s2, tco, s3.
Qed.

(** A screening that passed wrote the reentrancy guard and, at most, the rate
    window of the submitter. *)
Lemma screening_frame a et m c s r s' :
  screening a et m false c s = Ok (r, s') ->
  (forall k, k <> DataKey.SubmitterRateState a -> sget (inst s') k = sget (inst s) k) /\
  pers s' = pers s /\ published s' = published s /\
  shas (temp s') DataKey.LogEventReentrancyGuard = true.
Proof.
  intros R. destruct r as [[[cfg tco] p] dup].
  destruct (screening_dedup _ _ _ _ _ _ _ _ _ _ R) as (_ & Hg & t & Rd & _).
  enough (pers s' = pers s /\ published s' = published s) as [Hp Hq].
  1: split; [|done].
  - intros k Hk. set (K := fun k' => bool_decide (k' = k)).
    assert (keeps K (screening a et m false)) as Ks.
    { assert (keeps K (check_rate_limit a)).
      { unfold check_rate_limit. keeps_tac; apply keeps_iset; by apply bool_decide_false. }
      assert (keeps K (admit_event a et m)) by (unfold admit_event; keeps_tac).
      unfold screening. keeps_tac. }
    apply (Ks _ _ _ _ R). by apply bool_decide_true.
  - clear Hg Rd; pose proof (screening_May_submit _ _ _ _ _ _ _ _ R) as Ms.
    rewrite (May_submit_run _ _ _ _ _ _ Ms) in R.
    unfold reject_when_paused, check_submitter_lists, admit_event, runtime_state, check_rate_limit,
      check_metadata, effective_metadata_max_size, validate_metadata_against_schema in R.
    apply bind_Ok in R as (u & s1 & R1 & R).
    assert (pers s1 = pers s /\ published s1 = published s) as E by (by mcase).
    apply bind_Ok in R as (u1 & s2 & R2 & R).
    assert (pers s2 = pers s /\ published s2 = published s) as E2 by (clear R R1; by mcase).
    clear R1 R2 E.
    apply bind_Ok in R as (u2 & s3 & R3 & R).
    assert (pers s3 = pers s /\ published s3 = published s) as E3 by (clear R; by mcase).
    clear E2 R3. 
    apply bind_Ok in R as (u3 & s4 & R4 & R).
    assert (s4 = s3) as -> by (rewrite check_type_cap_run in R4; by repeat case_match; simplify_eq).
    apply bind_Ok in R as (p' & s4 & R5 & R). rewrite effective_dedup_policy_run in R5.
    injection R5 as _ <-. apply bind_Ok in R as (d & s4 & R6 & R).
    apply ret_Ok in R as [_ ->]. unfold dedup_lookup, existing_id, pending_custom_key in R6.
    rewrite <- (proj1 E3), <- (proj2 E3). by mcase.
Qed.

(** An append lifts the guard again. *)
Lemma append_event_lifts_guard a et m cat sub cfg tco p c s id s' :
  append_event a et m cat sub cfg tco p c s = Ok (id, s') ->
  shas (temp s') DataKey.LogEventReentrancyGuard = false.
Proof.
  unfold append_event. intros R.
  apply bind_Ok in R as (ts & s1 & _ & R). apply bind_Ok in R as ([ph pt] & s2 & _ & R).
  apply bind_Ok in R as (u & s3 & _ & R). apply bind_Ok in R as (id0 & s4 & _ & R).
  apply bind_Ok in R as (v & s5 & _ & R). 
  do 7 (apply bind_Ok in R as (? & ? & _ & R)).
  apply bind_Ok in R as (u0 & s6 & R1 & R). apply ret_Ok in R as [_ ->]. injection R1 as _ <-.
  simpl. unfold shas. by rewrite sdel_eq.
Qed.

Context `{!CollisionFree}.

(** C3: A successful [log_event] on a deployed contract either appends the
    submitted event or reports a duplicate.  Appending stores, at position
    [total_events], an event with the submitted type, submitter, metadata and
    category, the current time, the hash of the last event as predecessor and the
    hash of its fields, under the returned identifier, which is the one its
    content determines; it raises the total by one and lifts the reentrancy
    guard.  Reporting a duplicate, which needs [force] to be off, returns the
    identifier of a stored event, publishes nothing and writes nothing into
    instance storage but the rate window of the submitter - yet it leaves the
    reentrancy guard set in temporary storage, so that the next submission of the
    same ledger entry is turned down.  Earlier events never change. *)
Theorem log_event_appends self a et m cat sub force c s id s' n :
  reachable self s -> cx_self c = self -> total_events c s = Ok (n, s) ->
  log_event a et m cat sub force c s = Ok (id, s') ->
  (forall i x, entry (inst s) i = Some x -> entry (inst s') i = Some x) /\
  ((exists e, entry (inst s') n = Some (id, e) /\ submitted e a et m cat sub /\
      addressed self id e /\ ev_index e = n /\
      ev_timestamp e = cx_timestamp c /\ prev_at (inst s) n = Some (ev_prev_hash e) /\
      ev_event_hash e = compute_event_hash id (ev_prev_hash e) n (ev_timestamp e) /\
      total_events c s' = Ok (n + 1, s') /\
      shas (temp s') DataKey.LogEventReentrancyGuard = false) \/
   (force = false /\ (exists i, 0 <= i < n /\ sget (inst s) (DataKey.EventOrder i) = Some id) /\
      total_events c s' = Ok (n, s') /\
      (forall k, k <> DataKey.SubmitterRateState a -> sget (inst s') k = sget (inst s) k) /\
      pers s' = pers s /\ published s' = published s /\
      shas (temp s') DataKey.LogEventReentrancyGuard = true)).
Proof.
  intros [n' L]%reachable_Live <- Ht R. rewrite (total_events_run _ c _ _ L) in Ht.
  injection Ht as ->. pose proof R as R0. unfold log_event, log_event_with_hierarchy in R0.
  apply bind_Ok in R0 as ([[[cfg tco] p] dup] & t & Rs & Ra).
  pose proof (keeps_guard _ _ _ _ _ (keeps_screening _ _ _ _) Rs) as E.
  destruct (screening_Ok _ _ _ _ _ _ _ _ _ _ _ n (live_totals _ _ _ L) Rs) as (Hc & _ & _ & Hd).
  destruct dup as [id0|].
  - apply ret_Ok in Ra as [-> ->]. destruct (Hd id0 eq_refl) as (-> & i & Hi).
    split; [intros j x; by rewrite (guard_eq_entry _ _ j E)|right].
    split; [done|]. split.
    { exists i. split; [|done]. by apply (fr_dom _ _ _ (live_frame _ _ _ L)). }
    split; [|exact (screening_frame _ _ _ _ _ _ _ Rs)].
    apply (total_events_run (cx_self c)). by eapply guard_eq_Live.
  - destruct (append_event_spec _ _ _ _ _ _ _ _ _ _ _ _ n
                (guard_eq_body n c _ _ E (conj (live_frame _ _ _ L) (live_linked _ _ _ L))) Hc Ra)
      as (e & A & Hs & _). eapply AppendedTo_before in A; [|exact E].
    destruct (log_event_spec _ _ _ _ _ _ _ _ _ _ n L R) as [(e' & _ & _ & L')|(_ & E' & _)].
    2:{ apply (guard_eq_entry _ _ n) in E'. rewrite (at_entry _ _ _ _ _ _ A) in E'. symmetry in E'.
        eapply entry_index in E' as [? _]; [|apply L]. lia. }
    split; [eapply AppendedTo_Persist, A; apply L|left]. exists e. destruct A.
    do 7 (split; [done|]). split; [by apply (total_events_run _ c _ _ L')|].
    by eapply append_event_lifts_guard.
Qed.

(** C4: A successful batch returns the positions [total .. total + len - 1] in
    order and appends, at each of them, the event of the corresponding item with
    the current time; the total rises by the length of the batch and no earlier
    event changes. *)
Theorem log_events_appends self l c s r s' n :
  reachable self s -> cx_self c = self -> total_events c s = Ok (n, s) ->
  log_events l c s = Ok (r, s') ->
  r = range n (n + len l) /\ total_events c s' = Ok (n + len l, s') /\
  (forall i, 0 <= i < n -> entry (inst s') i = entry (inst s) i) /\
  (forall j a et m, vget l j = Some (a, et, m) ->
     exists id e, entry (inst s') (n + j) = Some (id, e) /\ submitted e a et m None None /\
       ev_timestamp e = cx_timestamp c).
Proof.
  intros [n' L]%reachable_Live <- Ht R. rewrite (total_events_run _ c _ _ L) in Ht.
  injection Ht as ->.
  destruct (log_events_spec _ _ _ _ _ n L R) as (Hr & L' & He & Hj).
  split; [done|]. split; [by apply (total_events_run _ c _ _ L')|done].
Qed.

(** C13: A successful [log_event] has passed every admission test: the contract
    is initialised, the submitter authorised the call and, under RBAC, holds at
    least the Submitter role; the contract is not paused; the submitter is not
    blocked and, in allowlist mode, is allowed; the metadata is within the limit
    of its type and accepted by its schema; and neither the global maximum nor
    the cap of the type was reached. *)
Theorem log_event_admission a et m cat sub force c s id s' :
  log_event a et m cat sub force c s = Ok (id, s') ->
  May_submit c s a /\ setting (inst s) DataKey.Paused false = false /\
  setting (inst s) (DataKey.SubmitterBlocklist a) false = false /\
  (setting (inst s) DataKey.AllowlistMode false = true ->
     setting (inst s) (DataKey.SubmitterAllowlist a) false = true) /\
  len m <= metadata_limit (inst s) et /\ schema_accepts (inst s) et m = true /\
  (forall rs, sget (inst s) DataKey.RuntimeState = Some rs ->
     rs_total_events rs < rs_global_max_logs rs) /\
  (forall cap, type_cap (inst s) et = Some cap -> indexed_count (inst s) et < cap).
Proof.
  intros (r & s1 & R)%log_event_screened.
  destruct (screening_tests _ _ _ _ _ _ _ _ R) as (Ms & Hp & Hb & Ha & cfg & t & tco & t2 & Ra & Rc).
  destruct (admit_event_sound _ _ _ _ _ _ _ Ra) as (K & Hm & Hs & Hg). simpl in *.
  repeat (split; [done|]). intros cap Hc. rewrite check_type_cap_run in Rc.
  assert (type_cap (inst t) et = type_cap (inst s) et) as Et by (unfold type_cap; by rewrite K).
  assert (indexed_count (inst t) et = indexed_count (inst s) et) as Ei
    by (unfold indexed_count, setting; by rewrite K).
  rewrite Et, Ei, Hc in Rc. destruct (Z.leb_spec cap (indexed_count (inst s) et)); [done|lia].
Qed.

(** The pause switch and the submitter lists reject with their own errors:
    a submitter who may submit gets [ContractPaused] while the contract is
    paused, and otherwise [SubmitterBlocked] when blocked, or when allowlist
    mode is on and the submitter is not on the list. *)
Theorem log_event_rejections a et m cat sub force c s :
  May_submit c s a ->
  (setting (inst s) DataKey.Paused false = true ->
     log_event a et m cat sub force c s = Err (Raise ContractError.ContractPaused)) /\
  (setting (inst s) DataKey.Paused false = false ->
   setting (inst s) (DataKey.SubmitterBlocklist a) false = true \/
   (setting (inst s) DataKey.AllowlistMode false = true /\
    setting (inst s) (DataKey.SubmitterAllowlist a) false = false) ->
     log_event a et m cat sub force c s = Err (Raise ContractError.SubmitterBlocked)).
Proof.
  intros Ms. split.
  - intros Hp. apply log_event_Err. rewrite (May_submit_run _ _ _ _ _ _ Ms).
    apply bind_Err. rewrite reject_when_paused_run. simpl. by rewrite Hp.
  - intros Hp Hb. apply log_event_Err. rewrite (May_submit_run _ _ _ _ _ _ Ms).
    rewrite (bind_run _ _ _ _ tt (with_guard s)) by (rewrite reject_when_paused_run; simpl; by
      rewrite Hp).
    apply bind_Err. rewrite check_submitter_lists_run. simpl.
    destruct Hb as [->|[-> ->]]; [done|]. by rewrite orb_true_r.
Qed.

End SubmissionProps.

(** ** Witnesses *)

Lemma log_event_appends_witness :
  exists x, entry (inst s2) 0 = Some x /\
    entry (inst (post (log_event owner "login" [9; 9; 9; 9] None None false) (at_time 1030) s2)) 0
      = Some x.
Proof.
  set (m := log_event owner "login" [9; 9; 9; 9] None None false).
  assert (outcome m (at_time 1030) s2 = Ok (event_id ledger owner "login" [9; 9; 9; 9] 1030 2)) as R
    by (vm_compute; reflexivity).
  assert (total_events (at_time 1030) s2 = Ok (2, s2)) as T
    by (apply total_run; [exact s2_reachable|vm_compute; reflexivity]).
  destruct (entry (inst s2) 0) as [x|] eqn:E; [|vm_compute in E; discriminate].
  exists x. split; [reflexivity|].
  exact (proj1 (log_event_appends ledger owner "login" [9; 9; 9; 9] None None false (at_time 1030) s2
                  _ _ 2 s2_reachable eq_refl T (ok_post _ _ _ _ R)) 0 x E).
Defined.

Definition sample_batch : list (Address * Symbol * Bytes) :=
  [(alice, "login"%string, [7]); (owner, "audit"%string, [])].

Lemma log_events_appends_witness :
  exists id e, entry (inst (post (log_events sample_batch) (at_time 1040) s3)) (3 + 1) = Some (id, e) /\
    submitted e owner "audit" [] None None.
Proof.
  assert (outcome (log_events sample_batch) (at_time 1040) s3 = Ok [3; 4]) as R
    by (vm_compute; reflexivity).
  assert (total_events (at_time 1040) s3 = Ok (3, s3)) as T
    by (apply total_run; [exact s3_reachable|vm_compute; reflexivity]).
  destruct (log_events_appends ledger sample_batch (at_time 1040) s3 _ _ 3 s3_reachable eq_refl T
              (ok_post _ _ _ _ R)) as (_ & _ & _ & Hj).
  destruct (Hj 1 owner "audit"%string []) as (id & e & He & Hs & _); [reflexivity|].
  exists id, e. split; [exact He|exact Hs].
Defined.

Lemma log_event_admission_witness :
  len [9; 9; 9; 9] <= metadata_limit (inst s2) "login".
Proof.
  assert (outcome (log_event owner "login" [9; 9; 9; 9] None None false) (at_time 1030) s2
          = Ok (event_id ledger owner "login" [9; 9; 9; 9] 1030 2)) as R by (vm_compute; reflexivity).
  destruct (log_event_admission owner "login" [9; 9; 9; 9] None None false (at_time 1030) s2 _ _
              (ok_post _ _ _ _ R)) as (_ & _ & _ & _ & Hm & _).
  exact Hm.
Defined.

Lemma log_event_rejections_witness :
  setting (inst (call_at 1015 (CPause owner) s1)) DataKey.Paused false = true /\
  log_event alice "login" [] None None false (at_time 1020) (call_at 1015 (CPause owner) s1)
    = Err (Raise ContractError.ContractPaused).
Proof.
  assert (setting (inst (call_at 1015 (CPause owner) s1)) DataKey.Paused false = true) as Hp
    by (vm_compute; reflexivity).
  split; [exact Hp|].
  assert (reachable ledger (call_at 1015 (CPause owner) s1)) as Hr
    by (apply reach_call; [exact s1_reachable|vm_compute; reflexivity]).
  destruct (reachable_Live ledger _ Hr) as [n L].
  apply (log_event_rejections alice "login" [] None None false (at_time 1020)
           (call_at 1015 (CPause owner) s1)).
  - split.
    + exact (require_initialized_run ledger (at_time 1020) _ n L).
    + reflexivity.
    + vm_compute. discriminate.
    + vm_compute. reflexivity.
  - exact Hp.
Defined.
