(* ===== verification/ReplayProps.v ===== *)
(** * Duplicates, replays and rates

    Deduplication, nonces, the reentrancy guard and the per-submitter rate
    limit over several submissions. *)

From S2P Require Import Prelude Contract StorageLemmas Types Storage Codec Access Chain Logging Batch.
From S2P Require Import Queries Versions Archive Governance Schemas Proposals Retention Invariant Submission VersionSpec.
From S2P Require Import Ledger Reads AppendOnly Sample Admission.

Section ReplayProps.
Context `{H : Host}.

(** ** Helper lemmas *)

Lemma log_event_split a et m cat sub force c s id s' :
  log_event_with_hierarchy a et m cat sub force c s = Ok (id, s') ->
  exists cfg tco p dup t, screening a et m force c s = Ok ((cfg, tco, p, dup), t) /\
    match dup with
    | Some i => id = i /\ s' = t
    | None => append_event a et m cat sub cfg tco p c t = Ok (id, s')
    end.
Proof.
  unfold log_event_with_hierarchy. intros R.
  apply bind_Ok in R as ([[[cfg tco] p] dup] & t & R1 & R). exists cfg, tco, p, dup, t.
  split; [done|]. destruct dup; [by minv|done].
Qed.

Lemma screening_policy a et m force c s cfg tco p dup t :
  screening a et m force c s = Ok ((cfg, tco, p, dup), t) -> p = policy_of (inst s) et.
Proof.
  intros R. pose proof (screening_May_submit _ _ _ _ _ _ _ _ R) as Ms.
  rewrite (May_submit_run _ _ _ _ _ _ Ms) in R.
  apply bind_Ok in R as (u & s1 & R1 & R). rewrite reject_when_paused_run in R1.
  destruct (setting _ _ _); [done|]. injection R1 as _ <-.
  apply bind_Ok in R as (u1 & s1 & R1 & R).
  rewrite check_submitter_lists_run in R1. destruct (_ || _); [done|]. injection R1 as _ <-.
  apply bind_Ok in R as (cfg' & s1 & R1 & R).
  destruct (admit_event_sound _ _ _ _ _ _ _ R1) as (K & _). simpl in K.
  apply bind_Ok in R as (tco' & s2 & R2 & R).
  assert (s2 = s1) as -> by (rewrite check_type_cap_run in R2; by repeat case_match; simplify_eq).
  apply bind_Ok in R as (p' & s2 & R3 & R). rewrite effective_dedup_policy_run in R3.
  injection R3 as Ep <-. apply bind_Ok in R as (d & s2 & R3 & R).
  apply ret_Ok in R as [[= -> -> -> ->] ->]. rewrite <- Ep. unfold policy_of, setting. by rewrite !K.
Qed.

(** The rate state a passed test leaves. *)
Lemma check_rate_limit_Ok a limit c s u s' :
  sget (inst s) (DataKey.SubmitterRateLimit a) = Some limit ->
  check_rate_limit a c s = Ok (u, s') ->
  let '(last, count) := setting (inst s) (DataKey.SubmitterRateState a) (0, 0) in
  let k := if Z.eqb (cx_timestamp c) last then count + 1 else 1 in
  sget (inst s') (DataKey.SubmitterRateState a) = Some (cx_timestamp c, k) /\
  (k <= limit \/ (limit < 0 /\ k = 1)).
Proof.
  intros El R. unfold check_rate_limit in R. apply bind_Ok in R as (o & t & R1 & R).
  injection R1 as <- <-. rewrite El in R.
  apply bind_Ok in R as (now & t & R1 & R). injection R1 as <- <-.
  apply bind_Ok in R as ([last count] & t & R1 & R). injection R1 as E <-.
  assert (setting (inst s) (DataKey.SubmitterRateState a) (0, 0) = (last, count)) as -> by exact E.
  destruct (Z.eqb_spec (cx_timestamp c) last) as [->|Hne].
  - apply bind_Ok in R as (u1 & t & R1 & R). apply reject_if_Ok in R1 as [B ->]. zcase.
    minv. rewrite sset_eq. split; [done|]. left. lia.
  - apply bind_Ok in R as (u1 & t & R1 & R). apply reject_if_Ok in R1 as [B ->]. zcase.
    minv. rewrite sset_eq. split; [done|]. lia.
Qed.

Context `{!CollisionFree}.

(** C18: Deduplication is idempotent.  Once an event was appended under the
    [ContentHash] policy of its type, submitting the same type, submitter and
    metadata again without [force] - whatever the category, at any time - can
    only return the identifier of that event: nothing is appended. *)
Theorem duplicate_returns_same_id self a et m cat sub force c s id s' n cat' sub' c' id' s'' :
  reachable self s -> cx_self c = self -> total_events c s = Ok (n, s) ->
  policy_of (inst s) et = DedupPolicy.ContentHash ->
  log_event a et m cat sub force c s = Ok (id, s') -> total_events c s' = Ok (n + 1, s') ->
  log_event a et m cat' sub' false c' s' = Ok (id', s'') ->
  id' = id /\ guard_eq (inst s') (inst s'').
Proof.
  intros [n' L]%reachable_Live <- Ht Hp R Ht' R'. rewrite (total_events_run _ c _ _ L) in Ht.
  injection Ht as ->.
  destruct (log_event_spec _ _ _ _ _ _ _ _ _ _ n L R) as [(e & A & _ & L')|(_ & E & _)].
  2:{ apply (guard_eq_Live c _ _ _ E) in L. rewrite (total_events_run _ c _ _ L) in Ht'.
      injection Ht' as ?. lia. }
  destruct (log_event_split _ _ _ _ _ _ _ _ _ _ R) as (cfg & tco & p & dup & t & Rs & Ra).
  rewrite (screening_policy _ _ _ _ _ _ _ _ _ _ _ Rs), Hp in Ra.
  destruct (screening_Ok _ _ _ _ _ _ _ _ _ _ _ n (live_totals _ _ _ L) Rs) as (Hc & _).
  assert (policy_of (inst s') et = DedupPolicy.ContentHash) as Hp'.
  { rewrite <- Hp. unfold policy_of, setting.
    by rewrite !(keeps_not_rate_log_event _ _ _ _ _ _ _ _ _ _ R). }
  destruct dup as [i|].
  { destruct Ra as [-> <-]. exfalso. pose proof (keeps_screening _ _ _ _ _ _ _ _ Rs) as K.
    assert (guard_eq (inst s) (inst s')) as E by (intros k Hk; by apply K).
    apply (guard_eq_Live c _ _ _ E) in L. rewrite (total_events_run _ c _ _ L) in Ht'.
    injection Ht' as ?. lia. }
  pose proof (append_event_content _ _ _ _ _ _ _ _ _ _ _ Ra) as Ec. rewrite Hc in Ec.
  destruct (log_event_split _ _ _ _ _ _ _ _ _ _ R') as (cfg' & tco' & p' & dup' & t' & Rs' & Ra').
  pose proof (keeps_guard _ _ _ _ _ (keeps_screening _ _ _ _) Rs') as E'.
  destruct (screening_dedup _ _ _ _ _ _ _ _ _ _ Rs') as (-> & _ & u & Rd & K). rewrite Hp' in Rd.
  unfold dedup_lookup in Rd. apply bind_Ok in Rd as (o & u1 & R1 & Rd). injection R1 as <- <-.
  rewrite K, Ec in Rd by done. unfold existing_id in Rd.
  apply bind_Ok in Rd as (o & u1 & R1 & Rd). injection R1 as <- <-.
  pose proof (at_entry _ _ _ _ _ _ A) as [Eo _]%entry_Some. rewrite K, Eo in Rd by done.
  assert (dup' = Some id /\ t' = u) as [-> ->] by (unfold unwrap in Rd; minv; done).
  destruct Ra' as [-> ->]. done.
Qed.

(** The early return of a duplicate leaves the reentrancy guard in
    temporary storage: until that entry is evicted, every further [log_event]
    by an authorised submitter fails with [ReentrancyDetected]. *)
Theorem duplicate_blocks_next self a et m cat sub force c s id s' n a' et' m' cat' sub' force' c' :
  reachable self s -> cx_self c = self -> total_events c s = Ok (n, s) ->
  log_event a et m cat sub force c s = Ok (id, s') -> total_events c s' = Ok (n, s') ->
  cx_auth c' a' = true -> setting (inst s') DataKey.RbacEnabled false = false ->
  log_event a' et' m' cat' sub' force' c' s' = Err (Raise ContractError.ReentrancyDetected).
Proof.
  intros [n' L]%reachable_Live <- Ht R Ht' Ha Hr. rewrite (total_events_run _ c _ _ L) in Ht.
  injection Ht as ->.
  destruct (log_event_spec _ _ _ _ _ _ _ _ _ _ n L R) as [(e & A & _ & L')|(-> & E & _)].
  { rewrite (total_events_run _ c _ _ L') in Ht'. injection Ht' as ?. lia. }
  destruct (log_event_split _ _ _ _ _ _ _ _ _ _ R) as (cfg & tco & p & dup & t & Rs & Ra).
  destruct (screening_dedup _ _ _ _ _ _ _ _ _ _ Rs) as (_ & Hg & _).
  destruct dup as [i|].
  2:{ destruct (screening_Ok _ _ _ _ _ _ _ _ _ _ _ n (live_totals _ _ _ L) Rs) as (Hc & _).
      pose proof (keeps_guard _ _ _ _ _ (keeps_screening _ _ _ _) Rs) as E'.
      destruct (append_event_spec _ _ _ _ _ _ _ _ _ _ _ _ n
                  (guard_eq_body n c _ _ E' (conj (live_frame _ _ _ L) (live_linked _ _ _ L))) Hc Ra)
        as (e & A & _). apply (guard_eq_Live c _ _ _ E) in L.
      pose proof (at_entry _ _ _ _ _ _ A) as Ee.
      eapply entry_index in Ee as [? _]; [|apply L]. lia. }
  destruct Ra as [-> ->]. apply (guard_eq_Live c _ _ _ E) in L.
  apply log_event_Err. unfold screening.
  rewrite (bind_run _ _ _ _ _ _ (require_initialized_run _ c' _ _ L)).
  rewrite (bind_run _ _ c' t tt t) by (unfold require_auth; by rewrite Ha).
  rewrite (bind_run _ _ c' t tt t) by (apply require_role_min_Ok; by rewrite Hr).
  apply bind_Err. unfold enter_guard, bind, thas. by rewrite Hg.
Qed.

(** The rate limit counts.  After a successful [log_event] of a submitter
    with limit [L] > 0, the stored count for the current ledger time is one more
    than before, or one if the last event was at another time, and is at most
    [L]: no submitter gets more than [L] events into one ledger time. *)
Theorem rate_limit_respected a et m cat sub force c s id s' limit last count :
  sget (inst s) (DataKey.SubmitterRateLimit a) = Some limit -> 0 < limit ->
  setting (inst s) (DataKey.SubmitterRateState a) (0, 0) = (last, count) ->
  log_event a et m cat sub force c s = Ok (id, s') ->
  let k := if Z.eqb (cx_timestamp c) last then count + 1 else 1 in
  sget (inst s') (DataKey.SubmitterRateState a) = Some (cx_timestamp c, k) /\ k <= limit.
Proof.
  intros El Hl Es R.
  destruct (log_event_split _ _ _ _ _ _ _ _ _ _ R) as (cfg & tco & p & dup & t & Rs & Ra).
  assert (sget (inst s') (DataKey.SubmitterRateState a) =
          sget (inst t) (DataKey.SubmitterRateState a)) as ->.
  { destruct dup; [by destruct Ra as [_ ->]|]. by apply (keeps_append_event _ _ _ _ _ _ _ _ _ _ _ _
    Ra). }
  pose proof (screening_May_submit _ _ _ _ _ _ _ _ Rs) as Ms.
  rewrite (May_submit_run _ _ _ _ _ _ Ms) in Rs.
  apply bind_Ok in Rs as (u & s1 & R1 & Rs). rewrite reject_when_paused_run in R1.
  destruct (setting (inst (with_guard s)) DataKey.Paused false); [done|]. injection R1 as _ <-.
  apply bind_Ok in Rs as (u1 & s1 & R1 & Rs).
  rewrite check_submitter_lists_run in R1. destruct (_ || _); [done|]. injection R1 as _ <-.
  apply bind_Ok in Rs as (cfg' & s1 & R1 & Rs). unfold admit_event in R1.
  apply bind_Ok in R1 as (rs & s2 & R2 & R1). destruct (runtime_state_Ok _ _ _ _ R2) as [-> _].
  apply bind_Ok in R1 as (cfg2 & s2 & R3 & R1). injection R3 as _ <-.
  apply bind_Ok in R1 as (u2 & s2 & R3 & R1).
  pose proof (check_rate_limit_Ok a limit c (with_guard s) _ _ El R3) as Hk.
  assert (sget (inst t) (DataKey.SubmitterRateState a) = sget (inst s2) (DataKey.SubmitterRateState
    a)) as ->.
  { set (K := fun k => bool_decide (k = DataKey.SubmitterRateState a)).
    assert (K (DataKey.SubmitterRateState a) = true) as HK by by apply bool_decide_true.
    transitivity (sget (inst s1) (DataKey.SubmitterRateState a)).
    - match type of Rs with ?m0 _ _ = _ => assert (keeps K m0) as K1 by keeps_tac end.
      by apply (K1 _ _ _ _ Rs).
    - match type of R1 with ?m0 _ _ = _ => assert (keeps K m0) as K1 by keeps_tac end.
      by apply (K1 _ _ _ _ R1). }
  simpl in Hk. rewrite Es in Hk. destruct Hk as [-> [?|[? ?]]]; split; done || lia.
Qed.

End ReplayProps.

(** ** Nonces *)

Section NonceProps.
Context `{H : Host}.

(** The nonce state of a submitter and the one the checks use. *)
Definition stored_nonce (st : store) (a : Address) : NonceState :=
  match sget st (DataKey.SubmitterNonce a) with
  | Some v => v
  | None => {| ns_last_nonce := 0; ns_window_size := setting st DataKey.DefaultNonceWindowSize 1000;
               ns_max_nonce := nonce_max_default st |}
  end.
Definition effective_nonce (st : store) (a : Address) : NonceState :=
  match sget st (DataKey.SubmitterNonceConfig a) with
  | Some v => v
  | None => stored_nonce st a
  end.

Lemma effective_nonce_state_run a c s :
  effective_nonce_state a c s = Ok (effective_nonce (inst s) a, s).
Proof.
  unfold effective_nonce_state, get_submitter_nonce_state, default_nonce_window_size,
    default_nonce_max_value, effective_nonce, stored_nonce, setting, bind, iget, iget_or, ret.
  destruct (sget (inst s) (DataKey.SubmitterNonce a)), (sget (inst s) (DataKey.SubmitterNonceConfig a));
    done.
Qed.

Lemma check_nonce_Ok st n c s u s' :
  check_nonce st n c s = Ok (u, s') ->
  s' = s /\ n <> 0 /\ ns_last_nonce st < n <= ns_max_nonce st /\
  (0 < ns_window_size st -> n - ns_last_nonce st <= ns_window_size st).
Proof. unfold check_nonce. intros R. minv. zcase. repeat split; try done; naive_solver lia. Qed.

Lemma check_nonce_low st n c s :
  n <= ns_max_nonce st -> n <= ns_last_nonce st ->
  check_nonce st n c s = Err (Raise ContractError.NonceTooLow).
Proof.
  intros Hm Hl. unfold check_nonce, bind, reject_if, raise, ret.
  destruct (Z.ltb_spec (ns_max_nonce st) n); [lia|].
  destruct (Z.leb_spec n (ns_last_nonce st)); [|lia]. by rewrite orb_true_r.
Qed.

(** A nonce is accepted only above the last nonce of the state in force,
    up to its maximum and within its window, and becomes the last nonce of the
    submitter, with the window and maximum that were in force. *)
Theorem accepted_nonce_advances a et m nonce c s id s' :
  log_event_with_nonce a et m nonce c s = Ok (id, s') ->
  let st := effective_nonce (inst s) a in
  ns_last_nonce st < nonce <= ns_max_nonce st /\
  (0 < ns_window_size st -> nonce - ns_last_nonce st <= ns_window_size st) /\
  sget (inst s') (DataKey.SubmitterNonce a) =
    Some {| ns_last_nonce := nonce; ns_window_size := ns_window_size st;
            ns_max_nonce := ns_max_nonce st |} /\
  get_submitter_nonce a c s' = Ok (nonce, s').
Proof.
  unfold log_event_with_nonce. intros R.
  rewrite (bind_run _ _ _ _ _ _ (effective_nonce_state_run a c s)) in R.
  apply bind_Ok in R as (u & t & R1 & R). destruct (check_nonce_Ok _ _ _ _ _ _ R1) as (-> & _ & Hn
    & Hw).
  apply bind_Ok in R as (i & t & _ & R). apply bind_Ok in R as (u2 & t2 & R2 & R).
  injection R2 as _ <-. minv. split; [done|]. split; [done|]. split; [by rewrite sset_eq|].
  unfold get_submitter_nonce, bind, iget. simpl. by rewrite sset_eq.
Qed.

(** Without a per-submitter configuration nonces protect against replay:
    after a nonce was accepted, every later submission with that nonce or a
    lower one fails with [NonceTooLow], whatever it submits. *)
Theorem used_nonce_rejected a et m nonce c s id s' et' m' nonce' c' :
  sget (inst s) (DataKey.SubmitterNonceConfig a) = None ->
  log_event_with_nonce a et m nonce c s = Ok (id, s') -> 0 <= nonce' <= nonce ->
  log_event_with_nonce a et' m' nonce' c' s' = Err (Raise ContractError.NonceTooLow).
Proof.
  intros Ec R Hn. unfold log_event_with_nonce in R.
  rewrite (bind_run _ _ _ _ _ _ (effective_nonce_state_run a c s)) in R.
  apply bind_Ok in R as (u & t & R1 & R). destruct (check_nonce_Ok _ _ _ _ _ _ R1) as (-> & _ & Hm & _).
  apply bind_Ok in R as (i & t & R2 & R). apply bind_Ok in R as (u2 & t2 & R3 & R).
  injection R3 as _ <-. minv.
  pose proof (keeps_not_rate_log_event _ _ _ _ _ _ _ _ _ _ R2) as K.
  unfold log_event_with_nonce. rewrite (bind_run _ _ _ _ _ _ (effective_nonce_state_run a c' _)).
  unfold effective_nonce, stored_nonce. simpl. rewrite sset_ne by done. rewrite (K
    (DataKey.SubmitterNonceConfig a)), Ec by done.
  rewrite sset_eq. apply bind_Err.
  unfold effective_nonce in Hm. rewrite Ec in Hm.
  unfold stored_nonce in Hm. apply check_nonce_low; simpl; [|lia].
  destruct (sget (inst s) (DataKey.SubmitterNonce a)); simpl in *; lia.
Qed.

End NonceProps.

(** ** Divergences shown on sample histories *)

(** The owner configures alice's nonces, and alice submits nonce 1 twice. *)
Definition s_conf : St := call_at 1005 (CSetNonceConfig owner alice 10 50) s_init.
Definition s_once : St := call_at 1010 (CLogWithNonce alice "pay" [1] 1) s_conf.
Definition s_twice : St := call_at 1020 (CLogWithNonce alice "pay" [2] 1) s_once.

(** A per-submitter nonce configuration disables the replay protection: the
    checks then use its [last_nonce], which no submission advances, and there is
    a history in which the same nonce of the same submitter is accepted twice. *)
Theorem configured_nonce_replays :
  reachable ledger s_twice /\
  outcome (log_event_with_nonce alice "pay" [1] 1) (at_time 1010) s_conf =
    Ok (event_id ledger alice "pay" [1] 1010 0) /\
  outcome (log_event_with_nonce alice "pay" [2] 1) (at_time 1020) s_once =
    Ok (event_id ledger alice "pay" [2] 1020 1) /\
  outcome total_events (at_time 1020) s_twice = Ok 2.
Proof.
  split; [|split; [|split]]; [|vm_compute; reflexivity..].
  unfold s_twice, s_once, s_conf.
  do 3 (apply reach_call; [|vm_compute; reflexivity]). exact s_init_reachable.
Qed.

(** A paused contract. *)
Definition s_paused : St := call_at 1035 (CPause owner) s3.

(** Pausing does not stop batches: there is a history in which the contract
    is paused, [log_event] is rejected with [ContractPaused], and [log_events]
    still appends. *)
Theorem paused_batch_accepted :
  reachable ledger s_paused /\ setting (inst s_paused) DataKey.Paused false = true /\
  outcome (log_event alice "login" [7] None None false) (at_time 1040) s_paused =
    Err (Raise ContractError.ContractPaused) /\
  outcome (log_events [(alice, "login"%string, [7])]) (at_time 1040) s_paused = Ok [3].
Proof.
  split; [|split; [|split]]; [|vm_compute; reflexivity..].
  unfold s_paused. apply reach_call; [exact s3_reachable|vm_compute; reflexivity].
Qed.

(** ** Witnesses *)

Lemma duplicate_returns_same_id_witness :
  outcome (log_event alice "login" [1; 2; 3] None None false) (at_time 1050) (post (log_event alice
    "login" [1; 2; 3] None None false) (at_time 1040) s_init)
    = Ok (event_id ledger alice "login" [1; 2; 3] 1040 0) /\
  guard_eq (inst (post (log_event alice "login" [1; 2; 3] None None false) (at_time 1040) s_init))
    (inst (post (log_event alice "login" [1; 2; 3] None None false) (at_time 1050) (post (log_event
      alice "login" [1; 2; 3] None None false) (at_time 1040) s_init))).
Proof.
  set (m := log_event alice "login" [1; 2; 3] None None false).
  assert (outcome m (at_time 1040) s_init = Ok (event_id ledger alice "login" [1; 2; 3] 1040 0)) as R
    by (vm_compute; reflexivity).
  assert (outcome m (at_time 1050) (post m (at_time 1040) s_init)
          = Ok (event_id ledger alice "login" [1; 2; 3] 1040 0)) as R' by (vm_compute; reflexivity).
  split; [exact R'|].
  assert (reachable ledger (post m (at_time 1040) s_init)) as Hr.
  { eapply reach_step; [exact s_init_reachable|].
    eapply (step_call ledger (CLogEvent alice "login" [1; 2; 3] None None false) (at_time 1040));
      [reflexivity|]. simpl. unfold run. rewrite (bind_run _ _ _ _ _ _ (ok_post _ _ _ _ R)).
    reflexivity. }
  refine (proj2 (duplicate_returns_same_id ledger alice "login" [1; 2; 3] None None false (at_time 1040)
    s_init _ _ 0 None None (at_time 1050) _ _ s_init_reachable eq_refl _ _ (ok_post _ _ _ _ R) _
    (ok_post _ _ _ _ R'))).
  - apply total_run; [exact s_init_reachable|vm_compute; reflexivity].
  - vm_compute; reflexivity.
  - apply total_run; [exact Hr|vm_compute; reflexivity].
Defined.

Lemma duplicate_blocks_next_witness :
  log_event owner "other" [] None None false (at_time 1060) (post (log_event alice "login" [1; 2;
    3] None None false) (at_time 1040) s1)
    = Err (Raise ContractError.ReentrancyDetected).
Proof.
  set (m := log_event alice "login" [1; 2; 3] None None false).
  assert (outcome m (at_time 1040) s1 = Ok (event_id ledger alice "login" [1; 2; 3] 1010 0)) as R
    by (vm_compute; reflexivity).
  assert (reachable ledger (post m (at_time 1040) s1)) as Hr.
  { eapply reach_step; [exact s1_reachable|].
    eapply (step_call ledger (CLogEvent alice "login" [1; 2; 3] None None false) (at_time 1040));
      [reflexivity|]. simpl. unfold run. rewrite (bind_run _ _ _ _ _ _ (ok_post _ _ _ _ R)).
    reflexivity. }
  refine (duplicate_blocks_next ledger alice "login" [1; 2; 3] None None false (at_time 1040) s1 _ _ 1
    owner "other" [] None None false (at_time 1060) s1_reachable eq_refl _ (ok_post _ _ _ _ R) _
      eq_refl _).
  - apply total_run; [exact s1_reachable|vm_compute; reflexivity].
  - apply total_run; [exact Hr|vm_compute; reflexivity].
  - vm_compute; reflexivity.
Defined.

Lemma rate_limit_respected_witness :
  sget (inst (post (log_event alice "login" [8] None None false) (at_time 1040) (call_at 1035
    (CSetRateLimit owner alice 2) s3))) (DataKey.SubmitterRateState alice) = Some (1040, 1) /\ 1 <= 2.
Proof.
  set (s := call_at 1035 (CSetRateLimit owner alice 2) s3). set (m := log_event alice "login" [8]
    None None false).
  assert (outcome m (at_time 1040) s = Ok (event_id ledger alice "login" [8] 1040 3)) as R
    by (vm_compute; reflexivity).
  assert (sget (inst s) (DataKey.SubmitterRateLimit alice) = Some 2) as El by (vm_compute; reflexivity).
  assert (setting (inst s) (DataKey.SubmitterRateState alice) (0, 0) = (0, 0)) as Es
    by (vm_compute; reflexivity).
  pose proof (ok_post m (at_time 1040) s _ R) as R'. subst m.
  exact (rate_limit_respected alice "login" [8] None None false (at_time 1040) s _ _ 2 0 0 El
           ltac:(lia) Es R').
Defined.

Lemma accepted_nonce_advances_witness :
  get_submitter_nonce alice (at_time 1040) (post (log_event_with_nonce alice "pay" [1] 5) (at_time
    1040) s3)
    = Ok (5, post (log_event_with_nonce alice "pay" [1] 5) (at_time 1040) s3).
Proof.
  set (m := log_event_with_nonce alice "pay" [1] 5).
  assert (outcome m (at_time 1040) s3 = Ok (event_id ledger alice "pay" [1] 1040 3)) as R
    by (vm_compute; reflexivity).
  pose proof (ok_post m (at_time 1040) s3 _ R) as R'. subst m.
  exact (proj2 (proj2 (proj2 (accepted_nonce_advances alice "pay" [1] 5 (at_time 1040) s3 _ _ R')))).
Defined.

Lemma used_nonce_rejected_witness :
  log_event_with_nonce alice "pay" [2] 4 (at_time 1050) (post (log_event_with_nonce alice "pay" [1]
    5) (at_time 1040) s3)
    = Err (Raise ContractError.NonceTooLow).
Proof.
  set (m := log_event_with_nonce alice "pay" [1] 5).
  assert (outcome m (at_time 1040) s3 = Ok (event_id ledger alice "pay" [1] 1040 3)) as R
    by (vm_compute; reflexivity).
  apply (used_nonce_rejected alice "pay" [1] 5 (at_time 1040) s3 _ _ "pay" [2] 4 (at_time 1050)
           ltac:(vm_compute; reflexivity) (ok_post _ _ _ _ R)). lia.
Defined.
