(* ===== verification/QueryProps.v ===== *)
(** * Tallies

    The association lists of counts that the statistics and the batch checks
    build, one [increment] at a time: what each increment does, and that the
    result counts the occurrences of each key.

    The second part of the file: properties of the queries. *)

From S2P Require Import Prelude Contract StorageLemmas Types Storage Codec Access Chain Logging Batch.
From S2P Require Import Queries Versions Archive Governance Schemas Proposals Retention Invariant Submission VersionSpec.
From S2P Require Import Ledger Reads AppendOnly Sample Admission.

(** The count of a key, if it is there. *)
Fixpoint tally_get (counts : list (string * Z)) (a : string) : option Z :=
  match counts with
  | [] => None
  | (k, n) :: rest => if bool_decide (k = a) then Some n else tally_get rest a
  end.

(** How often a key occurs. *)
Definition occurrences (a : string) (ks : list string) : Z := len (filter (fun k => k = a) ks).

Lemma occurrences_nonneg a ks : 0 <= occurrences a ks <= len ks.
Proof.
  unfold occurrences, len. pose proof (length_filter (fun k => k = a) ks). lia.
Qed.

Lemma occurrences_snoc a b ks :
  occurrences b (ks ++ [a]) = occurrences b ks + (if bool_decide (a = b) then 1 else 0).
Proof.
  unfold occurrences. rewrite filter_app, len_app. f_equal. case_bool_decide as E.
  - by rewrite filter_cons_True.
  - by rewrite filter_cons_False.
Qed.

(** [counts] counts the occurrences of each key of [ks], each key once. *)
Record Tallied (counts : list (string * Z)) (ks : list string) : Prop := {
  ta_nodup : NoDup (fst <$> counts);
  ta_get : forall b, tally_get counts b =
             if Z.eqb (occurrences b ks) 0 then None else Some (occurrences b ks) }.

Lemma tally_get_None counts a : a ∉ (fst <$> counts) -> tally_get counts a = None.
Proof.
  induction counts as [|[k n] counts IH]; [done|]. simpl. intros [Hne Hni]%not_elem_of_cons.
  rewrite bool_decide_false by congruence. auto.
Qed.

Lemma tally_get_elem counts a n :
  NoDup (fst <$> counts) -> (a, n) ∈ counts <-> tally_get counts a = Some n.
Proof.
  induction counts as [|[k v] counts IH]; simpl.
  { intros _. split; [by intros ?%elem_of_nil|done]. }
  intros [Hni Hnd]%NoDup_cons. rewrite elem_of_cons, IH by done. case_bool_decide as E.
  - subst k. split; [intros [[= ->]|Hg]; [done|]|intros [= ->]; by left].
    by rewrite tally_get_None in Hg.
  - split; [intros [[= -> ->]|?]; done|by right].
Qed.

(** One increment. *)
Lemma increment_count_spec counts a c s :
  (forall k n, (k, n) ∈ counts -> n < u32_max) ->
  exists r n', increment_count counts a c s = Ok ((r, n'), s) /\
    n' = default 0 (tally_get counts a) + 1 /\
    (forall b, tally_get r b = if bool_decide (a = b) then Some n' else tally_get counts b) /\
    (fst <$> r) = if bool_decide (a ∈ (fst <$> counts)) then fst <$> counts
                  else (fst <$> counts) ++ [a].
Proof.
  induction counts as [|[k n] counts IH]; intros Hb.
  { exists [(a, 1)], 1. split; [done|]. split; [done|]. split; [done|].
    rewrite bool_decide_false; [done|]. by apply not_elem_of_nil. }
  simpl. destruct (bool_decide_reflect (k = a)) as [E|E].
  - subst k. exists ((a, n + 1) :: counts), (n + 1).
    assert (n < u32_max) by (apply (Hb a), elem_of_cons; by left).
    rewrite (bind_run _ _ c s (n + 1) s) by (apply u32_add_Ok; split_and!; done || lia).
    split; [done|]. split; [done|]. split.
    + intros b. simpl. by destruct (bool_decide_reflect (a = b)).
    + rewrite bool_decide_true; [done|]. apply elem_of_cons. by left.
  - destruct IH as (r & n' & Hr & Hn & Hg & Hf); [intros; eapply Hb, elem_of_cons; eauto|].
    rewrite (bind_run _ _ _ _ _ _ Hr). exists ((k, n) :: r), n'.
    split; [done|]. split; [done|]. split.
    + intros b. simpl. rewrite Hg. repeat case_bool_decide; congruence.
    + rewrite !fmap_cons. cbn [fst]. rewrite Hf. case_bool_decide as E1.
      * rewrite bool_decide_true; [done|]. apply elem_of_cons. by right.
      * rewrite bool_decide_false; [done|]. apply not_elem_of_cons. by split.
Qed.

Lemma Tallied_bound counts ks k n : Tallied counts ks -> (k, n) ∈ counts -> n <= len ks.
Proof.
  intros [Hn Hg] Hin. apply tally_get_elem in Hin; [|done]. rewrite Hg in Hin.
  pose proof (occurrences_nonneg k ks). destruct (Z.eqb _ _); [done|]. injection Hin. lia.
Qed.

(** Incrementing keeps a tally. *)
Lemma Tallied_increment counts ks a c s :
  Tallied counts ks -> len ks < u32_max ->
  exists r, increment_count counts a c s = Ok ((r, occurrences a (ks ++ [a])), s) /\
    Tallied r (ks ++ [a]).
Proof.
  intros T Hl. destruct (increment_count_spec counts a c s) as (r & n' & Hr & Hn & Hg & Hf).
  { intros k n Hin. pose proof (Tallied_bound _ _ _ _ T Hin). lia. }
  destruct T as [Tn Tg]. pose proof (occurrences_nonneg a ks).
  assert (n' = occurrences a (ks ++ [a])) as ->.
  { rewrite Hn, Tg, occurrences_snoc, bool_decide_true by done.
    destruct (Z.eqb_spec (occurrences a ks) 0); simpl; lia. }
  exists r. split; [done|]. split.
  - rewrite Hf. case_bool_decide as E; [done|]. apply NoDup_app. split; [done|].
    split; [|apply NoDup_singleton]. by intros x Hx ->%list_elem_of_singleton.
  - intros b. rewrite Hg, Tg, !occurrences_snoc. pose proof (occurrences_nonneg b ks).
    rewrite (bool_decide_true (a = a)) by done. destruct (bool_decide_reflect (a = b)) as [<-|E].
    + by destruct (Z.eqb_spec (occurrences a ks + 1) 0); [lia|].
    + by rewrite Z.add_0_r.
Qed.

Lemma Tallied_nil : Tallied [] [].
Proof. split; [apply NoDup_nil_2|done]. Qed.

(** * Properties of the queries

    On a deployed contract the queries are functions of the abstract log: the
    list of the stored events in order. *)

Section QueryProps.
Context `{H : Host}.

(** ** Helper lemmas *)

(** What a page request answers before it looks at the log. *)
Definition paged {A} (limit : Z) (page : list A) (s : St) : res (list A * St) :=
  if Z.eqb limit 0 then Ok ([], s)
  else if Z.ltb 100 limit then Err (Raise ContractError.InvalidPaginationParams)
  else Ok (page, s).

Section Live.
Context (self : Address) (c : Ctx) (s : St) (n : Z) (L : Live self (inst s) n).
Context (l : list Event) (R : Represents (inst s) l).

Lemma log_bounds : len l = n /\ n <= u32_max.
Proof using L R.
  pose proof (fr_range _ _ _ (live_frame _ _ _ L)).
  split; [|lia]. by apply (Represents_len self (inst s)); [apply L|].
Qed.

Lemma list_events_run offset limit :
  0 <= offset -> 0 <= limit ->
  list_events offset limit c s = paged limit (slice offset limit l) s.
Proof using L R.
  intros Ho Hl. destruct log_bounds as [Hn Hm]. unfold list_events, paged.
  destruct (Z.eqb limit 0); [done|]. destruct (Z.ltb 100 limit); [done|].
  rewrite (bind_run _ _ c s tt s) by done.
  rewrite (bind_run _ _ _ _ _ _ (total_events_run _ c _ _ L)).
  destruct (Z.leb_spec n offset) as [Hle|Hlt]; [by rewrite slice_beyond by lia|].
  destruct (slice_page_end l offset limit) as [Hp Hs]; [lia..|]. rewrite Hn in Hp, Hs.
  rewrite <- Hs. apply collect_slice; [lia|lia|].
  intros i e _ E. by apply (get_event_by_order_run self c s n L l R).
Qed.

Lemma scan_run (test : Event -> bool) offset limit :
  0 <= offset -> 0 <= limit ->
  (let* found := scan_matches test n in page_of found offset limit) c s =
    Ok (slice offset limit (filter (fun e => test e = true) l), s).
Proof using L R.
  intros Ho Hl. destruct log_bounds as [Hn Hm].
  rewrite (bind_run _ _ _ _ _ _ (scan_matches_run self c s n L l R test)).
  apply page_of_run; [done|done|]. unfold len in *.
  pose proof (length_filter (fun e => test e = true) l). lia.
Qed.

Lemma category_loop_run cat limit k out i :
  0 <= i -> i + Z.of_nat k = n -> len out <= limit ->
  category_loop cat limit out (range i n) c s =
    Ok (out ++ slice 0 (limit - len out)
          (header_of <$> filter (fun e => ev_category e = cat) (drop (Z.to_nat i) l)), s).
Proof using L R.
  destruct log_bounds as [Hn Hm].
  revert out i. induction k as [|k IH]; intros out i Hi Hk Ho.
  { rewrite range_nil by lia. simpl. rewrite drop_ge by (unfold len in Hn; lia).
    unfold slice. rewrite filter_nil. simpl.
    by rewrite ?drop_nil, ?take_nil, app_nil_r. }
  rewrite range_cons by lia. simpl. destruct (Z.ltb_spec (len out) limit) as [Hlt|Hge].
  2:{ replace (limit - len out) with 0 by lia. unfold slice. simpl. by rewrite app_nil_r. }
  destruct (vget_is_Some l i) as [e E]; [lia|].
  destruct (event_at_unwrap_run c s l R i e E) as [id Ei].
  rewrite (bind_run _ _ _ _ _ _ Ei). simpl.
  assert (drop (Z.to_nat i) l = e :: drop (Z.to_nat (i + 1)) l) as ->.
  { replace (Z.to_nat (i + 1)) with (S (Z.to_nat i)) by lia. apply drop_S.
    unfold vget in E. by destruct (Z.leb_spec 0 i); [|lia]. }
  case_bool_decide as Hc.
  - rewrite IH by (rewrite ?len_app, ?len_cons, ?len_nil; lia).
    rewrite filter_cons_True, fmap_cons by done. unfold slice. rewrite !drop_0.
    rewrite len_app, len_cons, len_nil.
    replace (Z.to_nat (limit - len out)) with (S (Z.to_nat (limit - (len out + (1 + 0))))) by lia.
    simpl. by rewrite <- app_assoc.
  - rewrite IH by lia. by rewrite filter_cons_False.
Qed.

Lemma count_recent_run k elapsed w :
  k < u32_max -> count_recent k elapsed w c s = Ok (k + (if Z.leb elapsed w then 1 else 0), s).
Proof.
  intros Hk. unfold count_recent. destruct (Z.leb elapsed w).
  - apply u32_add_Ok. split_and!; done || lia.
  - by rewrite Z.add_0_r.
Qed.

End Live.

(** The events of [l] no older than [w] seconds at time [now]. *)
Definition recent (now w : Z) (l : list Event) : list Event :=
  filter (fun e => (Z.leb (ev_timestamp e) now && Z.leb (now - ev_timestamp e) w) = true) l.

(** The statistics of a list of events at time [now]. *)
Record Statistics (now total : Z) (l : list Event) (st : ContractStatistics) : Prop := {
  sp_total : st_total_events st = total;
  sp_types : Tallied (st_events_by_type st) (ev_event_type <$> l);
  sp_submitters : Tallied (st_top_submitters st) (ev_submitter <$> l);
  sp_hour : st_events_last_hour st = len (recent now 3600 l);
  sp_day : st_events_last_day st = len (recent now 86400 l);
  sp_week : st_events_last_week st = len (recent now 604800 l) }.

Lemma recent_snoc now w l e :
  len (recent now w (l ++ [e])) =
    len (recent now w l) +
    (if Z.leb (ev_timestamp e) now && Z.leb (now - ev_timestamp e) w then 1 else 0).
Proof.
  unfold recent. rewrite filter_app, len_app. f_equal.
  destruct (_ && _) eqn:E.
  - by rewrite filter_cons_True.
  - rewrite filter_cons_False; [done|]. by rewrite E.
Qed.

Lemma recent_le now w l : len (recent now w l) <= len l.
Proof. unfold recent, len. pose proof (length_filter (fun e => (Z.leb (ev_timestamp e) now && Z.leb
  (now - ev_timestamp e) w) = true) l). lia. Qed.

Lemma collect_step_run now total l st i c s id e :
  Statistics now total l st -> len l < u32_max -> event_at_unwrap i c s = Ok ((id, e), s) ->
  exists st', collect_step now st i c s = Ok (st', s) /\ Statistics now total (l ++ [e]) st'.
Proof.
  intros [Pt Py Ps Ph Pd Pw] Hl Ei. unfold collect_step.
  rewrite (bind_run _ _ _ _ _ _ Ei). simpl. unfold increment_type_count, increment_submitter_count.
  destruct (Tallied_increment _ _ (ev_event_type e) c s Py) as (ty & Hty & Ty);
    [by unfold len in *; rewrite length_fmap|].
  destruct (Tallied_increment _ _ (ev_submitter e) c s Ps) as (su & Hsu & Su);
    [by unfold len in *; rewrite length_fmap|].
  rewrite (bind_run _ _ c s ty s) by (by rewrite (bind_run _ _ _ _ _ _ Hty)).
  rewrite (bind_run _ _ c s su s) by (by rewrite (bind_run _ _ _ _ _ _ Hsu)).
  pose proof (recent_le now 3600 l). pose proof (recent_le now 86400 l).
  pose proof (recent_le now 604800 l).
  destruct (Z.leb (ev_timestamp e) now) eqn:El.
  - cbv zeta. rewrite (bind_run _ _ c s
      (len (recent now 3600 (l ++ [e])), len (recent now 86400 (l ++ [e])),
       len (recent now 604800 (l ++ [e]))) s).
    2:{ rewrite !recent_snoc, El. simpl.
        rewrite (bind_run _ _ _ _ _ _ (count_recent_run c s (st_events_last_hour st) _ _ ltac:(lia))).
        rewrite (bind_run _ _ _ _ _ _ (count_recent_run c s (st_events_last_day st) _ _ ltac:(lia))).
        rewrite (bind_run _ _ _ _ _ _ (count_recent_run c s (st_events_last_week st) _ _ ltac:(lia))).
        by rewrite Ph, Pd, Pw. }
    eexists. split; [reflexivity|]. split; simpl; try done; by rewrite fmap_app.
  - rewrite (bind_run _ _ c s (st_events_last_hour st, st_events_last_day st, st_events_last_week st) s)
      by done.
    eexists. split; [reflexivity|].
    split; simpl; rewrite ?fmap_app, ?recent_snoc, ?El; simpl; rewrite ?Z.add_0_r; done.
Qed.

Lemma collect_statistics_run self c s n l :
  Live self (inst s) n -> Represents (inst s) l ->
  exists st, collect_statistics c s = Ok (st, s) /\ Statistics (cx_timestamp c) (len l) l st.
Proof.
  intros L R. destruct (log_bounds self s n L l R) as [Hn Hm].
  pose proof (fr_range _ _ _ (live_frame _ _ _ L)) as Hr.
  destruct (tot_cfg _ _ (live_totals _ _ _ L)) as (cfg & Ec & Ht).
  unfold collect_statistics. unfold bind at 1, iget. rewrite Ec. cbv zeta.
  rewrite (bind_run _ _ c s (cx_timestamp c) s) by done. rewrite Ht.
  destruct (fold_m_range_run
    (fun i st t => t = s /\ Statistics (cx_timestamp c) n (take (Z.to_nat i) l) st)
    (collect_step (cx_timestamp c)) c 0 n
    {| st_total_events := n; st_events_by_type := []; st_events_last_hour := 0;
       st_events_last_day := 0; st_events_last_week := 0; st_top_submitters := [] |} s)
    as (st & s' & Hrun & -> & Hst); [|lia| |].
  - intros i st t Hi [-> Hst]. destruct (vget_is_Some l i) as [e E]; [lia|].
    destruct (event_at_unwrap_run c s l R i e E) as [id Ei].
    destruct (collect_step_run _ _ _ _ _ _ _ _ _ Hst ltac:(unfold len in *; rewrite length_take;
      lia) Ei)
      as (st' & Hs & Hst').
    exists st', s. split; [done|]. split; [done|].
    replace (Z.to_nat (i + 1)) with (S (Z.to_nat i)) by lia. erewrite take_S_r; [done|].
    unfold vget in E. by destruct (Z.leb_spec 0 i); [|lia].
  - split; [done|]. rewrite take_0. split; try done; apply Tallied_nil.
  - exists st. split; [done|]. rewrite take_ge in Hst by (unfold len in Hn; lia). by rewrite Hn.
Qed.

Context `{!CollisionFree}.

(** Pagination.  On a deployed contract whose stored events are, in order,
    the list [l], [list_events offset limit] answers the empty list for limit 0,
    fails with [InvalidPaginationParams] for a limit above 100, and otherwise
    returns exactly the at most [limit] events from position [offset] on - also
    when the page is beyond the end or the end would exceed [u32] - and changes
    nothing. *)
Theorem list_events_is_slice self c s l offset limit :
  reachable self s -> Represents (inst s) l -> 0 <= offset -> 0 <= limit ->
  list_events offset limit c s = paged limit (slice offset limit l) s.
Proof. intros [n L]%reachable_Live R. by apply (list_events_run self c s n). Qed.

(** The time range query returns the requested page of the events whose
    timestamp lies in the closed range, in order; an empty or inverted range
    gives no events. *)
Theorem time_range_is_filter self c s l start_time end_time offset limit :
  reachable self s -> Represents (inst s) l -> 0 <= offset -> 0 <= limit ->
  get_events_by_time_range start_time end_time offset limit c s =
    paged limit
      (slice offset limit
         (filter (fun e => start_time <= ev_timestamp e /\ ev_timestamp e <= end_time) l)) s.
Proof.
  intros [n L]%reachable_Live R Ho Hl. unfold get_events_by_time_range, paged.
  destruct (Z.eqb limit 0); [done|]. destruct (Z.ltb 100 limit); [done|].
  rewrite (bind_run _ _ c s tt s) by done.
  destruct (Z.ltb_spec end_time start_time) as [Hlt|Hge].
  - assert (filter (fun e => start_time <= ev_timestamp e /\ ev_timestamp e <= end_time) l = []) as ->.
    { clear R. induction l as [|e l IH]; [done|]. rewrite filter_cons_False by lia. done. }
    unfold slice. by rewrite drop_nil, take_nil.
  - rewrite (bind_run _ _ _ _ _ _ (total_events_run _ c _ _ L)), (scan_run self c s n L l R) by done.
    do 3 f_equal. apply list_filter_iff. intros e. rewrite andb_true_iff, !Z.leb_le. done.
Qed.

(** [search_events] returns the requested page of the events whose metadata
    contains the query as a contiguous substring, in order. *)
Theorem search_is_substring_filter self c s l query offset limit :
  reachable self s -> Represents (inst s) l -> 0 <= offset -> 0 <= limit ->
  exists found, search_events query offset limit c s = paged limit (slice offset limit found) s /\
    found = filter (fun e => bytes_contains (ev_metadata e) query = true) l /\
    forall e, e ∈ found <-> e ∈ l /\ exists p q, ev_metadata e = p ++ query ++ q.
Proof.
  intros [n L]%reachable_Live R Ho Hl.
  exists (filter (fun e => bytes_contains (ev_metadata e) query = true) l). split; [|split; [done|]].
  - unfold search_events, paged.
    destruct (Z.eqb limit 0); [done|]. destruct (Z.ltb 100 limit); [done|].
    rewrite (bind_run _ _ c s tt s) by done.
    by rewrite (bind_run _ _ _ _ _ _ (total_events_run _ c _ _ L)), (scan_run self c s n L l R).
  - intros e. rewrite list_elem_of_filter, bytes_contains_infix. naive_solver.
Qed.

(** The category queries.  [event_count_by_category] returns the number of
    stored events of the category, and [list_events_by_category] the headers of
    the first [limit] of them from position [start] on, in order. *)
Theorem category_queries self c s l cat start limit :
  reachable self s -> Represents (inst s) l -> 0 <= start -> 0 <= limit ->
  event_count_by_category cat c s = Ok (len (filter (fun e => ev_category e = cat) l), s) /\
  list_events_by_category cat start limit c s =
    Ok (slice 0 limit
          (header_of <$> filter (fun e => ev_category e = cat) (drop (Z.to_nat start) l)), s).
Proof.
  intros [n L]%reachable_Live R Hs Hl. destruct (log_bounds self s n L l R) as [Hn Hm].
  pose proof (fr_range _ _ _ (live_frame _ _ _ L)) as Hr. split.
  - unfold event_count_by_category. rewrite (bind_run _ _ _ _ _ _ (total_events_run _ c _ _ L)).
    destruct (fold_m_range_run
      (fun i k t => t = s /\ k = len (filter (fun e => ev_category e = cat) (take (Z.to_nat i) l)))
      (fun cnt i => let* e := event_at_unwrap i in
                    if bool_decide (ev_category e.2 = cat) then u32_add cnt 1 else ret cnt)
      c 0 n 0 s) as (k & s' & Hrun & -> & ->); [|lia|done|].
    + intros i k t Hi [-> ->]. destruct (vget_is_Some l i) as [e E]; [lia|].
      destruct (event_at_unwrap_run c s l R i e E) as [id Ei].
      rewrite (bind_run _ _ _ _ _ _ Ei). simpl.
      assert (take (Z.to_nat (i + 1)) l = take (Z.to_nat i) l ++ [e]) as ->.
      { replace (Z.to_nat (i + 1)) with (S (Z.to_nat i)) by lia. apply take_S_r.
        unfold vget in E. by destruct (Z.leb_spec 0 i); [|lia]. }
      pose proof (length_filter (fun e => ev_category e = cat) (take (Z.to_nat i) l)) as Hf.
      rewrite length_take in Hf. unfold len in *.
      rewrite filter_app, length_app. case_bool_decide as Hc.
      * rewrite filter_cons_True by done. eexists _, s. split; [apply u32_add_Ok;
      split_and!|split]; try done.
        -- lia.
        -- simpl. lia.
      * rewrite filter_cons_False by done. eexists _, s. split; [done|]. split; [done|]. simpl. lia.
    + rewrite Hrun. by rewrite take_ge by (unfold len in Hn; lia).
  - unfold list_events_by_category. rewrite (bind_run _ _ _ _ _ _ (total_events_run _ c _ _ L)).
    destruct (Z.leb_spec n start) as [Hle|Hlt].
    + rewrite drop_ge by (unfold len in Hn; lia). unfold slice. simpl. by rewrite take_nil.
    + rewrite (category_loop_run self c s n L l R cat limit (Z.to_nat (n - start)) [] start)
        by (unfold len; simpl; lia).
      replace (limit - len []) with limit by (unfold len; simpl; lia). done.
Qed.

(** [get_statistics] counts correctly.  For an authorised caller it returns
    the number of stored events, for every type and every submitter the number of
    its events, each listed once, and the numbers of events no older than an
    hour, a day and a week. *)
Theorem statistics_count self c s l caller :
  reachable self s -> Represents (inst s) l -> cx_auth c caller = true ->
  (setting (inst s) DataKey.RbacEnabled false = true ->
     Role.rank Role.Auditor <= Role.rank (setting (inst s) (DataKey.Role caller) Role.Viewer)) ->
  exists st, get_statistics caller c s = Ok (st, s) /\
    Statistics (cx_timestamp c) (len l) l st.
Proof.
  intros [n L]%reachable_Live R Ha Hr. unfold get_statistics.
  rewrite (bind_run _ _ _ _ _ _ (require_initialized_run _ c _ _ L)).
  rewrite (bind_run _ _ c s tt s) by (unfold require_auth; by rewrite Ha).
  rewrite (bind_run _ _ c s tt s) by (by apply require_role_min_Ok).
  by apply (collect_statistics_run self c s n l).
Qed.

End QueryProps.

(** ** Witnesses *)

(** The events of the sample history. *)
Lemma s3_represented : exists l, Represents (inst s3) l.
Proof.
  destruct (reachable_Live ledger s3 s3_reachable) as [n L].
  destruct (Represents_exists ledger (inst s3) n (live_frame _ _ _ L)) as (l & R & _). by exists l.
Qed.

Lemma list_events_is_slice_witness :
  exists l, list_events 1 100 (at_time 1040) s3 = Ok (slice 1 100 l, s3).
Proof.
  destruct s3_represented as [l R]. exists l.
  exact (list_events_is_slice ledger (at_time 1040) s3 l 1 100 s3_reachable R ltac:(lia) ltac:(lia)).
Defined.

Lemma time_range_is_filter_witness :
  exists l, get_events_by_time_range 1015 1030 0 10 (at_time 1040) s3 =
    Ok (slice 0 10 (filter (fun e => 1015 <= ev_timestamp e /\ ev_timestamp e <= 1030) l), s3).
Proof.
  destruct s3_represented as [l R]. exists l.
  exact (time_range_is_filter ledger (at_time 1040) s3 l 1015 1030 0 10 s3_reachable R
           ltac:(lia) ltac:(lia)).
Defined.

Lemma search_is_substring_filter_witness :
  exists found, search_events [2; 3] 0 10 (at_time 1040) s3 = Ok (slice 0 10 found, s3).
Proof.
  destruct s3_represented as [l R].
  destruct (search_is_substring_filter ledger (at_time 1040) s3 l [2; 3] 0 10 s3_reachable R
              ltac:(lia) ltac:(lia)) as (found & Hf & _).
  exists found. exact Hf.
Defined.

Lemma category_queries_witness :
  exists l, event_count_by_category "security" (at_time 1040) s3 =
    Ok (len (filter (fun e => ev_category e = "security"%string) l), s3).
Proof.
  destruct s3_represented as [l R]. exists l.
  exact (proj1 (category_queries ledger (at_time 1040) s3 l "security" 0 10 s3_reachable R
                  ltac:(lia) ltac:(lia))).
Defined.

Lemma statistics_count_witness :
  exists st (l : list Event), get_statistics owner (at_time 1040) s3 = Ok (st, s3) /\
    st_total_events st = len l.
Proof.
  destruct s3_represented as [l R].
  destruct (statistics_count ledger (at_time 1040) s3 l owner s3_reachable R) as (st & Hs & Ht).
  - reflexivity.
  - vm_compute. discriminate.
  - exists st, l. split; [exact Hs|exact (sp_total _ _ _ _ Ht)].
Defined.
