(* ===== verification/VersionProps.v ===== *)
(** * Properties of updates and rollbacks *)

From S2P Require Import Prelude Contract StorageLemmas Types Storage Codec Access Chain Logging Batch.
From S2P Require Import Queries Versions Archive Governance Schemas Proposals Retention Invariant Submission VersionSpec.
From S2P Require Import Ledger Reads AppendOnly Sample Admission.

Section VersionProps.
Context `{H : Host} `{!CollisionFree}.

(** ** Helper lemmas *)

(** The identifier of a stored event from its content. *)
Lemma stored_id self st n i id e :
  Live self st n -> entry st i = Some (id, e) ->
  id = event_id self (ev_submitter e) (ev_event_type e) (ev_metadata e) (ev_timestamp e) i.
Proof.
  intros L E. destruct (entry_index _ _ _ _ _ _ (live_frame _ _ _ L) E) as [Hi Hx].
  destruct (fr_cells _ _ _ (live_frame _ _ _ L) i Hi) as (id' & e' & E' & _ & A).
  rewrite E in E'. injection E' as <- <-. unfold addressed in A. by rewrite Hx in A.
Qed.

(** What an event says, without its place in the chain and the version of the
    contract that wrote it. *)
Definition content (e : Event) :=
  (ev_index e, ev_timestamp e, ev_event_type e, ev_category e, ev_submitter e, ev_metadata e,
   ev_sub_event_type e).

Lemma core_content e e' : core e = core e' -> content e = content e'.
Proof. unfold core, content. congruence. Qed.

(** C5: A successful [update_event] with new metadata keeps the total and every
    other event - its position, identifier and content - and puts at its
    position an event that differs from the old one in its metadata only, under
    the identifier of the new content; the version list of the position grows by
    the new event, after the original when it had none.  With unchanged metadata
    nothing happens. *)
Theorem update_event_revises self a j m c s id s' n :
  reachable self s -> cx_self c = self -> total_events c s = Ok (n, s) ->
  update_event a j m c s = Ok (id, s') ->
  exists cur_id cur, entry (inst s) j = Some (cur_id, cur) /\
    ((id = cur_id /\ inst s' = inst s) \/
     (id <> cur_id /\ total_events c s' = Ok (n, s') /\
      id = event_id self (ev_submitter cur) (ev_event_type cur) m (ev_timestamp cur) j /\
      (exists e, entry (inst s') j = Some (id, e) /\
         content e = (j, ev_timestamp cur, ev_event_type cur, ev_category cur, ev_submitter cur, m,
                      ev_sub_event_type cur)) /\
      (forall k, 0 <= k < n -> k <> j -> same_core (inst s) (inst s') k) /\
      exists w, sget (inst s') (DataKey.EventVersions j) = Some (recorded (inst s) j cur ++ [w]) /\
        ev_metadata (vn_data w) = m /\ vn_updated_by w = a)).
Proof.
  intros [n' L]%reachable_Live <- Ht R. rewrite (total_events_run _ c _ _ L) in Ht. injection Ht as ->.
  destruct (update_event_inv _ _ _ _ _ _ _ _ L R)
    as (cur_id & cur & E & Hj & Hx & [(_ & -> & Es)|(Hne & t & Et & R')]);
    exists cur_id, cur; (split; [done|]); [by left|right].
  destruct (apply_update_versions _ _ _ _ _ _ _ _ _ _ _ R') as (w & Hm & Hw).
  rewrite Et in Hw. rewrite <- Et in L.
  destruct (apply_update_spec _ _ _ _ _ _ _ _ _ _ _ L Hj Hx eq_refl R') as (-> & e & [L' Hen Hk] & Hc).
  rewrite Et in Hk. split; [done|]. split; [by apply (total_events_run _ c _ _ L')|]. split; [done|].
  split; [|split; [done|]].
  - destruct Hen as (e' & E' & Hc' & _). exists e'. split; [done|]. rewrite Hc in Hc'.
    apply core_content in Hc'. done.
  - eexists. split; [exact Hw|]. done.
Qed.

(** C6: A successful [rollback_event] to version [v] leaves at the position the
    content recorded as version [v] - whatever was updated since - and keeps the
    total and the content of every other event. *)
Theorem rollback_restores_version self a j v c s id s' n :
  reachable self s -> cx_self c = self -> total_events c s = Ok (n, s) ->
  rollback_event a j v c s = Ok (id, s') ->
  exists vs w e, get_event_history j c s = Ok (vs, s) /\ vget vs v = Some w /\
    entry (inst s') j = Some (id, e) /\ total_events c s' = Ok (n, s') /\
    (inst s' = inst s \/
     (content e = content (vn_data w) /\
      forall k, 0 <= k < n -> k <> j -> same_core (inst s) (inst s') k)).
Proof.
  intros [n' L]%reachable_Live <- Ht R. rewrite (total_events_run _ c _ _ L) in Ht. injection Ht as ->.
  destruct (rollback_event_spec _ _ _ _ _ _ _ n L R)
    as (Hj & vs & w & Hh & Hw & _ & [(Es & e & E)|(e & [L' (e' & E' & Hc' & _) Hk] & Hc)]).
  - exists vs, w, e. rewrite Es. split; [done|]. split; [done|]. split; [done|]. split; [|by left].
    apply (total_events_run (cx_self c)). by rewrite Es.
  - exists vs, w, e'. split; [done|]. split; [done|]. split; [done|].
    split; [by apply (total_events_run _ c _ _ L')|right]. split; [|done].
    rewrite Hc in Hc'. by apply core_content in Hc'.
Qed.

(** Rolling back an update restores the original: after a first update of
    an event and a rollback to version 0, the position holds an event with the
    original content under the original identifier. *)
Theorem update_then_rollback self a a' j m c c' s s1 s2 id0 id1 id2 e0 :
  reachable self s -> cx_self c = self -> cx_self c' = self ->
  sget (inst s) (DataKey.EventVersions j) = None -> entry (inst s) j = Some (id0, e0) ->
  update_event a j m c s = Ok (id1, s1) -> id1 <> id0 ->
  rollback_event a' j 0 c' s1 = Ok (id2, s2) ->
  id2 = id0 /\ exists e2, entry (inst s2) j = Some (id0, e2) /\ content e2 = content e0.
Proof.
  intros [n L]%reachable_Live Hc Hc' Hv E0 R1 Hne R2. subst self.
  destruct (update_event_inv _ _ _ _ _ _ _ _ L R1)
    as (cur_id & cur & E & Hj & Hx & [(_ & -> & Es)|(_ & t & Et & R')]);
    rewrite E0 in E; injection E as <- <-; [done|].
  destruct (apply_update_versions _ _ _ _ _ _ _ _ _ _ _ R') as (w & _ & Hw).
  pose proof L as L0. rewrite <- Et in L.
  destruct (apply_update_spec _ _ _ _ _ _ _ _ _ _ _ L Hj Hx eq_refl R') as (-> & e & [L1 E1 _] & _).
  rewrite Et in Hw. unfold recorded in Hw. rewrite Hv in Hw. simpl in Hw.
  rewrite <- Hc' in L1.
  destruct (rollback_event_spec _ _ _ _ _ _ _ n L1 R2) as (_ & vs & w0 & Hh & Hw0 & Hid2 & Hcase).
  unfold get_event_history in Hh.
  rewrite (bind_run _ _ _ _ _ _ (total_events_run _ c' _ _ L1)) in Hh.
  destruct (Z.leb_spec n j); [lia|].
  unfold bind, iget, ret in Hh. rewrite Hw in Hh. injection Hh as <-. injection Hw0 as <-.
  pose proof (stored_id _ _ _ _ _ _ L0 E0) as Hid.
  simpl in Hid2. assert (id2 = id0) as -> by congruence.
  split; [done|]. destruct Hcase as [(Es & e2 & E2)|(e2 & [L2 (e2' & E2 & Hc2' & _) _] & Hc2)].
  - destruct E1 as (e1 & E1 & _). rewrite E1 in E2. injection E2 as E2 _. by destruct Hne.
  - exists e2'. split; [done|]. rewrite Hc2 in Hc2'. apply core_content in Hc2'. rewrite Hc2'.
    unfold content. simpl. by rewrite Hx.
Qed.

End VersionProps.

(** ** Witnesses on the sample history *)

#[local] Abbreviation upd := (update_event owner 1 [7; 7]).
#[local] Abbreviation back := (rollback_event owner 1 0).
#[local] Abbreviation original_id := (event_id ledger alice "logout" [4; 5] 1020 1).
#[local] Abbreviation new_id := (event_id ledger alice "logout" [7; 7] 1020 1).
#[local] Abbreviation s_upd := (post upd (at_time 1040) s3).

Lemma upd_outcome : outcome upd (at_time 1040) s3 = Ok new_id.
Proof. vm_compute. reflexivity. Qed.

Lemma s_upd_reachable : reachable ledger s_upd.
Proof.
  eapply reach_step; [exact s3_reachable|].
  eapply (step_call ledger (CUpdateEvent owner 1 [7; 7]) (at_time 1040)); [reflexivity|].
  simpl. unfold run. rewrite (bind_run _ _ _ _ _ _ (ok_post _ _ _ _ upd_outcome)). reflexivity.
Qed.

Lemma update_event_revises_witness :
  update_event owner 1 [7; 7] (at_time 1040) s3 = Ok (new_id, s_upd) /\
  exists cur_id cur, entry (inst s3) 1 = Some (cur_id, cur) /\
    ((new_id = cur_id /\ inst s_upd = inst s3) \/
     (new_id <> cur_id /\ total_events (at_time 1040) s_upd = Ok (3, s_upd) /\
      new_id = event_id ledger (ev_submitter cur) (ev_event_type cur) [7; 7] (ev_timestamp cur) 1 /\
      (exists e, entry (inst s_upd) 1 = Some (new_id, e) /\
         content e = (1, ev_timestamp cur, ev_event_type cur, ev_category cur, ev_submitter cur, [7; 7],
                      ev_sub_event_type cur)) /\
      (forall k, 0 <= k < 3 -> k <> 1 -> same_core (inst s3) (inst s_upd) k) /\
      exists w, sget (inst s_upd) (DataKey.EventVersions 1) = Some (recorded (inst s3) 1 cur ++ [w]) /\
        ev_metadata (vn_data w) = [7; 7] /\ vn_updated_by w = owner)).
Proof.
  pose proof (ok_post upd (at_time 1040) s3 _ upd_outcome) as R. split; [exact R|].
  refine (update_event_revises ledger owner 1 [7; 7] (at_time 1040) s3 _ _ 3 s3_reachable eq_refl _ R).
  exact (total_run 1040 s3 3 s3_reachable s3_total).
Defined.

Lemma rollback_restores_version_witness :
  exists vs w e, get_event_history 1 (at_time 1050) s_upd = Ok (vs, s_upd) /\ vget vs 0 = Some w /\
    entry (inst (post back (at_time 1050) s_upd)) 1 = Some (original_id, e).
Proof.
  assert (outcome back (at_time 1050) s_upd = Ok original_id) as R by (vm_compute; reflexivity).
  assert (outcome total_events (at_time 1050) s_upd = Ok 3) as T by (vm_compute; reflexivity).
  pose proof (ok_post back (at_time 1050) s_upd _ R) as R'.
  destruct (rollback_restores_version ledger owner 1 0 (at_time 1050) s_upd _ _ 3 s_upd_reachable
    eq_refl
    (total_run 1050 s_upd 3 s_upd_reachable T) R') as (vs & w & e & Hh & Hw & E & _).
  exists vs, w, e. exact (conj Hh (conj Hw E)).
Defined.

Lemma update_then_rollback_witness :
  exists e2, entry (inst (post back (at_time 1050) s_upd)) 1 = Some (original_id, e2).
Proof.
  assert (outcome back (at_time 1050) s_upd = Ok original_id) as R by (vm_compute; reflexivity).
  pose proof (ok_post back (at_time 1050) s_upd _ R) as R2.
  pose proof (ok_post upd (at_time 1040) s3 _ upd_outcome) as R1.
  destruct (entry (inst s3) 1) as [[id0 e0]|] eqn:E0; [|vm_compute in E0; discriminate].
  assert (id0 = original_id) as ->.
  { assert (option_map fst (entry (inst s3) 1) = Some original_id) as Ei by (vm_compute; reflexivity).
    rewrite E0 in Ei. injection Ei as ->. reflexivity. }
  destruct (update_then_rollback ledger owner owner 1 [7; 7] (at_time 1040) (at_time 1050) s3 _ _ _
    _ _ e0
    s3_reachable eq_refl eq_refl ltac:(vm_compute; reflexivity) E0 R1
    ltac:(vm_compute; discriminate) R2) as [_ (e2 & E2 & _)].
  exists e2. exact E2.
Defined.
