(* ===== verification/GovernanceProps.v ===== *)
(** * Properties of the entry points and of proposals *)

From S2P Require Import Prelude Contract StorageLemmas Types Storage Codec Access Chain Logging Batch.
From S2P Require Import Queries Versions Archive Governance Schemas Proposals Retention Invariant Submission VersionSpec.
From S2P Require Import Ledger Reads AppendOnly Footprint Sample Admission Clearance.

(** The keys that are neither part of the event log nor kept for a submitter:
    ownership, roles, policies, caps, limits, versions, archive, proposals,
    holds and erasure records. *)
Definition governed (key : DataKey) : bool :=
  negb (append_key key)
  && match key with
     | DataKey.SubmitterNonce _ | DataKey.EventSignature _ | DataKey.TtlCleanupStats
     | DataKey.ErasureRequest _ | DataKey.ErasureRequestCount => false
     | _ => true
     end.

(** The levels of the owners and administrators. *)
Definition privileged (l : level) : bool :=
  match l with LegacyOwner | OwnerMember | Administrator => true | _ => false end.

Section GovernanceProps.
Context `{H : Host}.

(** C7: Whoever makes a call that succeeds has signed it and holds the level
    the call asks for: every submitter of a batch, the administrator (or owner,
    while roles are not enforced) of a governance call, an owner for proposals,
    the first owner for webhooks. *)
Theorem calls_need_clearance k c s s' :
  exec k c s = Ok (tt, s') ->
  forall a, a ∈ (clearance k).1 -> cx_auth c a = true /\ holds (clearance k).2 (inst s) a.
Proof.
  intros R a Ha. pose proof (exec_cleared k _ _ _ _ R) as C. unfold cleared in C.
  eapply Forall_forall in C; [|exact Ha]. exact C.
Qed.

(** C14: A successful call changes no instance key outside its footprint. *)
Theorem calls_write_only_their_footprint k c s s' :
  exec k c s = Ok (tt, s') ->
  forall key, footprint k key = false -> sget (inst s') key = sget (inst s) key.
Proof.
  intros R key Hk. apply (exec_spared k _ _ _ _ R). unfold spared. by rewrite Hk.
Qed.

Lemma governed_privileged k key :
  footprint k key = true -> governed key = true ->
  privileged (clearance k).2 = true /\ exists a, (clearance k).1 = [a].
Proof.
  unfold governed. intros Hf [Ha Hg]%andb_true_iff. apply negb_true_iff in Ha.
  destruct k; simpl in *; try (split; [done|]; by eexists); exfalso;
    rewrite ?Ha in Hf; simpl in Hf; by destruct key.
Qed.

(** No step of the contract changes a governed key - an owner, a role, the
    pause flag, a cap, a schema, an event version, a hold, an erasure record -
    unless an administrator or owner signed the call that did it. *)
Theorem governed_keys_need_authority self s s' key :
  step self s s' -> governed key = true -> sget (inst s') key <> sget (inst s) key ->
  exists k c a, cx_self c = self /\ exec k c s = Ok (tt, s') /\ cx_auth c a = true /\
    (holds LegacyOwner (inst s) a \/ holds OwnerMember (inst s) a \/
     holds Administrator (inst s) a).
Proof.
  intros Hs Hg Hne. destruct Hs as [k c s s' Hc R|s t p _ _]; [|by destruct Hne].
  destruct (footprint k key) eqn:Hf.
  - destruct (governed_privileged _ _ Hf Hg) as [Hp [a Ha]].
    pose proof (exec_cleared k _ _ _ _ R) as C. unfold cleared in C. rewrite Ha in C.
    apply Forall_singleton in C as [Hsg Hl]. exists k, c, a. do 3 (split; [done|]).
    unfold at_level in Hl. destruct (clearance k).2; try done; auto.
  - exfalso. apply Hne, (exec_spared k _ _ _ _ R). unfold spared. by rewrite Hf.
Qed.

(** ** Proposals *)

(** C15: A successful [execute_proposal] by a signing owner either leaves the
    instance as it was - the proposal was executed before, has expired, or has
    fewer approvals than required - or performs the action of an open, fully
    approved proposal and marks it executed. *)
Theorem execute_proposal_spec a i c s s' :
  execute_proposal a i c s = Ok (tt, s') ->
  cx_auth c a = true /\ owns (inst s) a = true /\
  exists prop, sget (inst s) (DataKey.Proposal i) = Some prop /\
    let ready := negb (pr_executed prop) && Z.leb (cx_timestamp c) (pr_expires_at prop)
                 && Z.leb (setting (inst s) DataKey.RequiredSignatures 1) (len (pr_approvals prop)) in
    if ready then
      exists s1, perform a (pr_action prop) c s = Ok (tt, s1) /\
        inst s' = sset (inst s1) (DataKey.Proposal i) (executed prop)
    else inst s' = inst s.
Proof.
  unfold execute_proposal. intros R. apply bind_Ok in R as (u & s1 & R1 & R).
  pose proof (demands_member_auth a _ _ _ _ R1) as Ha.
  pose proof (demands_member a _ _ _ _ R1) as Ho.
  assert (s1 = s) as ->.
  { unfold owner_only, is_addr_owner, get_owners in R1. by mcase. }
  split; [exact Ha|]. split; [exact Ho|].
  apply bind_Ok in R as (o & s1 & R2 & R). injection R2 as Eo <-.
  apply bind_Ok in R as (prop & s1 & R2 & R). apply unwrap_or_raise_Ok in R2 as [-> ->].
  apply bind_Ok in R as (now & s1 & R2 & R). injection R2 as <- <-.
  exists prop. split; [exact Eo|]. unfold closed in R.
  destruct (pr_executed prop); [simpl in *; by minv|]. simpl in *.
  rewrite Z.ltb_antisym in R. destruct (Z.leb (cx_timestamp c) (pr_expires_at prop)); [|simpl in *;
    by minv].
  simpl in *. apply bind_Ok in R as (n & s1 & R2 & R). unfold get_required_signatures in R2.
  injection R2 as En <-. change (setting (inst s) DataKey.RequiredSignatures 1 = n) in En.
  rewrite En. rewrite Z.ltb_antisym in R. destruct (Z.leb n _); [|simpl in *; by minv]. simpl in R.
  apply bind_Ok in R as (u1 & s1 & R2 & R). destruct u1. exists s1. split; [done|]. by minv.
Qed.

(** The number of proposals, which is also the identifier of the next. *)
Definition proposal_count (st : store) : Z := setting st DataKey.ProposalCount 0.

(** Proposals are numbered below the count and approved once per owner. *)
Definition Proposals_ok (st : store) : Prop :=
  0 <= proposal_count st /\
  forall i p, sget st (DataKey.Proposal i) = Some p ->
    0 <= i < proposal_count st /\ NoDup (pr_approvals p).

(** What may become of a proposal. *)
Definition advanced (p p' : Proposal) : Prop :=
  (pr_id p' = pr_id p /\ pr_proposer p' = pr_proposer p /\ pr_action p' = pr_action p /\
   pr_expires_at p' = pr_expires_at p) /\
  pr_approvals p `prefix_of` pr_approvals p' /\ (pr_executed p = true -> p' = p).

Lemma advanced_refl p : advanced p p.
Proof. by split_and!. Qed.

(** The proposals and their count are the same. *)
Definition same_proposals (st st' : store) : Prop :=
  sget st' DataKey.ProposalCount = sget st DataKey.ProposalCount /\
  forall i, sget st' (DataKey.Proposal i) = sget st (DataKey.Proposal i).

Lemma Proposals_same st st' : same_proposals st st' -> Proposals_ok st -> Proposals_ok st'.
Proof.
  intros [Ec Ep] [Hn Hp]. unfold Proposals_ok, proposal_count, setting in *. rewrite Ec.
  split; [done|]. intros i p. rewrite Ep. apply Hp.
Qed.

(** Writing one proposal of the list over. *)
Lemma Proposals_write st st' i p p' :
  same_proposals (sset st (DataKey.Proposal i) p') st' ->
  sget st (DataKey.Proposal i) = Some p -> NoDup (pr_approvals p') -> advanced p p' ->
  Proposals_ok st ->
  Proposals_ok st' /\
  forall j q, sget st (DataKey.Proposal j) = Some q ->
    exists q', sget st' (DataKey.Proposal j) = Some q' /\ advanced q q'.
Proof.
  intros Sm Ei Hd Ha Hok. split.
  - eapply Proposals_same; [exact Sm|]. destruct Hok as [Hn Hp].
    unfold Proposals_ok, proposal_count, setting in *. rewrite sset_ne by done.
    split; [done|]. intros j q. destruct (decide (i = j)) as [<-|Hne].
    + rewrite sset_eq. intros [= <-]. split; [|done]. by eapply Hp.
    + rewrite sset_ne by congruence. apply Hp.
  - intros j q Hq. destruct Sm as [_ Ep]. rewrite Ep. destruct (decide (i = j)) as [<-|Hne].
    + rewrite sset_eq. exists p'. split; [done|]. congruence.
    + rewrite sset_ne by congruence. exists q. split; [done|apply advanced_refl].
Qed.

Lemma submit_proposal_ok a act ttl c s i s' :
  submit_proposal a act ttl c s = Ok (i, s') -> Proposals_ok (inst s) ->
  Proposals_ok (inst s') /\
  forall j q, sget (inst s) (DataKey.Proposal j) = Some q ->
    exists q', sget (inst s') (DataKey.Proposal j) = Some q' /\ advanced q q'.
Proof.
  unfold submit_proposal. intros R [Hn Hp]. apply bind_Ok in R as (u & s1 & R1 & R).
  assert (s1 = s) as -> by (unfold owner_only, is_addr_owner, get_owners in R1; by mcase).
  apply bind_Ok in R as (n & s1 & R2 & R). injection R2 as En <-.
  change (setting (inst s) DataKey.ProposalCount 0 = n) in En. unfold Proposals_ok in *.
  unfold proposal_count in *. rewrite En in *.
  clear En. minv. split; [split|].
  - rewrite setting_sset_eq. lia.
  - rewrite setting_sset_eq. intros j q. rewrite sset_ne by done.
    destruct (decide (n = j)) as [<-|Hne].
    + rewrite sset_eq. intros [= <-]. split; [lia|]. apply NoDup_singleton.
    + rewrite sset_ne by congruence. intros Hq. apply Hp in Hq as [? ?]. split; [lia|done].
  - intros j q Hq. apply Hp in Hq as Hj. rewrite !sset_ne by (try done; intros [=]; lia).
    exists q. split; [done|apply advanced_refl].
Qed.

Lemma approve_proposal_ok a i c s u s' :
  approve_proposal a i c s = Ok (u, s') -> Proposals_ok (inst s) ->
  Proposals_ok (inst s') /\
  forall j q, sget (inst s) (DataKey.Proposal j) = Some q ->
    exists q', sget (inst s') (DataKey.Proposal j) = Some q' /\ advanced q q'.
Proof.
  unfold approve_proposal. intros R Hok. apply bind_Ok in R as (u1 & s1 & R1 & R).
  assert (s1 = s) as -> by (unfold owner_only, is_addr_owner, get_owners in R1; by mcase).
  apply bind_Ok in R as (o & s1 & R2 & R). injection R2 as Eo <-.
  apply bind_Ok in R as (p & s1 & R2 & R). apply unwrap_or_raise_Ok in R2 as [-> ->].
  apply bind_Ok in R as (now & s1 & R2 & R). injection R2 as _ <-.
  assert (inst s' = inst s \/ (pr_executed p = false /\ (a ∉ pr_approvals p) /\
          inst s' = sset (inst s) (DataKey.Proposal i) (approved_by p a))) as [->|(Hx & Ha & ->)].
  { destruct (closed p now) eqn:Ec; [left; by minv|].
    destruct (contains_addr (pr_approvals p) a) eqn:Ea; [left; by minv|right].
    split; [by apply orb_false_iff in Ec as [? _]|]. split; [|by minv].
    intros Hin%contains_addr_In. congruence. }
  - split; [done|]. intros j q Hq. exists q. split; [done|apply advanced_refl].
  - eapply Proposals_write; [done|exact Eo| | |done].
    + simpl. apply NoDup_app. split; [by eapply Hok|]. split; [set_solver|apply NoDup_singleton].
    + split_and!; try done; [simpl; by apply prefix_app_r|]. by rewrite Hx.
Qed.

(** An action writes no proposal. *)
Lemma perform_same a act c s u s' :
  perform a act c s = Ok (u, s') -> same_proposals (inst s) (inst s').
Proof.
  intros R.
  assert (keeps (fun k => match k with DataKey.Proposal _ | DataKey.ProposalCount => true
                          | _ => false end) (perform a act)) as K.
  { assert (forall i v, keeps (fun k => match k with DataKey.Proposal _ | DataKey.ProposalCount => true
                          | _ => false end) (rollback_event a i v)).
    { intros i v. eapply keeps_weaken, keeps_revised_rollback. by intros []. }
    destruct act; simpl; unfold get_owners; keeps_tac. }
  split; [|intros i]; by apply (K _ _ _ _ R).
Qed.

Lemma execute_proposal_ok a i c s u s' :
  execute_proposal a i c s = Ok (u, s') -> Proposals_ok (inst s) ->
  Proposals_ok (inst s') /\
  forall j q, sget (inst s) (DataKey.Proposal j) = Some q ->
    exists q', sget (inst s') (DataKey.Proposal j) = Some q' /\ advanced q q'.
Proof.
  unfold execute_proposal. intros R Hok. apply bind_Ok in R as (u1 & s1 & R1 & R).
  assert (s1 = s) as -> by (unfold owner_only, is_addr_owner, get_owners in R1; by mcase).
  apply bind_Ok in R as (o & s1 & R2 & R). injection R2 as Eo <-.
  apply bind_Ok in R as (p & s1 & R2 & R). apply unwrap_or_raise_Ok in R2 as [-> ->].
  apply bind_Ok in R as (now & s1 & R2 & R). injection R2 as _ <-.
  assert (inst s' = inst s \/ (pr_executed p = false /\ exists t, same_proposals (inst s) (inst t) /\
            inst s' = sset (inst t) (DataKey.Proposal i) (executed p))) as [->|(Hx & t & Sm & ->)].
  { destruct (closed p now) eqn:Ec; [left; by minv|].
    apply bind_Ok in R as (n & s1 & R2 & R). injection R2 as _ <-.
    destruct (Z.ltb _ n); [left; by minv|right].
    split; [by apply orb_false_iff in Ec as [? _]|].
    apply bind_Ok in R as (u2 & t & R2 & R). exists t.
    split; [by apply perform_same in R2|by minv]. }
  - split; [done|]. intros j q Hq. exists q. split; [done|apply advanced_refl].
  - eapply Proposals_write; [|exact Eo| | |done].
    + destruct Sm as [Ec Ep]. split; [by rewrite !sset_ne by done|]. intros j.
      destruct (decide (i = j)) as [<-|Hne]; [by rewrite !sset_eq|].
      rewrite !sset_ne by congruence. apply Ep.
    + simpl. by eapply Hok.
    + split_and!; try done. by rewrite Hx.
Qed.

Lemma exec_proposals k c s s' :
  exec k c s = Ok (tt, s') -> Proposals_ok (inst s) ->
  Proposals_ok (inst s') /\
  forall j q, sget (inst s) (DataKey.Proposal j) = Some q ->
    exists q', sget (inst s') (DataKey.Proposal j) = Some q' /\ advanced q q'.
Proof.
  intros R Hok.
  destruct (footprint k DataKey.ProposalCount || footprint k (DataKey.Proposal 0)) eqn:Hf.
  - destruct k; try discriminate Hf; simpl in R; unfold run in R.
    + apply bind_Ok in R as (x & s1 & R & [_ ->]%ret_Ok). by eapply submit_proposal_ok.
    + by eapply approve_proposal_ok.
    + by eapply execute_proposal_ok.
  - apply orb_false_iff in Hf as [Hc Hp].
    assert (same_proposals (inst s) (inst s')) as Sm.
    { split; [|intros i]; apply (exec_spared k _ _ _ _ R); unfold spared.
      - by rewrite Hc.
      - replace (footprint k (DataKey.Proposal i)) with (footprint k (DataKey.Proposal 0))
          by (by destruct k). by rewrite Hp. }
    split; [by eapply Proposals_same|]. intros j q Hq. exists q. destruct Sm as [_ Ep].
    rewrite Ep. split; [done|apply advanced_refl].
Qed.

Lemma reachable_Proposals self s : reachable self s -> Proposals_ok (inst s).
Proof.
  induction 1 as [c owners ml mb s Hc Hm R|s s' _ IH Hstep].
  - unfold Proposals_ok, proposal_count, setting.
    rewrite (initialize_spared _ _ _ _ _ _ DataKey.ProposalCount eq_refl R).
    split; [done|]. intros i p.
    by rewrite (initialize_spared _ _ _ _ _ _ (DataKey.Proposal i) eq_refl R).
  - destruct Hstep as [k c s s' Hc R|s t p _ _]; [|done]. by apply (exec_proposals _ _ _ _ R).
Qed.

(** C16: Proposals only advance: in every reachable state a proposal has no
    approval twice; a step keeps its author, action and deadline, can only add
    approvals, and never touches it again once it is executed. *)
Theorem proposals_only_advance self s s' i p :
  reachable self s -> step self s s' -> sget (inst s) (DataKey.Proposal i) = Some p ->
  NoDup (pr_approvals p) /\
  exists p', sget (inst s') (DataKey.Proposal i) = Some p' /\
    (pr_id p' = pr_id p /\ pr_proposer p' = pr_proposer p /\ pr_action p' = pr_action p /\
     pr_expires_at p' = pr_expires_at p) /\
    pr_approvals p `prefix_of` pr_approvals p' /\ (pr_executed p = true -> p' = p).
Proof.
  intros Hr%reachable_Proposals Hs Hp. split; [by eapply Hr|].
  destruct Hs as [k c s s' Hc R|s t q _ _].
  - by apply (exec_proposals _ _ _ _ R).
  - exists p. split; [done|apply advanced_refl].
Qed.

End GovernanceProps.

(** ** Witnesses on the sample history *)

(** The owner pauses the contract. *)
Definition s_paused : St := call_at 1040 (CPause owner) s3.
(** The owner proposes to pause it, and then executes the proposal. *)
Definition s_proposed : St := call_at 1040 (CSubmitProposal owner ProposalAction.Pause 100) s3.
Definition s_executed : St := call_at 1050 (CExecuteProposal owner 0) s_proposed.

Lemma s_paused_run : exec (CPause owner) (at_time 1040) s3 = Ok (tt, s_paused).
Proof. unfold s_paused, call_at. apply ok_post. vm_compute. reflexivity. Qed.
Lemma s_proposed_reachable : reachable ledger s_proposed.
Proof. unfold s_proposed. apply reach_call; [apply s3_reachable|]. vm_compute. reflexivity. Qed.
Lemma s_executed_run : execute_proposal owner 0 (at_time 1050) s_proposed = Ok (tt, s_executed).
Proof.
  unfold s_executed, call_at. change (exec (CExecuteProposal owner 0)) with (execute_proposal owner 0).
  apply ok_post. vm_compute. reflexivity.
Qed.

Lemma calls_need_clearance_witness :
  exec (CPause owner) (at_time 1040) s3 = Ok (tt, s_paused) /\
  cx_auth (at_time 1040) owner = true /\ holds Administrator (inst s3) owner.
Proof.
  split; [exact s_paused_run|].
  refine (calls_need_clearance (CPause owner) (at_time 1040) s3 s_paused s_paused_run owner _).
  apply list_elem_of_singleton. reflexivity.
Defined.

Lemma calls_write_only_their_footprint_witness :
  sget (inst s_paused) DataKey.Owner = sget (inst s3) DataKey.Owner.
Proof.
  exact (calls_write_only_their_footprint (CPause owner) (at_time 1040) s3 s_paused s_paused_run
           DataKey.Owner eq_refl).
Defined.

Lemma governed_keys_need_authority_witness :
  exists k c a, cx_self c = ledger /\ exec k c s3 = Ok (tt, s_paused) /\ cx_auth c a = true /\
    (holds LegacyOwner (inst s3) a \/ holds OwnerMember (inst s3) a \/
     holds Administrator (inst s3) a).
Proof.
  refine (governed_keys_need_authority ledger s3 s_paused DataKey.Paused _ eq_refl _).
  - exact (step_call ledger (CPause owner) (at_time 1040) s3 s_paused eq_refl s_paused_run).
  - vm_compute. discriminate.
Defined.

Lemma execute_proposal_spec_witness :
  exists prop, sget (inst s_proposed) (DataKey.Proposal 0) = Some prop /\
    exists s1, perform owner (pr_action prop) (at_time 1050) s_proposed = Ok (tt, s1) /\
      inst s_executed = sset (inst s1) (DataKey.Proposal 0) (executed prop).
Proof.
  destruct (execute_proposal_spec owner 0 (at_time 1050) s_proposed s_executed s_executed_run)
    as (_ & _ & prop & E & R).
  exists prop. split; [exact E|].
  assert (sget (inst s_proposed) (DataKey.Proposal 0) =
          Some (mkProposal 0 owner ProposalAction.Pause [owner] 1140 false)) as E'
    by (vm_compute; reflexivity).
  rewrite E' in E. injection E as <-.
  assert (setting (inst s_proposed) DataKey.RequiredSignatures 1 = 1) as Er by (vm_compute;
    reflexivity).
  rewrite Er in R. exact R.
Defined.

Lemma proposals_only_advance_witness :
  exists p p', sget (inst s_proposed) (DataKey.Proposal 0) = Some p /\
    sget (inst s_executed) (DataKey.Proposal 0) = Some p' /\ pr_action p' = pr_action p.
Proof.
  set (p := mkProposal 0 owner ProposalAction.Pause [owner] 1140 false).
  assert (sget (inst s_proposed) (DataKey.Proposal 0) = Some p) as E by (vm_compute; reflexivity).
  destruct (proposals_only_advance ledger s_proposed s_executed 0 p s_proposed_reachable
    (step_call ledger (CExecuteProposal owner 0) (at_time 1050) s_proposed s_executed eq_refl
       s_executed_run) E) as (_ & p' & E' & (_ & _ & Ha & _) & _).
  exists p, p'. exact (conj E (conj E' Ha)).
Defined.
