(* ===== verification/RetentionSpec.v ===== *)
(** * Retention and erasure in closed form

    The verdict on an event as a function of the store, and the effect of a
    redaction on the ledger. *)

From S2P Require Import Prelude Contract StorageLemmas Types Storage Codec Access Chain Logging Batch.
From S2P Require Import Queries Versions Archive Governance Schemas Proposals Retention Invariant Submission VersionSpec.
From S2P Require Import Ledger Reads AppendOnly Footprint Admission Clearance.

#[global] Instance Verdict_eq_dec : EqDecision Verdict.
Proof. solve_decision. Defined.

Section RetentionSpec.
Context `{H : Host}.

(** ** The verdict *)

Definition on_hold (st : store) (i : Z) : bool :=
  match sget st (DataKey.LegalHold i) with Some h => lh_active h | None => false end.

Definition excepted (now : Z) (st : store) (i : Z) : bool :=
  match sget st (DataKey.ComplianceException i) with
  | Some ex => Z.eqb (ce_expires_at ex) 0 || Z.ltb now (ce_expires_at ex)
  | None => false
  end.

Definition erased (st : store) (i : Z) : bool :=
  match sget st (DataKey.ErasureRecord i) with Some r => rd_erased r | None => false end.

(** The retention period in force for a category; zero means none. *)
Definition retention (st : store) (cat : Symbol) : Z :=
  match sget st (DataKey.RetentionPolicy cat) with
  | Some p => rp_retention_days p
  | None => setting st DataKey.DefaultRetentionDays 0
  end.

(** What the retention rules say of an event at a position. *)
Definition verdict (now : Z) (st : store) (i : Z) (e : Event) : Verdict :=
  if bool_decide (ev_category e = operational_category) then Compliant
  else if erased st i then AlreadyErased
  else if Z.eqb (retention st (ev_category e)) 0 then Compliant
  else if Z.leb (u64_sat_sub now (ev_timestamp e)) (u64_sat_mul (retention st (ev_category e)) 86400)
       then Compliant
  else if on_hold st i then BlockedHold
  else if excepted now st i then BlockedException
  else Erasable.

Lemma retention_days_for_run cat c s :
  retention_days_for cat c s = Ok (retention (inst s) cat, s).
Proof.
  unfold retention_days_for, retention, setting, bind, iget, iget_or, ret.
  by destruct (sget (inst s) (DataKey.RetentionPolicy cat)).
Qed.

Lemma is_under_legal_hold_run i c s : is_under_legal_hold i c s = Ok (on_hold (inst s) i, s).
Proof. done. Qed.
Lemma has_active_compliance_exception_run i c s :
  has_active_compliance_exception i c s = Ok (excepted (cx_timestamp c) (inst s) i, s).
Proof. done. Qed.
Lemma is_event_erased_run i c s : is_event_erased i c s = Ok (erased (inst s) i, s).
Proof. done. Qed.

Lemma classify_run i e c s : classify i e c s = Ok (verdict (cx_timestamp c) (inst s) i e, s).
Proof.
  unfold classify, verdict. destruct (bool_decide _); [done|].
  rewrite (bind_run _ _ _ _ _ _ (is_event_erased_run i c s)). destruct (erased (inst s) i); [done|].
  rewrite (bind_run _ _ _ _ _ _ (retention_days_for_run (ev_category e) c s)).
  destruct (Z.eqb _ 0); [done|]. unfold ledger_timestamp. rewrite (bind_run _ _ c s _ _ eq_refl).
  destruct (Z.leb _ _); [done|].
  rewrite (bind_run _ _ _ _ _ _ (is_under_legal_hold_run i c s)). destruct (on_hold (inst s) i); [done|].
  by rewrite (bind_run _ _ _ _ _ _ (has_active_compliance_exception_run i c s)); destruct (excepted _ _ _).
Qed.

(** The verdict on the event stored at a position. *)
Definition verdict_at (now : Z) (st : store) (i : Z) : option Verdict :=
  (fun x => verdict now st i x.2) <$> entry st i.

(** The keys a verdict reads beside the event. *)
Definition retention_key (k : DataKey) : bool :=
  match k with
  | DataKey.RetentionPolicy _ | DataKey.DefaultRetentionDays | DataKey.LegalHold _
  | DataKey.ComplianceException _ => true
  | _ => false
  end.

Lemma verdict_core now st st' i e e' :
  (forall k, retention_key k = true -> sget st' k = sget st k) ->
  sget st' (DataKey.ErasureRecord i) = sget st (DataKey.ErasureRecord i) -> core e' = core e ->
  verdict now st' i e' = verdict now st i e.
Proof.
  intros Hk He Hc. injection Hc as _ Ht _ Hcat _ _ _ _.
  unfold verdict, erased, retention, on_hold, excepted, setting.
  rewrite He, Hcat, Ht. by rewrite !Hk.
Qed.

Lemma get_event_by_order_Ok i c s e s' :
  get_event_by_order i c s = Ok (e, s') <->
  require_initialized c s = Ok (tt, s) /\ s' = s /\ exists id, entry (inst s) i = Some (id, e).
Proof.
  unfold get_event_by_order. split.
  - intros R. apply bind_Ok in R as (u & s1 & R1 & R). pose proof (require_initialized_Ok _ _ _ _ R1) as ->.
    destruct u. split; [done|]. apply bind_Ok in R as (oid & s1 & R2 & R). injection R2 as Eo <-.
    apply bind_Ok in R as (id & s1 & R2 & R). apply unwrap_or_raise_Ok in R2 as [-> ->].
    apply bind_Ok in R as (oe & s1 & R2 & R). injection R2 as Ee <-.
    apply unwrap_or_raise_Ok in R as [-> ->]. split; [done|]. exists id. by apply entry_Some.
  - intros (Hi & -> & id & [Eo Ee]%entry_Some). rewrite (bind_run _ _ _ _ _ _ Hi).
    unfold bind, iget. rewrite Eo. simpl. by rewrite Ee.
Qed.

(** ** Redaction *)

Context `{!CollisionFree}.

(** The record a redaction leaves. *)
Definition erasure_record (c : Ctx) (a : Address) (e : Event) (reason : Symbol) : ErasureRecordData :=
  {| rd_erased := true; rd_erased_at := cx_timestamp c; rd_erased_by := a;
     rd_original_metadata_hash := sha256 (ev_metadata e); rd_reason := reason |}.

(** The position [i] of [st'] holds the event [e] without its metadata: under
    the identifier of that content, or as it was when this is its identifier
    already. *)
Definition redacted (self : Address) (st' : store) (i : Z) (e : Event) : Prop :=
  exists id' e', entry st' i = Some (id', e') /\
    id' = event_id self (ev_submitter e) (ev_event_type e) [] (ev_timestamp e) i /\
    ((ev_metadata e' = [] /\ ev_category e' = ev_category e /\ ev_submitter e' = ev_submitter e /\
      ev_event_type e' = ev_event_type e /\ ev_timestamp e' = ev_timestamp e) \/ core e' = core e).

Lemma redacted_same_core self st st' i e : redacted self st i e -> same_core st st' i -> redacted self st' i e.
Proof.
  intros (id & e1 & E1 & Hid & Hc) (id2 & e2 & e3 & E2 & E3 & C). rewrite E1 in E2.
  injection E2 as <- <-. exists id, e3. split; [done|]. split; [done|].
  destruct Hc as [Hc|Hc]; [left|right; congruence]. injection C as. naive_solver congruence.
Qed.

Lemma redact_spec a i e reason c s u s' n id :
  Live (cx_self c) (inst s) n -> entry (inst s) i = Some (id, e) ->
  redact a i e reason c s = Ok (u, s') ->
  Live (cx_self c) (inst s') n /\ redacted (cx_self c) (inst s') i e /\
  (forall k, 0 <= k < n -> k <> i -> same_core (inst s) (inst s') k) /\
  sget (inst s') (DataKey.ErasureRecord i) = Some (erasure_record c a e reason) /\
  (forall k, k <> i -> sget (inst s') (DataKey.ErasureRecord k) = sget (inst s) (DataKey.ErasureRecord k)) /\
  (forall k, retention_key k = true -> sget (inst s') k = sget (inst s) k).
Proof.
  intros L E R. unfold redact in R.
  apply bind_Ok in R as (id' & s1 & R1 & R). apply bind_Ok in R as (now & s2 & R2 & R).
  injection R2 as <- <-. injection R as _ <-. cbn [inst].
  set (rec := erasure_record c a e reason).
  assert (keeps but_revised (update_event a i [])) as K by apply keeps_revised_update.
  destruct (update_event_inv _ _ _ _ _ _ _ _ L R1) as (cur_id & cur & E' & Hi & Hx & Hcase).
  rewrite E in E'. injection E' as <- <-. simpl in Hcase.
  assert (forall k, entry (sset (inst s1) (DataKey.ErasureRecord i) rec) k = entry (inst s1) k) as Ek.
  { intros k. unfold entry. rewrite sset_ne by done.
    destruct (sget (inst s1) (DataKey.EventOrder k)); [|done]. by rewrite sset_ne. }
  assert (Live (cx_self c) (inst s1) n /\ redacted (cx_self c) (inst s1) i e /\
          (forall k, 0 <= k < n -> k <> i -> same_core (inst s) (inst s1) k)) as (L1 & Hr & Hk).
  { destruct Hcase as [(Hid & -> & ->)|(_ & t & Et & R')].
    - split; [done|]. split; [|intros k Hk _; by eapply Cells_same_core, Hk; apply L].
      exists id, e. split; [done|]. split; [congruence|]. by right.
    - rewrite <- Et in L.
      destruct (apply_update_spec _ _ _ _ _ _ _ _ _ _ _ L Hi Hx eq_refl R')
        as (-> & e1 & [L' (e2 & E2 & C2 & _) Hk] & Hc).
      rewrite Et in Hk. split; [done|]. split; [|done]. eexists _, e2. split; [exact E2|].
      split; [done|left]. rewrite Hc in C2. injection C2 as. by split_and!. }
  assert (Live (cx_self c) (sset (inst s1) (DataKey.ErasureRecord i) rec) n) as L2.
  { destruct L1 as [F1 Lk1 T1].
    destruct (Body_sset n (DataKey.ErasureRecord i) rec c _ eq_refl (conj F1 Lk1)) as [F2 Lk2].
    split; [done|done|]. eapply Totals_ext; [|done]. intros k Hk'. apply sset_ne. by intros <-. }
  split; [done|]. split_and!.
  - destruct Hr as (id1 & e1 & E1 & Hr). exists id1, e1. by rewrite Ek.
  - intros k Hk' Hne. eapply same_core_entry; [by apply Hk|apply Ek].
  - by rewrite sset_eq.
  - intros k Hne. rewrite sset_ne by congruence. by apply (K _ _ _ _ R1).
  - intros k Hk'. rewrite sset_ne by (by intros <-). apply (K _ _ _ _ R1). by destruct k.
Qed.

(** ** Erasure requests *)

(** The request after the decision. *)
Definition decided (c : Ctx) (a : Address) (approve : bool) (j : Bytes) (q : ErasureRequestData)
    : ErasureRequestData :=
  {| er_requester := er_requester q;
     er_event_index := er_event_index q;
     er_reason := er_reason q;
     er_requested_at := er_requested_at q;
     er_status := if approve then ErasureStatus.Fulfilled else ErasureStatus.Denied;
     er_decided_by := Some a;
     er_decided_at := cx_timestamp c;
     er_justification := j |}.

Lemma admin_entry_Ok a c s u s' : admin_entry a c s = Ok (u, s') -> s' = s.
Proof.
  unfold admin_entry, require_initialized, require_owner_or_multisig, rbac_enabled,
    require_role_min, is_addr_owner, get_owners, rbac_enabled. intros R. by mcase.
Qed.

Lemma fulfil_inv a i reason c s u s' :
  fulfil a i reason c s = Ok (u, s') ->
  exists id e, entry (inst s) i = Some (id, e) /\ ev_category e <> operational_category /\
    on_hold (inst s) i = false /\ excepted (cx_timestamp c) (inst s) i = false /\
    redact a i e reason c s = Ok (u, s').
Proof.
  unfold fulfil. intros R.
  apply bind_Ok in R as (e & s1 & R1 & R). apply get_event_by_order_Ok in R1 as (_ & -> & id & E).
  apply bind_Ok in R as (u1 & s1 & R1 & R). apply reject_if_Ok in R1 as [B1 ->].
  rewrite (bind_run _ _ _ _ _ _ (is_under_legal_hold_run i c s)) in R.
  apply bind_Ok in R as (u2 & s1 & R1 & R). apply reject_if_Ok in R1 as [B2 ->].
  rewrite (bind_run _ _ _ _ _ _ (has_active_compliance_exception_run i c s)) in R.
  apply bind_Ok in R as (u3 & s1 & R1 & R). apply reject_if_Ok in R1 as [B3 ->].
  exists id, e. apply bool_decide_eq_false in B1. done.
Qed.

(** A decision: the request was pending, the approval ran, and the request is
    overwritten. *)
Lemma process_erasure_inv a r approve j c s u s' :
  process_erasure_request a r approve j c s = Ok (u, s') ->
  exists q s1, sget (inst s) (DataKey.ErasureRequest r) = Some q /\
    er_status q = ErasureStatus.Pending /\
    when approve (fulfil a (er_event_index q) (er_reason q)) c s = Ok (tt, s1) /\
    inst s' = sset (inst s1) (DataKey.ErasureRequest r) (decided c a approve j q).
Proof.
  unfold process_erasure_request. intros R.
  apply bind_Ok in R as (u1 & s1 & R1 & R). apply admin_entry_Ok in R1 as ->.
  apply bind_Ok in R as (o & s1 & R1 & R). injection R1 as Eo <-.
  apply bind_Ok in R as (q & s1 & R1 & R). apply unwrap_or_raise_Ok in R1 as [-> ->].
  apply bind_Ok in R as (u2 & s1 & R1 & R). apply reject_if_Ok in R1 as [B ->].
  apply bind_Ok in R as (u3 & s1 & R1 & R). destruct u3. cbv zeta in R1.
  apply bind_Ok in R as (now & s2 & R2 & R). injection R2 as <- <-.
  exists q, s1. split; [done|]. apply bool_decide_eq_false in B.
  split; [by apply dec_stable|]. split; [done|]. by minv.
Qed.

End RetentionSpec.
