(* ===== verification/RetentionProps.v ===== *)
(** * Properties of retention and erasure *)

From S2P Require Import Prelude Contract StorageLemmas Types Storage Codec Access Chain Logging Batch.
From S2P Require Import Queries Versions Archive Governance Schemas Proposals Retention Invariant Submission VersionSpec.
From S2P Require Import Ledger Reads AppendOnly Footprint Sample Admission Clearance RetentionSpec.

Section RetentionProps.
Context `{H : Host} `{!CollisionFree}.

(** ** Erasure *)

(** C9: An approved erasure request was pending, and its event was neither
    operational, nor under a legal hold, nor covered by an active exception;
    afterwards the event has lost its metadata, the record keeps their hash,
    the request is fulfilled, and every other event is untouched. *)
Theorem erasure_needs_clearance self a r j c s s' n :
  reachable self s -> cx_self c = self -> total_events c s = Ok (n, s) ->
  process_erasure_request a r true j c s = Ok (tt, s') ->
  exists q id e, let i := er_event_index q in
    sget (inst s) (DataKey.ErasureRequest r) = Some q /\ er_status q = ErasureStatus.Pending /\
    entry (inst s) i = Some (id, e) /\ ev_category e <> operational_category /\
    on_hold (inst s) i = false /\ excepted (cx_timestamp c) (inst s) i = false /\
    redacted self (inst s') i e /\
    sget (inst s') (DataKey.ErasureRecord i) = Some (erasure_record c a e (er_reason q)) /\
    sget (inst s') (DataKey.ErasureRequest r) = Some (decided c a true j q) /\
    forall k, 0 <= k < n -> k <> i -> same_core (inst s) (inst s') k.
Proof.
  intros [n' L]%reachable_Live <- Ht R. rewrite (total_events_run _ c _ _ L) in Ht. injection Ht as ->.
  destruct (process_erasure_inv _ _ _ _ _ _ _ _ R) as (q & s1 & Eq & Hq & Rf & Es).
  apply fulfil_inv in Rf as (id & e & E & Hcat & Hh & Hx & Rr).
  destruct (redact_spec _ _ _ _ _ _ _ _ _ _ L E Rr) as (_ & Hr & Hk & Hrec & _).
  assert (same_ledger (inst s') (inst s1)) as SL by (rewrite Es; by apply same_ledger_sset).
  exists q, id, e. split_and!; try done.
  - destruct Hr as (id1 & e1 & E1 & Hr). exists id1, e1. by rewrite SL.
  - rewrite Es. by rewrite sset_ne by done.
  - rewrite Es. by rewrite sset_eq.
  - intros k Hk' Hne. eapply same_core_entry; [by apply Hk|by rewrite SL].
Qed.

(** Erasing an event does not erase its content: when the event had not
    been updated before and its metadata were not empty, its history still
    opens with the original event, metadata included. *)
Theorem erased_content_stays_in_history self a r j c c' s s' q id e :
  reachable self s -> cx_self c = self -> cx_self c' = self ->
  process_erasure_request a r true j c s = Ok (tt, s') ->
  sget (inst s) (DataKey.ErasureRequest r) = Some q ->
  entry (inst s) (er_event_index q) = Some (id, e) ->
  sget (inst s) (DataKey.EventVersions (er_event_index q)) = None ->
  id <> event_id self (ev_submitter e) (ev_event_type e) [] (ev_timestamp e) (er_event_index q) ->
  exists vs w, get_event_history (er_event_index q) c' s' = Ok (vs, s') /\
    vget vs 0 = Some w /\ vn_data w = e.
Proof.
  intros Hr Hc Hc' R Eq E Ev Hne.
  assert (reachable self s') as [n' L']%reachable_Live.
  { eapply reach_step; [exact Hr|]. exact (step_call self (CProcessErasure a r true j) c s s' Hc R). }
  apply reachable_Live in Hr as [n L]. subst self.
  destruct (process_erasure_inv _ _ _ _ _ _ _ _ R) as (q' & s1 & Eq' & _ & Rf & Es).
  rewrite Eq in Eq'. injection Eq' as <-.
  apply fulfil_inv in Rf as (id' & e' & E' & _ & _ & _ & Rr). rewrite E in E'. injection E' as <- <-.
  destruct (redact_spec _ _ _ _ _ _ _ _ _ _ L E Rr) as (_ & (id1 & e1 & E1 & _) & _).
  assert (same_ledger (inst s') (inst s1)) as SL by (rewrite Es; by apply same_ledger_sset).
  rewrite <- SL in E1. destruct (entry_index _ _ _ _ _ _ (live_frame _ _ _ L') E1) as [Hin _].
  unfold redact in Rr. apply bind_Ok in Rr as (nid & s2 & R2 & Rr).
  assert (inst s1 = sset (inst s2) (DataKey.ErasureRecord (er_event_index q)) 
            (erasure_record c a e (er_reason q))) as Es1 by (by minv).
  destruct (update_event_inv _ _ _ _ _ _ _ _ L R2) as (cid & cur & E' & Hi & Hx & Hcase).
  rewrite E in E'. injection E' as <- <-.
  destruct Hcase as [(Hid & _)|(_ & t & Et & R')]; [by destruct Hne|].
  destruct (apply_update_versions _ _ _ _ _ _ _ _ _ _ _ R') as (w & _ & Hw).
  rewrite Et in Hw. unfold recorded in Hw. rewrite Ev in Hw. simpl in Hw.
  eexists _, (original_version e). split; [|split; [|done]].
  - unfold get_event_history. rewrite <- Hc' in L'.
    rewrite (bind_run _ _ _ _ _ _ (total_events_run _ c' _ _ L')).
    destruct (Z.leb_spec n' (er_event_index q)) as [Hle|]; [exfalso; lia|].
    unfold bind, iget. rewrite Es, Es1, !sset_ne, Hw by done. done.
  - done.
Qed.

(** The number of erasure requests, the identifier of the next. *)
Definition request_count (st : store) : Z := setting st DataKey.ErasureRequestCount 0.

(** Erasure requests are numbered below the count. *)
Definition Requests_ok (st : store) : Prop :=
  0 <= request_count st /\
  forall r q, sget st (DataKey.ErasureRequest r) = Some q -> 0 <= r < request_count st.

(** What may become of a request. *)
Definition settled (q q' : ErasureRequestData) : Prop :=
  q' = q \/
  er_status q = ErasureStatus.Pending /\ exists c a approve j, q' = decided c a approve j q.

Definition Settles (st st' : store) : Prop :=
  forall r q, sget st (DataKey.ErasureRequest r) = Some q ->
    exists q', sget st' (DataKey.ErasureRequest r) = Some q' /\ settled q q'.

Lemma request_erasure_ok a i reason c s r s' :
  request_erasure a i reason c s = Ok (r, s') -> Requests_ok (inst s) ->
  Requests_ok (inst s') /\ Settles (inst s) (inst s').
Proof.
  unfold request_erasure. intros R [Hn Hq].
  apply bind_Ok in R as (u & s1 & R1 & R). apply require_initialized_Ok in R1 as ->.
  apply bind_Ok in R as (u1 & s1 & R1 & R). apply require_auth_Ok in R1 as [_ ->].
  apply bind_Ok in R as (e & s1 & R1 & R). apply get_event_by_order_Ok in R1 as (_ & -> & _).
  apply bind_Ok in R as (u2 & s1 & R1 & R). apply reject_if_Ok in R1 as [_ ->].
  rewrite (bind_run _ _ _ _ _ _ (is_event_erased_run i c s)) in R.
  apply bind_Ok in R as (u3 & s1 & R1 & R). apply reject_if_Ok in R1 as [_ ->].
  apply bind_Ok in R as (n & s1 & R2 & R). injection R2 as En <-.
  change (setting (inst s) DataKey.ErasureRequestCount 0 = n) in En.
  unfold Requests_ok, Settles, request_count in *. rewrite En in *. clear En. minv. split; [split|].
  - rewrite setting_sset_eq. lia.
  - rewrite setting_sset_eq. intros k q. rewrite sset_ne by done.
    destruct (decide (n = k)) as [<-|Hne]; [lia|]. rewrite sset_ne by congruence.
    intros Hk%Hq. lia.
  - intros k q Hk. pose proof (Hq _ _ Hk). rewrite !sset_ne by (try done; intros [=]; lia).
    exists q. split; [done|by left].
Qed.

Lemma process_erasure_ok a r approve j c s u s' :
  process_erasure_request a r approve j c s = Ok (u, s') -> Requests_ok (inst s) ->
  Requests_ok (inst s') /\ Settles (inst s) (inst s').
Proof.
  intros (q & s1 & Eq & Hp & R & Es)%process_erasure_inv [Hn Hq].
  assert (forall k, request_key k = true -> sget (inst s1) k = sget (inst s) k) as K.
  { assert (keeps request_key (when approve (fulfil a (er_event_index q) (er_reason q)))) as K.
    { assert (forall i, keeps request_key (update_event a i [])).
      { intros i. eapply keeps_weaken, keeps_revised_update. by intros []. }
      pose proof (keeps_owners_only request_key). pose proof (keeps_read_by_order request_key).
      unfold fulfil, redact, is_under_legal_hold, has_active_compliance_exception. keeps_tac. }
    apply (K _ _ _ _ R). }
  unfold Requests_ok, Settles, request_count, setting in *. rewrite Es.
  rewrite !sset_ne, K by done. split; [split; [done|]|].
  - intros k w. destruct (decide (r = k)) as [<-|Hne]; [intros _; by eapply Hq|].
    rewrite sset_ne, K by (try done; congruence). apply Hq.
  - intros k w Hk. destruct (decide (r = k)) as [<-|Hne].
    + rewrite sset_eq. rewrite Eq in Hk. injection Hk as <-. eexists. split; [done|right].
      split; [done|]. by eexists _, _, _, _.
    + rewrite sset_ne, K by (try done; congruence). exists w. split; [done|by left].
Qed.

Lemma exec_requests k c s s' :
  exec k c s = Ok (tt, s') -> Requests_ok (inst s) ->
  Requests_ok (inst s') /\ Settles (inst s) (inst s').
Proof.
  intros R Hok.
  destruct (footprint k (DataKey.ErasureRequest 0)) eqn:Hf.
  - destruct k; try discriminate Hf; simpl in R; unfold run in R.
    + apply bind_Ok in R as (x & s1 & R & [_ ->]%ret_Ok). by eapply request_erasure_ok.
    + by eapply process_erasure_ok.
  - assert (footprint k DataKey.ErasureRequestCount = false) as Hc by (by destruct k).
    assert (forall i, footprint k (DataKey.ErasureRequest i) = false) as Hr by (by destruct k).
    pose proof (exec_spared k _ _ _ _ R) as K. unfold spared in K.
    destruct Hok as [Hn Hq]. unfold Requests_ok, Settles, request_count, setting in *.
    rewrite K by (by rewrite Hc). split; [split; [done|]|].
    + intros i q. rewrite K by (by rewrite Hr). apply Hq.
    + intros i q Hi. rewrite K by (by rewrite Hr). exists q. split; [done|by left].
Qed.

Lemma reachable_Requests self s : reachable self s -> Requests_ok (inst s).
Proof.
  induction 1 as [c owners ml mb s Hc Hm R|s s' _ IH Hstep].
  - unfold Requests_ok, request_count, setting.
    rewrite (initialize_spared _ _ _ _ _ _ DataKey.ErasureRequestCount eq_refl R).
    split; [done|]. intros i q.
    by rewrite (initialize_spared _ _ _ _ _ _ (DataKey.ErasureRequest i) eq_refl R).
  - destruct Hstep as [k c s s' Hc R|s t p _ _]; [|done]. by apply (exec_requests _ _ _ _ R).
Qed.

(** Erasure requests are decided once: no step removes or alters a decided
    request, and all that can happen to a pending one is a decision that keeps
    who asked, for which event and why. *)
Theorem erasure_requests_are_final self s s' r q :
  reachable self s -> step self s s' -> sget (inst s) (DataKey.ErasureRequest r) = Some q ->
  exists q', sget (inst s') (DataKey.ErasureRequest r) = Some q' /\
    (er_status q <> ErasureStatus.Pending -> q' = q) /\
    (q' = q \/ exists c a approve j, q' = decided c a approve j q).
Proof.
  intros Hr%reachable_Requests Hs Hq.
  assert (Settles (inst s) (inst s')) as St.
  { destruct Hs as [k c s s' Hc R|s t p _ _]; [by apply (exec_requests _ _ _ _ R)|].
    intros k w Hw. exists w. split; [done|by left]. }
  destruct (St _ _ Hq) as (q' & Hq' & [->|[Hp Hd]]).
  - exists q. auto.
  - exists q'. split; [done|]. split; [by intros []|by right].
Qed.

(** ** The sweep *)

(** The positions of [a..b] whose events the rules let the sweep erase. *)
Definition erasable_in (now : Z) (st : store) (a b : Z) : list Z :=
  filter (fun k => verdict_at now st k = Some Erasable) (range a b).

Lemma erasable_snoc now st a i :
  a <= i -> erasable_in now st a (i + 1) =
    erasable_in now st a i ++ (if decide (verdict_at now st i = Some Erasable) then [i] else []).
Proof.
  intros Hi. unfold erasable_in. rewrite range_snoc by done. by rewrite filter_app.
Qed.

(** A batch ends within the ledger. *)
Lemma batch_end_le start size n : n <= u32_max -> batch_end start size n <= n.
Proof.
  intros Hn. unfold batch_end, u32_sat_add. destruct (Z.ltb_spec (Z.min (start + size) u32_max) n); lia.
Qed.

(** The state of the sweep before position [i]. *)
Record Swept (c : Ctx) (st : store) (n start : Z) (a : Address) (i cnt : Z) (t : St) : Prop := {
  sw_live : Live (cx_self c) (inst t) n;
  sw_keys : forall k, retention_key k = true -> sget (inst t) k = sget st k;
  sw_count : cnt = len (erasable_in (cx_timestamp c) st start i);
  sw_spared : forall k, 0 <= k < n ->
    ~ (start <= k < i /\ verdict_at (cx_timestamp c) st k = Some Erasable) ->
    same_core st (inst t) k /\
    sget (inst t) (DataKey.ErasureRecord k) = sget st (DataKey.ErasureRecord k);
  sw_erased : forall k, start <= k < i -> verdict_at (cx_timestamp c) st k = Some Erasable ->
    exists id e, entry st k = Some (id, e) /\ redacted (cx_self c) (inst t) k e /\
      sget (inst t) (DataKey.ErasureRecord k) =
        Some (erasure_record c a e "retention_expired") }.

Lemma redacted_core self st i e e' : core e' = core e -> redacted self st i e' -> redacted self st i e.
Proof.
  intros C (id & e1 & E & Hid & Hc). injection C as. exists id, e1. split; [done|].
  split; [naive_solver congruence|]. destruct Hc as [Hc|Hc]; [left; naive_solver congruence|right].
  rewrite Hc. unfold core. congruence.
Qed.

Lemma Swept_same c st n start a i cnt t :
  start <= i -> verdict_at (cx_timestamp c) st i <> Some Erasable ->
  Swept c st n start a i cnt t -> Swept c st n start a (i + 1) cnt t.
Proof.
  intros Hi Hv [L Ks -> Sp Er]. split; [done|done| | |].
  - rewrite erasable_snoc by done. destruct (decide _); [done|]. by rewrite app_nil_r.
  - intros k Hk Hn. apply Sp; [done|]. intros [Hk' Hv']. apply Hn. split; [lia|done].
  - intros k Hk Hv'. apply Er; [|done]. destruct (decide (k = i)) as [->|]; [done|lia].
Qed.

Lemma sweep_step_Swept c st n start a i cnt t cnt' t' :
  0 <= start <= i -> i < n -> Swept c st n start a i cnt t ->
  sweep_step a cnt i c t = Ok (cnt', t') -> Swept c st n start a (i + 1) cnt' t'.
Proof.
  intros Hi Hn Sw R. pose proof Sw as [L Ks Hc Sp Er]. unfold sweep_step in R.
  apply bind_Ok in R as (e' & t1 & R1 & R). apply get_event_by_order_Ok in R1 as (_ & -> & id & E').
  rewrite (bind_run _ _ _ _ _ _ (classify_run i e' c t)) in R.
  destruct (Sp i) as [(id0 & e & e2 & E & E2 & C) Re]; [lia|lia|]. rewrite E' in E2.
  injection E2 as <- <-.
  rewrite (verdict_core _ st (inst t) i e e' Ks Re C) in R.
  assert (verdict_at (cx_timestamp c) st i = Some (verdict (cx_timestamp c) st i e)) as Hv
    by (unfold verdict_at; by rewrite E).
  destruct (verdict (cx_timestamp c) st i e);
    try (apply ret_Ok in R as [-> ->]; apply Swept_same; [lia|by rewrite Hv|done]).
  apply bind_Ok in R as (u & t2 & R1 & R). apply u32_add_Ok in R as (-> & _ & ->).
  destruct (redact_spec _ _ _ _ _ _ _ _ _ _ L E' R1) as (L' & Hr & Hk & Hi' & Hre & Hks).
  split; [done| | | |].
  - intros k Hk'. by rewrite Hks, Ks.
  - rewrite erasable_snoc by lia. destruct (decide _); [|done]. rewrite len_app, <- Hc. done.
  - intros k Hk' Hnot. assert (k <> i) as Hne by (intros ->; apply Hnot; split; [lia|done]).
    destruct (Sp k Hk') as [C1 Re1].
    { intros [? ?]. apply Hnot. split; [lia|done]. }
    split; [|by rewrite Hre]. eapply same_core_trans; [done|]. by apply Hk.
  - intros k Hk' Hvk. destruct (decide (k = i)) as [->|Hne].
    + exists id, e. split; [done|]. split; [by eapply redacted_core|]. rewrite Hi'. f_equal.
      unfold erasure_record. injection C as. congruence.
    + destruct (Er k) as (idk & ek & Ek & Rk & Rek); [lia|done|]. exists idk, ek.
      split; [done|]. split; [|by rewrite Hre].
      eapply redacted_same_core; [done|]. apply Hk; lia.
Qed.

(** C8: A retention sweep erases exactly the events that are overdue and
    erasable when it starts.  It returns their number; each of them is left
    without metadata and with a record of the hash of what it held; every other
    event - operational, under hold, excepted, not overdue, erased before, or
    outside the batch - keeps its identifier, content and erasure record. *)
Theorem sweep_erases_exactly self a start size c s cnt s' n :
  reachable self s -> cx_self c = self -> total_events c s = Ok (n, s) -> 0 <= start -> 0 <= size ->
  run_retention_sweep a start size c s = Ok (cnt, s') ->
  let stop := batch_end start size n in
  let now := cx_timestamp c in
  cnt = len (erasable_in now (inst s) start stop) /\
  (forall k, 0 <= k < n -> ~ (start <= k < stop /\ verdict_at now (inst s) k = Some Erasable) ->
     same_core (inst s) (inst s') k /\
     sget (inst s') (DataKey.ErasureRecord k) = sget (inst s) (DataKey.ErasureRecord k)) /\
  (forall k, start <= k < stop -> verdict_at now (inst s) k = Some Erasable ->
     exists id e, entry (inst s) k = Some (id, e) /\ redacted self (inst s') k e /\
       sget (inst s') (DataKey.ErasureRecord k) =
         Some (erasure_record c a e "retention_expired")).
Proof.
  intros [n' L]%reachable_Live <- Ht Hs Hz R stop now.
  rewrite (total_events_run _ c _ _ L) in Ht. injection Ht as ->.
  unfold run_retention_sweep in R. apply bind_Ok in R as (u & s1 & R1 & R).
  assert (s1 = s) as ->.
  { unfold admin_entry, require_initialized, require_owner_or_multisig, rbac_enabled,
      require_role_min, is_addr_owner, get_owners, rbac_enabled in R1. by mcase. }
  rewrite (bind_run _ _ _ _ _ _ (total_events_run _ c _ _ L)) in R.
  apply bind_Ok in R as (b & t & R2 & R). assert (cnt = b /\ inst s' = inst t) as [-> ->] by (by minv).
  fold stop in R2.
  pose proof (batch_end_le start size n (proj2 (fr_range _ _ _ (live_frame _ _ _ L)))) as Hle'.
  fold stop in Hle'.
  assert (Swept c (inst s) n start a start 0 s) as Sw0.
  { split; try done.
    - unfold erasable_in. by rewrite range_nil by lia.
    - intros k Hk _. split; [|done]. by eapply Cells_same_core, Hk; apply L.
    - intros k Hk. lia. }
  destruct (decide (start <= stop)) as [Hle|Hgt].
  - assert (forall i x t x' t', start <= i < stop -> Swept c (inst s) n start a i x t ->
            sweep_step a x i c t = Ok (x', t') -> Swept c (inst s) n start a (i + 1) x' t') as Hstep
      by (intros i x t' x' t2 Hi; apply sweep_step_Swept; lia).
    by destruct (fold_m_range_inv (Swept c (inst s) n start a) _ _ _ _ _ _ _ _ Hstep Hle Sw0 R2).
  - rewrite range_nil in R2 by lia. injection R2 as <- <-.
    unfold erasable_in. rewrite range_nil by lia. split; [done|]. split.
    + intros k Hk _. split; [|done]. by eapply Cells_same_core, Hk; apply L.
    + intros k Hk. lia.
Qed.

(** ** The report *)










End RetentionProps.

(** ** Witnesses on the sample history *)

(** Alice asks for the erasure of her second event; the owner approves. *)
Definition s_asked : St := call_at 1040 (CRequestErasure alice 1 "gdpr") s3.
Definition s_granted : St := call_at 1050 (CProcessErasure owner 0 true [1]) s_asked.
(** The owner sets a default period of one day. *)
Definition s_period : St := call_at 1040 (CSetDefaultRetention owner 1) s3.

Lemma s_asked_reachable : reachable ledger s_asked.
Proof. unfold s_asked. apply reach_call; [apply s3_reachable|]. vm_compute. reflexivity. Qed.
Lemma s_period_reachable : reachable ledger s_period.
Proof. unfold s_period. apply reach_call; [apply s3_reachable|]. vm_compute. reflexivity. Qed.
Lemma s_granted_run :
  process_erasure_request owner 0 true [1] (at_time 1050) s_asked = Ok (tt, s_granted).
Proof.
  unfold s_granted, call_at.
  change (exec (CProcessErasure owner 0 true [1])) with (process_erasure_request owner 0 true [1]).
  apply ok_post. vm_compute. reflexivity.
Qed.

Definition the_request : ErasureRequestData :=
  mkErasureRequestData alice 1 "gdpr" 1040 ErasureStatus.Pending None 0 [].

Lemma the_request_stored : sget (inst s_asked) (DataKey.ErasureRequest 0) = Some the_request.
Proof. vm_compute. reflexivity. Qed.

Lemma erasure_needs_clearance_witness :
  exists id e, entry (inst s_asked) 1 = Some (id, e) /\
    redacted ledger (inst s_granted) 1 e /\
    sget (inst s_granted) (DataKey.ErasureRecord 1)
      = Some (erasure_record (at_time 1050) owner e "gdpr").
Proof.
  assert (outcome total_events (at_time 1050) s_asked = Ok 3) as T by (vm_compute; reflexivity).
  destruct (erasure_needs_clearance ledger owner 0 [1] (at_time 1050) s_asked s_granted 3
    s_asked_reachable eq_refl (total_run 1050 s_asked 3 s_asked_reachable T) s_granted_run)
    as (q & id & e & Eq & _ & E & _ & _ & _ & Hr & Hrec & _).
  rewrite the_request_stored in Eq. injection Eq as <-. exists id, e.
  exact (conj E (conj Hr Hrec)).
Defined.

Lemma erased_content_stays_in_history_witness :
  exists vs w, get_event_history 1 (at_time 1060) s_granted = Ok (vs, s_granted) /\
    vget vs 0 = Some w /\ ev_metadata (vn_data w) = [4; 5].
Proof.
  assert ((fun x => (x.1, ev_submitter x.2, ev_event_type x.2, ev_metadata x.2, ev_timestamp x.2))
            <$> entry (inst s_asked) 1
          = Some (event_id ledger alice "logout" [4; 5] 1020 1, alice, "logout"%string, [4; 5],
          1020)) as E
    by (vm_compute; reflexivity).
  destruct (entry (inst s_asked) 1) as [[id e]|] eqn:Ee; [|discriminate E].
  injection E as Eid Es Et Em Ets.
  destruct (erased_content_stays_in_history ledger owner 0 [1] (at_time 1050) (at_time 1060) s_asked
    s_granted the_request id e s_asked_reachable eq_refl eq_refl s_granted_run the_request_stored Ee)
    as (vs & w & Hh & Hw & He).
  - vm_compute. reflexivity.
  - rewrite Eid, Es, Et, Ets. vm_compute. discriminate.
  - exists vs, w. rewrite He. exact (conj Hh (conj Hw Em)).
Defined.

Lemma sweep_erases_exactly_witness :
  outcome (run_retention_sweep owner 0 10) (at_time 100000) s_period = Ok 3 /\
  3 = len (erasable_in 100000 (inst s_period) 0 3).
Proof.
  set (m := run_retention_sweep owner 0 10). assert (outcome m (at_time 100000) s_period = Ok 3) as
    R by (vm_compute; reflexivity).
  assert (outcome total_events (at_time 100000) s_period = Ok 3) as T by (vm_compute; reflexivity).
  split; [exact R|]. pose proof (ok_post m (at_time 100000) s_period 3 R) as R'. subst m.
  exact (proj1 (sweep_erases_exactly ledger owner 0 10 (at_time 100000) s_period 3 _ 3
    s_period_reachable eq_refl (total_run 100000 s_period 3 s_period_reachable T)
    ltac:(lia) ltac:(lia) R')).
Defined.


Lemma erasure_requests_are_final_witness :
  exists q', sget (inst s_granted) (DataKey.ErasureRequest 0) = Some q' /\
    (q' = the_request \/ exists c a approve j, q' = decided c a approve j the_request).
Proof.
  destruct (erasure_requests_are_final ledger s_asked s_granted 0 the_request s_asked_reachable
    (step_call ledger (CProcessErasure owner 0 true [1]) (at_time 1050) s_asked s_granted eq_refl
       s_granted_run) the_request_stored) as (q' & E & _ & Hd).
  exists q'. exact (conj E Hd).
Defined.
