(* ===== verification/ArchiveProps.v ===== *)
(** * Properties of snapshots

    The second part of the file: properties of the encodings and of the
    archive. *)

From stdpp Require Import relations.
From S2P Require Import Prelude Contract StorageLemmas Types Storage Codec Access Chain Logging Batch.
From S2P Require Import Queries Versions Archive Governance Schemas Proposals Retention Invariant Submission VersionSpec.
From S2P Require Import Ledger Reads AppendOnly Footprint Sample Admission Clearance RetentionSpec.

Section SnapshotProps.
Context `{H : Host} `{!CollisionFree}.

(** A step of the contract that revises no event. *)
Definition calm_step (self : Address) (s s' : St) : Prop :=
  (exists k c, cx_self c = self /\ revising k = false /\ exec k c s = Ok (tt, s')) \/
  inst s' = inst s.

(** The snapshot [sn], stored as number [i], agrees with the ledger. *)
Record Agrees (self : Address) (i : Z) (sn : Snapshot) (st : store) (n : Z) : Prop := {
  ag_live : Live self st n;
  ag_data : sget st (DataKey.SnapshotData i) = Some sn;
  ag_id : i < setting st DataKey.SnapshotCount 0;
  ag_count : 0 <= sn_event_count sn <= n;
  ag_hash : if Z.eqb (sn_event_count sn) 0 then sn_event_hash sn = zero_hash
            else exists id e, entry st (sn_event_count sn - 1) = Some (id, e) /\
                   ev_event_hash e = sn_event_hash sn }.

Lemma create_snapshot_Ok a d c s i s' n :
  Live (cx_self c) (inst s) n -> create_snapshot a d c s = Ok (i, s') ->
  i = setting (inst s) DataKey.SnapshotCount 0 /\
  exists h, inst s' = sset (sset (inst s) (DataKey.SnapshotData i)
    {| sn_id := i; sn_timestamp := cx_timestamp c; sn_event_count := n; sn_event_hash := h;
       sn_description := d |}) DataKey.SnapshotCount (i + 1) /\
    if Z.eqb n 0 then h = zero_hash
    else exists id e, entry (inst s) (n - 1) = Some (id, e) /\ ev_event_hash e = h.
Proof.
  unfold create_snapshot. intros L R.
  apply bind_Ok in R as (u & s1 & R1 & R). apply admin_entry_Ok in R1 as ->.
  rewrite (bind_run _ _ _ _ _ _ (total_events_run _ c s n L)) in R.
  apply bind_Ok in R as (t & s1 & R1 & R). injection R1 as <- <-.
  apply bind_Ok in R as (h & s1 & R1 & R).
  assert (s1 = s /\ if Z.eqb n 0 then h = zero_hash
    else exists id e, entry (inst s) (n - 1) = Some (id, e) /\ ev_event_hash e = h) as [-> Hh].
  { destruct (Z.eqb n 0); [by minv|]. apply bind_Ok in R1 as ([id e] & s2 & R1 & R2).
    apply event_at_unwrap_Ok in R1 as [-> E]. apply ret_Ok in R2 as [-> ->]. split; [done|].
    by exists id, e. }
  clear R1.
  apply bind_Ok in R as (k & s1 & R1 & R). injection R1 as Ek <-.
  change (setting (inst s) DataKey.SnapshotCount 0 = k) in Ek. rewrite Ek. clear Ek.
  assert (i = k) as -> by (by minv). split; [done|]. exists h. split; [|done]. by minv.
Qed.

Lemma create_snapshot_Agrees a d c s i s' n :
  Live (cx_self c) (inst s) n -> create_snapshot a d c s = Ok (i, s') ->
  exists sn, Agrees (cx_self c) i sn (inst s') n.
Proof.
  intros L R. pose proof (fr_range _ _ _ (live_frame _ _ _ L)) as Hr.
  assert (Inv c (inst s')) as [n' L'].
  { refine (Inv_exec (CCreateSnapshot a d) c s tt s' _ _); [|by exists n]. simpl. unfold run.
    by rewrite (bind_run _ _ _ _ _ _ R). }
  destruct (create_snapshot_Ok _ _ _ _ _ _ _ L R) as (Hi & h & Es & Hh).
  assert (same_ledger (inst s') (inst s)) as SL.
  { rewrite Es. intros k Hk. rewrite !sset_ne by (by intros <-). done. }
  assert (n' = n) as ->.
  { destruct (Represents_exists _ _ _ (live_frame _ _ _ L)) as (l & Rl & <-).
    destruct (Represents_exists _ _ _ (live_frame _ _ _ L')) as (l' & Rl' & <-).
    f_equal. eapply Represents_eq; [apply L'|done|]. intros k. rewrite SL. apply Rl. }
  eexists. split; [exact L'|..].
  - rewrite Es. rewrite sset_ne by done. by rewrite sset_eq.
  - rewrite Es. rewrite setting_sset_eq. lia.
  - simpl. lia.
  - simpl. destruct (Z.eqb n 0); [done|]. destruct Hh as (id & e & E & Hh). exists id, e.
    by rewrite SL.
Qed.

Lemma calm_step_Agrees self i sn s s' n :
  Agrees self i sn (inst s) n -> calm_step self s s' -> exists n', Agrees self i sn (inst s') n'.
Proof.
  intros [L D Hi Hc Hh] [(k & c & <- & Hk & R) | -> ]; [|by exists n].
  assert (Inv c (inst s)) as I by (by exists n).
  destruct (Inv_exec k c s tt s' R I) as [n' L']. exists n'.
  pose proof (exec_Persist k c s s' Hk I R) as P.
  assert (sget (inst s') (DataKey.SnapshotData i) = Some sn /\
          i < setting (inst s') DataKey.SnapshotCount 0) as [D' Hi'].
  { destruct (footprint k DataKey.SnapshotCount) eqn:Hf.
    - destruct k; try discriminate Hf. simpl in R. unfold run in R.
      apply bind_Ok in R as (j & s1 & R & [_ ->]%ret_Ok).
      destruct (create_snapshot_Ok _ _ _ _ _ _ _ L R) as (-> & h & -> & _).
      rewrite setting_sset_eq. rewrite !sset_ne by (try done; intros [=]; lia). split; [done|lia].
    - pose proof (exec_spared k _ _ _ _ R) as K. unfold spared in K. unfold setting.
      rewrite !K; [done|by rewrite Hf|].
      assert (footprint k (DataKey.SnapshotData i) = false) as -> by (by destruct k). done. }
  split; try done.
  - split; [lia|]. destruct (Z.eqb_spec (sn_event_count sn) 0) as [->|]; [apply L'|].
    destruct Hh as (id & e & E & _). apply P in E.
    destruct (entry_index _ _ _ _ _ _ (live_frame _ _ _ L') E). lia.
  - destruct (Z.eqb (sn_event_count sn) 0); [done|]. destruct Hh as (id & e & E & Hh).
    exists id, e. split; [by apply P|done].
Qed.

Lemma Agrees_verifies i sn n c s :
  Agrees (cx_self c) i sn (inst s) n -> verify_snapshot i c s = Ok (true, s).
Proof.
  intros [L D Hi Hc Hh]. unfold verify_snapshot.
  assert (get_snapshot i c s = Ok (sn, s)) as Hg.
  { unfold get_snapshot. rewrite (bind_run _ _ _ _ _ _ (require_initialized_run _ c s n L)).
    unfold bind, iget. by rewrite D. }
  rewrite (bind_run _ _ _ _ _ _ Hg), (bind_run _ _ _ _ _ _ (total_events_run _ c s n L)).
  destruct (Z.ltb_spec n (sn_event_count sn)); [lia|].
  destruct (Z.eqb_spec (sn_event_count sn) 0); [by rewrite Hh, bool_decide_true|].
  destruct Hh as (id & e & [Eo Ed]%entry_Some & Hh). unfold bind, event_at, iget. unfold bind.
  rewrite Eo, Ed. unfold ret. by rewrite Hh, bool_decide_true.
Qed.

(** C19: A snapshot verifies from the moment it is taken, through any number of
    calls that append, read, archive or administer, as long as no event is
    updated, rolled back or erased. *)
Theorem snapshot_stays_valid self a d c c' s s1 s2 i :
  reachable self s -> cx_self c = self -> cx_self c' = self ->
  create_snapshot a d c s = Ok (i, s1) -> rtc (calm_step self) s1 s2 ->
  verify_snapshot i c' s2 = Ok (true, s2).
Proof.
  intros [n L]%reachable_Live <- Hc' R Hs.
  destruct (create_snapshot_Agrees _ _ _ _ _ _ _ L R) as (sn & A).
  assert (exists n', Agrees (cx_self c) i sn (inst s2) n') as [n' A'].
  { clear L R. revert n A. induction Hs as [|s1 t s2 Hstep _ IH]; intros n A; [by exists n|].
    destruct (calm_step_Agrees _ _ _ _ _ _ A Hstep) as [n' A']. by apply (IH n'). }
  rewrite <- Hc' in A'. by eapply Agrees_verifies.
Qed.

End SnapshotProps.

(** A snapshot of the sample history, then a fourth event. *)
Definition s_snapped : St := post (create_snapshot owner [7]) (at_time 1040) s3.
Definition s_later : St :=
  call_at 1050 (CLogEvent alice "login" [8] None None false) s_snapped.

Lemma snapshot_stays_valid_witness :
  verify_snapshot 0 (at_time 1060) s_later = Ok (true, s_later).
Proof.
  assert (outcome (create_snapshot owner [7]) (at_time 1040) s3 = Ok 0) as R by (vm_compute;
    reflexivity).
  refine (snapshot_stays_valid ledger owner [7] (at_time 1040) (at_time 1060) s3 s_snapped s_later 0
    s3_reachable eq_refl eq_refl (ok_post _ _ _ _ R) _).
  apply rtc_once. left. exists (CLogEvent alice "login" [8] None None false), (at_time 1050).
  split; [reflexivity|]. split; [reflexivity|]. unfold s_later, call_at.
  apply ok_post. vm_compute. reflexivity.
Defined.

(** * Properties of the encodings and of the archive *)

(** ** Run-length encoding *)

(** Runs followed by something are restored. *)
Lemma expand_prefix rs k :
  Forall (fun r => 1 <= Z.of_nat r.2) rs -> Forall (fun r => Z.of_nat r.2 < 65536) rs -> k <> [] ->
  expand_loop ((rs ≫= (fun '(b, n) => encode_run b n)) ++ k)
  = (rs ≫= (fun '(b, n) => replicate n b)) ++ expand_loop k.
Proof.
  intros H1 H2 Hk. induction rs as [|[b n] rs IH]; [done|].
  apply Forall_cons in H1 as [H1 H1']. apply Forall_cons in H2 as [H2 H2']. simpl in H1, H2.
  change (mbind ?f (?x :: ?k)) with (f x ++ mbind f k). cbv beta iota. rewrite <- !app_assoc.
  rewrite expand_run; [by rewrite IH|]. right. split; [done|].
  intros E. apply app_eq_nil in E as [_ ->]. done.
Qed.

Lemma expand_short l : (length l <= 3)%nat -> (length (expand_loop l) <= length l)%nat.
Proof.
  intros Hl. destruct l as [|x [|y [|z [|w l]]]]; simpl in *; try lia;
    repeat case_match; simpl; try lia.
Qed.

(** The last run comes back as at most three bytes, and two when it had three. *)
Lemma expand_last b n :
  (3 <= n)%nat -> (length (expand_loop (encode_run b n)) < n)%nat.
Proof.
  intros Hn. unfold encode_run. destruct (Nat.leb_spec 3 n); [|lia].
  change (expand_loop (1 :: ?l)) with (expand_loop l).
  destruct (decide (n = 3)%nat) as [->|Hne].
  - simpl. repeat case_match; simpl; lia.
  - pose proof (expand_short [b; Z.land (Z.of_nat n) 255; Z.land (Z.shiftr (Z.of_nat n) 8) 255]
      ltac:(simpl; lia)) as Hs. simpl length in Hs at 2. lia.
Qed.

Lemma expand_compress m :
  expand_archived_metadata (compress_bytes m)
  = expand_loop (runs m ≫= (fun '(b, n) => encode_run b n)).
Proof.
  unfold compress_bytes, expand_archived_metadata. simpl. by rewrite compress_loop_runs.
Qed.

(** C20: Expanding compressed metadata gives them back exactly when their last
    run of equal bytes is shorter than three (their runs being shorter than
    65536): the expansion drops a run that ends the payload. *)
Theorem compression_round_trips_iff m :
  Forall (fun r => Z.of_nat r.2 < 65536) (runs m) ->
  expand_archived_metadata (compress_bytes m) = m
  <-> (forall b n, last (runs m) = Some (b, n) -> (n < 3)%nat).
Proof.
  intros Hr. rewrite expand_compress. unfold runs in *.
  pose proof (runs_loop_pos (length m) m) as Hp.
  pose proof (runs_loop_flat (length m) m ltac:(lia)) as Hf.
  set (rs := runs_loop (length m) m) in *. split.
  - intros E b n [rs' ->]%last_Some. destruct (decide (n < 3)%nat) as [|Hn]; [done|exfalso].
    apply Forall_app in Hr as [Hr _]. apply Forall_app in Hp as [Hp _].
    rewrite bind_app in E, Hf. simpl in E, Hf. rewrite app_nil_r in E, Hf.
    rewrite expand_prefix in E; [|done|done|].
    + rewrite Hf in E. apply app_inv_head in E.
      pose proof (expand_last b n ltac:(lia)) as Hl. rewrite E, length_replicate in Hl. lia.
    + destruct (encode_run_nonempty b n) as (x & k & ->); [lia|done].
  - intros Hl. rewrite expand_runs by done. done.
Qed.

Section ArchiveProps.
Context `{H : Host}.

(** ** Packed indices *)

(** The packed index of an event type is a list: pushing a position on the
    packed form of a list gives the packed form of the list with it at the end,
    [event_type_count] is the length, and [get_type_index] returns its elements
    as long as the packed bytes stay below the range of their [u32] offsets. *)
Theorem type_index_is_a_list et l v c s u s' :
  setting (inst s) (DataKey.EventTypeIndices et) [] = pack l -> Forall is_u32 l -> is_u32 v ->
  4 * (len l + 1) <= u32_max ->
  push_type_index et v c s = Ok (u, s') ->
  sget (inst s') (DataKey.EventTypeIndices et) = Some (pack (l ++ [v])) /\
  event_type_count et c s' = Ok (len l + 1, s') /\
  forall k x, vget (l ++ [v]) k = Some x -> get_type_index et k c s' = Ok (x, s').
Proof.
  intros El Hl Hv Hm R. assert (len (l ++ [v]) = len l + 1) as Hs by (by rewrite len_app).
  unfold push_type_index in R.
  apply bind_Ok in R as (p & s1 & R1 & R). injection R1 as Ep <-.
  change (setting (inst s) (DataKey.EventTypeIndices et) [] = p) in Ep. rewrite El in Ep. subst p.
  injection R as _ <-. cbn [inst]. rewrite pack_snoc.
  assert (sget (sset (inst s) (DataKey.EventTypeIndices et) (pack (l ++ [v])))
            (DataKey.EventTypeIndices et) = Some (pack (l ++ [v]))) as Es by apply (sset_eq (L := ledger_layout)).
  split; [exact Es|]. split.
  - unfold event_type_count, bind, iget_or. cbn [inst]. rewrite Es. unfold ret.
    by rewrite packed_count_pack, Hs.
  - intros k x Hx. unfold get_type_index, bind, iget_or, iget. cbn [inst]. rewrite Es. simpl.
    assert (Forall is_u32 (l ++ [v])) as Ha by (by apply Forall_app; split; [|apply Forall_singleton]).
    pose proof (vget_Some_bounds _ _ _ Hx) as Hk. rewrite Hs in Hk.
    unfold read_packed. destruct (Z.ltb_spec u32_max (k * 4)); [lia|].
    erewrite bind_run by (apply u32_add_run; lia). rewrite len_pack, Hs. destruct (Z.ltb_spec (4 *
      (len l + 1)) (k * 4 + 4)); [lia|].
    erewrite bind_run by done. by rewrite (read_pack _ _ _ Ha Hx).
Qed.

(** ** The archive *)

(** What [archive_onchain] stores of an event. *)
Definition stored_copy (cfg : ArchiveConfig) (e : Event) (meta : Bytes) : Event :=
  if compressing cfg then with_metadata e (compress_bytes meta) else e.

(** What [get_archived_event] makes of a stored copy. *)
Definition read_copy (e : Event) : Event :=
  if is_compressed_tag (ev_metadata e)
  then with_metadata e (expand_archived_metadata (ev_metadata e)) else e.

(** The keys of the log and the metadata, which archiving leaves alone. *)
Definition unarchived (k : DataKey) : bool :=
  ledger_key k || match k with DataKey.EventMetadata _ => true | _ => false end.

Definition flagged (st : store) (id : Hash) : bool := shas st (DataKey.EventArchivedFlag id).

(** The effect of archiving one event on the chain. *)
Record Copied (cfg : ArchiveConfig) (id : Hash) (e : Event) (st st' : store) : Prop := {
  cp_keeps : forall k, unarchived k = true -> sget st' k = sget st k;
  cp_flag : forall id', flagged st' id' = bool_decide (id' = id) || flagged st id';
  cp_copy : sget st' (DataKey.ArchivedEventData id) =
    Some (stored_copy cfg e (setting st (DataKey.EventMetadata id) []));
  cp_other : forall id', id' <> id ->
    sget st' (DataKey.ArchivedEventData id') = sget st (DataKey.ArchivedEventData id') }.

Lemma archive_one_Ok cfg pg i id e c s pg' s' :
  ac_offchain_storage cfg = false -> archive_one cfg pg i id e c s = Ok (pg', s') ->
  pg_cursor pg' = i + 1 /\ Copied cfg id e (inst s) (inst s').
Proof.
  unfold archive_one. intros Hoff R. rewrite Hoff in R.
  apply bind_Ok in R as (o & s1 & R1 & R). injection R1 as _ <-.
  apply bind_Ok in R as (u & s1 & R1 & R).
  assert (forall k, unarchived k = true \/ (exists id, k = DataKey.EventArchivedFlag id) \/
            (exists id, k = DataKey.ArchivedEventData id) -> sget (inst s1) k = sget (inst s) k) as K1.
  { intros k Hk. destruct o; [|by minv]. injection R1 as _ <-. cbn [inst].
    rewrite sset_ne; [done|]. intros <-. naive_solver. }
  apply bind_Ok in R as (meta & s2 & R2 & R). injection R2 as Em <-.
  change (setting (inst s1) (DataKey.EventMetadata id) [] = meta) in Em.
  assert (setting (inst s) (DataKey.EventMetadata id) [] = meta) as Em'
    by (rewrite <- Em; unfold setting; by rewrite K1 by (by left)).
  apply bind_Ok in R as (u1 & s2 & R2 & R).
  assert (exists m', inst s2 = sset (sset (inst s1) (DataKey.ArchivedEventData id)
            (stored_copy cfg e meta)) (DataKey.ArchivedEventMetadata id) m') as [m' E2].
  { unfold archive_onchain, stored_copy in *. destruct (compressing cfg);
      apply bind_Ok in R2 as (u2 & t & R2 & R3); injection R2 as _ <-; injection R3 as _ <-;
      by eexists. }
  assert (pg_cursor pg' = i + 1 /\ inst s' = sset (sset (inst s2) (DataKey.EventArchivedFlag id) true)
            (DataKey.ArchivedEventOrder (pg_archived pg)) id) as [Hp ->].
  { apply bind_Ok in R as (n1 & t & R3 & R). assert (t = s2) as -> by (by mcase).
    apply bind_Ok in R as (n2 & t & R4 & R). assert (t = s2) as -> by (by minv). clear R3 R4.
    by minv. }
  split; [done|]. rewrite E2. clear R R1 R2 E2. split.
  - intros k Hk. rewrite !sset_ne by (by intros <-). apply K1. by left.
  - intros id'. unfold flagged, shas. rewrite sset_ne by done. destruct (bool_decide_reflect (id' =
    id)) as [->|Hne].
    + by rewrite sset_eq.
    + rewrite sset_ne by congruence. rewrite !sset_ne by done. rewrite K1; [done|]. right; left. by
      eexists.
  - rewrite !(sset_ne _ _ (DataKey.ArchivedEventData id)) by done. rewrite sset_eq. by rewrite Em'.
  - intros id' Hne. rewrite !sset_ne by (try done; congruence). apply K1. right; right. by eexists.
Qed.

(** What the scan from [i] on has done when it stops at [stop]. *)
Record Archived (cfg : ArchiveConfig) (cut i stop n : Z) (st st' : store) : Prop := {
  av_keeps : forall k, unarchived k = true -> sget st' k = sget st k;
  av_le : i <= stop;
  av_flagged : forall id, flagged st id = true -> flagged st' id = true /\
    sget st' (DataKey.ArchivedEventData id) = sget st (DataKey.ArchivedEventData id);
  av_copied : forall k id e, i <= k < stop -> entry st k = Some (id, e) -> flagged st id = false ->
    ev_timestamp e < cut /\ flagged st' id = true /\
    sget st' (DataKey.ArchivedEventData id) =
      Some (stored_copy cfg e (setting st (DataKey.EventMetadata id) []));
  av_stop : i <= n -> stop < n -> exists id e, entry st stop = Some (id, e) /\ cut <= ev_timestamp e }.

Lemma unarchived_entry st st' k :
  (forall k, unarchived k = true -> sget st' k = sget st k) -> entry st' k = entry st k.
Proof.
  intros K. unfold entry. rewrite K by done. destruct (sget st (DataKey.EventOrder k)); [|done].
  by rewrite K.
Qed.

Lemma Archived_step cfg cut i stop n st s1 st' id e :
  Copied cfg id e st s1 -> flagged st id = false -> entry st i = Some (id, e) ->
  ev_timestamp e < cut -> Archived cfg cut (i + 1) stop n s1 st' -> i < n ->
  Archived cfg cut i stop n st st'.
Proof.
  intros [K F C O] Hf E He [K' Hle F' A St] Hn. split.
  - intros k Hk. by rewrite K', K.
  - lia.
  - intros id' Hid. assert (id' <> id) as Hne by (intros ->; congruence).
    destruct (F' id') as [? ->]; [by rewrite F, Hid, orb_true_r|]. split; [done|by apply O].
  - intros k id' e' Hk E' Hid. destruct (decide (id' = id)) as [->|Hne].
    + assert (e' = e) as ->.
      { apply entry_Some in E as [_ E]. apply entry_Some in E' as [_ E']. congruence. }
      destruct (F' id) as [Hfl ->]; [by rewrite F, bool_decide_true|]. by rewrite C.
    + assert (k <> i) as Hki by congruence.
      destruct (A k id' e') as (? & ? & Ea); [lia|by rewrite (unarchived_entry st s1 k K)| |].
      * rewrite F. by rewrite bool_decide_false.
      * split; [done|]. split; [done|]. rewrite Ea. unfold setting. by rewrite K.
  - intros _ Hs. destruct St as (id' & e' & E' & Ht); [lia|done|].
    exists id', e'. split; [|done]. by rewrite <- (unarchived_entry st s1 stop K).
Qed.

Lemma archive_loop_Ok cfg cut n c (m : nat) : forall i pg s pg' s',
  ac_offchain_storage cfg = false -> m = Z.to_nat (n - i) -> pg_cursor pg = i ->
  archive_loop cfg cut pg (range i n) c s = Ok (pg', s') ->
  Archived cfg cut i (pg_cursor pg') n (inst s) (inst s').
Proof.
  induction m as [|m IH]; intros i pg s pg' s' Hoff Hm Hp R.
  - rewrite range_nil in R by lia. injection R as <- <-. rewrite Hp. split; try done; try lia.
  - rewrite range_cons in R by lia. simpl in R.
    apply bind_Ok in R as (o & s1 & R1 & R). injection R1 as Eo <-.
    apply bind_Ok in R as (id & s1 & R1 & R). apply unwrap_Ok in R1 as [-> ->].
    apply bind_Ok in R as (f & s1 & R1 & R). injection R1 as Ef <-.
    change (flagged (inst s) id = f) in Ef. destruct f.
    + apply bind_Ok in R as (j & s1 & R1 & R). apply u32_add_Ok in R1 as (-> & _ & ->).
      destruct (IH (i + 1) (skip_to pg (i + 1)) _ _ _ Hoff ltac:(lia) eq_refl R) as [K Hle F A St].
      split; [done|lia|done| |intros _; apply St; lia].
      intros k id' e Hk E Hf. destruct (decide (k = i)) as [->|]; [|apply (A k); [lia|done|done]].
      apply entry_Some in E as [E _]. congruence.
    + apply bind_Ok in R as (oe & s1 & R1 & R). injection R1 as Ee <-.
      apply bind_Ok in R as (e & s1 & R1 & R). apply unwrap_Ok in R1 as [-> ->].
      assert (entry (inst s) i = Some (id, e)) as E by (by apply entry_Some).
      destruct (Z.leb_spec cut (ev_timestamp e)).
      * injection R as <- <-. rewrite Hp. split; try done; try lia. intros _ _. by exists id, e.
      * apply bind_Ok in R as (pg1 & s1 & R1 & R).
        destruct (archive_one_Ok _ _ _ _ _ _ _ _ _ Hoff R1) as [Hp1 Cp].
        eapply Archived_step; [exact Cp|done|exact E|done| |lia].
        by apply (IH (i + 1) pg1 s1 pg' s' Hoff ltac:(lia) Hp1).
Qed.

Lemma read_stored cfg e meta :
  read_copy (stored_copy cfg e meta) =
    if compressing cfg then with_metadata e (expand_archived_metadata (compress_bytes meta))
    else read_copy e.
Proof.
  unfold read_copy, stored_copy. destruct (compressing cfg); [|done]. cbn [ev_metadata with_metadata].
  assert (is_compressed_tag (compress_bytes meta) = true) as ->; [|done].
  unfold is_compressed_tag, compress_bytes. rewrite len_cons.
  pose proof (len_nonneg (compress_loop (length meta) meta)).
  destruct (Z.leb_spec 1 (1 + len (compress_loop (length meta) meta))); [done|lia].
Qed.

Context `{!CollisionFree}.

(** An on-chain archive run moves the scan cursor forward past events older
    than the cutoff and stops at the first that is not; it leaves the log as it
    is, and [get_archived_event] then returns each event passed for the first
    time: unchanged when nothing is compressed and the metadata do not start
    with the compression tag, with its metadata compressed and expanded when
    compression is on. *)
Theorem archived_events_read_back self a cut c s moved s' n :
  reachable self s -> cx_self c = self -> total_events c s = Ok (n, s) ->
  let cfg := setting (inst s) DataKey.ArchiveConfig default_archive_config in
  ac_offchain_storage cfg = false ->
  archive_events a cut c s = Ok (moved, s') ->
  let start := setting (inst s) DataKey.ArchiveScanCursor 0 in
  let stop := setting (inst s') DataKey.ArchiveScanCursor 0 in
  same_ledger (inst s) (inst s') /\ start <= stop /\
  (start <= n -> stop < n -> exists id e, entry (inst s) stop = Some (id, e) /\ cut <= ev_timestamp
    e) /\
  forall k id e, start <= k < stop -> entry (inst s) k = Some (id, e) ->
    flagged (inst s) id = false -> ev_timestamp e < cut /\
    get_archived_event id c s' = Ok
      (if compressing cfg
       then with_metadata e (expand_archived_metadata
              (compress_bytes (setting (inst s) (DataKey.EventMetadata id) [])))
       else read_copy e, s').
Proof.
  intros [n' L]%reachable_Live <- Ht cfg Hoff R start stop.
  rewrite (total_events_run _ c _ _ L) in Ht. injection Ht as ->.
  unfold archive_events in R. apply bind_Ok in R as (u & s1 & R1 & R).
  apply require_auth_Ok in R1 as [_ ->]. apply bind_Ok in R as (u1 & s1 & R1 & R).
  assert (s1 = s) as ->.
  { unfold require_owner_or_multisig, rbac_enabled, require_role_min, is_addr_owner, get_owners,
      rbac_enabled in R1. by mcase. }
  rewrite (bind_run _ _ _ _ _ _ (total_events_run _ c _ _ L)) in R.
  do 5 (let x := fresh "x" in let E := fresh "E" in
        apply bind_Ok in R as (x & ? & E & R); injection E as E <-).
  apply bind_Ok in R as (pg & s2 & R2 & R).
  change (cfg = x) in E. change (start = x3) in E3. subst x x3.
  apply (archive_loop_Ok cfg cut n c (Z.to_nat (n - start)) start) in R2 as [K Hle F A St];
    [|done..].
  assert (stop = pg_cursor pg /\ forall k, unarchived k = true \/
            (exists id, k = DataKey.ArchivedEventData id) -> sget (inst s') k = sget (inst s2) k)
    as [Es K'].
  { apply bind_Ok in R as (u2 & t & R3 & R). injection R3 as _ <-.
    apply bind_Ok in R as (u3 & t & R3 & R). injection R3 as _ <-.
    apply bind_Ok in R as (u4 & t & R3 & R). assert (inst s' = inst t) as Et by (by minv).
    unfold stop. rewrite Et. clear R Et stop.
    destruct (Z.ltb 0 (pg_moved pg)); minv; (split;
      [by unfold setting; sget_simpl
      |intros k Hk; rewrite !sset_ne; [done|..]; intros <-; naive_solver]). }
  rewrite Es. split; [|split; [done|split; [done|]]].
  - intros k Hk. rewrite K' by (left; unfold unarchived; by rewrite Hk). apply K.
    unfold unarchived. by rewrite Hk.
  - intros k id e Hk E Hf. destruct (A k id e Hk E Hf) as (Ht & _ & Ec). split; [done|].
    unfold get_archived_event, bind, iget. rewrite K' by (right; by eexists). rewrite Ec.
    change (@Ok ContractError _ (read_copy (stored_copy cfg e (setting (inst s) (DataKey.EventMetadata id) [])), s') =
      Ok (if compressing cfg then with_metadata e (expand_archived_metadata
              (compress_bytes (setting (inst s) (DataKey.EventMetadata id) []))) else read_copy e, s')).
    by rewrite read_stored.
Qed.

End ArchiveProps.

(** ** Witnesses *)

Lemma compression_round_trips_iff_witness :
  expand_archived_metadata (compress_bytes [5; 5; 5; 5; 7]) = [5; 5; 5; 5; 7].
Proof.
  apply (proj2 (compression_round_trips_iff [5; 5; 5; 5; 7]
    ltac:(apply (bool_decide_unpack _); vm_compute; reflexivity))).
  intros b n E. vm_compute in E. injection E as <- <-. lia.
Defined.

(** A payload that ends in a run comes back shorter. *)
Example trailing_run_lost :
  expand_archived_metadata (compress_bytes [7; 5; 5; 5; 5]) = [7; 5; 4].
Proof. vm_compute. reflexivity. Qed.

Lemma type_index_is_a_list_witness :
  event_type_count "login" (at_time 1040) (post (push_type_index "login" 7) (at_time 1040) s3)
    = Ok (3, post (push_type_index "login" 7) (at_time 1040) s3).
Proof.
  set (m := push_type_index "login" 7). assert (outcome m (at_time 1040) s3 = Ok tt) as R by
    (vm_compute; reflexivity).
  pose proof (ok_post m (at_time 1040) s3 tt R) as R'. subst m.
  exact (proj1 (proj2 (type_index_is_a_list "login" [0; 2] 7 (at_time 1040) s3 tt _
    ltac:(vm_compute; reflexivity) ltac:(repeat constructor; done) ltac:(vm_compute; split;
      discriminate)
    ltac:(vm_compute; discriminate) R'))).
Defined.

Lemma archived_events_read_back_witness :
  outcome (archive_events owner 1025) (at_time 1040) s3 = Ok 2 /\
  same_ledger (inst s3) (inst (post (archive_events owner 1025) (at_time 1040) s3)) /\
  exists id e, entry (inst (s3)) 2 = Some (id, e) /\ 1025 <= ev_timestamp e.
Proof.
  set (m := archive_events owner 1025). assert (outcome m (at_time 1040) s3 = Ok 2) as R by
    (vm_compute; reflexivity).
  split; [exact R|]. pose proof (ok_post m (at_time 1040) s3 2 R) as R'.
  assert (setting (inst (post m (at_time 1040) s3)) DataKey.ArchiveScanCursor 0 = 2) as Ec
    by (vm_compute; reflexivity).
  subst m.
  destruct (archived_events_read_back ledger owner 1025 (at_time 1040) s3 2 _ 3 s3_reachable eq_refl
    (total_run 1040 s3 3 s3_reachable ltac:(vm_compute; reflexivity))
    ltac:(vm_compute; reflexivity) R') as (SL & _ & St & _).
  split; [exact SL|]. rewrite Ec in St. apply St; [|reflexivity].
  vm_compute. discriminate.
Defined.
