(* ===== verification/SchemaProps.v ===== *)
(** * Properties of the schema registry and the compatibility check *)

From Stdlib Require Import Sorted.
From S2P Require Import Prelude Contract StorageLemmas Types Storage Codec Access Chain Logging Batch.
From S2P Require Import Queries Versions Archive Governance Schemas Proposals Retention Invariant Submission VersionSpec.
From S2P Require Import Ledger Reads AppendOnly Footprint Sample Admission Clearance.

(** ** The sorted list of versions *)

Lemma contains_u32_In l v : contains_u32 l v = true <-> v ∈ l.
Proof.
  unfold contains_u32. rewrite existsb_exists. setoid_rewrite Z.eqb_eq.
  rewrite list_elem_of_In. naive_solver.
Qed.

Lemma insert_elem l v x : x ∈ insert_u32_sorted l v <-> x = v \/ x ∈ l.
Proof.
  induction l as [|y l IH]; simpl; [set_solver|].
  destruct (Z.ltb v y); [set_solver|]. rewrite !elem_of_cons, IH. naive_solver.
Qed.

Lemma insert_sorted l v :
  StronglySorted Z.lt l -> v ∉ l -> StronglySorted Z.lt (insert_u32_sorted l v).
Proof.
  induction l as [|y l IH]; intros Hs Hv; simpl; [repeat constructor|].
  apply StronglySorted_inv in Hs as [Hs Hy]. destruct (Z.ltb_spec v y) as [Hlt|Hge].
  - constructor; [by constructor|]. constructor; [done|].
    eapply Forall_impl; [exact Hy|]. simpl. lia.
  - apply not_elem_of_cons in Hv as [Hne Hv]. constructor; [by apply IH|].
    apply Forall_forall. intros x [->|Hx]%insert_elem; [lia|].
    by eapply Forall_forall in Hx; [|exact Hy].
Qed.

Section SchemaProps.
Context `{H : Host}.

(** ** The registry *)

(** The versions listed for a type are in order and are those that have a
    schema, each schema under its own version. *)
Definition Registry_ok (st : store) : Prop := forall et,
  StronglySorted Z.lt (setting st (DataKey.SchemaVersions et) []) /\
  (forall v, v ∈ setting st (DataKey.SchemaVersions et) [] <->
             is_Some (sget st (DataKey.EventSchema et v))) /\
  forall v sc, sget st (DataKey.EventSchema et v) = Some sc -> sc_version sc = v /\ v <> 0.

Lemma governance_entry_Ok a c s u s' : governance_entry a c s = Ok (u, s') -> s' = s.
Proof.
  unfold governance_entry, require_initialized, reject_when_paused, require_owner_or_multisig,
    rbac_enabled, require_role_min, is_addr_owner, get_owners, rbac_enabled. intros R. by mcase.
Qed.

Lemma register_schema_Ok a et sc v c s u s' :
  register_schema a et sc v c s = Ok (u, s') ->
  sc_version sc = v /\ v <> 0 /\
  let vs := setting (inst s) (DataKey.SchemaVersions et) [] in
  let st := if contains_u32 vs v then inst s
            else sset (inst s) (DataKey.SchemaVersions et) (insert_u32_sorted vs v) in
  inst s' = sset st (DataKey.EventSchema et v) sc.
Proof.
  unfold register_schema. intros R. apply bind_Ok in R as (u1 & s1 & R1 & R).
  apply governance_entry_Ok in R1 as ->. apply bind_Ok in R as (u2 & s1 & R1 & R).
  apply reject_if_Ok in R1 as [B ->]. zcase. apply bind_Ok in R as (vs & s1 & R1 & R).
  injection R1 as Ev <-. change (setting (inst s) (DataKey.SchemaVersions et) [] = vs) in Ev.
  split; [done|]. split; [done|]. rewrite Ev. clear Ev. cbv zeta.
  destruct (contains_u32 vs v); simpl in R; by minv.
Qed.

Lemma Registry_register a et sc v c s u s' :
  register_schema a et sc v c s = Ok (u, s') -> Registry_ok (inst s) -> Registry_ok (inst s').
Proof.
  intros (Hsc & Hv & Es)%register_schema_Ok Hok et'. specialize (Hok et') as (Hs & Hin & Hver).
  cbv zeta in Es. rewrite Es. clear Es.
  set (vs := setting (inst s) (DataKey.SchemaVersions et) []) in *.
  assert (setting (sset (if contains_u32 vs v then inst s
      else sset (inst s) (DataKey.SchemaVersions et) (insert_u32_sorted vs v))
      (DataKey.EventSchema et v) sc) (DataKey.SchemaVersions et') [] =
    if decide (et = et') then (if contains_u32 vs v then vs else insert_u32_sorted vs v)
    else setting (inst s) (DataKey.SchemaVersions et') []) as ->.
  { rewrite setting_sset_ne by done. destruct (decide (et = et')) as [<-|Hne].
    - destruct (contains_u32 vs v); [done|]. by rewrite setting_sset_eq.
    - destruct (contains_u32 vs v); [done|]. rewrite setting_sset_ne; [done|congruence]. }
  assert (forall w, sget (sset (if contains_u32 vs v then inst s
      else sset (inst s) (DataKey.SchemaVersions et) (insert_u32_sorted vs v))
      (DataKey.EventSchema et v) sc) (DataKey.EventSchema et' w) =
    if decide (et = et' /\ v = w) then Some sc else sget (inst s) (DataKey.EventSchema et' w)) as Eg.
  { intros w. destruct (decide (et = et' /\ v = w)) as [[<- <-]|Hne]; [by rewrite sset_eq|].
    rewrite sset_ne by (intros [=]; apply Hne; auto).
    destruct (contains_u32 vs v); [done|]. by rewrite sset_ne. }
  setoid_rewrite Eg. clear Eg. destruct (decide (et = et')) as [<-|Hne].
  - fold vs in Hs, Hin. destruct (contains_u32 vs v) eqn:Hc.
    + apply contains_u32_In in Hc. split; [done|]. split.
      * intros w. rewrite Hin. destruct (decide (et = et /\ v = w)) as [[_ <-]|]; [|done].
        split; [by eexists|intros _; by apply Hin].
      * intros w sc'. destruct (decide (et = et /\ v = w)) as [[_ <-]|]; [|apply Hver].
        by intros [= <-].
    + assert (v ∉ vs) as Hnv by (intros Hvs%contains_u32_In; congruence).
      split; [by apply insert_sorted|]. split.
      * intros w. rewrite insert_elem, Hin.
        destruct (decide (et = et /\ v = w)) as [[_ <-]|Hn]; [split; [by eexists|by left]|].
        split; [intros [->|?]; [by destruct Hn|done]|by right].
      * intros w sc'. destruct (decide (et = et /\ v = w)) as [[_ <-]|]; [|apply Hver].
        by intros [= <-].
  - split; [done|]. split; intros w.
    + rewrite Hin. by rewrite decide_False by naive_solver.
    + intros sc'. rewrite decide_False by naive_solver. apply Hver.
Qed.

Lemma reachable_Registry self s : reachable self s -> Registry_ok (inst s).
Proof.
  induction 1 as [c owners ml mb s Hc Hm R|s s' _ IH Hstep].
  - intros et. unfold setting. rewrite (initialize_spared _ _ _ _ _ _ (DataKey.SchemaVersions et)
    eq_refl R).
    split; [constructor|]. split.
    + intros v. rewrite (initialize_spared _ _ _ _ _ _ (DataKey.EventSchema et v) eq_refl R).
      split; [set_solver|by intros []].
    + intros v sc. by rewrite (initialize_spared _ _ _ _ _ _ (DataKey.EventSchema et v) eq_refl R).
  - destruct Hstep as [k c s s' Hc R|s t p _ _]; [|done].
    destruct (footprint k (DataKey.SchemaVersions "any")) eqn:Hf.
    + destruct k; try discriminate Hf. by eapply Registry_register.
    + assert (forall et, footprint k (DataKey.SchemaVersions et) = false) as H1 by (by destruct k).
      assert (forall et v, footprint k (DataKey.EventSchema et v) = false) as H2 by (by destruct k).
      pose proof (exec_spared k _ _ _ _ R) as K. unfold spared in K.
      intros et. unfold setting. rewrite K by (by rewrite H1).
      setoid_rewrite (fun v => K (DataKey.EventSchema et v) ltac:(by rewrite H2)). apply IH.
Qed.

Context `{!CollisionFree}.

(** In every reachable state the versions that [list_schemas] returns for a
    type are in strictly increasing order, [get_schema] finds a schema for
    exactly those versions, and each schema carries the version it is found
    under. *)
Theorem schema_registry_consistent self s c et :
  reachable self s -> cx_self c = self ->
  exists vs, list_schemas et c s = Ok (vs, s) /\ StronglySorted Z.lt vs /\
    forall v, exists o, get_schema et v c s = Ok (o, s) /\
      (v ∈ vs <-> is_Some o) /\ forall sc, o = Some sc -> sc_version sc = v /\ v <> 0.
Proof.
  intros Hr <-. pose proof (reachable_Registry _ _ Hr et) as (Hs & Hin & Hver).
  apply reachable_Live in Hr as [n L].
  exists (setting (inst s) (DataKey.SchemaVersions et) []). split; [|split; [done|]].
  - unfold list_schemas. by rewrite (bind_run _ _ _ _ _ _ (require_initialized_run _ c s n L)).
  - intros v. exists (sget (inst s) (DataKey.EventSchema et v)). split; [|by auto].
    unfold get_schema. by rewrite (bind_run _ _ _ _ _ _ (require_initialized_run _ c s n L)).
Qed.

(** ** Compatibility *)

(** Every field that [b] requires is required by [a]. *)
Definition covers (a b : Schema) : Prop :=
  forall f, f ∈ required_fields (sc_definition b) -> f ∈ required_fields (sc_definition a).

Lemma contains_all_covers a b :
  contains_all (required_fields (sc_definition a)) (required_fields (sc_definition b)) = true
  <-> covers a b.
Proof.
  unfold contains_all, covers. rewrite forallb_forall. setoid_rewrite existsb_exists.
  setoid_rewrite bool_decide_eq_true. setoid_rewrite list_elem_of_In. naive_solver.
Qed.

(** The verdict for the schemas in the other order. *)
Definition flip (c : SchemaCompatibility) : SchemaCompatibility :=
  match c with
  | SchemaCompatibility.Backward => SchemaCompatibility.Forward
  | SchemaCompatibility.Forward => SchemaCompatibility.Backward
  | c => c
  end.

Lemma compatibility_flip l r : compatibility r l = flip (compatibility l r).
Proof.
  unfold compatibility.
  rewrite (bool_decide_ext (sc_format r <> sc_format l) (sc_format l <> sc_format r)) by naive_solver.
  rewrite (bool_decide_ext (sc_definition r = sc_definition l) (sc_definition l = sc_definition r))
    by naive_solver.
  rewrite (Z.eqb_sym (sc_version r)).
  rewrite (bool_decide_ext (required_fields (sc_definition r) = _)
             (required_fields (sc_definition l) = required_fields (sc_definition r))) by naive_solver.
  set (L := required_fields _). set (R := required_fields _).
  destruct (bool_decide (sc_format l <> sc_format r)); [done|]. destruct (_ && _); [done|].
  destruct (bool_decide (L = R)); [done|].
  destruct (contains_all L R), (contains_all R L); try done; simpl;
    destruct (Z.ltb_spec (sc_version l) (sc_version r)), (Z.ltb_spec (sc_version r) (sc_version l));
    done || lia.
Qed.

(** [is_backward_compatible] holds of two schemas exactly when they have
    the same format and either are the same definition and version, or list the
    same required fields in the same order, or the first requires all that the
    second requires and more; [is_forward_compatible] is the same test with the
    schemas exchanged. *)
Theorem backward_compatible_iff self s c l r :
  reachable self s -> cx_self c = self ->
  is_forward_compatible r l c s = is_backward_compatible l r c s /\
  exists b, is_backward_compatible l r c s = Ok (b, s) /\
    (b = true <-> sc_format l = sc_format r /\
      ((sc_definition l = sc_definition r /\ sc_version l = sc_version r) \/
       required_fields (sc_definition l) = required_fields (sc_definition r) \/
       (covers l r /\ ~ covers r l))).
Proof.
  intros [n L]%reachable_Live <-.
  pose proof (require_initialized_run _ c s n L) as Hi.
  assert (forall l r, check_schema_compatibility l r c s = Ok (compatibility l r, s)) as Hc.
  { intros l' r'. unfold check_schema_compatibility. by rewrite (bind_run _ _ _ _ _ _ Hi). }
  unfold is_forward_compatible, is_backward_compatible.
  rewrite !(bind_run _ _ _ _ _ _ Hi), !(bind_run _ _ _ _ _ _ (Hc _ _)). unfold ret. split.
  - rewrite (compatibility_flip l r). by destruct (compatibility l r).
  - eexists. split; [done|]. unfold compatibility.
    rewrite <- !contains_all_covers.
    destruct (bool_decide_reflect (sc_format l <> sc_format r)) as [Hf|Hf]; [simpl; naive_solver|].
    assert (sc_format l = sc_format r) as Hfe by (by apply dec_stable).
    destruct (bool_decide_reflect (sc_definition l = sc_definition r)) as [Hd|Hd];
      destruct (Z.eqb_spec (sc_version l) (sc_version r)) as [Hv|Hv]; simpl;
      [split; [by auto|done]| | |];
      destruct (bool_decide_reflect (required_fields (sc_definition l)
                                     = required_fields (sc_definition r))) as [Hr|Hr]; simpl;
      try (split; [by auto|done]);
      destruct (contains_all _ _) eqn:H1, (contains_all (required_fields (sc_definition r)) _) eqn:H2;
      simpl; repeat case_match; simpl; naive_solver.
Qed.

End SchemaProps.

(** ** Witnesses *)

(** Schemas that require the fields [a], or [a] and [b]. *)
Definition QUOTED (name : string) : Bytes := [QUOTE] ++ str_bytes name ++ [QUOTE].
Definition requiring (names : list string) (v : Z) : Schema :=
  mkSchema SchemaFormat.JsonSchemaDraft7 v
    (QUOTED "required" ++ [58; BRACKET] ++ (names ≫= QUOTED) ++ [93]) SchemaCompatibility.Unknown.

Example requiring_fields : required_fields (sc_definition (requiring ["ab"; "c"]%string 1))
  = [str_bytes "ab"; str_bytes "c"].
Proof. vm_compute. reflexivity. Qed.

(** Two versions registered out of order. *)
Definition s_registered : St :=
  call_at 1050 (CRegisterSchema owner "login" (requiring ["a"]%string 1) 1)
    (call_at 1040 (CRegisterSchema owner "login" (requiring ["a"; "b"]%string 2) 2) s3).

Lemma s_registered_reachable : reachable ledger s_registered.
Proof.
  unfold s_registered. apply reach_call; [apply reach_call; [apply s3_reachable|]|];
    vm_compute; reflexivity.
Qed.

Lemma schema_registry_consistent_witness :
  exists vs, list_schemas "login" (at_time 1060) s_registered = Ok (vs, s_registered) /\
    StronglySorted Z.lt vs.
Proof.
  destruct (schema_registry_consistent ledger s_registered (at_time 1060) "login"
    s_registered_reachable eq_refl) as (vs & R & Hs & _).
  exists vs. exact (conj R Hs).
Defined.

Lemma backward_compatible_iff_witness :
  is_forward_compatible (requiring ["a"]%string 1) (requiring ["a"; "b"]%string 2) (at_time 1060) s3
  = is_backward_compatible (requiring ["a"; "b"]%string 2) (requiring ["a"]%string 1)
      (at_time 1060) s3.
Proof.
  exact (proj1 (backward_compatible_iff ledger s3 (at_time 1060) (requiring ["a"; "b"]%string 2)
    (requiring ["a"]%string 1) s3_reachable eq_refl)).
Defined.
