(* ===== verification/Tenants.v ===== *)
(** * The multi-tenant ledger

    [MultiTenantLedger] (src/multi_tenant.rs) is a contract of its own: tenants
    with a life cycle, administrators, quotas and caps, and a separate event
    log per tenant.  This file has its data, its storage layout and every
    entry point; [TenantSpec] and [TenantProps] have what holds of them. *)

From S2P Require Import Prelude Contract Codec.

(** ** Data *)

Module TenantError.
(** [TenantError], src/multi_tenant.rs:51-86 *)
Inductive TenantError : Set :=
  | TenantAlreadyExists
  | TenantNotFound
  | NotTenantAdmin
  | TenantSuspended
  | TenantArchived
  | TenantDeleted
  | TenantQuotaExceeded
  | TenantTypeCapExceeded
  | TenantEventNotFound
  | TenantTypeIndexOutOfBounds
  | TenantMetadataTooLarge
  | TenantRateLimitExceeded
  | InvalidTenantId
  | TenantHasEvents
  | InvalidTenantConfig
  | NotGlobalOwner
  | CrossTenantAccessDenied.
End TenantError.
Abbreviation TenantError := TenantError.TenantError.

Module TenantStatus.
(** [TenantStatus], src/multi_tenant.rs:102-111 *)
Inductive TenantStatus : Set := Active | Suspended | Archived | Deleted.
#[global] Instance TenantStatus_eq_dec : EqDecision TenantStatus.
Proof. solve_decision. Defined.
End TenantStatus.
Abbreviation TenantStatus := TenantStatus.TenantStatus.

(** [TenantConfig], src/multi_tenant.rs:121-142 *)
Record TenantConfig := mkTenantConfig {
  tc_tenant_id : Symbol;
  tc_creator : Address;
  tc_status : TenantStatus;
  tc_max_events : Z;
  tc_max_metadata_bytes : Z;
  tc_rate_limit : Z;
  tc_created_at : Z;
  tc_updated_at : Z;
  tc_total_events : Z;
  tc_description : Bytes }.

(** [TenantEvent], src/multi_tenant.rs:154-173 *)
Record TenantEvent := mkTenantEvent {
  te_tenant_id : Symbol;
  te_index : Z;
  te_timestamp : Z;
  te_event_type : Symbol;
  te_submitter : Address;
  te_metadata : Bytes;
  te_sub_event_type : option Symbol;
  te_event_id : Hash;
  te_prev_hash : Hash }.

Module TenantDataKey.
(** [TenantDataKey], src/multi_tenant.rs:179-202 *)
Inductive TenantDataKey : Set :=
  | TenantIds
  | TenantConfig (t : Symbol)
  | TenantAdmin (t : Symbol) (a : Address)
  | TenantEventCount (t : Symbol)
  | TenantEventOrder (t : Symbol) (i : Z)
  | TenantEventData (t : Symbol) (id : Hash)
  | TenantTypeCount (t et : Symbol)
  | TenantTypeIndices (t et : Symbol)
  | TenantCapConfig (t et : Symbol)
  | TenantRateState (t : Symbol) (a : Address)
  | TenantPrevHash (t : Symbol).
#[global] Instance TenantDataKey_eq_dec : EqDecision TenantDataKey.
Proof. solve_decision. Defined.
End TenantDataKey.
Abbreviation TenantDataKey := TenantDataKey.TenantDataKey.

(** ** Layout *)

Inductive TenantTy : Set := VIds | VConfig | VBool | VU32 | VHash | VEvent | VBytes | VRate.
#[global] Instance TenantTy_eq_dec : EqDecision TenantTy.
Proof. solve_decision. Defined.

Definition tenant_el (t : TenantTy) : Type :=
  match t with
  | VIds => list Symbol
  | VConfig => TenantConfig
  | VBool => bool
  | VU32 => Z
  | VHash => Hash
  | VEvent => TenantEvent
  | VBytes => Bytes
  | VRate => Z * Z
  end.

Definition tenant_key_ty (k : TenantDataKey) : TenantTy :=
  match k with
  | TenantDataKey.TenantIds => VIds
  | TenantDataKey.TenantConfig _ => VConfig
  | TenantDataKey.TenantAdmin _ _ => VBool
  | TenantDataKey.TenantEventCount _ | TenantDataKey.TenantTypeCount _ _ | TenantDataKey.TenantCapConfig _ _ => VU32
  | TenantDataKey.TenantEventOrder _ _ | TenantDataKey.TenantPrevHash _ => VHash
  | TenantDataKey.TenantEventData _ _ => VEvent
  | TenantDataKey.TenantTypeIndices _ _ => VBytes
  | TenantDataKey.TenantRateState _ _ => VRate
  end.

Canonical tenant_layout : Layout := {|
  key := TenantDataKey; ty := TenantTy; el := tenant_el; layout_key_ty := tenant_key_ty;
  key_dec := _; ty_dec := _; error := TenantError; datum := Payload |}.

#[local] Abbreviation M := (CM tenant_layout).

(** ** Helpers *)

(** [get_tenant_ids], src/multi_tenant.rs:211-216 *)
Definition get_tenant_ids : M (list Symbol) := iget_or TenantDataKey.TenantIds [].

(** [save_tenant_ids], src/multi_tenant.rs:218-220 *)
Definition save_tenant_ids (ids : list Symbol) : M unit := iset TenantDataKey.TenantIds ids.

(** [tenant_exists], src/multi_tenant.rs:222-226 *)
Definition tenant_exists (t : Symbol) : M bool := ihas (TenantDataKey.TenantConfig t).

(** [get_tenant_config], src/multi_tenant.rs:228-232 *)
Definition get_config (t : Symbol) : M (option TenantConfig) := iget (TenantDataKey.TenantConfig t).

(** [save_tenant_config], src/multi_tenant.rs:234-238 *)
Definition save_tenant_config (cfg : TenantConfig) : M unit :=
  iset (TenantDataKey.TenantConfig (tc_tenant_id cfg)) cfg.

(** [is_tenant_admin], src/multi_tenant.rs:240-245 *)
Definition is_tenant_admin (t : Symbol) (a : Address) : M bool := iget_or (TenantDataKey.TenantAdmin t a) false.

(** [require_tenant_admin], src/multi_tenant.rs:247-251 *)
Definition require_tenant_admin (t : Symbol) (caller : Address) : M unit :=
  let* ok := is_tenant_admin t caller in
  reject_if (negb ok) TenantError.NotTenantAdmin.

(** [require_active_tenant], src/multi_tenant.rs:253-260 *)
Definition require_active_tenant (cfg : TenantConfig) : M unit :=
  match tc_status cfg with
  | TenantStatus.Active => ret tt
  | TenantStatus.Suspended => raise TenantError.TenantSuspended
  | TenantStatus.Archived => raise TenantError.TenantArchived
  | TenantStatus.Deleted => raise TenantError.TenantDeleted
  end.

(** [get_tenant_event_count], src/multi_tenant.rs:262-267 *)
Definition get_tenant_event_count (t : Symbol) : M Z := iget_or (TenantDataKey.TenantEventCount t) 0.

(** [get_tenant_type_count], src/multi_tenant.rs:269-277 *)
Definition get_tenant_type_count (t et : Symbol) : M Z := iget_or (TenantDataKey.TenantTypeCount t et) 0.

(** [get_tenant_config(..).unwrap_or_else(TenantNotFound)], the read that
    opens most entry points, src/multi_tenant.rs:402-403 *)
Definition config_or_not_found (t : Symbol) : M TenantConfig :=
  let* cfg := get_config t in
  unwrap_or_raise cfg TenantError.TenantNotFound.

(** The opening lines of the calls of a tenant administrator,
    src/multi_tenant.rs:399-403 *)
Definition admin_opening (caller : Address) (t : Symbol) : M TenantConfig :=
  do* require_auth caller in
  do* require_tenant_admin t caller in
  config_or_not_found t.

(** [config.status == TenantStatus::Deleted] rejected,
    src/multi_tenant.rs:542-544 *)
Definition reject_deleted (cfg : TenantConfig) : M unit :=
  reject_if (bool_decide (tc_status cfg = TenantStatus.Deleted)) TenantError.TenantDeleted.

(** A new status and [updated_at], the rest of the configuration kept,
    src/multi_tenant.rs:515-519 *)
Definition with_status (cfg : TenantConfig) (st : TenantStatus) (now : Z)
    : TenantConfig :=
  mkTenantConfig (tc_tenant_id cfg) (tc_creator cfg) st (tc_max_events cfg)
    (tc_max_metadata_bytes cfg) (tc_rate_limit cfg) (tc_created_at cfg) now
    (tc_total_events cfg) (tc_description cfg).

(** [env.events().publish((tenant, topic), data)]. *)
Definition tenant_event (topic : Symbol) (data : list Payload) : M unit :=
  publish ["tenant"%string; topic] data.

(** The stored status replaced and the change published,
    src/multi_tenant.rs:412-419 *)
Definition change_status (caller : Address) (t : Symbol) (cfg : TenantConfig)
    (st : TenantStatus) (topic : Symbol) : M unit :=
  let* now := ledger_timestamp in
  do* save_tenant_config (with_status cfg st now) in
  tenant_event topic [PAddr caller; PSym t].

(** ** Life cycle *)

(** [initialize_tenant], src/multi_tenant.rs:327-388 *)
Definition initialize_tenant (caller : Address) (t : Symbol)
    (max_events max_metadata_bytes rate_limit : Z) (description : Bytes)
    : M TenantConfig :=
  do* require_auth caller in
  let* there := tenant_exists t in
  do* reject_if there TenantError.TenantAlreadyExists in
  let* now := ledger_timestamp in
  let cfg := mkTenantConfig t caller TenantStatus.Active max_events
               (if Z.eqb max_metadata_bytes 0 then 1024 else max_metadata_bytes)
               rate_limit now now 0 description in
  do* save_tenant_config cfg in
  do* iset (TenantDataKey.TenantAdmin t caller) true in
  let* ids := get_tenant_ids in
  do* save_tenant_ids (ids ++ [t]) in
  do* iset (TenantDataKey.TenantPrevHash t) (replicate 32 0) in
  do* tenant_event "created" [PAddr caller; PSym t] in
  ret cfg.

(** [suspend_tenant], src/multi_tenant.rs:398-420 *)
Definition suspend_tenant (caller : Address) (t : Symbol) : M unit :=
  let* cfg := admin_opening caller t in
  match tc_status cfg with
  | TenantStatus.Active => change_status caller t cfg TenantStatus.Suspended "suspended"
  | TenantStatus.Suspended => ret tt
  | TenantStatus.Archived => raise TenantError.TenantArchived
  | TenantStatus.Deleted => raise TenantError.TenantDeleted
  end.

(** [resume_tenant], src/multi_tenant.rs:427-449 *)
Definition resume_tenant (caller : Address) (t : Symbol) : M unit :=
  let* cfg := admin_opening caller t in
  match tc_status cfg with
  | TenantStatus.Suspended => change_status caller t cfg TenantStatus.Active "resumed"
  | TenantStatus.Active => ret tt
  | TenantStatus.Archived => raise TenantError.TenantArchived
  | TenantStatus.Deleted => raise TenantError.TenantDeleted
  end.

(** [archive_tenant], src/multi_tenant.rs:458-480 *)
Definition archive_tenant (caller : Address) (t : Symbol) : M unit :=
  let* cfg := admin_opening caller t in
  do* reject_deleted cfg in
  if bool_decide (tc_status cfg = TenantStatus.Archived) then ret tt
  else change_status caller t cfg TenantStatus.Archived "archived".

(** [delete_tenant], src/multi_tenant.rs:498-526 *)
Definition delete_tenant (caller : Address) (t : Symbol) (force : bool) : M unit :=
  let* cfg := admin_opening caller t in
  do* reject_if (bool_decide (tc_status cfg <> TenantStatus.Archived))
        TenantError.TenantArchived in
  do* reject_if (negb force && Z.ltb 0 (tc_total_events cfg)) TenantError.TenantHasEvents in
  change_status caller t cfg TenantStatus.Deleted "deleted".

(** ** Governance of a tenant *)

(** [add_tenant_admin], src/multi_tenant.rs:536-555 *)
Definition add_tenant_admin (caller : Address) (t : Symbol) (new_admin : Address) : M unit :=
  let* cfg := admin_opening caller t in
  do* reject_deleted cfg in
  do* iset (TenantDataKey.TenantAdmin t new_admin) true in
  tenant_event "admin_added" [PAddr caller; PSym t; PAddr new_admin].

(** [remove_tenant_admin], src/multi_tenant.rs:567-589 *)
Definition remove_tenant_admin (caller : Address) (t : Symbol) (admin : Address) : M unit :=
  let* cfg := admin_opening caller t in
  do* reject_deleted cfg in
  do* iremove (TenantDataKey.TenantAdmin t admin) in
  tenant_event "admin_removed" [PAddr caller; PSym t; PAddr admin].

(** [update_tenant_config], src/multi_tenant.rs:604-642 *)
Definition update_tenant_config (caller : Address) (t : Symbol)
    (max_events max_metadata_bytes rate_limit : Z) (description : Bytes) : M unit :=
  let* cfg := admin_opening caller t in
  do* reject_deleted cfg in
  let* now := ledger_timestamp in
  do* save_tenant_config
        (mkTenantConfig (tc_tenant_id cfg) (tc_creator cfg) (tc_status cfg) max_events
           (if Z.eqb max_metadata_bytes 0 then 1024 else max_metadata_bytes) rate_limit
           (tc_created_at cfg) now (tc_total_events cfg) description) in
  tenant_event "config_updated" [PAddr caller; PSym t].

(** [set_tenant_type_cap], src/multi_tenant.rs:651-683 *)
Definition set_tenant_type_cap (caller : Address) (t et : Symbol) (cap : Z) : M unit :=
  let* cfg := admin_opening caller t in
  do* reject_deleted cfg in
  do* (if Z.eqb cap 0 then iremove (TenantDataKey.TenantCapConfig t et) else iset (TenantDataKey.TenantCapConfig t et) cap) in
  tenant_event "type_cap_set" [PAddr caller; PSym t; PSym et; PInt cap].

(** ** Logging *)

Section Hashing.
Context `{C : Crypto}.

(** [compute_tenant_event_id], src/multi_tenant.rs:286-306 *)
Definition compute_tenant_event_id (t : Symbol) (submitter : Address) (et : Symbol)
    (metadata : Bytes) (timestamp : Z) : Hash :=
  sha256 (u64_to_bytes (sym_payload t) ++ u64_to_bytes (sym_payload et) ++ str_bytes submitter
            ++ metadata ++ u64_to_bytes timestamp).
End Hashing.

(** The cap of the event type, in [log_tenant_event],
    src/multi_tenant.rs:738-751 *)
Definition tenant_type_cap_check (t et : Symbol) : M unit :=
  let* cap := iget (TenantDataKey.TenantCapConfig t et) in
  match cap with
  | Some cap =>
      let* type_count := get_tenant_type_count t et in
      reject_if (Z.leb cap type_count) TenantError.TenantTypeCapExceeded
  | None => ret tt
  end.

(** The rate limit, in [log_tenant_event], src/multi_tenant.rs:753-779 *)
Definition tenant_rate_check (t : Symbol) (submitter : Address) (limit : Z) : M unit :=
  if Z.ltb 0 limit then
    let* now := ledger_timestamp in
    let* rate := iget_or (TenantDataKey.TenantRateState t submitter) (0, 0) in
    let '(last_ts, count) := rate in
    if Z.eqb now last_ts then
      do* reject_if (Z.leb limit count) TenantError.TenantRateLimitExceeded in
      let* count' := u32_add count 1 in
      iset (TenantDataKey.TenantRateState t submitter) (now, count')
    else iset (TenantDataKey.TenantRateState t submitter) (now, 1)
  else ret tt.

(** The packed index and the count of the event type, in [log_tenant_event],
    src/multi_tenant.rs:830-849 *)
Definition tenant_index_type (t et : Symbol) (index : Z) : M unit :=
  let* type_count := get_tenant_type_count t et in
  let* type_indices := iget_or (TenantDataKey.TenantTypeIndices t et) [] in
  do* iset (TenantDataKey.TenantTypeIndices t et) (type_indices ++ u32_to_bytes index) in
  let* type_count' := u32_add type_count 1 in
  iset (TenantDataKey.TenantTypeCount t et) type_count'.

(** The new total in the configuration and in its mirror, in
    [log_tenant_event], src/multi_tenant.rs:851-858 *)
Definition tenant_bump_total (t : Symbol) (cfg : TenantConfig) (now : Z) : M unit :=
  let* total := u32_add (tc_total_events cfg) 1 in
  do* save_tenant_config
        (mkTenantConfig (tc_tenant_id cfg) (tc_creator cfg) (tc_status cfg) (tc_max_events cfg)
           (tc_max_metadata_bytes cfg) (tc_rate_limit cfg) (tc_created_at cfg) now total
           (tc_description cfg)) in
  iset (TenantDataKey.TenantEventCount t) total.

Section Logging.
Context `{C : Crypto}.

(** The event built, stored, ordered and made the head of the chain, in
    [log_tenant_event], src/multi_tenant.rs:781-828 *)
Definition tenant_store_event (t : Symbol) (submitter : Address) (et : Symbol) (metadata : Bytes)
    (sub : option Symbol) (index now : Z) : M Hash :=
  let id := compute_tenant_event_id t submitter et metadata now in
  let* prev_hash := iget_or (TenantDataKey.TenantPrevHash t) (replicate 32 0) in
  let e := mkTenantEvent t index now et submitter metadata sub id prev_hash in
  do* iset (TenantDataKey.TenantEventData t id) e in
  do* iset (TenantDataKey.TenantEventOrder t index) id in
  do* iset (TenantDataKey.TenantPrevHash t) id in
  ret id.

(** [log_tenant_event], src/multi_tenant.rs:713-870 *)
Definition log_tenant_event (submitter : Address) (t et : Symbol) (metadata : Bytes)
    (sub : option Symbol) : M Hash :=
  do* require_auth submitter in
  let* cfg := config_or_not_found t in
  do* require_active_tenant cfg in
  do* reject_if (Z.ltb 0 (tc_max_events cfg) && Z.leb (tc_max_events cfg) (tc_total_events cfg))
        TenantError.TenantQuotaExceeded in
  do* reject_if (Z.ltb (tc_max_metadata_bytes cfg) (len metadata))
        TenantError.TenantMetadataTooLarge in
  do* tenant_type_cap_check t et in
  do* tenant_rate_check t submitter (tc_rate_limit cfg) in
  let* now := ledger_timestamp in
  let* id := tenant_store_event t submitter et metadata sub (tc_total_events cfg) now in
  do* tenant_index_type t et (tc_total_events cfg) in
  do* tenant_bump_total t cfg now in
  do* tenant_event "event_logged" [PSym t; PAddr submitter; PSym et; PHash id] in
  ret id.
End Logging.

(** ** Queries *)

(** The opening of the queries: the configuration of a tenant that is not
    deleted, src/multi_tenant.rs:891-896 *)
Definition readable_config (t : Symbol) : M TenantConfig :=
  let* cfg := config_or_not_found t in
  do* reject_deleted cfg in
  ret cfg.

(** The stored event, in the queries, src/multi_tenant.rs:898-904 *)
Definition tenant_event_or_not_found (t : Symbol) (id : Hash) : M TenantEvent :=
  let* e := iget (TenantDataKey.TenantEventData t id) in
  unwrap_or_raise e TenantError.TenantEventNotFound.

(** The identifier at a position and its event, in the queries by index,
    src/multi_tenant.rs:930-942 *)
Definition tenant_event_at (t : Symbol) (i : Z) : M TenantEvent :=
  let* id := iget (TenantDataKey.TenantEventOrder t i) in
  let* id := unwrap_or_raise id TenantError.TenantEventNotFound in
  tenant_event_or_not_found t id.

(** [get_tenant_event], src/multi_tenant.rs:886-905 *)
Definition get_tenant_event (t : Symbol) (id : Hash) : M TenantEvent :=
  do* readable_config t in
  tenant_event_or_not_found t id.

(** [get_tenant_event_by_index], src/multi_tenant.rs:914-943 *)
Definition get_tenant_event_by_index (t : Symbol) (i : Z) : M TenantEvent :=
  let* cfg := readable_config t in
  do* reject_if (Z.leb (tc_total_events cfg) i) TenantError.TenantTypeIndexOutOfBounds in
  tenant_event_at t i.

(** [type_indices.get(off).unwrap_or(0)] four times, as a little-endian
    number, src/multi_tenant.rs:987-992 *)
Definition read_index (packed : Bytes) (off : Z) : Z :=
  let byte k := match vget packed (off + k) with Some b => b | None => 0 end in
  Z.lor (Z.lor (Z.lor (byte 0) (Z.shiftl (byte 1) 8)) (Z.shiftl (byte 2) 16))
    (Z.shiftl (byte 3) 24).

(** [get_tenant_event_by_type], src/multi_tenant.rs:957-1008 *)
Definition get_tenant_event_by_type (t et : Symbol) (k : Z) : M TenantEvent :=
  do* readable_config t in
  let* type_count := get_tenant_type_count t et in
  do* reject_if (Z.leb type_count k) TenantError.TenantTypeIndexOutOfBounds in
  let* packed := iget (TenantDataKey.TenantTypeIndices t et) in
  let* packed := unwrap_or_raise packed TenantError.TenantEventNotFound in
  let* off := u32_mul k 4 in
  do* u32_add off 3 in
  tenant_event_at t (read_index packed off).

(** [tenant_total_events], src/multi_tenant.rs:1015-1024 *)
Definition tenant_total_events (t : Symbol) : M Z :=
  let* cfg := readable_config t in
  ret (tc_total_events cfg).

(** [tenant_event_count_by_type], src/multi_tenant.rs:1031-1040 *)
Definition tenant_event_count_by_type (t et : Symbol) : M Z :=
  do* readable_config t in
  get_tenant_type_count t et.

(** [tenant_accessible], src/multi_tenant.rs:1062-1067 *)
Definition tenant_accessible (t : Symbol) : M bool :=
  let* cfg := get_config t in
  ret match cfg with
      | None => false
      | Some cfg =>
          bool_decide (tc_status cfg = TenantStatus.Active)
          || bool_decide (tc_status cfg = TenantStatus.Suspended)
      end.

(** [get_tenant_config], src/multi_tenant.rs:1079-1082 *)
Definition get_tenant_config (t : Symbol) : M TenantConfig := config_or_not_found t.

(** [list_tenants], src/multi_tenant.rs:1089-1091 *)
Definition list_tenants : M (list Symbol) := get_tenant_ids.
