(* ===== verification/TenantSpec.v ===== *)
(** * The tenants as a transition system

    [tcall] lists the state-changing entry points of the multi-tenant ledger
    and [tstep] runs one.  [local t Q m] says that [m] reads and writes only
    the partition of tenant [t]; [Logged st t log] that the partition of [t]
    represents the list of events [log], in order of submission.

    The second part of the file: the event log of a tenant. *)

From stdpp Require Import relations.
From S2P Require Import Prelude Contract StorageLemmas Codec Tenants.

#[local] Abbreviation M := (CM tenant_layout).
#[local] Abbreviation store := (kvstore tenant_layout).
#[local] Abbreviation St := (CSt tenant_layout).

(** ** Partitions *)

(** The tenant whose partition a key belongs to; the registry has none. *)
Definition key_tenant (k : TenantDataKey) : option Symbol :=
  match k with
  | TenantDataKey.TenantIds => None
  | TenantDataKey.TenantConfig t | TenantDataKey.TenantAdmin t _
  | TenantDataKey.TenantEventCount t | TenantDataKey.TenantEventOrder t _
  | TenantDataKey.TenantEventData t _ | TenantDataKey.TenantTypeCount t _
  | TenantDataKey.TenantTypeIndices t _ | TenantDataKey.TenantCapConfig t _
  | TenantDataKey.TenantRateState t _ | TenantDataKey.TenantPrevHash t => Some t
  end.

(** Two stores with the same partition of [t]. *)
Definition agree (t : Symbol) (st st' : store) : Prop :=
  forall k, key_tenant k = Some t -> sget st' k = sget st k.

(** Everything else than the partition of [t] and the registry is the same. *)
Definition outside (t : Symbol) (st st' : store) : Prop :=
  forall k, key_tenant k <> Some t -> k <> TenantDataKey.TenantIds -> sget st' k = sget st k.

(** The configuration of [t] bears its name. *)
Definition named (t : Symbol) (st : store) : Prop :=
  forall cfg, sget st (TenantDataKey.TenantConfig t) = Some cfg -> tc_tenant_id cfg = t.

#[global] Instance agree_equiv t : Equivalence (agree t).
Proof.
  split.
  - done.
  - intros st st' H k Hk. by rewrite H.
  - intros s1 s2 s3 H1 H2 k Hk. rewrite H2, H1; done.
Qed.

#[global] Instance outside_preorder t : PreOrder (outside t).
Proof. split; [done|]. intros s1 s2 s3 H1 H2 k Hk Hn. rewrite H2, H1; done. Qed.

Lemma agree_sset t st st' k v : agree t st st' -> agree t (sset st k v) (sset st' k v).
Proof.
  intros H k' Hk. destruct (decide (k = k')) as [<-|n]; [by rewrite !sset_eq|].
  rewrite !sset_ne by done. by apply H.
Qed.

Lemma agree_sdel t st st' k : agree t st st' -> agree t (sdel st k) (sdel st' k).
Proof.
  intros H k' Hk. destruct (decide (k = k')) as [<-|n]; [by rewrite !sdel_eq|].
  rewrite !sdel_ne by done. by apply H.
Qed.

Lemma outside_sset t st k v : key_tenant k = Some t -> outside t st (sset st k v).
Proof. intros Hk k' Hn _. apply sset_ne. by intros <-. Qed.

Lemma outside_sdel t st k : key_tenant k = Some t -> outside t st (sdel st k).
Proof. intros Hk k' Hn _. apply sdel_ne. by intros <-. Qed.

(** ** Computations confined to a partition *)

(** From two states with the same partition of [t] both runs fail alike, or
    return the same value, which satisfies [Q], with the same partition of [t]
    and nothing else changed. *)
Definition local {A} (t : Symbol) (Q : A -> Prop) (m : M A) : Prop :=
  forall c s1 s2, named t (inst s1) -> agree t (inst s1) (inst s2) ->
    match m c s1, m c s2 with
    | Ok (a, s1'), Ok (b, s2') =>
        a = b /\ Q a /\ named t (inst s1') /\ agree t (inst s1') (inst s2') /\
        outside t (inst s1) (inst s1')
    | Err e, Err f => e = f
    | _, _ => False
    end.

Create HintDb local.

Section Local.
Context (t : Symbol).

Lemma local_bind {A B} (P : A -> Prop) (Q : B -> Prop) (m : M A) (f : A -> M B) :
  local t P m -> (forall a, P a -> local t Q (f a)) -> local t Q (bind m f).
Proof.
  intros Hm Hf c s1 s2 N A12. specialize (Hm c s1 s2 N A12). unfold bind.
  destruct (m c s1) as [[a t1]|e], (m c s2) as [[b t2]|f']; try done.
  destruct Hm as (<- & Pa & N' & A' & O). specialize (Hf a Pa c t1 t2 N' A').
  destruct (f a c t1) as [[x u1]|], (f a c t2) as [[y u2]|]; try done.
  destruct Hf as (? & ? & ? & ? & O'). split_and!; try done. by etransitivity.
Qed.

Lemma local_mono {A} (P Q : A -> Prop) (m : M A) :
  (forall a, P a -> Q a) -> local t P m -> local t Q m.
Proof.
  intros H Hm c s1 s2 N A12. specialize (Hm c s1 s2 N A12).
  destruct (m c s1) as [[a t1]|e], (m c s2) as [[b t2]|f']; naive_solver.
Qed.

(** A computation that neither reads nor writes the stores. *)
Lemma local_pure {A} (m : M A) (Q : A -> Prop) :
  (forall c s1 s2, match m c s1, m c s2 with
                   | Ok (a, s1'), Ok (b, s2') => a = b /\ Q a /\ inst s1' = inst s1 /\ inst s2' = inst s2
                   | Err e, Err f => e = f
                   | _, _ => False
                   end) -> local t Q m.
Proof.
  intros H c s1 s2 N A12. specialize (H c s1 s2).
  destruct (m c s1) as [[a t1]|e], (m c s2) as [[b t2]|f']; try done.
  destruct H as (<- & Qa & E1 & E2). rewrite E1, E2. split_and!; done.
Qed.

Lemma local_iget k : key_tenant k = Some t -> local t (fun _ => True) (iget k).
Proof. intros Hk c s1 s2 N A12. simpl. rewrite (A12 k Hk). split_and!; done. Qed.

Lemma local_iget_or k d : key_tenant k = Some t -> local t (fun _ => True) (iget_or k d).
Proof. intros Hk c s1 s2 N A12. simpl. rewrite (A12 k Hk). split_and!; done. Qed.

Lemma local_ihas k : key_tenant k = Some t -> local t (fun _ => True) (ihas k).
Proof. intros Hk c s1 s2 N A12. simpl. unfold shas. rewrite (A12 k Hk). split_and!; done. Qed.

Lemma local_iset k v :
  key_tenant k = Some t -> k <> TenantDataKey.TenantConfig t ->
  local t (fun _ => True) (iset k v).
Proof.
  intros Hk Hc c s1 s2 N A12. simpl. split_and!; try done.
  - intros cfg. rewrite sset_ne by done. apply N.
  - by apply agree_sset.
  - by apply outside_sset.
Qed.

Lemma local_iremove k :
  key_tenant k = Some t -> k <> TenantDataKey.TenantConfig t ->
  local t (fun _ => True) (iremove k).
Proof.
  intros Hk Hc c s1 s2 N A12. simpl. split_and!; try done.
  - intros cfg. rewrite sdel_ne by done. apply N.
  - by apply agree_sdel.
  - by apply outside_sdel.
Qed.

Lemma local_save cfg : tc_tenant_id cfg = t -> local t (fun _ => True) (save_tenant_config cfg).
Proof.
  intros Hc c s1 s2 N A12. unfold save_tenant_config. rewrite Hc. simpl. split_and!; try done.
  - intros cfg'. rewrite sset_eq. by intros [= <-].
  - by apply agree_sset.
  - by apply outside_sset.
Qed.

Lemma local_config : local t (fun cfg => tc_tenant_id cfg = t) (config_or_not_found t).
Proof.
  intros c s1 s2 N A12. unfold config_or_not_found, get_config, bind, iget.
  rewrite (A12 (TenantDataKey.TenantConfig t)) by done.
  destruct (sget (inst s1) (TenantDataKey.TenantConfig t)) as [cfg|] eqn:E; simpl.
  - split_and!; try done. by apply N.
  - done.
Qed.

Lemma local_opening a : local t (fun cfg => tc_tenant_id cfg = t) (admin_opening a t).
Proof.
  unfold admin_opening, require_tenant_admin, is_tenant_admin.
  apply (local_bind (fun _ => True)); [|intros _ _; apply (local_bind (fun _ => True))].
  - apply local_pure. intros c s1 s2. unfold require_auth. by destruct (cx_auth c a).
  - apply (local_bind (fun _ => True)); [by apply (local_iget_or (TenantDataKey.TenantAdmin t a))|].
    intros b _. apply local_pure. by destruct b.
  - intros _ _. apply local_config.
Qed.

Lemma local_if {A} (Q : A -> Prop) (b : bool) (m n : M A) :
  local t Q m -> local t Q n -> local t Q (if b then m else n).
Proof. by destruct b. Qed.
End Local.

Ltac local_leaf :=
  apply local_pure; intros ???;
  cbv [ret raise panic reject_if unwrap unwrap_or_raise u32_add u32_mul require_auth
       ledger_timestamp tenant_event publish];
  repeat match goal with
         | |- context [if ?b then _ else _] => destruct b
         | x : option _ |- context [match ?x with _ => _ end] => destruct x
         end; split_and?; done.

#[export] Hint Extern 1 (local _ _ (iget _)) => (apply local_iget; reflexivity) : local.
#[export] Hint Extern 1 (local ?t _ (@iget_or _ ?k ?d)) =>
  (exact (local_iget_or t k d eq_refl)) : local.
#[export] Hint Extern 1 (local _ _ (ihas _)) => (apply local_ihas; reflexivity) : local.
#[export] Hint Extern 1 (local _ _ (iset _ _)) => (apply local_iset; [reflexivity|discriminate]) : local.
#[export] Hint Extern 1 (local _ _ (iremove _)) => (apply local_iremove; [reflexivity|discriminate]) : local.
#[export] Hint Extern 1 (local _ _ (save_tenant_config _)) => (apply local_save; simpl; done) : local.
#[export] Hint Extern 1 (local _ _ (config_or_not_found _)) => apply local_config : local.
#[export] Hint Extern 2 (local _ _ _) => local_leaf : local.

(** Walks over a computation of the tenant [t]; the configuration it reads is
    the one of [t], any other intermediate value is arbitrary. *)
Ltac local_tac :=
  repeat first
    [ progress (intros)
    | solve [eauto 1 with local nocore]
    | lazymatch goal with
      | |- local ?t _ (bind (config_or_not_found _) _) =>
          apply (local_bind t (fun cfg => tc_tenant_id cfg = t)); [apply local_config|intros ? ?]
      | |- local ?t _ (bind (admin_opening _ _) _) =>
          apply (local_bind t (fun cfg => tc_tenant_id cfg = t)); [apply local_opening|intros ? ?]
      | |- local ?t _ (bind _ _) => apply (local_bind t (fun _ => True))
      | |- local _ _ (if _ then _ else _) => apply local_if
      | |- local _ _ (match ?x with _ => _ end) => destruct x eqn:?
      end ].

(** ** Calls *)

Inductive tcall : Type :=
  | TInitialize (caller : Address) (t : Symbol) (max_events max_metadata_bytes rate_limit : Z)
      (description : Bytes)
  | TSuspend (caller : Address) (t : Symbol)
  | TResume (caller : Address) (t : Symbol)
  | TArchive (caller : Address) (t : Symbol)
  | TDelete (caller : Address) (t : Symbol) (force : bool)
  | TAddAdmin (caller : Address) (t : Symbol) (admin : Address)
  | TRemoveAdmin (caller : Address) (t : Symbol) (admin : Address)
  | TUpdateConfig (caller : Address) (t : Symbol) (max_events max_metadata_bytes rate_limit : Z)
      (description : Bytes)
  | TSetTypeCap (caller : Address) (t et : Symbol) (cap : Z)
  | TLogEvent (submitter : Address) (t et : Symbol) (metadata : Bytes) (sub : option Symbol).

(** The tenant and the signer of a call. *)
Definition tcall_tenant (k : tcall) : Symbol :=
  match k with
  | TInitialize _ t _ _ _ _ | TSuspend _ t | TResume _ t | TArchive _ t | TDelete _ t _
  | TAddAdmin _ t _ | TRemoveAdmin _ t _ | TUpdateConfig _ t _ _ _ _ | TSetTypeCap _ t _ _
  | TLogEvent _ t _ _ _ => t
  end.
Definition tcall_signer (k : tcall) : Address :=
  match k with
  | TInitialize a _ _ _ _ _ | TSuspend a _ | TResume a _ | TArchive a _ | TDelete a _ _
  | TAddAdmin a _ _ | TRemoveAdmin a _ _ | TUpdateConfig a _ _ _ _ _ | TSetTypeCap a _ _ _
  | TLogEvent a _ _ _ _ => a
  end.

(** The arguments are values of their Rust types. *)
Definition tcall_typed (k : tcall) : Prop :=
  match k with
  | TInitialize _ _ m b r d | TUpdateConfig _ _ m b r d =>
      is_u32 m /\ is_u32 b /\ is_u32 r /\ Forall is_byte d
  | TSetTypeCap _ _ _ cap => is_u32 cap
  | TLogEvent _ _ _ md _ => Forall is_byte md
  | _ => True
  end.

Section Calls.
Context `{C : Crypto}.

Definition texec (k : tcall) : M unit :=
  match k with
  | TInitialize a t m b r d => do* initialize_tenant a t m b r d in ret tt
  | TSuspend a t => suspend_tenant a t
  | TResume a t => resume_tenant a t
  | TArchive a t => archive_tenant a t
  | TDelete a t force => delete_tenant a t force
  | TAddAdmin a t b => add_tenant_admin a t b
  | TRemoveAdmin a t b => remove_tenant_admin a t b
  | TUpdateConfig a t m b r d => update_tenant_config a t m b r d
  | TSetTypeCap a t et cap => set_tenant_type_cap a t et cap
  | TLogEvent a t et md sub => do* log_tenant_event a t et md sub in ret tt
  end.

(** One successful call, at any time and with any signatures. *)
Inductive tstep : St -> St -> Prop :=
  | tstep_call k c s s' :
      tcall_typed k -> is_u64 (cx_timestamp c) -> texec k c s = Ok (tt, s') -> tstep s s'.

(** The states the contract can reach; it has no constructor. *)
Definition treachable (s : St) : Prop := rtc tstep empty_state s.

(** The entry to the registry, the only access of a call outside its
    partition. *)
Lemma local_register t :
  local t (fun _ => True)
    (let* ids := get_tenant_ids in save_tenant_ids (ids ++ [t])).
Proof.
  intros c s1 s2 N A12. unfold get_tenant_ids, save_tenant_ids, bind, iget_or, iset. simpl.
  split_and!; try done.
  - intros k Hk. rewrite !sset_ne by (by intros <-). by apply A12.
  - intros k _ Hn. apply sset_ne. congruence.
Qed.

Lemma bind_assoc {A B D} (m : M A) (f : A -> M B) (g : B -> M D) c s :
  bind m (fun a => bind (f a) g) c s = bind (bind m f) g c s.
Proof. unfold bind. by destruct (m c s) as [[? ?]|]. Qed.

Lemma local_ext {A} t (Q : A -> Prop) (m n : M A) :
  (forall c s, m c s = n c s) -> local t Q n -> local t Q m.
Proof. intros E H c s1 s2. rewrite !E. apply H. Qed.

Lemma local_initialize a t m b r d : local t (fun _ => True) (initialize_tenant a t m b r d).
Proof.
  unfold initialize_tenant, tenant_exists. cbv zeta.
  repeat lazymatch goal with
  | |- local _ _ (bind get_tenant_ids _) => fail
  | |- local _ _ (bind _ _) => apply (local_bind t (fun _ => True)); [local_tac|intros ? _]
  end.
  eapply local_ext; [intros; apply bind_assoc|].
  apply (local_bind t (fun _ => True)); [apply local_register|intros ? _]. local_tac.
Qed.

Lemma local_log a t et md sub : local t (fun _ => True) (log_tenant_event a t et md sub).
Proof.
  unfold log_tenant_event, require_active_tenant, tenant_type_cap_check, tenant_rate_check,
    tenant_store_event, tenant_index_type, tenant_bump_total, get_tenant_type_count.
  local_tac.
Qed.

Lemma local_texec k : local (tcall_tenant k) (fun _ => True) (texec k).
Proof.
  destruct k; simpl;
    unfold suspend_tenant, resume_tenant, archive_tenant, delete_tenant, add_tenant_admin,
      remove_tenant_admin, update_tenant_config, set_tenant_type_cap,
      reject_deleted, change_status.
  all: try (eapply local_bind; [first [apply local_initialize | apply local_log]|]).
  all: local_tac.
Qed.
End Calls.

(** * The event log of a tenant

    [Logged st t log]: the partition of the tenant [t] in the store [st]
    represents the list [log] of the events submitted to it.  Logging appends
    one event to the list; every other call leaves it. *)


Definition zeros : Hash := replicate 32 0.

(** The last event submitted under an identifier. *)
Definition latest (id : Hash) (log : list TenantEvent) : option TenantEvent :=
  last (filter (fun e => te_event_id e = id) log).

(** The positions of the events of a type. *)
Definition positions (et : Symbol) (log : list TenantEvent) : list Z :=
  te_index <$> filter (fun e => te_event_type e = et) log.

(** The identifier the next event links to. *)
Definition head_hash (log : list TenantEvent) : Hash :=
  match last log with Some e => te_event_id e | None => zeros end.

Lemma latest_snoc id log e :
  latest id (log ++ [e]) = if decide (te_event_id e = id) then Some e else latest id log.
Proof.
  unfold latest. rewrite filter_app. simpl. rewrite filter_cons, filter_nil.
  destruct (decide (te_event_id e = id)); [by rewrite last_snoc|by rewrite app_nil_r].
Qed.

Lemma positions_snoc et log e :
  positions et (log ++ [e])
  = positions et log ++ (if decide (te_event_type e = et) then [te_index e] else []).
Proof.
  unfold positions. rewrite filter_app, fmap_app. f_equal.
  rewrite filter_cons, filter_nil. by destruct (decide (te_event_type e = et)).
Qed.

Lemma head_hash_snoc log e : head_hash (log ++ [e]) = te_event_id e.
Proof. unfold head_hash. by rewrite last_snoc. Qed.

Section Log.
Context `{C : Crypto}.

(** The event [e] is what a submission to [t] after the events [log] stores. *)
Record submission (t : Symbol) (log : list TenantEvent) (e : TenantEvent) : Prop := {
  sb_tenant : te_tenant_id e = t;
  sb_index : te_index e = len log;
  sb_id : te_event_id e
          = compute_tenant_event_id t (te_submitter e) (te_event_type e) (te_metadata e)
              (te_timestamp e);
  sb_prev : te_prev_hash e = head_hash log }.

Inductive history (t : Symbol) : list TenantEvent -> Prop :=
  | history_nil : history t []
  | history_snoc log e : history t log -> submission t log e -> history t (log ++ [e]).

Record Logged (st : store) (t : Symbol) (log : list TenantEvent) : Prop := {
  lg_history : history t log;
  lg_fits : len log <= u32_max;
  lg_config : match sget st (TenantDataKey.TenantConfig t) with
              | Some cfg => tc_tenant_id cfg = t /\ tc_total_events cfg = len log
              | None => log = []
              end;
  lg_order : forall i, sget st (TenantDataKey.TenantEventOrder t i) = te_event_id <$> vget log i;
  lg_data : forall id, sget st (TenantDataKey.TenantEventData t id) = latest id log;
  lg_head : default zeros (sget st (TenantDataKey.TenantPrevHash t)) = head_hash log;
  lg_types : forall et,
    default [] (sget st (TenantDataKey.TenantTypeIndices t et)) = pack (positions et log);
  lg_counts : forall et,
    default 0 (sget st (TenantDataKey.TenantTypeCount t et)) = len (positions et log);
  lg_count : default 0 (sget st (TenantDataKey.TenantEventCount t)) = len log }.

(** The keys that represent the log; the configuration is treated apart. *)
Definition log_key (k : TenantDataKey) : bool :=
  match k with
  | TenantDataKey.TenantEventOrder _ _ | TenantDataKey.TenantEventData _ _
  | TenantDataKey.TenantPrevHash _ | TenantDataKey.TenantTypeIndices _ _
  | TenantDataKey.TenantTypeCount _ _ | TenantDataKey.TenantEventCount _ => true
  | _ => false
  end.

Lemma Logged_ext st st' t log :
  Logged st t log ->
  (forall k, key_tenant k = Some t -> log_key k = true -> sget st' k = sget st k) ->
  match sget st' (TenantDataKey.TenantConfig t) with
  | Some cfg => tc_tenant_id cfg = t /\ tc_total_events cfg = len log
  | None => log = []
  end -> Logged st' t log.
Proof. intros [] H Hc. split; try done; intros; by rewrite H. Qed.

Lemma Logged_agree st st' t log : agree t st st' -> Logged st t log -> Logged st' t log.
Proof.
  intros H L. eapply Logged_ext; [done|by intros; apply H|].
  rewrite (H (TenantDataKey.TenantConfig t)) by done. apply L.
Qed.

Lemma Logged_empty t : Logged sempty t [].
Proof.
  split; try done; [constructor|].
  intros i. unfold vget. by destruct (Z.leb 0 i).
Qed.

Lemma history_at t log i e :
  history t log -> vget log i = Some e -> submission t (take (Z.to_nat i) log) e.
Proof.
  intros H. revert i e. induction H as [|log e H IH Hs]; intros i x Hx.
  - apply vget_Some_bounds in Hx. unfold len in Hx; simpl in Hx. lia.
  - pose proof (vget_Some_bounds _ _ _ Hx) as Hb. rewrite len_app in Hb.
    change (len [e]) with 1 in Hb. destruct (Z.lt_ge_cases i (len log)) as [Hi|Hi].
    + rewrite vget_app_l in Hx by done. rewrite take_app_le by (unfold len in Hi; lia).
      by apply IH.
    + assert (i = len log) as -> by lia. rewrite vget_app_r in Hx by lia.
      replace (len log - len log) with 0 in Hx by lia. injection Hx as <-.
      unfold len. rewrite Nat2Z.id, take_app_length. done.
Qed.

(** The writes of a submission. *)
Definition appended (st : store) (e : TenantEvent) (cfg : TenantConfig) (packed : Bytes)
    (count : Z) : store :=
  let t := te_tenant_id e in
  sset (sset (sset (sset (sset (sset (sset st
    (TenantDataKey.TenantEventData t (te_event_id e)) e)
    (TenantDataKey.TenantEventOrder t (te_index e)) (te_event_id e))
    (TenantDataKey.TenantPrevHash t) (te_event_id e))
    (TenantDataKey.TenantTypeIndices t (te_event_type e)) packed)
    (TenantDataKey.TenantTypeCount t (te_event_type e)) count)
    (TenantDataKey.TenantConfig t) cfg)
    (TenantDataKey.TenantEventCount t) (tc_total_events cfg).

Lemma Logged_append st t log e cfg :
  Logged st t log -> submission t log e -> len log < u32_max ->
  tc_tenant_id cfg = t -> tc_total_events cfg = len log + 1 ->
  Logged (appended st e cfg (pack (positions (te_event_type e) log ++ [te_index e]))
            (len (positions (te_event_type e) log) + 1)) t (log ++ [e]).
Proof.
  intros [Hh Hf Hc Ho Hd Hp Ht Hn Hk] S Hl Hid Htot. pose proof S as [St Si Sid Sp].
  assert (len [e] = 1) as L1 by done.
  split; unfold appended; rewrite ?St.
  - by constructor.
  - rewrite len_app. lia.
  - rewrite sset_ne, sset_eq by done. rewrite len_app. split; [done|lia].
  - intros i. rewrite !sset_ne by done. destruct (decide (i = te_index e)) as [->|n].
    + rewrite sset_eq, Si, vget_app_r by lia. by replace (len log - len log) with 0 by lia.
    + rewrite !sset_ne by (congruence || done). rewrite Ho. f_equal. rewrite Si in n.
      destruct (Z.lt_ge_cases i (len log)); [by rewrite vget_app_l|].
      rewrite !vget_None; [done|rewrite len_app; lia|lia].
  - intros id. rewrite !sset_ne by done. rewrite latest_snoc.
    destruct (decide (te_event_id e = id)) as [<-|n]; [by rewrite sset_eq|].
    rewrite sset_ne by congruence. apply Hd.
  - rewrite !sset_ne by done. by rewrite sset_eq, head_hash_snoc.
  - intros et. rewrite !sset_ne by done. rewrite positions_snoc.
    destruct (decide (te_event_type e = et)) as [<-|n]; [by rewrite sset_eq|].
    rewrite app_nil_r, !sset_ne by (congruence || done). apply Ht.
  - intros et. rewrite !sset_ne by done. rewrite positions_snoc, len_app.
    destruct (decide (te_event_type e = et)) as [<-|n]; [by rewrite sset_eq|].
    rewrite !sset_ne by (congruence || done). rewrite Hn. change (len []) with 0. lia.
  - rewrite sset_eq, Htot, len_app. done.
Qed.
End Log.

Lemma len_positions et log : len (positions et log) <= len log.
Proof. unfold positions, len. rewrite length_fmap. pose proof (length_filter (fun e => te_event_type e = et) log). lia. Qed.

Section Steps.
Context `{C : Crypto}.

(** The event a submission stores, and the configuration it leaves. *)
Definition new_event (c : Ctx) (log : list TenantEvent) (a : Address) (t et : Symbol)
    (md : Bytes) (sub : option Symbol) : TenantEvent :=
  mkTenantEvent t (len log) (cx_timestamp c) et a md sub
    (compute_tenant_event_id t a et md (cx_timestamp c)) (head_hash log).

Definition counted (c : Ctx) (cfg : TenantConfig) : TenantConfig :=
  mkTenantConfig (tc_tenant_id cfg) (tc_creator cfg) (tc_status cfg) (tc_max_events cfg)
    (tc_max_metadata_bytes cfg) (tc_rate_limit cfg) (tc_created_at cfg) (cx_timestamp c)
    (tc_total_events cfg + 1) (tc_description cfg).

Lemma new_event_submission c log a t et md sub : submission t log (new_event c log a t et md sub).
Proof. done. Qed.

(** Everything [log_tenant_event] does once a submission is admitted. *)
Definition tenant_record (c : Ctx) (a : Address) (t et : Symbol) (md : Bytes)
    (sub : option Symbol) (cfg : TenantConfig) : M Hash :=
  let* id := tenant_store_event t a et md sub (tc_total_events cfg) (cx_timestamp c) in
  do* tenant_index_type t et (tc_total_events cfg) in
  do* tenant_bump_total t cfg (cx_timestamp c) in
  do* tenant_event "event_logged" [PSym t; PAddr a; PSym et; PHash id] in
  ret id.

Lemma tenant_record_run c s a t et md sub cfg log :
  Logged (inst s) t log -> sget (inst s) (TenantDataKey.TenantConfig t) = Some cfg ->
  let e := new_event c log a t et md sub in
  tenant_record c a t et md sub cfg c s
  = if Z.leb u32_max (len log) then Err (Panic Overflow)
    else Ok (te_event_id e,
             mkSt (appended (inst s) e (counted c cfg) (pack (positions et log ++ [te_index e]))
                     (len (positions et log) + 1)) (pers s) (temp s)
               (published s ++ [(["tenant"; "event_logged"]%string,
                                 [PSym t; PAddr a; PSym et; PHash (te_event_id e)])])
               (host_calls s)).
Proof.
  intros L Hc e. pose proof (lg_config _ _ _ L) as Hcfg. rewrite Hc in Hcfg.
  destruct Hcfg as [Hid Htot]. pose proof (lg_head _ _ _ L) as Hp.
  pose proof (lg_types _ _ _ L et) as Ht. pose proof (lg_counts _ _ _ L et) as Hn.
  pose proof (len_positions et log) as Hle.
  unfold tenant_record, tenant_store_event, tenant_index_type, tenant_bump_total,
    get_tenant_type_count, save_tenant_config, tenant_event, publish, bind, iget_or, iset, u32_add, ret,
    panic.
  cbn [inst pers temp published host_calls]. rewrite Hid, Htot.
  change (match sget (inst s) (TenantDataKey.TenantPrevHash t) with
          | Some v => v | None => replicate 32 0 end)
    with (default zeros (sget (inst s) (TenantDataKey.TenantPrevHash t))).
  rewrite Hp, !sset_ne by done.
  change (match sget (inst s) (TenantDataKey.TenantTypeCount t et) with
          | Some v => v | None => 0 end)
    with (default 0 (sget (inst s) (TenantDataKey.TenantTypeCount t et))).
  change (match sget (inst s) (TenantDataKey.TenantTypeIndices t et) with
          | Some v => v | None => [] end)
    with (default [] (sget (inst s) (TenantDataKey.TenantTypeIndices t et))).
  rewrite Hn, Ht, pack_snoc. destruct (Z.leb_spec u32_max (len log)).
  - destruct (Z.leb_spec (len (positions et log) + 1) u32_max); [|done]. cbn.
    destruct (Z.leb_spec (len log + 1) u32_max); [lia|done].
  - destruct (Z.leb_spec (len (positions et log) + 1) u32_max); [|lia]. cbn.
    destruct (Z.leb_spec (len log + 1) u32_max); [|lia].
    unfold appended, counted. cbn. by rewrite Hid, Htot.
Qed.
End Steps.
