(* ===== verification/TenantTyping.v ===== *)
(** * Values within their Rust types

    For a layout whose keys carry a typing predicate [wt] (a [u32] lies in its
    range, a byte string holds bytes, and so on), [types Q m] says that a
    successful run of [m] from a store of well-typed values ends in one and
    returns a value that satisfies [Q].

    The further parts of the file: the values a tenant's partition holds;
    which submissions a tenant admits. *)

From stdpp Require Import relations.
From S2P Require Import Prelude Contract StorageLemmas Codec Tenants TenantSpec.

Section Typing.
Context {L : Layout} (wt : forall k : key L, kvalue k -> Prop).

Definition Typed (st : kvstore L) : Prop := forall k v, sget st k = Some v -> wt k v.

Definition types {A} (Q : A -> Prop) (m : CM L A) : Prop :=
  forall c s a s', is_u64 (cx_timestamp c) -> Typed (inst s) -> m c s = Ok (a, s') ->
    Q a /\ Typed (inst s').

Lemma Typed_empty : Typed sempty.
Proof. done. Qed.

Lemma Typed_sset st k v : wt k v -> Typed st -> Typed (sset st k v).
Proof.
  intros Hv H k' v'. destruct (decide (k = k')) as [<-|n].
  - rewrite sset_eq. by intros [= <-].
  - rewrite sset_ne by done. apply H.
Qed.

Lemma Typed_sdel st k : Typed st -> Typed (sdel st k).
Proof.
  intros H k' v'. destruct (decide (k = k')) as [<-|n]; [by rewrite sdel_eq|].
  rewrite sdel_ne by done. apply H.
Qed.

Lemma types_bind {A B} (P : A -> Prop) (Q : B -> Prop) (m : CM L A) (f : A -> CM L B) :
  types P m -> (forall a, P a -> types Q (f a)) -> types Q (bind m f).
Proof.
  intros Hm Hf c s b s' Ht H R. apply bind_Ok in R as (a & s1 & R1 & R).
  destruct (Hm _ _ _ _ Ht H R1) as [Pa H1]. by apply (Hf a Pa c s1).
Qed.

Lemma types_mono {A} (P Q : A -> Prop) (m : CM L A) :
  (forall a, P a -> Q a) -> types P m -> types Q m.
Proof. intros H Hm c s a s' Ht HT R. destruct (Hm _ _ _ _ Ht HT R). auto. Qed.

Lemma types_ret {A} (Q : A -> Prop) a : Q a -> types Q (ret a).
Proof. intros Ha c s b s' _ H R. by minv. Qed.

(** A computation that leaves the store alone and returns any value. *)
Lemma types_pure {A} (Q : A -> Prop) (m : CM L A) :
  (forall c s a s', is_u64 (cx_timestamp c) -> m c s = Ok (a, s') -> Q a /\ inst s' = inst s) ->
  types Q m.
Proof. intros H c s a s' Ht HT R. destruct (H _ _ _ _ Ht R) as [Qa ->]. done. Qed.

Lemma types_raise {A} (Q : A -> Prop) e : types Q (raise e).
Proof. done. Qed.

Lemma types_panic {A} (Q : A -> Prop) tr : types Q (panic tr).
Proof. done. Qed.

Lemma types_iget k : types (fun o => forall v, o = Some v -> wt k v) (iget k).
Proof. intros c s a s' _ H R. minv. split; [|done]. intros v. apply H. Qed.

Lemma types_iget_or k d : wt k d -> types (wt k) (iget_or k d).
Proof.
  intros Hd c s a s' _ H R. minv. split; [|done].
  destruct (sget (inst s') k) eqn:E; [by apply H|done].
Qed.

Lemma types_iset k v : wt k v -> types (fun _ => True) (iset k v).
Proof. intros Hv c s a s' _ H R. minv. split; [done|]. by apply Typed_sset. Qed.

Lemma types_iremove k : types (fun _ => True) (iremove k).
Proof. intros c s a s' _ H R. minv. split; [done|]. by apply Typed_sdel. Qed.

Lemma types_unwrap {A} (o : option A) e :
  types (fun a => o = Some a) (unwrap_or_raise o e).
Proof. apply types_pure. intros c s a s' _ R. by minv. Qed.

Lemma types_reject b e : types (fun _ => b = false) (reject_if b e).
Proof. apply types_pure. intros c s a s' _ R. by minv. Qed.

Lemma types_u32_add a b : 0 <= a + b -> types is_u32 (u32_add a b).
Proof. intros Hab. apply types_pure. intros c s r s' _ R. minv. unfold is_u32. split; [lia|done]. Qed.

Lemma types_now : types is_u64 ledger_timestamp.
Proof. apply types_pure. intros c s a s' Ht R. by minv. Qed.
End Typing.

#[global] Arguments types {L} wt {A} Q m.

Create HintDb types.
#[export] Hint Resolve types_raise types_panic types_iremove types_reject types_unwrap
  types_now types_iget : types.

(** * The values a tenant's partition holds

    Every number, timestamp and byte string in the storage of the multi-tenant
    ledger is a value of its Rust type. *)

#[local] Abbreviation M := (CM tenant_layout).
#[local] Abbreviation St := (CSt tenant_layout).

Definition config_typed (cfg : TenantConfig) : Prop :=
  is_u32 (tc_max_events cfg) /\ is_u32 (tc_max_metadata_bytes cfg) /\
  is_u32 (tc_rate_limit cfg) /\ is_u64 (tc_created_at cfg) /\ is_u64 (tc_updated_at cfg) /\
  is_u32 (tc_total_events cfg) /\ Forall is_byte (tc_description cfg).

Definition event_typed (e : TenantEvent) : Prop :=
  is_u32 (te_index e) /\ is_u64 (te_timestamp e) /\ Forall is_byte (te_metadata e).

Definition tenant_typed (k : TenantDataKey) : @kvalue tenant_layout k -> Prop :=
  match k with
  | TenantDataKey.TenantConfig _ => config_typed
  | TenantDataKey.TenantEventCount _ | TenantDataKey.TenantTypeCount _ _
  | TenantDataKey.TenantCapConfig _ _ => is_u32
  | TenantDataKey.TenantEventData _ _ => event_typed
  | TenantDataKey.TenantTypeIndices _ _ => Forall is_byte
  | TenantDataKey.TenantRateState _ _ => fun r => is_u64 r.1 /\ is_u32 r.2
  | _ => fun _ => True
  end.

#[local] Abbreviation typing := (types tenant_typed).

Ltac types_leaf :=
  apply types_pure; unfold tenant_event; intros; minv; try mcase; split; done.

Lemma types_config t : typing config_typed (config_or_not_found t).
Proof.
  unfold config_or_not_found. eapply types_bind; [apply (types_iget _ (TenantDataKey.TenantConfig t))|].
  intros o Ho. eapply types_mono; [exact Ho|apply types_unwrap].
Qed.

Lemma types_opening a t : typing config_typed (admin_opening a t).
Proof.
  unfold admin_opening. eapply (types_bind _ (fun _ => True)); [types_leaf|intros _ _].
  eapply (types_bind _ (fun _ => True)); [|intros _ _; apply types_config].
  unfold require_tenant_admin, is_tenant_admin. types_leaf.
Qed.

Lemma types_save cfg : config_typed cfg -> typing (fun _ => True) (save_tenant_config cfg).
Proof. intros H. by apply (types_iset _ (TenantDataKey.TenantConfig (tc_tenant_id cfg))). Qed.

Lemma types_change a t cfg st topic :
  config_typed cfg -> typing (fun _ => True) (change_status a t cfg st topic).
Proof.
  intros Hc. unfold change_status. eapply types_bind; [apply types_now|intros now Hn].
  eapply types_bind; [apply types_save|intros _ _; types_leaf].
  unfold config_typed in *. simpl. naive_solver.
Qed.

(** Walks over a computation; the writes remain, with the typing of what the
    computation has read. *)
Ltac types_tac :=
  repeat first
    [ progress intros
    | solve [types_leaf]
    | apply types_raise
    | lazymatch goal with
      | |- types _ _ (bind (config_or_not_found _) _) =>
          eapply types_bind; [apply types_config|intros ? ?]
      | |- types _ _ (bind (admin_opening _ _) _) =>
          eapply types_bind; [apply types_opening|intros ? ?]
      | |- types _ _ (bind (iget ?k) _) => eapply types_bind; [apply (types_iget _ k)|intros ? ?]
      | |- types _ _ (bind (iget_or ?k ?d) _) =>
          eapply types_bind; [apply (types_iget_or _ k d)|intros ? ?]
      | |- types _ _ (bind ledger_timestamp _) => eapply types_bind; [apply types_now|intros ? ?]
      | |- types _ _ (bind (u32_add _ _) _) => eapply types_bind; [apply types_u32_add|intros ? ?]
      | |- types _ _ (bind _ _) => eapply (types_bind _ (fun _ => True)); [|intros ? _]
      | |- types _ _ (save_tenant_config _) => apply types_save
      | |- types _ _ (change_status _ _ _ _ _) => apply types_change
      | |- types _ (fun _ => True) (iset ?k ?v) => apply (types_iset _ k v)
      | |- types _ _ (iremove ?k) => apply (types_iremove _ k)
      | |- types _ _ (if _ then _ else _) => case_match
      | |- types _ _ (match ?x with _ => _ end) => destruct x eqn:?
      end ].

Lemma is_u32_0 : is_u32 0.
Proof. done. Qed.
Lemma is_u32_1 : is_u32 1.
Proof. done. Qed.
Lemma is_u64_0 : is_u64 0.
Proof. done. Qed.
Lemma is_u32_default m : is_u32 m -> is_u32 (if Z.eqb m 0 then 1024 else m).
Proof. by destruct (Z.eqb m 0). Qed.
Lemma packed_typed p i : Forall is_byte p -> Forall is_byte (p ++ u32_to_bytes i).
Proof. intros H. apply Forall_app. split; [done|apply u32_to_bytes_bytes]. Qed.
#[local] Hint Resolve is_u32_0 is_u32_1 is_u64_0 is_u32_default packed_typed : types.

Ltac typed_values :=
  unfold tenant_typed, config_typed, event_typed in *; simpl in *; destruct_and?;
  solve [ split_and?; first [done | solve [auto with types] | unfold is_u32 in *; lia] ].

Section Typing.
Context `{C : Crypto}.

Lemma types_log a t et md sub :
  Forall is_byte md -> typing (fun _ => True) (log_tenant_event a t et md sub).
Proof.
  intros Hm. unfold log_tenant_event, require_active_tenant, tenant_type_cap_check,
    tenant_rate_check, tenant_store_event, tenant_index_type, tenant_bump_total,
    get_tenant_type_count.
  types_tac; typed_values.
Qed.

Lemma types_initialize a t m b r d :
  tcall_typed (TInitialize a t m b r d) ->
  typing (fun _ => True) (initialize_tenant a t m b r d).
Proof.
  intros (Hm & Hb & Hr & Hd).
  unfold initialize_tenant, tenant_exists, get_tenant_ids, save_tenant_ids.
  types_tac; typed_values.
Qed.

Lemma types_texec k : tcall_typed k -> typing (fun _ => True) (texec k).
Proof.
  destruct k; simpl; intros Hk;
    try (eapply (types_bind _ (fun _ => True)); [|intros; types_leaf]).
  1: by apply types_initialize.
  9: by apply types_log.
  all: unfold suspend_tenant, resume_tenant, archive_tenant, delete_tenant, add_tenant_admin,
         remove_tenant_admin, update_tenant_config, set_tenant_type_cap, reject_deleted.
  all: types_tac; typed_values.
Qed.

Lemma tstep_Typed s s' : tstep s s' -> Typed tenant_typed (inst s) -> Typed tenant_typed (inst s').
Proof. intros [k c s1 s2 Hk Ht R] HT. by apply (types_texec k Hk c s1 tt s2). Qed.

Lemma treachable_Typed s : treachable s -> Typed tenant_typed (inst s).
Proof.
  revert s. apply rtc_invariant; [done|]. intros y z _ Hy Hs. by apply (tstep_Typed y z).
Qed.
End Typing.

(** * Which submissions a tenant admits

    [refusal] lists the tests of [log_tenant_event] in their order;
    [log_tenant_event_run] shows that the call fails exactly as it says and
    otherwise appends one event to the log of the tenant. *)

#[local] Abbreviation store := (kvstore tenant_layout).

(** The cap of the event type is reached. *)
Definition type_capped (st : store) (t et : Symbol) : bool :=
  match sget st (TenantDataKey.TenantCapConfig t et) with
  | Some cap => Z.leb cap (default 0 (sget st (TenantDataKey.TenantTypeCount t et)))
  | None => false
  end.

(** The submissions of [a] at the present timestamp. *)
Definition rate_used (c : Ctx) (st : store) (t : Symbol) (a : Address) : Z :=
  let '(last_ts, count) := default (0, 0) (sget st (TenantDataKey.TenantRateState t a)) in
  if Z.eqb (cx_timestamp c) last_ts then count else 0.

Definition refusal (c : Ctx) (st : store) (a : Address) (t et : Symbol) (md : Bytes)
    : option (fault TenantError) :=
  if negb (cx_auth c a) then Some (Panic Unauthorized)
  else match sget st (TenantDataKey.TenantConfig t) with
  | None => Some (Raise TenantError.TenantNotFound)
  | Some cfg =>
      match tc_status cfg with
      | TenantStatus.Suspended => Some (Raise TenantError.TenantSuspended)
      | TenantStatus.Archived => Some (Raise TenantError.TenantArchived)
      | TenantStatus.Deleted => Some (Raise TenantError.TenantDeleted)
      | TenantStatus.Active =>
          if Z.ltb 0 (tc_max_events cfg) && Z.leb (tc_max_events cfg) (tc_total_events cfg)
          then Some (Raise TenantError.TenantQuotaExceeded)
          else if Z.ltb (tc_max_metadata_bytes cfg) (len md)
          then Some (Raise TenantError.TenantMetadataTooLarge)
          else if type_capped st t et then Some (Raise TenantError.TenantTypeCapExceeded)
          else if Z.ltb 0 (tc_rate_limit cfg) && Z.leb (tc_rate_limit cfg) (rate_used c st t a)
          then Some (Raise TenantError.TenantRateLimitExceeded)
          else if Z.leb u32_max (tc_total_events cfg) then Some (Panic Overflow)
          else None
      end
  end.

(** The rate counter after an admitted submission. *)
Definition rated (c : Ctx) (st : store) (t : Symbol) (a : Address) (limit : Z) : store :=
  if Z.ltb 0 limit
  then sset st (TenantDataKey.TenantRateState t a) (cx_timestamp c, rate_used c st t a + 1)
  else st.

Lemma tenant_rate_check_run c (s : St) t a limit :
  limit <= u32_max ->
  tenant_rate_check t a limit c s
  = if Z.ltb 0 limit && Z.leb limit (rate_used c (inst s) t a)
    then Err (Raise TenantError.TenantRateLimitExceeded)
    else Ok (tt, mkSt (rated c (inst s) t a limit) (pers s) (temp s) (published s) (host_calls s)).
Proof.
  intros Hl. unfold tenant_rate_check, rated, rate_used.
  destruct (Z.ltb_spec 0 limit); simpl; [|by destruct s].
  unfold bind, ledger_timestamp, iget_or. simpl.
  destruct (sget (inst s) (TenantDataKey.TenantRateState t a)) as [[last_ts count]|]; simpl.
  all: case_match; unfold reject_if, u32_add, raise, ret, panic, iset;
    repeat match goal with |- context [Z.leb ?x ?y] => destruct (Z.leb_spec x y) end;
    done || lia.
Qed.

Lemma tenant_type_cap_check_run c (s : St) t et :
  tenant_type_cap_check t et c s
  = if type_capped (inst s) t et then Err (Raise TenantError.TenantTypeCapExceeded)
    else Ok (tt, s).
Proof.
  unfold tenant_type_cap_check, type_capped, bind, iget, get_tenant_type_count, iget_or,
    reject_if, raise, ret. simpl.
  destruct (sget (inst s) (TenantDataKey.TenantCapConfig t et)) as [cap|]; [|done]. simpl.
  destruct (sget (inst s) (TenantDataKey.TenantTypeCount t et)); simpl; by destruct (Z.leb cap _).
Qed.

Section Admission.
Context `{C : Crypto}.

Lemma Logged_rated c st t a limit log : Logged st t log -> Logged (rated c st t a limit) t log.
Proof.
  intros L. unfold rated. destruct (Z.ltb 0 limit); [|done].
  eapply Logged_ext; [done| |rewrite sset_ne by done; apply L].
  intros k _ Hk. apply sset_ne. by intros <-.
Qed.

Lemma log_tenant_event_run c s a t et md sub log :
  Typed tenant_typed (inst s) -> Logged (inst s) t log ->
  match refusal c (inst s) a t et md with
  | Some f => log_tenant_event a t et md sub c s = Err f
  | None =>
      let e := new_event c log a t et md sub in
      exists cfg s',
        sget (inst s) (TenantDataKey.TenantConfig t) = Some cfg /\
        log_tenant_event a t et md sub c s = Ok (te_event_id e, s') /\
        inst s' = appended (rated c (inst s) t a (tc_rate_limit cfg)) e (counted c cfg)
                    (pack (positions et log ++ [te_index e])) (len (positions et log) + 1) /\
        Logged (inst s') t (log ++ [e])
  end.
Proof.
  intros HT L. remember (log_tenant_event a t et md sub c s) as r eqn:R. revert R.
  unfold refusal, log_tenant_event, require_auth. unfold bind at 1.
  destruct (cx_auth c a); simpl; [|done].
  unfold config_or_not_found, get_config, iget. unfold bind at 1, bind at 1. simpl.
  pose proof (lg_config _ _ _ L) as Hcfg.
  destruct (sget (inst s) (TenantDataKey.TenantConfig t)) as [cfg|] eqn:Ec; simpl; [|done].
  destruct Hcfg as [Hid Htot]. unfold require_active_tenant. unfold bind at 1.
  destruct (tc_status cfg); simpl; try done.
  unfold reject_if at 1. unfold bind at 1.
  destruct (Z.ltb 0 (tc_max_events cfg) && _); [done|]. cbn [ret].
  unfold reject_if at 1. unfold bind at 1.
  destruct (Z.ltb (tc_max_metadata_bytes cfg) (len md)); [done|]. cbn [ret].
  unfold bind at 1. rewrite tenant_type_cap_check_run.
  destruct (type_capped (inst s) t et); [done|].
  unfold bind at 1. rewrite tenant_rate_check_run by apply (HT _ _ Ec).
  destruct (Z.ltb 0 (tc_rate_limit cfg) && _); [done|].
  unfold bind at 1, ledger_timestamp. cbn [cx_timestamp].
  set (s1 := mkSt _ _ _ _ _).
  pose proof (Logged_rated c (inst s) t a (tc_rate_limit cfg) log L) as L1.
  assert (sget (inst s1) (TenantDataKey.TenantConfig t) = Some cfg) as Ec1.
  { unfold s1, rated. simpl. destruct (Z.ltb 0 (tc_rate_limit cfg)); [|done].
    by rewrite sset_ne. }
  change (r = tenant_record c a t et md sub cfg c s1 -> 
          match (if Z.leb u32_max (tc_total_events cfg) then Some (Panic Overflow) else None) with
          | Some f => r = Err f
          | None => exists cfg' s', Some cfg = Some cfg' /\
              r = Ok (compute_tenant_event_id t a et md (cx_timestamp c), s') /\
              inst s' = appended (rated c (inst s) t a (tc_rate_limit cfg'))
                (new_event c log a t et md sub) (counted c cfg')
                (pack (positions et log ++ [len log])) (len (positions et log) + 1) /\
              Logged (inst s') t (log ++ [new_event c log a t et md sub])
          end).
  rewrite (tenant_record_run c s1 a t et md sub cfg log) by done. rewrite Htot.
  destruct (Z.leb_spec u32_max (len log)) as [|Hl]; [done|]. intros ->.
  eexists cfg, _. split_and!; [done|done|done|]. cbn [inst].
  apply (Logged_append _ t log (new_event c log a t et md sub) (counted c cfg)); try done.
  unfold counted. simpl. lia.
Qed.
End Admission.
