(* ===== verification/TenantLife.v ===== *)
(** * The life of a tenant

    What each call does to the configuration, the administrators and the log of
    its tenant, and what no call can undo.

    The second part of the file: reading the log of a tenant. *)

From stdpp Require Import relations.
From S2P Require Import Prelude Contract StorageLemmas Codec Tenants TenantSpec TenantTyping.

#[local] Abbreviation M := (CM tenant_layout).
#[local] Abbreviation store := (kvstore tenant_layout).
#[local] Abbreviation St := (CSt tenant_layout).

Definition tenant_config (st : store) (t : Symbol) : option TenantConfig :=
  sget st (TenantDataKey.TenantConfig t).
Definition tenant_admin (st : store) (t : Symbol) (a : Address) : bool :=
  default false (sget st (TenantDataKey.TenantAdmin t a)).

(** The configuration a successful call leaves. *)
Definition config_after (c : Ctx) (k : tcall) (cfg : TenantConfig) : TenantConfig :=
  match k with
  | TSuspend _ _ =>
      if decide (tc_status cfg = TenantStatus.Active)
      then with_status cfg TenantStatus.Suspended (cx_timestamp c) else cfg
  | TResume _ _ =>
      if decide (tc_status cfg = TenantStatus.Suspended)
      then with_status cfg TenantStatus.Active (cx_timestamp c) else cfg
  | TArchive _ _ =>
      if decide (tc_status cfg = TenantStatus.Archived) then cfg
      else with_status cfg TenantStatus.Archived (cx_timestamp c)
  | TDelete _ _ _ => with_status cfg TenantStatus.Deleted (cx_timestamp c)
  | TUpdateConfig _ _ m b r d =>
      mkTenantConfig (tc_tenant_id cfg) (tc_creator cfg) (tc_status cfg) m
        (if Z.eqb b 0 then 1024 else b) r (tc_created_at cfg) (cx_timestamp c)
        (tc_total_events cfg) d
  | TLogEvent _ _ _ _ _ => counted c cfg
  | _ => cfg
  end.

(** The statuses in which a call can succeed. *)
Definition permitted (k : tcall) (st : TenantStatus) : bool :=
  match k, st with
  | TInitialize _ _ _ _ _ _, _ => false
  | _, TenantStatus.Deleted => false
  | TLogEvent _ _ _ _ _, st => bool_decide (st = TenantStatus.Active)
  | (TSuspend _ _ | TResume _ _), st => bool_decide (st <> TenantStatus.Archived)
  | TDelete _ _ _, st => bool_decide (st = TenantStatus.Archived)
  | _, _ => true
  end.

Definition is_log (k : tcall) : bool :=
  match k with TLogEvent _ _ _ _ _ => true | _ => false end.
Definition is_init (k : tcall) : bool :=
  match k with TInitialize _ _ _ _ _ _ => true | _ => false end.

Lemma admin_opening_Ok a t c (s : St) cfg s' :
  admin_opening a t c s = Ok (cfg, s') ->
  s' = s /\ cx_auth c a = true /\ tenant_admin (inst s) t a = true /\
  tenant_config (inst s) t = Some cfg.
Proof.
  unfold admin_opening, require_tenant_admin, is_tenant_admin, config_or_not_found, get_config.
  intros R. minv. split_and!; try done. apply negb_false_iff in B.
  unfold tenant_admin. by case_match.
Qed.

(** The calls written out down to their accesses to the storage. *)
Ltac unfold_tenant :=
  unfold suspend_tenant, resume_tenant, archive_tenant, delete_tenant, add_tenant_admin,
    remove_tenant_admin, update_tenant_config, set_tenant_type_cap, log_tenant_event,
    admin_opening, require_tenant_admin, is_tenant_admin, reject_deleted, change_status,
    require_active_tenant, tenant_type_cap_check, tenant_rate_check, tenant_store_event,
    tenant_index_type, tenant_bump_total, get_tenant_type_count, config_or_not_found, get_config,
    save_tenant_config, tenant_event.

Section Life.
Context `{C : Crypto}.

Lemma change_status_Ok a t cfg st topic c (s s' : St) u :
  tc_tenant_id cfg = t -> change_status a t cfg st topic c s = Ok (u, s') ->
  inst s' = sset (inst s) (TenantDataKey.TenantConfig t) (with_status cfg st (cx_timestamp c)).
Proof.
  intros <- R. unfold change_status, save_tenant_config, tenant_event in R. minv. done.
Qed.

(** A call of an administrator: its opening and its effect on the
    configuration. *)
Lemma texec_admin k c s s' :
  named (tcall_tenant k) (inst s) -> texec k c s = Ok (tt, s') ->
  is_log k = false -> is_init k = false ->
  exists cfg,
    tenant_config (inst s) (tcall_tenant k) = Some cfg /\
    cx_auth c (tcall_signer k) = true /\
    tenant_admin (inst s) (tcall_tenant k) (tcall_signer k) = true /\
    permitted k (tc_status cfg) = true /\
    tenant_config (inst s') (tcall_tenant k) = Some (config_after c k cfg).
Proof.
  intros N R Hl Hi. destruct k; try done; simpl in *;
    first [unfold suspend_tenant in R | unfold resume_tenant in R | unfold archive_tenant in R
          | unfold delete_tenant in R | unfold add_tenant_admin in R
          | unfold remove_tenant_admin in R | unfold update_tenant_config in R
          | unfold set_tenant_type_cap in R];
    apply bind_Ok in R as (cfg & s1 & R1 & R);
    apply admin_opening_Ok in R1 as (-> & Hau & Had & Hc); pose proof (N _ Hc) as Hid;
    exists cfg; split_and!; try done;
    unfold reject_deleted, tenant_event, save_tenant_config in R;
    destruct (tc_status cfg) eqn:Es; mcase; try done; unfold tenant_config.
  all: try match goal with
       | H : change_status _ _ _ _ _ _ _ = Ok _ |- _ =>
           apply change_status_Ok in H; [|done]; rewrite H; by rewrite sset_eq
       end.
  all: rewrite ?Hid.
  all: solve [rewrite ?sset_eq, ?Es; done | rewrite sset_ne by done; done].
Qed.

(** The registration of a tenant. *)
Lemma initialize_Ok a t m b r d c s cfg s' :
  initialize_tenant a t m b r d c s = Ok (cfg, s') ->
  cx_auth c a = true /\ tenant_config (inst s) t = None /\
  cfg = mkTenantConfig t a TenantStatus.Active m (if Z.eqb b 0 then 1024 else b) r
          (cx_timestamp c) (cx_timestamp c) 0 d /\
  inst s' = sset (sset (sset (sset (inst s) (TenantDataKey.TenantConfig t) cfg)
    (TenantDataKey.TenantAdmin t a) true)
    TenantDataKey.TenantIds (default [] (sget (inst s) TenantDataKey.TenantIds) ++ [t]))
    (TenantDataKey.TenantPrevHash t) zeros.
Proof.
  unfold initialize_tenant, tenant_exists, save_tenant_config, save_tenant_ids, get_tenant_ids,
    tenant_event. intros R. minv. split_and!; try done.
  match goal with H : shas _ _ = false |- _ => unfold shas in H end.
  unfold tenant_config. by case_match.
Qed.

(** A call of an administrator leaves the log alone. *)
Lemma texec_log_keys k c s s' :
  is_log k = false -> is_init k = false ->
  texec k c s = Ok (tt, s') -> forall x, log_key x = true -> sget (inst s') x = sget (inst s) x.
Proof.
  intros Hl Hi R. revert R. apply (fun H : keeps log_key (texec k) => H c s tt s').
  destruct k; try done; simpl;
    unfold_tenant; keeps_tac.
Qed.

(** What one call does to the log of its tenant. *)
Lemma texec_Logged k c s s' log :
  tcall_typed k -> is_u64 (cx_timestamp c) -> Typed tenant_typed (inst s) ->
  Logged (inst s) (tcall_tenant k) log -> texec k c s = Ok (tt, s') ->
  match k with
  | TLogEvent a t et md sub => Logged (inst s') t (log ++ [new_event c log a t et md sub])
  | _ => Logged (inst s') (tcall_tenant k) log
  end.
Proof.
  intros Hk Ht HT L R. destruct (is_log k) eqn:El.
  - destruct k as [| | | | | | | | |a t et md sub]; try done. simpl in *.
    pose proof (log_tenant_event_run c s a t et md sub log HT L) as Hr.
    apply bind_Ok in R as (id & s1 & R & R2). injection R2 as <-.
    destruct (refusal c (inst s) a t et md); [congruence|].
    destruct Hr as (cfg & s2 & _ & Hr & _ & L2). simplify_eq/=. rewrite R in Hr. by injection Hr as _ <-.
  - assert (Logged (inst s') (tcall_tenant k) log) as L'; [|by destruct k].
    destruct (is_init k) eqn:Ei.
    + destruct k as [a t m b r d| | | | | | | | |]; try done. simpl in *.
      apply bind_Ok in R as (cfg & s1 & R & R2). injection R2 as <-.
      apply initialize_Ok in R as (_ & Hn & -> & E). rewrite E.
      pose proof (lg_config _ _ _ L) as Hc. unfold tenant_config in Hn. rewrite Hn in Hc. subst log.
      destruct L as [Hh Hf _ Ho Hd Hp Hy Hn' Hm]. split; try done.
      all: intros; repeat first [rewrite sset_eq | rewrite sset_ne by done]; done.
    + destruct (texec_admin k c s s') as (cfg & Hc & _ & _ & _ & Hc'); try done.
      { intros cfg Hc. pose proof (lg_config _ _ _ L) as H. unfold tenant_config in *.
        rewrite Hc in H. apply H. }
      pose proof (lg_config _ _ _ L) as H. unfold tenant_config in Hc, Hc'. rewrite Hc in H.
      eapply Logged_ext; [exact L|intros x _ Hx; by eapply texec_log_keys|].
      rewrite Hc'. destruct k; simpl in *; try done; repeat case_match; done.
Qed.

Lemma Logged_named st t log : Logged st t log -> named t st.
Proof. intros L cfg Hc. pose proof (lg_config _ _ _ L) as H. rewrite Hc in H. apply H. Qed.

Lemma texec_outside k c s s' :
  named (tcall_tenant k) (inst s) -> texec k c s = Ok (tt, s') ->
  outside (tcall_tenant k) (inst s) (inst s').
Proof.
  intros N R. pose proof (local_texec k c s s N ltac:(done)) as H. rewrite R in H. apply H.
Qed.

Lemma outside_agree t t' st st' : t <> t' -> outside t st st' -> agree t' st st'.
Proof. intros Hn H k Hk. apply H; [congruence|]. by intros ->. Qed.

(** The registry: each tenant once, in the order of registration. *)
Definition registry (st : store) : list Symbol := default [] (sget st TenantDataKey.TenantIds).

Definition registry_key (k : TenantDataKey) : bool :=
  match k with TenantDataKey.TenantIds => true | _ => false end.

Definition Registered (st : store) : Prop :=
  NoDup (registry st) /\ forall t, t ∈ registry st <-> is_Some (tenant_config st t).

Lemma texec_registry k c s s' :
  is_init k = false -> texec k c s = Ok (tt, s') -> registry (inst s') = registry (inst s).
Proof.
  intros Hi R. unfold registry. f_equal.
  enough (keeps registry_key (texec k)) as H by by apply (H c s tt s' R TenantDataKey.TenantIds).
  destruct k; try done; simpl;
    unfold_tenant; keeps_tac.
Qed.

(** What holds in every reachable state. *)
Record TInv (s : St) : Prop := {
  ti_typed : Typed tenant_typed (inst s);
  ti_logged : forall t, exists log, Logged (inst s) t log;
  ti_registered : Registered (inst s) }.

(** The part of [Logged] about one call, for every tenant. *)
Lemma tstep_Logged k c s s' t log :
  tcall_typed k -> is_u64 (cx_timestamp c) -> TInv s -> texec k c s = Ok (tt, s') ->
  Logged (inst s) t log ->
  Logged (inst s') t (log ++
    match k with
    | TLogEvent a t' et md sub => if decide (t' = t) then [new_event c log a t et md sub] else []
    | _ => []
    end).
Proof.
  intros Hk Ht [HT HL _] R L. destruct (decide (tcall_tenant k = t)) as [<-|n].
  - pose proof (texec_Logged k c s s' log Hk Ht HT L R) as H.
    destruct k; rewrite ?app_nil_r; try done. simpl in *. by rewrite decide_True.
  - destruct (HL (tcall_tenant k)) as [log' L'].
    pose proof (texec_outside k c s s' (Logged_named _ _ _ L') R) as O.
    apply (outside_agree _ t) in O; [|done]. pose proof (Logged_agree _ _ _ _ O L) as H.
    destruct k; rewrite ?app_nil_r; try done. simpl in *. by rewrite decide_False, app_nil_r.
Qed.

(** The configuration of the tenant of a call, before and after. *)
Lemma texec_config k c s s' :
  TInv s -> texec k c s = Ok (tt, s') ->
  cx_auth c (tcall_signer k) = true /\
  match tenant_config (inst s) (tcall_tenant k) with
  | Some cfg => permitted k (tc_status cfg) = true /\
      (is_log k = true \/ tenant_admin (inst s) (tcall_tenant k) (tcall_signer k) = true) /\
      tenant_config (inst s') (tcall_tenant k) = Some (config_after c k cfg)
  | None => is_init k = true
  end.
Proof.
  intros [HT HL _] R. destruct (HL (tcall_tenant k)) as [log L].
  pose proof (Logged_named _ _ _ L) as N.
  destruct (is_log k) eqn:El; [|destruct (is_init k) eqn:Ei].
  - destruct k as [| | | | | | | | |a t et md sub]; try done. simpl in *.
    pose proof (log_tenant_event_run c s a t et md sub log HT L) as Hr.
    apply bind_Ok in R as (id & s1 & R & R2). injection R2 as <-. unfold refusal in Hr.
    destruct (cx_auth c a); simpl in Hr; [|congruence]. split; [done|]. unfold tenant_config.
    destruct (sget (inst s) (TenantDataKey.TenantConfig t)) as [cfg|] eqn:Ec; [|congruence].
    destruct (tc_status cfg) eqn:Es; try congruence. split; [done|]. split; [by left|].
    repeat case_match; try congruence. destruct Hr as (cfg' & s2 & Hc & Hr & E & _).
    injection Hc as <-. rewrite R in Hr. injection Hr as _ ->. rewrite E. unfold appended.
    rewrite sset_ne by done. cbn [te_tenant_id new_event]. by rewrite sset_eq.
  - destruct k as [a t m b r d| | | | | | | | |]; try done. simpl in *.
    apply bind_Ok in R as (cfg & s1 & R & R2). injection R2 as <-.
    apply initialize_Ok in R as (Ha & Hn & -> & E). by rewrite Hn.
  - destruct (texec_admin k c s s') as (cfg & Hc & Ha & Hm & Hp & Hc'); try done.
    rewrite Hc. split_and!; try done. by right.
Qed.

Lemma texec_config_some k c s s' t cfg :
  TInv s -> texec k c s = Ok (tt, s') -> tenant_config (inst s) t = Some cfg ->
  tenant_config (inst s') t
  = Some (if decide (tcall_tenant k = t) then config_after c k cfg else cfg).
Proof.
  intros HI R Hc. destruct (decide (tcall_tenant k = t)) as [<-|n].
  - destruct (texec_config _ _ _ _ HI R) as [_ H]. rewrite Hc in H. apply H.
  - destruct HI as [_ HL _]. destruct (HL (tcall_tenant k)) as [log L].
    pose proof (texec_outside k c s s' (Logged_named _ _ _ L) R) as O.
    unfold tenant_config. by rewrite (outside_agree _ t _ _ n O (TenantDataKey.TenantConfig t)).
Qed.

Lemma texec_TInv k c s s' :
  tcall_typed k -> is_u64 (cx_timestamp c) -> TInv s -> texec k c s = Ok (tt, s') -> TInv s'.
Proof.
  intros Hk Ht HI R. split.
  - by apply (types_texec k Hk c s tt s' Ht (ti_typed _ HI)).
  - intros t. destruct (ti_logged _ HI t) as [log L]. eexists. by eapply tstep_Logged.
  - destruct (ti_registered _ HI) as [Hd Hr].
    destruct (is_init k) eqn:Ei.
    + destruct k as [a t m b r d| | | | | | | | |]; try done. simpl in *.
      apply bind_Ok in R as (cfg & s1 & R & R2). injection R2 as <-.
      apply initialize_Ok in R as (_ & Hn & -> & E). unfold Registered, registry, tenant_config in *.
      rewrite E. repeat first [rewrite sset_eq | rewrite sset_ne by done]. simpl. split.
      * apply NoDup_app. split_and!; [done| |apply NoDup_singleton].
        intros x Hx%Hr ->%list_elem_of_singleton. rewrite Hn in Hx. by destruct Hx.
      * intros t'. rewrite elem_of_app, list_elem_of_singleton, Hr.
        destruct (decide (t = t')) as [<-|n].
        -- rewrite sset_ne, sset_ne, sset_ne, sset_eq by done. naive_solver.
        -- rewrite !sset_ne by congruence. naive_solver.
    + unfold Registered. rewrite (texec_registry k c s s' Ei R). split; [done|].
      intros t. rewrite Hr. split; intros [cfg Hc].
      * rewrite (texec_config_some _ _ _ _ _ _ HI R Hc). by eexists.
      * destruct (tenant_config (inst s) t) eqn:E; [by eexists|]. exfalso.
        destruct (decide (tcall_tenant k = t)) as [<-|n].
        -- destruct (texec_config _ _ _ _ HI R) as [_ H]. rewrite E in H. congruence.
        -- destruct (ti_logged _ HI (tcall_tenant k)) as [log L].
           pose proof (texec_outside k c s s' (Logged_named _ _ _ L) R) as O.
           unfold tenant_config in *.
           rewrite (outside_agree _ t _ _ n O (TenantDataKey.TenantConfig t)) in Hc by done.
           congruence.
Qed.

Lemma treachable_TInv s : treachable s -> TInv s.
Proof.
  revert s. apply rtc_invariant.
  - split; [apply Typed_empty|intros t; exists []; apply Logged_empty|].
    split; [constructor|]. intros t. split; [intros Hx; inversion Hx|by intros []].
  - intros y z _ Hy Hs. revert Hy. destruct Hs as [k c s1 s2 Hk Ht R]. intros Hy. by apply (texec_TInv k c s1 s2).
Qed.
End Life.

(** * Reading the log of a tenant

    The queries as functions of the list of submitted events. *)


(** What a query returns for a submitted event: the last one submitted under
    its identifier. *)
Definition stored (log : list TenantEvent) (e : TenantEvent) : TenantEvent :=
  default e (latest (te_event_id e) log).

Lemma latest_Some log e :
  e ∈ log -> exists e', latest (te_event_id e) log = Some e' /\ te_event_id e' = te_event_id e.
Proof.
  intros He. unfold latest.
  destruct (last (filter (fun x => te_event_id x = te_event_id e) log)) as [e'|] eqn:E.
  - exists e'. split; [done|]. apply last_Some_elem_of, list_elem_of_filter in E. apply E.
  - apply last_None in E. exfalso. apply (not_elem_of_nil (A := TenantEvent) e).
    rewrite <- E. by apply list_elem_of_filter.
Qed.

(** Under a fresh identifier the stored event is the submitted one. *)
Lemma stored_fresh log e rest :
  (forall x, x ∈ rest -> te_event_id x <> te_event_id e) -> stored (log ++ e :: rest) e = e.
Proof.
  intros H. unfold stored, latest. rewrite filter_app, filter_cons_True by done.
  assert (filter (fun x => te_event_id x = te_event_id e) rest = []) as ->; [|by rewrite last_snoc].
  induction rest as [|x rest IH]; [done|]. rewrite filter_cons_False by (apply H; constructor).
  apply IH. intros y Hy. apply H. by constructor.
Qed.

Lemma vget_elem {A} (l : list A) i x : vget l i = Some x -> x ∈ l.
Proof. unfold vget. destruct (Z.leb 0 i); [|done]. by intros ?%list_elem_of_lookup_2. Qed.

Lemma elem_vget {A} (l : list A) x : x ∈ l -> exists i, vget l i = Some x.
Proof.
  intros [n Hn]%list_elem_of_lookup_1. exists (Z.of_nat n). by rewrite vget_nth.
Qed.

Lemma vget_fmap {A B} (f : A -> B) l i : vget (f <$> l) i = f <$> vget l i.
Proof. unfold vget. destruct (Z.leb 0 i); [apply list_lookup_fmap|done]. Qed.

Lemma read_index_read packed off v : read_u32_le packed off = Some v -> read_index packed off = v.
Proof.
  unfold read_u32_le, read_index. replace (off + 0) with off by lia.
  repeat case_match; congruence.
Qed.

Section Reads.
Context `{C : Crypto}.
Context (c : Ctx) (s : St) (t : Symbol) (log : list TenantEvent) (L : Logged (inst s) t log).

Lemma history_index e : e ∈ log -> vget log (te_index e) = Some e.
Proof using L.
  intros [i Hi]%elem_vget. pose proof (history_at _ _ _ _ (lg_history _ _ _ L) Hi) as [_ Hx _ _].
  pose proof (vget_Some_bounds _ _ _ Hi). rewrite Hx. unfold len.
  rewrite length_take_le by (unfold len in *; lia). by rewrite Z2Nat.id by lia.
Qed.

Lemma positions_range et i : i ∈ positions et log -> exists e, vget log i = Some e /\ te_event_type e = et.
Proof using L.
  unfold positions. intros (e & -> & He)%list_elem_of_fmap. apply list_elem_of_filter in He as [Ht He].
  exists e. split; [by apply history_index|done].
Qed.

Lemma tenant_event_at_run i e : vget log i = Some e -> tenant_event_at t i c s = Ok (stored log e, s).
Proof using L.
  intros He. unfold tenant_event_at, tenant_event_or_not_found, bind, iget, unwrap_or_raise.
  rewrite (lg_order _ _ _ L), He. simpl. rewrite (lg_data _ _ _ L).
  destruct (latest_Some log e (vget_elem _ _ _ He)) as (e' & E & _). unfold stored. by rewrite E.
Qed.

Lemma readable_config_run cfg :
  tenant_config (inst s) t = Some cfg ->
  readable_config t c s = if decide (tc_status cfg = TenantStatus.Deleted)
                          then Err (Raise TenantError.TenantDeleted) else Ok (cfg, s).
Proof using.
  intros Hc. unfold readable_config, config_or_not_found, get_config, reject_deleted, reject_if, bind, iget.
  unfold tenant_config in Hc. rewrite Hc. simpl. by destruct (tc_status cfg).
Qed.

Lemma by_index_run cfg i :
  tenant_config (inst s) t = Some cfg -> tc_status cfg <> TenantStatus.Deleted -> 0 <= i ->
  get_tenant_event_by_index t i c s
  = match vget log i with
    | Some e => Ok (stored log e, s)
    | None => Err (Raise TenantError.TenantTypeIndexOutOfBounds)
    end.
Proof using L.
  intros Hc Hd Hi. unfold get_tenant_event_by_index, bind.
  rewrite (readable_config_run _ Hc), decide_False by done.
  pose proof (lg_config _ _ _ L) as Hcfg. unfold tenant_config in Hc. rewrite Hc in Hcfg.
  destruct Hcfg as [_ ->]. unfold reject_if. destruct (Z.leb_spec (len log) i).
  - by rewrite vget_None.
  - destruct (vget_is_Some log i) as [e He]; [lia|]. rewrite He. simpl. by apply tenant_event_at_run.
Qed.

Lemma by_type_run cfg et k :
  tenant_config (inst s) t = Some cfg -> tc_status cfg <> TenantStatus.Deleted -> 0 <= k ->
  4 * len log <= u32_max ->
  get_tenant_event_by_type t et k c s
  = match vget (filter (fun e => te_event_type e = et) log) k with
    | Some e => Ok (stored log e, s)
    | None => Err (Raise TenantError.TenantTypeIndexOutOfBounds)
    end.
Proof using L.
  intros Hc Hd Hk Hb. unfold get_tenant_event_by_type, bind.
  rewrite (readable_config_run _ Hc), decide_False by done.
  pose proof (lg_counts _ _ _ L et) as Hn. pose proof (lg_types _ _ _ L et) as Ht.
  pose proof (len_positions et log) as Hle.
  unfold get_tenant_type_count, iget_or.
  assert (match sget (inst s) (TenantDataKey.TenantTypeCount t et) with
          | Some v => v | None => 0 end = len (positions et log)) as -> by (rewrite <- Hn; by case_match).
  assert (len (positions et log) = len (filter (fun e => te_event_type e = et) log)) as Hp
    by (unfold len, positions; by rewrite length_fmap).
  unfold reject_if. destruct (Z.leb_spec (len (positions et log)) k) as [Hge|Hlt].
  - rewrite vget_None by lia. done.
  - destruct (vget_is_Some (filter (fun e => te_event_type e = et) log) k) as [e He]; [lia|].
    rewrite He. assert (vget (positions et log) k = Some (te_index e)) as Hq
      by (unfold positions; by rewrite vget_fmap, He).
    pose proof (vget_elem _ _ _ He) as Hin. apply list_elem_of_filter in Hin as [_ Hin].
    pose proof (history_index e Hin) as Hv.
    unfold ret, iget. destruct (sget (inst s) (TenantDataKey.TenantTypeIndices t et)) as [p|]; simpl in Ht.
    2:{ exfalso. pose proof (len_pack (positions et log)) as Hl. rewrite <- Ht in Hl.
        change (len []) with 0 in Hl. lia. }
    subst p. simpl. unfold u32_mul, u32_add, ret.
    destruct (Z.leb_spec (k * 4) u32_max); [|lia].
    destruct (Z.leb_spec (k * 4 + 3) u32_max); [|lia].
    rewrite (read_index_read _ _ (te_index e)); [by apply tenant_event_at_run|].
    apply read_pack; [|done]. apply Forall_forall. intros i (x & Hx & _)%positions_range.
    pose proof (vget_Some_bounds _ _ _ Hx). pose proof (lg_fits _ _ _ L). unfold is_u32. lia.
Qed.
End Reads.
