(* ===== verification/TenantProps.v ===== *)
(** * Properties of the multi-tenant ledger *)

From stdpp Require Import relations.
From S2P Require Import Prelude Contract StorageLemmas Codec Sample Tenants TenantSpec TenantTyping TenantLife.

#[local] Abbreviation M := (CM tenant_layout).
#[local] Abbreviation St := (CSt tenant_layout).

(** ** A sample history *)

Definition acme : Symbol := "acme".
Definition globex : Symbol := "globex".
Definition bob : Address := "bob".

#[local] Instance tenant_crypto : Crypto := sample_crypto.

Definition t_init : St := post (texec (TInitialize owner acme 10 0 2 [])) (at_time 100) empty_state.
Definition t_two : St := post (texec (TInitialize bob globex 0 64 0 [])) (at_time 110) t_init.
Definition t_log : St := post (texec (TLogEvent alice acme "login" [1; 2] None)) (at_time 120) t_two.
Definition t_log2 : St := post (texec (TLogEvent alice acme "pay" [3] None)) (at_time 130) t_log.

Lemma tstep_at k t s :
  tcall_typed k -> is_u64 t -> outcome (texec k) (at_time t) s = Ok tt ->
  tstep s (post (texec k) (at_time t) s).
Proof. intros Hk Ht Ho. apply (tstep_call k (at_time t)); [done|done|by apply run_outcome]. Qed.

Lemma treach_call k t s :
  treachable s -> tcall_typed k -> is_u64 t -> outcome (texec k) (at_time t) s = Ok tt ->
  treachable (post (texec k) (at_time t) s).
Proof.
  intros Hr Hk Ht Ho. eapply rtc_r; [exact Hr|by apply tstep_at].
Qed.

Ltac typed_call := repeat (split || constructor || done).
Ltac treach H :=
  apply treach_call; [exact H | typed_call | done | vm_compute; reflexivity].

Lemma t_init_reachable : treachable t_init.
Proof. treach (rtc_refl tstep (@empty_state tenant_layout)). Qed.
Lemma t_two_reachable : treachable t_two.
Proof. treach t_init_reachable. Qed.
Lemma t_log_reachable : treachable t_log.
Proof. treach t_two_reachable. Qed.
Lemma t_log2_reachable : treachable t_log2.
Proof. treach t_log_reachable. Qed.

Section Props.
Context `{C : Crypto}.

Lemma treach_Logged s t : treachable s -> exists log, Logged (inst s) t log.
Proof. intros H. apply (treachable_TInv s H). Qed.

Lemma tstep_TInv s s' : tstep s s' -> TInv s -> TInv s'.
Proof. intros Hs. destruct Hs as [k c s1 s2 Hk Ht R]. intros Hi. by apply (texec_TInv k c s1 s2). Qed.

(** C21: A call on one tenant changes nothing in the partition of another, and
    what it does to its own partition, and whether it succeeds, depends on that
    partition alone. *)
Theorem tenants_are_isolated s k c t :
  treachable s ->
  (forall s', texec k c s = Ok (tt, s') -> t <> tcall_tenant k -> agree t (inst s) (inst s')) /\
  (forall s2, agree (tcall_tenant k) (inst s) (inst s2) ->
     match texec k c s, texec k c s2 with
     | Ok (_, s'), Ok (_, s2') => agree (tcall_tenant k) (inst s') (inst s2')
     | Err e, Err e2 => e = e2
     | _, _ => False
     end).
Proof.
  intros Hr. destruct (treach_Logged s (tcall_tenant k) Hr) as [log L].
  pose proof (Logged_named _ _ _ L) as N. split.
  - intros s' R Hn. eapply outside_agree; [by apply not_eq_sym|]. by apply (texec_outside k c).
  - intros s2 A. pose proof (local_texec k c s s2 N A) as H.
    destruct (texec k c s) as [[[] s']|], (texec k c s2) as [[[] s2']|]; try done. apply H.
Qed.

(** C22: The partition of a tenant always represents the list of the events
    submitted to it, each addressed by its content and linked to the one
    before, and later calls only extend that list. *)
Theorem tenant_log_only_grows s t :
  treachable s ->
  exists log, Logged (inst s) t log /\
    forall s', rtc tstep s s' -> exists ext, Logged (inst s') t (log ++ ext).
Proof.
  intros Hr. destruct (treach_Logged s t Hr) as [log L]. exists log. split; [done|].
  intros s' H. enough (TInv s' /\ exists ext, Logged (inst s') t (log ++ ext)) by naive_solver.
  revert s' H. apply rtc_invariant.
  - split; [by apply treachable_TInv|]. exists []. by rewrite app_nil_r.
  - intros y z _ [Hi [ext Hy]] Hs. split; [by eapply tstep_TInv|].
    destruct Hs as [k c s1 s2 Hk Ht R]. eexists. rewrite app_assoc. by eapply tstep_Logged.
Qed.

(** C23: [log_tenant_event] fails exactly with the first test it does not pass,
    and otherwise stores one event at the end of the log. *)
Theorem log_tenant_event_spec s c a t et md sub :
  treachable s ->
  exists log, Logged (inst s) t log /\
  match refusal c (inst s) a t et md with
  | Some f => log_tenant_event a t et md sub c s = Err f
  | None =>
      let e := new_event c log a t et md sub in
      exists s', log_tenant_event a t et md sub c s = Ok (te_event_id e, s') /\
        Logged (inst s') t (log ++ [e])
  end.
Proof.
  intros Hr. destruct (treach_Logged s t Hr) as [log L]. exists log. split; [done|].
  pose proof (log_tenant_event_run c s a t et md sub log (treachable_Typed s Hr) L) as H.
  destruct (refusal c (inst s) a t et md); [done|]. destruct H as (cfg & s' & _ & R & _ & L').
  by exists s'.
Qed.

(** The moves of the life cycle. *)
Inductive life : TenantStatus -> TenantStatus -> Prop :=
  | life_suspend : life TenantStatus.Active TenantStatus.Suspended
  | life_resume : life TenantStatus.Suspended TenantStatus.Active
  | life_archive_active : life TenantStatus.Active TenantStatus.Archived
  | life_archive_suspended : life TenantStatus.Suspended TenantStatus.Archived
  | life_delete : life TenantStatus.Archived TenantStatus.Deleted.

Lemma config_after_life c k cfg :
  permitted k (tc_status cfg) = true ->
  tc_status (config_after c k cfg) = tc_status cfg \/
  (is_log k = false /\ life (tc_status cfg) (tc_status (config_after c k cfg))).
Proof.
  intros Hp. destruct k; simpl in *; auto; destruct (tc_status cfg) eqn:E; simpl in *; try done;
    try (left; done); try (right; split; [done|constructor]).
Qed.

(** A tenant keeps its name, creator and creation time for ever, its total
    never decreases, and its status only moves along the life cycle, by a call
    that one of its administrators signed. *)
Theorem tenant_life_cycle s s' t cfg :
  treachable s -> tstep s s' -> tenant_config (inst s) t = Some cfg ->
  exists cfg', tenant_config (inst s') t = Some cfg' /\
    tc_tenant_id cfg' = t /\ tc_creator cfg' = tc_creator cfg /\
    tc_created_at cfg' = tc_created_at cfg /\ tc_total_events cfg <= tc_total_events cfg' /\
    (tc_status cfg' = tc_status cfg \/
     life (tc_status cfg) (tc_status cfg') /\
     exists a c, cx_auth c a = true /\ tenant_admin (inst s) t a = true).
Proof.
  intros Hr Hs Hc. pose proof (treachable_TInv s Hr) as HI.
  pose proof (tstep_TInv _ _ Hs HI) as HI'. destruct (ti_logged _ HI' t) as [log' L'].
  destruct Hs as [k c s s' Hk Ht R].
  pose proof (texec_config_some k c s s' t cfg HI R Hc) as Hc'.
  pose proof (Logged_named _ _ _ L' _ Hc') as Hid.
  eexists. split; [exact Hc'|]. split; [exact Hid|].
  destruct (decide (tcall_tenant k = t)) as [<-|n]; [|naive_solver lia].
  destruct (texec_config k c s s' HI R) as [Ha H]. rewrite Hc in H. destruct H as (Hp & Hadm & _).
  assert (tc_creator (config_after c k cfg) = tc_creator cfg /\
          tc_created_at (config_after c k cfg) = tc_created_at cfg /\
          tc_total_events cfg <= tc_total_events (config_after c k cfg)) as (? & ? & ?)
    by (destruct k; simpl; repeat case_match; simpl; split_and!; done || lia).
  split_and!; try done. destruct (config_after_life c k cfg Hp) as [|[Hl ?]]; [by left|right].
  split; [done|]. exists (tcall_signer k), c. split; [done|]. destruct Hadm; [congruence|done].
Qed.

(** An archived tenant logs nothing any more and is never active again;
    once it is deleted its whole partition stays as it is. *)
Theorem archived_tenant_is_final s s' t cfg log :
  treachable s -> rtc tstep s s' -> tenant_config (inst s) t = Some cfg ->
  Logged (inst s) t log ->
  (tc_status cfg = TenantStatus.Archived ->
     Logged (inst s') t log /\
     exists cfg', tenant_config (inst s') t = Some cfg' /\
       (tc_status cfg' = TenantStatus.Archived \/ tc_status cfg' = TenantStatus.Deleted)) /\
  (tc_status cfg = TenantStatus.Deleted -> agree t (inst s) (inst s')).
Proof.
  intros Hr Hs Hc L. pose proof (treachable_TInv s Hr) as HI.
  enough (TInv s' /\
    (tc_status cfg = TenantStatus.Archived \/ tc_status cfg = TenantStatus.Deleted ->
     Logged (inst s') t log /\ exists cfg', tenant_config (inst s') t = Some cfg' /\
       (tc_status cfg' = TenantStatus.Archived \/ tc_status cfg' = TenantStatus.Deleted)) /\
    (tc_status cfg = TenantStatus.Deleted -> agree t (inst s) (inst s'))) by naive_solver.
  revert s' Hs. apply rtc_invariant; [naive_solver|].
  intros y z _ (Hy & HA & HD) Hs. split; [by eapply tstep_TInv|].
  destruct Hs as [k c y z Hk Ht R]. split.
  - intros Hst. destruct (HA Hst) as (Ly & cy & Hcy & Hsy).
    pose proof (tstep_Logged k c y z t log Hk Ht Hy R Ly) as Lz.
    pose proof (texec_config_some k c y z t cy Hy R Hcy) as Hcz.
    destruct (decide (tcall_tenant k = t)) as [<-|n].
    + destruct (texec_config k c y z Hy R) as [_ H]. rewrite Hcy in H. destruct H as (Hp & _).
      assert (is_log k = false) as Hl by (destruct k, (tc_status cy); naive_solver).
      split; [destruct k; try done; by rewrite app_nil_r in Lz|]. eexists. split; [exact Hcz|].
      destruct (config_after_life c k cy Hp) as [->|[_ Hlf]]; [done|].
      destruct Hsy as [E|E]; rewrite E in Hlf; inversion Hlf; auto.
    + split; [|by exists cy].
      destruct k; simpl in n; rewrite ?app_nil_r in Lz; try done.
      by rewrite decide_False, app_nil_r in Lz.
  - intros Hd. etransitivity; [by apply HD|]. destruct (HA (or_intror Hd)) as (Ly & cy & Hcy & _).
    assert (tcall_tenant k <> t) as n.
    { intros <-. rewrite (HD Hd (TenantDataKey.TenantConfig (tcall_tenant k)) eq_refl
                         : tenant_config (inst y) (tcall_tenant k) = _) in Hcy.
      destruct (texec_config k c y z Hy R) as [_ H].
      unfold tenant_config in *. rewrite (HD Hd (TenantDataKey.TenantConfig (tcall_tenant k)) eq_refl), Hc in H.
      destruct H as [Hp _]. rewrite Hd in Hp. by destruct k. }
    destruct (ti_logged _ Hy (tcall_tenant k)) as [l Lk].
    apply (outside_agree (tcall_tenant k)); [done|].
    by apply (texec_outside k c y z (Logged_named _ _ _ Lk)).
Qed.

(** The queries of a tenant that is not deleted answer from the list of its
    submitted events: by position, by type and occurrence, with the totals; a
    position outside the list is an error. *)
Theorem tenant_queries_read_the_log s c t cfg :
  treachable s -> tenant_config (inst s) t = Some cfg -> tc_status cfg <> TenantStatus.Deleted ->
  exists log, Logged (inst s) t log /\
    tenant_total_events t c s = Ok (len log, s) /\
    (forall i, 0 <= i -> get_tenant_event_by_index t i c s
       = match vget log i with
         | Some e => Ok (stored log e, s)
         | None => Err (Raise TenantError.TenantTypeIndexOutOfBounds)
         end) /\
    (forall et, tenant_event_count_by_type t et c s
       = Ok (len (filter (fun e => te_event_type e = et) log), s)) /\
    (4 * len log <= u32_max -> forall et k, 0 <= k -> get_tenant_event_by_type t et k c s
       = match vget (filter (fun e => te_event_type e = et) log) k with
         | Some e => Ok (stored log e, s)
         | None => Err (Raise TenantError.TenantTypeIndexOutOfBounds)
         end).
Proof.
  intros Hr Hc Hd. destruct (treach_Logged s t Hr) as [log L]. exists log. split; [done|].
  pose proof (readable_config_run c s t cfg Hc) as Hrd. rewrite decide_False in Hrd by done.
  split_and!.
  - unfold tenant_total_events, bind. rewrite Hrd. pose proof (lg_config _ _ _ L) as H.
    unfold tenant_config in Hc. rewrite Hc in H. destruct H as [_ ->]. done.
  - intros i Hi. by apply (by_index_run c s t log L cfg).
  - intros et. unfold tenant_event_count_by_type, bind. rewrite Hrd.
    pose proof (lg_counts _ _ _ L et) as H. unfold positions, len in H. rewrite length_fmap in H.
    unfold get_tenant_type_count, iget_or, len. rewrite <- H. by case_match.
  - intros Hb et k Hk. by apply (by_type_run c s t log L cfg).
Qed.

(** [list_tenants] names every tenant exactly once. *)
Theorem tenant_registry_is_exact s c :
  treachable s ->
  exists ids, list_tenants c s = Ok (ids, s) /\ NoDup ids /\
    forall t, t ∈ ids <-> is_Some (tenant_config (inst s) t).
Proof.
  intros Hr. destruct (ti_registered s (treachable_TInv s Hr)) as [Hn Hx].
  exists (registry (inst s)). split_and!; [|done|done].
  unfold list_tenants, get_tenant_ids, iget_or, registry. by case_match.
Qed.

(** An admitted submission respects the quota of the tenant, the size
    limit, the cap of its event type and the rate limit of its submitter. *)
Theorem tenant_limits_hold s c a t et md sub id s' :
  treachable s -> log_tenant_event a t et md sub c s = Ok (id, s') ->
  exists cfg, tenant_config (inst s) t = Some cfg /\
    len md <= tc_max_metadata_bytes cfg /\
    (0 < tc_max_events cfg -> tenant_total_events t c s' = Ok (tc_total_events cfg + 1, s') /\
                              tc_total_events cfg + 1 <= tc_max_events cfg) /\
    (forall cap, sget (inst s) (TenantDataKey.TenantCapConfig t et) = Some cap ->
       exists n, tenant_event_count_by_type t et c s' = Ok (n, s') /\ n <= cap) /\
    (0 < tc_rate_limit cfg -> rate_used c (inst s') t a = rate_used c (inst s) t a + 1 /\
                              rate_used c (inst s') t a <= tc_rate_limit cfg).
Proof.
  intros Hr R. destruct (treach_Logged s t Hr) as [log L].
  pose proof (log_tenant_event_run c s a t et md sub log (treachable_Typed s Hr) L) as H.
  destruct (refusal c (inst s) a t et md) eqn:Er; [congruence|].
  destruct H as (cfg & s1 & Hc & R1 & E & L'). rewrite R in R1. injection R1 as -> <-.
  unfold refusal in Er. destruct (negb (cx_auth c a)); [done|]. rewrite Hc in Er.
  destruct (tc_status cfg) eqn:Es; try done.
  destruct (Z.ltb 0 (tc_max_events cfg) && _) eqn:E1; [done|].
  destruct (Z.ltb (tc_max_metadata_bytes cfg) (len md)) eqn:E2; [done|].
  destruct (type_capped (inst s) t et) eqn:E3; [done|].
  destruct (Z.ltb 0 (tc_rate_limit cfg) && _) eqn:E4; [done|].
  assert (tenant_config (inst s') t = Some (counted c cfg)) as Hc'.
  { unfold tenant_config. rewrite E. unfold appended. rewrite sset_ne by done.
    cbn [te_tenant_id new_event]. by rewrite sset_eq. }
  pose proof (readable_config_run c s' t _ Hc') as Hrd.
  rewrite decide_False in Hrd by (simpl; congruence).
  exists cfg. split; [done|]. split; [by zcase|]. split_and!.
  - intros Hm. rewrite (proj2 (Z.ltb_lt _ _) Hm) in E1. simpl in E1. zcase.
    split; [|lia]. unfold tenant_total_events, bind. by rewrite Hrd.
  - intros cap Hcap. unfold type_capped in E3. rewrite Hcap in E3. zcase.
    exists (len (positions et log) + 1). split.
    + unfold tenant_event_count_by_type, bind. rewrite Hrd.
      unfold get_tenant_type_count, iget_or. rewrite E. unfold appended.
      cbn [te_tenant_id te_event_type new_event]. by rewrite !sset_ne, sset_eq by done.
    + rewrite <- (lg_counts _ _ _ L et). lia.
  - intros Hl. rewrite (proj2 (Z.ltb_lt _ _) Hl) in E4. simpl in E4. zcase.
    assert (rate_used c (inst s') t a = rate_used c (inst s) t a + 1) as ->; [|lia].
    unfold rate_used at 1. rewrite E. unfold appended, rated.
    rewrite (proj2 (Z.ltb_lt _ _) Hl). rewrite !sset_ne, sset_eq by done. simpl.
    by rewrite Z.eqb_refl.
Qed.

Lemma opening_run c (s : St) a t cfg :
  cx_auth c a = true -> tenant_admin (inst s) t a = true -> tenant_config (inst s) t = Some cfg ->
  admin_opening a t c s = Ok (cfg, s).
Proof.
  intros Ha Had Hc. unfold admin_opening, require_tenant_admin, is_tenant_admin,
    config_or_not_found, get_config, bind, require_auth, iget, iget_or, reject_if.
  rewrite Ha. unfold tenant_admin, default in Had. unfold tenant_config in Hc.
  destruct (sget (inst s) (TenantDataKey.TenantAdmin t a)); simpl in *; [subst|done]. simpl. by rewrite Hc.
Qed.

Lemma change_status_run c (s : St) a t cfg st topic :
  tc_tenant_id cfg = t ->
  exists s', change_status a t cfg st topic c s = Ok (tt, s') /\
    tenant_config (inst s') t = Some (with_status cfg st (cx_timestamp c)) /\
    forall b, tenant_admin (inst s') t b = tenant_admin (inst s) t b.
Proof.
  intros <-. eexists. split; [reflexivity|]. unfold tenant_config, tenant_admin. simpl.
  split; [by rewrite sset_eq|]. intros b. by rewrite sset_ne.
Qed.

(** In a state where a tenant is deleted, and in every later one, no call on it
    goes through and no query by event answers. *)
Lemma deleted_is_closed s t cfg log c :
  TInv s -> Logged (inst s) t log ->
  tenant_config (inst s) t = Some cfg -> tc_status cfg = TenantStatus.Deleted ->
  (forall k, tcall_tenant k = t -> exists e, texec k c s = Err e) /\
  tenant_total_events t c s = Err (Raise TenantError.TenantDeleted) /\
  (forall id, get_tenant_event t id c s = Err (Raise TenantError.TenantDeleted)) /\
  (forall i, get_tenant_event_by_index t i c s = Err (Raise TenantError.TenantDeleted)) /\
  (forall et i, get_tenant_event_by_type t et i c s = Err (Raise TenantError.TenantDeleted)).
Proof.
  intros HI L Hc Hd. pose proof (readable_config_run c s t cfg Hc) as Hr.
  rewrite decide_True in Hr by done. split.
  - intros k <-. destruct (texec k c s) as [[[] s']|e] eqn:R; [exfalso|by exists e].
    destruct (texec_config k c s s' HI R) as [_ H]. rewrite Hc in H. destruct H as [Hp _].
    rewrite Hd in Hp. by destruct k.
  - unfold tenant_total_events, get_tenant_event, get_tenant_event_by_index,
      get_tenant_event_by_type, bind. rewrite Hr. done.
Qed.

(** C26: Deleting a tenant takes a signing administrator, an archived tenant and,
    unless forced, an empty one - and any administrator of a tenant that is not
    deleted yet gets there by archiving and then deleting by force.  The deletion
    only writes a tombstone: the configuration stays, with the status [Deleted],
    and every other key of storage is as before.  From then on, whatever is
    called, the partition of the tenant stays as it is, its events included; no
    call on the tenant goes through, and the queries of its events answer
    [TenantDeleted]. *)
Theorem deletion_is_a_tombstone s c a t cfg log :
  treachable s -> tenant_config (inst s) t = Some cfg -> Logged (inst s) t log ->
  (cx_auth c a = true -> tenant_admin (inst s) t a = true ->
   tc_status cfg <> TenantStatus.Deleted ->
     exists s1 s2, archive_tenant a t c s = Ok (tt, s1) /\ delete_tenant a t true c s1 = Ok (tt, s2)) /\
  (forall force s1, delete_tenant a t force c s = Ok (tt, s1) -> is_u64 (cx_timestamp c) ->
     cx_auth c a = true /\ tenant_admin (inst s) t a = true /\
     tc_status cfg = TenantStatus.Archived /\ (force = true \/ tc_total_events cfg = 0) /\
     tenant_config (inst s1) t = Some (with_status cfg TenantStatus.Deleted (cx_timestamp c)) /\
     (forall k, k <> TenantDataKey.TenantConfig t -> sget (inst s1) k = sget (inst s) k) /\
     forall s2 c', rtc tstep s1 s2 ->
       agree t (inst s1) (inst s2) /\ Logged (inst s2) t log /\
       (forall k, tcall_tenant k = t -> exists e, texec k c' s2 = Err e) /\
       tenant_total_events t c' s2 = Err (Raise TenantError.TenantDeleted) /\
       (forall id, get_tenant_event t id c' s2 = Err (Raise TenantError.TenantDeleted)) /\
       (forall i, get_tenant_event_by_index t i c' s2 = Err (Raise TenantError.TenantDeleted)) /\
       (forall et i, get_tenant_event_by_type t et i c' s2 = Err (Raise TenantError.TenantDeleted))).
Proof.
  intros Hr Hc L. pose proof (Logged_named _ _ _ L _ Hc) as Hid. split.
  - intros Ha Had Hd.
    assert (exists s1 cfg1, archive_tenant a t c s = Ok (tt, s1) /\ tc_tenant_id cfg1 = t /\
      tenant_config (inst s1) t = Some cfg1 /\ tc_status cfg1 = TenantStatus.Archived /\
      tenant_admin (inst s1) t a = true) as (s1 & cfg1 & R1 & Hid1 & Hc1 & Hs1 & Ha1).
    { unfold archive_tenant, reject_deleted, reject_if, bind.
      rewrite (opening_run c s a t cfg) by done.
      destruct (tc_status cfg) eqn:Es; try done; simpl; try (exists s, cfg; done).
      all: destruct (change_status_run c s a t cfg TenantStatus.Archived "archived" Hid)
        as (s1 & R & Hc1 & Hb); exists s1, (with_status cfg TenantStatus.Archived (cx_timestamp c));
        rewrite Hb; split_and!; done. }
    exists s1. unfold delete_tenant, reject_if, bind.
    rewrite (opening_run c s1 a t cfg1) by done. rewrite Hs1. simpl.
    destruct (change_status_run c s1 a t cfg1 TenantStatus.Deleted "deleted" Hid1)
      as (s2 & R2 & _). by exists s2.
  - intros force s1 R Ht. assert (tstep s s1) as Hst.
    { exact (tstep_call (TDelete a t force) c s s1 I Ht R). }
    assert (treachable s1) as Hr1 by (eapply rtc_r; [exact Hr|exact Hst]).
    pose proof (tstep_Logged (TDelete a t force) c s s1 t log I Ht (treachable_TInv s Hr) R L) as L1.
    simpl in L1. rewrite app_nil_r in L1.
    pose proof R as R0. unfold delete_tenant in R0.
    apply bind_Ok in R0 as (cfg0 & s0 & R1 & R0).
    apply admin_opening_Ok in R1 as (-> & Ha & Had & Hc0). rewrite Hc in Hc0. injection Hc0 as <-.
    apply bind_Ok in R0 as (u1 & s0 & R1 & R0). apply reject_if_Ok in R1 as [B1 ->].
    apply bind_Ok in R0 as (u2 & s0 & R1 & R0). apply reject_if_Ok in R1 as [B2 ->].
    apply bool_decide_eq_false in B1. apply dec_stable in B1.
    assert (tenant_config (inst s1) t = Some (with_status cfg TenantStatus.Deleted (cx_timestamp c)) /\
      (forall k, k <> TenantDataKey.TenantConfig t -> sget (inst s1) k = sget (inst s) k)) as [Hc1 Hk].
    { unfold change_status, save_tenant_config, tenant_event in R0. minv. unfold tenant_config.
      rewrite sset_eq. split; [done|]. intros k Hne. by rewrite sset_ne by congruence. }
    do 3 (split; [done|]). split.
    { destruct force; [by left|right]. simpl in B2. pose proof (lg_config _ _ _ L) as Hl.
      unfold tenant_config in Hc. rewrite Hc in Hl. destruct Hl as [_ Hl].
      pose proof (len_nonneg log). zcase. lia. }
    do 2 (split; [done|]). intros s2 c' Hs2.
    destruct (archived_tenant_is_final s1 s2 t _ log Hr1 Hs2 Hc1 L1) as [_ HA].
    specialize (HA eq_refl). split; [done|].
    assert (TInv s2) as HI2.
    { apply treachable_TInv. unfold treachable in *. by etrans. }
    assert (Logged (inst s2) t log) as L2 by (eapply Logged_agree; [exact HA|exact L1]).
    split; [done|].
    apply (deleted_is_closed s2 t (with_status cfg TenantStatus.Deleted (cx_timestamp c)) log c');
      try done.
    unfold tenant_config. rewrite HA by done. exact Hc1.
Qed.

Lemma log_success s c a t et md sub id s1 log :
  TInv s -> is_u64 (cx_timestamp c) -> Forall is_byte md -> Logged (inst s) t log ->
  log_tenant_event a t et md sub c s = Ok (id, s1) ->
  let e := new_event c log a t et md sub in
  TInv s1 /\ id = te_event_id e /\ Logged (inst s1) t (log ++ [e]) /\
  exists cfg, tenant_config (inst s) t = Some cfg /\ tc_status cfg = TenantStatus.Active /\
    tenant_config (inst s1) t = Some (counted c cfg).
Proof.
  intros HI Ht Hm L R e.
  assert (texec (TLogEvent a t et md sub) c s = Ok (tt, s1)) as X
    by (simpl; unfold bind; by rewrite R).
  destruct (texec_config _ c s s1 HI X) as [_ H]. simpl in H.
  destruct (tenant_config (inst s) t) as [cfg|]; [|done]. destruct H as (Hp & _ & Hc).
  pose proof (log_tenant_event_run c s a t et md sub log (ti_typed _ HI) L) as Y.
  destruct (refusal c (inst s) a t et md); [congruence|].
  destruct Y as (_ & s2 & _ & Y & _ & L'). rewrite R in Y. injection Y as -> <-.
  split; [by apply (texec_TInv (TLogEvent a t et md sub) c s s1)|]. split_and!; try done.
  exists cfg. split_and!; try done. by destruct (tc_status cfg).
Qed.

(** Submitting the same content twice at one timestamp stores it once: both
    positions then read the second submission, which names itself as its
    predecessor. *)
Theorem same_submission_overwrites s c a t et md sub id s1 id2 s2 :
  treachable s -> is_u64 (cx_timestamp c) -> Forall is_byte md ->
  log_tenant_event a t et md sub c s = Ok (id, s1) ->
  log_tenant_event a t et md sub c s1 = Ok (id2, s2) ->
  id2 = id /\ exists n e, tenant_total_events t c s = Ok (n, s) /\
    get_tenant_event_by_index t n c s2 = Ok (e, s2) /\
    get_tenant_event_by_index t (n + 1) c s2 = Ok (e, s2) /\
    te_index e = n + 1 /\ te_prev_hash e = te_event_id e.
Proof.
  intros Hr Ht Hm R1 R2. destruct (treach_Logged s t Hr) as [log L].
  destruct (log_success _ _ _ _ _ _ _ _ _ _ (treachable_TInv s Hr) Ht Hm L R1)
    as (HI1 & -> & L1 & cfg & Hc & Hs & _).
  destruct (log_success _ _ _ _ _ _ _ _ _ _ HI1 Ht Hm L1 R2)
    as (_ & -> & L2 & cfg1 & _ & Hs1 & Hc2). split; [done|].
  set (e := new_event c log a t et md sub) in *.
  set (e2 := new_event c (log ++ [e]) a t et md sub) in *.
  exists (len log), e2. pose proof (readable_config_run c s t cfg Hc) as Hrd.
  rewrite decide_False in Hrd by congruence.
  assert (stored (log ++ [e; e2]) e = e2 /\ stored (log ++ [e; e2]) e2 = e2) as [S1 S2].
  { unfold stored. rewrite (app_assoc log [e] [e2] : log ++ [e; e2] = _), !latest_snoc.
    by rewrite !decide_True by done. }
  rewrite <- app_assoc in L2. simpl in L2. pose proof (len_nonneg log). split_and!.
  - unfold tenant_total_events, bind. rewrite Hrd. pose proof (lg_config _ _ _ L) as H'.
    unfold tenant_config in Hc. rewrite Hc in H'. by destruct H' as [_ ->].
  - rewrite (by_index_run c s2 t _ L2 _ _ Hc2) by (simpl; congruence || done).
    rewrite vget_app_r by lia. replace (len log - len log) with 0 by lia. simpl. by rewrite S1.
  - rewrite (by_index_run c s2 t _ L2 _ _ Hc2) by (simpl; congruence || lia).
    rewrite vget_app_r by lia. replace (len log + 1 - len log) with 1 by lia. simpl. by rewrite S2.
  - unfold e2. simpl. by rewrite len_app.
  - unfold e2. simpl. by rewrite head_hash_snoc.
Qed.

Lemma texec_no_admin k c s s' t :
  TInv s -> texec k c s = Ok (tt, s') -> is_Some (tenant_config (inst s) t) ->
  (forall b, tenant_admin (inst s) t b = false) ->
  (forall b, tenant_admin (inst s') t b = false) /\
  exists cfg cfg', tenant_config (inst s) t = Some cfg /\ tenant_config (inst s') t = Some cfg' /\
    tc_status cfg' = tc_status cfg /\ tc_max_events cfg' = tc_max_events cfg.
Proof.
  intros HI R [cfg Hc] Hn. pose proof (texec_config_some k c s s' t cfg HI R Hc) as Hc'.
  destruct (decide (tcall_tenant k = t)) as [<-|n].
  - destruct (texec_config k c s s' HI R) as [_ H]. rewrite Hc in H. destruct H as (_ & [Hl|Ha] & _).
    2:{ rewrite Hn in Ha. done. }
    destruct k as [| | | | | | | | |a t et md sub]; try done. split; [|by exists cfg, (counted c cfg)].
    intros b. rewrite <- (Hn b). unfold tenant_admin. f_equal.
    assert (keeps (fun x => match x with TenantDataKey.TenantAdmin _ _ => true | _ => false end)
              (texec (TLogEvent a t et md sub))) as K by (simpl; unfold_tenant; keeps_tac).
    by apply (K c s tt s' R (TenantDataKey.TenantAdmin t b)).
  - destruct (ti_logged _ HI (tcall_tenant k)) as [l L].
    pose proof (texec_outside k c s s' (Logged_named _ _ _ L) R) as O.
    apply (outside_agree _ t) in O; [|done]. split; [|by exists cfg, cfg].
    intros b. rewrite <- (Hn b). unfold tenant_admin.
    by rewrite (O (TenantDataKey.TenantAdmin t b)).
Qed.

(** Nothing stops the only administrator from removing itself, and the
    tenant then has no administrator, and keeps its status and its quota, for
    ever. *)
Theorem last_administrator_can_leave s c a t s' s'' :
  treachable s -> (forall b, tenant_admin (inst s) t b = true -> b = a) ->
  is_u64 (cx_timestamp c) ->
  remove_tenant_admin a t a c s = Ok (tt, s') -> rtc tstep s' s'' ->
  (forall b, tenant_admin (inst s'') t b = false) /\
  exists cfg cfg', tenant_config (inst s) t = Some cfg /\ tenant_config (inst s'') t = Some cfg' /\
    tc_status cfg' = tc_status cfg /\ tc_max_events cfg' = tc_max_events cfg.
Proof.
  intros Hr Hsole Ht R Hs. pose proof (treachable_TInv s Hr) as HI.
  assert (texec (TRemoveAdmin a t a) c s = Ok (tt, s')) as X by exact R.
  pose proof (texec_TInv (TRemoveAdmin a t a) c s s' I Ht HI X) as HI'.
  destruct (texec_config _ c s s' HI X) as [_ H]. simpl in H.
  destruct (tenant_config (inst s) t) as [cfg|] eqn:Hc; [|done]. destruct H as (_ & _ & Hc').
  assert (forall b, tenant_admin (inst s') t b = false) as Hn.
  { intros b. unfold remove_tenant_admin in R. apply bind_Ok in R as (cf & s1 & R1 & R).
    apply admin_opening_Ok in R1 as (-> & _). unfold reject_deleted, tenant_event in R. minv.
    unfold tenant_admin. destruct (decide (b = a)) as [->|n].
    - by rewrite sdel_eq.
    - rewrite sdel_ne by congruence. destruct (default false _) eqn:E; [|done].
      exfalso. apply n, Hsole. exact E. }
  enough (TInv s'' /\ (forall b, tenant_admin (inst s'') t b = false) /\
    exists cfg', tenant_config (inst s'') t = Some cfg' /\
      tc_status cfg' = tc_status cfg /\ tc_max_events cfg' = tc_max_events cfg) as (_ & H1 & cfg' & H2).
  { split; [exact H1|]. exists cfg, cfg'. naive_solver. }
  revert s'' Hs. apply rtc_invariant; [naive_solver|].
  intros y z _ (Hy & Hny & cy & Hcy & Ey) Hs. split; [by eapply tstep_TInv|].
  destruct Hs as [k c' y z Hk Ht' R'].
  destruct (texec_no_admin k c' y z t Hy R' (mk_is_Some _ _ Hcy) Hny)
    as (Hz & c1 & c2 & E1 & E2 & E3 & E4). split; [done|]. exists c2. naive_solver congruence.
Qed.
End Props.

(** ** The properties at concrete states *)

Lemma tenants_are_isolated_witness :
  let k := TLogEvent alice acme "pay" [3] None in
  let s := t_log in
  agree globex (inst s) (inst (post (texec k) (at_time 130) s)) /\
  match texec k (at_time 130) s, texec k (at_time 130) s with
  | Ok (_, s1), Ok (_, s2) => agree acme (inst s1) (inst s2)
  | Err e, Err f => e = f
  | _, _ => False
  end.
Proof.
  intros k s. destruct (tenants_are_isolated s k (at_time 130) globex t_log_reachable) as [H1 H2].
  split; [|by apply H2].
  apply H1; [apply run_outcome; vm_compute; reflexivity|discriminate].
Defined.

Lemma tenant_log_only_grows_witness :
  exists log, Logged (inst t_log) acme log /\
    exists ext, Logged (inst t_log2) acme (log ++ ext).
Proof.
  destruct (tenant_log_only_grows t_log acme t_log_reachable) as (log & L & H).
  exists log. split; [exact L|]. apply H. apply rtc_once.
  apply (tstep_at (TLogEvent alice acme "pay" [3] None) 130 t_log);
    [typed_call|done|vm_compute; reflexivity].
Defined.

Lemma log_tenant_event_spec_witness :
  exists log e s', Logged (inst t_log) acme log /\
    log_tenant_event alice acme "pay" [3] None (at_time 130) t_log = Ok (e, s') /\
    exists log', Logged (inst s') acme log'.
Proof.
  destruct (log_tenant_event_spec t_log (at_time 130) alice acme "pay" [3] None t_log_reachable)
    as (log & L & H).
  assert (refusal (at_time 130) (inst t_log) alice acme "pay" [3] = None) as E
    by (vm_compute; reflexivity).
  rewrite E in H. destruct H as (s' & R & L'). eexists log, _, s'. split; [exact L|].
  split; [exact R|]. by eexists.
Defined.

Definition t_suspended : St := post (texec (TSuspend owner acme)) (at_time 140) t_log2.
Definition t_archived : St := post (texec (TArchive owner acme)) (at_time 150) t_log2.
Definition t_deleted : St := post (texec (TDelete owner acme true)) (at_time 160) t_archived.

Lemma t_suspended_reachable : treachable t_suspended.
Proof. treach t_log2_reachable. Qed.
Lemma t_archived_reachable : treachable t_archived.
Proof. treach t_log2_reachable. Qed.

Lemma tenant_life_cycle_witness :
  exists cfg cfg', tenant_config (inst t_log2) acme = Some cfg /\
    tenant_config (inst t_suspended) acme = Some cfg' /\ tc_creator cfg' = tc_creator cfg.
Proof.
  eexists. eassert (tenant_config (inst t_log2) acme = Some _) as Hc by (vm_compute; reflexivity).
  pose proof (fun S => tenant_life_cycle t_log2 t_suspended acme _ t_log2_reachable S Hc) as H.
  destruct H as (cfg' & Hc' & _ & Hk & _).
  { apply (tstep_at (TSuspend owner acme) 140 t_log2); [done|done|vm_compute; reflexivity]. }
  exists cfg'. split; [exact Hc|]. split; [exact Hc'|exact Hk].
Defined.

Lemma archived_tenant_is_final_witness :
  exists log, Logged (inst t_archived) acme log /\ Logged (inst t_deleted) acme log.
Proof.
  destruct (treach_Logged t_archived acme t_archived_reachable) as [log L]. exists log.
  split; [exact L|].
  eassert (tenant_config (inst t_archived) acme = Some _) as Hc by (vm_compute; reflexivity).
  pose proof (fun R => archived_tenant_is_final t_archived t_deleted acme _ log
                         t_archived_reachable R Hc L) as H.
  apply H; [|reflexivity]. apply rtc_once. apply (tstep_at (TDelete owner acme true) 160 t_archived);
    [done|done|vm_compute; reflexivity].
Defined.

Lemma tenant_queries_read_the_log_witness :
  exists log, Logged (inst t_log2) acme log /\
    tenant_total_events acme (at_time 200) t_log2 = Ok (len log, t_log2).
Proof.
  eassert (tenant_config (inst t_log2) acme = Some _) as Hc by (vm_compute; reflexivity).
  destruct (tenant_queries_read_the_log t_log2 (at_time 200) acme _ t_log2_reachable Hc)
    as (log & L & H & _); [discriminate|]. exists log. split; [exact L|exact H].
Defined.

Lemma tenant_registry_is_exact_witness :
  exists ids, list_tenants (at_time 200) t_log2 = Ok (ids, t_log2) /\ NoDup ids.
Proof.
  destruct (tenant_registry_is_exact t_log2 (at_time 200) t_log2_reachable) as (ids & R & N & _).
  exists ids. split; [exact R|exact N].
Defined.

Lemma tenant_limits_hold_witness :
  exists cfg, tenant_config (inst t_log) acme = Some cfg /\ len [3] <= tc_max_metadata_bytes cfg.
Proof.
  destruct (tenant_limits_hold t_log (at_time 130) alice acme "pay" [3] None
              _ _ t_log_reachable (run_outcome (log_tenant_event alice acme "pay" [3] None)
                (at_time 130) t_log _ ltac:(vm_compute; reflexivity))) as (cfg & Hc & Hl & _).
  exists cfg. split; [exact Hc|exact Hl].
Defined.

Lemma deletion_is_a_tombstone_witness :
  exists log, Logged (inst t_deleted) acme log /\
    tenant_total_events acme (at_time 170) t_deleted = Err (Raise TenantError.TenantDeleted).
Proof.
  destruct (treach_Logged t_archived acme t_archived_reachable) as [log L]. exists log.
  eassert (tenant_config (inst t_archived) acme = Some _) as Hc by (vm_compute; reflexivity).
  destruct (deletion_is_a_tombstone t_archived (at_time 160) owner acme _ log t_archived_reachable
              Hc L) as [_ H].
  assert (delete_tenant owner acme true (at_time 160) t_archived = Ok (tt, t_deleted)) as R.
  { refine (run_outcome (delete_tenant owner acme true) (at_time 160) t_archived tt _).
    vm_compute. reflexivity. }
  destruct (H true t_deleted R ltac:(done)) as (_ & _ & _ & _ & _ & _ & F).
  destruct (F t_deleted (at_time 170) (rtc_refl tstep t_deleted)) as (_ & L2 & _ & Q & _).
  split; [exact L2|exact Q].
Defined.

#[local] Abbreviation dup := (log_tenant_event alice acme "pay" [7] None).
Definition t_dup : St := post dup (at_time 140) t_log2.
Definition t_dup2 : St := post dup (at_time 140) t_dup.
Definition dup_id : Hash := Eval vm_compute in
  match outcome dup (at_time 140) t_log2 with Ok h => h | Err _ => [] end.

Lemma same_submission_overwrites_witness :
  exists e, te_prev_hash e = te_event_id e /\ te_index e = 3.
Proof.
  assert (outcome dup (at_time 140) t_log2 = Ok dup_id) as R1 by (vm_compute; reflexivity).
  assert (outcome dup (at_time 140) t_dup = Ok dup_id) as R2 by (vm_compute; reflexivity).
  pose proof (fun A B => same_submission_overwrites t_log2 (at_time 140) alice acme "pay" [7] None
                dup_id t_dup dup_id t_dup2 t_log2_reachable A B
                (run_outcome dup (at_time 140) t_log2 _ R1) (run_outcome dup (at_time 140) t_dup _ R2))
    as P.
  destruct P as (_ & n & e & H & _ & _ & Hi & Hp); [done|typed_call|].
  exists e. split; [exact Hp|]. rewrite Hi.
  assert (outcome (tenant_total_events acme) (at_time 140) t_log2 = Ok 2) as E
    by (vm_compute; reflexivity).
  rewrite (outcome_run _ _ _ _ _ H) in E. injection E as ->. reflexivity.
Defined.

Definition t_orphan : St := post (texec (TRemoveAdmin bob globex bob)) (at_time 140) t_two.

Lemma globex_admins b : tenant_admin (inst t_two) globex b = true -> b = bob.
Proof.
  intros H. destruct (decide (b = bob)) as [->|n]; [done|exfalso].
  assert (inst t_two = sset (sset (sset (sset (inst t_init) (TenantDataKey.TenantConfig globex)
    (mkTenantConfig globex bob TenantStatus.Active 0 64 0 110 110 0 []))
    (TenantDataKey.TenantAdmin globex bob) true) TenantDataKey.TenantIds [acme; globex])
    (TenantDataKey.TenantPrevHash globex) zeros) as E by reflexivity.
  assert (forall st : kvstore tenant_layout, sget st (TenantDataKey.TenantAdmin globex b) = None ->
            tenant_admin st globex b = false) as Hf by (intros st; unfold tenant_admin; by intros ->).
  rewrite Hf in H; [done|]. rewrite E, !sset_ne by congruence.
  assert (inst t_init = sset (sset (sset (sset sempty (TenantDataKey.TenantConfig acme)
    (mkTenantConfig acme owner TenantStatus.Active 10 1024 2 100 100 0 []))
    (TenantDataKey.TenantAdmin acme owner) true) TenantDataKey.TenantIds [acme])
    (TenantDataKey.TenantPrevHash acme) zeros) as E1 by reflexivity.
  rewrite E1, !sset_ne by congruence. done.
Qed.

Lemma last_administrator_can_leave_witness :
  tenant_admin (inst t_orphan) globex bob = false /\
  outcome (suspend_tenant bob globex) (at_time 150) t_orphan
  = Err (Raise TenantError.NotTenantAdmin).
Proof.
  split; [|vm_compute; reflexivity].
  apply (last_administrator_can_leave t_two (at_time 140) bob globex t_orphan t_orphan
           t_two_reachable globex_admins); [done| |apply rtc_refl].
  apply (run_outcome (remove_tenant_admin bob globex bob)). vm_compute. reflexivity.
Defined.
