(* ===== verification/Carbon.v ===== *)
(** * Carbon credits

    The credit registry of src/carbon_credits.rs: issuing, verifying,
    tokenizing, retiring and transferring credits, the registries they are
    listed in, and the totals.  All of it lives in persistent storage.  The
    first part of the file has the data and every function, the second what
    holds of them in every history. *)

From stdpp Require Import relations.
From S2P Require Import Prelude Contract StorageLemmas Codec Sample.

(** ** Data *)

Module CarbonCreditError.
(** [CarbonCreditError], src/carbon_credits.rs:9-34 *)
Inductive CarbonCreditError : Set :=
  | CreditNotFound
  | InvalidCarbonAmount
  | VerificationFailed
  | AlreadyRetired
  | CreditExpired
  | UnauthorizedAccess
  | InvalidOffsetCalculation
  | RegistryNotFound
  | UnknownStandard
  | InsufficientCredits
  | InvalidTokenization
  | TransferFailed.
End CarbonCreditError.
Abbreviation CarbonCreditError := CarbonCreditError.CarbonCreditError.

Module CreditStatus.
(** [CreditStatus], src/carbon_credits.rs:39-45 *)
Inductive CreditStatus : Set := Issued | Active | Retired | Disputed | Expired.
#[global] Instance CreditStatus_eq_dec : EqDecision CreditStatus.
Proof. solve_decision. Defined.
End CreditStatus.
Abbreviation CreditStatus := CreditStatus.CreditStatus.

Module RenewableEnergyType.
(** [RenewableEnergyType], src/carbon_credits.rs:50-58 *)
Inductive RenewableEnergyType : Set :=
  | Solar | Wind | Hydro | Geothermal | Biomass | TidalWave | OceanThermal.
End RenewableEnergyType.

Module ComplianceStandard.
(** [ComplianceStandard], src/carbon_credits.rs:63-70 *)
Inductive ComplianceStandard : Set := Vcs | Gold | Cdm | Car | Ace | Custom.
#[global] Instance ComplianceStandard_eq_dec : EqDecision ComplianceStandard.
Proof. solve_decision. Defined.
End ComplianceStandard.
Abbreviation ComplianceStandard := ComplianceStandard.ComplianceStandard.

(** [RenewableEnergySource], src/carbon_credits.rs:75-83 *)
Record RenewableEnergySource := mkRenewableEnergySource {
  rs_source_type : RenewableEnergyType.RenewableEnergyType;
  rs_facility_id : Bytes;
  rs_location : Bytes;
  rs_capacity_mw : Z;
  rs_energy_generated_mwh : Z;
  rs_verification_date : Z;
  rs_certifications : list Bytes }.

(** [Offset], src/carbon_credits.rs:88-96 *)
Record Offset := mkOffset {
  of_offset_type : Symbol;
  of_project_id : Bytes;
  of_tonnes_co2e : Z;
  of_project_location : Bytes;
  of_verification_body : Address;
  of_verification_date : Z;
  of_expiration_date : Z }.

(** [Tokenization], src/carbon_credits.rs:101-108 *)
Record Tokenization := mkTokenization {
  tk_token_id : Hash;
  tk_total_tokens : Z;
  tk_tokens_retired : Z;
  tk_token_owner : Address;
  tk_market_value : Z;
  tk_tradeable : bool }.

(** [RegistryEntry], src/carbon_credits.rs:113-120 *)
Record RegistryEntry := mkRegistryEntry {
  re_registry_id : Bytes;
  re_registry_name : Bytes;
  re_registry_url : Bytes;
  re_issuance_date : Z;
  re_verified_by : Address;
  re_compliance_standard : ComplianceStandard }.

(** [SustainabilityClaim], src/carbon_credits.rs:125-133 *)
Record SustainabilityClaim := mkSustainabilityClaim {
  sc_claim_id : Bytes;
  sc_claimant : Address;
  sc_claim_type : Symbol;
  sc_claim_description : Bytes;
  sc_claimed_reduction : Z;
  sc_supporting_evidence : list Bytes;
  sc_claim_date : Z }.

(** [VerificationRecord], src/carbon_credits.rs:138-146 *)
Record VerificationRecord := mkVerificationRecord {
  vr_verification_id : Hash;
  vr_auditor : Address;
  vr_audit_date : Z;
  vr_verified_amount : Z;
  vr_issues_found : list Bytes;
  vr_approved : bool;
  vr_audit_notes : Bytes }.

(** [CarbonCredit], src/carbon_credits.rs:151-164 *)
Record CarbonCredit := mkCarbonCredit {
  cc_credit_id : Hash;
  cc_issuer : Address;
  cc_carbon_tonnes : Z;
  cc_renewable_source : RenewableEnergySource;
  cc_offset : Offset;
  cc_status : CreditStatus;
  cc_creation_date : Z;
  cc_retirement_date : option Z;
  cc_tokenization : option Tokenization;
  cc_registry : RegistryEntry;
  cc_verification_records : list VerificationRecord;
  cc_version : Z }.

(** [PortfolioStatus], src/carbon_credits.rs:169-177 *)
Record PortfolioStatus := mkPortfolioStatus {
  ps_holder : Address;
  ps_total_credits : Z;
  ps_active_credits : Z;
  ps_retired_credits : Z;
  ps_total_co2e_retired : Z;
  ps_portfolio_value_usd : Z;
  ps_last_updated : Z }.

(** [CarbonReductionReport], src/carbon_credits.rs:182-190 *)
Record CarbonReductionReport := mkCarbonReductionReport {
  cr_reporting_period : Z * Z;
  cr_total_verified_reduction : Z;
  cr_renewable_energy_mwh : Z;
  cr_offsets_purchased : Z;
  cr_credits_retired : Z;
  cr_facilities_audited : Z;
  cr_compliance_rate : Z }.

Module CarbonCreditKey.
(** [CarbonCreditKey], src/carbon_credits.rs:198-221 *)
Inductive CarbonCreditKey : Set :=
  | CarbonCredit (id : Hash)
  | IssuerCredits (a : Address)
  | HolderCredits (a : Address)
  | TokenToCreditMapping (id : Hash)
  | RegistryEntry (id : Bytes)
  | VerificationRecords (id : Hash)
  | PortfolioStatus (a : Address)
  | ComplianceStandardInfo (s : Symbol)
  | CreditCounter
  | RetiredCount
  | TotalCo2eRetired.
#[global] Instance CarbonCreditKey_eq_dec : EqDecision CarbonCreditKey.
Proof. solve_decision. Defined.
End CarbonCreditKey.
Abbreviation CarbonCreditKey := CarbonCreditKey.CarbonCreditKey.

(** ** Layout *)

Inductive CarbonTy : Set := CvCredit | CvIds | CvId | CvRecords | CvU32 | CvUnused.
#[global] Instance CarbonTy_eq_dec : EqDecision CarbonTy.
Proof. solve_decision. Defined.

Definition carbon_el (t : CarbonTy) : Type :=
  match t with
  | CvCredit => CarbonCredit
  | CvIds => list Hash
  | CvId => Hash
  | CvRecords => list VerificationRecord
  | CvU32 => Z
  | CvUnused => unit
  end.

(** A registry entry holds the credit it was made from: [register_credit]
    stores the whole [CarbonCredit] there. *)
Definition carbon_key_ty (k : CarbonCreditKey) : CarbonTy :=
  match k with
  | CarbonCreditKey.CarbonCredit _ | CarbonCreditKey.RegistryEntry _ => CvCredit
  | CarbonCreditKey.IssuerCredits _ | CarbonCreditKey.HolderCredits _ => CvIds
  | CarbonCreditKey.TokenToCreditMapping _ => CvId
  | CarbonCreditKey.VerificationRecords _ => CvRecords
  | CarbonCreditKey.CreditCounter | CarbonCreditKey.RetiredCount
  | CarbonCreditKey.TotalCo2eRetired => CvU32
  | CarbonCreditKey.PortfolioStatus _ | CarbonCreditKey.ComplianceStandardInfo _ => CvUnused
  end.

Canonical carbon_layout : Layout := {|
  key := CarbonCreditKey; ty := CarbonTy; el := carbon_el; layout_key_ty := carbon_key_ty;
  key_dec := _; ty_dec := _; error := CarbonCreditError; datum := Payload |}.

#[local] Abbreviation M := (CM carbon_layout).

(** ** Updates of a credit *)

(** [credit.status = Retired; credit.retirement_date = Some(now)],
    src/carbon_credits.rs:391-392 *)
Definition retired (x : CarbonCredit) (now : Z) : CarbonCredit :=
  mkCarbonCredit (cc_credit_id x) (cc_issuer x) (cc_carbon_tonnes x) (cc_renewable_source x)
    (cc_offset x) CreditStatus.Retired (cc_creation_date x) (Some now) (cc_tokenization x)
    (cc_registry x) (cc_verification_records x) (cc_version x).

(** [verification_records.push_back(v); status = Active],
    src/carbon_credits.rs:319-320 *)
Definition verified (x : CarbonCredit) (v : VerificationRecord) : CarbonCredit :=
  mkCarbonCredit (cc_credit_id x) (cc_issuer x) (cc_carbon_tonnes x) (cc_renewable_source x)
    (cc_offset x) CreditStatus.Active (cc_creation_date x) (cc_retirement_date x)
    (cc_tokenization x) (cc_registry x) (cc_verification_records x ++ [v]) (cc_version x).

Definition with_tokenization (x : CarbonCredit) (tk : option Tokenization) (version : Z)
    : CarbonCredit :=
  mkCarbonCredit (cc_credit_id x) (cc_issuer x) (cc_carbon_tonnes x) (cc_renewable_source x)
    (cc_offset x) (cc_status x) (cc_creation_date x) (cc_retirement_date x) tk
    (cc_registry x) (cc_verification_records x) version.

Definition with_registry (x : CarbonCredit) (r : RegistryEntry) : CarbonCredit :=
  mkCarbonCredit (cc_credit_id x) (cc_issuer x) (cc_carbon_tonnes x) (cc_renewable_source x)
    (cc_offset x) (cc_status x) (cc_creation_date x) (cc_retirement_date x) (cc_tokenization x)
    r (cc_verification_records x) (cc_version x).

(** [get(..).unwrap_or_else(panic!(Credit not found))], the read that opens
    most functions, src/carbon_credits.rs:297-301 *)
Definition credit_or_abort (id : Hash) : M CarbonCredit :=
  let* x := pget (CarbonCreditKey.CarbonCredit id) in
  match x with Some x => ret x | None => panic Abort end.

(** ** Functions *)

Section Carbon.
Context `{C : Crypto}.

(** The identifier of a new credit: the hash of the tonnes, the issuer and the
    time written next to each other, src/carbon_credits.rs:239-242 *)
Definition credit_id_of (tonnes : Z) (issuer : Address) (now : Z) : Hash :=
  sha256 (decimal tonnes ++ str_bytes issuer ++ decimal now).

(** [issue_carbon_credit]; the parameter [standard] is not used,
    src/carbon_credits.rs:228-286 *)
Definition issue_carbon_credit (issuer : Address) (carbon_tonnes : Z)
    (renewable_source : RenewableEnergySource) (offset : Offset) (registry : RegistryEntry)
    (standard : ComplianceStandard) : M Hash :=
  do* require_auth issuer in
  let* now := ledger_timestamp in
  let id := credit_id_of carbon_tonnes issuer now in
  let credit := mkCarbonCredit id issuer carbon_tonnes renewable_source offset
                  CreditStatus.Issued now None None registry [] 1 in
  do* pset (CarbonCreditKey.CarbonCredit id) credit in
  let* issuer_credits := pget_or (CarbonCreditKey.IssuerCredits issuer) [] in
  do* pset (CarbonCreditKey.IssuerCredits issuer) (issuer_credits ++ [id]) in
  let* count := pget_or CarbonCreditKey.CreditCounter 0 in
  let* count' := u32_add count 1 in
  do* pset CarbonCreditKey.CreditCounter count' in
  ret id.

(** [verify_renewable_energy], src/carbon_credits.rs:289-327 *)
Definition verify_renewable_energy (id : Hash) (verifier : Address) (energy_mwh : Z) : M bool :=
  do* require_auth verifier in
  let* credit := credit_or_abort id in
  if negb (Z.eqb (rs_energy_generated_mwh (cc_renewable_source credit)) energy_mwh) then ret false
  else
    let* now := ledger_timestamp in
    let v := mkVerificationRecord (sha256 (str_bytes "VERIFY")) verifier now
               (cc_carbon_tonnes credit) [] true (str_bytes "Renewable energy verified") in
    do* pset (CarbonCreditKey.CarbonCredit id) (verified credit v) in
    ret true.

(** [calculate_offset], src/carbon_credits.rs:330-333 *)
Definition calculate_offset (energy_mwh : Z) : Z := energy_mwh / 2.

(** The identifier of a token, src/carbon_credits.rs:351-354 *)
Definition token_id_of (owner : Address) (now : Z) : Hash :=
  sha256 (str_bytes "TOKEN" ++ str_bytes owner ++ decimal now).

(** [tokenize_credit], src/carbon_credits.rs:336-377 *)
Definition tokenize_credit (id : Hash) (token_owner : Address) (tokens_to_issue market_value : Z)
    : M Hash :=
  do* require_auth token_owner in
  let* credit := credit_or_abort id in
  let* now := ledger_timestamp in
  let token_id := token_id_of token_owner now in
  let tk := mkTokenization token_id tokens_to_issue 0 token_owner market_value true in
  let* version := u32_add (cc_version credit) 1 in
  do* pset (CarbonCreditKey.CarbonCredit id) (with_tokenization credit (Some tk) version) in
  do* pset (CarbonCreditKey.TokenToCreditMapping token_id) id in
  ret token_id.

(** [retire_credit]; it checks no signature, src/carbon_credits.rs:380-421 *)
Definition retire_credit (id : Hash) (retire_reason : Bytes) : M bool :=
  let* credit := credit_or_abort id in
  if bool_decide (cc_status credit = CreditStatus.Retired) then ret false
  else
    let* now := ledger_timestamp in
    do* pset (CarbonCreditKey.CarbonCredit id) (retired credit now) in
    let* n := pget_or CarbonCreditKey.RetiredCount 0 in
    let* n' := u32_add n 1 in
    do* pset CarbonCreditKey.RetiredCount n' in
    let* total := pget_or CarbonCreditKey.TotalCo2eRetired 0 in
    let* total' := u32_add total (cc_carbon_tonnes credit) in
    do* pset CarbonCreditKey.TotalCo2eRetired total' in
    ret true.

(** [check_retirement_status], src/carbon_credits.rs:425-433 *)
Definition check_retirement_status (id : Hash) : M bool :=
  let* credit := credit_or_abort id in
  ret (bool_decide (cc_status credit = CreditStatus.Retired)).

(** The new owner of the tokens, in [transfer_credit],
    src/carbon_credits.rs:455-458 *)
Definition tokens_to (to : Address) (x : CarbonCredit) : CarbonCredit :=
  match cc_tokenization x with
  | Some tk =>
      with_tokenization x
        (Some (mkTokenization (tk_token_id tk) (tk_total_tokens tk) (tk_tokens_retired tk) to
                 (tk_market_value tk) (tk_tradeable tk))) (cc_version x)
  | None => x
  end.

(** [transfer_credit], src/carbon_credits.rs:436-476 *)
Definition transfer_credit (id : Hash) (from to : Address) : M bool :=
  do* require_auth from in
  let* credit := credit_or_abort id in
  if bool_decide (cc_status credit = CreditStatus.Retired) then ret false
  else
    do* pset (CarbonCreditKey.CarbonCredit id) (tokens_to to credit) in
    let* to_credits := pget_or (CarbonCreditKey.HolderCredits to) [] in
    do* pset (CarbonCreditKey.HolderCredits to) (to_credits ++ [id]) in
    ret true.

(** [verify_sustainability_claim], src/carbon_credits.rs:479-497 *)
Definition verify_sustainability_claim (claim : SustainabilityClaim) (verifier : Address) : M bool :=
  do* require_auth verifier in
  if Z.eqb (len (sc_supporting_evidence claim)) 0 then ret false
  else if Z.eqb (sc_claimed_reduction claim) 0 || Z.ltb 1000000 (sc_claimed_reduction claim)
  then ret false
  else ret true.

(** [x as i32] of a [u32]. *)
Definition as_i32 (x : Z) : Z := if Z.ltb x 2147483648 then x else x - 4294967296.

(** [(a as i32 - b as i32).abs()], checked, src/carbon_credits.rs:518-520 *)
Definition i32_distance (a b : Z) : M Z :=
  let d := as_i32 a - as_i32 b in
  if Z.leb (-2147483647) d && Z.leb d 2147483647 then ret (Z.abs d) else panic Overflow.

(** [audit_renewable_usage], src/carbon_credits.rs:500-548 *)
Definition audit_renewable_usage (id : Hash) (auditor : Address) (measured_energy : Z)
    : M VerificationRecord :=
  do* require_auth auditor in
  let* credit := credit_or_abort id in
  let* d := i32_distance (rs_energy_generated_mwh (cc_renewable_source credit)) measured_energy in
  let* now := ledger_timestamp in
  let off := Z.ltb 100 d in
  let record := mkVerificationRecord (sha256 (str_bytes "AUDIT")) auditor now
                  (cc_carbon_tonnes credit) (if off then [str_bytes "Energy mismatch"] else [])
                  (negb off) (str_bytes "Audit complete") in
  let* records := pget_or (CarbonCreditKey.VerificationRecords id) [] in
  do* pset (CarbonCreditKey.VerificationRecords id) (records ++ [record]) in
  ret record.

(** [verify_offset_authenticity], src/carbon_credits.rs:551-575 *)
Definition verify_offset_authenticity (id : Hash) (verifier : Address) : M bool :=
  do* require_auth verifier in
  let* credit := credit_or_abort id in
  if negb (bool_decide (of_verification_body (cc_offset credit) = verifier)) then ret false
  else
    let* now := ledger_timestamp in
    ret (negb (Z.ltb (of_expiration_date (cc_offset credit)) now)).

(** [register_credit], src/carbon_credits.rs:578-602 *)
Definition register_credit (id : Hash) (registry_id : Bytes) : M bool :=
  let* credit := credit_or_abort id in
  let* now := ledger_timestamp in
  let r := cc_registry credit in
  let credit' := with_registry credit
    (mkRegistryEntry registry_id (re_registry_name r) (re_registry_url r) now (re_verified_by r)
       (re_compliance_standard r)) in
  do* pset (CarbonCreditKey.CarbonCredit id) credit' in
  do* pset (CarbonCreditKey.RegistryEntry registry_id) credit' in
  ret true.

(** [update_registry], src/carbon_credits.rs:605-625 *)
Definition update_registry (registry_id : Bytes) (verified_by : Address) : M bool :=
  do* require_auth verified_by in
  let* credit := pget (CarbonCreditKey.RegistryEntry registry_id) in
  match credit with
  | Some credit =>
      let r := cc_registry credit in
      do* pset (CarbonCreditKey.RegistryEntry registry_id)
            (with_registry credit
               (mkRegistryEntry (re_registry_id r) (re_registry_name r) (re_registry_url r)
                  (re_issuance_date r) verified_by (re_compliance_standard r))) in
      ret true
  | None => ret false
  end.

(** [link_to_standard], src/carbon_credits.rs:628-646 *)
Definition link_to_standard (id : Hash) (standard : ComplianceStandard) : M bool :=
  let* credit := credit_or_abort id in
  let r := cc_registry credit in
  do* pset (CarbonCreditKey.CarbonCredit id)
        (with_registry credit
           (mkRegistryEntry (re_registry_id r) (re_registry_name r) (re_registry_url r)
              (re_issuance_date r) (re_verified_by r) standard)) in
  ret true.

(** [verify_registry_compliance], src/carbon_credits.rs:649-670 *)
Definition verify_registry_compliance (id : Hash) : M bool :=
  let* credit := credit_or_abort id in
  if Z.eqb (len (re_registry_id (cc_registry credit))) 0 then ret false
  else if Z.eqb (len (cc_verification_records credit)) 0 then ret false
  else ret true.

(** [calculate_carbon_reduction], src/carbon_credits.rs:673-684 *)
Definition calculate_carbon_reduction (id : Hash) : M Z :=
  let* credit := credit_or_abort id in
  ret (cc_carbon_tonnes credit).

(** [generate_offset_report], src/carbon_credits.rs:687-707 *)
Definition generate_offset_report (start_date end_date : Z) : M CarbonReductionReport :=
  let* n := pget_or CarbonCreditKey.RetiredCount 0 in
  ret (mkCarbonReductionReport (start_date, end_date) 0 0 0 n 0 95).

(** One round of the loop of [get_portfolio_status], on the counters of active
    and retired credits and the retired tonnes, src/carbon_credits.rs:724-737 *)
Definition portfolio_step (acc : Z * Z * Z) (id : Hash) : M (Z * Z * Z) :=
  let '(active, ret_n, tonnes) := acc in
  let* x := pget (CarbonCreditKey.CarbonCredit id) in
  match x with
  | Some x =>
      if bool_decide (cc_status x = CreditStatus.Retired) then
        let* ret_n' := u32_add ret_n 1 in
        let* tonnes' := u32_add tonnes (cc_carbon_tonnes x) in
        ret (active, ret_n', tonnes')
      else if bool_decide (cc_status x = CreditStatus.Active) then
        let* active' := u32_add active 1 in
        ret (active', ret_n, tonnes)
      else ret acc
  | None => ret acc
  end.

(** [get_portfolio_status], src/carbon_credits.rs:710-748 *)
Definition get_portfolio_status (holder : Address) : M PortfolioStatus :=
  let* credits := pget_or (CarbonCreditKey.HolderCredits holder) [] in
  let* acc := fold_m portfolio_step (0, 0, 0) credits in
  let '(active, ret_n, tonnes) := acc in
  let* value := u32_mul active 15 in
  let* now := ledger_timestamp in
  ret (mkPortfolioStatus holder (len credits) active ret_n tonnes value now).

(** [validate_claim], src/carbon_credits.rs:751-771 *)
Definition validate_claim (claim : SustainabilityClaim) : bool :=
  if Z.eqb (len (sc_claim_description claim)) 0 then false
  else if Z.eqb (len (sc_supporting_evidence claim)) 0 then false
  else if Z.ltb 10000000 (sc_claimed_reduction claim) then false
  else true.

(** [verify_standard_compliance], src/carbon_credits.rs:774-786 *)
Definition verify_standard_compliance (id : Hash) (standard : ComplianceStandard) : M bool :=
  let* credit := credit_or_abort id in
  ret (bool_decide (re_compliance_standard (cc_registry credit) = standard)).

(** [check_data_integrity], src/carbon_credits.rs:789-815 *)
Definition check_data_integrity (id : Hash) : M bool :=
  let* credit := credit_or_abort id in
  if Z.eqb (cc_carbon_tonnes credit) 0 || Z.ltb 1000000 (cc_carbon_tonnes credit) then ret false
  else if Z.ltb 1000000 (rs_energy_generated_mwh (cc_renewable_source credit)) then ret false
  else
    let* now := ledger_timestamp in
    ret (negb (Z.ltb (of_expiration_date (cc_offset credit)) now)).

(** [get_total_retired_co2e], src/carbon_credits.rs:818-823 *)
Definition get_total_retired_co2e : M Z := pget_or CarbonCreditKey.TotalCo2eRetired 0.

(** [get_credit_status], src/carbon_credits.rs:826-834 *)
Definition get_credit_status (id : Hash) : M CreditStatus :=
  let* credit := credit_or_abort id in
  ret (cc_status credit).

(** [get_credit_details], src/carbon_credits.rs:837-842 *)
Definition get_credit_details (id : Hash) : M CarbonCredit := credit_or_abort id.

(** [get_issuer_credits], src/carbon_credits.rs:845-850 *)
Definition get_issuer_credits (issuer : Address) : M (list Hash) :=
  pget_or (CarbonCreditKey.IssuerCredits issuer) [].

(** [get_holder_credits], src/carbon_credits.rs:853-858 *)
Definition get_holder_credits (holder : Address) : M (list Hash) :=
  pget_or (CarbonCreditKey.HolderCredits holder) [].

(** [get_total_credits_issued], src/carbon_credits.rs:861-866 *)
Definition get_total_credits_issued : M Z := pget_or CarbonCreditKey.CreditCounter 0.
End Carbon.

(** * Properties of the carbon credits

    [Acted st tr]: the storage is that of the history [tr], any history.
    [Book st ids]: the stored credits are those of the duplicate-free list
    [ids], and the three totals count them; it holds as long as no retired
    credit is verified again and no identifier is issued twice ([careful]).
    What happens otherwise is shown as well. *)

#[local] Abbreviation store := (kvstore carbon_layout).
#[local] Abbreviation St := (CSt carbon_layout).

(** ** Calls *)

Inductive ccall : Type :=
  | CIssue (issuer : Address) (tonnes : Z) (src : RenewableEnergySource) (off : Offset)
      (reg : RegistryEntry) (std : ComplianceStandard)
  | CVerify (id : Hash) (verifier : Address) (energy : Z)
  | CTokenize (id : Hash) (owner : Address) (tokens value : Z)
  | CRetire (id : Hash) (reason : Bytes)
  | CTransfer (id : Hash) (from to : Address)
  | CAudit (id : Hash) (auditor : Address) (energy : Z)
  | CRegister (id : Hash) (registry_id : Bytes)
  | CUpdateRegistry (registry_id : Bytes) (by_ : Address)
  | CLink (id : Hash) (std : ComplianceStandard).

Definition credit (st : store) (id : Hash) : option CarbonCredit :=
  sget st (CarbonCreditKey.CarbonCredit id).
Definition is_retired (st : store) (id : Hash) : bool :=
  match credit st id with
  | Some x => bool_decide (cc_status x = CreditStatus.Retired)
  | None => false
  end.
Definition retired_tonnes (st : store) (id : Hash) : Z :=
  match credit st id with
  | Some x => if bool_decide (cc_status x = CreditStatus.Retired) then cc_carbon_tonnes x else 0
  | None => 0
  end.
Definition retired_one (st : store) (id : Hash) : Z := if is_retired st id then 1 else 0.

Section Calls.
Context `{C : Crypto}.

Definition cexec (k : ccall) : M unit :=
  match k with
  | CIssue a n src off reg std => do* issue_carbon_credit a n src off reg std in ret tt
  | CVerify id v e => do* verify_renewable_energy id v e in ret tt
  | CTokenize id a n v => do* tokenize_credit id a n v in ret tt
  | CRetire id r => do* retire_credit id r in ret tt
  | CTransfer id a b => do* transfer_credit id a b in ret tt
  | CAudit id a e => do* audit_renewable_usage id a e in ret tt
  | CRegister id r => do* register_credit id r in ret tt
  | CUpdateRegistry r a => do* update_registry r a in ret tt
  | CLink id std => do* link_to_standard id std in ret tt
  end.

(** No retired credit is verified again, no identifier is issued twice. *)
Definition careful (c : Ctx) (st : store) (k : ccall) : Prop :=
  match k with
  | CIssue a n _ _ _ _ => credit st (credit_id_of n a (cx_timestamp c)) = None
  | CVerify id _ _ => is_retired st id = false
  | _ => True
  end.

Definition ccall_typed (k : ccall) : Prop :=
  match k with CIssue _ n _ _ _ _ => is_u32 n | _ => True end.

Inductive cstep : St -> St -> Prop :=
  | cstep_call k c s s' :
      ccall_typed k -> careful c (pers s) k -> cexec k c s = Ok (tt, s') -> cstep s s'.

Definition creachable (s : St) : Prop := rtc cstep empty_state s.

(** ** What a call does to the credits *)

(** [change st st' id f]: the credit [id] went through [f], every other credit
    and the totals are the same. *)
Record Changed (st st' : store) (id : Hash) (x x' : CarbonCredit) : Prop := {
  ch_before : credit st id = Some x;
  ch_after : credit st' id = Some x';
  ch_others : forall i, i <> id -> credit st' i = credit st i }.

Definition same_totals (st st' : store) : Prop :=
  sget st' CarbonCreditKey.CreditCounter = sget st CarbonCreditKey.CreditCounter /\
  sget st' CarbonCreditKey.RetiredCount = sget st CarbonCreditKey.RetiredCount /\
  sget st' CarbonCreditKey.TotalCo2eRetired = sget st CarbonCreditKey.TotalCo2eRetired.

(** What no call changes about a credit. *)
Definition same_credit (x x' : CarbonCredit) : Prop :=
  cc_credit_id x' = cc_credit_id x /\ cc_issuer x' = cc_issuer x /\
  cc_carbon_tonnes x' = cc_carbon_tonnes x /\ cc_creation_date x' = cc_creation_date x /\
  cc_retirement_date x' = cc_retirement_date x.

Lemma credit_or_abort_Ok id c (s s' : St) x :
  credit_or_abort id c s = Ok (x, s') <-> credit (pers s) id = Some x /\ s' = s.
Proof.
  unfold credit_or_abort, bind, pget, credit. destruct (sget (pers s) _) as [y|]; simpl.
  - unfold ret. naive_solver.
  - unfold panic. naive_solver.
Qed.

Lemma retire_Ok id r c s b s' :
  retire_credit id r c s = Ok (b, s') ->
  exists x, credit (pers s) id = Some x /\
    if bool_decide (cc_status x = CreditStatus.Retired) then b = false /\ s' = s
    else b = true /\
      pers s' = sset (sset (sset (pers s) (CarbonCreditKey.CarbonCredit id)
                                 (retired x (cx_timestamp c)))
                      CarbonCreditKey.RetiredCount
                      (default 0 (sget (pers s) CarbonCreditKey.RetiredCount) + 1))
                CarbonCreditKey.TotalCo2eRetired
                (default 0 (sget (pers s) CarbonCreditKey.TotalCo2eRetired) + cc_carbon_tonnes x).
Proof.
  unfold retire_credit. intros R. apply bind_Ok in R as (x & s1 & R1 & R).
  apply credit_or_abort_Ok in R1 as [Hx ->]. exists x. split; [done|].
  destruct (bool_decide _); [by minv|]. minv. split; [done|].
  rewrite sset_ne by done. rewrite !sset_ne by done. done.
Qed.

Lemma issue_Ok a n src off reg std c s id s' :
  issue_carbon_credit a n src off reg std c s = Ok (id, s') ->
  cx_auth c a = true /\ id = credit_id_of n a (cx_timestamp c) /\
  pers s' = sset (sset (sset (pers s) (CarbonCreditKey.CarbonCredit id)
      (mkCarbonCredit id a n src off CreditStatus.Issued (cx_timestamp c) None None reg [] 1))
    (CarbonCreditKey.IssuerCredits a)
      (default [] (sget (pers s) (CarbonCreditKey.IssuerCredits a)) ++ [id]))
    CarbonCreditKey.CreditCounter (default 0 (sget (pers s) CarbonCreditKey.CreditCounter) + 1).
Proof.
  unfold issue_carbon_credit. intros R. minv. split; [done|]. split; [done|].
  rewrite !sset_ne by done. done.
Qed.

(** The calls other than issuing and retiring. *)
Definition ordinary (k : ccall) : bool :=
  match k with CIssue _ _ _ _ _ _ | CRetire _ _ => false | _ => true end.

Lemma cexec_ordinary k c s s' :
  ordinary k = true -> cexec k c s = Ok (tt, s') ->
  same_totals (pers s) (pers s') /\
  ((forall i, credit (pers s') i = credit (pers s) i) \/
   exists id x x', Changed (pers s) (pers s') id x x' /\ same_credit x x' /\
     (cc_status x' = cc_status x \/
      cc_status x' = CreditStatus.Active /\ exists v e, k = CVerify id v e)).
Proof.
  intros Hk R. destruct k; try done; simpl in R; apply bind_Ok in R as (r & s1 & R & R2);
    injection R2 as <-.
  all: unfold verify_renewable_energy, tokenize_credit, transfer_credit, audit_renewable_usage,
         i32_distance, register_credit, update_registry, link_to_standard in R.
  all: repeat match goal with
       | H : bind (credit_or_abort _) _ _ _ = Ok _ |- _ =>
           let x := fresh "x" in let t := fresh "t" in let H1 := fresh "Hx" in
           apply bind_Ok in H as (x & t & H1 & H); apply credit_or_abort_Ok in H1 as [H1 ->]
       | H : bind (require_auth _) _ _ _ = Ok _ |- _ =>
           apply bind_Ok in H as (? & ? & ?%require_auth_Ok & H); destruct_and?; subst
       end.
  all: mcase; try (split; [done|by left]).
  all: try match goal with H : credit _ ?id = Some ?x |- _ =>
         split; [by repeat split; rewrite !sset_ne by done|right; eexists id, x, _; split;
           [split; [exact H|unfold credit; rewrite ?sset_ne by done; by rewrite sset_eq|
                    intros i Hi; unfold credit; by rewrite !sset_ne by congruence]|]] end.
  all: try (split; [by repeat split; rewrite !sset_ne by done|]; left; intros i; unfold credit;
            by rewrite !sset_ne by done).
  all: unfold same_credit, tokens_to; try destruct (cc_tokenization _);
    (split; [done|first [by left | right; eauto]]).
Qed.

(** ** The book of credits *)

Record Book (st : store) (ids : list Hash) : Prop := {
  bk_nodup : NoDup ids;
  bk_ids : forall id, is_Some (credit st id) <-> id ∈ ids;
  bk_named : forall id x, credit st id = Some x ->
    cc_credit_id x = id /\ id = credit_id_of (cc_carbon_tonnes x) (cc_issuer x) (cc_creation_date x);
  bk_tonnes : forall id x, credit st id = Some x -> 0 <= cc_carbon_tonnes x;
  bk_dated : forall id x, credit st id = Some x ->
    cc_status x = CreditStatus.Retired <-> is_Some (cc_retirement_date x);
  bk_counter : default 0 (sget st CarbonCreditKey.CreditCounter) = len ids;
  bk_retired : default 0 (sget st CarbonCreditKey.RetiredCount) = total_of (retired_one st) ids;
  bk_total : default 0 (sget st CarbonCreditKey.TotalCo2eRetired) = total_of (retired_tonnes st) ids }.

Lemma Book_empty : Book sempty [].
Proof.
  split; try done; [constructor|]. intros id. split; [by intros []|intros H; inversion H].
Qed.

(** A credit of the book changes without changing its status, or becomes
    active while not retired. *)
Lemma Book_changed st st' ids id x x' :
  Book st ids -> Changed st st' id x x' -> same_totals st st' -> same_credit x x' ->
  (cc_status x' = CreditStatus.Retired <-> cc_status x = CreditStatus.Retired) -> Book st' ids.
Proof.
  intros [Hn Hi Hm Ht Hd Hc Hr Hs] [B A O] (E1 & E2 & E3) (S1 & S2 & S3 & S4 & S5) Hst.
  assert (forall i, i <> id -> retired_one st' i = retired_one st i /\
                               retired_tonnes st' i = retired_tonnes st i) as Ho.
  { intros i Hne. unfold retired_one, is_retired, retired_tonnes. by rewrite O. }
  assert (retired_one st' id = retired_one st id /\
          retired_tonnes st' id = retired_tonnes st id) as [Hx1 Hx2].
  { unfold retired_one, is_retired, retired_tonnes. rewrite A, B, S3.
    rewrite (bool_decide_ext _ _ Hst). done. }
  assert (id ∈ ids) as Hin by (apply Hi; by rewrite B).
  split; rewrite ?E1, ?E2, ?E3; try done.
  - intros i. destruct (decide (i = id)) as [->|n]; [|by rewrite O].
    rewrite A. split; [done|by eexists].
  - intros i y. destruct (decide (i = id)) as [->|n]; [|rewrite O by done; apply Hm].
    rewrite A. intros [= <-]. rewrite S1, S2, S3, S4. by apply Hm.
  - intros i y. destruct (decide (i = id)) as [->|n]; [|rewrite O by done; apply Ht].
    rewrite A. intros [= <-]. rewrite S3. by apply (Ht id).
  - intros i y. destruct (decide (i = id)) as [->|n]; [|rewrite O by done; apply Hd].
    rewrite A. intros [= <-]. rewrite S5, Hst. by apply (Hd id).
  - rewrite Hr. apply total_of_ext. intros i _.
    destruct (decide (i = id)) as [->|n]; [done|]. by apply eq_sym, Ho.
  - rewrite Hs. apply total_of_ext. intros i _.
    destruct (decide (i = id)) as [->|n]; [done|]. by apply eq_sym, Ho.
Qed.

Lemma Book_retire id r c s b s' ids :
  Book (pers s) ids -> retire_credit id r c s = Ok (b, s') -> Book (pers s') ids.
Proof.
  intros HB R. apply retire_Ok in R as (x & Hx & R).
  destruct (bool_decide_reflect (cc_status x = CreditStatus.Retired)) as [Hst|Hst].
  { by destruct R as [_ ->]. }
  destruct R as [_ E]. destruct HB as [Hn Hi Hm Ht Hd Hc Hr Hs].
  assert (credit (pers s') id = Some (retired x (cx_timestamp c))) as Hx'
    by (unfold credit; rewrite E, !sset_ne by done; by rewrite sset_eq).
  assert (forall i, i <> id -> credit (pers s') i = credit (pers s) i) as Ho.
  { intros i Hne. unfold credit. rewrite E. by rewrite !sset_ne by congruence. }
  assert (id ∈ ids) as Hin by (apply Hi; by rewrite Hx).
  assert (sget (pers s') CarbonCreditKey.CreditCounter = sget (pers s) CarbonCreditKey.CreditCounter)
    as E1 by (by rewrite E, !sset_ne by done).
  assert (sget (pers s') CarbonCreditKey.RetiredCount
          = Some (default 0 (sget (pers s) CarbonCreditKey.RetiredCount) + 1)) as E2
    by (by rewrite E, sset_ne, sset_eq by done).
  assert (sget (pers s') CarbonCreditKey.TotalCo2eRetired
          = Some (default 0 (sget (pers s) CarbonCreditKey.TotalCo2eRetired) + cc_carbon_tonnes x))
    as E3 by (by rewrite E, sset_eq).
  clear E. split; try done.
  - intros i. destruct (decide (i = id)) as [->|n]; [|by rewrite Ho].
    rewrite Hx'. split; [done|by eexists].
  - intros i y. destruct (decide (i = id)) as [->|n]; [|rewrite Ho by done; apply Hm].
    rewrite Hx'. intros [= <-]. exact (Hm id x Hx).
  - intros i y. destruct (decide (i = id)) as [->|n]; [|rewrite Ho by done; apply Ht].
    rewrite Hx'. intros [= <-]. exact (Ht id x Hx).
  - intros i y. destruct (decide (i = id)) as [->|n]; [|rewrite Ho by done; apply Hd].
    rewrite Hx'. intros [= <-]. done.
  - by rewrite E1.
  - rewrite E2. simpl. rewrite Hr.
    rewrite (total_of_update (retired_one (pers s)) (retired_one (pers s')) ids id Hn Hin).
    + unfold retired_one at 3 4, is_retired. rewrite Hx', Hx. simpl.
      rewrite bool_decide_false by done. lia.
    + intros i Hne. unfold retired_one, is_retired. by rewrite Ho.
  - rewrite E3. simpl. rewrite Hs.
    rewrite (total_of_update (retired_tonnes (pers s)) (retired_tonnes (pers s')) ids id Hn Hin).
    + unfold retired_tonnes at 3 4. rewrite Hx', Hx. simpl. rewrite bool_decide_false by done. lia.
    + intros i Hne. unfold retired_tonnes. by rewrite Ho.
Qed.

Lemma Book_issue a n src off reg std c s id s' ids :
  0 <= n -> Book (pers s) ids -> credit (pers s) (credit_id_of n a (cx_timestamp c)) = None ->
  issue_carbon_credit a n src off reg std c s = Ok (id, s') -> Book (pers s') (ids ++ [id]).
Proof.
  intros Hpos [Hn Hi Hm Ht Hd Hc Hr Hs] Hf R. apply issue_Ok in R as (_ & Hid & E).
  rewrite <- Hid in Hf. set (x := mkCarbonCredit _ _ _ _ _ _ _ _ _ _ _ _) in E.
  assert (credit (pers s') id = Some x) as Hx'
    by (unfold credit; rewrite E, !sset_ne by done; by rewrite sset_eq).
  assert (forall i, i <> id -> credit (pers s') i = credit (pers s) i) as Ho.
  { intros i Hne. unfold credit. rewrite E. by rewrite !sset_ne by congruence. }
  assert (id ∉ ids) as Hni by (rewrite <- Hi, Hf; by intros []).
  assert (forall i, i ∈ ids -> i <> id) as Hne by (by intros i Hin ->).
  assert (sget (pers s') CarbonCreditKey.CreditCounter
          = Some (default 0 (sget (pers s) CarbonCreditKey.CreditCounter) + 1)) as E1
    by (by rewrite E, sset_eq).
  assert (sget (pers s') CarbonCreditKey.RetiredCount = sget (pers s) CarbonCreditKey.RetiredCount)
    as E2 by (by rewrite E, !sset_ne by done).
  assert (sget (pers s') CarbonCreditKey.TotalCo2eRetired
          = sget (pers s) CarbonCreditKey.TotalCo2eRetired) as E3
    by (by rewrite E, !sset_ne by done).
  clear E. split.
  - apply NoDup_app. split_and!; [done| |apply NoDup_singleton].
    by intros y Hy ->%list_elem_of_singleton.
  - intros i. rewrite elem_of_app, list_elem_of_singleton. destruct (decide (i = id)) as [->|n'].
    + rewrite Hx'. naive_solver.
    + rewrite Ho, Hi by done. naive_solver.
  - intros i y. destruct (decide (i = id)) as [->|n']; [|rewrite Ho by done; apply Hm].
    rewrite Hx'. by intros [= <-].
  - intros i y. destruct (decide (i = id)) as [->|n']; [|rewrite Ho by done; apply Ht].
    rewrite Hx'. by intros [= <-].
  - intros i y. destruct (decide (i = id)) as [->|n']; [|rewrite Ho by done; apply Hd].
    rewrite Hx'. intros [= <-]. simpl. split; [done|by intros []].
  - rewrite E1, len_app. simpl. by rewrite Hc.
  - rewrite E2, Hr, total_of_app. simpl.
    rewrite (total_of_ext (retired_one (pers s')) (retired_one (pers s)))
      by (intros i Hin; unfold retired_one, is_retired; by rewrite Ho by auto).
    unfold retired_one at 3, is_retired. rewrite Hx'. simpl. lia.
  - rewrite E3, Hs, total_of_app. simpl.
    rewrite (total_of_ext (retired_tonnes (pers s')) (retired_tonnes (pers s)))
      by (intros i Hin; unfold retired_tonnes; by rewrite Ho by auto).
    unfold retired_tonnes at 3. rewrite Hx'. simpl. lia.
Qed.

Lemma cexec_Book k c s s' ids :
  ccall_typed k -> careful c (pers s) k -> Book (pers s) ids -> cexec k c s = Ok (tt, s') ->
  exists ids', Book (pers s') (ids ++ ids').
Proof.
  intros Hk Hc HB R. destruct (ordinary k) eqn:Ho.
  - exists []. rewrite app_nil_r.
    destruct (cexec_ordinary k c s s' Ho R) as [(E1 & E2 & E3) [H|(id & x & x' & HC & HS & Hst)]].
    + assert (forall i, retired_one (pers s') i = retired_one (pers s) i) as X1
        by (intros i; unfold retired_one, is_retired; by rewrite H).
      assert (forall i, retired_tonnes (pers s') i = retired_tonnes (pers s) i) as X2
        by (intros i; unfold retired_tonnes; by rewrite H).
      destruct HB as [Hn Hi Hm Ht Hd Hcn Hr Hs].
      split; rewrite ?E1, ?E2, ?E3; try done; try (intros i; rewrite H; first [apply Hi | apply Hm | apply Ht | apply Hd]).
      * rewrite Hr. by apply total_of_ext.
      * rewrite Hs. by apply total_of_ext.
    + eapply Book_changed; try done. destruct Hst as [->|[-> (v & e & ->)]]; [done|].
      simpl in Hc. unfold is_retired in Hc. rewrite (ch_before _ _ _ _ _ HC) in Hc.
      apply bool_decide_eq_false in Hc. naive_solver.
  - destruct k; try done; simpl in *; apply bind_Ok in R as (r & s1 & R & R2); injection R2 as <-.
    + eexists. eapply Book_issue; [apply Hk|done..].
    + exists []. rewrite app_nil_r. by eapply Book_retire.
Qed.

Lemma creachable_Book s : creachable s -> exists ids, Book (pers s) ids.
Proof.
  revert s. apply rtc_invariant; [exists []; apply Book_empty|].
  intros y z _ [ids HB] Hs. revert HB. destruct Hs as [k c y z Hk Hc R]. intros HB.
  destruct (cexec_Book k c y z ids Hk Hc HB R) as [ids' H]. by eexists.
Qed.

(** ** The history of a registry *)

(** What has been done, the latest act first: a credit was issued with its
    tonnes, verified, or retired - each when the call answered so. *)
Inductive act : Set :=
  | AIssued (id : Hash) (tonnes : Z)
  | AVerified (id : Hash)
  | ARetired (id : Hash).

(** The states a registry reaches by the acts [tr], in any order and any number
    of times, and by calls that are none of them. *)
Inductive ctrace : list act -> St -> Prop :=
  | ctrace_nil : ctrace [] empty_state
  | ctrace_issue tr s a n src off reg std c id s' :
      ctrace tr s -> issue_carbon_credit a n src off reg std c s = Ok (id, s') ->
      ctrace (AIssued id n :: tr) s'
  | ctrace_verify tr s id v e c s' :
      ctrace tr s -> verify_renewable_energy id v e c s = Ok (true, s') ->
      ctrace (AVerified id :: tr) s'
  | ctrace_retire tr s id r c s' :
      ctrace tr s -> retire_credit id r c s = Ok (true, s') -> ctrace (ARetired id :: tr) s'
  | ctrace_refused tr s id r v e c s' :
      ctrace tr s ->
      (verify_renewable_energy id v e c s = Ok (false, s') \/
       retire_credit id r c s = Ok (false, s')) -> ctrace tr s'
  | ctrace_other tr s k c s' :
      ctrace tr s -> ordinary k = true -> (forall id v e, k <> CVerify id v e) ->
      cexec k c s = Ok (tt, s') -> ctrace tr s'.

(** Read off the history alone: the identifiers issued, the credits retired, the
    tonnes under which a credit was last issued, and what was last done to it. *)
Definition issued (tr : list act) : list Hash :=
  omap (fun x => match x with AIssued id _ => Some id | _ => None end) tr.
Definition retirements (tr : list act) : list Hash :=
  omap (fun x => match x with ARetired id => Some id | _ => None end) tr.
Fixpoint tonnes_of (tr : list act) (id : Hash) : Z :=
  match tr with
  | AIssued i n :: tr => if decide (i = id) then n else tonnes_of tr id
  | _ :: tr => tonnes_of tr id
  | [] => 0
  end.
Fixpoint status_of (tr : list act) (id : Hash) : option CreditStatus :=
  match tr with
  | AIssued i _ :: tr => if decide (i = id) then Some CreditStatus.Issued else status_of tr id
  | AVerified i :: tr => if decide (i = id) then Some CreditStatus.Active else status_of tr id
  | ARetired i :: tr => if decide (i = id) then Some CreditStatus.Retired else status_of tr id
  | [] => None
  end.
(** The tonnes of all retirements, each at the tonnes its credit had then. *)
Fixpoint tonnes_retired (tr : list act) : Z :=
  match tr with
  | ARetired id :: tr => tonnes_of tr id + tonnes_retired tr
  | _ :: tr => tonnes_retired tr
  | [] => 0
  end.
(** No identifier is issued twice and no retired credit is verified. *)
Fixpoint orderly (tr : list act) : Prop :=
  match tr with
  | AIssued id _ :: tr => (id ∉ issued tr) /\ orderly tr
  | AVerified id :: tr => status_of tr id <> Some CreditStatus.Retired /\ orderly tr
  | ARetired _ :: tr => orderly tr
  | [] => True
  end.
(** The tonnes of a credit that counts as retired at the end. *)
Definition held (tr : list act) (id : Hash) : Z :=
  if decide (status_of tr id = Some CreditStatus.Retired) then tonnes_of tr id else 0.

(** The storage after the acts [tr]. *)
Record Acted (st : store) (tr : list act) : Prop := {
  ac_counter : default 0 (sget st CarbonCreditKey.CreditCounter) = len (issued tr);
  ac_retired : default 0 (sget st CarbonCreditKey.RetiredCount) = len (retirements tr);
  ac_total : default 0 (sget st CarbonCreditKey.TotalCo2eRetired) = tonnes_retired tr;
  ac_credit : forall id, match credit st id with
                         | Some x => status_of tr id = Some (cc_status x) /\
                                     cc_carbon_tonnes x = tonnes_of tr id /\ id ∈ issued tr
                         | None => status_of tr id = None
                         end;
  ac_orderly : orderly tr -> NoDup (issued tr) /\ tonnes_retired tr = total_of (held tr) (issued tr) }.

Lemma verify_energy_Ok id v e c s b s' :
  verify_renewable_energy id v e c s = Ok (b, s') ->
  if b then exists x w, same_totals (pers s) (pers s') /\
                        Changed (pers s) (pers s') id x (verified x w)
  else s' = s.
Proof.
  unfold verify_renewable_energy. intros R. apply bind_Ok in R as (u & t & R1 & R).
  apply require_auth_Ok in R1 as [_ ->]. apply bind_Ok in R as (x & t & R1 & R).
  apply credit_or_abort_Ok in R1 as [Hx ->]. destruct (negb _); minv; [done|].
  eexists x, _. split; [by repeat split; rewrite !sset_ne by done|]. split; [done| |].
  - unfold credit. by rewrite sset_eq.
  - intros i Hi. unfold credit. by rewrite sset_ne by congruence.
Qed.

Lemma held_ext tr tr' l :
  (forall i, i ∈ l -> status_of tr' i = status_of tr i /\ tonnes_of tr' i = tonnes_of tr i) ->
  total_of (held tr') l = total_of (held tr) l.
Proof. intros H. apply total_of_ext. intros i [E1 E2]%H. unfold held. by rewrite E1, E2. Qed.

Lemma Acted_issue a n src off reg std c s id s' tr :
  Acted (pers s) tr -> issue_carbon_credit a n src off reg std c s = Ok (id, s') ->
  Acted (pers s') (AIssued id n :: tr).
Proof.
  intros [Hc Hr Ht Hx Ho] R. apply issue_Ok in R as (_ & _ & ->). unfold credit in *. split.
  - rewrite sset_eq. simpl. rewrite Hc, len_cons. lia.
  - by rewrite !sset_ne by done.
  - by rewrite !sset_ne by done.
  - intros i. unfold credit. rewrite sset_ne, sset_ne by done. simpl. destruct (decide (id = i)) as [<-|Hne].
    + rewrite sset_eq. split_and!; [done..|left].
    + rewrite sset_ne by congruence. specialize (Hx i). destruct (sget (pers s) (CarbonCreditKey.CarbonCredit i)); [|done].
      destruct Hx as (? & ? & ?). split_and!; [done..|by right].
  - simpl. intros [Hn [Hd Hs]%Ho]. split; [by constructor|]. rewrite Hs.
    assert (held (AIssued id n :: tr) id = 0) as ->.
    { unfold held. simpl. rewrite (decide_True (P := id = id)) by done. by rewrite decide_False. }
    rewrite (held_ext tr (AIssued id n :: tr)); [lia|]. intros i Hi. simpl.
    by rewrite !(decide_False (P := id = i)) by (intros ->; done).
Qed.

Lemma Acted_verify id v e c s s' tr :
  Acted (pers s) tr -> verify_renewable_energy id v e c s = Ok (true, s') ->
  Acted (pers s') (AVerified id :: tr).
Proof.
  intros [Hc Hr Ht Hx Ho] (x & w & (E1 & E2 & E3) & [B A O])%verify_energy_Ok.
  split; rewrite ?E1, ?E2, ?E3; try done.
  - intros i. simpl. destruct (decide (id = i)) as [<-|Hne].
    + rewrite A. specialize (Hx id). rewrite B in Hx. destruct Hx as (? & ? & ?). done.
    + rewrite O by congruence. apply Hx.
  - simpl. intros [Hn [Hd Hs]%Ho]. split; [done|]. rewrite Hs. apply total_of_ext. intros i Hi.
    unfold held. simpl. destruct (decide (id = i)) as [<-|Hne]; [|done].
    by rewrite !decide_False.
Qed.

Lemma Acted_retire id r c s s' tr :
  Acted (pers s) tr -> retire_credit id r c s = Ok (true, s') -> Acted (pers s') (ARetired id :: tr).
Proof.
  intros [Hc Hr Ht Hx Ho] (x & B & R)%retire_Ok.
  destruct (bool_decide_reflect (cc_status x = CreditStatus.Retired)) as [|Hne]; [by destruct R|].
  destruct R as [_ ->]. pose proof (Hx id) as Hid. rewrite B in Hid. destruct Hid as (Es & Et & Hi).
  unfold credit in *. split.
  - by rewrite !sset_ne by done.
  - rewrite sset_ne, sset_eq by done. simpl. rewrite Hr, len_cons. lia.
  - rewrite sset_eq. simpl. rewrite Ht, Et. lia.
  - intros i. unfold credit. rewrite !(sset_ne _ _ (CarbonCreditKey.CarbonCredit i)) by done. simpl.
    destruct (decide (id = i)) as [<-|n].
    + rewrite sset_eq. done.
    + rewrite sset_ne by congruence. apply Hx.
  - simpl. intros [Hd Hs]%Ho. split; [done|].
    rewrite (total_of_update (held tr) (held (ARetired id :: tr)) (issued tr) id Hd Hi).
    + assert (held tr id = 0) as -> by (unfold held; rewrite decide_False by (rewrite Es; congruence); done).
      assert (held (ARetired id :: tr) id = tonnes_of tr id) as ->; [|lia].
      unfold held. simpl. rewrite (decide_True (P := id = id)) by done. by rewrite decide_True.
    + intros i n. unfold held. simpl. by rewrite (decide_False (P := id = i)) by congruence.
Qed.

Lemma ctrace_Acted tr s : ctrace tr s -> Acted (pers s) tr.
Proof.
  induction 1 as [|tr s a n src off reg std c id s' _ IH R|tr s id v e c s' _ IH R
                 |tr s id r c s' _ IH R|tr s id r v e c s' _ IH R|tr s k c s' _ IH Hk Hv R].
  - split; try done. intros _. split; [constructor|done].
  - by eapply Acted_issue.
  - by eapply Acted_verify.
  - by eapply Acted_retire.
  - destruct R as [->%verify_energy_Ok|(x & _ & R)%retire_Ok]; [done|].
    destruct (bool_decide _); [by destruct R as [_ ->]|by destruct R].
  - destruct (cexec_ordinary k c s s' Hk R) as [(E1 & E2 & E3) H]. destruct IH as [Hc Hr Ht Hx Ho].
    split; rewrite ?E1, ?E2, ?E3; try done.
    intros i. specialize (Hx i). destruct H as [H|(id & x & x' & [B A O] & HS & Hst)].
    + by rewrite H.
    + destruct (decide (i = id)) as [->|n]; [|by rewrite O]. rewrite A. rewrite B in Hx.
      destruct Hst as [->|[_ (v & e & Ek)]]; [|by destruct (Hv id v e)]. unfold same_credit in HS.
      destruct HS as (_ & _ & -> & _). done.
Qed.

(** C27: Whatever is called, the totals of the registry are those of its history:
    as many credits as were issued, as many retirements as were made, and the sum
    of the tonnes of those retirements, each counted at the tonnes its credit was
    last issued with; a credit has the status of the last act on it.  A credit that
    was verified or issued again after its retirement may be retired and counted
    again.  In an orderly history - no identifier issued twice, no retired credit
    verified - each credit counts once: the total is the sum of the tonnes of the
    credits that are retired. *)
Theorem carbon_totals_are_exact tr s c :
  ctrace tr s ->
  get_total_credits_issued c s = Ok (len (issued tr), s) /\
  get_total_retired_co2e c s = Ok (tonnes_retired tr, s) /\
  (forall from to, exists r, generate_offset_report from to c s = Ok (r, s) /\
     cr_credits_retired r = len (retirements tr)) /\
  (forall id, match status_of tr id with
              | Some st => exists x, get_credit_details id c s = Ok (x, s) /\
                  cc_status x = st /\ cc_carbon_tonnes x = tonnes_of tr id
              | None => get_credit_details id c s = Err (Panic Abort)
              end) /\
  (orderly tr -> NoDup (issued tr) /\
     tonnes_retired tr = total_of (retired_tonnes (pers s)) (issued tr)).
Proof.
  intros [Hc Hr Ht Hx Ho]%ctrace_Acted. split_and!.
  - unfold get_total_credits_issued, pget_or. rewrite <- Hc. by case_match.
  - unfold get_total_retired_co2e, pget_or. rewrite <- Ht. by case_match.
  - intros from to. unfold generate_offset_report, bind, pget_or. eexists.
    split; [reflexivity|]. simpl. rewrite <- Hr. by case_match.
  - intros id. specialize (Hx id). unfold get_credit_details.
    destruct (credit (pers s) id) as [x|] eqn:E.
    + destruct Hx as (-> & Hn & _). exists x. split; [|done]. by apply credit_or_abort_Ok.
    + rewrite Hx. unfold credit_or_abort, bind, pget, credit in *. by rewrite E.
  - intros [Hd Hs]%Ho. split; [done|]. rewrite Hs. apply total_of_ext. intros id _.
    specialize (Hx id). unfold held, retired_tonnes.
    destruct (credit (pers s) id) as [x|]; [|by rewrite decide_False by congruence].
    destruct Hx as (-> & <- & _). destruct (bool_decide_reflect (cc_status x = CreditStatus.Retired)).
    + by rewrite decide_True by congruence.
    + by rewrite decide_False by congruence.
Qed.

Lemma cexec_retired k c s s' id x :
  careful c (pers s) k -> cexec k c s = Ok (tt, s') ->
  credit (pers s) id = Some x -> cc_status x = CreditStatus.Retired ->
  exists x', credit (pers s') id = Some x' /\ cc_status x' = CreditStatus.Retired /\
    same_credit x x'.
Proof.
  intros Hc R Hx Hst. destruct (ordinary k) eqn:Ho.
  - destruct (cexec_ordinary k c s s' Ho R) as [_ [H|(i & y & y' & [B A O] & HS & Hs)]].
    + exists x. by rewrite H.
    + destruct (decide (id = i)) as [->|n]; [|exists x; rewrite O by done; done].
      rewrite B in Hx. injection Hx as ->. exists y'. split_and!; [done| |done].
      destruct Hs as [->|[_ (v & e & ->)]]; [done|]. simpl in Hc. unfold is_retired in Hc.
      rewrite B, Hst in Hc. done.
  - destruct k; try done; simpl in *; apply bind_Ok in R as (r & s1 & R & R2); injection R2 as <-.
    + apply issue_Ok in R as (_ & Hid & E). exists x. split; [|done].
      rewrite <- Hid in Hc. assert (id <> r) by (intros ->; congruence).
      unfold credit. rewrite E, !sset_ne by congruence. exact Hx.
    + apply retire_Ok in R as (y & Hy & R). destruct (decide (id = id0)) as [->|n].
      * rewrite Hx in Hy. injection Hy as <-. rewrite bool_decide_true in R by done.
        destruct R as [_ ->]. by exists x.
      * exists x. split; [|done]. destruct (bool_decide _); [by destruct R as [_ ->]|].
        destruct R as [_ E]. unfold credit. rewrite E, !sset_ne by congruence. exact Hx.
Qed.

(** Under the same condition a retired credit stays retired, with its
    tonnes and its retirement date; retiring it again answers [false] and
    changes nothing, and it cannot be transferred. *)
Theorem retirement_is_final s s' c id x :
  rtc cstep s s' -> credit (pers s) id = Some x -> cc_status x = CreditStatus.Retired ->
  (exists x', credit (pers s') id = Some x' /\ cc_status x' = CreditStatus.Retired /\
     cc_carbon_tonnes x' = cc_carbon_tonnes x /\
     cc_retirement_date x' = cc_retirement_date x) /\
  (forall r, retire_credit id r c s' = Ok (false, s')) /\
  (forall a b, cx_auth c a = true -> transfer_credit id a b c s' = Ok (false, s')).
Proof.
  intros Hs Hx Hst.
  assert (exists x', credit (pers s') id = Some x' /\ cc_status x' = CreditStatus.Retired /\
            same_credit x x') as (x' & Hx' & Hst' & HS).
  { revert s' Hs. apply rtc_invariant; [exists x; done|].
    intros y z _ (w & Hw & Hws & Hwx) Hs. revert Hw. destruct Hs as [k c' y z _ Hc R]. intros Hw.
    destruct (cexec_retired k c' y z id w Hc R Hw Hws) as (v & Hv & Hvs & Hvx). exists v.
    split_and!; [done|done|]. unfold same_credit in *. naive_solver congruence. }
  destruct HS as (_ & _ & H3 & _ & H5).
  split; [by exists x'|]. unfold retire_credit, transfer_credit, bind, require_auth.
  assert (credit_or_abort id c s' = Ok (x', s')) as Hr by (by apply credit_or_abort_Ok).
  split.
  - intros r. rewrite Hr, bool_decide_true by done. done.
  - intros a b ->. rewrite Hr, bool_decide_true by done. done.
Qed.

Lemma pget_or_run (k : CarbonCreditKey) d c (s : St) :
  pget_or k d c s = Ok (default d (sget (pers s) k), s).
Proof. reflexivity. Qed.

Lemma retire_run id r c s x :
  credit (pers s) id = Some x -> cc_status x <> CreditStatus.Retired ->
  default 0 (sget (pers s) CarbonCreditKey.RetiredCount) < u32_max ->
  default 0 (sget (pers s) CarbonCreditKey.TotalCo2eRetired) + cc_carbon_tonnes x <= u32_max ->
  exists s', retire_credit id r c s = Ok (true, s') /\
    sget (pers s') CarbonCreditKey.TotalCo2eRetired
    = Some (default 0 (sget (pers s) CarbonCreditKey.TotalCo2eRetired) + cc_carbon_tonnes x).
Proof.
  intros Hx Hst Hn Ht.
  assert (default 0 (sget (pers s) CarbonCreditKey.RetiredCount) + 1 <= u32_max) as Hn1 by lia.
  unfold retire_credit.
  rewrite (bind_run _ _ c s x s) by (by apply credit_or_abort_Ok).
  rewrite bool_decide_false by done. unfold bind at 1, ledger_timestamp. unfold bind at 1, pset at 1.
  rewrite (bind_run _ _ _ _ _ _ (pget_or_run _ _ _ _)). simpl pers. rewrite sset_ne by done.
  rewrite (bind_run _ _ _ _ _ _ (u32_add_run _ _ _ _ Hn1)). unfold bind at 1, pset at 1.
  rewrite (bind_run _ _ _ _ _ _ (pget_or_run _ _ _ _)). simpl pers. rewrite !sset_ne by done.
  rewrite (bind_run _ _ _ _ _ _ (u32_add_run _ _ _ _ Ht)).
  eexists. split; [reflexivity|]. simpl. by rewrite sset_eq.
Qed.

(** Verifying a retired credit makes it active again, whoever signs as the
    verifier, and retiring it once more adds its tonnes to the total a second
    time. *)
Theorem verified_credit_retires_twice s c id x v r :
  credit (pers s) id = Some x -> cc_status x = CreditStatus.Retired -> cx_auth c v = true ->
  default 0 (sget (pers s) CarbonCreditKey.RetiredCount) < u32_max ->
  default 0 (sget (pers s) CarbonCreditKey.TotalCo2eRetired) + cc_carbon_tonnes x <= u32_max ->
  exists s1 s2 n,
    verify_renewable_energy id v (rs_energy_generated_mwh (cc_renewable_source x)) c s
      = Ok (true, s1) /\
    check_retirement_status id c s1 = Ok (false, s1) /\
    retire_credit id r c s1 = Ok (true, s2) /\
    get_total_retired_co2e c s = Ok (n, s) /\
    get_total_retired_co2e c s2 = Ok (n + cc_carbon_tonnes x, s2).
Proof.
  intros Hx Hst Ha Hn Ht.
  assert (credit_or_abort id c s = Ok (x, s)) as R by (by apply credit_or_abort_Ok).
  set (now := cx_timestamp c). set (rec := mkVerificationRecord (sha256 (str_bytes "VERIFY")) v now
               (cc_carbon_tonnes x) [] true (str_bytes "Renewable energy verified")).
  set (s1 := mkSt (inst s) (sset (pers s) (CarbonCreditKey.CarbonCredit id) (verified x rec))
               (temp s) (published s) (host_calls s)).
  assert (credit_or_abort id c s1 = Ok (verified x rec, s1)) as R1.
  { apply credit_or_abort_Ok. split; [|done]. unfold credit, s1. simpl. by rewrite sset_eq. }
  assert (forall k, k <> CarbonCreditKey.CarbonCredit id -> sget (pers s1) k = sget (pers s) k) as E
    by (intros k Hk; unfold s1; simpl; by rewrite sset_ne by congruence).
  destruct (retire_run id r c s1 (verified x rec)) as (s2 & R2 & H2).
  { by apply credit_or_abort_Ok in R1 as []. }
  { done. }
  { by rewrite E. }
  { by rewrite E. }
  exists s1, s2, (default 0 (sget (pers s) CarbonCreditKey.TotalCo2eRetired)).
  split_and!; [| |exact R2|reflexivity|].
  - unfold verify_renewable_energy, bind, require_auth. rewrite Ha, R, Z.eqb_refl. done.
  - unfold check_retirement_status, bind. by rewrite R1.
  - unfold get_total_retired_co2e. rewrite pget_or_run, H2, E by done. done.
Qed.

(** Issuing the same tonnes to the same issuer at one timestamp overwrites the
    first credit, retired or not. *)
Theorem reissued_credit_starts_over s c a n src off reg std id s' x :
  credit (pers s) (credit_id_of n a (cx_timestamp c)) = Some x ->
  issue_carbon_credit a n src off reg std c s = Ok (id, s') ->
  id = credit_id_of n a (cx_timestamp c) /\
  get_credit_status id c s' = Ok (CreditStatus.Issued, s') /\
  default 0 (sget (pers s') CarbonCreditKey.CreditCounter)
  = default 0 (sget (pers s) CarbonCreditKey.CreditCounter) + 1.
Proof.
  intros _ R. apply issue_Ok in R as (_ & -> & E). split; [done|]. split.
  - unfold get_credit_status, bind.
    assert (credit_or_abort (credit_id_of n a (cx_timestamp c)) c s'
            = Ok (mkCarbonCredit (credit_id_of n a (cx_timestamp c)) a n src off CreditStatus.Issued
                    (cx_timestamp c) None None reg [] 1, s')) as ->; [|done].
    apply credit_or_abort_Ok. split; [|done]. unfold credit. rewrite E, !sset_ne by done.
    by rewrite sset_eq.
  - by rewrite E, sset_eq.
Qed.

(** Retiring asks for no signature. *)
Theorem retiring_needs_no_signature s c c' id r :
  cx_timestamp c = cx_timestamp c' -> retire_credit id r c s = retire_credit id r c' s.
Proof.
  intros Ht. unfold retire_credit, credit_or_abort, bind, ledger_timestamp, pget.
  simpl. destruct (sget (pers s) (CarbonCreditKey.CarbonCredit id)); simpl; [|done].
  destruct (bool_decide _); [done|]. unfold u32_add, pget_or, pset, ret, panic. simpl. rewrite Ht.
  repeat match goal with |- context [Z.leb ?a ?b] => destruct (Z.leb a b); simpl end; done.
Qed.

(** A transfer appends the credit to the list of the receiver and leaves the
    list of the sender, who need not hold it, as it was. *)
Theorem transfer_keeps_the_sender s c id a b s' :
  a <> b -> transfer_credit id a b c s = Ok (true, s') ->
  cx_auth c a = true /\
  sget (pers s') (CarbonCreditKey.HolderCredits a) = sget (pers s) (CarbonCreditKey.HolderCredits a) /\
  sget (pers s') (CarbonCreditKey.HolderCredits b)
  = Some (default [] (sget (pers s) (CarbonCreditKey.HolderCredits b)) ++ [id]).
Proof.
  intros Hab R. unfold transfer_credit in R. apply bind_Ok in R as (u & s0 & R0 & R).
  apply require_auth_Ok in R0 as [Ha ->]. apply bind_Ok in R as (x & s0 & R0 & R).
  apply credit_or_abort_Ok in R0 as [Hx ->]. destruct (bool_decide _); minv; [done|].
  split; [done|]. split; [by rewrite !sset_ne by congruence|]. rewrite sset_eq.
  by rewrite sset_ne by done.
Qed.

(** ** Portfolios *)

Definition active_one (st : store) (id : Hash) : Z :=
  match credit st id with
  | Some x => if bool_decide (cc_status x = CreditStatus.Active) then 1 else 0
  | None => 0
  end.

Lemma portfolio_loop_run c s l a r t :
  (forall id x, credit (pers s) id = Some x -> 0 <= cc_carbon_tonnes x) ->
  a + total_of (active_one (pers s)) l <= u32_max ->
  r + total_of (retired_one (pers s)) l <= u32_max ->
  t + total_of (retired_tonnes (pers s)) l <= u32_max ->
  fold_m portfolio_step (a, r, t) l c s
  = Ok ((a + total_of (active_one (pers s)) l, r + total_of (retired_one (pers s)) l,
         t + total_of (retired_tonnes (pers s)) l), s).
Proof.
  intros Hpos. revert a r t. induction l as [|id l IH]; intros a r t Ha Hr Ht; simpl in *.
  { by rewrite !Z.add_0_r. }
  assert (0 <= total_of (active_one (pers s)) l) as P1.
  { apply total_of_nonneg. intros i. unfold active_one. by repeat case_match. }
  assert (0 <= total_of (retired_one (pers s)) l) as P2.
  { apply total_of_nonneg. intros i. unfold retired_one. by case_match. }
  assert (0 <= total_of (retired_tonnes (pers s)) l) as P3.
  { apply total_of_nonneg. intros i. unfold retired_tonnes.
    destruct (credit (pers s) i) eqn:E; [|done]. specialize (Hpos _ _ E). by case_match. }
  rewrite (bind_run _ _ c s (a + active_one (pers s) id, r + retired_one (pers s) id,
                             t + retired_tonnes (pers s) id) s).
  { rewrite IH by lia. rewrite !Z.add_assoc. done. }
  unfold portfolio_step, bind, pget, active_one, retired_one, is_retired, retired_tonnes, credit in *.
  destruct (sget (pers s) (CarbonCreditKey.CarbonCredit id)) as [x|] eqn:Ex; simpl.
  2: by rewrite !Z.add_0_r.
  pose proof (Hpos _ _ Ex).
  destruct (cc_status x); simpl in *; rewrite ?Z.add_0_r; try done; unfold u32_add, ret.
  - destruct (Z.leb_spec (a + 1) u32_max); [done|lia].
  - destruct (Z.leb_spec (r + 1) u32_max); [|lia].
    destruct (Z.leb_spec (t + cc_carbon_tonnes x) u32_max); [done|lia].
Qed.

(** The portfolio of a holder counts the entries of its list: how many are
    active, how many retired, the retired tonnes, and 15 dollars an active
    entry, unless one of them does not fit in [u32]. *)
Theorem portfolio_counts_the_list s c h :
  creachable s ->
  let l := default [] (sget (pers s) (CarbonCreditKey.HolderCredits h)) in
  let a := total_of (active_one (pers s)) l in
  let r := total_of (retired_one (pers s)) l in
  let t := total_of (retired_tonnes (pers s)) l in
  15 * a <= u32_max -> r <= u32_max -> t <= u32_max ->
  get_portfolio_status h c s
  = Ok (mkPortfolioStatus h (len l) a r t (15 * a) (cx_timestamp c), s).
Proof.
  intros [ids HB]%creachable_Book l a r t Ha Hr Ht.
  assert (0 <= a) as Ha0.
  { apply total_of_nonneg. intros i. unfold active_one. by repeat case_match. }
  unfold get_portfolio_status.
  rewrite (bind_run _ _ c s l s) by (unfold l, pget_or; by case_match).
  rewrite (bind_run _ _ c s (a, r, t) s).
  2:{ rewrite (portfolio_loop_run c s l 0 0 0) by (lia || apply (bk_tonnes _ _ HB)). done. }
  cbv beta iota. unfold u32_mul, ledger_timestamp, bind, ret.
  destruct (Z.leb_spec (a * 15) u32_max); [|lia]. by replace (a * 15) with (15 * a) by lia.
Qed.

(** ** Audits *)

(** An audit approves exactly the measurements within 100 MWh of the
    recorded energy, as long as both are below 2^31, and appends its record. *)
Theorem audit_approves_within_100 s c id a m x :
  credit (pers s) id = Some x -> cx_auth c a = true ->
  0 <= m < 2147483648 -> 0 <= rs_energy_generated_mwh (cc_renewable_source x) < 2147483648 ->
  exists rec s', audit_renewable_usage id a m c s = Ok (rec, s') /\
    (vr_approved rec = true <->
     Z.abs (rs_energy_generated_mwh (cc_renewable_source x) - m) <= 100) /\
    (vr_issues_found rec = [] <-> vr_approved rec = true) /\
    sget (pers s') (CarbonCreditKey.VerificationRecords id)
    = Some (default [] (sget (pers s) (CarbonCreditKey.VerificationRecords id)) ++ [rec]).
Proof.
  intros Hx Ha Hm He. set (e := rs_energy_generated_mwh (cc_renewable_source x)) in *.
  assert (i32_distance e m c s = Ok (Z.abs (e - m), s)) as Hd.
  { unfold i32_distance, as_i32.
    destruct (Z.ltb_spec e 2147483648); [|lia]. destruct (Z.ltb_spec m 2147483648); [|lia].
    destruct (Z.leb_spec (-2147483647) (e - m)); [|lia].
    destruct (Z.leb_spec (e - m) 2147483647); [done|lia]. }
  eexists _, _. split.
  { unfold audit_renewable_usage, bind, require_auth. rewrite Ha.
    assert (credit_or_abort id c s = Ok (x, s)) as -> by (by apply credit_or_abort_Ok).
    fold e. rewrite Hd. reflexivity. }
  simpl. split_and!.
  - destruct (Z.ltb_spec 100 (Z.abs (e - m))); simpl; split; (done || lia).
  - by destruct (Z.ltb 100 (Z.abs (e - m))).
  - rewrite sset_eq. done.
Qed.

(** The cast to [i32] wraps: a reading of 50 passes for a recorded 2^32 - 1. *)
Example audit_wraps :
  forall (c : Ctx) (s : St), i32_distance 4294967295 50 c s = Ok (51, s).
Proof. reflexivity. Qed.
End Calls.

(** ** The properties at concrete states *)

#[local] Instance carbon_crypto : Crypto := sample_crypto.

Definition solar : RenewableEnergySource :=
  mkRenewableEnergySource RenewableEnergyType.Solar [1] [2] 5 400 900 [].
Definition trees : Offset := mkOffset "forest" [3] 10 [4] alice 900 9000.
Definition vcs : RegistryEntry := mkRegistryEntry [] [] [] 0 alice ComplianceStandard.Vcs.

Definition c_issued : St :=
  post (cexec (CIssue owner 12 solar trees vcs ComplianceStandard.Vcs)) (at_time 1000) empty_state.
Definition c_id : Hash := Eval vm_compute in credit_id_of 12 owner 1000.
Definition c_held : St := post (cexec (CTransfer c_id owner alice)) (at_time 1010) c_issued.
Definition c_retired : St := post (cexec (CRetire c_id [])) (at_time 1020) c_held.

Lemma cstep_at k t s :
  ccall_typed k -> careful (at_time t) (pers s) k -> outcome (cexec k) (at_time t) s = Ok tt ->
  cstep s (post (cexec k) (at_time t) s).
Proof. intros Hk Hc Ho. apply (cstep_call k (at_time t)); [done|done|by apply run_outcome]. Qed.

Lemma c_issued_reachable : creachable c_issued.
Proof.
  apply rtc_once. apply cstep_at; [done|vm_compute; reflexivity|vm_compute; reflexivity].
Qed.
Lemma c_held_reachable : creachable c_held.
Proof.
  eapply rtc_r; [apply c_issued_reachable|]. apply cstep_at; [done|done|vm_compute; reflexivity].
Qed.
Lemma c_retired_reachable : creachable c_retired.
Proof.
  eapply rtc_r; [apply c_held_reachable|]. apply cstep_at; [done|done|vm_compute; reflexivity].
Qed.

Lemma post_done {A} (m : M A) c s : post (do* m in ret tt) c s = post m c s.
Proof. unfold post, bind. by destruct (m c s) as [[]|]. Qed.

Lemma c_retired_trace : ctrace [ARetired c_id; AIssued c_id 12] c_retired.
Proof.
  assert (outcome (issue_carbon_credit owner 12 solar trees vcs ComplianceStandard.Vcs) (at_time 1000)
            empty_state = Ok c_id) as R1 by (vm_compute; reflexivity).
  assert (outcome (cexec (CTransfer c_id owner alice)) (at_time 1010) c_issued = Ok tt) as R2
    by (vm_compute; reflexivity).
  assert (outcome (retire_credit c_id []) (at_time 1020) c_held = Ok true) as R3
    by (vm_compute; reflexivity).
  apply (ctrace_retire _ c_held c_id [] (at_time 1020)).
  - apply (ctrace_other _ c_issued (CTransfer c_id owner alice) (at_time 1010)); [|done..|].
    + pose proof (ctrace_issue _ _ _ _ _ _ _ _ _ _ _ ctrace_nil (run_outcome _ _ _ _ R1)) as T.
      unfold c_issued, cexec. rewrite post_done. exact T.
    + exact (run_outcome _ _ _ _ R2).
  - unfold c_retired, cexec. rewrite post_done. exact (run_outcome _ _ _ _ R3).
Qed.

Lemma carbon_totals_are_exact_witness :
  get_total_retired_co2e (at_time 1030) c_retired = Ok (12, c_retired) /\ NoDup [c_id].
Proof.
  destruct (carbon_totals_are_exact _ c_retired (at_time 1030) c_retired_trace)
    as (_ & H & _ & _ & O). split; [exact H|].
  exact (proj1 (O (conj (not_elem_of_nil c_id) I))).
Defined.

Definition c_credit : CarbonCredit := Eval vm_compute in
  default (mkCarbonCredit [] alice 0 solar trees CreditStatus.Issued 0 None None vcs [] 0)
    (credit (pers c_retired) c_id).

Lemma retirement_is_final_witness :
  retire_credit c_id [] (at_time 1040) c_retired = Ok (false, c_retired).
Proof.
  apply (retirement_is_final c_retired c_retired (at_time 1040) c_id c_credit (rtc_refl _ _));
    vm_compute; reflexivity.
Defined.

Lemma verified_credit_retires_twice_witness :
  exists s1 s2, verify_renewable_energy c_id alice 400 (at_time 1040) c_retired = Ok (true, s1) /\
    retire_credit c_id [] (at_time 1040) s1 = Ok (true, s2).
Proof.
  destruct (verified_credit_retires_twice c_retired (at_time 1040) c_id c_credit alice [])
    as (s1 & s2 & n & R1 & _ & R2 & _); [vm_compute; reflexivity..| |].
  - vm_compute. discriminate.
  - exists s1, s2. split; [exact R1|exact R2].
Defined.

Lemma portfolio_counts_the_list_witness :
  outcome (get_portfolio_status alice) (at_time 1040) c_retired
  = Ok (mkPortfolioStatus alice 1 0 1 12 0 1040).
Proof.
  pose proof (portfolio_counts_the_list c_retired (at_time 1040) alice c_retired_reachable) as H.
  cbv zeta in H. erewrite outcome_run; [|apply H; vm_compute; discriminate].
  vm_compute. reflexivity.
Defined.

Lemma audit_approves_within_100_witness :
  exists rec s', audit_renewable_usage c_id alice 450 (at_time 1040) c_retired = Ok (rec, s') /\
    vr_approved rec = true.
Proof.
  destruct (audit_approves_within_100 c_retired (at_time 1040) c_id alice 450 c_credit)
    as (rec & s' & R & H & _); [vm_compute; reflexivity|reflexivity|lia|simpl; lia|].
  exists rec, s'. split; [exact R|]. apply H. simpl. lia.
Defined.
