(* ===== verification/Regions.v ===== *)
(** * Regions and failover

    The multi-region coordinator of src/multi_region.rs: regional nodes, their
    heartbeats, replication records and failovers, all in persistent storage.
    Which node is primary, and what a failover does to the fencing token, is
    what the theorems are about. *)

From stdpp Require Import relations.
From S2P Require Import Prelude Contract StorageLemmas Sample.

(** ** Data *)

Module MultiRegionError.
(** [MultiRegionError], src/multi_region.rs:23-40 *)
Inductive MultiRegionError : Set :=
  | RegionAlreadyExists
  | RegionNotFound
  | UnauthorizedOperator
  | InvalidTopologyTransition
  | StaleFencingToken
  | TargetRegionUnhealthy
  | StateRootMismatch
  | FailoverAlreadyInProgress.
End MultiRegionError.
Abbreviation MultiRegionError := MultiRegionError.MultiRegionError.

Module RegionTopology.
(** [RegionTopology], src/multi_region.rs:47-50 *)
Inductive RegionTopology : Set := ActiveActive | ActivePassive.
End RegionTopology.

Module RegionHealthStatus.
(** [RegionHealthStatus], src/multi_region.rs:55-61 *)
Inductive RegionHealthStatus : Set := Healthy | Degraded | Unreachable | Draining | Offline.
#[global] Instance RegionHealthStatus_eq_dec : EqDecision RegionHealthStatus.
Proof. solve_decision. Defined.
End RegionHealthStatus.
Abbreviation RegionHealthStatus := RegionHealthStatus.RegionHealthStatus.

(** [RegionNode], src/multi_region.rs:65-74 *)
Record RegionNode := mkRegionNode {
  rn_region_id : Symbol;
  rn_endpoint_url_hash : Hash;
  rn_is_primary : bool;
  rn_health_status : RegionHealthStatus;
  rn_last_heartbeat_timestamp : Z;
  rn_processed_ledger_seq : Z;
  rn_state_root_hash : Hash;
  rn_traffic_weight : Z }.

(** [CrossRegionSyncRecord], src/multi_region.rs:78-87 *)
Record CrossRegionSyncRecord := mkCrossRegionSyncRecord {
  sy_source_region : Symbol;
  sy_target_region : Symbol;
  sy_from_seq : Z;
  sy_to_seq : Z;
  sy_events_synced : Z;
  sy_sync_timestamp : Z;
  sy_state_root_proof : Hash;
  sy_replication_lag_ms : Z }.

(** [FailoverEvent], src/multi_region.rs:91-100 *)
Record FailoverEvent := mkFailoverEvent {
  fo_failover_id : Hash;
  fo_old_primary : Symbol;
  fo_new_primary : Symbol;
  fo_trigger_reason : Symbol;
  fo_initiated_at : Z;
  fo_completed_at : Z;
  fo_consistency_verified : bool;
  fo_fencing_token : Z }.

(** [MultiRegionTopologyConfig], src/multi_region.rs:104-110 *)
Record MultiRegionTopologyConfig := mkMultiRegionTopologyConfig {
  tg_topology_mode : RegionTopology.RegionTopology;
  tg_primary_region : Symbol;
  tg_replication_quorum : Z;
  tg_active_regions_count : Z;
  tg_current_fencing_token : Z }.

Module MultiRegionStorageKey.
(** [MultiRegionStorageKey], src/multi_region.rs:116-123 *)
Inductive MultiRegionStorageKey : Set :=
  | Region (r : Symbol)
  | RegisteredRegionsList
  | SyncRecord (source target : Symbol)
  | Failover (id : Hash)
  | LatestFailover
  | TopologyConfig.
#[global] Instance MultiRegionStorageKey_eq_dec : EqDecision MultiRegionStorageKey.
Proof. solve_decision. Defined.
End MultiRegionStorageKey.
Abbreviation MultiRegionStorageKey := MultiRegionStorageKey.MultiRegionStorageKey.

(** ** Layout *)

Inductive RegionTy : Set := RvNode | RvNames | RvSync | RvFailover | RvConfig.
#[global] Instance RegionTy_eq_dec : EqDecision RegionTy.
Proof. solve_decision. Defined.

Definition region_el (t : RegionTy) : Type :=
  match t with
  | RvNode => RegionNode
  | RvNames => list Symbol
  | RvSync => CrossRegionSyncRecord
  | RvFailover => FailoverEvent
  | RvConfig => MultiRegionTopologyConfig
  end.

Definition region_key_ty (k : MultiRegionStorageKey) : RegionTy :=
  match k with
  | MultiRegionStorageKey.Region _ => RvNode
  | MultiRegionStorageKey.RegisteredRegionsList => RvNames
  | MultiRegionStorageKey.SyncRecord _ _ => RvSync
  | MultiRegionStorageKey.Failover _ | MultiRegionStorageKey.LatestFailover => RvFailover
  | MultiRegionStorageKey.TopologyConfig => RvConfig
  end.

Canonical region_layout : Layout := {|
  key := MultiRegionStorageKey; ty := RegionTy; el := region_el; layout_key_ty := region_key_ty;
  key_dec := _; ty_dec := _; error := MultiRegionError; datum := Payload |}.

#[local] Abbreviation M := (CM region_layout).
#[local] Abbreviation store := (kvstore region_layout).
#[local] Abbreviation St := (CSt region_layout).

(** ** Operations *)

(** [register_region], src/multi_region.rs:131-171 *)
Definition register_region (admin : Address) (region_id : Symbol) (endpoint_url_hash : Hash)
    (is_primary : bool) (traffic_weight : Z) : M RegionNode :=
  do* require_auth admin in
  let* there := phas (MultiRegionStorageKey.Region region_id) in
  do* reject_if there MultiRegionError.RegionAlreadyExists in
  let* now := ledger_timestamp in
  let node := mkRegionNode region_id endpoint_url_hash is_primary RegionHealthStatus.Healthy now 0
                (replicate 32 0) traffic_weight in
  do* pset (MultiRegionStorageKey.Region region_id) node in
  let* regions := pget_or MultiRegionStorageKey.RegisteredRegionsList [] in
  do* pset MultiRegionStorageKey.RegisteredRegionsList (regions ++ [region_id]) in
  ret node.

(** [heartbeat_region], src/multi_region.rs:174-198 *)
Definition heartbeat_region (operator : Address) (region_id : Symbol) (processed_ledger_seq : Z)
    (state_root_hash : Hash) (health_status : RegionHealthStatus) : M RegionNode :=
  do* require_auth operator in
  let* node := pget (MultiRegionStorageKey.Region region_id) in
  let* node := unwrap_or_raise node MultiRegionError.RegionNotFound in
  let* now := ledger_timestamp in
  let node' := mkRegionNode (rn_region_id node) (rn_endpoint_url_hash node) (rn_is_primary node)
                 health_status now processed_ledger_seq state_root_hash (rn_traffic_weight node) in
  do* pset (MultiRegionStorageKey.Region region_id) node' in
  ret node'.

(** [record_cross_region_sync], src/multi_region.rs:201-213 *)
Definition record_cross_region_sync (operator : Address) (record : CrossRegionSyncRecord)
    : M unit :=
  do* require_auth operator in
  pset (MultiRegionStorageKey.SyncRecord (sy_source_region record) (sy_target_region record)) record.

Definition set_primary (node : RegionNode) (primary : bool) (health : RegionHealthStatus)
    : RegionNode :=
  mkRegionNode (rn_region_id node) (rn_endpoint_url_hash node) primary health
    (rn_last_heartbeat_timestamp node) (rn_processed_ledger_seq node) (rn_state_root_hash node)
    (rn_traffic_weight node).

(** [new_node.health_status] fit to take over, src/multi_region.rs:234-236 *)
Definition can_lead (h : RegionHealthStatus) : bool :=
  bool_decide (h = RegionHealthStatus.Healthy) || bool_decide (h = RegionHealthStatus.Degraded).

(** [initiate_failover], src/multi_region.rs:216-288 *)
Definition initiate_failover (operator : Address) (failover_id : Hash)
    (old_primary new_primary trigger_reason : Symbol) (fencing_token : Z) : M FailoverEvent :=
  do* require_auth operator in
  let* new_node := pget (MultiRegionStorageKey.Region new_primary) in
  let* new_node := unwrap_or_raise new_node MultiRegionError.RegionNotFound in
  do* reject_if (negb (can_lead (rn_health_status new_node)))
        MultiRegionError.TargetRegionUnhealthy in
  let* old_node := pget (MultiRegionStorageKey.Region old_primary) in
  do* match old_node with
      | Some old_node =>
          pset (MultiRegionStorageKey.Region old_primary)
            (set_primary old_node false RegionHealthStatus.Draining)
      | None => ret tt
      end in
  do* pset (MultiRegionStorageKey.Region new_primary)
        (set_primary new_node true (rn_health_status new_node)) in
  let* now := ledger_timestamp in
  let event := mkFailoverEvent failover_id old_primary new_primary trigger_reason now now true
                 fencing_token in
  do* pset (MultiRegionStorageKey.Failover failover_id) event in
  do* pset MultiRegionStorageKey.LatestFailover event in
  let* config := pget_or MultiRegionStorageKey.TopologyConfig
                   (mkMultiRegionTopologyConfig RegionTopology.ActivePassive new_primary 2 2 0) in
  do* pset MultiRegionStorageKey.TopologyConfig
        (mkMultiRegionTopologyConfig (tg_topology_mode config) new_primary
           (tg_replication_quorum config) (tg_active_regions_count config) fencing_token) in
  ret event.

(** [get_region], src/multi_region.rs:291-294 *)
Definition get_region (region_id : Symbol) : M (option RegionNode) :=
  pget (MultiRegionStorageKey.Region region_id).

(** [get_registered_regions], src/multi_region.rs:297-302 *)
Definition get_registered_regions : M (list Symbol) :=
  pget_or MultiRegionStorageKey.RegisteredRegionsList [].

(** [get_topology_config], src/multi_region.rs:305-307 *)
Definition get_topology_config : M (option MultiRegionTopologyConfig) :=
  pget MultiRegionStorageKey.TopologyConfig.

(** [get_latest_failover], src/multi_region.rs:310-312 *)
Definition get_latest_failover : M (option FailoverEvent) :=
  pget MultiRegionStorageKey.LatestFailover.

(** [get_sync_record], src/multi_region.rs:315-322 *)
Definition get_sync_record (source target : Symbol) : M (option CrossRegionSyncRecord) :=
  pget (MultiRegionStorageKey.SyncRecord source target).

(** ** One primary *)

Inductive rcall : Type :=
  | RRegister (admin : Address) (r : Symbol) (url : Hash) (primary : bool) (weight : Z)
  | RHeartbeat (op : Address) (r : Symbol) (seq : Z) (root : Hash) (h : RegionHealthStatus)
  | RSync (op : Address) (record : CrossRegionSyncRecord)
  | RFailover (op : Address) (id : Hash) (old new reason : Symbol) (token : Z).

Definition rexec (k : rcall) : M unit :=
  match k with
  | RRegister a r u p w => do* register_region a r u p w in ret tt
  | RHeartbeat a r n h st => do* heartbeat_region a r n h st in ret tt
  | RSync a x => record_cross_region_sync a x
  | RFailover a id o n why tk => do* initiate_failover a id o n why tk in ret tt
  end.

Definition node (st : store) (r : Symbol) : option RegionNode :=
  sget st (MultiRegionStorageKey.Region r).
Definition primary (st : store) (r : Symbol) : Prop :=
  exists n, node st r = Some n /\ rn_is_primary n = true.

(** Regions register as primary only while there is none, and a failover names
    the region that is primary. *)
Definition orderly (st : store) (k : rcall) : Prop :=
  match k with
  | RRegister _ _ _ true _ => forall r, ~ primary st r
  | RFailover _ _ old _ _ _ => forall r, primary st r -> r = old
  | _ => True
  end.

Inductive rstep : St -> St -> Prop :=
  | rstep_call k c s s' : orderly (pers s) k -> rexec k c s = Ok (tt, s') -> rstep s s'.

(** Nodes bear their names and are listed once. *)
Record Cluster (st : store) : Prop := {
  cl_single : forall a b, primary st a -> primary st b -> a = b;
  cl_names : NoDup (default [] (sget st MultiRegionStorageKey.RegisteredRegionsList));
  cl_listed : forall r, r ∈ default [] (sget st MultiRegionStorageKey.RegisteredRegionsList)
                        <-> is_Some (node st r) }.

(** ** Effects *)

Lemma register_Ok a r u p w c (s : St) n s' :
  register_region a r u p w c s = Ok (n, s') ->
  cx_auth c a = true /\ node (pers s) r = None /\ rn_is_primary n = p /\
  pers s' = sset (sset (pers s) (MultiRegionStorageKey.Region r) n)
    MultiRegionStorageKey.RegisteredRegionsList
    (default [] (sget (pers s) MultiRegionStorageKey.RegisteredRegionsList) ++ [r]).
Proof.
  unfold register_region. intros R. minv. split_and!; try done.
  - unfold node. match goal with H : shas _ _ = false |- _ => unfold shas in H end. by case_match.
Qed.

Lemma heartbeat_Ok a r q h st c (s : St) n s' :
  heartbeat_region a r q h st c s = Ok (n, s') ->
  cx_auth c a = true /\ exists n0, node (pers s) r = Some n0 /\
  rn_is_primary n = rn_is_primary n0 /\ rn_health_status n = st /\
  pers s' = sset (pers s) (MultiRegionStorageKey.Region r) n.
Proof. unfold heartbeat_region. intros R. minv. split; [done|]. by eexists. Qed.

(** The state a failover leaves. *)
Record Switched (st st' : store) (old new : Symbol) (n : RegionNode) (tk : Z) : Prop := {
  sw_target : node st new = Some n /\ can_lead (rn_health_status n) = true;
  sw_new : node st' new = Some (set_primary n true (rn_health_status n));
  sw_old : old <> new ->
    node st' old = (fun o => set_primary o false RegionHealthStatus.Draining) <$> node st old;
  sw_rest : forall r, r <> old -> r <> new -> node st' r = node st r;
  sw_list : sget st' MultiRegionStorageKey.RegisteredRegionsList
            = sget st MultiRegionStorageKey.RegisteredRegionsList;
  sw_config : exists cfg, sget st' MultiRegionStorageKey.TopologyConfig = Some cfg /\
    tg_primary_region cfg = new /\ tg_current_fencing_token cfg = tk }.

Lemma failover_Ok a id old new why tk c (s : St) e s' :
  initiate_failover a id old new why tk c s = Ok (e, s') ->
  cx_auth c a = true /\ exists n, Switched (pers s) (pers s') old new n tk.
Proof.
  unfold initiate_failover. intros R. mcase; (split; [done|]); eexists.
  all: match goal with H : negb _ = false |- _ => apply negb_false_iff in H end.
  all: split; [split; [eassumption|done]| | | | |eexists; split; [by rewrite sset_eq|done]];
    unfold node; intros; rewrite ?sset_ne by congruence; try done; try by rewrite sset_eq.
  - rewrite sset_eq. by rewrite Heqo.
  - rewrite sset_ne by (intros [= ->]; done). by rewrite Heqo.
Qed.

Lemma primary_ext st st' r : node st' r = node st r -> primary st' r <-> primary st r.
Proof. intros H. unfold primary. by rewrite H. Qed.

Lemma Cluster_empty : Cluster sempty.
Proof.
  split; [|constructor|].
  - intros a b (n & H & _). done.
  - intros r. split; [intros H; inversion H|by intros []].
Qed.

Lemma Cluster_register st st' r n :
  Cluster st -> node st r = None -> (rn_is_primary n = true -> forall x, ~ primary st x) ->
  st' = sset (sset st (MultiRegionStorageKey.Region r) n)
    MultiRegionStorageKey.RegisteredRegionsList
    (default [] (sget st MultiRegionStorageKey.RegisteredRegionsList) ++ [r]) ->
  Cluster st'.
Proof.
  intros [Hs Hn Hl] Hr Hp ->.
  assert (forall x, x <> r -> node (sset (sset st (MultiRegionStorageKey.Region r) n)
    MultiRegionStorageKey.RegisteredRegionsList
    (default [] (sget st MultiRegionStorageKey.RegisteredRegionsList) ++ [r])) x = node st x) as Ho
    by (intros x Hx; unfold node; by rewrite !sset_ne by congruence).
  set (st' := sset (sset _ _ _) _ _) in *.
  assert (node st' r = Some n) as Hx by (unfold node, st'; rewrite sset_ne by done; by rewrite sset_eq).
  assert (forall x, primary st' x -> x = r /\ rn_is_primary n = true \/ x <> r /\ primary st x) as Hc.
  { intros x (m & Hm & Hmp). destruct (decide (x = r)) as [->|Hne].
    - rewrite Hx in Hm. injection Hm as <-. by left.
    - right. split; [done|]. exists m. by rewrite <- Ho. }
  split.
  - intros a b Ha Hb. destruct (Hc a Ha) as [[-> Ea]|[Ea Pa]], (Hc b Hb) as [[-> Eb]|[Eb Pb]];
      [done|by destruct (Hp Ea b)|by destruct (Hp Eb a)|by apply Hs].
  - unfold st'. rewrite sset_eq. apply NoDup_app. split_and!; [done| |apply NoDup_singleton].
    intros x Hin ->%list_elem_of_singleton. apply Hl in Hin. rewrite Hr in Hin. by destruct Hin.
  - intros x. unfold st' at 1. rewrite sset_eq. simpl.
    rewrite elem_of_app, list_elem_of_singleton, Hl. destruct (decide (x = r)) as [->|Hne].
    + rewrite Hx. naive_solver.
    + rewrite Ho by done. naive_solver.
Qed.

(** A node changes, but not whether it is primary. *)
Lemma Cluster_update st r n n0 :
  Cluster st -> node st r = Some n0 -> rn_is_primary n = rn_is_primary n0 ->
  Cluster (sset st (MultiRegionStorageKey.Region r) n).
Proof.
  intros [Hs Hn Hl] Hr Hp.
  assert (forall x, primary (sset st (MultiRegionStorageKey.Region r) n) x -> primary st x) as Hc.
  { intros x (m & Hm & Hmp). unfold node in Hm. destruct (decide (x = r)) as [->|Hne].
    - rewrite sset_eq in Hm. injection Hm as <-. exists n0. split; [done|congruence].
    - rewrite sset_ne in Hm by congruence. by exists m. }
  split.
  - intros a b Ha%Hc Hb%Hc. by apply Hs.
  - by rewrite sset_ne.
  - intros x. rewrite sset_ne, Hl by done. unfold node. destruct (decide (x = r)) as [->|Hne].
    + rewrite sset_eq. unfold node in Hr. rewrite Hr. naive_solver.
    + by rewrite sset_ne by congruence.
Qed.

Lemma Cluster_switched st st' old new n tk :
  Cluster st -> Switched st st' old new n tk -> (forall r, primary st r -> r = old) -> Cluster st'.
Proof.
  intros [Hs Hn Hl] [[Ht _] Hnew Hold Hrest Hlist _] Ho.
  assert (forall x, primary st' x -> x = new) as Hc.
  { intros x (m & Hm & Hmp). destruct (decide (x = new)) as [|Hne]; [done|exfalso].
    destruct (decide (x = old)) as [->|Hno].
    - rewrite Hold in Hm by done. destruct (node st old); [|done]. by injection Hm as <-.
    - rewrite Hrest in Hm by done. apply Hno, Ho. by exists m. }
  split.
  - intros a b Ha%Hc Hb%Hc. congruence.
  - by rewrite Hlist.
  - intros x. rewrite Hlist, Hl. destruct (decide (x = new)) as [->|Hne].
    + rewrite Ht, Hnew. naive_solver.
    + destruct (decide (x = old)) as [->|Hno]; [|by rewrite Hrest].
      rewrite Hold by done. by rewrite fmap_is_Some.
Qed.

(** ** Properties *)

(** As long as regions register as primary only while there is none, and
    failovers name the primary they replace, at most one region is primary, and
    the list of regions names each stored region once. *)
Theorem at_most_one_primary s :
  rtc rstep empty_state s ->
  (forall a b, primary (pers s) a -> primary (pers s) b -> a = b) /\
  (forall c, exists l, get_registered_regions c s = Ok (l, s) /\ NoDup l /\
     forall r, r ∈ l <-> is_Some (node (pers s) r)).
Proof.
  intros H. assert (Cluster (pers s)) as [Hs Hn Hl].
  { revert s H. apply rtc_invariant; [apply Cluster_empty|]. intros y z _ HC Hs. revert HC.
    destruct Hs as [k c y z Ho R]. intros HC.
    destruct k; simpl in *; try (apply bind_Ok in R as (x & t & R & R2); injection R2 as <-).
    - apply register_Ok in R as (_ & Hr & Hp & E). eapply Cluster_register; try done.
      rewrite Hp. by intros ->.
    - apply heartbeat_Ok in R as (_ & n0 & Hr & Hp & _ & ->). by eapply Cluster_update.
    - unfold record_cross_region_sync in R. minv. destruct HC as [Hs Hn Hl]. split.
      + intros a b (n & Hna & ?) (m & Hm & ?). unfold node in *. rewrite sset_ne in Hna, Hm by done.
        apply Hs; eexists; eauto.
      + by rewrite sset_ne.
      + intros r. unfold node. rewrite !sset_ne by done. apply Hl.
    - apply failover_Ok in R as (_ & n & HS). by eapply Cluster_switched. }
  split; [done|]. intros c. eexists. split; [reflexivity|]. by split.
Qed.

(** A failover needs a signature and a healthy or degraded target; it makes
    the target primary, drains the region it names as the old primary, touches
    no other region, and records the target and the token. *)
Theorem failover_switches a id old new why tk c s e s' :
  initiate_failover a id old new why tk c s = Ok (e, s') ->
  cx_auth c a = true /\ exists n,
    node (pers s) new = Some n /\ can_lead (rn_health_status n) = true /\
    primary (pers s') new /\
    (old <> new -> ~ primary (pers s') old) /\
    (forall r, r <> old -> r <> new -> node (pers s') r = node (pers s) r) /\
    exists cfg, get_topology_config c s' = Ok (Some cfg, s') /\
      tg_primary_region cfg = new /\ tg_current_fencing_token cfg = tk.
Proof.
  intros R. apply failover_Ok in R as (Ha & n & [[Ht Hc] Hn Ho Hr _ (cfg & E & H)]).
  split; [done|]. exists n. split_and!; try done.
  - eexists. split; [exact Hn|done].
  - intros Hne (m & Hm & Hp). rewrite Ho in Hm by done.
    destruct (node (pers s) old); [by injection Hm as <-|done].
  - exists cfg. split; [|done]. unfold get_topology_config, pget. by rewrite E.
Qed.

(** No token is stale: whatever token is on record, a failover to a fit
    region succeeds with any other, and that one is then on record. *)
Theorem any_fencing_token_is_accepted a id old new why tk c s n :
  cx_auth c a = true -> node (pers s) new = Some n -> can_lead (rn_health_status n) = true ->
  exists e s' cfg, initiate_failover a id old new why tk c s = Ok (e, s') /\
    get_topology_config c s' = Ok (Some cfg, s') /\ tg_current_fencing_token cfg = tk.
Proof.
  intros Ha Hn Hc.
  assert (exists e s', initiate_failover a id old new why tk c s = Ok (e, s')) as (e & s' & R).
  { unfold initiate_failover, bind, require_auth. rewrite Ha. unfold pget at 1.
    unfold node in Hn. rewrite Hn. simpl. rewrite Hc. simpl.
    destruct (sget (pers s) (MultiRegionStorageKey.Region old)); simpl; eauto. }
  exists e, s'. pose proof (failover_Ok _ _ _ _ _ _ _ _ _ _ R) as (_ & m & HS).
  destruct (sw_config _ _ _ _ _ _ HS) as (cfg & E & _ & Et). exists cfg. split; [done|].
  split; [|done]. unfold get_topology_config, pget. by rewrite E.
Qed.

(** Nothing stops two regions from registering as primary. *)
Theorem two_primaries_register a r1 r2 u p w c s n s1 :
  r1 <> r2 -> node (pers s) r2 = None ->
  register_region a r1 u true w c s = Ok (n, s1) ->
  exists m s2, register_region a r2 p true w c s1 = Ok (m, s2) /\
    primary (pers s2) r1 /\ primary (pers s2) r2.
Proof.
  intros Hne H2 R. apply register_Ok in R as (Ha & _ & Hp & E).
  assert (node (pers s1) r2 = None) as H2'.
  { unfold node. rewrite E, !sset_ne by congruence. exact H2. }
  eexists _, _. split.
  { unfold register_region, bind, require_auth, phas, shas. rewrite Ha.
    unfold node in H2'. rewrite H2'. reflexivity. }
  simpl. split; eexists; unfold node.
  - rewrite !sset_ne by congruence. rewrite E, sset_ne, sset_eq by congruence. done.
  - rewrite sset_ne by done. by rewrite sset_eq.
Qed.

(** ** The properties at concrete states *)

Definition r_two : St :=
  post (do* rexec (RRegister owner "eu" [] true 50) in rexec (RRegister owner "us" [] false 50))
    (at_time 10) empty_state.
Definition r_failed : St :=
  post (rexec (RFailover owner [9] "eu" "us" "outage" 7)) (at_time 20) r_two.

Lemma r_two_reachable : rtc rstep empty_state r_two.
Proof.
  eapply rtc_l; [|apply rtc_once].
  - apply (rstep_call (RRegister owner "eu" [] true 50) (at_time 10)).
    + intros r (n & H & _). done.
    + apply (run_outcome (rexec (RRegister owner "eu" [] true 50))). vm_compute. reflexivity.
  - apply (rstep_call (RRegister owner "us" [] false 50) (at_time 10)); [done|].
    reflexivity.
Qed.

Lemma at_most_one_primary_witness :
  rtc rstep empty_state r_two /\
  (exists r, primary (pers r_two) r) /\
  (forall a b, primary (pers r_two) a -> primary (pers r_two) b -> a = b).
Proof.
  split_and!; [apply r_two_reachable| |].
  - exists "eu"%string. eexists. split; vm_compute; reflexivity.
  - apply (at_most_one_primary r_two r_two_reachable).
Defined.

Lemma failover_switches_witness :
  exists e s', initiate_failover owner [9] "eu" "us" "outage" 7 (at_time 20) r_two = Ok (e, s') /\
  primary (pers s') "us" /\ ~ primary (pers s') "eu".
Proof.
  destruct (initiate_failover owner [9] "eu" "us" "outage" 7 (at_time 20) r_two)
    as [[e s']|f] eqn:R; [|exfalso; vm_compute in R; discriminate].
  exists e, s'. split; [done|]. destruct (failover_switches _ _ _ _ _ _ _ _ _ _ R) as (_ & n & _ & _ & H & H' & _).
  split; [exact H|by apply H'].
Defined.

Lemma any_fencing_token_is_accepted_witness :
  exists cfg, get_topology_config (at_time 30) r_failed = Ok (Some cfg, r_failed) /\
  tg_current_fencing_token cfg = 7 /\
  exists e s' cfg', initiate_failover owner [9] "us" "us" "replay" 0 (at_time 30) r_failed
    = Ok (e, s') /\
  get_topology_config (at_time 30) s' = Ok (Some cfg', s') /\ tg_current_fencing_token cfg' = 0.
Proof.
  eexists. split; [vm_compute; reflexivity|]. split; [reflexivity|].
  assert (exists n, node (pers r_failed) "us" = Some n /\ can_lead (rn_health_status n) = true)
    as (n & Hn & Hc) by (eexists; split; vm_compute; reflexivity).
  by apply (any_fencing_token_is_accepted owner [9] "us" "us" "replay" 0 (at_time 30) r_failed n).
Defined.
