(* ===== verification/Incidents.v ===== *)
(** * Incidents and the circuit breaker

    The incident module of src/incident_management.rs: incidents with a
    timeline of numbered entries, the per-incident and the global circuit
    breaker, on-call schedules, escalation policies and postmortems, all in
    persistent storage; and the transition system of its state-changing
    functions.

    The second part of the file: properties of the incidents. *)

From stdpp Require Import relations.
From S2P Require Import Prelude Contract StorageLemmas Sample.

(** ** Data *)

Module IncidentError.
(** [IncidentError], src/incident_management.rs:25-48 *)
Inductive IncidentError : Set :=
  | IncidentAlreadyExists
  | IncidentNotFound
  | InvalidStatusTransition
  | UnauthorizedCommander
  | UnauthorizedOnCall
  | EscalationPolicyNotFound
  | TimelineCapacityExceeded
  | CircuitBreakerAlreadyTripped
  | CircuitBreakerNotTripped
  | PostmortemAlreadyRecorded
  | InvalidEscalationTier.
End IncidentError.
Abbreviation IncidentError := IncidentError.IncidentError.

Module IncidentSeverity.
(** [IncidentSeverity], src/incident_management.rs:55-66 *)
Inductive IncidentSeverity : Set := Critical | High | Medium | Low | Info.
End IncidentSeverity.

Module IncidentStatus.
(** [IncidentStatus], src/incident_management.rs:71-82 *)
Inductive IncidentStatus : Set := Triggered | Acknowledged | Mitigated | Resolved | Closed.
#[global] Instance IncidentStatus_eq_dec : EqDecision IncidentStatus.
Proof. solve_decision. Defined.

(** [IncidentStatus], its discriminants, src/incident_management.rs:71-82 *)
Definition rank (s : IncidentStatus) : Z :=
  match s with
  | Triggered => 1 | Acknowledged => 2 | Mitigated => 3 | Resolved => 4 | Closed => 5
  end.
End IncidentStatus.
Abbreviation IncidentStatus := IncidentStatus.IncidentStatus.

Module TimelineEntryType.
(** [TimelineEntryType], src/incident_management.rs:87-96 *)
Inductive TimelineEntryType : Set :=
  | AlertFired
  | CommanderAssigned
  | StatusChanged
  | MitigationApplied
  | NoteAdded
  | CircuitBreakerTripped
  | CircuitBreakerReset
  | Escalated.
End TimelineEntryType.
Abbreviation TimelineEntryType := TimelineEntryType.TimelineEntryType.

(** [TimelineEntry], src/incident_management.rs:100-107 *)
Record TimelineEntry := mkTimelineEntry {
  te_entry_index : Z;
  te_entry_type : TimelineEntryType;
  te_timestamp : Z;
  te_actor : Address;
  te_note : Bytes;
  te_metadata_hash : Hash }.

(** [IncidentRecord], src/incident_management.rs:111-125 *)
Record IncidentRecord := mkIncidentRecord {
  in_id : Hash;
  in_event_source : Symbol;
  in_severity : IncidentSeverity.IncidentSeverity;
  in_status : IncidentStatus;
  in_title : Bytes;
  in_description_hash : Hash;
  in_reporter : Address;
  in_commander : option Address;
  in_created_at : Z;
  in_acknowledged_at : Z;
  in_resolved_at : Z;
  in_timeline_count : Z;
  in_circuit_breaker_tripped : bool }.

(** [OnCallSchedule], src/incident_management.rs:129-137 *)
Record OnCallSchedule := mkOnCallSchedule {
  oc_team_id : Symbol;
  oc_primary_oncall : Address;
  oc_secondary_oncall : Address;
  oc_rotation_start : Z;
  oc_rotation_end : Z;
  oc_timezone_offset_minutes : Z;
  oc_escalation_policy_id : Hash }.

(** [EscalationTier], src/incident_management.rs:141-146 *)
Record EscalationTier := mkEscalationTier {
  et_tier_level : Z;
  et_timeout_minutes : Z;
  et_target_responder : Address;
  et_notification_channel : Symbol }.

(** [EscalationPolicy], src/incident_management.rs:150-155 *)
Record EscalationPolicy := mkEscalationPolicy {
  ep_policy_id : Hash;
  ep_name : Symbol;
  ep_tiers : list EscalationTier;
  ep_repeat_count : Z }.

(** [PostmortemRecord], src/incident_management.rs:159-166 *)
Record PostmortemRecord := mkPostmortemRecord {
  pm_incident_id : Hash;
  pm_root_cause_hash : Hash;
  pm_impact_summary_hash : Hash;
  pm_action_items_count : Z;
  pm_published_at : Z;
  pm_approved_by : Address }.

Module IncidentStorageKey.
(** [IncidentStorageKey], src/incident_management.rs:172-180 *)
Inductive IncidentStorageKey : Set :=
  | Incident (id : Hash)
  | Timeline (id : Hash) (index : Z)
  | OnCall (team : Symbol)
  | EscalationPolicy (id : Hash)
  | Postmortem (id : Hash)
  | ActiveIncidentCount
  | GlobalCircuitBreaker.
#[global] Instance IncidentStorageKey_eq_dec : EqDecision IncidentStorageKey.
Proof. solve_decision. Defined.
End IncidentStorageKey.
Abbreviation IncidentStorageKey := IncidentStorageKey.IncidentStorageKey.

(** ** Layout *)

Inductive IncidentTy : Set :=
  | IvIncident | IvEntry | IvOnCall | IvPolicy | IvPostmortem | IvCount | IvFlag.
#[global] Instance IncidentTy_eq_dec : EqDecision IncidentTy.
Proof. solve_decision. Defined.

Definition incident_el (t : IncidentTy) : Type :=
  match t with
  | IvIncident => IncidentRecord
  | IvEntry => TimelineEntry
  | IvOnCall => OnCallSchedule
  | IvPolicy => EscalationPolicy
  | IvPostmortem => PostmortemRecord
  | IvCount => Z
  | IvFlag => bool
  end.

Definition incident_key_ty (k : IncidentStorageKey) : IncidentTy :=
  match k with
  | IncidentStorageKey.Incident _ => IvIncident
  | IncidentStorageKey.Timeline _ _ => IvEntry
  | IncidentStorageKey.OnCall _ => IvOnCall
  | IncidentStorageKey.EscalationPolicy _ => IvPolicy
  | IncidentStorageKey.Postmortem _ => IvPostmortem
  | IncidentStorageKey.ActiveIncidentCount => IvCount
  | IncidentStorageKey.GlobalCircuitBreaker => IvFlag
  end.

Canonical incident_layout : Layout := {|
  key := IncidentStorageKey; ty := IncidentTy; el := incident_el;
  layout_key_ty := incident_key_ty;
  key_dec := _; ty_dec := _; error := IncidentError; datum := Payload |}.

#[local] Abbreviation M := (CM incident_layout).
#[local] Abbreviation store := (kvstore incident_layout).
#[local] Abbreviation St := (CSt incident_layout).

(** ** Operations *)

Definition zero_hash : Hash := replicate 32 0.

(** The fields that change after an incident was triggered. *)
Definition amend (r : IncidentRecord) (status : IncidentStatus) (commander : option Address)
    (acknowledged_at resolved_at timeline_count : Z) (tripped : bool) : IncidentRecord :=
  mkIncidentRecord (in_id r) (in_event_source r) (in_severity r) status (in_title r)
    (in_description_hash r) (in_reporter r) commander (in_created_at r) acknowledged_at
    resolved_at timeline_count tripped.

(** [trigger_incident], src/incident_management.rs:188-245 *)
Definition trigger_incident (caller : Address) (incident_id : Hash) (event_source : Symbol)
    (severity : IncidentSeverity.IncidentSeverity) (title : Bytes) (description_hash : Hash)
    : M IncidentRecord :=
  do* require_auth caller in
  let* there := phas (IncidentStorageKey.Incident incident_id) in
  do* reject_if there IncidentError.IncidentAlreadyExists in
  let* now := ledger_timestamp in
  let record := mkIncidentRecord incident_id event_source severity IncidentStatus.Triggered title
                  description_hash caller None now 0 0 1 false in
  do* pset (IncidentStorageKey.Incident incident_id) record in
  do* pset (IncidentStorageKey.Timeline incident_id 0)
        (mkTimelineEntry 0 TimelineEntryType.AlertFired now caller [] description_hash) in
  let* count := pget_or IncidentStorageKey.ActiveIncidentCount 0 in
  let* count := u32_add count 1 in
  do* pset IncidentStorageKey.ActiveIncidentCount count in
  ret record.

(** The opening lines of the other functions: the signature and the record. *)
Definition signed_incident (caller : Address) (incident_id : Hash) : M IncidentRecord :=
  do* require_auth caller in
  let* incident := pget (IncidentStorageKey.Incident incident_id) in
  unwrap_or_raise incident IncidentError.IncidentNotFound.

(** [acknowledge_incident], src/incident_management.rs:248-288 *)
Definition acknowledge_incident (commander : Address) (incident_id : Hash) (note : Bytes)
    : M IncidentRecord :=
  let* incident := signed_incident commander incident_id in
  do* reject_if (bool_decide (in_status incident <> IncidentStatus.Triggered))
        IncidentError.InvalidStatusTransition in
  let* now := ledger_timestamp in
  let entry_idx := in_timeline_count incident in
  let* timeline_count := u32_add entry_idx 1 in
  let incident := amend incident IncidentStatus.Acknowledged (Some commander) now
                    (in_resolved_at incident) timeline_count
                    (in_circuit_breaker_tripped incident) in
  do* pset (IncidentStorageKey.Incident incident_id) incident in
  do* pset (IncidentStorageKey.Timeline incident_id entry_idx)
        (mkTimelineEntry entry_idx TimelineEntryType.CommanderAssigned now commander note
           zero_hash) in
  ret incident.

(** [add_timeline_entry], src/incident_management.rs:291-328 *)
Definition add_timeline_entry (actor : Address) (incident_id : Hash)
    (entry_type : TimelineEntryType) (note : Bytes) (metadata_hash : Hash) : M TimelineEntry :=
  let* incident := signed_incident actor incident_id in
  let* now := ledger_timestamp in
  let entry_idx := in_timeline_count incident in
  do* reject_if (Z.leb 500 entry_idx) IncidentError.TimelineCapacityExceeded in
  let* timeline_count := u32_add entry_idx 1 in
  do* pset (IncidentStorageKey.Incident incident_id)
        (amend incident (in_status incident) (in_commander incident)
           (in_acknowledged_at incident) (in_resolved_at incident) timeline_count
           (in_circuit_breaker_tripped incident)) in
  let entry := mkTimelineEntry entry_idx entry_type now actor note metadata_hash in
  do* pset (IncidentStorageKey.Timeline incident_id entry_idx) entry in
  ret entry.

(** [set_circuit_breaker], src/incident_management.rs:331-380 *)
Definition set_circuit_breaker (caller : Address) (incident_id : Hash) (trip : bool)
    (reason : Bytes) : M unit :=
  let* incident := signed_incident caller incident_id in
  do* reject_if (trip && in_circuit_breaker_tripped incident)
        IncidentError.CircuitBreakerAlreadyTripped in
  do* reject_if (negb trip && negb (in_circuit_breaker_tripped incident))
        IncidentError.CircuitBreakerNotTripped in
  let* now := ledger_timestamp in
  let entry_idx := in_timeline_count incident in
  let* timeline_count := u32_add entry_idx 1 in
  do* pset (IncidentStorageKey.Incident incident_id)
        (amend incident (in_status incident) (in_commander incident)
           (in_acknowledged_at incident) (in_resolved_at incident) timeline_count trip) in
  do* pset IncidentStorageKey.GlobalCircuitBreaker trip in
  let entry_type := if trip then TimelineEntryType.CircuitBreakerTripped
                    else TimelineEntryType.CircuitBreakerReset in
  pset (IncidentStorageKey.Timeline incident_id entry_idx)
    (mkTimelineEntry entry_idx entry_type now caller reason zero_hash).

(** [resolve_incident], src/incident_management.rs:383-439 *)
Definition resolve_incident (caller : Address) (incident_id : Hash) (resolution_notes : Bytes)
    : M IncidentRecord :=
  let* incident := signed_incident caller incident_id in
  do* reject_if (bool_decide (in_status incident = IncidentStatus.Resolved)
                 || bool_decide (in_status incident = IncidentStatus.Closed))
        IncidentError.InvalidStatusTransition in
  let* now := ledger_timestamp in
  do* when (in_circuit_breaker_tripped incident)
        (pset IncidentStorageKey.GlobalCircuitBreaker false) in
  let entry_idx := in_timeline_count incident in
  let* timeline_count := u32_add entry_idx 1 in
  let incident := amend incident IncidentStatus.Resolved (in_commander incident)
                    (in_acknowledged_at incident) now timeline_count false in
  do* pset (IncidentStorageKey.Incident incident_id) incident in
  do* pset (IncidentStorageKey.Timeline incident_id entry_idx)
        (mkTimelineEntry entry_idx TimelineEntryType.StatusChanged now caller resolution_notes
           zero_hash) in
  let* count := pget_or IncidentStorageKey.ActiveIncidentCount 0 in
  do* when (Z.ltb 0 count) (pset IncidentStorageKey.ActiveIncidentCount (count - 1)) in
  ret incident.

(** [set_on_call_schedule], src/incident_management.rs:442-450 *)
Definition set_on_call_schedule (admin : Address) (schedule : OnCallSchedule) : M unit :=
  do* require_auth admin in
  pset (IncidentStorageKey.OnCall (oc_team_id schedule)) schedule.

(** [set_escalation_policy], src/incident_management.rs:453-461 *)
Definition set_escalation_policy (admin : Address) (policy : EscalationPolicy) : M unit :=
  do* require_auth admin in
  pset (IncidentStorageKey.EscalationPolicy (ep_policy_id policy)) policy.

(** [record_postmortem], src/incident_management.rs:464-486 *)
Definition record_postmortem (approver : Address) (postmortem : PostmortemRecord) : M unit :=
  let* incident := signed_incident approver (pm_incident_id postmortem) in
  let* there := phas (IncidentStorageKey.Postmortem (pm_incident_id postmortem)) in
  do* reject_if there IncidentError.PostmortemAlreadyRecorded in
  do* pset (IncidentStorageKey.Incident (pm_incident_id postmortem))
        (amend incident IncidentStatus.Closed (in_commander incident)
           (in_acknowledged_at incident) (in_resolved_at incident) (in_timeline_count incident)
           (in_circuit_breaker_tripped incident)) in
  pset (IncidentStorageKey.Postmortem (pm_incident_id postmortem)) postmortem.

(** [get_incident], src/incident_management.rs:489-492 *)
Definition get_incident (incident_id : Hash) : M (option IncidentRecord) :=
  pget (IncidentStorageKey.Incident incident_id).

(** [get_timeline_entry], src/incident_management.rs:495-502 *)
Definition get_timeline_entry (incident_id : Hash) (entry_index : Z)
    : M (option TimelineEntry) :=
  pget (IncidentStorageKey.Timeline incident_id entry_index).

(** [get_on_call_schedule], src/incident_management.rs:505-508 *)
Definition get_on_call_schedule (team_id : Symbol) : M (option OnCallSchedule) :=
  pget (IncidentStorageKey.OnCall team_id).

(** [get_escalation_policy], src/incident_management.rs:511-514 *)
Definition get_escalation_policy (policy_id : Hash) : M (option EscalationPolicy) :=
  pget (IncidentStorageKey.EscalationPolicy policy_id).

(** [get_postmortem], src/incident_management.rs:517-520 *)
Definition get_postmortem (incident_id : Hash) : M (option PostmortemRecord) :=
  pget (IncidentStorageKey.Postmortem incident_id).

(** ** The transition system *)

Inductive icall : Type :=
  | ITrigger (caller : Address) (id : Hash) (source : Symbol)
      (severity : IncidentSeverity.IncidentSeverity) (title : Bytes) (description : Hash)
  | IAcknowledge (commander : Address) (id : Hash) (note : Bytes)
  | INote (actor : Address) (id : Hash) (t : TimelineEntryType) (note : Bytes) (meta : Hash)
  | IBreaker (caller : Address) (id : Hash) (trip : bool) (reason : Bytes)
  | IResolve (caller : Address) (id : Hash) (notes : Bytes)
  | IOnCall (admin : Address) (schedule : OnCallSchedule)
  | IPolicy (admin : Address) (policy : EscalationPolicy)
  | IPostmortem (approver : Address) (postmortem : PostmortemRecord).

Definition iexec (k : icall) : M unit :=
  match k with
  | ITrigger a i e v t d => do* trigger_incident a i e v t d in ret tt
  | IAcknowledge a i n => do* acknowledge_incident a i n in ret tt
  | INote a i t n m => do* add_timeline_entry a i t n m in ret tt
  | IBreaker a i b r => set_circuit_breaker a i b r
  | IResolve a i n => do* resolve_incident a i n in ret tt
  | IOnCall a x => set_on_call_schedule a x
  | IPolicy a x => set_escalation_policy a x
  | IPostmortem a x => record_postmortem a x
  end.

Inductive istep : St -> St -> Prop :=
  | istep_call k c s s' : iexec k c s = Ok (tt, s') -> istep s s'.

(** * Properties of the incidents

    Each call adds one numbered entry to the timeline of one incident, or
    closes an incident, or leaves the incidents alone ([iexec_effect]); the
    properties of the timeline, of the status, of the circuit breaker and of
    the counter of open incidents follow. *)


(** ** The state as the functions see it *)

Definition incident (st : store) (id : Hash) : option IncidentRecord :=
  sget st (IncidentStorageKey.Incident id).
Definition entry (st : store) (id : Hash) (i : Z) : option TimelineEntry :=
  sget st (IncidentStorageKey.Timeline id i).
Definition frozen (st : store) : bool :=
  default false (sget st IncidentStorageKey.GlobalCircuitBreaker).
Definition active (st : store) : Z := default 0 (sget st IncidentStorageKey.ActiveIncidentCount).

Definition tripped (o : option IncidentRecord) : bool :=
  from_option in_circuit_breaker_tripped false o.
Definition entries (o : option IncidentRecord) : Z := from_option in_timeline_count 0 o.

(** Neither resolved nor closed. *)
Definition is_open (o : option IncidentRecord) : bool :=
  match o with
  | Some r => negb (bool_decide (in_status r = IncidentStatus.Resolved))
              && negb (bool_decide (in_status r = IncidentStatus.Closed))
  | None => false
  end.
Definition open_one (o : option IncidentRecord) : Z := if is_open o then 1 else 0.

(** ** What a call does *)

Inductive advance : option IncidentStatus -> IncidentStatus -> Prop :=
  | adv_trigger : advance None IncidentStatus.Triggered
  | adv_acknowledge : advance (Some IncidentStatus.Triggered) IncidentStatus.Acknowledged
  | adv_stay s : advance (Some s) s
  | adv_resolve s : s <> IncidentStatus.Resolved -> s <> IncidentStatus.Closed ->
      advance (Some s) IncidentStatus.Resolved
  | adv_close s : advance (Some s) IncidentStatus.Closed.

(** The fields fixed when the incident was triggered. *)
Definition same_incident (r r' : IncidentRecord) : Prop :=
  in_id r' = in_id r /\ in_severity r' = in_severity r /\ in_reporter r' = in_reporter r /\
  in_description_hash r' = in_description_hash r /\ in_created_at r' = in_created_at r.

(** Incident [id] goes from [o] to [r'] and its timeline gets an entry. *)
Record Noted (st st' : store) (id : Hash) (o : option IncidentRecord) (r' : IncidentRecord)
    : Prop := {
  nt_before : incident st id = o;
  nt_after : incident st' id = Some r';
  nt_others : forall j, j <> id -> incident st' j = incident st j;
  nt_same : forall r, o = Some r -> same_incident r r';
  nt_advance : advance (in_status <$> o) (in_status r');
  nt_count : in_timeline_count r' = entries o + 1;
  nt_entry : exists e, entry st' id (entries o) = Some e /\ te_entry_index e = entries o;
  nt_entries : forall j i, (j, i) <> (id, entries o) -> entry st' j i = entry st j i;
  nt_breaker : in_circuit_breaker_tripped r' = tripped o /\ frozen st' = frozen st \/
               frozen st' = in_circuit_breaker_tripped r' /\
               (in_circuit_breaker_tripped r' = true \/ tripped o = true);
  nt_active : active st' =
    match o with
    | None => active st + 1
    | Some _ => if is_open o && negb (is_open (Some r'))
                then if Z.ltb 0 (active st) then active st - 1 else active st
                else active st
    end }.

(** Incident [id] is closed with a postmortem. *)
Record Shut (st st' : store) (id : Hash) (r r' : IncidentRecord) : Prop := {
  sh_before : incident st id = Some r;
  sh_after : incident st' id = Some r';
  sh_others : forall j, j <> id -> incident st' j = incident st j;
  sh_same : same_incident r r';
  sh_status : in_status r' = IncidentStatus.Closed;
  sh_count : in_timeline_count r' = in_timeline_count r;
  sh_tripped : in_circuit_breaker_tripped r' = in_circuit_breaker_tripped r;
  sh_entries : forall j i, entry st' j i = entry st j i;
  sh_frozen : frozen st' = frozen st;
  sh_active : active st' = active st }.

Record Untouched (st st' : store) : Prop := {
  un_incidents : forall j, incident st' j = incident st j;
  un_entries : forall j i, entry st' j i = entry st j i;
  un_frozen : frozen st' = frozen st;
  un_active : active st' = active st }.

Lemma signed_incident_Ok a id c (s s' : St) r :
  signed_incident a id c s = Ok (r, s') ->
  cx_auth c a = true /\ incident (pers s) id = Some r /\ s' = s.
Proof. unfold signed_incident. intros R. by minv. Qed.

(** The writes of a function that notes an entry: the record, the entry and
    perhaps the flag and the counter. *)
Ltac noted :=
  split; unfold incident, entry, frozen, active; simpl; intros;
  [ try done | store_reads; reflexivity | store_reads; done
  | try (simplify_eq; done) | | done
  | eexists; split; [store_reads; reflexivity|done]
  | store_reads; done | | ].

Lemma trigger_noted a id ev sv t d c (s : St) r s' :
  trigger_incident a id ev sv t d c s = Ok (r, s') -> Noted (pers s) (pers s') id None r.
Proof.
  unfold trigger_incident. intros R. minv.
  match goal with H : shas _ _ = false |- _ => apply shas_false in H end.
  noted; try done; try by store_reads.
  - constructor.
  - left. split; [done|]. by store_reads.
Qed.

(** An open incident that stays open or a closed one leaves the counter. *)
Lemma still_open b n (m : Z) : (if b && negb b then n else m) = m.
Proof. by destruct b. Qed.

Lemma acknowledge_noted a id n c (s : St) r s' :
  acknowledge_incident a id n c s = Ok (r, s') ->
  exists r0, incident (pers s) id = Some r0 /\ Noted (pers s) (pers s') id (Some r0) r.
Proof.
  unfold acknowledge_incident. intros R. apply bind_Ok in R as (r0 & s1 & H & R).
  apply signed_incident_Ok in H as (_ & Hr & ->). minv. zcase.
  assert (in_status r0 = IncidentStatus.Triggered) as Hs by by apply dec_stable.
  exists r0. split; [done|]. noted; try done; try by store_reads.
  - rewrite Hs. constructor.
  - left. split; [done|]. by store_reads.
  - rewrite Hs. by store_reads.
Qed.

Lemma note_noted a id t n m c (s : St) e s' :
  add_timeline_entry a id t n m c s = Ok (e, s') ->
  exists r0 r, incident (pers s) id = Some r0 /\ in_timeline_count r0 < 500 /\
    Noted (pers s) (pers s') id (Some r0) r.
Proof.
  unfold add_timeline_entry. intros R. apply bind_Ok in R as (r0 & s1 & H & R).
  apply signed_incident_Ok in H as (_ & Hr & ->). minv. zcase.
  exists r0. eexists. split; [done|]. split; [lia|]. noted; try done; try by store_reads.
  - constructor.
  - left. split; [done|]. by store_reads.
  - rewrite still_open. by store_reads.
Qed.

Lemma breaker_noted a id b n c (s : St) u s' :
  set_circuit_breaker a id b n c s = Ok (u, s') ->
  exists r0 r, incident (pers s) id = Some r0 /\ in_circuit_breaker_tripped r0 = negb b /\
    in_circuit_breaker_tripped r = b /\ Noted (pers s) (pers s') id (Some r0) r.
Proof.
  unfold set_circuit_breaker. intros R. apply bind_Ok in R as (r0 & s1 & H & R).
  apply signed_incident_Ok in H as (_ & Hr & ->). minv.
  assert (in_circuit_breaker_tripped r0 = negb b) as Hb
    by (destruct b, (in_circuit_breaker_tripped r0); done).
  exists r0, (amend r0 (in_status r0) (in_commander r0) (in_acknowledged_at r0)
                (in_resolved_at r0) (in_timeline_count r0 + 1) b).
  split; [done|]. split; [done|]. split; [reflexivity|].
  noted; try done; try by store_reads.
  - constructor.
  - right. store_reads. split; [done|]. rewrite Hb. destruct b; [by left|by right].
  - rewrite still_open. by store_reads.
Qed.

Lemma resolve_noted a id n c (s : St) r s' :
  resolve_incident a id n c s = Ok (r, s') ->
  exists r0, incident (pers s) id = Some r0 /\ is_open (Some r0) = true /\
    in_status r = IncidentStatus.Resolved /\ in_circuit_breaker_tripped r = false /\
    Noted (pers s) (pers s') id (Some r0) r.
Proof.
  unfold resolve_incident. intros R. apply bind_Ok in R as (r0 & s1 & H & R).
  apply signed_incident_Ok in H as (_ & Hr & ->).
  apply bind_Ok in R as (u & s2 & H & R). apply reject_if_Ok in H as [Hs ->].
  assert (is_open (Some r0) = true) as Ho by (simpl; by rewrite <- negb_orb, Hs).
  apply orb_false_iff in Hs as [Hs1 Hs2]. apply bool_decide_eq_false in Hs1, Hs2.
  exists r0. split; [done|]. split; [done|].
  mcase; (split; [done|]; split; [done|]); noted; try done; try by store_reads.
  all: try by constructor.
  all: try (rewrite Ho; simpl).
  all: try (right; split; [done|by right]).
  all: match goal with H : Z.ltb 0 _ = _ |- _ => revert H end; store_reads;
    by destruct (sget _ IncidentStorageKey.ActiveIncidentCount); simpl; intros E; try discriminate E; try rewrite E.
Qed.

Lemma postmortem_shut a x c (s : St) u s' :
  record_postmortem a x c s = Ok (u, s') ->
  sget (pers s) (IncidentStorageKey.Postmortem (pm_incident_id x)) = None /\
  sget (pers s') (IncidentStorageKey.Postmortem (pm_incident_id x)) = Some x /\
  exists r r', Shut (pers s) (pers s') (pm_incident_id x) r r'.
Proof.
  unfold record_postmortem. intros R. apply bind_Ok in R as (r0 & s1 & H & R).
  apply signed_incident_Ok in H as (_ & Hr & ->). minv.
  match goal with H : shas _ _ = false |- _ => apply shas_false in H end.
  split; [done|]. split; [by store_reads|]. exists r0.
  exists (amend r0 IncidentStatus.Closed (in_commander r0) (in_acknowledged_at r0)
            (in_resolved_at r0) (in_timeline_count r0) (in_circuit_breaker_tripped r0)).
  split; unfold incident, entry, frozen, active; simpl; intros; try done; by store_reads.
Qed.

(** One call: an entry is noted, an incident is closed, or nothing about the
    incidents changes. *)
Lemma iexec_effect k c (s s' : St) :
  iexec k c s = Ok (tt, s') ->
  (exists id o r', Noted (pers s) (pers s') id o r') \/
  (exists a x r r', k = IPostmortem a x /\ Shut (pers s) (pers s') (pm_incident_id x) r r') \/
  Untouched (pers s) (pers s').
Proof.
  destruct k; simpl; intros R; try (apply bind_Ok in R as (r & t' & R & R2); injection R2 as <-).
  - left. eexists _, _, _. by eapply trigger_noted.
  - left. apply acknowledge_noted in R as (r0 & _ & H). by eexists _, _, _.
  - left. apply note_noted in R as (r0 & r' & _ & _ & H). by eexists _, _, _.
  - left. apply breaker_noted in R as (r0 & r' & _ & _ & _ & H). by eexists _, _, _.
  - left. apply resolve_noted in R as (r0 & _ & _ & _ & _ & H). by eexists _, _, _.
  - right. right. unfold set_on_call_schedule in R. minv.
    split; unfold incident, entry, frozen, active; intros; by store_reads.
  - right. right. unfold set_escalation_policy in R. minv.
    split; unfold incident, entry, frozen, active; intros; by store_reads.
  - right. left. apply postmortem_shut in R as (_ & _ & r & r' & H). by eexists _, _, _, _.
Qed.

(** ** Invariants *)

(** The timeline of an incident is numbered without gaps, and a tripped global
    breaker has a tripped incident. *)
Record Kept (st : store) : Prop := {
  kp_some : forall id, 0 <= entries (incident st id);
  kp_exact : forall id i, is_Some (entry st id i) <-> 0 <= i < entries (incident st id);
  kp_index : forall id i e, entry st id i = Some e -> te_entry_index e = i;
  kp_cause : frozen st = true -> exists id r,
    incident st id = Some r /\ in_circuit_breaker_tripped r = true }.


Lemma Kept_empty : Kept sempty.
Proof.
  split; unfold entry, incident, frozen; simpl; [done| |done|done].
  intros id i. split; [by intros []|lia].
Qed.

Lemma Kept_noted st st' id o r' : Kept st -> Noted st st' id o r' -> Kept st'.
Proof.
  intros [Hp He Hi Hc] [Hb Ha Ho _ _ Hn (e & Hne & Hx) Hes Hf _].
  assert (0 <= entries o) by (rewrite <- Hb; apply Hp). split.
  - intros j. destruct (decide (j = id)) as [->|Hj]; [rewrite Ha; simpl; lia|by rewrite Ho].
  - intros j i. destruct (decide ((j, i) = (id, entries o))) as [[= -> ->]|Hne'].
    + rewrite Hne, Ha. simpl. rewrite Hn. split; [lia|done].
    + rewrite Hes, He by done. destruct (decide (j = id)) as [->|Hj].
      * rewrite Ha, Hb. simpl. rewrite Hn. split; [lia|]. intros ?.
        assert (i <> entries o) by (intros ->; done). lia.
      * by rewrite Ho.
  - intros j i x Hj. destruct (decide ((j, i) = (id, entries o))) as [[= -> ->]|Hne'].
    + congruence.
    + rewrite Hes in Hj by done. by eapply Hi.
  - intros Hf'. destruct Hf as [[Ht Hf]|[Hf _]]; [|exists id, r'; split; [done|congruence]].
    rewrite Hf in Hf'. destruct (Hc Hf') as (j & r & Hj & Hjt). destruct (decide (j = id)) as [->|Hne'].
    + exists id, r'. split; [done|]. rewrite Ht, <- Hb, Hj. done.
    + exists j, r. by rewrite Ho.
Qed.

Lemma Kept_shut st st' id r r' : Kept st -> Shut st st' id r r' -> Kept st'.
Proof.
  intros [Hp He Hi Hc] [Hb Ha Ho _ _ Hn Ht Hes Hf _].
  assert (forall j, entries (incident st' j) = entries (incident st j)) as Hen.
  { intros j. destruct (decide (j = id)) as [->|Hj]; [by rewrite Ha, Hb|by rewrite Ho]. }
  split.
  - intros j. by rewrite Hen.
  - intros j i. by rewrite Hes, Hen.
  - intros j i x. rewrite Hes. apply Hi.
  - rewrite Hf. intros Hf'. destruct (Hc Hf') as (j & x & Hj & Hjt).
    destruct (decide (j = id)) as [->|Hne].
    + exists id, r'. split; [done|]. rewrite Ht. congruence.
    + exists j, x. by rewrite Ho.
Qed.

Lemma Kept_untouched st st' : Kept st -> Untouched st st' -> Kept st'.
Proof.
  intros [Hp He Hi Hc] [Hin Hen Hf _]. split.
  - intros id. by rewrite Hin.
  - intros id i. by rewrite Hen, Hin.
  - intros id i e. rewrite Hen. apply Hi.
  - rewrite Hf. intros (j & r & Hj & Ht)%Hc. exists j, r. by rewrite Hin.
Qed.

Lemma Kept_reachable s : rtc istep empty_state s -> Kept (pers s).
Proof.
  revert s. apply rtc_invariant; [apply Kept_empty|]. intros y z _ HK H. revert HK.
  destruct H as [k c y z R]. apply iexec_effect in R as
    [(id & o & r' & HN)|[(a & x & r & r' & _ & HS)|HU]]; intros HK.
  - by eapply Kept_noted.
  - by eapply Kept_shut.
  - by eapply Kept_untouched.
Qed.

(** An entry stays. *)
Lemma istep_entry s s' id i e :
  Kept (pers s) -> istep s s' -> entry (pers s) id i = Some e -> entry (pers s') id i = Some e.
Proof.
  intros HK H. revert HK. destruct H as [k c s s' R]. intros HK He. apply iexec_effect in R as
    [(j & o & r' & HN)|[(a & x & r & r' & _ & HS)|HU]].
  - rewrite (nt_entries _ _ _ _ _ HN); [done|]. intros [= -> ->].
    assert (is_Some (entry (pers s) j (entries o))) as Hs by by eexists.
    apply (kp_exact _ HK) in Hs. rewrite (nt_before _ _ _ _ _ HN) in Hs. lia.
  - by rewrite (sh_entries _ _ _ _ _ HS).
  - by rewrite (un_entries _ _ HU).
Qed.

(** An incident stays, with what was reported, and its status does not go back. *)
Definition later (r r' : IncidentRecord) : Prop :=
  same_incident r r' /\ IncidentStatus.rank (in_status r) <= IncidentStatus.rank (in_status r') /\
  in_timeline_count r <= in_timeline_count r'.

Lemma later_trans r1 r2 r3 : later r1 r2 -> later r2 r3 -> later r1 r3.
Proof. unfold later, same_incident. intros (? & ? & ?) (? & ? & ?). split; [|lia]. naive_solver congruence. Qed.

Lemma advance_rank a b : advance (Some a) b -> IncidentStatus.rank a <= IncidentStatus.rank b.
Proof. intros H. inversion H; subst; simpl; try lia; by destruct a. Qed.

Lemma istep_incident s s' id r :
  istep s s' -> incident (pers s) id = Some r ->
  exists r', incident (pers s') id = Some r' /\ later r r'.
Proof.
  intros H. destruct H as [k c s s' R]. intros Hr. apply iexec_effect in R as
    [(j & o & r' & HN)|[(a & x & r0 & r' & _ & HS)|HU]].
  - destruct HN as [Hb Ha Ho Hs Had Hn _ _ _ _]. destruct (decide (id = j)) as [->|Hne].
    + assert (o = Some r) as -> by congruence. exists r'. split; [done|].
      split; [by apply Hs|]. split; [by apply advance_rank|]. simpl in Hn. lia.
    + exists r. rewrite Ho by done. split; [done|]. split; [done|lia].
  - destruct HS as [Hb Ha Ho Hs Hst Hn _ _ _ _]. destruct (decide (id = pm_incident_id x)) as [->|Hne].
    + assert (r0 = r) as -> by congruence. exists r'. split; [done|]. split; [done|].
      rewrite Hst. split; [by destruct (in_status r)|lia].
    + exists r. rewrite Ho by done. split; [done|]. split; [done|lia].
  - exists r. rewrite (un_incidents _ _ HU). split; [done|]. split; [done|lia].
Qed.

(** ** The counter of open incidents *)

(** Postmortems are recorded for resolved incidents only. *)
Definition tidy (st : store) (k : icall) : Prop :=
  match k with
  | IPostmortem _ x => is_open (incident st (pm_incident_id x)) = false
  | _ => True
  end.

Inductive tidy_step : St -> St -> Prop :=
  | tidy_call k c s s' : tidy (pers s) k -> iexec k c s = Ok (tt, s') -> tidy_step s s'.

(** [ids] are the incidents, and the counter counts the open ones. *)
Record Counted (st : store) (ids : list Hash) : Prop := {
  cn_nodup : NoDup ids;
  cn_ids : forall id, id ∈ ids <-> is_Some (incident st id);
  cn_active : active st = total_of (fun id => open_one (incident st id)) ids }.

Lemma open_one_nonneg o : 0 <= open_one o.
Proof. unfold open_one. by destruct (is_open o). Qed.

Lemma advance_closed r s' :
  is_open (Some r) = false -> advance (Some (in_status r)) s' ->
  s' = IncidentStatus.Resolved \/ s' = IncidentStatus.Closed.
Proof.
  simpl. destruct (in_status r); try done; intros _ H; inversion H; subst; try done; auto.
Qed.

Lemma Counted_noted st st' ids id o r' :
  Counted st ids -> Noted st st' id o r' -> exists ids', Counted st' ids'.
Proof.
  intros [Hd Hi Ha] [Hb Haf Ho _ Had _ _ _ _ Hac].
  assert (forall l, id ∉ l -> total_of (fun j => open_one (incident st' j)) l
                              = total_of (fun j => open_one (incident st j)) l) as Hout.
  { intros l Hl. apply total_of_ext. intros j Hj. rewrite Ho; [done|]. by intros ->. }
  destruct o as [r|].
  - exists ids. assert (id ∈ ids) as Hin by (apply Hi; rewrite Hb; by eexists). split; [done| |].
    { intros j. rewrite Hi. destruct (decide (j = id)) as [->|Hne]; [|by rewrite Ho].
      rewrite Hb, Haf. split; intros _; by eexists. }
    assert (total_of (fun j => open_one (incident st' j)) ids
      = active st + (open_one (Some r') - open_one (Some r))) as E.
    { rewrite Ha, <- Haf, <- Hb.
      apply (total_of_update (fun j => open_one (incident st j))
               (fun j => open_one (incident st' j))); [done|done|].
      intros j Hj. by rewrite Ho. }
    pose proof (total_of_nonneg (fun j => open_one (incident st' j)) ids
                  (fun j => open_one_nonneg _)) as Hp.
    rewrite Hac, E. rewrite E in Hp. unfold open_one in *. simpl in Had.
    destruct (is_open (Some r)) eqn:Er, (is_open (Some r')) eqn:Er'; simpl; try lia.
    + zcase. destruct (Z.ltb_spec 0 (active st)); lia.
    + exfalso. simpl in Er'. by destruct (advance_closed r _ Er Had) as [E'|E']; rewrite E' in Er'.
  - exists (ids ++ [id]). assert (id ∉ ids) as Hin by (rewrite Hi, Hb; by intros []).
    split.
    + apply NoDup_app. split_and!; [done| |apply NoDup_singleton].
      by intros x Hx ->%list_elem_of_singleton.
    + intros j. rewrite elem_of_app, list_elem_of_singleton, Hi.
      destruct (decide (j = id)) as [->|Hne]; [rewrite Haf; naive_solver|rewrite Ho by done; naive_solver].
    + rewrite total_of_app, Hout by done. simpl. rewrite Hac, Ha, Haf.
      assert (in_status r' = IncidentStatus.Triggered) as Hs by by inversion Had.
      unfold open_one, is_open. rewrite Hs. simpl. lia.
Qed.

Lemma Counted_tidy s : rtc tidy_step empty_state s -> exists ids, Counted (pers s) ids.
Proof.
  revert s. apply rtc_invariant.
  { exists []. split; [constructor| |done]. intros id. split; [inversion 1|by intros []]. }
  intros y z _ HC H. revert HC. destruct H as [k c y z Ht R]. intros [ids HC].
  apply iexec_effect in R as [(id & o & r' & HN)|[(a & x & r & r' & -> & HS)|HU]].
  - by eapply Counted_noted.
  - exists ids. destruct HC as [Hd Hi Ha], HS as [Hb Haf Ho _ Hst _ _ _ _ Hac]. simpl in Ht.
    split; [done| |].
    + intros j. rewrite Hi. destruct (decide (j = pm_incident_id x)) as [->|Hne]; [|by rewrite Ho].
      rewrite Hb, Haf. split; intros _; by eexists.
    + rewrite Hac, Ha. apply total_of_ext. intros j _.
      destruct (decide (j = pm_incident_id x)) as [->|Hne]; [|by rewrite Ho].
      rewrite Haf. unfold open_one. rewrite Ht. simpl. by rewrite Hst.
  - exists ids. destruct HC as [Hd Hi Ha], HU as [Hin _ _ Hac]. split; [done| |].
    + intros j. by rewrite Hin, Hi.
    + rewrite Hac, Ha. apply total_of_ext. intros j _. by rewrite Hin.
Qed.

(** ** Properties *)

(** The timeline of an incident is complete and append-only: its entries are
    numbered from zero to the count of its record, and later calls keep each of
    them as it is. *)
Theorem timeline_is_append_only s s' c :
  rtc istep empty_state s -> rtc istep s s' ->
  (forall id i, is_Some (entry (pers s) id i) <-> 0 <= i < entries (incident (pers s) id)) /\
  (forall id i e, get_timeline_entry id i c s = Ok (Some e, s) ->
     te_entry_index e = i /\ get_timeline_entry id i c s' = Ok (Some e, s')).
Proof.
  intros H Hl. pose proof (Kept_reachable s H) as HK. split; [apply HK|].
  intros id i e R. unfold get_timeline_entry, pget in R. injection R as R.
  split; [by apply (kp_index _ HK id)|]. unfold get_timeline_entry, pget. f_equal. f_equal.
  assert (Kept (pers s') /\ entry (pers s') id i = Some e) as [_ E]; [|exact E].
  revert s' Hl. apply rtc_invariant; [by split|]. intros y z Hy [HKy Ey] Hz. split.
  - apply Kept_reachable. transitivity y; [by transitivity s|by apply rtc_once].
  - by eapply istep_entry.
Qed.

(** An incident never disappears, keeps what was reported, and its status only
    moves forward; in particular a closed incident stays closed. *)
Theorem incidents_only_advance s s' id r :
  rtc istep s s' -> incident (pers s) id = Some r ->
  exists r', incident (pers s') id = Some r' /\ later r r' /\
    (in_status r = IncidentStatus.Closed -> in_status r' = IncidentStatus.Closed).
Proof.
  intros Hl Hr.
  assert (exists r', incident (pers s') id = Some r' /\ later r r') as (r' & Hr' & HL).
  { revert s' Hl. apply rtc_invariant.
    - exists r. split; [done|]. split; [done|lia].
    - intros y z _ (r1 & H1 & L1) Hz. destruct (istep_incident _ _ _ _ Hz H1) as (r2 & H2 & L2).
      exists r2. split; [done|]. by eapply later_trans. }
  exists r'. split_and!; [done|done|]. intros Hc. destruct HL as (_ & Hk & _).
  rewrite Hc in Hk. destruct (in_status r'); simpl in Hk; try lia; done.
Qed.

(** A frozen contract has a tripped incident: the global breaker is never on
    without one. *)
Theorem frozen_has_a_cause s :
  rtc istep empty_state s -> frozen (pers s) = true ->
  exists id r, incident (pers s) id = Some r /\ in_circuit_breaker_tripped r = true.
Proof. intros H. apply (kp_cause _ (Kept_reachable s H)). Qed.

(** When postmortems are recorded for resolved incidents only, the counter of
    active incidents counts the incidents that are neither resolved nor closed,
    each once. *)
Theorem active_count_is_exact s :
  rtc tidy_step empty_state s ->
  exists ids, NoDup ids /\ (forall id, id ∈ ids <-> is_Some (incident (pers s) id)) /\
    active (pers s) = total_of (fun id => open_one (incident (pers s) id)) ids.
Proof. intros H. destruct (Counted_tidy s H) as [ids [? ? ?]]. by exists ids. Qed.

(** One breaker for all: resetting it for one tripped incident, or resolving
    that incident, thaws the contract while another incident is still tripped. *)
Theorem breaker_forgets_the_others a b caller n c s r1 r2 s' :
  a <> b -> incident (pers s) a = Some r1 -> incident (pers s) b = Some r2 ->
  in_circuit_breaker_tripped r1 = true -> in_circuit_breaker_tripped r2 = true ->
  iexec (IBreaker caller a false n) c s = Ok (tt, s') \/
  iexec (IResolve caller a n) c s = Ok (tt, s') ->
  frozen (pers s') = false /\
  exists r, incident (pers s') b = Some r /\ in_circuit_breaker_tripped r = true.
Proof.
  intros Hne Ha Hb Ta Tb R.
  assert (exists r', in_circuit_breaker_tripped r' = false /\
    Noted (pers s) (pers s') a (Some r1) r') as (r' & Tr & HN).
  { destruct R as [R|R]; simpl in R.
    - apply breaker_noted in R as (r0 & r' & Hr & _ & Ht & HN). exists r'. split; [done|].
      by replace r1 with r0 by congruence.
    - apply bind_Ok in R as (r' & t & R & R2). injection R2 as <-.
      apply resolve_noted in R as (r0 & Hr & _ & _ & Ht & HN). exists r'. split; [done|].
      by replace r1 with r0 by congruence. }
  split.
  - destruct (nt_breaker _ _ _ _ _ HN) as [[E _]|[E _]]; simpl in *; congruence.
  - exists r2. by rewrite (nt_others _ _ _ _ _ HN) by congruence.
Qed.

(** A postmortem closes an incident that nobody has resolved; the incident can
    never be resolved afterwards, so the counter goes on counting it and a
    tripped breaker is not reset. *)
Theorem postmortem_strands_open_incident approver x c s s1 s2 caller n d :
  iexec (IPostmortem approver x) c s = Ok (tt, s1) -> rtc istep s1 s2 ->
  cx_auth d caller = true ->
  active (pers s1) = active (pers s) /\ frozen (pers s1) = frozen (pers s) /\
  resolve_incident caller (pm_incident_id x) n d s2
    = Err (Raise IncidentError.InvalidStatusTransition).
Proof.
  intros R Hl Ha. simpl in R. apply postmortem_shut in R as (_ & _ & r & r' & HS).
  split; [apply HS|]. split; [apply HS|].
  destruct (incidents_only_advance s1 s2 (pm_incident_id x) r' Hl) as (r2 & H2 & _ & Hc); [apply HS|].
  specialize (Hc (sh_status _ _ _ _ _ HS)). unfold incident in H2.
  unfold resolve_incident, signed_incident, bind, require_auth, pget. rewrite Ha, H2. simpl.
  rewrite Hc. reflexivity.
Qed.

(** ** The properties at concrete states *)

Definition i_call (t : Z) (k : icall) (s : St) : St := post (iexec k) (at_time t) s.

Lemma i_call_step t k s : outcome (iexec k) (at_time t) s = Ok tt -> istep s (i_call t k s).
Proof. intros H. apply (istep_call k (at_time t)). by apply run_outcome. Qed.

(** Two incidents, both with a tripped breaker. *)
Definition i_outage : St := i_call 10
  (ITrigger alice [1] "bridge" IncidentSeverity.Critical [7] [8]) empty_state.
Definition i_both : St := i_call 11
  (ITrigger alice [2] "oracle" IncidentSeverity.High [7] [8]) i_outage.
Definition i_tripped1 : St := i_call 12 (IBreaker alice [1] true []) i_both.
Definition i_tripped : St := i_call 13 (IBreaker alice [2] true []) i_tripped1.

Lemma i_both_reachable : rtc istep empty_state i_both.
Proof. eapply rtc_l; [|apply rtc_once]; apply i_call_step; vm_compute; reflexivity. Qed.
Lemma i_tripped_later : rtc istep i_both i_tripped.
Proof. eapply rtc_l; [|apply rtc_once]; apply i_call_step; vm_compute; reflexivity. Qed.

Lemma timeline_is_append_only_witness :
  exists e, get_timeline_entry [1] 0 (at_time 20) i_both = Ok (Some e, i_both) /\
    te_entry_index e = 0 /\ get_timeline_entry [1] 0 (at_time 20) i_tripped = Ok (Some e, i_tripped).
Proof.
  eexists. assert (get_timeline_entry [1] 0 (at_time 20) i_both = Ok (Some _, i_both)) as R
    by (vm_compute; reflexivity).
  split; [exact R|].
  by apply (timeline_is_append_only i_both i_tripped (at_time 20) i_both_reachable i_tripped_later).
Defined.

Lemma incidents_only_advance_witness :
  exists r r', incident (pers i_both) [1] = Some r /\ incident (pers i_tripped) [1] = Some r' /\
    later r r'.
Proof.
  assert (exists r, incident (pers i_both) [1] = Some r) as [r Hr]
    by (eexists; vm_compute; reflexivity).
  destruct (incidents_only_advance i_both i_tripped [1] r i_tripped_later Hr) as (r' & H & L & _).
  by exists r, r'.
Defined.

Lemma frozen_has_a_cause_witness :
  frozen (pers i_tripped) = true /\
  exists id r, incident (pers i_tripped) id = Some r /\ in_circuit_breaker_tripped r = true.
Proof.
  assert (frozen (pers i_tripped) = true) as H by (vm_compute; reflexivity). split; [exact H|].
  apply (frozen_has_a_cause i_tripped); [|exact H].
  transitivity i_both; [apply i_both_reachable|apply i_tripped_later].
Defined.

Lemma active_count_is_exact_witness :
  active (pers i_both) = 2 /\
  exists ids, NoDup ids /\ (forall id, id ∈ ids <-> is_Some (incident (pers i_both) id)) /\
    active (pers i_both) = total_of (fun id => open_one (incident (pers i_both) id)) ids.
Proof.
  split; [vm_compute; reflexivity|]. apply active_count_is_exact.
  eapply rtc_l; [|apply rtc_once].
  - apply (tidy_call (ITrigger alice [1] "bridge" IncidentSeverity.Critical [7] [8]) (at_time 10));
      [done|]. apply run_outcome. vm_compute. reflexivity.
  - apply (tidy_call (ITrigger alice [2] "oracle" IncidentSeverity.High [7] [8]) (at_time 11));
      [done|]. apply run_outcome. vm_compute. reflexivity.
Defined.

Definition i_reset : St := i_call 14 (IResolve alice [1] []) i_tripped.

Lemma breaker_forgets_the_others_witness :
  frozen (pers i_tripped) = true /\ frozen (pers i_reset) = false /\
  exists r, incident (pers i_reset) [2] = Some r /\ in_circuit_breaker_tripped r = true.
Proof.
  split; [vm_compute; reflexivity|].
  assert (exists r1, incident (pers i_tripped) [1] = Some r1 /\ in_circuit_breaker_tripped r1 = true)
    as (r1 & H1 & T1) by (eexists; split; vm_compute; reflexivity).
  assert (exists r2, incident (pers i_tripped) [2] = Some r2 /\ in_circuit_breaker_tripped r2 = true)
    as (r2 & H2 & T2) by (eexists; split; vm_compute; reflexivity).
  apply (breaker_forgets_the_others [1] [2] alice [] (at_time 14) i_tripped r1 r2 i_reset); try done.
  right. apply run_outcome. vm_compute. reflexivity.
Defined.

Definition i_postmortem : PostmortemRecord := mkPostmortemRecord [2] [] [] 0 15 owner.
Definition i_closed : St := i_call 15 (IPostmortem owner i_postmortem) i_tripped.

Lemma postmortem_strands_open_incident_witness :
  active (pers i_closed) = 2 /\ frozen (pers i_closed) = true /\
  resolve_incident alice [2] [] (at_time 16) i_closed
    = Err (Raise IncidentError.InvalidStatusTransition).
Proof.
  assert (active (pers i_tripped) = 2 /\ frozen (pers i_tripped) = true) as [<- <-]
    by (split; vm_compute; reflexivity).
  apply (postmortem_strands_open_incident owner i_postmortem (at_time 15) i_tripped i_closed i_closed
           alice [] (at_time 16)); [|done|done].
  apply run_outcome. vm_compute. reflexivity.
Defined.
