(* ===== verification/Runbooks.v ===== *)
(** * Runbook executions

    The runbook module of src/runbook_automation.rs: executions with their
    steps and validations, and the operations that a live execution performs on
    the pause flag, the log cap, the schema version and the bridge relayer.

    The second part of the file: when an operation goes through and what it does
    to the controls, and what executions do. *)

From stdpp Require Import relations.
From S2P Require Import Prelude Contract StorageLemmas Sample.

(** ** Data *)

Module RunbookError.
(** [RunbookError], src/runbook_automation.rs:24-47 *)
Inductive RunbookError : Set :=
  | ExecutionAlreadyExists
  | ExecutionNotFound
  | InvalidStateTransition
  | UnauthorizedOperator
  | PreconditionFailed
  | InvalidStepSequence
  | CapIncreaseExceedsLimit
  | IncompatibleSchemaVersion
  | InvalidBridgeTarget
  | ExecutionAlreadyFinalized
  | RollbackNotAllowed.
End RunbookError.
Abbreviation RunbookError := RunbookError.RunbookError.

Module RunbookType.
(** [RunbookType], src/runbook_automation.rs:54-60 *)
Inductive RunbookType : Set := ContractPause | CapIncrease | SchemaUpdate | BridgeFailover | Custom.
End RunbookType.

Module RunbookStatus.
(** [RunbookStatus], src/runbook_automation.rs:65-73 *)
Inductive RunbookStatus : Set :=
  | Draft | Validated | PendingApproval | Executing | Completed | Failed | RolledBack.
#[global] Instance RunbookStatus_eq_dec : EqDecision RunbookStatus.
Proof. solve_decision. Defined.
End RunbookStatus.
Abbreviation RunbookStatus := RunbookStatus.RunbookStatus.

Module StepExecutionStatus.
(** [StepExecutionStatus], src/runbook_automation.rs:78-85 *)
Inductive StepExecutionStatus : Set := Pending | Running | Passed | Failed | Skipped | RolledBack.
#[global] Instance StepExecutionStatus_eq_dec : EqDecision StepExecutionStatus.
Proof. solve_decision. Defined.
End StepExecutionStatus.
Abbreviation StepExecutionStatus := StepExecutionStatus.StepExecutionStatus.

(** [RunbookStepRecord], src/runbook_automation.rs:89-97 *)
Record RunbookStepRecord := mkRunbookStepRecord {
  rs_step_id : Z;
  rs_step_name : Symbol;
  rs_target_contract : Address;
  rs_action_type : Symbol;
  rs_is_idempotent : bool;
  rs_status : StepExecutionStatus;
  rs_executed_at : Z }.

(** [RunbookExecutionRecord], src/runbook_automation.rs:101-112 *)
Record RunbookExecutionRecord := mkRunbookExecutionRecord {
  rx_runbook_id : Hash;
  rx_runbook_type : RunbookType.RunbookType;
  rx_initiated_by : Address;
  rx_started_at : Z;
  rx_completed_at : Z;
  rx_status : RunbookStatus;
  rx_total_steps : Z;
  rx_completed_steps : Z;
  rx_dry_run : bool;
  rx_parameters_hash : Hash }.

(** [RunbookValidationRecord], src/runbook_automation.rs:116-123 *)
Record RunbookValidationRecord := mkRunbookValidationRecord {
  rv_runbook_id : Hash;
  rv_is_valid : bool;
  rv_error_count : Z;
  rv_estimated_gas : Z;
  rv_validated_at : Z;
  rv_validator : Address }.

(** [BridgeFailoverState], src/runbook_automation.rs:127-133 *)
Record BridgeFailoverState := mkBridgeFailoverState {
  bf_active_bridge_relayer : Address;
  bf_backup_bridge_relayer : Address;
  bf_last_failover_seq : Z;
  bf_last_failover_time : Z;
  bf_failover_count : Z }.

Module RunbookStorageKey.
(** [RunbookStorageKey], src/runbook_automation.rs:139-148 *)
Inductive RunbookStorageKey : Set :=
  | Execution (id : Hash)
  | Step (id : Hash) (step : Z)
  | Validation (id : Hash)
  | BridgeState
  | ContractPaused
  | MaxLogCap
  | CurrentSchemaVersion
  | TotalExecutions.
#[global] Instance RunbookStorageKey_eq_dec : EqDecision RunbookStorageKey.
Proof. solve_decision. Defined.
End RunbookStorageKey.
Abbreviation RunbookStorageKey := RunbookStorageKey.RunbookStorageKey.

(** ** Layout *)

Inductive RunbookTy : Set := XvExecution | XvStep | XvValidation | XvBridge | XvFlag | XvNumber.
#[global] Instance RunbookTy_eq_dec : EqDecision RunbookTy.
Proof. solve_decision. Defined.

Definition runbook_el (t : RunbookTy) : Type :=
  match t with
  | XvExecution => RunbookExecutionRecord
  | XvStep => RunbookStepRecord
  | XvValidation => RunbookValidationRecord
  | XvBridge => BridgeFailoverState
  | XvFlag => bool
  | XvNumber => Z
  end.

Definition runbook_key_ty (k : RunbookStorageKey) : RunbookTy :=
  match k with
  | RunbookStorageKey.Execution _ => XvExecution
  | RunbookStorageKey.Step _ _ => XvStep
  | RunbookStorageKey.Validation _ => XvValidation
  | RunbookStorageKey.BridgeState => XvBridge
  | RunbookStorageKey.ContractPaused => XvFlag
  | RunbookStorageKey.MaxLogCap | RunbookStorageKey.CurrentSchemaVersion
  | RunbookStorageKey.TotalExecutions => XvNumber
  end.

Canonical runbook_layout : Layout := {|
  key := RunbookStorageKey; ty := RunbookTy; el := runbook_el; layout_key_ty := runbook_key_ty;
  key_dec := _; ty_dec := _; error := RunbookError; datum := Payload |}.

#[local] Abbreviation M := (CM runbook_layout).
#[local] Abbreviation store := (kvstore runbook_layout).
#[local] Abbreviation St := (CSt runbook_layout).

(** ** Operations *)

(** [start_execution], src/runbook_automation.rs:156-198 *)
Definition start_execution (operator : Address) (runbook_id : Hash)
    (runbook_type : RunbookType.RunbookType) (total_steps : Z) (dry_run : bool)
    (parameters_hash : Hash) : M RunbookExecutionRecord :=
  do* require_auth operator in
  let* there := phas (RunbookStorageKey.Execution runbook_id) in
  do* reject_if there RunbookError.ExecutionAlreadyExists in
  let* now := ledger_timestamp in
  let record := mkRunbookExecutionRecord runbook_id runbook_type operator now 0
                  RunbookStatus.Executing total_steps 0 dry_run parameters_hash in
  do* pset (RunbookStorageKey.Execution runbook_id) record in
  let* total := pget_or RunbookStorageKey.TotalExecutions 0 in
  let* total := u32_add total 1 in
  do* pset RunbookStorageKey.TotalExecutions total in
  ret record.

(** [validate_runbook], src/runbook_automation.rs:201-223 *)
Definition validate_runbook (validator : Address) (runbook_id : Hash) (estimated_gas : Z)
    (is_valid : bool) (error_count : Z) : M RunbookValidationRecord :=
  do* require_auth validator in
  let* now := ledger_timestamp in
  let record := mkRunbookValidationRecord runbook_id is_valid error_count estimated_gas now
                  validator in
  do* pset (RunbookStorageKey.Validation runbook_id) record in
  ret record.

(** The opening lines of the functions on an execution: the signature and the
    record. *)
Definition signed_execution (operator : Address) (runbook_id : Hash) : M RunbookExecutionRecord :=
  do* require_auth operator in
  let* exec := pget (RunbookStorageKey.Execution runbook_id) in
  unwrap_or_raise exec RunbookError.ExecutionNotFound.

(** The same for the functions that need the execution to be running. *)
Definition running_execution (operator : Address) (runbook_id : Hash) : M RunbookExecutionRecord :=
  let* exec := signed_execution operator runbook_id in
  do* reject_if (bool_decide (rx_status exec <> RunbookStatus.Executing))
        RunbookError.ExecutionAlreadyFinalized in
  ret exec.

(** The fields that change while an execution runs. *)
Definition with_progress (x : RunbookExecutionRecord) (completed_at : Z) (status : RunbookStatus)
    (completed_steps : Z) : RunbookExecutionRecord :=
  mkRunbookExecutionRecord (rx_runbook_id x) (rx_runbook_type x) (rx_initiated_by x)
    (rx_started_at x) completed_at status (rx_total_steps x) completed_steps (rx_dry_run x)
    (rx_parameters_hash x).

(** [record_step], src/runbook_automation.rs:226-272 *)
Definition record_step (operator : Address) (runbook_id : Hash) (step_id : Z) (step_name : Symbol)
    (target_contract : Address) (action_type : Symbol) (is_idempotent : bool)
    (status : StepExecutionStatus) : M RunbookStepRecord :=
  let* exec := running_execution operator runbook_id in
  let* now := ledger_timestamp in
  let step_record := mkRunbookStepRecord step_id step_name target_contract action_type
                       is_idempotent status now in
  do* pset (RunbookStorageKey.Step runbook_id step_id) step_record in
  let* exec :=
    (if bool_decide (status = StepExecutionStatus.Passed) then
       let* completed_steps := u32_add (rx_completed_steps exec) 1 in
       ret (with_progress exec (rx_completed_at exec) (rx_status exec) completed_steps)
     else if bool_decide (status = StepExecutionStatus.Failed) then
       ret (with_progress exec (rx_completed_at exec) RunbookStatus.Failed
              (rx_completed_steps exec))
     else ret exec) in
  do* pset (RunbookStorageKey.Execution runbook_id) exec in
  ret step_record.

(** [execute_contract_pause], src/runbook_automation.rs:275-299 *)
Definition execute_contract_pause (operator : Address) (runbook_id : Hash) (pause : bool)
    : M unit :=
  let* exec := running_execution operator runbook_id in
  when (negb (rx_dry_run exec)) (pset RunbookStorageKey.ContractPaused pause).

(** [execute_cap_increase], src/runbook_automation.rs:302-337 *)
Definition execute_cap_increase (operator : Address) (runbook_id : Hash) (new_max_logs : Z)
    : M unit :=
  let* exec := running_execution operator runbook_id in
  let* current_cap := pget_or RunbookStorageKey.MaxLogCap 10000 in
  let* limit := u32_mul current_cap 3 in
  do* reject_if (Z.ltb limit new_max_logs) RunbookError.CapIncreaseExceedsLimit in
  when (negb (rx_dry_run exec)) (pset RunbookStorageKey.MaxLogCap new_max_logs).

(** [execute_schema_update], src/runbook_automation.rs:340-374 *)
Definition execute_schema_update (operator : Address) (runbook_id : Hash)
    (new_schema_version : Z) : M unit :=
  let* exec := running_execution operator runbook_id in
  let* current_ver := pget_or RunbookStorageKey.CurrentSchemaVersion 1 in
  do* reject_if (Z.leb new_schema_version current_ver) RunbookError.IncompatibleSchemaVersion in
  when (negb (rx_dry_run exec)) (pset RunbookStorageKey.CurrentSchemaVersion new_schema_version).

(** [execute_bridge_failover], src/runbook_automation.rs:377-420 *)
Definition execute_bridge_failover (operator : Address) (runbook_id : Hash)
    (new_relayer : Address) (last_processed_seq : Z) : M unit :=
  let* exec := running_execution operator runbook_id in
  when (negb (rx_dry_run exec)) (
    let* state := pget_or RunbookStorageKey.BridgeState
                    (mkBridgeFailoverState operator new_relayer 0 0 0) in
    let* now := ledger_timestamp in
    let* failover_count := u32_add (bf_failover_count state) 1 in
    pset RunbookStorageKey.BridgeState
      (mkBridgeFailoverState new_relayer (bf_active_bridge_relayer state) last_processed_seq now
         failover_count)).

(** [finalize_execution], src/runbook_automation.rs:423-448 *)
Definition finalize_execution (operator : Address) (runbook_id : Hash) (success : bool)
    : M RunbookExecutionRecord :=
  let* exec := signed_execution operator runbook_id in
  let* now := ledger_timestamp in
  let exec := with_progress exec now
                (if success then RunbookStatus.Completed else RunbookStatus.Failed)
                (rx_completed_steps exec) in
  do* pset (RunbookStorageKey.Execution runbook_id) exec in
  ret exec.

(** [rollback_execution], src/runbook_automation.rs:451-476 *)
Definition rollback_execution (operator : Address) (runbook_id : Hash) (rollback_reason : Bytes)
    : M RunbookExecutionRecord :=
  let* exec := signed_execution operator runbook_id in
  do* reject_if (bool_decide (rx_status exec <> RunbookStatus.Executing)
                 && bool_decide (rx_status exec <> RunbookStatus.Failed))
        RunbookError.RollbackNotAllowed in
  let* now := ledger_timestamp in
  let exec := with_progress exec now RunbookStatus.RolledBack (rx_completed_steps exec) in
  do* pset (RunbookStorageKey.Execution runbook_id) exec in
  ret exec.

(** [get_execution], src/runbook_automation.rs:479-482 *)
Definition get_execution (runbook_id : Hash) : M (option RunbookExecutionRecord) :=
  pget (RunbookStorageKey.Execution runbook_id).

(** [get_step], src/runbook_automation.rs:485-492 *)
Definition get_step (runbook_id : Hash) (step_id : Z) : M (option RunbookStepRecord) :=
  pget (RunbookStorageKey.Step runbook_id step_id).

(** [get_bridge_failover_state], src/runbook_automation.rs:495-497 *)
Definition get_bridge_failover_state : M (option BridgeFailoverState) :=
  pget RunbookStorageKey.BridgeState.

(** ** The transition system *)

Inductive xcall : Type :=
  | XStart (op : Address) (id : Hash) (t : RunbookType.RunbookType) (steps : Z) (dry : bool)
      (params : Hash)
  | XValidate (validator : Address) (id : Hash) (gas : Z) (valid : bool) (errors : Z)
  | XStep (op : Address) (id : Hash) (step : Z) (name : Symbol) (target : Address)
      (action : Symbol) (idem : bool) (status : StepExecutionStatus)
  | XPause (op : Address) (id : Hash) (pause : bool)
  | XCap (op : Address) (id : Hash) (cap : Z)
  | XSchema (op : Address) (id : Hash) (version : Z)
  | XBridge (op : Address) (id : Hash) (relayer : Address) (seq : Z)
  | XFinalize (op : Address) (id : Hash) (success : bool)
  | XRollback (op : Address) (id : Hash) (reason : Bytes).

Definition xexec (k : xcall) : M unit :=
  match k with
  | XStart a i t n d p => do* start_execution a i t n d p in ret tt
  | XValidate a i g v e => do* validate_runbook a i g v e in ret tt
  | XStep a i n nm t ac id st => do* record_step a i n nm t ac id st in ret tt
  | XPause a i b => execute_contract_pause a i b
  | XCap a i n => execute_cap_increase a i n
  | XSchema a i n => execute_schema_update a i n
  | XBridge a i r n => execute_bridge_failover a i r n
  | XFinalize a i b => do* finalize_execution a i b in ret tt
  | XRollback a i r => do* rollback_execution a i r in ret tt
  end.

Inductive xstep : St -> St -> Prop :=
  | xstep_call k c s s' : xexec k c s = Ok (tt, s') -> xstep s s'.

(** * Properties of the runbook executions

    What the operations do to the controls - the pause flag, the log cap, the
    schema version and the bridge relayer - is specified on a record of the
    four ([apply_op]); a successful call follows that specification when its
    execution is live and leaves the controls alone otherwise. *)


(** ** The controls *)

Record Controls := mkControls {
  ct_paused : bool;
  ct_cap : Z;
  ct_version : Z;
  ct_bridge : option BridgeFailoverState }.

Definition controls (st : store) : Controls :=
  mkControls (default false (sget st RunbookStorageKey.ContractPaused))
    (default 10000 (sget st RunbookStorageKey.MaxLogCap))
    (default 1 (sget st RunbookStorageKey.CurrentSchemaVersion))
    (sget st RunbookStorageKey.BridgeState).

(** The operator and the execution of an operation. *)
Definition operation (k : xcall) : option (Address * Hash) :=
  match k with
  | XPause a i _ | XCap a i _ | XSchema a i _ | XBridge a i _ _ => Some (a, i)
  | _ => None
  end.

(** A relayer takes over from the active one, which becomes the backup; before
    the first failover the operator counts as active. *)
Definition failed_over (op relayer : Address) (seq now : Z) (b : option BridgeFailoverState)
    : BridgeFailoverState :=
  match b with
  | Some b => mkBridgeFailoverState relayer (bf_active_bridge_relayer b) seq now
                (bf_failover_count b + 1)
  | None => mkBridgeFailoverState relayer op seq now 1
  end.

(** What an operation does to the controls, and when it is refused. *)
Definition apply_op (k : xcall) (now : Z) (t : Controls) : option Controls :=
  match k with
  | XPause _ _ b => Some (mkControls b (ct_cap t) (ct_version t) (ct_bridge t))
  | XCap _ _ n => if Z.leb n (3 * ct_cap t)
                  then Some (mkControls (ct_paused t) n (ct_version t) (ct_bridge t)) else None
  | XSchema _ _ v => if Z.ltb (ct_version t) v
                     then Some (mkControls (ct_paused t) (ct_cap t) v (ct_bridge t)) else None
  | XBridge a _ r n => Some (mkControls (ct_paused t) (ct_cap t) (ct_version t)
                               (Some (failed_over a r n now (ct_bridge t))))
  | _ => Some t
  end.

Definition execution (st : store) (id : Hash) : option RunbookExecutionRecord :=
  sget st (RunbookStorageKey.Execution id).
Definition total_executions (st : store) : Z :=
  default 0 (sget st RunbookStorageKey.TotalExecutions).

(** ** Effects *)

Lemma signed_execution_Ok a id c (s s' : St) x :
  signed_execution a id c s = Ok (x, s') ->
  cx_auth c a = true /\ execution (pers s) id = Some x /\ s' = s.
Proof. unfold signed_execution. intros R. by minv. Qed.

Lemma running_execution_Ok a id c (s s' : St) x :
  running_execution a id c s = Ok (x, s') ->
  cx_auth c a = true /\ execution (pers s) id = Some x /\ rx_status x = RunbookStatus.Executing /\
  s' = s.
Proof.
  unfold running_execution. intros R. apply bind_Ok in R as (y & s1 & H & R).
  apply signed_execution_Ok in H as (? & ? & ->). minv. zcase. split_and!; try done.
  by apply dec_stable.
Qed.

(** Writes that are not to the controls. *)
Lemma controls_sset st k v :
  match k with
  | RunbookStorageKey.BridgeState | RunbookStorageKey.ContractPaused
  | RunbookStorageKey.MaxLogCap | RunbookStorageKey.CurrentSchemaVersion => False
  | _ => True
  end -> controls (sset st k v) = controls st.
Proof. intros H. unfold controls. rewrite !sset_ne by (intros ->; done). done. Qed.

(** An operation on a live or a dry execution. *)
Record Operated (k : xcall) (now : Z) (st st' : store) (x : RunbookExecutionRecord) : Prop := {
  op_running : rx_status x = RunbookStatus.Executing;
  op_allowed : exists t, apply_op k now (controls st) = Some t /\
    controls st' = if rx_dry_run x then controls st else t;
  op_executions : forall j, execution st' j = execution st j;
  op_total : total_executions st' = total_executions st }.

(** The last lines of an operation: a write unless the run is dry. *)
Lemma Operated_dry k now st x t :
  rx_status x = RunbookStatus.Executing -> rx_dry_run x = true ->
  apply_op k now (controls st) = Some t -> Operated k now st st x.
Proof. intros Hr Hd Ht. split; try done. exists t. by rewrite Hd. Qed.

Lemma Operated_write k now st x t ky v :
  rx_status x = RunbookStatus.Executing -> rx_dry_run x = false ->
  apply_op k now (controls st) = Some t -> controls (sset st ky v) = t ->
  match ky with RunbookStorageKey.Execution _ | RunbookStorageKey.TotalExecutions => False
              | _ => True end ->
  Operated k now st (sset st ky v) x.
Proof.
  intros Hr Hd Ht Hc Hk. split; [done| | |].
  - exists t. by rewrite Hd.
  - intros j. unfold execution. rewrite sset_ne; [done|]. by intros ->.
  - unfold total_executions. rewrite sset_ne; [done|]. by intros ->.
Qed.

Ltac operated :=
  unfold when in *;
  match goal with
  | H : (if negb (rx_dry_run ?x) then _ else _) _ _ = Ok _ |- _ =>
      destruct (rx_dry_run x) eqn:?; simpl in H; minv;
      [eapply Operated_dry | eapply Operated_write]; try done; simpl
  end.

Lemma operation_Ok k a id c (s s' : St) :
  operation k = Some (a, id) -> xexec k c s = Ok (tt, s') ->
  cx_auth c a = true /\ exists x, execution (pers s) id = Some x /\
  Operated k (cx_timestamp c) (pers s) (pers s') x.
Proof.
  intros Hk R. destruct k; try done; injection Hk as -> ->; simpl in R;
    [unfold execute_contract_pause in R|unfold execute_cap_increase in R
    |unfold execute_schema_update in R|unfold execute_bridge_failover in R];
    apply bind_Ok in R as (x & s1 & H & R);
    apply running_execution_Ok in H as (Ha & Hx & Hr & ->);
    (split; [done|]); exists x; (split; [done|]).
  - operated.
  - minv. zcase. operated; rewrite (proj2 (Z.leb_le _ _)) 
      by (destruct (sget _ RunbookStorageKey.MaxLogCap); simpl in *; lia); reflexivity.
  - minv. zcase. operated; rewrite (proj2 (Z.ltb_lt _ _)) 
      by (destruct (sget _ RunbookStorageKey.CurrentSchemaVersion); simpl in *; lia); reflexivity.
  - operated. by destruct (sget (pers _) RunbookStorageKey.BridgeState).
Qed.

Lemma progress_same x :
  x = with_progress x (rx_completed_at x) (rx_status x) (rx_completed_steps x).
Proof. by destruct x. Qed.

(** One execution progresses, and does not start again. *)
Definition Progressed (st st' : store) : Prop :=
  total_executions st' = total_executions st /\
  exists id x at_ status n, execution st id = Some x /\
    execution st' id = Some (with_progress x at_ status n) /\
    (forall j, j <> id -> execution st' j = execution st j) /\
    (status = RunbookStatus.Executing -> rx_status x = RunbookStatus.Executing).

Definition Started (st st' : store) : Prop :=
  total_executions st' = total_executions st + 1 /\
  exists id x, execution st id = None /\ execution st' id = Some x /\
    (forall j, j <> id -> execution st' j = execution st j).

Lemma Progressed_pset st st' id x at_ status n :
  execution st id = Some x -> (status = RunbookStatus.Executing -> rx_status x = RunbookStatus.Executing) ->
  (forall j, execution st' j = execution st j) -> total_executions st' = total_executions st ->
  Progressed st (sset st' (RunbookStorageKey.Execution id) (with_progress x at_ status n)).
Proof.
  intros Hx Hs He Ht. unfold Progressed, total_executions, execution in *. split; [by store_reads|].
  exists id, x, at_, status, n. split_and!; try done; [by store_reads|].
  intros j Hj. by rewrite sset_ne by congruence.
Qed.

(** The calls that are not operations. *)
Lemma other_calls_Ok k c (s s' : St) :
  operation k = None -> xexec k c s = Ok (tt, s') ->
  controls (pers s') = controls (pers s) /\
  (Started (pers s) (pers s') \/ Progressed (pers s) (pers s') \/
   total_executions (pers s') = total_executions (pers s) /\
   forall j, execution (pers s') j = execution (pers s) j).
Proof.
  intros Hk R. destruct k; try done; simpl in R; apply bind_Ok in R as (r & s1 & R & R2);
    injection R2 as <-.
  - unfold start_execution in R. minv.
    match goal with H : shas _ _ = false |- _ => apply shas_false in H end.
    rewrite !controls_sset by done. split; [done|]. left. unfold Started, execution, total_executions.
    split; [by store_reads|]. exists id. eexists. split; [done|]. split; [by store_reads|].
    intros j Hj. by store_reads.
  - unfold validate_runbook in R. minv. rewrite controls_sset by done. split; [done|]. right. right.
    unfold total_executions, execution. split; [by store_reads|]. intros j. by store_reads.
  - unfold record_step in R. apply bind_Ok in R as (x & s2 & H & R).
    apply running_execution_Ok in H as (Ha & Hx & Hr & ->). mcase; rewrite !controls_sset by done;
      (split; [done|]); right; left.
    3: rewrite (progress_same x) at 1.
    all: apply Progressed_pset; try done; unfold execution, total_executions; intros; by store_reads.
  - unfold finalize_execution in R. apply bind_Ok in R as (x & s2 & H & R).
    apply signed_execution_Ok in H as (Ha & Hx & ->). minv. rewrite controls_sset by done.
    split; [done|]. right. left. apply Progressed_pset; try done. by destruct success.
  - unfold rollback_execution in R. apply bind_Ok in R as (x & s2 & H & R).
    apply signed_execution_Ok in H as (Ha & Hx & ->). minv. rewrite controls_sset by done.
    split; [done|]. right. left. by apply Progressed_pset.
Qed.

(** ** Finished executions *)

(** What no call changes about an execution. *)
Definition same_execution (x x' : RunbookExecutionRecord) : Prop :=
  rx_runbook_id x' = rx_runbook_id x /\ rx_runbook_type x' = rx_runbook_type x /\
  rx_initiated_by x' = rx_initiated_by x /\ rx_started_at x' = rx_started_at x /\
  rx_total_steps x' = rx_total_steps x /\ rx_dry_run x' = rx_dry_run x /\
  rx_parameters_hash x' = rx_parameters_hash x.

(** [x'] is [x] later on: the same execution, and not restarted. *)
Definition ensues (x x' : RunbookExecutionRecord) : Prop :=
  same_execution x x' /\
  (rx_status x' = RunbookStatus.Executing -> rx_status x = RunbookStatus.Executing).

Lemma ensues_refl x : ensues x x.
Proof. done. Qed.

Lemma ensues_trans x y z : ensues x y -> ensues y z -> ensues x z.
Proof. unfold ensues, same_execution. naive_solver congruence. Qed.

Lemma xstep_execution s s' id x :
  xstep s s' -> execution (pers s) id = Some x ->
  exists x', execution (pers s') id = Some x' /\ ensues x x'.
Proof.
  intros H. destruct H as [k c s s' R]. intros Hx. destruct (operation k) as [[a i]|] eqn:Ek.
  - destruct (operation_Ok _ _ _ _ _ _ Ek R) as (_ & y & _ & HO). exists x.
    by rewrite (op_executions _ _ _ _ _ HO).
  - destruct (other_calls_Ok _ _ _ _ Ek R) as (_ & [[_ (j & y & Hn & _ & Ho)]|[[_ (j & y & at_ & st & n & Hy & Hy' & Ho & Hs)]|[_ Ho]]]).
    + exists x. rewrite Ho; [done|]. by intros ->; congruence.
    + destruct (decide (id = j)) as [->|Hne].
      * assert (y = x) as -> by congruence. eexists. split; [exact Hy'|]. by split.
      * exists x. by rewrite Ho.
    + exists x. by rewrite Ho.
Qed.

Lemma later_execution s s' id x :
  rtc xstep s s' -> execution (pers s) id = Some x ->
  exists x', execution (pers s') id = Some x' /\ ensues x x'.
Proof.
  intros Hl Hx. revert s' Hl. apply rtc_invariant; [by exists x|].
  intros y z _ (x1 & H1 & E1) Hz. destruct (xstep_execution _ _ _ _ Hz H1) as (x2 & H2 & E2).
  exists x2. split; [done|]. by eapply ensues_trans.
Qed.

(** ** Properties *)

(** The arithmetic of an operation stays within its types. *)
Definition fits (k : xcall) (t : Controls) : Prop :=
  match k with
  | XCap _ _ _ => 3 * ct_cap t <= u32_max
  | XBridge _ _ _ _ => match ct_bridge t with
                       | Some b => bf_failover_count b + 1 <= u32_max
                       | None => True
                       end
  | _ => True
  end.

Lemma running_execution_run a id c (s : St) x :
  cx_auth c a = true -> execution (pers s) id = Some x -> rx_status x = RunbookStatus.Executing ->
  running_execution a id c s = Ok (x, s).
Proof.
  intros Ha Hx Hr. unfold running_execution, signed_execution, execution in *.
  unfold bind, require_auth, pget, unwrap_or_raise, reject_if, ret. rewrite Ha, Hx. simpl.
  by rewrite Hr.
Qed.

Lemma operation_run k a id c (s : St) x t :
  operation k = Some (a, id) -> cx_auth c a = true -> execution (pers s) id = Some x ->
  rx_status x = RunbookStatus.Executing -> apply_op k (cx_timestamp c) (controls (pers s)) = Some t ->
  fits k (controls (pers s)) -> exists s', xexec k c s = Ok (tt, s').
Proof.
  intros Hk Ha Hx Hr Ht Hf. pose proof (running_execution_run a id c s x Ha Hx Hr) as R.
  destruct k; try done; injection Hk as -> ->; simpl;
    [unfold execute_contract_pause|unfold execute_cap_increase
    |unfold execute_schema_update|unfold execute_bridge_failover];
    rewrite (bind_run _ _ _ _ _ _ R); unfold when.
  - by destruct (rx_dry_run x); eexists.
  - cbn [apply_op fits] in Ht, Hf. destruct (Z.leb_spec cap (3 * ct_cap (controls (pers s)))) as [Hc|]; [|done].
    cbn [ct_cap controls] in Hc, Hf. rewrite (bind_run _ _ c s (default 10000 (sget (pers s) RunbookStorageKey.MaxLogCap)) s)
      by done.
    rewrite (bind_run _ _ c s (default 10000 (sget (pers s) RunbookStorageKey.MaxLogCap) * 3) s)
      by (apply u32_mul_Ok; split_and!; [done|lia|done]). unfold bind, reject_if.
    destruct (Z.ltb_spec (default 10000 (sget (pers s) RunbookStorageKey.MaxLogCap) * 3) cap); [lia|].
    by destruct (rx_dry_run x); eexists.
  - cbn [apply_op] in Ht.
    destruct (Z.ltb_spec (ct_version (controls (pers s))) version) as [Hv|]; [|done]. cbn [ct_version controls] in Hv.
    rewrite (bind_run _ _ c s (default 1 (sget (pers s) RunbookStorageKey.CurrentSchemaVersion)) s)
      by done. unfold bind, reject_if.
    destruct (Z.leb_spec version (default 1 (sget (pers s) RunbookStorageKey.CurrentSchemaVersion)));
      [lia|]. by destruct (rx_dry_run x); eexists.
  - destruct (rx_dry_run x); cbn [negb]; [by eexists|]. cbn [fits controls ct_bridge] in Hf.
    set (b := default (mkBridgeFailoverState a relayer 0 0 0) (sget (pers s) RunbookStorageKey.BridgeState)).
    rewrite (bind_run _ _ c s b s) by done. unfold bind at 1, ledger_timestamp.
    assert (bf_failover_count b + 1 <= u32_max) as Hb.
    { subst b. destruct (sget (pers s) RunbookStorageKey.BridgeState); [exact Hf|done]. }
    rewrite (bind_run _ _ _ _ _ _ (u32_add_run _ 1 c s Hb)). by eexists.
Qed.


(** Nobody checks who started an execution: any other address that signs for
    itself raises the cap under it, and finalizes it. *)
Theorem strangers_act_under_a_run c s a id x n :
  cx_auth c a = true -> execution (pers s) id = Some x -> rx_status x = RunbookStatus.Executing ->
  rx_initiated_by x <> a -> n <= 3 * ct_cap (controls (pers s)) <= u32_max ->
  exists s1 x2 s2, execute_cap_increase a id n c s = Ok (tt, s1) /\
    ct_cap (controls (pers s1)) = (if rx_dry_run x then ct_cap (controls (pers s)) else n) /\
    finalize_execution a id true c s1 = Ok (x2, s2) /\
    rx_status x2 = RunbookStatus.Completed /\ rx_initiated_by x2 = rx_initiated_by x.
Proof.
  intros Ha Hx Hr _ Hn.
  assert (apply_op (XCap a id n) (cx_timestamp c) (controls (pers s))
          = Some (mkControls (ct_paused (controls (pers s))) n (ct_version (controls (pers s)))
                    (ct_bridge (controls (pers s))))) as Ht
    by (cbn [apply_op]; by rewrite (proj2 (Z.leb_le _ _)) by lia).
  destruct (operation_run (XCap a id n) a id c s x _ eq_refl Ha Hx Hr Ht) as (s1 & R1);
    [cbn [fits]; lia|].
  destruct (operation_Ok _ _ _ _ _ _ (eq_refl : operation (XCap a id n) = Some (a, id)) R1)
    as (_ & y & Hy & [_ (t & Ht' & Hc) Ho _]).
  assert (y = x) as -> by congruence. rewrite Ht in Ht'. injection Ht' as <-.
  exists s1. assert (signed_execution a id c s1 = Ok (x, s1)) as R2.
  { specialize (Ho id). rewrite Hx in Ho. unfold execution in Ho.
    unfold signed_execution, bind, require_auth, pget. rewrite Ha, Ho. done. }
  eexists _, _. split; [exact R1|]. split; [rewrite Hc; by destruct (rx_dry_run x)|].
  split; [unfold finalize_execution; rewrite (bind_run _ _ _ _ _ _ R2); reflexivity|]. done.
Qed.

(** The schema version never goes back, and an operation moves the cap to at
    most three times what it was. *)
Theorem schema_version_only_grows s s' :
  rtc xstep s s' ->
  ct_version (controls (pers s)) <= ct_version (controls (pers s')) /\
  (forall s2, xstep s' s2 -> ct_cap (controls (pers s2)) <> ct_cap (controls (pers s')) ->
     ct_cap (controls (pers s2)) <= 3 * ct_cap (controls (pers s'))).
Proof.
  assert (forall k now t t', apply_op k now t = Some t' ->
    ct_version t <= ct_version t' /\ (ct_cap t' = ct_cap t \/ ct_cap t' <= 3 * ct_cap t)) as Hop.
  { intros k now t t' H. destruct k; simpl in H; repeat case_match; try done;
      injection H as <-; simpl; zcase; lia. }
  assert (forall u v, xstep u v -> ct_version (controls (pers u)) <= ct_version (controls (pers v)) /\
    (ct_cap (controls (pers v)) = ct_cap (controls (pers u)) \/
     ct_cap (controls (pers v)) <= 3 * ct_cap (controls (pers u)))) as Hstep.
  { intros u v H. destruct H as [k c u v R]. destruct (operation k) as [[a id]|] eqn:Ek.
    - destruct (operation_Ok _ _ _ _ _ _ Ek R) as (_ & x & _ & [_ (t & Ht & ->) _ _]).
      destruct (rx_dry_run x); [lia|]. by apply (Hop k (cx_timestamp c)).
    - destruct (other_calls_Ok _ _ _ _ Ek R) as [-> _]. lia. }
  intros Hl. split.
  - revert s' Hl. apply rtc_invariant; [done|]. intros y z _ Hy [Hz _]%Hstep. lia.
  - intros s2 [_ [E|E]]%Hstep; done.
Qed.

(** A finished execution never runs again: no operation and no step is accepted
    under it, whatever calls come between. *)
Theorem finished_runs_stay_finished s s' id x c a :
  rtc xstep s s' -> execution (pers s) id = Some x -> rx_status x <> RunbookStatus.Executing ->
  cx_auth c a = true ->
  (exists x', execution (pers s') id = Some x' /\ same_execution x x' /\
     rx_status x' <> RunbookStatus.Executing) /\
  (forall k, operation k = Some (a, id) ->
     xexec k c s' = Err (Raise RunbookError.ExecutionAlreadyFinalized)) /\
  (forall n nm t ac i st, record_step a id n nm t ac i st c s'
     = Err (Raise RunbookError.ExecutionAlreadyFinalized)).
Proof.
  intros Hl Hx Hs Ha. destruct (later_execution _ _ _ _ Hl Hx) as (x' & Hx' & Hsame & Hst).
  assert (rx_status x' <> RunbookStatus.Executing) as Hs' by auto.
  assert (running_execution a id c s' = Err (Raise RunbookError.ExecutionAlreadyFinalized)) as E.
  { unfold execution in Hx'. unfold running_execution, signed_execution, bind, require_auth, pget.
    rewrite Ha, Hx'. simpl. by rewrite bool_decide_true. }
  split_and!.
  - by exists x'.
  - intros k Hk. destruct k; try done; injection Hk as -> ->; by apply bind_Err.
  - intros. by apply bind_Err.
Qed.

(** Every execution is counted once. *)
Theorem executions_are_counted s :
  rtc xstep empty_state s ->
  exists ids, NoDup ids /\ (forall id, id ∈ ids <-> is_Some (execution (pers s) id)) /\
    total_executions (pers s) = len ids.
Proof.
  revert s. apply rtc_invariant.
  { exists []. split; [constructor|]. split; [|done]. intros id. split; [inversion 1|by intros []]. }
  intros y z _ HC H. revert HC. destruct H as [k c y z R]. intros (ids & Hd & Hi & Ht).
  assert ((Started (pers y) (pers z)) \/ total_executions (pers z) = total_executions (pers y) /\
    forall j, is_Some (execution (pers z) j) <-> is_Some (execution (pers y) j)) as [HS|[E Ho]].
  { destruct (operation k) as [[a i]|] eqn:Ek.
    - destruct (operation_Ok _ _ _ _ _ _ Ek R) as (_ & x & _ & [_ _ Ho Hn]). right.
      split; [done|]. intros j. by rewrite Ho.
    - destruct (other_calls_Ok _ _ _ _ Ek R) as [_ [HS|[(E & j & x & at_ & st & n & Hx & Hx' & Ho & _)|[E Ho]]]];
        [by left| |].
      + right. split; [done|]. intros i. destruct (decide (i = j)) as [->|Hne]; [|by rewrite Ho].
        rewrite Hx, Hx'. split; intros _; by eexists.
      + right. split; [done|]. intros j. by rewrite Ho. }
  - destruct HS as [E (id & x & Hn & Hx & Ho)]. exists (ids ++ [id]). split_and!.
    + apply NoDup_app. split_and!; [done| |apply NoDup_singleton].
      intros i Hin ->%list_elem_of_singleton. apply Hi in Hin. rewrite Hn in Hin. by destruct Hin.
    + intros j. rewrite elem_of_app, list_elem_of_singleton, Hi.
      destruct (decide (j = id)) as [->|Hne]; [rewrite Hx; naive_solver|rewrite Ho by done; naive_solver].
    + rewrite E, Ht. unfold len. rewrite length_app. simpl. lia.
  - exists ids. split_and!; [done| |lia]. intros j. by rewrite Hi, Ho.
Qed.

(** A rollback restores nothing - the controls are as the failed run left them -
    and is not final: the execution can be declared completed afterwards. *)
Theorem rollback_is_only_a_label a id why c s x s1 b d :
  rollback_execution a id why c s = Ok (x, s1) -> cx_auth d b = true ->
  rx_status x = RunbookStatus.RolledBack /\ controls (pers s1) = controls (pers s) /\
  exists x2 s2, finalize_execution b id true d s1 = Ok (x2, s2) /\
    rx_status x2 = RunbookStatus.Completed.
Proof.
  intros R Hb. unfold rollback_execution in R. apply bind_Ok in R as (y & s2 & H & R).
  apply signed_execution_Ok in H as (Ha & Hy & ->). minv.
  split; [done|]. split; [by apply controls_sset|]. eexists _, _. split; [|shelve].
  unfold finalize_execution, signed_execution, bind, require_auth, pget. rewrite Hb. simpl.
  rewrite sset_eq. reflexivity. Unshelve. done.
Qed.

(** ** The properties at concrete states *)

Definition x_call (t : Z) (k : xcall) (s : St) : St := post (xexec k) (at_time t) s.

Lemma x_call_step t k s : outcome (xexec k) (at_time t) s = Ok tt -> xstep s (x_call t k s).
Proof. intros H. apply (xstep_call k (at_time t)). by apply run_outcome. Qed.

(** An execution that raises the cap and then fails. *)
Definition x_start : St := x_call 10 (XStart alice [1] RunbookType.CapIncrease 1 false []) empty_state.
Definition x_raised : St := x_call 11 (XCap alice [1] 30000) x_start.
Definition x_failed : St := x_call 12 (XFinalize alice [1] false) x_raised.

Lemma x_start_reachable : rtc xstep empty_state x_start.
Proof. apply rtc_once. apply x_call_step. vm_compute. reflexivity. Qed.
Lemma x_raised_later : rtc xstep x_start x_raised.
Proof. apply rtc_once. apply x_call_step. vm_compute. reflexivity. Qed.

(** Recording one step twice counts it twice: more steps than there are. *)
Example one_step_counts_twice :
  let pass := XStep alice [1] 0 "scale" ledger "call" false StepExecutionStatus.Passed in
  option_map (fun x => (rx_total_steps x, rx_completed_steps x))
    (execution (pers (x_call 12 pass (x_call 11 pass x_start))) [1]) = Some (1, 2).
Proof. vm_compute. reflexivity. Qed.

Lemma x_start_execution :
  execution (pers x_start) [1]
  = Some (mkRunbookExecutionRecord [1] RunbookType.CapIncrease alice 10 0 RunbookStatus.Executing 1 0
            false []).
Proof. vm_compute. reflexivity. Qed.


Lemma strangers_act_under_a_run_witness :
  exists s1 x2 s2, execute_cap_increase owner [1] 20000 (at_time 11) x_start = Ok (tt, s1) /\
    finalize_execution owner [1] true (at_time 11) s1 = Ok (x2, s2) /\ rx_initiated_by x2 = alice.
Proof.
  destruct (strangers_act_under_a_run (at_time 11) x_start owner [1] _ 20000 eq_refl
              x_start_execution eq_refl) as (s1 & x2 & s2 & R1 & _ & R2 & _ & Hi).
  - discriminate.
  - vm_compute. split; discriminate.
  - exists s1, x2, s2. split; [exact R1|]. split; [exact R2|exact Hi].
Defined.

Lemma schema_version_only_grows_witness :
  ct_version (controls (pers x_start)) <= ct_version (controls (pers x_raised)).
Proof. apply (schema_version_only_grows x_start x_raised x_raised_later). Defined.

Lemma finished_runs_stay_finished_witness :
  xexec (XCap alice [1] 90000) (at_time 13) x_failed
    = Err (Raise RunbookError.ExecutionAlreadyFinalized).
Proof.
  assert (exists x, execution (pers x_failed) [1] = Some x /\ rx_status x <> RunbookStatus.Executing)
    as (x & Hx & Hs) by (eexists; split; [vm_compute; reflexivity|done]).
  by apply (finished_runs_stay_finished x_failed x_failed [1] x (at_time 13) alice (rtc_refl _ _) Hx
    Hs eq_refl).
Defined.

Lemma executions_are_counted_witness :
  exists ids, NoDup ids /\ (forall id, id ∈ ids <-> is_Some (execution (pers x_raised) id)) /\
    total_executions (pers x_raised) = len ids.
Proof.
  apply executions_are_counted. transitivity x_start; [apply x_start_reachable|apply x_raised_later].
Defined.

Lemma rollback_is_only_a_label_witness :
  exists x s1, rollback_execution alice [1] [] (at_time 13) x_failed = Ok (x, s1) /\
    ct_cap (controls (pers s1)) = 30000 /\
    exists x2 s2, finalize_execution alice [1] true (at_time 14) s1 = Ok (x2, s2) /\
      rx_status x2 = RunbookStatus.Completed.
Proof.
  destruct (rollback_execution alice [1] [] (at_time 13) x_failed) as [[x s1]|f] eqn:R;
    [|exfalso; vm_compute in R; discriminate].
  exists x, s1. split; [done|].
  destruct (rollback_is_only_a_label _ _ _ _ _ _ _ alice (at_time 14) R eq_refl) as (_ & -> & H).
  split; [vm_compute; reflexivity|exact H].
Defined.
