(* ===== verification/ReportTypes.v ===== *)
(** * Regulatory reports: data

    The types of the reporting pipeline (src/regulatory_reporting.rs), and the
    two computations its functions are: a result that may be an error, and one
    that also works on a report passed by mutable reference.

    The second part of the file: regulatory reports: generators. *)

From S2P Require Import Prelude Contract Fallible Codec.

Module RegulatoryAuthority.
(** [RegulatoryAuthority], src/regulatory_reporting.rs:23-38 *)
Inductive RegulatoryAuthority : Set := FINRA | SEC | CFTC | FCA | BaFin | MAS | MiCA.
#[global] Instance RegulatoryAuthority_eq_dec : EqDecision RegulatoryAuthority.
Proof. solve_decision. Defined.

(** [RegulatoryAuthority], its discriminants, src/regulatory_reporting.rs:23-38 *)
Definition code (a : RegulatoryAuthority) : Z :=
  match a with
  | FINRA => 0 | SEC => 1 | CFTC => 2 | FCA => 3 | BaFin => 4 | MAS => 5 | MiCA => 6
  end.

(** [name], src/regulatory_reporting.rs:42-52 *)
Definition name (a : RegulatoryAuthority) : string :=
  match a with
  | FINRA => "FINRA" | SEC => "SEC" | CFTC => "CFTC" | FCA => "FCA" | BaFin => "BaFin"
  | MAS => "MAS" | MiCA => "MiCA"
  end.

(** [jurisdiction], src/regulatory_reporting.rs:55-65 *)
Definition jurisdiction (a : RegulatoryAuthority) : string :=
  match a with
  | FINRA => "US" | SEC => "US" | CFTC => "US" | FCA => "GB" | BaFin => "DE" | MAS => "SG"
  | MiCA => "EU"
  end.

(** [all], src/regulatory_reporting.rs:68-78 *)
Definition all : list RegulatoryAuthority := [FINRA; SEC; CFTC; FCA; BaFin; MAS; MiCA].
End RegulatoryAuthority.
Abbreviation RegulatoryAuthority := RegulatoryAuthority.RegulatoryAuthority.

Module ReportFormat.
(** [ReportFormat], src/regulatory_reporting.rs:92-164 *)
Inductive ReportFormat : Set :=
  | FinraOATS | FinraCAT | FinraRule4370 | FinraSAR
  | SecFormADV | SecFormPF | SecForm13F | SecSAR | SecFormNPORT
  | CftcLargeTrader | CftcSwapData | CftcPart20 | CftcForm40
  | FcaMiFIDII | FcaEMIR | FcaSTOR | FcaCOREP
  | BaFinWpHG | BaFinMeldepflicht | BaFinAnaCredit | BaFinAML
  | MasSGX | MasTRR | MasForm610 | MasCMS
  | MiCACASP | MiCAWhitePaper | MiCAReserveAsset | MiCASignificant.
#[global] Instance ReportFormat_eq_dec : EqDecision ReportFormat.
Proof. solve_decision. Defined.

(** [ReportFormat], its discriminants, src/regulatory_reporting.rs:92-164 *)
Definition code (f : ReportFormat) : Z :=
  match f with
  | FinraOATS => 0 | FinraCAT => 1 | FinraRule4370 => 2 | FinraSAR => 3
  | SecFormADV => 10 | SecFormPF => 11 | SecForm13F => 12 | SecSAR => 13 | SecFormNPORT => 14
  | CftcLargeTrader => 20 | CftcSwapData => 21 | CftcPart20 => 22 | CftcForm40 => 23
  | FcaMiFIDII => 30 | FcaEMIR => 31 | FcaSTOR => 32 | FcaCOREP => 33
  | BaFinWpHG => 40 | BaFinMeldepflicht => 41 | BaFinAnaCredit => 42 | BaFinAML => 43
  | MasSGX => 50 | MasTRR => 51 | MasForm610 => 52 | MasCMS => 53
  | MiCACASP => 60 | MiCAWhitePaper => 61 | MiCAReserveAsset => 62 | MiCASignificant => 63
  end.
End ReportFormat.
Abbreviation ReportFormat := ReportFormat.ReportFormat.

Module ReportStatus.
(** [ReportStatus], src/regulatory_reporting.rs:174-191 *)
Inductive ReportStatus : Set :=
  | Draft | Validated | Submitted | Acknowledged | Accepted | Rejected | Cancelled | Overdue.
#[global] Instance ReportStatus_eq_dec : EqDecision ReportStatus.
Proof. solve_decision. Defined.

(** [is_terminal], src/regulatory_reporting.rs:195-200 *)
Definition is_terminal (s : ReportStatus) : bool :=
  match s with Accepted | Cancelled | Overdue => true | _ => false end.

(** [is_retryable], src/regulatory_reporting.rs:203-205 *)
Definition is_retryable (s : ReportStatus) : bool :=
  match s with Rejected => true | _ => false end.
End ReportStatus.
Abbreviation ReportStatus := ReportStatus.ReportStatus.

(** [ValidationResult], src/regulatory_reporting.rs:215-228 *)
Record ValidationResult := mkValidationResult {
  vr_passed : bool;
  vr_error_count : Z;
  vr_warning_count : Z;
  vr_errors : list Bytes;
  vr_warnings : list Bytes;
  vr_validated_at : Z }.

(** [RegulatoryReport], src/regulatory_reporting.rs:240-276 *)
Record RegulatoryReport := mkRegulatoryReport {
  rr_id : Hash;
  rr_authority : RegulatoryAuthority;
  rr_format : ReportFormat;
  rr_entity : Address;
  rr_lei : Bytes;
  rr_period_start : Z;
  rr_period_end : Z;
  rr_deadline : Z;
  rr_content : Bytes;
  rr_schema_version : Z;
  rr_status : ReportStatus;
  rr_created_at : Z;
  rr_updated_at : Z;
  rr_last_validation : option ValidationResult;
  rr_prev_report_hash : Hash;
  rr_report_hash : Hash;
  rr_source_event_ids : list Hash }.

(** [RegulatorySubmission], src/regulatory_reporting.rs:288-311 *)
Record RegulatorySubmission := mkRegulatorySubmission {
  sb_id : Hash;
  sb_report_id : Hash;
  sb_attempt : Z;
  sb_submitted_at : Z;
  sb_endpoint : Bytes;
  sb_reference_number : option Bytes;
  sb_response_code : Z;
  sb_response_payload : Bytes;
  sb_status : ReportStatus;
  sb_retry_eligible : bool;
  sb_retry_after : Z }.

(** [SubmissionAcknowledgment], src/regulatory_reporting.rs:320-339 *)
Record SubmissionAcknowledgment := mkSubmissionAcknowledgment {
  sa_id : Hash;
  sa_submission_id : Hash;
  sa_report_id : Hash;
  sa_reference_number : Bytes;
  sa_accepted : bool;
  sa_rejection_reason : Bytes;
  sa_error_codes : list Bytes;
  sa_received_at : Z;
  sa_ack_hash : Hash }.

(** [AuthorityConfig], src/regulatory_reporting.rs:348-365 *)
Record AuthorityConfig := mkAuthorityConfig {
  ac_authority : RegulatoryAuthority;
  ac_enabled : bool;
  ac_endpoint : Bytes;
  ac_credential_ref : Bytes;
  ac_max_retries : Z;
  ac_retry_delay_seconds : Z;
  ac_exponential_backoff : bool;
  ac_retention_ledgers : Z }.

(** [ReportingConfig], src/regulatory_reporting.rs:370-379 *)
Record ReportingConfig := mkReportingConfig {
  rc_entity : Address;
  rc_authority_configs : list AuthorityConfig;
  rc_pipeline_active : bool;
  rc_operator : Address }.

Module ReportAction.
(** [ReportAction], src/regulatory_reporting.rs:392-413 *)
Inductive ReportAction : Set :=
  | Generated | Validated | Submitted | AcknowledgmentReceived | Accepted | Rejected
  | Resubmitted | Cancelled | MarkedOverdue | ConfigUpdated.

(** [ReportAction], its discriminants, src/regulatory_reporting.rs:392-413 *)
Definition code (a : ReportAction) : Z :=
  match a with
  | Generated => 0 | Validated => 1 | Submitted => 2 | AcknowledgmentReceived => 3
  | Accepted => 4 | Rejected => 5 | Resubmitted => 6 | Cancelled => 7 | MarkedOverdue => 8
  | ConfigUpdated => 9
  end.
End ReportAction.
Abbreviation ReportAction := ReportAction.ReportAction.

(** [ReportingAuditEntry], src/regulatory_reporting.rs:418-437 *)
Record ReportingAuditEntry := mkReportingAuditEntry {
  ae_sequence : Z;
  ae_report_id : Hash;
  ae_action : ReportAction;
  ae_actor : Address;
  ae_timestamp : Z;
  ae_prev_entry_hash : Hash;
  ae_entry_hash : Hash;
  ae_context : Bytes;
  ae_resulting_status : ReportStatus }.

Module ReportingError.
(** [ReportingError], src/regulatory_reporting.rs:446-477 *)
Inductive ReportingError : Set :=
  | ReportNotFound
  | SubmissionNotFound
  | InvalidStatusTransition
  | ValidationFailed
  | MissingRequiredField
  | InvalidFieldValue
  | AuthorityDisabled
  | MaxRetriesExceeded
  | DeadlineExceeded
  | InvalidLEI
  | InvalidReportingPeriod
  | AcknowledgmentOrphan
  | ConfigNotFound
  | PipelinePaused
  | UnauthorizedEntity.
End ReportingError.
Abbreviation ReportingError := ReportingError.ReportingError.

(** ** Results

    A function of the pipeline returns [Result<A, ReportingError>], or works on
    a [&mut RegulatoryReport]. *)

Abbreviation RResult := (result ReportingError).
Abbreviation RM := (SM RegulatoryReport ReportingError).

(** [report.status], and [report.status = s; report.updated_at = now]. *)
Definition rm_status : RM ReportStatus := fun r => (Ok (rr_status r), r).

Definition with_status (r : RegulatoryReport) (s : ReportStatus) (now : Z) : RegulatoryReport :=
  mkRegulatoryReport (rr_id r) (rr_authority r) (rr_format r) (rr_entity r) (rr_lei r)
    (rr_period_start r) (rr_period_end r) (rr_deadline r) (rr_content r) (rr_schema_version r) s
    (rr_created_at r) now (rr_last_validation r) (rr_prev_report_hash r) (rr_report_hash r)
    (rr_source_event_ids r).
Definition rm_set_status (s : ReportStatus) (now : Z) : RM unit :=
  fun r => (Ok tt, with_status r s now).

(** * Regulatory reports: generators

    The generators of src/report_generators.rs: each assembles the content of
    one form from the common input and returns a draft report. *)

(** [ReportInput], src/report_generators.rs:27-45 *)
Record ReportInput := mkReportInput {
  ri_entity : Address;
  ri_lei : Bytes;
  ri_period_start : Z;
  ri_period_end : Z;
  ri_deadline : Z;
  ri_source_event_ids : list Hash;
  ri_extra_fields : Bytes;
  ri_prev_report_hash : Hash }.

(** The byte [\n]. *)
Definition newline : Bytes := [10].

(** [empty_validation], src/report_generators.rs:79-88 *)
Definition empty_validation (now : Z) : ValidationResult := mkValidationResult false 0 0 [] [] now.

(** [kv], src/report_generators.rs:91-98 *)
Definition kv (key value : Bytes) : Bytes := key ++ str_bytes "=" ++ value ++ newline.

Section Generators.
Context `{C : Crypto}.

(** [compute_report_id], src/report_generators.rs:53-68 *)
Definition compute_report_id (authority : RegulatoryAuthority) (format : ReportFormat)
    (entity_bytes : Bytes) (period_start period_end : Z) : Hash :=
  sha256 (u32_to_bytes (RegulatoryAuthority.code authority)
          ++ u32_to_bytes (ReportFormat.code format) ++ entity_bytes
          ++ u64_to_bytes period_start ++ u64_to_bytes period_end).

(** [compute_report_hash], src/report_generators.rs:71-76 *)
Definition compute_report_hash (prev_report_hash : Hash) (content : Bytes) : Hash :=
  sha256 (prev_report_hash ++ content).

(** The placeholder every generator passes for the bytes of the entity. *)
Definition entity_placeholder : Bytes := replicate 32 0.

(** The report around a content: the lines that follow it in each generator. *)
Definition draft (authority : RegulatoryAuthority) (format : ReportFormat) (schema_version : Z)
    (content : Bytes) (input : ReportInput) (now : Z) : RegulatoryReport :=
  mkRegulatoryReport
    (compute_report_id authority format entity_placeholder (ri_period_start input)
       (ri_period_end input))
    authority format (ri_entity input) (ri_lei input) (ri_period_start input)
    (ri_period_end input) (ri_deadline input) content schema_version ReportStatus.Draft now now
    (Some (empty_validation now)) (ri_prev_report_hash input)
    (compute_report_hash (ri_prev_report_hash input) content) (ri_source_event_ids input).

(** The content of a form: its tags, the LEI and the fields of the caller. *)
Definition form_content (authority form : string) (input : ReportInput) : Bytes :=
  kv (str_bytes "authority") (str_bytes authority) ++ kv (str_bytes "form") (str_bytes form)
  ++ kv (str_bytes "lei") (ri_lei input) ++ ri_extra_fields input.

(** [FinraGenerators::oats], src/report_generators.rs:113-157 *)
Definition oats (input : ReportInput) (now : Z) : RegulatoryReport :=
  let content :=
    kv (str_bytes "authority") (str_bytes "FINRA") ++ kv (str_bytes "form") (str_bytes "OATS")
    ++ kv (str_bytes "lei") (ri_lei input)
    ++ str_bytes "period_start=" ++ u64_to_bytes (ri_period_start input) ++ newline
    ++ ri_extra_fields input in
  draft RegulatoryAuthority.FINRA ReportFormat.FinraOATS 1 content input now.

(** [FinraGenerators::cat], src/report_generators.rs:162-200 *)
Definition cat (input : ReportInput) (now : Z) : RegulatoryReport :=
  draft RegulatoryAuthority.FINRA ReportFormat.FinraCAT 2
    (form_content "FINRA" "CAT" input) input now.

(** [FinraGenerators::rule_4370], src/report_generators.rs:203-241 *)
Definition rule_4370 (input : ReportInput) (now : Z) : RegulatoryReport :=
  draft RegulatoryAuthority.FINRA ReportFormat.FinraRule4370 1
    (form_content "FINRA" "Rule4370" input) input now.

(** [SecGenerators::form_adv], src/report_generators.rs:254-292 *)
Definition form_adv (input : ReportInput) (now : Z) : RegulatoryReport :=
  draft RegulatoryAuthority.SEC ReportFormat.SecFormADV 3
    (form_content "SEC" "ADV" input) input now.

(** [SecGenerators::form_pf], src/report_generators.rs:297-335 *)
Definition form_pf (input : ReportInput) (now : Z) : RegulatoryReport :=
  draft RegulatoryAuthority.SEC ReportFormat.SecFormPF 2
    (form_content "SEC" "PF" input) input now.

(** [SecGenerators::form_13f], src/report_generators.rs:340-378 *)
Definition form_13f (input : ReportInput) (now : Z) : RegulatoryReport :=
  draft RegulatoryAuthority.SEC ReportFormat.SecForm13F 2
    (form_content "SEC" "13F" input) input now.

(** [CftcGenerators::large_trader], src/report_generators.rs:391-429 *)
Definition large_trader (input : ReportInput) (now : Z) : RegulatoryReport :=
  draft RegulatoryAuthority.CFTC ReportFormat.CftcLargeTrader 1
    (form_content "CFTC" "LargeTrader" input) input now.

(** [CftcGenerators::swap_data], src/report_generators.rs:434-472 *)
Definition swap_data (input : ReportInput) (now : Z) : RegulatoryReport :=
  draft RegulatoryAuthority.CFTC ReportFormat.CftcSwapData 3
    (form_content "CFTC" "SwapData" input) input now.

(** [FcaGenerators::mifid_ii], src/report_generators.rs:485-523 *)
Definition mifid_ii (input : ReportInput) (now : Z) : RegulatoryReport :=
  draft RegulatoryAuthority.FCA ReportFormat.FcaMiFIDII 2
    (form_content "FCA" "MiFIDII" input) input now.

(** [FcaGenerators::emir], src/report_generators.rs:528-566 *)
Definition emir (input : ReportInput) (now : Z) : RegulatoryReport :=
  draft RegulatoryAuthority.FCA ReportFormat.FcaEMIR 3
    (form_content "FCA" "EMIR" input) input now.

(** [BaFinGenerators::wphg], src/report_generators.rs:579-617 *)
Definition wphg (input : ReportInput) (now : Z) : RegulatoryReport :=
  draft RegulatoryAuthority.BaFin ReportFormat.BaFinWpHG 1
    (form_content "BaFin" "WpHG" input) input now.

(** [BaFinGenerators::anacredit], src/report_generators.rs:622-660 *)
Definition anacredit (input : ReportInput) (now : Z) : RegulatoryReport :=
  draft RegulatoryAuthority.BaFin ReportFormat.BaFinAnaCredit 2
    (form_content "BaFin" "AnaCredit" input) input now.

(** [MasGenerators::trr], src/report_generators.rs:673-711 *)
Definition trr (input : ReportInput) (now : Z) : RegulatoryReport :=
  draft RegulatoryAuthority.MAS ReportFormat.MasTRR 1
    (form_content "MAS" "TRR" input) input now.

(** [MasGenerators::form_610], src/report_generators.rs:716-754 *)
Definition form_610 (input : ReportInput) (now : Z) : RegulatoryReport :=
  draft RegulatoryAuthority.MAS ReportFormat.MasForm610 2
    (form_content "MAS" "Form610" input) input now.

(** [MiCaGenerators::casp], src/report_generators.rs:767-805 *)
Definition casp (input : ReportInput) (now : Z) : RegulatoryReport :=
  draft RegulatoryAuthority.MiCA ReportFormat.MiCACASP 1
    (form_content "MiCA" "CASP" input) input now.

(** [MiCaGenerators::reserve_asset], src/report_generators.rs:811-849 *)
Definition reserve_asset (input : ReportInput) (now : Z) : RegulatoryReport :=
  draft RegulatoryAuthority.MiCA ReportFormat.MiCAReserveAsset 1
    (form_content "MiCA" "ReserveAsset" input) input now.

(** [MiCaGenerators::white_paper], src/report_generators.rs:854-892 *)
Definition white_paper (input : ReportInput) (now : Z) : RegulatoryReport :=
  draft RegulatoryAuthority.MiCA ReportFormat.MiCAWhitePaper 1
    (form_content "MiCA" "WhitePaper" input) input now.

(** [generate_report], src/report_generators.rs:903-974 *)
Definition generate_report (format : ReportFormat) (input : ReportInput)
    (config : AuthorityConfig) (now : Z) : RegulatoryReport :=
  match format with
  | ReportFormat.FinraOATS => oats input now
  | ReportFormat.FinraCAT => cat input now
  | ReportFormat.FinraRule4370 => rule_4370 input now
  | ReportFormat.SecFormADV => form_adv input now
  | ReportFormat.SecFormPF => form_pf input now
  | ReportFormat.SecForm13F => form_13f input now
  | ReportFormat.CftcLargeTrader => large_trader input now
  | ReportFormat.CftcSwapData => swap_data input now
  | ReportFormat.FcaMiFIDII => mifid_ii input now
  | ReportFormat.FcaEMIR => emir input now
  | ReportFormat.BaFinWpHG => wphg input now
  | ReportFormat.BaFinAnaCredit => anacredit input now
  | ReportFormat.MasTRR => trr input now
  | ReportFormat.MasForm610 => form_610 input now
  | ReportFormat.MiCACASP => casp input now
  | ReportFormat.MiCAReserveAsset => reserve_asset input now
  | ReportFormat.MiCAWhitePaper => white_paper input now
  | _ =>
      let content := kv (str_bytes "form") (str_bytes "Generic")
                     ++ kv (str_bytes "lei") (ri_lei input) ++ ri_extra_fields input in
      draft (ac_authority config) format 1 content input now
  end.
End Generators.
