(* ===== verification/ReportValidation.v ===== *)
(** * Regulatory reports: validation

    The checks of src/report_validation.rs.  A check appends its messages to
    the lists of errors and warnings. *)

From S2P Require Import Prelude Contract Fallible ReportTypes.

(** [contains_key], src/report_validation.rs:25-43 *)
Definition contains_key (haystack needle : Bytes) : bool :=
  if Z.eqb (len needle) 0 || Z.ltb (len haystack) (len needle) then false
  else existsb (fun start =>
         forallb (fun i => Z.eqb (default 0 (vget haystack (start + i))) (default 0 (vget needle i)))
           (range 0 (len needle)))
       (range 0 (len haystack - len needle + 1)).

(** [push_err], src/report_validation.rs:46-48 *)
Definition push_err (errors : list Bytes) (msg : string) : list Bytes := errors ++ [str_bytes msg].

(** [push_warn], src/report_validation.rs:51-53 *)
Definition push_warn (warnings : list Bytes) (msg : string) : list Bytes :=
  warnings ++ [str_bytes msg].

(** [u8::is_ascii_alphanumeric] of the Rust standard library. *)
Definition is_ascii_alphanumeric (b : Z) : bool :=
  (Z.leb 48 b && Z.leb b 57) || (Z.leb 65 b && Z.leb b 90) || (Z.leb 97 b && Z.leb b 122).

(** [validate_lei], src/report_validation.rs:60-72 *)
Definition validate_lei (report : RegulatoryReport) (errors : list Bytes) : list Bytes :=
  if negb (Z.eqb (len (rr_lei report)) 20)
  then push_err errors "lei: must be exactly 20 characters (ISO 17442)"
  else if forallb (fun i => is_ascii_alphanumeric (default 0 (vget (rr_lei report) i))) (range 0 20)
  then errors
  else push_err errors "lei: must contain only ASCII alphanumeric characters".

(** [validate_period], src/report_validation.rs:75-83 *)
Definition validate_period (report : RegulatoryReport) (errors : list Bytes) : list Bytes :=
  if Z.leb (rr_period_end report) (rr_period_start report)
  then push_err errors "period: period_start must be strictly before period_end"
  else errors.

(** [validate_deadline], src/report_validation.rs:86-94 *)
Definition validate_deadline (report : RegulatoryReport) (errors : list Bytes) : list Bytes :=
  if Z.ltb (rr_deadline report) (rr_period_end report)
  then push_err errors "deadline: must not be earlier than period_end"
  else errors.

(** [validate_content_nonempty], src/report_validation.rs:97-101 *)
Definition validate_content_nonempty (report : RegulatoryReport) (errors : list Bytes)
    : list Bytes :=
  match rr_content report with
  | [] => push_err errors "content: report payload must not be empty"
  | _ => errors
  end.

(** [validate_authority_tag], src/report_validation.rs:104-117 *)
Definition validate_authority_tag (report : RegulatoryReport) (expected : string)
    (errors : list Bytes) : list Bytes :=
  if negb (contains_key (rr_content report) (str_bytes expected))
  then push_err errors "content: missing or incorrect authority tag"
  else errors.

(** [require_keys], src/report_validation.rs:123-138 *)
Definition require_keys (content : Bytes) (keys : list string) (errors : list Bytes) : list Bytes :=
  fold_left (fun errors key =>
      if negb (contains_key content (str_bytes key ++ str_bytes "="))
      then errors ++ [str_bytes "content: missing required field: " ++ str_bytes key]
      else errors)
    keys errors.

(** A check: the errors and the warnings so far, and those with its own. *)
Definition Notes : Type := list Bytes * list Bytes.

(** [validate_finra], src/report_validation.rs:144-186 *)
Definition validate_finra (report : RegulatoryReport) (notes : Notes) : Notes :=
  let '(errors, warnings) := notes in
  let errors := validate_authority_tag report "authority=FINRA" errors in
  match rr_format report with
  | ReportFormat.FinraOATS =>
      let errors := require_keys (rr_content report)
        ["mpid"; "order_count"; "route_count"] errors in
      (errors, warnings)
  | ReportFormat.FinraCAT =>
      let errors := require_keys (rr_content report)
        ["mpid"; "cat_reporter_id"; "event_count"] errors in
      (errors, if Z.ltb (rr_schema_version report) 2
               then push_warn warnings "finra-cat: schema_version < 2 is deprecated" else warnings)
  | ReportFormat.FinraRule4370 =>
      let errors := require_keys (rr_content report)
        ["bcp_version"; "emergency_contacts"] errors in
      (errors, warnings)
  | ReportFormat.FinraSAR =>
      let errors := require_keys (rr_content report)
        ["sar_type"; "suspicious_activity_type"; "amount"] errors in
      (errors, warnings)
  | _ => (errors, push_warn warnings "finra: unrecognised format for this authority")
  end.

(** [validate_sec], src/report_validation.rs:188-247 *)
Definition validate_sec (report : RegulatoryReport) (notes : Notes) : Notes :=
  let '(errors, warnings) := notes in
  let errors := validate_authority_tag report "authority=SEC" errors in
  match rr_format report with
  | ReportFormat.SecFormADV =>
      let errors := require_keys (rr_content report)
        ["adviser_name"; "aum_usd"; "client_count"] errors in
      (errors, if contains_key (rr_content report) (str_bytes "aum_usd=0")
               then push_warn warnings "sec-adv: aum_usd=0 may indicate missing data" else warnings)
  | ReportFormat.SecFormPF =>
      let errors := require_keys (rr_content report)
        ["fund_count"; "nav_usd"; "strategy_type"] errors in
      (errors, if Z.ltb (rr_schema_version report) 2
               then push_warn warnings "sec-pf: schema_version < 2 is outdated" else warnings)
  | ReportFormat.SecForm13F =>
      let errors := require_keys (rr_content report)
        ["cusip_count"; "total_value_usd"; "confidential_treatment"] errors in
      (errors, warnings)
  | ReportFormat.SecFormNPORT =>
      let errors := require_keys (rr_content report)
        ["fund_name"; "total_assets"; "net_assets"] errors in
      (errors, warnings)
  | ReportFormat.SecSAR =>
      let errors := require_keys (rr_content report)
        ["sar_number"; "filing_institution"; "suspicious_amount"] errors in
      (errors, warnings)
  | _ => (errors, push_warn warnings "sec: unrecognised format for this authority")
  end.

(** [validate_cftc], src/report_validation.rs:249-293 *)
Definition validate_cftc (report : RegulatoryReport) (notes : Notes) : Notes :=
  let '(errors, warnings) := notes in
  let errors := validate_authority_tag report "authority=CFTC" errors in
  match rr_format report with
  | ReportFormat.CftcLargeTrader =>
      let errors := require_keys (rr_content report)
        ["commodity"; "position_long"; "position_short"; "special_account"] errors in
      (errors, warnings)
  | ReportFormat.CftcSwapData =>
      let errors := require_keys (rr_content report)
        ["swap_type"; "notional_usd"; "counterparty_lei"; "uti"] errors in
      (errors, warnings)
  | ReportFormat.CftcPart20 =>
      let errors := require_keys (rr_content report)
        ["commodity_contract"; "position_size"; "account_controller"] errors in
      (errors, warnings)
  | ReportFormat.CftcForm40 =>
      let errors := require_keys (rr_content report)
        ["trader_id"; "position_commodity"; "exchange_code"] errors in
      (errors, warnings)
  | _ => (errors, push_warn warnings "cftc: unrecognised format for this authority")
  end.

(** [validate_fca], src/report_validation.rs:295-340 *)
Definition validate_fca (report : RegulatoryReport) (notes : Notes) : Notes :=
  let '(errors, warnings) := notes in
  let errors := validate_authority_tag report "authority=FCA" errors in
  match rr_format report with
  | ReportFormat.FcaMiFIDII =>
      let errors := require_keys (rr_content report)
        ["isin"; "quantity"; "price"; "venue_mic"; "executing_entity_id"] errors in
      (errors, warnings)
  | ReportFormat.FcaEMIR =>
      let errors := require_keys (rr_content report)
        ["trade_id"; "asset_class"; "notional_eur"; "counterparty_lei"] errors in
      (errors, warnings)
  | ReportFormat.FcaSTOR =>
      let errors := require_keys (rr_content report)
        ["instrument_id"; "suspicious_behaviour"; "reporting_date"] errors in
      (errors, warnings)
  | ReportFormat.FcaCOREP =>
      let errors := require_keys (rr_content report)
        ["capital_ratio"; "tier1_capital"; "rwa_total"] errors in
      (errors, warnings)
  | _ => (errors, push_warn warnings "fca: unrecognised format for this authority")
  end.

(** [validate_bafin], src/report_validation.rs:342-386 *)
Definition validate_bafin (report : RegulatoryReport) (notes : Notes) : Notes :=
  let '(errors, warnings) := notes in
  let errors := validate_authority_tag report "authority=BaFin" errors in
  match rr_format report with
  | ReportFormat.BaFinWpHG =>
      let errors := require_keys (rr_content report)
        ["isin"; "voting_rights_pct"; "threshold_crossed"; "direction"] errors in
      (errors, warnings)
  | ReportFormat.BaFinMeldepflicht =>
      let errors := require_keys (rr_content report)
        ["instrument_type"; "notification_reason"; "holding_pct"] errors in
      (errors, warnings)
  | ReportFormat.BaFinAnaCredit =>
      let errors := require_keys (rr_content report)
        ["loan_count"; "total_exposure_eur"; "credit_facility_type"] errors in
      (errors, warnings)
  | ReportFormat.BaFinAML =>
      let errors := require_keys (rr_content report)
        ["aml_report_type"; "suspicious_amount_eur"; "reporting_entity_lei"] errors in
      (errors, warnings)
  | _ => (errors, push_warn warnings "bafin: unrecognised format for this authority")
  end.

(** [validate_mas], src/report_validation.rs:388-432 *)
Definition validate_mas (report : RegulatoryReport) (notes : Notes) : Notes :=
  let '(errors, warnings) := notes in
  let errors := validate_authority_tag report "authority=MAS" errors in
  match rr_format report with
  | ReportFormat.MasSGX =>
      let errors := require_keys (rr_content report)
        ["sgx_account_id"; "security_code"; "net_position"] errors in
      (errors, warnings)
  | ReportFormat.MasTRR =>
      let errors := require_keys (rr_content report)
        ["product_type"; "notional_sgd"; "counterparty_lei"; "uti"] errors in
      (errors, warnings)
  | ReportFormat.MasForm610 =>
      let errors := require_keys (rr_content report)
        ["balance_sheet_total_sgd"; "loan_book_sgd"; "npl_ratio"] errors in
      (errors, warnings)
  | ReportFormat.MasCMS =>
      let errors := require_keys (rr_content report)
        ["licence_number"; "regulated_activity"; "client_assets_sgd"] errors in
      (errors, warnings)
  | _ => (errors, push_warn warnings "mas: unrecognised format for this authority")
  end.

(** [validate_mica], src/report_validation.rs:434-489 *)
Definition validate_mica (report : RegulatoryReport) (notes : Notes) : Notes :=
  let '(errors, warnings) := notes in
  let errors := validate_authority_tag report "authority=MiCA" errors in
  match rr_format report with
  | ReportFormat.MiCACASP =>
      let errors := require_keys (rr_content report)
        ["service_type"; "user_count"; "transaction_volume_eur"; "countries_served"] errors in
      (errors, warnings)
  | ReportFormat.MiCAWhitePaper =>
      let errors := require_keys (rr_content report)
        ["asset_name"; "asset_class"; "offer_type"; "issuer_country"] errors in
      (errors, warnings)
  | ReportFormat.MiCAReserveAsset =>
      let errors := require_keys (rr_content report)
        ["token_symbol"; "tokens_outstanding"; "reserve_value_eur"; "reserve_composition"; "custodian_lei"] errors in
      (if negb (contains_key (rr_content report) (str_bytes "custodian_lei="))
       then push_err errors "mica-reserve: custodian_lei is required" else errors, warnings)
  | ReportFormat.MiCASignificant =>
      let errors := require_keys (rr_content report)
        ["casp_id"; "enhanced_obligations_reason"; "supervisory_authority"] errors in
      (errors, warnings)
  | _ => (errors, push_warn warnings "mica: unrecognised format for this authority")
  end.

(** The checks of the authority of the report: layer 2 of [validate_report],
    src/report_validation.rs:511-519 *)
Definition validate_authority (report : RegulatoryReport) (notes : Notes) : Notes :=
  match rr_authority report with
  | RegulatoryAuthority.FINRA => validate_finra report notes
  | RegulatoryAuthority.SEC => validate_sec report notes
  | RegulatoryAuthority.CFTC => validate_cftc report notes
  | RegulatoryAuthority.FCA => validate_fca report notes
  | RegulatoryAuthority.BaFin => validate_bafin report notes
  | RegulatoryAuthority.MAS => validate_mas report notes
  | RegulatoryAuthority.MiCA => validate_mica report notes
  end.

(** [validate_report], src/report_validation.rs:500-542 *)
Definition validate_report (report : RegulatoryReport) (now : Z) : ValidationResult :=
  let errors := validate_lei report [] in
  let errors := validate_period report errors in
  let errors := validate_deadline report errors in
  let errors := validate_content_nonempty report errors in
  let '(errors, warnings) := validate_authority report (errors, []) in
  let warnings :=
    if Z.ltb (rr_deadline report) (rr_period_end report)
    then push_warn warnings
           "deadline: period_end is after the submission deadline - review urgently"
    else warnings in
  mkValidationResult (Z.eqb (len errors) 0) (len errors) (len warnings) errors warnings now.
