(* ===== verification/ReportTracker.v ===== *)
(** * Regulatory reports: submission

    The lifecycle of a report (src/submission_tracker.rs): the transition
    guard, submissions with their retry delays, acknowledgments, and the
    functions that move a report through its states.

    The second part of the file: regulatory reports: audit trail. *)

From S2P Require Import Prelude Contract Fallible Codec ReportTypes.

(** [check_transition], src/submission_tracker.rs:41-60 *)
Definition check_transition (current next : ReportStatus) : RResult unit :=
  let allowed :=
    match current with
    | ReportStatus.Draft =>
        match next with ReportStatus.Validated | ReportStatus.Cancelled => true | _ => false end
    | ReportStatus.Validated =>
        match next with ReportStatus.Submitted | ReportStatus.Cancelled => true | _ => false end
    | ReportStatus.Submitted =>
        match next with
        | ReportStatus.Acknowledged | ReportStatus.Rejected | ReportStatus.Cancelled
        | ReportStatus.Overdue => true
        | _ => false
        end
    | ReportStatus.Acknowledged =>
        match next with
        | ReportStatus.Accepted | ReportStatus.Rejected | ReportStatus.Cancelled => true
        | _ => false
        end
    | ReportStatus.Rejected =>
        match next with ReportStatus.Submitted | ReportStatus.Cancelled => true | _ => false end
    | ReportStatus.Accepted | ReportStatus.Cancelled | ReportStatus.Overdue => false
    end in
  if allowed then Ok tt else Err (Raise ReportingError.InvalidStatusTransition).

(** What the tracker calls and the repository does not define: [sha256], and
    [saturating_shl] of [u64], a method that the Rust standard library does not
    have. *)
Section Tracker.
Context `{C : Crypto} (saturating_shl : Z -> Z -> Z).

(** [compute_submission_id], src/submission_tracker.rs:67-72 *)
Definition compute_submission_id (report_id : Hash) (attempt : Z) : Hash :=
  sha256 (report_id ++ u32_to_bytes attempt).

(** [create_submission], src/submission_tracker.rs:75-125 *)
Definition create_submission (report : RegulatoryReport) (attempt : Z) (config : AuthorityConfig)
    (now : Z) : RResult RegulatorySubmission :=
  do? fail_if (bool_decide (rr_status report = ReportStatus.Draft))
        ReportingError.InvalidStatusTransition in
  do? fail_if (negb (ac_enabled config)) ReportingError.AuthorityDisabled in
  do? fail_if (Z.ltb (rr_deadline report) now) ReportingError.DeadlineExceeded in
  do? fail_if (Z.ltb (ac_max_retries config) attempt) ReportingError.MaxRetriesExceeded in
  let? retry_after :=
    (if Z.ltb 1 attempt then
       let base := ac_retry_delay_seconds config in
       if ac_exponential_backoff config then
         let factor := saturating_shl 1 (attempt - 1) in
         u64_plus now (Z.min (u64_sat_mul base factor) 86400)
       else u64_plus now base
     else Ok 0) in
  Ok (mkRegulatorySubmission (compute_submission_id (rr_id report) attempt) (rr_id report) attempt
        now (ac_endpoint config) None 0 [] ReportStatus.Submitted
        (Z.ltb attempt (ac_max_retries config)) retry_after).

(** [compute_ack_id], src/submission_tracker.rs:132-137 *)
Definition compute_ack_id (submission_id : Hash) (received_at : Z) : Hash :=
  sha256 (submission_id ++ u64_to_bytes received_at).

(** [compute_ack_hash], src/submission_tracker.rs:140-142 *)
Definition compute_ack_hash (payload : Bytes) : Hash := sha256 payload.

(** [ingest_acknowledgment], src/submission_tracker.rs:151-185 *)
Definition ingest_acknowledgment (submission : RegulatorySubmission) (payload : Bytes)
    (reference_number : Bytes) (accepted : bool) (rejection_reason : Bytes)
    (error_codes : list Bytes) (received_at : Z) : RResult SubmissionAcknowledgment :=
  do? fail_if (bool_decide (sb_status submission <> ReportStatus.Submitted)
               && bool_decide (sb_status submission <> ReportStatus.Acknowledged))
        ReportingError.InvalidStatusTransition in
  do? fail_if (bool_decide (reference_number = [])) ReportingError.AcknowledgmentOrphan in
  Ok (mkSubmissionAcknowledgment (compute_ack_id (sb_id submission) received_at)
        (sb_id submission) (sb_report_id submission) reference_number accepted rejection_reason
        error_codes received_at (compute_ack_hash payload)).
End Tracker.

(** [apply_acknowledgment], src/submission_tracker.rs:195-217 *)
Definition apply_acknowledgment (ack : SubmissionAcknowledgment) (now : Z) : RM ReportAction :=
  let! status := rm_status in
  do! sm_try (check_transition status ReportStatus.Acknowledged) in
  do! rm_set_status ReportStatus.Acknowledged now in
  let '(next_status, action) :=
    if sa_accepted ack then (ReportStatus.Accepted, ReportAction.Accepted)
    else (ReportStatus.Rejected, ReportAction.Rejected) in
  let! status := rm_status in
  do! sm_try (check_transition status next_status) in
  do! rm_set_status next_status now in
  sm_ret action.

(** The four functions that move a report to one state. *)
Definition move_to (next : ReportStatus) (now : Z) : RM unit :=
  let! status := rm_status in
  do! sm_try (check_transition status next) in
  rm_set_status next now.

(** [mark_overdue], src/submission_tracker.rs:220-225 *)
Definition mark_overdue (now : Z) : RM unit := move_to ReportStatus.Overdue now.

(** [cancel_report], src/submission_tracker.rs:228-233 *)
Definition cancel_report (now : Z) : RM unit := move_to ReportStatus.Cancelled now.

(** [mark_submitted], src/submission_tracker.rs:236-241 *)
Definition mark_submitted (now : Z) : RM unit := move_to ReportStatus.Submitted now.

(** [mark_validated], src/submission_tracker.rs:244-249 *)
Definition mark_validated (now : Z) : RM unit := move_to ReportStatus.Validated now.

(** [is_overdue], src/submission_tracker.rs:259-261 *)
Definition is_overdue (report : RegulatoryReport) (now : Z) : bool :=
  Z.ltb (rr_deadline report) now && negb (ReportStatus.is_terminal (rr_status report)).

(** [next_attempt], src/submission_tracker.rs:269-279 *)
Definition next_attempt (current_attempt : Z) (config : AuthorityConfig) : RResult Z :=
  let? next := u32_plus current_attempt 1 in
  if Z.ltb (ac_max_retries config) next then Err (Raise ReportingError.MaxRetriesExceeded)
  else Ok next.

(** * Regulatory reports: audit trail

    The hash-chained trail of a report (src/reporting_audit_trail.rs).  A trail
    is passed by mutable reference; each function here returns the new entry
    and the trail with it appended. *)

(** [&mut Vec<ReportingAuditEntry>]. *)
Definition Trail : Type := list ReportingAuditEntry.

Section Trail.
Context `{C : Crypto}.

(** [compute_entry_hash], src/reporting_audit_trail.rs:32-49 *)
Definition compute_entry_hash (report_id : Hash) (action : ReportAction) (sequence timestamp : Z)
    (context : Bytes) (prev_entry_hash : Hash) : Hash :=
  sha256 (report_id ++ u32_to_bytes (ReportAction.code action) ++ u32_to_bytes sequence
          ++ u64_to_bytes timestamp ++ context ++ prev_entry_hash).

(** The hash that the entry at a position must link to: [zero_hash] for the
    first, the [entry_hash] of the entry before for the others. *)
Definition prev_hash_at (trail : Trail) (i : Z) : option Hash :=
  if Z.eqb i 0 then Some zero32 else ae_entry_hash <$> vget trail (i - 1).

(** [append_entry], src/reporting_audit_trail.rs:61-102 *)
Definition append_entry (trail : Trail) (report_id : Hash) (action : ReportAction)
    (actor : Address) (resulting_status : ReportStatus) (context : Bytes) (timestamp : Z)
    : ReportingAuditEntry * Trail :=
  let sequence := len trail in
  let prev_entry_hash := default zero32 (prev_hash_at trail sequence) in
  let entry_hash := compute_entry_hash report_id action sequence timestamp context
                      prev_entry_hash in
  let entry := mkReportingAuditEntry sequence report_id action actor timestamp prev_entry_hash
                 entry_hash context resulting_status in
  (entry, trail ++ [entry]).

(** The body of the loop of [verify_trail], src/reporting_audit_trail.rs:119-145 *)
Definition verify_entry (trail : Trail) (i : Z) : option Z :=
  match vget trail i with
  | None => None
  | Some entry =>
      if bool_decide (Some (ae_prev_entry_hash entry) <> prev_hash_at trail i) then Some i
      else if bool_decide (ae_entry_hash entry <>
             compute_entry_hash (ae_report_id entry) (ae_action entry) (ae_sequence entry)
               (ae_timestamp entry) (ae_context entry) (ae_prev_entry_hash entry)) then Some i
      else None
  end.

(** The loop returns at the first broken entry. *)
Fixpoint verify_from (trail : Trail) (l : list Z) : option Z :=
  match l with
  | [] => None
  | i :: l => match verify_entry trail i with Some i => Some i | None => verify_from trail l end
  end.

(** [verify_trail]: None stands for Ok, Some i for Err(i),
    src/reporting_audit_trail.rs:116-147 *)
Definition verify_trail (trail : Trail) : option Z := verify_from trail (range 0 (len trail)).

(** [record_generated], src/reporting_audit_trail.rs:154-172 *)
Definition record_generated (trail : Trail) (report_id : Hash) (actor : Address)
    (format_bytes : Bytes) (timestamp : Z) : ReportingAuditEntry * Trail :=
  append_entry trail report_id ReportAction.Generated actor ReportStatus.Draft format_bytes
    timestamp.

(** [record_validated], src/reporting_audit_trail.rs:177-208 *)
Definition record_validated (trail : Trail) (report_id : Hash) (actor : Address) (passed : bool)
    (error_count timestamp : Z) : ReportingAuditEntry * Trail :=
  let ctx := str_bytes (if passed then "passed=1" else "passed=0") ++ newline
             ++ str_bytes "errors=" ++ u32_to_bytes error_count ++ newline in
  append_entry trail report_id ReportAction.Validated actor
    (if passed then ReportStatus.Validated else ReportStatus.Draft) ctx timestamp.

(** [record_submitted], src/reporting_audit_trail.rs:213-239 *)
Definition record_submitted (trail : Trail) (report_id : Hash) (actor : Address)
    (submission_id : Hash) (attempt timestamp : Z) : ReportingAuditEntry * Trail :=
  let ctx := str_bytes "submission_id=" ++ submission_id ++ newline ++ str_bytes "attempt="
             ++ u32_to_bytes attempt ++ newline in
  append_entry trail report_id ReportAction.Submitted actor ReportStatus.Submitted ctx timestamp.

(** [record_acknowledgment_received], src/reporting_audit_trail.rs:242-267 *)
Definition record_acknowledgment_received (trail : Trail) (report_id : Hash) (actor : Address)
    (ack_id : Hash) (accepted : bool) (timestamp : Z) : ReportingAuditEntry * Trail :=
  let ctx := str_bytes "ack_id=" ++ ack_id ++ newline ++ str_bytes "accepted="
             ++ str_bytes (if accepted then "1" else "0") ++ newline in
  append_entry trail report_id ReportAction.AcknowledgmentReceived actor
    ReportStatus.Acknowledged ctx timestamp.

(** [record_accepted], src/reporting_audit_trail.rs:270-293 *)
Definition record_accepted (trail : Trail) (report_id : Hash) (actor : Address)
    (reference_number : Bytes) (timestamp : Z) : ReportingAuditEntry * Trail :=
  let ctx := str_bytes "reference=" ++ reference_number ++ newline in
  append_entry trail report_id ReportAction.Accepted actor ReportStatus.Accepted ctx timestamp.

(** [record_rejected], src/reporting_audit_trail.rs:296-322 *)
Definition record_rejected (trail : Trail) (report_id : Hash) (actor : Address) (reason : Bytes)
    (error_codes : list Bytes) (timestamp : Z) : ReportingAuditEntry * Trail :=
  let ctx := str_bytes "reason=" ++ reason ++ newline ++ str_bytes "error_count="
             ++ u32_to_bytes (len error_codes) ++ newline in
  append_entry trail report_id ReportAction.Rejected actor ReportStatus.Rejected ctx timestamp.

(** [record_cancelled], src/reporting_audit_trail.rs:325-348 *)
Definition record_cancelled (trail : Trail) (report_id : Hash) (actor : Address) (reason : Bytes)
    (timestamp : Z) : ReportingAuditEntry * Trail :=
  let ctx := str_bytes "reason=" ++ reason ++ newline in
  append_entry trail report_id ReportAction.Cancelled actor ReportStatus.Cancelled ctx timestamp.

(** [record_overdue], src/reporting_audit_trail.rs:351-374 *)
Definition record_overdue (trail : Trail) (report_id : Hash) (actor : Address)
    (deadline timestamp : Z) : ReportingAuditEntry * Trail :=
  let ctx := str_bytes "deadline=" ++ u64_to_bytes deadline ++ newline in
  append_entry trail report_id ReportAction.MarkedOverdue actor ReportStatus.Overdue ctx timestamp.
End Trail.
