(* ===== verification/ReportProps.v ===== *)
(** * Properties of the regulatory reports

    Validation decides a declarative notion of a valid report ([Valid]); the
    generators produce reports that satisfy it when the caller supplies the
    fields of the form; the lifecycle of a report is a state machine whose
    final states are final. *)

From stdpp Require Import relations.
From S2P Require Import Prelude Contract Fallible StorageLemmas Codec Sample ReportTypes ReportValidation ReportTracker.

(** ** Substrings *)

(** [n] occurs in [h]. *)
Definition occurs (n h : Bytes) : Prop := exists p s, h = p ++ n ++ s.

Lemma occurs_app_l n a b : occurs n a -> occurs n (a ++ b).
Proof. intros (p & s & ->). exists p, (s ++ b). by rewrite <- !app_assoc. Qed.

Lemma occurs_app_r n a b : occurs n b -> occurs n (a ++ b).
Proof. intros (p & s & ->). exists (a ++ p), s. by rewrite <- !app_assoc. Qed.

Lemma contains_key_occurs h n : n <> [] -> contains_key h n = true <-> occurs n h.
Proof.
  intros Hn. unfold occurs. rewrite <- bytes_contains_infix.
  unfold contains_key, bytes_contains. destruct (Z.eqb_spec (len n) 0) as [E|E].
  { destruct n; [done|]. rewrite len_cons in E. pose proof (len_nonneg n). lia. }
  simpl. destruct (Z.ltb_spec (len h) (len n)) as [Hl|Hl]; [done|].
  rewrite !existsb_exists. f_equiv. intros a. split; intros [Ha H]; (split; [done|]).
  all: apply list_elem_of_In, elem_of_range in Ha; unfold matches_at in *;
    rewrite forallb_forall in *; intros i Hi; specialize (H i Hi);
    apply list_elem_of_In, elem_of_range in Hi.
  all: destruct (vget_is_Some h (a + i)) as [x Hx]; [lia|]; destruct (vget_is_Some n i) as [y Hy]; [lia|];
    rewrite Hx, Hy in *; simpl in *.
  - apply bool_decide_eq_true. f_equal. by apply Z.eqb_eq.
  - apply bool_decide_eq_true in H. apply Z.eqb_eq. congruence.
Qed.

(** ** Valid reports *)

(** The authority a form belongs to, and the fields the form needs. *)
Definition authority_of (f : ReportFormat) : RegulatoryAuthority :=
  match f with
  | ReportFormat.FinraOATS | ReportFormat.FinraCAT | ReportFormat.FinraRule4370 | ReportFormat.FinraSAR
      => RegulatoryAuthority.FINRA
  | ReportFormat.SecFormADV | ReportFormat.SecFormPF | ReportFormat.SecForm13F | ReportFormat.SecFormNPORT | ReportFormat.SecSAR
      => RegulatoryAuthority.SEC
  | ReportFormat.CftcLargeTrader | ReportFormat.CftcSwapData | ReportFormat.CftcPart20 | ReportFormat.CftcForm40
      => RegulatoryAuthority.CFTC
  | ReportFormat.FcaMiFIDII | ReportFormat.FcaEMIR | ReportFormat.FcaSTOR | ReportFormat.FcaCOREP
      => RegulatoryAuthority.FCA
  | ReportFormat.BaFinWpHG | ReportFormat.BaFinMeldepflicht | ReportFormat.BaFinAnaCredit | ReportFormat.BaFinAML
      => RegulatoryAuthority.BaFin
  | ReportFormat.MasSGX | ReportFormat.MasTRR | ReportFormat.MasForm610 | ReportFormat.MasCMS
      => RegulatoryAuthority.MAS
  | ReportFormat.MiCACASP | ReportFormat.MiCAWhitePaper | ReportFormat.MiCAReserveAsset | ReportFormat.MiCASignificant
      => RegulatoryAuthority.MiCA
  end.

Definition form_fields (f : ReportFormat) : list string :=
  match f with
  | ReportFormat.FinraOATS => ["mpid"; "order_count"; "route_count"]
  | ReportFormat.FinraCAT => ["mpid"; "cat_reporter_id"; "event_count"]
  | ReportFormat.FinraRule4370 => ["bcp_version"; "emergency_contacts"]
  | ReportFormat.FinraSAR => ["sar_type"; "suspicious_activity_type"; "amount"]
  | ReportFormat.SecFormADV => ["adviser_name"; "aum_usd"; "client_count"]
  | ReportFormat.SecFormPF => ["fund_count"; "nav_usd"; "strategy_type"]
  | ReportFormat.SecForm13F => ["cusip_count"; "total_value_usd"; "confidential_treatment"]
  | ReportFormat.SecFormNPORT => ["fund_name"; "total_assets"; "net_assets"]
  | ReportFormat.SecSAR => ["sar_number"; "filing_institution"; "suspicious_amount"]
  | ReportFormat.CftcLargeTrader => ["commodity"; "position_long"; "position_short"; "special_account"]
  | ReportFormat.CftcSwapData => ["swap_type"; "notional_usd"; "counterparty_lei"; "uti"]
  | ReportFormat.CftcPart20 => ["commodity_contract"; "position_size"; "account_controller"]
  | ReportFormat.CftcForm40 => ["trader_id"; "position_commodity"; "exchange_code"]
  | ReportFormat.FcaMiFIDII => ["isin"; "quantity"; "price"; "venue_mic"; "executing_entity_id"]
  | ReportFormat.FcaEMIR => ["trade_id"; "asset_class"; "notional_eur"; "counterparty_lei"]
  | ReportFormat.FcaSTOR => ["instrument_id"; "suspicious_behaviour"; "reporting_date"]
  | ReportFormat.FcaCOREP => ["capital_ratio"; "tier1_capital"; "rwa_total"]
  | ReportFormat.BaFinWpHG => ["isin"; "voting_rights_pct"; "threshold_crossed"; "direction"]
  | ReportFormat.BaFinMeldepflicht => ["instrument_type"; "notification_reason"; "holding_pct"]
  | ReportFormat.BaFinAnaCredit => ["loan_count"; "total_exposure_eur"; "credit_facility_type"]
  | ReportFormat.BaFinAML => ["aml_report_type"; "suspicious_amount_eur"; "reporting_entity_lei"]
  | ReportFormat.MasSGX => ["sgx_account_id"; "security_code"; "net_position"]
  | ReportFormat.MasTRR => ["product_type"; "notional_sgd"; "counterparty_lei"; "uti"]
  | ReportFormat.MasForm610 => ["balance_sheet_total_sgd"; "loan_book_sgd"; "npl_ratio"]
  | ReportFormat.MasCMS => ["licence_number"; "regulated_activity"; "client_assets_sgd"]
  | ReportFormat.MiCACASP => ["service_type"; "user_count"; "transaction_volume_eur"; "countries_served"]
  | ReportFormat.MiCAWhitePaper => ["asset_name"; "asset_class"; "offer_type"; "issuer_country"]
  | ReportFormat.MiCAReserveAsset => ["token_symbol"; "tokens_outstanding"; "reserve_value_eur"; "reserve_composition"; "custodian_lei"]
  | ReportFormat.MiCASignificant => ["casp_id"; "enhanced_obligations_reason"; "supervisory_authority"]
  end.

(** Under another authority a form needs no fields: the source only warns. *)
Definition required (a : RegulatoryAuthority) (f : ReportFormat) : list string :=
  if decide (a = authority_of f) then form_fields f else [].

Definition authority_tag (a : RegulatoryAuthority) : Bytes :=
  str_bytes ("authority=" ++ RegulatoryAuthority.name a).

Definition valid_lei (lei : Bytes) : Prop :=
  len lei = 20 /\ Forall (fun b => is_ascii_alphanumeric b = true) lei.

Definition provides (content : Bytes) (key : string) : Prop :=
  occurs (str_bytes key ++ str_bytes "=") content.

Record Valid (r : RegulatoryReport) : Prop := {
  va_lei : valid_lei (rr_lei r);
  va_period : rr_period_start r < rr_period_end r;
  va_deadline : rr_period_end r <= rr_deadline r;
  va_tag : occurs (authority_tag (rr_authority r)) (rr_content r);
  va_fields : Forall (provides (rr_content r)) (required (rr_authority r) (rr_format r)) }.

(** ** Validation decides validity *)

Lemma str_bytes_ne s : s <> EmptyString -> str_bytes s <> [].
Proof. by destruct s. Qed.

Lemma key_eq_ne k : str_bytes k ++ str_bytes "=" <> [].
Proof. intros [_ H]%app_nil. by apply str_bytes_ne in H. Qed.

Lemma push_err_nil e m : push_err e m = [] <-> False.
Proof. unfold push_err. split; [|done]. by intros [_ H]%app_nil. Qed.

Lemma validate_lei_nil r e : validate_lei r e = [] <-> e = [] /\ valid_lei (rr_lei r).
Proof.
  unfold validate_lei, valid_lei. destruct (Z.eqb_spec (len (rr_lei r)) 20) as [E|E];
    cbn [negb].
  - destruct (forallb _ (range 0 20)) eqn:F; rewrite ?push_err_nil.
    + split; [|naive_solver]. intros ->. split_and!; try done. apply Forall_lookup. intros i x Hi.
      rewrite forallb_forall in F. specialize (F (Z.of_nat i)). rewrite vget_nth, Hi in F. apply F.
      apply list_elem_of_In, elem_of_range. apply lookup_lt_Some in Hi. unfold len in E. lia.
    + split; [done|]. intros (_ & _ & H). rewrite <- not_true_iff_false in F. apply F.
      apply forallb_forall. intros i Hi%list_elem_of_In%elem_of_range.
      destruct (vget_is_Some (rr_lei r) i) as [x Hx]; [lia|]. rewrite Hx. simpl.
      unfold vget in Hx. destruct (Z.leb 0 i); [|done]. eapply Forall_lookup in H; eauto.
  - rewrite push_err_nil. naive_solver.
Qed.

Lemma validate_period_nil r e :
  validate_period r e = [] <-> e = [] /\ rr_period_start r < rr_period_end r.
Proof.
  unfold validate_period. destruct (Z.leb_spec (rr_period_end r) (rr_period_start r));
    rewrite ?push_err_nil; intuition lia.
Qed.

Lemma validate_deadline_nil r e :
  validate_deadline r e = [] <-> e = [] /\ rr_period_end r <= rr_deadline r.
Proof.
  unfold validate_deadline. destruct (Z.ltb_spec (rr_deadline r) (rr_period_end r));
    rewrite ?push_err_nil; intuition lia.
Qed.

Lemma validate_content_nonempty_nil r e :
  validate_content_nonempty r e = [] <-> e = [] /\ rr_content r <> [].
Proof. unfold validate_content_nonempty. destruct (rr_content r); rewrite ?push_err_nil; naive_solver. Qed.

Lemma validate_authority_tag_nil r t e :
  str_bytes t <> [] ->
  validate_authority_tag r t e = [] <-> e = [] /\ occurs (str_bytes t) (rr_content r).
Proof.
  intros Ht. unfold validate_authority_tag. rewrite <- contains_key_occurs by done.
  destruct (contains_key _ _); simpl; rewrite ?push_err_nil; naive_solver.
Qed.

Lemma require_keys_nil c ks e : require_keys c ks e = [] <-> e = [] /\ Forall (provides c) ks.
Proof.
  revert e. induction ks as [|k ks IH]; intros e; simpl; [rewrite Forall_nil; naive_solver|].
  rewrite Forall_cons. unfold provides at 1. rewrite <- contains_key_occurs by apply key_eq_ne.
  unfold require_keys in *. rewrite IH. destruct (contains_key _ _); simpl; [naive_solver|].
  split; [|naive_solver]. intros [H _]. by apply app_nil in H as [_ H].
Qed.

(** The checks of an authority at a form: the tag, the fields, warnings. *)
Ltac authority_checks :=
  cbn [fst]; rewrite ?require_keys_nil, validate_authority_tag_nil by (by apply str_bytes_ne);
  match goal with |- context [required ?a ?f] =>
    let t := eval vm_compute in (required a f) in change (required a f) with t end;
  rewrite ?Forall_nil; tauto.

Section Authorities.
Context (r : RegulatoryReport) (e w : list Bytes).

#[local] Abbreviation checked a := (e = [] /\ occurs (authority_tag a) (rr_content r) /\
  Forall (provides (rr_content r)) (required a (rr_format r))).

Lemma validate_finra_nil : (validate_finra r (e, w)).1 = [] <-> checked RegulatoryAuthority.FINRA.
Proof. unfold validate_finra. destruct (rr_format r); authority_checks. Qed.
Lemma validate_sec_nil : (validate_sec r (e, w)).1 = [] <-> checked RegulatoryAuthority.SEC.
Proof. unfold validate_sec. destruct (rr_format r); authority_checks. Qed.
Lemma validate_cftc_nil : (validate_cftc r (e, w)).1 = [] <-> checked RegulatoryAuthority.CFTC.
Proof. unfold validate_cftc. destruct (rr_format r); authority_checks. Qed.
Lemma validate_fca_nil : (validate_fca r (e, w)).1 = [] <-> checked RegulatoryAuthority.FCA.
Proof. unfold validate_fca. destruct (rr_format r); authority_checks. Qed.
Lemma validate_bafin_nil : (validate_bafin r (e, w)).1 = [] <-> checked RegulatoryAuthority.BaFin.
Proof. unfold validate_bafin. destruct (rr_format r); authority_checks. Qed.
Lemma validate_mas_nil : (validate_mas r (e, w)).1 = [] <-> checked RegulatoryAuthority.MAS.
Proof. unfold validate_mas. destruct (rr_format r); authority_checks. Qed.

(** The second test of the custodian repeats one of the fields. *)
Lemma custodian_twice c ks (l : list Bytes) m :
  "custodian_lei"%string ∈ ks ->
  (if negb (contains_key c (str_bytes "custodian_lei=")) then push_err (require_keys c ks l) m
   else require_keys c ks l) = [] <-> require_keys c ks l = [].
Proof.
  intros Hk. destruct (contains_key _ _) eqn:E; [done|]. simpl. rewrite push_err_nil, require_keys_nil.
  split; [done|]. intros [_ H]. rewrite Forall_forall in H. specialize (H _ Hk).
  unfold provides in H. change (str_bytes "custodian_lei" ++ str_bytes "=")
    with (str_bytes "custodian_lei=") in H. apply contains_key_occurs in H; [congruence|by apply str_bytes_ne].
Qed.

Lemma validate_mica_nil : (validate_mica r (e, w)).1 = [] <-> checked RegulatoryAuthority.MiCA.
Proof.
  unfold validate_mica. destruct (rr_format r); cbn [fst]; rewrite ?custodian_twice by set_solver;
    authority_checks.
Qed.

Lemma validate_authority_nil :
  (validate_authority r (e, w)).1 = [] <-> checked (rr_authority r).
Proof.
  unfold validate_authority. destruct (rr_authority r).
  - apply validate_finra_nil.
  - apply validate_sec_nil.
  - apply validate_cftc_nil.
  - apply validate_fca_nil.
  - apply validate_bafin_nil.
  - apply validate_mas_nil.
  - apply validate_mica_nil.
Qed.
End Authorities.

Lemma authority_tag_ne a : authority_tag a <> [].
Proof. by destruct a. Qed.

(** Validation passes exactly the valid reports. *)
Theorem validation_decides_validity r now : vr_passed (validate_report r now) = true <-> Valid r.
Proof.
  unfold validate_report. set (e := validate_content_nonempty r _).
  pose proof (validate_authority_nil r e []) as H. destruct (validate_authority r (e, [])) as [er w].
  simpl in *. rewrite Z.eqb_eq.
  assert (len er = 0 <-> er = []) as -> by (destruct er; [done|]; rewrite len_cons;
    pose proof (len_nonneg er); split; [lia|done]).
  rewrite H. unfold e. rewrite validate_content_nonempty_nil, validate_deadline_nil,
    validate_period_nil, validate_lei_nil. split.
  - intros (((((_ & ?) & ?) & ?) & _) & ? & ?). by constructor.
  - intros [? ? ? Ht ?]. split_and!; try done. intros E. rewrite E in Ht.
    destruct Ht as (p & s & [_ [Ht _]%app_nil]%eq_sym%app_nil). by apply authority_tag_ne in Ht.
Qed.

(** ** Generated reports *)

(** The forms with a generator of their own. *)
Definition has_generator (f : ReportFormat) : bool :=
  match f with
  | ReportFormat.FinraSAR | ReportFormat.SecSAR | ReportFormat.SecFormNPORT
  | ReportFormat.CftcPart20 | ReportFormat.CftcForm40 | ReportFormat.FcaSTOR
  | ReportFormat.FcaCOREP | ReportFormat.BaFinMeldepflicht | ReportFormat.BaFinAML
  | ReportFormat.MasSGX | ReportFormat.MasCMS | ReportFormat.MiCASignificant => false
  | _ => true
  end.

Section Generated.
Context `{C : Crypto}.

(** A content that begins with the tag of the authority and ends with the
    fields of the caller. *)
Lemma draft_valid a f v mid input now :
  valid_lei (ri_lei input) -> ri_period_start input < ri_period_end input ->
  ri_period_end input <= ri_deadline input ->
  Forall (provides (ri_extra_fields input)) (required a f) ->
  Valid (draft a f v (authority_tag a ++ mid ++ ri_extra_fields input) input now).
Proof.
  intros Hl Hp Hd Hf.
  split; unfold draft; cbn [rr_lei rr_period_start rr_period_end rr_deadline rr_authority rr_format
    rr_content]; [done|done|done| |].
  - by exists [], (mid ++ ri_extra_fields input).
  - eapply Forall_impl; [exact Hf|]. intros k Hk. by apply occurs_app_r, occurs_app_r.
Qed.

(** The content of a generator has that shape. *)
Lemma form_content_shape a form input :
  form_content (RegulatoryAuthority.name a) form input
  = authority_tag a ++ (newline ++ kv (str_bytes "form") (str_bytes form)
                        ++ kv (str_bytes "lei") (ri_lei input)) ++ ri_extra_fields input.
Proof. unfold form_content, kv. rewrite <- !app_assoc. by destruct a. Qed.

Lemma oats_shape input now :
  oats input now = draft RegulatoryAuthority.FINRA ReportFormat.FinraOATS 1
    (authority_tag RegulatoryAuthority.FINRA
     ++ (newline ++ kv (str_bytes "form") (str_bytes "OATS") ++ kv (str_bytes "lei") (ri_lei input)
         ++ str_bytes "period_start=" ++ u64_to_bytes (ri_period_start input) ++ newline)
     ++ ri_extra_fields input) input now.
Proof. unfold oats, kv. f_equal. by rewrite <- !app_assoc. Qed.

Lemma generated_valid f input config now :
  has_generator f = true -> valid_lei (ri_lei input) ->
  ri_period_start input < ri_period_end input -> ri_period_end input <= ri_deadline input ->
  Forall (provides (ri_extra_fields input)) (form_fields f) ->
  Valid (generate_report f input config now).
Proof.
  intros Hg Hl Hp Hd Hf.
  assert (Forall (provides (ri_extra_fields input)) (required (authority_of f) f)) as Hr
    by (unfold required; by rewrite decide_True).
  destruct f; try done; cbn [generate_report];
    unfold cat, rule_4370, form_adv, form_pf, form_13f, large_trader, swap_data, mifid_ii, emir,
      wphg, anacredit, trr, form_610, casp, reserve_asset, white_paper.
  1: rewrite oats_shape.
  all: try match goal with |- Valid (draft ?a _ _ (form_content _ ?form _) _ _) =>
         rewrite (form_content_shape a form) end.
  all: by apply draft_valid.
Qed.
End Generated.

(** A tag that occurs in a generic content occurs in the fields of the caller:
    no line before them has the shape of a tag. *)
Section Generic.
Context (lei : Bytes) (Hlei : valid_lei lei).

Definition generic_head : Bytes := kv (str_bytes "form") (str_bytes "Generic") ++ kv (str_bytes "lei") lei.

Lemma len_generic_head : len generic_head = 38.
Proof.
  destruct Hlei as [Hl _]. unfold generic_head, kv. rewrite !len_app, Hl. reflexivity.
Qed.

(** The equality signs of the head are at 4 and 16. *)
Lemma generic_head_equals j : vget generic_head j = Some 61 -> j = 4 \/ j = 16.
Proof.
  destruct Hlei as [Hl Ha]. intros H. pose proof (vget_Some_bounds _ _ _ H) as Hb.
  rewrite len_generic_head in Hb.
  change generic_head with (str_bytes "form=Generic" ++ [10] ++ str_bytes "lei=" ++ lei ++ [10]) in H.
  rewrite !app_assoc in H. rewrite <- app_assoc in H.
  set (front := (str_bytes "form=Generic" ++ [10]) ++ str_bytes "lei=") in *.
  assert (len front = 17) as Ef by reflexivity.
  destruct (decide (j < 17)) as [Hj|Hj].
  - rewrite vget_app_l in H by lia.
    assert (Forall (fun i => vget front i = Some 61 -> i = 4 \/ i = 16) (range 0 17)) as F.
    { apply (bool_decide_unpack _). by vm_compute. }
    rewrite Forall_forall in F. apply F; [|done]. apply elem_of_range. lia.
  - rewrite vget_app_r in H by lia. rewrite Ef in H. destruct (decide (j - 17 < 20)) as [Hj'|Hj'].
    + rewrite vget_app_l in H by lia. unfold vget in H. destruct (Z.leb 0 (j - 17)); [|done].
      eapply Forall_lookup in Ha; [|exact H]. done.
    + rewrite vget_app_r in H by lia. rewrite Hl in H. replace (j - 17 - 20) with 0 in H by lia. done.
Qed.

Lemma vget_tag a : vget (authority_tag a) 9 = Some 61 /\ vget (authority_tag a) 0 = Some 97.
Proof. by destruct a. Qed.

Lemma vget_tag_line a j : 0 <= j <= 8 -> vget (authority_tag a) j <> Some 10.
Proof.
  intros Hj. assert (Forall (fun i => vget (authority_tag a) i <> Some 10) (range 0 9)) as F.
  { destruct a; apply (bool_decide_unpack _); by vm_compute. }
  rewrite Forall_forall in F. apply F, elem_of_range. lia.
Qed.

Lemma tag_beyond_head a extra :
  occurs (authority_tag a) (generic_head ++ extra) -> occurs (authority_tag a) extra.
Proof.
  intros (p & s & E). pose proof len_generic_head as Hh.
  assert (forall j, 0 <= j -> j < len (authority_tag a) ->
    vget (generic_head ++ extra) (len p + j) = vget (authority_tag a) j) as Hat.
  { intros j Hj Hj'. rewrite E, vget_app_r by lia. rewrite vget_app_l by lia. f_equal. lia. }
  assert (10 <= len (authority_tag a)) as Ht by by destruct a.
  destruct (vget_tag a) as [T9 T0]. pose proof (len_nonneg p).
  destruct (decide (38 <= len p)) as [Hp|Hp].
  - exists (drop 38 p), s. apply (f_equal (drop 38)) in E.
    rewrite (drop_app_length' generic_head) in E by (unfold len in Hh; lia).
    rewrite drop_app_le in E by (unfold len in Hp; lia). done.
  - exfalso. destruct (decide (len p + 9 < 38)) as [Hn|Hn].
    + rewrite <- (Hat 9), vget_app_l in T9 by lia. apply generic_head_equals in T9 as [T9|T9]; [lia|].
      rewrite <- (Hat 0), vget_app_l in T0 by lia. replace (len p + 0) with 7 in T0 by lia. done.
    + apply (vget_tag_line a (37 - len p)); [lia|]. rewrite <- Hat by lia.
      rewrite vget_app_l by lia. replace (len p + (37 - len p)) with 37 by lia.
      destruct Hlei as [Hl _]. unfold generic_head, kv. rewrite !app_assoc.
      rewrite vget_app_r by (rewrite !len_app, Hl; reflexivity). rewrite !len_app, Hl. reflexivity.
Qed.
End Generic.

(** ** Lifecycle *)

(** The calls that move a report. *)
Inductive lcall : Type :=
  | LValidate
  | LSubmit
  | LAcknowledge (ack : SubmissionAcknowledgment)
  | LOverdue
  | LCancel.

Definition lexec (k : lcall) (now : Z) : RM unit :=
  match k with
  | LValidate => mark_validated now
  | LSubmit => mark_submitted now
  | LAcknowledge ack => do! apply_acknowledgment ack now in sm_ret tt
  | LOverdue => mark_overdue now
  | LCancel => cancel_report now
  end.

Inductive lstep : RegulatoryReport -> RegulatoryReport -> Prop :=
  | lstep_call k now r r' : lexec k now r = (Ok tt, r') -> lstep r r'.

(** Where a call leads. *)
Definition target (k : lcall) : ReportStatus :=
  match k with
  | LValidate => ReportStatus.Validated
  | LSubmit => ReportStatus.Submitted
  | LAcknowledge ack => if sa_accepted ack then ReportStatus.Accepted else ReportStatus.Rejected
  | LOverdue => ReportStatus.Overdue
  | LCancel => ReportStatus.Cancelled
  end.

(** From which states. *)
Definition enabled (k : lcall) (s : ReportStatus) : bool :=
  match k, s with
  | LValidate, ReportStatus.Draft => true
  | LSubmit, (ReportStatus.Validated | ReportStatus.Rejected) => true
  | LAcknowledge _, ReportStatus.Submitted => true
  | LOverdue, ReportStatus.Submitted => true
  | LCancel, (ReportStatus.Accepted | ReportStatus.Cancelled | ReportStatus.Overdue) => false
  | LCancel, _ => true
  | _, _ => false
  end.

(** A call succeeds exactly in the states that enable it, and then sets the
    status and the time; otherwise it leaves the report as it is. *)
Lemma lexec_run k now r :
  lexec k now r = if enabled k (rr_status r) then (Ok tt, with_status r (target k) now)
                  else (Err (Raise ReportingError.InvalidStatusTransition), r).
Proof.
  destruct r as [i au f en le ps pe dl co sv st cr up va pr rh so].
  destruct k as [| |ack| |]; simpl; [| |destruct (sa_accepted ack) eqn:Ea| |];
    destruct st; simpl; try reflexivity;
    unfold apply_acknowledgment, sm_bind, rm_status, sm_try; simpl; rewrite Ea; reflexivity.
Qed.

Lemma lstep_inv r r' :
  lstep r r' -> exists k now, enabled k (rr_status r) = true /\ r' = with_status r (target k) now.
Proof.
  intros [k now x y H]. rewrite lexec_run in H. destruct (enabled k (rr_status x)) eqn:E; [|done].
  injection H as <-. by exists k, now.
Qed.

(** ** Properties *)

(** A report that a generator of its own assembled passes validation when the
    LEI is well formed, the period and the deadline are in order, and the caller
    supplies the fields of the form. *)
Theorem generated_reports_validate `{C : Crypto} f input config now later :
  has_generator f = true -> valid_lei (ri_lei input) ->
  ri_period_start input < ri_period_end input -> ri_period_end input <= ri_deadline input ->
  Forall (provides (ri_extra_fields input)) (form_fields f) ->
  let r := generate_report f input config now in
  rr_status r = ReportStatus.Draft /\ rr_authority r = authority_of f /\ rr_format r = f /\
  vr_passed (validate_report r later) = true.
Proof.
  intros Hg Hl Hp Hd Hf r. split_and!.
  - by destruct f.
  - by destruct f.
  - by destruct f.
  - by apply validation_decides_validity, generated_valid.
Qed.

(** Of a form without a generator the content carries no authority tag, so its
    report passes validation only if the caller puts the tag among the fields. *)
Theorem generic_reports_lack_the_tag `{C : Crypto} f input config now later :
  has_generator f = false ->
  vr_passed (validate_report (generate_report f input config now) later) = true ->
  occurs (authority_tag (ac_authority config)) (ri_extra_fields input).
Proof.
  intros Hg [Hl _ _ Ht _]%validation_decides_validity.
  assert (generate_report f input config now = draft (ac_authority config) f 1
    (kv (str_bytes "form") (str_bytes "Generic") ++ kv (str_bytes "lei") (ri_lei input)
     ++ ri_extra_fields input) input now) as E by by destruct f.
  rewrite E in Hl, Ht. unfold draft in Hl, Ht. cbn [rr_lei rr_content rr_authority] in Hl, Ht.
  rewrite app_assoc in Ht. by apply (tag_beyond_head _ Hl) in Ht.
Qed.

(** The final states are final, and a call that is refused leaves the report as
    it was: no call changes an accepted, cancelled or overdue report. *)
Theorem final_states_are_final r k now :
  (ReportStatus.is_terminal (rr_status r) = true ->
     lexec k now r = (Err (Raise ReportingError.InvalidStatusTransition), r)) /\
  (forall e r', lexec k now r = (Err e, r') -> r' = r).
Proof.
  rewrite lexec_run. split.
  - intros H. destruct (enabled k (rr_status r)) eqn:E; [|done]. by destruct k, (rr_status r).
  - intros e r'. destruct (enabled k (rr_status r)); [done|]. by intros [= _ <-].
Qed.

(** A report that starts as a draft and ends accepted was validated and then
    submitted, its acceptance is the next call, and its content, identifier and
    hash are those of the draft. *)
Theorem accepted_reports_were_submitted r r' :
  rtc lstep r r' -> rr_status r = ReportStatus.Draft -> rr_status r' = ReportStatus.Accepted ->
  (exists v s, rtc lstep r v /\ rr_status v = ReportStatus.Validated /\ rtc lstep v s /\
     rr_status s = ReportStatus.Submitted /\ lstep s r') /\
  rr_id r' = rr_id r /\ rr_content r' = rr_content r /\ rr_report_hash r' = rr_report_hash r.
Proof.
  intros Hl Hd.
  set (validated x := exists v, rtc lstep r v /\ rr_status v = ReportStatus.Validated /\ rtc lstep v x).
  set (beyond x := match rr_status x with
                   | ReportStatus.Draft | ReportStatus.Cancelled => True | _ => validated x end).
  assert (rtc lstep r r' /\ beyond r' /\ (rr_status r' = ReportStatus.Accepted ->
    exists s, rtc lstep r s /\ validated s /\ rr_status s = ReportStatus.Submitted /\ lstep s r') /\
    rr_id r' = rr_id r /\ rr_content r' = rr_content r /\ rr_report_hash r' = rr_report_hash r)
    as (_ & _ & H & Hid).
  { revert r' Hl. apply rtc_invariant.
    - split; [done|]. unfold beyond. rewrite Hd. done.
    - intros y z Hy (_ & Hb & _ & Hi) Hz. split; [by eapply rtc_r|].
      pose proof Hz as (k & now & He & ->)%lstep_inv. simpl. split; [|split; [|done]].
      + unfold beyond. simpl. destruct (target k) eqn:Ek; try done.
        all: assert (rr_status y = ReportStatus.Draft \/ validated y) as [Hs|(v & Hv & Hvs & Hvy)]
          by (unfold beyond in Hb; destruct (rr_status y); auto; by destruct k).
        all: try (exists v; split_and!; [done|done|by eapply rtc_r]).
        all: rewrite Hs in He; destruct k as [| |ack| |]; simpl in *; try done.
        all: exists (with_status y ReportStatus.Validated now); split_and!; [|done|done];
          by eapply rtc_r.
      + intros Ek. exists y. destruct k as [| |ack| |]; simpl in Ek; try done.
        simpl in He. unfold beyond in Hb. destruct (rr_status y) eqn:Es; try done. }
  intros Ha. split; [|done]. destruct (H Ha) as (s & _ & (v & Hv & Hvs & Hvy) & Hs & Hz).
  by exists v, s.
Qed.

(** A submission is made for a report that is not a draft, to an enabled
    authority, before the deadline and within the retries; a first attempt may
    be dispatched at once, a later one waits for the base delay or, with
    back-off, at most a day. *)
Theorem submission_respects_limits `{C : Crypto} shl report attempt config now sub :
  (forall a b, 0 <= shl a b) -> is_u32 (ac_retry_delay_seconds config) ->
  create_submission shl report attempt config now = Ok sub ->
  rr_status report <> ReportStatus.Draft /\ ac_enabled config = true /\
  now <= rr_deadline report /\ attempt <= ac_max_retries config /\
  sb_report_id sub = rr_id report /\ sb_attempt sub = attempt /\
  sb_status sub = ReportStatus.Submitted /\
  (sb_retry_eligible sub = true <-> attempt < ac_max_retries config) /\
  (if Z.leb attempt 1 then sb_retry_after sub = 0
   else if ac_exponential_backoff config then now <= sb_retry_after sub <= now + 86400
   else sb_retry_after sub = now + ac_retry_delay_seconds config).
Proof.
  intros Hs Hd R. unfold create_submission, rbind, fail_if in R.
  destruct (bool_decide _) eqn:E1; [done|]. destruct (ac_enabled config) eqn:E2; [|done]. simpl in R.
  destruct (Z.ltb_spec (rr_deadline report) now); [done|].
  destruct (Z.ltb_spec (ac_max_retries config) attempt); [done|].
  apply bool_decide_eq_false in E1.
  assert (0 <= u64_sat_mul (ac_retry_delay_seconds config) (shl 1 (attempt - 1))) as Hm.
  { unfold u64_sat_mul. specialize (Hs 1 (attempt - 1)). destruct Hd. apply Z.min_glb; [nia|done]. }
  unfold u64_plus in R. destruct (Z.ltb_spec 1 attempt) as [Ha|Ha].
  - rewrite (proj2 (Z.leb_gt _ _)) by lia. destruct (ac_exponential_backoff config);
      repeat (case_match; try done); simplify_eq; simpl; (split_and!; try done); try lia;
      try apply Z.ltb_lt.
  - rewrite (proj2 (Z.leb_le _ _)) by lia. injection R as <-. simpl.
    split_and!; try done; try lia; apply Z.ltb_lt.
Qed.

(** A report that passed its deadline can be marked overdue only while it is
    submitted: in the other states that are not final the call is refused. *)
Theorem overdue_needs_submission r now :
  is_overdue r now = true -> rr_status r <> ReportStatus.Submitted ->
  mark_overdue now r = (Err (Raise ReportingError.InvalidStatusTransition), r).
Proof.
  intros _ Hs. pose proof (lexec_run LOverdue now r) as E. simpl in E. rewrite E.
  by destruct (rr_status r).
Qed.

(** Only drafts are refused: a submission is created for a report in a final
    state as well. *)
Theorem final_reports_can_be_submitted `{C : Crypto} shl report config now :
  ReportStatus.is_terminal (rr_status report) = true -> ac_enabled config = true ->
  now <= rr_deadline report -> 1 <= ac_max_retries config ->
  exists sub, create_submission shl report 1 config now = Ok sub.
Proof.
  intros Ht He Hd Hm. unfold create_submission, rbind, fail_if.
  rewrite bool_decide_false by (by destruct (rr_status report)). rewrite He. simpl.
  rewrite (proj2 (Z.ltb_ge _ _)) by done. rewrite (proj2 (Z.ltb_ge _ _)) by done. eauto.
Qed.

(** An acknowledgment of any report moves a submitted one: the identifiers are
    not compared. *)
Theorem foreign_acknowledgment_applies r ack now :
  rr_status r = ReportStatus.Submitted -> sa_report_id ack <> rr_id r ->
  exists action, apply_acknowledgment ack now r = (Ok action, with_status r (target (LAcknowledge ack)) now).
Proof.
  intros Hs _. pose proof (lexec_run (LAcknowledge ack) now r) as E. rewrite Hs in E. simpl in E.
  unfold sm_bind in E at 1. destruct (apply_acknowledgment ack now r) as [[a|e] r'].
  - exists a. by injection E as ->.
  - done.
Qed.

(** The identifier of a report does not depend on the entity: two entities get
    the same identifier for the same form and period. *)
Theorem entities_share_report_ids `{C : Crypto} f i1 i2 config now :
  ri_period_start i1 = ri_period_start i2 -> ri_period_end i1 = ri_period_end i2 ->
  rr_id (generate_report f i1 config now) = rr_id (generate_report f i2 config now).
Proof. intros Hs He. destruct f; simpl; by rewrite Hs, He. Qed.

(** ** The properties at concrete inputs *)

Definition sample_lei : Bytes := str_bytes "HWUPKR0MPOU8LEYPWAT0".
Definition sample_input : ReportInput :=
  mkReportInput owner sample_lei 1000 2000 3000 []
    (str_bytes "mpid=TEST" ++ newline ++ str_bytes "order_count=10" ++ newline
     ++ str_bytes "route_count=5" ++ newline) (replicate 32 0).
Definition sample_config : AuthorityConfig :=
  mkAuthorityConfig RegulatoryAuthority.FINRA true [] [] 3 60 true 100.
#[local] Existing Instance sample_crypto.
Definition sample_report : RegulatoryReport :=
  generate_report ReportFormat.FinraOATS sample_input sample_config 100.

Lemma sample_lei_valid : valid_lei sample_lei.
Proof. split; [reflexivity|]. apply (bool_decide_unpack _). by vm_compute. Qed.

Lemma generated_reports_validate_witness :
  vr_passed (validate_report sample_report 200) = true.
Proof.
  apply (generated_reports_validate ReportFormat.FinraOATS sample_input sample_config 100 200);
    [done|apply sample_lei_valid|done|done|].
  repeat constructor; apply contains_key_occurs; by vm_compute.
Defined.

Lemma generic_reports_lack_the_tag_witness :
  let input := mkReportInput owner sample_lei 1000 2000 3000 []
    (str_bytes "authority=FINRA" ++ newline ++ str_bytes "sar_type=x" ++ newline ++
     str_bytes "suspicious_activity_type=y" ++ newline ++ str_bytes "amount=1" ++ newline) (replicate 32 0) in
  occurs (authority_tag RegulatoryAuthority.FINRA) (ri_extra_fields input).
Proof.
  intros input. apply (generic_reports_lack_the_tag ReportFormat.FinraSAR input sample_config 100 200);
    [done|by vm_compute].
Defined.

Definition l_call (now : Z) (k : lcall) (r : RegulatoryReport) : RegulatoryReport := (lexec k now r).2.

Definition sample_ack : SubmissionAcknowledgment :=
  mkSubmissionAcknowledgment [1] [2] [3] [4] true [] [] 400 [5].
Definition r_submitted : RegulatoryReport := l_call 300 LSubmit (l_call 200 LValidate sample_report).
Definition r_accepted : RegulatoryReport := l_call 400 (LAcknowledge sample_ack) r_submitted.

Lemma final_states_are_final_witness :
  lexec LCancel 500 r_accepted = (Err (Raise ReportingError.InvalidStatusTransition), r_accepted).
Proof. by apply (final_states_are_final r_accepted LCancel 500). Defined.

Lemma accepted_reports_were_submitted_witness :
  exists v s, rtc lstep sample_report v /\ rr_status v = ReportStatus.Validated /\
    rtc lstep v s /\ rr_status s = ReportStatus.Submitted /\ lstep s r_accepted.
Proof.
  apply (accepted_reports_were_submitted sample_report r_accepted); [|done|done].
  eapply rtc_l; [by apply (lstep_call LValidate 200)|].
  eapply rtc_l; [by apply (lstep_call LSubmit 300)|].
  apply rtc_once. by apply (lstep_call (LAcknowledge sample_ack) 400).
Defined.

Definition sample_shl (a b : Z) : Z := Z.max 0 (Z.min (Z.shiftl a b) u64_max).

Lemma submission_respects_limits_witness :
  exists sub, create_submission sample_shl r_submitted 3 sample_config 500 = Ok sub /\
    sb_retry_after sub = 740 /\ 500 <= sb_retry_after sub <= 86900.
Proof.
  destruct (create_submission sample_shl r_submitted 3 sample_config 500) as [sub|e] eqn:R;
    [|vm_compute in R; discriminate].
  exists sub. split; [done|]. split; [vm_compute in R; by injection R as <-|].
  apply (submission_respects_limits sample_shl r_submitted 3 sample_config 500 sub); [|done|exact R].
  intros a b. unfold sample_shl. apply Z.le_max_l.
Defined.
