(* ===== verification/TrailProps.v ===== *)
(** * Properties of the reporting audit trail

    Verification decides that the entries are chained ([Chained]); whatever the
    recording functions build verifies; two verified trails that end in the same
    hash agree on everything that is hashed - which leaves out the actor and the
    resulting status. *)

From stdpp Require Import relations.
From S2P Require Import Prelude Contract Fallible StorageLemmas Codec Sample ReportTypes ReportTracker.

Section TrailProps.
Context `{C : Crypto}.

(** The bytes that are hashed for an entry. *)
Definition preimage (e : ReportingAuditEntry) : Bytes :=
  ae_report_id e ++ u32_to_bytes (ReportAction.code (ae_action e)) ++ u32_to_bytes (ae_sequence e)
  ++ u64_to_bytes (ae_timestamp e) ++ ae_context e ++ ae_prev_entry_hash e.

(** Every entry links to the hash before it and carries the hash of its own
    fields. *)
Fixpoint Chained (prev : Hash) (t : Trail) : Prop :=
  match t with
  | [] => True
  | e :: t => ae_prev_entry_hash e = prev /\ ae_entry_hash e = sha256 (preimage e)
              /\ Chained (ae_entry_hash e) t
  end.

(** The hash a trail ends in. *)
Definition last_hash (prev : Hash) (t : Trail) : Hash := default prev (ae_entry_hash <$> last t).

Lemma last_hash_cons prev e t : last_hash prev (e :: t) = last_hash (ae_entry_hash e) t.
Proof. unfold last_hash. destruct t as [|e' t]; [done|]. rewrite last_cons_cons. by destruct (last (e' :: t)) eqn:E; [|apply last_None in E]. Qed.

Lemma last_hash_snoc prev t e : last_hash prev (t ++ [e]) = ae_entry_hash e.
Proof. unfold last_hash. by rewrite last_snoc. Qed.

Lemma Chained_app prev t k : Chained prev (t ++ k) <-> Chained prev t /\ Chained (last_hash prev t) k.
Proof.
  revert prev. induction t as [|e t IH]; intros prev; simpl; [naive_solver|].
  rewrite IH, last_hash_cons. naive_solver.
Qed.

(** The hash before a position is the last of the entries before it. *)
Lemma prev_hash_at_last t i e :
  vget t i = Some e -> prev_hash_at t i = Some (last_hash zero32 (take (Z.to_nat i) t)).
Proof.
  intros He. pose proof (vget_Some_bounds _ _ _ He) as Hb. unfold prev_hash_at.
  destruct (Z.eqb_spec i 0) as [->|Hi]; [done|].
  destruct (vget_is_Some t (i - 1)) as [x Hx]; [lia|]. rewrite Hx. simpl. f_equal.
  assert (take (Z.to_nat i) t = take (Z.to_nat (i - 1)) t ++ [x]) as ->.
  { unfold vget in Hx. destruct (Z.leb 0 (i - 1)); [|done].
    replace (Z.to_nat i) with (S (Z.to_nat (i - 1))) by lia. by apply take_S_r. }
  by rewrite last_hash_snoc.
Qed.

Lemma take_vget_snoc {A} (t : list A) i x :
  vget t i = Some x -> take (Z.to_nat (i + 1)) t = take (Z.to_nat i) t ++ [x].
Proof.
  intros Hx. pose proof (vget_Some_bounds _ _ _ Hx). unfold vget in Hx.
  destruct (Z.leb 0 i); [|done]. replace (Z.to_nat (i + 1)) with (S (Z.to_nat i)) by lia.
  by apply take_S_r.
Qed.

Lemma verify_entry_spec t i :
  0 <= i < len t -> Chained zero32 (take (Z.to_nat i) t) ->
  verify_entry t i = None /\ Chained zero32 (take (Z.to_nat (i + 1)) t) \/
  verify_entry t i = Some i /\ ~ Chained zero32 (take (Z.to_nat (i + 1)) t).
Proof.
  intros Hi Hc. destruct (vget_is_Some t i) as [e He]; [lia|].
  rewrite (take_vget_snoc t i e He), Chained_app. unfold verify_entry. rewrite He.
  rewrite (prev_hash_at_last t i e He).
  change (compute_entry_hash _ _ _ _ _ _) with (sha256 (preimage e)). simpl.
  case_bool_decide as H1; [right; split; [done|]; naive_solver congruence|].
  case_bool_decide as H2; [right; split; [done|]; naive_solver|].
  left. split; [done|]. split_and!; try done. congruence.
Qed.

Lemma verify_from_spec t n a :
  a = len t - Z.of_nat n -> 0 <= a -> Chained zero32 (take (Z.to_nat a) t) ->
  match verify_from t (range a (len t)) with
  | None => Chained zero32 t
  | Some i => a <= i < len t /\ Chained zero32 (take (Z.to_nat i) t) /\
              ~ Chained zero32 (take (Z.to_nat (i + 1)) t)
  end.
Proof.
  revert a. induction n as [|n IH]; intros a -> Ha Hc.
  - rewrite range_nil by lia. simpl. by rewrite take_ge in Hc by (unfold len in *; lia).
  - rewrite range_cons by lia. simpl.
    destruct (verify_entry_spec t (len t - Z.of_nat (S n))) as [[-> H]|[-> H]]; [lia|done| |].
    + specialize (IH (len t - Z.of_nat (S n) + 1)).
      destruct (verify_from _ _) as [i|]; [|apply IH; [lia|lia|done]].
      destruct IH as (? & ?); [lia|lia|done|]. split; [lia|done].
    + split; [lia|]. done.
Qed.

Lemma verify_trail_spec t :
  match verify_trail t with
  | None => Chained zero32 t
  | Some i => 0 <= i < len t /\ Chained zero32 (take (Z.to_nat i) t) /\
              ~ Chained zero32 (take (Z.to_nat (i + 1)) t)
  end.
Proof. apply (verify_from_spec t (length t)); [unfold len; lia|done|done]. Qed.

Lemma verify_trail_None t : verify_trail t = None <-> Chained zero32 t.
Proof.
  pose proof (verify_trail_spec t) as H. destruct (verify_trail t) as [i|]; [|done].
  split; [done|]. intros Hc. destruct H as (_ & _ & []).
  rewrite <- (take_drop (Z.to_nat (i + 1)) t) in Hc. by apply Chained_app in Hc as [Hc _].
Qed.

(** ** Recording *)

(** The recording functions of the source. *)
Inductive record_call : Type :=
  | RcGenerated (id : Hash) (actor : Address) (format : Bytes) (t : Z)
  | RcValidated (id : Hash) (actor : Address) (passed : bool) (errors t : Z)
  | RcSubmitted (id : Hash) (actor : Address) (submission : Hash) (attempt t : Z)
  | RcAcknowledged (id : Hash) (actor : Address) (ack : Hash) (accepted : bool) (t : Z)
  | RcAccepted (id : Hash) (actor : Address) (reference : Bytes) (t : Z)
  | RcRejected (id : Hash) (actor : Address) (reason : Bytes) (codes : list Bytes) (t : Z)
  | RcCancelled (id : Hash) (actor : Address) (reason : Bytes) (t : Z)
  | RcOverdue (id : Hash) (actor : Address) (deadline t : Z).

Definition record_exec (k : record_call) (trail : Trail) : ReportingAuditEntry * Trail :=
  match k with
  | RcGenerated i a f t => record_generated trail i a f t
  | RcValidated i a p e t => record_validated trail i a p e t
  | RcSubmitted i a s n t => record_submitted trail i a s n t
  | RcAcknowledged i a k b t => record_acknowledgment_received trail i a k b t
  | RcAccepted i a r t => record_accepted trail i a r t
  | RcRejected i a r c t => record_rejected trail i a r c t
  | RcCancelled i a r t => record_cancelled trail i a r t
  | RcOverdue i a d t => record_overdue trail i a d t
  end.

Inductive recorded : Trail -> Trail -> Prop :=
  | recorded_call k t e t' : record_exec k t = (e, t') -> recorded t t'.

(** An appended entry is chained, and bears its position. *)
Lemma recorded_inv t t' :
  recorded t t' -> exists e, t' = t ++ [e] /\ ae_sequence e = len t /\
    ae_prev_entry_hash e = last_hash zero32 t /\ ae_entry_hash e = sha256 (preimage e).
Proof.
  intros [k u e v H].
  assert (exists i a ac s cx tm, append_entry u i a ac s cx tm = (e, v)) as (i & a & ac & s & cx & tm & E)
    by (destruct k; by repeat eexists).
  unfold append_entry in E. injection E as <- <-. eexists. split; [done|]. simpl.
  assert (default zero32 (prev_hash_at u (len u)) = last_hash zero32 u) as ->; [|done].
  unfold prev_hash_at. destruct u as [|x u _] using rev_ind; [done|].
  rewrite last_hash_snoc, len_app. change (len [x]) with 1. pose proof (len_nonneg u).
  destruct (Z.eqb_spec (len u + 1) 0) as [E|_]; [lia|]. replace (len u + 1 - 1) with (len u) by lia.
  rewrite vget_app_r by lia. by rewrite Z.sub_diag.
Qed.

(** What the recording functions build verifies, numbers its entries by their
    positions, and only grows. *)
Theorem recorded_trails_verify t t' :
  rtc recorded [] t -> rtc recorded t t' ->
  verify_trail t = None /\ (forall i e, vget t i = Some e -> ae_sequence e = i) /\ t `prefix_of` t'.
Proof.
  intros H Hl. assert (Chained zero32 t /\ forall i e, vget t i = Some e -> ae_sequence e = i) as [Hc Hs].
  { clear Hl. revert t H. apply rtc_invariant.
    { split; [done|]. intros i e He. apply vget_Some_bounds in He. unfold len in He. simpl in He. lia. }
    intros y z _ [Hc Hs] (e & -> & He & Hp & Hh)%recorded_inv. split.
    - rewrite Chained_app. split; [done|]. by split_and!.
    - intros i x Hx. pose proof (vget_Some_bounds _ _ _ Hx) as Hb. rewrite len_app in Hb.
      destruct (decide (i < len y)) as [Hi|Hi].
      + apply Hs. by rewrite vget_app_l in Hx.
      + assert (i = len y + 0) as -> by (unfold len in *; simpl in *; lia).
        rewrite vget_app_r in Hx by lia. replace (len y + 0 - len y) with 0 in Hx by lia.
        injection Hx as <-. lia. }
  split; [by apply verify_trail_None|]. split; [done|].
  revert t' Hl. apply rtc_invariant; [done|]. intros y z _ Hy (e & -> & _)%recorded_inv.
  by apply prefix_app_r.
Qed.

(** ** Tamper evidence *)

(** Fields of their Rust types. *)
Definition shaped (e : ReportingAuditEntry) : Prop :=
  length (ae_report_id e) = 32%nat /\ length (ae_prev_entry_hash e) = 32%nat /\
  is_u32 (ae_sequence e) /\ is_u64 (ae_timestamp e).

(** The hashed fields of two entries agree. *)
Definition same_record (e e' : ReportingAuditEntry) : Prop :=
  ae_report_id e = ae_report_id e' /\ ae_action e = ae_action e' /\
  ae_sequence e = ae_sequence e' /\ ae_timestamp e = ae_timestamp e' /\
  ae_context e = ae_context e' /\ ae_prev_entry_hash e = ae_prev_entry_hash e' /\
  ae_entry_hash e = ae_entry_hash e'.

Lemma code_is_u32 a : is_u32 (ReportAction.code a).
Proof. destruct a; done. Qed.

Lemma code_inj a b : ReportAction.code a = ReportAction.code b -> a = b.
Proof. by destruct a, b. Qed.

(** The bytes of a [u64] as digits of iterated quotients. *)
Definition q256 (n : nat) (v : Z) : Z := Nat.iter n (fun x => x / 256) v.

Lemma q256_shiftr n v : q256 n v = Z.shiftr v (8 * Z.of_nat n).
Proof.
  induction n as [|n IH]; [by rewrite Z.shiftr_0_r|]. simpl. rewrite IH.
  change 256 with (2 ^ 8). rewrite <- Z.shiftr_div_pow2, Z.shiftr_shiftr by lia. f_equal. lia.
Qed.

Lemma u64_to_bytes_digits v :
  u64_to_bytes v = [q256 0 v mod 256; q256 1 v mod 256; q256 2 v mod 256; q256 3 v mod 256;
                    q256 4 v mod 256; q256 5 v mod 256; q256 6 v mod 256; q256 7 v mod 256].
Proof.
  unfold u64_to_bytes. rewrite !q256_shiftr, !land_255.
  change (8 * Z.of_nat 0) with 0. by rewrite Z.shiftr_0_r.
Qed.

Lemma q256_end v : is_u64 v -> q256 8 v = 0.
Proof.
  intros H. rewrite q256_shiftr, Z.shiftr_div_pow2 by lia. apply Z.div_small.
  unfold is_u64, u64_max in H. simpl. lia.
Qed.

Lemma u64_to_bytes_inj v w : is_u64 v -> is_u64 w -> u64_to_bytes v = u64_to_bytes w -> v = w.
Proof.
  intros Hv%q256_end Hw%q256_end E. rewrite !u64_to_bytes_digits in E.
  injection E as E0 E1 E2 E3 E4 E5 E6 E7.
  assert (forall n, q256 n v mod 256 = q256 n w mod 256 -> q256 (S n) v = q256 (S n) w ->
    q256 n v = q256 n w) as Hstep.
  { intros n Hm Hq. simpl in Hq. rewrite (Z.div_mod (q256 n v) 256), (Z.div_mod (q256 n w) 256) by lia.
    by rewrite Hm, Hq. }
  apply (Hstep 0%nat E0), (Hstep 1%nat E1), (Hstep 2%nat E2), (Hstep 3%nat E3), (Hstep 4%nat E4),
    (Hstep 5%nat E5), (Hstep 6%nat E6), (Hstep 7%nat E7). congruence.
Qed.

Lemma preimage_inj e e' :
  shaped e -> shaped e' -> preimage e = preimage e' ->
  ae_report_id e = ae_report_id e' /\ ae_action e = ae_action e' /\
  ae_sequence e = ae_sequence e' /\ ae_timestamp e = ae_timestamp e' /\
  ae_context e = ae_context e' /\ ae_prev_entry_hash e = ae_prev_entry_hash e'.
Proof.
  intros (L1 & L2 & Q & T) (L1' & L2' & Q' & T') E. unfold preimage in E.
  apply app_inj_1 in E as [Ei E]; [|congruence].
  apply app_inj_1 in E as [Ea E]; [|done]. apply app_inj_1 in E as [Es E]; [|done].
  apply app_inj_1 in E as [Et E]; [|done]. apply app_inj_2 in E as [Ec Ep]; [|congruence].
  split_and!; try done.
  - apply code_inj. by apply u32_to_bytes_inj; [apply code_is_u32|apply code_is_u32|].
  - by apply u32_to_bytes_inj.
  - by apply u64_to_bytes_inj.
Qed.

(** No two different inputs of the hash collide among the entries of the trails. *)
Definition no_collision (t1 t2 : Trail) : Prop :=
  forall e1 e2, e1 ∈ t1 -> e2 ∈ t2 -> sha256 (preimage e1) = sha256 (preimage e2) ->
    preimage e1 = preimage e2.

(** C32: Two verified trails of one length that end in the same hash record the same
    things, entry by entry: nothing that is hashed can be changed without
    changing the last hash. *)
Theorem trails_are_tamper_evident t1 t2 :
  verify_trail t1 = None -> verify_trail t2 = None -> no_collision t1 t2 ->
  Forall shaped t1 -> Forall shaped t2 -> length t1 = length t2 ->
  last_hash zero32 t1 = last_hash zero32 t2 -> Forall2 same_record t1 t2.
Proof.
  rewrite !verify_trail_None. revert t2. induction t1 as [|e1 t1 IH] using rev_ind;
    intros t2 H1 H2 Hn S1 S2 Hl He.
  { by destruct t2. }
  destruct t2 as [|e2 t2 _] using rev_ind; [rewrite length_app in Hl; simpl in Hl; lia|].
  rewrite !last_hash_snoc in He. rewrite Chained_app in H1, H2.
  destruct H1 as [H1 (P1 & E1 & _)], H2 as [H2 (P2 & E2 & _)].
  apply Forall_app in S1 as [S1 [Se1 _]%Forall_cons], S2 as [S2 [Se2 _]%Forall_cons].
  assert (preimage e1 = preimage e2) as Ep.
  { apply Hn; [set_solver|set_solver|congruence]. }
  destruct (preimage_inj e1 e2 Se1 Se2 Ep) as (? & ? & ? & ? & ? & Hp).
  apply Forall2_app; [|constructor; [by split_and!|constructor]].
  apply IH; try done.
  - intros x y Hx Hy. apply Hn; set_solver.
  - rewrite !length_app in Hl. simpl in Hl. lia.
  - congruence.
Qed.

(** ** What is not hashed *)

(** Replacing the actor and the resulting status of an entry. *)
Definition reattribute (f : ReportingAuditEntry -> Address * ReportStatus) (e : ReportingAuditEntry)
    : ReportingAuditEntry :=
  mkReportingAuditEntry (ae_sequence e) (ae_report_id e) (ae_action e) (f e).1 (ae_timestamp e)
    (ae_prev_entry_hash e) (ae_entry_hash e) (ae_context e) (f e).2.

(** The actor and the resulting status of an entry are outside its hash: a trail
    in which they are replaced verifies just as before. *)
Theorem actors_are_not_protected f t :
  verify_trail t = None -> verify_trail (reattribute f <$> t) = None.
Proof.
  rewrite !verify_trail_None. generalize zero32 as prev.
  induction t as [|e t IH]; intros prev; [done|]. intros (? & ? & ?). split_and!; try done. by apply IH.
Qed.

(** Entries can be cut off the end: a beginning of a verified trail verifies. *)
Theorem truncation_is_not_detected n t :
  verify_trail t = None -> verify_trail (take n t) = None.
Proof.
  rewrite !verify_trail_None. intros H. rewrite <- (take_drop n t) in H. by apply Chained_app in H as [H _].
Qed.

(** Verification finds the first entry that is not chained, or none when the
    whole trail is. *)
Theorem verification_finds_first_break t :
  match verify_trail t with
  | None => Chained zero32 t
  | Some i => 0 <= i < len t /\ Chained zero32 (take (Z.to_nat i) t) /\
              ~ Chained zero32 (take (Z.to_nat (i + 1)) t)
  end.
Proof. apply verify_trail_spec. Qed.

End TrailProps.

(** ** The properties at concrete trails *)

(** A hash that keeps the sequence number of an entry. *)
Definition seq_hash (l : Bytes) : Hash := take 32 (take 4 (drop 36 l) ++ replicate 32 0).
#[local] Instance trail_crypto : Crypto := {|
  sha256 := seq_hash; sym_payload := fun s => Z.of_nat (String.length s) |}.

Definition trail_id : Hash := replicate 32 42.
Definition trail2 : Trail :=
  (record_exec (RcValidated trail_id alice true 0 110)
     (record_exec (RcGenerated trail_id alice [1] 100) []).2).2.
Definition trail3 : Trail := (record_exec (RcSubmitted trail_id alice [7] 1 120) trail2).2.

Lemma trail2_recorded : rtc recorded [] trail2.
Proof.
  eapply rtc_l; [by eapply (recorded_call (RcGenerated trail_id alice [1] 100))|].
  apply rtc_once. by eapply (recorded_call (RcValidated trail_id alice true 0 110)).
Qed.

Lemma recorded_trails_verify_witness :
  verify_trail trail2 = None /\ trail2 `prefix_of` trail3.
Proof.
  destruct (recorded_trails_verify trail2 trail3 trail2_recorded) as (H & _ & P); [|by split].
  apply rtc_once. by eapply (recorded_call (RcSubmitted trail_id alice [7] 1 120)).
Defined.

(** The same trail with another actor. *)
Definition forged : Trail := reattribute (fun _ => (owner, ReportStatus.Accepted)) <$> trail2.

Lemma trails_are_tamper_evident_witness : forged <> trail2 /\ Forall2 same_record trail2 forged.
Proof.
  split; [by vm_compute|].
  apply trails_are_tamper_evident; [by vm_compute|by vm_compute| | | |done|by vm_compute].
  - intros e1 e2 H1 H2. assert (Forall (fun e1 => Forall (fun e2 =>
      sha256 (preimage e1) = sha256 (preimage e2) -> preimage e1 = preimage e2) forged) trail2) as F
      by (apply (bool_decide_unpack _); by vm_compute).
    rewrite Forall_forall in F. specialize (F e1 H1). rewrite Forall_forall in F. by apply F.
  - repeat constructor; done.
  - repeat constructor; done.
Defined.

Lemma actors_are_not_protected_witness : verify_trail forged = None.
Proof. apply actors_are_not_protected. by vm_compute. Defined.
