(* ===== verification/Capacity.v ===== *)
(** * Capacity planning

    The capacity module of src/capacity_planning.rs: a ring of telemetry
    snapshots, quota tiers and the usage of each submitter, scaling
    recommendations and the scaling policy, all in persistent storage.

    The second part of the file: properties of the capacity planning. *)

From stdpp Require Import relations.
From S2P Require Import Prelude Contract StorageLemmas Sample.

(** ** Data *)

Module CapacityError.
(** [CapacityError], src/capacity_planning.rs:23-38 *)
Inductive CapacityError : Set :=
  | QuotaTierNotFound
  | QuotaExceeded
  | BurstRateExceeded
  | UnauthorizedAdmin
  | InvalidRecommendation
  | TelemetryCapacityExceeded
  | InvalidPolicyBounds.
End CapacityError.
Abbreviation CapacityError := CapacityError.CapacityError.

(** [CapacityMetricRecord], src/capacity_planning.rs:44-53 *)
Record CapacityMetricRecord := mkCapacityMetricRecord {
  cm_timestamp : Z;
  cm_current_tps : Z;
  cm_peak_tps : Z;
  cm_storage_bytes_used : Z;
  cm_active_submitters : Z;
  cm_gas_consumed_stroops : Z;
  cm_cpu_utilization_basis_pts : Z;
  cm_memory_mb_used : Z }.

(** [QuotaTier], src/capacity_planning.rs:57-65 *)
Record QuotaTier := mkQuotaTier {
  qt_tier_id : Z;
  qt_tier_name : Symbol;
  qt_max_daily_events : Z;
  qt_max_burst_tps : Z;
  qt_storage_quota_bytes : Z;
  qt_max_batch_size : Z;
  qt_cost_per_million_events_stroops : Z }.

(** [SubmitterQuotaRecord], src/capacity_planning.rs:69-76 *)
Record SubmitterQuotaRecord := mkSubmitterQuotaRecord {
  sq_submitter : Address;
  sq_tier_id : Z;
  sq_events_in_current_window : Z;
  sq_window_start : Z;
  sq_is_throttled : bool;
  sq_total_cost_billed_stroops : Z }.

(** [ScalingRecommendationRecord], src/capacity_planning.rs:80-90 *)
Record ScalingRecommendationRecord := mkScalingRecommendationRecord {
  sr_timestamp : Z;
  sr_recommended_min_replicas : Z;
  sr_recommended_max_replicas : Z;
  sr_recommended_cpu_millicores : Z;
  sr_recommended_memory_mb : Z;
  sr_forecast_horizon_hours : Z;
  sr_confidence_score_percent : Z;
  sr_estimated_monthly_cost_usd : Z;
  sr_model_digest : Hash }.

(** [CapacityPolicy], src/capacity_planning.rs:94-102 *)
Record CapacityPolicy := mkCapacityPolicy {
  cp_auto_scaling_enabled : bool;
  cp_target_cpu_percent : Z;
  cp_target_tps_per_replica : Z;
  cp_cooldown_period_seconds : Z;
  cp_min_replicas : Z;
  cp_max_replicas : Z;
  cp_last_scaled_at : Z }.

Module CapacityStorageKey.
(** [CapacityStorageKey], src/capacity_planning.rs:108-115 *)
Inductive CapacityStorageKey : Set :=
  | TelemetrySnapshot (index : Z)
  | TelemetryCount
  | Tier (id : Z)
  | SubmitterQuota (a : Address)
  | LatestRecommendation
  | Policy.
#[global] Instance CapacityStorageKey_eq_dec : EqDecision CapacityStorageKey.
Proof. solve_decision. Defined.
End CapacityStorageKey.
Abbreviation CapacityStorageKey := CapacityStorageKey.CapacityStorageKey.

(** ** Layout *)

Inductive CapacityTy : Set := QvMetric | QvCount | QvTier | QvQuota | QvRecommendation | QvPolicy.
#[global] Instance CapacityTy_eq_dec : EqDecision CapacityTy.
Proof. solve_decision. Defined.

Definition capacity_el (t : CapacityTy) : Type :=
  match t with
  | QvMetric => CapacityMetricRecord
  | QvCount => Z
  | QvTier => QuotaTier
  | QvQuota => SubmitterQuotaRecord
  | QvRecommendation => ScalingRecommendationRecord
  | QvPolicy => CapacityPolicy
  end.

Definition capacity_key_ty (k : CapacityStorageKey) : CapacityTy :=
  match k with
  | CapacityStorageKey.TelemetrySnapshot _ => QvMetric
  | CapacityStorageKey.TelemetryCount => QvCount
  | CapacityStorageKey.Tier _ => QvTier
  | CapacityStorageKey.SubmitterQuota _ => QvQuota
  | CapacityStorageKey.LatestRecommendation => QvRecommendation
  | CapacityStorageKey.Policy => QvPolicy
  end.

Canonical capacity_layout : Layout := {|
  key := CapacityStorageKey; ty := CapacityTy; el := capacity_el;
  layout_key_ty := capacity_key_ty;
  key_dec := _; ty_dec := _; error := CapacityError; datum := Payload |}.

#[local] Abbreviation M := (CM capacity_layout).
#[local] Abbreviation store := (kvstore capacity_layout).
#[local] Abbreviation St := (CSt capacity_layout).

(** ** Operations *)

(** [record_telemetry], src/capacity_planning.rs:123-143 *)
Definition record_telemetry (caller : Address) (metric : CapacityMetricRecord) : M unit :=
  do* require_auth caller in
  let* count := pget_or CapacityStorageKey.TelemetryCount 0 in
  let next_idx := count mod 1000 in
  do* pset (CapacityStorageKey.TelemetrySnapshot next_idx) metric in
  let* count := u32_add count 1 in
  pset CapacityStorageKey.TelemetryCount count.

(** [set_quota_tier], src/capacity_planning.rs:146-154 *)
Definition set_quota_tier (admin : Address) (tier : QuotaTier) : M unit :=
  do* require_auth admin in
  pset (CapacityStorageKey.Tier (qt_tier_id tier)) tier.

(** [set_submitter_quota], src/capacity_planning.rs:157-181 *)
Definition set_submitter_quota (admin submitter : Address) (tier_id : Z) : M unit :=
  do* require_auth admin in
  let* there := phas (CapacityStorageKey.Tier tier_id) in
  do* reject_if (negb there) CapacityError.QuotaTierNotFound in
  let* now := ledger_timestamp in
  pset (CapacityStorageKey.SubmitterQuota submitter)
    (mkSubmitterQuotaRecord submitter tier_id 0 now false 0).

(** The tier where none is stored, src/capacity_planning.rs:208-216 *)
Definition standard_tier : QuotaTier := mkQuotaTier 1 "standard" 100000 50 1000000000 100 5000000.

(** The reset of the 24-hour window, src/capacity_planning.rs:218-224 *)
Definition roll_window (r : SubmitterQuotaRecord) (now : Z) : M SubmitterQuotaRecord :=
  let* window_end := u64_add (sq_window_start r) 86400 in
  ret (if Z.leb window_end now
       then mkSubmitterQuotaRecord (sq_submitter r) (sq_tier_id r) 0 now false
              (sq_total_cost_billed_stroops r)
       else r).

(** [consume_quota], src/capacity_planning.rs:184-238 *)
Definition consume_quota (submitter : Address) (event_count : Z) : M bool :=
  do* require_auth submitter in
  let sub_key := CapacityStorageKey.SubmitterQuota submitter in
  let* now := ledger_timestamp in
  let* sub_record := pget_or sub_key (mkSubmitterQuotaRecord submitter 1 0 now false 0) in
  let* tier := pget_or (CapacityStorageKey.Tier (sq_tier_id sub_record)) standard_tier in
  let* sub_record := roll_window sub_record now in
  let* events := u64_add (sq_events_in_current_window sub_record) event_count in
  if Z.ltb (qt_max_daily_events tier) events then
    do* pset sub_key (mkSubmitterQuotaRecord (sq_submitter sub_record) (sq_tier_id sub_record)
          (sq_events_in_current_window sub_record) (sq_window_start sub_record) true
          (sq_total_cost_billed_stroops sub_record)) in
    raise CapacityError.QuotaExceeded
  else
    let* product := u64_mul event_count (qt_cost_per_million_events_stroops tier) in
    let batch_cost := product / 1000000 in
    let* billed := u64_add (sq_total_cost_billed_stroops sub_record) batch_cost in
    do* pset sub_key (mkSubmitterQuotaRecord (sq_submitter sub_record) (sq_tier_id sub_record)
          events (sq_window_start sub_record) (sq_is_throttled sub_record) billed) in
    ret true.

(** [record_recommendation], src/capacity_planning.rs:241-255 *)
Definition record_recommendation (reporter : Address) (rec : ScalingRecommendationRecord)
    : M unit :=
  do* require_auth reporter in
  do* reject_if (Z.eqb (sr_recommended_min_replicas rec) 0
                 || Z.ltb (sr_recommended_max_replicas rec) (sr_recommended_min_replicas rec))
        CapacityError.InvalidRecommendation in
  pset CapacityStorageKey.LatestRecommendation rec.

(** [update_policy], src/capacity_planning.rs:258-272 *)
Definition update_policy (admin : Address) (policy : CapacityPolicy) : M unit :=
  do* require_auth admin in
  do* reject_if (Z.eqb (cp_min_replicas policy) 0
                 || Z.ltb (cp_max_replicas policy) (cp_min_replicas policy))
        CapacityError.InvalidPolicyBounds in
  pset CapacityStorageKey.Policy policy.

(** [get_latest_recommendation], src/capacity_planning.rs:275-277 *)
Definition get_latest_recommendation : M (option ScalingRecommendationRecord) :=
  pget CapacityStorageKey.LatestRecommendation.

(** [get_policy], src/capacity_planning.rs:280-282 *)
Definition get_policy : M (option CapacityPolicy) := pget CapacityStorageKey.Policy.

(** [get_submitter_quota], src/capacity_planning.rs:285-288 *)
Definition get_submitter_quota (submitter : Address) : M (option SubmitterQuotaRecord) :=
  pget (CapacityStorageKey.SubmitterQuota submitter).

(** [get_quota_tier], src/capacity_planning.rs:291-294 *)
Definition get_quota_tier (tier_id : Z) : M (option QuotaTier) :=
  pget (CapacityStorageKey.Tier tier_id).

(** ** The transition system *)

Inductive qcall : Type :=
  | QTelemetry (caller : Address) (metric : CapacityMetricRecord)
  | QTier (admin : Address) (tier : QuotaTier)
  | QAssign (admin submitter : Address) (tier_id : Z)
  | QConsume (submitter : Address) (event_count : Z)
  | QRecommend (reporter : Address) (rec : ScalingRecommendationRecord)
  | QPolicy (admin : Address) (policy : CapacityPolicy).

Definition qexec (k : qcall) : M unit :=
  match k with
  | QTelemetry a x => record_telemetry a x
  | QTier a x => set_quota_tier a x
  | QAssign a b i => set_submitter_quota a b i
  | QConsume a n => do* consume_quota a n in ret tt
  | QRecommend a x => record_recommendation a x
  | QPolicy a x => update_policy a x
  end.

Inductive qstep : St -> St -> Prop :=
  | qstep_call k c s s' : qexec k c s = Ok (tt, s') -> qstep s s'.

(** * Properties of the capacity planning

    What a submitter consumes, what the ring of telemetry holds, and the bounds
    of the stored policies. *)


Definition quota (st : store) (a : Address) : option SubmitterQuotaRecord :=
  sget st (CapacityStorageKey.SubmitterQuota a).
Definition snapshot (st : store) (i : Z) : option CapacityMetricRecord :=
  sget st (CapacityStorageKey.TelemetrySnapshot i).
Definition snapshots (st : store) : Z := default 0 (sget st CapacityStorageKey.TelemetryCount).

(** ** Consumption *)

(** The record of a submitter, with the default of an unknown one, and its tier. *)
Definition usage (st : store) (a : Address) (now : Z) : SubmitterQuotaRecord :=
  default (mkSubmitterQuotaRecord a 1 0 now false 0) (quota st a).
Definition tier_of (st : store) (r : SubmitterQuotaRecord) : QuotaTier :=
  default standard_tier (sget st (CapacityStorageKey.Tier (sq_tier_id r))).

(** The usage of the day: nothing once the window is over. *)
Definition window_over (r : SubmitterQuotaRecord) (now : Z) : bool :=
  Z.leb (sq_window_start r + 86400) now.
Definition used (r : SubmitterQuotaRecord) (now : Z) : Z :=
  if window_over r now then 0 else sq_events_in_current_window r.

(** The record after [n] events within the quota. *)
Definition consumed (r : SubmitterQuotaRecord) (t : QuotaTier) (n now : Z) : SubmitterQuotaRecord :=
  mkSubmitterQuotaRecord (sq_submitter r) (sq_tier_id r) (used r now + n)
    (if window_over r now then now else sq_window_start r)
    (if window_over r now then false else sq_is_throttled r)
    (sq_total_cost_billed_stroops r + n * qt_cost_per_million_events_stroops t / 1000000).

(** The steps of a consumption that fits: two reads, the window, three checked
    operations. *)
Lemma roll_window_Ok r now c (s s' : St) r' :
  roll_window r now c s = Ok (r', s') ->
  s' = s /\ sq_submitter r' = sq_submitter r /\ sq_tier_id r' = sq_tier_id r /\
  sq_events_in_current_window r' = used r now /\
  sq_window_start r' = (if window_over r now then now else sq_window_start r) /\
  sq_is_throttled r' = (if window_over r now then false else sq_is_throttled r) /\
  sq_total_cost_billed_stroops r' = sq_total_cost_billed_stroops r.
Proof.
  unfold roll_window, used, window_over. intros R. apply bind_Ok in R as (w & s1 & R1 & R).
  apply u64_add_Ok in R1 as (-> & _ & ->). apply ret_Ok in R as [-> ->].
  by destruct (Z.leb _ _).
Qed.

Lemma consume_Ok a n c (s : St) b s' :
  consume_quota a n c s = Ok (b, s') ->
  let r := usage (pers s) a (cx_timestamp c) in let t := tier_of (pers s) r in
  b = true /\ cx_auth c a = true /\ used r (cx_timestamp c) + n <= qt_max_daily_events t /\
  s' = mkSt (inst s) (sset (pers s) (CapacityStorageKey.SubmitterQuota a)
                        (consumed r t n (cx_timestamp c))) (temp s) (published s) (host_calls s).
Proof.
  intros R r t. unfold consume_quota in R.
  apply bind_Ok in R as (u & s1 & R1 & R). apply require_auth_Ok in R1 as [Ha ->].
  rewrite (bind_run _ _ _ _ _ _ (eq_refl : ledger_timestamp c s = Ok (cx_timestamp c, s))) in R.
  apply bind_Ok in R as (r0 & s1 & R1 & R). injection R1 as E <-.
  assert (r0 = r) as -> by (symmetry; exact E). clear E.
  apply bind_Ok in R as (t0 & s1 & R1 & R). injection R1 as E <-.
  assert (t0 = t) as -> by (symmetry; exact E). clear E.
  apply bind_Ok in R as (r' & s2 & R2 & R).
  apply roll_window_Ok in R2 as (-> & E1 & E2 & E3 & E4 & E5 & E6).
  apply bind_Ok in R as (ev & s3 & R3 & R). apply u64_add_Ok in R3 as (-> & _ & ->).
  destruct (Z.ltb_spec (qt_max_daily_events t) (sq_events_in_current_window r' + n)) as [Hq|Hq].
  { by apply bind_Ok in R as (? & ? & _ & R). }
  apply bind_Ok in R as (p & s4 & R4 & R). apply u64_mul_Ok in R4 as (-> & _ & ->).
  apply bind_Ok in R as (bl & s5 & R5 & R). apply u64_add_Ok in R5 as (-> & _ & ->).
  minv. split; [done|]. split; [done|]. split; [congruence|].
  unfold consumed. by rewrite E1, E2, E3, E4, E5, E6.
Qed.

(** ** The ring of telemetry *)

(** The states in which [h] lists the metrics recorded so far. *)
Inductive qtrace : list CapacityMetricRecord -> St -> Prop :=
  | qtrace_empty : qtrace [] empty_state
  | qtrace_telemetry h a x c s s' :
      qtrace h s -> record_telemetry a x c s = Ok (tt, s') -> qtrace (h ++ [x]) s'
  | qtrace_other h k c s s' :
      qtrace h s -> match k with QTelemetry _ _ => False | _ => True end ->
      qexec k c s = Ok (tt, s') -> qtrace h s'.

Lemma other_keeps_ring k c (s s' : St) :
  match k with QTelemetry _ _ => False | _ => True end -> qexec k c s = Ok (tt, s') ->
  snapshots (pers s') = snapshots (pers s) /\ forall i, snapshot (pers s') i = snapshot (pers s) i.
Proof.
  intros Hk R. destruct k; try done; simpl in R.
  - unfold set_quota_tier in R. minv. split; [|intros i]; unfold snapshots, snapshot; by store_reads.
  - unfold set_submitter_quota in R. minv.
    split; [|intros i]; unfold snapshots, snapshot; by store_reads.
  - apply bind_Ok in R as (b & s1 & R & R2). injection R2 as <-. apply consume_Ok in R as (_ & _ & _ & ->).
    split; [|intros i]; unfold snapshots, snapshot; simpl; by store_reads.
  - unfold record_recommendation in R. minv.
    split; [|intros i]; unfold snapshots, snapshot; by store_reads.
  - unfold update_policy in R. minv.
    split; [|intros i]; unfold snapshots, snapshot; by store_reads.
Qed.

Lemma telemetry_Ok a x c (s s' : St) :
  record_telemetry a x c s = Ok (tt, s') ->
  snapshots (pers s') = snapshots (pers s) + 1 /\
  snapshot (pers s') (snapshots (pers s) mod 1000) = Some x /\
  (forall i, i <> snapshots (pers s) mod 1000 -> snapshot (pers s') i = snapshot (pers s) i).
Proof.
  unfold record_telemetry. intros R. minv. unfold snapshots, snapshot.
  split; [by store_reads|]. split; [by store_reads|]. intros i Hi. by store_reads.
Qed.

(** Within a thousand of each other, positions share a slot only if equal. *)
Lemma slot_inj j n : n - 1000 < j < n -> j mod 1000 <> n mod 1000.
Proof.
  intros H E. pose proof (Z.div_mod j 1000) as Hj. pose proof (Z.div_mod n 1000) as Hn. lia.
Qed.

Lemma ring_holds h s :
  qtrace h s -> snapshots (pers s) = len h /\
  forall j, len h - 1000 <= j < len h -> 0 <= j -> snapshot (pers s) (j mod 1000) = vget h j.
Proof.
  induction 1 as [|h a x c s s' _ [Hn Hr] R|h k c s s' _ [Hn Hr] Hk R].
  - split; [done|]. intros j Hj. unfold len in Hj. simpl in Hj. lia.
  - apply telemetry_Ok in R as (Hn' & Hx & Ho). rewrite Hn in *. rewrite len_app. change (len [x]) with 1.
    split; [done|]. intros j Hj H0. destruct (decide (j = len h)) as [->|Hne].
    + rewrite Hx, vget_app_r by lia. by rewrite Z.sub_diag.
    + rewrite Ho by (apply slot_inj; lia). rewrite vget_app_l by lia. apply Hr; lia.
  - apply other_keeps_ring in R as [E1 E2]; [|done]. rewrite E1. split; [done|].
    intros j Hj H0. by rewrite E2, Hr.
Qed.

(** ** Invariants *)

Record Sound (st : store) : Prop := {
  so_throttled : forall a r, quota st a = Some r -> sq_is_throttled r = false;
  so_policy : forall p, sget st CapacityStorageKey.Policy = Some p ->
    cp_min_replicas p <> 0 /\ cp_min_replicas p <= cp_max_replicas p;
  so_recommendation : forall r, sget st CapacityStorageKey.LatestRecommendation = Some r ->
    sr_recommended_min_replicas r <> 0 /\
    sr_recommended_min_replicas r <= sr_recommended_max_replicas r }.

Lemma Sound_other st k v :
  match k with
  | CapacityStorageKey.SubmitterQuota _ | CapacityStorageKey.LatestRecommendation
  | CapacityStorageKey.Policy => False
  | _ => True
  end -> Sound st -> Sound (sset st k v).
Proof.
  intros Hk [H1 H2 H3].
  split; unfold quota; intros; match goal with H : sget (sset _ _ _) _ = _ |- _ =>
    rewrite sset_ne in H by (intros ->; done); eauto end.
Qed.

Lemma Sound_quota st a r : sq_is_throttled r = false -> Sound st ->
  Sound (sset st (CapacityStorageKey.SubmitterQuota a) r).
Proof.
  intros Hr [H1 H2 H3]. split.
  - intros b x. unfold quota. destruct (decide (a = b)) as [->|Hne].
    + rewrite sset_eq. by intros [= <-].
    + rewrite sset_ne by congruence. apply H1.
  - intros p. rewrite sset_ne by done. apply H2.
  - intros x. rewrite sset_ne by done. apply H3.
Qed.

Lemma Sound_reachable s : rtc qstep empty_state s -> Sound (pers s).
Proof.
  revert s. apply rtc_invariant; [by split|]. intros y z _ HS H. revert HS.
  destruct H as [k c y z R]. intros HS. destruct k; simpl in R.
  - unfold record_telemetry in R. minv. by apply Sound_other, Sound_other.
  - unfold set_quota_tier in R. minv. by apply Sound_other.
  - unfold set_submitter_quota in R. minv. by apply Sound_quota.
  - apply bind_Ok in R as (b & s1 & R & R2). injection R2 as <-. apply consume_Ok in R as (_ & _ & _ & ->).
    apply Sound_quota; [|done]. simpl. destruct (window_over _ _); [done|]. unfold usage.
    destruct (quota (pers y) submitter) eqn:E; [|done]. by apply (so_throttled _ HS submitter).
  - unfold record_recommendation in R. minv. zcase. destruct HS as [H1 H2 H3]. split.
    + intros who q. unfold quota. rewrite sset_ne by done. apply H1.
    + intros x. rewrite sset_ne by done. apply H2.
    + intros x. rewrite sset_eq. by intros [= <-].
  - unfold update_policy in R. minv. zcase. destruct HS as [H1 H2 H3]. split.
    + intros who q. unfold quota. rewrite sset_ne by done. apply H1.
    + intros x. rewrite sset_eq. by intros [= <-].
    + intros x. rewrite sset_ne by done. apply H3.
Qed.

(** ** Properties *)

(** A consumption succeeds only within the quota of the day, for its submitter,
    and records the usage, the window and the cost; nothing else changes. *)
Theorem consumption_within_quota a n c s b s' :
  consume_quota a n c s = Ok (b, s') ->
  let r := usage (pers s) a (cx_timestamp c) in let t := tier_of (pers s) r in
  cx_auth c a = true /\
  (exists r', get_submitter_quota a c s' = Ok (Some r', s') /\ r' = consumed r t n (cx_timestamp c) /\
     sq_events_in_current_window r' <= qt_max_daily_events t) /\
  (forall k, k <> CapacityStorageKey.SubmitterQuota a -> sget (pers s') k = sget (pers s) k).
Proof.
  intros R r t. apply consume_Ok in R as (_ & Ha & Hq & ->). split; [done|]. split.
  - eexists. split; [unfold get_submitter_quota, pget; simpl; by rewrite sset_eq|]. split; [done|].
    exact Hq.
  - intros k Hk. simpl. by rewrite sset_ne by congruence.
Qed.

(** The ring of snapshots holds the last thousand metrics, each in its slot,
    and the counter counts all of them. *)
Theorem ring_keeps_last_thousand h s :
  qtrace h s -> snapshots (pers s) = len h /\
  forall j, len h - 1000 <= j < len h -> 0 <= j -> snapshot (pers s) (j mod 1000) = vget h j.
Proof. apply ring_holds. Qed.

(** A stored policy or recommendation asks for at least one replica and for no
    fewer at most than at least. *)
Theorem replica_bounds_are_ordered s :
  rtc qstep empty_state s ->
  (forall c p, get_policy c s = Ok (Some p, s) ->
     cp_min_replicas p <> 0 /\ cp_min_replicas p <= cp_max_replicas p) /\
  (forall c r, get_latest_recommendation c s = Ok (Some r, s) ->
     sr_recommended_min_replicas r <> 0 /\
     sr_recommended_min_replicas r <= sr_recommended_max_replicas r).
Proof.
  intros H%Sound_reachable. destruct H as [_ H2 H3]. split.
  - intros c p [= E]. by apply H2.
  - intros c r [= E]. by apply H3.
Qed.

(** The flag of a submitter over its quota never reaches the storage: the write
    is undone by the error that follows it. *)
Theorem nobody_is_throttled s a c r :
  rtc qstep empty_state s -> get_submitter_quota a c s = Ok (Some r, s) -> sq_is_throttled r = false.
Proof. intros H%Sound_reachable [= E]. by apply (so_throttled _ H a). Qed.

(** The cost of a batch is rounded down to whole stroops: a batch that costs
    less than one is free, however many of them are sent. *)
Theorem small_batches_are_free a n c s b s' :
  consume_quota a n c s = Ok (b, s') ->
  let r := usage (pers s) a (cx_timestamp c) in let t := tier_of (pers s) r in
  0 <= n * qt_cost_per_million_events_stroops t < 1000000 ->
  exists r', quota (pers s') a = Some r' /\
    sq_total_cost_billed_stroops r' = sq_total_cost_billed_stroops r.
Proof.
  intros R r t Hc. apply consume_Ok in R as (_ & _ & _ & ->). eexists. split.
  - unfold quota. simpl. by rewrite sset_eq.
  - fold r t. unfold consumed. simpl. rewrite Z.div_small by done. lia.
Qed.

(** ** The properties at concrete states *)

Definition q_call (t : Z) (k : qcall) (s : St) : St := post (qexec k) (at_time t) s.

Lemma q_call_step t k s : outcome (qexec k) (at_time t) s = Ok tt -> qstep s (q_call t k s).
Proof. intros H. apply (qstep_call k (at_time t)). by apply run_outcome. Qed.

Definition sample_metric (n : Z) : CapacityMetricRecord := mkCapacityMetricRecord n 1 2 3 4 5 6 7.
Definition sample_policy : CapacityPolicy := mkCapacityPolicy true 70 100 60 2 8 0.

Definition q_used : St := q_call 100 (QConsume alice 500) empty_state.
Definition q_policy : St := q_call 101 (QPolicy owner sample_policy) q_used.
Definition q_metric : St := q_call 102 (QTelemetry owner (sample_metric 7)) empty_state.

Lemma q_policy_reachable : rtc qstep empty_state q_policy.
Proof. eapply rtc_l; [|apply rtc_once]; apply q_call_step; vm_compute; reflexivity. Qed.

Lemma consumption_within_quota_witness :
  exists b s' r', consume_quota alice 99000 (at_time 200) q_used = Ok (b, s') /\
    get_submitter_quota alice (at_time 200) s' = Ok (Some r', s') /\
    sq_events_in_current_window r' = 99500 /\ sq_events_in_current_window r' <= 100000.
Proof.
  destruct (consume_quota alice 99000 (at_time 200) q_used) as [[b s']|f] eqn:R;
    [|exfalso; vm_compute in R; discriminate].
  destruct (consumption_within_quota _ _ _ _ _ _ R) as (_ & (r' & H1 & H2 & H3) & _).
  exists b, s', r'. split; [done|]. split; [done|]. split; [rewrite H2; vm_compute; reflexivity|].
  exact H3.
Defined.

Lemma ring_keeps_last_thousand_witness :
  snapshots (pers q_metric) = 1 /\ snapshot (pers q_metric) 0 = Some (sample_metric 7).
Proof.
  assert (qtrace ([] ++ [sample_metric 7]) q_metric) as H.
  { eapply (qtrace_telemetry [] owner (sample_metric 7) (at_time 102) empty_state);
      [constructor|]. apply (run_outcome (qexec (QTelemetry owner (sample_metric 7)))).
    vm_compute. reflexivity. }
  destruct (ring_keeps_last_thousand _ _ H) as [H1 H2]. split; [exact H1|]. by apply (H2 0).
Defined.

Lemma replica_bounds_are_ordered_witness :
  get_policy (at_time 300) q_policy = Ok (Some sample_policy, q_policy) /\
  cp_min_replicas sample_policy <= cp_max_replicas sample_policy.
Proof.
  assert (get_policy (at_time 300) q_policy = Ok (Some sample_policy, q_policy)) as H
    by (vm_compute; reflexivity).
  split; [exact H|]. by apply (replica_bounds_are_ordered q_policy q_policy_reachable) in H.
Defined.

Lemma nobody_is_throttled_witness :
  exists r, get_submitter_quota alice (at_time 300) q_policy = Ok (Some r, q_policy) /\
    sq_is_throttled r = false.
Proof.
  assert (exists r, get_submitter_quota alice (at_time 300) q_policy = Ok (Some r, q_policy)) as [r H]
    by (eexists; vm_compute; reflexivity).
  exists r. split; [exact H|]. by apply (nobody_is_throttled q_policy alice _ r q_policy_reachable) in H.
Defined.
