(* ===== verification/Passports.v ===== *)
(** * Digital product passports

    The passports of src/digital_passport.rs: creation and update, the
    lifecycle with its history, repairs, recycling, refurbishment, compliance
    checks, exports and queries, all in persistent storage. *)

From stdpp Require Import relations.
From S2P Require Import Prelude Contract StorageLemmas.

(** ** Data *)

Module DigitalPassportError.
(** [DigitalPassportError], src/digital_passport.rs:9-34 *)
Inductive DigitalPassportError : Set :=
  | PassportNotFound
  | InvalidProductIdentity
  | MissingMandatoryData
  | PassportExpired
  | InvalidComplianceStatus
  | InvalidMaterialComposition
  | MissingCarbonData
  | IncompleteCircularityData
  | UnauthorizedModification
  | InvalidLifecycleTransition
  | UnsupportedFormat
  | ImportValidationFailed.
End DigitalPassportError.
Abbreviation DigitalPassportError := DigitalPassportError.DigitalPassportError.

Module ComplianceStatus.
(** [ComplianceStatus], src/digital_passport.rs:39-44 *)
Inductive ComplianceStatus : Set :=
  | Compliant | PartiallyCompliant | NonCompliant | PendingVerification.
#[global] Instance ComplianceStatus_eq_dec : EqDecision ComplianceStatus.
Proof. solve_decision. Defined.
End ComplianceStatus.
Abbreviation ComplianceStatus := ComplianceStatus.ComplianceStatus.

Module PassportLifecycleStage.
(** [PassportLifecycleStage], src/digital_passport.rs:49-57 *)
Inductive PassportLifecycleStage : Set :=
  | Created | InProduction | ReadyForMarket | InMarket | EndOfLife | Recycled | Archived.
End PassportLifecycleStage.
Abbreviation PassportLifecycleStage := PassportLifecycleStage.PassportLifecycleStage.

(** [ProductIdentity], src/digital_passport.rs:62-71 *)
Record ProductIdentity := mkProductIdentity {
  pi_product_id : Bytes;
  pi_product_name : Bytes;
  pi_category : Symbol;
  pi_manufacturer : Address;
  pi_model_number : Bytes;
  pi_batch_number : Bytes;
  pi_registration_date : Z;
  pi_market_entry_date : Z }.

(** [Material], src/digital_passport.rs:76-83 *)
Record Material := mkMaterial {
  ma_material_name : Bytes;
  ma_material_code : Symbol;
  ma_percentage_by_weight : Z;
  ma_source_type : Symbol;
  ma_hazardous : bool;
  ma_hazard_classification : Bytes }.

(** [Durability], src/digital_passport.rs:88-95 *)
Record Durability := mkDurability {
  du_expected_lifetime_years : Z;
  du_warranty_years : Z;
  du_spare_parts_available : bool;
  du_spare_parts_years : Z;
  du_repair_information : Bytes;
  du_repairability_score : Z }.

(** [Circularity], src/digital_passport.rs:100-108 *)
Record Circularity := mkCircularity {
  ci_recyclable_materials : list Material;
  ci_recycled_content_percent : Z;
  ci_reuse_potential : bool;
  ci_refurbishment_potential : bool;
  ci_disassembly_instructions : Bytes;
  ci_recycling_instructions : Bytes;
  ci_end_of_life_score : Z }.

(** [CarbonFootprint], src/digital_passport.rs:113-123 *)
Record CarbonFootprint := mkCarbonFootprint {
  cf_manufacturing_emissions : Z;
  cf_distribution_emissions : Z;
  cf_use_phase_emissions : Z;
  cf_end_of_life_emissions : Z;
  cf_total_embodied_carbon : Z;
  cf_carbon_neutral : bool;
  cf_carbon_offset_program : Bytes;
  cf_measurement_standard : Symbol;
  cf_measurement_date : Z }.

(** [EnergyConsumption], src/digital_passport.rs:128-133 *)
Record EnergyConsumption := mkEnergyConsumption {
  ec_annual_energy_kwh : Z;
  ec_standby_power_watts : Z;
  ec_estimated_lifetime_energy : Z;
  ec_energy_label : Symbol }.

(** [SubstanceInfo], src/digital_passport.rs:138-144 *)
Record SubstanceInfo := mkSubstanceInfo {
  su_substance_name : Bytes;
  su_cas_number : Bytes;
  su_concentration_percent : Z;
  su_hazard_class : Bytes;
  su_regulatory_status : Symbol }.

(** [ComplianceRecord], src/digital_passport.rs:149-156 *)
Record ComplianceRecord := mkComplianceRecord {
  cr_verification_date : Z;
  cr_verifier : Address;
  cr_status : ComplianceStatus;
  cr_checked_fields : list Bytes;
  cr_issues_found : list Bytes;
  cr_next_review_date : Z }.

(** [DigitalPassport], src/digital_passport.rs:161-176 *)
Record DigitalPassport := mkDigitalPassport {
  dp_passport_id : Hash;
  dp_identity : ProductIdentity;
  dp_materials : list Material;
  dp_durability : Durability;
  dp_circularity : Circularity;
  dp_carbon_footprint : CarbonFootprint;
  dp_energy_consumption : option EnergyConsumption;
  dp_substances : list SubstanceInfo;
  dp_compliance_records : list ComplianceRecord;
  dp_lifecycle_stage : PassportLifecycleStage;
  dp_created_date : Z;
  dp_last_updated : Z;
  dp_expiry_date : Z;
  dp_version : Z }.

(** [PassportLifecycleEvent], src/digital_passport.rs:181-187 *)
Record PassportLifecycleEvent := mkPassportLifecycleEvent {
  le_event_date : Z;
  le_stage : PassportLifecycleStage;
  le_actor : Address;
  le_notes : Bytes;
  le_previous_stage : PassportLifecycleStage }.

(** [RepairEvent], src/digital_passport.rs:192-198 *)
Record RepairEvent := mkRepairEvent {
  re_repair_date : Z;
  re_repair_facility : Address;
  re_repair_type : Symbol;
  re_parts_replaced : list Bytes;
  re_repair_notes : Bytes }.

(** [RecyclingEvent], src/digital_passport.rs:203-209 *)
Record RecyclingEvent := mkRecyclingEvent {
  ry_recycling_date : Z;
  ry_recycling_facility : Address;
  ry_recovery_rate : Z;
  ry_materials_recovered : list Material;
  ry_certification : Bytes }.

(** [RefurbishmentEvent], src/digital_passport.rs:214-219 *)
Record RefurbishmentEvent := mkRefurbishmentEvent {
  rf_refurbishment_date : Z;
  rf_refurbishment_facility : Address;
  rf_scope : Bytes;
  rf_new_passport_id : option Hash }.

Module ExportFormat.
(** [ExportFormat], src/digital_passport.rs:224-229 *)
Inductive ExportFormat : Set := JsonLd | XmlEuPassport | Qr | Pdf.
End ExportFormat.
Abbreviation ExportFormat := ExportFormat.ExportFormat.

(** [PassportExport], src/digital_passport.rs:234-240 *)
Record PassportExport := mkPassportExport {
  px_export_date : Z;
  px_format : ExportFormat;
  px_data : Bytes;
  px_digital_signature : option Hash;
  px_verification_url : Bytes }.

Module PassportDataKey.
(** [PassportDataKey], src/digital_passport.rs:248-273 *)
Inductive PassportDataKey : Set :=
  | Passport (id : Hash)
  | ProductPassports (product : Bytes)
  | LifecycleHistory (id : Hash)
  | RepairHistory (id : Hash)
  | RecyclingHistory (id : Hash)
  | RefurbishmentHistory (id : Hash)
  | ExportHistory (id : Hash)
  | ComplianceHistory (id : Hash)
  | MaterialRegistry (code : Symbol)
  | RepairCount (id : Hash)
  | RecyclingCount (id : Hash)
  | PassportCount.
#[global] Instance PassportDataKey_eq_dec : EqDecision PassportDataKey.
Proof. solve_decision. Defined.
End PassportDataKey.
Abbreviation PassportDataKey := PassportDataKey.PassportDataKey.

(** ** Layout *)

Inductive PassportTy : Set :=
  | DvPassport | DvIds | DvLifecycle | DvRepairs | DvRecyclings | DvRefurbishments | DvExports
  | DvCompliance | DvName | DvCount.
#[global] Instance PassportTy_eq_dec : EqDecision PassportTy.
Proof. solve_decision. Defined.

Definition passport_el (t : PassportTy) : Type :=
  match t with
  | DvPassport => DigitalPassport
  | DvIds => list Hash
  | DvLifecycle => list PassportLifecycleEvent
  | DvRepairs => list RepairEvent
  | DvRecyclings => list RecyclingEvent
  | DvRefurbishments => list RefurbishmentEvent
  | DvExports => list PassportExport
  | DvCompliance => list ComplianceRecord
  | DvName => Bytes
  | DvCount => Z
  end.

Definition passport_key_ty (k : PassportDataKey) : PassportTy :=
  match k with
  | PassportDataKey.Passport _ => DvPassport
  | PassportDataKey.ProductPassports _ => DvIds
  | PassportDataKey.LifecycleHistory _ => DvLifecycle
  | PassportDataKey.RepairHistory _ => DvRepairs
  | PassportDataKey.RecyclingHistory _ => DvRecyclings
  | PassportDataKey.RefurbishmentHistory _ => DvRefurbishments
  | PassportDataKey.ExportHistory _ => DvExports
  | PassportDataKey.ComplianceHistory _ => DvCompliance
  | PassportDataKey.MaterialRegistry _ => DvName
  | PassportDataKey.RepairCount _ | PassportDataKey.RecyclingCount _
  | PassportDataKey.PassportCount => DvCount
  end.

Canonical passport_layout : Layout := {|
  key := PassportDataKey; ty := PassportTy; el := passport_el; layout_key_ty := passport_key_ty;
  key_dec := _; ty_dec := _; error := DigitalPassportError; datum := Payload |}.

#[local] Abbreviation M := (CM passport_layout).
#[local] Abbreviation store := (kvstore passport_layout).
#[local] Abbreviation St := (CSt passport_layout).

(** ** Operations *)

(** The passport, or a panic when there is none. *)
Definition passport_or_abort (id : Hash) : M DigitalPassport :=
  let* p := pget (PassportDataKey.Passport id) in
  match p with Some p => ret p | None => panic Abort end.

Section Operations.
Context `{C : Crypto}.

(** [create_passport], src/digital_passport.rs:280-353 *)
Definition create_passport (product_id product_name : Bytes) (category : Symbol)
    (manufacturer : Address) (model_number batch_number : Bytes) (materials : list Material)
    (durability : Durability) (circularity : Circularity) (carbon_footprint : CarbonFootprint)
    : M Hash :=
  do* require_auth manufacturer in
  let* now := ledger_timestamp in
  let passport_id := sha256 product_id in
  let identity := mkProductIdentity product_id product_name category manufacturer model_number
                    batch_number now now in
  let* expiry_date := u64_add now (10 * 365 * 86400) in
  let passport := mkDigitalPassport passport_id identity materials durability circularity
                    carbon_footprint None [] [] PassportLifecycleStage.Created now now expiry_date 1 in
  do* pset (PassportDataKey.Passport passport_id) passport in
  let* product_passports := pget_or (PassportDataKey.ProductPassports product_id) [] in
  do* pset (PassportDataKey.ProductPassports product_id) (product_passports ++ [passport_id]) in
  let* count := pget_or PassportDataKey.PassportCount 0 in
  let* count := u32_add count 1 in
  do* pset PassportDataKey.PassportCount count in
  ret passport_id.

(** [update_passport], src/digital_passport.rs:356-393 *)
Definition update_passport (passport_id : Hash) (materials : option (list Material))
    (carbon_footprint : option CarbonFootprint) (circularity : option Circularity)
    (updater : Address) : M unit :=
  do* require_auth updater in
  let* p := passport_or_abort passport_id in
  do* (if bool_decide (pi_manufacturer (dp_identity p) <> updater) then panic Abort else ret tt) in
  let* now := ledger_timestamp in
  let* version := u32_add (dp_version p) 1 in
  pset (PassportDataKey.Passport passport_id)
    (mkDigitalPassport (dp_passport_id p) (dp_identity p) (default (dp_materials p) materials)
       (dp_durability p) (default (dp_circularity p) circularity)
       (default (dp_carbon_footprint p) carbon_footprint) (dp_energy_consumption p)
       (dp_substances p) (dp_compliance_records p) (dp_lifecycle_stage p) (dp_created_date p) now
       (dp_expiry_date p) version).

(** The passport at a new stage. *)
Definition staged (p : DigitalPassport) (stage : PassportLifecycleStage) (now : Z)
    : DigitalPassport :=
  mkDigitalPassport (dp_passport_id p) (dp_identity p) (dp_materials p) (dp_durability p)
    (dp_circularity p) (dp_carbon_footprint p) (dp_energy_consumption p) (dp_substances p)
    (dp_compliance_records p) stage (dp_created_date p) now (dp_expiry_date p) (dp_version p).

(** [transition_lifecycle_stage], src/digital_passport.rs:396-438 *)
Definition transition_lifecycle_stage (passport_id : Hash) (new_stage : PassportLifecycleStage)
    (actor : Address) (notes : Bytes) : M unit :=
  do* require_auth actor in
  let* p := passport_or_abort passport_id in
  let old_stage := dp_lifecycle_stage p in
  let* now := ledger_timestamp in
  let event := mkPassportLifecycleEvent now new_stage actor notes old_stage in
  let* history := pget_or (PassportDataKey.LifecycleHistory passport_id) [] in
  do* pset (PassportDataKey.LifecycleHistory passport_id) (history ++ [event]) in
  pset (PassportDataKey.Passport passport_id) (staged p new_stage now).

(** [record_repair], src/digital_passport.rs:441-479 *)
Definition record_repair (passport_id : Hash) (repair_facility : Address) (repair_type : Symbol)
    (parts_replaced : list Bytes) (repair_notes : Bytes) : M unit :=
  do* require_auth repair_facility in
  let* now := ledger_timestamp in
  let repair := mkRepairEvent now repair_facility repair_type parts_replaced repair_notes in
  let* repairs := pget_or (PassportDataKey.RepairHistory passport_id) [] in
  do* pset (PassportDataKey.RepairHistory passport_id) (repairs ++ [repair]) in
  let* count := pget_or (PassportDataKey.RepairCount passport_id) 0 in
  let* count := u32_add count 1 in
  pset (PassportDataKey.RepairCount passport_id) count.

(** [record_recycling], src/digital_passport.rs:482-531 *)
Definition record_recycling (passport_id : Hash) (recycling_facility : Address)
    (recovery_rate : Z) (materials_recovered : list Material) (certification : Bytes) : M unit :=
  do* require_auth recycling_facility in
  let* now := ledger_timestamp in
  let recycling := mkRecyclingEvent now recycling_facility recovery_rate materials_recovered
                     certification in
  let* recyclings := pget_or (PassportDataKey.RecyclingHistory passport_id) [] in
  do* pset (PassportDataKey.RecyclingHistory passport_id) (recyclings ++ [recycling]) in
  let* count := pget_or (PassportDataKey.RecyclingCount passport_id) 0 in
  let* count := u32_add count 1 in
  do* pset (PassportDataKey.RecyclingCount passport_id) count in
  when (Z.ltb 80 recovery_rate)
    (transition_lifecycle_stage passport_id PassportLifecycleStage.Recycled recycling_facility
       (str_bytes "Successfully recycled")).

(** [record_refurbishment], src/digital_passport.rs:534-568 *)
Definition record_refurbishment (passport_id : Hash) (refurbishment_facility : Address)
    (scope : Bytes) : M unit :=
  do* require_auth refurbishment_facility in
  let* now := ledger_timestamp in
  let refurbishment := mkRefurbishmentEvent now refurbishment_facility scope None in
  let* refurbishments := pget_or (PassportDataKey.RefurbishmentHistory passport_id) [] in
  do* pset (PassportDataKey.RefurbishmentHistory passport_id)
        (refurbishments ++ [refurbishment]) in
  transition_lifecycle_stage passport_id PassportLifecycleStage.InMarket refurbishment_facility
    (str_bytes "Product refurbished and ready for resale").

(** One check of a field: the status and the issues so far, and after it. *)
Definition check_field (missing : bool) (issue : string) (status : ComplianceStatus)
    (found : ComplianceStatus * list Bytes) : ComplianceStatus * list Bytes :=
  if missing then (status, found.2 ++ [str_bytes issue]) else found.

(** The checks of the mandatory fields, in the order of the source,
    src/digital_passport.rs:588-615 *)
Definition field_checks (p : DigitalPassport) : ComplianceStatus * list Bytes :=
  let found := (ComplianceStatus.Compliant, []) in
  let found := check_field (bool_decide (pi_product_id (dp_identity p) = []))
                 "Missing product ID" ComplianceStatus.NonCompliant found in
  let found := check_field (match dp_materials p with [] => true | _ => false end)
                 "Missing material composition" ComplianceStatus.PartiallyCompliant found in
  let found := check_field (Z.eqb (cf_total_embodied_carbon (dp_carbon_footprint p)) 0)
                 "Missing carbon footprint data" ComplianceStatus.PartiallyCompliant found in
  check_field (Z.eqb (ci_end_of_life_score (dp_circularity p)) 0)
    "Missing end-of-life information" ComplianceStatus.PartiallyCompliant found.

(** [verify_espr_compliance], src/digital_passport.rs:575-648 *)
Definition verify_espr_compliance (passport_id : Hash) (verifier : Address) : M ComplianceStatus :=
  do* require_auth verifier in
  let* p := passport_or_abort passport_id in
  let found := field_checks p in
  let checked_fields := [str_bytes "product_id"; str_bytes "materials";
                         str_bytes "carbon_footprint"; str_bytes "circularity"] in
  let* total_percent := fold_m (fun n m => u32_add n (ma_percentage_by_weight m)) 0
                          (dp_materials p) in
  let '(status, issues) :=
    check_field (Z.ltb total_percent 95 || Z.ltb 105 total_percent)
      "Material percentages don't sum to 100%" ComplianceStatus.NonCompliant found in
  let* now := ledger_timestamp in
  let* next_review_date := u64_add now (365 * 86400) in
  let record := mkComplianceRecord now verifier status checked_fields issues next_review_date in
  let* records := pget_or (PassportDataKey.ComplianceHistory passport_id) [] in
  do* pset (PassportDataKey.ComplianceHistory passport_id) (records ++ [record]) in
  ret status.

(** [check_passport_validity], src/digital_passport.rs:651-659 *)
Definition check_passport_validity (passport_id : Hash) : M bool :=
  let* p := passport_or_abort passport_id in
  let* now := ledger_timestamp in
  ret (Z.ltb now (dp_expiry_date p)).

(** [get_material_breakdown], src/digital_passport.rs:662-670 *)
Definition get_material_breakdown (passport_id : Hash) : M (list Material) :=
  let* p := passport_or_abort passport_id in ret (dp_materials p).

(** [get_carbon_footprint], src/digital_passport.rs:673-681 *)
Definition get_carbon_footprint (passport_id : Hash) : M CarbonFootprint :=
  let* p := passport_or_abort passport_id in ret (dp_carbon_footprint p).

(** [get_circularity_info], src/digital_passport.rs:684-692 *)
Definition get_circularity_info (passport_id : Hash) : M Circularity :=
  let* p := passport_or_abort passport_id in ret (dp_circularity p).

(** [get_repair_history], src/digital_passport.rs:695-700 *)
Definition get_repair_history (passport_id : Hash) : M (list RepairEvent) :=
  pget_or (PassportDataKey.RepairHistory passport_id) [].

(** [get_recycling_history], src/digital_passport.rs:703-708 *)
Definition get_recycling_history (passport_id : Hash) : M (list RecyclingEvent) :=
  pget_or (PassportDataKey.RecyclingHistory passport_id) [].

(** [get_refurbishment_history], src/digital_passport.rs:711-716 *)
Definition get_refurbishment_history (passport_id : Hash) : M (list RefurbishmentEvent) :=
  pget_or (PassportDataKey.RefurbishmentHistory passport_id) [].

(** [get_lifecycle_history], src/digital_passport.rs:719-724 *)
Definition get_lifecycle_history (passport_id : Hash) : M (list PassportLifecycleEvent) :=
  pget_or (PassportDataKey.LifecycleHistory passport_id) [].

(** [generate_passport_export], src/digital_passport.rs:731-764 *)
Definition generate_passport_export (passport_id : Hash) (format : ExportFormat)
    : M PassportExport :=
  let* p := passport_or_abort passport_id in
  let verification_url := str_bytes "https://verify-passport.eu/" ++ passport_id in
  let* now := ledger_timestamp in
  let export := mkPassportExport now format (str_bytes "PASSPORT_DATA")
                  (Some (sha256 (str_bytes "PASSPORT_DATA"))) verification_url in
  let* exports := pget_or (PassportDataKey.ExportHistory passport_id) [] in
  do* pset (PassportDataKey.ExportHistory passport_id) (exports ++ [export]) in
  ret export.

(** [import_passport_data], src/digital_passport.rs:767-783 *)
Definition import_passport_data (import_data : Bytes) (importer : Address) : M Hash :=
  do* require_auth importer in
  let passport_id := sha256 import_data in
  do* (if bool_decide (import_data = []) then panic Abort else ret tt) in
  ret passport_id.

(** [export_to_standard_format], src/digital_passport.rs:786-802 *)
Definition export_to_standard_format (passport_id : Hash) (standard : Symbol) : M Bytes :=
  do* passport_or_abort passport_id in
  ret (str_bytes "EXPORTED_DATA").

(** [validate_interoperability], src/digital_passport.rs:805-816 *)
Definition validate_interoperability (passport_id : Hash) : M bool :=
  let* p := passport_or_abort passport_id in
  ret (negb (bool_decide (pi_product_id (dp_identity p) = []))
       && match dp_materials p with [] => false | _ => true end
       && Z.ltb 0 (cf_total_embodied_carbon (dp_carbon_footprint p))).

(** [get_passport], src/digital_passport.rs:823-828 *)
Definition get_passport (passport_id : Hash) : M DigitalPassport := passport_or_abort passport_id.

(** [get_product_passports], src/digital_passport.rs:831-836 *)
Definition get_product_passports (product_id : Bytes) : M (list Hash) :=
  pget_or (PassportDataKey.ProductPassports product_id) [].

(** [get_passports_by_stage], src/digital_passport.rs:839-845 *)
Definition get_passports_by_stage (stage : PassportLifecycleStage) : M (list Hash) := ret [].

(** The points of [calculate_environmental_score], src/digital_passport.rs:858-881 *)
Definition environmental_points (p : DigitalPassport) : Z :=
  let carbon := cf_total_embodied_carbon (dp_carbon_footprint p) in
  let recycled := ci_recycled_content_percent (dp_circularity p) in
  let end_of_life := ci_end_of_life_score (dp_circularity p) in
  (if Z.ltb carbon 1000 then 40 else if Z.ltb carbon 5000 then 20 else 0)
  + (if Z.leb 50 recycled then 30 else if Z.leb 25 recycled then 15 else 0)
  + (if Z.leb 80 end_of_life then 30 else if Z.leb 50 end_of_life then 15 else 0).

(** [calculate_environmental_score], src/digital_passport.rs:848-882 *)
Definition calculate_environmental_score (passport_id : Hash) : M Z :=
  let* p := passport_or_abort passport_id in ret (environmental_points p).

(** [check_hazardous_substances], src/digital_passport.rs:885-899 *)
Definition check_hazardous_substances (passport_id : Hash) : M (list SubstanceInfo) :=
  let* p := passport_or_abort passport_id in
  ret (filter (fun s => Z.ltb 0 (len (su_hazard_class s)) = true) (dp_substances p)).

(** [register_material_type], src/digital_passport.rs:902-910 *)
Definition register_material_type (material_code : Symbol) (material_name : Bytes) : M unit :=
  pset (PassportDataKey.MaterialRegistry material_code) material_name.

(** [get_repair_count], src/digital_passport.rs:913-918 *)
Definition get_repair_count (passport_id : Hash) : M Z :=
  pget_or (PassportDataKey.RepairCount passport_id) 0.

(** [get_recycling_count], src/digital_passport.rs:921-926 *)
Definition get_recycling_count (passport_id : Hash) : M Z :=
  pget_or (PassportDataKey.RecyclingCount passport_id) 0.

(** [get_total_passports], src/digital_passport.rs:929-934 *)
Definition get_total_passports : M Z := pget_or PassportDataKey.PassportCount 0.

(** ** The transition system *)

Inductive pcall : Type :=
  | PCreate (product name : Bytes) (category : Symbol) (manufacturer : Address)
      (model batch : Bytes) (materials : list Material) (du : Durability) (ci : Circularity)
      (cf : CarbonFootprint)
  | PUpdate (id : Hash) (materials : option (list Material)) (cf : option CarbonFootprint)
      (ci : option Circularity) (updater : Address)
  | PStage (id : Hash) (stage : PassportLifecycleStage) (actor : Address) (notes : Bytes)
  | PRepair (id : Hash) (facility : Address) (type : Symbol) (parts : list Bytes) (notes : Bytes)
  | PRecycle (id : Hash) (facility : Address) (rate : Z) (materials : list Material) (cert : Bytes)
  | PRefurbish (id : Hash) (facility : Address) (scope : Bytes)
  | PVerify (id : Hash) (verifier : Address)
  | PExport (id : Hash) (format : ExportFormat)
  | PMaterial (code : Symbol) (name : Bytes).

Definition pexec (k : pcall) : M unit :=
  match k with
  | PCreate p n c m mo b ms du ci cf => do* create_passport p n c m mo b ms du ci cf in ret tt
  | PUpdate i ms cf ci a => update_passport i ms cf ci a
  | PStage i st a n => transition_lifecycle_stage i st a n
  | PRepair i f t ps n => record_repair i f t ps n
  | PRecycle i f r ms ce => record_recycling i f r ms ce
  | PRefurbish i f sc => record_refurbishment i f sc
  | PVerify i a => do* verify_espr_compliance i a in ret tt
  | PExport i f => do* generate_passport_export i f in ret tt
  | PMaterial co n => register_material_type co n
  end.

Inductive pstep : St -> St -> Prop :=
  | pstep_call k c s s' : pexec k c s = Ok (tt, s') -> pstep s s'.
End Operations.
