(* ===== verification/PassportProps.v ===== *)
(** * Properties of the digital passports

    The lifecycle history is that of the calls made - one walk from creation for
    each registration, the last to the current stage -, the counters count, only
    the manufacturer edits, and what a compliance check concludes. *)

From stdpp Require Import relations.
From S2P Require Import Prelude Contract StorageLemmas Sample Passports.

#[local] Abbreviation M := (CM passport_layout).
#[local] Abbreviation store := (kvstore passport_layout).
#[local] Abbreviation St := (CSt passport_layout).

Definition passport (st : store) (id : Hash) : option DigitalPassport :=
  sget st (PassportDataKey.Passport id).
Definition stages (st : store) (id : Hash) : list PassportLifecycleEvent :=
  default [] (sget st (PassportDataKey.LifecycleHistory id)).
Definition repairs (st : store) (id : Hash) : list RepairEvent :=
  default [] (sget st (PassportDataKey.RepairHistory id)).
Definition recyclings (st : store) (id : Hash) : list RecyclingEvent :=
  default [] (sget st (PassportDataKey.RecyclingHistory id)).

(** ** Walks *)

(** [Walk a h b]: the events of [h] lead from [a] to [b], each from where the
    one before arrived. *)
Inductive Walk (a : PassportLifecycleStage) :
    list PassportLifecycleEvent -> PassportLifecycleStage -> Prop :=
  | walk_stay : Walk a [] a
  | walk_step h b e : Walk a h b -> le_previous_stage e = b -> Walk a (h ++ [e]) (le_stage e).

(** What the calls made, the latest first, come to for one passport: how often the
    product was registered, and the stage it is in with the passages from stage to
    stage so far.  A registration puts the passport back to [Created]. *)
Section Paths.
Context `{C : Crypto}.

Definition registers (id : Hash) (k : pcall) : bool :=
  match k with
  | PCreate product _ _ _ _ _ _ _ _ _ => bool_decide (sha256 product = id)
  | _ => false
  end.
Definition stage_of (id : Hash) (k : pcall) : option PassportLifecycleStage :=
  match k with
  | PStage i st _ _ => if bool_decide (i = id) then Some st else None
  | PRecycle i _ rate _ _ =>
      if bool_decide (i = id) && Z.ltb 80 rate then Some PassportLifecycleStage.Recycled else None
  | PRefurbish i _ _ => if bool_decide (i = id) then Some PassportLifecycleStage.InMarket else None
  | _ => None
  end.
Definition repairs_id (id : Hash) (k : pcall) : bool :=
  match k with PRepair i _ _ _ _ => bool_decide (i = id) | _ => false end.
Definition recycles_id (id : Hash) (k : pcall) : bool :=
  match k with PRecycle i _ _ _ _ => bool_decide (i = id) | _ => false end.

Fixpoint times (f : pcall -> bool) (l : list pcall) : nat :=
  match l with [] => 0 | k :: l => if f k then S (times f l) else times f l end.

Abbreviation passage := (PassportLifecycleStage * PassportLifecycleStage)%type.
Fixpoint path (id : Hash) (l : list pcall) : option PassportLifecycleStage * list passage :=
  match l with
  | [] => (None, [])
  | k :: l =>
      let (cur, h) := path id l in
      if registers id k then (Some PassportLifecycleStage.Created, h)
      else match stage_of id k, cur with
           | Some st, Some from => (Some st, h ++ [(from, st)])
           | _, _ => (cur, h)
           end
  end.

(** A history of [n] registrations: all walks but the last are over. *)
Definition Legs (n : nat) (h : list PassportLifecycleEvent) (b : PassportLifecycleStage) : Prop :=
  exists earlier last, h = concat earlier ++ last /\ S (length earlier) = n /\
    Forall (fun w => exists b', Walk PassportLifecycleStage.Created w b') earlier /\
    Walk PassportLifecycleStage.Created last b.

Lemma Legs_again n h b : Legs n h b -> Legs (S n) h PassportLifecycleStage.Created.
Proof.
  intros (hs & last & -> & <- & Hf & Hw). exists (hs ++ [last]), [].
  split; [by rewrite concat_app; simpl; rewrite !app_nil_r|]. split; [rewrite length_app; simpl; lia|].
  split; [|constructor]. apply Forall_app. split; [done|]. constructor; [by eexists|constructor].
Qed.

Lemma Legs_step n h b e : Legs n h b -> le_previous_stage e = b -> Legs n (h ++ [e]) (le_stage e).
Proof.
  intros (hs & last & -> & <- & Hf & Hw) He. exists hs, (last ++ [e]).
  split; [by rewrite app_assoc|]. split; [done|]. split; [done|]. by eapply walk_step.
Qed.

Definition passage_of (e : PassportLifecycleEvent) : passage := (le_previous_stage e, le_stage e).

(** A store that holds what [path] and [times] say of the calls made. *)
Definition Chained (l : list pcall) (st : store) : Prop :=
  forall id, (passage_of <$> stages st id) = snd (path id l) /\
    match passport st id with
    | None => fst (path id l) = None /\ times (registers id) l = 0%nat /\ stages st id = []
    | Some p => fst (path id l) = Some (dp_lifecycle_stage p) /\
        Legs (times (registers id) l) (stages st id) (dp_lifecycle_stage p)
    end.

Definition walk_key (k : PassportDataKey) : bool :=
  match k with
  | PassportDataKey.Passport _ | PassportDataKey.LifecycleHistory _ => true
  | _ => false
  end.

Lemma Chained_other l st k v : walk_key k = false -> Chained l st -> Chained l (sset st k v).
Proof.
  intros Hk H id. specialize (H id). unfold passport, stages in *.
  rewrite !sset_ne by (intros ->; done). exact H.
Qed.

(** Calls that neither register nor move a passport. *)
Definition idle (k : pcall) : Prop := forall id, registers id k = false /\ stage_of id k = None.

Lemma Chained_idle l k st : idle k -> Chained l st -> Chained (k :: l) st.
Proof.
  intros Hk H id. destruct (Hk id) as [E1 E2]. specialize (H id). simpl. rewrite E1, E2.
  by destruct (path id l).
Qed.

Lemma Chained_same_stage l st id p p' :
  passport st id = Some p -> dp_lifecycle_stage p' = dp_lifecycle_stage p ->
  Chained l st -> Chained l (sset st (PassportDataKey.Passport id) p').
Proof.
  intros Hp Hs H i. specialize (H i). unfold passport, stages in *.
  rewrite (sset_ne _ _ (PassportDataKey.LifecycleHistory i)) by done.
  destruct (decide (id = i)) as [<-|Hne].
  - rewrite sset_eq. rewrite Hp in H. by rewrite Hs.
  - rewrite sset_ne by congruence. exact H.
Qed.

Lemma Chained_new l st k product p :
  (forall id, registers id k = bool_decide (sha256 product = id)) -> (forall id, stage_of id k = None) ->
  dp_lifecycle_stage p = PassportLifecycleStage.Created ->
  Chained l st -> Chained (k :: l) (sset st (PassportDataKey.Passport (sha256 product)) p).
Proof.
  intros Hr Hk Hs H i. specialize (H i). unfold passport, stages in *. simpl. rewrite Hr, Hk.
  rewrite (sset_ne _ _ (PassportDataKey.LifecycleHistory i)) by done. destruct (path i l) as [cur h].
  destruct (decide (sha256 product = i)) as [<-|Hne].
  - rewrite bool_decide_eq_true_2, sset_eq by done. simpl in *. destruct H as [Hh H].
    split; [done|]. rewrite Hs. split; [done|]. destruct (sget st (PassportDataKey.Passport _)).
    + destruct H as [_ H]. by eapply Legs_again.
    + destruct H as (_ & -> & ->). exists [], []. split; [done|]. split; [done|].
      split; constructor.
  - rewrite bool_decide_eq_false_2, sset_ne by congruence. by destruct cur.
Qed.
End Paths.

(** ** Compliance checks *)

Definition weight (p : DigitalPassport) : Z := total_of ma_percentage_by_weight (dp_materials p).

(** The verdict on a passport and the issues it lists. *)
Definition verdict (p : DigitalPassport) : ComplianceStatus * list Bytes :=
  check_field (Z.ltb (weight p) 95 || Z.ltb 105 (weight p))
    "Material percentages don't sum to 100%" ComplianceStatus.NonCompliant (field_checks p).

Lemma weigh_Ok l : forall n c (s s' : St) r,
  fold_m (fun n m => u32_add n (ma_percentage_by_weight m)) n l c s = Ok (r, s') ->
  r = n + total_of ma_percentage_by_weight l /\ s' = s.
Proof.
  induction l as [|m l IH]; intros n c s s' r R; simpl in R.
  - minv. unfold total_of. simpl. split; [lia|done].
  - apply bind_Ok in R as (x & s1 & R1 & R). apply u32_add_Ok in R1 as (-> & _ & ->).
    apply IH in R as [-> ->]. unfold total_of. simpl. split; [lia|done].
Qed.

Section Walks.
Context `{C : Crypto}.

(** A check records its verdict in the compliance history and nowhere else. *)
Lemma verify_Ok id a c (s s' : St) status :
  verify_espr_compliance id a c s = Ok (status, s') ->
  exists p r, passport (pers s) id = Some p /\ status = fst (verdict p) /\ cx_auth c a = true /\
    cr_verifier r = a /\ cr_status r = status /\ cr_issues_found r = snd (verdict p) /\
    pers s' = sset (pers s) (PassportDataKey.ComplianceHistory id)
                (default [] (sget (pers s) (PassportDataKey.ComplianceHistory id)) ++ [r]).
Proof.
  unfold verify_espr_compliance, passport_or_abort. intros R.
  apply bind_Ok in R as (u & s1 & R1 & R). apply require_auth_Ok in R1 as [Ha ->].
  apply bind_Ok in R as (p & s1 & R1 & R). apply bind_Ok in R1 as (o & s2 & E & R1).
  injection E as E <-. destruct o as [q|]; [|done]. apply ret_Ok in R1 as [-> ->].
  apply bind_Ok in R as (w & s1 & R1 & R). apply weigh_Ok in R1 as [-> ->].
  destruct (check_field _ _ _ _) as [st issues] eqn:V in R.
  assert (verdict q = (st, issues)) as Hv by exact V.
  minv. exists q. eexists. rewrite Hv. by repeat split.
Qed.

(** A passage to another stage writes the event and the passport. *)
Lemma stage_Ok id stage a notes c (s s' : St) :
  transition_lifecycle_stage id stage a notes c s = Ok (tt, s') ->
  exists p, passport (pers s) id = Some p /\ cx_auth c a = true /\
    let e := mkPassportLifecycleEvent (cx_timestamp c) stage a notes (dp_lifecycle_stage p) in
    pers s' = sset (sset (pers s) (PassportDataKey.LifecycleHistory id) (stages (pers s) id ++ [e]))
                (PassportDataKey.Passport id) (staged p stage (cx_timestamp c)).
Proof.
  unfold transition_lifecycle_stage, passport_or_abort. intros R. mcase.
  match goal with H : sget _ _ = Some ?p |- _ => exists p end. done.
Qed.

Lemma Chained_stage l k id stage a notes c (s s' : St) :
  (forall i, registers i k = false) ->
  (forall i, stage_of i k = if bool_decide (id = i) then Some stage else None) ->
  transition_lifecycle_stage id stage a notes c s = Ok (tt, s') ->
  Chained l (pers s) -> Chained (k :: l) (pers s').
Proof.
  intros Hr Hk (p & Hp & _ & ->)%stage_Ok H i. specialize (H i). unfold passport, stages in *.
  simpl. rewrite Hr, Hk. destruct (path i l) as [cur h]. destruct (decide (id = i)) as [<-|Hne].
  - rewrite Hp in H. rewrite bool_decide_eq_true_2 by done. store_reads. simpl in *.
    destruct H as (Hh & -> & HL). simpl. rewrite fmap_app, Hh. split; [done|]. split; [done|].
    match goal with |- Legs _ (_ ++ [?e]) _ => exact (Legs_step _ _ _ e HL eq_refl) end.
  - rewrite bool_decide_eq_false_2 by done. store_reads. by destruct cur.
Qed.

(** The calls that went through on empty storage, the latest first. *)
Inductive ptrace : list pcall -> St -> Prop :=
  | ptrace_nil : ptrace [] empty_state
  | ptrace_call l k c s s' : ptrace l s -> pexec k c s = Ok (tt, s') -> ptrace (k :: l) s'.

Lemma Chained_step l k c (s s' : St) :
  pexec k c s = Ok (tt, s') -> Chained l (pers s) -> Chained (k :: l) (pers s').
Proof.
  intros R H. destruct k as [product nm cat m mo ba ms du ci cf| | | |id f rate ms ce| | | |]; simpl in R.
  - unfold create_passport in R. minv. apply Chained_other, Chained_other; [done..|].
    by apply (Chained_new _ _ _ product).
  - unfold update_passport, passport_or_abort in R. mcase. apply Chained_idle; [done|].
    by eapply Chained_same_stage.
  - by eapply Chained_stage; [| |exact R|].
  - unfold record_repair in R. minv. apply Chained_idle; [done|]. by apply Chained_other, Chained_other.
  - unfold record_recycling in R. minv. destruct (Z.ltb 80 rate) eqn:E.
    + eapply Chained_stage; [done| |exact R|by apply Chained_other, Chained_other].
      intros i. simpl. by rewrite E, andb_true_r.
    + minv. apply Chained_idle; [|by apply Chained_other, Chained_other].
      intros i. simpl. by rewrite E, andb_false_r.
  - unfold record_refurbishment in R. minv.
    eapply Chained_stage; [done|done|exact R|]. by apply Chained_other.
  - apply bind_Ok in R as (st & s1 & R & R2). injection R2 as <-. apply Chained_idle; [done|].
    apply verify_Ok in R as (p & r & _ & _ & _ & _ & _ & _ & ->). by apply Chained_other.
  - unfold generate_passport_export, passport_or_abort in R. mcase. apply Chained_idle; [done|].
    by apply Chained_other.
  - unfold register_material_type in R. minv. apply Chained_idle; [done|]. by apply Chained_other.
Qed.

Lemma Chained_trace l s : ptrace l s -> Chained l (pers s).
Proof. induction 1; [intros id; done|by eapply Chained_step]. Qed.

(** ** Counters *)

(** The counters and the histories they count hold the calls made. *)
Definition Counted (l : list pcall) (st : store) : Prop :=
  forall id,
    (default 0 (sget st (PassportDataKey.RepairCount id)) = len (repairs st id) /\
     length (repairs st id) = times (repairs_id id) l) /\
    (default 0 (sget st (PassportDataKey.RecyclingCount id)) = len (recyclings st id) /\
     length (recyclings st id) = times (recycles_id id) l).

Definition count_key (k : PassportDataKey) : bool :=
  match k with
  | PassportDataKey.RepairCount _ | PassportDataKey.RepairHistory _
  | PassportDataKey.RecyclingCount _ | PassportDataKey.RecyclingHistory _ => true
  | _ => false
  end.

Lemma Counted_other l st k v : count_key k = false -> Counted l st -> Counted l (sset st k v).
Proof.
  intros Hk H id. specialize (H id). unfold repairs, recyclings in *.
  rewrite !sset_ne by (intros ->; done). exact H.
Qed.

Lemma Counted_idle l k st :
  (forall id, repairs_id id k = false /\ recycles_id id k = false) -> Counted l st -> Counted (k :: l) st.
Proof. intros Hk H id. destruct (Hk id) as [E1 E2]. simpl. rewrite E1, E2. apply H. Qed.

Lemma Counted_repair l k st id x :
  (forall i, repairs_id i k = bool_decide (id = i) /\ recycles_id i k = false) -> Counted l st ->
  Counted (k :: l) (sset (sset st (PassportDataKey.RepairHistory id) (repairs st id ++ [x]))
             (PassportDataKey.RepairCount id) (default 0 (sget st (PassportDataKey.RepairCount id)) + 1)).
Proof.
  intros Hk H i. destruct (Hk i) as [E1 E2]. simpl. rewrite E1, E2. destruct (H i) as [[H1 H3] H2].
  unfold repairs, recyclings in *.
  destruct (decide (id = i)) as [<-|Hne]; store_reads; simpl;
    [rewrite bool_decide_eq_true_2 by done|by rewrite bool_decide_eq_false_2].
  rewrite len_app, length_app. change (len [x]) with 1. simpl. split; [lia|done].
Qed.

Lemma Counted_recycling l k st id x :
  (forall i, recycles_id i k = bool_decide (id = i) /\ repairs_id i k = false) -> Counted l st ->
  Counted (k :: l) (sset (sset st (PassportDataKey.RecyclingHistory id) (recyclings st id ++ [x]))
             (PassportDataKey.RecyclingCount id)
             (default 0 (sget st (PassportDataKey.RecyclingCount id)) + 1)).
Proof.
  intros Hk H i. destruct (Hk i) as [E1 E2]. simpl. rewrite E1, E2. destruct (H i) as [H1 [H2 H3]].
  unfold repairs, recyclings in *.
  destruct (decide (id = i)) as [<-|Hne]; store_reads; simpl;
    [rewrite bool_decide_eq_true_2 by done|by rewrite bool_decide_eq_false_2].
  rewrite len_app, length_app. change (len [x]) with 1. simpl. split; [done|lia].
Qed.

Lemma Counted_stage l id stage a notes c (s s' : St) :
  transition_lifecycle_stage id stage a notes c s = Ok (tt, s') ->
  Counted l (pers s) -> Counted l (pers s').
Proof. intros (p & _ & _ & ->)%stage_Ok H. by apply Counted_other, Counted_other. Qed.

Lemma Counted_step l k c (s s' : St) :
  pexec k c s = Ok (tt, s') -> Counted l (pers s) -> Counted (k :: l) (pers s').
Proof.
  intros R H. destruct k as [| | | |id f rate ms ce| | | |]; simpl in R.
  - unfold create_passport in R. minv. apply Counted_idle; [done|].
    by apply Counted_other, Counted_other, Counted_other.
  - unfold update_passport, passport_or_abort in R. mcase. apply Counted_idle; [done|].
    by apply Counted_other.
  - apply Counted_idle; [done|]. by eapply Counted_stage.
  - unfold record_repair in R. minv. store_reads. by apply Counted_repair.
  - unfold record_recycling in R. minv. destruct (Z.ltb 80 rate); minv.
    + eapply Counted_stage; [exact R|]. simpl. store_reads. by apply Counted_recycling.
    + store_reads. by apply Counted_recycling.
  - unfold record_refurbishment in R. minv. apply Counted_idle; [done|].
    eapply Counted_stage; [exact R|]. by apply Counted_other.
  - apply bind_Ok in R as (st & s1 & R & R2). injection R2 as <-. apply Counted_idle; [done|].
    apply verify_Ok in R as (p & r & _ & _ & _ & _ & _ & _ & ->). by apply Counted_other.
  - unfold generate_passport_export, passport_or_abort in R. mcase. apply Counted_idle; [done|].
    by apply Counted_other.
  - unfold register_material_type in R. minv. apply Counted_idle; [done|]. by apply Counted_other.
Qed.

Lemma Counted_trace l s : ptrace l s -> Counted l (pers s).
Proof. induction 1; [by intros id|by eapply Counted_step]. Qed.
End Walks.

(** ** Properties *)

Section Properties.
Context `{C : Crypto}.

(** C33: After any calls, the lifecycle history of a passport lists the passages
    that these calls made, in order, and ends in its current stage.  It consists of
    one walk for each registration of the product: every walk starts at [Created]
    and has no gap, and the last one leads to the current stage - so a product that
    was registered once has a single walk from its creation to its stage.  The
    repair and recycling counters count the events recorded, one for each call. *)
Theorem passport_history_is_a_walk l s :
  ptrace l s ->
  (forall c id p, get_passport id c s = Ok (p, s) ->
     exists h earlier last, get_lifecycle_history id c s = Ok (h, s) /\
       path id l = (Some (dp_lifecycle_stage p), passage_of <$> h) /\
       h = concat earlier ++ last /\ S (length earlier) = times (registers id) l /\
       Forall (fun w => exists b, Walk PassportLifecycleStage.Created w b) earlier /\
       Walk PassportLifecycleStage.Created last (dp_lifecycle_stage p)) /\
  (forall c id, exists n m h r,
     get_repair_count id c s = Ok (n, s) /\ get_recycling_count id c s = Ok (m, s) /\
     get_repair_history id c s = Ok (h, s) /\ get_recycling_history id c s = Ok (r, s) /\
     n = len h /\ m = len r /\
     length h = times (repairs_id id) l /\ length r = times (recycles_id id) l).
Proof.
  intros T. split.
  - intros c id p R. destruct (Chained_trace _ _ T id) as [Hh H].
    unfold get_passport, passport_or_abort in R. apply bind_Ok in R as (o & s1 & E & R).
    injection E as E <-. unfold passport in H. rewrite E in H. destruct o; [|done].
    apply ret_Ok in R as [-> _]. destruct H as (Hc & earlier & last & HL).
    exists (stages (pers s) id), earlier, last. split; [done|]. split; [|exact HL].
    rewrite Hh, <- Hc. by destruct (path id l).
  - intros c id. destruct (Counted_trace _ _ T id) as [[H1 H3] [H2 H4]].
    do 4 eexists. do 4 (split; [reflexivity|]). done.
Qed.

(** The part of a passport that describes the product. *)
Definition contents (p : DigitalPassport) :=
  (dp_identity p, dp_materials p, dp_durability p, dp_circularity p, dp_carbon_footprint p,
   dp_substances p, dp_expiry_date p, dp_version p).

(** Apart from the registration of the product once more, only its manufacturer
    changes what a passport says of it, with a signature and a new version. *)
Theorem only_the_manufacturer_edits k c s s' id p :
  pexec k c s = Ok (tt, s') -> passport (pers s) id = Some p ->
  match k with PCreate product _ _ _ _ _ _ _ _ _ => sha256 product <> id | _ => True end ->
  exists p', passport (pers s') id = Some p' /\
    (contents p' = contents p \/
     cx_auth c (pi_manufacturer (dp_identity p)) = true /\ dp_identity p' = dp_identity p /\
     dp_version p' = dp_version p + 1).
Proof.
  intros R Hp Hk.
  assert (Hsame : forall st, passport st id = Some p -> exists p', passport st id = Some p' /\
     (contents p' = contents p \/
      cx_auth c (pi_manufacturer (dp_identity p)) = true /\ dp_identity p' = dp_identity p /\
      dp_version p' = dp_version p + 1)) by eauto.
  assert (Hstage : forall i st a n (t t' : St),
     transition_lifecycle_stage i st a n c t = Ok (tt, t') -> passport (pers t) id = Some p ->
     exists p', passport (pers t') id = Some p' /\
     (contents p' = contents p \/
      cx_auth c (pi_manufacturer (dp_identity p)) = true /\ dp_identity p' = dp_identity p /\
      dp_version p' = dp_version p + 1)).
  { intros i st a n t t' (q & Hq & _ & ->)%stage_Ok Ht. unfold passport in *.
    destruct (decide (i = id)) as [->|Hne].
    - exists (staged q st (cx_timestamp c)). store_reads. split; [done|]. left. by simplify_eq.
    - exists p. store_reads. by split; [|left]. }
  destruct k; simpl in R.
  - unfold create_passport in R. minv. apply Hsame. unfold passport in *. store_reads. exact Hp.
  - unfold update_passport, passport_or_abort in R. mcase. unfold passport in *.
    destruct (decide (id0 = id)) as [->|Hne].
    + eexists. rewrite sset_eq. split; [reflexivity|]. right. simpl.
      match goal with H : bool_decide _ = false |- _ => apply bool_decide_eq_false, dec_stable in H end.
      simplify_eq. repeat split; congruence.
    + apply Hsame. by store_reads.
  - by eapply Hstage.
  - unfold record_repair in R. minv. apply Hsame. unfold passport in *. store_reads. exact Hp.
  - unfold record_recycling in R. minv. destruct (Z.ltb 80 rate); minv.
    + eapply Hstage; [exact R|]. unfold passport in *. simpl. store_reads. exact Hp.
    + apply Hsame. unfold passport in *. store_reads. exact Hp.
  - unfold record_refurbishment in R. minv. eapply Hstage; [exact R|].
    unfold passport in *. simpl. store_reads. exact Hp.
  - apply bind_Ok in R as (st & s1 & R & R2). injection R2 as <-.
    apply verify_Ok in R as (q & r & _ & _ & _ & _ & _ & _ & ->). apply Hsame.
    unfold passport in *. store_reads. exact Hp.
  - unfold generate_passport_export, passport_or_abort in R. mcase. apply Hsame.
    unfold passport in *. store_reads. exact Hp.
  - unfold register_material_type in R. minv. apply Hsame. unfold passport in *. store_reads. exact Hp.
Qed.

(** What a compliance check concludes: [Compliant] when every mandatory field is
    there and the weights add up to 95 to 105 per cent; [NonCompliant] when they
    do not, or when the product has no identifier and nothing else is missing,
    since a later missing field overwrites that verdict; never
    [PendingVerification]. *)
Theorem compliance_verdict id a c s status s' :
  verify_espr_compliance id a c s = Ok (status, s') ->
  exists p, passport (pers s) id = Some p /\ passport (pers s') id = Some p /\
    let named := pi_product_id (dp_identity p) <> [] in
    let complete := dp_materials p <> [] /\ cf_total_embodied_carbon (dp_carbon_footprint p) <> 0 /\
                    ci_end_of_life_score (dp_circularity p) <> 0 in
    let weighed := 95 <= weight p <= 105 in
    (status = ComplianceStatus.Compliant <-> named /\ complete /\ weighed) /\
    (status = ComplianceStatus.NonCompliant <-> ~ weighed \/ ~ named /\ complete) /\
    status <> ComplianceStatus.PendingVerification.
Proof.
  intros (p & r & Hp & -> & _ & _ & _ & _ & ->)%verify_Ok. exists p. split; [done|].
  split; [unfold passport in *; by store_reads|].
  unfold verdict, field_checks, check_field.
  destruct (bool_decide_reflect (pi_product_id (dp_identity p) = []));
  destruct (dp_materials p);
  destruct (Z.eqb_spec (cf_total_embodied_carbon (dp_carbon_footprint p)) 0);
  destruct (Z.eqb_spec (ci_end_of_life_score (dp_circularity p)) 0);
  destruct (Z.ltb_spec (weight p) 95), (Z.ltb_spec 105 (weight p)); simpl;
  (split; [|split]; [split|split|]); try done; try (intros; exfalso; intuition (lia || done)).
  all: intuition (try lia; try done).
Qed.

(** Registering a product again, by whoever signs, replaces its passport: the
    new one is in force at version 1, the history of the old one goes on under
    it, and the index lists the identifier once more. *)
Theorem registration_replaces_the_passport pid name cat m model batch ms du ci cf c s id s' :
  create_passport pid name cat m model batch ms du ci cf c s = Ok (id, s') ->
  id = sha256 pid /\
  (exists p, passport (pers s') id = Some p /\ pi_manufacturer (dp_identity p) = m /\
     dp_version p = 1 /\ dp_lifecycle_stage p = PassportLifecycleStage.Created) /\
  stages (pers s') id = stages (pers s) id /\
  (exists l, get_product_passports pid c s = Ok (l, s) /\
     get_product_passports pid c s' = Ok (l ++ [id], s')).
Proof.
  unfold create_passport. intros R. minv. split; [done|]. split.
  - eexists. unfold passport. store_reads. by split.
  - split; [unfold stages; by store_reads|]. eexists. split; [reflexivity|].
    unfold get_product_passports, pget_or, pget, bind, ret. simpl. by store_reads.
Qed.
End Properties.

(** ** The properties at concrete states *)

#[local] Existing Instance sample_crypto.

Definition a_material : Material := mkMaterial [1] "AL" 60 "virgin" false [].
Definition b_material : Material := mkMaterial [2] "FE" 40 "recycled" false [].
Definition a_durability : Durability := mkDurability 10 2 true 5 [7] 8.
Definition a_circularity (score : Z) : Circularity := mkCircularity [] 30 true true [] [] score.
Definition a_footprint : CarbonFootprint := mkCarbonFootprint 1 2 3 4 900 false [] "ISO_14040" 5.
Definition p_register (product : Bytes) (maker : Address) : pcall :=
  PCreate product [65] "phone" maker [1] [2] [a_material; b_material] a_durability
    (a_circularity 70) a_footprint.
Definition p_id : Hash := sha256 [1; 2; 3].

Definition p_call (t : Z) (k : pcall) (s : St) : St := post (pexec k) (at_time t) s.
Definition p_made : St := p_call 100 (p_register [1; 2; 3] alice) empty_state.
Definition p_repaired : St := p_call 110 (PRepair p_id "shop" "minor" [] []) p_made.
Definition p_recycled : St := p_call 120 (PRecycle p_id "plant" 90 [a_material] []) p_repaired.
Definition p_anonymous : St := p_call 100 (p_register [] alice) empty_state.

Lemma p_call_trace t k l s :
  ptrace l s -> outcome (pexec k) (at_time t) s = Ok tt -> ptrace (k :: l) (p_call t k s).
Proof. intros T H. eapply ptrace_call; [exact T|]. by apply run_outcome. Qed.

Lemma get_passport_run id c s p : passport (pers s) id = Some p -> get_passport id c s = Ok (p, s).
Proof.
  unfold passport, get_passport, passport_or_abort. intros E.
  rewrite (bind_run _ _ c s (Some p) s) by (unfold pget; by rewrite E). reflexivity.
Qed.

Lemma p_recycled_trace : exists l, times (registers p_id) l = 1%nat /\ ptrace l p_recycled.
Proof.
  eexists. split; [|do 3 (eapply p_call_trace; [|vm_compute; reflexivity]); constructor].
  vm_compute. reflexivity.
Qed.

Lemma passport_history_is_a_walk_witness :
  exists p h, get_passport p_id (at_time 200) p_recycled = Ok (p, p_recycled) /\
    dp_lifecycle_stage p = PassportLifecycleStage.Recycled /\
    get_lifecycle_history p_id (at_time 200) p_recycled = Ok (h, p_recycled) /\ len h = 1 /\
    Walk PassportLifecycleStage.Created h (dp_lifecycle_stage p).
Proof.
  destruct (passport (pers p_recycled) p_id) as [p|] eqn:E; [|exfalso; vm_compute in E; discriminate].
  assert (dp_lifecycle_stage p = PassportLifecycleStage.Recycled) as Hp
    by (vm_compute in E; injection E as <-; reflexivity).
  pose proof (get_passport_run p_id (at_time 200) _ _ E) as H.
  destruct p_recycled_trace as (l & Hn & T).
  destruct (passport_history_is_a_walk l p_recycled T) as [Hw _].
  destruct (Hw _ _ _ H) as (h & earlier & last & Hh & _ & Hc & Hl & _ & W). exists p, h.
  split; [exact H|]. split; [exact Hp|]. split; [exact Hh|]. rewrite Hn in Hl.
  destruct earlier as [|x earlier]; [|discriminate Hl]. simpl in Hc. subst last.
  split; [|exact W]. injection Hh as Hh. rewrite <- Hh. vm_compute. reflexivity.
Defined.

Lemma only_the_manufacturer_edits_witness :
  exists s' p', pexec (PUpdate p_id (Some [a_material]) None None alice) (at_time 130) p_recycled
      = Ok (tt, s') /\
    passport (pers s') p_id = Some p' /\ dp_version p' = 2.
Proof.
  set (k := PUpdate p_id (Some [a_material]) None None alice).
  assert (outcome (pexec k) (at_time 130) p_recycled = Ok tt) as O by (vm_compute; reflexivity).
  pose proof (run_outcome _ _ _ _ O) as R.
  destruct (passport (pers p_recycled) p_id) as [p|] eqn:E; [|exfalso; vm_compute in E; discriminate].
  destruct (only_the_manufacturer_edits k _ _ _ p_id p R E I) as (p' & Hp' & H).
  assert (dp_version p = 1 /\ dp_materials p = [a_material; b_material]) as [Hv Hm]
    by (vm_compute in E; injection E as <-; split; reflexivity).
  assert (dp_materials p' = [a_material]) as Hm'.
  { vm_compute in Hp'. injection Hp' as <-. reflexivity. }
  exists (post (pexec k) (at_time 130) p_recycled), p'. split; [exact R|]. split; [exact Hp'|].
  destruct H as [H|(_ & _ & H)]; [|lia].
  exfalso. unfold contents in H. injection H as _ Em _ _ _ _ _ _. rewrite Hm, Hm' in Em. discriminate.
Defined.

Lemma compliance_verdict_witness :
  exists s1 s2,
    verify_espr_compliance p_id owner (at_time 130) p_recycled = Ok (ComplianceStatus.Compliant, s1) /\
    verify_espr_compliance (sha256 []) owner (at_time 130) p_anonymous
      = Ok (ComplianceStatus.NonCompliant, s2) /\
    exists p, passport (pers p_recycled) p_id = Some p /\ 95 <= weight p <= 105.
Proof.
  assert (outcome (verify_espr_compliance p_id owner) (at_time 130) p_recycled
          = Ok ComplianceStatus.Compliant) as R%run_outcome by (vm_compute; reflexivity).
  assert (outcome (verify_espr_compliance (sha256 []) owner) (at_time 130) p_anonymous
          = Ok ComplianceStatus.NonCompliant) as R2%run_outcome by (vm_compute; reflexivity).
  do 2 eexists. split; [exact R|]. split; [exact R2|].
  destruct (compliance_verdict _ _ _ _ _ _ R) as (p & Hp & _ & H & _). exists p. split; [exact Hp|].
  by apply H.
Defined.

Lemma registration_replaces_the_passport_witness :
  exists s' p, outcome (pexec (p_register [1; 2; 3] "mallory")) (at_time 140) p_recycled = Ok tt /\
    passport (pers s') p_id = Some p /\ pi_manufacturer (dp_identity p) = "mallory"%string /\
    stages (pers s') p_id = stages (pers p_recycled) p_id.
Proof.
  assert (outcome (create_passport [1; 2; 3] [65] "phone" "mallory" [1] [2] [a_material; b_material]
      a_durability (a_circularity 70) a_footprint) (at_time 140) p_recycled = Ok p_id)
    as R%run_outcome by (vm_compute; reflexivity).
  destruct (registration_replaces_the_passport _ _ _ _ _ _ _ _ _ _ _ _ _ _ R)
    as (_ & (p & H1 & H2 & _) & H3 & _).
  eexists _, p. split; [vm_compute; reflexivity|]. by split; [exact H1|split].
Defined.
