(* ===== verification/Sandbox.v ===== *)
(** * The regulatory sandbox: data

    The types of src/sandbox_types.rs with their methods.  A field that the
    source declares as [u8] holds the discriminant of an enum ([code]).

    The second part of the file: the regulatory sandbox: operations. *)

From S2P Require Import Prelude Contract Fallible Codec.

Module SandboxEnvironment.
(** [SandboxEnvironment], src/sandbox_types.rs:9-16 *)
Inductive SandboxEnvironment : Set :=
  | Level1PoC | Level2Beta | Level3Production.
#[global] Instance SandboxEnvironment_eq_dec : EqDecision SandboxEnvironment.
Proof. solve_decision. Defined.

(** [SandboxEnvironment], its discriminants, src/sandbox_types.rs:9-16 *)
Definition code (x : SandboxEnvironment) : Z :=
  match x with
  | Level1PoC => 0 | Level2Beta => 1 | Level3Production => 2
  end.
End SandboxEnvironment.
Abbreviation SandboxEnvironment := SandboxEnvironment.SandboxEnvironment.

Module ParticipantType.
(** [ParticipantType], src/sandbox_types.rs:72-85 *)
Inductive ParticipantType : Set :=
  | Fintech | Bank | PaymentProvider | TechProvider | CryptoCompany | Cooperative.
#[global] Instance ParticipantType_eq_dec : EqDecision ParticipantType.
Proof. solve_decision. Defined.

(** [ParticipantType], its discriminants, src/sandbox_types.rs:72-85 *)
Definition code (x : ParticipantType) : Z :=
  match x with
  | Fintech => 0 | Bank => 1 | PaymentProvider => 2 | TechProvider => 3 | CryptoCompany => 4
  | Cooperative => 5
  end.
End ParticipantType.
Abbreviation ParticipantType := ParticipantType.ParticipantType.

Module ApplicationStatus.
(** [ApplicationStatus], src/sandbox_types.rs:104-117 *)
Inductive ApplicationStatus : Set :=
  | Submitted | UnderReview | AdditionalInfoRequested | Approved | Rejected | Withdrawn.
#[global] Instance ApplicationStatus_eq_dec : EqDecision ApplicationStatus.
Proof. solve_decision. Defined.

(** [ApplicationStatus], its discriminants, src/sandbox_types.rs:104-117 *)
Definition code (x : ApplicationStatus) : Z :=
  match x with
  | Submitted => 0 | UnderReview => 1 | AdditionalInfoRequested => 2 | Approved => 3
  | Rejected => 4 | Withdrawn => 5
  end.
End ApplicationStatus.
Abbreviation ApplicationStatus := ApplicationStatus.ApplicationStatus.

(** [as_symbol] of SandboxEnvironment, src/sandbox_types.rs:9-16 *)
Definition environment_symbol (e : SandboxEnvironment) : Symbol :=
  match e with
  | SandboxEnvironment.Level1PoC => "LEVEL1"
  | SandboxEnvironment.Level2Beta => "LEVEL2"
  | SandboxEnvironment.Level3Production => "LEVEL3"
  end.

(** [description], src/sandbox_types.rs:27-33 *)
Definition description (e : SandboxEnvironment) : string :=
  match e with
  | SandboxEnvironment.Level1PoC => "Proof-of-Concept Environment"
  | SandboxEnvironment.Level2Beta => "Beta Testing Environment"
  | SandboxEnvironment.Level3Production => "Production-Like Environment"
  end.

(** [max_transaction_amount], src/sandbox_types.rs:35-41 *)
Definition max_transaction_amount (e : SandboxEnvironment) : Z :=
  match e with
  | SandboxEnvironment.Level1PoC => 1000000
  | SandboxEnvironment.Level2Beta => 10000000
  | SandboxEnvironment.Level3Production => 100000000
  end.

(** [max_daily_volume], src/sandbox_types.rs:43-49 *)
Definition max_daily_volume (e : SandboxEnvironment) : Z :=
  match e with
  | SandboxEnvironment.Level1PoC => 10000000
  | SandboxEnvironment.Level2Beta => 100000000
  | SandboxEnvironment.Level3Production => 1000000000
  end.

(** [required_compliance_checks], src/sandbox_types.rs:51-57 *)
Definition required_compliance_checks (e : SandboxEnvironment) : Z :=
  match e with
  | SandboxEnvironment.Level1PoC => 3
  | SandboxEnvironment.Level2Beta => 5
  | SandboxEnvironment.Level3Production => 8
  end.

(** [monitoring_frequency_seconds], src/sandbox_types.rs:59-65 *)
Definition monitoring_frequency_seconds (e : SandboxEnvironment) : Z :=
  match e with
  | SandboxEnvironment.Level1PoC => 300
  | SandboxEnvironment.Level2Beta => 60
  | SandboxEnvironment.Level3Production => 10
  end.

(** [as_symbol] of ParticipantType, src/sandbox_types.rs:88-97 *)
Definition participant_symbol (p : ParticipantType) : Symbol :=
  match p with
  | ParticipantType.Fintech => "FINTECH"
  | ParticipantType.Bank => "BANK"
  | ParticipantType.PaymentProvider => "PAYMENT"
  | ParticipantType.TechProvider => "TECH"
  | ParticipantType.CryptoCompany => "CRYPTO"
  | ParticipantType.Cooperative => "COOP"
  end.

(** [is_terminal], src/sandbox_types.rs:120-127 *)
Definition is_terminal (s : ApplicationStatus) : bool :=
  match s with
  | ApplicationStatus.Approved | ApplicationStatus.Rejected | ApplicationStatus.Withdrawn => true
  | _ => false
  end.

(** [is_active], src/sandbox_types.rs:129-131 *)
Definition is_active (s : ApplicationStatus) : bool :=
  match s with ApplicationStatus.Approved => true | _ => false end.

(** [SandboxParticipant], src/sandbox_types.rs:137-158 *)
Record SandboxParticipant := mkSandboxParticipant {
  sp_participant_id : Hash;
  sp_name : Bytes;
  sp_address : Address;
  sp_participant_type : Z;
  sp_environment : Z;
  sp_entry_date : Z;
  sp_planned_exit_date : Z;
  sp_is_active : bool;
  sp_innovation_focus : Bytes;
  sp_assigned_supervisor : Address }.
Definition set_sp_planned_exit_date (v : Z) (r : SandboxParticipant) : SandboxParticipant :=
  mkSandboxParticipant (sp_participant_id r) (sp_name r) (sp_address r) (sp_participant_type r)
  (sp_environment r) (sp_entry_date r) v (sp_is_active r) (sp_innovation_focus r)
  (sp_assigned_supervisor r).
Definition set_sp_is_active (v : bool) (r : SandboxParticipant) : SandboxParticipant :=
  mkSandboxParticipant (sp_participant_id r) (sp_name r) (sp_address r) (sp_participant_type r)
  (sp_environment r) (sp_entry_date r) (sp_planned_exit_date r) v (sp_innovation_focus r)
  (sp_assigned_supervisor r).

(** [SandboxApplication], src/sandbox_types.rs:163-186 *)
Record SandboxApplication := mkSandboxApplication {
  sa_application_id : Hash;
  sa_applicant : Address;
  sa_organization_name : Bytes;
  sa_participant_type : Z;
  sa_requested_environment : Z;
  sa_status : Z;
  sa_submitted_at : Z;
  sa_reviewed_at : option Z;
  sa_description : Bytes;
  sa_technology_details : Bytes;
  sa_expected_duration_days : Z }.
Definition set_sa_status (v : Z) (r : SandboxApplication) : SandboxApplication :=
  mkSandboxApplication (sa_application_id r) (sa_applicant r) (sa_organization_name r)
  (sa_participant_type r) (sa_requested_environment r) v (sa_submitted_at r) (sa_reviewed_at r)
  (sa_description r) (sa_technology_details r) (sa_expected_duration_days r).
Definition set_sa_reviewed_at (v : option Z) (r : SandboxApplication) : SandboxApplication :=
  mkSandboxApplication (sa_application_id r) (sa_applicant r) (sa_organization_name r)
  (sa_participant_type r) (sa_requested_environment r) (sa_status r) (sa_submitted_at r) v
  (sa_description r) (sa_technology_details r) (sa_expected_duration_days r).

(** [RelaxedRequirements], src/sandbox_types.rs:191-206 *)
Record RelaxedRequirements := mkRelaxedRequirements {
  rl_reduced_kyc_enabled : bool;
  rl_reduced_aml_enabled : bool;
  rl_transaction_limit_exemptions : bool;
  rl_partial_compliance_enabled : bool;
  rl_reserve_requirement_reduced : bool;
  rl_reduction_percentage : Z;
  rl_waivers : Bytes }.

(** [new_level1], src/sandbox_types.rs:209-219 *)
Definition new_level1 : RelaxedRequirements := mkRelaxedRequirements true true true true true 75 [].

(** [new_level2], src/sandbox_types.rs:221-231 *)
Definition new_level2 : RelaxedRequirements := mkRelaxedRequirements true true false true true 40 [].

(** [new_level3], src/sandbox_types.rs:233-243 *)
Definition new_level3 : RelaxedRequirements :=
  mkRelaxedRequirements false false false false false 0 [].

(** [GraduationCriteria], src/sandbox_types.rs:249-264 *)
Record GraduationCriteria := mkGraduationCriteria {
  gc_min_transactions : Z;
  gc_min_duration_days : Z;
  gc_min_compliance_score : Z;
  gc_min_user_satisfaction : Z;
  gc_regulatory_approval_required : bool;
  gc_financial_health_required : bool;
  gc_min_tech_readiness_score : Z }.

(** [default] of GraduationCriteria, src/sandbox_types.rs:249-264 *)
Definition default_criteria : GraduationCriteria := mkGraduationCriteria 1000 90 85 75 true true 80.

(** [aggressive], src/sandbox_types.rs:279-289 *)
Definition aggressive : GraduationCriteria := mkGraduationCriteria 5000 180 95 85 true true 90.

(** [flexible], src/sandbox_types.rs:291-301 *)
Definition flexible : GraduationCriteria := mkGraduationCriteria 500 30 75 60 true false 70.

(** [SandboxConfig], src/sandbox_types.rs:307-320 *)
Record SandboxConfig := mkSandboxConfig {
  sc_max_participants : Z;
  sc_participant_count : Z;
  sc_is_enabled : bool;
  sc_max_duration_days : Z;
  sc_min_duration_days : Z;
  sc_emergency_exit_enabled : bool }.

(** [default] of SandboxConfig, src/sandbox_types.rs:323-332 *)
Definition default_config : SandboxConfig := mkSandboxConfig 100 0 true 365 30 false.

(** [can_add_participant], src/sandbox_types.rs:334-336 *)
Definition can_add_participant (c : SandboxConfig) : bool :=
  sc_is_enabled c && Z.ltb (sc_participant_count c) (sc_max_participants c).

(** * The regulatory sandbox: operations

    Applications and participants (src/sandbox_mgmt.rs), isolated environments
    (src/sandbox_env.rs), supervision (src/sandbox_supervision.rs), innovation
    metrics (src/sandbox_innovation.rs) and graduation
    (src/sandbox_graduation.rs).  The functions take the time of the ledger as
    an argument [now]; their errors are texts. *)

(** The errors are [&'static str] values. *)
#[local] Abbreviation R := (result string).

(** ** Data *)

(** [ApplicationStatistics], src/sandbox_mgmt.rs:197-210 *)
Record ApplicationStatistics := mkApplicationStatistics {
  st_total_applications : Z;
  st_approved_applications : Z;
  st_rejected_applications : Z;
  st_pending_applications : Z;
  st_avg_review_time : Z;
  st_approval_rate : Z }.

(** [SandboxInstance], src/sandbox_env.rs:9-28 *)
Record SandboxInstance := mkSandboxInstance {
  si_sandbox_id : Hash;
  si_participant_id : Hash;
  si_environment : Z;
  si_relaxed_requirements : RelaxedRequirements;
  si_daily_volume_used : Z;
  si_daily_volume_limit : Z;
  si_is_fully_isolated : bool;
  si_transaction_count : Z;
  si_state_hash : Hash }.
Definition set_si_daily_volume_used (v : Z) (r : SandboxInstance) : SandboxInstance :=
  mkSandboxInstance (si_sandbox_id r) (si_participant_id r) (si_environment r)
  (si_relaxed_requirements r) v (si_daily_volume_limit r) (si_is_fully_isolated r)
  (si_transaction_count r) (si_state_hash r).
Definition set_si_transaction_count (v : Z) (r : SandboxInstance) : SandboxInstance :=
  mkSandboxInstance (si_sandbox_id r) (si_participant_id r) (si_environment r)
  (si_relaxed_requirements r) (si_daily_volume_used r) (si_daily_volume_limit r)
  (si_is_fully_isolated r) v (si_state_hash r).
Definition set_si_state_hash (v : Hash) (r : SandboxInstance) : SandboxInstance :=
  mkSandboxInstance (si_sandbox_id r) (si_participant_id r) (si_environment r)
  (si_relaxed_requirements r) (si_daily_volume_used r) (si_daily_volume_limit r)
  (si_is_fully_isolated r) (si_transaction_count r) v.

Module TransactionApprovalStatus.
(** [TransactionApprovalStatus], src/sandbox_env.rs:34-45 *)
Inductive TransactionApprovalStatus : Set :=
  | Approved | LimitExceeded | ComplianceFailed | InvalidTransaction | PendingReview.
#[global] Instance TransactionApprovalStatus_eq_dec : EqDecision TransactionApprovalStatus.
Proof. solve_decision. Defined.
End TransactionApprovalStatus.
Abbreviation TransactionApprovalStatus := TransactionApprovalStatus.TransactionApprovalStatus.

(** [EnvironmentStatistics], src/sandbox_env.rs:188-199 *)
Record EnvironmentStatistics := mkEnvironmentStatistics {
  es_transactions_executed : Z;
  es_transactions_failed : Z;
  es_total_volume : Z;
  es_compliance_score : Z;
  es_daily_limit_usage : Z }.

(** [SupervisionRecord], src/sandbox_supervision.rs:9-26 *)
Record SupervisionRecord := mkSupervisionRecord {
  sr_record_id : Hash;
  sr_participant_id : Hash;
  sr_supervisor : Address;
  sr_inspection_date : Z;
  sr_findings : Bytes;
  sr_assessment_score : Z;
  sr_risk_level : Z;
  sr_corrective_actions : Bytes }.
Definition set_sr_corrective_actions (v : Bytes) (r : SupervisionRecord) : SupervisionRecord :=
  mkSupervisionRecord (sr_record_id r) (sr_participant_id r) (sr_supervisor r)
  (sr_inspection_date r) (sr_findings r) (sr_assessment_score r) (sr_risk_level r) v.

Module RiskLevel.
(** [RiskLevel], src/sandbox_supervision.rs:32-37 *)
Inductive RiskLevel : Set :=
  | Low | Medium | High | Critical.
#[global] Instance RiskLevel_eq_dec : EqDecision RiskLevel.
Proof. solve_decision. Defined.

(** [RiskLevel], its discriminants, src/sandbox_supervision.rs:32-37 *)
Definition code (x : RiskLevel) : Z :=
  match x with
  | Low => 0 | Medium => 1 | High => 2 | Critical => 3
  end.
End RiskLevel.
Abbreviation RiskLevel := RiskLevel.RiskLevel.

(** [InnovationMetrics], src/sandbox_innovation.rs:8-25 *)
Record InnovationMetrics := mkInnovationMetrics {
  im_participant_id : Hash;
  im_impact_score : Z;
  im_market_readiness : Z;
  im_tech_maturity : Z;
  im_user_adoption : Z;
  im_learning_outcomes : Bytes;
  im_lessons_learned : Bytes;
  im_deployment_ready : bool }.
Definition set_im_deployment_ready (v : bool) (r : InnovationMetrics) : InnovationMetrics :=
  mkInnovationMetrics (im_participant_id r) (im_impact_score r) (im_market_readiness r)
  (im_tech_maturity r) (im_user_adoption r) (im_learning_outcomes r) (im_lessons_learned r) v.

(** [GraduationAssessment], src/sandbox_graduation.rs:9-36 *)
Record GraduationAssessment := mkGraduationAssessment {
  ga_assessment_id : Hash;
  ga_participant_id : Hash;
  ga_assessed_at : Z;
  ga_transactions_completed : Z;
  ga_days_in_sandbox : Z;
  ga_compliance_score : Z;
  ga_user_satisfaction : Z;
  ga_regulatory_approval : bool;
  ga_financial_health_passed : bool;
  ga_tech_readiness_score : Z;
  ga_is_eligible : bool;
  ga_decision : Z;
  ga_notes : Bytes }.
Definition set_ga_is_eligible (v : bool) (r : GraduationAssessment) : GraduationAssessment :=
  mkGraduationAssessment (ga_assessment_id r) (ga_participant_id r) (ga_assessed_at r)
  (ga_transactions_completed r) (ga_days_in_sandbox r) (ga_compliance_score r)
  (ga_user_satisfaction r) (ga_regulatory_approval r) (ga_financial_health_passed r)
  (ga_tech_readiness_score r) v (ga_decision r) (ga_notes r).
Definition set_ga_decision (v : Z) (r : GraduationAssessment) : GraduationAssessment :=
  mkGraduationAssessment (ga_assessment_id r) (ga_participant_id r) (ga_assessed_at r)
  (ga_transactions_completed r) (ga_days_in_sandbox r) (ga_compliance_score r)
  (ga_user_satisfaction r) (ga_regulatory_approval r) (ga_financial_health_passed r)
  (ga_tech_readiness_score r) (ga_is_eligible r) v (ga_notes r).
Definition set_ga_notes (v : Bytes) (r : GraduationAssessment) : GraduationAssessment :=
  mkGraduationAssessment (ga_assessment_id r) (ga_participant_id r) (ga_assessed_at r)
  (ga_transactions_completed r) (ga_days_in_sandbox r) (ga_compliance_score r)
  (ga_user_satisfaction r) (ga_regulatory_approval r) (ga_financial_health_passed r)
  (ga_tech_readiness_score r) (ga_is_eligible r) (ga_decision r) v.

Module GraduationDecision.
(** [GraduationDecision], src/sandbox_graduation.rs:42-47 *)
Inductive GraduationDecision : Set :=
  | Pending | Approved | Rejected | Deferred.
#[global] Instance GraduationDecision_eq_dec : EqDecision GraduationDecision.
Proof. solve_decision. Defined.

(** [GraduationDecision], its discriminants, src/sandbox_graduation.rs:42-47 *)
Definition code (x : GraduationDecision) : Z :=
  match x with
  | Pending => 0 | Approved => 1 | Rejected => 2 | Deferred => 3
  end.
End GraduationDecision.
Abbreviation GraduationDecision := GraduationDecision.GraduationDecision.

Section Sandbox.
Context `{C : Crypto} `{X : AddressXdr}.

(** ** Applications and participants *)

(** [compute_application_id], src/sandbox_mgmt.rs:47-59 *)
Definition compute_application_id (applicant : Address) (organization_name : Bytes) (now : Z)
    : Hash :=
  sha256 (address_xdr applicant ++ organization_name ++ u64_to_bytes now).

(** [create_application], src/sandbox_mgmt.rs:11-44 *)
Definition create_application (applicant : Address) (organization_name : Bytes)
    (participant_type : ParticipantType) (requested_environment : SandboxEnvironment)
    (description technology_details : Bytes) (expected_duration_days now : Z)
    : R SandboxApplication :=
  do? fail_if (bool_decide (organization_name = [])) "Organization name cannot be empty" in
  do? fail_if (Z.eqb expected_duration_days 0 || Z.ltb 730 expected_duration_days)
        "Duration must be between 1 and 730 days" in
  Ok (mkSandboxApplication (compute_application_id applicant organization_name now) applicant
        organization_name (ParticipantType.code participant_type)
        (SandboxEnvironment.code requested_environment)
        (ApplicationStatus.code ApplicationStatus.Submitted) now None description
        technology_details expected_duration_days).

(** [compute_participant_id], src/sandbox_mgmt.rs:121-128 *)
Definition compute_participant_id (applicant : Address) : Hash :=
  sha256 (address_xdr applicant ++ str_bytes "PARTICIPANT").

(** [application.status == s as u8]. *)
Definition has_status (a : SandboxApplication) (s : ApplicationStatus) : bool :=
  Z.eqb (sa_status a) (ApplicationStatus.code s).

(** [approve_application], src/sandbox_mgmt.rs:62-90 *)
Definition approve_application (assigned_supervisor : Address) (now : Z)
    : SM SandboxApplication string SandboxParticipant :=
  let! a := sm_get in
  do! sm_try (fail_if (negb (has_status a ApplicationStatus.Submitted))
                "Application must be in submitted state") in
  let participant_id := compute_participant_id (sa_applicant a) in
  let! exit_date := sm_try (u64_plus now (sa_expected_duration_days a * 86400)) in
  do! sm_put (set_sa_reviewed_at (Some now)
                (set_sa_status (ApplicationStatus.code ApplicationStatus.Approved) a)) in
  sm_ret (mkSandboxParticipant participant_id (sa_organization_name a) (sa_applicant a)
            (sa_participant_type a) (sa_requested_environment a) now exit_date true
            (sa_description a) assigned_supervisor).

(** [reject_application], src/sandbox_mgmt.rs:93-105 *)
Definition reject_application (now : Z) : SM SandboxApplication string unit :=
  let! a := sm_get in
  do! sm_try (fail_if (has_status a ApplicationStatus.Approved)
                "Cannot reject approved application") in
  sm_put (set_sa_reviewed_at (Some now)
            (set_sa_status (ApplicationStatus.code ApplicationStatus.Rejected) a)).

(** [request_additional_info], src/sandbox_mgmt.rs:108-118 *)
Definition request_additional_info : SM SandboxApplication string unit :=
  let! a := sm_get in
  do! sm_try (fail_if (negb (has_status a ApplicationStatus.Submitted))
                "Application must be in submitted state") in
  sm_put (set_sa_status (ApplicationStatus.code ApplicationStatus.AdditionalInfoRequested) a).

(** [extend_participation], src/sandbox_mgmt.rs:131-147 *)
Definition extend_participation (additional_days max_days : Z) : SM SandboxParticipant string unit :=
  let! p := sm_get in
  do! sm_try (fail_if (Z.eqb additional_days 0) "Extension must be at least 1 day") in
  let! stay := sm_try (u64_chk (sp_planned_exit_date p - sp_entry_date p)) in
  let current_duration := stay / 86400 in
  let! total := sm_try (u32_chk (as_u32 current_duration + additional_days)) in
  do! sm_try (fail_if (Z.ltb max_days total) "Extension exceeds maximum sandbox duration") in
  let! exit_date := sm_try (u64_chk (sp_planned_exit_date p + additional_days * 86400)) in
  sm_put (set_sp_planned_exit_date exit_date p).

(** [exit_sandbox], src/sandbox_mgmt.rs:150-162 *)
Definition exit_sandbox (now : Z) : SM SandboxParticipant string unit :=
  let! p := sm_get in
  do! sm_try (fail_if (negb (sp_is_active p)) "Participant is already inactive") in
  sm_put (set_sp_planned_exit_date now (set_sp_is_active false p)).

(** [is_participant_active], src/sandbox_mgmt.rs:165-170 *)
Definition is_participant_active (p : SandboxParticipant) (current_time : Z) : bool :=
  sp_is_active p && Z.ltb current_time (sp_planned_exit_date p).

(** [get_days_remaining], src/sandbox_mgmt.rs:173-182 *)
Definition get_days_remaining (p : SandboxParticipant) (current_time : Z) : Z :=
  if Z.leb (sp_planned_exit_date p) current_time then 0
  else as_u32 ((sp_planned_exit_date p - current_time) / 86400).

(** [get_relaxed_requirements], src/sandbox_mgmt.rs:185-191 *)
Definition get_relaxed_requirements (environment : SandboxEnvironment) : RelaxedRequirements :=
  match environment with
  | SandboxEnvironment.Level1PoC => new_level1
  | SandboxEnvironment.Level2Beta => new_level2
  | SandboxEnvironment.Level3Production => new_level3
  end.

(** [new], src/sandbox_mgmt.rs:213-222 *)
Definition new_statistics : ApplicationStatistics := mkApplicationStatistics 0 0 0 0 0 0.

(** [record_application], src/sandbox_mgmt.rs:224-227 *)
Definition record_application (s : ApplicationStatistics) : R ApplicationStatistics :=
  let? total := u32_plus (st_total_applications s) 1 in
  let? pending := u32_plus (st_pending_applications s) 1 in
  Ok (mkApplicationStatistics total (st_approved_applications s) (st_rejected_applications s)
        pending (st_avg_review_time s) (st_approval_rate s)).

(** [record_approval], src/sandbox_mgmt.rs:229-232 *)
Definition record_approval (s : ApplicationStatistics) : R ApplicationStatistics :=
  let? approved := u32_plus (st_approved_applications s) 1 in
  Ok (mkApplicationStatistics (st_total_applications s) approved (st_rejected_applications s)
        (u64_sat_sub (st_pending_applications s) 1) (st_avg_review_time s) (st_approval_rate s)).

(** [compute_approval_rate], src/sandbox_mgmt.rs:234-242 *)
Definition compute_approval_rate (s : ApplicationStatistics) : ApplicationStatistics :=
  let rate := if Z.eqb (st_total_applications s) 0 then 0
              else as_u32 (st_approved_applications s * 100 / st_total_applications s) in
  mkApplicationStatistics (st_total_applications s) (st_approved_applications s)
    (st_rejected_applications s) (st_pending_applications s) (st_avg_review_time s) rate.

(** ** Environments *)

(** [compute_sandbox_id], src/sandbox_env.rs:80-87 *)
Definition compute_sandbox_id (participant_id : Hash) : Hash :=
  sha256 (participant_id ++ str_bytes "SANDBOX").

(** [create_sandbox_instance], src/sandbox_env.rs:52-77 *)
Definition create_sandbox_instance (participant_id : Hash) (environment : SandboxEnvironment)
    : R SandboxInstance :=
  Ok (mkSandboxInstance (compute_sandbox_id participant_id) participant_id
        (SandboxEnvironment.code environment)
        match environment with
        | SandboxEnvironment.Level1PoC => new_level1
        | SandboxEnvironment.Level2Beta => new_level2
        | SandboxEnvironment.Level3Production => new_level3
        end
        0 (max_daily_volume environment) true 0 (replicate 32 0)).

(** The environment of a discriminant, as [check_transaction_limits] finds it,
    src/sandbox_env.rs:95-100 *)
Definition environment_of (e : Z) : option SandboxEnvironment :=
  if Z.eqb e (SandboxEnvironment.code SandboxEnvironment.Level1PoC)
  then Some SandboxEnvironment.Level1PoC
  else if Z.eqb e (SandboxEnvironment.code SandboxEnvironment.Level2Beta)
  then Some SandboxEnvironment.Level2Beta
  else if Z.eqb e (SandboxEnvironment.code SandboxEnvironment.Level3Production)
  then Some SandboxEnvironment.Level3Production
  else None.

(** [check_transaction_limits], src/sandbox_env.rs:90-112 *)
Definition check_transaction_limits (s : SandboxInstance) (transaction_amount : Z)
    : R TransactionApprovalStatus :=
  match environment_of (si_environment s) with
  | None => Err (Raise "Invalid environment")
  | Some env_level =>
      if Z.ltb (max_transaction_amount env_level) transaction_amount
      then Ok TransactionApprovalStatus.LimitExceeded
      else
        let? volume := u128_chk (si_daily_volume_used s + transaction_amount) in
        if Z.ltb (si_daily_volume_limit s) volume then Ok TransactionApprovalStatus.LimitExceeded
        else Ok TransactionApprovalStatus.Approved
  end.

(** [execute_sandbox_transaction], src/sandbox_env.rs:115-131 *)
Definition execute_sandbox_transaction (amount : Z)
    : SM SandboxInstance string TransactionApprovalStatus :=
  let! s := sm_get in
  let! approval := sm_try (check_transaction_limits s amount) in
  if bool_decide (approval <> TransactionApprovalStatus.Approved) then sm_ret approval
  else
    let volume := Z.min (si_daily_volume_used s + amount) u128_max in
    let! count := sm_try (u32_plus (si_transaction_count s) 1) in
    do! sm_put (set_si_transaction_count count (set_si_daily_volume_used volume s)) in
    sm_ret TransactionApprovalStatus.Approved.

(** [reset_daily_limits], src/sandbox_env.rs:134-136 *)
Definition reset_daily_limits : SM SandboxInstance string unit :=
  let! s := sm_get in sm_put (set_si_daily_volume_used 0 s).

(** [compute_compliance_score], src/sandbox_env.rs:139-150 *)
Definition compute_compliance_score (s : SandboxInstance) (failed_checks total_checks : Z) : Z :=
  if Z.eqb total_checks 0 then 100
  else as_u32 (u64_sat_sub total_checks failed_checks * 100 / total_checks).

(** [detect_abuse], src/sandbox_env.rs:153-166 *)
Definition detect_abuse (s : SandboxInstance) (transaction_count failed_compliance : Z) : bool :=
  let abuse_ratio :=
    if Z.ltb 0 transaction_count then failed_compliance * 100 / transaction_count else 0 in
  Z.ltb 30 abuse_ratio.

(** [get_required_compliance_checks], src/sandbox_env.rs:169-171 *)
Definition get_required_compliance_checks (environment : SandboxEnvironment) : Z :=
  required_compliance_checks environment.

(** The 16 bytes of a [u128], [to_le_bytes]. *)
Definition u128_to_bytes (v : Z) : Bytes :=
  u64_to_bytes (v mod 2 ^ 64) ++ u64_to_bytes (v / 2 ^ 64).

(** [update_state_hash], src/sandbox_env.rs:174-182 *)
Definition update_state_hash (s : SandboxInstance) : SandboxInstance :=
  set_si_state_hash
    (sha256 (si_sandbox_id s ++ u128_to_bytes (si_daily_volume_used s)
             ++ u32_to_bytes (si_transaction_count s))) s.

(** [success_rate], src/sandbox_env.rs:202-209 *)
Definition success_rate (s : EnvironmentStatistics) : Z :=
  let total := u32_sat_add (es_transactions_executed s) (es_transactions_failed s) in
  if Z.eqb total 0 then 100 else as_u32 (es_transactions_executed s * 100 / total).

(** ** Supervision *)

(** [requires_intervention], src/sandbox_supervision.rs:40-42 *)
Definition requires_intervention (r : RiskLevel) : bool :=
  match r with RiskLevel.High | RiskLevel.Critical => true | _ => false end.

(** [compute_record_id], src/sandbox_supervision.rs:77-84 *)
Definition compute_record_id (participant_id : Hash) (now : Z) : Hash :=
  sha256 (participant_id ++ u64_to_bytes now).

(** [create_supervision_record], src/sandbox_supervision.rs:50-74 *)
Definition create_supervision_record (participant_id : Hash) (supervisor : Address)
    (findings : Bytes) (assessment_score : Z) (risk_level : RiskLevel) (now : Z)
    : R SupervisionRecord :=
  do? fail_if (Z.ltb 100 assessment_score) "Assessment score must be 0-100" in
  Ok (mkSupervisionRecord (compute_record_id participant_id now) participant_id supervisor now
        findings assessment_score (RiskLevel.code risk_level) []).

(** [add_corrective_actions], src/sandbox_supervision.rs:87-97 *)
Definition add_corrective_actions (actions : Bytes) : SM SupervisionRecord string unit :=
  do! sm_try (fail_if (bool_decide (actions = [])) "Actions cannot be empty") in
  let! r := sm_get in sm_put (set_sr_corrective_actions actions r).

(** [requires_regular_monitoring], src/sandbox_supervision.rs:100-110 *)
Definition requires_regular_monitoring (r : SupervisionRecord) : bool :=
  let risk :=
    if Z.eqb (sr_risk_level r) (RiskLevel.code RiskLevel.Low) then RiskLevel.Low
    else if Z.eqb (sr_risk_level r) (RiskLevel.code RiskLevel.Medium) then RiskLevel.Medium
    else if Z.eqb (sr_risk_level r) (RiskLevel.code RiskLevel.High) then RiskLevel.High
    else if Z.eqb (sr_risk_level r) (RiskLevel.code RiskLevel.Critical) then RiskLevel.Critical
    else RiskLevel.Low in
  requires_intervention risk.

(** [compute_compliance_trend], src/sandbox_supervision.rs:113-126 *)
Definition compute_compliance_trend (records : list SupervisionRecord) : R Z :=
  if Z.eqb (len records) 0 then Ok 0
  else
    let? total_score :=
      foldl (fun acc r => let? t := acc in u64_plus t (sr_assessment_score r)) (Ok 0) records in
    Ok (as_u32 (total_score / len records)).

(** ** Innovation *)

(** [overall_innovation_score], the mean that [/ 4 as u64 as u32] stands for,
    src/sandbox_innovation.rs:28-33 *)
Definition overall_innovation_score (m : InnovationMetrics) : Z :=
  (im_impact_score m + im_market_readiness m + im_tech_maturity m + im_user_adoption m) / 4.

(** [is_ready_for_mainnet], src/sandbox_innovation.rs:35-37 *)
Definition is_ready_for_mainnet (m : InnovationMetrics) : bool :=
  Z.leb 75 (overall_innovation_score m) && im_deployment_ready m.

(** [create_innovation_metrics], src/sandbox_innovation.rs:45-58 *)
Definition create_innovation_metrics (participant_id : Hash) : InnovationMetrics :=
  mkInnovationMetrics participant_id 0 0 0 0 [] [] false.

(** [update_scores], src/sandbox_innovation.rs:61-78 *)
Definition update_scores (impact readiness maturity adoption : Z)
    : SM InnovationMetrics string unit :=
  do! sm_try (fail_if (Z.ltb 100 impact || Z.ltb 100 readiness || Z.ltb 100 maturity
                       || Z.ltb 100 adoption) "All scores must be 0-100") in
  let! m := sm_get in
  sm_put (mkInnovationMetrics (im_participant_id m) impact readiness maturity adoption
            (im_learning_outcomes m) (im_lessons_learned m) (im_deployment_ready m)).

(** [set_deployment_ready], src/sandbox_innovation.rs:81-83 *)
Definition set_deployment_ready (ready : bool) (m : InnovationMetrics) : InnovationMetrics :=
  set_im_deployment_ready ready m.

(** ** Graduation *)

(** [is_terminal] of GraduationDecision, src/sandbox_graduation.rs:42-47 *)
Definition decision_is_terminal (d : GraduationDecision) : bool :=
  match d with GraduationDecision.Approved | GraduationDecision.Rejected => true | _ => false end.

(** [compute_assessment_id], src/sandbox_graduation.rs:84-91 *)
Definition compute_assessment_id (participant_id : Hash) : Hash :=
  sha256 (participant_id ++ str_bytes "GRADUATION").

(** [create_assessment], src/sandbox_graduation.rs:60-81 *)
Definition create_assessment (participant_id : Hash) (now : Z) : GraduationAssessment :=
  mkGraduationAssessment (compute_assessment_id participant_id) participant_id now 0 0 0 0 false
    false 0 false (GraduationDecision.code GraduationDecision.Pending) [].

(** The conjunction of the criteria, in [evaluate_eligibility],
    src/sandbox_graduation.rs:99-123 *)
Definition meets_criteria (a : GraduationAssessment) (c : GraduationCriteria) : bool :=
  let tx_ok := Z.leb (gc_min_transactions c) (ga_transactions_completed a) in
  let duration_ok := Z.leb (gc_min_duration_days c) (ga_days_in_sandbox a) in
  let compliance_ok := Z.leb (gc_min_compliance_score c) (ga_compliance_score a) in
  let satisfaction_ok := Z.leb (gc_min_user_satisfaction c) (ga_user_satisfaction a) in
  let tech_ok := Z.leb (gc_min_tech_readiness_score c) (ga_tech_readiness_score a) in
  let regulatory_ok := if gc_regulatory_approval_required c then ga_regulatory_approval a else true in
  let financial_ok := if gc_financial_health_required c then ga_financial_health_passed a else true in
  tx_ok && duration_ok && compliance_ok && satisfaction_ok && tech_ok && regulatory_ok
  && financial_ok.

(** [evaluate_eligibility], src/sandbox_graduation.rs:94-127 *)
Definition evaluate_eligibility (c : GraduationCriteria) : SM GraduationAssessment string bool :=
  let! a := sm_get in
  let eligible := meets_criteria a c in
  do! sm_put (set_ga_is_eligible eligible a) in
  sm_ret eligible.

(** [approve_graduation], src/sandbox_graduation.rs:130-142 *)
Definition approve_graduation (notes : Bytes) : SM GraduationAssessment string unit :=
  let! a := sm_get in
  do! sm_try (fail_if (negb (ga_is_eligible a)) "Participant does not meet graduation criteria") in
  sm_put (set_ga_notes notes
            (set_ga_decision (GraduationDecision.code GraduationDecision.Approved) a)).

(** [reject_graduation], src/sandbox_graduation.rs:145-153 *)
Definition reject_graduation (reason : Bytes) : SM GraduationAssessment string unit :=
  let! a := sm_get in
  sm_put (set_ga_notes reason
            (set_ga_decision (GraduationDecision.code GraduationDecision.Rejected) a)).

(** [defer_graduation], src/sandbox_graduation.rs:156-164 *)
Definition defer_graduation (reason : Bytes) : SM GraduationAssessment string unit :=
  let! a := sm_get in
  sm_put (set_ga_notes reason
            (set_ga_decision (GraduationDecision.code GraduationDecision.Deferred) a)).

(** [compute_readiness_percentage], src/sandbox_graduation.rs:167-176 *)
Definition compute_readiness_percentage (a : GraduationAssessment) : Z :=
  let avg := (ga_compliance_score a + ga_user_satisfaction a + ga_tech_readiness_score a) / 3 in
  Z.min avg 100.

(** [get_recommendation], src/sandbox_graduation.rs:179-191 *)
Definition get_recommendation (a : GraduationAssessment) : string :=
  if ga_is_eligible a then "Ready for graduation"
  else if Z.ltb (ga_compliance_score a) 75 then "Improve compliance score"
  else if Z.ltb (ga_days_in_sandbox a) 60 then "Extend sandbox duration"
  else if Z.ltb (ga_transactions_completed a) 500 then "Increase transaction volume"
  else "Defer and reassess".
End Sandbox.
