(* ===== verification/SandboxProps.v ===== *)
(** * Properties of the regulatory sandbox

    The daily volume of an environment, the life of an application and of a
    participant, and graduation. *)

From stdpp Require Import relations.
From S2P Require Import Prelude Contract Fallible StorageLemmas Sample Sandbox.

(** ** Environments *)

(** The environments that [create_sandbox_instance] makes and the operations
    on them change, with the amounts approved since the last reset. *)
Section Runs.
Context `{C : Crypto} `{X : AddressXdr}.

Inductive srun (id : Hash) (e : SandboxEnvironment) : list Z -> SandboxInstance -> Prop :=
  | srun_new s : create_sandbox_instance id e = Ok s -> srun id e [] s
  | srun_execute l amount s a s' :
      srun id e l s -> 0 <= amount -> execute_sandbox_transaction amount s = (Ok a, s') ->
      srun id e (if bool_decide (a = TransactionApprovalStatus.Approved) then l ++ [amount] else l) s'
  | srun_reset l s s' : srun id e l s -> reset_daily_limits s = (Ok tt, s') -> srun id e [] s'
  | srun_hash l s : srun id e l s -> srun id e l (update_state_hash s).

Lemma environment_of_code e : environment_of (SandboxEnvironment.code e) = Some e.
Proof. by destruct e. Qed.

(** What the limits decide. *)
Definition fits (e : SandboxEnvironment) (used amount : Z) : Prop :=
  amount <= max_transaction_amount e /\ used + amount <= max_daily_volume e.

Record Confined (e : SandboxEnvironment) (l : list Z) (s : SandboxInstance) : Prop := {
  cf_level : si_environment s = SandboxEnvironment.code e;
  cf_limit : si_daily_volume_limit s = max_daily_volume e;
  cf_used : si_daily_volume_used s = total_of id l;
  cf_low : 0 <= total_of id l <= max_daily_volume e;
  cf_each : Forall (fun x => 0 <= x <= max_transaction_amount e) l }.

Lemma daily_volume_fits_u128 e : max_transaction_amount e + max_daily_volume e <= u128_max.
Proof. by destruct e. Qed.

Lemma check_limits_Confined e l s amount :
  Confined e l s -> 0 <= amount ->
  exists a, check_transaction_limits s amount = Ok a /\
    (a = TransactionApprovalStatus.Approved <-> fits e (si_daily_volume_used s) amount) /\
    (a = TransactionApprovalStatus.Approved \/ a = TransactionApprovalStatus.LimitExceeded).
Proof.
  intros [H1 H2 H3 H4 H5] Ha. unfold check_transaction_limits, fits.
  rewrite H1, environment_of_code, H2. pose proof (daily_volume_fits_u128 e).
  destruct (Z.ltb_spec (max_transaction_amount e) amount).
  { eexists; split; [done|]. split; [|by right]. split; [done|lia]. }
  assert (u128_chk (si_daily_volume_used s + amount) = Ok (E := string) (si_daily_volume_used s + amount))
    as -> by (apply u128_chk_Ok; lia). simpl.
  destruct (Z.ltb_spec (max_daily_volume e) (si_daily_volume_used s + amount)); eexists.
  - split; [done|]. split; [|by right]. split; [done|lia].
  - split; [done|]. split; [|by left]. split; [lia|done].
Qed.

Lemma execute_Confined e l s amount a s' :
  Confined e l s -> 0 <= amount -> execute_sandbox_transaction amount s = (Ok a, s') ->
  Confined e (if bool_decide (a = TransactionApprovalStatus.Approved) then l ++ [amount] else l) s' /\
  (a = TransactionApprovalStatus.Approved <-> fits e (si_daily_volume_used s) amount) /\
  (a <> TransactionApprovalStatus.Approved -> s' = s).
Proof.
  intros Hc Ha R. destruct (check_limits_Confined e l s amount Hc Ha) as (b & Hb & Hf & Hab).
  unfold execute_sandbox_transaction, sm_bind, sm_get, sm_try in R. rewrite Hb in R.
  destruct (decide (b = TransactionApprovalStatus.Approved)) as [->|Hn].
  - rewrite bool_decide_false in R by (intros H; by apply H). destruct Hc as [H1 H2 H3 H4 H5].
    destruct (u32_plus _ _) as [n|f] eqn:Hn in R; [|done]. injection R as <- <-.
    rewrite bool_decide_true by done. split; [|split; [done|done]].
    destruct Hf as [Hf _]. specialize (Hf eq_refl) as [F1 F2].
    pose proof (daily_volume_fits_u128 e).
    assert (total_of id (l ++ [amount]) = total_of id l + amount) as E
      by (rewrite total_of_app; unfold total_of at 2; simpl; unfold id; lia).
    split; simpl; [done|done| | |].
    + rewrite E. rewrite Z.min_l by lia. lia.
    + rewrite E. lia.
    + apply Forall_app. split; [done|]. by repeat constructor.
  - rewrite bool_decide_true in R by done. injection R as <- <-.
    rewrite bool_decide_false by done. split; [done|]. by split.
Qed.

Lemma srun_Confined id e l s : srun id e l s -> Confined e l s.
Proof.
  induction 1 as [s R|l amount s a s' _ IH Ha R|l s s' _ IH R|l s _ IH].
  - injection R as <-. split; simpl; try done. split; [done|by destruct e].
  - by eapply execute_Confined.
  - injection R as <-. destruct IH as [H1 H2 H3 H4 H5]. split; simpl; try done.
    split; [done|by destruct e].
  - destruct IH as [H1 H2 H3 H4 H5]. by split.
Qed.

(** C38: Within one environment, the approved amounts since the last reset add up to
    the volume on record, which never passes the daily limit of the level, and
    none of them passes the limit of one transaction. *)
Theorem daily_volume_is_confined pid e l s :
  srun pid e l s ->
  si_daily_volume_used s = total_of id l /\ si_daily_volume_used s <= max_daily_volume e /\
  Forall (fun x => 0 <= x <= max_transaction_amount e) l.
Proof. intros [H1 H2 H3 H4 H5]%srun_Confined. rewrite H3. split; [done|]. split; [lia|done]. Qed.

(** In such an environment a transaction is approved exactly when it fits both
    limits, and a refused one changes nothing. *)
Theorem transaction_approved_iff pid e l s amount a s' :
  srun pid e l s -> 0 <= amount -> execute_sandbox_transaction amount s = (Ok a, s') ->
  (a = TransactionApprovalStatus.Approved <->
     amount <= max_transaction_amount e /\ si_daily_volume_used s + amount <= max_daily_volume e) /\
  (a <> TransactionApprovalStatus.Approved -> s' = s).
Proof.
  intros Hs%srun_Confined Ha R. by destruct (execute_Confined _ _ _ _ _ _ Hs Ha R) as (_ & H & H').
Qed.

(** ** Applications *)

Inductive astep : SandboxApplication -> SandboxApplication -> Prop :=
  | astep_approve who now a p a' : approve_application who now a = (Ok p, a') -> astep a a'
  | astep_reject now a a' : reject_application now a = (Ok tt, a') -> astep a a'
  | astep_info a a' : request_additional_info a = (Ok tt, a') -> astep a a'.

(** The fields that the review leaves alone. *)
Definition submission (a : SandboxApplication) :=
  (sa_application_id a, sa_applicant a, sa_organization_name a, sa_participant_type a,
   sa_requested_environment a, sa_submitted_at a, sa_description a, sa_technology_details a,
   sa_expected_duration_days a).

(** The moves of the status. *)
Inductive amove : ApplicationStatus -> ApplicationStatus -> Prop :=
  | amove_approve : amove ApplicationStatus.Submitted ApplicationStatus.Approved
  | amove_info : amove ApplicationStatus.Submitted ApplicationStatus.AdditionalInfoRequested
  | amove_reject s : s <> ApplicationStatus.Approved -> amove s ApplicationStatus.Rejected.

Lemma status_code_inj x y : ApplicationStatus.code x = ApplicationStatus.code y -> x = y.
Proof. by destruct x, y. Qed.

Lemma astep_moves a a' st :
  astep a a' -> sa_status a = ApplicationStatus.code st ->
  submission a' = submission a /\
  exists st', sa_status a' = ApplicationStatus.code st' /\ amove st st'.
Proof.
  intros H Hst. destruct H as [who now a p a' R|now a a' R|a a' R].
  - unfold approve_application in R. rinv. zcase. unfold has_status in *. zcase.
    split; [done|]. exists ApplicationStatus.Approved. split; [done|].
    rewrite Hst in *. match goal with H : ApplicationStatus.code _ = _ |- _ => apply status_code_inj in H end.
    subst. constructor.
  - unfold reject_application in R. rinv. unfold has_status in *. zcase.
    split; [done|]. exists ApplicationStatus.Rejected. split; [done|]. constructor. intros ->. done.
  - unfold request_additional_info in R. rinv. zcase. unfold has_status in *. zcase.
    split; [done|]. exists ApplicationStatus.AdditionalInfoRequested. split; [done|].
    rewrite Hst in *. match goal with H : ApplicationStatus.code _ = _ |- _ => apply status_code_inj in H end.
    subst. constructor.
Qed.

(** An application keeps what was submitted, and its status only moves from
    submitted to approved, from submitted to a request for information, and to
    rejected; an approved application stays approved, and one for which
    information was requested can only be rejected. *)
Theorem applications_only_advance a a' st :
  rtc astep a a' -> sa_status a = ApplicationStatus.code st ->
  submission a' = submission a /\
  exists st', sa_status a' = ApplicationStatus.code st' /\ rtc amove st st' /\
    (st = ApplicationStatus.Approved -> a' = a) /\
    (st = ApplicationStatus.AdditionalInfoRequested ->
     st' = ApplicationStatus.AdditionalInfoRequested \/ st' = ApplicationStatus.Rejected).
Proof.
  intros H. revert st. induction H as [a|a b a' Hs _ IH]; intros st Hst.
  - split; [done|]. exists st. split; [done|]. split; [done|]. split; [done|]. by left.
  - destruct (astep_moves a b st Hs Hst) as (E & m & Hm & Hmv).
    destruct (IH m Hm) as (E' & st' & Hst' & Hr & Ha & Hi).
    split; [congruence|]. exists st'. split; [done|]. split; [by eapply rtc_l|]. split.
    + intros ->. inversion Hmv. done.
    + intros ->. inversion Hmv; subst. right. clear -Hr.
      assert (forall x y, rtc amove x y -> x = ApplicationStatus.Rejected -> y = ApplicationStatus.Rejected)
        as K by (induction 1 as [|x y z Hxy _ IH]; [done|]; intros ->; inversion Hxy; auto).
      by eapply K.
Qed.

(** The same, for the status after a request for information. *)
Lemma applications_only_advance_aux a a' :
  rtc astep a a' -> sa_status a = ApplicationStatus.code ApplicationStatus.AdditionalInfoRequested ->
  sa_status a' = ApplicationStatus.code ApplicationStatus.AdditionalInfoRequested \/
  sa_status a' = ApplicationStatus.code ApplicationStatus.Rejected.
Proof.
  intros H Hs.
  enough (forall st, sa_status a = ApplicationStatus.code st ->
            st = ApplicationStatus.AdditionalInfoRequested \/ st = ApplicationStatus.Rejected ->
            exists st', sa_status a' = ApplicationStatus.code st' /\
              (st' = ApplicationStatus.AdditionalInfoRequested \/ st' = ApplicationStatus.Rejected)) as K
    by (destruct (K _ Hs (or_introl eq_refl)) as (st' & -> & [-> | ->]); auto).
  clear Hs. induction H as [a|a b a' Hab _ IH]; intros st Hst Ho; [eauto|].
  destruct (astep_moves a b st Hab Hst) as (_ & m & Hm & Hmv). apply (IH m Hm).
  destruct Ho as [-> | ->]; inversion Hmv; auto.
Qed.

(** A request for information closes the way to an approval: the applicant has
    no operation to answer it, and an approval asks for a submitted
    application. *)
Theorem information_request_blocks_approval a a1 a2 who now :
  request_additional_info a = (Ok tt, a1) -> rtc astep a1 a2 ->
  exists f, approve_application who now a2 = (Err f, a2).
Proof.
  intros R H. assert (sa_status a1 = ApplicationStatus.code ApplicationStatus.AdditionalInfoRequested) as Hs.
  { unfold request_additional_info in R. rinv. done. }
  destruct (applications_only_advance_aux a1 a2 H Hs) as [E|E];
    exists (Raise "Application must be in submitted state"%string);
    unfold approve_application, sm_bind, sm_get, sm_try, fail_if, has_status; by rewrite E.
Qed.

(** ** Participants *)

Inductive pstep (max_days : Z) : SandboxParticipant -> SandboxParticipant -> Prop :=
  | pstep_extend days p p' : 0 <= days -> extend_participation days max_days p = (Ok tt, p') ->
      pstep max_days p p'
  | pstep_exit now p p' : exit_sandbox now p = (Ok tt, p') -> pstep max_days p p'.

Definition stay_days (p : SandboxParticipant) : Z :=
  (sp_planned_exit_date p - sp_entry_date p) / 86400.

Lemma extend_Ok days max_days p p' :
  extend_participation days max_days p = (Ok tt, p') ->
  days <> 0 /\ sp_entry_date p <= sp_planned_exit_date p /\
  as_u32 (stay_days p) + days <= max_days /\
  p' = set_sp_planned_exit_date (sp_planned_exit_date p + days * 86400) p.
Proof. unfold extend_participation, stay_days. intros R. rinv. zcase. repeat split; lia. Qed.

(** An extension is granted only up to the maximal duration, and moves the exit
    date by whole days; the dates stay ordered. *)
Theorem extension_is_bounded days max_days p p' :
  0 <= days -> stay_days p <= u32_max ->
  extend_participation days max_days p = (Ok tt, p') ->
  stay_days p' = stay_days p + days /\ stay_days p' <= max_days /\
  sp_entry_date p' = sp_entry_date p /\ sp_is_active p' = sp_is_active p /\
  sp_entry_date p' <= sp_planned_exit_date p < sp_planned_exit_date p'.
Proof.
  intros Hd Hs R. apply extend_Ok in R as (H0 & H1 & H2 & ->).
  assert (0 <= stay_days p) as Hp by (unfold stay_days; apply Z.div_pos; lia).
  unfold as_u32 in H2. rewrite Z.mod_small in H2 by (unfold u32_max in Hs; lia).
  assert (stay_days (set_sp_planned_exit_date (sp_planned_exit_date p + days * 86400) p)
          = stay_days p + days) as E.
  { unfold stay_days. simpl.
    replace (sp_planned_exit_date p + days * 86400 - sp_entry_date p)
      with ((sp_planned_exit_date p - sp_entry_date p) + days * 86400) by lia.
    apply Z.div_add. lia. }
  rewrite E. split; [done|]. split; [lia|]. split; [done|]. split; [done|]. simpl. lia.
Qed.

(** Who left the sandbox stays out: no extension makes the participant active
    again, at any time. *)
Theorem exit_is_final max_days now p p1 p2 t :
  exit_sandbox now p = (Ok tt, p1) -> rtc (pstep max_days) p1 p2 ->
  is_participant_active p2 t = false /\ exists f, exit_sandbox t p2 = (Err f, p2).
Proof.
  intros R H. assert (sp_is_active p1 = false) as Hp by (unfold exit_sandbox in R; rinv; done).
  assert (sp_is_active p2 = false) as Hp2.
  { clear R. induction H as [|x y z Hxy _ IH]; [done|]. apply IH. clear IH.
    destruct Hxy as [days x y Hd R|n x y R].
    - apply extend_Ok in R as (_ & _ & _ & ->). done.
    - unfold exit_sandbox in R. rinv. done. }
  split; [unfold is_participant_active; by rewrite Hp2|].
  exists (Raise "Participant is already inactive"%string). unfold exit_sandbox, sm_bind, sm_get, sm_try.
  by rewrite Hp2.
Qed.

(** ** Graduation *)

(** A graduation is approved only for an assessment whose last evaluation met
    the criteria it was given. *)
Theorem graduation_needs_the_criteria c a b a1 notes a2 :
  evaluate_eligibility c a = (Ok b, a1) -> approve_graduation notes a1 = (Ok tt, a2) ->
  gc_min_transactions c <= ga_transactions_completed a2 /\
  gc_min_duration_days c <= ga_days_in_sandbox a2 /\
  gc_min_compliance_score c <= ga_compliance_score a2 /\
  gc_min_user_satisfaction c <= ga_user_satisfaction a2 /\
  gc_min_tech_readiness_score c <= ga_tech_readiness_score a2 /\
  (gc_regulatory_approval_required c = true -> ga_regulatory_approval a2 = true) /\
  (gc_financial_health_required c = true -> ga_financial_health_passed a2 = true) /\
  ga_decision a2 = GraduationDecision.code GraduationDecision.Approved.
Proof.
  unfold evaluate_eligibility, approve_graduation. intros R R2. rinv. zcase.
  unfold meets_criteria in *. zcase. repeat split; try done.
  - intros E. by rewrite E in *.
  - intros E. by rewrite E in *.
Qed.

(** A decision is not final: an approved graduation can be rejected and a
    rejected one approved, as long as the last evaluation was favourable. *)
Theorem graduation_decisions_reverse n m a a1 :
  approve_graduation n a = (Ok tt, a1) ->
  exists a2 a3, reject_graduation m a1 = (Ok tt, a2) /\
    ga_decision a2 = GraduationDecision.code GraduationDecision.Rejected /\
    approve_graduation n a2 = (Ok tt, a3) /\
    ga_decision a3 = GraduationDecision.code GraduationDecision.Approved.
Proof.
  unfold approve_graduation, reject_graduation. intros R. rinv. zcase.
  do 2 eexists. split; [reflexivity|]. split; [done|].
  match goal with H : ga_is_eligible _ = true |- _ =>
    unfold sm_bind, sm_get, sm_try, sm_put, fail_if; simpl; rewrite H end.
  by split.
Qed.
End Runs.

(** ** The properties at concrete values *)

#[local] Existing Instance sample_crypto.

(** An environment of the first level with two approved transactions and a
    refused one. *)
Definition s_new : SandboxInstance :=
  mkSandboxInstance (compute_sandbox_id [1]) [1] 0 new_level1 0 10000000 true 0 (replicate 32 0).
Definition s_first : SandboxInstance := snd (execute_sandbox_transaction 1000000 s_new).
Definition s_used : SandboxInstance := snd (execute_sandbox_transaction 900000 s_first).

Lemma s_used_run : srun [1] SandboxEnvironment.Level1PoC [1000000; 900000] s_used.
Proof.
  apply (srun_execute _ _ [1000000] 900000 s_first TransactionApprovalStatus.Approved);
    [|done|vm_compute; reflexivity].
  apply (srun_execute _ _ [] 1000000 s_new TransactionApprovalStatus.Approved);
    [|done|vm_compute; reflexivity].
  by constructor.
Qed.

Lemma daily_volume_is_confined_witness :
  si_daily_volume_used s_used = 1900000 /\ si_daily_volume_used s_used <= 10000000.
Proof.
  destruct (daily_volume_is_confined _ _ _ _ s_used_run) as (H1 & H2 & _). by split.
Defined.

Lemma transaction_approved_iff_witness :
  let r := execute_sandbox_transaction 1000001 s_used in
  r = (Ok TransactionApprovalStatus.LimitExceeded, s_used) /\
  ~ (1000001 <= max_transaction_amount SandboxEnvironment.Level1PoC /\
     si_daily_volume_used s_used + 1000001 <= max_daily_volume SandboxEnvironment.Level1PoC).
Proof.
  split; [vm_compute; reflexivity|].
  destruct (transaction_approved_iff [1] SandboxEnvironment.Level1PoC [1000000; 900000] s_used 1000001
              TransactionApprovalStatus.LimitExceeded s_used s_used_run) as [H _];
    [done|vm_compute; reflexivity|].
  intros F. by apply H in F.
Defined.

Definition a_new : SandboxApplication :=
  mkSandboxApplication [7] alice [65] 0 0 0 100 None [] [] 90.
Definition a_asked : SandboxApplication := snd (request_additional_info a_new).
Definition a_rejected : SandboxApplication := snd (reject_application 300 a_asked).

Lemma applications_only_advance_witness :
  sa_status a_rejected = 4 /\ submission a_rejected = submission a_new.
Proof.
  split; [reflexivity|]. apply (applications_only_advance a_new a_rejected ApplicationStatus.Submitted);
    [|reflexivity].
  apply (rtc_l _ _ a_asked); [|apply rtc_once].
  - by apply astep_info.
  - by apply (astep_reject 300).
Defined.

Lemma information_request_blocks_approval_witness :
  exists f, approve_application owner 400 a_asked = (Err f, a_asked).
Proof. by apply (information_request_blocks_approval a_new a_asked). Defined.

Definition p_new : SandboxParticipant :=
  mkSandboxParticipant [3] [65] alice 0 0 1000 (1000 + 90 * 86400) true [] owner.

Lemma extension_is_bounded_witness :
  let p' := snd (extend_participation 30 365 p_new) in
  extend_participation 30 365 p_new = (Ok tt, p') /\ stay_days p' = 120 /\ stay_days p' <= 365.
Proof.
  split; [reflexivity|].
  destruct (extension_is_bounded 30 365 p_new (snd (extend_participation 30 365 p_new)))
    as (H1 & H2 & _); [done|done|reflexivity|]. by split.
Defined.

Lemma exit_is_final_witness :
  let p1 := snd (exit_sandbox 5000 p_new) in let p2 := snd (extend_participation 10 365 p1) in
  extend_participation 10 365 p1 = (Ok tt, p2) /\ is_participant_active p2 6000 = false.
Proof.
  split; [reflexivity|].
  apply (exit_is_final 365 5000 p_new (snd (exit_sandbox 5000 p_new))); [reflexivity|].
  apply rtc_once. by apply (pstep_extend 365 10).
Defined.

Definition g_done : GraduationAssessment :=
  mkGraduationAssessment [4] [3] 100 1500 100 90 80 true true 85 false 0 [].

Lemma graduation_needs_the_criteria_witness :
  let a1 := snd (evaluate_eligibility default_criteria g_done) in
  let a2 := snd (approve_graduation [1] a1) in
  approve_graduation [1] a1 = (Ok tt, a2) /\ 85 <= ga_compliance_score a2.
Proof.
  split; [reflexivity|].
  apply (graduation_needs_the_criteria default_criteria g_done true
           (snd (evaluate_eligibility default_criteria g_done)) [1]); reflexivity.
Defined.

Lemma graduation_decisions_reverse_witness :
  let a1 := snd (evaluate_eligibility default_criteria g_done) in
  let a2 := snd (approve_graduation [1] a1) in
  exists a3, reject_graduation [2] a2 = (Ok tt, a3) /\ ga_decision a3 = 2.
Proof.
  destruct (graduation_decisions_reverse [1] [2] (snd (evaluate_eligibility default_criteria g_done))
    (snd (approve_graduation [1] (snd (evaluate_eligibility default_criteria g_done)))))
    as (a3 & a4 & H1 & H2 & _); [reflexivity|]. by exists a3.
Defined.

(** The assessment of the module's own test, without the financial check that
    the default criteria require, is not eligible; the test expects it to be. *)
Example unassessed_finances_are_not_eligible :
  let a := mkGraduationAssessment [4] [3] 100 1500 100 90 80 true false 85 false 0 [] in
  fst (evaluate_eligibility default_criteria a) = Ok false.
Proof. reflexivity. Qed.
