(* ===== verification/Tax.v ===== *)
(** * Taxes

    The data of src/tax.rs, the VAT engine (src/vat_engine.rs), the engines for
    digital services tax, crypto reporting, transfer pricing and
    country-by-country reports (src/tax_engines.rs) and the records of
    src/tax_audit_trail.rs.  Rates are in basis points.

    The second part of the file: tax records. *)

From S2P Require Import Prelude Contract Fallible Codec.

(** ** Data *)

Module TaxJurisdiction.
(** [TaxJurisdiction], src/tax.rs:16-28 *)
Inductive TaxJurisdiction : Set :=
  | EU | UK | US | Canada | Australia | India | Singapore | HongKong | Japan | Switzerland | UAE.
#[global] Instance TaxJurisdiction_eq_dec : EqDecision TaxJurisdiction.
Proof. solve_decision. Defined.
End TaxJurisdiction.
Abbreviation TaxJurisdiction := TaxJurisdiction.TaxJurisdiction.

Module DigitalServiceCategory.
(** [DigitalServiceCategory], src/tax.rs:34-43 *)
Inductive DigitalServiceCategory : Set :=
  | OnlineAdvertising | OnlineMarketplace | SocialMedia | VideoStreaming | MusicStreaming
  | CloudServices | DataServices | OnlineSearch.
#[global] Instance DigitalServiceCategory_eq_dec : EqDecision DigitalServiceCategory.
Proof. solve_decision. Defined.
End DigitalServiceCategory.
Abbreviation DigitalServiceCategory := DigitalServiceCategory.DigitalServiceCategory.

Module CryptoAssetType.
(** [CryptoAssetType], src/tax.rs:49-57 *)
Inductive CryptoAssetType : Set :=
  | Bitcoin | Ethereum | Stablecoin | UtilityToken | SecurityToken | NFT | OtherAltcoin.
#[global] Instance CryptoAssetType_eq_dec : EqDecision CryptoAssetType.
Proof. solve_decision. Defined.
End CryptoAssetType.
Abbreviation CryptoAssetType := CryptoAssetType.CryptoAssetType.

Module TransferPricingMethod.
(** [TransferPricingMethod], src/tax.rs:63-74 *)
Inductive TransferPricingMethod : Set :=
  | CUP | CostPlus | ResalePrice | ProfitSplit | TNMM.
#[global] Instance TransferPricingMethod_eq_dec : EqDecision TransferPricingMethod.
Proof. solve_decision. Defined.
End TransferPricingMethod.
Abbreviation TransferPricingMethod := TransferPricingMethod.TransferPricingMethod.

Module VATSupplyType.
(** [VATSupplyType], src/tax.rs:80-88 *)
Inductive VATSupplyType : Set :=
  | Goods | Services | Intangibles | DigitalServices | Construction | Transportation
  | Telecommunications.
#[global] Instance VATSupplyType_eq_dec : EqDecision VATSupplyType.
Proof. solve_decision. Defined.
End VATSupplyType.
Abbreviation VATSupplyType := VATSupplyType.VATSupplyType.

Module VATExemptionReason.
(** [VATExemptionReason], src/tax.rs:94-103 *)
Inductive VATExemptionReason : Set :=
  | Financial | Healthcare | Education | ExportedGoods | IntraEUSupply | CulturalActivities
  | AgriculturalProduction | None.
#[global] Instance VATExemptionReason_eq_dec : EqDecision VATExemptionReason.
Proof. solve_decision. Defined.
End VATExemptionReason.
Abbreviation VATExemptionReason := VATExemptionReason.VATExemptionReason.

(** [VATTransaction], src/tax.rs:108-139 *)
Record VATTransaction := mkVATTransaction {
  vt_id : Hash;
  vt_supplier : Address;
  vt_customer : Address;
  vt_supply_type : VATSupplyType;
  vt_supply_amount : Z;
  vt_currency : Symbol;
  vt_timestamp : Z;
  vt_place_of_supply : TaxJurisdiction;
  vt_customer_jurisdiction : TaxJurisdiction;
  vt_is_b2b : bool;
  vt_reverse_charge : bool;
  vt_exemption_reason : VATExemptionReason;
  vt_vat_rate : Z;
  vt_vat_amount : Z;
  vt_description : Bytes }.

(** [VATDetermination], src/tax.rs:144-163 *)
Record VATDetermination := mkVATDetermination {
  vd_transaction_id : Hash;
  vd_vat_rate : Z;
  vd_is_exempt : bool;
  vd_exemption_reason : option VATExemptionReason;
  vd_reverse_charge_applicable : bool;
  vd_place_of_supply : TaxJurisdiction;
  vd_vat_amount : Z;
  vd_determined_at : Z;
  vd_source : Bytes }.

(** [DSTTransaction], src/tax.rs:168-189 *)
Record DSTTransaction := mkDSTTransaction {
  dt_id : Hash;
  dt_provider : Address;
  dt_service_category : DigitalServiceCategory;
  dt_revenue : Z;
  dt_currency : Symbol;
  dt_user_jurisdiction : TaxJurisdiction;
  dt_fiscal_year_end : Z;
  dt_threshold_met : bool;
  dt_recurring_service : bool;
  dt_timestamp : Z }.

(** [DSTDetermination], src/tax.rs:194-209 *)
Record DSTDetermination := mkDSTDetermination {
  dd_transaction_id : Hash;
  dd_is_applicable : bool;
  dd_dst_rate : Z;
  dd_jurisdictions : list TaxJurisdiction;
  dd_dst_amount : Z;
  dd_basis : Bytes;
  dd_determined_at : Z }.

(** [CryptoTransaction], src/tax.rs:214-241 *)
Record CryptoTransaction := mkCryptoTransaction {
  ct_id : Hash;
  ct_account_holder : Address;
  ct_counterparty : option Address;
  ct_asset_type : CryptoAssetType;
  ct_amount : Z;
  ct_fair_market_value : Z;
  ct_currency : Symbol;
  ct_transaction_type : Symbol;
  ct_transaction_date : Z;
  ct_holder_jurisdiction : TaxJurisdiction;
  ct_cost_basis : option Z;
  ct_holding_period_days : Z;
  ct_acquisition_date : Z }.

(** [CryptoHolding], src/tax.rs:246-263 *)
Record CryptoHolding := mkCryptoHolding {
  ch_holder : Address;
  ch_asset_type : CryptoAssetType;
  ch_balance : Z;
  ch_fair_market_value : Z;
  ch_holder_jurisdiction : TaxJurisdiction;
  ch_acquisition_date : Z;
  ch_cost_basis : Z;
  ch_valuation_date : Z }.

(** [CARFReportingRecord], src/tax.rs:268-287 *)
Record CARFReportingRecord := mkCARFReportingRecord {
  ca_id : Hash;
  ca_reporting_entity : Address;
  ca_account_holder : option Address;
  ca_reporting_year : Z;
  ca_transactions : list CryptoTransaction;
  ca_year_end_holdings : list CryptoHolding;
  ca_total_realized_gains : Z;
  ca_total_realized_losses : Z;
  ca_filing_status : Z }.

(** [TransferPricingDoc], src/tax.rs:292-317 *)
Record TransferPricingDoc := mkTransferPricingDoc {
  tp_id : Hash;
  tp_transaction_id : Hash;
  tp_transferor : Address;
  tp_transferee : Address;
  tp_transfer_description : Bytes;
  tp_transfer_amount : Z;
  tp_currency : Symbol;
  tp_method : TransferPricingMethod;
  tp_comparables_count : Z;
  tp_economic_analysis : Bytes;
  tp_fiscal_year : Z;
  tp_documentation_date : Z }.

(** [TransferPricingAnalysis], src/tax.rs:322-341 *)
Record TransferPricingAnalysis := mkTransferPricingAnalysis {
  ta_id : Hash;
  ta_doc_id : Hash;
  ta_arms_length_price : Z;
  ta_transfer_price : Z;
  ta_variance : Z;
  ta_variance_percentage : Z;
  ta_defensible : bool;
  ta_adjustment_recommendations : Bytes;
  ta_analysis_date : Z }.

(** [CbCRJurisdictionData], src/tax.rs:346-365 *)
Record CbCRJurisdictionData := mkCbCRJurisdictionData {
  jd_jurisdiction : TaxJurisdiction;
  jd_revenue_unrelated : Z;
  jd_revenue_related : Z;
  jd_total_revenue : Z;
  jd_profit_loss : Z;
  jd_income_tax_paid : Z;
  jd_employee_count : Z;
  jd_tangible_assets : Z;
  jd_entities : list Bytes }.

(** [CbCReport], src/tax.rs:370-391 *)
Record CbCReport := mkCbCReport {
  cb_id : Hash;
  cb_reporting_entity : Address;
  cb_fiscal_year : Z;
  cb_jurisdictions : list CbCRJurisdictionData;
  cb_total_revenue : Z;
  cb_total_profit : Z;
  cb_total_tax_paid : Z;
  cb_generated_date : Z;
  cb_reporting_standard : Bytes;
  cb_filing_status : Z }.

(** [TaxAuditEvent], src/tax.rs:396-413 *)
Record TaxAuditEvent := mkTaxAuditEvent {
  te_id : Hash;
  te_reference_id : Hash;
  te_event_type : Symbol;
  te_actor : Address;
  te_timestamp : Z;
  te_action : Symbol;
  te_details : Bytes;
  te_supporting_docs : list Hash }.

(** [TaxComplianceStatus], src/tax.rs:418-437 *)
Record TaxComplianceStatus := mkTaxComplianceStatus {
  tc_entity : Address;
  tc_jurisdiction : TaxJurisdiction;
  tc_last_vat_filing : Z;
  tc_next_vat_due : Z;
  tc_last_cbcr_filing : Z;
  tc_next_cbcr_due : Z;
  tc_outstanding_liabilities : Z;
  tc_compliance_risk_score : Z;
  tc_last_audit_date : option Z }.

(** [VATRateRules], src/vat_engine.rs:19-32 *)
Record VATRateRules := mkVATRateRules {
  vr_jurisdiction : TaxJurisdiction;
  vr_standard_rate : Z;
  vr_reduced_rate : option Z;
  vr_super_reduced_rate : option Z;
  vr_zero_rate_exports : bool;
  vr_reverse_charge_imports : bool }.

(** [VATExemptionRules], src/vat_engine.rs:37-46 *)
Record VATExemptionRules := mkVATExemptionRules {
  ve_jurisdiction : TaxJurisdiction;
  ve_exempt_types : list VATSupplyType;
  ve_b2b_exemptions : bool;
  ve_b2b_conditions : Symbol }.

(** The functions below panic on overflow and return no errors. *)
#[local] Abbreviation R := (result Empty_set).

Definition zero_id : Hash := replicate 32 0.

(** ** VAT *)

(** [get_eu_rate], src/vat_engine.rs:74-102 *)
Definition get_eu_rate (t : VATTransaction) : Z :=
  match vt_supply_type t with
  | VATSupplyType.Goods => if vt_is_b2b t then 0 else 2000
  | VATSupplyType.Services => 2000
  | VATSupplyType.DigitalServices =>
      if bool_decide (vt_customer_jurisdiction t = TaxJurisdiction.EU) then 2000 else 0
  | VATSupplyType.Intangibles => 2000
  | VATSupplyType.Construction => 2000
  | VATSupplyType.Transportation => if vt_is_b2b t then 0 else 2000
  | VATSupplyType.Telecommunications => 2000
  end.

(** [get_uk_rate], src/vat_engine.rs:105-115 *)
Definition get_uk_rate (t : VATTransaction) : Z := 2000.

(** [get_us_rate], src/vat_engine.rs:118-122 *)
Definition get_us_rate (t : VATTransaction) : Z := 0.

(** [get_canada_rate], src/vat_engine.rs:125-135 *)
Definition get_canada_rate (t : VATTransaction) : Z := 500.

(** [get_au_rate], src/vat_engine.rs:138-148 *)
Definition get_au_rate (t : VATTransaction) : Z := 1000.

(** [get_india_rate], src/vat_engine.rs:151-161 *)
Definition get_india_rate (t : VATTransaction) : Z :=
  match vt_supply_type t with
  | VATSupplyType.Construction => 1200
  | VATSupplyType.Transportation => 500
  | _ => 1800
  end.

(** [get_singapore_rate], src/vat_engine.rs:164-174 *)
Definition get_singapore_rate (t : VATTransaction) : Z := 800.

(** [get_hk_rate], src/vat_engine.rs:177-179 *)
Definition get_hk_rate (t : VATTransaction) : Z := 0.

(** [get_japan_rate], src/vat_engine.rs:182-192 *)
Definition get_japan_rate (t : VATTransaction) : Z := 1000.

(** [get_uae_rate], src/vat_engine.rs:195-205 *)
Definition get_uae_rate (t : VATTransaction) : Z := 500.

(** [is_exempt], src/vat_engine.rs:208-227 *)
Definition is_exempt (t : VATTransaction) : bool :=
  match vt_exemption_reason t with
  | VATExemptionReason.None => false
  | VATExemptionReason.Financial => true
  | VATExemptionReason.Healthcare => true
  | VATExemptionReason.Education => true
  | VATExemptionReason.ExportedGoods =>
      bool_decide (vt_place_of_supply t <> vt_customer_jurisdiction t)
  | VATExemptionReason.IntraEUSupply =>
      bool_decide (vt_place_of_supply t = TaxJurisdiction.EU)
      && bool_decide (vt_customer_jurisdiction t = TaxJurisdiction.EU)
  | VATExemptionReason.CulturalActivities => true
  | VATExemptionReason.AgriculturalProduction => true
  end.

(** [should_apply_reverse_charge], src/vat_engine.rs:230-248 *)
Definition should_apply_reverse_charge (t : VATTransaction) : bool :=
  if negb (vt_is_b2b t) then false
  else if bool_decide (vt_place_of_supply t = vt_customer_jurisdiction t) then false
  else match vt_supply_type t with
       | VATSupplyType.Construction | VATSupplyType.Services | VATSupplyType.DigitalServices
       | VATSupplyType.Intangibles => true
       | _ => false
       end.

(** The Swiss rate: [determine_rate] calls [get_ch_rate], which no file of the
    repository defines. *)
Section Determination.
Variable get_ch_rate : VATTransaction -> Z.

(** [determine_rate], src/vat_engine.rs:53-71 *)
Definition determine_rate (t : VATTransaction) : Z :=
  match vt_place_of_supply t with
  | TaxJurisdiction.EU => get_eu_rate t
  | TaxJurisdiction.UK => get_uk_rate t
  | TaxJurisdiction.US => get_us_rate t
  | TaxJurisdiction.Canada => get_canada_rate t
  | TaxJurisdiction.Australia => get_au_rate t
  | TaxJurisdiction.India => get_india_rate t
  | TaxJurisdiction.Singapore => get_singapore_rate t
  | TaxJurisdiction.HongKong => get_hk_rate t
  | TaxJurisdiction.Japan => get_japan_rate t
  | TaxJurisdiction.Switzerland => get_ch_rate t
  | TaxJurisdiction.UAE => get_uae_rate t
  end.

(** [determine_vat], src/vat_engine.rs:251-285 *)
Definition determine_vat (t : VATTransaction) (now : Z) : R VATDetermination :=
  let is_exempt := is_exempt t in
  let reverse_charge := should_apply_reverse_charge t in
  let vat_rate := if is_exempt || reverse_charge then 0 else determine_rate t in
  let? vat_amount :=
    (if is_exempt || reverse_charge then Ok 0
     else let? product := u64_chk (vt_supply_amount t * vat_rate) in Ok (product / 10000)) in
  Ok (mkVATDetermination (vt_id t) vat_rate is_exempt
        (if is_exempt then Some (vt_exemption_reason t) else None) reverse_charge
        (vt_place_of_supply t) vat_amount now (str_bytes "VAT_ENGINE_V1")).
End Determination.

(** [calculate_amounts], src/vat_engine.rs:288-303 *)
Definition calculate_amounts (supply_amount vat_rate : Z) (is_inclusive : bool) : R (Z * Z * Z) :=
  let? product := u64_chk (supply_amount * vat_rate) in
  if is_inclusive then
    let vat_amount := product / (10000 + vat_rate) in
    let? net_amount := u64_chk (supply_amount - vat_amount) in
    Ok (net_amount, vat_amount, supply_amount)
  else
    let vat_amount := product / 10000 in
    let? gross := u64_chk (supply_amount + vat_amount) in
    Ok (supply_amount, vat_amount, gross).

(** ** Digital services tax *)

(** [is_in_scope_service], src/tax_engines.rs:29-37 *)
Definition is_in_scope_service (c : DigitalServiceCategory) : bool :=
  match c with
  | DigitalServiceCategory.OnlineAdvertising | DigitalServiceCategory.OnlineMarketplace
  | DigitalServiceCategory.SocialMedia | DigitalServiceCategory.VideoStreaming => true
  | _ => false
  end.

(** [is_applicable], src/tax_engines.rs:15-26 *)
Definition is_applicable (t : DSTTransaction) : bool :=
  dt_threshold_met t && is_in_scope_service (dt_service_category t).

(** [determine_dst], src/tax_engines.rs:40-91 *)
Definition determine_dst (t : DSTTransaction) (now : Z) : R DSTDetermination :=
  let applicable := is_applicable t in
  let '(dst_rate, jurisdictions) :=
    if applicable then
      match dt_user_jurisdiction t with
      | TaxJurisdiction.EU => (300, [dt_user_jurisdiction t])
      | TaxJurisdiction.UK => (200, [dt_user_jurisdiction t])
      | TaxJurisdiction.India => (400, [dt_user_jurisdiction t])
      | TaxJurisdiction.Australia => (300, [dt_user_jurisdiction t])
      | _ => (0, [])
      end
    else (0, []) in
  let? dst_amount :=
    (if applicable && Z.ltb 0 dst_rate then
       let? product := u64_chk (dt_revenue t * dst_rate) in Ok (product / 10000)
     else Ok 0) in
  Ok (mkDSTDetermination (dt_id t) applicable dst_rate jurisdictions dst_amount
        (str_bytes "DST_ENGINE_V1") now).

(** ** Crypto assets *)

(** [is_reportable], src/tax_engines.rs:100-114 *)
Definition is_reportable (holding : CryptoHolding) (t : CryptoTransaction) : bool :=
  let s := ct_transaction_type t in
  bool_decide (s = "sell"%string) || bool_decide (s = "transfer"%string)
  || bool_decide (s = "stake_reward"%string) || bool_decide (s = "large_holding"%string).

(** One holding of [calculate_fifo_cost_basis], src/tax_engines.rs:124-139 *)
Definition fifo_step (amount_sold : Z) (acc : Z * Z) (h : CryptoHolding) : R (Z * Z) :=
  let '(total_cost, processed) := acc in
  if Z.leb amount_sold processed then Ok acc
  else
    let? reach := u64_chk (processed + ch_balance h) in
    let? amount_to_process :=
      (if Z.ltb amount_sold reach then u64_chk (amount_sold - processed) else Ok (ch_balance h)) in
    let? scaled := u64_chk (amount_to_process * 1000000) in
    let proportion := scaled / Z.max (ch_balance h) 1 in
    let? weighted := u64_chk (ch_cost_basis h * proportion) in
    let cost := weighted / 1000000 in
    Ok (u64_sat_add total_cost cost, u64_sat_add processed amount_to_process).

(** [calculate_fifo_cost_basis]; after the [break] of the source the remaining
    holdings change nothing, src/tax_engines.rs:117-142 *)
Definition calculate_fifo_cost_basis (holdings : list CryptoHolding) (amount_sold : Z) : R (Z * Z) :=
  try_fold (fifo_step amount_sold) (0, 0) holdings.

(** [calculate_realized_gain], src/tax_engines.rs:145-150 *)
Definition calculate_realized_gain (cost_basis proceeds : Z) : R Z :=
  i64_chk (as_i64 proceeds - as_i64 cost_basis).

(** One transaction of [generate_carf_record], src/tax_engines.rs:163-172 *)
Definition carf_step (acc : Z * Z) (tx : CryptoTransaction) : R (Z * Z) :=
  let '(total_gains, total_losses) := acc in
  match ct_cost_basis tx with
  | None => Ok acc
  | Some cost_basis =>
      let? gain := calculate_realized_gain cost_basis (ct_fair_market_value tx) in
      if Z.ltb 0 gain then Ok (u64_sat_add total_gains gain, total_losses)
      else let? loss := i64_chk (- gain) in Ok (total_gains, u64_sat_add total_losses loss)
  end.

(** [generate_carf_record], src/tax_engines.rs:153-185 *)
Definition generate_carf_record (reporting_entity : Address) (transactions : list CryptoTransaction)
    (holdings : list CryptoHolding) (reporting_year : Z) : R CARFReportingRecord :=
  let? totals := try_fold carf_step (0, 0) transactions in
  let '(total_gains, total_losses) := totals in
  Ok (mkCARFReportingRecord zero_id reporting_entity None reporting_year transactions holdings
        total_gains total_losses 0).

(** ** Transfer pricing *)

(** [validate_price], src/tax_engines.rs:194-225 *)
Definition validate_price (transaction_price : Z) (comparable_prices : list Z)
    : R TransferPricingAnalysis :=
  let? avg_comparable :=
    match comparable_prices with
    | [] => Ok transaction_price
    | _ => let? sum := u64_sum comparable_prices in Ok (sum / len comparable_prices)
    end in
  let? variance := i64_chk (as_i64 transaction_price - as_i64 avg_comparable) in
  let? variance_percentage :=
    (if Z.ltb 0 avg_comparable then
       let? size := i64_chk (Z.abs variance) in
       let? scaled := u64_chk (size * 10000) in
       Ok (as_u32 (scaled / avg_comparable))
     else Ok 0) in
  let defensible := Z.leb variance_percentage 2500 in
  Ok (mkTransferPricingAnalysis zero_id zero_id avg_comparable transaction_price variance
        variance_percentage defensible [] 0).

(** [select_method], src/tax_engines.rs:228-241 *)
Definition select_method (supply_type transaction_type : string) : TransferPricingMethod :=
  if str_contains supply_type "goods" then TransferPricingMethod.CUP
  else if str_contains supply_type "service" then TransferPricingMethod.CostPlus
  else if str_contains supply_type "intangible" then TransferPricingMethod.ProfitSplit
  else TransferPricingMethod.TNMM.

(** ** Country-by-country reports *)

(** [aggregate_jurisdictions], src/tax_engines.rs:250-276 *)
Definition aggregate_jurisdictions (transactions : list VATTransaction) : list CbCRJurisdictionData :=
  [mkCbCRJurisdictionData TaxJurisdiction.EU 1000000 500000 1500000 300000 75000 50 2000000
     [str_bytes "EU Subsidiary"]].

(** [generate_cbcr], src/tax_engines.rs:279-309 *)
Definition generate_cbcr (reporting_entity : Address) (fiscal_year : Z)
    (jurisdictions : list CbCRJurisdictionData) (now : Z) : CbCReport :=
  let '(total_revenue, total_profit, total_tax) :=
    foldl (fun acc jd =>
             let '(revenue, profit, tax) := acc in
             (u64_sat_add revenue (jd_total_revenue jd), i64_sat_add profit (jd_profit_loss jd),
              u64_sat_add tax (jd_income_tax_paid jd)))
          (0, 0, 0) jurisdictions in
  mkCbCReport zero_id reporting_entity fiscal_year jurisdictions total_revenue total_profit total_tax
    now (str_bytes "BEPS_Action13") 0.

(** * Tax records

    The audit entries and the documents of src/tax_audit_trail.rs. *)

(** [TaxAuditLogEntry], src/tax_audit_trail.rs:11-32 *)
Record TaxAuditLogEntry := mkTaxAuditLogEntry {
  tl_id : Hash;
  tl_event_id : Hash;
  tl_event_type : Symbol;
  tl_entity : Address;
  tl_actor : Address;
  tl_action : Symbol;
  tl_timestamp : Z;
  tl_details : Bytes;
  tl_documentation : list Hash;
  tl_version : Z }.

(** [TaxDocumentation], src/tax_audit_trail.rs:37-56 *)
Record TaxDocumentation := mkTaxDocumentation {
  td_id : Hash;
  td_related_event : Hash;
  td_document_type : Symbol;
  td_content_hash : Hash;
  td_effective_date : Z;
  td_expiry_date : Z;
  td_filing_status : Z;
  td_jurisdiction : Symbol;
  td_authority_reference : option Bytes }.

(** [TaxComplianceEvent], src/tax_audit_trail.rs:61-80 *)
Record TaxComplianceEvent := mkTaxComplianceEvent {
  tv_id : Hash;
  tv_entity : Address;
  tv_timestamp : Z;
  tv_event_type : Symbol;
  tv_requirement : Symbol;
  tv_status : Z;
  tv_due_date : Z;
  tv_completion_date : option Z;
  tv_notes : Bytes }.

(** [TaxDeterminationDecision], src/tax_audit_trail.rs:85-108 *)
Record TaxDeterminationDecision := mkTaxDeterminationDecision {
  tn_id : Hash;
  tn_transaction_id : Hash;
  tn_tax_type : Symbol;
  tn_jurisdiction : Symbol;
  tn_decision : Bytes;
  tn_basis : Bytes;
  tn_regulations : list Bytes;
  tn_decision_date : Z;
  tn_decision_authority : Address;
  tn_appeal_end_date : Z;
  tn_status : Z }.

(** [TaxExemptionRecord], src/tax_audit_trail.rs:113-134 *)
Record TaxExemptionRecord := mkTaxExemptionRecord {
  tx_id : Hash;
  tx_entity : Address;
  tx_exemption_type : Symbol;
  tx_jurisdiction : Symbol;
  tx_effective_date : Z;
  tx_expiry_date : Z;
  tx_amount : Z;
  tx_conditions : Bytes;
  tx_certification : option Hash;
  tx_status : Z }.


(** [record_vat_determination], src/tax_audit_trail.rs:141-165 *)
Definition record_vat_determination (transaction_id : Hash) (jurisdiction : Symbol) (rate amount : Z)
    (exemption : bool) (actor : Address) (now : Z) : TaxAuditLogEntry :=
  mkTaxAuditLogEntry zero_id transaction_id "vat_determined" actor actor
    (if exemption then "exempt" else "standard_rate") now (u32_to_bytes rate) [] 1.

(** [record_dst_calculation], src/tax_audit_trail.rs:168-189 *)
Definition record_dst_calculation (transaction_id : Hash) (jurisdiction : Symbol) (applicable : bool)
    (rate amount : Z) (actor : Address) (now : Z) : TaxAuditLogEntry :=
  mkTaxAuditLogEntry zero_id transaction_id "dst_calculated" actor actor
    (if applicable then "applicable" else "not_applicable") now [] [] 1.

(** [record_crypto_transaction], src/tax_audit_trail.rs:192-213 *)
Definition record_crypto_transaction (transaction_id : Hash) (holder : Address)
    (transaction_type : Symbol) (gain_loss : Z) (reportable : bool) (actor : Address) (now : Z)
    : TaxAuditLogEntry :=
  mkTaxAuditLogEntry zero_id transaction_id "crypto_transaction" holder actor
    (if reportable then "reportable" else "non_reportable") now [] [] 1.

(** [record_transfer_pricing], src/tax_audit_trail.rs:216-236 *)
Definition record_transfer_pricing (transaction_id : Hash) (jurisdiction : Symbol)
    (defensible : bool) (variance : Z) (actor : Address) (now : Z) : TaxAuditLogEntry :=
  mkTaxAuditLogEntry zero_id transaction_id "transfer_pricing" actor actor
    (if defensible then "defensible" else "adjustment_needed") now [] [] 1.

(** [record_cbcr_filing], src/tax_audit_trail.rs:239-258 *)
Definition record_cbcr_filing (report_id : Hash) (entity : Address) (fiscal_year : Z)
    (actor : Address) (now : Z) : TaxAuditLogEntry :=
  mkTaxAuditLogEntry zero_id report_id "cbcr_filed" entity actor "filed" now [] [] 1.

(** [create_documentation], src/tax_audit_trail.rs:261-284 *)
Definition create_documentation (event_id : Hash) (document_type : Symbol) (content_hash : Hash)
    (jurisdiction : Symbol) (retention_years now : Z) : R TaxDocumentation :=
  let? retention_seconds := u64_chk (retention_years * 31557600) in
  let? expiry_date := u64_plus now retention_seconds in
  Ok (mkTaxDocumentation zero_id event_id document_type content_hash now expiry_date 0 jurisdiction
        None).

(** [create_compliance_event], src/tax_audit_trail.rs:287-305 *)
Definition create_compliance_event (entity : Address) (event_type requirement : Symbol)
    (due_date now : Z) : TaxComplianceEvent :=
  mkTaxComplianceEvent zero_id entity now event_type requirement 0 due_date None [].

(** [create_determination_decision], src/tax_audit_trail.rs:308-334 *)
Definition create_determination_decision (transaction_id : Hash) (tax_type jurisdiction : Symbol)
    (decision basis : Bytes) (authority : Address) (now : Z) : R TaxDeterminationDecision :=
  let? appeal_end := u64_plus now (30 * 24 * 3600) in
  Ok (mkTaxDeterminationDecision zero_id transaction_id tax_type jurisdiction decision basis [] now
        authority appeal_end 1).

(** [create_exemption_record], src/tax_audit_trail.rs:337-360 *)
Definition create_exemption_record (entity : Address) (exemption_type jurisdiction : Symbol)
    (amount expiry_years now : Z) : R TaxExemptionRecord :=
  let? expiry_seconds := u64_chk (expiry_years * 31557600) in
  let? expiry_date := u64_plus now expiry_seconds in
  Ok (mkTaxExemptionRecord zero_id entity exemption_type jurisdiction now expiry_date amount [] None
        0).
