(* ===== verification/TaxProps.v ===== *)
(** * Properties of the tax engines

    Net and gross amounts, the determination of VAT, first-in-first-out cost
    basis, realized gains, and transfer prices. *)

From S2P Require Import Prelude Contract Fallible Sample Tax.

(** ** Net and gross *)

(** Taking the tax out of a gross amount gives back exactly the net amount and
    the tax that made it. *)
Theorem vat_taken_out_is_what_was_added n r v g :
  0 <= n -> 0 <= r -> calculate_amounts n r false = Ok (n, v, g) -> g * r <= u64_max ->
  g = n + v /\ calculate_amounts g r true = Ok (n, v, g).
Proof.
  intros Hn Hr R Hg. unfold calculate_amounts in R. rinv. simplify_eq.
  split; [done|]. unfold calculate_amounts.
  set (q := n * r / 10000) in *.
  assert (0 <= q) as Hq by (apply Z.div_pos; nia).
  assert (n * r = 10000 * q + (n * r) mod 10000) as E by (apply Z.div_mod; lia).
  pose proof (Z.mod_pos_bound (n * r) 10000 eq_refl) as Hm.
  assert ((n + q) * r / (10000 + r) = q) as D.
  { symmetry. apply (Z.div_unique_pos _ _ _ ((n * r) mod 10000)); [lia|].
    replace ((n + q) * r) with (n * r + q * r) by ring. rewrite E at 1. ring. }
  assert (u64_chk ((n + q) * r) = Ok (E := Empty_set) ((n + q) * r)) as ->
    by (apply u64_chk_Ok; split; [done|nia]).
  simpl. rewrite D. replace (n + q - q) with n by lia.
  assert (u64_chk n = Ok (E := Empty_set) n) as -> by (apply u64_chk_Ok; lia). done.
Qed.

(** The other way round the tax may come out one unit higher, and no more, as
    long as the rate is at most 100 per cent. *)
Theorem vat_added_again_is_off_by_one g r n v v' g' :
  0 <= g -> 0 <= r <= 10000 ->
  calculate_amounts g r true = Ok (n, v, g) -> calculate_amounts n r false = Ok (n, v', g') ->
  n + v = g /\ (v' = v \/ v' = v + 1).
Proof.
  intros Hg Hr R R'. unfold calculate_amounts in R, R'. rinv. simplify_eq.
  set (v := g * r / (10000 + r)) in *. split; [lia|].
  assert (g * r = (10000 + r) * v + (g * r) mod (10000 + r)) as E by (apply Z.div_mod; lia).
  assert (0 <= (g * r) mod (10000 + r) < 10000 + r) as Hm by (apply Z.mod_pos_bound; lia).
  assert ((g - v) * r = 10000 * v + (g * r) mod (10000 + r)) as E'.
  { replace ((g - v) * r) with (g * r - v * r) by ring. rewrite E at 1. ring. }
  rewrite E'. destruct (decide ((g * r) mod (10000 + r) < 10000)).
  - left. symmetry. apply (Z.div_unique_pos _ _ _ ((g * r) mod (10000 + r))); lia.
  - right. symmetry. apply (Z.div_unique_pos _ _ _ ((g * r) mod (10000 + r) - 10000)); lia.
Qed.

(** ** Determination *)

Lemma rate_bounds ch t :
  (forall t, 0 <= ch t <= 2000) -> 0 <= determine_rate ch t <= 2000.
Proof.
  intros H. unfold determine_rate. destruct (vt_place_of_supply t); try done; try by vm_compute.
  - unfold get_eu_rate. destruct (vt_supply_type t); try done; by case_match.
  - unfold get_india_rate. by destruct (vt_supply_type t).
Qed.

(** As long as the Swiss rate that the engine asks for is at most 20 per cent
    and the product fits, every transaction is determined: nothing is due on an
    exempt supply or under the reverse charge, and otherwise the rate of the
    place of supply, rounded down, and never more than a fifth of the supply. *)
Theorem vat_determination_is_total ch t now :
  (forall t, 0 <= ch t <= 2000) -> 0 <= vt_supply_amount t -> vt_supply_amount t * 2000 <= u64_max ->
  exists d, determine_vat ch t now = Ok d /\
    vd_is_exempt d = is_exempt t /\
    vd_reverse_charge_applicable d = should_apply_reverse_charge t /\
    (is_exempt t || should_apply_reverse_charge t = true -> vd_vat_rate d = 0 /\ vd_vat_amount d = 0) /\
    (is_exempt t || should_apply_reverse_charge t = false ->
       vd_vat_rate d = determine_rate ch t /\
       vd_vat_amount d = vt_supply_amount t * determine_rate ch t / 10000) /\
    0 <= vd_vat_amount d <= vt_supply_amount t / 5.
Proof.
  intros Hc H0 Hmax. pose proof (rate_bounds ch t Hc) as Hr. unfold determine_vat.
  assert (0 <= vt_supply_amount t * determine_rate ch t <= vt_supply_amount t * 2000) as Hp by nia.
  assert (0 <= vt_supply_amount t / 5) as H5 by (apply Z.div_pos; lia).
  destruct (is_exempt t || should_apply_reverse_charge t).
  - simpl. eexists. split; [reflexivity|]. by repeat split.
  - assert (u64_chk (vt_supply_amount t * determine_rate ch t)
            = Ok (E := Empty_set) (vt_supply_amount t * determine_rate ch t)) as ->
      by (apply u64_chk_Ok; lia).
    simpl. eexists. split; [reflexivity|]. simpl. split; [done|]. split; [done|]. split; [done|].
    split; [done|]. split; [apply Z.div_pos; lia|].
    transitivity (vt_supply_amount t * 2000 / 10000); [apply Z.div_le_mono; lia|].
    replace (vt_supply_amount t * 2000) with (vt_supply_amount t * 2000) by ring.
    change 10000 with (5 * 2000). rewrite Z.div_mul_cancel_r by lia. lia.
Qed.

(** ** Cost basis *)

(** The cost of selling [amount] from the lots of a list, in order: all of a
    lot that the sale exhausts, and of the lot it ends in the share sold, in
    millionths rounded down. *)
Definition lot_cost (amount : Z) (h : CryptoHolding) : Z :=
  if Z.eqb (ch_balance h) 0 then 0
  else if Z.leb (ch_balance h) amount then ch_cost_basis h
  else ch_cost_basis h * (amount * 1000000 / ch_balance h) / 1000000.

Fixpoint fifo_cost (amount : Z) (l : list CryptoHolding) : Z :=
  match l with
  | [] => 0
  | h :: l => lot_cost amount h + fifo_cost (amount - Z.min amount (ch_balance h)) l
  end.

Definition sound_lot (h : CryptoHolding) : Prop := 0 <= ch_balance h /\ 0 <= ch_cost_basis h.

Lemma lot_cost_bounds amount h : 0 <= amount -> sound_lot h -> 0 <= lot_cost amount h <= ch_cost_basis h.
Proof.
  intros Ha [Hb Hc]. unfold lot_cost. destruct (Z.eqb_spec (ch_balance h) 0); [lia|].
  destruct (Z.leb_spec (ch_balance h) amount); [lia|].
  assert (0 <= amount * 1000000 / ch_balance h <= 1000000) as Hq.
  { split; [apply Z.div_pos; lia|]. apply Z.div_le_upper_bound; lia. }
  split; [apply Z.div_pos; nia|]. apply Z.div_le_upper_bound; nia.
Qed.

Lemma fifo_cost_snoc l h amount :
  0 <= amount -> Forall sound_lot l ->
  fifo_cost amount (l ++ [h])
  = fifo_cost amount l + lot_cost (amount - Z.min amount (total_of ch_balance l)) h.
Proof.
  intros Ha Hl. revert amount Ha. induction Hl as [|x l [Hx _] Hl IH]; intros amount Ha; simpl.
  - rewrite Z.min_r by lia. replace (amount - 0) with amount by lia. lia.
  - rewrite IH by lia.
    assert (0 <= total_of ch_balance l) as Ht.
    { clear -Hl. induction Hl as [|y l [Hy _] _ IH]; simpl; lia. }
    replace (amount - Z.min amount (ch_balance x)
             - Z.min (amount - Z.min amount (ch_balance x)) (total_of ch_balance l))
      with (amount - Z.min amount (ch_balance x + total_of ch_balance l)) by lia. lia.
Qed.

Lemma fifo_cost_bounds l amount :
  0 <= amount -> Forall sound_lot l -> 0 <= fifo_cost amount l <= total_of ch_cost_basis l.
Proof.
  intros Ha Hl. revert amount Ha. induction Hl as [|x l Hx Hl IH]; intros amount Ha; simpl; [lia|].
  pose proof (lot_cost_bounds amount x Ha Hx). destruct Hx as [Hx _].
  specialize (IH (amount - Z.min amount (ch_balance x))). lia.
Qed.

(** One lot, in terms of the specification. *)
Lemma fifo_step_Ok amount cost done h r :
  0 <= done <= amount -> amount <= u64_max -> sound_lot h ->
  fifo_step amount (cost, done) h = Ok r ->
  r = (Z.min (cost + lot_cost (amount - done) h) u64_max, Z.min amount (done + ch_balance h)) \/
  done = amount /\ r = (cost, done).
Proof.
  intros Hd Hm [Hb Hc] R. unfold fifo_step in R.
  destruct (Z.leb_spec amount done); [right; split; [lia|congruence]|]. left. rinv.
  unfold u64_sat_add, lot_cost.
  destruct (Z.ltb_spec amount (done + ch_balance h)); rinv.
  - destruct (Z.eqb_spec (ch_balance h) 0); [lia|].
    destruct (Z.leb_spec (ch_balance h) (amount - done)); [lia|].
    rewrite (Z.max_l (ch_balance h)) by lia. f_equal. lia.
  - rewrite (Z.min_r amount) by lia. f_equal; [|lia].
    destruct (Z.eqb_spec (ch_balance h) 0) as [E|].
    + rewrite E. simpl. by rewrite Z.div_0_l, Z.mul_0_r, Z.div_0_l.
    + rewrite (Z.max_l (ch_balance h)) by lia.
      destruct (Z.leb_spec (ch_balance h) (amount - done)); [|lia].
      rewrite (Z.mul_comm (ch_balance h)), Z.div_mul by lia. by rewrite Z.div_mul.
Qed.

(** C34: The first-in-first-out loop computes that cost, up to saturation, and has
    processed the amount asked for or all there is. *)
Theorem fifo_follows_the_lots holdings amount cost processed :
  0 <= amount <= u64_max -> Forall sound_lot holdings ->
  calculate_fifo_cost_basis holdings amount = Ok (cost, processed) ->
  cost = Z.min (fifo_cost amount holdings) u64_max /\
  processed = Z.min amount (total_of ch_balance holdings).
Proof.
  intros Ha Hl R.
  apply (try_fold_inv (fun k acc => acc = (Z.min (fifo_cost amount k) u64_max,
           Z.min amount (total_of ch_balance k)))) in R; [by injection R| |].
  - intros k h acc acc' [rest ->] -> S. apply Forall_app in Hl as [Hk Hh].
    apply Forall_cons in Hh as [Hh _].
    assert (0 <= total_of ch_balance k) as Ht.
    { clear -Hk. induction Hk as [|y l [Hy _] _ IH]; simpl; lia. }
    assert (0 <= lot_cost (amount - Z.min amount (total_of ch_balance k)) h) as Hc
      by (apply lot_cost_bounds; [lia|done]).
    destruct Hh as [Hb Hx].
    rewrite fifo_cost_snoc, total_of_app by (done || lia).
    change (total_of ch_balance [h]) with (ch_balance h + 0).
    apply fifo_step_Ok in S as [->|[E ->]]; [| |lia|lia|done].
    + f_equal; lia.
    + assert (amount - Z.min amount (total_of ch_balance k) = 0) as -> by lia.
      assert (lot_cost 0 h = 0) as ->.
      { unfold lot_cost. destruct (Z.eqb_spec (ch_balance h) 0); [done|].
        destruct (Z.leb_spec (ch_balance h) 0); [lia|]. simpl. by rewrite Z.div_0_l, Z.mul_0_r. }
      f_equal; lia.
  - simpl. f_equal; unfold u64_max; lia.
Qed.

(** ** Gains and losses *)

Definition gain_of (tx : CryptoTransaction) : Z :=
  match ct_cost_basis tx with Some c => ct_fair_market_value tx - c | None => 0 end.
Definition priced (tx : CryptoTransaction) : Prop :=
  0 <= ct_fair_market_value tx <= i64_max /\
  match ct_cost_basis tx with Some c => 0 <= c <= i64_max | None => True end.

Lemma as_i64_small z : z <= i64_max -> as_i64 z = z.
Proof. intros H. unfold as_i64. by destruct (Z.leb_spec z i64_max); [|lia]. Qed.

Lemma carf_step_run gains losses tx :
  priced tx ->
  carf_step (gains, losses) tx
  = Ok (if Z.ltb 0 (gain_of tx) then u64_sat_add gains (gain_of tx) else gains,
        if Z.ltb 0 (gain_of tx) then losses
        else match ct_cost_basis tx with
             | Some _ => u64_sat_add losses (- gain_of tx) | None => losses end).
Proof.
  intros [Hf Hc]. unfold carf_step, gain_of. destruct (ct_cost_basis tx) as [c|]; [|done].
  unfold calculate_realized_gain. rewrite !as_i64_small by lia.
  assert (i64_chk (ct_fair_market_value tx - c) = Ok (E := Empty_set) (ct_fair_market_value tx - c))
    as -> by (apply i64_chk_Ok; unfold i64_min, i64_max in *; lia). simpl.
  destruct (Z.ltb_spec 0 (ct_fair_market_value tx - c)); [done|].
  assert (i64_chk (- (ct_fair_market_value tx - c))
          = Ok (E := Empty_set) (- (ct_fair_market_value tx - c)))
    as -> by (apply i64_chk_Ok; unfold i64_min, i64_max in *; lia). done.
Qed.

Definition loss_of (tx : CryptoTransaction) : Z := Z.max 0 (- gain_of tx).
Definition profit_of (tx : CryptoTransaction) : Z := Z.max 0 (gain_of tx).

Lemma profit_minus_loss l : total_of profit_of l - total_of loss_of l = total_of gain_of l.
Proof.
  induction l as [|x l IH]; simpl; [done|].
  assert (profit_of x - loss_of x = gain_of x) by (unfold profit_of, loss_of; lia). lia.
Qed.

(** A record is always made when every value is below 2^63, and its totals are
    the sums of the gains and of the losses: as long as they fit, the gains less
    the losses are the proceeds less the costs. *)
Theorem carf_totals_are_exact who txs holdings year :
  Forall priced txs -> total_of profit_of txs <= u64_max -> total_of loss_of txs <= u64_max ->
  exists r, generate_carf_record who txs holdings year = Ok r /\
    ca_total_realized_gains r = total_of profit_of txs /\
    ca_total_realized_losses r = total_of loss_of txs /\
    ca_total_realized_gains r - ca_total_realized_losses r = total_of gain_of txs.
Proof.
  intros Hp Hg Hl. unfold generate_carf_record.
  assert (forall l g b, Forall priced l -> 0 <= g -> 0 <= b ->
            g + total_of profit_of l <= u64_max -> b + total_of loss_of l <= u64_max ->
            try_fold carf_step (g, b) l = Ok (g + total_of profit_of l, b + total_of loss_of l)) as K.
  { clear. induction l as [|x l IH]; intros g b Hp H0 H1 Hg Hb; cbn [try_fold total_of foldr].
    - do 2 f_equal; lia.
    - apply Forall_cons in Hp as [Hx Hp]. simpl in Hg, Hb.
      assert (0 <= total_of profit_of l) by (apply total_of_nonneg; unfold profit_of; lia).
      assert (0 <= total_of loss_of l) by (apply total_of_nonneg; unfold loss_of; lia).
      rewrite carf_step_run by done. cbn [rbind].
      assert ((if Z.ltb 0 (gain_of x) then u64_sat_add g (gain_of x) else g) = g + profit_of x) as ->.
      { unfold profit_of, u64_sat_add in *. destruct (Z.ltb_spec 0 (gain_of x)); lia. }
      assert ((if Z.ltb 0 (gain_of x) then b
               else match ct_cost_basis x with Some _ => u64_sat_add b (- gain_of x) | None => b end)
              = b + loss_of x) as ->.
      { unfold loss_of, u64_sat_add in *. destruct (Z.ltb_spec 0 (gain_of x)); [lia|].
        destruct (ct_cost_basis x) eqn:E; [lia|]. unfold gain_of in *. rewrite E in *. lia. }
      rewrite IH; [|done|unfold profit_of; lia|unfold loss_of; lia|lia|lia].
      fold (total_of profit_of l) (total_of loss_of l). do 2 f_equal; lia. }
  rewrite K by (done || lia). simpl. eexists. split; [reflexivity|]. simpl.
  split; [done|]. split; [done|]. apply profit_minus_loss.
Qed.

(** ** Transfer prices *)

(** The distance from the mean of the comparables in basis points, before it is
    cut to 32 bits. *)
Definition distance (price mean : Z) : Z := Z.abs (price - mean) * 10000 / mean.

(** A price is compared with the mean of its comparables: it is defensible
    exactly when its distance from the mean, modulo 2^32, is at most 25 per
    cent - so exactly when it is within 25 per cent, as long as the price is not
    hundreds of thousands of times the mean. *)
Theorem price_check_decides price prices a :
  0 <= price <= i64_max -> Forall (fun x => 0 <= x <= i64_max) prices -> prices <> [] ->
  validate_price price prices = Ok a ->
  let mean := total_of id prices / len prices in
  ta_arms_length_price a = mean /\
  (0 < mean -> ta_defensible a = true <-> distance price mean mod 2 ^ 32 <= 2500) /\
  (0 < mean -> price <= 400000 * mean -> ta_defensible a = true <-> distance price mean <= 2500).
Proof.
  intros Hp Hl Hn R. unfold validate_price in R. apply rbind_Ok in R as (m & Rm & R).
  assert (m = total_of id prices / len prices) as ->.
  { destruct prices; [done|]. rinv.
    match goal with S : u64_sum _ = Ok _ |- _ => apply u64_sum_Ok in S; by subst end. }
  clear Rm.
  set (mean := total_of id prices / len prices) in *. split; [by rinv|].
  assert (0 <= mean <= i64_max) as Hm.
  { subst mean. assert (0 < len prices) by (destruct prices; [done|unfold len; simpl; lia]).
    assert (0 <= total_of id prices <= len prices * i64_max) as Ht.
    { clear -Hl. induction Hl as [|x l Hx _ IH]; [done|]. rewrite len_cons. simpl.
      change (id x) with x. lia. }
    split; [apply Z.div_pos; lia|]. apply Z.div_le_upper_bound; lia. }
  rewrite !as_i64_small in * by lia.
  enough (0 < mean -> ta_defensible a = true <-> distance price mean mod 2 ^ 32 <= 2500) as K.
  { split; [exact K|]. intros Hpos Hs. rewrite K by done. unfold distance.
    assert (0 <= Z.abs (price - mean) * 10000 / mean <= 4000000000) as Hd.
    { split; [apply Z.div_pos; lia|]. apply Z.div_le_upper_bound; lia. }
    rewrite Z.mod_small by lia. done. }
  intros Hpos. rinv.
  match goal with H : context [Z.ltb 0 mean] |- _ => destruct (Z.ltb_spec 0 mean) in H; [|lia] end.
  rinv. repeat match goal with H : i64_chk _ = Ok _ |- _ => apply i64_chk_Ok in H as [-> _] end.
  simpl. unfold distance, as_u32. apply Z.leb_le.
Qed.

(** Cut to 32 bits, a distance can come out small: 1717988 times the mean is
    defensible. *)
Theorem outrageous_price_is_defensible :
  exists a, validate_price 1717988 [1] = Ok a /\ ta_arms_length_price a = 1 /\
    ta_variance a = 1717987 /\ ta_defensible a = true.
Proof. eexists. split; [vm_compute; reflexivity|]. by vm_compute. Qed.

(** ** Digital services tax *)

(** Tax is due only above the threshold, on a service in scope and in a
    jurisdiction with a rate, and is at most 4 per cent of the revenue. *)
Theorem dst_is_bounded t now d :
  0 <= dt_revenue t -> determine_dst t now = Ok d ->
  0 <= dd_dst_amount d <= dt_revenue t / 25 /\
  (0 < dd_dst_amount d ->
     dt_threshold_met t = true /\ is_in_scope_service (dt_service_category t) = true /\
     dd_jurisdictions d = [dt_user_jurisdiction t]).
Proof.
  intros H0 R. unfold determine_dst, is_applicable in R.
  assert (forall x r, 0 <= x -> 0 <= r <= 400 -> 0 <= x * r / 10000 <= x / 25) as B.
  { intros x r Hx Hr. split; [apply Z.div_pos; nia|].
    transitivity (x * 400 / 10000); [apply Z.div_le_mono; nia|].
    change 10000 with (25 * 400). rewrite Z.div_mul_cancel_r by lia. lia. }
  assert (0 <= dt_revenue t / 25) by (apply Z.div_pos; lia).
  destruct (dt_threshold_met t), (is_in_scope_service (dt_service_category t));
    destruct (dt_user_jurisdiction t); simpl in R; rinv;
    (split; [try (apply B; lia); lia|]; try done; lia).
Qed.

(** ** The properties at concrete values *)

Lemma vat_taken_out_is_what_was_added_witness :
  calculate_amounts 12345 2000 false = Ok (12345, 2469, 14814) /\
  calculate_amounts 14814 2000 true = Ok (12345, 2469, 14814).
Proof.
  split; [reflexivity|].
  by apply (vat_taken_out_is_what_was_added 12345 2000 2469 14814).
Defined.

Lemma vat_added_again_is_off_by_one_witness :
  calculate_amounts 10005 2000 true = Ok (8338, 1667, 10005) /\
  exists v', calculate_amounts 8338 2000 false = Ok (8338, v', 8338 + v') /\ (v' = 1667 \/ v' = 1668).
Proof.
  split; [reflexivity|]. exists 1667. split; [reflexivity|].
  by apply (vat_added_again_is_off_by_one 10005 2000 8338 1667 1667 10005).
Defined.

Definition a_supply : VATTransaction :=
  mkVATTransaction [1] owner alice VATSupplyType.Services 12345 "EUR" 0 TaxJurisdiction.EU
    TaxJurisdiction.EU false false VATExemptionReason.None 0 0 [].

Lemma vat_determination_is_total_witness :
  exists d, determine_vat (fun _ => 770) a_supply 5 = Ok d /\ vd_vat_amount d = 2469 /\
    vd_vat_amount d <= vt_supply_amount a_supply / 5.
Proof.
  destruct (vat_determination_is_total (fun _ => 770) a_supply 5) as (d & H & _ & _ & _ & Hn & Hb);
    [done|done|done|].
  exists d. split; [exact H|]. destruct (Hn eq_refl) as [_ ->]. by split.
Defined.

Definition a_lot (balance cost : Z) : CryptoHolding :=
  mkCryptoHolding alice CryptoAssetType.Bitcoin balance 0 TaxJurisdiction.EU 0 cost 0.

Lemma fifo_follows_the_lots_witness :
  calculate_fifo_cost_basis [a_lot 10 1000; a_lot 20 3000; a_lot 5 1] 15 = Ok (1750, 15) /\
  1750 = Z.min (fifo_cost 15 [a_lot 10 1000; a_lot 20 3000; a_lot 5 1]) u64_max.
Proof.
  split; [reflexivity|].
  apply (fifo_follows_the_lots [a_lot 10 1000; a_lot 20 3000; a_lot 5 1] 15 1750 15);
    [done|by repeat constructor|reflexivity].
Defined.

Definition a_sale (value cost : Z) : CryptoTransaction :=
  mkCryptoTransaction [1] alice None CryptoAssetType.Bitcoin 1 value "EUR" "sell" 0 TaxJurisdiction.EU
    (Some cost) 0 0.

Lemma carf_totals_are_exact_witness :
  exists r, generate_carf_record owner [a_sale 100 40; a_sale 30 50] [] 2025 = Ok r /\
    ca_total_realized_gains r - ca_total_realized_losses r = 40.
Proof.
  destruct (carf_totals_are_exact owner [a_sale 100 40; a_sale 30 50] [] 2025) as (r & H & _ & _ & E);
    [by repeat constructor|done|done|]. by exists r.
Defined.

Lemma price_check_decides_witness :
  exists a, validate_price 124 [90; 110] = Ok a /\ ta_defensible a = true /\ distance 124 100 <= 2500.
Proof.
  destruct (validate_price 124 [90; 110]) as [a|f] eqn:R; [|exfalso; vm_compute in R; discriminate].
  assert (ta_defensible a = true) as D by (vm_compute in R; injection R as <-; reflexivity).
  exists a. split; [done|]. split; [exact D|].
  refine (proj1 (proj2 (proj2 (price_check_decides 124 [90; 110] a _ _ _ R)) _ _) D);
    [done|by repeat constructor|done|done|done].
Defined.

Lemma dst_is_bounded_witness :
  let t := mkDSTTransaction [1] owner DigitalServiceCategory.SocialMedia 1000000 "EUR" TaxJurisdiction.UK
             0 true false 0 in
  exists d, determine_dst t 9 = Ok d /\ dd_dst_amount d = 20000 /\ dd_dst_amount d <= 40000.
Proof.
  eexists. split; [reflexivity|]. split; [reflexivity|].
  refine (proj2 (proj1 (dst_is_bounded (mkDSTTransaction [1] owner DigitalServiceCategory.SocialMedia
    1000000 "EUR" TaxJurisdiction.UK 0 true false 0) 9 _ _ _))); [done|reflexivity].
Defined.
