(* ===== verification/Regulators.v ===== *)
(** * Regulators: classifications and controls

    The data of src/regulator.rs, the predefined objectives and event classes
    of src/regulator_events.rs, and the validators of
    src/compliance_validators.rs.  The functions take the time of the ledger as
    an argument [now]. *)

From S2P Require Import Prelude Contract Fallible.

(** ** Data *)

Module ComplianceStandard.
(** [ComplianceStandard], src/regulator.rs:17-26 *)
Inductive ComplianceStandard : Set :=
  | ISA3000 | SOC2 | GDPR | SOX.
#[global] Instance ComplianceStandard_eq_dec : EqDecision ComplianceStandard.
Proof. solve_decision. Defined.
End ComplianceStandard.
Abbreviation ComplianceStandard := ComplianceStandard.ComplianceStandard.

Module RegulatorRole.
(** [RegulatorRole], src/regulator.rs:32-39 *)
Inductive RegulatorRole : Set :=
  | Auditor | RegulatorOfficer | RegulatoryAdmin.
#[global] Instance RegulatorRole_eq_dec : EqDecision RegulatorRole.
Proof. solve_decision. Defined.
End RegulatorRole.
Abbreviation RegulatorRole := RegulatorRole.RegulatorRole.

Module SensitivityLevel.
(** [SensitivityLevel], src/regulator.rs:45-54 *)
Inductive SensitivityLevel : Set :=
  | Public | Internal | Confidential | Restricted.
#[global] Instance SensitivityLevel_eq_dec : EqDecision SensitivityLevel.
Proof. solve_decision. Defined.

(** [SensitivityLevel], its discriminants, src/regulator.rs:45-54 *)
Definition code (x : SensitivityLevel) : Z :=
  match x with
  | Public => 0 | Internal => 1 | Confidential => 2 | Restricted => 3
  end.
End SensitivityLevel.
Abbreviation SensitivityLevel := SensitivityLevel.SensitivityLevel.

(** [RegulatoryEventClass], src/regulator.rs:59-70 *)
Record RegulatoryEventClass := mkRegulatoryEventClass {
  rc_standard : ComplianceStandard;
  rc_control_code : Symbol;
  rc_demonstrates_control : bool;
  rc_retention_ledgers : Z;
  rc_sensitivity : SensitivityLevel }.

(** [TamperProof], src/regulator.rs:75-88 *)
Record TamperProof := mkTamperProof {
  tp_event_index : Z;
  tp_event_hash : Hash;
  tp_prev_hash : Hash;
  tp_timestamp : Z;
  tp_next_timestamp : Z;
  tp_chain_valid : bool }.

(** [SelectiveDisclosureProof], src/regulator.rs:94-105 *)
Record SelectiveDisclosureProof := mkSelectiveDisclosureProof {
  dp_event_index : Z;
  dp_disclosed_root : Hash;
  dp_complete_root : Hash;
  dp_disclosed_fields : list Symbol;
  dp_merkle_proof : list Hash }.

(** [DataSharingAgreement], src/regulator.rs:110-134 *)
Record DataSharingAgreement := mkDataSharingAgreement {
  ds_id : Hash;
  ds_data_provider : Address;
  ds_regulator_address : Address;
  ds_effective_ledger : Z;
  ds_expiry_ledger : Z;
  ds_standards : list ComplianceStandard;
  ds_allowed_event_types : list Symbol;
  ds_role : RegulatorRole;
  ds_min_sensitivity : SensitivityLevel;
  ds_active : bool;
  ds_signature_provider : Hash;
  ds_signature_regulator : Hash }.

(** [AccessRequest], src/regulator.rs:139-160 *)
Record AccessRequest := mkAccessRequest {
  ar_id : Hash;
  ar_requester : Address;
  ar_data_owner : Address;
  ar_standard : ComplianceStandard;
  ar_event_types : list Symbol;
  ar_legal_basis : Bytes;
  ar_proposed_terms : DataSharingAgreement;
  ar_status : Z;
  ar_created_at : Z;
  ar_resolved_at : Z }.

(** [ComplianceReport], src/regulator.rs:165-188 *)
Record ComplianceReport := mkComplianceReport {
  cr_id : Hash;
  cr_standard : ComplianceStandard;
  cr_audit_subject : Address;
  cr_issuer : Address;
  cr_generated_at : Z;
  cr_status : Z;
  cr_events_examined : Z;
  cr_objectives_tested : list Symbol;
  cr_controls_operating : Z;
  cr_controls_deficient : Z;
  cr_findings_summary_hash : Hash }.

(** [AuditFilter], src/regulator.rs:193-206 *)
Record AuditFilter := mkAuditFilter {
  af_event_types : list Symbol;
  af_start_time : Z;
  af_end_time : Z;
  af_submitter : option Address;
  af_min_sensitivity : SensitivityLevel;
  af_only_control_events : bool }.

(** [RegulatorAuditEntry], src/regulator.rs:211-228 *)
Record RegulatorAuditEntry := mkRegulatorAuditEntry {
  re_event_index : Z;
  re_event_hash : Hash;
  re_timestamp : Z;
  re_event_type : Symbol;
  re_submitter : Address;
  re_regulatory_class : option RegulatoryEventClass;
  re_sensitivity : SensitivityLevel;
  re_control_event : bool }.

Module RegulatorError.
(** [RegulatorError], src/regulator.rs:233-256 *)
Inductive RegulatorError : Set :=
  | UnauthorizedRegulator | AgreementNotFound | AgreementExpired | InsufficientPermissions
  | EventTypeNotAllowed | InvalidDisclosureProof | TamperEvidenceViolation | UnsupportedStandard
  | AccessRequestNotFound | InvalidAgreementSignature | InvalidRole.
#[global] Instance RegulatorError_eq_dec : EqDecision RegulatorError.
Proof. solve_decision. Defined.
End RegulatorError.
Abbreviation RegulatorError := RegulatorError.RegulatorError.

(** [ISA3000ControlObjective], src/regulator.rs:261-270 *)
Record ISA3000ControlObjective := mkISA3000ControlObjective {
  io_code : Symbol;
  io_description : Bytes;
  io_evidence_types : list Symbol;
  io_continuous_monitoring : bool }.

(** [SOC2Criterion], src/regulator.rs:275-284 *)
Record SOC2Criterion := mkSOC2Criterion {
  so_code : Symbol;
  so_principle : Bytes;
  so_description : Bytes;
  so_evidence_types : list Symbol }.

(** [ComplianceRuleSet], src/regulator.rs:289-298 *)
Record ComplianceRuleSet := mkComplianceRuleSet {
  rs_standard : ComplianceStandard;
  rs_version : Z;
  rs_active : bool;
  rs_rules_data : Bytes }.

Module ComplianceEventType.
(** [ComplianceEventType], src/regulator_events.rs:216-237 *)
Inductive ComplianceEventType : Set :=
  | AccessControl | Authentication | AuthorizationChange | DataModification | ConfigurationChange
  | SystemException | ApprovalWorkflow | ComplianceCheck | AuditTrail | UserActivity.
#[global] Instance ComplianceEventType_eq_dec : EqDecision ComplianceEventType.
Proof. solve_decision. Defined.
End ComplianceEventType.
Abbreviation ComplianceEventType := ComplianceEventType.ComplianceEventType.

(** [ISA3000Rule], src/compliance_validators.rs:14-25 *)
Record ISA3000Rule := mkISA3000Rule {
  ir_control_code : Symbol;
  ir_description : Bytes;
  ir_required_evidence_types : list Symbol;
  ir_min_evidence_count : Z;
  ir_mandatory : bool }.

(** [SOC2Rule], src/compliance_validators.rs:30-41 *)
Record SOC2Rule := mkSOC2Rule {
  sr_criterion_code : Symbol;
  sr_principle : Bytes;
  sr_description : Bytes;
  sr_required_evidence_types : list Symbol;
  sr_min_evidence_count : Z }.

(** [ControlValidationResult], src/compliance_validators.rs:46-57 *)
Record ControlValidationResult := mkControlValidationResult {
  cv_control_code : Symbol;
  cv_operating_effectively : bool;
  cv_evidence_count : Z;
  cv_sufficient_evidence : bool;
  cv_issues : list Bytes }.

(** [ComplianceAuditReport], src/compliance_validators.rs:62-75 *)
Record ComplianceAuditReport := mkComplianceAuditReport {
  ca_standard : ComplianceStandard;
  ca_audit_date : Z;
  ca_total_controls_tested : Z;
  ca_controls_operating : Z;
  ca_controls_with_deficiencies : Z;
  ca_compliance_score : Z }.

(** ** Objectives and classes *)

(** [cc6_1] of ISA3000ControlObjective, src/regulator_events.rs:21-33 *)
Definition isa_cc6_1 : ISA3000ControlObjective :=
  mkISA3000ControlObjective "CC6.1"
    (str_bytes "Segregation of duties to prevent unauthorized access and fraud")
    ["access_grant"; "role_assignment"] true.

(** [cc6_2] of ISA3000ControlObjective, src/regulator_events.rs:36-48 *)
Definition isa_cc6_2 : ISA3000ControlObjective :=
  mkISA3000ControlObjective "CC6.2"
    (str_bytes "System generates exception reports and monitoring of approval authorities")
    ["exception_report"; "approval_log"] true.

(** [cc7_1] of ISA3000ControlObjective, src/regulator_events.rs:51-63 *)
Definition isa_cc7_1 : ISA3000ControlObjective :=
  mkISA3000ControlObjective "CC7.1"
    (str_bytes "Prevention and detection of unauthorized changes to systems")
    ["change_log"; "audit_trail"] true.

(** [cc9_1] of ISA3000ControlObjective, src/regulator_events.rs:66-78 *)
Definition isa_cc9_1 : ISA3000ControlObjective :=
  mkISA3000ControlObjective "CC9.1"
    (str_bytes "Monitoring and reconciliation of system activity")
    ["reconciliation"; "balance_verification"] true.

(** [a1_1] of ISA3000ControlObjective, src/regulator_events.rs:81-93 *)
Definition isa_a1_1 : ISA3000ControlObjective :=
  mkISA3000ControlObjective "A1.1"
    (str_bytes "Authorization and access control policies are established and enforced")
    ["policy_document"; "access_control_list"] true.

(** [cc6_1] of SOC2Criterion, src/regulator_events.rs:106-118 *)
Definition soc2_cc6_1 : SOC2Criterion :=
  mkSOC2Criterion "CC6.1" (str_bytes "Security")
    (str_bytes "Logical and physical access controls protect system resources")
    ["access_control"; "authentication"].

(** [cc6_2] of SOC2Criterion, src/regulator_events.rs:121-133 *)
Definition soc2_cc6_2 : SOC2Criterion :=
  mkSOC2Criterion "CC6.2" (str_bytes "Security")
    (str_bytes "Prior to issuing system credentials, identity and access rights are verified")
    ["identity_verification"; "credential_issuance"].

(** [cc7_1] of SOC2Criterion, src/regulator_events.rs:136-148 *)
Definition soc2_cc7_1 : SOC2Criterion :=
  mkSOC2Criterion "CC7.1" (str_bytes "Security")
    (str_bytes "Changes to the objectives and responsibilities for IT and related processes are managed")
    ["change_request"; "change_approval"].

(** [a1_1] of SOC2Criterion, src/regulator_events.rs:151-163 *)
Definition soc2_a1_1 : SOC2Criterion :=
  mkSOC2Criterion "A1.1" (str_bytes "Availability")
    (str_bytes "The entity maintains and monitors commitments and responsibilities for availability")
    ["uptime_report"; "availability_metric"].

(** [pi1_1] of SOC2Criterion, src/regulator_events.rs:166-178 *)
Definition soc2_pi1_1 : SOC2Criterion :=
  mkSOC2Criterion "PI1.1" (str_bytes "Processing Integrity")
    (str_bytes "The entity maintains and monitors commitments and responsibilities for processing integrity")
    ["transaction_log"; "reconciliation"].

(** [classify_event_isa3000], src/regulator_events.rs:182-195 *)
Definition classify_event_isa3000 (control_code : Symbol) (demonstrates_control : bool)
    (retention_ledgers : Z) (sensitivity : SensitivityLevel) : RegulatoryEventClass :=
  mkRegulatoryEventClass ComplianceStandard.ISA3000 control_code demonstrates_control
    retention_ledgers sensitivity.

(** [classify_event_soc2], src/regulator_events.rs:198-211 *)
Definition classify_event_soc2 (control_code : Symbol) (demonstrates_control : bool)
    (retention_ledgers : Z) (sensitivity : SensitivityLevel) : RegulatoryEventClass :=
  mkRegulatoryEventClass ComplianceStandard.SOC2 control_code demonstrates_control
    retention_ledgers sensitivity.

(** [to_symbol], src/regulator_events.rs:241-254 *)
Definition to_symbol (t : ComplianceEventType) : Symbol :=
  match t with
  | ComplianceEventType.AccessControl => "access_control"
  | ComplianceEventType.Authentication => "authentication"
  | ComplianceEventType.AuthorizationChange => "auth_change"
  | ComplianceEventType.DataModification => "data_mod"
  | ComplianceEventType.ConfigurationChange => "config_change"
  | ComplianceEventType.SystemException => "exception"
  | ComplianceEventType.ApprovalWorkflow => "approval"
  | ComplianceEventType.ComplianceCheck => "compliance"
  | ComplianceEventType.AuditTrail => "audit_trail"
  | ComplianceEventType.UserActivity => "user_activity"
  end.

(** ** Validators *)

(** [get_control_objectives], src/compliance_validators.rs:82-156 *)
Definition get_control_objectives : list ISA3000Rule :=
  [mkISA3000Rule "CC6.1"
     (str_bytes "Segregation of duties to prevent unauthorized access and fraud")
     ["access_grant"; "role_assignment"] 2 true;
   mkISA3000Rule "CC6.2"
     (str_bytes "System-generated exception reports and monitoring")
     ["exception_report"; "approval_log"] 1 true;
   mkISA3000Rule "CC7.1"
     (str_bytes "Prevention and detection of unauthorized changes to systems")
     ["change_log"; "audit_trail"] 2 true;
   mkISA3000Rule "CC9.1"
     (str_bytes "Monitoring and reconciliation of system activity")
     ["reconciliation"; "balance_verification"] 1 true;
   mkISA3000Rule "A1.1"
     (str_bytes "Authorization and access control policies are established and enforced")
     ["policy_document"; "access_control_list"] 1 true].

(** [get_security_criteria], src/compliance_validators.rs:238-284 *)
Definition get_security_criteria : list SOC2Rule :=
  [mkSOC2Rule "CC6.1" (str_bytes "Security")
     (str_bytes "Logical and physical access controls protect system resources")
     ["access_control"; "authentication"] 2;
   mkSOC2Rule "CC6.2" (str_bytes "Security")
     (str_bytes "Prior to issuing system credentials, identity and access rights are verified")
     ["identity_verification"; "credential_issuance"] 1;
   mkSOC2Rule "CC7.1" (str_bytes "Security")
     (str_bytes "Changes to the objectives and responsibilities for IT and related processes are managed")
     ["change_request"; "change_approval"] 2].

(** [get_availability_criteria], src/compliance_validators.rs:287-304 *)
Definition get_availability_criteria : list SOC2Rule :=
  [mkSOC2Rule "A1.1" (str_bytes "Availability")
     (str_bytes "The entity maintains and monitors commitments and responsibilities for availability")
     ["uptime_report"; "availability_metric"] 1].

(** [get_processing_integrity_criteria], src/compliance_validators.rs:307-324 *)
Definition get_processing_integrity_criteria : list SOC2Rule :=
  [mkSOC2Rule "PI1.1" (str_bytes "Processing Integrity")
     (str_bytes "The entity maintains and monitors commitments and responsibilities for processing integrity")
     ["transaction_log"; "reconciliation"] 1].

(** The first rule with a code, the loop with [break] of both validators. *)
Definition first_with {A} (code : A -> Symbol) (c : Symbol) (l : list A) : option A :=
  find (fun x => bool_decide (code x = c)) l.

(** [validate_control], src/compliance_validators.rs:159-200 *)
Definition validate_control (control_code : Symbol) (evidence_events : list RegulatoryEventClass)
    (actual_evidence_count : Z) : ControlValidationResult :=
  match first_with ir_control_code control_code get_control_objectives with
  | None =>
      mkControlValidationResult control_code false 0 false [str_bytes "Control code not found"]
  | Some rule =>
      let sufficient := Z.leb (ir_min_evidence_count rule) actual_evidence_count in
      mkControlValidationResult control_code
        (sufficient && match evidence_events with [] => false | _ => true end)
        actual_evidence_count sufficient []
  end.

(** [calculate_compliance_score] of ISA3000Validator, src/compliance_validators.rs:203-212 *)
Definition isa_compliance_score (controls_tested controls_operating : Z) : Z :=
  if Z.eqb controls_tested 0 then 0 else as_u32 (controls_operating * 100 / controls_tested).

(** [generate_report] of ISA3000Validator, src/compliance_validators.rs:215-230 *)
Definition isa_report (controls_tested controls_operating now : Z) : ComplianceAuditReport :=
  mkComplianceAuditReport ComplianceStandard.ISA3000 now controls_tested controls_operating
    (u64_sat_sub controls_tested controls_operating)
    (isa_compliance_score controls_tested controls_operating).

(** [validate_criterion], src/compliance_validators.rs:327-375 *)
Definition validate_criterion (criterion_code : Symbol) (principle : Bytes)
    (actual_evidence_count : Z) : ControlValidationResult :=
  let all_criteria := get_security_criteria ++ get_availability_criteria
                        ++ get_processing_integrity_criteria in
  match first_with sr_criterion_code criterion_code all_criteria with
  | None => mkControlValidationResult criterion_code false 0 false [str_bytes "Criterion not found"]
  | Some rule =>
      let sufficient := Z.leb (sr_min_evidence_count rule) actual_evidence_count in
      mkControlValidationResult criterion_code sufficient actual_evidence_count sufficient []
  end.

(** [calculate_compliance_score] of SOC2Validator, src/compliance_validators.rs:378-387 *)
Definition soc2_compliance_score (criteria_tested criteria_operating : Z) : Z :=
  if Z.eqb criteria_tested 0 then 0 else as_u32 (criteria_operating * 100 / criteria_tested).

(** [generate_report] of SOC2Validator, src/compliance_validators.rs:390-405 *)
Definition soc2_report (criteria_tested criteria_operating now : Z) : ComplianceAuditReport :=
  mkComplianceAuditReport ComplianceStandard.SOC2 now criteria_tested criteria_operating
    (u64_sat_sub criteria_tested criteria_operating)
    (soc2_compliance_score criteria_tested criteria_operating).
