(* ===== verification/Disclosure.v ===== *)
(** * Selective disclosure and tamper evidence

    The Merkle proofs over the fields of an event (src/disclosure.rs) and the
    checks of a chain of hashes (src/tamper_evidence.rs).

    The second part of the file: data sharing agreements; the third: what the
    Merkle root of the fields commits to, what the checks of a chain of links
    conclude, and who is given access. *)

From S2P Require Import Prelude Contract Fallible Sample Regulators.

(** ** Data *)

(** [MerkleNode], src/disclosure.rs:13-20 *)
Record MerkleNode := mkMerkleNode {
  mn_hash : Hash;
  mn_is_leaf : bool;
  mn_leaf_index : option Z }.

(** [FieldHash], src/disclosure.rs:25-32 *)
Record FieldHash := mkFieldHash {
  fh_field_name : Symbol;
  fh_hash : Hash;
  fh_disclosed : bool }.

Module HashAlgorithm.
(** [HashAlgorithm], src/disclosure.rs:38-45 *)
Inductive HashAlgorithm : Set :=
  | SHA256 | BLAKE2b | SHA3.
#[global] Instance HashAlgorithm_eq_dec : EqDecision HashAlgorithm.
Proof. solve_decision. Defined.
End HashAlgorithm.
Abbreviation HashAlgorithm := HashAlgorithm.HashAlgorithm.

(** [FieldDisclosureProof], src/disclosure.rs:50-61 *)
Record FieldDisclosureProof := mkFieldDisclosureProof {
  fp_field_name : Symbol;
  fp_field_value : option Bytes;
  fp_field_hash : Hash;
  fp_sibling_hashes : list Hash;
  fp_positions : list Z }.

(** [DisclosureConfig], src/disclosure.rs:66-75 *)
Record DisclosureConfig := mkDisclosureConfig {
  dc_regulator_address : Address;
  dc_allowed_fields : list Symbol;
  dc_hash_algorithm : HashAlgorithm;
  dc_expiry_timestamp : Z }.

(** [DisclosureVerification], src/disclosure.rs:80-91 *)
Record DisclosureVerification := mkDisclosureVerification {
  dv_valid : bool;
  dv_computed_root : Hash;
  dv_expected_root : Hash;
  dv_fields_disclosed : Z;
  dv_error : option Bytes }.

(** [ProofBuilder], src/disclosure.rs:96-101 *)
Record ProofBuilder := mkProofBuilder {
  pb_all_fields : list FieldHash;
  pb_disclosed_fields : list Symbol }.

(** [ChainVerification], src/tamper_evidence.rs:12-23 *)
Record ChainVerification := mkChainVerification {
  cv_valid : bool;
  cv_events_verified : Z;
  cv_mismatches : Z;
  cv_integrity_score : Z;
  cv_compromised_indices : list Z }.

(** [ChainLink], src/tamper_evidence.rs:28-39 *)
Record ChainLink := mkChainLink {
  cl_index : Z;
  cl_hash : Hash;
  cl_prev_hash : Hash;
  cl_expected_prev_hash : Hash;
  cl_valid : bool }.

(** [ImmutabilityProof], src/tamper_evidence.rs:44-55 *)
Record ImmutabilityProof := mkImmutabilityProof {
  ip_event_index : Z;
  ip_event_hash : Hash;
  ip_references : Z;
  ip_chain_length : Z;
  ip_immutable : bool }.

(** [ArchiveProof], src/tamper_evidence.rs:60-69 *)
Record ArchiveProof := mkArchiveProof {
  ap_event_hash : Hash;
  ap_archive_root : Hash;
  ap_merkle_path : list Hash;
  ap_valid : bool }.

(** [ChainWitness], src/tamper_evidence.rs:74-83 *)
Record ChainWitness := mkChainWitness {
  cw_event_index : Z;
  cw_root_at_index : Hash;
  cw_timestamp : Z;
  cw_commitment_hash : Hash }.

(** [TamperEvidenceConfig], src/tamper_evidence.rs:88-97 *)
Record TamperEvidenceConfig := mkTamperEvidenceConfig {
  tc_immutability_threshold : Z;
  tc_verify_all : bool;
  tc_hash_algorithm : Z;
  tc_verify_archives : bool }.

Definition zero_hash : Hash := replicate 32 0.

(** ** Merkle roots *)

(** [new], src/disclosure.rs:105-110 *)
Definition new_builder : ProofBuilder := mkProofBuilder [] [].

(** [add_field], src/disclosure.rs:113-128 *)
Definition add_field (b : ProofBuilder) (field_name : Symbol) (hash : Hash) (disclosed : bool)
    : ProofBuilder :=
  mkProofBuilder (pb_all_fields b ++ [mkFieldHash field_name hash disclosed])
    (if disclosed then pb_disclosed_fields b ++ [field_name] else pb_disclosed_fields b).

(** [get_disclosed_fields], src/disclosure.rs:131-133 *)
Definition get_disclosed_fields (b : ProofBuilder) : list Symbol := pb_disclosed_fields b.

(** [combine_hashes], the XOR of the 32 bytes, src/disclosure.rs:176-184 *)
Definition combine_hashes (left right : Hash) : Hash := zip_with Z.lxor left right.

(** One level of the tree, the inner loop of [calculate_root]: neighbours are
    combined and an odd last hash is kept, src/disclosure.rs:150-163 *)
Fixpoint next_level (hashes : list Hash) : list Hash :=
  match hashes with
  | a :: b :: rest => combine_hashes a b :: next_level rest
  | rest => rest
  end.

(** The outer loop of [calculate_root], with fuel, src/disclosure.rs:149-166 *)
Fixpoint reduce_levels (fuel : nat) (hashes : list Hash) : list Hash :=
  match fuel with
  | O => hashes
  | S n => if Z.ltb 1 (len hashes) then reduce_levels n (next_level hashes) else hashes
  end.

(** [calculate_root]; a level has at most as many rounds to go as it has
    hashes, src/disclosure.rs:136-173 *)
Definition calculate_root (b : ProofBuilder) : Hash :=
  match pb_all_fields b with
  | [] => zero_hash
  | fields =>
      match reduce_levels (length fields) (fh_hash <$> fields) with
      | [] => zero_hash
      | h :: _ => h
      end
  end.

(** ** Proofs *)

(** The loop of [verify_field_inclusion], from the sibling at [i] on; a sibling
    without a position panics, src/disclosure.rs:200-213 *)
Fixpoint walk_path (positions : list Z) (expected_root : Hash) (siblings : list Hash) (i : Z)
    (current : Hash) : result Empty_set bool :=
  match siblings with
  | [] => Ok (bool_decide (current = expected_root))
  | sibling :: siblings =>
      match vget positions i with
      | None => Err (Panic Unwrap)
      | Some position =>
          walk_path positions expected_root siblings (i + 1)
            (if Z.eqb position 0 then combine_hashes sibling current
             else combine_hashes current sibling)
      end
  end.

(** [verify_field_inclusion], src/disclosure.rs:192-214 *)
Definition verify_field_inclusion (p : FieldDisclosureProof) (expected_root : Hash)
    : result Empty_set bool :=
  walk_path (fp_positions p) expected_root (fp_sibling_hashes p) 0 (fp_field_hash p).

(** [create_disclosure_proof], src/disclosure.rs:217-246 *)
Definition create_disclosure_proof (event_index : Z) (all_fields : list FieldHash)
    (disclosed_fields : list Symbol) (complete_root : Hash) : SelectiveDisclosureProof :=
  let builder :=
    foldl (fun b field =>
             let is_disclosed := existsb (fun f => bool_decide (f = fh_field_name field)) disclosed_fields in
             add_field b (fh_field_name field) (fh_hash field) is_disclosed)
          new_builder all_fields in
  mkSelectiveDisclosureProof event_index (calculate_root builder) complete_root disclosed_fields [].

(** [verify_disclosure_proof], src/disclosure.rs:249-258 *)
Definition verify_disclosure_proof (p : SelectiveDisclosureProof) : bool :=
  negb (bool_decide (dp_disclosed_fields p = [])) && bool_decide (dp_disclosed_root p <> zero_hash).

(** [create_compliance_proof], src/disclosure.rs:262-283 *)
Definition create_compliance_proof (event_index : Z) (compliance_criteria : list Symbol)
    : SelectiveDisclosureProof :=
  mkSelectiveDisclosureProof event_index zero_hash zero_hash compliance_criteria
    ((fun _ => zero_hash) <$> compliance_criteria).

(** ** Tamper evidence *)

(** [verify_event_hash], src/tamper_evidence.rs:104-109 *)
Definition verify_event_hash (event_hash expected_hash : Hash) : bool :=
  bool_decide (event_hash = expected_hash).

(** [verify_chain_link], src/tamper_evidence.rs:112-121 *)
Definition verify_chain_link (current_event_hash current_prev_hash next_event_hash next_prev_hash : Hash)
    : bool :=
  bool_decide (current_prev_hash = next_prev_hash) || bool_decide (next_prev_hash = current_event_hash).

(** [calculate_integrity_score], src/tamper_evidence.rs:124-134 *)
Definition calculate_integrity_score (total_events mismatches : Z) : Z :=
  if Z.eqb total_events 0 then 100
  else as_u32 (u64_sat_sub total_events mismatches * 100 / total_events).

(** [verify_immutability], src/tamper_evidence.rs:137-152 *)
Definition verify_immutability (event_index total_events : Z) (config : TamperEvidenceConfig)
    : ImmutabilityProof :=
  let chain_length := u64_sat_sub total_events event_index in
  mkImmutabilityProof event_index zero_hash chain_length chain_length
    (Z.leb (tc_immutability_threshold config) chain_length).

(** [create_chain_witness], src/tamper_evidence.rs:155-166 *)
Definition create_chain_witness (event_index : Z) (root_at_index : Hash) (now : Z) : ChainWitness :=
  mkChainWitness event_index root_at_index now zero_hash.

(** [verify_chain_continuity]: the loop collects the indices of the invalid
    links, and the counts are the lengths, src/tamper_evidence.rs:169-197 *)
Definition verify_chain_continuity (links : list ChainLink) : ChainVerification :=
  let '(valid_count, mismatch_count, compromised) :=
    foldl (fun acc link =>
             let '(v, m, c) := acc in
             if cl_valid link then (v + 1, m, c) else (v, m + 1, c ++ [cl_index link]))
          (0, 0, []) links in
  mkChainVerification (Z.eqb mismatch_count 0) (len links) mismatch_count
    (calculate_integrity_score (len links) mismatch_count) compromised.

(** [verify_no_retroactive_modification], src/tamper_evidence.rs:201-207 *)
Definition verify_no_retroactive_modification (event_hash : Hash) (references : list Hash) : bool :=
  forallb (fun r => bool_decide (r = event_hash)) references.

(** [create_archive_proof], src/tamper_evidence.rs:210-223 *)
Definition create_archive_proof (event_hash archive_root : Hash) (merkle_path : list Hash)
    : ArchiveProof :=
  mkArchiveProof event_hash archive_root merkle_path (negb (bool_decide (merkle_path = []))).

(** [verify_archive_proof], src/tamper_evidence.rs:226-230 *)
Definition verify_archive_proof (p : ArchiveProof) : bool := ap_valid p.

(** * Data sharing agreements

    The builders of agreements and requests and the decision on access
    (src/data_sharing.rs). *)

(** ** Data *)

(** [DSAKey], src/data_sharing.rs:14-16 *)
Record DSAKey := mkDSAKey {
  dk_agreement_id : Hash }.

(** [AccessRequestKey], src/data_sharing.rs:21-23 *)
Record AccessRequestKey := mkAccessRequestKey {
  ak_request_id : Hash }.

(** [RoleAssignmentKey], src/data_sharing.rs:28-30 *)
Record RoleAssignmentKey := mkRoleAssignmentKey {
  rk_regulator : Address }.

Module DSAStatus.
(** [DSAStatus], src/data_sharing.rs:36-45 *)
Inductive DSAStatus : Set :=
  | Draft | PendingExecution | Executed | Terminated.
#[global] Instance DSAStatus_eq_dec : EqDecision DSAStatus.
Proof. solve_decision. Defined.
End DSAStatus.
Abbreviation DSAStatus := DSAStatus.DSAStatus.

Module AccessDecision.
(** [AccessDecision], src/data_sharing.rs:51-58 *)
Inductive AccessDecision : Set :=
  | Approved | Rejected | Conditional.
#[global] Instance AccessDecision_eq_dec : EqDecision AccessDecision.
Proof. solve_decision. Defined.
End AccessDecision.
Abbreviation AccessDecision := AccessDecision.AccessDecision.

(** [SignatureValidation], src/data_sharing.rs:63-70 *)
Record SignatureValidation := mkSignatureValidation {
  sv_valid : bool;
  sv_signer : option Address;
  sv_error : option Bytes }.

(** [DSAEventLog], src/data_sharing.rs:75-86 *)
Record DSAEventLog := mkDSAEventLog {
  el_timestamp : Z;
  el_event_type : Symbol;
  el_actor : Address;
  el_agreement_id : Hash;
  el_details : Bytes }.

(** [DSABuilder], src/data_sharing.rs:91-100 *)
Record DSABuilder := mkDSABuilder {
  db_data_provider : Address;
  db_regulator_address : Address;
  db_effective_ledger : Z;
  db_expiry_ledger : Z;
  db_standards : list ComplianceStandard;
  db_allowed_event_types : list Symbol;
  db_role : RegulatorRole;
  db_min_sensitivity : SensitivityLevel }.
Definition set_db_effective_ledger (v : Z) (r : DSABuilder) : DSABuilder :=
  mkDSABuilder (db_data_provider r) (db_regulator_address r) v (db_expiry_ledger r)
  (db_standards r) (db_allowed_event_types r) (db_role r) (db_min_sensitivity r).
Definition set_db_expiry_ledger (v : Z) (r : DSABuilder) : DSABuilder :=
  mkDSABuilder (db_data_provider r) (db_regulator_address r) (db_effective_ledger r) v
  (db_standards r) (db_allowed_event_types r) (db_role r) (db_min_sensitivity r).
Definition set_db_standards (v : list ComplianceStandard) (r : DSABuilder) : DSABuilder :=
  mkDSABuilder (db_data_provider r) (db_regulator_address r) (db_effective_ledger r)
  (db_expiry_ledger r) v (db_allowed_event_types r) (db_role r) (db_min_sensitivity r).
Definition set_db_allowed_event_types (v : list Symbol) (r : DSABuilder) : DSABuilder :=
  mkDSABuilder (db_data_provider r) (db_regulator_address r) (db_effective_ledger r)
  (db_expiry_ledger r) (db_standards r) v (db_role r) (db_min_sensitivity r).
Definition set_db_role (v : RegulatorRole) (r : DSABuilder) : DSABuilder :=
  mkDSABuilder (db_data_provider r) (db_regulator_address r) (db_effective_ledger r)
  (db_expiry_ledger r) (db_standards r) (db_allowed_event_types r) v (db_min_sensitivity r).
Definition set_db_min_sensitivity (v : SensitivityLevel) (r : DSABuilder) : DSABuilder :=
  mkDSABuilder (db_data_provider r) (db_regulator_address r) (db_effective_ledger r)
  (db_expiry_ledger r) (db_standards r) (db_allowed_event_types r) (db_role r) v.

(** [AccessRequestBuilder], src/data_sharing.rs:179-185 *)
Record AccessRequestBuilder := mkAccessRequestBuilder {
  ab_requester : Address;
  ab_data_owner : Address;
  ab_standard : ComplianceStandard;
  ab_event_types : list Symbol;
  ab_legal_basis : Bytes }.
Definition set_ab_event_types (v : list Symbol) (r : AccessRequestBuilder)
    : AccessRequestBuilder :=
  mkAccessRequestBuilder (ab_requester r) (ab_data_owner r) (ab_standard r) v (ab_legal_basis r).
Definition set_ab_legal_basis (v : Bytes) (r : AccessRequestBuilder) : AccessRequestBuilder :=
  mkAccessRequestBuilder (ab_requester r) (ab_data_owner r) (ab_standard r) (ab_event_types r) v.

(** ** Builders *)

(** [new] of DSABuilder, src/data_sharing.rs:104-119 *)
Definition new_dsa (data_provider regulator_address : Address) : DSABuilder :=
  mkDSABuilder data_provider regulator_address 0 0 [] [] RegulatorRole.Auditor SensitivityLevel.Public.

(** [with_effective_ledger], src/data_sharing.rs:122-125 *)
Definition with_effective_ledger (ledger : Z) (b : DSABuilder) : DSABuilder :=
  set_db_effective_ledger ledger b.

(** [with_expiry_ledger], src/data_sharing.rs:128-131 *)
Definition with_expiry_ledger (ledger : Z) (b : DSABuilder) : DSABuilder :=
  set_db_expiry_ledger ledger b.

(** [add_standard], src/data_sharing.rs:134-137 *)
Definition add_standard (standard : ComplianceStandard) (b : DSABuilder) : DSABuilder :=
  set_db_standards (db_standards b ++ [standard]) b.

(** [add_event_type] of DSABuilder, src/data_sharing.rs:140-143 *)
Definition add_event_type (event_type : Symbol) (b : DSABuilder) : DSABuilder :=
  set_db_allowed_event_types (db_allowed_event_types b ++ [event_type]) b.

(** [with_role], src/data_sharing.rs:146-149 *)
Definition with_role (role : RegulatorRole) (b : DSABuilder) : DSABuilder := set_db_role role b.

(** [with_min_sensitivity], src/data_sharing.rs:152-155 *)
Definition with_min_sensitivity (s : SensitivityLevel) (b : DSABuilder) : DSABuilder :=
  set_db_min_sensitivity s b.

(** [build], src/data_sharing.rs:158-173 *)
Definition build (b : DSABuilder) : DataSharingAgreement :=
  mkDataSharingAgreement (replicate 32 0) (db_data_provider b) (db_regulator_address b)
    (db_effective_ledger b) (db_expiry_ledger b) (db_standards b) (db_allowed_event_types b)
    (db_role b) (db_min_sensitivity b) true (replicate 64 0) (replicate 64 0).

(** [new] of AccessRequestBuilder, src/data_sharing.rs:189-202 *)
Definition new_request (requester data_owner : Address) (standard : ComplianceStandard)
    : AccessRequestBuilder :=
  mkAccessRequestBuilder requester data_owner standard [] [].

(** [add_event_type] of AccessRequestBuilder, src/data_sharing.rs:205-208 *)
Definition request_event_type (event_type : Symbol) (b : AccessRequestBuilder)
    : AccessRequestBuilder :=
  set_ab_event_types (ab_event_types b ++ [event_type]) b.

(** [with_legal_basis], src/data_sharing.rs:211-214 *)
Definition with_legal_basis (basis : Bytes) (b : AccessRequestBuilder) : AccessRequestBuilder :=
  set_ab_legal_basis basis b.

(** ** Agreements *)

(** [calculate_agreement_id]: the eight bytes of the timestamp, then zeros,
    src/data_sharing.rs:222-237 *)
Definition calculate_agreement_id (data_provider regulator : Address) (timestamp : Z) : Hash :=
  ((fun i => Z.land (Z.shiftr timestamp (i * 8)) 255) <$> range 0 8) ++ replicate 24 0.

(** [is_dsa_active], src/data_sharing.rs:240-244 *)
Definition is_dsa_active (dsa : DataSharingAgreement) (current_ledger : Z) : bool :=
  ds_active dsa && Z.leb (ds_effective_ledger dsa) current_ledger
  && (Z.eqb (ds_expiry_ledger dsa) 0 || Z.leb current_ledger (ds_expiry_ledger dsa)).

(** [is_event_type_allowed], src/data_sharing.rs:247-253 *)
Definition is_event_type_allowed (dsa : DataSharingAgreement) (event_type : Symbol) : bool :=
  match ds_allowed_event_types dsa with
  | [] => true
  | types => existsb (fun t => bool_decide (t = event_type)) types
  end.

(** [is_standard_allowed], src/data_sharing.rs:256-262 *)
Definition is_standard_allowed (dsa : DataSharingAgreement) (standard : ComplianceStandard) : bool :=
  match ds_standards dsa with
  | [] => true
  | standards => existsb (fun s => bool_decide (s = standard)) standards
  end.

(** [is_sensitivity_allowed]; the derived order is that of the discriminants,
    src/data_sharing.rs:265-270 *)
Definition is_sensitivity_allowed (dsa : DataSharingAgreement) (s : SensitivityLevel) : bool :=
  Z.leb (SensitivityLevel.code (ds_min_sensitivity dsa)) (SensitivityLevel.code s).

(** [create_event_log], src/data_sharing.rs:273-287 *)
Definition create_event_log (event_type : Symbol) (actor : Address) (agreement_id : Hash)
    (details : Bytes) (now : Z) : DSAEventLog :=
  mkDSAEventLog now event_type actor agreement_id details.

(** [evaluate_access], src/data_sharing.rs:290-326 *)
Definition evaluate_access (dsa : DataSharingAgreement) (request : AccessRequest)
    (current_ledger : Z) : AccessDecision :=
  if negb (is_dsa_active dsa current_ledger) then AccessDecision.Rejected
  else if negb (is_standard_allowed dsa (ar_standard request)) then AccessDecision.Rejected
  else if existsb (fun t => negb (is_event_type_allowed dsa t)) (ar_event_types request)
  then AccessDecision.Rejected
  else if bool_decide (ar_requester request = ds_regulator_address dsa)
          && (bool_decide (ds_role dsa = RegulatorRole.RegulatorOfficer)
              || bool_decide (ds_role dsa = RegulatorRole.RegulatoryAdmin))
  then AccessDecision.Approved
  else if bool_decide (ar_requester request = ds_regulator_address dsa)
          && bool_decide (ds_role dsa = RegulatorRole.Auditor)
  then AccessDecision.Conditional
  else AccessDecision.Rejected.

(** [verify_dsa_signatures], src/data_sharing.rs:329-336 *)
Definition verify_dsa_signatures (dsa : DataSharingAgreement) : bool :=
  bool_decide (ds_signature_provider dsa <> replicate 64 0)
  && bool_decide (ds_signature_regulator dsa <> replicate 64 0).

(** ** XOR of hashes *)

Definition is_hash (h : Hash) : Prop := length h = 32%nat.

(** The XOR of a list of hashes. *)
Definition xor_all (l : list Hash) : Hash := foldr combine_hashes zero_hash l.

Lemma combine_is_hash a b : is_hash a -> is_hash b -> is_hash (combine_hashes a b).
Proof. unfold is_hash, combine_hashes. intros Ha Hb. rewrite length_zip_with. lia. Qed.

Lemma combine_comm a b : combine_hashes a b = combine_hashes b a.
Proof.
  unfold combine_hashes. revert b. induction a as [|x a IH]; intros [|y b]; simpl; try done.
  by rewrite IH, Z.lxor_comm.
Qed.

Lemma combine_assoc a b c :
  combine_hashes a (combine_hashes b c) = combine_hashes (combine_hashes a b) c.
Proof.
  unfold combine_hashes. revert b c.
  induction a as [|x a IH]; intros [|y b] [|z c]; simpl; try done. by rewrite IH, Z.lxor_assoc.
Qed.

Lemma combine_zero_l a : is_hash a -> combine_hashes zero_hash a = a.
Proof.
  unfold is_hash, combine_hashes, zero_hash. revert a.
  generalize 32%nat. intros n. induction n as [|n IH]; intros [|x a] Ha; simpl in *; try done.
  injection Ha as Ha. by rewrite IH, Z.lxor_0_l by done.
Qed.

Lemma combine_zero_r a : is_hash a -> combine_hashes a zero_hash = a.
Proof. intros Ha. by rewrite combine_comm, combine_zero_l. Qed.

Lemma combine_same a : is_hash a -> combine_hashes a a = zero_hash.
Proof.
  unfold is_hash, combine_hashes, zero_hash. revert a.
  generalize 32%nat. intros n. induction n as [|n IH]; intros [|x a] Ha; simpl in *; try done.
  injection Ha as Ha. by rewrite IH, Z.lxor_nilpotent by done.
Qed.

Lemma xor_all_is_hash l : Forall is_hash l -> is_hash (xor_all l).
Proof. induction 1; simpl; [done|]. by apply combine_is_hash. Qed.

(** ** The root *)

(** A level keeps the XOR, halves the number of hashes, and keeps them hashes. *)
Lemma next_level_spec l :
  Forall is_hash l ->
  xor_all (next_level l) = xor_all l /\ Forall is_hash (next_level l) /\
  (1 < length l -> (0 < length (next_level l) < length l))%nat.
Proof.
  revert l. fix IH 1. intros [|a [|b l]] Hl; simpl.
  - split; [done|]. split; [done|]. lia.
  - split; [done|]. split; [done|]. lia.
  - apply Forall_cons in Hl as [Ha Hl]. apply Forall_cons in Hl as [Hb Hl].
    destruct (IH l Hl) as (E & Hf & Hlen). split; [by rewrite E, combine_assoc|]. split.
    + constructor; [by apply combine_is_hash|done].
    + intros _. split; [lia|]. destruct l as [|x [|y l]]; simpl in *; [lia|lia|].
      specialize (Hlen ltac:(lia)). lia.
Qed.

Lemma reduce_levels_spec fuel l :
  Forall is_hash l -> l <> [] -> (length l <= fuel)%nat -> reduce_levels fuel l = [xor_all l].
Proof.
  revert l. induction fuel as [|n IH]; intros l Hl Hn Hf; simpl.
  - destruct l; [done|simpl in Hf; lia].
  - destruct (next_level_spec l Hl) as (E & Hl' & Hlen). unfold len.
    destruct (Z.ltb_spec 1 (Z.of_nat (length l))).
    + rewrite IH; [by rewrite E|done| |lia]. intros E0. rewrite E0 in Hlen. simpl in Hlen. lia.
    + destruct l as [|a [|b l]]; [done| |simpl in *; lia]. simpl.
      apply Forall_cons in Hl as [Ha _]. by rewrite combine_zero_r.
Qed.

Lemma calculate_root_xor b :
  Forall (fun f => is_hash (fh_hash f)) (pb_all_fields b) ->
  calculate_root b = xor_all (fh_hash <$> pb_all_fields b).
Proof.
  intros H. unfold calculate_root. destruct (pb_all_fields b) as [|f l] eqn:E; [done|].
  rewrite <- E in *. rewrite reduce_levels_spec; [done|by apply Forall_fmap|by rewrite E|].
  by rewrite length_fmap.
Qed.

(** The loops of the tree always end, and whatever the shape of the tree the
    root is the XOR of the hashes of the fields. *)
Theorem root_is_the_xor b :
  Forall (fun f => is_hash (fh_hash f)) (pb_all_fields b) ->
  calculate_root b = foldr combine_hashes zero_hash (fh_hash <$> pb_all_fields b).
Proof. apply calculate_root_xor. Qed.

(** So it does not commit to the order of the fields: exchanging the hashes of
    two events' fields leaves it as it was. *)
Theorem root_ignores_the_order b b' :
  Forall (fun f => is_hash (fh_hash f)) (pb_all_fields b) ->
  (fh_hash <$> pb_all_fields b) ≡ₚ (fh_hash <$> pb_all_fields b') ->
  calculate_root b = calculate_root b'.
Proof.
  intros H P. assert (Forall (fun f => is_hash (fh_hash f)) (pb_all_fields b')) as H'.
  { apply (proj1 (Forall_fmap fh_hash is_hash _)). rewrite <- P. by apply Forall_fmap. }
  rewrite !calculate_root_xor by done. unfold xor_all. clear H H'.
  induction P as [|x l k _ IH|x y l|l k m _ IH1 _ IH2]; simpl; [done|by rewrite IH| |congruence].
  by rewrite !combine_assoc, (combine_comm y x).
Qed.

(** ** Inclusion *)

Lemma walk_xor (ps : list Z) root siblings i current :
  (forall s, s ∈ siblings -> is_hash s) -> is_hash current ->
  0 <= i -> i + len siblings <= len ps ->
  walk_path ps root siblings i current
  = Ok (bool_decide (combine_hashes current (xor_all siblings) = root)).
Proof.
  revert i current. induction siblings as [|s l IH]; intros i current Hs Hc Hi Hl.
  - simpl. by rewrite combine_zero_r.
  - rewrite len_cons in Hl. pose proof (len_nonneg l).
    destruct (vget_is_Some ps i) as [p Hp]; [lia|]. simpl. rewrite Hp.
    assert (is_hash s) by (apply Hs; constructor).
    assert ((if Z.eqb p 0 then combine_hashes s current else combine_hashes current s)
            = combine_hashes current s) as ->
      by (destruct (Z.eqb p 0); [apply combine_comm|done]).
    rewrite IH; [|intros x Hx; apply Hs; by constructor|by apply combine_is_hash|lia|lia].
    simpl. by rewrite combine_assoc.
Qed.

(** An inclusion proof is accepted exactly when the XOR of the field's hash and
    the siblings is the root, whatever the positions. *)
Theorem inclusion_decides_the_xor p root :
  is_hash (fp_field_hash p) -> Forall is_hash (fp_sibling_hashes p) ->
  len (fp_sibling_hashes p) <= len (fp_positions p) ->
  exists b, verify_field_inclusion p root = Ok b /\
    (b = true <-> combine_hashes (fp_field_hash p) (xor_all (fp_sibling_hashes p)) = root).
Proof.
  intros Hh Hs Hl. unfold verify_field_inclusion. rewrite walk_xor; [|by apply Forall_forall|done|lia|lia].
  eexists. split; [reflexivity|]. apply bool_decide_eq_true.
Qed.

(** One sibling is enough to have any value accepted under any root. *)
Theorem inclusion_can_be_forged name value h root :
  is_hash h -> is_hash root ->
  verify_field_inclusion (mkFieldDisclosureProof name value h [combine_hashes h root] [0]) root
  = Ok true.
Proof.
  intros Hh Hr. unfold verify_field_inclusion. cbn [fp_sibling_hashes fp_positions fp_field_hash].
  rewrite walk_xor; [|set_unfold; intros s [->|[]]; by apply combine_is_hash|done|lia|done].
  rewrite bool_decide_true; [done|]. unfold xor_all. simpl.
  rewrite combine_zero_r by (by apply combine_is_hash). by rewrite combine_assoc, combine_same, combine_zero_l.
Qed.

(** ** Disclosure *)

Lemma disclosed_builder fields (d : FieldHash -> bool) b :
  pb_all_fields (foldl (fun b field => add_field b (fh_field_name field) (fh_hash field) (d field)) b fields)
  = pb_all_fields b ++ ((fun f => mkFieldHash (fh_field_name f) (fh_hash f) (d f)) <$> fields).
Proof.
  revert b. induction fields as [|f fields IH]; intros b; simpl; [by rewrite app_nil_r|].
  rewrite IH. simpl. by rewrite <- app_assoc.
Qed.

(** The root of the disclosed fields is the root of all fields, whichever are
    disclosed; it proves nothing about the disclosed ones. *)
Theorem disclosed_root_covers_all_fields i fields disclosed root :
  Forall (fun f => is_hash (fh_hash f)) fields ->
  dp_disclosed_root (create_disclosure_proof i fields disclosed root)
  = foldr combine_hashes zero_hash (fh_hash <$> fields).
Proof.
  intros H. unfold create_disclosure_proof. simpl.
  rewrite calculate_root_xor; rewrite disclosed_builder; simpl.
  - unfold xor_all. rewrite <- list_fmap_compose. done.
  - by apply Forall_fmap.
Qed.

(** ** Chains of links *)

Definition broken (links : list ChainLink) : list ChainLink :=
  filter (fun l => cl_valid l = false) links.

Lemma continuity_fold links v m c :
  foldl (fun acc link =>
           let '(v, m, c) := acc in
           if cl_valid link then (v + 1, m, c) else (v, m + 1, c ++ [cl_index link]))
        (v, m, c) links
  = (v + len links - len (broken links), m + len (broken links),
     c ++ (cl_index <$> broken links)).
Proof.
  revert v m c. unfold broken. induction links as [|l links IH]; intros v m c; simpl.
  - rewrite app_nil_r, filter_nil, !len_nil. do 2 f_equal; lia.
  - destruct (cl_valid l) eqn:E; rewrite IH.
    + rewrite filter_cons_False by (by rewrite E). rewrite len_cons. do 2 f_equal; lia.
    + rewrite filter_cons_True by done. rewrite !len_cons. simpl. rewrite <- app_assoc. simpl.
      do 2 f_equal; lia.
Qed.

Lemma broken_nil links : broken links = [] <-> Forall (fun l => cl_valid l = true) links.
Proof.
  unfold broken. induction links as [|l links IH]; [done|]. destruct (cl_valid l) eqn:E.
  - rewrite filter_cons_False by (by rewrite E). rewrite IH, Forall_cons. naive_solver.
  - rewrite filter_cons_True by done. rewrite Forall_cons. split; [done|]. rewrite E. naive_solver.
Qed.

Lemma len_broken links : len (broken links) <= len links.
Proof. unfold broken, len. pose proof (length_filter (fun l => cl_valid l = false) links). lia. Qed.

(** The continuity check is valid exactly when every link is, lists the indices
    of the broken links in order, and its score is 100 exactly then. *)
Theorem continuity_lists_the_broken_links links :
  let r := verify_chain_continuity links in
  (cv_valid r = true <-> Forall (fun l => cl_valid l = true) links) /\
  cv_compromised_indices r = cl_index <$> broken links /\
  cv_mismatches r = len (broken links) /\
  0 <= cv_integrity_score r <= 100 /\
  (cv_integrity_score r = 100 <-> Forall (fun l => cl_valid l = true) links).
Proof.
  unfold verify_chain_continuity. rewrite continuity_fold. cbn -[calculate_integrity_score Z.mul].
  replace (0 + len (broken links)) with (len (broken links)) by lia.
  pose proof (len_broken links) as Hb. pose proof (len_nonneg (broken links)) as H0.
  rewrite <- broken_nil.
  assert (len (broken links) = 0 <-> broken links = []) as Hn.
  { unfold len. destruct (broken links); simpl; split; intros; try done; lia. }
  split; [by rewrite Z.eqb_eq|]. split; [done|]. split; [done|].
  unfold calculate_integrity_score, u64_sat_sub, as_u32. rewrite Z.max_l by lia.
  destruct (Z.eqb_spec (len links) 0) as [E|E].
  - split; [lia|]. rewrite <- Hn. lia.
  - pose proof (percent_bounds (len links - len (broken links)) (len links)) as P.
    rewrite Z.mod_small by lia. split; [lia|]. rewrite <- Hn. split.
    + intros S. destruct (decide (len (broken links) = 0)); [done|].
      assert ((len links - len (broken links)) * 100 / len links < 100); [|lia].
      apply Z.div_lt_upper_bound; lia.
    + intros ->. rewrite Z.sub_0_r, Z.mul_comm, Z.div_mul by done. done.
Qed.

(** The check of one link accepts a fork: two events with one predecessor, of
    which the later does not continue the earlier. *)
Theorem forks_pass_the_link_check h prev h' :
  verify_chain_link h prev h' prev = true.
Proof. unfold verify_chain_link. by rewrite bool_decide_true. Qed.

(** An archive proof is accepted whenever its path is not empty, for any event
    and any root. *)
Theorem archive_proofs_prove_nothing event root path :
  path <> [] -> verify_archive_proof (create_archive_proof event root path) = true.
Proof. intros H. unfold verify_archive_proof. simpl. by rewrite bool_decide_false. Qed.

(** ** Access *)

Lemma event_type_allowed_iff dsa t :
  is_event_type_allowed dsa t = true <->
  ds_allowed_event_types dsa = [] \/ t ∈ ds_allowed_event_types dsa.
Proof.
  unfold is_event_type_allowed. destruct (ds_allowed_event_types dsa) as [|x l]; [naive_solver|].
  rewrite existsb_exists. setoid_rewrite bool_decide_eq_true. setoid_rewrite <- list_elem_of_In.
  naive_solver.
Qed.

Lemma standard_allowed_iff dsa s :
  is_standard_allowed dsa s = true <-> ds_standards dsa = [] \/ s ∈ ds_standards dsa.
Proof.
  unfold is_standard_allowed. destruct (ds_standards dsa) as [|x l]; [naive_solver|].
  rewrite existsb_exists. setoid_rewrite bool_decide_eq_true. setoid_rewrite <- list_elem_of_In.
  naive_solver.
Qed.

(** What an agreement covers at a ledger. *)
Definition covers (dsa : DataSharingAgreement) (r : AccessRequest) (ledger : Z) : Prop :=
  ds_active dsa = true /\ ds_effective_ledger dsa <= ledger /\
  (ds_expiry_ledger dsa = 0 \/ ledger <= ds_expiry_ledger dsa) /\
  (ds_standards dsa = [] \/ ar_standard r ∈ ds_standards dsa) /\
  (forall t, t ∈ ar_event_types r ->
     ds_allowed_event_types dsa = [] \/ t ∈ ds_allowed_event_types dsa) /\
  ar_requester r = ds_regulator_address dsa.

Lemma evaluate_covers dsa r ledger :
  (covers dsa r ledger /\
   evaluate_access dsa r ledger
   = if bool_decide (ds_role dsa = RegulatorRole.Auditor) then AccessDecision.Conditional
     else AccessDecision.Approved) \/
  (~ covers dsa r ledger /\ evaluate_access dsa r ledger = AccessDecision.Rejected).
Proof.
  unfold evaluate_access, covers.
  destruct (is_dsa_active dsa ledger) eqn:A; simpl; unfold is_dsa_active in A.
  2:{ right. split; [|done]. intros (H1 & H2 & H3 & _). rewrite H1 in A. simpl in A. zcase.
      destruct A as [A|A]; zcase; lia. }
  zcase.
  destruct (is_standard_allowed dsa (ar_standard r)) eqn:S; simpl.
  2:{ right. split; [|done]. intros (_ & _ & _ & HS & _). apply standard_allowed_iff in HS. congruence. }
  apply standard_allowed_iff in S.
  destruct (existsb (fun t => negb (is_event_type_allowed dsa t)) (ar_event_types r)) eqn:T.
  { right. split; [|done]. intros (_ & _ & _ & _ & HT & _). apply existsb_exists in T as (t & Ht & T).
    apply list_elem_of_In in Ht. apply HT in Ht. apply event_type_allowed_iff in Ht. by rewrite Ht in T. }
  assert (forall t, t ∈ ar_event_types r ->
            ds_allowed_event_types dsa = [] \/ t ∈ ds_allowed_event_types dsa) as T'.
  { intros t Ht. apply event_type_allowed_iff. destruct (is_event_type_allowed dsa t) eqn:E; [done|].
    exfalso. assert (existsb (fun t => negb (is_event_type_allowed dsa t)) (ar_event_types r) = true)
      as X by (apply existsb_exists; exists t; split; [by apply list_elem_of_In|by rewrite E]).
    congruence. }
  destruct (bool_decide_reflect (ar_requester r = ds_regulator_address dsa)); simpl.
  - left. split; [repeat split; try done; naive_solver (zcase; lia)|]. by destruct (ds_role dsa).
  - right. split; [|done]. by intros (_ & _ & _ & _ & _ & HR).
Qed.

(** Access is approved exactly for the regulator of an agreement in force that
    covers the standard and every event type asked for, with the role of an
    officer or more; an auditor gets conditional access, anyone else none. *)
Theorem access_follows_the_agreement dsa r ledger :
  (evaluate_access dsa r ledger = AccessDecision.Approved <->
     covers dsa r ledger /\ ds_role dsa <> RegulatorRole.Auditor) /\
  (evaluate_access dsa r ledger = AccessDecision.Conditional <->
     covers dsa r ledger /\ ds_role dsa = RegulatorRole.Auditor) /\
  (evaluate_access dsa r ledger = AccessDecision.Rejected <-> ~ covers dsa r ledger).
Proof.
  destruct (evaluate_covers dsa r ledger) as [[C ->]|[C ->]].
  - destruct (bool_decide_reflect (ds_role dsa = RegulatorRole.Auditor)); naive_solver.
  - naive_solver.
Qed.

(** The decision ignores whose data is asked for: an agreement with one provider
    opens the data of another. *)
Theorem access_ignores_the_owner dsa r ledger owner :
  evaluate_access dsa
    (mkAccessRequest (ar_id r) (ar_requester r) owner (ar_standard r) (ar_event_types r)
       (ar_legal_basis r) (ar_proposed_terms r) (ar_status r) (ar_created_at r) (ar_resolved_at r))
    ledger
  = evaluate_access dsa r ledger.
Proof. done. Qed.

(** The identifier of an agreement is that of its timestamp: two agreements made
    at one time share it, and agreements made at different times do not. *)
Theorem agreement_ids_are_timestamps p r p' r' t t' :
  is_u64 t -> is_u64 t' ->
  calculate_agreement_id p r t = calculate_agreement_id p' r' t' <-> t = t'.
Proof.
  intros Ht Ht'. split; [|by intros ->]. unfold calculate_agreement_id. intros E.
  apply app_inj_2 in E as [E _]; [|done]. apply Z.bits_inj'. intros n Hn.
  destruct (Z.ltb_spec n 64).
  - assert (forall a : Z, Z.testbit (Z.land (Z.shiftr a (n / 8 * 8)) 255) (n mod 8) = Z.testbit a n) as B.
    { intros a. pose proof (Z.mod_pos_bound n 8 eq_refl).
      change 255 with (Z.ones 8). rewrite Z.land_spec, Z.shiftr_spec by lia.
      rewrite Z.ones_spec_low by lia. rewrite andb_true_r. f_equal.
      pose proof (Z.div_mod n 8). lia. }
    rewrite <- (B t), <- (B t'). f_equal.
    assert (0 <= n / 8 < 8) as Hq by (split; [apply Z.div_pos; lia|apply Z.div_lt_upper_bound; lia]).
    apply (f_equal (fun l => l !! Z.to_nat (n / 8))) in E.
    rewrite !list_lookup_fmap in E. unfold range in E.
    rewrite !lookup_seqZ_lt in E by lia. simpl in E. rewrite Z2Nat.id in E by lia.
    by injection E.
  - rewrite !Z.bits_above_log2; try done; unfold is_u64 in *; try lia.
    + destruct (decide (t' = 0)) as [->|]; [simpl; lia|]. apply Z.log2_lt_pow2; [lia|].
      apply (Z.lt_le_trans _ (2 ^ 64)); [unfold u64_max in *; lia|]. by apply Z.pow_le_mono_r.
    + destruct (decide (t = 0)) as [->|]; [simpl; lia|]. apply Z.log2_lt_pow2; [lia|].
      apply (Z.lt_le_trans _ (2 ^ 64)); [unfold u64_max in *; lia|]. by apply Z.pow_le_mono_r.
Qed.

(** ** Controls *)

(** A control operates effectively exactly when it is one of the five
    objectives, its evidence is enough and some evidence is named - of whatever
    control and type. *)
Theorem control_operates_iff code evidence n :
  cv_operating_effectively (validate_control code evidence n) = true <->
  evidence <> [] /\
  exists rule, first_with ir_control_code code get_control_objectives = Some rule /\
    ir_min_evidence_count rule <= n.
Proof.
  unfold validate_control.
  destruct (first_with ir_control_code code get_control_objectives) as [rule|]; simpl.
  - rewrite andb_true_iff, Z.leb_le. destruct evidence; naive_solver.
  - naive_solver.
Qed.

(** A score is a percentage, and 100 exactly when every control tested
    operates. *)
Theorem compliance_scores_are_percentages tested operating now :
  0 < tested -> 0 <= operating <= tested ->
  let score := ca_compliance_score (isa_report tested operating now) in
  0 <= score <= 100 /\ (score = 100 <-> operating = tested) /\
  ca_compliance_score (soc2_report tested operating now) = score.
Proof.
  intros Ht Ho. simpl. unfold soc2_compliance_score, isa_compliance_score.
  destruct (Z.eqb_spec tested 0); [lia|]. unfold as_u32.
  pose proof (percent_bounds operating tested Ho Ht). rewrite Z.mod_small by lia.
  split; [done|]. split; [|done]. split.
  - intros S. destruct (decide (operating = tested)); [done|].
    assert (operating * 100 / tested < 100); [|lia]. apply Z.div_lt_upper_bound; lia.
  - intros ->. by rewrite Z.mul_comm, Z.div_mul.
Qed.

(** ** The properties at concrete values *)

Definition h_of (n : Z) : Hash := n :: replicate 31 0.
Definition b_fields (l : list Z) : ProofBuilder :=
  mkProofBuilder ((fun n => mkFieldHash "f" (h_of n) false) <$> l) [].

Lemma root_is_the_xor_witness :
  calculate_root (b_fields [1; 2; 4]) = h_of 7 /\
  calculate_root (b_fields [1; 2; 4])
  = foldr combine_hashes zero_hash (fh_hash <$> pb_all_fields (b_fields [1; 2; 4])).
Proof. split; [reflexivity|]. apply (root_is_the_xor (b_fields [1; 2; 4])). by repeat constructor. Defined.

Lemma root_ignores_the_order_witness :
  calculate_root (b_fields [1; 2; 4]) = calculate_root (b_fields [2; 1; 4]).
Proof.
  apply (root_ignores_the_order (b_fields [1; 2; 4]) (b_fields [2; 1; 4])); [by repeat constructor|].
  simpl. apply Permutation_swap.
Defined.

Lemma inclusion_decides_the_xor_witness :
  exists b, verify_field_inclusion (mkFieldDisclosureProof "f" None (h_of 1) [h_of 2; h_of 4] [0; 1])
              (h_of 7) = Ok b /\ b = true.
Proof.
  destruct (inclusion_decides_the_xor (mkFieldDisclosureProof "f" None (h_of 1) [h_of 2; h_of 4] [0; 1])
              (h_of 7)) as (b & H & Hb); [done|by repeat constructor|done|].
  exists b. split; [exact H|]. by apply Hb.
Defined.

Lemma inclusion_can_be_forged_witness :
  verify_field_inclusion
    (mkFieldDisclosureProof "salary" None (h_of 99) [combine_hashes (h_of 99) (h_of 7)] [0]) (h_of 7)
  = Ok true.
Proof. by apply (inclusion_can_be_forged "salary" None (h_of 99) (h_of 7)). Defined.

Lemma disclosed_root_covers_all_fields_witness :
  let fields := [mkFieldHash "a" (h_of 1) false; mkFieldHash "b" (h_of 2) false] in
  dp_disclosed_root (create_disclosure_proof 0 fields ["a"%string] zero_hash)
  = foldr combine_hashes zero_hash (fh_hash <$> fields).
Proof.
  apply (disclosed_root_covers_all_fields 0
    [mkFieldHash "a" (h_of 1) false; mkFieldHash "b" (h_of 2) false] ["a"%string] zero_hash).
  by repeat constructor.
Defined.

Lemma archive_proofs_prove_nothing_witness :
  verify_archive_proof (create_archive_proof (h_of 1) (h_of 2) [h_of 3]) = true.
Proof. by apply (archive_proofs_prove_nothing (h_of 1) (h_of 2) [h_of 3]). Defined.

Lemma agreement_ids_are_timestamps_witness :
  calculate_agreement_id owner alice 77 = calculate_agreement_id alice owner 77 /\
  calculate_agreement_id owner alice 77 <> calculate_agreement_id owner alice 78.
Proof.
  split.
  - by apply (agreement_ids_are_timestamps owner alice alice owner 77 77).
  - intros E. by apply (agreement_ids_are_timestamps owner alice owner alice 77 78) in E.
Defined.

Lemma compliance_scores_are_percentages_witness :
  ca_compliance_score (isa_report 3 2 5) = 66 /\ 0 <= ca_compliance_score (isa_report 3 2 5) <= 100.
Proof. split; [reflexivity|]. by apply (compliance_scores_are_percentages 3 2 5). Defined.
