(* ===== verification/EventPrivacy.v ===== *)
(** * Event privacy

    The privacy workflows of src/contract_event_privacy.rs: breaches with their
    notifications, privacy technologies, attestations and disclosure policies,
    all in instance storage under one owner.

    The second part of the file: properties of event privacy. *)

From stdpp Require Import relations.
From S2P Require Import Prelude Contract StorageLemmas Codec Sample.

(** ** Data *)

Module BreachStatus.
(** [BreachStatus], src/contract_event_privacy.rs:12-12 *)
Inductive BreachStatus : Set :=
  | Detected | Assessed | AuthorityNotified | SubjectsNotified | Closed.
#[global] Instance BreachStatus_eq_dec : EqDecision BreachStatus.
Proof. solve_decision. Defined.
End BreachStatus.
Abbreviation BreachStatus := BreachStatus.BreachStatus.

(** [BreachWorkflow], src/contract_event_privacy.rs:16-22 *)
Record BreachWorkflow := mkBreachWorkflow {
  bw_id : Hash;
  bw_reporter : Address;
  bw_detected_at : Z;
  bw_notification_deadline : Z;
  bw_severity : Z;
  bw_affected_events : list Hash;
  bw_assessment : Bytes;
  bw_authority_notified_at : Z;
  bw_subjects_notified_at : Z;
  bw_status : BreachStatus;
  bw_post_incident_review : Bytes }.
Definition set_bw_assessment (v : Bytes) (r : BreachWorkflow) : BreachWorkflow :=
  mkBreachWorkflow (bw_id r) (bw_reporter r) (bw_detected_at r) (bw_notification_deadline r)
  (bw_severity r) (bw_affected_events r) v (bw_authority_notified_at r)
  (bw_subjects_notified_at r) (bw_status r) (bw_post_incident_review r).
Definition set_bw_authority_notified_at (v : Z) (r : BreachWorkflow) : BreachWorkflow :=
  mkBreachWorkflow (bw_id r) (bw_reporter r) (bw_detected_at r) (bw_notification_deadline r)
  (bw_severity r) (bw_affected_events r) (bw_assessment r) v (bw_subjects_notified_at r)
  (bw_status r) (bw_post_incident_review r).
Definition set_bw_subjects_notified_at (v : Z) (r : BreachWorkflow) : BreachWorkflow :=
  mkBreachWorkflow (bw_id r) (bw_reporter r) (bw_detected_at r) (bw_notification_deadline r)
  (bw_severity r) (bw_affected_events r) (bw_assessment r) (bw_authority_notified_at r) v
  (bw_status r) (bw_post_incident_review r).
Definition set_bw_status (v : BreachStatus) (r : BreachWorkflow) : BreachWorkflow :=
  mkBreachWorkflow (bw_id r) (bw_reporter r) (bw_detected_at r) (bw_notification_deadline r)
  (bw_severity r) (bw_affected_events r) (bw_assessment r) (bw_authority_notified_at r)
  (bw_subjects_notified_at r) v (bw_post_incident_review r).
Definition set_bw_post_incident_review (v : Bytes) (r : BreachWorkflow) : BreachWorkflow :=
  mkBreachWorkflow (bw_id r) (bw_reporter r) (bw_detected_at r) (bw_notification_deadline r)
  (bw_severity r) (bw_affected_events r) (bw_assessment r) (bw_authority_notified_at r)
  (bw_subjects_notified_at r) (bw_status r) v.

(** [PetRegistration], src/contract_event_privacy.rs:26-29 *)
Record PetRegistration := mkPetRegistration {
  pr_id : Hash;
  pr_name : Symbol;
  pr_technique : Symbol;
  pr_use_case : Bytes;
  pr_benchmark : Bytes;
  pr_enabled : bool }.

(** [TeeAttestation], src/contract_event_privacy.rs:33-37 *)
Record TeeAttestation := mkTeeAttestation {
  ta_event_id : Hash;
  ta_platform : Symbol;
  ta_measurement : Hash;
  ta_attestation : Bytes;
  ta_sealed_output_hash : Hash;
  ta_verified_at : Z;
  ta_verifier : Address }.

(** [DisclosurePolicy], src/contract_event_privacy.rs:41-44 *)
Record DisclosurePolicy := mkDisclosurePolicy {
  dp_event_id : Hash;
  dp_commitment : Hash;
  dp_allowed_fields : list Symbol;
  dp_authorized_verifier : Address;
  dp_expires_at : Z }.

Module PrivacyKey.
(** [PrivacyKey], src/contract_event_privacy.rs:47-50 *)
Inductive PrivacyKey : Set :=
  | Owner
  | NextBreach
  | NextPet
  | Breach (a0 : Hash)
  | Pet (a0 : Hash)
  | Tee (a0 : Hash)
  | Disclosure (a0 : Hash)
  | BreachIds.
#[global] Instance PrivacyKey_eq_dec : EqDecision PrivacyKey.
Proof. solve_decision. Defined.
End PrivacyKey.
Abbreviation PrivacyKey := PrivacyKey.PrivacyKey.

Module PrivacyError.
(** [PrivacyError], src/contract_event_privacy.rs:55-55 *)
Inductive PrivacyError : Set :=
  | Unauthorized | NotFound | InvalidSeverity | AlreadyNotified | InvalidDeadline.
#[global] Instance PrivacyError_eq_dec : EqDecision PrivacyError.
Proof. solve_decision. Defined.
End PrivacyError.
Abbreviation PrivacyError := PrivacyError.PrivacyError.

(** ** Layout *)

Inductive PrivacyTy : Set := VvOwner | VvCount | VvBreach | VvPet | VvTee | VvPolicy | VvIds.
#[global] Instance PrivacyTy_eq_dec : EqDecision PrivacyTy.
Proof. solve_decision. Defined.

Definition privacy_el (t : PrivacyTy) : Type :=
  match t with
  | VvOwner => Address
  | VvCount => Z
  | VvBreach => BreachWorkflow
  | VvPet => PetRegistration
  | VvTee => TeeAttestation
  | VvPolicy => DisclosurePolicy
  | VvIds => list Hash
  end.

Definition privacy_key_ty (k : PrivacyKey) : PrivacyTy :=
  match k with
  | PrivacyKey.Owner => VvOwner
  | PrivacyKey.NextBreach | PrivacyKey.NextPet => VvCount
  | PrivacyKey.Breach _ => VvBreach
  | PrivacyKey.Pet _ => VvPet
  | PrivacyKey.Tee _ => VvTee
  | PrivacyKey.Disclosure _ => VvPolicy
  | PrivacyKey.BreachIds => VvIds
  end.

Canonical privacy_layout : Layout := {|
  key := PrivacyKey; ty := PrivacyTy; el := privacy_el; layout_key_ty := privacy_key_ty;
  key_dec := _; ty_dec := _; error := PrivacyError; datum := Payload |}.

#[local] Abbreviation M := (CM privacy_layout).
#[local] Abbreviation store := (kvstore privacy_layout).
#[local] Abbreviation St := (CSt privacy_layout).

(** ** Operations *)

Definition NOTIFICATION_WINDOW : Z := 72 * 60 * 60.

(** [owner], src/contract_event_privacy.rs:127-131 *)
Definition require_privacy_owner (caller : Address) : M unit :=
  do* require_auth caller in
  let* owner := iget PrivacyKey.Owner in
  let* owner := unwrap_or_raise owner PrivacyError.Unauthorized in
  reject_if (bool_decide (owner <> caller)) PrivacyError.Unauthorized.

(** [next], src/contract_event_privacy.rs:132-132 *)
Definition next_breach : M Z :=
  let* value := iget_or PrivacyKey.NextBreach 1 in
  let* value' := u32_add value 1 in
  do* iset PrivacyKey.NextBreach value' in
  ret value.

(** [next], for the other counter it is called with, src/contract_event_privacy.rs:132-132 *)
Definition next_pet : M Z :=
  let* value := iget_or PrivacyKey.NextPet 1 in
  let* value' := u32_add value 1 in
  do* iset PrivacyKey.NextPet value' in
  ret value.

(** [id], src/contract_event_privacy.rs:133-133 *)
Definition id_of (value : Z) : Hash := u32_to_bytes value ++ replicate 28 0.

(** [save_breach], src/contract_event_privacy.rs:134-139 *)
Definition save_breach (record : BreachWorkflow) : M unit :=
  do* iset (PrivacyKey.Breach (bw_id record)) record in
  let* ids := iget_or PrivacyKey.BreachIds [] in
  let ids := if existsb (fun id => bool_decide (id = bw_id record)) ids then ids
             else ids ++ [bw_id record] in
  iset PrivacyKey.BreachIds ids.

(** [breach], src/contract_event_privacy.rs:140-140 *)
Definition breach (id : Hash) : M BreachWorkflow :=
  let* record := iget (PrivacyKey.Breach id) in
  unwrap_or_raise record PrivacyError.NotFound.

(** [initialize], src/contract_event_privacy.rs:62-68 *)
Definition initialize (owner : Address) : M unit :=
  do* require_auth owner in
  let* there := ihas PrivacyKey.Owner in
  do* reject_if there PrivacyError.Unauthorized in
  do* iset PrivacyKey.Owner owner in
  do* iset PrivacyKey.NextBreach 1 in
  iset PrivacyKey.NextPet 1.

(** [detect_breach], src/contract_event_privacy.rs:70-83 *)
Definition detect_breach (reporter : Address) (severity : Z) (affected_events : list Hash)
    : M BreachWorkflow :=
  do* require_auth reporter in
  do* reject_if (Z.ltb 4 severity) PrivacyError.InvalidSeverity in
  let* sequence := next_breach in
  let* detected_at := ledger_timestamp in
  let* notification_deadline := u64_add detected_at NOTIFICATION_WINDOW in
  let record := mkBreachWorkflow (id_of sequence) reporter detected_at notification_deadline severity
                  affected_events [] 0 0 BreachStatus.Detected [] in
  do* save_breach record in
  ret record.

(** [assess_breach], src/contract_event_privacy.rs:85-88 *)
Definition assess_breach (caller : Address) (id : Hash) (assessment : Bytes) : M unit :=
  do* require_privacy_owner caller in
  let* record := breach id in
  save_breach (set_bw_status BreachStatus.Assessed (set_bw_assessment assessment record)).

(** [notify_authority], src/contract_event_privacy.rs:90-94 *)
Definition notify_authority (caller : Address) (id : Hash) : M unit :=
  do* require_privacy_owner caller in
  let* record := breach id in
  do* reject_if (negb (Z.eqb (bw_authority_notified_at record) 0)) PrivacyError.AlreadyNotified in
  let* now := ledger_timestamp in
  save_breach (set_bw_status BreachStatus.AuthorityNotified (set_bw_authority_notified_at now record)).

(** [notify_subjects], src/contract_event_privacy.rs:96-100 *)
Definition notify_subjects (caller : Address) (id : Hash) : M unit :=
  do* require_privacy_owner caller in
  let* record := breach id in
  do* reject_if (negb (Z.eqb (bw_subjects_notified_at record) 0)) PrivacyError.AlreadyNotified in
  let* now := ledger_timestamp in
  save_breach (set_bw_status BreachStatus.SubjectsNotified (set_bw_subjects_notified_at now record)).

(** [complete_review], src/contract_event_privacy.rs:102-105 *)
Definition complete_review (caller : Address) (id : Hash) (review : Bytes) : M unit :=
  do* require_privacy_owner caller in
  let* record := breach id in
  save_breach (set_bw_status BreachStatus.Closed (set_bw_post_incident_review review record)).

(** [get_breach], src/contract_event_privacy.rs:107-107 *)
Definition get_breach (id : Hash) : M BreachWorkflow := breach id.

(** [register_pet], src/contract_event_privacy.rs:109-113 *)
Definition register_pet (caller : Address) (name technique : Symbol) (use_case benchmark : Bytes)
    : M PetRegistration :=
  do* require_privacy_owner caller in
  let* sequence := next_pet in
  let record := mkPetRegistration (id_of sequence) name technique use_case benchmark true in
  do* iset (PrivacyKey.Pet (pr_id record)) record in
  ret record.

(** [record_tee_attestation], src/contract_event_privacy.rs:115-118 *)
Definition record_tee_attestation (verifier : Address) (event_id : Hash) (platform : Symbol)
    (measurement : Hash) (attestation : Bytes) (sealed_output_hash : Hash) : M TeeAttestation :=
  do* require_auth verifier in
  let* now := ledger_timestamp in
  let record := mkTeeAttestation event_id platform measurement attestation sealed_output_hash now
                  verifier in
  do* iset (PrivacyKey.Tee event_id) record in
  ret record.

(** [set_disclosure_policy], src/contract_event_privacy.rs:120-125 *)
Definition set_disclosure_policy (caller : Address) (event_id commitment : Hash)
    (allowed_fields : list Symbol) (authorized_verifier : Address) (expires_at : Z)
    : M DisclosurePolicy :=
  do* require_privacy_owner caller in
  let* now := ledger_timestamp in
  do* reject_if (Z.leb expires_at now) PrivacyError.InvalidDeadline in
  let policy := mkDisclosurePolicy event_id commitment allowed_fields authorized_verifier expires_at in
  do* iset (PrivacyKey.Disclosure event_id) policy in
  ret policy.

(** ** The transition system *)

Inductive vcall : Type :=
  | VInit (owner : Address)
  | VDetect (reporter : Address) (severity : Z) (affected : list Hash)
  | VAssess (caller : Address) (id : Hash) (assessment : Bytes)
  | VAuthority (caller : Address) (id : Hash)
  | VSubjects (caller : Address) (id : Hash)
  | VReview (caller : Address) (id : Hash) (review : Bytes)
  | VPet (caller : Address) (name technique : Symbol) (use_case benchmark : Bytes)
  | VTee (verifier : Address) (event : Hash) (platform : Symbol) (measurement : Hash)
      (attestation : Bytes) (sealed : Hash)
  | VPolicy (caller : Address) (event commitment : Hash) (fields : list Symbol) (verifier : Address)
      (expires : Z).

Definition vexec (k : vcall) : M unit :=
  match k with
  | VInit o => initialize o
  | VDetect r s l => do* detect_breach r s l in ret tt
  | VAssess a i x => assess_breach a i x
  | VAuthority a i => notify_authority a i
  | VSubjects a i => notify_subjects a i
  | VReview a i x => complete_review a i x
  | VPet a n t u b => do* register_pet a n t u b in ret tt
  | VTee v e p m a s => do* record_tee_attestation v e p m a s in ret tt
  | VPolicy a e x f v t => do* set_disclosure_policy a e x f v t in ret tt
  end.

Inductive vstep : St -> St -> Prop :=
  | vstep_call k c s s' : vexec k c s = Ok (tt, s') -> vstep s s'.

(** * Properties of event privacy

    Reported breaches are kept, listed once and only completed; notifications
    are made once, and at any time. *)


Definition breach_at (st : store) (i : Hash) : option BreachWorkflow := sget st (PrivacyKey.Breach i).
Definition breach_ids (st : store) : list Hash :=
  match sget st PrivacyKey.BreachIds with Some v => v | None => [] end.

(** What a report fixes. *)
Definition report (r : BreachWorkflow) :=
  (bw_id r, bw_reporter r, bw_detected_at r, bw_notification_deadline r, bw_severity r,
   bw_affected_events r).

(** A record completed: the report as it was, and notifications made stay. *)
Definition completes (r r' : BreachWorkflow) : Prop :=
  report r' = report r /\
  (bw_authority_notified_at r <> 0 -> bw_authority_notified_at r' = bw_authority_notified_at r) /\
  (bw_subjects_notified_at r <> 0 -> bw_subjects_notified_at r' = bw_subjects_notified_at r).

Lemma completes_refl r : completes r r.
Proof. done. Qed.

Lemma completes_trans r1 r2 r3 : completes r1 r2 -> completes r2 r3 -> completes r1 r3.
Proof.
  intros (E & A & S) (E' & A' & S'). split; [congruence|]. split; intros H.
  - rewrite A'; [by apply A|]. by rewrite A.
  - rewrite S'; [by apply S|]. by rewrite S.
Qed.

(** ** The invariant *)

Record VInv (st : store) : Prop := {
  v_owner : is_Some (sget st PrivacyKey.Owner);
  v_next : exists n, sget st PrivacyKey.NextBreach = Some n /\ 1 <= n <= u32_max /\
    forall i r, breach_at st i = Some r ->
      bw_id r = i /\ bw_notification_deadline r = bw_detected_at r + NOTIFICATION_WINDOW /\
      bw_severity r <= 4 /\ exists j, 1 <= j < n /\ i = id_of j;
  v_ids : forall i, i ∈ breach_ids st <-> is_Some (breach_at st i);
  v_nodup : NoDup (breach_ids st) }.

Definition breach_key (k : PrivacyKey) : bool :=
  match k with
  | PrivacyKey.Owner | PrivacyKey.NextBreach | PrivacyKey.Breach _ | PrivacyKey.BreachIds => true
  | _ => false
  end.

Lemma VInv_other st k v : breach_key k = false -> VInv st -> VInv (sset st k v).
Proof.
  intros Hk [H1 H2 H3 H4]. unfold breach_at, breach_ids in *.
  assert (Hne : forall k' : PrivacyKey, breach_key k' = true -> sget (sset st k v) k' = sget st k').
  { intros k' Hk'. apply sset_ne. congruence. }
  split; unfold breach_at, breach_ids.
  - by rewrite Hne.
  - rewrite Hne by done. destruct H2 as (n & Hn & Hb & H). exists n. split; [done|].
    split; [done|]. intros i r. rewrite Hne by done. apply H.
  - intros i. rewrite !Hne by done. apply H3.
  - by rewrite Hne.
Qed.

Lemma breach_at_other st k v i :
  breach_key k = false -> breach_at (sset st k v) i = breach_at st i.
Proof. intros Hk. unfold breach_at. by rewrite sset_ne by (intros ->; done). Qed.

(** [save_breach] on a record already stored. *)
Lemma save_again r r' c (s s' : St) :
  VInv (inst s) -> breach_at (inst s) (bw_id r') = Some r -> completes r r' ->
  save_breach r' c s = Ok (tt, s') ->
  VInv (inst s') /\
  (forall i x, breach_at (inst s) i = Some x ->
     exists y, breach_at (inst s') i = Some y /\ completes x y).
Proof.
  intros [H1 (n & Hn & Hb & H2) H3 H4] Hr Hc R. unfold save_breach in R. minv. store_reads.
  set (i0 := bw_id r') in *.
  match goal with |- context [existsb _ ?l] => change l with (breach_ids (inst s)) end.
  assert (existsb (fun id => bool_decide (id = i0)) (breach_ids (inst s)) = true) as ->.
  { apply existsb_exists. exists i0. split; [|by rewrite bool_decide_true].
    apply list_elem_of_In, H3. by rewrite Hr. }
  destruct Hc as (E & A & S). unfold report in E. injection E as E1 E2 E3 E4 E5 E6.
  split; [split|]; unfold breach_at, breach_ids in *.
  - by store_reads.
  - exists n. split; [by store_reads|]. split; [done|]. intros i x.
    destruct (decide (i = i0)) as [->|Hne].
    + store_reads. intros [= <-]. destruct (H2 i0 r Hr) as (X1 & X2 & X3 & X4).
      split; [done|]. split; [congruence|]. split; [congruence|done].
    + store_reads. apply H2.
  - intros i. store_reads. rewrite H3. destruct (decide (i = i0)) as [->|Hne].
    + store_reads. rewrite Hr. split; intros _; eauto.
    + by store_reads.
  - store_reads. done.
  - intros i x Hx. destruct (decide (i = i0)) as [->|Hne].
    + store_reads. exists r'. split; [done|]. rewrite Hr in Hx. injection Hx as <-.
      split; [|done]. unfold report. congruence.
    + store_reads. exists x. split; [done|]. apply completes_refl.
Qed.

Lemma owner_Ok a c (s s' : St) u : require_privacy_owner a c s = Ok (u, s') -> s' = s /\ cx_auth c a = true.
Proof. unfold require_privacy_owner. intros R. by minv. Qed.

Lemma breach_Ok i c (s s' : St) r : breach i c s = Ok (r, s') <-> s' = s /\ breach_at (inst s) i = Some r.
Proof.
  unfold breach, breach_at. split.
  - intros R. minv. done.
  - intros [-> H]. unfold bind, iget, unwrap_or_raise. by rewrite H.
Qed.

Lemma id_of_inj j k : is_u32 j -> is_u32 k -> id_of j = id_of k -> j = k.
Proof.
  intros Hj Hk E. unfold id_of in E. apply app_inj_2 in E as [E _]; [|done].
  by apply u32_to_bytes_inj.
Qed.

(** A new report. *)
Lemma detect_run who severity affected n c (s s' : St) r :
  sget (inst s) PrivacyKey.NextBreach = Some n ->
  detect_breach who severity affected c s = Ok (r, s') ->
  severity <= 4 /\ n + 1 <= u32_max /\ bw_id r = id_of n /\ bw_severity r = severity /\
  bw_notification_deadline r = bw_detected_at r + NOTIFICATION_WINDOW /\
  inst s' = sset (sset (sset (inst s) PrivacyKey.NextBreach (n + 1)) (PrivacyKey.Breach (id_of n)) r)
              PrivacyKey.BreachIds
              (if existsb (fun id => bool_decide (id = id_of n)) (breach_ids (inst s))
               then breach_ids (inst s) else breach_ids (inst s) ++ [id_of n]).
Proof.
  intros Hn R. unfold detect_breach, next_breach, save_breach in R. minv. rewrite Hn in *.
  store_reads. zcase. unfold breach_ids. done.
Qed.

Lemma detect_Ok who severity affected c (s s' : St) r :
  VInv (inst s) -> detect_breach who severity affected c s = Ok (r, s') ->
  VInv (inst s') /\ breach_at (inst s') (bw_id r) = Some r /\
  breach_at (inst s) (bw_id r) = None /\
  (forall i x, breach_at (inst s) i = Some x -> breach_at (inst s') i = Some x).
Proof.
  intros [H1 (n & Hn & Hb & H2) H3 H4] R.
  destruct (detect_run _ _ _ _ _ _ _ _ Hn R) as (Hs & Hmax & Hid & Hsev & Hdl & ->).
  rewrite !Hid. set (t := inst s) in *.
  assert (Hfresh : sget t (PrivacyKey.Breach (id_of n)) = None).
  { destruct (sget t (PrivacyKey.Breach (id_of n))) as [x|] eqn:E; [|done].
    apply H2 in E as (_ & _ & _ & j & Hj & E). apply id_of_inj in E; unfold is_u32; lia. }
  assert (id_of n ∉ breach_ids t) as Hnot by (rewrite H3; unfold breach_at; rewrite Hfresh; by intros [? ?]).
  assert (existsb (fun id => bool_decide (id = id_of n)) (breach_ids t) = false) as ->.
  { destruct (existsb _ _) eqn:E; [|done]. exfalso. apply existsb_exists in E as (x & Hx & E).
    zcase. subst. by apply Hnot, list_elem_of_In. }
  split; [split|]; unfold breach_at, breach_ids.
  - by store_reads.
  - exists (n + 1). split; [by store_reads|]. split; [lia|]. intros i x.
    destruct (decide (i = id_of n)) as [->|Hne].
    + store_reads. intros [= <-]. split; [done|]. split; [done|]. split; [congruence|].
      exists n. split; [lia|done].
    + store_reads. intros Hx. destruct (H2 i x Hx) as (X1 & X2 & X3 & j & Hj & X4).
      split; [done|]. split; [done|]. split; [done|]. exists j. split; [lia|done].
  - intros i. store_reads. simpl. rewrite elem_of_app, list_elem_of_singleton, H3.
    destruct (decide (i = id_of n)) as [->|Hne].
    + store_reads. split; [eauto|auto].
    + store_reads. naive_solver.
  - store_reads. simpl. apply NoDup_app. split; [done|]. split; [|by apply NoDup_singleton].
    intros x Hx Hl%list_elem_of_singleton. by subst.
  - split; [by store_reads|]. split; [done|]. intros i x Hx.
    destruct (decide (i = id_of n)) as [->|Hne]; [congruence|]. by store_reads.
Qed.

Lemma breach_stored_id st i r : VInv st -> breach_at st i = Some r -> bw_id r = i.
Proof. intros Hi Hr. destruct (v_next _ Hi) as (n & _ & _ & H). by destruct (H _ _ Hr). Qed.

(** The two first steps of the owner's operations. *)
Ltac owned R :=
  let u := fresh in let t := fresh in let Ro := fresh in
  apply bind_Ok in R as (u & t & Ro & R); apply owner_Ok in Ro as [-> _].

Ltac read_breach R :=
  let t := fresh in let Rr := fresh in let r := fresh "r" in
  apply bind_Ok in R as (r & t & Rr & R); apply breach_Ok in Rr as [-> Rr];
  pose proof (breach_stored_id _ _ _ ltac:(eassumption) Rr) as Eid.

Lemma vexec_step k c (s s' : St) :
  VInv (inst s) -> vexec k c s = Ok (tt, s') ->
  VInv (inst s') /\
  (forall i x, breach_at (inst s) i = Some x ->
     exists y, breach_at (inst s') i = Some y /\ completes x y).
Proof.
  intros Hi R.
  assert (Hsame : forall t, VInv t -> (forall i, breach_at t i = breach_at (inst s) i) ->
    VInv t /\ (forall i x, breach_at (inst s) i = Some x ->
      exists y, breach_at t i = Some y /\ completes x y)).
  { intros t Ht He. split; [done|]. intros i x Hx. exists x. rewrite He. split; [done|].
    apply completes_refl. }
  destruct k; simpl in R.
  - unfold initialize in R. minv. exfalso. destruct (v_owner _ Hi) as [o Ho].
    match goal with H : shas _ _ = false |- _ => apply shas_false in H end. congruence.
  - apply bind_Ok in R as (r & s1 & R & R2). injection R2 as <-.
    apply detect_Ok in R as (H & _ & _ & Hk); [|done]. split; [done|]. intros i x Hx. exists x.
    split; [by apply Hk|apply completes_refl].
  - unfold assess_breach in R. owned R. read_breach R.
    refine (save_again r _ _ _ _ Hi _ _ R); [simpl; congruence|done].
  - unfold notify_authority in R. owned R. read_breach R. minv. zcase.
    refine (save_again r _ _ _ _ Hi _ _ R); [simpl; congruence|]. split; [done|]. by split.
  - unfold notify_subjects in R. owned R. read_breach R. minv. zcase.
    refine (save_again r _ _ _ _ Hi _ _ R); [simpl; congruence|]. split; [done|]. by split.
  - unfold complete_review in R. owned R. read_breach R.
    refine (save_again r _ _ _ _ Hi _ _ R); [simpl; congruence|done].
  - apply bind_Ok in R as (p & s1 & R & R2). injection R2 as <-. unfold register_pet in R. owned R.
    unfold next_pet in R. minv.
    apply Hsame; [by apply VInv_other, VInv_other|]. intros i. by rewrite !breach_at_other.
  - apply bind_Ok in R as (p & s1 & R & R2). injection R2 as <-.
    unfold record_tee_attestation in R. minv.
    apply Hsame; [by apply VInv_other|]. intros i. by rewrite !breach_at_other.
  - apply bind_Ok in R as (p & s1 & R & R2). injection R2 as <-.
    unfold set_disclosure_policy in R. owned R. minv.
    apply Hsame; [by apply VInv_other|]. intros i. by rewrite !breach_at_other.
Qed.

Lemma vexec_steps (s s' : St) :
  rtc vstep s s' -> VInv (inst s) ->
  VInv (inst s') /\
  (forall i x, breach_at (inst s) i = Some x ->
     exists y, breach_at (inst s') i = Some y /\ completes x y).
Proof.
  induction 1 as [s|s t s' Hs _ IH]; intros Hi.
  - split; [done|]. intros i x Hx. exists x. split; [done|apply completes_refl].
  - destruct Hs as [k c s t R]. apply vexec_step in R as [Ht Hk]; [|done].
    destruct (IH Ht) as [Ht' Hk']. split; [done|]. intros i x Hx.
    destruct (Hk i x Hx) as (y & Hy & C). destruct (Hk' i y Hy) as (z & Hz & C').
    exists z. split; [done|by eapply completes_trans].
Qed.

Lemma initialized o c (s' : St) : initialize o c empty_state = Ok (tt, s') -> VInv (inst s').
Proof.
  unfold initialize. intros R. minv. split; unfold breach_at, breach_ids.
  - by store_reads.
  - exists 1. store_reads. split; [done|]. split; [done|]. intros i r Hr. by rewrite !sset_ne in Hr.
  - intros i. rewrite !sset_ne by done. cbn. split; [by intros ?%elem_of_nil|by intros [? ?]].
  - rewrite !sset_ne by done. apply NoDup_nil_2.
Qed.

(** Once the contract is initialized, every breach stored carries the identifier it is stored under,
    a severity of at most 4 and a deadline 72 hours after its detection, and is listed exactly once;
    and whatever is called next keeps each report: who reported it, when, with which deadline,
    severity and events, and the times at which the authority and the subjects were told. *)
Theorem breaches_are_kept (o : Address) (c : Ctx) (s1 s : St) :
  initialize o c empty_state = Ok (tt, s1) -> rtc vstep s1 s ->
  (forall i r, breach_at (inst s) i = Some r ->
     bw_id r = i /\ bw_severity r <= 4 /\
     bw_notification_deadline r = bw_detected_at r + NOTIFICATION_WINDOW) /\
  (forall i, i ∈ breach_ids (inst s) <-> is_Some (breach_at (inst s) i)) /\
  NoDup (breach_ids (inst s)) /\
  forall s', rtc vstep s s' -> forall i r, breach_at (inst s) i = Some r ->
    exists r', breach_at (inst s') i = Some r' /\ completes r r'.
Proof.
  intros R Hs. apply initialized in R as Hi. destruct (vexec_steps _ _ Hs Hi) as [H _].
  split; [|split; [apply H|split; [apply H|]]].
  - intros i r Hr. destruct (v_next _ H) as (n & _ & _ & H2). by destruct (H2 i r Hr) as (? & ? & ? & _).
  - intros s' Hs'. by destruct (vexec_steps _ _ Hs' H).
Qed.

(** Telling the authority has no deadline: the first notification is accepted at whatever time the
    owner makes it, also long after [notification_deadline]. *)
Theorem authority_can_be_told_late (o : Address) (id : Hash) (r : BreachWorkflow) (c : Ctx) (s : St) :
  sget (inst s) PrivacyKey.Owner = Some o -> cx_auth c o = true ->
  breach_at (inst s) id = Some r -> bw_authority_notified_at r = 0 ->
  bw_id r = id ->
  exists s', notify_authority o id c s = Ok (tt, s') /\
    breach_at (inst s') id =
      Some (set_bw_status BreachStatus.AuthorityNotified
              (set_bw_authority_notified_at (cx_timestamp c) r)).
Proof.
  intros Ho Ha Hr H0 <-. unfold breach_at in *.
  unfold notify_authority, require_privacy_owner, save_breach, breach, bind, iget, iget_or, iset,
    require_auth, unwrap_or_raise, reject_if, ledger_timestamp, ret.
  rewrite Ha, Ho. simpl. rewrite bool_decide_false by (intros H; by apply H). simpl.
  rewrite Hr. simpl. rewrite H0. simpl. eexists. split; [reflexivity|]. simpl. by store_reads.
Qed.

(** ** The properties at concrete states *)

Definition v_call (t : Z) (k : vcall) (s : St) : St := post (vexec k) (at_time t) s.

Definition v_init : St := v_call 100 (VInit owner) empty_state.
Definition v_found : St := v_call 1000 (VDetect alice 3 [replicate 32 7]) v_init.
Definition v_told : St := v_call 2000 (VAuthority owner (id_of 1)) v_found.

Lemma v_call_step t k s : outcome (vexec k) (at_time t) s = Ok tt -> vstep s (v_call t k s).
Proof. intros H. apply (vstep_call k (at_time t)). by apply run_outcome. Qed.

Lemma breaches_are_kept_witness :
  rtc vstep v_init v_found /\ NoDup (breach_ids (inst v_found)) /\
  exists r r', breach_at (inst v_found) (id_of 1) = Some r /\
    breach_at (inst v_told) (id_of 1) = Some r' /\ completes r r'.
Proof.
  assert (outcome (vexec (VInit owner)) (at_time 100) empty_state = Ok tt) as R%run_outcome
    by (vm_compute; reflexivity).
  assert (rtc vstep v_init v_found) as S1
    by (apply rtc_once, v_call_step; vm_compute; reflexivity).
  assert (rtc vstep v_found v_told) as S2
    by (apply rtc_once, v_call_step; vm_compute; reflexivity).
  destruct (breaches_are_kept owner (at_time 100) v_init v_found R S1) as (_ & _ & H & K).
  split; [exact S1|]. split; [exact H|].
  destruct (breach_at (inst v_found) (id_of 1)) as [r|] eqn:E; [|vm_compute in E; discriminate].
  destruct (K v_told S2 _ _ E) as (r' & E' & C). by exists r, r'.
Defined.

Lemma authority_can_be_told_late_witness :
  exists r s', breach_at (inst v_found) (id_of 1) = Some r /\
    bw_notification_deadline r < 1000000 /\
    notify_authority owner (id_of 1) (at_time 1000000) v_found = Ok (tt, s').
Proof.
  destruct (breach_at (inst v_found) (id_of 1)) as [r|] eqn:E; [|vm_compute in E; discriminate].
  assert (bw_notification_deadline r = 260200 /\ bw_authority_notified_at r = 0 /\ bw_id r = id_of 1)
    as (Hd & Hn & Hid) by (vm_compute in E; injection E as <-; done).
  destruct (authority_can_be_told_late owner (id_of 1) r (at_time 1000000) v_found) as (s' & R & _);
    [vm_compute; reflexivity|reflexivity|exact E|exact Hn|exact Hid|].
  exists r, s'. split; [done|]. split; [rewrite Hd; lia|exact R].
Defined.

(** A breach reported before the contract is initialized is overwritten by the first one reported
    after it: [initialize] sets the counter back to 1. *)
Theorem early_breach_is_lost :
  let s1 := v_call 50 (VDetect alice 4 []) empty_state in
  let s2 := v_call 100 (VInit owner) s1 in
  let s3 := v_call 150 (VDetect owner 0 []) s2 in
  option_map bw_severity (breach_at (inst s1) (id_of 1)) = Some 4 /\
  option_map bw_severity (breach_at (inst s2) (id_of 1)) = Some 4 /\
  option_map bw_severity (breach_at (inst s3) (id_of 1)) = Some 0 /\
  breach_ids (inst s3) = [id_of 1].
Proof. vm_compute. repeat split. Qed.
