(* ===== verification/SupplyChain.v ===== *)
(** * Supply chain

    The supply chain records of src/supply_chain.rs: brands, products,
    provenance with its custody transfers, certifications, labor and
    environmental reports, and the verification of a product, all in persistent
    storage.

    The second part of the file: properties of the supply chain. *)

From stdpp Require Import relations.
From S2P Require Import Prelude Contract StorageLemmas Codec Sample.

(** ** Data *)

Module SupplyChainError.
(** [SupplyChainError], src/supply_chain.rs:10-31 *)
Inductive SupplyChainError : Set :=
  | BrandNotRegistered | SkuNotFound | CertificationExpired | InvalidLaborReport
  | InvalidEnvironmentalData | VerificationFailed | IncompleteProvenance
  | UnverifiedCertification | UnauthorizedBrandAccess | InvalidChainOfCustody.
#[global] Instance SupplyChainError_eq_dec : EqDecision SupplyChainError.
Proof. solve_decision. Defined.
End SupplyChainError.
Abbreviation SupplyChainError := SupplyChainError.SupplyChainError.

(** [Location], src/supply_chain.rs:36-41 *)
Record Location := mkLocation {
  lo_name : Bytes;
  lo_country : Symbol;
  lo_coordinates : Bytes;
  lo_facility_id : Bytes }.

(** [CustodyTransfer], src/supply_chain.rs:59-65 *)
Record CustodyTransfer := mkCustodyTransfer {
  ct_from_address : Address;
  ct_to_address : Address;
  ct_timestamp : Z;
  ct_location : Location;
  ct_transfer_notes : Bytes }.

(** [Provenance], src/supply_chain.rs:46-54 *)
Record Provenance := mkProvenance {
  pv_origin_location : Location;
  pv_timestamp : Z;
  pv_raw_material_source : Bytes;
  pv_producer_address : Address;
  pv_batch_id : Bytes;
  pv_chain_of_custody : list CustodyTransfer;
  pv_is_verified : bool }.
Definition set_pv_chain_of_custody (v : list CustodyTransfer) (r : Provenance) : Provenance :=
  mkProvenance (pv_origin_location r) (pv_timestamp r) (pv_raw_material_source r)
  (pv_producer_address r) (pv_batch_id r) v (pv_is_verified r).

(** [AuditEntry], src/supply_chain.rs:85-90 *)
Record AuditEntry := mkAuditEntry {
  au_timestamp : Z;
  au_auditor : Address;
  au_status : Symbol;
  au_notes : Bytes }.

(** [Certification], src/supply_chain.rs:70-80 *)
Record Certification := mkCertification {
  ce_cert_id : Bytes;
  ce_cert_type : Symbol;
  ce_issuer : Address;
  ce_issued_date : Z;
  ce_expiry_date : Z;
  ce_scope : Bytes;
  ce_is_active : bool;
  ce_verification_hash : Hash;
  ce_audit_trail : list AuditEntry }.

(** [LaborConditions], src/supply_chain.rs:95-107 *)
Record LaborConditions := mkLaborConditions {
  lb_facility_id : Bytes;
  lb_report_date : Z;
  lb_reporter : Address;
  lb_worker_count : Z;
  lb_wage_compliance : bool;
  lb_working_hours_compliance : bool;
  lb_child_labor_free : bool;
  lb_safety_standards_met : bool;
  lb_freedom_of_association : bool;
  lb_report_hash : Hash;
  lb_certifications : list Bytes }.

(** [EnvironmentalImpact], src/supply_chain.rs:112-122 *)
Record EnvironmentalImpact := mkEnvironmentalImpact {
  ei_facility_id : Bytes;
  ei_report_period : (Z * Z);
  ei_carbon_footprint : Z;
  ei_water_usage : Z;
  ei_waste_generated : Z;
  ei_renewable_energy_percent : Z;
  ei_emissions_reduction_percent : Z;
  ei_certifications : list Bytes;
  ei_report_hash : Hash }.

(** [Brand], src/supply_chain.rs:127-135 *)
Record Brand := mkBrand {
  br_brand_id : Symbol;
  br_name : Bytes;
  br_owner : Address;
  br_verified : bool;
  br_description : Bytes;
  br_website : Bytes;
  br_support_contact : Bytes }.

(** [ProductSKU], src/supply_chain.rs:140-151 *)
Record ProductSKU := mkProductSKU {
  ps_sku : Bytes;
  ps_brand_id : Symbol;
  ps_product_name : Bytes;
  ps_description : Bytes;
  ps_provenance_id : Hash;
  ps_certifications : list Hash;
  ps_labor_reports : list Hash;
  ps_environmental_reports : list Hash;
  ps_created_date : Z;
  ps_last_updated : Z }.

(** [SupplyChainVerification], src/supply_chain.rs:156-166 *)
Record SupplyChainVerification := mkSupplyChainVerification {
  sv_product_sku : Bytes;
  sv_is_verified : bool;
  sv_provenance_verified : bool;
  sv_certifications_valid : bool;
  sv_labor_compliant : bool;
  sv_environmental_standards_met : bool;
  sv_verification_timestamp : Z;
  sv_verification_score : Z;
  sv_issues : list Bytes }.

(** [TimelineEntry], src/supply_chain.rs:171-178 *)
Record TimelineEntry := mkTimelineEntry {
  te_timestamp : Z;
  te_entry_type : Symbol;
  te_location : option Location;
  te_description : Bytes;
  te_verified : bool;
  te_event_id : Hash }.

(** [BrandIntegrityReport], src/supply_chain.rs:183-194 *)
Record BrandIntegrityReport := mkBrandIntegrityReport {
  bi_brand_id : Symbol;
  bi_report_date : Z;
  bi_total_products_tracked : Z;
  bi_avg_compliance_score : Z;
  bi_certifications_count : Z;
  bi_facilities_audited : Z;
  bi_products_fully_traceable : Z;
  bi_products_verified : Z;
  bi_quality_issues : Z;
  bi_compliance_trend : Symbol }.

Module SupplyChainDataKey.
(** [SupplyChainDataKey], src/supply_chain.rs:202-233 *)
Inductive SupplyChainDataKey : Set :=
  | Brand (a0 : Symbol)
  | ProductSKU (a0 : Symbol) (a1 : Bytes)
  | ProvenanceEvent (a0 : Hash)
  | CertificationEvent (a0 : Hash)
  | LaborReport (a0 : Hash)
  | EnvironmentalReport (a0 : Hash)
  | BrandProductIndex (a0 : Symbol)
  | BrandCertificationIndex (a0 : Symbol)
  | FacilityLaborIndex (a0 : Bytes)
  | FacilityEnvironmentalIndex (a0 : Bytes)
  | VerificationCache (a0 : Bytes)
  | BrandIntegrityCache (a0 : Symbol)
  | LastVerificationTime (a0 : Bytes)
  | BrandCount
  | ProductCount.
#[global] Instance SupplyChainDataKey_eq_dec : EqDecision SupplyChainDataKey.
Proof. solve_decision. Defined.
End SupplyChainDataKey.
Abbreviation SupplyChainDataKey := SupplyChainDataKey.SupplyChainDataKey.

(** ** Layout *)

Inductive SupplyTy : Set :=
  | SvBrand | SvSku | SvProvenance | SvCertification | SvLabor | SvEnvironment | SvSkus | SvHashes
  | SvVerification | SvIntegrity | SvTime | SvCount.
#[global] Instance SupplyTy_eq_dec : EqDecision SupplyTy.
Proof. solve_decision. Defined.

Definition supply_el (t : SupplyTy) : Type :=
  match t with
  | SvBrand => Brand
  | SvSku => ProductSKU
  | SvProvenance => Provenance
  | SvCertification => Certification
  | SvLabor => LaborConditions
  | SvEnvironment => EnvironmentalImpact
  | SvSkus => list Bytes
  | SvHashes => list Hash
  | SvVerification => SupplyChainVerification
  | SvIntegrity => BrandIntegrityReport
  | SvTime | SvCount => Z
  end.

Definition supply_key_ty (k : SupplyChainDataKey) : SupplyTy :=
  match k with
  | SupplyChainDataKey.Brand _ => SvBrand
  | SupplyChainDataKey.ProductSKU _ _ => SvSku
  | SupplyChainDataKey.ProvenanceEvent _ => SvProvenance
  | SupplyChainDataKey.CertificationEvent _ => SvCertification
  | SupplyChainDataKey.LaborReport _ => SvLabor
  | SupplyChainDataKey.EnvironmentalReport _ => SvEnvironment
  | SupplyChainDataKey.BrandProductIndex _ => SvSkus
  | SupplyChainDataKey.BrandCertificationIndex _ | SupplyChainDataKey.FacilityLaborIndex _
  | SupplyChainDataKey.FacilityEnvironmentalIndex _ => SvHashes
  | SupplyChainDataKey.VerificationCache _ => SvVerification
  | SupplyChainDataKey.BrandIntegrityCache _ => SvIntegrity
  | SupplyChainDataKey.LastVerificationTime _ => SvTime
  | SupplyChainDataKey.BrandCount | SupplyChainDataKey.ProductCount => SvCount
  end.

Canonical supply_layout : Layout := {|
  key := SupplyChainDataKey; ty := SupplyTy; el := supply_el; layout_key_ty := supply_key_ty;
  key_dec := _; ty_dec := _; error := SupplyChainError; datum := Payload |}.

#[local] Abbreviation M := (CM supply_layout).
#[local] Abbreviation store := (kvstore supply_layout).
#[local] Abbreviation St := (CSt supply_layout).

(** ** Operations *)

Definition SECONDS_PER_DAY : Z := 86400.

(** Well-formed UTF-8, what [String::from_utf8] accepts. *)
Definition continuation (b : Z) : bool := Z.leb 128 b && Z.leb b 191.
Fixpoint utf8_valid (l : Bytes) : bool :=
  match l with
  | [] => true
  | a :: l =>
      if Z.ltb a 128 then utf8_valid l else
      match l with
      | [] => false
      | b :: l =>
          if Z.leb 194 a && Z.leb a 223 && continuation b then utf8_valid l else
          match l with
          | [] => false
          | c :: l =>
              if ((Z.eqb a 224 && Z.leb 160 b || (Z.leb 225 a && Z.leb a 236)
                   || Z.eqb a 237 && Z.leb b 159 || (Z.leb 238 a && Z.leb a 239))
                  && continuation b && continuation c) then utf8_valid l else
              match l with
              | [] => false
              | d :: l =>
                  (Z.eqb a 240 && Z.leb 144 b || (Z.leb 241 a && Z.leb a 243)
                   || Z.eqb a 244 && Z.leb b 143)
                  && continuation b && continuation c && continuation d && utf8_valid l
              end
          end
      end
  end.

Section Operations.
Context `{C : Crypto}.

(** [is_zero] of a [BytesN<32>]; the source calls it and the SDK declares no
    such method. *)
Variable is_zero : Hash -> bool.

(** [register_brand], src/supply_chain.rs:240-274 *)
Definition register_brand (owner : Address) (brand_id : Symbol)
    (name description website support_contact : Bytes) : M unit :=
  do* require_auth owner in
  let brand := mkBrand brand_id name owner false description website support_contact in
  do* pset (SupplyChainDataKey.Brand brand_id) brand in
  let* count := pget_or SupplyChainDataKey.BrandCount 0 in
  let* count' := u32_add count 1 in
  pset SupplyChainDataKey.BrandCount count'.

(** [register_product_sku], src/supply_chain.rs:277-319 *)
Definition register_product_sku (brand_id : Symbol) (sku product_name description : Bytes) : M unit :=
  let* there := phas (SupplyChainDataKey.Brand brand_id) in
  do* (if negb there then panic Abort else ret tt) in
  let* now := ledger_timestamp in
  let product := mkProductSKU sku brand_id product_name description zero32 [] [] [] now now in
  do* pset (SupplyChainDataKey.ProductSKU brand_id sku) product in
  let* count := pget_or SupplyChainDataKey.ProductCount 0 in
  let* count' := u32_add count 1 in
  pset SupplyChainDataKey.ProductCount count'.

(** [log_provenance_event], src/supply_chain.rs:322-345 *)
Definition log_provenance_event (event_id : Hash) (origin_location : Location)
    (raw_material_source : Bytes) (producer : Address) (batch_id : Bytes) : M unit :=
  do* require_auth producer in
  let* now := ledger_timestamp in
  let provenance := mkProvenance origin_location now raw_material_source producer batch_id [] false in
  pset (SupplyChainDataKey.ProvenanceEvent event_id) provenance.

(** [log_custody_transfer], src/supply_chain.rs:348-379 *)
Definition log_custody_transfer (event_id : Hash) (from to : Address) (location : Location)
    (notes : Bytes) : M unit :=
  do* require_auth from in
  let* provenance := pget (SupplyChainDataKey.ProvenanceEvent event_id) in
  let* provenance := (match provenance with Some p => ret p | None => panic Abort end) in
  let* now := ledger_timestamp in
  let transfer := mkCustodyTransfer from to now location notes in
  pset (SupplyChainDataKey.ProvenanceEvent event_id)
    (set_pv_chain_of_custody (pv_chain_of_custody provenance ++ [transfer]) provenance).

(** [log_certification], src/supply_chain.rs:382-411 *)
Definition log_certification (cert_id : Bytes) (cert_type : Symbol) (issuer : Address)
    (expiry_days : Z) (scope : Bytes) : M unit :=
  do* require_auth issuer in
  let* now := ledger_timestamp in
  let* period := u64_mul expiry_days SECONDS_PER_DAY in
  let* expiry_date := u64_add now period in
  let certification := mkCertification cert_id cert_type issuer now expiry_date scope true zero32 [] in
  pset (SupplyChainDataKey.CertificationEvent (sha256 cert_id)) certification.

(** [log_labor_conditions], src/supply_chain.rs:414-446 *)
Definition log_labor_conditions (facility_id : Bytes) (worker_count : Z)
    (wage_compliant hours_compliant child_labor_free safety_met freedom_of_association : bool)
    (report_hash : Hash) (reporter : Address) : M unit :=
  do* require_auth reporter in
  let* now := ledger_timestamp in
  let labor_report := mkLaborConditions facility_id now reporter worker_count wage_compliant
                        hours_compliant child_labor_free safety_met freedom_of_association
                        report_hash [] in
  pset (SupplyChainDataKey.LaborReport (sha256 facility_id)) labor_report.

(** [log_environmental_impact], src/supply_chain.rs:449-480 *)
Definition log_environmental_impact (facility_id : Bytes) (report_period_start report_period_end : Z)
    (carbon_footprint water_usage waste_generated renewable_energy_percent emissions_reduction : Z)
    (report_hash : Hash) (reporter : Address) : M unit :=
  do* require_auth reporter in
  let environmental := mkEnvironmentalImpact facility_id (report_period_start, report_period_end)
                         carbon_footprint water_usage waste_generated renewable_energy_percent
                         emissions_reduction [] report_hash in
  pset (SupplyChainDataKey.EnvironmentalReport (sha256 facility_id)) environmental.

(** One certification of [verify_product_chain]: whether all are valid so far,
    and the issues. *)
Definition check_cert (now : Z) (found : bool * list Bytes) (cert_id : Hash)
    : M (bool * list Bytes) :=
  let* cert := pget (SupplyChainDataKey.CertificationEvent cert_id) in
  match cert with
  | Some cert =>
      if negb (ce_is_active cert) || Z.ltb (ce_expiry_date cert) now
      then ret (false, found.2 ++ [str_bytes "Certification expired"])
      else ret found
  | None => ret found
  end.

(** One labor report: whether all comply so far, the score and the issues. *)
Definition check_labor (found : bool * Z * list Bytes) (labor_id : Hash)
    : M (bool * Z * list Bytes) :=
  let '(compliant, score, issues) := found in
  let* labor := pget (SupplyChainDataKey.LaborReport labor_id) in
  match labor with
  | Some labor =>
      if negb (lb_wage_compliance labor) || negb (lb_working_hours_compliance labor)
         || negb (lb_child_labor_free labor) || negb (lb_safety_standards_met labor)
      then ret (false, score, issues ++ [str_bytes "Labor conditions not met"])
      else let* score := u32_add score 25 in ret (compliant, score, issues)
  | None => ret found
  end.

(** One environmental report. *)
Definition check_environment (score : Z) (env_id : Hash) : M Z :=
  let* impact := pget (SupplyChainDataKey.EnvironmentalReport env_id) in
  match impact with Some _ => u32_add score 25 | None => ret score end.

(** [verify_product_chain], src/supply_chain.rs:483-583 *)
Definition verify_product_chain (brand_id : Symbol) (sku : Bytes) : M SupplyChainVerification :=
  let* product := pget (SupplyChainDataKey.ProductSKU brand_id sku) in
  let* product := (match product with Some p => ret p | None => panic Abort end) in
  let* now := ledger_timestamp in
  let* provenance_verified :=
    (if negb (is_zero (ps_provenance_id product)) then
       let* prov := pget (SupplyChainDataKey.ProvenanceEvent (ps_provenance_id product)) in
       ret (match prov with Some prov => pv_is_verified prov | None => false end)
     else ret false) in
  let score := if provenance_verified then 25 else 0 in
  let* checked :=
    (match ps_certifications product with
     | [] => ret (false, score, [])
     | certs =>
         let* found := fold_m (check_cert now) (true, []) certs in
         let* score := (if found.1 then u32_add score 25 else ret score) in
         ret (found.1, score, found.2)
     end) in
  let '(certifications_valid, score, issues) := checked in
  let* checked := fold_m check_labor (true, score, issues) (ps_labor_reports product) in
  let '(labor_compliant, score, issues) := checked in
  let* score := fold_m check_environment score (ps_environmental_reports product) in
  let environmental_standards_met := true in
  let is_verified := provenance_verified && certifications_valid && labor_compliant
                     && environmental_standards_met in
  ret (mkSupplyChainVerification sku is_verified provenance_verified certifications_valid
         labor_compliant environmental_standards_met now (if is_verified then 100 else score) issues).

(** [get_product_timeline], src/supply_chain.rs:586-608 *)
Definition get_product_timeline (event_ids : list Hash) : M (list TimelineEntry) :=
  fold_m (fun timeline event_id =>
    let* prov := pget (SupplyChainDataKey.ProvenanceEvent event_id) in
    match prov with
    | Some prov =>
        ret (timeline ++ [mkTimelineEntry (pv_timestamp prov) "origin"
               (Some (pv_origin_location prov)) (str_bytes "Product origin recorded")
               (pv_is_verified prov) event_id])
    | None => ret timeline
    end) [] event_ids.

(** [get_brand_integrity_report], src/supply_chain.rs:611-635 *)
Definition get_brand_integrity_report (brand_id : Symbol) : M BrandIntegrityReport :=
  let* there := phas (SupplyChainDataKey.Brand brand_id) in
  do* (if negb there then panic Abort else ret tt) in
  let* now := ledger_timestamp in
  ret (mkBrandIntegrityReport brand_id now 0 0 0 0 0 0 0 "stable").

(** [verify_certification], src/supply_chain.rs:638-653 *)
Definition verify_certification (cert_id : Bytes) : M bool :=
  let* cert := pget (SupplyChainDataKey.CertificationEvent (sha256 cert_id)) in
  let* now := ledger_timestamp in
  ret (match cert with
       | Some cert => ce_is_active cert && Z.ltb now (ce_expiry_date cert)
       | None => false
       end).

(** [generate_qr_code_url], src/supply_chain.rs:660-673 *)
Definition generate_qr_code_url (brand_id : Symbol) (sku base_url : Bytes) : Bytes :=
  (if utf8_valid base_url then base_url else []) ++ str_bytes "?brand=" ++ str_bytes brand_id
  ++ str_bytes "&sku=".

(** [generate_integrity_proof], src/supply_chain.rs:676-685 *)
Definition generate_integrity_proof (event_ids : list Hash) : Hash := sha256 (concat event_ids).

(** ** The transition system *)

Inductive scall : Type :=
  | SBrand (owner : Address) (brand : Symbol) (name description website contact : Bytes)
  | SSku (brand : Symbol) (sku name description : Bytes)
  | SProvenance (event : Hash) (origin : Location) (source : Bytes) (producer : Address) (batch : Bytes)
  | SCustody (event : Hash) (from to : Address) (location : Location) (notes : Bytes)
  | SCertify (cert : Bytes) (type : Symbol) (issuer : Address) (days : Z) (scope : Bytes)
  | SLabor (facility : Bytes) (workers : Z) (wage hours child safety freedom : bool) (report : Hash)
      (reporter : Address)
  | SEnvironment (facility : Bytes) (start stop carbon water waste renewable reduction : Z)
      (report : Hash) (reporter : Address).

Definition sexec (k : scall) : M unit :=
  match k with
  | SBrand o b n d w x => register_brand o b n d w x
  | SSku b k n d => register_product_sku b k n d
  | SProvenance e l r p b => log_provenance_event e l r p b
  | SCustody e f t l n => log_custody_transfer e f t l n
  | SCertify i t a d x => log_certification i t a d x
  | SLabor f w x1 x2 x3 x4 x5 h a => log_labor_conditions f w x1 x2 x3 x4 x5 h a
  | SEnvironment f a z c w g r e h who => log_environmental_impact f a z c w g r e h who
  end.

Inductive sstep : St -> St -> Prop :=
  | sstep_call k c s s' : sexec k c s = Ok (tt, s') -> sstep s s'.
End Operations.

(** * Properties of the supply chain

    Certifications hold until they expire, custody chains only grow, proofs fix
    their events; and no product can ever be verified. *)


Section SupplyProps.
Context `{C : Crypto}.

(** ** Products *)

(** What is stored of products and of their provenance. *)
Record SInv (st : store) : Prop := {
  s_products : forall b k p, sget st (SupplyChainDataKey.ProductSKU b k) = Some p ->
    ps_certifications p = [] /\ ps_labor_reports p = [] /\ ps_environmental_reports p = [];
  s_provenance : forall e p, sget st (SupplyChainDataKey.ProvenanceEvent e) = Some p ->
    pv_is_verified p = false }.

Lemma SInv_empty : SInv sempty.
Proof. by split. Qed.

Lemma SInv_sset st k (v : kvalue k) :
  SInv st ->
  match k as k return kvalue k -> Prop with
  | SupplyChainDataKey.ProductSKU _ _ => fun p =>
      ps_certifications p = [] /\ ps_labor_reports p = [] /\ ps_environmental_reports p = []
  | SupplyChainDataKey.ProvenanceEvent _ => fun p => pv_is_verified p = false
  | _ => fun _ => True
  end v -> SInv (sset st k v).
Proof.
  intros [H1 H2] Hv. split.
  - intros b n p. destruct (decide (k = SupplyChainDataKey.ProductSKU b n)) as [->|Hne].
    + rewrite sset_eq. by intros [= <-].
    + rewrite sset_ne by done. apply H1.
  - intros e p. destruct (decide (k = SupplyChainDataKey.ProvenanceEvent e)) as [->|Hne].
    + rewrite sset_eq. by intros [= <-].
    + rewrite sset_ne by done. apply H2.
Qed.

Lemma SInv_step k c (s s' : St) : SInv (pers s) -> sexec k c s = Ok (tt, s') -> SInv (pers s').
Proof.
  intros Hi R. destruct k; simpl in R;
    [unfold register_brand in R|unfold register_product_sku in R|unfold log_provenance_event in R
    |unfold log_custody_transfer in R|unfold log_certification in R|unfold log_labor_conditions in R
    |unfold log_environmental_impact in R]; mcase;
    repeat (apply SInv_sset; [|try done]); try done.
  simpl. by apply (s_provenance _ Hi event).
Qed.

Lemma SInv_steps (s s' : St) : rtc sstep s s' -> SInv (pers s) -> SInv (pers s').
Proof. induction 1 as [|? ? ? []]; eauto using SInv_step. Qed.

(** No product is ever verified: the verification of a product registered in any reachable state
    finds no provenance and no certification, whatever was logged, and scores 0. *)
Theorem no_product_is_ever_verified (is_zero : Hash -> bool) (brand : Symbol) (sku : Bytes)
    (c : Ctx) (s s' : St) r :
  rtc sstep empty_state s ->
  verify_product_chain is_zero brand sku c s = Ok (r, s') ->
  s' = s /\
  r = mkSupplyChainVerification sku false false false true true (cx_timestamp c) 0 [].
Proof.
  intros Hs R. apply SInv_steps in Hs as [H1 H2]; [|apply SInv_empty].
  unfold verify_product_chain in R.
  apply bind_Ok in R as (p & s1 & Rp & R). injection Rp as <- <-.
  apply bind_Ok in R as (p & s1 & Rp & R).
  destruct (sget (pers s) (SupplyChainDataKey.ProductSKU brand sku)) as [x|] eqn:E; [|done].
  injection Rp as <- <-. destruct (H1 _ _ _ E) as (E1 & E2 & E3). rewrite E1, E2, E3 in R.
  apply bind_Ok in R as (now & s1 & Rn & R). injection Rn as <- <-.
  apply bind_Ok in R as (v & s1 & Rv & R).
  assert (v = false /\ s1 = s) as [-> ->].
  { clear R E. destruct (negb (is_zero (ps_provenance_id x))); minv; [|done]. split; [|done].
    match goal with |- match ?o with _ => _ end = false => destruct o eqn:Ep; [|done] end.
    by eapply H2. }
  simpl in R. minv. done.
Qed.

(** ** Certifications *)

Lemma cert_kept k c (s s' : St) id x :
  sget (pers s) (SupplyChainDataKey.CertificationEvent id) = Some x ->
  sexec k c s = Ok (tt, s') ->
  (forall i t a d w, k = SCertify i t a d w -> sha256 i <> id) ->
  sget (pers s') (SupplyChainDataKey.CertificationEvent id) = Some x.
Proof.
  intros Hx R Hk. destruct k; simpl in R;
    [unfold register_brand in R|unfold register_product_sku in R|unfold log_provenance_event in R
    |unfold log_custody_transfer in R|unfold log_certification in R|unfold log_labor_conditions in R
    |unfold log_environmental_impact in R]; mcase;
    rewrite ?sset_ne by first [discriminate|(intros [=]; by eapply Hk)]; done.
Qed.

(** A step that certifies nothing under this identifier. *)
Definition step_but (id : Hash) (s s' : St) : Prop :=
  exists k c, sexec k c s = Ok (tt, s') /\
    forall i t a d w, k = SCertify i t a d w -> sha256 i <> id.

(** From the moment it is logged a certification is valid exactly until it expires, whatever else is
    called, as long as nobody logs another under the same identifier; its last day ends within the
    64 bits of a timestamp. *)
Theorem certification_valid_until_expiry cert type issuer days scope (c : Ctx) (s s1 s2 : St) :
  log_certification cert type issuer days scope c s = Ok (tt, s1) ->
  rtc (step_but (sha256 cert)) s1 s2 ->
  cx_auth c issuer = true /\ cx_timestamp c + days * SECONDS_PER_DAY <= u64_max /\
  forall c', verify_certification cert c' s2 =
    Ok (Z.ltb (cx_timestamp c') (cx_timestamp c + days * SECONDS_PER_DAY), s2).
Proof.
  intros R Hs. unfold log_certification in R. minv. split; [done|]. split; [done|].
  match goal with _ : rtc _ ?s1 _ |- _ => set (t := s1) in * end.
  assert (exists x, sget (pers s2) (SupplyChainDataKey.CertificationEvent (sha256 cert)) = Some x /\
    ce_is_active x = true /\ ce_expiry_date x = cx_timestamp c + days * SECONDS_PER_DAY) as (x & E & Ha & He).
  { assert (exists x, sget (pers t) (SupplyChainDataKey.CertificationEvent (sha256 cert)) = Some x /\
      ce_is_active x = true /\ ce_expiry_date x = cx_timestamp c + days * SECONDS_PER_DAY) as (x & E & H).
    { unfold t. simpl. rewrite sset_eq. by eexists. }
    clearbody t. exists x. split; [|done]. induction Hs as [|u v w (k & c1 & R & Hk)]; [done|].
    apply IHHs. by eapply cert_kept. }
  intros c'. unfold verify_certification, bind, pget, ledger_timestamp, ret.
  by rewrite E, Ha, He.
Qed.

(** At the very second it expires a certification counts as expired when it is verified and as
    valid in the verification of a product. *)
Theorem last_second_is_disputed cert x (c : Ctx) (s : St) :
  sget (pers s) (SupplyChainDataKey.CertificationEvent (sha256 cert)) = Some x ->
  ce_is_active x = true -> ce_expiry_date x = cx_timestamp c ->
  verify_certification cert c s = Ok (false, s) /\
  check_cert (cx_timestamp c) (true, []) (sha256 cert) c s = Ok (true, [], s).
Proof.
  intros E Ha He. unfold verify_certification, check_cert, bind, pget, ledger_timestamp, ret.
  rewrite E, Ha, He, Z.ltb_irrefl. done.
Qed.

(** ** Custody *)

(** The origin of a provenance record. *)
Definition origin_of (p : Provenance) :=
  (pv_origin_location p, pv_timestamp p, pv_raw_material_source p, pv_producer_address p,
   pv_batch_id p, pv_is_verified p).

(** One successful call either records the provenance anew, signed by the producer it names, or
    keeps the origin and extends the chain of custody by transfers each signed by its sender. *)
Theorem custody_only_grows k (c : Ctx) (s s' : St) e p :
  sexec k c s = Ok (tt, s') ->
  sget (pers s) (SupplyChainDataKey.ProvenanceEvent e) = Some p ->
  exists p', sget (pers s') (SupplyChainDataKey.ProvenanceEvent e) = Some p' /\
    ((exists l r a b, k = SProvenance e l r a b /\ cx_auth c a = true /\ pv_producer_address p' = a /\
        pv_chain_of_custody p' = []) \/
     (origin_of p' = origin_of p /\
      exists more, pv_chain_of_custody p' = pv_chain_of_custody p ++ more /\
        Forall (fun t => cx_auth c (ct_from_address t) = true /\
                         ct_timestamp t = cx_timestamp c) more)).
Proof.
  intros R Hp.
  assert (Hsame : sget (pers s') (SupplyChainDataKey.ProvenanceEvent e) = Some p ->
    exists p', sget (pers s') (SupplyChainDataKey.ProvenanceEvent e) = Some p' /\
    ((exists l r a b, k = SProvenance e l r a b /\ cx_auth c a = true /\ pv_producer_address p' = a /\
        pv_chain_of_custody p' = []) \/
     (origin_of p' = origin_of p /\
      exists more, pv_chain_of_custody p' = pv_chain_of_custody p ++ more /\
        Forall (fun t => cx_auth c (ct_from_address t) = true /\
                         ct_timestamp t = cx_timestamp c) more))).
  { intros H. exists p. split; [done|]. right. split; [done|]. exists []. by rewrite app_nil_r. }
  destruct k; simpl in R;
    [unfold register_brand in R|unfold register_product_sku in R|unfold log_provenance_event in R
    |unfold log_custody_transfer in R|unfold log_certification in R|unfold log_labor_conditions in R
    |unfold log_environmental_impact in R]; mcase; try (apply Hsame; by store_reads).
  - destruct (decide (event = e)) as [->|Hne]; [|apply Hsame; by store_reads].
    eexists. rewrite sset_eq. split; [done|]. left. by eexists _, _, _, _.
  - destruct (decide (event = e)) as [->|Hne]; [|apply Hsame; by store_reads].
    simplify_eq. eexists. rewrite sset_eq. split; [done|]. right. split; [done|].
    eexists. split; [done|]. by repeat constructor.
Qed.

(** ** Brands *)

(** Whoever signs can register a brand that is already registered, and owns it from then on. *)
Theorem brand_can_be_taken_over brand x thief n d w k (c : Ctx) (s : St) :
  sget (pers s) (SupplyChainDataKey.Brand brand) = Some x -> cx_auth c thief = true ->
  match sget (pers s) SupplyChainDataKey.BrandCount with Some v => v | None => 0 end < u32_max ->
  exists s', register_brand thief brand n d w k c s = Ok (tt, s') /\
    br_owner <$> sget (pers s') (SupplyChainDataKey.Brand brand) = Some thief.
Proof.
  intros Hx Ha Hn. unfold register_brand, bind, require_auth, pset, pget_or, u32_add. rewrite Ha.
  simpl. rewrite sset_ne by discriminate.
  destruct (sget (pers s) SupplyChainDataKey.BrandCount) as [v|];
    (rewrite (proj2 (Z.leb_le _ u32_max)) by lia); (eexists; split; [reflexivity|]); simpl;
    by rewrite sset_ne, sset_eq by discriminate.
Qed.

(** ** Proofs *)

Lemma concat_blocks (l l' : list Hash) :
  Forall (fun h => length h = 32%nat) l -> Forall (fun h => length h = 32%nat) l' ->
  concat l = concat l' -> l = l'.
Proof.
  revert l'. induction l as [|h l IH]; intros [|h' l'] H H' E; [done|..]; simpl in *.
  - apply Forall_cons in H' as [Hl _]. destruct h'; done.
  - apply Forall_cons in H as [Hl _]. destruct h; done.
  - apply Forall_cons in H as [Hl H], H' as [Hl' H'].
    apply app_inj_1 in E as [-> E]; [|congruence]. f_equal. by apply IH.
Qed.

(** An integrity proof fixes the events it was made of, and their order: two lists with one proof
    are equal, unless they collide under the hash. *)
Theorem integrity_proof_fixes_events (l l' : list Hash) :
  (sha256 (concat l) = sha256 (concat l') -> concat l = concat l') ->
  Forall (fun h => length h = 32%nat) l -> Forall (fun h => length h = 32%nat) l' ->
  generate_integrity_proof l = generate_integrity_proof l' -> l = l'.
Proof. intros Hc H H' E. apply concat_blocks; auto. Qed.
End SupplyProps.

(** The address of a product page names the brand and not the product: it is the same for every
    product of the brand. *)
Theorem qr_code_forgets_the_product (brand : Symbol) (sku sku' base : Bytes) :
  generate_qr_code_url brand sku base = generate_qr_code_url brand sku' base.
Proof. done. Qed.

(** ** The properties at concrete states *)

#[local] Existing Instance sample_crypto.

Definition su_call (t : Z) (k : scall) (s : St) : St := post (sexec k) (at_time t) s.

Definition sample_location : Location := mkLocation [1] "KE" [2] [3].
Definition su_event : Hash := replicate 32 5.
Definition su_brand : St := su_call 100 (SBrand alice "acme" [1] [2] [3] [4]) empty_state.
Definition su_sku : St := su_call 110 (SSku "acme" [9] [1] [2]) su_brand.
Definition su_origin : St := su_call 120 (SProvenance su_event sample_location [1] alice [2]) su_sku.
Definition su_cert : St := su_call 1000 (SCertify [7; 7] "organic" owner 2 [1]) su_origin.
Definition su_moved : St := su_call 2000 (SCustody su_event alice owner sample_location [1]) su_cert.

Lemma su_call_step t k s : outcome (sexec k) (at_time t) s = Ok tt -> sstep s (su_call t k s).
Proof. intros H. apply (sstep_call k (at_time t)). by apply run_outcome. Qed.

Lemma su_moved_reachable : rtc sstep empty_state su_moved.
Proof.
  repeat (eapply rtc_r; [|apply su_call_step; vm_compute; reflexivity]). apply rtc_refl.
Qed.

Lemma no_product_is_ever_verified_witness :
  exists r, verify_product_chain (fun h => bool_decide (h = zero32)) "acme" [9] (at_time 3000) su_moved
            = Ok (r, su_moved) /\ sv_is_verified r = false /\ sv_verification_score r = 0.
Proof.
  destruct (verify_product_chain (fun h => bool_decide (h = zero32)) "acme" [9] (at_time 3000) su_moved)
    as [[r s']|] eqn:R; [|exfalso; vm_compute in R; discriminate].
  destruct (no_product_is_ever_verified _ _ _ _ _ _ _ su_moved_reachable R) as [-> ->].
  by eexists.
Defined.

Lemma certification_valid_until_expiry_witness :
  verify_certification [7; 7] (at_time 173799) su_moved = Ok (true, su_moved) /\
  verify_certification [7; 7] (at_time 173800) su_moved = Ok (false, su_moved).
Proof.
  assert (outcome (log_certification [7; 7] "organic" owner 2 [1]) (at_time 1000) su_origin = Ok tt)
    as R%run_outcome by (vm_compute; reflexivity).
  assert (rtc (step_but (sha256 [7; 7])) su_cert su_moved) as S.
  { apply rtc_once. exists (SCustody su_event alice owner sample_location [1]), (at_time 2000).
    split; [apply run_outcome; vm_compute; reflexivity|done]. }
  destruct (certification_valid_until_expiry _ _ _ _ _ _ _ _ su_moved R S) as (_ & _ & H).
  split; rewrite H; reflexivity.
Defined.

Lemma last_second_is_disputed_witness :
  verify_certification [7; 7] (at_time 173800) su_moved = Ok (false, su_moved) /\
  check_cert 173800 (true, []) (sha256 [7; 7]) (at_time 173800) su_moved = Ok (true, [], su_moved).
Proof.
  destruct (sget (pers su_moved) (SupplyChainDataKey.CertificationEvent (sha256 [7; 7]))) as [x|] eqn:E;
    [|vm_compute in E; discriminate].
  assert (ce_is_active x = true /\ ce_expiry_date x = 173800) as [Ha He]
    by (vm_compute in E; injection E as <-; done).
  exact (last_second_is_disputed [7; 7] x (at_time 173800) su_moved E Ha He).
Defined.

Lemma custody_only_grows_witness :
  exists p', sget (pers su_moved) (SupplyChainDataKey.ProvenanceEvent su_event) = Some p' /\
    length (pv_chain_of_custody p') = 1%nat /\ pv_producer_address p' = alice.
Proof.
  assert (outcome (sexec (SCustody su_event alice owner sample_location [1])) (at_time 2000) su_cert
          = Ok tt) as R%run_outcome by (vm_compute; reflexivity).
  destruct (sget (pers su_cert) (SupplyChainDataKey.ProvenanceEvent su_event)) as [p|] eqn:E;
    [|vm_compute in E; discriminate].
  destruct (custody_only_grows _ _ _ _ _ _ R E) as (p' & E' & [(? & ? & ? & ? & [=] & _)|_]).
  exists p'. split; [exact E'|].
  vm_compute in E'. injection E' as <-. done.
Defined.

Lemma brand_can_be_taken_over_witness :
  exists s', register_brand owner "acme" [] [] [] [] (at_time 500) su_brand = Ok (tt, s') /\
    br_owner <$> sget (pers s') (SupplyChainDataKey.Brand "acme") = Some owner.
Proof.
  destruct (sget (pers su_brand) (SupplyChainDataKey.Brand "acme")) as [x|] eqn:E;
    [|vm_compute in E; discriminate].
  apply (brand_can_be_taken_over "acme" x); [exact E|done|by vm_compute].
Defined.

Lemma integrity_proof_fixes_events_witness :
  generate_integrity_proof [su_event] = generate_integrity_proof [su_event] /\ [su_event] = [su_event].
Proof.
  split; [done|]. apply integrity_proof_fixes_events; [done|by repeat constructor..|done].
Defined.
