(* ===== verification/Esg.v ===== *)
(** * ESG reporting

    The reports of src/esg_reporting.rs: metrics, scores, framework
    alignments, reports to stakeholders, indicators and trends, kept in
    persistent storage.

    The second part of the file: properties of ESG reporting. *)

From stdpp Require Import relations.
From S2P Require Import Prelude Contract Fallible StorageLemmas Codec Sample.

(** ** Data *)

Module ESGReportingError.
(** [ESGReportingError], src/esg_reporting.rs:9-26 *)
Inductive ESGReportingError : Set :=
  | CollectionFailed | IncompletData | AlignmentFailed | InvalidMetric | GenerationFailed
  | UnknownStakeholder | ValidationFailed | KPIError.
#[global] Instance ESGReportingError_eq_dec : EqDecision ESGReportingError.
Proof. solve_decision. Defined.

(** [ESGReportingError], its discriminants, src/esg_reporting.rs:9-26 *)
Definition code (x : ESGReportingError) : Z :=
  match x with
  | CollectionFailed => 4001 | IncompletData => 4002 | AlignmentFailed => 4003
  | InvalidMetric => 4004 | GenerationFailed => 4005 | UnknownStakeholder => 4006
  | ValidationFailed => 4007 | KPIError => 4008
  end.
End ESGReportingError.
Abbreviation ESGReportingError := ESGReportingError.ESGReportingError.

Module ReportingFramework.
(** [ReportingFramework], src/esg_reporting.rs:31-37 *)
Inductive ReportingFramework : Set :=
  | Gri | Sasb | Tcfd | Sdg | Custom.
#[global] Instance ReportingFramework_eq_dec : EqDecision ReportingFramework.
Proof. solve_decision. Defined.
End ReportingFramework.
Abbreviation ReportingFramework := ReportingFramework.ReportingFramework.

Module StakeholderType.
(** [StakeholderType], src/esg_reporting.rs:42-50 *)
Inductive StakeholderType : Set :=
  | Investor | Employee | Supplier | Community | Regulator | Ngo | Customer.
#[global] Instance StakeholderType_eq_dec : EqDecision StakeholderType.
Proof. solve_decision. Defined.
End StakeholderType.
Abbreviation StakeholderType := StakeholderType.StakeholderType.

(** [EnvironmentalMetrics], src/esg_reporting.rs:55-65 *)
Record EnvironmentalMetrics := mkEnvironmentalMetrics {
  em_carbon_emissions : Z;
  em_renewable_energy_percent : Z;
  em_waste_recycled_percent : Z;
  em_water_usage : Z;
  em_water_recycled_percent : Z;
  em_biodiversity_score : Z;
  em_pollution_score : Z;
  em_energy_efficiency_score : Z;
  em_measurement_date : Z }.

(** [SocialMetrics], src/esg_reporting.rs:70-80 *)
Record SocialMetrics := mkSocialMetrics {
  sm_employee_count : Z;
  sm_women_percent : Z;
  sm_minority_percent : Z;
  sm_training_hours_per_employee : Z;
  sm_safety_incidents : Z;
  sm_employee_satisfaction : Z;
  sm_community_investment : Z;
  sm_labor_violations : Z;
  sm_measurement_date : Z }.

(** [GovernanceMetrics], src/esg_reporting.rs:85-95 *)
Record GovernanceMetrics := mkGovernanceMetrics {
  gm_board_size : Z;
  gm_board_independence_percent : Z;
  gm_women_board_percent : Z;
  gm_executive_compensation_ratio : Z;
  gm_ethics_training_percent : Z;
  gm_data_privacy_score : Z;
  gm_anti_corruption_score : Z;
  gm_audit_findings : Z;
  gm_measurement_date : Z }.

(** [KPI], src/esg_reporting.rs:100-107 *)
Record KPI := mkKPI {
  kp_kpi_name : Bytes;
  kp_target_value : Z;
  kp_current_value : Z;
  kp_unit : Symbol;
  kp_status : Symbol;
  kp_measurement_date : Z }.

(** [FrameworkAlignment], src/esg_reporting.rs:112-118 *)
Record FrameworkAlignment := mkFrameworkAlignment {
  fa_framework : ReportingFramework;
  fa_aligned : bool;
  fa_coverage_percent : Z;
  fa_gaps : list Bytes;
  fa_alignment_date : Z }.

(** [StakeholderReport], src/esg_reporting.rs:123-130 *)
Record StakeholderReport := mkStakeholderReport {
  sr_report_id : Hash;
  sr_stakeholder_type : StakeholderType;
  sr_content : Bytes;
  sr_esg_score : Z;
  sr_generated_date : Z;
  sr_report_period : (Z * Z) }.

(** [ESGReport], src/esg_reporting.rs:135-150 *)
Record ESGReport := mkESGReport {
  er_report_id : Hash;
  er_organization : Address;
  er_reporting_period : (Z * Z);
  er_environmental : EnvironmentalMetrics;
  er_social : SocialMetrics;
  er_governance : GovernanceMetrics;
  er_framework_alignments : list FrameworkAlignment;
  er_kpis : list KPI;
  er_esg_score : Z;
  er_e_score : Z;
  er_s_score : Z;
  er_g_score : Z;
  er_generated_date : Z;
  er_version : Z }.
Definition set_er_framework_alignments (v : list FrameworkAlignment) (r : ESGReport) : ESGReport :=
  mkESGReport (er_report_id r) (er_organization r) (er_reporting_period r) (er_environmental r)
  (er_social r) (er_governance r) v (er_kpis r) (er_esg_score r) (er_e_score r) (er_s_score r)
  (er_g_score r) (er_generated_date r) (er_version r).

(** [TrendAnalysis], src/esg_reporting.rs:155-161 *)
Record TrendAnalysis := mkTrendAnalysis {
  ta_metric_name : Bytes;
  ta_trend : Symbol;
  ta_change_percent : Z;
  ta_period_start : Z;
  ta_period_end : Z }.

Module ESGDataKey.
(** [ESGDataKey], src/esg_reporting.rs:169-184 *)
Inductive ESGDataKey : Set :=
  | ESGReport (a0 : Hash)
  | OrgReports (a0 : Address)
  | StakeholderReport (a0 : Hash)
  | FrameworkAlignment (a0 : Address) (a1 : Symbol)
  | KPIData (a0 : Address)
  | TrendData (a0 : Bytes)
  | ReportCount.
#[global] Instance ESGDataKey_eq_dec : EqDecision ESGDataKey.
Proof. solve_decision. Defined.
End ESGDataKey.
Abbreviation ESGDataKey := ESGDataKey.ESGDataKey.

(** ** Layout *)

Inductive EsgTy : Set := EvReport | EvIds | EvStakeholder | EvAlignment | EvKpis | EvTrend | EvCount.
#[global] Instance EsgTy_eq_dec : EqDecision EsgTy.
Proof. solve_decision. Defined.

Definition esg_el (t : EsgTy) : Type :=
  match t with
  | EvReport => ESGReport
  | EvIds => list Hash
  | EvStakeholder => StakeholderReport
  | EvAlignment => FrameworkAlignment
  | EvKpis => list KPI
  | EvTrend => TrendAnalysis
  | EvCount => Z
  end.

Definition esg_key_ty (k : ESGDataKey) : EsgTy :=
  match k with
  | ESGDataKey.ESGReport _ => EvReport
  | ESGDataKey.OrgReports _ => EvIds
  | ESGDataKey.StakeholderReport _ => EvStakeholder
  | ESGDataKey.FrameworkAlignment _ _ => EvAlignment
  | ESGDataKey.KPIData _ => EvKpis
  | ESGDataKey.TrendData _ => EvTrend
  | ESGDataKey.ReportCount => EvCount
  end.

Canonical esg_layout : Layout := {|
  key := ESGDataKey; ty := EsgTy; el := esg_el; layout_key_ty := esg_key_ty;
  key_dec := _; ty_dec := _; error := ESGReportingError; datum := Payload |}.

#[local] Abbreviation M := (CM esg_layout).
#[local] Abbreviation store := (kvstore esg_layout).
#[local] Abbreviation St := (CSt esg_layout).

(** ** Collection *)

(** [collect_environmental_data], src/esg_reporting.rs:191-212 *)
Definition collect_environmental_data (organization : Address)
    (carbon renewable waste_recycled water_usage : Z) : M EnvironmentalMetrics :=
  do* require_auth organization in
  let* sum := u32_add renewable 70 in
  let* now := ledger_timestamp in
  ret (mkEnvironmentalMetrics carbon renewable waste_recycled water_usage 50 75 80 (sum / 2) now).

(** [collect_social_data], src/esg_reporting.rs:215-236 *)
Definition collect_social_data (organization : Address)
    (employees women_percent training_hours safety_incidents : Z) : M SocialMetrics :=
  do* require_auth organization in
  let* now := ledger_timestamp in
  ret (mkSocialMetrics employees women_percent 30 training_hours safety_incidents 85 100 0 now).

(** [collect_governance_data], src/esg_reporting.rs:239-259 *)
Definition collect_governance_data (organization : Address) (board_size independence women_board : Z)
    : M GovernanceMetrics :=
  do* require_auth organization in
  let* now := ledger_timestamp in
  ret (mkGovernanceMetrics board_size independence women_board 250 95 90 85 0 now).

(** ** Scores *)

(** [calculate_esg_score], src/esg_reporting.rs:320-331 *)
Definition calculate_esg_score (e_metrics : EnvironmentalMetrics) (s_metrics : SocialMetrics)
    (g_metrics : GovernanceMetrics) : result ESGReportingError Z :=
  let? e := u32_plus (em_renewable_energy_percent e_metrics) (em_energy_efficiency_score e_metrics) in
  let? e := u32_plus e (em_biodiversity_score e_metrics) in
  let e := e / 3 in
  let? s := u32_plus (sm_women_percent s_metrics) (sm_employee_satisfaction s_metrics) in
  let? s := u32_plus s 100 in
  let? lost := u32_chk (sm_safety_incidents s_metrics * 5) in
  let? s := u32_chk (s - lost) in
  let s := s / 3 in
  let? g := u32_plus (gm_board_independence_percent g_metrics) (gm_ethics_training_percent g_metrics) in
  let? g := u32_plus g (gm_data_privacy_score g_metrics) in
  let g := g / 3 in
  let? t := u32_plus e s in
  let? t := u32_plus t g in
  Ok (t / 3).

(** [validate_metrics], src/esg_reporting.rs:604-616 *)
Definition validate_metrics (environmental : EnvironmentalMetrics) (social : SocialMetrics)
    (governance : GovernanceMetrics) : bool :=
  Z.leb (em_renewable_energy_percent environmental) 100
  && Z.leb (em_waste_recycled_percent environmental) 100
  && Z.leb (sm_women_percent social) 100
  && Z.leb (sm_minority_percent social) 100
  && Z.leb (gm_board_independence_percent governance) 100.

(** [verify_alignment], src/esg_reporting.rs:433-435 *)
Definition verify_alignment (alignment : FrameworkAlignment) : bool :=
  fa_aligned alignment && Z.leb 80 (fa_coverage_percent alignment).

(** [v as i32] of a [u32]. *)
Definition as_i32 (v : Z) : Z := if Z.ltb v (2 ^ 31) then v else v - 2 ^ 32.
Definition i32_chk {E} : Z -> result E Z := within (- 2 ^ 31) (2 ^ 31 - 1).

(** The change of [trend_analysis]; [/] on signed integers rounds towards
    zero, src/esg_reporting.rs:580-584 *)
Definition change_of (current_value previous_value : Z) : result ESGReportingError Z :=
  if Z.eqb previous_value 0 then Ok 0
  else
    let? d := i32_chk (as_i32 current_value - as_i32 previous_value) in
    let? d := i32_chk (d * 100) in
    i32_chk (Z.quot d (as_i32 previous_value)).

(** The tag of a change, src/esg_reporting.rs:586-592 *)
Definition trend_of (change : Z) : Symbol :=
  if Z.ltb 5 change then "improving" else if Z.ltb change (-5) then "declining" else "stable".

(** [trend_analysis], src/esg_reporting.rs:574-601 *)
Definition trend_analysis (metric_name : Bytes) (current_value previous_value : Z) (now : Z)
    : result ESGReportingError TrendAnalysis :=
  let? change := change_of current_value previous_value in
  let? start := u64_chk (now - 86400) in
  Ok (mkTrendAnalysis metric_name (trend_of change) change start now).

(** ** Reports *)

Section Esg.
Context `{C : Crypto}.

(** The identifier of a report, src/esg_reporting.rs:273-278 *)
Definition esg_report_id (organization : Address) (period_start now : Z) : Hash :=
  sha256 (str_bytes organization ++ decimal period_start ++ decimal now).

(** [generate_esg_report], src/esg_reporting.rs:262-317 *)
Definition generate_esg_report (organization : Address) (period_start period_end : Z)
    (environmental : EnvironmentalMetrics) (social : SocialMetrics) (governance : GovernanceMetrics)
    : M Hash :=
  do* require_auth organization in
  let* now := ledger_timestamp in
  let report_id := esg_report_id organization period_start now in
  let* e := u32_add (em_renewable_energy_percent environmental)
              (em_energy_efficiency_score environmental) in
  let e_score := e / 2 in
  let* s := u32_add (sm_women_percent social) (sm_employee_satisfaction social) in
  let s_score := s / 2 in
  let* g := u32_add (gm_board_independence_percent governance)
              (gm_ethics_training_percent governance) in
  let g_score := g / 2 in
  let* t := u32_add e_score s_score in
  let* t := u32_add t g_score in
  let esg_score := t / 3 in
  let report := mkESGReport report_id organization (period_start, period_end) environmental social
                  governance [] [] esg_score e_score s_score g_score now 1 in
  do* pset (ESGDataKey.ESGReport report_id) report in
  let* org_reports := pget_or (ESGDataKey.OrgReports organization) [] in
  do* pset (ESGDataKey.OrgReports organization) (org_reports ++ [report_id]) in
  ret report_id.

(** [get_esg_report]; the other functions open with the same read,
    src/esg_reporting.rs:658-663 *)
Definition get_esg_report (report_id : Hash) : M ESGReport :=
  let* report := pget (ESGDataKey.ESGReport report_id) in
  match report with Some r => ret r | None => panic Abort end.

(** What the three alignments share. *)
Definition align_to (framework : ReportingFramework) (name : Symbol) (coverage : Z)
    (report_id : Hash) (organization : Address) : M FrameworkAlignment :=
  let* report := get_esg_report report_id in
  let* now := ledger_timestamp in
  let alignment := mkFrameworkAlignment framework true coverage [] now in
  do* pset (ESGDataKey.ESGReport report_id)
        (set_er_framework_alignments (er_framework_alignments report ++ [alignment]) report) in
  do* pset (ESGDataKey.FrameworkAlignment organization name) alignment in
  ret alignment.

(** [align_to_gri], src/esg_reporting.rs:334-364 *)
Definition align_to_gri : Hash -> Address -> M FrameworkAlignment :=
  align_to ReportingFramework.Gri "GRI" 95.

(** [align_to_sasb], src/esg_reporting.rs:367-397 *)
Definition align_to_sasb : Hash -> Address -> M FrameworkAlignment :=
  align_to ReportingFramework.Sasb "SASB" 90.

(** [align_to_tcfd], src/esg_reporting.rs:400-430 *)
Definition align_to_tcfd : Hash -> Address -> M FrameworkAlignment :=
  align_to ReportingFramework.Tcfd "TCFD" 88.

(** [generate_investor_report]; the organization is a parameter of this function
    and of the three below, and none uses it, src/esg_reporting.rs:438-469 *)
Definition generate_investor_report (report_id : Hash) : M StakeholderReport :=
  let* report := get_esg_report report_id in
  let investor_id := sha256 (str_bytes "INVESTOR") in
  let content := str_bytes "ESG Score: " ++ decimal (er_esg_score report)
                 ++ str_bytes ", E: " ++ decimal (er_e_score report)
                 ++ str_bytes ", S: " ++ decimal (er_s_score report)
                 ++ str_bytes ", G: " ++ decimal (er_g_score report) in
  let* now := ledger_timestamp in
  let stakeholder_report := mkStakeholderReport investor_id StakeholderType.Investor content
                              (er_esg_score report) now (er_reporting_period report) in
  do* pset (ESGDataKey.StakeholderReport investor_id) stakeholder_report in
  ret stakeholder_report.

(** [generate_employee_report], src/esg_reporting.rs:472-501 *)
Definition generate_employee_report (report_id : Hash) : M StakeholderReport :=
  let* report := get_esg_report report_id in
  let content := str_bytes "Social Score: " ++ decimal (er_s_score report)
                 ++ str_bytes ", Women: " ++ decimal (sm_women_percent (er_social report))
                 ++ str_bytes "%, Training: "
                 ++ decimal (sm_training_hours_per_employee (er_social report))
                 ++ str_bytes " hours" in
  let* now := ledger_timestamp in
  ret (mkStakeholderReport (sha256 (str_bytes "EMPLOYEE")) StakeholderType.Employee content
         (er_s_score report) now (er_reporting_period report)).

(** [generate_supplier_report], src/esg_reporting.rs:504-530 *)
Definition generate_supplier_report (report_id : Hash) : M StakeholderReport :=
  let* report := get_esg_report report_id in
  let content := str_bytes "Governance Score: " ++ decimal (er_g_score report)
                 ++ str_bytes ", Ethics: "
                 ++ decimal (gm_ethics_training_percent (er_governance report))
                 ++ str_bytes "%" in
  let* now := ledger_timestamp in
  ret (mkStakeholderReport (sha256 (str_bytes "SUPPLIER")) StakeholderType.Supplier content
         (er_g_score report) now (er_reporting_period report)).

(** [generate_community_report], src/esg_reporting.rs:533-562 *)
Definition generate_community_report (report_id : Hash) : M StakeholderReport :=
  let* report := get_esg_report report_id in
  let content := str_bytes "Environmental Score: " ++ decimal (er_e_score report)
                 ++ str_bytes ", Community Investment: $"
                 ++ decimal (sm_community_investment (er_social report))
                 ++ str_bytes " K" in
  let* now := ledger_timestamp in
  ret (mkStakeholderReport (sha256 (str_bytes "COMMUNITY")) StakeholderType.Community content
         (er_e_score report) now (er_reporting_period report)).

(** [track_kpis], src/esg_reporting.rs:565-571 *)
Definition track_kpis (organization : Address) (kpis : list KPI) : M unit :=
  do* require_auth organization in
  pset (ESGDataKey.KPIData organization) kpis.

(** [verify_data_completeness], src/esg_reporting.rs:619-633 *)
Definition verify_data_completeness (report_id : Hash) : M bool :=
  let* report := get_esg_report report_id in
  ret (Z.ltb 0 (em_carbon_emissions (er_environmental report))
       && Z.ltb 0 (sm_employee_count (er_social report))
       && Z.ltb 0 (gm_board_size (er_governance report))).

(** [check_reporting_standards], src/esg_reporting.rs:636-655 *)
Definition check_reporting_standards (report_id : Hash) : M Z :=
  let* report := get_esg_report report_id in
  let* compliance :=
    fold_m (fun compliance alignment =>
      if fa_aligned alignment then u32_add compliance (fa_coverage_percent alignment)
      else ret compliance) 0 (er_framework_alignments report) in
  ret (match er_framework_alignments report with
       | [] => 0
       | l => compliance / Z.of_nat (length l)
       end).

(** [get_organization_reports], src/esg_reporting.rs:666-671 *)
Definition get_organization_reports (organization : Address) : M (list Hash) :=
  pget_or (ESGDataKey.OrgReports organization) [].

(** ** The transition system *)

Inductive gcall : Type :=
  | GGenerate (organization : Address) (start stop : Z) (e : EnvironmentalMetrics)
      (s : SocialMetrics) (g : GovernanceMetrics)
  | GAlignGri (report : Hash) (organization : Address)
  | GAlignSasb (report : Hash) (organization : Address)
  | GAlignTcfd (report : Hash) (organization : Address)
  | GInvestor (report : Hash)
  | GKpis (organization : Address) (kpis : list KPI).

Definition gexec (k : gcall) : M unit :=
  match k with
  | GGenerate o a z e s g => do* generate_esg_report o a z e s g in ret tt
  | GAlignGri r o => do* align_to_gri r o in ret tt
  | GAlignSasb r o => do* align_to_sasb r o in ret tt
  | GAlignTcfd r o => do* align_to_tcfd r o in ret tt
  | GInvestor r => do* generate_investor_report r in ret tt
  | GKpis o l => track_kpis o l
  end.

Inductive gstep : St -> St -> Prop :=
  | gstep_call k c s s' : gexec k c s = Ok (tt, s') -> gstep s s'.
End Esg.

(** * Properties of ESG reporting

    The scores of stored reports are computed from their metrics and stay
    percentages where those are; alignments keep to the three forms; the trend
    follows the change; and where the scores fail or disagree. *)


(** ** The reports of reachable states *)

(** The scores [generate_esg_report] computes. *)
Definition e_score_of (e : EnvironmentalMetrics) : Z :=
  (em_renewable_energy_percent e + em_energy_efficiency_score e) / 2.
Definition s_score_of (s : SocialMetrics) : Z :=
  (sm_women_percent s + sm_employee_satisfaction s) / 2.
Definition g_score_of (g : GovernanceMetrics) : Z :=
  (gm_board_independence_percent g + gm_ethics_training_percent g) / 2.

Definition scored (r : ESGReport) : Prop :=
  er_e_score r = e_score_of (er_environmental r) /\ er_s_score r = s_score_of (er_social r) /\
  er_g_score r = g_score_of (er_governance r) /\
  er_esg_score r = (er_e_score r + er_s_score r + er_g_score r) / 3.

(** One of the three alignments. *)
Definition known_alignment (a : FrameworkAlignment) : Prop :=
  fa_aligned a = true /\ 88 <= fa_coverage_percent a <= 95 /\ verify_alignment a = true.

Section EsgProps.
Context `{C : Crypto}.

Definition GInv (st : store) : Prop :=
  forall id r, sget st (ESGDataKey.ESGReport id) = Some r ->
    er_report_id r = id /\ scored r /\ Forall known_alignment (er_framework_alignments r).

Lemma GInv_other st k v :
  (forall id, k <> ESGDataKey.ESGReport id) -> GInv st -> GInv (sset st k v).
Proof. intros Hk H id r. rewrite sset_ne by done. apply H. Qed.

Lemma GInv_report st id r :
  GInv st -> er_report_id r = id -> scored r -> Forall known_alignment (er_framework_alignments r) ->
  GInv (sset st (ESGDataKey.ESGReport id) r).
Proof.
  intros H Hi Hs Ha i x. destruct (decide (i = id)) as [->|Hne].
  - rewrite sset_eq. by intros [= <-].
  - rewrite sset_ne by congruence. apply H.
Qed.

Lemma align_Ok f n cov id o c (s s' : St) a :
  88 <= cov <= 95 -> GInv (pers s) -> align_to f n cov id o c s = Ok (a, s') -> GInv (pers s').
Proof.
  intros Hc Hi R. unfold align_to, get_esg_report in R. mcase.
  apply GInv_other; [done|]. edestruct Hi as (Hid & Hs & Ha); [eassumption|].
  apply GInv_report; try done. simpl. apply Forall_app. split; [done|]. repeat constructor; simpl; try lia.
  unfold verify_alignment. simpl. apply Z.leb_le. lia.
Qed.

Lemma GInv_step k c (s s' : St) : GInv (pers s) -> gexec k c s = Ok (tt, s') -> GInv (pers s').
Proof.
  intros Hi R. destruct k; simpl in R.
  - unfold generate_esg_report in R. minv. apply GInv_other; [done|]. by apply GInv_report.
  - apply bind_Ok in R as (a & s1 & R & R2). injection R2 as <-. by eapply align_Ok in R.
  - apply bind_Ok in R as (a & s1 & R & R2). injection R2 as <-. by eapply align_Ok in R.
  - apply bind_Ok in R as (a & s1 & R & R2). injection R2 as <-. by eapply align_Ok in R.
  - unfold generate_investor_report, get_esg_report in R. mcase. by apply GInv_other.
  - unfold track_kpis in R. minv. by apply GInv_other.
Qed.

Lemma GInv_steps (s s' : St) : rtc gstep s s' -> GInv (pers s) -> GInv (pers s').
Proof. induction 1 as [|? ? ? []]; eauto using GInv_step. Qed.

Lemma reachable_reports (s : St) : rtc gstep empty_state s -> GInv (pers s).
Proof. intros H. by apply (GInv_steps _ _ H). Qed.

Lemma report_Ok id c (s s' : St) r :
  get_esg_report id c s = Ok (r, s') <->
  s' = s /\ sget (pers s) (ESGDataKey.ESGReport id) = Some r.
Proof.
  unfold get_esg_report, bind, pget. destruct (sget (pers s) _) as [x|]; simpl; unfold ret, panic; naive_solver.
Qed.

(** The metrics the scores are made of are percentages. *)
Definition percentages (r : ESGReport) : Prop :=
  let e := er_environmental r in let s := er_social r in let g := er_governance r in
  0 <= em_renewable_energy_percent e <= 100 /\ 0 <= em_energy_efficiency_score e <= 100 /\
  0 <= sm_women_percent s <= 100 /\ 0 <= sm_employee_satisfaction s <= 100 /\
  0 <= gm_board_independence_percent g <= 100 /\ 0 <= gm_ethics_training_percent g <= 100.

(** The four scores of every stored report are those of its metrics, and are percentages whenever
    the metrics are. *)
Theorem report_scores_are_percentages id (c : Ctx) (s s' : St) r :
  rtc gstep empty_state s -> get_esg_report id c s = Ok (r, s') ->
  scored r /\
  (percentages r -> 0 <= er_e_score r <= 100 /\ 0 <= er_s_score r <= 100 /\
                    0 <= er_g_score r <= 100 /\ 0 <= er_esg_score r <= 100).
Proof.
  intros Hs [-> E]%report_Ok. destruct (reachable_reports s Hs id r E) as (_ & Hsc & _).
  split; [done|]. destruct Hsc as (E1 & E2 & E3 & E4).
  unfold percentages, e_score_of, s_score_of, g_score_of in *. rewrite E4, E1, E2, E3.
  intros (H1 & H2 & H3 & H4 & H5 & H6).
  assert (forall a b, 0 <= a <= 100 -> 0 <= b <= 100 -> 0 <= (a + b) / 2 <= 100) as Hhalf.
  { intros a b Ha Hb. split; [apply Z.div_pos; lia|apply Z.div_le_upper_bound; lia]. }
  pose proof (Hhalf _ _ H1 H2). pose proof (Hhalf _ _ H3 H4). pose proof (Hhalf _ _ H5 H6).
  split; [done|]. split; [done|]. split; [done|].
  split; [apply Z.div_pos; lia|apply Z.div_le_upper_bound; lia].
Qed.

(** The total of known alignments. *)
Lemma coverage_sum l c (s s' : St) n m :
  Forall known_alignment l ->
  fold_m (L := esg_layout) (fun compliance alignment =>
    if fa_aligned alignment then u32_add compliance (fa_coverage_percent alignment)
    else ret compliance) n l c s = Ok (m, s') ->
  s' = s /\ n + 88 * Z.of_nat (length l) <= m <= n + 95 * Z.of_nat (length l).
Proof.
  revert n. induction l as [|a l IH]; intros n F R; simpl in R.
  - minv. split; [done|lia].
  - apply Forall_cons in F as [(Ha & Hc & _) F].
    apply bind_Ok in R as (n' & s1 & R1 & R). rewrite Ha in R1.
    apply u32_add_Ok in R1 as (-> & _ & ->). apply IH in R as [-> R]; [|done].
    split; [done|]. cbn [length]. lia.
Qed.

(** The compliance of a stored report with the reporting standards is 0 when it is aligned with
    none, and between 88 and 95 per cent otherwise. *)
Theorem aligned_reports_comply id (c : Ctx) (s s' : St) n :
  rtc gstep empty_state s -> check_reporting_standards id c s = Ok (n, s') ->
  s' = s /\ exists r, sget (pers s) (ESGDataKey.ESGReport id) = Some r /\
    match er_framework_alignments r with [] => n = 0 | _ => 88 <= n <= 95 end.
Proof.
  intros Hs R. unfold check_reporting_standards in R.
  apply bind_Ok in R as (r & s1 & Rr & R). apply report_Ok in Rr as [-> E].
  apply bind_Ok in R as (m & s1 & Rm & R). injection R as <- <-.
  destruct (reachable_reports s Hs id r E) as (_ & _ & F).
  apply coverage_sum in Rm as [-> Hm]; [|done]. split; [done|]. exists r. split; [done|].
  destruct (er_framework_alignments r) as [|a l]; [done|].
  cbn [length] in Hm. set (k := Z.of_nat (S (length l))) in *.
  assert (0 < k) by (unfold k; lia).
  split; [apply Z.div_le_lower_bound; lia|apply Z.div_le_upper_bound; lia].
Qed.

(** Two reports of one organization can share an identifier: the start of the period and the time
    are written next to each other. *)
Theorem report_ids_are_ambiguous (organization : Address) :
  esg_report_id organization 1 1100 = esg_report_id organization 11 100.
Proof. reflexivity. Qed.
End EsgProps.

(** ** Scores *)

(** The stand-alone score, on metrics that are percentages: it is a percentage, unless the safety
    incidents outweigh the social metrics, and then the call panics. *)
Theorem esg_score_is_a_percentage e s g :
  0 <= em_renewable_energy_percent e <= 100 -> 0 <= em_energy_efficiency_score e <= 100 ->
  0 <= em_biodiversity_score e <= 100 ->
  0 <= sm_women_percent s <= 100 -> 0 <= sm_employee_satisfaction s <= 100 ->
  0 <= sm_safety_incidents s <= u32_max ->
  0 <= gm_board_independence_percent g <= 100 -> 0 <= gm_ethics_training_percent g <= 100 ->
  0 <= gm_data_privacy_score g <= 100 ->
  if Z.leb (sm_safety_incidents s * 5) (sm_women_percent s + sm_employee_satisfaction s + 100)
  then exists n, calculate_esg_score e s g = Ok n /\ 0 <= n <= 100
  else calculate_esg_score e s g = Err (Panic Overflow).
Proof.
  intros He1 He2 He3 Hs1 Hs2 Hs3 Hg1 Hg2 Hg3. unfold calculate_esg_score.
  assert (forall a b, 0 <= a <= 200 -> 0 <= b <= 200 -> @u32_plus ESGReportingError a b = Ok (a + b)) as Hp.
  { intros a b Ha Hb. apply u32_plus_Ok. unfold u32_max. lia. }
  assert (forall a, 0 <= a <= 300 -> 0 <= a / 3 <= 100) as Hd.
  { intros a Ha. split; [apply Z.div_pos; lia|apply Z.div_le_upper_bound; lia]. }
  rewrite !Hp by lia. cbn [rbind]. rewrite !Hp by lia. cbn [rbind].
  destruct (Z.leb_spec (sm_safety_incidents s * 5)
              (sm_women_percent s + sm_employee_satisfaction s + 100)) as [Hle|Hgt].
  - assert (@u32_chk ESGReportingError (sm_safety_incidents s * 5) = Ok (sm_safety_incidents s * 5)) as ->
      by (apply u32_chk_Ok; unfold u32_max; lia).
    cbn [rbind]. set (x := sm_women_percent s + sm_employee_satisfaction s + 100 - sm_safety_incidents s * 5).
    assert (@u32_chk ESGReportingError x = Ok x) as -> by (apply u32_chk_Ok; unfold u32_max, x; lia).
    assert (0 <= x / 3 <= 100) by (apply Hd; unfold x; lia).
    assert (0 <= (em_renewable_energy_percent e + em_energy_efficiency_score e
                  + em_biodiversity_score e) / 3 <= 100) by (apply Hd; lia).
    assert (0 <= (gm_board_independence_percent g + gm_ethics_training_percent g
                  + gm_data_privacy_score g) / 3 <= 100) by (apply Hd; lia).
    cbn [rbind]. clearbody x. rewrite (Hp _ (x / 3)) by lia. cbn [rbind]. rewrite Hp by lia. cbn [rbind].
    eexists. split; [done|]. apply Hd. lia.
  - unfold u32_chk at 1, within.
    destruct (Z.leb 0 (sm_safety_incidents s * 5) && Z.leb (sm_safety_incidents s * 5) u32_max);
      [cbn [rbind]|done].
    unfold u32_chk, within. destruct (Z.leb_spec 0 (sm_women_percent s + sm_employee_satisfaction s + 100
      - sm_safety_incidents s * 5)); [lia|done].
Qed.

(** The trend of two values: improving from 6 % more on, declining from 6 % less on. *)
Theorem trend_follows_the_change name cur prev now :
  0 <= cur <= 20000000 -> 0 < prev <= 20000000 -> 86400 <= now <= u64_max ->
  exists t, trend_analysis name cur prev now = Ok t /\
    (ta_trend t = "improving"%string <-> 106 * prev <= 100 * cur) /\
    (ta_trend t = "declining"%string <-> 100 * cur <= 94 * prev).
Proof.
  intros Hc Hp Hn. unfold trend_analysis, change_of, as_i32.
  rewrite (proj2 (Z.eqb_neq prev 0)), (proj2 (Z.ltb_lt cur _)), (proj2 (Z.ltb_lt prev _)) by lia.
  assert (forall z, - 2000000000 <= z <= 2000000000 -> @i32_chk ESGReportingError z = Ok z) as Hi.
  { intros z Hz. apply within_Ok. lia. }
  rewrite Hi by lia. cbn [rbind]. rewrite Hi by lia. cbn [rbind].
  set (d := (cur - prev) * 100). pose proof (Z.quot_rem' d prev) as Hqr.
  assert (Habs : - 2000000000 <= Z.quot d prev <= 2000000000 /\
    (5 < Z.quot d prev <-> 6 * prev <= d) /\ (Z.quot d prev < -5 <-> d <= - (6 * prev))).
  { destruct (Z.le_ge_cases 0 d) as [Hd|Hd].
    - pose proof (Z.rem_bound_pos_pos d prev ltac:(lia) Hd). split; [split; nia|]. split; split; nia.
    - pose proof (Z.rem_bound_pos_neg d prev ltac:(lia) Hd) as Hr.
      split; [split; nia|]. split; split; nia. }
  destruct Habs as (Hb & Hup & Hdown). rewrite Hi by done. cbn [rbind].
  assert (@u64_chk ESGReportingError (now - 86400) = Ok (now - 86400)) as -> by (apply u64_chk_Ok; lia).
  cbn [rbind]. eexists. split; [done|]. cbn [ta_trend]. unfold trend_of.
  destruct (Z.ltb_spec 5 (Z.quot d prev)), (Z.ltb_spec (Z.quot d prev) (-5)); unfold d in *;
    split; split; intros; first [done|lia].
Qed.

(** ** The properties at concrete states *)

#[local] Existing Instance sample_crypto.

(** Metrics that no validation would pass are stored, with scores above 100: no report is
    validated. *)
Theorem impossible_metrics_are_reported :
  let e := mkEnvironmentalMetrics 0 500 0 0 50 75 80 285 0 in
  let s := mkSocialMetrics 0 500 30 0 0 85 100 0 0 in
  let g := mkGovernanceMetrics 0 500 0 250 95 90 85 0 0 in
  validate_metrics e s g = false /\
  exists id s', generate_esg_report alice 0 1 e s g (at_time 5) empty_state = Ok (id, s') /\
    er_esg_score <$> sget (pers s') (ESGDataKey.ESGReport id) = Some 327.
Proof. split; [done|]. eexists _, _. split; vm_compute; reflexivity. Qed.

(** The two ways of scoring the same metrics disagree. *)
Theorem scores_disagree :
  let e := mkEnvironmentalMetrics 0 100 0 0 50 10 80 100 0 in
  let s := mkSocialMetrics 0 40 30 0 20 80 100 0 0 in
  let g := mkGovernanceMetrics 0 100 0 250 100 10 85 0 0 in
  calculate_esg_score e s g = Ok 60 /\ (e_score_of e + s_score_of s + g_score_of g) / 3 = 86.
Proof. split; vm_compute; reflexivity. Qed.

Definition g_env : EnvironmentalMetrics := mkEnvironmentalMetrics 10 60 40 100 50 75 80 65 5.
Definition g_soc : SocialMetrics := mkSocialMetrics 20 45 30 10 1 85 100 0 5.
Definition g_gov : GovernanceMetrics := mkGovernanceMetrics 7 70 40 250 95 90 85 0 5.
Definition g_call (t : Z) (k : gcall) (s : St) : St := post (gexec k) (at_time t) s.
Definition g_id : Hash := esg_report_id alice 0 10.
Definition g_reported : St := g_call 10 (GGenerate alice 0 9 g_env g_soc g_gov) empty_state.
Definition g_gri : St := g_call 11 (GAlignGri g_id alice) g_reported.
Definition g_tcfd : St := g_call 12 (GAlignTcfd g_id owner) g_gri.

Lemma g_call_step t k s : outcome (gexec k) (at_time t) s = Ok tt -> gstep s (g_call t k s).
Proof. intros H. apply (gstep_call k (at_time t)). by apply run_outcome. Qed.

Lemma g_tcfd_reachable : rtc gstep empty_state g_tcfd.
Proof. repeat (eapply rtc_r; [|apply g_call_step; vm_compute; reflexivity]). apply rtc_refl. Qed.

Lemma report_scores_are_percentages_witness :
  exists r, get_esg_report g_id (at_time 20) g_tcfd = Ok (r, g_tcfd) /\ scored r /\
    0 <= er_esg_score r <= 100.
Proof.
  destruct (get_esg_report g_id (at_time 20) g_tcfd) as [[r s']|] eqn:R;
    [|exfalso; vm_compute in R; discriminate].
  destruct (report_scores_are_percentages _ _ _ _ _ g_tcfd_reachable R) as [Hs Hp].
  apply report_Ok in R as [-> E]. exists r. split; [done|]. split; [exact Hs|].
  apply Hp. vm_compute in E. injection E as <-. repeat split; done.
Defined.

Lemma aligned_reports_comply_witness :
  check_reporting_standards g_id (at_time 20) g_tcfd = Ok (91, g_tcfd) /\ 88 <= 91 <= 95.
Proof.
  assert (check_reporting_standards g_id (at_time 20) g_tcfd = Ok (91, g_tcfd)) as R
    by (vm_compute; reflexivity).
  split; [exact R|]. destruct (aligned_reports_comply _ _ _ _ _ g_tcfd_reachable R) as (_ & r & E & H).
  destruct (er_framework_alignments r); [discriminate H|exact H].
Defined.

Lemma esg_score_is_a_percentage_witness :
  exists n, calculate_esg_score g_env g_soc g_gov = Ok n /\ 0 <= n <= 100.
Proof. apply (esg_score_is_a_percentage g_env g_soc g_gov); done. Defined.

Lemma trend_follows_the_change_witness :
  exists t, trend_analysis [1] 106 100 100000 = Ok t /\ ta_trend t = "improving"%string.
Proof.
  destruct (trend_follows_the_change [1] 106 100 100000) as (t & R & H & _); [done..|].
  exists t. split; [exact R|]. by apply H.
Defined.
