(* ===== verification/FinOps.v ===== *)
(** * Cost management

    Cost centers, allocations, chargebacks, resources with their sizing,
    anomalies, budgets and the dashboard of src/finops.rs, in persistent
    storage.

    The second part of the file: properties of cost management. *)

From stdpp Require Import relations.
From S2P Require Import Prelude Contract StorageLemmas Codec Sample.

(** ** Data *)

Module FinOpsError.
(** [FinOpsError], src/finops.rs:12-25 *)
Inductive FinOpsError : Set :=
  | CostCenterNotFound | CostCenterAlreadyExists | BudgetNotFound | BudgetAlreadyExists
  | ResourceNotFound | AnomalyNotFound | InvalidAllocation | BudgetExceeded | InvalidAmount
  | UnauthorizedAccess | InvalidPeriod | InsufficientData.
#[global] Instance FinOpsError_eq_dec : EqDecision FinOpsError.
Proof. solve_decision. Defined.
End FinOpsError.
Abbreviation FinOpsError := FinOpsError.FinOpsError.

(** [CostCenter], src/finops.rs:31-39 *)
Record CostCenter := mkCostCenter {
  cc_id : Hash;
  cc_name : Bytes;
  cc_owner : Address;
  cc_budget : Z;
  cc_currency : Symbol;
  cc_created_at : Z;
  cc_active : bool }.
Definition set_cc_budget (v : Z) (r : CostCenter) : CostCenter :=
  mkCostCenter (cc_id r) (cc_name r) (cc_owner r) v (cc_currency r) (cc_created_at r)
  (cc_active r).
Definition set_cc_active (v : bool) (r : CostCenter) : CostCenter :=
  mkCostCenter (cc_id r) (cc_name r) (cc_owner r) (cc_budget r) (cc_currency r) (cc_created_at r)
  v.

(** [CostAllocation], src/finops.rs:43-53 *)
Record CostAllocation := mkCostAllocation {
  ca_id : Hash;
  ca_cost_center_id : Hash;
  ca_resource_type : Symbol;
  ca_amount : Z;
  ca_currency : Symbol;
  ca_period : Bytes;
  ca_timestamp : Z;
  ca_submitted_by : Address;
  ca_metadata : Bytes }.

(** [ChargebackRecord], src/finops.rs:57-66 *)
Record ChargebackRecord := mkChargebackRecord {
  cb_id : Hash;
  cb_team : Bytes;
  cb_amount : Z;
  cb_currency : Symbol;
  cb_period : Bytes;
  cb_status : Z;
  cb_timestamp : Z;
  cb_cost_center_id : Hash }.
Definition set_cb_status (v : Z) (r : ChargebackRecord) : ChargebackRecord :=
  mkChargebackRecord (cb_id r) (cb_team r) (cb_amount r) (cb_currency r) (cb_period r) v
  (cb_timestamp r) (cb_cost_center_id r).

(** [ShowbackRecord], src/finops.rs:70-78 *)
Record ShowbackRecord := mkShowbackRecord {
  sb_id : Hash;
  sb_team : Bytes;
  sb_amount : Z;
  sb_currency : Symbol;
  sb_period : Bytes;
  sb_timestamp : Z;
  sb_cost_center_id : Hash }.

(** [ResourceRecord], src/finops.rs:82-92 *)
Record ResourceRecord := mkResourceRecord {
  rr_id : Hash;
  rr_resource_type : Symbol;
  rr_current_size : Z;
  rr_recommended_size : Z;
  rr_monthly_cost : Z;
  rr_potential_savings : Z;
  rr_region : Bytes;
  rr_last_updated : Z;
  rr_active : bool }.

(** [RightsizingRecommendation], src/finops.rs:96-105 *)
Record RightsizingRecommendation := mkRightsizingRecommendation {
  rz_resource_id : Hash;
  rz_recommendation_type : Z;
  rz_current_size : Z;
  rz_recommended_size : Z;
  rz_monthly_savings : Z;
  rz_confidence : Z;
  rz_reason : Bytes;
  rz_timestamp : Z }.

(** [CostAnomaly], src/finops.rs:109-119 *)
Record CostAnomaly := mkCostAnomaly {
  an_id : Hash;
  an_resource_id : Hash;
  an_expected_cost : Z;
  an_actual_cost : Z;
  an_deviation_pct : Z;
  an_severity : Z;
  an_timestamp : Z;
  an_resolved : bool;
  an_metadata : Bytes }.
Definition set_an_resolved (v : bool) (r : CostAnomaly) : CostAnomaly :=
  mkCostAnomaly (an_id r) (an_resource_id r) (an_expected_cost r) (an_actual_cost r)
  (an_deviation_pct r) (an_severity r) (an_timestamp r) v (an_metadata r).

(** [Budget], src/finops.rs:123-133 *)
Record Budget := mkBudget {
  bu_id : Hash;
  bu_name : Bytes;
  bu_cost_center_id : Hash;
  bu_amount : Z;
  bu_currency : Symbol;
  bu_period : Bytes;
  bu_alert_thresholds : list Z;
  bu_created_at : Z;
  bu_active : bool }.

(** [BudgetAlert], src/finops.rs:137-145 *)
Record BudgetAlert := mkBudgetAlert {
  ba_id : Hash;
  ba_budget_id : Hash;
  ba_current_spend : Z;
  ba_threshold_pct : Z;
  ba_message : Bytes;
  ba_timestamp : Z;
  ba_acknowledged : bool }.

(** [CostDashboard], src/finops.rs:149-158 *)
Record CostDashboard := mkCostDashboard {
  cd_total_cost : Z;
  cd_cost_by_category : list (Symbol * Z);
  cd_cost_by_team : list (Bytes * Z);
  cd_cost_by_region : list (Bytes * Z);
  cd_total_savings_potential : Z;
  cd_active_anomalies : Z;
  cd_budget_utilization : Z;
  cd_timestamp : Z }.

(** [CostSummary], src/finops.rs:162-169 *)
Record CostSummary := mkCostSummary {
  cs_period : Bytes;
  cs_total_cost : Z;
  cs_forecasted_cost : Z;
  cs_variance_pct : Z;
  cs_top_cost_drivers : list (Symbol * Z);
  cs_timestamp : Z }.

Module DataKey.
(** [DataKey], src/finops.rs:175-204 *)
Inductive DataKey : Set :=
  | CostCenter (a0 : Hash)
  | AllCostCenters
  | CostAllocation (a0 : Hash)
  | AllAllocations
  | CenterAllocations (a0 : Hash)
  | Chargeback (a0 : Hash)
  | AllChargebacks
  | Showback (a0 : Hash)
  | AllShowbacks
  | Resource (a0 : Hash)
  | AllResources
  | RightsizingRec (a0 : Hash)
  | AllRightsizingRecs
  | CostAnomaly (a0 : Hash)
  | AllAnomalies
  | Budget (a0 : Hash)
  | AllBudgets
  | BudgetAlert (a0 : Hash)
  | AllAlerts
  | CostCenterCount
  | AllocationCount
  | ChargebackCount
  | ShowbackCount
  | ResourceCount
  | RightsizingCount
  | AnomalyCount
  | BudgetCount
  | AlertCount.
#[global] Instance DataKey_eq_dec : EqDecision DataKey.
Proof. solve_decision. Defined.
End DataKey.
Abbreviation DataKey := DataKey.DataKey.

#[local] Abbreviation FinKey := DataKey.

(** ** Layout *)

Inductive FinTy : Set :=
  | FvCenter | FvIds | FvAllocation | FvChargeback | FvShowback | FvResource | FvRightsizing
  | FvAnomaly | FvBudget | FvAlert | FvCount.
#[global] Instance FinTy_eq_dec : EqDecision FinTy.
Proof. solve_decision. Defined.

Definition fin_el (t : FinTy) : Type :=
  match t with
  | FvCenter => CostCenter
  | FvIds => list Hash
  | FvAllocation => CostAllocation
  | FvChargeback => ChargebackRecord
  | FvShowback => ShowbackRecord
  | FvResource => ResourceRecord
  | FvRightsizing => RightsizingRecommendation
  | FvAnomaly => CostAnomaly
  | FvBudget => Budget
  | FvAlert => BudgetAlert
  | FvCount => Z
  end.

Definition fin_key_ty (k : FinKey) : FinTy :=
  match k with
  | DataKey.CostCenter _ => FvCenter
  | DataKey.CostAllocation _ => FvAllocation
  | DataKey.Chargeback _ => FvChargeback
  | DataKey.Showback _ => FvShowback
  | DataKey.Resource _ => FvResource
  | DataKey.RightsizingRec _ => FvRightsizing
  | DataKey.CostAnomaly _ => FvAnomaly
  | DataKey.Budget _ => FvBudget
  | DataKey.BudgetAlert _ => FvAlert
  | DataKey.CostCenterCount | DataKey.AllocationCount | DataKey.ChargebackCount
  | DataKey.ShowbackCount | DataKey.ResourceCount | DataKey.RightsizingCount
  | DataKey.AnomalyCount | DataKey.BudgetCount | DataKey.AlertCount => FvCount
  | _ => FvIds
  end.

Canonical fin_layout : Layout := {|
  key := FinKey; ty := FinTy; el := fin_el; layout_key_ty := fin_key_ty;
  key_dec := _; ty_dec := _; error := FinOpsError; datum := Payload |}.

#[local] Abbreviation M := (CM fin_layout).
#[local] Abbreviation store := (kvstore fin_layout).
#[local] Abbreviation St := (CSt fin_layout).

(** ** Helpers *)

(** [BytesN::from_slice], which the loops of the source call on four bytes and
    the SDK does not declare; [None] is a panic. *)
Class SliceHash := { from_slice : Bytes -> option Hash }.

(** [require_non_empty], src/finops.rs:232-236 *)
Definition require_non_empty (value : Bytes) (error : FinOpsError) : M unit :=
  reject_if (bool_decide (value = [])) error.

(** [validate_amount], src/finops.rs:238-242 *)
Definition validate_amount (amount : Z) : M unit := reject_if (Z.eqb amount 0) FinOpsError.InvalidAmount.

(** [get(..).unwrap_or_else(|| panic_with_error!(e))]. *)
Definition load (k : FinKey) (e : FinOpsError) : M (kvalue k) :=
  let* v := pget k in
  unwrap_or_raise v e.

Definition fin_note (name : Symbol) (data : list Payload) : M unit := publish ["finops"; name] data.

Section Operations.
Context `{C : Crypto} `{F : SliceHash}.

(** [compute_id] of its prefix, its data and the time, src/finops.rs:208-214 *)
Definition fin_id (prefix : string) (data : Bytes) (now : Z) : Hash :=
  sha256 (str_bytes prefix ++ data ++ u64_to_bytes now).

(** [compute_id] within a call, src/finops.rs:208-214 *)
Definition compute_id (prefix : string) (data : Bytes) : M Hash :=
  let* now := ledger_timestamp in
  ret (fin_id prefix data now).

(** ** Cost centers *)

(** [register_cost_center], src/finops.rs:247-289 *)
Definition register_cost_center (caller : Address) (name : Bytes) (budget : Z) (currency : Symbol)
    : M Hash :=
  do* require_auth caller in
  do* require_non_empty name FinOpsError.InvalidAllocation in
  do* validate_amount budget in
  let* id := compute_id "cost_center" name in
  let* there := phas (DataKey.CostCenter id) in
  do* reject_if there FinOpsError.CostCenterAlreadyExists in
  let* now := ledger_timestamp in
  do* pset (DataKey.CostCenter id) (mkCostCenter id name caller budget currency now true) in
  let* count := pget_or DataKey.CostCenterCount 0 in
  let* count' := u32_add count 1 in
  do* pset DataKey.CostCenterCount count' in
  do* fin_note "cc_create" [PHash id] in
  ret id.

(** [get_cost_center], src/finops.rs:292-297 *)
Definition get_cost_center (id : Hash) : M CostCenter :=
  load (DataKey.CostCenter id) FinOpsError.CostCenterNotFound.

(** [update_cost_center_budget], src/finops.rs:300-323 *)
Definition update_cost_center_budget (caller : Address) (id : Hash) (new_budget : Z) : M unit :=
  do* require_auth caller in
  let* center := load (DataKey.CostCenter id) FinOpsError.CostCenterNotFound in
  do* reject_if (bool_decide (cc_owner center <> caller)) FinOpsError.UnauthorizedAccess in
  do* validate_amount new_budget in
  pset (DataKey.CostCenter id) (set_cc_budget new_budget center).

(** [deactivate_cost_center], src/finops.rs:326-343 *)
Definition deactivate_cost_center (caller : Address) (id : Hash) : M unit :=
  do* require_auth caller in
  let* center := load (DataKey.CostCenter id) FinOpsError.CostCenterNotFound in
  do* reject_if (bool_decide (cc_owner center <> caller)) FinOpsError.UnauthorizedAccess in
  pset (DataKey.CostCenter id) (set_cc_active false center).

(** ** Allocations *)

(** [allocate_cost], src/finops.rs:348-412 *)
Definition allocate_cost (caller : Address) (cost_center_id : Hash) (resource_type : Symbol)
    (amount : Z) (currency : Symbol) (period metadata : Bytes) : M Hash :=
  do* require_auth caller in
  do* validate_amount amount in
  do* require_non_empty period FinOpsError.InvalidPeriod in
  do* load (DataKey.CostCenter cost_center_id) FinOpsError.CostCenterNotFound in
  let* id := compute_id "allocation" cost_center_id in
  let* now := ledger_timestamp in
  let allocation := mkCostAllocation id cost_center_id resource_type amount currency period now caller
                      metadata in
  do* pset (DataKey.CostAllocation id) allocation in
  let* allocs := pget_or (DataKey.CenterAllocations cost_center_id) [] in
  do* pset (DataKey.CenterAllocations cost_center_id) (allocs ++ [id]) in
  let* count := pget_or DataKey.AllocationCount 0 in
  let* count' := u32_add count 1 in
  do* pset DataKey.AllocationCount count' in
  do* fin_note "alloc" [PAddr caller; PHash id] in
  ret id.

(** [get_allocation], src/finops.rs:415-420 *)
Definition get_allocation (id : Hash) : M CostAllocation :=
  load (DataKey.CostAllocation id) FinOpsError.InvalidAllocation.

(** [get_center_allocations], src/finops.rs:423-428 *)
Definition get_center_allocations (cost_center_id : Hash) : M (list Hash) :=
  pget_or (DataKey.CenterAllocations cost_center_id) [].

(** [create_chargeback], src/finops.rs:433-486 *)
Definition create_chargeback (caller : Address) (team : Bytes) (amount : Z) (currency : Symbol)
    (period : Bytes) (cost_center_id : Hash) : M Hash :=
  do* require_auth caller in
  do* validate_amount amount in
  do* require_non_empty team FinOpsError.InvalidAllocation in
  do* require_non_empty period FinOpsError.InvalidPeriod in
  do* load (DataKey.CostCenter cost_center_id) FinOpsError.CostCenterNotFound in
  let* id := compute_id "chargeback" team in
  let* now := ledger_timestamp in
  do* pset (DataKey.Chargeback id)
        (mkChargebackRecord id team amount currency period 1 now cost_center_id) in
  let* count := pget_or DataKey.ChargebackCount 0 in
  let* count' := u32_add count 1 in
  do* pset DataKey.ChargebackCount count' in
  do* fin_note "chargeback" [PAddr caller; PHash id] in
  ret id.

(** [create_showback], src/finops.rs:489-541 *)
Definition create_showback (caller : Address) (team : Bytes) (amount : Z) (currency : Symbol)
    (period : Bytes) (cost_center_id : Hash) : M Hash :=
  do* require_auth caller in
  do* validate_amount amount in
  do* require_non_empty team FinOpsError.InvalidAllocation in
  do* require_non_empty period FinOpsError.InvalidPeriod in
  do* load (DataKey.CostCenter cost_center_id) FinOpsError.CostCenterNotFound in
  let* id := compute_id "showback" team in
  let* now := ledger_timestamp in
  do* pset (DataKey.Showback id) (mkShowbackRecord id team amount currency period now cost_center_id) in
  let* count := pget_or DataKey.ShowbackCount 0 in
  let* count' := u32_add count 1 in
  do* pset DataKey.ShowbackCount count' in
  do* fin_note "showback" [PAddr caller; PHash id] in
  ret id.

(** [approve_chargeback], src/finops.rs:544-557 *)
Definition approve_chargeback (caller : Address) (id : Hash) : M unit :=
  do* require_auth caller in
  let* record := load (DataKey.Chargeback id) FinOpsError.CostCenterNotFound in
  pset (DataKey.Chargeback id) (set_cb_status 2 record).

(** ** Sizing *)

(** [record_resource], src/finops.rs:562-606 *)
Definition record_resource (caller : Address) (resource_type : Symbol) (current_size monthly_cost : Z)
    (region : Bytes) : M Hash :=
  do* require_auth caller in
  let* id := compute_id "resource" (str_bytes resource_type) in
  let* now := ledger_timestamp in
  do* pset (DataKey.Resource id)
        (mkResourceRecord id resource_type current_size 0 monthly_cost 0 region now true) in
  let* count := pget_or DataKey.ResourceCount 0 in
  let* count' := u32_add count 1 in
  do* pset DataKey.ResourceCount count' in
  do* fin_note "resource" [PAddr caller; PHash id] in
  ret id.

(** [generate_rightsizing], src/finops.rs:609-667 *)
Definition generate_rightsizing (caller : Address) (resource_id : Hash) : M Hash :=
  do* require_auth caller in
  let* resource := load (DataKey.Resource resource_id) FinOpsError.ResourceNotFound in
  do* reject_if (negb (rr_active resource)) FinOpsError.ResourceNotFound in
  let recommended_size := if Z.ltb 1 (rr_current_size resource) then rr_current_size resource / 2
                          else rr_current_size resource in
  let monthly_savings := if Z.ltb recommended_size (rr_current_size resource)
                         then rr_monthly_cost resource / 2 else 0 in
  let* rec_id := compute_id "rightsizing" resource_id in
  let* now := ledger_timestamp in
  let recommendation := mkRightsizingRecommendation resource_id 1 (rr_current_size resource)
                          recommended_size monthly_savings 75
                          (str_bytes "Right-size based on utilization analysis") now in
  do* pset (DataKey.RightsizingRec rec_id) recommendation in
  let* count := pget_or DataKey.RightsizingCount 0 in
  let* count' := u32_add count 1 in
  do* pset DataKey.RightsizingCount count' in
  do* fin_note "rightsize" [PAddr caller; PHash rec_id] in
  ret rec_id.

(** [get_rightsizing], src/finops.rs:670-675 *)
Definition get_rightsizing (id : Hash) : M RightsizingRecommendation :=
  load (DataKey.RightsizingRec id) FinOpsError.ResourceNotFound.

(** ** Anomalies *)

(** The deviation of [record_anomaly], src/finops.rs:690-694 *)
Definition deviation_of (expected_cost actual_cost : Z) : M Z :=
  if Z.ltb 0 expected_cost then
    let* d := u_sub actual_cost expected_cost in
    let* d := u64_mul d 100 in
    ret ((d / expected_cost) mod 2 ^ 32)
  else ret 0.

(** Its severity, src/finops.rs:696-704 *)
Definition severity_of (deviation_pct : Z) : Z :=
  if Z.ltb 50 deviation_pct then 3 else if Z.ltb 25 deviation_pct then 2
  else if Z.ltb 10 deviation_pct then 1 else 0.

(** [record_anomaly], src/finops.rs:680-740 *)
Definition record_anomaly (caller : Address) (resource_id : Hash) (expected_cost actual_cost : Z)
    (metadata : Bytes) : M Hash :=
  do* require_auth caller in
  let* deviation_pct := deviation_of expected_cost actual_cost in
  let severity := severity_of deviation_pct in
  let* id := compute_id "anomaly" resource_id in
  let* now := ledger_timestamp in
  do* pset (DataKey.CostAnomaly id)
        (mkCostAnomaly id resource_id expected_cost actual_cost deviation_pct severity now false
           metadata) in
  let* count := pget_or DataKey.AnomalyCount 0 in
  let* count' := u32_add count 1 in
  do* pset DataKey.AnomalyCount count' in
  do* fin_note "anomaly" [PAddr caller; PHash id] in
  ret id.

(** [for i in 0..count] over the records stored under the bytes of [i]. *)
Definition for_each {A B} (count : Z) (read : Hash -> M (option A)) (body : B -> A -> M B) (b : B)
    : M B :=
  fold_m (fun b i =>
    let* h := unwrap (from_slice (u32_to_bytes i)) in
    let* r := read h in
    match r with Some r => body b r | None => ret b end) b (range 0 count).

(** [detect_anomalies], src/finops.rs:743-766 *)
Definition detect_anomalies (caller : Address) (resource_id : Hash) : M (list Hash) :=
  do* require_auth caller in
  let* count := pget_or DataKey.AnomalyCount 0 in
  for_each count (fun h => pget (DataKey.CostAnomaly h)) (fun anomalies (a : CostAnomaly) =>
    ret (if bool_decide (an_resource_id a = resource_id) && negb (an_resolved a)
            && Z.leb 2 (an_severity a) then anomalies ++ [an_id a] else anomalies)) [].

(** [resolve_anomaly], src/finops.rs:769-782 *)
Definition resolve_anomaly (caller : Address) (id : Hash) : M unit :=
  do* require_auth caller in
  let* anomaly := load (DataKey.CostAnomaly id) FinOpsError.AnomalyNotFound in
  pset (DataKey.CostAnomaly id) (set_an_resolved true anomaly).

(** ** Budgets *)

(** [create_budget], src/finops.rs:787-842 *)
Definition create_budget (caller : Address) (name : Bytes) (cost_center_id : Hash) (amount : Z)
    (currency : Symbol) (period : Bytes) (alert_thresholds : list Z) : M Hash :=
  do* require_auth caller in
  do* validate_amount amount in
  do* require_non_empty name FinOpsError.InvalidAllocation in
  do* require_non_empty period FinOpsError.InvalidPeriod in
  do* load (DataKey.CostCenter cost_center_id) FinOpsError.CostCenterNotFound in
  let* id := compute_id "budget" name in
  let* now := ledger_timestamp in
  do* pset (DataKey.Budget id)
        (mkBudget id name cost_center_id amount currency period alert_thresholds now true) in
  let* count := pget_or DataKey.BudgetCount 0 in
  let* count' := u32_add count 1 in
  do* pset DataKey.BudgetCount count' in
  do* fin_note "budget_create" [PAddr caller; PHash id] in
  ret id.

(** The share of a budget that is spent, in per cent, cut to 32 bits,
    src/finops.rs:858-862 *)
Definition utilization_of (current_spend amount : Z) : M Z :=
  if Z.ltb 0 amount then
    let* n := u64_mul current_spend 100 in
    ret ((n / amount) mod 2 ^ 32)
  else ret 0.

(** [check_budget]: the first threshold reached, in the order of the list,
    raises one alert, src/finops.rs:845-911 *)
Definition check_budget (caller : Address) (budget_id : Hash) (current_spend : Z) : M Hash :=
  do* require_auth caller in
  let* budget := load (DataKey.Budget budget_id) FinOpsError.BudgetNotFound in
  do* reject_if (negb (bu_active budget)) FinOpsError.BudgetNotFound in
  let* utilization_pct := utilization_of current_spend (bu_amount budget) in
  let* none := unwrap (from_slice zero32) in
  match find (fun threshold => Z.leb threshold utilization_pct) (bu_alert_thresholds budget) with
  | None => ret none
  | Some threshold =>
      let* alert_id := compute_id "alert" budget_id in
      let* now := ledger_timestamp in
      let alert := mkBudgetAlert alert_id budget_id current_spend threshold
                     (str_bytes "Budget utilization at " ++ decimal utilization_pct ++ str_bytes "%")
                     now false in
      do* pset (DataKey.BudgetAlert alert_id) alert in
      let* count := pget_or DataKey.AlertCount 0 in
      let* count' := u32_add count 1 in
      do* pset DataKey.AlertCount count' in
      do* fin_note "budget_alert" [PAddr caller; PHash alert_id] in
      ret alert_id
  end.

(** [get_budget], src/finops.rs:914-919 *)
Definition get_budget (id : Hash) : M Budget := load (DataKey.Budget id) FinOpsError.BudgetNotFound.

(** ** Dashboard *)

(** The share of one allocation in a budget; Rust panics on a zero amount. *)
Definition add_share (amount : Z) (util : Z) (alloc_id : Hash) : M Z :=
  let* alloc := pget (DataKey.CostAllocation alloc_id) in
  match alloc with
  | Some alloc =>
      let* n := u64_mul (ca_amount alloc) 100 in
      do* (if Z.eqb amount 0 then panic Overflow else ret tt) in
      u32_add util ((n / amount) mod 2 ^ 32)
  | None => ret util
  end.

(** [generate_dashboard], src/finops.rs:924-1009 *)
Definition generate_dashboard : M CostDashboard :=
  let* allocation_count := pget_or DataKey.AllocationCount 0 in
  let* total_cost := for_each allocation_count (fun h => pget (DataKey.CostAllocation h))
    (fun total (a : CostAllocation) => u64_add total (ca_amount a)) 0 in
  let* anomaly_count := pget_or DataKey.AnomalyCount 0 in
  let* active_anomalies := for_each anomaly_count (fun h => pget (DataKey.CostAnomaly h))
    (fun active (a : CostAnomaly) => if negb (an_resolved a) then u32_add active 1 else ret active) 0 in
  let* rightsizing_count := pget_or DataKey.RightsizingCount 0 in
  let* total_savings := for_each rightsizing_count (fun h => pget (DataKey.RightsizingRec h))
    (fun total (r : RightsizingRecommendation) => u64_add total (rz_monthly_savings r)) 0 in
  let* budget_count := pget_or DataKey.BudgetCount 0 in
  let* budget_util := for_each budget_count (fun h => pget (DataKey.Budget h))
    (fun util (b : Budget) =>
       if bu_active b then
         let* center_allocs := get_center_allocations (bu_cost_center_id b) in
         fold_m (add_share (bu_amount b)) util center_allocs
       else ret util) 0 in
  let budget_util := if Z.ltb 0 budget_count then budget_util / budget_count else budget_util in
  let* now := ledger_timestamp in
  ret (mkCostDashboard total_cost [] [] [] total_savings active_anomalies budget_util now).

(** [get_cost_summary]; the source writes the field top_cost_drivers as
    top_drivers, src/finops.rs:1012-1044 *)
Definition get_cost_summary (period : Bytes) : M CostSummary :=
  let* allocation_count := pget_or DataKey.AllocationCount 0 in
  let* total_cost := for_each allocation_count (fun h => pget (DataKey.CostAllocation h))
    (fun total (a : CostAllocation) =>
       if bool_decide (ca_period a = period) then u64_add total (ca_amount a) else ret total) 0 in
  let* forecasted := (if Z.ltb 0 total_cost then u64_add total_cost (total_cost / 10) else ret 0) in
  let* now := ledger_timestamp in
  ret (mkCostSummary period total_cost forecasted 0 [] now).

(** [get_cost_center_count], src/finops.rs:1049-1054 *)
Definition get_cost_center_count : M Z := pget_or DataKey.CostCenterCount 0.

(** [get_allocation_count], src/finops.rs:1057-1062 *)
Definition get_allocation_count : M Z := pget_or DataKey.AllocationCount 0.

(** [get_active_anomaly_count], src/finops.rs:1065-1083 *)
Definition get_active_anomaly_count : M Z :=
  let* count := pget_or DataKey.AnomalyCount 0 in
  for_each count (fun h => pget (DataKey.CostAnomaly h))
    (fun active (a : CostAnomaly) => if negb (an_resolved a) then u32_add active 1 else ret active) 0.

(** ** The transition system *)

Inductive fcall : Type :=
  | FCenter (caller : Address) (name : Bytes) (budget : Z) (currency : Symbol)
  | FSetBudget (caller : Address) (id : Hash) (budget : Z)
  | FDeactivate (caller : Address) (id : Hash)
  | FAllocate (caller : Address) (center : Hash) (type : Symbol) (amount : Z) (currency : Symbol)
      (period metadata : Bytes)
  | FChargeback (caller : Address) (team : Bytes) (amount : Z) (currency : Symbol) (period : Bytes)
      (center : Hash)
  | FShowback (caller : Address) (team : Bytes) (amount : Z) (currency : Symbol) (period : Bytes)
      (center : Hash)
  | FApprove (caller : Address) (id : Hash)
  | FResource (caller : Address) (type : Symbol) (size cost : Z) (region : Bytes)
  | FRightsize (caller : Address) (resource : Hash)
  | FAnomaly (caller : Address) (resource : Hash) (expected actual : Z) (metadata : Bytes)
  | FResolve (caller : Address) (id : Hash)
  | FBudget (caller : Address) (name : Bytes) (center : Hash) (amount : Z) (currency : Symbol)
      (period : Bytes) (thresholds : list Z)
  | FCheck (caller : Address) (budget : Hash) (spend : Z).

Definition fexec (k : fcall) : M unit :=
  match k with
  | FCenter a n b x => do* register_cost_center a n b x in ret tt
  | FSetBudget a i b => update_cost_center_budget a i b
  | FDeactivate a i => deactivate_cost_center a i
  | FAllocate a x t n y p m => do* allocate_cost a x t n y p m in ret tt
  | FChargeback a t n x p i => do* create_chargeback a t n x p i in ret tt
  | FShowback a t n x p i => do* create_showback a t n x p i in ret tt
  | FApprove a i => approve_chargeback a i
  | FResource a t n x r => do* record_resource a t n x r in ret tt
  | FRightsize a r => do* generate_rightsizing a r in ret tt
  | FAnomaly a r x y m => do* record_anomaly a r x y m in ret tt
  | FResolve a i => resolve_anomaly a i
  | FBudget a n i x y p l => do* create_budget a n i x y p l in ret tt
  | FCheck a b n => do* check_budget a b n in ret tt
  end.

Inductive fstep : St -> St -> Prop :=
  | fstep_call k c s s' : fexec k c s = Ok (tt, s') -> fstep s s'.
End Operations.

(** * Properties of cost management

    Cost centers obey their owners; budgets raise the first alert they reach;
    resources are halved. Identifiers repeat within a second, percentages are
    cut to 32 bits, savings are no anomalies, and the dashboard looks for
    records where none are. *)


#[local] Arguments str_bytes : simpl never.
#[local] Arguments decimal : simpl never.

Section FinOpsProps.
Context `{C : Crypto} `{F : SliceHash}.

Ltac unfold_fin R :=
  unfold register_cost_center, update_cost_center_budget, deactivate_cost_center, allocate_cost,
    create_chargeback, create_showback, approve_chargeback, record_resource, generate_rightsizing,
    record_anomaly, deviation_of, resolve_anomaly, create_budget, check_budget, utilization_of,
    require_non_empty, validate_amount, load, compute_id, fin_note in R.

(** ** Cost centers *)

(** What no call changes of a cost center. *)
Definition identity_of (x : CostCenter) :=
  (cc_id x, cc_name x, cc_owner x, cc_currency x, cc_created_at x).

(** A cost center keeps its identity; its budget and its activity change only by a call its owner
    signed; a budget is never set to 0; and a center that is closed stays closed. *)
Theorem cost_centers_obey_their_owner k (c : Ctx) (s s' : St) i x :
  fexec k c s = Ok (tt, s') -> sget (pers s) (DataKey.CostCenter i) = Some x ->
  exists x', sget (pers s') (DataKey.CostCenter i) = Some x' /\ identity_of x' = identity_of x /\
    (x' <> x -> cx_auth c (cc_owner x) = true) /\
    (cc_budget x' <> cc_budget x -> cc_budget x' <> 0) /\
    (cc_active x = false -> cc_active x' = false).
Proof.
  intros R Hx.
  assert (Hsame : sget (pers s') (DataKey.CostCenter i) = Some x ->
    exists x', sget (pers s') (DataKey.CostCenter i) = Some x' /\ identity_of x' = identity_of x /\
    (x' <> x -> cx_auth c (cc_owner x) = true) /\
    (cc_budget x' <> cc_budget x -> cc_budget x' <> 0) /\
    (cc_active x = false -> cc_active x' = false)).
  { intros H. exists x. done. }
  destruct k; simpl in R; unfold_fin R; mcase; try (apply Hsame; by store_reads).
  - apply Hsame. match goal with H : shas _ _ = false |- _ => apply shas_false in H end.
    match goal with H : sget _ (DataKey.CostCenter ?j) = None |- _ => destruct (decide (i = j)) as [->|] end;
      [congruence|]. by store_reads.
  - destruct (decide (i = id)) as [->|Hne]; [|apply Hsame; by store_reads].
    match goal with B : bool_decide _ = false |- _ => apply bool_decide_eq_false in B; apply dec_stable in B end.
    zcase. simplify_eq. eexists. rewrite sset_eq. split; [done|]. split; [done|]. done.
  - destruct (decide (i = id)) as [->|Hne]; [|apply Hsame; by store_reads].
    match goal with B : bool_decide _ = false |- _ => apply bool_decide_eq_false in B; apply dec_stable in B end.
    simplify_eq. eexists. rewrite sset_eq. split; [done|]. split; [done|]. done.
Qed.

(** ** Allocations *)

(** Two costs allocated to one center within one second get the same identifier: the second
    allocation replaces the first, and the center lists it twice. *)
Theorem allocations_of_one_second_collide who center t1 t2 a1 a2 cur1 cur2 p1 p2 m1 m2
    (c : Ctx) (s s1 s2 : St) id1 id2 :
  allocate_cost who center t1 a1 cur1 p1 m1 c s = Ok (id1, s1) ->
  allocate_cost who center t2 a2 cur2 p2 m2 c s1 = Ok (id2, s2) ->
  id1 = id2 /\ ca_amount <$> sget (pers s2) (DataKey.CostAllocation id1) = Some a2 /\
  exists l, sget (pers s2) (DataKey.CenterAllocations center) = Some (l ++ [id1; id1]).
Proof.
  intros R1 R2. unfold_fin R1. unfold_fin R2. minv. split; [done|]. split.
  - by store_reads.
  - eexists. store_reads. f_equal. by rewrite <- app_assoc.
Qed.

(** Whoever signs approves any chargeback, also one already approved. *)
Theorem anyone_approves_chargebacks who i r (c : Ctx) (s : St) :
  sget (pers s) (DataKey.Chargeback i) = Some r -> cx_auth c who = true ->
  exists s', approve_chargeback who i c s = Ok (tt, s') /\
    cb_status <$> sget (pers s') (DataKey.Chargeback i) = Some 2.
Proof.
  intros Hr Ha. unfold approve_chargeback, load, bind, require_auth, pget, unwrap_or_raise, pset, ret.
  rewrite Ha, Hr. simpl. eexists. split; [reflexivity|]. simpl. by rewrite sset_eq.
Qed.

(** ** Sizing *)

(** A recommendation about a resource of a size of at least 1 proposes a smaller, positive size, or
    the size 1 it has, and promises at most half its cost. *)
Theorem recommendations_shrink who i (c : Ctx) (s s' : St) x id :
  sget (pers s) (DataKey.Resource i) = Some x -> 1 <= rr_current_size x -> 0 <= rr_monthly_cost x ->
  generate_rightsizing who i c s = Ok (id, s') ->
  exists r, sget (pers s') (DataKey.RightsizingRec id) = Some r /\ rz_resource_id r = i /\
    1 <= rz_recommended_size r <= rr_current_size x /\
    (rz_recommended_size r = rr_current_size x <-> rr_current_size x = 1) /\
    0 <= rz_monthly_savings r /\ 2 * rz_monthly_savings r <= rr_monthly_cost x.
Proof.
  intros Hx Hsz Hc R. unfold_fin R. minv. simplify_eq. eexists. store_reads. split; [done|].
  cbn [rz_resource_id rz_recommended_size rz_monthly_savings]. split; [done|].
  set (n := rr_current_size x) in *. set (m := rr_monthly_cost x) in *.
  pose proof (Z.div_mod n 2 ltac:(lia)). pose proof (Z.mod_pos_bound n 2 ltac:(lia)).
  pose proof (Z.div_mod m 2 ltac:(lia)). pose proof (Z.mod_pos_bound m 2 ltac:(lia)).
  destruct (Z.ltb_spec 1 n) as [Hn|Hn].
  - destruct (Z.ltb_spec (n / 2) n) as [Hh|Hh]; lia.
  - destruct (Z.ltb_spec n n) as [Hh|Hh]; lia.
Qed.

(** ** Anomalies *)

(** A cost below the expected one cannot be recorded as an anomaly: the difference underflows. *)
Theorem savings_are_no_anomalies who i expected actual m (c : Ctx) (s : St) :
  cx_auth c who = true -> 0 <= actual < expected ->
  record_anomaly who i expected actual m c s = Err (Panic Overflow).
Proof.
  intros Ha [H0 H]. unfold record_anomaly, deviation_of, bind, require_auth, u_sub. rewrite Ha.
  rewrite (proj2 (Z.ltb_lt 0 expected)) by lia. by rewrite (proj2 (Z.leb_gt expected actual)).
Qed.

(** The severity of a recorded anomaly: by more than a half, by more than a quarter, by more than a
    tenth, as long as the excess stays below 2^32 per cent. *)
Theorem severity_follows_the_excess who i expected actual m (c : Ctx) (s s' : St) id :
  0 < expected -> expected <= actual -> (actual - expected) * 100 / expected < 2 ^ 32 ->
  record_anomaly who i expected actual m c s = Ok (id, s') ->
  exists r, sget (pers s') (DataKey.CostAnomaly id) = Some r /\
    an_resource_id r = i /\ an_resolved r = false /\
    (an_severity r = 3 <-> 51 * expected <= (actual - expected) * 100) /\
    (2 <= an_severity r <-> 26 * expected <= (actual - expected) * 100) /\
    (1 <= an_severity r <-> 11 * expected <= (actual - expected) * 100).
Proof.
  intros He Hle Hsmall R. unfold_fin R. rewrite (proj2 (Z.ltb_lt 0 expected)) in R by lia. minv.
  eexists. store_reads. split; [done|]. cbn [an_resource_id an_resolved an_severity].
  split; [done|]. split; [done|].
  set (d := (actual - expected) * 100) in *.
  assert (0 <= d / expected) by (apply Z.div_pos; unfold d; lia).
  rewrite Z.mod_small by lia.
  assert (Hk : forall k, k < d / expected <-> (k + 1) * expected <= d).
  { intros k. split; intros Hq.
    - pose proof (Z.mul_div_le d expected ltac:(lia)). nia.
    - assert (k + 1 <= d / expected) by (apply Z.div_le_lower_bound; lia). lia. }
  pose proof (Hk 50). pose proof (Hk 25). pose proof (Hk 10). unfold severity_of.
  destruct (Z.ltb_spec 50 (d / expected)), (Z.ltb_spec 25 (d / expected)),
    (Z.ltb_spec 10 (d / expected)); lia.
Qed.

(** ** Budgets *)

(** Checking an active budget either finds no threshold reached and changes nothing, or stores one
    alert, about the first threshold of the list that is reached. *)
Theorem alerts_name_the_first_threshold who i spend (c : Ctx) (s s' : St) b id :
  from_slice zero32 = Some zero32 ->
  sget (pers s) (DataKey.Budget i) = Some b -> 0 < bu_amount b ->
  check_budget who i spend c s = Ok (id, s') ->
  spend * 100 <= u64_max /\
  let used := (spend * 100 / bu_amount b) mod 2 ^ 32 in
  (Forall (fun t => used < t) (bu_alert_thresholds b) /\ id = zero32 /\ s' = s) \/
  (exists before t after a, bu_alert_thresholds b = before ++ t :: after /\
     Forall (fun t => used < t) before /\ t <= used /\
     sget (pers s') (DataKey.BudgetAlert id) = Some a /\ ba_threshold_pct a = t /\
     ba_budget_id a = i /\ ba_current_spend a = spend /\ ba_acknowledged a = false).
Proof.
  intros Hz Hb Hp R. unfold_fin R.
  apply bind_Ok in R as (u & s1 & Ra & R). apply require_auth_Ok in Ra as [_ ->].
  apply bind_Ok in R as (x & s1 & Rb & R). minv. rewrite Hb in *. simplify_eq.
  rewrite (proj2 (Z.ltb_lt 0 (bu_amount x))) in * by lia. minv. split; [lia|].
  set (used := (spend * 100 / bu_amount x) mod 2 ^ 32) in *.
  destruct (find _ (bu_alert_thresholds x)) as [t|] eqn:Ef.
  - right. minv. pose proof Ef as Ef'. apply find_some in Ef' as [_ Ht%Z.leb_le].
    assert (exists before after, bu_alert_thresholds x = before ++ t :: after /\
      Forall (fun t => used < t) before) as (before & after & El & Fb).
    { clear -Ef. induction (bu_alert_thresholds x) as [|y l IH]; [done|]. simpl in Ef.
      destruct (Z.leb_spec y used) as [Hy|Hy].
      - injection Ef as ->. by exists [], l.
      - destruct (IH Ef) as (before & after & -> & Fb). exists (y :: before), after.
        split; [done|]. by constructor. }
    eexists before, t, after, _. split; [done|]. split; [done|]. split; [done|]. store_reads. done.
  - left. minv. split; [|done]. apply Forall_forall. intros t Hin.
    pose proof (find_none _ _ Ef t) as Hn. apply list_elem_of_In in Hin. specialize (Hn Hin).
    simpl in Hn. by apply Z.leb_gt in Hn.
Qed.

(** The utilization is cut to 32 bits: spending 2^32 on a budget of 100 counts as none of it. *)
Theorem enormous_spending_is_unnoticed who i b (c : Ctx) (s : St) :
  from_slice zero32 = Some zero32 -> cx_auth c who = true ->
  sget (pers s) (DataKey.Budget i) = Some b -> bu_amount b = 100 -> bu_active b = true ->
  Forall (fun t => 0 < t) (bu_alert_thresholds b) ->
  check_budget who i (2 ^ 32) c s = Ok (zero32, s).
Proof.
  intros Hz Ha Hb Hm Hact Ft.
  unfold check_budget, utilization_of, load, bind, require_auth, pget, unwrap_or_raise, reject_if, u64_mul,
    ret, unwrap. rewrite Ha, Hb. simpl. rewrite Hact, Hm. simpl. rewrite Hz.
  change ((2 ^ 32 * 100 / 100) mod 2 ^ 32) with 0.
  assert (find (fun t => Z.leb t 0) (bu_alert_thresholds b) = None) as E.
  { destruct (find _ _) as [t|] eqn:E; [|done]. apply find_some in E as [Hin Hle%Z.leb_le].
    rewrite Forall_forall in Ft. apply list_elem_of_In in Hin. apply Ft in Hin. lia. }
  by rewrite E.
Qed.

(** ** Dashboard *)

(** Where the conversion of four bytes to 32 is refused, the dashboard panics from the first
    allocation on. *)
Theorem dashboard_breaks_with_the_first_allocation n (c : Ctx) (s : St) :
  (forall i, from_slice (u32_to_bytes i) = None) ->
  sget (pers s) DataKey.AllocationCount = Some n -> 0 < n ->
  generate_dashboard c s = Err (Panic Unwrap).
Proof.
  intros Hf Hn H0. unfold generate_dashboard, bind at 1, pget_or. rewrite Hn.
  unfold bind at 1, for_each. rewrite range_cons by lia. cbn [fold_m]. unfold bind at 1.
  unfold bind at 1. rewrite Hf. done.
Qed.
End FinOpsProps.

(** ** The properties at concrete states *)

#[local] Existing Instance sample_crypto.

(** A conversion that refuses every length but 32. *)
#[local] Instance slice_of_32 : SliceHash :=
  {| from_slice := fun l => if Nat.eqb (length l) 32 then Some l else None |}.

Definition f_call (t : Z) (k : fcall) (s : St) : St := post (fexec k) (at_time t) s.

Definition f_id (prefix : string) (data : Bytes) (t : Z) : Hash := fin_id prefix data t.
Definition f_center : Hash := f_id "cost_center" [1; 2] 100.
Definition f_start : St := f_call 100 (FCenter alice [1; 2] 5000 "USD") empty_state.
Definition f_spent : St := f_call 200 (FAllocate owner f_center "cpu" 40 "USD" [1] []) f_start.
Definition f_charged : St := f_call 200 (FChargeback owner [3] 10 "USD" [1] f_center) f_start.
Definition f_sized : St := f_call 200 (FResource owner "vm" 7 90 [1]) f_start.
Definition f_budget : St := f_call 200 (FBudget owner [4] f_center 100 "USD" [1] [50; 80]) f_start.

Lemma cost_centers_obey_their_owner_witness :
  exists x', sget (pers (f_call 300 (FSetBudget alice f_center 6000) f_start))
               (DataKey.CostCenter f_center) = Some x' /\ cc_budget x' <> 0.
Proof.
  assert (outcome (fexec (FSetBudget alice f_center 6000)) (at_time 300) f_start = Ok tt)
    as R%run_outcome by (vm_compute; reflexivity).
  destruct (sget (pers f_start) (DataKey.CostCenter f_center)) as [x|] eqn:E;
    [|vm_compute in E; discriminate].
  destruct (cost_centers_obey_their_owner _ _ _ _ _ _ R E) as (x' & E' & _ & _ & Hb & _).
  exists x'. split; [exact E'|]. apply Hb.
  vm_compute in E. injection E as <-. vm_compute in E'. injection E' as <-. done.
Defined.

Lemma allocations_of_one_second_collide_witness :
  exists id s2, allocate_cost owner f_center "disk" 7 "USD" [1] [] (at_time 200) f_spent = Ok (id, s2) /\
    ca_amount <$> sget (pers f_spent) (DataKey.CostAllocation id) = Some 40 /\
    ca_amount <$> sget (pers s2) (DataKey.CostAllocation id) = Some 7.
Proof.
  assert (outcome (allocate_cost owner f_center "cpu" 40 "USD" [1] []) (at_time 200) f_start
          = Ok (f_id "allocation" f_center 200)) as R1%run_outcome by (vm_compute; reflexivity).
  assert (outcome (allocate_cost owner f_center "disk" 7 "USD" [1] []) (at_time 200)
            (post (allocate_cost owner f_center "cpu" 40 "USD" [1] []) (at_time 200) f_start)
          = Ok (f_id "allocation" f_center 200)) as R2%run_outcome by (vm_compute; reflexivity).
  destruct (allocations_of_one_second_collide _ _ _ _ _ _ _ _ _ _ _ _ _ _ _ _ _ _ R1 R2) as (_ & H & _).
  eexists _, _. split; [|split; [|exact H]].
  - assert (post (allocate_cost owner f_center "cpu" 40 "USD" [1] []) (at_time 200) f_start = f_spent)
      as <- by reflexivity. exact R2.
  - vm_compute. reflexivity.
Defined.

Lemma anyone_approves_chargebacks_witness :
  exists s', approve_chargeback "mallory" (f_id "chargeback" [3] 200) (at_time 300) f_charged = Ok (tt, s').
Proof.
  destruct (sget (pers f_charged) (DataKey.Chargeback (f_id "chargeback" [3] 200))) as [r|] eqn:E;
    [|vm_compute in E; discriminate].
  destruct (anyone_approves_chargebacks "mallory" _ r (at_time 300) f_charged E) as (s' & R & _); [done|].
  by exists s'.
Defined.

Lemma recommendations_shrink_witness :
  exists id s' r, generate_rightsizing owner (f_id "resource" (str_bytes "vm") 200) (at_time 300) f_sized
      = Ok (id, s') /\
    sget (pers s') (DataKey.RightsizingRec id) = Some r /\ 2 * rz_monthly_savings r <= 90.
Proof.
  destruct (sget (pers f_sized) (DataKey.Resource (f_id "resource" (str_bytes "vm") 200))) as [x|] eqn:E;
    [|vm_compute in E; discriminate].
  assert (rr_current_size x = 7 /\ rr_monthly_cost x = 90) as [Es Ec]
    by (vm_compute in E; injection E as <-; done).
  destruct (generate_rightsizing owner (f_id "resource" (str_bytes "vm") 200) (at_time 300) f_sized)
    as [[id s']|] eqn:R; [|exfalso; vm_compute in R; discriminate].
  edestruct recommendations_shrink as (r & Er & _ & _ & _ & _ & H);
    [exact E|rewrite Es; lia|rewrite Ec; lia|exact R|].
  exists id, s', r. split; [done|]. split; [exact Er|]. rewrite Ec in H. exact H.
Defined.

Lemma savings_are_no_anomalies_witness :
  record_anomaly owner [1] 100 60 [] (at_time 300) f_start = Err (Panic Overflow).
Proof. apply savings_are_no_anomalies; [done|lia]. Defined.

Lemma severity_follows_the_excess_witness :
  exists id s' r, record_anomaly owner [1] 100 130 [] (at_time 300) f_start = Ok (id, s') /\
    sget (pers s') (DataKey.CostAnomaly id) = Some r /\ 2 <= an_severity r.
Proof.
  destruct (record_anomaly owner [1] 100 130 [] (at_time 300) f_start) as [[id s']|] eqn:R;
    [|exfalso; vm_compute in R; discriminate].
  edestruct severity_follows_the_excess as (r & Er & _ & _ & _ & H & _);
    [| | |exact R|]; [lia|lia|done|].
  exists id, s', r. split; [done|]. split; [exact Er|]. apply H. lia.
Defined.

Lemma alerts_name_the_first_threshold_witness :
  exists id s' a, check_budget owner (f_id "budget" [4] 200) 90 (at_time 300) f_budget = Ok (id, s') /\
    sget (pers s') (DataKey.BudgetAlert id) = Some a /\ ba_current_spend a = 90.
Proof.
  destruct (sget (pers f_budget) (DataKey.Budget (f_id "budget" [4] 200))) as [b|] eqn:E;
    [|vm_compute in E; discriminate].
  assert (bu_amount b = 100 /\ bu_alert_thresholds b = [50; 80]) as [Em Et]
    by (vm_compute in E; injection E as <-; done).
  destruct (check_budget owner (f_id "budget" [4] 200) 90 (at_time 300) f_budget) as [[id s']|] eqn:R;
    [|exfalso; vm_compute in R; discriminate].
  edestruct alerts_name_the_first_threshold
    as [_ [(Fb & _ & _)|(l & t & l' & a & _ & _ & _ & Ea & _ & _ & Hs & _)]];
    [reflexivity|exact E|rewrite Em; lia|exact R|..].
  - exfalso. rewrite Et, Em in Fb. apply Forall_cons in Fb as [Fb _]. vm_compute in Fb. discriminate.
  - by exists id, s', a.
Defined.

Lemma enormous_spending_is_unnoticed_witness :
  check_budget owner (f_id "budget" [4] 200) (2 ^ 32) (at_time 300) f_budget = Ok (zero32, f_budget).
Proof.
  destruct (sget (pers f_budget) (DataKey.Budget (f_id "budget" [4] 200))) as [b|] eqn:E;
    [|vm_compute in E; discriminate].
  apply (enormous_spending_is_unnoticed owner _ b); [reflexivity|done|exact E|..];
    vm_compute in E; injection E as <-; [done|done|by repeat constructor].
Defined.

Lemma dashboard_breaks_with_the_first_allocation_witness :
  generate_dashboard (at_time 300) f_spent = Err (Panic Unwrap).
Proof.
  apply (dashboard_breaks_with_the_first_allocation 1); [done|vm_compute; reflexivity|lia].
Defined.
