(* ===== verification/Analytics.v ===== *)
(** * Privacy-preserving analytics

    The contract of src/privacy_preserving_analytics.rs: a privacy budget with
    the queries that spend it, rounds of federated learning, sessions of
    multi-party computation and encrypted metrics, all in instance storage. *)

From stdpp Require Import relations.
From S2P Require Import Prelude Contract StorageLemmas Codec.

(** ** Data *)

Module PrivacyAnalyticsError.
(** [PrivacyAnalyticsError], src/privacy_preserving_analytics.rs:21-34 *)
Inductive PrivacyAnalyticsError : Set :=
  | NotInitialized | AlreadyInitialized | Unauthorized | BudgetExhausted | InvalidSensitivity
  | RoundNotFound | RoundClosed | InsufficientParticipants | DuplicateGradientSubmission
  | SmpcSessionNotFound | SmpcThresholdNotMet | InvalidProof.
#[global] Instance PrivacyAnalyticsError_eq_dec : EqDecision PrivacyAnalyticsError.
Proof. solve_decision. Defined.

(** [PrivacyAnalyticsError], its discriminants, src/privacy_preserving_analytics.rs:21-34 *)
Definition code (x : PrivacyAnalyticsError) : Z :=
  match x with
  | NotInitialized => 1 | AlreadyInitialized => 2 | Unauthorized => 3 | BudgetExhausted => 4
  | InvalidSensitivity => 5 | RoundNotFound => 6 | RoundClosed => 7
  | InsufficientParticipants => 8 | DuplicateGradientSubmission => 9 | SmpcSessionNotFound => 10
  | SmpcThresholdNotMet => 11 | InvalidProof => 12
  end.
End PrivacyAnalyticsError.
Abbreviation PrivacyAnalyticsError := PrivacyAnalyticsError.PrivacyAnalyticsError.

(** [PrivacyBudget], src/privacy_preserving_analytics.rs:43-50 *)
Record PrivacyBudget := mkPrivacyBudget {
  pb_max_epsilon_scaled : Z;
  pb_max_delta_scaled : Z;
  pb_spent_epsilon_scaled : Z;
  pb_spent_delta_scaled : Z;
  pb_query_count : Z;
  pb_last_reset : Z }.

Module NoiseMechanism.
(** [NoiseMechanism], src/privacy_preserving_analytics.rs:56-59 *)
Inductive NoiseMechanism : Set :=
  | Laplace | Gaussian.
#[global] Instance NoiseMechanism_eq_dec : EqDecision NoiseMechanism.
Proof. solve_decision. Defined.

(** [NoiseMechanism], its discriminants, src/privacy_preserving_analytics.rs:56-59 *)
Definition code (x : NoiseMechanism) : Z :=
  match x with
  | Laplace => 0 | Gaussian => 1
  end.
End NoiseMechanism.
Abbreviation NoiseMechanism := NoiseMechanism.NoiseMechanism.

Module DPQueryType.
(** [DPQueryType], src/privacy_preserving_analytics.rs:65-70 *)
Inductive DPQueryType : Set :=
  | Count | Sum | Average | Histogram.
#[global] Instance DPQueryType_eq_dec : EqDecision DPQueryType.
Proof. solve_decision. Defined.

(** [DPQueryType], its discriminants, src/privacy_preserving_analytics.rs:65-70 *)
Definition code (x : DPQueryType) : Z :=
  match x with
  | Count => 0 | Sum => 1 | Average => 2 | Histogram => 3
  end.
End DPQueryType.
Abbreviation DPQueryType := DPQueryType.DPQueryType.

(** [DPQueryRecord], src/privacy_preserving_analytics.rs:75-84 *)
Record DPQueryRecord := mkDPQueryRecord {
  dq_query_id : Hash;
  dq_query_type : DPQueryType;
  dq_caller : Address;
  dq_sensitivity : Z;
  dq_epsilon_cost_scaled : Z;
  dq_noise_mechanism : NoiseMechanism;
  dq_noisy_result : Z;
  dq_executed_at : Z }.

(** [FLRound], src/privacy_preserving_analytics.rs:89-97 *)
Record FLRound := mkFLRound {
  fr_round_id : Z;
  fr_model_id : Symbol;
  fr_global_weights_hash : Hash;
  fr_min_participants : Z;
  fr_participant_count : Z;
  fr_status : Symbol;
  fr_created_at : Z }.
Definition set_fr_participant_count (v : Z) (r : FLRound) : FLRound :=
  mkFLRound (fr_round_id r) (fr_model_id r) (fr_global_weights_hash r) (fr_min_participants r) v
  (fr_status r) (fr_created_at r).
Definition set_fr_global_weights_hash (v : Hash) (r : FLRound) : FLRound :=
  mkFLRound (fr_round_id r) (fr_model_id r) v (fr_min_participants r) (fr_participant_count r)
  (fr_status r) (fr_created_at r).
Definition set_fr_status (v : Symbol) (r : FLRound) : FLRound :=
  mkFLRound (fr_round_id r) (fr_model_id r) (fr_global_weights_hash r) (fr_min_participants r)
  (fr_participant_count r) v (fr_created_at r).

(** [FLGradientSubmission], src/privacy_preserving_analytics.rs:102-108 *)
Record FLGradientSubmission := mkFLGradientSubmission {
  fg_round_id : Z;
  fg_participant : Address;
  fg_gradient_hash : Hash;
  fg_sample_size : Z;
  fg_submitted_at : Z }.

(** [SmpcSession], src/privacy_preserving_analytics.rs:113-123 *)
Record SmpcSession := mkSmpcSession {
  ss_session_id : Hash;
  ss_initiator : Address;
  ss_threshold : Z;
  ss_total_parties : Z;
  ss_metric_id : Symbol;
  ss_commitments_count : Z;
  ss_aggregated_result_hash : Hash;
  ss_status : Symbol;
  ss_created_at : Z }.

(** [HomomorphicMetricRecord], src/privacy_preserving_analytics.rs:128-135 *)
Record HomomorphicMetricRecord := mkHomomorphicMetricRecord {
  hm_ciphertext_id : Hash;
  hm_submitter : Address;
  hm_encrypted_value : Bytes;
  hm_public_key_hash : Hash;
  hm_proof_of_validity : Bytes;
  hm_timestamp : Z }.

Module PrivacyKey.
(** [PrivacyKey], src/privacy_preserving_analytics.rs:142-152 *)
Inductive PrivacyKey : Set :=
  | Admin
  | Budget
  | DPQuery (a0 : Hash)
  | FLRound (a0 : Z)
  | FLGradient (a0 : Z) (a1 : Address)
  | NextRoundId
  | SmpcSession (a0 : Hash)
  | SmpcCommitment (a0 : Hash) (a1 : Address)
  | HomomorphicMetric (a0 : Hash).
#[global] Instance PrivacyKey_eq_dec : EqDecision PrivacyKey.
Proof. solve_decision. Defined.
End PrivacyKey.
Abbreviation PrivacyKey := PrivacyKey.PrivacyKey.

(** ** Layout *)

Inductive AnalyticsTy : Set :=
  | AvAddress | AvBudget | AvQuery | AvRound | AvGradient | AvCount | AvSession | AvCommitment | AvMetric.
#[global] Instance AnalyticsTy_eq_dec : EqDecision AnalyticsTy.
Proof. solve_decision. Defined.

Definition analytics_el (t : AnalyticsTy) : Type :=
  match t with
  | AvAddress => Address
  | AvBudget => PrivacyBudget
  | AvQuery => DPQueryRecord
  | AvRound => FLRound
  | AvGradient => FLGradientSubmission
  | AvCount => Z
  | AvSession => SmpcSession
  | AvCommitment => Hash
  | AvMetric => HomomorphicMetricRecord
  end.

Definition analytics_key_ty (k : PrivacyKey) : AnalyticsTy :=
  match k with
  | PrivacyKey.Admin => AvAddress
  | PrivacyKey.Budget => AvBudget
  | PrivacyKey.DPQuery _ => AvQuery
  | PrivacyKey.FLRound _ => AvRound
  | PrivacyKey.FLGradient _ _ => AvGradient
  | PrivacyKey.NextRoundId => AvCount
  | PrivacyKey.SmpcSession _ => AvSession
  | PrivacyKey.SmpcCommitment _ _ => AvCommitment
  | PrivacyKey.HomomorphicMetric _ => AvMetric
  end.

Canonical analytics_layout : Layout := {|
  key := PrivacyKey; ty := AnalyticsTy; el := analytics_el; layout_key_ty := analytics_key_ty;
  key_dec := _; ty_dec := _; error := PrivacyAnalyticsError; datum := Payload |}.

#[local] Abbreviation M := (CM analytics_layout).
#[local] Abbreviation store := (kvstore analytics_layout).
#[local] Abbreviation St := (CSt analytics_layout).

(** ** Operations *)

(** [initialize], src/privacy_preserving_analytics.rs:164-191 *)
Definition initialize (admin : Address) (max_epsilon_scaled max_delta_scaled : Z) : M unit :=
  let* there := ihas PrivacyKey.Admin in
  do* reject_if there PrivacyAnalyticsError.AlreadyInitialized in
  do* require_auth admin in
  let* now := ledger_timestamp in
  let budget := mkPrivacyBudget max_epsilon_scaled max_delta_scaled 0 0 0 now in
  do* iset PrivacyKey.Admin admin in
  do* iset PrivacyKey.Budget budget in
  iset PrivacyKey.NextRoundId 1.

(** The budget after a query of the given cost,
    src/privacy_preserving_analytics.rs:220-221 *)
Definition charged (b : PrivacyBudget) (spent count : Z) : PrivacyBudget :=
  mkPrivacyBudget (pb_max_epsilon_scaled b) (pb_max_delta_scaled b) spent (pb_spent_delta_scaled b)
    count (pb_last_reset b).

(** [execute_dp_query], src/privacy_preserving_analytics.rs:194-241 *)
Definition execute_dp_query (caller : Address) (query_id : Hash) (query_type : DPQueryType)
    (sensitivity epsilon_cost_scaled : Z) (noise_mechanism : NoiseMechanism) (noisy_result : Z)
    : M Z :=
  do* require_auth caller in
  let* budget := iget PrivacyKey.Budget in
  let* budget := unwrap_or_raise budget PrivacyAnalyticsError.NotInitialized in
  let* spent := u64_add (pb_spent_epsilon_scaled budget) epsilon_cost_scaled in
  do* reject_if (Z.ltb (pb_max_epsilon_scaled budget) spent) PrivacyAnalyticsError.BudgetExhausted in
  do* reject_if (Z.eqb sensitivity 0) PrivacyAnalyticsError.InvalidSensitivity in
  let* count := u32_add (pb_query_count budget) 1 in
  do* iset PrivacyKey.Budget (charged budget spent count) in
  let* now := ledger_timestamp in
  let record := mkDPQueryRecord query_id query_type caller sensitivity epsilon_cost_scaled
                  noise_mechanism noisy_result now in
  do* iset (PrivacyKey.DPQuery query_id) record in
  ret noisy_result.

(** [start_fl_round], src/privacy_preserving_analytics.rs:244-278 *)
Definition start_fl_round (coordinator : Address) (model_id : Symbol) (min_participants : Z)
    (initial_weights_hash : Hash) : M Z :=
  do* require_auth coordinator in
  let* round_id := iget_or PrivacyKey.NextRoundId 1 in
  let* now := ledger_timestamp in
  let round := mkFLRound round_id model_id initial_weights_hash min_participants 0 "open" now in
  do* iset (PrivacyKey.FLRound round_id) round in
  let* next := u64_add round_id 1 in
  do* iset PrivacyKey.NextRoundId next in
  ret round_id.

(** The read that opens the operations on a round. *)
Definition round_or_raise (round_id : Z) : M FLRound :=
  let* round := iget (PrivacyKey.FLRound round_id) in
  unwrap_or_raise round PrivacyAnalyticsError.RoundNotFound.

(** [submit_fl_gradient], src/privacy_preserving_analytics.rs:281-322 *)
Definition submit_fl_gradient (participant : Address) (round_id : Z) (gradient_hash : Hash)
    (sample_size : Z) : M unit :=
  do* require_auth participant in
  let* round := round_or_raise round_id in
  do* reject_if (bool_decide (fr_status round <> "open"%string)) PrivacyAnalyticsError.RoundClosed in
  let* there := ihas (PrivacyKey.FLGradient round_id participant) in
  do* reject_if there PrivacyAnalyticsError.DuplicateGradientSubmission in
  let* now := ledger_timestamp in
  do* iset (PrivacyKey.FLGradient round_id participant)
        (mkFLGradientSubmission round_id participant gradient_hash sample_size now) in
  let* count := u32_add (fr_participant_count round) 1 in
  iset (PrivacyKey.FLRound round_id) (set_fr_participant_count count round).

(** [aggregate_fl_round], src/privacy_preserving_analytics.rs:325-351 *)
Definition aggregate_fl_round (coordinator : Address) (round_id : Z) (new_weights_hash : Hash)
    : M unit :=
  do* require_auth coordinator in
  let* round := round_or_raise round_id in
  do* reject_if (Z.ltb (fr_participant_count round) (fr_min_participants round))
        PrivacyAnalyticsError.InsufficientParticipants in
  iset (PrivacyKey.FLRound round_id)
    (set_fr_status "aggregated" (set_fr_global_weights_hash new_weights_hash round)).

(** [create_smpc_session], src/privacy_preserving_analytics.rs:354-382 *)
Definition create_smpc_session (initiator : Address) (session_id : Hash)
    (threshold total_parties : Z) (metric_id : Symbol) : M Hash :=
  do* require_auth initiator in
  let* now := ledger_timestamp in
  do* iset (PrivacyKey.SmpcSession session_id)
        (mkSmpcSession session_id initiator threshold total_parties metric_id 0 zero32 "initialized"
           now) in
  ret session_id.

Definition session_or_raise (session_id : Hash) : M SmpcSession :=
  let* session := iget (PrivacyKey.SmpcSession session_id) in
  unwrap_or_raise session PrivacyAnalyticsError.SmpcSessionNotFound.

(** The session with another count, result and status. *)
Definition with_progress (s : SmpcSession) (count : Z) (result : Hash) (status : Symbol)
    : SmpcSession :=
  mkSmpcSession (ss_session_id s) (ss_initiator s) (ss_threshold s) (ss_total_parties s)
    (ss_metric_id s) count result status (ss_created_at s).

(** [submit_smpc_commitment], src/privacy_preserving_analytics.rs:385-412 *)
Definition submit_smpc_commitment (party : Address) (session_id commitment : Hash) : M unit :=
  do* require_auth party in
  let* session := session_or_raise session_id in
  do* iset (PrivacyKey.SmpcCommitment session_id party) commitment in
  let* count := u32_add (ss_commitments_count session) 1 in
  let status := if Z.leb (ss_threshold session) count then "active"%string else ss_status session in
  iset (PrivacyKey.SmpcSession session_id)
    (with_progress session count (ss_aggregated_result_hash session) status).

(** [finalize_smpc_session], src/privacy_preserving_analytics.rs:415-441 *)
Definition finalize_smpc_session (caller : Address) (session_id aggregated_result_hash : Hash)
    : M unit :=
  do* require_auth caller in
  let* session := session_or_raise session_id in
  do* reject_if (Z.ltb (ss_commitments_count session) (ss_threshold session))
        PrivacyAnalyticsError.SmpcThresholdNotMet in
  iset (PrivacyKey.SmpcSession session_id)
    (with_progress session (ss_commitments_count session) aggregated_result_hash "completed").

(** [record_homomorphic_metric], src/privacy_preserving_analytics.rs:444-457 *)
Definition record_homomorphic_metric (submitter : Address) (metric : HomomorphicMetricRecord)
    : M Hash :=
  do* require_auth submitter in
  do* iset (PrivacyKey.HomomorphicMetric (hm_ciphertext_id metric)) metric in
  ret (hm_ciphertext_id metric).

(** [get_privacy_budget], src/privacy_preserving_analytics.rs:460-462 *)
Definition get_privacy_budget : M (option PrivacyBudget) := iget PrivacyKey.Budget.

(** [get_fl_round], src/privacy_preserving_analytics.rs:465-467 *)
Definition get_fl_round (round_id : Z) : M (option FLRound) := iget (PrivacyKey.FLRound round_id).

(** [get_smpc_session], src/privacy_preserving_analytics.rs:470-472 *)
Definition get_smpc_session (session_id : Hash) : M (option SmpcSession) :=
  iget (PrivacyKey.SmpcSession session_id).

(** ** The transition system *)

Inductive acall : Type :=
  | AInit (admin : Address) (epsilon delta : Z)
  | AQuery (caller : Address) (id : Hash) (type : DPQueryType) (sensitivity cost : Z)
      (noise : NoiseMechanism) (answer : Z)
  | ARound (coordinator : Address) (model : Symbol) (minimum : Z) (weights : Hash)
  | AGradient (participant : Address) (round : Z) (gradient : Hash) (samples : Z)
  | AAggregate (coordinator : Address) (round : Z) (weights : Hash)
  | ASession (initiator : Address) (id : Hash) (threshold parties : Z) (metric : Symbol)
  | ACommit (party : Address) (id commitment : Hash)
  | AFinalize (caller : Address) (id answer : Hash)
  | AMetric (submitter : Address) (metric : HomomorphicMetricRecord).

Definition aexec (k : acall) : M unit :=
  match k with
  | AInit a e d => initialize a e d
  | AQuery a q t s e n r => do* execute_dp_query a q t s e n r in ret tt
  | ARound a m n w => do* start_fl_round a m n w in ret tt
  | AGradient a r g n => submit_fl_gradient a r g n
  | AAggregate a r w => aggregate_fl_round a r w
  | ASession a i t n m => do* create_smpc_session a i t n m in ret tt
  | ACommit a i x => submit_smpc_commitment a i x
  | AFinalize a i x => finalize_smpc_session a i x
  | AMetric a m => do* record_homomorphic_metric a m in ret tt
  end.

Inductive astep : St -> St -> Prop :=
  | astep_call k c s s' : aexec k c s = Ok (tt, s') -> astep s s'.
