(* ===== verification/AnalyticsProps.v ===== *)
(** * Properties of privacy-preserving analytics

    The queries spend exactly their costs and never more than the budget; a
    round counts each participant once. Sessions count commitments and not
    parties, and finished ones reopen. *)

From stdpp Require Import relations.
From S2P Require Import Prelude Contract StorageLemmas Codec Sample Analytics.

#[local] Abbreviation M := (CM analytics_layout).
#[local] Abbreviation store := (kvstore analytics_layout).
#[local] Abbreviation St := (CSt analytics_layout).

(** ** The budget *)

(** The cost of a call, where it is a query. *)
Definition cost_of (k : acall) : list Z :=
  match k with AQuery _ _ _ _ e _ _ => [e] | _ => [] end.

(** The successful calls of a contract, with the costs of the queries among them. *)
Inductive atrace : list Z -> St -> Prop :=
  | atrace_empty : atrace [] empty_state
  | atrace_call k c l s s' :
      atrace l s -> aexec k c s = Ok (tt, s') -> atrace (l ++ cost_of k) s'.

Definition BInv (l : list Z) (st : store) : Prop :=
  match sget st PrivacyKey.Budget with
  | None => l = [] /\ sget st PrivacyKey.Admin = None
  | Some b =>
      is_Some (sget st PrivacyKey.Admin) /\
      pb_spent_epsilon_scaled b = total_of id l /\ pb_query_count b = Z.of_nat (length l) /\
      (l <> [] -> pb_spent_epsilon_scaled b <= pb_max_epsilon_scaled b) /\ pb_spent_delta_scaled b = 0
  end.

Definition budget_key (k : PrivacyKey) : bool :=
  match k with PrivacyKey.Budget | PrivacyKey.Admin => true | _ => false end.

Lemma BInv_other l st k v : budget_key k = false -> BInv l st -> BInv l (sset st k v).
Proof. intros Hk H. unfold BInv. by rewrite !sset_ne by (intros ->; done). Qed.

Lemma BInv_step k c l (s s' : St) :
  BInv l (inst s) -> aexec k c s = Ok (tt, s') -> BInv (l ++ cost_of k) (inst s').
Proof.
  intros Hi R. destruct k; simpl in R; simpl cost_of; rewrite ?app_nil_r.
  - unfold initialize in R. minv. match goal with H : shas _ _ = false |- _ => apply shas_false in H end.
    unfold BInv in *. destruct (sget (inst _) PrivacyKey.Budget) as [b|].
    { destruct Hi as [[x Hx] _]. congruence. }
    destruct Hi as [-> _]. store_reads. split; [eauto|]. done.
  - apply bind_Ok in R as (z & s1 & R & R2). injection R2 as <-. unfold execute_dp_query in R. minv.
    apply BInv_other; [done|]. unfold BInv in *.
    match goal with H : sget _ _ = Some _ |- _ => rewrite H in Hi end.
    destruct Hi as (Ha & Hs & Hc & Hm & Hd). store_reads. split; [done|]. simpl.
    rewrite total_of_app, length_app. simpl. zcase.
    split; [lia|]. split; [lia|]. split; [lia|done].
  - apply bind_Ok in R as (z & s1 & R & R2). injection R2 as <-. unfold start_fl_round in R. minv.
    by apply BInv_other, BInv_other.
  - unfold submit_fl_gradient, round_or_raise in R. minv. by apply BInv_other, BInv_other.
  - unfold aggregate_fl_round, round_or_raise in R. minv. by apply BInv_other.
  - apply bind_Ok in R as (z & s1 & R & R2). injection R2 as <-. unfold create_smpc_session in R. minv.
    by apply BInv_other.
  - unfold submit_smpc_commitment, session_or_raise in R. minv. by apply BInv_other, BInv_other.
  - unfold finalize_smpc_session, session_or_raise in R. minv. by apply BInv_other.
  - apply bind_Ok in R as (z & s1 & R & R2). injection R2 as <-.
    unfold record_homomorphic_metric in R. minv. by apply BInv_other.
Qed.

(** C35: In every reachable state the epsilon spent is the sum of the costs of all the queries answered
    so far, their number is the count, and the sum is within the budget; of delta nothing is ever
    spent. *)
Theorem dp_budget_is_kept (costs : list Z) (s s' : St) (c : Ctx) b :
  atrace costs s -> get_privacy_budget c s = Ok (Some b, s') ->
  pb_spent_epsilon_scaled b = total_of id costs /\ pb_query_count b = Z.of_nat (length costs) /\
  (costs <> [] -> total_of id costs <= pb_max_epsilon_scaled b) /\ pb_spent_delta_scaled b = 0.
Proof.
  intros Ht R. injection R as E _.
  assert (BInv costs (inst s)) as H.
  { clear E. induction Ht as [|k c0 l s s1 _ IH R]; [by split|by eapply BInv_step]. }
  unfold BInv in H. rewrite E in H. destruct H as (_ & Hs & Hc & Hm & Hd). rewrite <- Hs. done.
Qed.

(** ** Rounds *)

Definition submitted (st : store) (i : Z) (p : Address) : Prop :=
  is_Some (sget st (PrivacyKey.FLGradient i p)).

Record RInv (st : store) : Prop := {
  r_admin : is_Some (sget st PrivacyKey.Admin);
  r_next : exists n, sget st PrivacyKey.NextRoundId = Some n /\
    forall i r, sget st (PrivacyKey.FLRound i) = Some r -> i < n;
  r_gradients : forall i p, submitted st i p -> is_Some (sget st (PrivacyKey.FLRound i));
  r_counts : forall i r, sget st (PrivacyKey.FLRound i) = Some r ->
    (exists ps, NoDup ps /\ (forall p, p ∈ ps <-> submitted st i p) /\
       fr_participant_count r = Z.of_nat (length ps)) /\
    (fr_status r = "open"%string \/
     fr_status r = "aggregated"%string /\ fr_min_participants r <= fr_participant_count r) }.

Definition round_key (k : PrivacyKey) : bool :=
  match k with
  | PrivacyKey.Admin | PrivacyKey.NextRoundId | PrivacyKey.FLRound _ | PrivacyKey.FLGradient _ _ => true
  | _ => false
  end.

Lemma RInv_other st k v : round_key k = false -> RInv st -> RInv (sset st k v).
Proof.
  intros Hk [H1 H2 H3 H4].
  assert (Hne : forall k' : PrivacyKey, round_key k' = true -> sget (sset st k v) k' = sget st k').
  { intros k' Hk'. apply sset_ne. congruence. }
  split.
  - by rewrite Hne.
  - destruct H2 as (n & Hn & H). exists n. rewrite Hne by done. split; [done|].
    intros i r. rewrite Hne by done. apply H.
  - intros i p. unfold submitted. rewrite !Hne by done. apply H3.
  - intros i r. rewrite Hne by done. intros Hr. destruct (H4 i r Hr) as [(ps & Hd & Hp & Hc) Hs].
    split; [|done]. exists ps. split; [done|]. split; [|done]. intros p. unfold submitted.
    rewrite Hne by done. apply Hp.
Qed.

Lemma RInv_start coordinator model minimum weights c (s s' : St) i :
  RInv (inst s) -> start_fl_round coordinator model minimum weights c s = Ok (i, s') -> RInv (inst s').
Proof.
  intros [H1 (n & Hn & H2) H3 H4] R. unfold start_fl_round in R. minv. rewrite Hn in *.
  match goal with |- RInv (sset (sset ?st _ _) _ _) => set (t := st) in * end.
  assert (Hfresh : sget t (PrivacyKey.FLRound n) = None).
  { destruct (sget t (PrivacyKey.FLRound n)) eqn:E; [|done]. apply H2 in E. lia. }
  split.
  - by store_reads.
  - exists (n + 1). split; [by store_reads|]. intros i r. destruct (decide (i = n)) as [->|Hne]; [lia|].
    store_reads. intros Hr%H2. lia.
  - intros i p. unfold submitted. store_reads. intros Hs%H3. destruct (decide (i = n)) as [->|Hne].
    + store_reads. eauto.
    + by store_reads.
  - intros i r. destruct (decide (i = n)) as [->|Hne].
    + store_reads. intros [= <-]. split; [|by left]. exists []. split; [apply NoDup_nil_2|].
      split; [|done]. intros p. split; [by intros ?%elem_of_nil|]. unfold submitted. store_reads.
      intros Hs%H3. rewrite Hfresh in Hs. by destruct Hs.
    + store_reads. intros Hr. destruct (H4 i r Hr) as [(ps & Hd & Hp & Hc) Hs]. split; [|done].
      exists ps. split; [done|]. split; [|done]. intros p. unfold submitted. store_reads. apply Hp.
Qed.

Lemma RInv_gradient p0 j g n c (s s' : St) :
  RInv (inst s) -> submit_fl_gradient p0 j g n c s = Ok (tt, s') -> RInv (inst s').
Proof.
  intros [H1 H2 H3 H4] R. unfold submit_fl_gradient, round_or_raise in R. minv.
  match goal with |- RInv (sset (sset ?st _ _) _ _) => set (t := st) in * end.
  match goal with H : shas _ _ = false |- _ => apply shas_false in H as Hnew end.
  match goal with H : sget _ _ = Some ?x |- _ => rename x into r0, H into U end.
  assert (fr_status r0 = "open"%string) as Hopen
    by (match goal with B : bool_decide _ = false |- _ => apply bool_decide_eq_false in B; by apply dec_stable in B end).
  destruct (H4 j r0 U) as [(ps & Hd & Hp & Hc) Hs].
  assert (Hsub : forall i p v w, submitted (sset (sset t (PrivacyKey.FLGradient j p0) v)
      (PrivacyKey.FLRound j) w) i p <-> submitted t i p \/ (i = j /\ p = p0)).
  { intros i p v w. unfold submitted. rewrite sset_ne by done.
    destruct (decide (PrivacyKey.FLGradient j p0 = PrivacyKey.FLGradient i p)) as [[= <- <-]|Hne].
    - rewrite sset_eq. split; [auto|eauto].
    - rewrite sset_ne by done. split; [auto|]. intros [?|[-> ->]]; done. }
  split.
  - by store_reads.
  - destruct H2 as (m & Hm & H2). exists m. split; [by store_reads|]. intros i r.
    destruct (decide (i = j)) as [->|Hne]; [intros _; by eapply H2|]. store_reads. apply H2.
  - intros i p [Hi|[-> ->]]%Hsub.
    + destruct (decide (i = j)) as [->|Hne]; store_reads; eauto.
    + store_reads. eauto.
  - intros i r. destruct (decide (i = j)) as [->|Hne].
    + store_reads. intros [= <-]. split.
      * exists (p0 :: ps). split; [|split].
        -- apply NoDup_cons. split; [|done]. rewrite Hp. unfold submitted. rewrite Hnew. by intros [].
        -- intros p. rewrite Hsub, elem_of_cons, Hp. naive_solver.
        -- simpl. lia.
      * by left.
    + store_reads. intros Hr. destruct (H4 i r Hr) as [(ps' & Hd' & Hp' & Hc') Hs']. split; [|done].
      exists ps'. split; [done|]. split; [|done]. intros p. rewrite Hsub, Hp'. naive_solver.
Qed.

Lemma RInv_aggregate a j w c (s s' : St) :
  RInv (inst s) -> aggregate_fl_round a j w c s = Ok (tt, s') -> RInv (inst s').
Proof.
  intros [H1 H2 H3 H4] R. unfold aggregate_fl_round, round_or_raise in R. minv. zcase.
  match goal with |- RInv (sset ?st _ _) => set (t := st) in * end.
  match goal with H : sget _ _ = Some ?x |- _ => rename x into r0, H into U end.
  destruct (H4 j r0 U) as [(ps & Hd & Hp & Hc) Hs].
  split.
  - by store_reads.
  - destruct H2 as (m & Hm & H2). exists m. split; [by store_reads|]. intros i r.
    destruct (decide (i = j)) as [->|Hne]; [intros _; by eapply H2|]. store_reads. apply H2.
  - intros i p. unfold submitted. store_reads. intros Hi%H3.
    destruct (decide (i = j)) as [->|Hne]; store_reads; eauto.
  - intros i r. destruct (decide (i = j)) as [->|Hne].
    + store_reads. intros [= <-]. split; [|by right]. exists ps. split; [done|]. split; [|done].
      intros p. unfold submitted. store_reads. apply Hp.
    + store_reads. intros Hr. destruct (H4 i r Hr) as [(ps' & Hd' & Hp' & Hc') Hs']. split; [|done].
      exists ps'. split; [done|]. split; [|done]. intros p. unfold submitted. store_reads. apply Hp'.
Qed.

Lemma RInv_step k c (s s' : St) : RInv (inst s) -> aexec k c s = Ok (tt, s') -> RInv (inst s').
Proof.
  intros Hi R. destruct k; simpl in R.
  - unfold initialize in R. minv. match goal with H : shas _ _ = false |- _ => apply shas_false in H end.
    destruct (r_admin _ Hi). congruence.
  - apply bind_Ok in R as (z & s1 & R & R2). injection R2 as <-. unfold execute_dp_query in R. minv.
    by apply RInv_other, RInv_other.
  - apply bind_Ok in R as (z & s1 & R & R2). injection R2 as <-. by eapply RInv_start.
  - by eapply RInv_gradient.
  - by eapply RInv_aggregate.
  - apply bind_Ok in R as (z & s1 & R & R2). injection R2 as <-. unfold create_smpc_session in R. minv.
    by apply RInv_other.
  - unfold submit_smpc_commitment, session_or_raise in R. minv. by apply RInv_other, RInv_other.
  - unfold finalize_smpc_session, session_or_raise in R. minv. by apply RInv_other.
  - apply bind_Ok in R as (z & s1 & R & R2). injection R2 as <-.
    unfold record_homomorphic_metric in R. minv. by apply RInv_other.
Qed.

(** Once the contract is initialized, each round counts exactly the participants whose gradients are
    recorded, each of them once; and a round is only aggregated with the participants it needs. *)
Theorem rounds_count_participants admin e d (c c' : Ctx) (s1 s s' : St) i r :
  initialize admin e d c empty_state = Ok (tt, s1) -> rtc astep s1 s ->
  get_fl_round i c' s = Ok (Some r, s') ->
  (exists ps, NoDup ps /\ (forall p, p ∈ ps <-> submitted (inst s) i p) /\
     fr_participant_count r = Z.of_nat (length ps)) /\
  (fr_status r = "aggregated"%string -> fr_min_participants r <= fr_participant_count r).
Proof.
  intros R Hs Hr. injection Hr as Hr _.
  assert (RInv (inst s1)) as H1.
  { unfold initialize in R. minv. split.
    - by store_reads.
    - exists 1. store_reads. split; [done|]. intros j x. by rewrite !sset_ne.
    - intros j p. unfold submitted. rewrite !sset_ne by done. by intros [].
    - intros j x. by rewrite !sset_ne. }
  assert (RInv (inst s)) as H.
  { clear R Hr. induction Hs as [|u v w [k c0 ? ? Rk] _ IH]; [done|]. apply IH. by eapply RInv_step. }
  destruct (r_counts _ H i r Hr) as [Hc [Hst|[_ Hst]]]; split; try done. intros E. congruence.
Qed.

(** Whoever signs can aggregate a round that has its participants, also one already aggregated, and
    so replaces its weights. *)
Theorem anyone_can_aggregate_again a i w r (c : Ctx) (s : St) :
  sget (inst s) (PrivacyKey.FLRound i) = Some r -> cx_auth c a = true ->
  fr_min_participants r <= fr_participant_count r ->
  exists s', aggregate_fl_round a i w c s = Ok (tt, s') /\
    fr_global_weights_hash <$> sget (inst s') (PrivacyKey.FLRound i) = Some w.
Proof.
  intros Hr Ha Hm. unfold aggregate_fl_round, round_or_raise, bind, iget, require_auth, iset.
  rewrite Ha, Hr. simpl. rewrite (proj2 (Z.ltb_ge _ _)) by done. simpl. eexists. split; [reflexivity|].
  simpl. by rewrite sset_eq.
Qed.

(** ** Sessions *)

(** The same party commits [n] times. *)
Fixpoint commit_again (n : nat) (party : Address) (id commitment : Hash) : M unit :=
  match n with
  | O => ret tt
  | S n => do* submit_smpc_commitment party id commitment in commit_again n party id commitment
  end.

(** A session counts commitments and not parties: a single one reaches any threshold by committing
    that often, and can then complete the session. *)
Theorem one_party_meets_any_threshold party id h res x (c : Ctx) (s : St) n :
  sget (inst s) (PrivacyKey.SmpcSession id) = Some x -> cx_auth c party = true ->
  0 <= ss_commitments_count x -> ss_commitments_count x + Z.of_nat n <= u32_max ->
  ss_threshold x <= ss_commitments_count x + Z.of_nat n ->
  exists s1 s2, commit_again n party id h c s = Ok (tt, s1) /\
    finalize_smpc_session party id res c s1 = Ok (tt, s2) /\
    ss_status <$> sget (inst s2) (PrivacyKey.SmpcSession id) = Some "completed"%string.
Proof.
  intros Hx Ha H0. revert s x Hx H0. induction n as [|n IH]; intros s x Hx H0 Hmax Ht.
  - exists s. eexists. split; [done|].
    unfold finalize_smpc_session, session_or_raise, bind, iget, require_auth, iset.
    rewrite Ha, Hx. simpl. rewrite (proj2 (Z.ltb_ge _ _)) by lia. simpl. split; [reflexivity|].
    simpl. by rewrite sset_eq.
  - cbn [commit_again].
    assert (exists s1 x1, submit_smpc_commitment party id h c s = Ok (tt, s1) /\
      sget (inst s1) (PrivacyKey.SmpcSession id) = Some x1 /\
      ss_commitments_count x1 = ss_commitments_count x + 1 /\ ss_threshold x1 = ss_threshold x)
      as (s1 & x1 & R & Hx1 & Hc & Hth).
    { unfold submit_smpc_commitment, session_or_raise, bind, iget, require_auth, iset, u32_add.
      rewrite Ha, Hx. simpl. rewrite (proj2 (Z.leb_le (ss_commitments_count x + 1) u32_max)) by lia.
      simpl. eexists _, _. split; [reflexivity|]. simpl. rewrite sset_eq. done. }
    rewrite (bind_run _ _ _ _ _ _ R). apply (IH s1 x1); [done|lia|lia|lia].
Qed.

(** A completed session is active again after one more commitment, which anyone can make. *)
Theorem completed_session_reopens party id h x (c : Ctx) (s : St) :
  sget (inst s) (PrivacyKey.SmpcSession id) = Some x -> ss_status x = "completed"%string ->
  cx_auth c party = true -> ss_commitments_count x < u32_max ->
  ss_threshold x <= ss_commitments_count x ->
  exists s', submit_smpc_commitment party id h c s = Ok (tt, s') /\
    ss_status <$> sget (inst s') (PrivacyKey.SmpcSession id) = Some "active"%string.
Proof.
  intros Hx _ Ha Hn Ht.
  unfold submit_smpc_commitment, session_or_raise, bind, iget, require_auth, iset, u32_add.
  rewrite Ha, Hx. simpl. rewrite (proj2 (Z.leb_le (ss_commitments_count x + 1) u32_max)) by lia.
  simpl. eexists. split; [reflexivity|]. simpl. rewrite sset_eq. simpl.
  by rewrite (proj2 (Z.leb_le _ _)) by lia.
Qed.

(** ** The properties at concrete states *)

Definition a_call (t : Z) (k : acall) (s : St) : St := post (aexec k) (at_time t) s.
Definition a_query (q cost : Z) : acall :=
  AQuery alice (replicate 32 q) DPQueryType.Count 1 cost NoiseMechanism.Laplace 42.

Definition a_init : St := a_call 10 (AInit owner 10000 5) empty_state.
Definition a_asked : St := a_call 11 (a_query 1 4000) a_init.
Definition a_asked2 : St := a_call 12 (a_query 2 6000) a_asked.
Definition a_round : St := a_call 20 (ARound owner "model" 1 zero32) a_init.
Definition a_grad : St := a_call 21 (AGradient alice 1 zero32 100) a_round.
Definition a_agg : St := a_call 22 (AAggregate owner 1 (replicate 32 3)) a_grad.
Definition a_session : St := a_call 30 (ASession owner zero32 3 5 "m") a_init.

Lemma a_call_step t k s : outcome (aexec k) (at_time t) s = Ok tt -> astep s (a_call t k s).
Proof. intros H. apply (astep_call k (at_time t)). by apply run_outcome. Qed.

Lemma a_call_trace t k l s :
  atrace l s -> outcome (aexec k) (at_time t) s = Ok tt -> atrace (l ++ cost_of k) (a_call t k s).
Proof. intros Ht H. apply (atrace_call k (at_time t) l s); [done|]. by apply run_outcome. Qed.

Lemma dp_budget_is_kept_witness :
  exists b, get_privacy_budget (at_time 20) a_asked2 = Ok (Some b, a_asked2) /\
    pb_spent_epsilon_scaled b = 10000 /\ pb_query_count b = 2 /\
    outcome (aexec (a_query 3 1)) (at_time 20) a_asked2 =
      Err (Raise PrivacyAnalyticsError.BudgetExhausted).
Proof.
  assert (atrace (([] ++ cost_of (AInit owner 10000 5)) ++ cost_of (a_query 1 4000) ++ [6000]) a_asked2)
    as Ht.
  { rewrite app_assoc. apply (a_call_trace 12 (a_query 2 6000)); [|vm_compute; reflexivity].
    apply (a_call_trace 11 (a_query 1 4000)); [|vm_compute; reflexivity].
    apply (a_call_trace 10 (AInit owner 10000 5)); [constructor|vm_compute; reflexivity]. }
  destruct (sget (inst a_asked2) PrivacyKey.Budget) as [b|] eqn:E; [|vm_compute in E; discriminate].
  assert (get_privacy_budget (at_time 20) a_asked2 = Ok (Some b, a_asked2)) as R
    by (unfold get_privacy_budget, iget; by rewrite E).
  destruct (dp_budget_is_kept _ _ _ _ _ Ht R) as (H1 & H2 & _).
  exists b. split; [exact R|]. split; [rewrite H1; reflexivity|]. split; [rewrite H2; reflexivity|].
  vm_compute. reflexivity.
Defined.

Lemma rounds_count_participants_witness :
  exists r, get_fl_round 1 (at_time 25) a_agg = Ok (Some r, a_agg) /\
    fr_status r = "aggregated"%string /\ fr_min_participants r <= fr_participant_count r.
Proof.
  assert (outcome (initialize owner 10000 5) (at_time 10) empty_state = Ok tt) as R%run_outcome
    by (vm_compute; reflexivity).
  assert (rtc astep a_init a_agg) as S.
  { do 3 (eapply rtc_r; [|apply a_call_step; vm_compute; reflexivity]). apply rtc_refl. }
  destruct (sget (inst a_agg) (PrivacyKey.FLRound 1)) as [r|] eqn:E; [|vm_compute in E; discriminate].
  assert (get_fl_round 1 (at_time 25) a_agg = Ok (Some r, a_agg)) as Rr
    by (unfold get_fl_round, iget; by rewrite E).
  destruct (rounds_count_participants _ _ _ _ _ a_init _ _ _ _ R S Rr) as [_ H].
  assert (fr_status r = "aggregated"%string) as Hst by (vm_compute in E; injection E as <-; done).
  exists r. split; [exact Rr|]. split; [exact Hst|]. exact (H Hst).
Defined.

Lemma anyone_can_aggregate_again_witness :
  exists s', aggregate_fl_round alice 1 zero32 (at_time 30) a_agg = Ok (tt, s') /\
    fr_global_weights_hash <$> sget (inst s') (PrivacyKey.FLRound 1) = Some zero32.
Proof.
  destruct (sget (inst a_agg) (PrivacyKey.FLRound 1)) as [r|] eqn:E; [|vm_compute in E; discriminate].
  apply (anyone_can_aggregate_again alice 1 zero32 r); [exact E|done|].
  vm_compute in E. injection E as <-. done.
Defined.

Lemma one_party_meets_any_threshold_witness :
  exists s1 s2, commit_again 3 alice zero32 zero32 (at_time 40) a_session = Ok (tt, s1) /\
    finalize_smpc_session alice zero32 zero32 (at_time 40) s1 = Ok (tt, s2) /\
    ss_status <$> sget (inst s2) (PrivacyKey.SmpcSession zero32) = Some "completed"%string.
Proof.
  destruct (sget (inst a_session) (PrivacyKey.SmpcSession zero32)) as [x|] eqn:E;
    [|vm_compute in E; discriminate].
  apply (one_party_meets_any_threshold alice zero32 zero32 zero32 x); [exact E|done|..];
    vm_compute in E; injection E as <-; done.
Defined.

Lemma completed_session_reopens_witness :
  exists s1 s', post (commit_again 3 alice zero32 zero32) (at_time 40) a_session = s1 /\
    submit_smpc_commitment owner zero32 zero32 (at_time 50)
      (post (finalize_smpc_session alice zero32 zero32) (at_time 40) s1) = Ok (tt, s').
Proof.
  set (s1 := post (commit_again 3 alice zero32 zero32) (at_time 40) a_session).
  set (s2 := post (finalize_smpc_session alice zero32 zero32) (at_time 40) s1).
  destruct (sget (inst s2) (PrivacyKey.SmpcSession zero32)) as [x|] eqn:E; [|vm_compute in E; discriminate].
  destruct (completed_session_reopens owner zero32 zero32 x (at_time 50) s2) as (s' & R & _);
    [exact E|vm_compute in E; injection E as <-; done..|].
  by exists s1, s'.
Defined.
