(* ===== verification/Catalog.v ===== *)
(** * Data governance

    The catalog of src/data_governance.rs: assets, lineage edges, quality
    scorecards, access policies and stewardship requests, all in instance
    storage.

    The second part of the file: properties of data governance. *)

From stdpp Require Import relations.
From S2P Require Import Prelude Contract StorageLemmas Sample.

(** ** Data *)

Module GovernanceError.
(** [GovernanceError], src/data_governance.rs:22-32 *)
Inductive GovernanceError : Set :=
  | NotInitialized | AlreadyInitialized | Unauthorized | AssetNotFound | PolicyNotFound
  | StewardshipRequestNotFound | InvalidStatusTransition | QualityThresholdFailed
  | InvalidClassification.
#[global] Instance GovernanceError_eq_dec : EqDecision GovernanceError.
Proof. solve_decision. Defined.

(** [GovernanceError], its discriminants, src/data_governance.rs:22-32 *)
Definition code (x : GovernanceError) : Z :=
  match x with
  | NotInitialized => 1 | AlreadyInitialized => 2 | Unauthorized => 3 | AssetNotFound => 4
  | PolicyNotFound => 5 | StewardshipRequestNotFound => 6 | InvalidStatusTransition => 7
  | QualityThresholdFailed => 8 | InvalidClassification => 9
  end.
End GovernanceError.
Abbreviation GovernanceError := GovernanceError.GovernanceError.

Module DataClassification.
(** [DataClassification], src/data_governance.rs:42-47 *)
Inductive DataClassification : Set :=
  | Public | Internal | Confidential | Restricted.
#[global] Instance DataClassification_eq_dec : EqDecision DataClassification.
Proof. solve_decision. Defined.

(** [DataClassification], its discriminants, src/data_governance.rs:42-47 *)
Definition code (x : DataClassification) : Z :=
  match x with
  | Public => 0 | Internal => 1 | Confidential => 2 | Restricted => 3
  end.
End DataClassification.
Abbreviation DataClassification := DataClassification.DataClassification.

Module ComplianceTag.
(** [ComplianceTag], src/data_governance.rs:53-60 *)
Inductive ComplianceTag : Set :=
  | Gdpr | Ccpa | Hipaa | Esg | Soc2 | Pcidss.
#[global] Instance ComplianceTag_eq_dec : EqDecision ComplianceTag.
Proof. solve_decision. Defined.

(** [ComplianceTag], its discriminants, src/data_governance.rs:53-60 *)
Definition code (x : ComplianceTag) : Z :=
  match x with
  | Gdpr => 0 | Ccpa => 1 | Hipaa => 2 | Esg => 3 | Soc2 => 4 | Pcidss => 5
  end.
End ComplianceTag.
Abbreviation ComplianceTag := ComplianceTag.ComplianceTag.

(** [CatalogAsset], src/data_governance.rs:65-76 *)
Record CatalogAsset := mkCatalogAsset {
  as_asset_id : Hash;
  as_name : Symbol;
  as_description : Bytes;
  as_classification : DataClassification;
  as_owner : Address;
  as_steward : Address;
  as_tags : list ComplianceTag;
  as_version : Z;
  as_created_at : Z;
  as_updated_at : Z }.

(** [LineageEdge], src/data_governance.rs:81-88 *)
Record LineageEdge := mkLineageEdge {
  le_edge_id : Hash;
  le_source_asset_id : Hash;
  le_target_asset_id : Hash;
  le_transform_type : Symbol;
  le_transformation_hash : Hash;
  le_recorded_at : Z }.

(** [QualityScorecard], src/data_governance.rs:93-103 *)
Record QualityScorecard := mkQualityScorecard {
  qs_asset_id : Hash;
  qs_completeness_bps : Z;
  qs_validity_bps : Z;
  qs_accuracy_bps : Z;
  qs_uniqueness_bps : Z;
  qs_timeliness_seconds : Z;
  qs_total_records_evaluated : Z;
  qs_passed : bool;
  qs_evaluated_at : Z }.

(** [AccessPolicy], src/data_governance.rs:108-118 *)
Record AccessPolicy := mkAccessPolicy {
  ap_policy_id : Hash;
  ap_asset_id : Hash;
  ap_grantee_role : Symbol;
  ap_grantee : option Address;
  ap_can_read : bool;
  ap_can_write : bool;
  ap_can_export : bool;
  ap_mask_pii : bool;
  ap_expires_at : Z }.

(** [StewardshipRequest], src/data_governance.rs:123-133 *)
Record StewardshipRequest := mkStewardshipRequest {
  st_request_id : Z;
  st_asset_id : Hash;
  st_requester : Address;
  st_action_type : Symbol;
  st_justification : Bytes;
  st_status : Symbol;
  st_reviewer : option Address;
  st_reviewed_at : Z;
  st_created_at : Z }.

Module GovernanceKey.
(** [GovernanceKey], src/data_governance.rs:140-150 *)
Inductive GovernanceKey : Set :=
  | Admin
  | ChiefSteward
  | AssetById (a0 : Hash)
  | LineageEdge (a0 : Hash)
  | QualityScorecard (a0 : Hash)
  | PolicyById (a0 : Hash)
  | PolicyByAssetRole (a0 : Hash) (a1 : Symbol)
  | StewardshipRequestById (a0 : Z)
  | NextRequestId.
#[global] Instance GovernanceKey_eq_dec : EqDecision GovernanceKey.
Proof. solve_decision. Defined.
End GovernanceKey.
Abbreviation GovernanceKey := GovernanceKey.GovernanceKey.

(** ** Layout *)

Inductive CatalogTy : Set :=
  | CvAddress | CvAsset | CvEdge | CvScorecard | CvPolicy | CvRequest | CvCount.
#[global] Instance CatalogTy_eq_dec : EqDecision CatalogTy.
Proof. solve_decision. Defined.

Definition catalog_el (t : CatalogTy) : Type :=
  match t with
  | CvAddress => Address
  | CvAsset => CatalogAsset
  | CvEdge => LineageEdge
  | CvScorecard => QualityScorecard
  | CvPolicy => AccessPolicy
  | CvRequest => StewardshipRequest
  | CvCount => Z
  end.

Definition catalog_key_ty (k : GovernanceKey) : CatalogTy :=
  match k with
  | GovernanceKey.Admin | GovernanceKey.ChiefSteward => CvAddress
  | GovernanceKey.AssetById _ => CvAsset
  | GovernanceKey.LineageEdge _ => CvEdge
  | GovernanceKey.QualityScorecard _ => CvScorecard
  | GovernanceKey.PolicyById _ | GovernanceKey.PolicyByAssetRole _ _ => CvPolicy
  | GovernanceKey.StewardshipRequestById _ => CvRequest
  | GovernanceKey.NextRequestId => CvCount
  end.

Canonical catalog_layout : Layout := {|
  key := GovernanceKey; ty := CatalogTy; el := catalog_el; layout_key_ty := catalog_key_ty;
  key_dec := _; ty_dec := _; error := GovernanceError; datum := Payload |}.

#[local] Abbreviation M := (CM catalog_layout).
#[local] Abbreviation store := (kvstore catalog_layout).
#[local] Abbreviation St := (CSt catalog_layout).

(** ** Operations *)

(** [initialize], src/data_governance.rs:162-173 *)
Definition initialize (admin chief_steward : Address) : M unit :=
  let* there := ihas GovernanceKey.Admin in
  do* reject_if there GovernanceError.AlreadyInitialized in
  do* require_auth admin in
  do* iset GovernanceKey.Admin admin in
  do* iset GovernanceKey.ChiefSteward chief_steward in
  iset GovernanceKey.NextRequestId 1.

(** [register_asset], src/data_governance.rs:176-191 *)
Definition register_asset (caller : Address) (asset : CatalogAsset) : M Hash :=
  do* require_auth caller in
  let* there := ihas GovernanceKey.Admin in
  do* reject_if (negb there) GovernanceError.NotInitialized in
  do* iset (GovernanceKey.AssetById (as_asset_id asset)) asset in
  ret (as_asset_id asset).

(** The asset, which the caller owns or stewards. *)
Definition governed_asset (caller : Address) (asset_id : Hash) : M CatalogAsset :=
  let* asset := iget (GovernanceKey.AssetById asset_id) in
  let* asset := unwrap_or_raise asset GovernanceError.AssetNotFound in
  do* reject_if (bool_decide (caller <> as_owner asset) && bool_decide (caller <> as_steward asset))
        GovernanceError.Unauthorized in
  ret asset.

(** [update_asset], src/data_governance.rs:194-225 *)
Definition update_asset (caller : Address) (asset_id : Hash) (description : Bytes)
    (classification : DataClassification) (tags : list ComplianceTag) : M unit :=
  do* require_auth caller in
  let* asset := governed_asset caller asset_id in
  let* now := ledger_timestamp in
  let* version := u32_add (as_version asset) 1 in
  iset (GovernanceKey.AssetById asset_id)
    (mkCatalogAsset (as_asset_id asset) (as_name asset) description classification (as_owner asset)
       (as_steward asset) tags version (as_created_at asset) now).

(** [record_lineage], src/data_governance.rs:228-239 *)
Definition record_lineage (caller : Address) (edge : LineageEdge) : M Hash :=
  do* require_auth caller in
  do* iset (GovernanceKey.LineageEdge (le_edge_id edge)) edge in
  ret (le_edge_id edge).

(** [record_quality_scorecard], src/data_governance.rs:242-253 *)
Definition record_quality_scorecard (caller : Address) (scorecard : QualityScorecard) : M unit :=
  do* require_auth caller in
  iset (GovernanceKey.QualityScorecard (qs_asset_id scorecard)) scorecard.

(** [set_access_policy], src/data_governance.rs:256-280 *)
Definition set_access_policy (caller : Address) (policy : AccessPolicy) : M unit :=
  do* require_auth caller in
  do* governed_asset caller (ap_asset_id policy) in
  do* iset (GovernanceKey.PolicyById (ap_policy_id policy)) policy in
  iset (GovernanceKey.PolicyByAssetRole (ap_asset_id policy) (ap_grantee_role policy)) policy.

(** [check_access], src/data_governance.rs:283-307 *)
Definition check_access (asset_id : Hash) (role action : Symbol) : M bool :=
  let* policy := iget (GovernanceKey.PolicyByAssetRole asset_id role) in
  let* now := ledger_timestamp in
  ret (match policy with
       | Some policy =>
           if Z.ltb 0 (ap_expires_at policy) && Z.ltb (ap_expires_at policy) now then false
           else if bool_decide (action = "read"%string) && ap_can_read policy then true
           else if bool_decide (action = "write"%string) && ap_can_write policy then true
           else if bool_decide (action = "export"%string) && ap_can_export policy then true
           else false
       | None => false
       end).

(** [create_stewardship_request], src/data_governance.rs:310-346 *)
Definition create_stewardship_request (requester : Address) (asset_id : Hash) (action_type : Symbol)
    (justification : Bytes) : M Z :=
  do* require_auth requester in
  let* next_id := iget_or GovernanceKey.NextRequestId 1 in
  let* now := ledger_timestamp in
  do* iset (GovernanceKey.StewardshipRequestById next_id)
        (mkStewardshipRequest next_id asset_id requester action_type justification "pending" None 0
           now) in
  let* next := u64_add next_id 1 in
  do* iset GovernanceKey.NextRequestId next in
  ret next_id.

(** [review_stewardship_request], src/data_governance.rs:349-376 *)
Definition review_stewardship_request (steward : Address) (request_id : Z) (approved : bool)
    : M unit :=
  do* require_auth steward in
  let* request := iget (GovernanceKey.StewardshipRequestById request_id) in
  let* request := unwrap_or_raise request GovernanceError.StewardshipRequestNotFound in
  let* now := ledger_timestamp in
  iset (GovernanceKey.StewardshipRequestById request_id)
    (mkStewardshipRequest (st_request_id request) (st_asset_id request) (st_requester request)
       (st_action_type request) (st_justification request)
       (if approved then "approved"%string else "rejected"%string) (Some steward) now
       (st_created_at request)).

(** [get_asset], src/data_governance.rs:379-381 *)
Definition get_asset (asset_id : Hash) : M (option CatalogAsset) :=
  iget (GovernanceKey.AssetById asset_id).

(** [get_quality_scorecard], src/data_governance.rs:384-386 *)
Definition get_quality_scorecard (asset_id : Hash) : M (option QualityScorecard) :=
  iget (GovernanceKey.QualityScorecard asset_id).

(** [get_stewardship_request], src/data_governance.rs:389-391 *)
Definition get_stewardship_request (request_id : Z) : M (option StewardshipRequest) :=
  iget (GovernanceKey.StewardshipRequestById request_id).

(** ** The transition system *)

Inductive dcall : Type :=
  | DInit (admin chief : Address)
  | DRegister (caller : Address) (asset : CatalogAsset)
  | DUpdate (caller : Address) (asset : Hash) (description : Bytes) (class : DataClassification)
      (tags : list ComplianceTag)
  | DLineage (caller : Address) (edge : LineageEdge)
  | DScore (caller : Address) (card : QualityScorecard)
  | DPolicy (caller : Address) (policy : AccessPolicy)
  | DRequest (requester : Address) (asset : Hash) (action : Symbol) (justification : Bytes)
  | DReview (steward : Address) (request : Z) (approved : bool).

Definition dexec (k : dcall) : M unit :=
  match k with
  | DInit a b => initialize a b
  | DRegister a x => do* register_asset a x in ret tt
  | DUpdate a i d x l => update_asset a i d x l
  | DLineage a e => do* record_lineage a e in ret tt
  | DScore a q => record_quality_scorecard a q
  | DPolicy a p => set_access_policy a p
  | DRequest a i t j => do* create_stewardship_request a i t j in ret tt
  | DReview a i b => review_stewardship_request a i b
  end.

(** One successful call of the catalog, in its context. *)
Inductive dstep (c : Ctx) : St -> St -> Prop :=
  | dstep_call k s s' : dexec k c s = Ok (tt, s') -> dstep c s s'.

(** * Properties of data governance

    Access policies are set by the owner or the steward of their asset and
    decide access; requests keep their content. Ownership itself is not
    protected, and neither are reviews. *)


Lemma governed_Ok a i c (s s' : St) x :
  governed_asset a i c s = Ok (x, s') ->
  s' = s /\ sget (inst s) (GovernanceKey.AssetById i) = Some x /\ (a = as_owner x \/ a = as_steward x).
Proof.
  unfold governed_asset. intros R. minv. split; [done|].
  match goal with H : sget _ _ = Some _ |- _ => split; [exact H|] end.
  match goal with B : andb _ _ = false |- _ =>
    apply andb_false_iff in B as [B|B]; apply bool_decide_eq_false in B; apply dec_stable in B end; auto.
Qed.

(** ** Policies *)

(** A policy changes only by a call signed by the owner or the steward of the asset it is about. *)
Theorem policies_need_owner_or_steward k (c : Ctx) (s s' : St) i role :
  dexec k c s = Ok (tt, s') ->
  sget (inst s') (GovernanceKey.PolicyByAssetRole i role) <>
    sget (inst s) (GovernanceKey.PolicyByAssetRole i role) ->
  exists x who, sget (inst s) (GovernanceKey.AssetById i) = Some x /\ cx_auth c who = true /\
    (who = as_owner x \/ who = as_steward x).
Proof.
  intros R Hne. destruct k; simpl in R.
  - unfold initialize in R. minv. exfalso. apply Hne. by store_reads.
  - apply bind_Ok in R as (z & s1 & R & R2). injection R2 as <-. unfold register_asset in R. minv.
    exfalso. apply Hne. by store_reads.
  - unfold update_asset in R. apply bind_Ok in R as (u & s1 & Ra & R). apply require_auth_Ok in Ra as [Ha ->].
    apply bind_Ok in R as (x & s1 & Rx & R). apply governed_Ok in Rx as (-> & _ & _). minv.
    exfalso. apply Hne. by store_reads.
  - apply bind_Ok in R as (z & s1 & R & R2). injection R2 as <-. unfold record_lineage in R. minv.
    exfalso. apply Hne. by store_reads.
  - unfold record_quality_scorecard in R. minv. exfalso. apply Hne. by store_reads.
  - unfold set_access_policy in R. apply bind_Ok in R as (u & s1 & Ra & R).
    apply require_auth_Ok in Ra as [Ha ->].
    apply bind_Ok in R as (x & s1 & Rx & R). apply governed_Ok in Rx as (-> & Hx & Hw). minv.
    destruct (decide (ap_asset_id policy = i)) as [<-|Hi]; [by exists x, caller|].
    exfalso. apply Hne. by store_reads.
  - apply bind_Ok in R as (z & s1 & R & R2). injection R2 as <-.
    unfold create_stewardship_request in R. minv. exfalso. apply Hne. by store_reads.
  - unfold review_stewardship_request in R. minv. exfalso. apply Hne. by store_reads.
Qed.

(** What a policy allows. *)
Definition allows (p : AccessPolicy) (action : Symbol) : Prop :=
  (action = "read"%string /\ ap_can_read p = true) \/ (action = "write"%string /\ ap_can_write p = true)
  \/ (action = "export"%string /\ ap_can_export p = true).

Definition in_force (p : AccessPolicy) (now : Z) : Prop := ap_expires_at p <= 0 \/ now <= ap_expires_at p.

Lemma allows_iff p action :
  (if bool_decide (action = "read"%string) && ap_can_read p then true
   else if bool_decide (action = "write"%string) && ap_can_write p then true
   else if bool_decide (action = "export"%string) && ap_can_export p then true
   else false) = true <-> allows p action.
Proof.
  unfold allows. destruct (ap_can_read p), (ap_can_write p), (ap_can_export p);
    repeat case_bool_decide; simpl; naive_solver.
Qed.

(** [check_access] always answers, changes nothing, and says yes exactly when the role has a policy
    on the asset that is in force and allows the action: the grantee a policy names plays no part. *)
Theorem access_check_decides i role action (c : Ctx) (s : St) :
  exists b, check_access i role action c s = Ok (b, s) /\
    (b = true <-> exists p, sget (inst s) (GovernanceKey.PolicyByAssetRole i role) = Some p /\
                    in_force p (cx_timestamp c) /\ allows p action).
Proof.
  unfold check_access, bind, iget, ledger_timestamp, ret.
  destruct (sget (inst s) (GovernanceKey.PolicyByAssetRole i role)) as [p|];
    (eexists; split; [reflexivity|]); [|split; [done|by intros (? & ? & _)]].
  unfold in_force.
  destruct (Z.ltb_spec 0 (ap_expires_at p)), (Z.ltb_spec (ap_expires_at p) (cx_timestamp c)); simpl.
  1: { split; [done|]. intros (x & [= <-] & Hf & _). lia. }
  all: rewrite allows_iff; split; [intros Ha; exists p; split; [done|split; [lia|done]]|];
    by intros (x & [= <-] & _ & Ha).
Qed.

(** Whoever signs can register an asset that is already registered, with another owner: the owner
    of an asset is not asked. *)
Theorem asset_can_be_taken_over thief x a (c : Ctx) (s : St) :
  sget (inst s) (GovernanceKey.AssetById (as_asset_id a)) = Some x ->
  shas (inst s) GovernanceKey.Admin = true -> cx_auth c thief = true ->
  exists s', register_asset thief a c s = Ok (as_asset_id a, s') /\
    sget (inst s') (GovernanceKey.AssetById (as_asset_id a)) = Some a.
Proof.
  intros _ Hadmin Ha. unfold register_asset, bind, require_auth, ihas, iset, ret. rewrite Ha, Hadmin.
  simpl. eexists. split; [reflexivity|]. simpl. by rewrite sset_eq.
Qed.

(** ** Requests *)

(** What a request asks for. *)
Definition asked (r : StewardshipRequest) :=
  (st_request_id r, st_asset_id r, st_requester r, st_action_type r, st_justification r, st_created_at r).

Record QInv (st : store) : Prop := {
  q_admin : is_Some (sget st GovernanceKey.Admin);
  q_next : exists n, sget st GovernanceKey.NextRequestId = Some n /\ 1 <= n /\
    (forall i, is_Some (sget st (GovernanceKey.StewardshipRequestById i)) <-> 1 <= i < n);
  q_status : forall i r, sget st (GovernanceKey.StewardshipRequestById i) = Some r ->
    st_request_id r = i /\
    ((st_status r = "pending"%string /\ st_reviewer r = None) \/
     ((st_status r = "approved"%string \/ st_status r = "rejected"%string) /\ is_Some (st_reviewer r))) }.

Definition request_key (k : GovernanceKey) : bool :=
  match k with
  | GovernanceKey.Admin | GovernanceKey.NextRequestId | GovernanceKey.StewardshipRequestById _ => true
  | _ => false
  end.

(** The requests of one state are those of another, with more of them and their reviews. *)
Definition requests_kept (st st' : store) : Prop :=
  forall i r, sget st (GovernanceKey.StewardshipRequestById i) = Some r ->
    exists r', sget st' (GovernanceKey.StewardshipRequestById i) = Some r' /\ asked r' = asked r.

Lemma request_other st k v :
  request_key k = false -> QInv st -> QInv (sset st k v) /\ requests_kept st (sset st k v).
Proof.
  intros Hk [H1 (n & Hn & Hb & H2) H3].
  assert (Hne : forall k' : GovernanceKey, request_key k' = true -> sget (sset st k v) k' = sget st k').
  { intros k' Hk'. apply sset_ne. congruence. }
  split; [split|].
  - by rewrite Hne.
  - exists n. rewrite Hne by done. split; [done|]. split; [done|]. intros i. by rewrite Hne.
  - intros i r. rewrite Hne by done. apply H3.
  - intros i r Hr. exists r. by rewrite Hne.
Qed.

Lemma request_step k c (s s' : St) :
  QInv (inst s) -> dexec k c s = Ok (tt, s') -> QInv (inst s') /\ requests_kept (inst s) (inst s').
Proof.
  intros Hi R. destruct k; simpl in R.
  - unfold initialize in R. minv. match goal with H : shas _ _ = false |- _ => apply shas_false in H end.
    destruct (q_admin _ Hi). congruence.
  - apply bind_Ok in R as (z & s1 & R & R2). injection R2 as <-. unfold register_asset in R. minv.
    by apply request_other.
  - unfold update_asset in R. apply bind_Ok in R as (u & s1 & Ra & R). apply require_auth_Ok in Ra as [Ha ->].
    apply bind_Ok in R as (x & s1 & Rx & R). apply governed_Ok in Rx as (-> & _ & _). minv.
    by apply request_other.
  - apply bind_Ok in R as (z & s1 & R & R2). injection R2 as <-. unfold record_lineage in R. minv.
    by apply request_other.
  - unfold record_quality_scorecard in R. minv. by apply request_other.
  - unfold set_access_policy in R. apply bind_Ok in R as (u & s1 & Ra & R).
    apply require_auth_Ok in Ra as [Ha ->].
    apply bind_Ok in R as (x & s1 & Rx & R). apply governed_Ok in Rx as (-> & Hx & Hw). minv.
    match goal with |- QInv (sset (sset ?t ?k1 ?v1) ?k2 ?v2) /\ _ =>
      destruct (request_other t k1 v1) as [Q K]; [done|done|];
      destruct (request_other (sset t k1 v1) k2 v2) as [Q' K']; [done|done|] end.
    split; [done|]. intros i r Hr. destruct (K i r Hr) as (r1 & Hr1 & E1).
    destruct (K' i r1 Hr1) as (r2 & Hr2 & E2). exists r2. split; [done|congruence].
  - apply bind_Ok in R as (z & s1 & R & R2). injection R2 as <-. unfold create_stewardship_request in R.
    destruct Hi as [H1 (n & Hn & Hb & H2) H3]. minv. rewrite Hn in *.
    match goal with |- QInv (sset (sset ?st _ _) _ _) /\ _ => set (t := st) in * end.
    assert (Hfresh : sget t (GovernanceKey.StewardshipRequestById n) = None).
    { destruct (sget t (GovernanceKey.StewardshipRequestById n)) eqn:E; [|done].
      assert (1 <= n < n) by (apply H2; rewrite E; eauto). lia. }
    split; [split|].
    + by store_reads.
    + exists (n + 1). split; [by store_reads|]. split; [lia|]. intros i.
      destruct (decide (i = n)) as [->|Hne]; store_reads; [split; [lia|eauto]|]. rewrite H2. lia.
    + intros i r. destruct (decide (i = n)) as [->|Hne]; store_reads; [|apply H3].
      intros [= <-]. split; [done|]. by left.
    + intros i r Hr. exists r. split; [|done]. destruct (decide (i = n)) as [->|Hne]; [congruence|].
      by store_reads.
  - unfold review_stewardship_request in R. destruct Hi as [H1 (n & Hn & Hb & H2) H3]. minv.
    match goal with |- QInv (sset ?st _ _) /\ _ => set (t := st) in * end.
    match goal with H : sget t (GovernanceKey.StewardshipRequestById _) = Some ?x |- _ =>
      rename x into r0, H into Hr0 end.
    split; [split|].
    + by store_reads.
    + exists n. split; [by store_reads|]. split; [done|]. intros i. rewrite <- H2.
      destruct (decide (i = request)) as [->|Hne]; store_reads; [|done]. rewrite Hr0. split; eauto.
    + intros i r. destruct (decide (i = request)) as [->|Hne]; store_reads; [|apply H3].
      intros [= <-]. split; [simpl; by destruct (H3 _ _ Hr0)|]. right. split; [|by eexists]. simpl. destruct approved; auto.
    + intros i r Hr. destruct (decide (i = request)) as [->|Hne].
      * eexists. store_reads. split; [done|]. rewrite Hr0 in Hr. by injection Hr as <-.
      * exists r. by store_reads.
Qed.

(** One successful call of the catalog, in some context. *)
Definition any_dstep (s s' : St) : Prop := exists c, dstep c s s'.

(** Once the contract is initialized, the requests are numbered from 1 without gaps, each pending
    until somebody reviews it and approved or rejected from then on; and what a request asked for
    stays. *)
Theorem requests_are_numbered_and_kept admin chief (c : Ctx) (s1 s : St) :
  initialize admin chief c empty_state = Ok (tt, s1) -> rtc any_dstep s1 s ->
  (exists n, forall i, is_Some (sget (inst s) (GovernanceKey.StewardshipRequestById i)) <-> 1 <= i < n) /\
  (forall i r, sget (inst s) (GovernanceKey.StewardshipRequestById i) = Some r ->
     (st_reviewer r = None <-> st_status r = "pending"%string)) /\
  (forall k c' s', dexec k c' s = Ok (tt, s') -> requests_kept (inst s) (inst s')).
Proof.
  intros R Hs.
  assert (QInv (inst s1)) as H1.
  { unfold initialize in R. minv. split.
    - by store_reads.
    - exists 1. store_reads. split; [done|]. split; [done|]. intros i. rewrite !sset_ne by done.
      split; [by intros []|lia].
    - intros i r. by rewrite !sset_ne. }
  assert (QInv (inst s)) as H.
  { clear R. induction Hs as [|u v w (c0 & [k ? ? Rk]) _ IH]; [done|]. apply IH.
    by eapply request_step. }
  split; [|split].
  - destruct (q_next _ H) as (n & _ & _ & Hn). by exists n.
  - intros i r Hr. destruct (q_status _ H i r Hr) as [_ [[-> ->]|[[-> | ->] [x ->]]]]; done.
  - intros k c' s' Rk. by eapply request_step.
Qed.

(** A review can be reversed, by anyone who signs: neither the steward of the asset nor the chief
    steward is consulted. *)
Theorem reviews_can_be_reversed a i b r (c : Ctx) (s : St) :
  sget (inst s) (GovernanceKey.StewardshipRequestById i) = Some r -> cx_auth c a = true ->
  exists s', review_stewardship_request a i b c s = Ok (tt, s') /\
    st_status <$> sget (inst s') (GovernanceKey.StewardshipRequestById i) =
      Some (if b then "approved"%string else "rejected"%string).
Proof.
  intros Hr Ha. unfold review_stewardship_request, bind, require_auth, iget, iset, ledger_timestamp.
  rewrite Ha, Hr. simpl. eexists. split; [reflexivity|]. simpl. by rewrite sset_eq.
Qed.

(** ** The properties at concrete states *)

Definition d_call (t : Z) (k : dcall) (s : St) : St := post (dexec k) (at_time t) s.

Definition d_id : Hash := replicate 32 4.
Definition d_asset : CatalogAsset :=
  mkCatalogAsset d_id "ledger" [1] DataClassification.Internal alice owner [] 1 0 0.
Definition d_policy : AccessPolicy :=
  mkAccessPolicy (replicate 32 0) d_id "auditor" (Some owner) true false false true 500.
Definition d_init : St := d_call 10 (DInit owner alice) empty_state.
Definition d_listed : St := d_call 11 (DRegister alice d_asset) d_init.
Definition d_open : St := d_call 12 (DPolicy alice d_policy) d_listed.
Definition d_asked : St := d_call 20 (DRequest alice d_id "delete" [1]) d_init.
Definition d_done : St := d_call 21 (DReview owner 1 false) d_asked.

Lemma d_call_step t k s : outcome (dexec k) (at_time t) s = Ok tt -> any_dstep s (d_call t k s).
Proof. intros H. exists (at_time t). apply (dstep_call (at_time t) k). by apply run_outcome. Qed.

Lemma policies_need_owner_or_steward_witness :
  exists x who, sget (inst d_listed) (GovernanceKey.AssetById d_id) = Some x /\
    cx_auth (at_time 12) who = true /\ (who = as_owner x \/ who = as_steward x).
Proof.
  assert (outcome (dexec (DPolicy alice d_policy)) (at_time 12) d_listed = Ok tt) as R%run_outcome
    by (vm_compute; reflexivity).
  apply (policies_need_owner_or_steward _ _ _ _ d_id "auditor" R). vm_compute. discriminate.
Defined.

Lemma asset_can_be_taken_over_witness :
  let a := mkCatalogAsset d_id "ledger" [] DataClassification.Public "mallory" "mallory" [] 1 0 0 in
  exists s', register_asset "mallory" a (at_time 30) d_listed = Ok (d_id, s') /\
    sget (inst s') (GovernanceKey.AssetById d_id) = Some a.
Proof.
  intros a.
  exact (asset_can_be_taken_over "mallory" d_asset a (at_time 30) d_listed
           ltac:(vm_compute; reflexivity) ltac:(vm_compute; reflexivity) eq_refl).
Defined.

Lemma requests_are_numbered_and_kept_witness :
  (exists n, forall i, is_Some (sget (inst d_done) (GovernanceKey.StewardshipRequestById i)) <-> 1 <= i < n) /\
  st_status <$> sget (inst d_done) (GovernanceKey.StewardshipRequestById 1) = Some "rejected"%string.
Proof.
  assert (outcome (initialize owner alice) (at_time 10) empty_state = Ok tt) as R%run_outcome
    by (vm_compute; reflexivity).
  assert (rtc any_dstep d_init d_done) as S.
  { do 2 (eapply rtc_r; [|apply d_call_step; vm_compute; reflexivity]). apply rtc_refl. }
  destruct (requests_are_numbered_and_kept _ _ _ d_init _ R S) as (H & _ & _).
  split; [exact H|]. vm_compute. reflexivity.
Defined.

Lemma reviews_can_be_reversed_witness :
  exists s', review_stewardship_request "mallory" 1 true (at_time 40) d_done = Ok (tt, s') /\
    st_status <$> sget (inst s') (GovernanceKey.StewardshipRequestById 1) = Some "approved"%string.
Proof.
  destruct (sget (inst d_done) (GovernanceKey.StewardshipRequestById 1)) as [r|] eqn:E;
    [|vm_compute in E; discriminate].
  exact (reviews_can_be_reversed "mallory" 1 true r (at_time 40) d_done E eq_refl).
Defined.
