(* ===== verification/Cbdc.v ===== *)
(** * Digital currencies: transactions, logging and privacy

    The types of src/cbdc_types.rs, the event log of src/cbdc_logging.rs and
    the masking and access lists of src/cbdc_privacy.rs.  The functions work on
    values; errors are texts.

    The second part of the file: digital currencies: settlement and offline
    transactions. *)

From stdpp Require Import relations.
From S2P Require Import Prelude Contract Fallible Codec.

(** ** Types *)

Module CBDCPilot.
(** [CBDCPilot], src/cbdc_types.rs:9-18 *)
Inductive CBDCPilot : Set :=
  | DigitalEuro | DigitalDollar | eCNY | SandDollar.
#[global] Instance CBDCPilot_eq_dec : EqDecision CBDCPilot.
Proof. solve_decision. Defined.

(** [CBDCPilot], its discriminants, src/cbdc_types.rs:9-18 *)
Definition code (x : CBDCPilot) : Z :=
  match x with
  | DigitalEuro => 0 | DigitalDollar => 1 | eCNY => 2 | SandDollar => 3
  end.
End CBDCPilot.
Abbreviation CBDCPilot := CBDCPilot.CBDCPilot.

Module InteropProtocol.
(** [InteropProtocol], src/cbdc_types.rs:63-72 *)
Inductive InteropProtocol : Set :=
  | AtomicSwap | HubAndSpoke | ISO20022 | CBPR.
#[global] Instance InteropProtocol_eq_dec : EqDecision InteropProtocol.
Proof. solve_decision. Defined.

(** [InteropProtocol], its discriminants, src/cbdc_types.rs:63-72 *)
Definition code (x : InteropProtocol) : Z :=
  match x with
  | AtomicSwap => 0 | HubAndSpoke => 1 | ISO20022 => 2 | CBPR => 3
  end.
End InteropProtocol.
Abbreviation InteropProtocol := InteropProtocol.InteropProtocol.

Module PrivacyTier.
(** [PrivacyTier], src/cbdc_types.rs:98-107 *)
Inductive PrivacyTier : Set :=
  | Public | Pseudonymous | Private | RegulatoryConfidential.
#[global] Instance PrivacyTier_eq_dec : EqDecision PrivacyTier.
Proof. solve_decision. Defined.

(** [PrivacyTier], its discriminants, src/cbdc_types.rs:98-107 *)
Definition code (x : PrivacyTier) : Z :=
  match x with
  | Public => 0 | Pseudonymous => 1 | Private => 2 | RegulatoryConfidential => 3
  end.
End PrivacyTier.
Abbreviation PrivacyTier := PrivacyTier.PrivacyTier.

Module OfflineStatus.
(** [OfflineStatus], src/cbdc_types.rs:137-146 *)
Inductive OfflineStatus : Set :=
  | PendingReconciliation | Reconciled | FailedReconciliation | Disputed.
#[global] Instance OfflineStatus_eq_dec : EqDecision OfflineStatus.
Proof. solve_decision. Defined.

(** [OfflineStatus], its discriminants, src/cbdc_types.rs:137-146 *)
Definition code (x : OfflineStatus) : Z :=
  match x with
  | PendingReconciliation => 0 | Reconciled => 1 | FailedReconciliation => 2 | Disputed => 3
  end.
End OfflineStatus.
Abbreviation OfflineStatus := OfflineStatus.OfflineStatus.

(** [CBDCTransaction], src/cbdc_types.rs:166-193 *)
Record CBDCTransaction := mkCBDCTransaction {
  ct_tx_id : Hash;
  ct_source_pilot : Z;
  ct_dest_pilot : Z;
  ct_from : Address;
  ct_to : Address;
  ct_amount_source : Z;
  ct_amount_dest : Z;
  ct_exchange_rate : Z;
  ct_timestamp : Z;
  ct_protocol : Z;
  ct_privacy_tier : Z;
  ct_offline_status : option Z;
  ct_metadata : Bytes }.

(** [BatchSettlement], src/cbdc_types.rs:230-243 *)
Record BatchSettlement := mkBatchSettlement {
  bs_batch_id : Hash;
  bs_transaction_ids : list Hash;
  bs_total_amount : Z;
  bs_settlement_status : Z;
  bs_created_at : Z;
  bs_settled_at : option Z }.

(** [CBDCConfig], src/cbdc_types.rs:248-259 *)
Record CBDCConfig := mkCBDCConfig {
  cc_max_tx_amount : Z;
  cc_min_tx_amount : Z;
  cc_exchange_rate_update_interval : Z;
  cc_max_batch_size : Z;
  cc_offline_mode_enabled : bool }.

(** The bytes of an unsigned number, the least significant first,
    [to_le_bytes]. *)
Fixpoint le_bytes (n : nat) (v : Z) : Bytes :=
  match n with
  | O => []
  | S n => v mod 256 :: le_bytes n (v / 256)
  end.

Module Pilot.
(** [as_symbol], of CBDCPilot, src/cbdc_types.rs:21-28 *)
Definition as_symbol (p : CBDCPilot) : Symbol :=
  match p with
  | CBDCPilot.DigitalEuro => "EUR"
  | CBDCPilot.DigitalDollar => "USD"
  | CBDCPilot.eCNY => "CNY"
  | CBDCPilot.SandDollar => "BSD"
  end.
(** [as_str], src/cbdc_types.rs:30-37 *)
Definition as_str (p : CBDCPilot) : string :=
  match p with
  | CBDCPilot.DigitalEuro => "DIGITAL_EURO"
  | CBDCPilot.DigitalDollar => "DIGITAL_DOLLAR"
  | CBDCPilot.eCNY => "E_CNY"
  | CBDCPilot.SandDollar => "SAND_DOLLAR"
  end.
(** [currency_code], src/cbdc_types.rs:39-46 *)
Definition currency_code (p : CBDCPilot) : string :=
  match p with
  | CBDCPilot.DigitalEuro => "EUR"
  | CBDCPilot.DigitalDollar => "USD"
  | CBDCPilot.eCNY => "CNY"
  | CBDCPilot.SandDollar => "BSD"
  end.
(** [from_code], src/cbdc_types.rs:48-56 *)
Definition from_code (code : string) : option CBDCPilot :=
  if String.eqb code "EUR" then Some CBDCPilot.DigitalEuro
  else if String.eqb code "USD" then Some CBDCPilot.DigitalDollar
  else if String.eqb code "CNY" then Some CBDCPilot.eCNY
  else if String.eqb code "BSD" then Some CBDCPilot.SandDollar
  else None.
End Pilot.

Module Protocol.
(** [as_symbol], of InteropProtocol, src/cbdc_types.rs:75-82 *)
Definition as_symbol (p : InteropProtocol) : Symbol :=
  match p with
  | InteropProtocol.AtomicSwap => "ATOMIC_SWAP"
  | InteropProtocol.HubAndSpoke => "HUB_SPOKE"
  | InteropProtocol.ISO20022 => "ISO_20022"
  | InteropProtocol.CBPR => "CBPR"
  end.
(** [version], src/cbdc_types.rs:84-91 *)
Definition version (p : InteropProtocol) : string :=
  match p with
  | InteropProtocol.AtomicSwap | InteropProtocol.HubAndSpoke | InteropProtocol.CBPR => "1.0"
  | InteropProtocol.ISO20022 => "20.2"
  end.
End Protocol.

Module Tier.
(** [as_symbol], of PrivacyTier, src/cbdc_types.rs:110-117 *)
Definition as_symbol (t : PrivacyTier) : Symbol :=
  match t with
  | PrivacyTier.Public => "PUBLIC"
  | PrivacyTier.Pseudonymous => "PSEUDO"
  | PrivacyTier.Private => "PRIVATE"
  | PrivacyTier.RegulatoryConfidential => "REGUL"
  end.
(** [requires_encryption], src/cbdc_types.rs:119-126 *)
Definition requires_encryption (t : PrivacyTier) : bool :=
  match t with PrivacyTier.Public => false | _ => true end.
(** [visibility_level], src/cbdc_types.rs:128-130 *)
Definition visibility_level (t : PrivacyTier) : Z := PrivacyTier.code t.
End Tier.

Module Offline.
(** [as_symbol], of OfflineStatus, src/cbdc_types.rs:149-156 *)
Definition as_symbol (t : OfflineStatus) : Symbol :=
  match t with
  | OfflineStatus.PendingReconciliation => "PENDING"
  | OfflineStatus.Reconciled => "RECON"
  | OfflineStatus.FailedReconciliation => "FAILED"
  | OfflineStatus.Disputed => "DISPUTE"
  end.
(** [is_settled], src/cbdc_types.rs:158-160 *)
Definition is_settled (t : OfflineStatus) : bool :=
  match t with OfflineStatus.Reconciled => true | _ => false end.
End Offline.

Module Config.
(** [default], src/cbdc_types.rs:262-270 *)
Definition default : CBDCConfig := mkCBDCConfig 100000000 100 3600 1000 true.
(** [is_valid_amount], src/cbdc_types.rs:272-274 *)
Definition is_valid_amount (c : CBDCConfig) (amount : Z) : bool :=
  Z.leb (cc_min_tx_amount c) amount && Z.leb amount (cc_max_tx_amount c).
End Config.

(** ** Events *)

(** [CBDCEvent], src/cbdc_logging.rs:9-22 *)
Record CBDCEvent := mkCBDCEvent {
  ev_event_index : Z;
  ev_timestamp : Z;
  ev_transaction : CBDCTransaction;
  ev_event_type : Symbol;
  ev_status : Symbol;
  ev_error_message : option Bytes }.

(** [CBDCEventConfig], src/cbdc_logging.rs:68-77 *)
Record CBDCEventConfig := mkCBDCEventConfig {
  ec_max_events : Z;
  ec_event_count : Z;
  ec_log_all_transactions : bool;
  ec_retention_seconds : Z }.
Definition set_ec_event_count (v : Z) (r : CBDCEventConfig) : CBDCEventConfig :=
  mkCBDCEventConfig (ec_max_events r) v (ec_log_all_transactions r) (ec_retention_seconds r).

Module TransactionEventType.
(** [TransactionEventType], src/cbdc_logging.rs:110-121 *)
Inductive TransactionEventType : Set :=
  | CrossCBDCTransfer | BatchSettlement | ExchangeRateUpdate | Reconciliation | DisputeReversal.
#[global] Instance TransactionEventType_eq_dec : EqDecision TransactionEventType.
Proof. solve_decision. Defined.

(** [TransactionEventType], its discriminants, src/cbdc_logging.rs:110-121 *)
Definition code (x : TransactionEventType) : Z :=
  match x with
  | CrossCBDCTransfer => 0 | BatchSettlement => 1 | ExchangeRateUpdate => 2 | Reconciliation => 3
  | DisputeReversal => 4
  end.
End TransactionEventType.
Abbreviation TransactionEventType := TransactionEventType.TransactionEventType.

(** [CBDCEventStats], src/cbdc_logging.rs:138-149 *)
Record CBDCEventStats := mkCBDCEventStats {
  es_total_success : Z;
  es_total_failed : Z;
  es_total_volume : Z;
  es_last_transaction_timestamp : Z;
  es_events_per_pilot : list (Z * Z) }.

Module Event.
(** [transaction_success], src/cbdc_logging.rs:25-40 *)
Definition transaction_success (event_index timestamp : Z) (transaction : CBDCTransaction)
    (event_type : Symbol) : CBDCEvent :=
  mkCBDCEvent event_index timestamp transaction event_type "success" None.
(** [transaction_failed], src/cbdc_logging.rs:42-58 *)
Definition transaction_failed (event_index timestamp : Z) (transaction : CBDCTransaction)
    (event_type : Symbol) (error : Bytes) : CBDCEvent :=
  mkCBDCEvent event_index timestamp transaction event_type "failed" (Some error).
(** [is_success], src/cbdc_logging.rs:60-62 *)
Definition is_success (e : CBDCEvent) : bool := bool_decide (ev_status e = "success"%string).
End Event.

Module EventConfig.
(** [default], src/cbdc_logging.rs:80-87 *)
Definition default : CBDCEventConfig := mkCBDCEventConfig 100000 0 true 0.
(** [is_full], src/cbdc_logging.rs:89-91 *)
Definition is_full (c : CBDCEventConfig) : bool := Z.leb (ec_max_events c) (ec_event_count c).
(** [can_log_more], src/cbdc_logging.rs:93-95 *)
Definition can_log_more (c : CBDCEventConfig) : bool := negb (is_full c).
(** [increment_count], src/cbdc_logging.rs:97-103 *)
Definition increment_count : SM CBDCEventConfig string unit :=
  let! c := sm_get in
  do! sm_try (fail_if (is_full c) "CBDC event log is full"%string) in
  let! n := sm_try (u32_plus (ec_event_count c) 1) in
  sm_put (set_ec_event_count n c).
End EventConfig.

Module EventType.
(** [as_symbol], of TransactionEventType, src/cbdc_logging.rs:124-132 *)
Definition as_symbol (t : TransactionEventType) : Symbol :=
  match t with
  | TransactionEventType.CrossCBDCTransfer => "XFER"
  | TransactionEventType.BatchSettlement => "BATCH"
  | TransactionEventType.ExchangeRateUpdate => "RATE"
  | TransactionEventType.Reconciliation => "RECON"
  | TransactionEventType.DisputeReversal => "DISPUTE"
  end.
End EventType.

Module EventStats.
(** [new], of CBDCEventStats, src/cbdc_logging.rs:152-160 *)
Definition new : CBDCEventStats := mkCBDCEventStats 0 0 0 0 [].
(** [record_success]; the volume saturates, src/cbdc_logging.rs:162-166 *)
Definition record_success (amount timestamp : Z) (s : CBDCEventStats) : result string CBDCEventStats :=
  let? n := u32_plus (es_total_success s) 1 in
  Ok (mkCBDCEventStats n (es_total_failed s) (Z.min (es_total_volume s + amount) u128_max) timestamp
        (es_events_per_pilot s)).
(** [record_failure], src/cbdc_logging.rs:168-170 *)
Definition record_failure (s : CBDCEventStats) : result string CBDCEventStats :=
  let? n := u32_plus (es_total_failed s) 1 in
  Ok (mkCBDCEventStats (es_total_success s) n (es_total_volume s) (es_last_transaction_timestamp s)
        (es_events_per_pilot s)).
(** [success_rate], src/cbdc_logging.rs:172-178 *)
Definition success_rate (s : CBDCEventStats) : result string Z :=
  let? total := u32_plus (es_total_success s) (es_total_failed s) in
  if Z.eqb total 0 then Ok 100 else Ok (es_total_success s * 100 / total).
End EventStats.

Module Logger.
(** [log_transaction_success], src/cbdc_logging.rs:186-200 *)
Definition log_transaction_success (now event_index : Z) (transaction : CBDCTransaction)
    (event_type : TransactionEventType) : CBDCEvent :=
  Event.transaction_success event_index now transaction (EventType.as_symbol event_type).
(** [log_transaction_failed], src/cbdc_logging.rs:203-220 *)
Definition log_transaction_failed (now event_index : Z) (transaction : CBDCTransaction)
    (event_type : TransactionEventType) (error_msg : string) : CBDCEvent :=
  Event.transaction_failed event_index now transaction (EventType.as_symbol event_type)
    (str_bytes error_msg).
(** [create_metadata], src/cbdc_logging.rs:223-250 *)
Definition create_metadata (source dest : CBDCPilot) (protocol : InteropProtocol)
    (privacy_tier : PrivacyTier) : Bytes :=
  str_bytes (Pilot.currency_code source) ++ str_bytes ":" ++ str_bytes (Pilot.currency_code dest)
  ++ str_bytes ":" ++ str_bytes (Protocol.as_symbol protocol) ++ str_bytes ":"
  ++ str_bytes (Tier.as_symbol privacy_tier).
(** [validate_transaction], src/cbdc_logging.rs:253-267 *)
Definition validate_transaction (tx : CBDCTransaction) : result string unit :=
  do? fail_if (Z.eqb (ct_amount_source tx) 0) "Transaction amount cannot be zero"%string in
  do? fail_if (Z.eqb (ct_amount_dest tx) 0) "Destination amount cannot be zero"%string in
  do? fail_if (Z.eqb (ct_exchange_rate tx) 0) "Exchange rate cannot be zero"%string in
  fail_if (Z.eqb (ct_source_pilot tx) (ct_dest_pilot tx))
    "Source and destination pilots cannot be the same"%string.
(** The pilot of a number, or the error. *)
Definition pilot_of (n : Z) (e : string) : result string CBDCPilot :=
  match n with
  | 0 => Ok CBDCPilot.DigitalEuro
  | 1 => Ok CBDCPilot.DigitalDollar
  | 2 => Ok CBDCPilot.eCNY
  | 3 => Ok CBDCPilot.SandDollar
  | _ => Err (Raise e)
  end.
(** [get_source_pilot], src/cbdc_logging.rs:270-278 *)
Definition get_source_pilot (tx : CBDCTransaction) : result string CBDCPilot :=
  pilot_of (ct_source_pilot tx) "Invalid source pilot".
(** [get_dest_pilot], src/cbdc_logging.rs:281-289 *)
Definition get_dest_pilot (tx : CBDCTransaction) : result string CBDCPilot :=
  pilot_of (ct_dest_pilot tx) "Invalid destination pilot".
End Logger.

(** ** Privacy *)

(** [MaskedTransaction], src/cbdc_privacy.rs:9-22 *)
Record MaskedTransaction := mkMaskedTransaction {
  mt_content_hash : Hash;
  mt_privacy_tier : Z;
  mt_encrypted_data : option Bytes;
  mt_authorized_decrypters : list Address;
  mt_masked_at : Z;
  mt_encryption_metadata : Bytes }.

(** [PrivacyACL], src/cbdc_privacy.rs:41-54 *)
Record PrivacyACL := mkPrivacyACL {
  pa_acl_id : Hash;
  pa_transaction_hash : Hash;
  pa_read_access : list Address;
  pa_audit_access : list Address;
  pa_regulatory_access : list Address;
  pa_expires_at : Z }.

Module AccessLevel.
(** [AccessLevel], src/cbdc_privacy.rs:267-276 *)
Inductive AccessLevel : Set :=
  | None | AuditOnly | Read | RegulatoryFull.
#[global] Instance AccessLevel_eq_dec : EqDecision AccessLevel.
Proof. solve_decision. Defined.

(** [AccessLevel], its discriminants, src/cbdc_privacy.rs:267-276 *)
Definition code (x : AccessLevel) : Z :=
  match x with
  | None => 0 | AuditOnly => 1 | Read => 2 | RegulatoryFull => 3
  end.
End AccessLevel.
Abbreviation AccessLevel := AccessLevel.AccessLevel.

(** [PrivacyStats], src/cbdc_privacy.rs:294-303 *)
Record PrivacyStats := mkPrivacyStats {
  pt_public_count : Z;
  pt_pseudonymous_count : Z;
  pt_private_count : Z;
  pt_regulatory_count : Z }.

Module Masked.
(** [is_public], src/cbdc_privacy.rs:25-27 *)
Definition is_public (m : MaskedTransaction) : bool :=
  Z.eqb (mt_privacy_tier m) (PrivacyTier.code PrivacyTier.Public).
(** [is_encrypted], src/cbdc_privacy.rs:29-31 *)
Definition is_encrypted (m : MaskedTransaction) : bool :=
  match mt_encrypted_data m with Some _ => true | None => false end.
(** [requires_decryption_key], src/cbdc_privacy.rs:33-35 *)
Definition requires_decryption_key (m : MaskedTransaction) : bool :=
  Z.leb (PrivacyTier.code PrivacyTier.Pseudonymous) (mt_privacy_tier m).
End Masked.

Module Acl.
Definition listed (l : list Address) (a : Address) : bool := existsb (fun x => bool_decide (x = a)) l.
(** [has_read_access], src/cbdc_privacy.rs:57-59 *)
Definition has_read_access (l : PrivacyACL) (a : Address) : bool := listed (pa_read_access l) a.
(** [has_audit_access], src/cbdc_privacy.rs:61-63 *)
Definition has_audit_access (l : PrivacyACL) (a : Address) : bool := listed (pa_audit_access l) a.
(** [has_regulatory_access], src/cbdc_privacy.rs:65-67 *)
Definition has_regulatory_access (l : PrivacyACL) (a : Address) : bool :=
  listed (pa_regulatory_access l) a.
(** [is_expired], src/cbdc_privacy.rs:69-71 *)
Definition is_expired (l : PrivacyACL) (current_time : Z) : bool :=
  Z.ltb 0 (pa_expires_at l) && Z.ltb (pa_expires_at l) current_time.
(** [can_access], src/cbdc_privacy.rs:73-80 *)
Definition can_access (l : PrivacyACL) (a : Address) (current_time : Z) : bool :=
  if is_expired l current_time then false
  else has_read_access l a || has_audit_access l a || has_regulatory_access l a.
(** [can_read_full_details], src/cbdc_privacy.rs:279-281 *)
Definition can_read_full_details (v : AccessLevel) : bool :=
  match v with AccessLevel.Read | AccessLevel.RegulatoryFull => true | _ => false end.
(** [can_audit], src/cbdc_privacy.rs:283-288 *)
Definition can_audit (v : AccessLevel) : bool :=
  match v with AccessLevel.None => false | _ => true end.
(** [check_access_permission], src/cbdc_privacy.rs:240-260 *)
Definition check_access_permission (l : PrivacyACL) (accessor : Address) (current_time : Z)
    : result string AccessLevel :=
  do? fail_if (is_expired l current_time) "Access control list has expired"%string in
  if has_regulatory_access l accessor then Ok AccessLevel.RegulatoryFull
  else if has_read_access l accessor then Ok AccessLevel.Read
  else if has_audit_access l accessor then Ok AccessLevel.AuditOnly
  else Err (Raise "No access permission"%string).
End Acl.

Module PrivacyManager.
(** [encryption_metadata], src/cbdc_privacy.rs:181-190 *)
Definition encryption_metadata (t : PrivacyTier) : Bytes :=
  str_bytes (match t with
             | PrivacyTier.Pseudonymous => "PSEUDONYMOUS_V1"
             | PrivacyTier.Private => "PRIVATE_V1"
             | PrivacyTier.RegulatoryConfidential => "REGULATORY_V1"
             | PrivacyTier.Public => "NONE"
             end).
(** [validate_privacy_configuration], src/cbdc_privacy.rs:229-237 *)
Definition validate_privacy_configuration (t : PrivacyTier) (has_authorized_decrypters : bool)
    : result string unit :=
  fail_if (Tier.requires_encryption t && negb has_authorized_decrypters)
    "Encrypted transactions must have authorized decrypters"%string.

Section Hashes.
Context `{C : Crypto} `{X : AddressXdr}.

(** [compute_hash]; the previous hash is only asked for its environment,
    src/cbdc_types.rs:197-224 *)
Definition compute_hash (t : CBDCTransaction) (prev_hash : Hash) : Hash :=
  sha256 (ct_tx_id t ++ le_bytes 1 (ct_source_pilot t) ++ le_bytes 1 (ct_dest_pilot t)
          ++ le_bytes 16 (ct_amount_source t) ++ le_bytes 16 (ct_amount_dest t)
          ++ le_bytes 16 (ct_exchange_rate t) ++ le_bytes 8 (ct_timestamp t) ++ ct_metadata t).

(** [compute_transaction_content_hash], src/cbdc_privacy.rs:114-124 *)
Definition compute_transaction_content_hash (t : CBDCTransaction) : Hash :=
  sha256 (ct_tx_id t ++ le_bytes 8 (ct_timestamp t)).

(** [encrypt_transaction_data], src/cbdc_privacy.rs:127-178 *)
Definition encrypt_transaction_data (t : CBDCTransaction) (privacy_tier : PrivacyTier)
    : result string Bytes :=
  match privacy_tier with
  | PrivacyTier.Pseudonymous =>
      Ok (le_bytes 1 (ct_source_pilot t) ++ le_bytes 1 (ct_dest_pilot t)
          ++ sha256 (le_bytes 16 (ct_amount_source t) ++ le_bytes 16 (ct_exchange_rate t)))
  | PrivacyTier.Private =>
      Ok (sha256 (le_bytes 1 (ct_source_pilot t) ++ le_bytes 1 (ct_dest_pilot t)
                  ++ address_xdr (ct_from t) ++ address_xdr (ct_to t)
                  ++ le_bytes 16 (ct_amount_source t) ++ le_bytes 16 (ct_amount_dest t)))
  | PrivacyTier.RegulatoryConfidential =>
      Ok (sha256 (ct_tx_id t ++ le_bytes 8 (ct_timestamp t) ++ ct_metadata t))
  | PrivacyTier.Public => Err (Raise "Public transactions should not be encrypted"%string)
  end.

(** [mask_transaction], src/cbdc_privacy.rs:88-111 *)
Definition mask_transaction (now : Z) (t : CBDCTransaction) (privacy_tier : PrivacyTier)
    (authorized_decrypters : list Address) : result string MaskedTransaction :=
  let content_hash := compute_transaction_content_hash t in
  let? encrypted_data :=
    (if Tier.requires_encryption privacy_tier
     then let? d := encrypt_transaction_data t privacy_tier in Ok (Some d)
     else Ok None) in
  Ok (mkMaskedTransaction content_hash (PrivacyTier.code privacy_tier) encrypted_data
        authorized_decrypters now (encryption_metadata privacy_tier)).

(** [compute_acl_id], src/cbdc_privacy.rs:219-226 *)
Definition compute_acl_id (transaction_hash : Hash) : Hash :=
  sha256 (transaction_hash ++ str_bytes "ACL_V1").

(** [create_privacy_acl], src/cbdc_privacy.rs:193-216 *)
Definition create_privacy_acl (now : Z) (transaction_hash : Hash)
    (read_access audit_access regulatory_access : list Address) (expiration_secs : Z)
    : result string PrivacyACL :=
  let? expires_at := (if Z.ltb 0 expiration_secs then u64_plus now expiration_secs else Ok 0) in
  Ok (mkPrivacyACL (compute_acl_id transaction_hash) transaction_hash read_access audit_access
        regulatory_access expires_at).
End Hashes.
End PrivacyManager.

Module Stats.
(** [new], of PrivacyStats, src/cbdc_privacy.rs:306-313 *)
Definition new : PrivacyStats := mkPrivacyStats 0 0 0 0.
(** [total_count], src/cbdc_privacy.rs:315-317 *)
Definition total_count (s : PrivacyStats) : result string Z :=
  let? n := u32_plus (pt_public_count s) (pt_pseudonymous_count s) in
  let? n := u32_plus n (pt_private_count s) in
  u32_plus n (pt_regulatory_count s).
(** [record_transaction], src/cbdc_privacy.rs:319-326 *)
Definition record_transaction (t : PrivacyTier) (s : PrivacyStats) : result string PrivacyStats :=
  let '(mkPrivacyStats a b c d) := s in
  match t with
  | PrivacyTier.Public => let? a := u32_plus a 1 in Ok (mkPrivacyStats a b c d)
  | PrivacyTier.Pseudonymous => let? b := u32_plus b 1 in Ok (mkPrivacyStats a b c d)
  | PrivacyTier.Private => let? c := u32_plus c 1 in Ok (mkPrivacyStats a b c d)
  | PrivacyTier.RegulatoryConfidential => let? d := u32_plus d 1 in Ok (mkPrivacyStats a b c d)
  end.
(** [privacy_ratio], src/cbdc_privacy.rs:328-334 *)
Definition privacy_ratio (s : PrivacyStats) : result string Z :=
  let? total := total_count s in
  if Z.eqb total 0 then Ok 0
  else
    let? n := u32_plus (pt_pseudonymous_count s) (pt_private_count s) in
    let? encrypted := u32_plus n (pt_regulatory_count s) in
    Ok (encrypted * 100 / total).
End Stats.

(** * Digital currencies: settlement and offline transactions

    Exchange rates, conversion and settlement of src/cbdc_interop.rs; offline
    transactions, their reconciliation and batches of src/cbdc_offline.rs.  A
    function on a [&mut] argument is a step of the [SM] monad on it. *)

(** ** Interoperability *)

(** [ExchangeRate], src/cbdc_interop.rs:9-24 *)
Record ExchangeRate := mkExchangeRate {
  xr_source_pilot : Z;
  xr_dest_pilot : Z;
  xr_rate : Z;
  xr_timestamp : Z;
  xr_bid_price : Z;
  xr_ask_price : Z;
  xr_max_volatility : Z }.

(** [SettlementInstruction], src/cbdc_interop.rs:49-62 *)
Record SettlementInstruction := mkSettlementInstruction {
  si_settlement_id : Hash;
  si_transaction : CBDCTransaction;
  si_protocol : Z;
  si_status : Z;
  si_timestamp : Z;
  si_confirmation_hash : option Hash }.

Module SettlementStatus.
(** [SettlementStatus], src/cbdc_interop.rs:68-81 *)
Inductive SettlementStatus : Set :=
  | Created | InitiatedSource | ConfirmedSource | AwaitingDestination | Completed | Failed.
#[global] Instance SettlementStatus_eq_dec : EqDecision SettlementStatus.
Proof. solve_decision. Defined.

(** [SettlementStatus], its discriminants, src/cbdc_interop.rs:68-81 *)
Definition code (x : SettlementStatus) : Z :=
  match x with
  | Created => 0 | InitiatedSource => 1 | ConfirmedSource => 2 | AwaitingDestination => 3
  | Completed => 4 | Failed => 5
  end.
End SettlementStatus.
Abbreviation SettlementStatus := SettlementStatus.SettlementStatus.

(** [SettlementPath], src/cbdc_interop.rs:252-259 *)
Record SettlementPath := mkSettlementPath {
  sp_path : list Z;
  sp_rates : list Z;
  sp_total_cost_bps : Z }.

(** [u128::saturating_add], [u64::saturating_sub]. *)
Definition u128_sat_add (a b : Z) : Z := Z.min (a + b) u128_max.
Definition sat_sub (a b : Z) : Z := Z.max 0 (a - b).

(** [checked_mul(..).ok_or(e)?]. *)
Definition checked_mul {E} (a b : Z) (e : E) : result E Z :=
  if Z.leb (a * b) u128_max then Ok (a * b) else Err (Raise e).

Definition FIXED_POINT : Z := 1000000000000000000.

Module Rate.
(** [is_stale], src/cbdc_interop.rs:28-30 *)
Definition is_stale (r : ExchangeRate) (current_time staleness_threshold : Z) : bool :=
  Z.ltb staleness_threshold (sat_sub current_time (xr_timestamp r)).
(** [mid_price], src/cbdc_interop.rs:33-35 *)
Definition mid_price (r : ExchangeRate) : Z := u128_sat_add (xr_bid_price r) (xr_ask_price r) / 2.
(** [spread_bps], src/cbdc_interop.rs:38-43 *)
Definition spread_bps (r : ExchangeRate) : result string Z :=
  if Z.eqb (mid_price r) 0 then Ok 0
  else
    let? d := u128_chk (xr_ask_price r - xr_bid_price r) in
    let? d := u128_chk (d * 10000) in
    div_chk d (mid_price r).
End Rate.

Module Settlement.
(** [as_symbol], of SettlementStatus, src/cbdc_interop.rs:84-93 *)
Definition as_symbol (s : SettlementStatus) : Symbol :=
  match s with
  | SettlementStatus.Created => "CREATED"
  | SettlementStatus.InitiatedSource => "INIT_SRC"
  | SettlementStatus.ConfirmedSource => "CONF_SRC"
  | SettlementStatus.AwaitingDestination => "AWAIT_DST"
  | SettlementStatus.Completed => "COMPLETE"
  | SettlementStatus.Failed => "FAILED"
  end.
(** [is_terminal], src/cbdc_interop.rs:95-97 *)
Definition is_terminal (s : SettlementStatus) : bool :=
  match s with SettlementStatus.Completed | SettlementStatus.Failed => true | _ => false end.
(** [is_valid_status_transition], src/cbdc_interop.rs:207-220 *)
Definition is_valid_status_transition (from to : SettlementStatus) : bool :=
  match from, to with
  | SettlementStatus.Created, SettlementStatus.InitiatedSource => true
  | SettlementStatus.InitiatedSource, SettlementStatus.ConfirmedSource => true
  | SettlementStatus.ConfirmedSource, SettlementStatus.AwaitingDestination => true
  | SettlementStatus.AwaitingDestination, SettlementStatus.Completed => true
  | SettlementStatus.AwaitingDestination, SettlementStatus.Failed => true
  | _, SettlementStatus.Failed => true
  | _, _ => false
  end.
End Settlement.

Module Interop.
(** [validate_exchange_rate], src/cbdc_interop.rs:105-123 *)
Definition validate_exchange_rate (r : ExchangeRate) (current_time staleness_threshold : Z)
    : result string unit :=
  do? fail_if (Rate.is_stale r current_time staleness_threshold) "Exchange rate is stale"%string in
  do? fail_if (Z.eqb (xr_rate r) 0) "Exchange rate is zero"%string in
  do? fail_if (Z.eqb (xr_bid_price r) 0 || Z.eqb (xr_ask_price r) 0)
        "Bid/ask prices cannot be zero"%string in
  fail_if (Z.ltb (xr_ask_price r) (xr_bid_price r)) "Bid price cannot exceed ask price"%string.

(** [convert_amount]; the division by 10^18 cannot fail, src/cbdc_interop.rs:126-142 *)
Definition convert_amount (amount rate : Z) : result string Z :=
  do? fail_if (Z.eqb rate 0) "Exchange rate cannot be zero"%string in
  do? fail_if (Z.eqb amount 0) "Amount cannot be zero"%string in
  let? scaled := checked_mul amount rate "Conversion overflow"%string in
  Ok (scaled / FIXED_POINT).

Section Swaps.
Context `{C : Crypto} `{X : AddressXdr}.

(** [execute_atomic_swap]; the timeout is a parameter that is not used,
    src/cbdc_interop.rs:145-165 *)
Definition execute_atomic_swap (from to : Address) (source_amount dest_amount : Z)
    : result string Hash :=
  do? fail_if (Z.eqb source_amount 0 || Z.eqb dest_amount 0) "Amounts cannot be zero"%string in
  Ok (sha256 (address_xdr from ++ address_xdr to ++ le_bytes 16 source_amount
              ++ le_bytes 16 dest_amount)).

(** [execute_hub_and_spoke], src/cbdc_interop.rs:168-185 *)
Definition execute_hub_and_spoke (hub_address : Address) (source_amount dest_amount : Z)
    : result string Hash :=
  do? fail_if (Z.eqb source_amount 0 || Z.eqb dest_amount 0) "Amounts cannot be zero"%string in
  Ok (sha256 (address_xdr hub_address ++ le_bytes 16 source_amount ++ le_bytes 16 dest_amount)).
End Swaps.

(** [validate_settlement_instruction], src/cbdc_interop.rs:188-199 *)
Definition validate_settlement_instruction (i : SettlementInstruction) : result string unit :=
  do? fail_if (Z.eqb (ct_amount_source (si_transaction i)) 0
               || Z.eqb (ct_amount_dest (si_transaction i)) 0)
        "Settlement amounts cannot be zero"%string in
  fail_if (Z.eqb (ct_exchange_rate (si_transaction i)) 0)
    "Settlement exchange rate cannot be zero"%string.

(** [protocol_version], src/cbdc_interop.rs:202-204 *)
Definition protocol_version (p : InteropProtocol) : string := Protocol.version p.

(** [compute_settlement_fee], src/cbdc_interop.rs:223-235 *)
Definition compute_settlement_fee (amount fee_bps : Z) : result string Z :=
  do? fail_if (Z.ltb 10000 fee_bps) "Fee basis points cannot exceed 10000"%string in
  let? fee := checked_mul amount fee_bps "Fee calculation overflow"%string in
  Ok (fee / 10000).

(** [validate_pilot_pair], src/cbdc_interop.rs:238-246 *)
Definition validate_pilot_pair (source dest : Z) : result string unit :=
  do? fail_if (Z.eqb source dest) "Source and destination pilots must differ"%string in
  fail_if (Z.ltb 3 source || Z.ltb 3 dest) "Invalid pilot identifier"%string.

(** The conversions of [compute_final_amount], one after the other. *)
Fixpoint convert_all (amount : Z) (rates : list Z) : result string Z :=
  match rates with
  | [] => Ok amount
  | rate :: rates => let? amount := convert_amount amount rate in convert_all amount rates
  end.

(** [compute_final_amount], src/cbdc_interop.rs:263-277 *)
Definition compute_final_amount (p : SettlementPath) (initial_amount : Z) : result string Z :=
  do? fail_if (Nat.ltb (length (sp_path p)) 2) "Path must have at least 2 pilots"%string in
  do? fail_if (negb (Nat.eqb (length (sp_path p)) (length (sp_rates p)))) "Path length mismatch"%string in
  convert_all initial_amount (sp_rates p).
End Interop.

(** ** Offline transactions *)

(** [OfflineTransaction], src/cbdc_offline.rs:9-26 *)
Record OfflineTransaction := mkOfflineTransaction {
  ot_tx_hash : Hash;
  ot_transaction : CBDCTransaction;
  ot_signature : Bytes;
  ot_signer_pubkey : Bytes;
  ot_status : Z;
  ot_created_at : Z;
  ot_reconciled_at : option Z;
  ot_nonce : Z }.

(** [ReconciliationState], src/cbdc_offline.rs:48-59 *)
Record ReconciliationState := mkReconciliationState {
  rs_total_transactions : Z;
  rs_successful_count : Z;
  rs_failed_count : Z;
  rs_pending_count : Z;
  rs_disputed_count : Z }.

(** [ReconciliationQueue], src/cbdc_offline.rs:294-301 *)
Record ReconciliationQueue := mkReconciliationQueue {
  rq_pending_tx_hashes : list Hash;
  rq_max_queue_size : Z;
  rq_last_flush_time : Z }.

Module OfflineTx.
(** [has_valid_signature_format], src/cbdc_offline.rs:30-32 *)
Definition has_valid_signature_format (t : OfflineTransaction) : bool :=
  negb (bool_decide (ot_signature t = [])) && negb (bool_decide (ot_signer_pubkey t = [])).
(** [is_settled], src/cbdc_offline.rs:35-37 *)
Definition is_settled (t : OfflineTransaction) : bool :=
  Z.eqb (ot_status t) (OfflineStatus.code OfflineStatus.Reconciled).
(** [is_failed], src/cbdc_offline.rs:40-42 *)
Definition is_failed (t : OfflineTransaction) : bool :=
  Z.eqb (ot_status t) (OfflineStatus.code OfflineStatus.FailedReconciliation).
(** The transaction with another status, reconciled at [now]. *)
Definition with_status (t : OfflineTransaction) (s : OfflineStatus) (now : Z) : OfflineTransaction :=
  mkOfflineTransaction (ot_tx_hash t) (ot_transaction t) (ot_signature t) (ot_signer_pubkey t)
    (OfflineStatus.code s) (ot_created_at t) (Some now) (ot_nonce t).
End OfflineTx.

Module Reconciliation.
(** [new], of ReconciliationState, src/cbdc_offline.rs:62-70 *)
Definition new : ReconciliationState := mkReconciliationState 0 0 0 0 0.
(** [all_settled], src/cbdc_offline.rs:72-74 *)
Definition all_settled (s : ReconciliationState) : bool :=
  Z.eqb (rs_successful_count s) (rs_total_transactions s).
(** [any_failed], src/cbdc_offline.rs:76-78 *)
Definition any_failed (s : ReconciliationState) : bool :=
  Z.ltb 0 (rs_failed_count s) || Z.ltb 0 (rs_disputed_count s).
(** [reconciliation_rate], src/cbdc_offline.rs:80-85 *)
Definition reconciliation_rate (s : ReconciliationState) : Z :=
  if Z.eqb (rs_total_transactions s) 0 then 100
  else rs_successful_count s * 100 / rs_total_transactions s.
(** One status of [compute_reconciliation_state]. *)
Definition count_status (s : ReconciliationState) (status : Z) : ReconciliationState :=
  let '(mkReconciliationState t a b c d) := s in
  if Z.eqb status (OfflineStatus.code OfflineStatus.Reconciled) then mkReconciliationState t (a + 1) b c d
  else if Z.eqb status (OfflineStatus.code OfflineStatus.FailedReconciliation)
  then mkReconciliationState t a (b + 1) c d
  else if Z.eqb status (OfflineStatus.code OfflineStatus.PendingReconciliation)
  then mkReconciliationState t a b (c + 1) d
  else if Z.eqb status (OfflineStatus.code OfflineStatus.Disputed)
  then mkReconciliationState t a b c (d + 1)
  else s.
(** [compute_reconciliation_state]; no count passes the length of a host
    vector, src/cbdc_offline.rs:258-275 *)
Definition compute_reconciliation_state (statuses : list Z) : ReconciliationState :=
  fold_left count_status statuses (mkReconciliationState (Z.of_nat (length statuses)) 0 0 0 0).
End Reconciliation.

Module OfflineManager.
Section Hashes.
Context `{C : Crypto}.

(** [compute_offline_tx_hash], src/cbdc_offline.rs:123-144 *)
Definition compute_offline_tx_hash (t : CBDCTransaction) (nonce : Z) : Hash :=
  sha256 (ct_tx_id t ++ le_bytes 1 (ct_source_pilot t) ++ le_bytes 1 (ct_dest_pilot t)
          ++ le_bytes 16 (ct_amount_source t) ++ le_bytes 16 (ct_amount_dest t)
          ++ le_bytes 16 (ct_exchange_rate t) ++ le_bytes 4 nonce).

(** [create_offline_transaction], src/cbdc_offline.rs:93-120 *)
Definition create_offline_transaction (now : Z) (t : CBDCTransaction) (signature signer_pubkey : Bytes)
    (nonce : Z) : result string OfflineTransaction :=
  do? fail_if (bool_decide (signature = [])) "Signature cannot be empty"%string in
  do? fail_if (bool_decide (signer_pubkey = [])) "Signer public key cannot be empty"%string in
  Ok (mkOfflineTransaction (compute_offline_tx_hash t nonce) t signature signer_pubkey
        (OfflineStatus.code OfflineStatus.PendingReconciliation) now None nonce).

(** [verify_transaction_integrity], src/cbdc_offline.rs:278-288 *)
Definition verify_transaction_integrity (t : OfflineTransaction) : bool :=
  bool_decide (compute_offline_tx_hash (ot_transaction t) (ot_nonce t) = ot_tx_hash t).

(** [compute_batch_id], src/cbdc_offline.rs:220-229 *)
Definition compute_batch_id (tx_ids : list Hash) : Hash := sha256 (concat tx_ids).

(** [create_batch_settlement], src/cbdc_offline.rs:195-217 *)
Definition create_batch_settlement (now : Z) (tx_ids : list Hash) (total_amount : Z)
    : result string BatchSettlement :=
  do? fail_if (bool_decide (tx_ids = [])) "Batch cannot be empty"%string in
  do? fail_if (Z.eqb total_amount 0) "Batch amount cannot be zero"%string in
  Ok (mkBatchSettlement (compute_batch_id tx_ids) tx_ids total_amount
        (OfflineStatus.code OfflineStatus.PendingReconciliation) now None).
End Hashes.

(** [validate_offline_transaction], src/cbdc_offline.rs:147-161 *)
Definition validate_offline_transaction (t : OfflineTransaction) : result string unit :=
  do? fail_if (negb (OfflineTx.has_valid_signature_format t)) "Invalid signature format"%string in
  do? fail_if (Z.eqb (ct_amount_source (ot_transaction t)) 0) "Transaction amount cannot be zero"%string in
  fail_if (Z.eqb (ot_nonce t) 0) "Invalid nonce"%string.

(** [reconcile_transaction], src/cbdc_offline.rs:164-177 *)
Definition reconcile_transaction (now : Z) : SM OfflineTransaction string unit :=
  let! t := sm_get in
  do! sm_try (fail_if (negb (Z.eqb (ot_status t) (OfflineStatus.code OfflineStatus.PendingReconciliation)))
                "Transaction is not in pending state"%string) in
  sm_put (OfflineTx.with_status t OfflineStatus.Reconciled now).

(** [fail_reconciliation], src/cbdc_offline.rs:180-192 *)
Definition fail_reconciliation (now : Z) : SM OfflineTransaction string unit :=
  let! t := sm_get in
  do! sm_try (fail_if (Z.eqb (ot_status t) (OfflineStatus.code OfflineStatus.Reconciled))
                "Cannot fail already reconciled transaction"%string) in
  sm_put (OfflineTx.with_status t OfflineStatus.FailedReconciliation now).

(** [settle_batch], src/cbdc_offline.rs:232-244 *)
Definition settle_batch (now : Z) : SM BatchSettlement string unit :=
  let! b := sm_get in
  do! sm_try (fail_if (negb (Z.eqb (bs_settlement_status b)
                               (OfflineStatus.code OfflineStatus.PendingReconciliation)))
                "Batch is not in pending state"%string) in
  sm_put (mkBatchSettlement (bs_batch_id b) (bs_transaction_ids b) (bs_total_amount b)
            (OfflineStatus.code OfflineStatus.Reconciled) (bs_created_at b) (Some now)).

(** [verify_nonce], src/cbdc_offline.rs:247-255 *)
Definition verify_nonce (last_nonce current_nonce : Z) : result string unit :=
  fail_if (Z.leb current_nonce last_nonce) "Nonce replay detected or invalid sequence"%string.
End OfflineManager.

Module Queue.
(** [new], of ReconciliationQueue, src/cbdc_offline.rs:304-310 *)
Definition new (max_size : Z) : ReconciliationQueue := mkReconciliationQueue [] max_size 0.
(** [is_full], src/cbdc_offline.rs:312-314 *)
Definition is_full (q : ReconciliationQueue) : bool :=
  Z.leb (rq_max_queue_size q) (Z.of_nat (length (rq_pending_tx_hashes q))).
(** [add_transaction], src/cbdc_offline.rs:316-322 *)
Definition add_transaction (tx_hash : Hash) : SM ReconciliationQueue string unit :=
  let! q := sm_get in
  do! sm_try (fail_if (is_full q) "Reconciliation queue is full"%string) in
  sm_put (mkReconciliationQueue (rq_pending_tx_hashes q ++ [tx_hash]) (rq_max_queue_size q)
            (rq_last_flush_time q)).
(** [clear], src/cbdc_offline.rs:324-327 *)
Definition clear (timestamp : Z) (q : ReconciliationQueue) : ReconciliationQueue :=
  mkReconciliationQueue [] (rq_max_queue_size q) timestamp.
End Queue.
