(* ===== verification/CbdcProps.v ===== *)
(** * Properties of the digital currency library

    Conversion rounds down and never gains, fees are shares, settlements and
    reconciliations only advance, the hash of an offline transaction binds its
    amounts and not its parties, access lists agree with the levels they give. *)

From Stdlib Require Import Sorted.
From stdpp Require Import relations.
From S2P Require Import Prelude Contract Fallible Codec Sample Cbdc.

(** ** Codes *)

(** A currency code stands for a pilot exactly when it is the code of the pilot. *)
Theorem codes_round_trip code p : Pilot.from_code code = Some p <-> Pilot.currency_code p = code.
Proof.
  unfold Pilot.from_code. split.
  - repeat (match goal with |- context [String.eqb ?a ?b] => destruct (String.eqb_spec a b) end);
      intros [= <-]; by subst.
  - intros <-. by destruct p.
Qed.

(** ** Access lists *)

(** The two tests of an access list agree: it lets somebody in exactly when it gives them a level,
    and the level it gives is the highest they are listed for. *)
Theorem access_levels_decide (l : PrivacyACL) a now :
  (Acl.can_access l a now = true <->
     exists v, Acl.check_access_permission l a now = Ok v /\ Acl.can_audit v = true) /\
  (Acl.can_access l a now = true ->
     Acl.check_access_permission l a now =
       Ok (if Acl.has_regulatory_access l a then AccessLevel.RegulatoryFull
           else if Acl.has_read_access l a then AccessLevel.Read else AccessLevel.AuditOnly)).
Proof.
  unfold Acl.can_access, Acl.check_access_permission, fail_if.
  destruct (Acl.is_expired l now), (Acl.has_regulatory_access l a), (Acl.has_read_access l a),
    (Acl.has_audit_access l a); simpl; (split; [|done]); split; try done; eauto; naive_solver.
Qed.

(** ** Conversion *)

Lemma convert_Ok a r b :
  Interop.convert_amount a r = Ok b <->
  r <> 0 /\ a <> 0 /\ a * r <= u128_max /\ b = a * r / FIXED_POINT.
Proof.
  unfold Interop.convert_amount, checked_mul, fail_if.
  destruct (Z.eqb_spec r 0), (Z.eqb_spec a 0), (Z.leb_spec (a * r) u128_max); simpl; split;
    try (intros [=]; lia); try (intros (? & ? & ? & ?); try lia); subst; try done.
Qed.

(** A conversion is exact up to rounding down, and fails exactly on a zero amount, a zero rate or a
    product that 128 bits do not hold. *)
Theorem conversion_rounds_down a r :
  0 <= a -> 0 <= r ->
  if Z.eqb r 0 || Z.eqb a 0 || Z.ltb u128_max (a * r)
  then exists e, Interop.convert_amount a r = Err (Raise e)
  else exists b, Interop.convert_amount a r = Ok b /\
         b * FIXED_POINT <= a * r < (b + 1) * FIXED_POINT.
Proof.
  intros Ha Hr. unfold Interop.convert_amount, checked_mul, fail_if.
  destruct (Z.eqb_spec r 0), (Z.eqb_spec a 0), (Z.ltb_spec u128_max (a * r)),
    (Z.leb_spec (a * r) u128_max); try lia; simpl; eauto.
  eexists. split; [done|]. unfold FIXED_POINT.
  pose proof (Z.div_mod (a * r) 1000000000000000000 ltac:(lia)).
  pose proof (Z.mod_pos_bound (a * r) 1000000000000000000 ltac:(lia)). lia.
Qed.

(** Converting there and back at rates that are not better than inverse to each other never gains. *)
Theorem round_trips_never_gain a r r' b a' :
  0 <= a -> 0 <= r -> 0 <= r' -> r * r' <= FIXED_POINT * FIXED_POINT ->
  Interop.convert_amount a r = Ok b -> Interop.convert_amount b r' = Ok a' -> a' <= a.
Proof.
  intros Ha Hr Hr' Hrr (_ & _ & _ & ->)%convert_Ok (_ & _ & _ & ->)%convert_Ok.
  unfold FIXED_POINT in *.
  pose proof (Z.mul_div_le (a * r) 1000000000000000000 ltac:(lia)) as H1.
  set (q := a * r / 1000000000000000000) in *.
  apply Z.div_le_upper_bound; [lia|].
  assert (1000000000000000000 * q * r' <= a * r * r') by nia.
  assert (a * r * r' <= a * (1000000000000000000 * 1000000000000000000)) by nia.
  nia.
Qed.

(** A path whose pilots are one more than its rates, one rate for each hop, is always refused. *)
Theorem one_rate_per_hop_is_refused (p : SettlementPath) a :
  length (sp_path p) = S (length (sp_rates p)) -> (2 <= length (sp_path p))%nat ->
  Interop.compute_final_amount p a = Err (Raise "Path length mismatch"%string).
Proof.
  intros Hl H2. unfold Interop.compute_final_amount, fail_if.
  destruct (Nat.ltb_spec (length (sp_path p)) 2); [lia|]. simpl. rewrite Hl.
  by rewrite (proj2 (Nat.eqb_neq _ _)) by lia.
Qed.

(** A fee is at most the amount, and the whole of it only at 10,000 basis points. *)
Theorem fees_are_shares amount bps fee :
  0 < amount -> 0 <= bps -> Interop.compute_settlement_fee amount bps = Ok fee ->
  0 <= fee <= amount /\ (fee = amount <-> bps = 10000).
Proof.
  intros Ha Hb. unfold Interop.compute_settlement_fee, checked_mul, fail_if. intros R.
  destruct (Z.ltb_spec 10000 bps); [done|]. destruct (Z.leb_spec (amount * bps) u128_max); [|done].
  simpl in R. injection R as <-.
  pose proof (Z.div_mod (amount * bps) 10000 ltac:(lia)).
  pose proof (Z.mod_pos_bound (amount * bps) 10000 ltac:(lia)).
  split; [nia|]. split; intros; nia.
Qed.

(** A validated rate has its mid price between bid and ask, as long as their sum fits 128 bits. *)
Theorem mid_price_is_between r now threshold :
  0 <= xr_bid_price r -> 0 <= xr_ask_price r -> xr_bid_price r + xr_ask_price r <= u128_max ->
  Interop.validate_exchange_rate r now threshold = Ok tt ->
  xr_bid_price r <= Rate.mid_price r <= xr_ask_price r /\ 0 < Rate.mid_price r /\
  now - xr_timestamp r <= threshold.
Proof.
  intros Hb Ha Hs R. unfold Interop.validate_exchange_rate, Rate.is_stale, sat_sub in R. rinv. zcase.
  unfold Rate.mid_price, u128_sat_add. rewrite Z.min_l by done.
  pose proof (Z.div_mod (xr_bid_price r + xr_ask_price r) 2 ltac:(lia)).
  pose proof (Z.mod_pos_bound (xr_bid_price r + xr_ask_price r) 2 ltac:(lia)). lia.
Qed.

(** ** Settlement *)

Definition settles (s s' : SettlementStatus) : Prop := Settlement.is_valid_status_transition s s' = true.

(** A settlement never goes back, completes in exactly four steps, and stays failed. *)
Theorem settlements_only_advance :
  (forall s s', rtc settles s s' -> SettlementStatus.code s <= SettlementStatus.code s') /\
  (forall n, nsteps settles n SettlementStatus.Created SettlementStatus.Completed -> n = 4%nat) /\
  (forall s, rtc settles SettlementStatus.Failed s -> s = SettlementStatus.Failed).
Proof.
  split; [|split].
  - induction 1 as [|s t u Hs _ IH]; [done|]. etransitivity; [|exact IH].
    destruct s, t; try discriminate Hs; done.
  - assert (Hc : forall n s, nsteps settles n s SettlementStatus.Completed ->
      s <> SettlementStatus.Failed -> Z.of_nat n = 4 - SettlementStatus.code s).
    { induction n as [|n IH]; intros s Hn Hs; inversion Hn as [|? ? t ? Hst Ht]; subst; [done|].
      assert (t <> SettlementStatus.Failed) as Hf.
      { intros ->. clear -Ht. remember SettlementStatus.Failed as f eqn:Ef. remember SettlementStatus.Completed as g eqn:Eg.
        induction Ht as [|m a b d Hab _ IH]; [congruence|]. subst. destruct b; try discriminate Hab. auto. }
      specialize (IH t Ht Hf). destruct s, t; try discriminate Hst; try done; simpl in *; lia. }
    intros n Hn. apply Hc in Hn; [|done]. simpl in Hn. lia.
  - intros s. remember SettlementStatus.Failed as f eqn:Ef. intros H. revert Ef.
    induction H as [|a b d Hab _ IH]; [done|]. intros ->. destruct b; try discriminate Hab. by apply IH.
Qed.

(** A completed settlement counts as terminal and can still fail. *)
Theorem completed_settlements_can_fail :
  Settlement.is_terminal SettlementStatus.Completed = true /\
  settles SettlementStatus.Completed SettlementStatus.Failed.
Proof. done. Qed.

(** ** Offline transactions *)

(** One attempt to reconcile, or to fail, at a time. *)
Inductive attempt : Set := TryReconcile (now : Z) | TryFail (now : Z).

Definition attempted (a : attempt) : SM OfflineTransaction string unit :=
  match a with
  | TryReconcile now => OfflineManager.reconcile_transaction now
  | TryFail now => OfflineManager.fail_reconciliation now
  end.

Fixpoint after_all (l : list attempt) (t : OfflineTransaction) : OfflineTransaction :=
  match l with
  | [] => t
  | a :: l => after_all l (attempted a t).2
  end.

(** A transaction that was reconciled stays as it is whatever is attempted later, and every attempt
    fails; a pending one is reconciled by the first attempt to, and never after a failed one. *)
Theorem reconciliation_is_final (t : OfflineTransaction) (l : list attempt) :
  (OfflineTx.is_settled t = true ->
     after_all l t = t /\ forall a, exists e, (attempted a t).1 = Err (Raise e)) /\
  (OfflineTx.is_failed t = true -> OfflineTx.is_settled (after_all l t) = false) /\
  ot_tx_hash (after_all l t) = ot_tx_hash t /\ ot_transaction (after_all l t) = ot_transaction t.
Proof.
  assert (Hs : forall t a, OfflineTx.is_settled t = true ->
    (attempted a t).2 = t /\ exists e, (attempted a t).1 = Err (Raise e)).
  { intros u [now|now] H%Z.eqb_eq; simpl;
      unfold OfflineManager.reconcile_transaction, OfflineManager.fail_reconciliation, sm_bind, sm_get,
        sm_try, fail_if; rewrite H; simpl; eauto. }
  assert (Hf : forall t a, OfflineTx.is_failed t = true -> OfflineTx.is_failed (attempted a t).2 = true).
  { intros u [now|now] H; simpl; pose proof H as H'%Z.eqb_eq;
      unfold OfflineManager.reconcile_transaction, OfflineManager.fail_reconciliation, sm_bind, sm_get,
        sm_try, fail_if, sm_put; rewrite H'; simpl; done. }
  assert (Hk : forall t a, ot_tx_hash (attempted a t).2 = ot_tx_hash t /\
                           ot_transaction (attempted a t).2 = ot_transaction t).
  { intros u [now|now]; simpl;
      unfold OfflineManager.reconcile_transaction, OfflineManager.fail_reconciliation, sm_bind, sm_get,
        sm_try, fail_if, sm_put; destruct (Z.eqb _ _); done. }
  split; [|split].
  - intros H. split; [|intros a; by apply Hs]. induction l as [|a l IH]; [done|]. simpl.
    destruct (Hs t a H) as [-> _]. done.
  - revert t. induction l as [|a l IH]; intros t H; simpl.
    + apply Z.eqb_eq in H. unfold OfflineTx.is_settled. by rewrite H.
    + by apply IH, Hf.
  - revert t. induction l as [|a l IH]; intros t; [done|]. simpl.
    destruct (IH (attempted a t).2) as [-> ->]. apply Hk.
Qed.

(** Successive nonces, each accepted after the one before. *)
Fixpoint accept_all (last : Z) (l : list Z) : result string Z :=
  match l with
  | [] => Ok last
  | n :: l => do? OfflineManager.verify_nonce last n in accept_all n l
  end.

(** Accepted nonces increase strictly, so none is accepted twice. *)
Theorem accepted_nonces_increase last l n :
  accept_all last l = Ok n -> StronglySorted Z.lt (last :: l) /\ NoDup l.
Proof.
  intros R. assert (StronglySorted Z.lt (last :: l)) as S.
  { revert last R. induction l as [|m l IH]; intros last R; simpl in R.
    - repeat constructor.
    - apply rbind_Ok in R as (u & Hv & R). apply fail_if_Ok, Z.leb_gt in Hv. apply IH in R.
      constructor; [done|]. constructor; [done|]. apply StronglySorted_inv in R as [_ F].
      eapply Forall_impl; [exact F|]. simpl. lia. }
  split; [done|]. clear R. apply StronglySorted_inv in S as [S _]. induction S as [|m k _ IH F]; [constructor|].
  constructor; [|done]. intros Hin. rewrite Forall_forall in F. apply F in Hin. lia.
Qed.

(** ** The counts of a batch *)

Definition known_status (s : Z) : bool := Z.leb 0 s && Z.leb s 3.

Lemma count_total l s :
  let s' := fold_left Reconciliation.count_status l s in
  rs_total_transactions s' = rs_total_transactions s /\
  rs_successful_count s' = rs_successful_count s + Z.of_nat (length (List.filter (Z.eqb 1) l)) /\
  rs_successful_count s' + rs_failed_count s' + rs_pending_count s' + rs_disputed_count s' =
    rs_successful_count s + rs_failed_count s + rs_pending_count s + rs_disputed_count s
    + Z.of_nat (length (List.filter known_status l)).
Proof.
  revert s. induction l as [|x l IH]; intros s; cbn [fold_left List.filter length]; [lia|].
  specialize (IH (Reconciliation.count_status s x)). cbn zeta in IH |- *.
  destruct IH as (H1 & H2 & H3). rewrite H3, H1, H2. destruct s as [t a b c d].
  unfold Reconciliation.count_status, known_status. cbn [OfflineStatus.code].
  destruct (Z.eqb_spec x 1) as [->|]; [cbn; lia|]. rewrite (proj2 (Z.eqb_neq 1 x)) by lia.
  destruct (Z.eqb_spec x 2) as [->|]; [cbn; lia|]. destruct (Z.eqb_spec x 0) as [->|]; [cbn; lia|].
  destruct (Z.eqb_spec x 3) as [->|]; [cbn; lia|].
  destruct (Z.leb_spec 0 x), (Z.leb_spec x 3); try lia; cbn; lia.
Qed.

Lemma filter_all {A} (f : A -> bool) l :
  length (List.filter f l) = length l <-> Forall (fun x => f x = true) l.
Proof.
  induction l as [|x l IH]; simpl; [done|]. rewrite Forall_cons, <- IH.
  pose proof (filter_length_le f l). destruct (f x) eqn:E; simpl; [|split; [lia|by intros []]].
  split; [intros [=]; done|intros [_ ->]; done].
Qed.

(** The state of a batch counts every known status once; its rate is the share of the reconciled
    ones, a percentage, and everything is settled exactly when every status is. *)
Theorem batch_states_count (l : list Z) :
  let s := Reconciliation.compute_reconciliation_state l in
  rs_total_transactions s = Z.of_nat (length l) /\
  rs_successful_count s + rs_failed_count s + rs_pending_count s + rs_disputed_count s =
    Z.of_nat (length (List.filter known_status l)) /\
  0 <= Reconciliation.reconciliation_rate s <= 100 /\
  (Reconciliation.all_settled s = true <-> Forall (fun x => x = 1) l).
Proof.
  pose proof (count_total l (mkReconciliationState (Z.of_nat (length l)) 0 0 0 0)) as H.
  unfold Reconciliation.compute_reconciliation_state. cbn zeta in H |- *.
  destruct H as (H1 & H2 & H3). cbn in H1, H2, H3.
  set (s := fold_left _ _ _) in *. split; [done|]. split; [lia|].
  assert (Hle : (length (List.filter (Z.eqb 1) l) <= length l)%nat) by apply filter_length_le.
  split.
  - unfold Reconciliation.reconciliation_rate. rewrite H1, H2.
    destruct (Z.eqb_spec (Z.of_nat (length l)) 0); [lia|]. apply percent_bounds; lia.
  - unfold Reconciliation.all_settled. rewrite H1, H2, Z.eqb_eq, Z.add_0_l, Nat2Z.inj_iff, filter_all.
    split; intros F; (eapply Forall_impl; [exact F|]); intros x; [by intros ->%Z.eqb_eq|by intros ->].
Qed.

(** The queue never holds more than its maximum. *)
Theorem queue_is_bounded (q : ReconciliationQueue) h :
  let '(r, q') := Queue.add_transaction h q in
  Z.of_nat (length (rq_pending_tx_hashes q)) <= Z.max 0 (rq_max_queue_size q) ->
  Z.of_nat (length (rq_pending_tx_hashes q')) <= Z.max 0 (rq_max_queue_size q') /\
  match r with
  | Ok _ => rq_pending_tx_hashes q' = rq_pending_tx_hashes q ++ [h]
  | Err _ => q' = q /\ Queue.is_full q = true
  end.
Proof.
  unfold Queue.add_transaction, sm_bind, sm_get, sm_try, fail_if, sm_put.
  destruct (Queue.is_full q) eqn:E; simpl; [done|]. intros H. split; [|done].
  unfold Queue.is_full in E. apply Z.leb_gt in E. rewrite length_app. simpl. lia.
Qed.

(** ** Logs and rates *)

Lemma increment_run c :
  EventConfig.increment_count c =
    if EventConfig.is_full c then (Err (Raise "CBDC event log is full"%string), c)
    else if Z.leb (ec_event_count c + 1) u32_max then (Ok tt, set_ec_event_count (ec_event_count c + 1) c)
    else (Err (Panic Overflow), c).
Proof.
  unfold EventConfig.increment_count, sm_bind, sm_get, sm_try, sm_put, fail_if, u32_plus.
  destruct (EventConfig.is_full c); [done|]. by destruct (Z.leb _ _).
Qed.

Fixpoint log_events_n (n : nat) (c : CBDCEventConfig) : CBDCEventConfig :=
  match n with O => c | S n => log_events_n n (EventConfig.increment_count c).2 end.

(** A log that is not over its maximum never passes it, and counts exactly the events it had room
    for. *)
Theorem log_counts_up_to_its_maximum n c :
  0 <= ec_event_count c <= ec_max_events c -> ec_max_events c <= u32_max ->
  ec_event_count (log_events_n n c) = Z.min (ec_max_events c) (ec_event_count c + Z.of_nat n) /\
  ec_max_events (log_events_n n c) = ec_max_events c.
Proof.
  revert c. induction n as [|n IH]; intros c Hc Hm; cbn [log_events_n]; [lia|].
  rewrite increment_run. unfold EventConfig.is_full.
  destruct (Z.leb_spec (ec_max_events c) (ec_event_count c)).
  - cbn [snd]. destruct (IH c Hc Hm) as [-> ->]. lia.
  - rewrite (proj2 (Z.leb_le (ec_event_count c + 1) u32_max)) by lia. cbn [snd].
    destruct (IH (set_ec_event_count (ec_event_count c + 1) c)) as [-> ->]; simpl; lia.
Qed.

(** The success rate and the share of encrypted transactions are percentages, whenever the totals
    fit 32 bits; otherwise both panic. *)
Theorem rates_are_percentages (s : CBDCEventStats) (p : PrivacyStats) :
  0 <= es_total_success s -> 0 <= es_total_failed s ->
  0 <= pt_public_count p -> 0 <= pt_pseudonymous_count p -> 0 <= pt_private_count p ->
  0 <= pt_regulatory_count p ->
  (if Z.leb (es_total_success s + es_total_failed s) u32_max
   then exists n, EventStats.success_rate s = Ok n /\ 0 <= n <= 100
   else EventStats.success_rate s = Err (Panic Overflow)) /\
  (if Z.leb (pt_public_count p + pt_pseudonymous_count p + pt_private_count p + pt_regulatory_count p)
        u32_max
   then exists n, Stats.privacy_ratio p = Ok n /\ 0 <= n <= 100
   else Stats.privacy_ratio p = Err (Panic Overflow)).
Proof.
  intros H1 H2 H3 H4 H5 H6. split.
  - unfold EventStats.success_rate, u32_plus.
    destruct (Z.leb_spec (es_total_success s + es_total_failed s) u32_max); [|done]. cbn [rbind].
    destruct (Z.eqb_spec (es_total_success s + es_total_failed s) 0); [by exists 100|].
    eexists. split; [done|]. apply percent_bounds; lia.
  - unfold Stats.privacy_ratio, Stats.total_count, u32_plus.
    set (t := pt_public_count p + pt_pseudonymous_count p + pt_private_count p + pt_regulatory_count p).
    destruct (Z.leb_spec t u32_max); subst t.
    + rewrite (proj2 (Z.leb_le (pt_public_count p + pt_pseudonymous_count p) _)) by lia. cbn [rbind].
      rewrite (proj2 (Z.leb_le (pt_public_count p + pt_pseudonymous_count p + pt_private_count p) _))
        by lia. cbn [rbind].
      rewrite (proj2 (Z.leb_le _ _)) by eassumption. cbn [rbind].
      destruct (Z.eqb_spec (pt_public_count p + pt_pseudonymous_count p + pt_private_count p
                            + pt_regulatory_count p) 0); [by exists 0|].
      rewrite (proj2 (Z.leb_le (pt_pseudonymous_count p + pt_private_count p) _)) by lia. cbn [rbind].
      rewrite (proj2 (Z.leb_le (pt_pseudonymous_count p + pt_private_count p + pt_regulatory_count p) _))
        by lia. cbn [rbind].
      eexists. split; [done|]. apply percent_bounds; lia.
    + destruct (Z.leb (pt_public_count p + pt_pseudonymous_count p) u32_max); [|done]. cbn [rbind].
      destruct (Z.leb (pt_public_count p + pt_pseudonymous_count p + pt_private_count p) u32_max);
        [|done]. cbn [rbind].
      by rewrite (proj2 (Z.leb_gt _ _)) by eassumption.
Qed.

(** ** Hashes *)

Lemma le_bytes_length n v : length (le_bytes n v) = n.
Proof. revert v. induction n as [|n IH]; intros v; simpl; auto. Qed.

Lemma le_bytes_inj n v w :
  0 <= v < 256 ^ Z.of_nat n -> 0 <= w < 256 ^ Z.of_nat n -> le_bytes n v = le_bytes n w -> v = w.
Proof.
  revert v w. induction n as [|n IH]; intros v w Hv Hw E; [simpl in *; lia|].
  cbn [le_bytes] in E. injection E as E1 E2.
  rewrite Nat2Z.inj_succ, Z.pow_succ_r in Hv, Hw by lia.
  apply IH in E2; [|split; [apply Z.div_pos|apply Z.div_lt_upper_bound]; lia..].
  rewrite (Z.div_mod v 256), (Z.div_mod w 256) by lia. by rewrite E1, E2.
Qed.

Section Hashes.
Context `{C : Crypto} `{X : AddressXdr}.

(** The numbers of a transaction fit their types. *)
Definition sized (t : CBDCTransaction) : Prop :=
  length (ct_tx_id t) = 32%nat /\ 0 <= ct_source_pilot t < 2 ^ 8 /\ 0 <= ct_dest_pilot t < 2 ^ 8 /\
  0 <= ct_amount_source t < 2 ^ 128 /\ 0 <= ct_amount_dest t < 2 ^ 128 /\
  0 <= ct_exchange_rate t < 2 ^ 128.

(** What the hash of an offline transaction is made of. *)
Definition bound_fields (t : CBDCTransaction) :=
  (ct_tx_id t, ct_source_pilot t, ct_dest_pilot t, ct_amount_source t, ct_amount_dest t,
   ct_exchange_rate t).

Definition offline_preimage (t : CBDCTransaction) (nonce : Z) : Bytes :=
  ct_tx_id t ++ le_bytes 1 (ct_source_pilot t) ++ le_bytes 1 (ct_dest_pilot t)
  ++ le_bytes 16 (ct_amount_source t) ++ le_bytes 16 (ct_amount_dest t)
  ++ le_bytes 16 (ct_exchange_rate t) ++ le_bytes 4 nonce.

Ltac split_bytes E H :=
  apply app_inj_1 in E as [H E]; [|by rewrite ?le_bytes_length].

(** Two intact offline transactions with one hash agree on their identifier, pilots, amounts, rate
    and nonce, unless those collide under the hash. *)
Theorem offline_hash_binds_the_amounts (t t' : OfflineTransaction) :
  (sha256 (offline_preimage (ot_transaction t) (ot_nonce t)) =
     sha256 (offline_preimage (ot_transaction t') (ot_nonce t')) ->
   offline_preimage (ot_transaction t) (ot_nonce t) = offline_preimage (ot_transaction t') (ot_nonce t')) ->
  sized (ot_transaction t) -> sized (ot_transaction t') -> is_u32 (ot_nonce t) -> is_u32 (ot_nonce t') ->
  OfflineManager.verify_transaction_integrity t = true ->
  OfflineManager.verify_transaction_integrity t' = true -> ot_tx_hash t = ot_tx_hash t' ->
  bound_fields (ot_transaction t) = bound_fields (ot_transaction t') /\ ot_nonce t = ot_nonce t'.
Proof.
  intros Hc (L & A1 & A2 & A3 & A4 & A5) (L' & B1 & B2 & B3 & B4 & B5) Hn Hn'
    V%bool_decide_eq_true V'%bool_decide_eq_true E.
  assert (offline_preimage (ot_transaction t) (ot_nonce t) =
          offline_preimage (ot_transaction t') (ot_nonce t')) as Ep.
  { apply Hc. etransitivity; [exact V|]. etransitivity; [exact E|]. by symmetry. }
  unfold offline_preimage in Ep.
  apply app_inj_1 in Ep as [E0 Ep]; [|congruence].
  split_bytes Ep E1. split_bytes Ep E2. split_bytes Ep E3. split_bytes Ep E4. split_bytes Ep E5.
  unfold is_u32, u32_max in *.
  apply le_bytes_inj in E1; [|simpl in *; lia..]. apply le_bytes_inj in E2; [|simpl in *; lia..].
  apply le_bytes_inj in E3; [|simpl in *; lia..]. apply le_bytes_inj in E4; [|simpl in *; lia..].
  apply le_bytes_inj in E5; [|simpl in *; lia..]. apply le_bytes_inj in Ep; [|simpl in *; lia..].
  unfold bound_fields. split; [congruence|done].
Qed.

(** A created offline transaction is intact, pending, and valid exactly when its amount and nonce
    are not 0. *)
Theorem created_transactions_are_intact now t sg pk nonce o :
  OfflineManager.create_offline_transaction now t sg pk nonce = Ok o ->
  OfflineManager.verify_transaction_integrity o = true /\ OfflineTx.is_settled o = false /\
  (OfflineManager.validate_offline_transaction o = Ok tt <-> ct_amount_source t <> 0 /\ nonce <> 0).
Proof.
  unfold OfflineManager.create_offline_transaction, fail_if. intros R.
  destruct (bool_decide (sg = [])) eqn:E1; [done|]. destruct (bool_decide (pk = [])) eqn:E2; [done|].
  simpl in R. injection R as <-. split; [by apply bool_decide_eq_true|]. split; [done|].
  unfold OfflineManager.validate_offline_transaction, OfflineTx.has_valid_signature_format, fail_if.
  simpl. rewrite E1, E2. simpl.
  destruct (Z.eqb_spec (ct_amount_source t) 0), (Z.eqb_spec nonce 0); simpl; naive_solver.
Qed.

(** The transaction sent by and to somebody else. *)
Definition redirected (t : CBDCTransaction) (from to : Address) : CBDCTransaction :=
  mkCBDCTransaction (ct_tx_id t) (ct_source_pilot t) (ct_dest_pilot t) from to (ct_amount_source t)
    (ct_amount_dest t) (ct_exchange_rate t) (ct_timestamp t) (ct_protocol t) (ct_privacy_tier t)
    (ct_offline_status t) (ct_metadata t).

(** No hash covers the parties: an intact offline transaction stays intact when it is sent by or to
    somebody else, its content hash stays as well, and the hash of the chain does not depend on the
    hash before it. *)
Theorem parties_and_chain_are_not_protected (o : OfflineTransaction) from to prev prev' :
  let o' := mkOfflineTransaction (ot_tx_hash o) (redirected (ot_transaction o) from to)
              (ot_signature o) (ot_signer_pubkey o) (ot_status o) (ot_created_at o)
              (ot_reconciled_at o) (ot_nonce o) in
  OfflineManager.verify_transaction_integrity o' = OfflineManager.verify_transaction_integrity o /\
  PrivacyManager.compute_hash (redirected (ot_transaction o) from to) prev =
    PrivacyManager.compute_hash (ot_transaction o) prev' /\
  PrivacyManager.compute_transaction_content_hash (redirected (ot_transaction o) from to) =
    PrivacyManager.compute_transaction_content_hash (ot_transaction o).
Proof. done. Qed.

(** Every masked transaction of an encrypted tier carries data, and a public one carries none. *)
Theorem masking_follows_the_tier now t tier l :
  exists m, PrivacyManager.mask_transaction now t tier l = Ok m /\
    Masked.is_encrypted m = Tier.requires_encryption tier /\
    Masked.requires_decryption_key m = Tier.requires_encryption tier /\
    Masked.is_public m = negb (Tier.requires_encryption tier) /\ mt_masked_at m = now.
Proof. destruct tier; (eexists; split; [reflexivity|]); done. Qed.

(** The confidential data of a regulator are a hash of the identifier, the time and the metadata:
    they are the same whatever the amounts and the parties are. *)
Theorem regulators_see_no_amount now (t t' : CBDCTransaction) l :
  ct_tx_id t = ct_tx_id t' -> ct_timestamp t = ct_timestamp t' -> ct_metadata t = ct_metadata t' ->
  PrivacyManager.mask_transaction now t PrivacyTier.RegulatoryConfidential l =
  PrivacyManager.mask_transaction now t' PrivacyTier.RegulatoryConfidential l.
Proof.
  intros E1 E2 E3. unfold PrivacyManager.mask_transaction, PrivacyManager.compute_transaction_content_hash.
  simpl. by rewrite E1, E2, E3.
Qed.
End Hashes.

(** ** The properties at concrete values *)

#[local] Existing Instance sample_crypto.

Definition b_tx : CBDCTransaction :=
  mkCBDCTransaction (replicate 32 1) 0 1 alice owner 1000 1200 1200000000000000000 7 0 0 (Some 0) [].
Definition b_off : OfflineTransaction :=
  mkOfflineTransaction (OfflineManager.compute_offline_tx_hash b_tx 1) b_tx [1] [2] 0 9 None 1.

Lemma conversion_rounds_down_witness :
  exists b, Interop.convert_amount 7 1500000000000000000 = Ok b /\ b = 10.
Proof.
  destruct (conversion_rounds_down 7 1500000000000000000 ltac:(lia) ltac:(lia)) as (b & R & H).
  exists b. split; [exact R|]. unfold FIXED_POINT in H. lia.
Defined.

Lemma round_trips_never_gain_witness : 9 <= 10.
Proof.
  apply (round_trips_never_gain 10 1100000000000000000 900000000000000000 11 9); done.
Defined.

Lemma one_rate_per_hop_is_refused_witness :
  Interop.compute_final_amount (mkSettlementPath [0; 1] [FIXED_POINT] 5) 100 =
    Err (Raise "Path length mismatch"%string).
Proof. apply one_rate_per_hop_is_refused; simpl; lia. Defined.

Lemma fees_are_shares_witness :
  exists fee, Interop.compute_settlement_fee 1000000 25 = Ok fee /\ 0 <= fee <= 1000000.
Proof.
  exists 2500. split; [reflexivity|]. by apply (fees_are_shares 1000000 25 2500).
Defined.

Lemma mid_price_is_between_witness :
  let r := mkExchangeRate 0 1 FIXED_POINT 1000 950 1050 500 in
  950 <= Rate.mid_price r <= 1050.
Proof.
  intros r. destruct (mid_price_is_between r 2000 3600) as (H & _); [done|done|done|reflexivity|].
  exact H.
Defined.

Lemma accepted_nonces_increase_witness : NoDup [3; 5; 9].
Proof. by apply (accepted_nonces_increase 1 [3; 5; 9] 9). Defined.

Lemma log_counts_up_to_its_maximum_witness :
  ec_event_count (log_events_n 5 (mkCBDCEventConfig 3 1 true 0)) = 3.
Proof.
  destruct (log_counts_up_to_its_maximum 5 (mkCBDCEventConfig 3 1 true 0)) as [H _]; [simpl; lia|done|].
  rewrite H. reflexivity.
Defined.

Lemma rates_are_percentages_witness :
  exists n, Stats.privacy_ratio (mkPrivacyStats 60 20 15 5) = Ok n /\ 0 <= n <= 100.
Proof.
  destruct (rates_are_percentages EventStats.new (mkPrivacyStats 60 20 15 5)) as [_ H]; try done.
Defined.

Lemma offline_hash_binds_the_amounts_witness :
  OfflineManager.verify_transaction_integrity b_off = true /\
  bound_fields (ot_transaction b_off) = bound_fields b_tx.
Proof.
  split; [vm_compute; reflexivity|].
  apply (offline_hash_binds_the_amounts b_off b_off); [done|by vm_compute..].
Defined.

Lemma created_transactions_are_intact_witness :
  exists o, OfflineManager.create_offline_transaction 9 b_tx [1] [2] 1 = Ok o /\
    OfflineManager.verify_transaction_integrity o = true.
Proof.
  exists b_off. split; [reflexivity|].
  by destruct (created_transactions_are_intact 9 b_tx [1] [2] 1 b_off eq_refl).
Defined.

Lemma regulators_see_no_amount_witness :
  PrivacyManager.mask_transaction 5 b_tx PrivacyTier.RegulatoryConfidential [] =
  PrivacyManager.mask_transaction 5
    (mkCBDCTransaction (replicate 32 1) 0 1 owner alice 9 9 9 7 0 0 None [])
    PrivacyTier.RegulatoryConfidential [].
Proof. by apply regulators_see_no_amount. Defined.

Lemma reconciliation_is_final_witness :
  let t := (attempted (TryReconcile 50) b_off).2 in
  OfflineTx.is_settled t = true /\ after_all [TryFail 60; TryReconcile 70] t = t.
Proof.
  intros t. split; [reflexivity|].
  destruct (reconciliation_is_final t [TryFail 60; TryReconcile 70]) as (H & _). by apply H.
Defined.
