(* ===== verification/Supervision.v ===== *)
(** * Supervisory technology: types, feeds and reports

    The types of src/suptech_types.rs, the data feeds of src/suptech_feeds.rs
    and the supervisory reports of src/suptech_reporting.rs.  The functions
    work on values, or on a [&mut] argument; errors are texts.

    The second part of the file: supervisory technology: supervisors, rules
    and the exchange with regulators. *)

From S2P Require Import Prelude Contract Fallible Codec Cbdc.

(** ** Types *)

Module RegulatoryFramework.
(** [RegulatoryFramework], src/suptech_types.rs:9-26 *)
Inductive RegulatoryFramework : Set :=
  | BIS | FSB | ECB | FED | PBOC | BoE | BoJ | NationalRegulator.
#[global] Instance RegulatoryFramework_eq_dec : EqDecision RegulatoryFramework.
Proof. solve_decision. Defined.

(** [RegulatoryFramework], its discriminants, src/suptech_types.rs:9-26 *)
Definition code (x : RegulatoryFramework) : Z :=
  match x with
  | BIS => 0 | FSB => 1 | ECB => 2 | FED => 3 | PBOC => 4 | BoE => 5 | BoJ => 6
  | NationalRegulator => 7
  end.
End RegulatoryFramework.
Abbreviation RegulatoryFramework := RegulatoryFramework.RegulatoryFramework.

Module DataFeedType.
(** [DataFeedType], src/suptech_types.rs:60-77 *)
Inductive DataFeedType : Set :=
  | TransactionStream | BalanceSnapshot | LiquidityMetrics | RiskMetrics | MarketData
  | ComplianceAlerts | CounterpartyExposure | StressTestResults.
#[global] Instance DataFeedType_eq_dec : EqDecision DataFeedType.
Proof. solve_decision. Defined.

(** [DataFeedType], its discriminants, src/suptech_types.rs:60-77 *)
Definition code (x : DataFeedType) : Z :=
  match x with
  | TransactionStream => 0 | BalanceSnapshot => 1 | LiquidityMetrics => 2 | RiskMetrics => 3
  | MarketData => 4 | ComplianceAlerts => 5 | CounterpartyExposure => 6 | StressTestResults => 7
  end.
End DataFeedType.
Abbreviation DataFeedType := DataFeedType.DataFeedType.

Module ReportingStandard.
(** [ReportingStandard], src/suptech_types.rs:111-126 *)
Inductive ReportingStandard : Set :=
  | BCBS239 | SCOMP | COREP | FINREP | SREP | CVAR | AMLCFT.
#[global] Instance ReportingStandard_eq_dec : EqDecision ReportingStandard.
Proof. solve_decision. Defined.

(** [ReportingStandard], its discriminants, src/suptech_types.rs:111-126 *)
Definition code (x : ReportingStandard) : Z :=
  match x with
  | BCBS239 => 0 | SCOMP => 1 | COREP => 2 | FINREP => 3 | SREP => 4 | CVAR => 5 | AMLCFT => 6
  end.
End ReportingStandard.
Abbreviation ReportingStandard := ReportingStandard.ReportingStandard.

Module SupervisorRole.
(** [SupervisorRole], src/suptech_types.rs:158-167 *)
Inductive SupervisorRole : Set :=
  | Observer | Analyst | Administrator | SuperAdministrator.
#[global] Instance SupervisorRole_eq_dec : EqDecision SupervisorRole.
Proof. solve_decision. Defined.

(** [SupervisorRole], its discriminants, src/suptech_types.rs:158-167 *)
Definition code (x : SupervisorRole) : Z :=
  match x with
  | Observer => 0 | Analyst => 1 | Administrator => 2 | SuperAdministrator => 3
  end.
End SupervisorRole.
Abbreviation SupervisorRole := SupervisorRole.SupervisorRole.

(** [Supervisor], src/suptech_types.rs:202-219 *)
Record Supervisor := mkSupervisor {
  su_supervisor_id : Hash;
  su_address : Address;
  su_framework : Z;
  su_role : Z;
  su_subscribed_feeds : list Z;
  su_created_at : Z;
  su_is_active : bool;
  su_name : Bytes }.
Definition set_su_is_active (v : bool) (r : Supervisor) : Supervisor :=
  mkSupervisor (su_supervisor_id r) (su_address r) (su_framework r) (su_role r)
  (su_subscribed_feeds r) (su_created_at r) v (su_name r).

(** [DataFeed], src/suptech_types.rs:224-241 *)
Record DataFeed := mkDataFeed {
  df_feed_id : Hash;
  df_feed_type : Z;
  df_current_data : Bytes;
  df_last_updated : Z;
  df_update_frequency : Z;
  df_subscriber_count : Z;
  df_is_active : bool;
  df_metadata : Bytes }.
Definition set_df_is_active (v : bool) (r : DataFeed) : DataFeed :=
  mkDataFeed (df_feed_id r) (df_feed_type r) (df_current_data r) (df_last_updated r)
  (df_update_frequency r) (df_subscriber_count r) v (df_metadata r).

Module ReportValidationStatus.
(** [ReportValidationStatus], src/suptech_types.rs:271-282 *)
Inductive ReportValidationStatus : Set :=
  | Pending | Accepted | RequiresCorrections | Flagged | Rejected.
#[global] Instance ReportValidationStatus_eq_dec : EqDecision ReportValidationStatus.
Proof. solve_decision. Defined.

(** [ReportValidationStatus], its discriminants, src/suptech_types.rs:271-282 *)
Definition code (x : ReportValidationStatus) : Z :=
  match x with
  | Pending => 0 | Accepted => 1 | RequiresCorrections => 2 | Flagged => 3 | Rejected => 4
  end.
End ReportValidationStatus.
Abbreviation ReportValidationStatus := ReportValidationStatus.ReportValidationStatus.

(** [SupervisoryReport], src/suptech_types.rs:246-265 *)
Record SupervisoryReport := mkSupervisoryReport {
  sr_report_id : Hash;
  sr_standard : Z;
  sr_reporting_period : Z;
  sr_report_data : Bytes;
  sr_submitter : Address;
  sr_submitted_at : Z;
  sr_validated_at : option Z;
  sr_validation_status : Z;
  sr_validation_notes : Bytes }.

(** [SupervisionRule], src/suptech_types.rs:306-325 *)
Record SupervisionRule := mkSupervisionRule {
  ru_rule_id : Hash;
  ru_name : Bytes;
  ru_framework : Z;
  ru_condition : Bytes;
  ru_action : Bytes;
  ru_severity : Z;
  ru_is_active : bool;
  ru_created_at : Z;
  ru_updated_at : Z }.
Definition set_ru_is_active (v : bool) (r : SupervisionRule) : SupervisionRule :=
  mkSupervisionRule (ru_rule_id r) (ru_name r) (ru_framework r) (ru_condition r) (ru_action r)
  (ru_severity r) v (ru_created_at r) (ru_updated_at r).

(** [ComplianceAlert], src/suptech_types.rs:330-349 *)
Record ComplianceAlert := mkComplianceAlert {
  ca_alert_id : Hash;
  ca_rule_id : Hash;
  ca_institution : Address;
  ca_severity : Z;
  ca_message : Bytes;
  ca_triggered_at : Z;
  ca_supporting_data : Bytes;
  ca_status : Z;
  ca_resolution_notes : Bytes }.

Module AlertStatus.
(** [AlertStatus], src/suptech_types.rs:355-366 *)
Inductive AlertStatus : Set :=
  | New | InvestigationOngoing | Resolved | Escalated | Dismissed.
#[global] Instance AlertStatus_eq_dec : EqDecision AlertStatus.
Proof. solve_decision. Defined.

(** [AlertStatus], its discriminants, src/suptech_types.rs:355-366 *)
Definition code (x : AlertStatus) : Z :=
  match x with
  | New => 0 | InvestigationOngoing => 1 | Resolved => 2 | Escalated => 3 | Dismissed => 4
  end.
End AlertStatus.
Abbreviation AlertStatus := AlertStatus.AlertStatus.

(** [SupTechConfig], src/suptech_types.rs:380-397 *)
Record SupTechConfig := mkSupTechConfig {
  sc_max_supervisors : Z;
  sc_supervisor_count : Z;
  sc_max_data_feeds : Z;
  sc_data_feed_count : Z;
  sc_real_time_monitoring_enabled : bool;
  sc_automated_rules_enabled : bool;
  sc_alert_escalation_threshold : Z;
  sc_data_retention_seconds : Z }.

Module Framework.
(** [as_symbol], of RegulatoryFramework, src/suptech_types.rs:29-40 *)
Definition as_symbol (f : RegulatoryFramework) : Symbol :=
  match f with
  | RegulatoryFramework.BIS => "BIS"
  | RegulatoryFramework.FSB => "FSB"
  | RegulatoryFramework.ECB => "ECB"
  | RegulatoryFramework.FED => "FED"
  | RegulatoryFramework.PBOC => "PBOC"
  | RegulatoryFramework.BoE => "BOE"
  | RegulatoryFramework.BoJ => "BOJ"
  | RegulatoryFramework.NationalRegulator => "NATL"
  end.
(** [name], of RegulatoryFramework, src/suptech_types.rs:42-53 *)
Definition name (f : RegulatoryFramework) : string :=
  match f with
  | RegulatoryFramework.BIS => "Basel Committee on Banking Supervision"
  | RegulatoryFramework.FSB => "Financial Stability Board"
  | RegulatoryFramework.ECB => "European Central Bank"
  | RegulatoryFramework.FED => "Federal Reserve"
  | RegulatoryFramework.PBOC => "People's Bank of China"
  | RegulatoryFramework.BoE => "Bank of England"
  | RegulatoryFramework.BoJ => "Bank of Japan"
  | RegulatoryFramework.NationalRegulator => "National Regulator"
  end.
End Framework.

Module FeedType.
(** [as_symbol], of DataFeedType, src/suptech_types.rs:80-91 *)
Definition as_symbol (t : DataFeedType) : Symbol :=
  match t with
  | DataFeedType.TransactionStream => "TXSTREAM"
  | DataFeedType.BalanceSnapshot => "BALANCE"
  | DataFeedType.LiquidityMetrics => "LIQUID"
  | DataFeedType.RiskMetrics => "RISK"
  | DataFeedType.MarketData => "MARKET"
  | DataFeedType.ComplianceAlerts => "COMPLY"
  | DataFeedType.CounterpartyExposure => "CPTY"
  | DataFeedType.StressTestResults => "STRESS"
  end.
(** [update_frequency_seconds], src/suptech_types.rs:93-104 *)
Definition update_frequency_seconds (t : DataFeedType) : Z :=
  match t with
  | DataFeedType.TransactionStream | DataFeedType.MarketData | DataFeedType.ComplianceAlerts => 1
  | DataFeedType.BalanceSnapshot | DataFeedType.CounterpartyExposure => 300
  | DataFeedType.LiquidityMetrics => 60
  | DataFeedType.RiskMetrics => 3600
  | DataFeedType.StressTestResults => 86400
  end.
End FeedType.

Module Standard.
(** [as_symbol], of ReportingStandard, src/suptech_types.rs:129-139 *)
Definition as_symbol (s : ReportingStandard) : Symbol :=
  match s with
  | ReportingStandard.BCBS239 => "BCBS239"
  | ReportingStandard.SCOMP => "SCOMP"
  | ReportingStandard.COREP => "COREP"
  | ReportingStandard.FINREP => "FINREP"
  | ReportingStandard.SREP => "SREP"
  | ReportingStandard.CVAR => "CVAR"
  | ReportingStandard.AMLCFT => "AMLCFT"
  end.
(** [description], src/suptech_types.rs:141-151 *)
Definition description (s : ReportingStandard) : string :=
  match s with
  | ReportingStandard.BCBS239 => "Principles for effective risk data aggregation"
  | ReportingStandard.SCOMP => "Supervisory Comprehensive Operating Metrics"
  | ReportingStandard.COREP => "Common Reporting Framework"
  | ReportingStandard.FINREP => "Financial Reporting"
  | ReportingStandard.SREP => "Supervisory Review and Evaluation Process"
  | ReportingStandard.CVAR => "Capital and Liquidity Adequacy"
  | ReportingStandard.AMLCFT => "Anti-Money Laundering and Counter-Terrorism Financing"
  end.
End Standard.

Module Role.
(** [can_read], src/suptech_types.rs:170-178 *)
Definition can_read (r : SupervisorRole) : bool := true.
(** [can_query], src/suptech_types.rs:180-185 *)
Definition can_query (r : SupervisorRole) : bool :=
  match r with SupervisorRole.Observer => false | _ => true end.
(** [can_manage_rules], src/suptech_types.rs:187-192 *)
Definition can_manage_rules (r : SupervisorRole) : bool :=
  match r with
  | SupervisorRole.Administrator | SupervisorRole.SuperAdministrator => true
  | _ => false
  end.
(** [can_override], src/suptech_types.rs:194-196 *)
Definition can_override (r : SupervisorRole) : bool :=
  match r with SupervisorRole.SuperAdministrator => true | _ => false end.
End Role.

Module Validation.
(** [as_symbol], of ReportValidationStatus, src/suptech_types.rs:285-293 *)
Definition as_symbol (s : ReportValidationStatus) : Symbol :=
  match s with
  | ReportValidationStatus.Pending => "PENDING"
  | ReportValidationStatus.Accepted => "ACCEPTED"
  | ReportValidationStatus.RequiresCorrections => "CORRECT"
  | ReportValidationStatus.Flagged => "FLAGGED"
  | ReportValidationStatus.Rejected => "REJECTED"
  end.
(** [is_terminal], of ReportValidationStatus, src/suptech_types.rs:295-300 *)
Definition is_terminal (s : ReportValidationStatus) : bool :=
  match s with
  | ReportValidationStatus.Accepted | ReportValidationStatus.Rejected => true
  | _ => false
  end.
End Validation.

Module Alert.
(** [is_terminal], of AlertStatus, src/suptech_types.rs:369-374 *)
Definition is_terminal (s : AlertStatus) : bool :=
  match s with
  | AlertStatus.Resolved | AlertStatus.Escalated | AlertStatus.Dismissed => true
  | _ => false
  end.
End Alert.

Module SupConfig.
(** [default], of SupTechConfig, src/suptech_types.rs:400-411 *)
Definition default : SupTechConfig := mkSupTechConfig 1000 0 100 0 true true 7 7776000.
(** [can_add_supervisor], src/suptech_types.rs:413-415 *)
Definition can_add_supervisor (c : SupTechConfig) : bool :=
  Z.ltb (sc_supervisor_count c) (sc_max_supervisors c).
(** [can_add_feed], src/suptech_types.rs:417-419 *)
Definition can_add_feed (c : SupTechConfig) : bool := Z.ltb (sc_data_feed_count c) (sc_max_data_feeds c).
End SupConfig.

(** ** Feeds *)

(** [DataPoint], src/suptech_feeds.rs:9-18 *)
Record DataPoint := mkDataPoint {
  dp_timestamp : Z;
  dp_feed_type : Z;
  dp_payload : Bytes;
  dp_data_hash : Hash }.

(** [FeedSubscription], src/suptech_feeds.rs:23-40 *)
Record FeedSubscription := mkFeedSubscription {
  fs_subscription_id : Hash;
  fs_feed_id : Hash;
  fs_subscriber : Address;
  fs_filter_criteria : Bytes;
  fs_created_at : Z;
  fs_is_active : bool;
  fs_last_data_received : option Z;
  fs_data_point_count : Z }.

(** [FeedPublisher], src/suptech_feeds.rs:45-58 *)
Record FeedPublisher := mkFeedPublisher {
  fp_publisher_id : Hash;
  fp_address : Address;
  fp_feeds_published : list Hash;
  fp_is_authorized : bool;
  fp_created_at : Z;
  fp_total_data_points : Z }.

(** [FeedStatistics], src/suptech_feeds.rs:298-309 *)
Record FeedStatistics := mkFeedStatistics {
  ft_avg_update_interval : Z;
  ft_total_data_points : Z;
  ft_subscriber_count : Z;
  ft_quality_score : Z;
  ft_uptime_24h : Z }.

Module FeedManager.
Section Hashes.
Context `{C : Crypto} `{X : AddressXdr}.

(** [compute_feed_id], src/suptech_feeds.rs:90-97 *)
Definition compute_feed_id (now : Z) (feed_type : DataFeedType) : Hash :=
  sha256 (str_bytes (FeedType.as_symbol feed_type) ++ le_bytes 8 now).

(** [create_feed], src/suptech_feeds.rs:65-87 *)
Definition create_feed (now : Z) (feed_type : DataFeedType) (initial_data : Bytes)
    : result string DataFeed :=
  do? fail_if (bool_decide (initial_data = [])) "Initial data cannot be empty"%string in
  Ok (mkDataFeed (compute_feed_id now feed_type) (DataFeedType.code feed_type) initial_data now
        (FeedType.update_frequency_seconds feed_type) 0 true []).

(** [compute_data_hash], src/suptech_feeds.rs:129-136 *)
Definition compute_data_hash (data : Bytes) (timestamp : Z) : Hash := sha256 (data ++ le_bytes 8 timestamp).

(** [publish_data_point], src/suptech_feeds.rs:100-126 *)
Definition publish_data_point (now : Z) (new_data : Bytes) : SM DataFeed string DataPoint :=
  let! feed := sm_get in
  do! sm_try (fail_if (negb (df_is_active feed)) "Feed is not active"%string) in
  do! sm_try (fail_if (bool_decide (new_data = [])) "Data payload cannot be empty"%string) in
  do! sm_put (mkDataFeed (df_feed_id feed) (df_feed_type feed) new_data now (df_update_frequency feed)
                (df_subscriber_count feed) (df_is_active feed) (df_metadata feed)) in
  sm_ret (mkDataPoint now (df_feed_type feed) new_data (compute_data_hash new_data now)).

(** [compute_subscription_id], src/suptech_feeds.rs:170-181 *)
Definition compute_subscription_id (feed_id : Hash) (subscriber : Address) : Hash :=
  sha256 (feed_id ++ address_xdr subscriber).

(** [create_subscription], src/suptech_feeds.rs:150-167 *)
Definition create_subscription (now : Z) (feed_id : Hash) (subscriber : Address) : FeedSubscription :=
  mkFeedSubscription (compute_subscription_id feed_id subscriber) feed_id subscriber [] now true None 0.

(** [compute_publisher_id], src/suptech_feeds.rs:270-280 *)
Definition compute_publisher_id (address : Address) : Hash :=
  sha256 (address_xdr address ++ str_bytes "PUBLISHER").

(** [authorize_publisher], src/suptech_feeds.rs:253-267 *)
Definition authorize_publisher (now : Z) (publisher_address : Address) : FeedPublisher :=
  mkFeedPublisher (compute_publisher_id publisher_address) publisher_address [] true now 0.
End Hashes.

(** [is_data_fresh], src/suptech_feeds.rs:139-142 *)
Definition is_data_fresh (feed : DataFeed) (current_time : Z) : bool :=
  Z.leb (u64_sat_sub current_time (df_last_updated feed)) (df_update_frequency feed).

(** [is_data_stale], src/suptech_feeds.rs:145-147 *)
Definition is_data_stale (feed : DataFeed) (current_time : Z) : bool :=
  negb (is_data_fresh feed current_time).

(** [record_data_receipt], src/suptech_feeds.rs:184-196 *)
Definition record_data_receipt (timestamp : Z) : SM FeedSubscription string unit :=
  let! s := sm_get in
  do! sm_try (fail_if (negb (fs_is_active s)) "Subscription is not active"%string) in
  sm_put (mkFeedSubscription (fs_subscription_id s) (fs_feed_id s) (fs_subscriber s)
            (fs_filter_criteria s) (fs_created_at s) (fs_is_active s) (Some timestamp)
            (u32_sat_add (fs_data_point_count s) 1)).

(** [validate_data_point], src/suptech_feeds.rs:199-212 *)
Definition validate_data_point (p : DataPoint) (feed : DataFeed) : result string unit :=
  do? fail_if (negb (Z.eqb (dp_feed_type p) (df_feed_type feed))) "Data point feed type mismatch"%string in
  fail_if (bool_decide (dp_payload p = [])) "Data point payload cannot be empty"%string.

(** [get_feed_update_lag], src/suptech_feeds.rs:215-222 *)
Definition get_feed_update_lag (feed : DataFeed) (current_time : Z) : Z :=
  let age := u64_sat_sub current_time (df_last_updated feed) in
  if Z.ltb (df_update_frequency feed) age then age - df_update_frequency feed else 0.

(** [compute_data_quality_score], src/suptech_feeds.rs:225-250 *)
Definition compute_data_quality_score (feed : DataFeed) (current_time subscriber_count_healthy : Z) : Z :=
  let score := 100 in
  let score := if negb (is_data_fresh feed current_time) then u64_sat_sub score 20 else score in
  let score := if Z.eqb (df_subscriber_count feed) 0 then u64_sat_sub score 15
               else if Z.ltb (df_subscriber_count feed) subscriber_count_healthy then u64_sat_sub score 10
               else score in
  if negb (df_is_active feed) then u64_sat_sub score 50 else score.

(** [deactivate_feed], src/suptech_feeds.rs:283-285 *)
Definition deactivate_feed (feed : DataFeed) : DataFeed := set_df_is_active false feed.

(** [reactivate_feed], src/suptech_feeds.rs:288-292 *)
Definition reactivate_feed (current_time : Z) (feed : DataFeed) : DataFeed :=
  mkDataFeed (df_feed_id feed) (df_feed_type feed) (df_current_data feed) current_time
    (df_update_frequency feed) (df_subscriber_count feed) true (df_metadata feed).
End FeedManager.

(** ** Reports *)

(** [ReportSubmission], src/suptech_reporting.rs:9-26 *)
Record ReportSubmission := mkReportSubmission {
  rp_report_id : Hash;
  rp_submitter : Address;
  rp_standard : Z;
  rp_period_start : Z;
  rp_period_end : Z;
  rp_submitted_at : Z;
  rp_data : Bytes;
  rp_status : Z }.

(** [ValidationResult], src/suptech_reporting.rs:31-44 *)
Record ValidationResult := mkValidationResult {
  vr_report_id : Hash;
  vr_validated_at : Z;
  vr_validator : Address;
  vr_status : Z;
  vr_issues : list Bytes;
  vr_validation_score : Z }.

(** [ReportingStatistics], src/suptech_reporting.rs:304-319 *)
Record ReportingStatistics := mkReportingStatistics {
  rt_total_reports : Z;
  rt_reports_accepted : Z;
  rt_reports_corrections_needed : Z;
  rt_reports_flagged : Z;
  rt_reports_rejected : Z;
  rt_avg_validation_time : Z;
  rt_compliance_rate : Z }.

Module ReportingManager.
Section Hashes.
Context `{C : Crypto} `{X : AddressXdr}.

(** [compute_report_id], src/suptech_reporting.rs:83-96 *)
Definition compute_report_id (submitter : Address) (period_start period_end : Z) : Hash :=
  sha256 (address_xdr submitter ++ le_bytes 8 period_start ++ le_bytes 8 period_end).

(** [create_report], src/suptech_reporting.rs:51-80 *)
Definition create_report (now : Z) (standard : ReportingStandard) (submitter : Address)
    (period_start period_end : Z) (report_data : Bytes) : result string SupervisoryReport :=
  do? fail_if (bool_decide (report_data = [])) "Report data cannot be empty"%string in
  do? fail_if (Z.leb period_end period_start) "Invalid reporting period"%string in
  Ok (mkSupervisoryReport (compute_report_id submitter period_start period_end)
        (ReportingStandard.code standard) period_end report_data submitter now None
        (ReportValidationStatus.code ReportValidationStatus.Pending) []).
End Hashes.

(** [validate_report_format], src/suptech_reporting.rs:99-149 *)
Definition validate_report_format (report : SupervisoryReport) (standard : ReportingStandard)
    : result string unit :=
  do? fail_if (negb (Z.eqb (sr_standard report) (ReportingStandard.code standard)))
        "Report standard mismatch"%string in
  let len := Z.of_nat (length (sr_report_data report)) in
  match standard with
  | ReportingStandard.BCBS239 => fail_if (Z.ltb len 100) "BCBS239: Insufficient data aggregation"%string
  | ReportingStandard.COREP => fail_if (Z.ltb len 50) "COREP: Incomplete reporting data"%string
  | ReportingStandard.FINREP => fail_if (Z.ltb len 75) "FINREP: Missing financial statement data"%string
  | ReportingStandard.SREP => fail_if (Z.ltb len 60) "SREP: Missing review assessment data"%string
  | ReportingStandard.AMLCFT => fail_if (Z.ltb len 40) "AMLCFT: Missing compliance transaction data"%string
  | _ => fail_if (Z.eqb len 0) "Report data required"%string
  end.

(** The report with another verdict at [now]. *)
Definition with_verdict (r : SupervisoryReport) (status : ReportValidationStatus) (now : Z) (notes : Bytes)
    : SupervisoryReport :=
  mkSupervisoryReport (sr_report_id r) (sr_standard r) (sr_reporting_period r) (sr_report_data r)
    (sr_submitter r) (sr_submitted_at r) (Some now) (ReportValidationStatus.code status) notes.

Definition result_of (r : SupervisoryReport) (now : Z) (validator : Address)
    (status : ReportValidationStatus) (issues : list Bytes) (score : Z) : ValidationResult :=
  mkValidationResult (sr_report_id r) now validator (ReportValidationStatus.code status) issues score.

(** [accept_report], src/suptech_reporting.rs:152-176 *)
Definition accept_report (now : Z) (validator : Address) : SM SupervisoryReport string ValidationResult :=
  let! r := sm_get in
  do! sm_try (fail_if (negb (Z.eqb (sr_validation_status r)
                               (ReportValidationStatus.code ReportValidationStatus.Pending)))
                "Report is not in pending state"%string) in
  do! sm_put (with_verdict r ReportValidationStatus.Accepted now (sr_validation_notes r)) in
  sm_ret (result_of r now validator ReportValidationStatus.Accepted [] 100).

(** [request_corrections], src/suptech_reporting.rs:179-201 *)
Definition request_corrections (now : Z) (issues : list Bytes) (validator : Address)
    : SM SupervisoryReport string ValidationResult :=
  let! r := sm_get in
  do! sm_try (fail_if (bool_decide (issues = [])) "At least one issue must be specified"%string) in
  do! sm_put (with_verdict r ReportValidationStatus.RequiresCorrections now (sr_validation_notes r)) in
  sm_ret (result_of r now validator ReportValidationStatus.RequiresCorrections issues 50).

(** [flag_report], src/suptech_reporting.rs:204-226 *)
Definition flag_report (now : Z) (reason : Bytes) (validator : Address)
    : SM SupervisoryReport string ValidationResult :=
  let! r := sm_get in
  do! sm_put (with_verdict r ReportValidationStatus.Flagged now reason) in
  sm_ret (result_of r now validator ReportValidationStatus.Flagged [reason] 30).

(** [reject_report], src/suptech_reporting.rs:229-251 *)
Definition reject_report (now : Z) (reason : Bytes) (validator : Address)
    : SM SupervisoryReport string ValidationResult :=
  let! r := sm_get in
  do! sm_put (with_verdict r ReportValidationStatus.Rejected now reason) in
  sm_ret (result_of r now validator ReportValidationStatus.Rejected [reason] 0).

(** [compute_reporting_deadline], src/suptech_reporting.rs:254-257 *)
Definition compute_reporting_deadline (period_end submission_window_days : Z) : Z :=
  u64_sat_add period_end (submission_window_days * 86400).

(** [is_report_overdue], src/suptech_reporting.rs:260-262 *)
Definition is_report_overdue (deadline current_time : Z) : bool := Z.ltb deadline current_time.

(** [days_until_deadline], src/suptech_reporting.rs:265-270 *)
Definition days_until_deadline (deadline current_time : Z) : Z :=
  if Z.leb deadline current_time then 0 else as_u32 ((deadline - current_time) / 86400).

(** [compute_data_completeness], src/suptech_reporting.rs:273-286 *)
Definition compute_data_completeness (r : SupervisoryReport) : Z :=
  let size := Z.of_nat (length (sr_report_data r)) in
  if Z.ltb size 40 then 0 else if Z.leb 10000 size then 100 else (size - 40) * 100 / (10000 - 40).

(** [get_reporting_period], src/suptech_reporting.rs:289-298 *)
Definition get_reporting_period (r : SupervisoryReport) : Symbol :=
  match (sr_reporting_period r / 7776000) mod 4 with
  | 0 => "Q1"
  | 1 => "Q2"
  | 2 => "Q3"
  | _ => "Q4"
  end.
End ReportingManager.

Module ReportingStats.
(** [new], of ReportingStatistics, src/suptech_reporting.rs:322-332 *)
Definition new : ReportingStatistics := mkReportingStatistics 0 0 0 0 0 0 100.
(** [record_submission], src/suptech_reporting.rs:334-336 *)
Definition record_submission (s : ReportingStatistics) : result string ReportingStatistics :=
  let? n := u32_plus (rt_total_reports s) 1 in
  Ok (mkReportingStatistics n (rt_reports_accepted s) (rt_reports_corrections_needed s)
        (rt_reports_flagged s) (rt_reports_rejected s) (rt_avg_validation_time s) (rt_compliance_rate s)).
(** [record_acceptance], src/suptech_reporting.rs:338-340 *)
Definition record_acceptance (s : ReportingStatistics) : result string ReportingStatistics :=
  let? n := u32_plus (rt_reports_accepted s) 1 in
  Ok (mkReportingStatistics (rt_total_reports s) n (rt_reports_corrections_needed s)
        (rt_reports_flagged s) (rt_reports_rejected s) (rt_avg_validation_time s) (rt_compliance_rate s)).
(** [compute_compliance_rate], src/suptech_reporting.rs:342-350 *)
Definition compute_compliance_rate (s : ReportingStatistics) : ReportingStatistics :=
  let rate := if Z.eqb (rt_total_reports s) 0 then 100
              else as_u32 (rt_reports_accepted s * 100 / rt_total_reports s) in
  mkReportingStatistics (rt_total_reports s) (rt_reports_accepted s) (rt_reports_corrections_needed s)
    (rt_reports_flagged s) (rt_reports_rejected s) (rt_avg_validation_time s) rate.
End ReportingStats.

(** * Supervisory technology: supervisors, rules and the exchange with regulators

    The registration and the permissions of supervisors and their dashboards of
    src/suptech_api.rs, the rules and rule sets of src/suptech_rules.rs, and the
    endpoints and transmissions of src/suptech_integration.rs. *)

(** ** Supervisors *)

(** [DashboardQuery], src/suptech_api.rs:9-24 *)
Record DashboardQuery := mkDashboardQuery {
  dq_query_id : Hash;
  dq_executor : Address;
  dq_query_type : Bytes;
  dq_parameters : Bytes;
  dq_executed_at : Z;
  dq_results : Bytes;
  dq_execution_time_ms : Z }.
(** [DashboardView], src/suptech_api.rs:29-44 *)
Record DashboardView := mkDashboardView {
  dv_view_id : Hash;
  dv_owner : Address;
  dv_name : Bytes;
  dv_widgets_config : Bytes;
  dv_refresh_interval : Z;
  dv_created_at : Z;
  dv_updated_at : Z }.
(** [AlertSubscription], src/suptech_api.rs:49-64 *)
Record AlertSubscription := mkAlertSubscription {
  as_subscription_id : Hash;
  as_subscriber : Address;
  as_severity_threshold : Z;
  as_category_filters : list Bytes;
  as_is_active : bool;
  as_created_at : Z;
  as_alerts_received : Z }.
Definition set_as_is_active (v : bool) (r : AlertSubscription) : AlertSubscription :=
  mkAlertSubscription (as_subscription_id r) (as_subscriber r) (as_severity_threshold r)
  (as_category_filters r) v (as_created_at r) (as_alerts_received r).
Definition set_as_alerts_received (v : Z) (r : AlertSubscription) : AlertSubscription :=
  mkAlertSubscription (as_subscription_id r) (as_subscriber r) (as_severity_threshold r)
  (as_category_filters r) (as_is_active r) (as_created_at r) v.
(** [DashboardSummary], src/suptech_api.rs:329-342 *)
Record DashboardSummary := mkDashboardSummary {
  ds_timestamp : Z;
  ds_total_alerts : Z;
  ds_high_severity_alerts : Z;
  ds_reports_pending : Z;
  ds_data_feeds_healthy : Z;
  ds_compliance_score : Z }.

Module SupervisorAPI.
Section Hashes.
Context `{C : Crypto} `{X : AddressXdr}.

(** [compute_supervisor_id], src/suptech_api.rs:93-100 *)
Definition compute_supervisor_id (address : Address) : Hash :=
  sha256 (address_xdr address ++ str_bytes "SUPERVISOR").

(** [register_supervisor], src/suptech_api.rs:71-90 *)
Definition register_supervisor (now : Z) (address : Address) (framework : RegulatoryFramework)
    (role : SupervisorRole) (name : Bytes) : Supervisor :=
  mkSupervisor (compute_supervisor_id address) address (RegulatoryFramework.code framework)
    (SupervisorRole.code role) [] now true name.

(** [compute_query_id], src/suptech_api.rs:171-183 *)
Definition compute_query_id (now : Z) (executor : Address) (query_type : Bytes) : Hash :=
  sha256 (address_xdr executor ++ query_type ++ le_bytes 8 now).

(** [execute_query], src/suptech_api.rs:147-168 *)
Definition execute_query (now : Z) (executor : Address) (query_type parameters : Bytes)
    : result string DashboardQuery :=
  do? fail_if (bool_decide (query_type = [])) "Query type cannot be empty"%string in
  Ok (mkDashboardQuery (compute_query_id now executor query_type) executor query_type parameters
        now [] 0).

(** [compute_view_id], src/suptech_api.rs:215-222 *)
Definition compute_view_id (owner : Address) (name : Bytes) : Hash :=
  sha256 (address_xdr owner ++ name).

(** [create_dashboard_view], src/suptech_api.rs:186-212 *)
Definition create_dashboard_view (now : Z) (owner : Address) (name widgets_config : Bytes)
    (refresh_interval : Z) : result string DashboardView :=
  do? fail_if (bool_decide (name = [])) "Dashboard name cannot be empty"%string in
  do? fail_if (Z.ltb refresh_interval 5) "Refresh interval must be at least 5 seconds"%string in
  Ok (mkDashboardView (compute_view_id owner name) owner name widgets_config refresh_interval now now).

(** [compute_alert_subscription_id], src/suptech_api.rs:248-255 *)
Definition compute_alert_subscription_id (subscriber : Address) : Hash :=
  sha256 (address_xdr subscriber ++ str_bytes "ALERT_SUB").

(** [subscribe_to_alerts], src/suptech_api.rs:225-245 *)
Definition subscribe_to_alerts (now : Z) (subscriber : Address) (severity_threshold : Z)
    : result string AlertSubscription :=
  do? fail_if (Z.ltb 10 severity_threshold) "Severity must be 0-10"%string in
  Ok (mkAlertSubscription (compute_alert_subscription_id subscriber) subscriber severity_threshold
        [] true now 0).
End Hashes.

(** The role of a supervisor, as [check_permission] decodes it. *)
Definition role_of_code (c : Z) : option SupervisorRole :=
  if Z.eqb c (SupervisorRole.code SupervisorRole.Observer) then Some SupervisorRole.Observer
  else if Z.eqb c (SupervisorRole.code SupervisorRole.Analyst) then Some SupervisorRole.Analyst
  else if Z.eqb c (SupervisorRole.code SupervisorRole.Administrator)
       then Some SupervisorRole.Administrator
  else if Z.eqb c (SupervisorRole.code SupervisorRole.SuperAdministrator)
       then Some SupervisorRole.SuperAdministrator
  else None.

(** [check_permission], src/suptech_api.rs:103-144 *)
Definition check_permission (supervisor : Supervisor) (operation : string) : result string unit :=
  do? fail_if (negb (su_is_active supervisor)) "Supervisor is not active"%string in
  match role_of_code (su_role supervisor) with
  | None => Err (Raise "Invalid supervisor role"%string)
  | Some role =>
      if String.eqb operation "read_data" then
        fail_if (negb (Role.can_read role)) "Insufficient permissions for read access"%string
      else if String.eqb operation "query_system" then
        fail_if (negb (Role.can_query role)) "Insufficient permissions for queries"%string
      else if String.eqb operation "manage_rules" then
        fail_if (negb (Role.can_manage_rules role)) "Insufficient permissions to manage rules"%string
      else if String.eqb operation "override_rule" then
        fail_if (negb (Role.can_override role)) "Insufficient permissions for overrides"%string
      else Err (Raise "Unknown operation"%string)
  end.

(** [should_deliver_alert], src/suptech_api.rs:258-288 *)
Definition should_deliver_alert (alert : ComplianceAlert) (s : AlertSubscription) : bool :=
  if negb (as_is_active s) then false
  else if Z.ltb (ca_severity alert) (as_severity_threshold s) then false
  else
    let filters := as_category_filters s in
    if bool_decide (filters <> []) &&
       (negb (existsb (fun _ => true) filters) && bool_decide (filters <> []))
    then false else true.

(** [record_alert_delivery], src/suptech_api.rs:291-296 *)
Definition record_alert_delivery (s : AlertSubscription) : AlertSubscription :=
  set_as_alerts_received (u32_sat_add (as_alerts_received s) 1) s.

(** [deactivate_supervisor], src/suptech_api.rs:299-301 *)
Definition deactivate_supervisor (s : Supervisor) : Supervisor := set_su_is_active false s.

(** [reactivate_supervisor], src/suptech_api.rs:304-306 *)
Definition reactivate_supervisor (s : Supervisor) : Supervisor := set_su_is_active true s.

(** [get_dashboard_summary], src/suptech_api.rs:309-323 *)
Definition get_dashboard_summary (now total_alerts high_severity_alerts reports_pending : Z)
    : DashboardSummary :=
  mkDashboardSummary now total_alerts high_severity_alerts reports_pending 95 85.
End SupervisorAPI.

(** ** Rules *)

(** [RuleEvaluation], src/suptech_rules.rs:9-20 *)
Record RuleEvaluation := mkRuleEvaluation {
  re_rule_id : Hash;
  re_evaluated_at : Z;
  re_condition_met : bool;
  re_context : Bytes;
  re_severity_score : Z }.
(** [RuleExecutionLog], src/suptech_rules.rs:25-38 *)
Record RuleExecutionLog := mkRuleExecutionLog {
  rl_log_id : Hash;
  rl_rule_id : Hash;
  rl_subject : Address;
  rl_executed_at : Z;
  rl_trigger_count : Z;
  rl_max_alert_severity : Z }.
(** [RuleSet], src/suptech_rules.rs:43-58 *)
Record RuleSet := mkRuleSet {
  rs_ruleset_id : Hash;
  rs_framework : Z;
  rs_rules : list Hash;
  rs_version : Z;
  rs_is_active : bool;
  rs_created_at : Z;
  rs_updated_at : Z }.
Definition set_rs_rules (v : list Hash) (r : RuleSet) : RuleSet :=
  mkRuleSet (rs_ruleset_id r) (rs_framework r) v (rs_version r) (rs_is_active r)
  (rs_created_at r) (rs_updated_at r).
(** [RuleSetStatistics], src/suptech_rules.rs:346-355 *)
Record RuleSetStatistics := mkRuleSetStatistics {
  rz_total_rules : Z;
  rz_active_rules : Z;
  rz_avg_severity : Z;
  rz_version : Z }.

Module RulesEngine.
Section Hashes.
Context `{C : Crypto} `{X : AddressXdr}.

(** [compute_rule_id], src/suptech_rules.rs:101-115 *)
Definition compute_rule_id (framework : RegulatoryFramework) (name : Bytes) : Hash :=
  sha256 (str_bytes (Framework.as_symbol framework) ++ name).

(** [create_rule], src/suptech_rules.rs:65-98 *)
Definition create_rule (now : Z) (framework : RegulatoryFramework) (name condition action : Bytes)
    (severity : Z) : result string SupervisionRule :=
  do? fail_if (bool_decide (name = [])) "Rule name cannot be empty"%string in
  do? fail_if (bool_decide (condition = [])) "Rule condition cannot be empty"%string in
  do? fail_if (Z.ltb 10 severity) "Severity must be 0-10"%string in
  Ok (mkSupervisionRule (compute_rule_id framework name) name (RegulatoryFramework.code framework)
        condition action severity true now now).

(** [compute_alert_id], src/suptech_rules.rs:163-175 *)
Definition compute_alert_id (now : Z) (rule_id : Hash) (institution : Address) : Hash :=
  sha256 (rule_id ++ address_xdr institution ++ le_bytes 8 now).

(** [generate_alert_from_rule], src/suptech_rules.rs:141-160 *)
Definition generate_alert_from_rule (now : Z) (rule : SupervisionRule) (institution : Address)
    (supporting_data : Bytes) : ComplianceAlert :=
  mkComplianceAlert (compute_alert_id now (ru_rule_id rule) institution) (ru_rule_id rule)
    institution (ru_severity rule) (ru_name rule) now supporting_data
    (AlertStatus.code AlertStatus.New) [].

(** [compute_ruleset_id], src/suptech_rules.rs:222-232 *)
Definition compute_ruleset_id (framework : RegulatoryFramework) : Hash :=
  sha256 (str_bytes (Framework.as_symbol framework) ++ str_bytes "RULESET").

(** [create_ruleset], src/suptech_rules.rs:204-219 *)
Definition create_ruleset (now : Z) (framework : RegulatoryFramework) : RuleSet :=
  mkRuleSet (compute_ruleset_id framework) (RegulatoryFramework.code framework) [] 1 true now now.
End Hashes.

(** [evaluate_rule], src/suptech_rules.rs:118-138 *)
Definition evaluate_rule (now : Z) (rule : SupervisionRule) (context : Bytes)
    : result string RuleEvaluation :=
  do? fail_if (negb (ru_is_active rule)) "Rule is not active"%string in
  Ok (mkRuleEvaluation (ru_rule_id rule) now (Z.ltb 0 (Z.of_nat (length context))) context
        (ru_severity rule)).

(** [update_rule_condition], src/suptech_rules.rs:178-191 *)
Definition update_rule_condition (now : Z) (new_condition : Bytes) : SM SupervisionRule string unit :=
  let! r := sm_get in
  do! sm_try (fail_if (bool_decide (new_condition = [])) "New condition cannot be empty"%string) in
  sm_put (mkSupervisionRule (ru_rule_id r) (ru_name r) (ru_framework r) new_condition (ru_action r)
            (ru_severity r) (ru_is_active r) (ru_created_at r) now).

(** [disable_rule], src/suptech_rules.rs:194-196 *)
Definition disable_rule (rule : SupervisionRule) : SupervisionRule := set_ru_is_active false rule.

(** [enable_rule], src/suptech_rules.rs:199-201 *)
Definition enable_rule (rule : SupervisionRule) : SupervisionRule := set_ru_is_active true rule.

(** [add_rule_to_set], src/suptech_rules.rs:235-248 *)
Definition add_rule_to_set (rule_id : Hash) : SM RuleSet string unit :=
  let! s := sm_get in
  do! sm_try (fail_if (existsb (fun r => bool_decide (r = rule_id)) (rs_rules s))
                "Rule already in set"%string) in
  sm_put (set_rs_rules (rs_rules s ++ [rule_id]) s).

(** [remove_rule_from_set], src/suptech_rules.rs:251-272 *)
Definition remove_rule_from_set (rule_id : Hash) : SM RuleSet string unit :=
  let! s := sm_get in
  let found := existsb (fun r => bool_decide (r = rule_id)) (rs_rules s) in
  sm_try (fail_if (negb found) "Rule not found in set"%string).

(** One rule of the loop of [execute_ruleset]. *)
Definition execute_one (now : Z) (ruleset : RuleSet) (context : Bytes)
    (evaluations : list RuleEvaluation) (rule : SupervisionRule) : list RuleEvaluation :=
  if negb (ru_is_active rule) then evaluations
  else
    let in_ruleset := existsb (fun r => bool_decide (r = ru_rule_id rule)) (rs_rules ruleset) in
    if negb in_ruleset then evaluations
    else match evaluate_rule now rule context with
         | Ok eval => evaluations ++ [eval]
         | Err _ => evaluations
         end.

(** [execute_ruleset], src/suptech_rules.rs:275-312 *)
Definition execute_ruleset (now : Z) (ruleset : RuleSet) (rules : list SupervisionRule) (context : Bytes)
    : result string (list RuleEvaluation) :=
  do? fail_if (negb (rs_is_active ruleset)) "Rule set is not active"%string in
  Ok (fold_left (execute_one now ruleset context) rules []).

(** One rule of the loop of [compute_ruleset_stats]: the active rules and the
    sum of their severities. *)
Definition count_rule (acc : Z * Z) (rule : SupervisionRule) : result string (Z * Z) :=
  if ru_is_active rule then
    let? active_rules := u32_plus (fst acc) 1 in
    let? severity := u32_plus (snd acc) (ru_severity rule) in
    Ok (active_rules, severity)
  else Ok acc.

(** [compute_ruleset_stats], src/suptech_rules.rs:315-340 *)
Definition compute_ruleset_stats (ruleset : RuleSet) (rules : list SupervisionRule)
    : result string RuleSetStatistics :=
  let? acc := try_fold count_rule (0, 0) rules in
  let active_rules := fst acc in
  let avg_severity := if Z.ltb 0 active_rules then snd acc / active_rules else snd acc in
  Ok (mkRuleSetStatistics (as_u32 (Z.of_nat (length (rs_rules ruleset)))) active_rules avg_severity
        (rs_version ruleset)).
End RulesEngine.

(** ** The exchange with regulators *)

(** [RegulatoryEndpoint], src/suptech_integration.rs:9-26 *)
Record RegulatoryEndpoint := mkRegulatoryEndpoint {
  en_endpoint_id : Hash;
  en_framework : Z;
  en_endpoint_address : Bytes;
  en_protocol_version : Z;
  en_last_sync : Z;
  en_is_active : bool;
  en_status : Z;
  en_sync_frequency : Z }.
Definition set_en_status (v : Z) (r : RegulatoryEndpoint) : RegulatoryEndpoint :=
  mkRegulatoryEndpoint (en_endpoint_id r) (en_framework r) (en_endpoint_address r)
  (en_protocol_version r) (en_last_sync r) (en_is_active r) v (en_sync_frequency r).
Module EndpointStatus.
(** [EndpointStatus], src/suptech_integration.rs:32-41 *)
Inductive EndpointStatus : Set :=
  | Connected | Disconnected | Error | Maintenance.
#[global] Instance EndpointStatus_eq_dec : EqDecision EndpointStatus.
Proof. solve_decision. Defined.

(** [EndpointStatus], its discriminants, src/suptech_integration.rs:32-41 *)
Definition code (x : EndpointStatus) : Z :=
  match x with
  | Connected => 0 | Disconnected => 1 | Error => 2 | Maintenance => 3
  end.
End EndpointStatus.
Abbreviation EndpointStatus := EndpointStatus.EndpointStatus.
(** [TransmissionRecord], src/suptech_integration.rs:52-69 *)
Record TransmissionRecord := mkTransmissionRecord {
  tr_transmission_id : Hash;
  tr_source : Address;
  tr_destination : Address;
  tr_data_type : Bytes;
  tr_data_hash : Hash;
  tr_transmitted_at : Z;
  tr_acknowledged_at : option Z;
  tr_status : Z }.
Definition set_tr_status (v : Z) (r : TransmissionRecord) : TransmissionRecord :=
  mkTransmissionRecord (tr_transmission_id r) (tr_source r) (tr_destination r)
  (tr_data_type r) (tr_data_hash r) (tr_transmitted_at r) (tr_acknowledged_at r) v.
Module TransmissionStatus.
(** [TransmissionStatus], src/suptech_integration.rs:75-86 *)
Inductive TransmissionStatus : Set :=
  | Pending | Transmitted | Acknowledged | Failed | RetransmissionScheduled.
#[global] Instance TransmissionStatus_eq_dec : EqDecision TransmissionStatus.
Proof. solve_decision. Defined.

(** [TransmissionStatus], its discriminants, src/suptech_integration.rs:75-86 *)
Definition code (x : TransmissionStatus) : Z :=
  match x with
  | Pending => 0 | Transmitted => 1 | Acknowledged => 2 | Failed => 3
  | RetransmissionScheduled => 4
  end.
End TransmissionStatus.
Abbreviation TransmissionStatus := TransmissionStatus.TransmissionStatus.
(** [IntegrationStatistics], src/suptech_integration.rs:335-348 *)
Record IntegrationStatistics := mkIntegrationStatistics {
  is_total_endpoints : Z;
  is_active_endpoints : Z;
  is_total_transmissions : Z;
  is_acknowledged_transmissions : Z;
  is_failed_transmissions : Z;
  is_avg_ack_time : Z }.

Module Endpoint.
(** [is_operational], src/suptech_integration.rs:44-46 *)
Definition is_operational (s : EndpointStatus) : bool :=
  match s with EndpointStatus.Connected => true | _ => false end.
End Endpoint.

Module Transmission.
(** [is_terminal], src/suptech_integration.rs:89-94 *)
Definition is_terminal (s : TransmissionStatus) : bool :=
  match s with TransmissionStatus.Acknowledged | TransmissionStatus.Failed => true | _ => false end.
End Transmission.

Module IntegrationManager.
Section Hashes.
Context `{C : Crypto} `{X : AddressXdr}.

(** [compute_endpoint_id], src/suptech_integration.rs:127-137 *)
Definition compute_endpoint_id (framework : RegulatoryFramework) : Hash :=
  sha256 (str_bytes (Framework.as_symbol framework) ++ str_bytes "ENDPOINT").

(** [register_endpoint], src/suptech_integration.rs:102-124 *)
Definition register_endpoint (framework : RegulatoryFramework) (endpoint_address : Bytes)
    (protocol_version : Z) : result string RegulatoryEndpoint :=
  do? fail_if (bool_decide (endpoint_address = [])) "Endpoint address cannot be empty"%string in
  Ok (mkRegulatoryEndpoint (compute_endpoint_id framework) (RegulatoryFramework.code framework)
        endpoint_address protocol_version 0 true (EndpointStatus.code EndpointStatus.Connected) 3600).

(** [compute_transmission_id], src/suptech_integration.rs:166-178 *)
Definition compute_transmission_id (now : Z) (source destination : Address) : Hash :=
  sha256 (address_xdr source ++ address_xdr destination ++ le_bytes 8 now).

(** [create_transmission], src/suptech_integration.rs:140-163 *)
Definition create_transmission (now : Z) (source destination : Address) (data_type : Bytes)
    (data_hash : Hash) : result string TransmissionRecord :=
  do? fail_if (bool_decide (data_type = [])) "Data type cannot be empty"%string in
  Ok (mkTransmissionRecord (compute_transmission_id now source destination) source destination
        data_type data_hash now None (TransmissionStatus.code TransmissionStatus.Transmitted)).
End Hashes.

(** [acknowledge_transmission], src/suptech_integration.rs:181-193 *)
Definition acknowledge_transmission (now : Z) : SM TransmissionRecord string unit :=
  let! t := sm_get in
  do! sm_try (fail_if (negb (Z.eqb (tr_status t)
                               (TransmissionStatus.code TransmissionStatus.Transmitted)))
                "Transmission is not in transmitted state"%string) in
  sm_put (mkTransmissionRecord (tr_transmission_id t) (tr_source t) (tr_destination t)
            (tr_data_type t) (tr_data_hash t) (tr_transmitted_at t) (Some now)
            (TransmissionStatus.code TransmissionStatus.Acknowledged)).

(** [fail_transmission], src/suptech_integration.rs:196-202 *)
Definition fail_transmission : SM TransmissionRecord string unit :=
  let! t := sm_get in
  sm_put (set_tr_status (TransmissionStatus.code TransmissionStatus.Failed) t).

(** [schedule_retransmission], src/suptech_integration.rs:205-214 *)
Definition schedule_retransmission : SM TransmissionRecord string unit :=
  let! t := sm_get in
  do! sm_try (fail_if (negb (Z.eqb (tr_status t)
                               (TransmissionStatus.code TransmissionStatus.Failed)))
                "Only failed transmissions can be retried"%string) in
  sm_put (set_tr_status (TransmissionStatus.code TransmissionStatus.RetransmissionScheduled) t).

(** [is_transmission_acknowledged], src/suptech_integration.rs:217-219 *)
Definition is_transmission_acknowledged (t : TransmissionRecord) : bool :=
  Z.eqb (tr_status t) (TransmissionStatus.code TransmissionStatus.Acknowledged).

(** [get_transmission_age], src/suptech_integration.rs:222-224 *)
Definition get_transmission_age (t : TransmissionRecord) (current_time : Z) : Z :=
  u64_sat_sub current_time (tr_transmitted_at t).

(** [get_bis_rules], src/suptech_integration.rs:227-238 *)
Definition get_bis_rules : list Bytes :=
  map str_bytes ["Basel III capital adequacy"%string; "Liquidity coverage ratio"%string;
    "Leverage ratio"%string; "Countercyclical buffer"%string].

(** [get_fsb_standards], src/suptech_integration.rs:241-251 *)
Definition get_fsb_standards : list Bytes :=
  map str_bytes ["OTC derivatives"%string; "Shadow banking monitoring"%string;
    "Cyber resilience"%string; "Resolution planning"%string].

(** [get_national_requirements], src/suptech_integration.rs:254-285 *)
Definition get_national_requirements (framework : RegulatoryFramework) : list Bytes :=
  map str_bytes
    match framework with
    | RegulatoryFramework.ECB =>
        ["SREP reporting"%string; "COREP framework"%string; "Fit and proper assessment"%string]
    | RegulatoryFramework.FED =>
        ["Dodd-Frank reporting"%string; "Stress testing requirements"%string;
         "Concentration limits"%string]
    | RegulatoryFramework.PBOC =>
        ["Macroprudential framework"%string; "Systemic risk monitoring"%string;
         "Capital conservation"%string]
    | RegulatoryFramework.BoE =>
        ["PRA regulation"%string; "Senior Manager Regime"%string; "CASS requirements"%string]
    | _ => ["Standard reporting"%string]
    end.

(** [is_endpoint_healthy], src/suptech_integration.rs:288-299 *)
Definition is_endpoint_healthy (e : RegulatoryEndpoint) (current_time : Z) : result string bool :=
  if negb (en_is_active e) then Ok false
  else if negb (Z.eqb (en_status e) (EndpointStatus.code EndpointStatus.Connected)) then Ok false
  else
    let time_since_sync := u64_sat_sub current_time (en_last_sync e) in
    let? threshold := u64_chk (en_sync_frequency e * 2) in
    Ok (Z.ltb time_since_sync threshold).

(** [sync_endpoint], src/suptech_integration.rs:302-310 *)
Definition sync_endpoint (now : Z) (e : RegulatoryEndpoint) : RegulatoryEndpoint :=
  mkRegulatoryEndpoint (en_endpoint_id e) (en_framework e) (en_endpoint_address e)
    (en_protocol_version e) now (en_is_active e) (EndpointStatus.code EndpointStatus.Connected)
    (en_sync_frequency e).

(** [endpoint_error], src/suptech_integration.rs:313-315 *)
Definition endpoint_error (e : RegulatoryEndpoint) : RegulatoryEndpoint :=
  set_en_status (EndpointStatus.code EndpointStatus.Error) e.

(** [is_acknowledgment_overdue], src/suptech_integration.rs:318-329 *)
Definition is_acknowledgment_overdue (t : TransmissionRecord) (current_time timeout_seconds : Z) : bool :=
  match tr_acknowledged_at t with
  | Some _ => false
  | None => Z.ltb timeout_seconds (u64_sat_sub current_time (tr_transmitted_at t))
  end.
End IntegrationManager.

Module IntegrationStats.
(** [new], of IntegrationStatistics, src/suptech_integration.rs:351-360 *)
Definition new : IntegrationStatistics := mkIntegrationStatistics 0 0 0 0 0 0.

(** [transmission_success_rate], src/suptech_integration.rs:362-368 *)
Definition transmission_success_rate (s : IntegrationStatistics) : Z :=
  if Z.eqb (is_total_transmissions s) 0 then 100
  else as_u32 (is_acknowledged_transmissions s * 100 / is_total_transmissions s).
End IntegrationStats.
