(* ===== verification/SupervisionProps.v ===== *)
(** * Properties of the supervisory technology

    Permissions follow the roles, alerts the severity; a rule set runs its
    active rules and never reads their conditions, and nothing leaves it; the
    verdict on a report, the state of a transmission, the scores. *)

From S2P Require Import Prelude Contract Fallible Codec Sample Cbdc Supervision.

(** ** Supervisors and alerts *)

(** The rank of a role and the rank an operation asks for. *)
Definition rank_needed (operation : string) : option Z :=
  if String.eqb operation "read_data" then Some 0
  else if String.eqb operation "query_system" then Some 1
  else if String.eqb operation "manage_rules" then Some 2
  else if String.eqb operation "override_rule" then Some 3
  else None.

(** An operation is permitted exactly to an active supervisor whose role has at least the rank the
    operation asks for; an operation that is not one of the four is permitted to nobody. *)
Theorem permissions_follow_the_rank (s : Supervisor) operation :
  SupervisorAPI.check_permission s operation = Ok tt <->
  su_is_active s = true /\
  exists n, rank_needed operation = Some n /\ n <= su_role s <= 3.
Proof.
  unfold SupervisorAPI.check_permission, SupervisorAPI.role_of_code, rank_needed, fail_if.
  destruct (su_is_active s); simpl; [|naive_solver].
  generalize (su_role s) as c. intros c. cbv [SupervisorRole.code].
  destruct (Z.eqb_spec c 0); [subst|]. 2: destruct (Z.eqb_spec c 1); [subst|].
  3: destruct (Z.eqb_spec c 2); [subst|]. 4: destruct (Z.eqb_spec c 3); [subst|].
  all: repeat match goal with |- context [String.eqb ?a ?b] => destruct (String.eqb a b) end; simpl.
  all: split; [intros H; first [discriminate H|split; [done|eexists; split; [reflexivity|lia]]]|
    intros (_ & k & E & ?); first [discriminate E|injection E as <-; first [done|lia]]].
Qed.

(** An alert reaches a subscription exactly when the subscription is active and the alert as severe
    as it asks for; the filters it names change nothing. *)
Theorem filters_are_ignored (alert : ComplianceAlert) s :
  SupervisorAPI.should_deliver_alert alert s = true <->
  as_is_active s = true /\ as_severity_threshold s <= ca_severity alert.
Proof.
  unfold SupervisorAPI.should_deliver_alert.
  destruct (as_is_active s), (Z.ltb_spec (ca_severity alert) (as_severity_threshold s));
    simpl; try (split; [done|intros []; (done || lia)]).
  split; [done|]. intros _. by destruct (as_category_filters s).
Qed.

(** ** Rule sets *)

Lemma in_rules r l : existsb (fun x : Hash => bool_decide (x = r)) l = true <-> r ∈ l.
Proof.
  rewrite existsb_exists. split.
  - intros (x & Hx & E). apply bool_decide_eq_true in E as ->. by apply list_elem_of_In.
  - intros H. exists r. split; [by apply list_elem_of_In|by apply bool_decide_eq_true].
Qed.

Lemma not_in_rules r l : existsb (fun x : Hash => bool_decide (x = r)) l = false <-> r ∉ l.
Proof. rewrite <- in_rules. by destruct (existsb _ l). Qed.

(** Adding a rule fails exactly on a rule that is there already, and leaves every rule once. *)
Theorem rules_are_added_once r (s s' : RuleSet) o :
  NoDup (rs_rules s) -> RulesEngine.add_rule_to_set r s = (o, s') ->
  NoDup (rs_rules s') /\ r ∈ rs_rules s' /\
  (o = Ok tt <-> r ∉ rs_rules s) /\
  (o = Ok tt -> rs_rules s' = rs_rules s ++ [r]).
Proof.
  unfold RulesEngine.add_rule_to_set, sm_bind, sm_get, sm_try, sm_put, fail_if.
  intros Hd R. destruct (existsb _ (rs_rules s)) eqn:E; simpl in R; injection R as <- <-.
  - apply in_rules in E. naive_solver.
  - apply not_in_rules in E. simpl.
    split; [apply NoDup_app; split; [done|split; [|apply NoDup_singleton]]|].
    + intros x Hx ->%list_elem_of_singleton. done.
    + split; [apply elem_of_app; right; by apply list_elem_of_singleton|done].
Qed.

(** Removing a rule from a set removes nothing: when it says it did, the rule is still there. *)
Theorem no_rule_leaves_a_set r (s s' : RuleSet) o :
  RulesEngine.remove_rule_from_set r s = (o, s') ->
  s' = s /\ (o = Ok tt <-> r ∈ rs_rules s').
Proof.
  unfold RulesEngine.remove_rule_from_set, sm_bind, sm_get, sm_try, fail_if.
  intros R. destruct (existsb _ (rs_rules s)) eqn:E; simpl in R; injection R as <- <-.
  - apply in_rules in E. done.
  - apply not_in_rules in E. naive_solver.
Qed.

(** A rule of the set that is active. *)
Definition selected (s : RuleSet) (rule : SupervisionRule) : bool :=
  ru_is_active rule && bool_decide (ru_rule_id rule ∈ rs_rules s).

Lemma execute_one_spec now s context acc rule :
  RulesEngine.execute_one now s context acc rule =
  acc ++ (if selected s rule
          then [mkRuleEvaluation (ru_rule_id rule) now (bool_decide (context <> [])) context
                  (ru_severity rule)]
          else []).
Proof.
  unfold RulesEngine.execute_one, selected, RulesEngine.evaluate_rule, fail_if.
  destruct (ru_is_active rule); simpl; [|by rewrite app_nil_r].
  destruct (existsb _ (rs_rules s)) eqn:E; simpl.
  - apply in_rules in E. rewrite bool_decide_eq_true_2 by done. by destruct context.
  - apply not_in_rules in E. rewrite bool_decide_eq_false_2 by done. by rewrite app_nil_r.
Qed.

(** Running an active rule set evaluates its active rules, in the order they are given, each exactly
    once for each time it is given.  The verdict on all of them is the same: whether the context has
    any bytes.  The condition of a rule is never read. *)
Theorem conditions_are_never_read now (s : RuleSet) rules context :
  RulesEngine.execute_ruleset now s rules context =
  if rs_is_active s
  then Ok (map (fun rule => mkRuleEvaluation (ru_rule_id rule) now (bool_decide (context <> [])) context
                              (ru_severity rule))
             (filter (fun rule => selected s rule = true) rules))
  else Err (Raise "Rule set is not active"%string).
Proof.
  unfold RulesEngine.execute_ruleset, fail_if. destruct (rs_is_active s); simpl; [|done]. f_equal.
  enough (forall acc, fold_left (RulesEngine.execute_one now s context) rules acc =
    acc ++ map (fun rule => mkRuleEvaluation (ru_rule_id rule) now (bool_decide (context <> [])) context
                              (ru_severity rule))
             (filter (fun rule => selected s rule = true) rules)) as H by apply H.
  induction rules as [|rule rules IH]; intros acc; simpl; [by rewrite app_nil_r|].
  rewrite IH, execute_one_spec, filter_cons, <- app_assoc. f_equal.
  destruct (selected s rule); simpl; done.
Qed.

(** The statistics of a rule set count the active rules they are given, in the set or not, and the
    average severity stays within the severities. *)
Theorem statistics_count_rules_outside (s : RuleSet) rules z :
  Forall (fun r => 0 <= ru_severity r <= 10) rules ->
  RulesEngine.compute_ruleset_stats s rules = Ok z ->
  rz_active_rules z = Z.of_nat (length (filter (fun r => ru_is_active r = true) rules)) /\
  0 <= rz_avg_severity z <= 10.
Proof.
  intros HF R. unfold RulesEngine.compute_ruleset_stats in R.
  apply rbind_Ok in R as (a & Ra & [= <-]). simpl.
  assert (H : 0 <= a.2 <= 10 * a.1 /\
    a.1 = Z.of_nat (length (filter (fun r => ru_is_active r = true) rules))).
  { revert Ra. apply (try_fold_inv (fun k y => 0 <= y.2 <= 10 * y.1 /\
      y.1 = Z.of_nat (length (filter (fun r => ru_is_active r = true) k)))); [|done].
    intros k x y y' [r ->] [I1 I2] R. apply Forall_app in HF as [_ HF].
    apply Forall_cons in HF as [Hx _]. unfold RulesEngine.count_rule in R.
    rewrite filter_app, length_app, filter_cons, filter_nil.
    destruct (ru_is_active x) eqn:Ex; rinv; simpl; rewrite ?decide_True, ?decide_False by done;
      simpl; lia. }
  destruct H as [H1 H2]. split; [done|].
  destruct (Z.ltb_spec 0 a.1); [|lia].
  split; [apply Z.div_pos; lia|]. apply Z.div_le_upper_bound; lia.
Qed.

(** ** Reports *)

(** What can happen to a report. *)
Inductive verdict : Type :=
  | Accept (now : Z) (validator : Address)
  | Correct (now : Z) (issues : list Bytes) (validator : Address)
  | Flag (now : Z) (reason : Bytes) (validator : Address)
  | Reject (now : Z) (reason : Bytes) (validator : Address).

Definition apply_verdict (v : verdict) (r : SupervisoryReport) : SupervisoryReport :=
  snd match v with
      | Accept now w => ReportingManager.accept_report now w r
      | Correct now l w => ReportingManager.request_corrections now l w r
      | Flag now x w => ReportingManager.flag_report now x w r
      | Reject now x w => ReportingManager.reject_report now x w r
      end.

Lemma apply_accept now w r :
  apply_verdict (Accept now w) r =
  if Z.eqb (sr_validation_status r) 0
  then ReportingManager.with_verdict r ReportValidationStatus.Accepted now (sr_validation_notes r)
  else r.
Proof.
  unfold apply_verdict, ReportingManager.accept_report, sm_bind, sm_get, sm_try, sm_put, fail_if.
  change (ReportValidationStatus.code ReportValidationStatus.Pending) with 0.
  by destruct (Z.eqb (sr_validation_status r) 0).
Qed.

Lemma verdict_acceptance v r :
  sr_validation_status (apply_verdict v r) = ReportValidationStatus.code ReportValidationStatus.Accepted ->
  sr_validation_status r = ReportValidationStatus.code ReportValidationStatus.Accepted \/
  sr_validation_status r = ReportValidationStatus.code ReportValidationStatus.Pending.
Proof.
  destruct v as [now w|now [|i l] w|now x w|now x w]; [rewrite apply_accept|..]; try done; [|auto].
  destruct (Z.eqb_spec (sr_validation_status r) 0); simpl; auto.
Qed.

Lemma verdicts_leave_pending v r :
  sr_validation_status r <> ReportValidationStatus.code ReportValidationStatus.Pending ->
  sr_validation_status (apply_verdict v r) <> ReportValidationStatus.code ReportValidationStatus.Pending.
Proof.
  destruct v as [now w|now [|i l] w|now x w|now x w]; [rewrite apply_accept|..]; try done.
  by destruct (Z.eqb_spec (sr_validation_status r) 0).
Qed.

(** A report that was sent back for corrections, flagged or rejected is never accepted, whatever is
    done to it afterwards, and its data are never changed: a report is a value that only a new one
    can replace. *)
Theorem corrected_reports_are_never_accepted vs (r : SupervisoryReport) :
  sr_validation_status r <> ReportValidationStatus.code ReportValidationStatus.Accepted ->
  sr_validation_status r <> ReportValidationStatus.code ReportValidationStatus.Pending ->
  let r' := fold_left (fun r v => apply_verdict v r) vs r in
  sr_validation_status r' <> ReportValidationStatus.code ReportValidationStatus.Accepted /\
  sr_report_data r' = sr_report_data r.
Proof.
  revert r. induction vs as [|v vs IH]; intros r Ha Hp; simpl; [done|].
  destruct (IH (apply_verdict v r)) as [H1 H2].
  - intros [H|H]%verdict_acceptance; contradiction.
  - by apply verdicts_leave_pending.
  - split; [exact H1|]. rewrite H2.
    destruct v as [now w|now [|i l] w|now x w|now x w]; [rewrite apply_accept|..]; try done.
    by destruct (Z.eqb _ _).
Qed.

(** Acceptance is called terminal and is not: an accepted report can be rejected. *)
Theorem accepted_reports_can_be_rejected now reason w (r : SupervisoryReport) :
  let (o, r') := ReportingManager.reject_report now reason w r in
  (exists v, o = Ok v) /\
  sr_validation_status r' = ReportValidationStatus.code ReportValidationStatus.Rejected /\
  sr_validated_at r' = Some now.
Proof. simpl. eauto. Qed.

(** Two reports of one submitter over one period have one identifier, whatever their standards and
    their data. *)
Theorem report_ids_forget_the_standard `{C : Crypto} `{X : AddressXdr} now now' st st' a p q d d' r r' :
  ReportingManager.create_report now st a p q d = Ok r ->
  ReportingManager.create_report now' st' a p q d' = Ok r' ->
  sr_report_id r = sr_report_id r' /\ p < q /\
  (st <> st' -> sr_standard r <> sr_standard r').
Proof.
  unfold ReportingManager.create_report, fail_if.
  destruct (bool_decide (d = [])), (bool_decide (d' = [])), (Z.leb_spec q p); simpl; intros [= <-] [= <-].
  split; [done|]. split; [done|]. simpl. destruct st, st'; simpl; congruence.
Qed.

(** The days left are exact for every deadline less than [2^32] days away; a deadline that lies
    exactly [2^32] days ahead is said to be due today. *)
Theorem days_left_wrap deadline now :
  0 <= now -> 0 <= deadline ->
  (deadline - now < 2 ^ 32 * 86400 ->
     ReportingManager.days_until_deadline deadline now = Z.max 0 ((deadline - now) / 86400)) /\
  ReportingManager.days_until_deadline (now + 2 ^ 32 * 86400) now = 0.
Proof.
  intros Hn Hd. unfold ReportingManager.days_until_deadline, as_u32. split.
  - intros H. destruct (Z.leb_spec deadline now).
    + assert ((deadline - now) / 86400 <= 0); [|lia].
      apply Z.div_le_upper_bound; lia.
    + assert (0 <= (deadline - now) / 86400 < 2 ^ 32).
      { split; [apply Z.div_pos; lia|]. apply Z.div_lt_upper_bound; lia. }
      rewrite Z.mod_small by done. lia.
  - destruct (Z.leb_spec (now + 2 ^ 32 * 86400) now); [done|].
    replace (now + 2 ^ 32 * 86400 - now) with (2 ^ 32 * 86400) by lia.
    rewrite Z.div_mul by done. by rewrite Z.mod_same.
Qed.

(** The scores of the supervisory library are percentages: the completeness of a report, the quality
    of a feed, the compliance rate of reports and the success rate of transmissions. *)
Theorem supervisory_scores_are_percentages (r : SupervisoryReport) feed now healthy st it :
  0 <= rt_reports_accepted st <= rt_total_reports st ->
  0 <= is_acknowledged_transmissions it <= is_total_transmissions it ->
  0 <= ReportingManager.compute_data_completeness r <= 100 /\
  0 <= FeedManager.compute_data_quality_score feed now healthy <= 100 /\
  0 <= rt_compliance_rate (ReportingStats.compute_compliance_rate st) <= 100 /\
  0 <= IntegrationStats.transmission_success_rate it <= 100.
Proof.
  intros Hs Hi.
  assert (share : forall a b, 0 <= a <= b -> b <> 0 -> 0 <= as_u32 (a * 100 / b) <= 100).
  { intros a b Hab Hb. assert (0 <= a * 100 / b <= 100).
    { split; [apply Z.div_pos; lia|]. apply Z.div_le_upper_bound; lia. }
    unfold as_u32. rewrite Z.mod_small by lia. done. }
  split; [|split; [|split]].
  - unfold ReportingManager.compute_data_completeness.
    destruct (Z.ltb_spec (Z.of_nat (length (sr_report_data r))) 40); [lia|].
    destruct (Z.leb_spec 10000 (Z.of_nat (length (sr_report_data r)))); [lia|].
    split; [apply Z.div_pos; lia|]. apply Z.div_le_upper_bound; lia.
  - unfold FeedManager.compute_data_quality_score, u64_sat_sub.
    destruct (FeedManager.is_data_fresh feed now), (Z.eqb (df_subscriber_count feed) 0),
      (Z.ltb (df_subscriber_count feed) healthy), (df_is_active feed); simpl; lia.
  - unfold ReportingStats.compute_compliance_rate. simpl.
    destruct (Z.eqb_spec (rt_total_reports st) 0); [lia|auto].
  - unfold IntegrationStats.transmission_success_rate.
    destruct (Z.eqb_spec (is_total_transmissions it) 0); [lia|auto].
Qed.

(** ** Endpoints and transmissions *)

(** A new endpoint is unhealthy, although it is active and connected, from two hours after the epoch
    on, until its first synchronisation. *)
Theorem new_endpoints_are_unhealthy `{C : Crypto} f a v (e : RegulatoryEndpoint) now :
  IntegrationManager.register_endpoint f a v = Ok e -> 0 <= now ->
  IntegrationManager.is_endpoint_healthy e now = Ok (Z.ltb now 7200) /\
  IntegrationManager.is_endpoint_healthy (IntegrationManager.sync_endpoint now e) now = Ok true.
Proof.
  unfold IntegrationManager.register_endpoint, fail_if.
  destruct (bool_decide (a = [])); simpl; intros [= <-] Hn.
  unfold IntegrationManager.is_endpoint_healthy, u64_chk, within, u64_sat_sub. simpl.
  split; do 2 f_equal; [by rewrite Z.sub_0_r, Z.max_l|]. by rewrite Z.sub_diag.
Qed.

(** What can happen to a transmission. *)
Inductive exchange : Type :=
  | Acknowledge (now : Z) | FailIt | Reschedule.

Definition apply_exchange (x : exchange) (t : TransmissionRecord) : TransmissionRecord :=
  snd match x with
      | Acknowledge now => IntegrationManager.acknowledge_transmission now t
      | FailIt => IntegrationManager.fail_transmission t
      | Reschedule => IntegrationManager.schedule_retransmission t
      end.

Lemma exchange_leaves_transmitted x t :
  tr_status t <> TransmissionStatus.code TransmissionStatus.Transmitted ->
  tr_status (apply_exchange x t) <> TransmissionStatus.code TransmissionStatus.Transmitted /\
  tr_acknowledged_at (apply_exchange x t) = tr_acknowledged_at t /\
  tr_transmission_id (apply_exchange x t) = tr_transmission_id t.
Proof.
  destruct x; unfold apply_exchange, IntegrationManager.acknowledge_transmission,
    IntegrationManager.fail_transmission, IntegrationManager.schedule_retransmission,
    sm_bind, sm_get, sm_try, sm_put, fail_if; cbv [TransmissionStatus.code]; intros H; [|done|].
  - by destruct (Z.eqb_spec (tr_status t) 1).
  - by destruct (Z.eqb_spec (tr_status t) 3).
Qed.

(** A transmission that failed is never sent again: no operation brings a scheduled retransmission
    back, and it is never acknowledged. *)
Theorem retransmissions_never_happen xs (t : TransmissionRecord) :
  tr_status t <> TransmissionStatus.code TransmissionStatus.Transmitted ->
  let t' := fold_left (fun t x => apply_exchange x t) xs t in
  tr_status t' <> TransmissionStatus.code TransmissionStatus.Transmitted /\
  tr_acknowledged_at t' = tr_acknowledged_at t.
Proof.
  revert t. induction xs as [|x xs IH]; intros t Ht; simpl; [done|].
  destruct (exchange_leaves_transmitted x t Ht) as (H & Ha & _).
  destruct (IH _ H) as [H1 H2]. by rewrite <- Ha.
Qed.

(** Acknowledgement is called terminal and is not: an acknowledged transmission can fail, and keeps
    the time of its acknowledgement. *)
Theorem acknowledged_transmissions_can_fail now (t t' : TransmissionRecord) :
  IntegrationManager.acknowledge_transmission now t = (Ok tt, t') ->
  let (o, t'') := IntegrationManager.fail_transmission t' in
  o = Ok tt /\ IntegrationManager.is_transmission_acknowledged t' = true /\
  IntegrationManager.is_transmission_acknowledged t'' = false /\
  tr_acknowledged_at t'' = Some now.
Proof.
  unfold IntegrationManager.acknowledge_transmission, sm_bind, sm_get, sm_try, sm_put, fail_if.
  destruct (Z.eqb _ _); simpl; [|discriminate]. intros [= <-]. done.
Qed.

(** ** Witnesses *)

#[local] Existing Instance sample_crypto.


Definition v_rule : Hash := replicate 32 7.
Definition v_set : RuleSet := mkRuleSet (replicate 32 1) 1 [v_rule] 1 true 5 5.
Definition v_rules : list SupervisionRule :=
  [mkSupervisionRule v_rule [1] 1 [2] [3] 7 true 5 5;
   mkSupervisionRule (replicate 32 8) [1] 1 [2] [3] 2 true 5 5].
Definition v_report : SupervisoryReport :=
  mkSupervisoryReport (replicate 32 2) 0 90 [1; 2; 3] alice 95 (Some 100) 2 [].
Definition v_sent : TransmissionRecord :=
  mkTransmissionRecord (replicate 32 3) alice owner [1] (replicate 32 4) 10 None 1.

Lemma rules_are_added_once_witness :
  NoDup (rs_rules (snd (RulesEngine.add_rule_to_set (replicate 32 8) v_set))).
Proof.
  destruct (rules_are_added_once (replicate 32 8) v_set
    (snd (RulesEngine.add_rule_to_set (replicate 32 8) v_set)) (Ok tt)) as (H & _);
    [apply NoDup_singleton|by vm_compute|exact H].
Defined.

Lemma no_rule_leaves_a_set_witness :
  v_rule ∈ rs_rules (snd (RulesEngine.remove_rule_from_set v_rule v_set)).
Proof.
  destruct (no_rule_leaves_a_set v_rule v_set
    (snd (RulesEngine.remove_rule_from_set v_rule v_set)) (Ok tt)) as (_ & H & _);
    [by vm_compute|by apply H].
Defined.

Lemma statistics_count_rules_outside_witness :
  rz_active_rules (mkRuleSetStatistics 1 2 4 1) = 2 /\ length (rs_rules v_set) = 1%nat.
Proof.
  split; [|reflexivity].
  destruct (statistics_count_rules_outside v_set v_rules (mkRuleSetStatistics 1 2 4 1)) as (H & _);
    [repeat constructor; done|by vm_compute|rewrite H; reflexivity].
Defined.

Lemma corrected_reports_are_never_accepted_witness :
  sr_validation_status (apply_verdict (Accept 101 owner) v_report) <> 1.
Proof.
  destruct (corrected_reports_are_never_accepted [Accept 101 owner] v_report) as (H & _);
    [done|done|exact H].
Defined.

Lemma report_ids_forget_the_standard_witness :
  let a := ReportingManager.create_report 95 ReportingStandard.COREP alice 0 90 [1] in
  let b := ReportingManager.create_report 96 ReportingStandard.FINREP alice 0 90 [2] in
  match a, b with
  | Ok a, Ok b => sr_report_id a = sr_report_id b /\ 0 < 90
  | _, _ => False
  end.
Proof.
  simpl.
  destruct (report_ids_forget_the_standard 95 96 ReportingStandard.COREP ReportingStandard.FINREP
    alice 0 90 [1] [2] _ _ eq_refl eq_refl) as (H1 & H2 & _). exact (conj H1 H2).
Defined.

Lemma days_left_wrap_witness :
  ReportingManager.days_until_deadline 864000 86400 = 9 /\
  ReportingManager.days_until_deadline (86400 + 2 ^ 32 * 86400) 86400 = 0.
Proof.
  destruct (days_left_wrap 864000 86400) as [H1 H2]; [done|done|].
  split; [by apply H1|exact H2].
Defined.

Lemma supervisory_scores_are_percentages_witness :
  0 <= IntegrationStats.transmission_success_rate (mkIntegrationStatistics 1 1 9 3 2 50) <= 100.
Proof.
  destruct (supervisory_scores_are_percentages v_report
    (mkDataFeed v_rule 1 [1] 10 60 3 true []) 100 2 (mkReportingStatistics 5 4 1 0 0 7 0)
    (mkIntegrationStatistics 1 1 9 3 2 50)) as (_ & _ & _ & H); [done|done|exact H].
Defined.

Lemma new_endpoints_are_unhealthy_witness :
  match IntegrationManager.register_endpoint RegulatoryFramework.FSB [1] 1 with
  | Ok e => IntegrationManager.is_endpoint_healthy e 1700000000 = Ok false
  | Err _ => False
  end.
Proof.
  cbn beta iota delta [IntegrationManager.register_endpoint].
  destruct (IntegrationManager.register_endpoint RegulatoryFramework.FSB [1] 1) as [e|] eqn:E;
    [|discriminate E].
  destruct (new_endpoints_are_unhealthy _ _ _ e 1700000000 E) as (H & _); [done|].
  injection E as <-. exact H.
Defined.

Lemma retransmissions_never_happen_witness :
  tr_acknowledged_at (fold_left (fun t x => apply_exchange x t) [Reschedule; Acknowledge 30]
    (set_tr_status 3 v_sent)) = None.
Proof.
  by destruct (retransmissions_never_happen [Reschedule; Acknowledge 30] (set_tr_status 3 v_sent)).
Defined.

Lemma acknowledged_transmissions_can_fail_witness :
  let t := snd (IntegrationManager.acknowledge_transmission 20 v_sent) in
  IntegrationManager.is_transmission_acknowledged (snd (IntegrationManager.fail_transmission t)) = false.
Proof.
  destruct (acknowledged_transmissions_can_fail 20 v_sent
    (snd (IntegrationManager.acknowledge_transmission 20 v_sent))) as (_ & _ & H & _);
    [by vm_compute|exact H].
Defined.
