(* ===== verification/Dao.v ===== *)
(** * The DAO contracts

    Governance by votes (src/dao_governance.rs), the treasury
    (src/dao_treasury.rs) and the resolution of disputes
    (src/dao_dispute_resolution.rs): three contracts, each with its own
    instance storage.  They ask the host for the invoker of a call, which the
    SDK the crate is built with no longer has; here it is an argument. *)

From S2P Require Import Prelude Contract Fallible StorageLemmas.

(** ** Governance *)

Module DAOGovernance.

Module ProposalType.
(** [ProposalType], src/dao_governance.rs:25-36 *)
Inductive ProposalType : Set :=
  | ParameterChange | FeaturePriority | TreasurySpending | EmergencyPause | ContractUpgrade.
#[global] Instance ProposalType_eq_dec : EqDecision ProposalType.
Proof. solve_decision. Defined.
End ProposalType.
Abbreviation ProposalType := ProposalType.ProposalType.

Module ProposalStatus.
(** [ProposalStatus], src/dao_governance.rs:42-55 *)
Inductive ProposalStatus : Set :=
  | Active | Passed | Defeated | Executed | Cancelled | ExecutionFailed.
#[global] Instance ProposalStatus_eq_dec : EqDecision ProposalStatus.
Proof. solve_decision. Defined.
End ProposalStatus.
Abbreviation ProposalStatus := ProposalStatus.ProposalStatus.

Module VoteChoice.
(** [VoteChoice], src/dao_governance.rs:61-68 *)
Inductive VoteChoice : Set :=
  | For | Against | Abstain.
#[global] Instance VoteChoice_eq_dec : EqDecision VoteChoice.
Proof. solve_decision. Defined.
End VoteChoice.
Abbreviation VoteChoice := VoteChoice.VoteChoice.
(** [Proposal], src/dao_governance.rs:73-106 *)
Record Proposal := mkProposal {
  pr_proposal_id : Z;
  pr_proposal_type : ProposalType;
  pr_proposer : Address;
  pr_title : string;
  pr_description : string;
  pr_parameters : Bytes;
  pr_start_ledger : Z;
  pr_end_ledger : Z;
  pr_execution_ledger : Z;
  pr_votes_for : Z;
  pr_votes_against : Z;
  pr_votes_abstain : Z;
  pr_status : ProposalStatus;
  pr_quorum_bps : Z;
  pr_approval_threshold_bps : Z;
  pr_cancellable : bool }.
Definition set_pr_status (v : ProposalStatus) (r : Proposal) : Proposal :=
  mkProposal (pr_proposal_id r) (pr_proposal_type r) (pr_proposer r) (pr_title r)
  (pr_description r) (pr_parameters r) (pr_start_ledger r) (pr_end_ledger r)
  (pr_execution_ledger r) (pr_votes_for r) (pr_votes_against r) (pr_votes_abstain r) v
  (pr_quorum_bps r) (pr_approval_threshold_bps r) (pr_cancellable r).
Definition set_pr_votes_for (v : Z) (r : Proposal) : Proposal :=
  mkProposal (pr_proposal_id r) (pr_proposal_type r) (pr_proposer r) (pr_title r)
  (pr_description r) (pr_parameters r) (pr_start_ledger r) (pr_end_ledger r)
  (pr_execution_ledger r) v (pr_votes_against r) (pr_votes_abstain r) (pr_status r)
  (pr_quorum_bps r) (pr_approval_threshold_bps r) (pr_cancellable r).
Definition set_pr_votes_against (v : Z) (r : Proposal) : Proposal :=
  mkProposal (pr_proposal_id r) (pr_proposal_type r) (pr_proposer r) (pr_title r)
  (pr_description r) (pr_parameters r) (pr_start_ledger r) (pr_end_ledger r)
  (pr_execution_ledger r) (pr_votes_for r) v (pr_votes_abstain r) (pr_status r) (pr_quorum_bps r)
  (pr_approval_threshold_bps r) (pr_cancellable r).
Definition set_pr_votes_abstain (v : Z) (r : Proposal) : Proposal :=
  mkProposal (pr_proposal_id r) (pr_proposal_type r) (pr_proposer r) (pr_title r)
  (pr_description r) (pr_parameters r) (pr_start_ledger r) (pr_end_ledger r)
  (pr_execution_ledger r) (pr_votes_for r) (pr_votes_against r) v (pr_status r) (pr_quorum_bps r)
  (pr_approval_threshold_bps r) (pr_cancellable r).
(** [VotingPower], src/dao_governance.rs:111-122 *)
Record VotingPower := mkVotingPower {
  vp_user : Address;
  vp_base_power : Z;
  vp_delegated_power : Z;
  vp_delegated_to : option Address;
  vp_delegation_ledger : Z }.
Definition set_vp_delegated_power (v : Z) (r : VotingPower) : VotingPower :=
  mkVotingPower (vp_user r) (vp_base_power r) v (vp_delegated_to r) (vp_delegation_ledger r).
(** [Vote], src/dao_governance.rs:127-138 *)
Record Vote := mkVote {
  vo_voter : Address;
  vo_proposal_id : Z;
  vo_choice : VoteChoice;
  vo_power : Z;
  vo_vote_ledger : Z }.
(** [GovernanceConfig], src/dao_governance.rs:143-158 *)
Record GovernanceConfig := mkGovernanceConfig {
  gc_token : Address;
  gc_voting_delay : Z;
  gc_voting_period : Z;
  gc_timelock_delay : Z;
  gc_default_quorum_bps : Z;
  gc_default_approval_threshold_bps : Z;
  gc_proposal_fee : Z }.
Module GovernanceKey.
(** [GovernanceKey], src/dao_governance.rs:165-190 *)
Inductive GovernanceKey : Set :=
  | Owner
  | Config
  | GovernanceToken
  | ProposalCounter
  | Proposal (a0 : Z)
  | VotingPower (a0 : Address)
  | ProposalVote (a0 : Address) (a1 : Z)
  | HasVoted (a0 : Address) (a1 : Z)
  | ProposalParticipation (a0 : Z)
  | ActiveProposals
  | Treasury
  | GovernanceTokenBalance (a0 : Address).
#[global] Instance GovernanceKey_eq_dec : EqDecision GovernanceKey.
Proof. solve_decision. Defined.
End GovernanceKey.
Abbreviation GovernanceKey := GovernanceKey.GovernanceKey.

Module GovernanceError.
(** [GovernanceError], src/dao_governance.rs:199-236 *)
Inductive GovernanceError : Set :=
  | Unauthorized | ProposalNotFound | VotingClosed | AlreadyVoted | InsufficientVotingPower
  | TimelockNotPassed | InvalidStatus | QuorumNotReached | ProposalFailed | InvalidProposal
  | ProposalFeeNotPaid | CannotDelegateToSelf | NoVotingPower | TreasuryInsufficientFunds
  | TreasuryExecutionFailed | DisputeResolutionFailed | InvalidVoteChoice | VotingNotStarted.
#[global] Instance GovernanceError_eq_dec : EqDecision GovernanceError.
Proof. solve_decision. Defined.
End GovernanceError.
Abbreviation GovernanceError := GovernanceError.GovernanceError.

Inductive GovTy : Set :=
  | GvAddress | GvConfig | GvCount | GvProposal | GvPower | GvVote | GvBool | GvAmount | GvList.
#[global] Instance GovTy_eq_dec : EqDecision GovTy.
Proof. solve_decision. Defined.

Definition gov_el (t : GovTy) : Type :=
  match t with
  | GvAddress => Address
  | GvConfig => GovernanceConfig
  | GvCount => Z
  | GvProposal => Proposal
  | GvPower => VotingPower
  | GvVote => Vote
  | GvBool => bool
  | GvAmount => Z
  | GvList => list Z
  end.

Definition gov_key_ty (k : GovernanceKey) : GovTy :=
  match k with
  | GovernanceKey.Owner | GovernanceKey.GovernanceToken | GovernanceKey.Treasury => GvAddress
  | GovernanceKey.Config => GvConfig
  | GovernanceKey.ProposalCounter => GvCount
  | GovernanceKey.Proposal _ => GvProposal
  | GovernanceKey.VotingPower _ => GvPower
  | GovernanceKey.ProposalVote _ _ => GvVote
  | GovernanceKey.HasVoted _ _ => GvBool
  | GovernanceKey.ProposalParticipation _ | GovernanceKey.GovernanceTokenBalance _ => GvAmount
  | GovernanceKey.ActiveProposals => GvList
  end.

Canonical gov_layout : Layout := {|
  key := GovernanceKey; ty := GovTy; el := gov_el; layout_key_ty := gov_key_ty;
  key_dec := _; ty_dec := _; error := GovernanceError; datum := Payload |}.

Abbreviation M := (CM gov_layout).
Abbreviation St := (CSt gov_layout).
Abbreviation store := (kvstore gov_layout).

(** [get_owner], src/dao_governance.rs:644-649 *)
Definition get_owner : M Address :=
  let* o := iget GovernanceKey.Owner in unwrap_or_raise o GovernanceError.Unauthorized.

(** [get_config], src/dao_governance.rs:651-656 *)
Definition get_config : M GovernanceConfig :=
  let* o := iget GovernanceKey.Config in unwrap_or_raise o GovernanceError.Unauthorized.

(** [get_voting_power], src/dao_governance.rs:658-669 *)
Definition get_voting_power (user : Address) : M VotingPower :=
  iget_or (GovernanceKey.VotingPower user) (mkVotingPower user 0 0 None 0).

(** [get_proposal_or_panic], src/dao_governance.rs:671-676 *)
Definition get_proposal_or_panic (proposal_id : Z) : M Proposal :=
  let* o := iget (GovernanceKey.Proposal proposal_id) in
  unwrap_or_raise o GovernanceError.ProposalNotFound.

(** [get_next_proposal_id], src/dao_governance.rs:678-690 *)
Definition get_next_proposal_id : M Z :=
  let* current := iget_or GovernanceKey.ProposalCounter 1 in
  let* next := u32_add current 1 in
  do* iset GovernanceKey.ProposalCounter next in
  ret current.

(** [initialize], src/dao_governance.rs:248-287 *)
Definition initialize (owner governance_token : Address)
    (voting_delay voting_period timelock_delay default_quorum_bps default_approval_threshold_bps
       proposal_fee : Z) : M unit :=
  do* require_auth owner in
  let* there := ihas GovernanceKey.Owner in
  do* reject_if there GovernanceError.Unauthorized in
  let config := mkGovernanceConfig governance_token voting_delay voting_period timelock_delay
                  default_quorum_bps default_approval_threshold_bps proposal_fee in
  do* iset GovernanceKey.Owner owner in
  do* iset GovernanceKey.Config config in
  iset GovernanceKey.ProposalCounter 0.

(** [base_power + delegated_power] of a voter. *)
Definition total_power (p : VotingPower) : M Z :=
  lift (u128_chk (vp_base_power p + vp_delegated_power p)).

(** [propose], src/dao_governance.rs:294-350 *)
Definition propose (invoker : Address) (proposal_type : ProposalType) (title description : string)
    (parameters : Bytes) (quorum_bps approval_threshold_bps : Z) : M Z :=
  let* config := get_config in
  let* voting_power := get_voting_power invoker in
  let* power := total_power voting_power in
  do* reject_if (Z.eqb power 0) GovernanceError.InsufficientVotingPower in
  let* proposal_id := get_next_proposal_id in
  let* current_ledger := ledger_sequence in
  let* start_ledger := u32_add current_ledger (gc_voting_delay config) in
  let* end_ledger := u32_add start_ledger (gc_voting_period config) in
  let* execution_ledger := u32_add end_ledger (gc_timelock_delay config) in
  let proposal :=
    mkProposal proposal_id proposal_type invoker title description parameters start_ledger end_ledger
      execution_ledger 0 0 0 ProposalStatus.Active
      (if Z.ltb 0 quorum_bps then quorum_bps else gc_default_quorum_bps config)
      (if Z.ltb 0 approval_threshold_bps then approval_threshold_bps
       else gc_default_approval_threshold_bps config) true in
  do* iset (GovernanceKey.Proposal proposal_id) proposal in
  ret proposal_id.

(** The vote counted in the tally of its choice. *)
Definition tally (proposal : Proposal) (choice : VoteChoice) (power : Z) : M Proposal :=
  match choice with
  | VoteChoice.For =>
      let* n := lift (u128_chk (pr_votes_for proposal + power)) in
      ret (set_pr_votes_for n proposal)
  | VoteChoice.Against =>
      let* n := lift (u128_chk (pr_votes_against proposal + power)) in
      ret (set_pr_votes_against n proposal)
  | VoteChoice.Abstain =>
      let* n := lift (u128_chk (pr_votes_abstain proposal + power)) in
      ret (set_pr_votes_abstain n proposal)
  end.

(** [vote], src/dao_governance.rs:353-421 *)
Definition vote (invoker : Address) (proposal_id : Z) (choice : VoteChoice) : M unit :=
  let* proposal := get_proposal_or_panic proposal_id in
  do* get_config in
  let* current_ledger := ledger_sequence in
  do* reject_if (Z.ltb current_ledger (pr_start_ledger proposal)) GovernanceError.VotingNotStarted in
  do* reject_if (Z.ltb (pr_end_ledger proposal) current_ledger) GovernanceError.VotingClosed in
  let* voted := iget_or (GovernanceKey.HasVoted invoker proposal_id) false in
  do* reject_if voted GovernanceError.AlreadyVoted in
  let* voting_power := get_voting_power invoker in
  let* power := total_power voting_power in
  do* reject_if (Z.eqb power 0) GovernanceError.InsufficientVotingPower in
  do* iset (GovernanceKey.ProposalVote invoker proposal_id)
        (mkVote invoker proposal_id choice power current_ledger) in
  do* iset (GovernanceKey.HasVoted invoker proposal_id) true in
  let* proposal := tally proposal choice power in
  iset (GovernanceKey.Proposal proposal_id) proposal.

(** [delegate], src/dao_governance.rs:424-459 *)
Definition delegate (invoker delegate_to : Address) : M unit :=
  do* reject_if (bool_decide (invoker = delegate_to)) GovernanceError.CannotDelegateToSelf in
  let* voting_power := get_voting_power invoker in
  do* reject_if (Z.eqb (vp_base_power voting_power) 0) GovernanceError.NoVotingPower in
  let* current_ledger := ledger_sequence in
  let voting_power :=
    mkVotingPower (vp_user voting_power) (vp_base_power voting_power) (vp_delegated_power voting_power)
      (Some delegate_to) current_ledger in
  let* delegate_power := get_voting_power delegate_to in
  let* n := lift (u128_chk (vp_delegated_power delegate_power + vp_base_power voting_power)) in
  do* iset (GovernanceKey.VotingPower invoker) voting_power in
  iset (GovernanceKey.VotingPower delegate_to) (set_vp_delegated_power n delegate_power).

(** [undelegate], src/dao_governance.rs:462-489 *)
Definition undelegate (invoker : Address) : M unit :=
  let* voting_power := get_voting_power invoker in
  do* match vp_delegated_to voting_power with
      | Some delegate =>
          let* delegate_power := get_voting_power delegate in
          let* n := u_sub (vp_delegated_power delegate_power) (vp_base_power voting_power) in
          iset (GovernanceKey.VotingPower delegate) (set_vp_delegated_power n delegate_power)
      | None => ret tt
      end in
  iset (GovernanceKey.VotingPower invoker)
    (mkVotingPower (vp_user voting_power) (vp_base_power voting_power)
       (vp_delegated_power voting_power) None (vp_delegation_ledger voting_power)).

(** [proposal_passed], src/dao_governance.rs:496-512 *)
Definition proposal_passed (proposal_id : Z) : M bool :=
  let* proposal := get_proposal_or_panic proposal_id in
  let* current_ledger := ledger_sequence in
  if Z.leb current_ledger (pr_end_ledger proposal) then ret false
  else
    let* n := lift (u128_chk (pr_votes_for proposal + pr_votes_against proposal)) in
    do* lift (u128_chk (n + pr_votes_abstain proposal)) in
    ret (Z.ltb (pr_votes_against proposal) (pr_votes_for proposal)).

(** [execute_proposal], src/dao_governance.rs:515-549 *)
Definition execute_proposal (proposal_id : Z) : M unit :=
  let* proposal := get_proposal_or_panic proposal_id in
  let* current_ledger := ledger_sequence in
  do* reject_if (Z.ltb current_ledger (pr_execution_ledger proposal)) GovernanceError.TimelockNotPassed in
  let* passed := proposal_passed proposal_id in
  do* reject_if (negb passed) GovernanceError.ProposalFailed in
  iset (GovernanceKey.Proposal proposal_id) (set_pr_status ProposalStatus.Executed proposal).

(** [cancel_proposal], src/dao_governance.rs:552-576 *)
Definition cancel_proposal (invoker : Address) (proposal_id : Z) : M unit :=
  let* proposal := get_proposal_or_panic proposal_id in
  let* owner := get_owner in
  do* reject_if (bool_decide (invoker <> pr_proposer proposal) && bool_decide (invoker <> owner))
        GovernanceError.Unauthorized in
  do* reject_if (negb (pr_cancellable proposal)) GovernanceError.InvalidStatus in
  iset (GovernanceKey.Proposal proposal_id) (set_pr_status ProposalStatus.Cancelled proposal).

(** [update_config], src/dao_governance.rs:583-610 *)
Definition update_config (voting_delay voting_period timelock_delay default_quorum_bps
    default_approval_threshold_bps proposal_fee : option Z) : M unit :=
  let* owner := get_owner in
  do* require_auth owner in
  let* config := get_config in
  iset GovernanceKey.Config
    (mkGovernanceConfig (gc_token config)
       (default (gc_voting_delay config) voting_delay)
       (default (gc_voting_period config) voting_period)
       (default (gc_timelock_delay config) timelock_delay)
       (default (gc_default_quorum_bps config) default_quorum_bps)
       (default (gc_default_approval_threshold_bps config) default_approval_threshold_bps)
       (default (gc_proposal_fee config) proposal_fee)).

(** [get_proposal], src/dao_governance.rs:617-621 *)
Definition get_proposal (proposal_id : Z) : M (option Proposal) := iget (GovernanceKey.Proposal proposal_id).
(** [get_user_voting_power], src/dao_governance.rs:624-626 *)
Definition get_user_voting_power (user : Address) : M VotingPower := get_voting_power user.
(** [get_governance_config], src/dao_governance.rs:629-631 *)
Definition get_governance_config : M GovernanceConfig := get_config.
(** [get_user_vote], src/dao_governance.rs:634-638 *)
Definition get_user_vote (user : Address) (proposal_id : Z) : M (option Vote) :=
  iget (GovernanceKey.ProposalVote user proposal_id).

End DAOGovernance.

(** ** Treasury *)

Module DAOTreasury.

(** [Fund], src/dao_treasury.rs:21-34 *)
Record Fund := mkFund {
  fu_name : string;
  fu_balance : Z;
  fu_budget_limit : Z;
  fu_budget_used : Z;
  fu_period_ledgers : Z;
  fu_last_reset_ledger : Z }.
Definition set_fu_balance (v : Z) (r : Fund) : Fund :=
  mkFund (fu_name r) v (fu_budget_limit r) (fu_budget_used r) (fu_period_ledgers r)
  (fu_last_reset_ledger r).
(** [Allocation], src/dao_treasury.rs:39-60 *)
Record Allocation := mkAllocation {
  al_allocation_id : Z;
  al_recipient : Address;
  al_fund_name : string;
  al_amount : Z;
  al_purpose : string;
  al_approved : bool;
  al_approval_count : Z;
  al_required_approvals : Z;
  al_created_ledger : Z;
  al_execution_ledger : Z }.
Definition set_al_execution_ledger (v : Z) (r : Allocation) : Allocation :=
  mkAllocation (al_allocation_id r) (al_recipient r) (al_fund_name r) (al_amount r)
  (al_purpose r) (al_approved r) (al_approval_count r) (al_required_approvals r)
  (al_created_ledger r) v.
(** [FeeDistribution], src/dao_treasury.rs:65-72 *)
Record FeeDistribution := mkFeeDistribution {
  fd_recipient : Address;
  fd_percentage_bps : Z;
  fd_is_fund : bool }.

(** [TreasuryConfig], src/dao_treasury.rs:77-88 *)
Record TreasuryConfig := mkTreasuryConfig {
  tc_owner : Address;
  tc_base_token : Address;
  tc_signers : list Address;
  tc_required_signatures : Z;
  tc_fee_distribution : list FeeDistribution }.
Module TreasuryKey.
(** [TreasuryKey], src/dao_treasury.rs:95-114 *)
Inductive TreasuryKey : Set :=
  | Owner
  | Config
  | Fund (a0 : string)
  | FundNames
  | Allocation (a0 : Z)
  | AllocationCounter
  | AllocationApproval (a0 : Z) (a1 : Address)
  | TotalFeesCollected
  | FeeShareReceived (a0 : Address).
#[global] Instance TreasuryKey_eq_dec : EqDecision TreasuryKey.
Proof. solve_decision. Defined.
End TreasuryKey.
Abbreviation TreasuryKey := TreasuryKey.TreasuryKey.

Module TreasuryError.
(** [TreasuryError], src/dao_treasury.rs:123-152 *)
Inductive TreasuryError : Set :=
  | Unauthorized | FundNotFound | InsufficientBalance | BudgetExceeded | AllocationNotFound
  | AllocationAlreadyApproved | InsufficientApprovals | AllocationNotApproved | InvalidSigner
  | DuplicateSignature | TransferFailed | InvalidFeeDistribution | SignerNotFound
  | InvalidAmount.
#[global] Instance TreasuryError_eq_dec : EqDecision TreasuryError.
Proof. solve_decision. Defined.
End TreasuryError.
Abbreviation TreasuryError := TreasuryError.TreasuryError.

Inductive TreasTy : Set := TvAddress | TvConfig | TvFund | TvNames | TvAllocation | TvCount | TvBool | TvAmount.
#[global] Instance TreasTy_eq_dec : EqDecision TreasTy.
Proof. solve_decision. Defined.

Definition treas_el (t : TreasTy) : Type :=
  match t with
  | TvAddress => Address
  | TvConfig => TreasuryConfig
  | TvFund => Fund
  | TvNames => list string
  | TvAllocation => Allocation
  | TvCount => Z
  | TvBool => bool
  | TvAmount => Z
  end.

Definition treas_key_ty (k : TreasuryKey) : TreasTy :=
  match k with
  | TreasuryKey.Owner => TvAddress
  | TreasuryKey.Config => TvConfig
  | TreasuryKey.Fund _ => TvFund
  | TreasuryKey.FundNames => TvNames
  | TreasuryKey.Allocation _ => TvAllocation
  | TreasuryKey.AllocationCounter => TvCount
  | TreasuryKey.AllocationApproval _ _ => TvBool
  | TreasuryKey.TotalFeesCollected | TreasuryKey.FeeShareReceived _ => TvAmount
  end.

Canonical treas_layout : Layout := {|
  key := TreasuryKey; ty := TreasTy; el := treas_el; layout_key_ty := treas_key_ty;
  key_dec := _; ty_dec := _; error := TreasuryError; datum := Payload |}.

Abbreviation M := (CM treas_layout).
Abbreviation St := (CSt treas_layout).
Abbreviation store := (kvstore treas_layout).

(** [get_owner], src/dao_treasury.rs:535-540 *)
Definition get_owner : M Address :=
  let* o := iget TreasuryKey.Owner in unwrap_or_raise o TreasuryError.Unauthorized.

(** [get_config], src/dao_treasury.rs:542-547 *)
Definition get_config : M TreasuryConfig :=
  let* o := iget TreasuryKey.Config in unwrap_or_raise o TreasuryError.Unauthorized.

(** [get_fund_or_panic], src/dao_treasury.rs:549-554 *)
Definition get_fund_or_panic (fund_name : string) : M Fund :=
  let* o := iget (TreasuryKey.Fund fund_name) in unwrap_or_raise o TreasuryError.FundNotFound.

(** [get_allocation_or_panic], src/dao_treasury.rs:556-561 *)
Definition get_allocation_or_panic (allocation_id : Z) : M Allocation :=
  let* o := iget (TreasuryKey.Allocation allocation_id) in
  unwrap_or_raise o TreasuryError.AllocationNotFound.

(** [get_next_allocation_id], src/dao_treasury.rs:563-575 *)
Definition get_next_allocation_id : M Z :=
  let* current := iget_or TreasuryKey.AllocationCounter 1 in
  let* next := u32_add current 1 in
  do* iset TreasuryKey.AllocationCounter next in
  ret current.

(** [initialize], src/dao_treasury.rs:164-200 *)
Definition initialize (owner base_token : Address) (signers : list Address) (required_signatures : Z)
    : M unit :=
  do* require_auth owner in
  let* there := ihas TreasuryKey.Owner in
  do* reject_if there TreasuryError.Unauthorized in
  do* iset TreasuryKey.Owner owner in
  do* iset TreasuryKey.Config (mkTreasuryConfig owner base_token signers required_signatures []) in
  do* iset TreasuryKey.AllocationCounter 0 in
  iset TreasuryKey.FundNames [].

(** [create_fund], src/dao_treasury.rs:207-255 *)
Definition create_fund (fund_name : string) (budget_limit period_ledgers : Z) : M unit :=
  let* owner := get_owner in
  do* require_auth owner in
  let* there := iget (TreasuryKey.Fund fund_name) in
  do* reject_if (bool_decide (is_Some there)) TreasuryError.FundNotFound in
  let* now := ledger_sequence in
  do* iset (TreasuryKey.Fund fund_name) (mkFund fund_name 0 budget_limit 0 period_ledgers now) in
  let* fund_names := iget_or TreasuryKey.FundNames [] in
  iset TreasuryKey.FundNames (fund_names ++ [fund_name]).

(** [deposit], src/dao_treasury.rs:258-278 *)
Definition deposit (fund_name : string) (amount : Z) : M unit :=
  do* reject_if (Z.eqb amount 0) TreasuryError.InvalidAmount in
  let* fund := get_fund_or_panic fund_name in
  let* balance := lift (u128_chk (fu_balance fund + amount)) in
  iset (TreasuryKey.Fund fund_name) (set_fu_balance balance fund).

(** [request_allocation], src/dao_treasury.rs:285-325 *)
Definition request_allocation (recipient : Address) (fund_name : string) (amount : Z) (purpose : string)
    : M Z :=
  let* config := get_config in
  do* reject_if (Z.eqb amount 0 || Z.ltb 1000000000000000 amount) TreasuryError.InvalidAmount in
  let* allocation_id := get_next_allocation_id in
  let* now := ledger_sequence in
  do* iset (TreasuryKey.Allocation allocation_id)
        (mkAllocation allocation_id recipient fund_name amount purpose false 0
           (tc_required_signatures config) now 0) in
  ret allocation_id.

(** The allocation with [n] approvals. *)
Definition with_approvals (a : Allocation) (n : Z) : Allocation :=
  mkAllocation (al_allocation_id a) (al_recipient a) (al_fund_name a) (al_amount a) (al_purpose a)
    (Z.leb (al_required_approvals a) n || al_approved a) n (al_required_approvals a)
    (al_created_ledger a) (al_execution_ledger a).

(** [approve_allocation], src/dao_treasury.rs:328-377 *)
Definition approve_allocation (invoker : Address) (allocation_id : Z) : M unit :=
  let* config := get_config in
  let is_authorized := existsb (fun s => bool_decide (s = invoker)) (tc_signers config) in
  do* reject_if (negb is_authorized) TreasuryError.InvalidSigner in
  let* already := iget_or (TreasuryKey.AllocationApproval allocation_id invoker) false in
  do* reject_if already TreasuryError.DuplicateSignature in
  let* allocation := get_allocation_or_panic allocation_id in
  do* iset (TreasuryKey.AllocationApproval allocation_id invoker) true in
  let* n := u32_add (al_approval_count allocation) 1 in
  iset (TreasuryKey.Allocation allocation_id) (with_approvals allocation n).

(** The fund after a payment. *)
Definition pay (f : Fund) (balance budget_used : Z) : Fund :=
  mkFund (fu_name f) balance (fu_budget_limit f) budget_used (fu_period_ledgers f)
    (fu_last_reset_ledger f).

(** [execute_allocation], src/dao_treasury.rs:380-423 *)
Definition execute_allocation (allocation_id : Z) : M unit :=
  let* allocation := get_allocation_or_panic allocation_id in
  do* reject_if (negb (al_approved allocation)) TreasuryError.AllocationNotApproved in
  let* fund := get_fund_or_panic (al_fund_name allocation) in
  let* wanted := lift (u128_chk (al_amount allocation + fu_budget_used fund)) in
  do* reject_if (Z.ltb (fu_budget_limit fund) wanted) TreasuryError.BudgetExceeded in
  do* reject_if (Z.ltb (fu_balance fund) (al_amount allocation)) TreasuryError.InsufficientBalance in
  let* balance := u_sub (fu_balance fund) (al_amount allocation) in
  let* used := lift (u128_chk (fu_budget_used fund + al_amount allocation)) in
  let* now := ledger_sequence in
  do* iset (TreasuryKey.Fund (al_fund_name allocation)) (pay fund balance used) in
  iset (TreasuryKey.Allocation allocation_id) (set_al_execution_ledger now allocation).

(** [set_fee_distribution], src/dao_treasury.rs:430-456 *)
Definition set_fee_distribution (distribution : list FeeDistribution) : M unit :=
  let* owner := get_owner in
  do* require_auth owner in
  let total_bps := fold_left (fun t d => u32_sat_add t (fd_percentage_bps d)) distribution 0 in
  do* reject_if (negb (Z.eqb total_bps 10000)) TreasuryError.InvalidFeeDistribution in
  let* config := get_config in
  iset TreasuryKey.Config
    (mkTreasuryConfig (tc_owner config) (tc_base_token config) (tc_signers config)
       (tc_required_signatures config) distribution).

(** [String::from_array(&env, &[0u8; 32])]. *)
Definition zero_name : string := Nat.iter 32 (String Ascii.zero) EmptyString.

(** One round of the loop of [distribute_fees]. *)
Definition distribute_one (total_fees : Z) (_ : unit) (dist : FeeDistribution) : M unit :=
  let* product := lift (u128_chk (total_fees * fd_percentage_bps dist)) in
  let share := product / 10000 in
  if fd_is_fund dist then deposit zero_name share
  else
    let* current := iget_or (TreasuryKey.FeeShareReceived (fd_recipient dist)) 0 in
    let* n := lift (u128_chk (current + share)) in
    iset (TreasuryKey.FeeShareReceived (fd_recipient dist)) n.

(** [distribute_fees], src/dao_treasury.rs:459-501 *)
Definition distribute_fees (total_fees : Z) : M unit :=
  let* config := get_config in
  do* fold_m (distribute_one total_fees) tt (tc_fee_distribution config) in
  let* total_collected := iget_or TreasuryKey.TotalFeesCollected 0 in
  let* n := lift (u128_chk (total_collected + total_fees)) in
  iset TreasuryKey.TotalFeesCollected n.

(** [get_fund], src/dao_treasury.rs:508-512 *)
Definition get_fund (fund_name : string) : M (option Fund) := iget (TreasuryKey.Fund fund_name).
(** [get_allocation], src/dao_treasury.rs:515-519 *)
Definition get_allocation (allocation_id : Z) : M (option Allocation) :=
  iget (TreasuryKey.Allocation allocation_id).
(** [get_fund_balance], src/dao_treasury.rs:522-524 *)
Definition get_fund_balance (fund_name : string) : M Z :=
  let* f := get_fund_or_panic fund_name in ret (fu_balance f).
(** [get_treasury_config], src/dao_treasury.rs:527-529 *)
Definition get_treasury_config : M TreasuryConfig := get_config.

End DAOTreasury.

(** ** Disputes *)

Module DAODisputeResolution.

Module DisputeStatus.
(** [DisputeStatus], src/dao_dispute_resolution.rs:22-37 *)
Inductive DisputeStatus : Set :=
  | Filed | EvidenceSubmitted | Voting | Decided | Appealed | Final | Dismissed.
#[global] Instance DisputeStatus_eq_dec : EqDecision DisputeStatus.
Proof. solve_decision. Defined.
End DisputeStatus.
Abbreviation DisputeStatus := DisputeStatus.DisputeStatus.

Module DisputeOutcome.
(** [DisputeOutcome], src/dao_dispute_resolution.rs:43-52 *)
Inductive DisputeOutcome : Set :=
  | PlaintiffWins | DefendantWins | PartiallyUpheld | Dismissed.
#[global] Instance DisputeOutcome_eq_dec : EqDecision DisputeOutcome.
Proof. solve_decision. Defined.
End DisputeOutcome.
Abbreviation DisputeOutcome := DisputeOutcome.DisputeOutcome.
(** [Dispute], src/dao_dispute_resolution.rs:57-88 *)
Record Dispute := mkDispute {
  di_dispute_id : Z;
  di_plaintiff : Address;
  di_defendant : Address;
  di_description : string;
  di_evidence_uri : string;
  di_status : DisputeStatus;
  di_jurors : list Address;
  di_votes_for : Z;
  di_votes_against : Z;
  di_votes_abstain : Z;
  di_outcome : option DisputeOutcome;
  di_stake_amount : Z;
  di_filed_ledger : Z;
  di_evidence_deadline : Z;
  di_voting_deadline : Z;
  di_votes_cast : Z }.

(** [JurorAssignment], src/dao_dispute_resolution.rs:93-106 *)
Record JurorAssignment := mkJurorAssignment {
  ja_dispute_id : Z;
  ja_juror : Address;
  ja_has_voted : bool;
  ja_vote : option DisputeOutcome;
  ja_stake : Z;
  ja_reward : Z }.

(** [Appeal], src/dao_dispute_resolution.rs:111-124 *)
Record Appeal := mkAppeal {
  ap_appeal_id : Z;
  ap_dispute_id : Z;
  ap_appellant : Address;
  ap_reason : string;
  ap_higher_quorum_required : Z;
  ap_status : DisputeStatus }.

(** [DisputeConfig], src/dao_dispute_resolution.rs:129-142 *)
Record DisputeConfig := mkDisputeConfig {
  dc_jurors_per_dispute : Z;
  dc_evidence_period : Z;
  dc_voting_period : Z;
  dc_juror_reward_bps : Z;
  dc_slashing_bps : Z;
  dc_min_juror_stake : Z }.
Module DisputeKey.
(** [DisputeKey], src/dao_dispute_resolution.rs:149-168 *)
Inductive DisputeKey : Set :=
  | Owner
  | Config
  | Dispute (a0 : Z)
  | DisputeCounter
  | JurorAssignment (a0 : Z) (a1 : Address)
  | JurorVote (a0 : Z) (a1 : Address)
  | TotalSlashed (a0 : Address)
  | Appeal (a0 : Z)
  | AppealCounter.
#[global] Instance DisputeKey_eq_dec : EqDecision DisputeKey.
Proof. solve_decision. Defined.
End DisputeKey.
Abbreviation DisputeKey := DisputeKey.DisputeKey.

Module DisputeError.
(** [DisputeError], src/dao_dispute_resolution.rs:177-206 *)
Inductive DisputeError : Set :=
  | Unauthorized | DisputeNotFound | EvEvidencePeriodClosed | NotAssignedAsJuror | AlreadyVoted
  | VotingPeriodClosed | InsufficientVotes | CannotAppeal | AppealAlreadyFiled
  | InsufficientJurorStake | DisputeAlreadyDecided | InvalidStatus | InvalidParties
  | InvalidOutcome.
#[global] Instance DisputeError_eq_dec : EqDecision DisputeError.
Proof. solve_decision. Defined.
End DisputeError.
Abbreviation DisputeError := DisputeError.DisputeError.

Inductive DispTy : Set := DvAddress | DvConfig | DvDispute | DvCount | DvJuror | DvOutcome | DvAmount | DvAppeal.
#[global] Instance DispTy_eq_dec : EqDecision DispTy.
Proof. solve_decision. Defined.

Definition disp_el (t : DispTy) : Type :=
  match t with
  | DvAddress => Address
  | DvConfig => DisputeConfig
  | DvDispute => Dispute
  | DvCount => Z
  | DvJuror => JurorAssignment
  | DvOutcome => DisputeOutcome
  | DvAmount => Z
  | DvAppeal => Appeal
  end.

Definition disp_key_ty (k : DisputeKey) : DispTy :=
  match k with
  | DisputeKey.Owner => DvAddress
  | DisputeKey.Config => DvConfig
  | DisputeKey.Dispute _ => DvDispute
  | DisputeKey.DisputeCounter | DisputeKey.AppealCounter => DvCount
  | DisputeKey.JurorAssignment _ _ => DvJuror
  | DisputeKey.JurorVote _ _ => DvOutcome
  | DisputeKey.TotalSlashed _ => DvAmount
  | DisputeKey.Appeal _ => DvAppeal
  end.

Canonical disp_layout : Layout := {|
  key := DisputeKey; ty := DispTy; el := disp_el; layout_key_ty := disp_key_ty;
  key_dec := _; ty_dec := _; error := DisputeError; datum := Payload |}.

Abbreviation M := (CM disp_layout).
Abbreviation St := (CSt disp_layout).
Abbreviation store := (kvstore disp_layout).

(** [get_owner], src/dao_dispute_resolution.rs:604-609 *)
Definition get_owner : M Address :=
  let* o := iget DisputeKey.Owner in unwrap_or_raise o DisputeError.Unauthorized.

(** [get_config], src/dao_dispute_resolution.rs:611-616 *)
Definition get_config : M DisputeConfig :=
  let* o := iget DisputeKey.Config in unwrap_or_raise o DisputeError.Unauthorized.

(** [get_dispute_or_panic], src/dao_dispute_resolution.rs:618-623 *)
Definition get_dispute_or_panic (dispute_id : Z) : M Dispute :=
  let* o := iget (DisputeKey.Dispute dispute_id) in unwrap_or_raise o DisputeError.DisputeNotFound.

(** [get_next_dispute_id], src/dao_dispute_resolution.rs:625-637 *)
Definition get_next_dispute_id : M Z :=
  let* current := iget_or DisputeKey.DisputeCounter 1 in
  let* next := u32_add current 1 in
  do* iset DisputeKey.DisputeCounter next in
  ret current.

(** [get_next_appeal_id], src/dao_dispute_resolution.rs:639-651 *)
Definition get_next_appeal_id : M Z :=
  let* current := iget_or DisputeKey.AppealCounter 1 in
  let* next := u32_add current 1 in
  do* iset DisputeKey.AppealCounter next in
  ret current.

(** [initialize], src/dao_dispute_resolution.rs:218-257 *)
Definition initialize (owner : Address) (jurors_per_dispute evidence_period voting_period
    juror_reward_bps slashing_bps min_juror_stake : Z) : M unit :=
  do* require_auth owner in
  let* there := ihas DisputeKey.Owner in
  do* reject_if there DisputeError.Unauthorized in
  do* iset DisputeKey.Owner owner in
  do* iset DisputeKey.Config
        (mkDisputeConfig jurors_per_dispute evidence_period voting_period juror_reward_bps slashing_bps
           min_juror_stake) in
  do* iset DisputeKey.DisputeCounter 0 in
  iset DisputeKey.AppealCounter 0.

(** [file_dispute], src/dao_dispute_resolution.rs:264-315 *)
Definition file_dispute (invoker defendant : Address) (description evidence_uri : string)
    (stake_amount : Z) : M Z :=
  do* reject_if (bool_decide (invoker = defendant)) DisputeError.InvalidParties in
  let* config := get_config in
  let* dispute_id := get_next_dispute_id in
  let* current_ledger := ledger_sequence in
  let* evidence_deadline := u32_add current_ledger (dc_evidence_period config) in
  do* iset (DisputeKey.Dispute dispute_id)
        (mkDispute dispute_id invoker defendant description evidence_uri DisputeStatus.Filed [] 0 0 0
           None stake_amount current_ledger evidence_deadline 0 0) in
  ret dispute_id.

(** The dispute with new evidence. *)
Definition with_evidence (d : Dispute) (evidence_uri : string) (voting_deadline : Z) : Dispute :=
  mkDispute (di_dispute_id d) (di_plaintiff d) (di_defendant d) (di_description d) evidence_uri
    DisputeStatus.EvidenceSubmitted (di_jurors d) (di_votes_for d) (di_votes_against d)
    (di_votes_abstain d) (di_outcome d) (di_stake_amount d) (di_filed_ledger d)
    (di_evidence_deadline d) voting_deadline (di_votes_cast d).

(** [submit_evidence], src/dao_dispute_resolution.rs:318-362 *)
Definition submit_evidence (invoker : Address) (dispute_id : Z) (evidence_uri : string)
    (is_plaintiff : bool) : M unit :=
  let* dispute := get_dispute_or_panic dispute_id in
  let* config := get_config in
  let* current_ledger := ledger_sequence in
  do* reject_if (bool_decide (di_status dispute <> DisputeStatus.Filed))
        DisputeError.EvEvidencePeriodClosed in
  do* reject_if (Z.ltb (di_evidence_deadline dispute) current_ledger)
        DisputeError.EvEvidencePeriodClosed in
  do* reject_if (is_plaintiff && bool_decide (invoker <> di_plaintiff dispute))
        DisputeError.Unauthorized in
  do* reject_if (negb is_plaintiff && bool_decide (invoker <> di_defendant dispute))
        DisputeError.Unauthorized in
  let* voting_deadline := u32_add current_ledger (dc_voting_period config) in
  iset (DisputeKey.Dispute dispute_id) (with_evidence dispute evidence_uri voting_deadline).

(** One round of the loop of [assign_jurors]. *)
Definition assign_one (dispute_id : Z) (_ : unit) (juror : Address) : M unit :=
  iset (DisputeKey.JurorAssignment dispute_id juror) (mkJurorAssignment dispute_id juror false None 0 0).

(** The dispute before its jurors. *)
Definition with_jurors (d : Dispute) (jurors : list Address) : Dispute :=
  mkDispute (di_dispute_id d) (di_plaintiff d) (di_defendant d) (di_description d) (di_evidence_uri d)
    DisputeStatus.Voting jurors (di_votes_for d) (di_votes_against d) (di_votes_abstain d)
    (di_outcome d) (di_stake_amount d) (di_filed_ledger d) (di_evidence_deadline d)
    (di_voting_deadline d) (di_votes_cast d).

(** [assign_jurors], src/dao_dispute_resolution.rs:369-410 *)
Definition assign_jurors (dispute_id : Z) (jurors : list Address) : M unit :=
  let* owner := get_owner in
  do* require_auth owner in
  let* config := get_config in
  let* dispute := get_dispute_or_panic dispute_id in
  do* reject_if (negb (Z.eqb (Z.of_nat (length jurors)) (dc_jurors_per_dispute config)))
        DisputeError.InvalidStatus in
  do* fold_m (assign_one dispute_id) tt jurors in
  iset (DisputeKey.Dispute dispute_id) (with_jurors dispute jurors).

(** The dispute with the tallies after a vote. *)
Definition with_votes (d : Dispute) (votes_for votes_against votes_abstain votes_cast : Z) : Dispute :=
  mkDispute (di_dispute_id d) (di_plaintiff d) (di_defendant d) (di_description d) (di_evidence_uri d)
    (di_status d) (di_jurors d) votes_for votes_against votes_abstain
    (di_outcome d) (di_stake_amount d) (di_filed_ledger d) (di_evidence_deadline d)
    (di_voting_deadline d) votes_cast.

(** [cast_juror_vote], src/dao_dispute_resolution.rs:413-466 *)
Definition cast_juror_vote (invoker : Address) (dispute_id : Z) (outcome : DisputeOutcome) : M unit :=
  let* d := get_dispute_or_panic dispute_id in
  let* current_ledger := ledger_sequence in
  do* reject_if (bool_decide (di_status d <> DisputeStatus.Voting)) DisputeError.VotingPeriodClosed in
  do* reject_if (Z.ltb (di_voting_deadline d) current_ledger) DisputeError.VotingPeriodClosed in
  let* assignment := iget (DisputeKey.JurorAssignment dispute_id invoker) in
  let* assignment := unwrap_or_raise assignment DisputeError.NotAssignedAsJuror in
  do* reject_if (ja_has_voted assignment) DisputeError.AlreadyVoted in
  do* iset (DisputeKey.JurorAssignment dispute_id invoker)
        (mkJurorAssignment (ja_dispute_id assignment) (ja_juror assignment) true (Some outcome)
           (ja_stake assignment) (ja_reward assignment)) in
  do* iset (DisputeKey.JurorVote dispute_id invoker) outcome in
  let* d := match outcome with
            | DisputeOutcome.PlaintiffWins =>
                let* n := u32_add (di_votes_for d) 1 in
                ret (with_votes d n (di_votes_against d) (di_votes_abstain d) (di_votes_cast d))
            | DisputeOutcome.DefendantWins =>
                let* n := u32_add (di_votes_against d) 1 in
                ret (with_votes d (di_votes_for d) n (di_votes_abstain d) (di_votes_cast d))
            | _ =>
                let* n := u32_add (di_votes_abstain d) 1 in
                ret (with_votes d (di_votes_for d) (di_votes_against d) n (di_votes_cast d))
            end in
  let* n := u32_add (di_votes_cast d) 1 in
  iset (DisputeKey.Dispute dispute_id)
    (with_votes d (di_votes_for d) (di_votes_against d) (di_votes_abstain d) n).

(** The outcome of the votes. *)
Definition decide_votes (d : Dispute) : DisputeOutcome :=
  if Z.ltb (di_votes_against d) (di_votes_for d) then DisputeOutcome.PlaintiffWins
  else if Z.ltb (di_votes_for d) (di_votes_against d) then DisputeOutcome.DefendantWins
  else DisputeOutcome.Dismissed.

Definition with_outcome (d : Dispute) (outcome : DisputeOutcome) : Dispute :=
  mkDispute (di_dispute_id d) (di_plaintiff d) (di_defendant d) (di_description d) (di_evidence_uri d)
    DisputeStatus.Decided (di_jurors d) (di_votes_for d) (di_votes_against d) (di_votes_abstain d)
    (Some outcome) (di_stake_amount d) (di_filed_ledger d) (di_evidence_deadline d)
    (di_voting_deadline d) (di_votes_cast d).

(** One round of the loop of [finalize_dispute]: the reward it is for is not paid. *)
Definition reward_one (dispute_id : Z) (_ : unit) (juror : Address) : M unit :=
  let* juror_assignment := iget (DisputeKey.JurorAssignment dispute_id juror) in ret tt.

(** [finalize_dispute], src/dao_dispute_resolution.rs:469-538 *)
Definition finalize_dispute (dispute_id : Z) : M unit :=
  let* owner := get_owner in
  do* require_auth owner in
  let* d := get_dispute_or_panic dispute_id in
  let* config := get_config in
  let* current_ledger := ledger_sequence in
  do* reject_if (bool_decide (di_status d <> DisputeStatus.Voting)) DisputeError.InvalidStatus in
  do* reject_if (Z.leb current_ledger (di_voting_deadline d)) DisputeError.VotingPeriodClosed in
  let outcome := decide_votes d in
  do* when (bool_decide (outcome = DisputeOutcome.PlaintiffWins))
        (let* product := lift (u128_chk (di_stake_amount d * dc_slashing_bps config)) in
         let slashed_amount := product / 10000 in
         let* current_total := iget_or (DisputeKey.TotalSlashed (di_defendant d)) 0 in
         let* n := lift (u128_chk (current_total + slashed_amount)) in
         iset (DisputeKey.TotalSlashed (di_defendant d)) n) in
  do* fold_m (reward_one dispute_id) tt (di_jurors d) in
  iset (DisputeKey.Dispute dispute_id) (with_outcome d outcome).

(** [file_appeal], src/dao_dispute_resolution.rs:545-582 *)
Definition file_appeal (invoker : Address) (dispute_id : Z) (reason : string) : M Z :=
  let* dispute := get_dispute_or_panic dispute_id in
  do* reject_if (bool_decide (di_status dispute <> DisputeStatus.Decided)) DisputeError.CannotAppeal in
  do* reject_if (bool_decide (invoker <> di_plaintiff dispute) &&
                 bool_decide (invoker <> di_defendant dispute)) DisputeError.Unauthorized in
  let* appeal_id := get_next_appeal_id in
  do* iset (DisputeKey.Appeal appeal_id)
        (mkAppeal appeal_id dispute_id invoker reason 2 DisputeStatus.Appealed) in
  ret appeal_id.

(** [get_dispute], src/dao_dispute_resolution.rs:589-593 *)
Definition get_dispute (dispute_id : Z) : M (option Dispute) := iget (DisputeKey.Dispute dispute_id).
(** [get_dispute_config], src/dao_dispute_resolution.rs:596-598 *)
Definition get_dispute_config : M DisputeConfig := get_config.

End DAODisputeResolution.
