(* ===== verification/DaoProps.v ===== *)
(** * Properties of the DAO contracts

    Tallies are the sums of the votes cast, each voter votes once and in time,
    and what decides an execution; funds are conserved and allocations approved
    by distinct signers; disputes are decided by their votes.  Where the
    contracts leave a door open, the theorem says which. *)

From stdpp Require Import relations.
From S2P Require Import Prelude Contract Fallible StorageLemmas Sample Dao.

(** The context at time [t] and ledger [n] in which everyone has signed. *)
Definition at_ledger (n : Z) : Ctx := mkCtx (5 * n) n (fun _ => true) ledger.

(** ** Governance *)

Module Votes.
Import DAOGovernance.

Inductive gcall : Type :=
  | GInit (owner token : Address) (delay period timelock quorum threshold fee : Z)
  | GPropose (a : Address) (t : ProposalType) (title desc : string) (params : Bytes) (quorum bps : Z)
  | GVote (a : Address) (i : Z) (ch : VoteChoice)
  | GDelegate (a b : Address)
  | GUndelegate (a : Address)
  | GExecute (i : Z)
  | GCancel (a : Address) (i : Z)
  | GConfig (delay period timelock quorum threshold fee : option Z).

Definition gexec (k : gcall) : M unit :=
  match k with
  | GInit o t a b d q r f => initialize o t a b d q r f
  | GPropose a t x y p q r => do* propose a t x y p q r in ret tt
  | GVote a i ch => vote a i ch
  | GDelegate a b => delegate a b
  | GUndelegate a => undelegate a
  | GExecute i => execute_proposal i
  | GCancel a i => cancel_proposal a i
  | GConfig a b d q r f => update_config a b d q r f
  end.

(** The vote a call has cast, as the contract recorded it. *)
Definition cast (k : gcall) (s' : St) : list Vote :=
  match k with
  | GVote a i _ => match sget (inst s') (GovernanceKey.ProposalVote a i) with
                   | Some v => [v]
                   | None => []
                   end
  | _ => []
  end.

(** The votes cast by the successful calls that lead from one state to another. *)
Inductive gtrace (s0 : St) : list Vote -> St -> Prop :=
  | gtrace_nil : gtrace s0 [] s0
  | gtrace_call k c l s s' :
      gtrace s0 l s -> gexec k c s = Ok (tt, s') -> gtrace s0 (l ++ cast k s') s'.

(** A deployed contract without proposals and votes; who holds which power is open. *)
Definition deployed (st : store) : Prop :=
  is_Some (sget st GovernanceKey.Owner) /\
  (forall i, sget st (GovernanceKey.Proposal i) = None) /\
  (forall a i, sget st (GovernanceKey.HasVoted a i) = None).

Definition ballot (v : Vote) : Address * Z := (vo_voter v, vo_proposal_id v).

(** The power of the votes of one choice on a proposal. *)
Definition power_of (i : Z) (ch : VoteChoice) (l : list Vote) : Z :=
  total_of (fun v => if bool_decide (vo_proposal_id v = i /\ vo_choice v = ch) then vo_power v else 0) l.

Definition next_id (st : store) : Z :=
  match sget st GovernanceKey.ProposalCounter with Some n => n | None => 1 end.

Record TInv (l : list Vote) (st : store) : Prop := {
  t_owner : is_Some (sget st GovernanceKey.Owner);
  t_tally : forall i p, sget st (GovernanceKey.Proposal i) = Some p ->
    i < next_id st /\ pr_votes_for p = power_of i VoteChoice.For l /\
    pr_votes_against p = power_of i VoteChoice.Against l /\
    pr_votes_abstain p = power_of i VoteChoice.Abstain l;
  t_voted : forall a i, sget st (GovernanceKey.HasVoted a i) = Some true <-> (a, i) ∈ map ballot l;
  t_once : NoDup (map ballot l);
  t_time : forall v, v ∈ l -> exists p, sget st (GovernanceKey.Proposal (vo_proposal_id v)) = Some p /\
    pr_start_ledger p <= vo_vote_ledger v <= pr_end_ledger p }.

Lemma power_of_app i ch l v :
  power_of i ch (l ++ [v]) =
  power_of i ch l + (if bool_decide (vo_proposal_id v = i /\ vo_choice v = ch) then vo_power v else 0).
Proof. unfold power_of. rewrite total_of_app. simpl. lia. Qed.

(** Nobody voted on a proposal that is not there. *)
Lemma power_of_none i ch l : (forall a, (a, i) ∉ map ballot l) -> power_of i ch l = 0.
Proof.
  induction l as [|v l IH]; intros H; [done|]. unfold power_of in *. simpl. rewrite IH.
  - rewrite bool_decide_eq_false_2; [done|]. intros [E _]. apply (H (vo_voter v)). simpl.
    rewrite <- E. apply list_elem_of_here.
  - intros a Ha. apply (H a). by apply list_elem_of_further.
Qed.

Definition tally_key (k : GovernanceKey) : bool :=
  match k with
  | GovernanceKey.Owner | GovernanceKey.Proposal _ | GovernanceKey.HasVoted _ _
  | GovernanceKey.ProposalCounter => true
  | _ => false
  end.

Lemma TInv_other l st k v : tally_key k = false -> TInv l st -> TInv l (sset st k v).
Proof.
  intros Hk [H1 H2 H3 H4 H5].
  assert (Hne : forall k' : GovernanceKey, tally_key k' = true -> sget (sset st k v) k' = sget st k').
  { intros k' Hk'. apply sset_ne. congruence. }
  split; unfold next_id in *; [by rewrite Hne|..|done|].
  - intros i p. rewrite !Hne by done. apply H2.
  - intros a i. rewrite Hne by done. apply H3.
  - intros w Hw. rewrite Hne by done. by apply H5.
Qed.

(** A proposal replaced by one with the same window and tallies. *)
Lemma TInv_status l st i p q :
  sget st (GovernanceKey.Proposal i) = Some p -> TInv l st ->
  pr_start_ledger q = pr_start_ledger p -> pr_end_ledger q = pr_end_ledger p ->
  pr_votes_for q = pr_votes_for p -> pr_votes_against q = pr_votes_against p ->
  pr_votes_abstain q = pr_votes_abstain p -> TInv l (sset st (GovernanceKey.Proposal i) q).
Proof.
  intros Hp [H1 H2 H3 H4 H5] E1 E2 E3 E4 E5. split; unfold next_id in *; [by store_reads|..|done|].
  - intros j r. rewrite (sset_ne _ _ GovernanceKey.ProposalCounter) by done.
    destruct (decide (j = i)) as [->|Hj]; store_reads; [|apply H2].
    intros [= <-]. rewrite E3, E4, E5. by apply H2.
  - intros a j. store_reads. apply H3.
  - intros w Hw. destruct (H5 w Hw) as (r & Hr & Hb).
    destruct (decide (vo_proposal_id w = i)) as [E|E].
    + exists q. rewrite E. store_reads. split; [done|]. rewrite E in Hr. rewrite E1, E2. congruence.
    + exists r. by store_reads.
Qed.

(** The powers on record, and what a voter votes with. *)
Definition powers (st : store) (a : Address) : VotingPower :=
  match sget st (GovernanceKey.VotingPower a) with Some p => p | None => mkVotingPower a 0 0 None 0 end.
Definition strength (p : VotingPower) : Z := vp_base_power p + vp_delegated_power p.

(** The proposal with [n] more votes of one choice. *)
Definition counted (p : Proposal) (ch : VoteChoice) (n : Z) : Proposal :=
  match ch with
  | VoteChoice.For => set_pr_votes_for (pr_votes_for p + n) p
  | VoteChoice.Against => set_pr_votes_against (pr_votes_against p + n) p
  | VoteChoice.Abstain => set_pr_votes_abstain (pr_votes_abstain p + n) p
  end.

Lemma tally_Ok p ch n c (s s' : St) q : tally p ch n c s = Ok (q, s') -> s' = s /\ q = counted p ch n.
Proof. destruct ch; unfold tally; intros R; minv; done. Qed.

Lemma vote_Ok a i ch c (s s' : St) :
  vote a i ch c s = Ok (tt, s') ->
  exists p n, sget (inst s) (GovernanceKey.Proposal i) = Some p /\
    pr_start_ledger p <= cx_sequence c <= pr_end_ledger p /\
    sget (inst s) (GovernanceKey.HasVoted a i) <> Some true /\
    n = strength (powers (inst s) a) /\ n <> 0 /\
    inst s' = sset (sset (sset (inst s)
                (GovernanceKey.ProposalVote a i) (mkVote a i ch n (cx_sequence c)))
                (GovernanceKey.HasVoted a i) true)
                (GovernanceKey.Proposal i) (counted p ch n).
Proof.
  unfold vote, get_proposal_or_panic, get_config, get_voting_power, total_power. intros R.
  apply bind_Ok in R as (p & s1 & Rp & R). minv.
  match goal with H : tally _ _ _ _ _ = Ok _ |- _ => apply tally_Ok in H as [-> ->] end.
  do 2 eexists. split; [eassumption|]. zcase.
  split; [lia|]. split; [by intros E; rewrite E in *|]. split; [reflexivity|].
  split; [assumption|reflexivity].
Qed.

(** When a proposal is carried out: both sums the contract computes fit 128 bits. *)
Definition carried (p : Proposal) (now : Z) : Prop :=
  pr_execution_ledger p <= now /\ pr_end_ledger p < now /\ pr_votes_against p < pr_votes_for p /\
  0 <= pr_votes_for p + pr_votes_against p <= u128_max /\
  0 <= pr_votes_for p + pr_votes_against p + pr_votes_abstain p <= u128_max.

Lemma execute_Ok i c (s s' : St) :
  execute_proposal i c s = Ok (tt, s') <->
  exists p, sget (inst s) (GovernanceKey.Proposal i) = Some p /\ carried p (cx_sequence c) /\
    inst s' = sset (inst s) (GovernanceKey.Proposal i) (set_pr_status ProposalStatus.Executed p) /\
    pers s' = pers s /\ temp s' = temp s /\ published s' = published s /\ host_calls s' = host_calls s.
Proof.
  unfold execute_proposal, proposal_passed, get_proposal_or_panic, carried, bind, iget, unwrap_or_raise,
    ledger_sequence, reject_if, lift, u128_chk, within, iset, ret, raise.
  destruct (sget (inst s) (GovernanceKey.Proposal i)) as [p|] eqn:Ep; simpl; [|split; [done|naive_solver]].
  destruct (Z.ltb_spec (cx_sequence c) (pr_execution_ledger p)); simpl;
    [split; [done|]; intros (q & [= <-] & Hq & _); lia|].
  rewrite Ep. simpl. destruct (Z.leb_spec (cx_sequence c) (pr_end_ledger p)); simpl;
    [split; [done|]; intros (q & [= <-] & Hq & _); lia|].
  destruct (Z.leb_spec 0 (pr_votes_for p + pr_votes_against p)),
    (Z.leb_spec (pr_votes_for p + pr_votes_against p) u128_max); simpl;
    try (split; [done|]; intros (q & [= <-] & Hq & _); lia).
  destruct (Z.leb_spec 0 (pr_votes_for p + pr_votes_against p + pr_votes_abstain p)),
    (Z.leb_spec (pr_votes_for p + pr_votes_against p + pr_votes_abstain p) u128_max); simpl;
    try (split; [done|]; intros (q & [= <-] & Hq & _); lia).
  destruct (Z.ltb_spec (pr_votes_against p) (pr_votes_for p)); simpl;
    [|split; [done|]; intros (q & [= <-] & Hq & _); lia].
  split.
  - intros [= <-]. exists p. split; [done|]. split; [lia|done].
  - intros (q & [= <-] & _ & E1 & E2 & E3 & E4 & E5). destruct s'. simpl in *. by subst.
Qed.

(** The tests of [power_of] on one vote. *)
Ltac decide_choice :=
  repeat match goal with
  | |- context [bool_decide ?P] =>
      first [rewrite (bool_decide_eq_true_2 P) by done
            |rewrite (bool_decide_eq_false_2 P) by (by intros [_ ?])]
  end.

Lemma TInv_step k c l (s s' : St) :
  TInv l (inst s) -> gexec k c s = Ok (tt, s') -> TInv (l ++ cast k s') (inst s').
Proof.
  intros Hi R. destruct k; simpl in R; simpl cast; rewrite ?app_nil_r.
  - unfold initialize in R. minv.
    match goal with H : shas _ _ = false |- _ => apply shas_false in H end.
    destruct (t_owner _ _ Hi). congruence.
  - apply bind_Ok in R as (z & s1 & R & R2). injection R2 as <-.
    unfold propose, get_config, get_voting_power, total_power, get_next_proposal_id in R. minv.
    destruct Hi as [H1 H2 H3 H4 H5].
    match goal with |- TInv _ (sset (sset ?st _ _) (GovernanceKey.Proposal ?n) ?p) =>
      change n with (next_id st) in *; set (t0 := st) in * end.
    assert (Hnew : forall a, (a, next_id t0) ∉ map ballot l).
    { intros b (v & E & Hv%list_elem_of_In)%list_elem_of_In%in_map_iff.
      destruct (H5 v Hv) as (p & Hp & _). injection E as _ E. rewrite E in Hp. apply H2 in Hp as [Hp _]. lia. }
    split; unfold next_id in *; [by store_reads|..|done|].
    + intros j x. rewrite (sset_ne _ _ GovernanceKey.ProposalCounter), sset_eq by done.
      destruct (decide (j = match sget t0 GovernanceKey.ProposalCounter with Some n => n | None => 1 end))
        as [->|Hj]; store_reads.
      * intros [= <-]. simpl. rewrite !power_of_none by done. split; [lia|done].
      * intros Hr. destruct (H2 j _ Hr) as [Hb Ht]. split; [lia|exact Ht].
    + intros b j. store_reads. apply H3.
    + intros v Hv. destruct (H5 v Hv) as (x & Hr & Hb). exists x. split; [|done].
      apply H2 in Hr as Hn. destruct Hn as [Hn _].
      assert (vo_proposal_id v <> next_id t0) by (unfold next_id; lia). by store_reads.
  - apply vote_Ok in R as (p & n & Hp & Hb & Hv & En & _ & ->).
    replace (sget _ (GovernanceKey.ProposalVote a i)) with (Some (mkVote a i ch n (cx_sequence c)))
      by (store_reads; done).
    destruct Hi as [H1 H2 H3 H4 H5]. split; unfold next_id in *.
    + by store_reads.
    + intros j q. rewrite (sset_ne _ (GovernanceKey.Proposal i) GovernanceKey.ProposalCounter) by done.
      rewrite !(sset_ne _ _ GovernanceKey.ProposalCounter) by done. rewrite !power_of_app. simpl.
      destruct (decide (j = i)) as [->|Hj]; store_reads.
      * intros [= <-]. destruct (H2 i p Hp) as (Hn & Ef & Ea & Eb). split; [done|].
        destruct ch; simpl; decide_choice; lia.
      * intros Hq. rewrite !bool_decide_eq_false_2 by (by intros [E _]; apply Hj). rewrite !Z.add_0_r. by apply H2.
    + intros b j. rewrite map_app, elem_of_app. simpl. rewrite list_elem_of_singleton.
      destruct (decide ((b, j) = (a, i))) as [[= -> ->]|Hne].
      * store_reads. split; [by right|done].
      * store_reads. rewrite H3. unfold ballot at 2. simpl. naive_solver.
    + rewrite map_app. simpl. apply NoDup_app. split; [done|]. split; [|apply NoDup_singleton].
      intros x Hx ->%list_elem_of_singleton. unfold ballot in Hx at 1. simpl in Hx. apply H3 in Hx. done.
    + intros v [Hw| ->%list_elem_of_singleton]%elem_of_app.
      * destruct (H5 v Hw) as (r & Hr & Ht). destruct (decide (vo_proposal_id v = i)) as [E|E].
        { rewrite E in *. exists (counted p ch n). store_reads. split; [done|].
          rewrite Hp in Hr. injection Hr as <-. by destruct ch. }
        exists r. by store_reads.
      * simpl. exists (counted p ch n). store_reads. split; [done|]. by destruct ch.
  - unfold delegate, get_voting_power in R. minv. by apply TInv_other, TInv_other.
  - unfold undelegate, get_voting_power in R. mcase; repeat (apply TInv_other; [done|]); done.
  - apply execute_Ok in R as (p & Hp & _ & -> & _). by eapply TInv_status.
  - unfold cancel_proposal, get_owner, get_proposal_or_panic in R. minv.
    eapply TInv_status; [eassumption|done..].
  - unfold update_config, get_owner, get_config in R. minv. by apply TInv_other.
Qed.

(** C36: From a deployed contract on, whoever holds which power: the three tallies of a proposal are the
    sums of the powers of the votes cast for the choice, nobody votes twice on one proposal, and
    every vote was cast in the window of its proposal. *)
Theorem tallies_are_the_votes_cast l (s0 s : St) i p :
  deployed (inst s0) -> gtrace s0 l s -> sget (inst s) (GovernanceKey.Proposal i) = Some p ->
  pr_votes_for p = power_of i VoteChoice.For l /\
  pr_votes_against p = power_of i VoteChoice.Against l /\
  pr_votes_abstain p = power_of i VoteChoice.Abstain l /\
  NoDup (map ballot l) /\
  (forall v, v ∈ l -> vo_proposal_id v = i -> pr_start_ledger p <= vo_vote_ledger v <= pr_end_ledger p).
Proof.
  intros (Ho & Hn & Hv) Ht Hp.
  assert (TInv l (inst s)) as [H1 H2 H3 H4 H5].
  { clear Hp. induction Ht as [|k c l s s1 _ IH R]; [|by eapply TInv_step].
    split; [done|..|apply NoDup_nil_2|].
    - intros j q. by rewrite Hn.
    - intros a j. rewrite Hv. split; [done|]. by intros ?%elem_of_nil.
    - by intros v ?%elem_of_nil. }
  destruct (H2 i p Hp) as (_ & Ef & Ea & Eb). do 4 (split; [done|]).
  intros v Hvl <-. destruct (H5 v Hvl) as (q & Hq & Hb). rewrite Hp in Hq. by injection Hq as <-.
Qed.

(** A proposal is executed exactly when its window and its timelock are over and it has more votes
    for than against.  Its status, its quorum and its threshold are not consulted: a cancelled
    proposal is executed like any other, and one that was executed is executed again. *)
Theorem execution_ignores_the_status i c (s : St) p st :
  carried p (cx_sequence c) -> sget (inst s) (GovernanceKey.Proposal i) = Some (set_pr_status st p) ->
  exists s', execute_proposal i c s = Ok (tt, s') /\
    sget (inst s') (GovernanceKey.Proposal i) = Some (set_pr_status ProposalStatus.Executed p).
Proof.
  intros Hc Hp.
  eexists (mkSt (sset (inst s) (GovernanceKey.Proposal i) (set_pr_status ProposalStatus.Executed p))
             (pers s) (temp s) (published s) (host_calls s)).
  split; [|simpl; by rewrite sset_eq].
  apply execute_Ok. exists (set_pr_status st p). by destruct p.
Qed.

(** Whoever has executed a proposal: it was made, its timelock and its window were over and the votes
    for it outweighed those against. *)
Theorem execution_needs_votes_and_time k c (s s' : St) i p :
  gexec k c s = Ok (tt, s') -> k = GExecute i ->
  sget (inst s) (GovernanceKey.Proposal i) = Some p ->
  pr_execution_ledger p <= cx_sequence c /\ pr_end_ledger p < cx_sequence c /\
  pr_votes_against p < pr_votes_for p /\
  sget (inst s') (GovernanceKey.Proposal i) = Some (set_pr_status ProposalStatus.Executed p).
Proof.
  intros R -> Hp. apply execute_Ok in R as (q & Hq & (H1 & H2 & H3 & _) & E & _).
  rewrite Hp in Hq. injection Hq as <-. rewrite E. by store_reads.
Qed.

(** *** Powers *)

(** The states after an initialization on empty storage and any successful calls. *)
Inductive greach : St -> Prop :=
  | greach_init o t a b d q r f c s :
      initialize o t a b d q r f c empty_state = Ok (tt, s) -> greach s
  | greach_call k c s s' : greach s -> gexec k c s = Ok (tt, s') -> greach s'.

(** Nobody has any power, and so there are no proposals. *)
Record Powerless (st : store) : Prop := {
  l_owner : is_Some (sget st GovernanceKey.Owner);
  l_power : forall a p, sget st (GovernanceKey.VotingPower a) = Some p ->
    vp_base_power p = 0 /\ vp_delegated_power p = 0;
  l_none : forall i, sget st (GovernanceKey.Proposal i) = None }.

Lemma powerless st a : Powerless st -> strength (powers st a) = 0 /\ vp_base_power (powers st a) = 0.
Proof.
  intros [_ H _]. unfold strength, powers.
  destruct (sget st (GovernanceKey.VotingPower a)) as [p|] eqn:E; [|done].
  destruct (H a p E) as [-> ->]. done.
Qed.

Lemma propose_powerless a t x y b q r c (s : St) z :
  strength (powers (inst s) a) = 0 -> propose a t x y b q r c s <> Ok z.
Proof.
  destruct z as [z s']. intros Hp R.
  unfold propose, get_config, get_voting_power, total_power in R. minv.
  match goal with H : Z.eqb _ 0 = false |- _ => apply Z.eqb_neq in H; exact (H Hp) end.
Qed.

Lemma vote_powerless a i ch c (s s' : St) :
  strength (powers (inst s) a) = 0 -> vote a i ch c s <> Ok (tt, s').
Proof. intros Hp (p & n & _ & _ & _ & -> & Hn & _)%vote_Ok. contradiction. Qed.

Lemma delegate_powerless a b c (s s' : St) :
  vp_base_power (powers (inst s) a) = 0 -> delegate a b c s <> Ok (tt, s').
Proof.
  intros Hp R. unfold delegate, get_voting_power in R. minv.
  match goal with H : Z.eqb _ 0 = false |- _ => apply Z.eqb_neq in H; exact (H Hp) end.
Qed.

Lemma greach_Powerless s : greach s -> Powerless (inst s).
Proof.
  induction 1 as [o t a b d q r f c s R|k c s s' _ IH R].
  - unfold initialize in R. minv. split; [by store_reads|intros x p; by store_reads|intros j; by store_reads].
  - destruct k; simpl in R.
    + unfold initialize in R. minv.
      match goal with H : shas _ _ = false |- _ => apply shas_false in H end.
      destruct (l_owner _ IH). congruence.
    + apply bind_Ok in R as (z & s1 & R & _).
      by apply propose_powerless in R; [|apply powerless].
    + by apply vote_powerless in R; [|apply powerless].
    + by apply delegate_powerless in R; [|apply powerless].
    + unfold undelegate, get_voting_power in R. destruct IH as [H1 H2 H3].
      assert (Hp : forall x, vp_base_power (powers (inst s) x) = 0 /\
                        vp_delegated_power (powers (inst s) x) = 0).
      { intros x. unfold powers.
        destruct (sget (inst s) (GovernanceKey.VotingPower x)) as [p|] eqn:E; [exact (H2 x p E)|done]. }
      mcase; (split; [by store_reads| |intros j; store_reads; apply H3]); intros x p.
      * destruct (decide (x = a)) as [->|Hx]; store_reads; [intros [= <-]; apply Hp|].
        match goal with |- context [GovernanceKey.VotingPower ?y] =>
          destruct (decide (x = y)) as [->|Hy] end; store_reads; [|apply H2].
        intros [= <-]. split; [apply Hp|]. simpl.
        match goal with |- ?u - ?v = 0 => assert (u = 0) by apply Hp; assert (v = 0) by apply Hp end. lia.
      * destruct (decide (x = a)) as [->|Hx]; store_reads; [intros [= <-]; apply Hp|apply H2].
    + apply execute_Ok in R as (p & Hp & _). by rewrite (l_none _ IH) in Hp.
    + unfold cancel_proposal, get_proposal_or_panic in R. minv.
      match goal with H : sget _ (GovernanceKey.Proposal _) = Some _ |- _ =>
        by rewrite (l_none _ IH) in H end.
    + unfold update_config, get_owner, get_config in R. minv. destruct IH as [H1 H2 H3].
      split; [by store_reads|intros x p; store_reads; apply H2|intros j; store_reads; apply H3].
Qed.

(** Nobody can ever propose, vote or delegate: no operation gives anybody voting power, so in every
    reachable state every such call fails, and there are no proposals. *)
Theorem nobody_can_ever_vote (s : St) a t x y b q r i ch d c :
  greach s ->
  (forall z, propose a t x y b q r c s <> Ok z) /\ (forall s', vote a i ch c s <> Ok (tt, s')) /\
  (forall s', delegate a d c s <> Ok (tt, s')) /\ sget (inst s) (GovernanceKey.Proposal i) = None.
Proof.
  intros H%greach_Powerless. destruct (powerless _ a H) as [H1 H2].
  split; [|split; [|split; [|apply H]]].
  - intros z. by apply propose_powerless.
  - intros s'. by apply vote_powerless.
  - intros s'. by apply delegate_powerless.
Qed.

Lemma delegate_Ok a b c (s s' : St) :
  delegate a b c s = Ok (tt, s') ->
  a <> b /\ vp_base_power (powers (inst s) a) <> 0 /\
  inst s' = sset (sset (inst s) (GovernanceKey.VotingPower a)
              (mkVotingPower (vp_user (powers (inst s) a)) (vp_base_power (powers (inst s) a))
                 (vp_delegated_power (powers (inst s) a)) (Some b) (cx_sequence c)))
              (GovernanceKey.VotingPower b)
              (set_vp_delegated_power
                 (vp_delegated_power (powers (inst s) b) + vp_base_power (powers (inst s) a))
                 (powers (inst s) b)).
Proof.
  unfold delegate, get_voting_power. intros R. minv.
  match goal with H : bool_decide _ = false |- _ => apply bool_decide_eq_false in H end.
  match goal with H : Z.eqb _ 0 = false |- _ => apply Z.eqb_neq in H end.
  done.
Qed.

Lemma undelegate_Ok a c (s s' : St) b :
  undelegate a c s = Ok (tt, s') -> vp_delegated_to (powers (inst s) a) = Some b ->
  inst s' = sset (sset (inst s)
              (GovernanceKey.VotingPower b)
              (set_vp_delegated_power
                 (vp_delegated_power (powers (inst s) b) - vp_base_power (powers (inst s) a))
                 (powers (inst s) b)))
              (GovernanceKey.VotingPower a)
              (mkVotingPower (vp_user (powers (inst s) a)) (vp_base_power (powers (inst s) a))
                 (vp_delegated_power (powers (inst s) a)) None
                 (vp_delegation_ledger (powers (inst s) a))).
Proof.
  unfold undelegate, get_voting_power. intros R Hb.
  apply bind_Ok in R as (p & s1 & Rp & R). injection Rp as Ep <-.
  assert (p = powers (inst s) a) as -> by (symmetry; exact Ep). rewrite Hb in R. by minv.
Qed.

Lemma powers_same st a v : powers (sset st (GovernanceKey.VotingPower a) v) a = v.
Proof. unfold powers. by rewrite sset_eq. Qed.

Lemma powers_other st k v a : k <> GovernanceKey.VotingPower a -> powers (sset st k v) a = powers st a.
Proof. intros H. unfold powers. by rewrite sset_ne. Qed.

(** Delegated power counts twice: who delegates keeps voting with the same power, and so does the
    delegate. *)
Theorem delegated_power_counts_twice a b i c1 c2 c3 (s s1 s2 s3 : St) p p' :
  delegate a b c1 s = Ok (tt, s1) -> vote b i VoteChoice.For c2 s1 = Ok (tt, s2) ->
  vote a i VoteChoice.For c3 s2 = Ok (tt, s3) ->
  sget (inst s) (GovernanceKey.Proposal i) = Some p ->
  sget (inst s3) (GovernanceKey.Proposal i) = Some p' ->
  pr_votes_for p' = pr_votes_for p + strength (powers (inst s) a) + strength (powers (inst s) b) +
                    vp_base_power (powers (inst s) a).
Proof.
  intros (Hab & _ & E1)%delegate_Ok (q & n & Hq & _ & _ & -> & _ & E2)%vote_Ok
    (r & m & Hr & _ & _ & -> & _ & E3)%vote_Ok Hp Hp'.
  rewrite E3, sset_eq in Hp'. injection Hp' as <-.
  rewrite E2, sset_eq in Hr. injection Hr as <-.
  rewrite E1, !sset_ne, Hp in Hq by done. injection Hq as <-.
  rewrite E2, !powers_other by done. rewrite E1, powers_same.
  rewrite (powers_other _ _ _ a) by congruence. rewrite powers_same.
  unfold strength. simpl. lia.
Qed.

(** Taking a delegation back restores the power of everybody. *)
Theorem undelegating_restores a b c1 c2 (s s1 s2 : St) x :
  delegate a b c1 s = Ok (tt, s1) -> undelegate a c2 s1 = Ok (tt, s2) ->
  vp_base_power (powers (inst s2) x) = vp_base_power (powers (inst s) x) /\
  vp_delegated_power (powers (inst s2) x) = vp_delegated_power (powers (inst s) x).
Proof.
  intros (Hab & _ & E1)%delegate_Ok R2.
  assert (Ea : powers (inst s1) a =
    mkVotingPower (vp_user (powers (inst s) a)) (vp_base_power (powers (inst s) a))
      (vp_delegated_power (powers (inst s) a)) (Some b) (cx_sequence c1)).
  { by rewrite E1, (powers_other _ _ _ a), powers_same by congruence. }
  apply (undelegate_Ok _ _ _ _ b) in R2; [|by rewrite Ea]. rewrite R2, Ea. simpl.
  destruct (decide (x = a)) as [->|Hxa]; [by rewrite powers_same|].
  rewrite (powers_other _ _ _ x) by congruence.
  destruct (decide (x = b)) as [->|Hxb].
  - rewrite powers_same, E1, powers_same. simpl. split; [done|lia].
  - by rewrite E1, !powers_other by congruence.
Qed.

(** A delegation that is moved is never returned: who delegates to a second delegate and takes the
    delegation back has left the power with the first one. *)
Theorem moved_delegations_stay a b d c1 c2 c3 (s s1 s2 s3 : St) :
  b <> d -> delegate a b c1 s = Ok (tt, s1) -> delegate a d c2 s1 = Ok (tt, s2) ->
  undelegate a c3 s2 = Ok (tt, s3) ->
  vp_delegated_to (powers (inst s3) a) = None /\
  vp_delegated_power (powers (inst s3) b) =
    vp_delegated_power (powers (inst s) b) + vp_base_power (powers (inst s) a).
Proof.
  intros Hbd (Hab & _ & E1)%delegate_Ok (Had & _ & E2)%delegate_Ok R3.
  apply (undelegate_Ok _ _ _ _ d) in R3.
  - rewrite R3, powers_same. split; [done|].
    rewrite !(powers_other _ _ _ b) by congruence.
    rewrite E2, !(powers_other _ _ _ b) by congruence. by rewrite E1, powers_same.
  - by rewrite E2, (powers_other _ _ _ a), powers_same by congruence.
Qed.

(** *** At concrete states *)

(** A deployed contract in which alice holds 30 and bob 12. *)
Definition g_run (n : Z) (k : gcall) (s : St) : St := post (gexec k) (at_ledger n) s.
Definition bob : Address := "bob".
Definition g_init : St := g_run 100 (GInit owner ledger 1 10 5 4000 5000 0) empty_state.
Definition g_start : St :=
  mkSt (sset (sset (inst g_init) (GovernanceKey.VotingPower alice) (mkVotingPower alice 30 0 None 0))
          (GovernanceKey.VotingPower bob) (mkVotingPower bob 12 0 None 0)) sempty sempty [] [].
Definition g_proposed : St := g_run 101 (GPropose bob ProposalType.TreasurySpending "t" "d" [] 0 0) g_start.
Definition g_delegated : St := g_run 102 (GDelegate alice bob) g_proposed.
Definition g_voted1 : St := g_run 103 (GVote bob 0 VoteChoice.For) g_delegated.
Definition g_voted2 : St := g_run 104 (GVote alice 0 VoteChoice.For) g_voted1.
Definition g_cancelled : St := g_run 105 (GCancel bob 0) g_voted2.
Definition g_executed : St := g_run 120 (GExecute 0) g_cancelled.

Lemma g_run_trace s0 n k l s :
  gtrace s0 l s -> outcome (gexec k) (at_ledger n) s = Ok tt ->
  gtrace s0 (l ++ cast k (g_run n k s)) (g_run n k s).
Proof. intros Ht H. eapply gtrace_call; [exact Ht|]. by apply run_outcome. Qed.

Lemma g_trace : exists l, gtrace g_start l g_executed.
Proof.
  eexists. do 6 (eapply g_run_trace; [|vm_compute; reflexivity]). constructor.
Qed.

Lemma g_deployed : deployed (inst g_start).
Proof. split; [eexists; vm_compute; reflexivity|split; intros; vm_compute; reflexivity]. Qed.

Lemma tallies_are_the_votes_cast_witness :
  exists l, gtrace g_start l g_executed /\ power_of 0 VoteChoice.For l = 72 /\ NoDup (map ballot l).
Proof.
  destruct g_trace as [l T]. exists l. split; [exact T|].
  destruct (sget (inst g_executed) (GovernanceKey.Proposal 0)) as [p|] eqn:E;
    [|vm_compute in E; discriminate E].
  destruct (tallies_are_the_votes_cast l g_start g_executed 0 p g_deployed T E)
    as (H & _ & _ & Hd & _).
  split; [|exact Hd]. rewrite <- H. vm_compute in E. by injection E as <-.
Defined.

Lemma execution_ignores_the_status_witness :
  exists s', execute_proposal 0 (at_ledger 120) g_cancelled = Ok (tt, s') /\
    pr_status <$> sget (inst s') (GovernanceKey.Proposal 0) = Some ProposalStatus.Executed.
Proof.
  destruct (sget (inst g_voted2) (GovernanceKey.Proposal 0)) as [p|] eqn:E;
    [|vm_compute in E; discriminate E].
  destruct (execution_ignores_the_status 0 (at_ledger 120) g_cancelled p ProposalStatus.Cancelled)
    as (s' & R & Hs).
  - vm_compute in E. injection E as <-. unfold carried. simpl. unfold u128_max. lia.
  - vm_compute in E. injection E as <-. vm_compute. reflexivity.
  - exists s'. split; [exact R|]. rewrite Hs. reflexivity.
Defined.

Lemma execution_needs_votes_and_time_witness :
  exists p, sget (inst g_cancelled) (GovernanceKey.Proposal 0) = Some p /\
    pr_execution_ledger p <= 120 /\ pr_votes_against p < pr_votes_for p.
Proof.
  destruct (sget (inst g_cancelled) (GovernanceKey.Proposal 0)) as [p|] eqn:E;
    [|vm_compute in E; discriminate E].
  assert (outcome (gexec (GExecute 0)) (at_ledger 120) g_cancelled = Ok tt) as R%run_outcome
    by (vm_compute; reflexivity).
  destruct (execution_needs_votes_and_time _ _ _ _ 0 p R eq_refl E) as (H1 & _ & H2 & _).
  exists p. split; [reflexivity|]. split; [exact H1|exact H2].
Defined.

Lemma nobody_can_ever_vote_witness :
  greach g_init /\ forall s', vote alice 0 VoteChoice.For (at_ledger 103) g_init <> Ok (tt, s').
Proof.
  assert (greach g_init) as Hg.
  { eapply (greach_init owner ledger 1 10 5 4000 5000 0 (at_ledger 100)).
    apply run_outcome. vm_compute. reflexivity. }
  split; [exact Hg|].
  by destruct (nobody_can_ever_vote g_init alice ProposalType.FeaturePriority "t" "d" [] 0 0 0
    VoteChoice.For bob (at_ledger 103) Hg) as (_ & H & _ & _).
Defined.

Lemma delegated_power_counts_twice_witness :
  pr_votes_for <$> sget (inst g_voted2) (GovernanceKey.Proposal 0) = Some (0 + 30 + 12 + 30).
Proof.
  destruct (sget (inst g_proposed) (GovernanceKey.Proposal 0)) as [p|] eqn:E;
    [|vm_compute in E; discriminate E].
  destruct (sget (inst g_voted2) (GovernanceKey.Proposal 0)) as [p'|] eqn:E';
    [|vm_compute in E'; discriminate E'].
  assert (outcome (delegate alice bob) (at_ledger 102) g_proposed = Ok tt) as R1%run_outcome
    by (vm_compute; reflexivity).
  assert (outcome (vote bob 0 VoteChoice.For) (at_ledger 103) g_delegated = Ok tt) as R2%run_outcome
    by (vm_compute; reflexivity).
  assert (outcome (vote alice 0 VoteChoice.For) (at_ledger 104) g_voted1 = Ok tt) as R3%run_outcome
    by (vm_compute; reflexivity).
  simpl. rewrite (delegated_power_counts_twice _ _ _ _ _ _ _ _ _ _ p p' R1 R2 R3 E E').
  vm_compute in E. injection E as <-. reflexivity.
Defined.

Lemma undelegating_restores_witness :
  let s := post (undelegate alice) (at_ledger 103) g_delegated in
  vp_base_power (powers (inst s) bob) = 12 /\ vp_delegated_power (powers (inst s) bob) = 0.
Proof.
  assert (outcome (delegate alice bob) (at_ledger 102) g_proposed = Ok tt) as R1%run_outcome
    by (vm_compute; reflexivity).
  assert (outcome (undelegate alice) (at_ledger 103) g_delegated = Ok tt) as R2%run_outcome
    by (vm_compute; reflexivity).
  intros s. destruct (undelegating_restores _ _ _ _ _ _ _ bob R1 R2) as [H1 H2].
  split; [exact H1|exact H2].
Defined.

Lemma moved_delegations_stay_witness :
  let s1 := post (delegate alice owner) (at_ledger 103) g_delegated in
  let s2 := post (undelegate alice) (at_ledger 104) s1 in
  vp_delegated_to (powers (inst s2) alice) = None /\ vp_delegated_power (powers (inst s2) bob) = 0 + 30.
Proof.
  assert (outcome (delegate alice bob) (at_ledger 102) g_proposed = Ok tt) as R1%run_outcome
    by (vm_compute; reflexivity).
  assert (outcome (delegate alice owner) (at_ledger 103) g_delegated = Ok tt) as R2%run_outcome
    by (vm_compute; reflexivity).
  intros s1 s2.
  assert (outcome (undelegate alice) (at_ledger 104) s1 = Ok tt) as R3%run_outcome
    by (vm_compute; reflexivity).
  assert (Hne : bob <> owner) by done.
  exact (moved_delegations_stay _ _ _ _ _ _ _ _ _ _ Hne R1 R2 R3).
Defined.

End Votes.

(** ** Treasury *)

Module Funds.
Import DAOTreasury.

Inductive tcall : Type :=
  | TInit (owner token : Address) (signers : list Address) (required : Z)
  | TCreate (name : string) (limit period : Z)
  | TDeposit (name : string) (amount : Z)
  | TRequest (recipient : Address) (name : string) (amount : Z) (purpose : string)
  | TApprove (a : Address) (i : Z)
  | TExecute (i : Z)
  | TRules (l : list FeeDistribution)
  | TFees (total : Z).

Definition texec (k : tcall) : M unit :=
  match k with
  | TInit o t l n => initialize o t l n
  | TCreate n l p => create_fund n l p
  | TDeposit n a => deposit n a
  | TRequest r n a p => do* request_allocation r n a p in ret tt
  | TApprove a i => approve_allocation a i
  | TExecute i => execute_allocation i
  | TRules l => set_fee_distribution l
  | TFees t => distribute_fees t
  end.

Definition rules (st : store) : list FeeDistribution :=
  match sget st TreasuryKey.Config with Some c => tc_fee_distribution c | None => [] end.

Definition share (total : Z) (d : FeeDistribution) : Z := total * fd_percentage_bps d / 10000.

(** What a call pays into a fund: a deposit into it, or, for the fund with the name of zeros, the
    shares of the rules that name a fund. *)
Definition inflow (f : string) (k : tcall) (st : store) : Z :=
  match k with
  | TDeposit n a => if bool_decide (n = f) then a else 0
  | TFees t => if bool_decide (zero_name = f)
               then total_of (fun d => if fd_is_fund d then share t d else 0) (rules st) else 0
  | _ => 0
  end.

(** What a call pays out of a fund: the amount of the allocation it executes, when that
    allocation names the fund. *)
Definition outflow (f : string) (k : tcall) (st : store) : Z :=
  match k with
  | TExecute i => match sget st (TreasuryKey.Allocation i) with
                  | Some a => if bool_decide (al_fund_name a = f) then al_amount a else 0
                  | None => 0
                  end
  | _ => 0
  end.

(** The successful calls on empty storage, with the sum [n] of what they paid into a fund and the
    sum [m] of the allocations they executed from it. *)
Inductive ttrace (f : string) : Z -> Z -> St -> Prop :=
  | ttrace_nil : ttrace f 0 0 empty_state
  | ttrace_call k c n m s s' :
      ttrace f n m s -> texec k c s = Ok (tt, s') ->
      ttrace f (n + inflow f k (inst s)) (m + outflow f k (inst s)) s'.

(** A fund holds what was paid in less the allocations executed, and has these on record as the
    budget used, within its limit. *)
Definition FInv (f : string) (n m : Z) (st : store) : Prop :=
  match sget st (TreasuryKey.Fund f) with
  | Some u => fu_balance u = n - m /\ fu_budget_used u = m /\ m <= Z.max 0 (fu_budget_limit u)
  | None => n = 0 /\ m = 0
  end.

Lemma FInv_other f n m st k v : k <> TreasuryKey.Fund f -> FInv f n m st -> FInv f n m (sset st k v).
Proof. intros Hk H. unfold FInv. by rewrite sset_ne. Qed.

Lemma deposit_Ok n a c (s s' : St) u :
  deposit n a c s = Ok (u, s') ->
  exists x, sget (inst s) (TreasuryKey.Fund n) = Some x /\ a <> 0 /\
    inst s' = sset (inst s) (TreasuryKey.Fund n) (set_fu_balance (fu_balance x + a) x).
Proof.
  unfold deposit, get_fund_or_panic. intros R. minv. zcase. eauto.
Qed.

Lemma FInv_deposit f n p m a c (s s' : St) u :
  deposit m a c s = Ok (u, s') -> FInv f n p (inst s) ->
  FInv f (n + (if bool_decide (m = f) then a else 0)) p (inst s').
Proof.
  intros (x & Hx & _ & ->)%deposit_Ok H. unfold FInv in *.
  destruct (decide (m = f)) as [->|Hm].
  - rewrite bool_decide_eq_true_2 by done. store_reads. rewrite Hx in H. simpl. lia.
  - rewrite bool_decide_eq_false_2, Z.add_0_r by done. by store_reads.
Qed.

Lemma distribute_one_inv f total d c (s s' : St) n p u v :
  distribute_one total u d c s = Ok (v, s') -> FInv f n p (inst s) ->
  FInv f (n + (if bool_decide (zero_name = f) then if fd_is_fund d then share total d else 0 else 0))
    p (inst s').
Proof.
  unfold distribute_one. intros R H.
  apply bind_Ok in R as (z & s1 & Rz & R). apply lift_Ok in Rz as [Rz ->].
  apply u128_chk_Ok in Rz as [-> _]. destruct (fd_is_fund d); simpl in R.
  - by eapply FInv_deposit in R.
  - minv. destruct (bool_decide _); rewrite Z.add_0_r; by apply FInv_other.
Qed.

Lemma distribute_inv f total l c (s s' : St) n p u v :
  fold_m (distribute_one total) u l c s = Ok (v, s') -> FInv f n p (inst s) ->
  FInv f (n + (if bool_decide (zero_name = f)
               then total_of (fun d => if fd_is_fund d then share total d else 0) l else 0)) p (inst s').
Proof.
  revert n u s. induction l as [|d l IH]; intros n u s R H; simpl in R.
  - minv. simpl. destruct (bool_decide _); by rewrite Z.add_0_r.
  - apply bind_Ok in R as (w & s1 & Rd & R). eapply distribute_one_inv in Rd; [|exact H].
    eapply IH in R; [|exact Rd]. simpl. destruct (bool_decide _); [|by rewrite !Z.add_0_r in *].
    by rewrite <- Z.add_assoc in R.
Qed.

(** An execution takes the amount of the allocation from the balance of its fund, adds it to the
    budget used, and dates the allocation. *)
Lemma execute_allocation_Ok i c (s s' : St) u :
  execute_allocation i c s = Ok (u, s') ->
  exists a x, sget (inst s) (TreasuryKey.Allocation i) = Some a /\ al_approved a = true /\
    sget (inst s) (TreasuryKey.Fund (al_fund_name a)) = Some x /\
    al_amount a + fu_budget_used x <= fu_budget_limit x /\ al_amount a <= fu_balance x /\
    inst s' = sset (sset (inst s) (TreasuryKey.Fund (al_fund_name a))
                      (pay x (fu_balance x - al_amount a) (fu_budget_used x + al_amount a)))
                (TreasuryKey.Allocation i) (set_al_execution_ledger (cx_sequence c) a).
Proof.
  unfold execute_allocation, get_allocation_or_panic, get_fund_or_panic. intros R. minv. zcase.
  eexists _, _. split; [eassumption|]. split; [done|]. split; [eassumption|].
  split; [lia|]. split; [lia|done].
Qed.

Lemma FInv_step f k c n m (s s' : St) :
  FInv f n m (inst s) -> texec k c s = Ok (tt, s') ->
  FInv f (n + inflow f k (inst s)) (m + outflow f k (inst s)) (inst s').
Proof.
  intros H R. destruct k as [o t l r|name lim per|name x|r name x why|p i|i|l|t]; simpl in R;
    simpl inflow; simpl outflow; rewrite ?Z.add_0_r.
  - unfold initialize in R. minv. by repeat (apply FInv_other; [done|]).
  - unfold create_fund, get_owner in R. minv.
    match goal with B : bool_decide (is_Some _) = false |- _ =>
      apply bool_decide_eq_false in B; apply eq_None_not_Some in B end.
    apply FInv_other; [done|]. unfold FInv in *.
    destruct (decide (name = f)) as [->|Hn]; store_reads; [|done].
    match goal with B : sget _ _ = None |- _ => rewrite B in H end. simpl. lia.
  - by eapply FInv_deposit in R.
  - apply bind_Ok in R as (z & s1 & R & R2). injection R2 as <-.
    unfold request_allocation, get_config, get_next_allocation_id in R. minv.
    by repeat (apply FInv_other; [done|]).
  - unfold approve_allocation, get_config, get_allocation_or_panic in R. minv.
    by repeat (apply FInv_other; [done|]).
  - apply execute_allocation_Ok in R as (a & x & Ha & _ & Hx & Hb & Hl & ->). rewrite Ha.
    apply FInv_other; [done|]. unfold FInv in *.
    destruct (decide (al_fund_name a = f)) as [<-|Hn]; store_reads.
    + rewrite bool_decide_eq_true_2 by done. rewrite Hx in H. simpl. lia.
    + by rewrite bool_decide_eq_false_2, Z.add_0_r.
  - unfold set_fee_distribution, get_owner, get_config in R. minv. by apply FInv_other.
  - unfold distribute_fees, get_config in R.
    apply bind_Ok in R as (cfg & s1 & Rc & R). minv.
    match goal with F : fold_m _ _ _ _ _ = Ok _ |- _ => eapply distribute_inv in F; [|exact H] end.
    unfold rules. match goal with B : sget _ TreasuryKey.Config = Some _ |- _ => rewrite B end.
    by apply FInv_other.
Qed.

(** C28: After any calls, with [n] the sum of what they deposited into a fund and [m] the sum of the
    amounts of the allocations they executed from it, the balance of the fund is [n - m], its budget
    used is [m], and [m] is within its budget limit.  The limit is one for the whole life of the fund:
    the period that the fund carries is never looked at, and nothing resets the budget used. *)
Theorem funds_are_conserved f n m (s : St) u :
  ttrace f n m s -> sget (inst s) (TreasuryKey.Fund f) = Some u ->
  fu_balance u = n - m /\ fu_budget_used u = m /\ m <= Z.max 0 (fu_budget_limit u).
Proof.
  intros Ht Hu. assert (FInv f n m (inst s)) as H.
  { clear Hu. induction Ht as [|k c n m s s' _ IH R]; [done|by eapply FInv_step]. }
  unfold FInv in H. by rewrite Hu in H.
Qed.

(** Apart from the balance, what a deposit or a share of fees leaves of a fund. *)
Definition same_budget (x y : Fund) : Prop :=
  fu_budget_used y = fu_budget_used x /\ fu_budget_limit y = fu_budget_limit x /\
  fu_period_ledgers y = fu_period_ledgers x /\ fu_last_reset_ledger y = fu_last_reset_ledger x.

Lemma distribute_budget f total l c (s s' : St) u v x :
  fold_m (distribute_one total) u l c s = Ok (v, s') ->
  sget (inst s) (TreasuryKey.Fund f) = Some x ->
  exists y, sget (inst s') (TreasuryKey.Fund f) = Some y /\ same_budget x y.
Proof.
  revert u s x. induction l as [|d l IH]; intros u s x R Hx; simpl in R; [minv; by exists x|].
  apply bind_Ok in R as (w & s1 & Rd & R).
  assert (exists y, sget (inst s1) (TreasuryKey.Fund f) = Some y /\ same_budget x y) as (y & Hy & E).
  { unfold distribute_one in Rd. apply bind_Ok in Rd as (z & s2 & Rz & Rd).
    apply lift_Ok in Rz as [_ ->]. destruct (fd_is_fund d).
    - apply deposit_Ok in Rd as (x0 & Hx0 & _ & ->).
      destruct (decide (f = zero_name)) as [->|Hn]; store_reads; [|by exists x].
      assert (x0 = x) as -> by congruence. by eexists.
    - minv. store_reads. by exists x. }
  destruct (IH _ _ _ R Hy) as (y' & Hy' & E'). exists y'. unfold same_budget in *.
  split; [done|]. destruct_and!. split_and!; congruence.
Qed.

(** No call, at any ledger, takes anything off the budget used, or changes the limit, the period or
    the ledger of the last reset of a fund: the budget used only grows, by the allocations executed. *)
Theorem budgets_are_never_reset f k c (s s' : St) u :
  texec k c s = Ok (tt, s') -> sget (inst s) (TreasuryKey.Fund f) = Some u ->
  exists u', sget (inst s') (TreasuryKey.Fund f) = Some u' /\
    fu_budget_used u' = fu_budget_used u + outflow f k (inst s) /\
    fu_budget_limit u' = fu_budget_limit u /\ fu_period_ledgers u' = fu_period_ledgers u /\
    fu_last_reset_ledger u' = fu_last_reset_ledger u.
Proof.
  intros R Hu. destruct k as [o t l r|name lim per|name x|r name x why|p i|i|l|t]; simpl in R;
    simpl outflow; rewrite ?Z.add_0_r.
  - unfold initialize in R. minv. store_reads. by exists u.
  - unfold create_fund, get_owner in R. minv.
    match goal with B : bool_decide (is_Some _) = false |- _ =>
      apply bool_decide_eq_false in B; apply eq_None_not_Some in B end.
    match goal with B : sget _ _ = None |- _ =>
      assert (f <> name) by (intros ->; by rewrite Hu in B) end. store_reads. by exists u.
  - apply deposit_Ok in R as (y & Hy & _ & ->). destruct (decide (f = name)) as [->|Hn]; store_reads.
    + assert (y = u) as -> by congruence. by eexists.
    + by exists u.
  - apply bind_Ok in R as (z & s1 & R & R2). injection R2 as <-.
    unfold request_allocation, get_config, get_next_allocation_id in R. minv. store_reads. by exists u.
  - unfold approve_allocation, get_config, get_allocation_or_panic in R. minv. store_reads. by exists u.
  - apply execute_allocation_Ok in R as (a & y & Ha & _ & Hy & _ & _ & ->). rewrite Ha.
    destruct (decide (al_fund_name a = f)) as [<-|Hn]; store_reads.
    + rewrite bool_decide_eq_true_2 by done. assert (y = u) as -> by congruence. by eexists.
    + rewrite bool_decide_eq_false_2, Z.add_0_r by done. by exists u.
  - unfold set_fee_distribution, get_owner, get_config in R. minv. store_reads. by exists u.
  - unfold distribute_fees, get_config in R.
    apply bind_Ok in R as (cfg & s1 & Rc & R). minv. store_reads.
    match goal with F : fold_m _ _ _ _ _ = Ok _ |- _ =>
      destruct (distribute_budget _ _ _ _ _ _ _ _ _ F Hu) as (y & Hy & E) end.
    exists y. split; [done|apply E].
Qed.

(** *** Approvals *)

Definition treach (s : St) : Prop := exists f n m, ttrace f n m s.

Definition next_alloc (st : store) : Z :=
  match sget st TreasuryKey.AllocationCounter with Some n => n | None => 1 end.

Definition approved_by (st : store) (i : Z) (p : Address) : Prop :=
  sget st (TreasuryKey.AllocationApproval i p) = Some true.

(** The approvals of an allocation are those of distinct signers. *)
Definition signed (st : store) (i : Z) (a : Allocation) : Prop :=
  exists ps, NoDup ps /\ (forall p, p ∈ ps <-> approved_by st i p) /\
    al_approval_count a = Z.of_nat (length ps) /\
    (al_approved a = true <-> ps <> [] /\ al_required_approvals a <= al_approval_count a).

Record AInv (st : store) : Prop := {
  a_init : sget st TreasuryKey.Owner = None ->
    sget st TreasuryKey.Config = None /\ (forall i, sget st (TreasuryKey.Allocation i) = None) /\
    (forall i p, ~ approved_by st i p);
  a_signed : forall i a, sget st (TreasuryKey.Allocation i) = Some a -> i < next_alloc st /\ signed st i a;
  a_there : forall i p, approved_by st i p -> is_Some (sget st (TreasuryKey.Allocation i));
  a_signers : forall i p, approved_by st i p ->
    exists cfg, sget st TreasuryKey.Config = Some cfg /\ p ∈ tc_signers cfg }.

Definition approval_key (k : TreasuryKey) : bool :=
  match k with
  | TreasuryKey.Owner | TreasuryKey.Config | TreasuryKey.Allocation _ | TreasuryKey.AllocationCounter
  | TreasuryKey.AllocationApproval _ _ => true
  | _ => false
  end.

Lemma AInv_other st k v : approval_key k = false -> AInv st -> AInv (sset st k v).
Proof.
  intros Hk [H1 H2 H3 H4].
  assert (Hne : forall k' : TreasuryKey, approval_key k' = true -> sget (sset st k v) k' = sget st k').
  { intros k' Hk'. apply sset_ne. congruence. }
  assert (Ha : forall i p, approved_by (sset st k v) i p <-> approved_by st i p).
  { intros i p. unfold approved_by. by rewrite Hne. }
  split; unfold next_alloc in *.
  - rewrite !Hne by done. intros Ho. destruct (H1 Ho) as (Hc & Hi & Hp).
    split; [done|]. split; [intros i; by rewrite Hne|]. intros i p. rewrite Ha. apply Hp.
  - intros i a. rewrite !Hne by done. intros Hi. destruct (H2 i a Hi) as (Hn & ps & Hd & Hp & Hc).
    split; [done|]. exists ps. split; [done|]. split; [|done]. intros p. by rewrite Ha.
  - intros i p. rewrite Ha, Hne by done. apply H3.
  - intros i p. rewrite Ha, Hne by done. apply H4.
Qed.

(** An allocation replaced by one with the same approvals. *)
Lemma AInv_executed st i a n :
  sget st (TreasuryKey.Allocation i) = Some a -> AInv st ->
  AInv (sset st (TreasuryKey.Allocation i) (set_al_execution_ledger n a)).
Proof.
  intros Hi [H1 H2 H3 H4].
  assert (Ha : forall j p, approved_by (sset st (TreasuryKey.Allocation i) (set_al_execution_ledger n a)) j p
                      <-> approved_by st j p).
  { intros j p. unfold approved_by. by store_reads. }
  split; unfold next_alloc in *.
  - store_reads. intros Ho. destruct (H1 Ho) as (_ & Hn & _). by rewrite Hn in Hi.
  - intros j b. rewrite (sset_ne _ _ TreasuryKey.AllocationCounter) by done.
    destruct (decide (j = i)) as [->|Hj]; store_reads.
    + intros [= <-]. destruct (H2 i a Hi) as (Hn & ps & Hd & Hp & Hc). split; [done|].
      exists ps. split; [done|]. split; [|done]. intros p. by rewrite Ha.
    + intros Hb. destruct (H2 j b Hb) as (Hn & ps & Hd & Hp & Hc). split; [done|].
      exists ps. split; [done|]. split; [|done]. intros p. by rewrite Ha.
  - intros j p. rewrite Ha. intros Hp. destruct (decide (j = i)) as [->|Hj]; store_reads; eauto.
  - intros j p. rewrite Ha. store_reads. apply H4.
Qed.

Lemma AInv_distribute total l c (s s' : St) u v :
  fold_m (distribute_one total) u l c s = Ok (v, s') -> AInv (inst s) -> AInv (inst s').
Proof.
  revert u s. induction l as [|d l IH]; intros u s R H; simpl in R; [by minv|].
  apply bind_Ok in R as (w & s1 & Rd & R). eapply IH; [exact R|]. unfold distribute_one in Rd.
  apply bind_Ok in Rd as (z & s2 & Rz & Rd). apply lift_Ok in Rz as [_ ->].
  destruct (fd_is_fund d); [apply deposit_Ok in Rd as (x & _ & _ & ->)|minv]; by apply AInv_other.
Qed.

(** A new approval. *)
Lemma AInv_approve st i a p cfg :
  AInv st -> sget st (TreasuryKey.Allocation i) = Some a -> ~ approved_by st i p ->
  sget st TreasuryKey.Config = Some cfg -> p ∈ tc_signers cfg ->
  AInv (sset (sset st (TreasuryKey.AllocationApproval i p) true)
          (TreasuryKey.Allocation i) (with_approvals a (al_approval_count a + 1))).
Proof.
  intros [H1 H2 H3 H4] Hi Hno Hc Hs.
  match goal with |- AInv ?t => set (st' := t) end.
  assert (Ha : forall j q, approved_by st' j q <-> (j, q) = (i, p) \/ approved_by st j q).
  { intros j q. unfold approved_by, st'. destruct (decide ((j, q) = (i, p))) as [[= -> ->]|Hne]; store_reads.
    - naive_solver.
    - naive_solver. }
  destruct (H2 i a Hi) as (Hn & ps & Hd & Hp & Hcnt & Hap).
  split; unfold next_alloc, st' in *.
  - store_reads. intros Ho. destruct (H1 Ho) as (Hcn & _). congruence.
  - intros j b. rewrite !(sset_ne _ _ TreasuryKey.AllocationCounter) by done.
    destruct (decide (j = i)) as [->|Hj]; store_reads.
    + intros [= <-]. split; [done|]. exists (p :: ps). split; [|split; [|split]].
      * apply NoDup_cons. split; [by rewrite Hp|done].
      * intros q. rewrite elem_of_cons, Hp, Ha. naive_solver.
      * simpl. lia.
      * simpl. rewrite orb_true_iff, Z.leb_le, Hap. split; [|naive_solver].
        intros [?|[_ ?]]; split; (done || lia).
    + intros Hb. destruct (H2 j b Hb) as (Hm & qs & Hd' & Hq & Hc'). split; [done|].
      exists qs. split; [done|]. split; [|done]. intros q. rewrite Hq, Ha. naive_solver.
  - intros j q [[= -> ->]|Hq]%Ha; [by store_reads|].
    destruct (decide (j = i)) as [->|Hj]; store_reads; eauto.
  - intros j q [[= -> ->]|Hq]%Ha; store_reads; eauto.
Qed.

(** A new allocation, without approvals. *)
Lemma AInv_request st a cfg :
  AInv st -> sget st TreasuryKey.Config = Some cfg -> al_approval_count a = 0 -> al_approved a = false ->
  AInv (sset (sset st TreasuryKey.AllocationCounter (next_alloc st + 1))
          (TreasuryKey.Allocation (next_alloc st)) a).
Proof.
  intros [H1 H2 H3 H4] Hc Hn Hf.
  assert (Hno : forall p, ~ approved_by st (next_alloc st) p).
  { intros p [b Hb]%H3. apply H2 in Hb as [Hb _]. lia. }
  match goal with |- AInv ?t => set (st' := t) end.
  assert (Ha : forall j q, approved_by st' j q <-> approved_by st j q).
  { intros j q. unfold approved_by, st'. by store_reads. }
  assert (Hx : next_alloc st' = next_alloc st + 1) by (unfold next_alloc, st'; by store_reads).
  split.
  - unfold st'. store_reads. intros Ho. destruct (H1 Ho) as (Hcn & _). congruence.
  - intros j b. rewrite Hx. unfold st' at 1.
    destruct (decide (j = next_alloc st)) as [->|Hj]; store_reads.
    + intros [= <-]. split; [lia|]. exists []. split; [apply NoDup_nil_2|]. split; [|split; [done|]].
      * intros p. rewrite Ha. split; [by intros ?%elem_of_nil|]. by intros ?%Hno.
      * rewrite Hf. split; [done|]. by intros [? _].
    + intros Hb. destruct (H2 j b Hb) as (Hm & qs & Hd' & Hq & Hc'). split; [lia|].
      exists qs. split; [done|]. split; [|done]. intros q. by rewrite Hq, Ha.
  - intros j q. rewrite Ha. intros Hq. unfold st'. destruct (decide (j = next_alloc st)) as [->|Hj]; store_reads; eauto.
  - intros j q. rewrite Ha. unfold st'. store_reads. apply H4.
Qed.

Lemma AInv_step k c (s s' : St) : AInv (inst s) -> texec k c s = Ok (tt, s') -> AInv (inst s').
Proof.
  intros H R. destruct k; simpl in R.
  - unfold initialize in R. minv.
    match goal with B : shas _ _ = false |- _ => apply shas_false in B; destruct (a_init _ H B) as (Hc & Hi & Hp) end.
    split; unfold approved_by in *.
    + store_reads. done.
    + intros j x. store_reads. by rewrite Hi.
    + intros j p. store_reads. intros Hq. by destruct (Hp j p).
    + intros j p. store_reads. intros Hq. by destruct (Hp j p).
  - unfold create_fund, get_owner in R. minv. by repeat (apply AInv_other; [done|]).
  - apply deposit_Ok in R as (x & _ & _ & ->). by apply AInv_other.
  - apply bind_Ok in R as (z & s1 & R & R2). injection R2 as <-.
    unfold request_allocation, get_config, get_next_allocation_id in R. minv.
    match goal with B : sget _ TreasuryKey.Config = Some ?cfg |- _ => by apply (AInv_request _ _ cfg) end.
  - unfold approve_allocation, get_config, get_allocation_or_panic in R. minv.
    match goal with B : negb (existsb _ _) = false |- _ =>
      apply negb_false_iff, existsb_exists in B as (x & Hx & Ex);
      apply bool_decide_eq_true in Ex; subst x; apply list_elem_of_In in Hx end.
    eapply AInv_approve; [done|eassumption| |eassumption|done].
    unfold approved_by. intros E. by rewrite E in *.
  - unfold execute_allocation, get_allocation_or_panic, get_fund_or_panic in R. minv.
    match goal with |- AInv (sset (sset ?st (TreasuryKey.Fund ?n) ?v) _ _) =>
      apply AInv_executed; [by store_reads|]; by apply (AInv_other st (TreasuryKey.Fund n)) end.
  - unfold set_fee_distribution, get_owner, get_config in R. minv.
    destruct H as [I1 I2 I3 I4].
    match goal with B : sget _ TreasuryKey.Config = Some ?x |- _ => rename x into cfg, B into Hc end.
    split; unfold approved_by, next_alloc, signed, approved_by in *.
    + store_reads. intros Ho. by destruct (I1 Ho) as [Hn _]; rewrite Hn in Hc.
    + intros j x. store_reads. intros Hx. destruct (I2 j x Hx) as (Hm & qs & Hd' & Hq & Hc'). split; [done|].
      exists qs. split; [done|]. split; [|done]. intros q. rewrite Hq. by store_reads.
    + intros j p. store_reads. apply I3.
    + intros j p. store_reads. intros Hp. destruct (I4 j p Hp) as (cfg' & Hc' & Hm).
      rewrite Hc in Hc'. injection Hc' as <-. by eexists.
  - unfold distribute_fees, get_config in R. apply bind_Ok in R as (cfg & s1 & Rc & R). minv.
    match goal with F : fold_m _ _ _ _ _ = Ok _ |- _ => apply AInv_distribute in F; [|done] end.
    by apply AInv_other.
Qed.

Lemma treach_AInv s : treach s -> AInv (inst s).
Proof.
  intros (f & n & m & Ht). induction Ht as [|k c n m s s' _ IH R]; [|by eapply AInv_step].
  split; done.
Qed.

(** In every reachable state an allocation counts the approvals of distinct signers of the treasury,
    each once, and is approved exactly when there is one at least and as many as it requires. *)
Theorem approvals_are_of_distinct_signers (s : St) i a :
  treach s -> sget (inst s) (TreasuryKey.Allocation i) = Some a ->
  exists ps, NoDup ps /\ al_approval_count a = Z.of_nat (length ps) /\
    (al_approved a = true <-> ps <> [] /\ al_required_approvals a <= Z.of_nat (length ps)) /\
    (forall p, p ∈ ps -> exists cfg, sget (inst s) TreasuryKey.Config = Some cfg /\ p ∈ tc_signers cfg).
Proof.
  intros H%treach_AInv Ha. destruct (a_signed _ H i a Ha) as (_ & ps & Hd & Hp & Hc & Hap).
  exists ps. split; [done|]. split; [done|]. split; [by rewrite <- Hc|].
  intros p Hx%Hp. by apply (a_signers _ H i).
Qed.

(** When an allocation is paid: it is approved, and its fund has the budget and the balance. *)
Definition payable (a : Allocation) (u : Fund) : Prop :=
  al_approved a = true /\ al_amount a + fu_budget_used u <= fu_budget_limit u /\
  al_amount a <= fu_balance u /\ 0 <= al_amount a /\ 0 <= fu_budget_used u /\ fu_budget_limit u <= u128_max.

Lemma execute_run i c (s : St) a u :
  sget (inst s) (TreasuryKey.Allocation i) = Some a ->
  sget (inst s) (TreasuryKey.Fund (al_fund_name a)) = Some u -> payable a u ->
  execute_allocation i c s =
  Ok (tt, mkSt (sset (sset (inst s) (TreasuryKey.Fund (al_fund_name a))
                        (pay u (fu_balance u - al_amount a) (fu_budget_used u + al_amount a)))
                  (TreasuryKey.Allocation i) (set_al_execution_ledger (cx_sequence c) a))
            (pers s) (temp s) (published s) (host_calls s)).
Proof.
  intros Ha Hu (Hap & Hb & Hl & H0 & H1 & H2).
  unfold execute_allocation, get_allocation_or_panic, get_fund_or_panic, bind, iget, unwrap_or_raise,
    reject_if, lift, u128_chk, within, u_sub, ledger_sequence, ret. rewrite Ha, Hap. simpl. rewrite Hu.
  destruct (Z.leb_spec 0 (al_amount a + fu_budget_used u)); [|lia].
  destruct (Z.leb_spec (al_amount a + fu_budget_used u) u128_max); [|lia]. simpl.
  destruct (Z.ltb_spec (fu_budget_limit u) (al_amount a + fu_budget_used u)); [lia|].
  destruct (Z.ltb_spec (fu_balance u) (al_amount a)); [lia|].
  destruct (Z.leb_spec (al_amount a) (fu_balance u)); [|lia].
  destruct (Z.leb_spec 0 (fu_budget_used u + al_amount a)); [|lia].
  destruct (Z.leb_spec (fu_budget_used u + al_amount a) u128_max); [|lia]. done.
Qed.

(** An approved allocation can be executed again and again, as long as its fund has the budget and
    the balance for it: an execution is recorded and never asked for. *)
Theorem allocations_are_paid_twice i c1 c2 (s : St) a u :
  sget (inst s) (TreasuryKey.Allocation i) = Some a ->
  sget (inst s) (TreasuryKey.Fund (al_fund_name a)) = Some u -> payable a u ->
  2 * al_amount a + fu_budget_used u <= fu_budget_limit u -> 2 * al_amount a <= fu_balance u ->
  exists s1 s2, execute_allocation i c1 s = Ok (tt, s1) /\ execute_allocation i c2 s1 = Ok (tt, s2) /\
    fu_balance <$> sget (inst s2) (TreasuryKey.Fund (al_fund_name a)) = Some (fu_balance u - 2 * al_amount a).
Proof.
  intros Ha Hu Hp Hb Hl. pose proof Hp as (Hap & _ & _ & H0 & H1 & H2).
  rewrite (execute_run i c1 s a u) by done. eexists _, _. split; [reflexivity|].
  match goal with |- execute_allocation _ _ ?s1 = _ /\ _ =>
    rewrite (execute_run i c2 s1 (set_al_execution_ledger (cx_sequence c1) a)
      (pay u (fu_balance u - al_amount a) (fu_budget_used u + al_amount a))) end.
  - split; [reflexivity|]. simpl. store_reads. simpl. f_equal. lia.
  - simpl. by store_reads.
  - simpl. by store_reads.
  - unfold payable. simpl. split; [done|]. lia.
Qed.

(** *** Fees *)

Lemma shares_bound total l :
  0 <= total -> Forall (fun d => 0 <= fd_percentage_bps d) l ->
  total * total_of fd_percentage_bps l - 10000 * Z.of_nat (length l) <=
    10000 * total_of (share total) l <= total * total_of fd_percentage_bps l.
Proof.
  intros Ht. induction l as [|d l IH]; intros HF; [simpl; lia|].
  apply Forall_cons in HF as [Hd HF]. specialize (IH HF). simpl total_of. rewrite length_cons.
  assert (10000 * share total d <= total * fd_percentage_bps d < 10000 * share total d + 10000).
  { unfold share. pose proof (Z.div_mod (total * fd_percentage_bps d) 10000 ltac:(lia)).
    pose proof (Z.mod_pos_bound (total * fd_percentage_bps d) 10000 ltac:(lia)). lia. }
  lia.
Qed.

Lemma sat_total l n :
  Forall (fun d => 0 <= fd_percentage_bps d) l -> 0 <= n ->
  fold_left (fun t d => u32_sat_add t (fd_percentage_bps d)) l n = 10000 ->
  n + total_of fd_percentage_bps l = 10000.
Proof.
  revert n. induction l as [|d l IH]; intros n HF Hn E; simpl in *; [lia|].
  apply Forall_cons in HF as [Hd HF]. unfold u32_sat_add in E at 2.
  destruct (Z.le_gt_cases (n + fd_percentage_bps d) u32_max) as [Hle|Hgt].
  - rewrite Z.min_l in E by lia. apply IH in E; [lia|done|lia].
  - rewrite Z.min_r in E by lia. apply IH in E; [|done|unfold u32_max; lia].
    assert (0 <= total_of fd_percentage_bps l) by (clear -HF; induction HF; simpl; lia).
    unfold u32_max in E. lia.
Qed.

(** Rules that are accepted share out fees exactly, but for what rounding leaves: less than one
    stroop for each rule. *)
Theorem accepted_rules_share_everything l c (s s' : St) total :
  set_fee_distribution l c s = Ok (tt, s') -> Forall (fun d => 0 <= fd_percentage_bps d) l -> 0 <= total ->
  rules (inst s') = l /\
  total - Z.of_nat (length l) <= total_of (share total) l <= total.
Proof.
  intros R HF Ht. unfold set_fee_distribution, get_owner, get_config in R. minv.
  match goal with B : negb (Z.eqb _ _) = false |- _ => apply negb_false_iff, Z.eqb_eq, sat_total in B;
    [|done|lia]; rename B into E end.
  split; [unfold rules; by store_reads|].
  pose proof (shares_bound total l Ht HF). simpl in E. nia.
Qed.

Lemma distribute_no_fund total l c (s s' : St) d u v :
  d ∈ l -> fd_is_fund d = true -> sget (inst s) (TreasuryKey.Fund zero_name) = None ->
  fold_m (distribute_one total) u l c s <> Ok (v, s').
Proof.
  revert u s. induction l as [|e l IH]; intros u s Hd Hf Hz R; simpl in R; [by apply elem_of_nil in Hd|].
  apply bind_Ok in R as (w & s1 & Rd & R). unfold distribute_one in Rd.
  apply bind_Ok in Rd as (z & s2 & Rz & Rd). apply lift_Ok in Rz as [_ ->].
  destruct (fd_is_fund e) eqn:Ee.
  - apply deposit_Ok in Rd as (x & Hx & _ & _). by rewrite Hz in Hx.
  - apply elem_of_cons in Hd as [->|Hd]; [by rewrite Hf in Ee|].
    eapply IH; [done|done| |exact R]. minv. by store_reads.
Qed.

(** Fees cannot be shared with a fund: as soon as a rule names one, sharing out fees fails, unless
    there is a fund whose name is 32 zeros, which is the fund all shares go to. *)
Theorem fees_for_a_fund_fail total c (s s' : St) d :
  sget (inst s) (TreasuryKey.Fund zero_name) = None -> d ∈ rules (inst s) ->
  fd_is_fund d = true -> distribute_fees total c s <> Ok (tt, s').
Proof.
  intros Hz Hd Hf R. unfold distribute_fees, get_config in R.
  apply bind_Ok in R as (cfg & s1 & Rc & R). minv.
  unfold rules in Hd. match goal with B : sget _ TreasuryKey.Config = Some _ |- _ => rewrite B in Hd end.
  by eapply distribute_no_fund.
Qed.

(** *** At concrete states *)

(** A treasury of two signers, a fund of 80 with a budget of 100, and an approved allocation of 30. *)
Definition t_run (n : Z) (k : tcall) (s : St) : St := post (texec k) (at_ledger n) s.
Definition bob : Address := "bob".
Definition t_init : St := t_run 100 (TInit owner ledger [alice; bob] 2) empty_state.
Definition t_fund : St := t_run 101 (TCreate "ops" 100 50) t_init.
Definition t_paid_in : St := t_run 102 (TDeposit "ops" 80) t_fund.
Definition t_requested : St := t_run 103 (TRequest owner "ops" 30 "rent") t_paid_in.
Definition t_approved1 : St := t_run 104 (TApprove alice 0) t_requested.
Definition t_approved2 : St := t_run 105 (TApprove bob 0) t_approved1.
Definition t_executed : St := t_run 106 (TExecute 0) t_approved2.
Definition rule (r : Address) (n : Z) (b : bool) : FeeDistribution := mkFeeDistribution r n b.
Definition two_rules : list FeeDistribution := [rule alice 6666 false; rule bob 3334 false].
Definition fund_rule : list FeeDistribution := [rule alice 10000 true].

Lemma t_run_trace f n x y k s :
  ttrace f x y s -> outcome (texec k) (at_ledger n) s = Ok tt ->
  ttrace f (x + inflow f k (inst s)) (y + outflow f k (inst s)) (t_run n k s).
Proof. intros Ht H. eapply ttrace_call; [exact Ht|]. by apply run_outcome. Qed.

Lemma t_trace : exists n m, n = 80 /\ m = 30 /\ ttrace "ops" n m t_executed.
Proof.
  eexists _, _. split; [|split; [|do 7 (eapply t_run_trace; [|vm_compute; reflexivity]); constructor]];
  vm_compute; reflexivity.
Qed.

Lemma funds_are_conserved_witness :
  exists u, sget (inst t_executed) (TreasuryKey.Fund "ops") = Some u /\
    fu_balance u = 50 /\ fu_budget_used u = 30.
Proof.
  destruct t_trace as (n & m & -> & -> & T).
  destruct (sget (inst t_executed) (TreasuryKey.Fund "ops")) as [u|] eqn:E;
    [|vm_compute in E; discriminate E].
  destruct (funds_are_conserved "ops" 80 30 t_executed u T E) as (H1 & H2 & _).
  exists u. split; [reflexivity|]. split; [exact H1|exact H2].
Defined.

Lemma budgets_are_never_reset_witness :
  exists u, sget (inst t_executed) (TreasuryKey.Fund "ops") = Some u /\ fu_budget_used u = 30.
Proof.
  assert (outcome (texec (TExecute 0)) (at_ledger 106) t_approved2 = Ok tt) as R%run_outcome
    by (vm_compute; reflexivity).
  destruct (sget (inst t_approved2) (TreasuryKey.Fund "ops")) as [u|] eqn:E;
    [|vm_compute in E; discriminate E].
  destruct (budgets_are_never_reset "ops" (TExecute 0) (at_ledger 106) t_approved2 _ u R E)
    as (u' & E' & H & _).
  exists u'. split; [exact E'|]. rewrite H. vm_compute in E. injection E as <-. vm_compute. reflexivity.
Defined.

Lemma approvals_are_of_distinct_signers_witness :
  exists ps : list Address, NoDup ps /\ length ps = 2%nat /\ treach t_executed.
Proof.
  assert (treach t_executed) as T by (destruct t_trace as (n & m & _ & _ & T); by exists "ops", n, m).
  destruct (sget (inst t_executed) (TreasuryKey.Allocation 0)) as [a|] eqn:E;
    [|vm_compute in E; discriminate E].
  destruct (approvals_are_of_distinct_signers t_executed 0 a T E) as (ps & Hd & Hn & _).
  exists ps. split; [exact Hd|]. split; [|exact T].
  vm_compute in E. injection E as <-. simpl in Hn. lia.
Defined.

Lemma allocations_are_paid_twice_witness :
  exists s1 s2, execute_allocation 0 (at_ledger 106) t_approved2 = Ok (tt, s1) /\
    execute_allocation 0 (at_ledger 107) s1 = Ok (tt, s2) /\
    fu_balance <$> sget (inst s2) (TreasuryKey.Fund "ops") = Some 20.
Proof.
  destruct (sget (inst t_approved2) (TreasuryKey.Allocation 0)) as [a|] eqn:E;
    [|vm_compute in E; discriminate E].
  assert (al_fund_name a = "ops") as En by (vm_compute in E; injection E as <-; reflexivity).
  destruct (sget (inst t_approved2) (TreasuryKey.Fund (al_fund_name a))) as [u|] eqn:Eu;
    [|rewrite En in Eu; vm_compute in Eu; discriminate Eu].
  pose proof Eu as Eu2. rewrite En in Eu2.
  vm_compute in E, Eu2. injection E as Ea. injection Eu2 as Eu2.
  destruct (allocations_are_paid_twice 0 (at_ledger 106) (at_ledger 107) t_approved2 a u)
    as (s1 & s2 & R1 & R2 & Hs).
  - rewrite <- Ea. vm_compute. reflexivity.
  - exact Eu.
  - rewrite <- Ea, <- Eu2. unfold payable. simpl. unfold u128_max. split; [reflexivity|lia].
  - rewrite <- Ea, <- Eu2. simpl. lia.
  - rewrite <- Ea, <- Eu2. simpl. lia.
  - exists s1, s2. split; [exact R1|]. split; [exact R2|]. rewrite En in Hs. rewrite Hs, <- Ea, <- Eu2.
    reflexivity.
Defined.

Lemma accepted_rules_share_everything_witness :
  98 <= total_of (share 100) two_rules <= 100.
Proof.
  assert (outcome (set_fee_distribution two_rules) (at_ledger 110) t_init = Ok tt) as R%run_outcome
    by (vm_compute; reflexivity).
  apply (accepted_rules_share_everything two_rules _ _ _ 100 R).
  - repeat constructor; simpl; lia.
  - lia.
Defined.

Lemma fees_for_a_fund_fail_witness :
  let s := post (set_fee_distribution fund_rule) (at_ledger 110) t_paid_in in
  ~ exists s', distribute_fees 100 (at_ledger 111) s = Ok (tt, s').
Proof.
  intros s [s' R].
  refine (fees_for_a_fund_fail 100 (at_ledger 111) s s' (rule alice 10000 true) _ _ _ R).
  - vm_compute. reflexivity.
  - vm_compute. apply elem_of_cons. left. reflexivity.
  - reflexivity.
Defined.

End Funds.

(** ** Disputes *)

Module Disputes.
Import DAODisputeResolution.

Inductive dcall : Type :=
  | DInit (owner : Address) (jurors evidence_period voting_period reward slashing stake : Z)
  | DFile (a b : Address) (description uri : string) (stake : Z)
  | DEvidence (a : Address) (i : Z) (uri : string) (is_plaintiff : bool)
  | DAssign (i : Z) (jurors : list Address)
  | DVote (a : Address) (i : Z) (o : DisputeOutcome)
  | DFinalize (i : Z)
  | DAppeal (a : Address) (i : Z) (reason : string).

Definition dexec (k : dcall) : M unit :=
  match k with
  | DInit o j e v r sl st => initialize o j e v r sl st
  | DFile a b x u n => do* file_dispute a b x u n in ret tt
  | DEvidence a i u b => submit_evidence a i u b
  | DAssign i l => assign_jurors i l
  | DVote a i o => cast_juror_vote a i o
  | DFinalize i => finalize_dispute i
  | DAppeal a i r => do* file_appeal a i r in ret tt
  end.

Definition period_ok (k : dcall) : Prop :=
  match k with DInit _ _ _ v _ _ _ => 0 <= v | _ => True end.

(** The states the calls lead to from empty storage, on ledgers after the first. *)
Inductive dreach : St -> Prop :=
  | dreach_nil : dreach empty_state
  | dreach_call k c s s' :
      dreach s -> 0 < cx_sequence c -> period_ok k -> dexec k c s = Ok (tt, s') -> dreach s'.

Definition running (t : DisputeStatus) : Prop :=
  t = DisputeStatus.Filed \/ t = DisputeStatus.EvidenceSubmitted \/ t = DisputeStatus.Voting \/
  t = DisputeStatus.Decided.

Record fair (d : Dispute) : Prop := {
  f_counts : 0 <= di_votes_for d /\ 0 <= di_votes_against d /\ 0 <= di_votes_abstain d;
  f_sum : di_votes_for d + di_votes_against d + di_votes_abstain d = di_votes_cast d;
  f_status : running (di_status d);
  f_outcome : di_status d = DisputeStatus.Decided -> di_outcome d = Some (decide_votes d);
  f_heard : 0 <= di_voting_deadline d /\ (di_voting_deadline d = 0 -> di_votes_cast d = 0) }.

Definition dperiod (st : store) : Z :=
  match sget st DisputeKey.Config with Some c => dc_voting_period c | None => 0 end.

Record DInv (st : store) : Prop := {
  d_period : 0 <= dperiod st;
  d_fair : forall i d, sget st (DisputeKey.Dispute i) = Some d -> fair d }.

Definition dispute_key (k : DisputeKey) : bool :=
  match k with DisputeKey.Config | DisputeKey.Dispute _ => true | _ => false end.

Lemma DInv_other st k v : dispute_key k = false -> DInv st -> DInv (sset st k v).
Proof.
  intros Hk [H1 H2]. split.
  - unfold dperiod. rewrite sset_ne; [done|]. by intros ->.
  - intros i d. rewrite sset_ne; [apply H2|]. by intros ->.
Qed.

Lemma DInv_dispute st i d : fair d -> DInv st -> DInv (sset st (DisputeKey.Dispute i) d).
Proof.
  intros Hf [H1 H2]. split; [unfold dperiod; by store_reads|].
  intros j e. destruct (decide (j = i)) as [->|Hj]; store_reads; [by intros [= <-]|apply H2].
Qed.

(** Assigning jurors writes only their assignments. *)
Lemma assign_loop i l c (s s' : St) u v :
  fold_m (assign_one i) u l c s = Ok (v, s') ->
  (forall k : DisputeKey, (forall j, j ∈ l -> k <> DisputeKey.JurorAssignment i j) ->
     sget (inst s') k = sget (inst s) k) /\
  (forall j, j ∈ l -> sget (inst s') (DisputeKey.JurorAssignment i j) =
     Some (mkJurorAssignment i j false None 0 0)).
Proof.
  revert u s. induction l as [|a l IH]; intros u s R; simpl in R.
  - minv. split; [done|]. by intros j ?%elem_of_nil.
  - apply bind_Ok in R as (w & s1 & Ra & R). unfold assign_one in Ra. minv.
    apply IH in R as [H1 H2]. simpl in *. split.
    + intros k Hk. rewrite H1; [|intros j Hj; apply Hk; by right].
      rewrite sset_ne; [done|]. intros Hx. apply (Hk a); [by left|done].
    + intros j Hj. destruct (decide (j ∈ l)) as [Hl|Hl]; [by apply H2|].
      apply elem_of_cons in Hj as [->|Hj]; [|done].
      rewrite H1; [by store_reads|]. by intros j Hj [= ->].
Qed.

Lemma reward_loop i l c (s s' : St) u v : fold_m (reward_one i) u l c s = Ok (v, s') -> s' = s.
Proof.
  revert u s. induction l as [|a l IH]; intros u s R; simpl in R; [by minv|].
  apply bind_Ok in R as (w & s1 & Ra & R). unfold reward_one in Ra. minv. by eapply IH.
Qed.

(** A juror's vote adds one to a tally and one to the votes cast. *)
Definition voted (d d' : Dispute) (o : DisputeOutcome) : Prop :=
  di_votes_for d' = di_votes_for d + Z.b2z (bool_decide (o = DisputeOutcome.PlaintiffWins)) /\
  di_votes_against d' = di_votes_against d + Z.b2z (bool_decide (o = DisputeOutcome.DefendantWins)) /\
  di_votes_abstain d' = di_votes_abstain d + Z.b2z (bool_decide
    (o <> DisputeOutcome.PlaintiffWins /\ o <> DisputeOutcome.DefendantWins)) /\
  di_votes_cast d' = di_votes_cast d + 1 /\ di_status d' = di_status d /\
  di_voting_deadline d' = di_voting_deadline d /\ di_jurors d' = di_jurors d.

Lemma cast_Ok a i o c (s s' : St) u :
  cast_juror_vote a i o c s = Ok (u, s') ->
  exists d d' ja, sget (inst s) (DisputeKey.Dispute i) = Some d /\ di_status d = DisputeStatus.Voting /\
    cx_sequence c <= di_voting_deadline d /\
    sget (inst s) (DisputeKey.JurorAssignment i a) = Some ja /\ ja_has_voted ja = false /\
    voted d d' o /\
    inst s' = sset (sset (sset (inst s) (DisputeKey.JurorAssignment i a)
                (mkJurorAssignment (ja_dispute_id ja) (ja_juror ja) true (Some o) (ja_stake ja) (ja_reward ja)))
                (DisputeKey.JurorVote i a) o) (DisputeKey.Dispute i) d'.
Proof.
  unfold cast_juror_vote, get_dispute_or_panic, voted. intros R. minv. zcase.
  match goal with B : ~ di_status _ <> _ |- _ => apply dec_stable in B end.
  destruct o; minv; simpl; eexists _, _, _;
    (split; [eassumption|]; split; [done|]; split; [lia|]; split; [eassumption|]; split; [done|];
     split; [|reflexivity]; simpl; repeat split; try done; lia).
Qed.

Lemma fair_voted d d' o :
  fair d -> di_status d = DisputeStatus.Voting -> 0 < di_voting_deadline d -> voted d d' o -> fair d'.
Proof.
  intros [H1 H2 H3 H4 H5] Hs Hd (E1 & E2 & E3 & E4 & E5 & E6 & _). split.
  - destruct o; simpl in *; lia.
  - destruct o; simpl in *; lia.
  - by rewrite E5.
  - rewrite E5, Hs. done.
  - rewrite E6. lia.
Qed.

Lemma assign_Ok i l c (s s' : St) u :
  assign_jurors i l c s = Ok (u, s') ->
  exists d, sget (inst s) (DisputeKey.Dispute i) = Some d /\
    sget (inst s') (DisputeKey.Dispute i) = Some (with_jurors d l) /\
    (forall j, j ∈ l -> sget (inst s') (DisputeKey.JurorAssignment i j) =
       Some (mkJurorAssignment i j false None 0 0)) /\
    (forall k : DisputeKey, k <> DisputeKey.Dispute i -> (forall j, k <> DisputeKey.JurorAssignment i j) ->
       sget (inst s') k = sget (inst s) k).
Proof.
  unfold assign_jurors, get_owner, get_config, get_dispute_or_panic. intros R.
  apply bind_Ok in R as (o & s1 & Ro & R). minv.
  match goal with F : fold_m _ _ _ _ _ = Ok _ |- _ => apply assign_loop in F as [I1 I2] end.
  eexists. split; [eassumption|]. split; [by store_reads|]. split.
  - intros j Hj. store_reads. by apply I2.
  - intros k Hk Hn. rewrite sset_ne by done. apply I1. intros j _. apply Hn.
Qed.

(** What a party has been slashed in all. *)
Definition slashed (st : store) (a : Address) : Z :=
  match sget st (DisputeKey.TotalSlashed a) with Some n => n | None => 0 end.

Lemma slashed_same st a n : slashed (sset st (DisputeKey.TotalSlashed a) n) a = n.
Proof. unfold slashed. by store_reads. Qed.

Lemma slashed_dispute st i d a : slashed (sset st (DisputeKey.Dispute i) d) a = slashed st a.
Proof. unfold slashed. by rewrite sset_ne. Qed.

Lemma finalize_Ok i c (s s' : St) u :
  finalize_dispute i c s = Ok (u, s') ->
  exists d cfg, sget (inst s) (DisputeKey.Dispute i) = Some d /\
    sget (inst s) DisputeKey.Config = Some cfg /\
    di_status d = DisputeStatus.Voting /\ di_voting_deadline d < cx_sequence c /\
    inst s' = sset (if bool_decide (decide_votes d = DisputeOutcome.PlaintiffWins)
                    then sset (inst s) (DisputeKey.TotalSlashed (di_defendant d))
                      (slashed (inst s) (di_defendant d) + di_stake_amount d * dc_slashing_bps cfg / 10000)
                    else inst s) (DisputeKey.Dispute i) (with_outcome d (decide_votes d)).
Proof.
  unfold finalize_dispute, get_owner, get_config, get_dispute_or_panic. intros R.
  apply bind_Ok in R as (o & s1 & Ro & R). minv. zcase.
  match goal with B : ~ di_status _ <> _ |- _ => apply dec_stable in B end.
  match goal with F : fold_m _ _ _ _ _ = Ok _ |- _ => apply reward_loop in F as -> end.
  eexists _, _. split; [eassumption|]. split; [eassumption|]. split; [done|]. split; [lia|].
  destruct (bool_decide _); minv; done.
Qed.

Lemma DInv_step k c (s s' : St) :
  DInv (inst s) -> 0 < cx_sequence c -> period_ok k -> dexec k c s = Ok (tt, s') -> DInv (inst s').
Proof.
  intros H Hc Hk R. destruct k; simpl in R.
  - unfold initialize in R. minv. do 2 (apply DInv_other; [done|]).
    destruct H as [I1 I2]. split; [unfold dperiod; by store_reads|].
    intros j d. store_reads. apply I2.
  - apply bind_Ok in R as (z & s1 & R & R2). injection R2 as <-.
    unfold file_dispute, get_config, get_next_dispute_id in R. minv.
    apply DInv_dispute; [|by apply DInv_other]. split; simpl; try lia; [by left|done].
  - unfold submit_evidence, get_config, get_dispute_or_panic in R. minv.
    destruct H as [I1 I2]. apply DInv_dispute; [|by split].
    match goal with B : sget _ DisputeKey.Config = Some _ |- _ => unfold dperiod in I1; rewrite B in I1 end.
    match goal with B : sget _ (DisputeKey.Dispute _) = Some ?d |- _ => destruct (I2 _ _ B) as [F1 F2 F3 F4 F5] end.
    split; simpl; try done; [by right; left|lia].
  - unfold dexec in R. apply assign_Ok in R as (d & Hd & Hd' & Hj & Hn). destruct H as [I1 I2].
    split; [unfold dperiod; by rewrite Hn|].
    intros j e. destruct (decide (j = i)) as [->|Hne].
    + rewrite Hd'. intros [= <-]. destruct (I2 _ _ Hd) as [F1 F2 F3 F4 F5].
      split; simpl; try done. by right; right; left.
    + rewrite Hn by congruence. apply I2.
  - apply cast_Ok in R as (d & d' & ja & Hd & Hs & Hl & _ & _ & Hv & ->).
    apply DInv_dispute; [|by do 2 (apply DInv_other; [done|])].
    eapply fair_voted; [by eapply d_fair|done|lia|exact Hv].
  - apply finalize_Ok in R as (d & cfg & Hd & _ & _ & _ & ->).
    apply DInv_dispute; [|case_match; [by apply DInv_other|done]].
    destruct (d_fair _ H _ _ Hd) as [F1 F2 F3 F4 F5]. split; simpl; try done. by right; right; right.
  - apply bind_Ok in R as (z & s1 & R & R2). injection R2 as <-.
    unfold file_appeal, get_dispute_or_panic, get_next_appeal_id in R. minv.
    by repeat (apply DInv_other; [done|]).
Qed.

Lemma dreach_DInv s : dreach s -> DInv (inst s).
Proof. induction 1 as [|k c s s' _ IH Hc Hk R]; [by split|by eapply DInv_step]. Qed.

(** In every reachable state a dispute counts each vote in one tally, is filed, heard, voted on or
    decided, and once decided its outcome is that of its tallies. *)
Theorem verdicts_follow_the_votes (s : St) i d :
  dreach s -> sget (inst s) (DisputeKey.Dispute i) = Some d ->
  di_votes_for d + di_votes_against d + di_votes_abstain d = di_votes_cast d /\ running (di_status d) /\
  (di_status d = DisputeStatus.Decided -> di_outcome d = Some (decide_votes d)).
Proof. intros H%dreach_DInv Hd. destruct (d_fair _ H i d Hd). done. Qed.

(** A trial that opens without evidence has no deadline: nobody can vote, and the dispute can only be
    dismissed. *)
Theorem unheard_disputes_are_dismissed (s : St) i d c :
  dreach s -> 0 < cx_sequence c -> sget (inst s) (DisputeKey.Dispute i) = Some d ->
  di_voting_deadline d = 0 ->
  (forall a o s', cast_juror_vote a i o c s <> Ok (tt, s')) /\
  (forall s', finalize_dispute i c s = Ok (tt, s') ->
     sget (inst s') (DisputeKey.Dispute i) = Some (with_outcome d DisputeOutcome.Dismissed)).
Proof.
  intros H%dreach_DInv Hc Hd H0. destruct (d_fair _ H i d Hd) as [F1 F2 F3 F4 [F5 F6]]. split.
  - intros a o s' (e & _ & _ & He & _ & Hl & _)%cast_Ok. rewrite Hd in He. injection He as <-. lia.
  - intros s' (e & cfg & He & _ & _ & _ & ->)%finalize_Ok. rewrite Hd in He. injection He as <-.
    store_reads. f_equal. f_equal. unfold decide_votes.
    specialize (F6 H0). destruct (Z.ltb_spec (di_votes_against d) (di_votes_for d)); [lia|].
    destruct (Z.ltb_spec (di_votes_for d) (di_votes_against d)); [lia|done].
Qed.

(** What finalizing does: only after the deadline of a vote; the outcome is that of the tallies, and
    only a winning plaintiff has the defendant slashed, by no more than the stake. *)
Theorem finalizing_decides i c (s s' : St) d cfg :
  finalize_dispute i c s = Ok (tt, s') ->
  sget (inst s) (DisputeKey.Dispute i) = Some d -> sget (inst s) DisputeKey.Config = Some cfg ->
  0 <= di_stake_amount d -> 0 <= dc_slashing_bps cfg <= 10000 ->
  di_status d = DisputeStatus.Voting /\ di_voting_deadline d < cx_sequence c /\
  sget (inst s') (DisputeKey.Dispute i) = Some (with_outcome d (decide_votes d)) /\
  0 <= slashed (inst s') (di_defendant d) - slashed (inst s) (di_defendant d) <= di_stake_amount d /\
  (di_votes_for d <= di_votes_against d ->
   slashed (inst s') (di_defendant d) = slashed (inst s) (di_defendant d)).
Proof.
  intros (e & cfg' & He & Hcfg & Hs & Hl & ->)%finalize_Ok Hd Hc Hst Hb.
  rewrite Hd in He. injection He as <-. rewrite Hc in Hcfg. injection Hcfg as <-.
  split; [done|]. split; [done|]. split; [by store_reads|].
  assert (0 <= di_stake_amount d * dc_slashing_bps cfg / 10000 <= di_stake_amount d) as Hx.
  { split; [apply Z.div_pos; nia|]. apply Z.div_le_upper_bound; nia. }
  rewrite slashed_dispute. destruct (bool_decide _) eqn:Eb; [rewrite slashed_same|lia].
  split; [lia|]. intros Hle. apply bool_decide_eq_true in Eb. unfold decide_votes in Eb.
  destruct (Z.ltb_spec (di_votes_against d) (di_votes_for d)); [lia|].
  by destruct (Z.ltb (di_votes_for d) (di_votes_against d)).
Qed.

(** A juror who has voted votes again once the owner assigns the jurors a second time: the tallies
    keep the first vote. *)
Theorem reassigned_jurors_vote_twice j i l c1 c2 c3 (s s1 s2 s3 : St) d d' :
  cast_juror_vote j i DisputeOutcome.PlaintiffWins c1 s = Ok (tt, s1) ->
  assign_jurors i l c2 s1 = Ok (tt, s2) ->
  cast_juror_vote j i DisputeOutcome.PlaintiffWins c3 s2 = Ok (tt, s3) ->
  sget (inst s) (DisputeKey.Dispute i) = Some d -> sget (inst s3) (DisputeKey.Dispute i) = Some d' ->
  di_votes_for d' = di_votes_for d + 2.
Proof.
  intros (e1 & e1' & ja1 & He1 & _ & _ & _ & _ & (V1 & _) & Es1)%cast_Ok
    (e2 & He2 & He2' & _)%assign_Ok
    (e3 & e3' & ja3 & He3 & _ & _ & _ & _ & (V3 & _) & Es3)%cast_Ok Hd Hd'.
  rewrite Hd in He1. injection He1 as <-.
  rewrite Es1 in He2. rewrite sset_eq in He2. injection He2 as <-.
  rewrite He2' in He3. injection He3 as <-. simpl in V3.
  rewrite Es3 in Hd'. rewrite sset_eq in Hd'. injection Hd' as <-. simpl in V1. lia.
Qed.

(** A decided dispute opens again when jurors are assigned to it, whatever its status: the jurors may
    vote, and the old tallies and outcome stay. *)
Theorem decided_disputes_reopen i l c (s s' : St) d :
  assign_jurors i l c s = Ok (tt, s') -> sget (inst s) (DisputeKey.Dispute i) = Some d ->
  sget (inst s') (DisputeKey.Dispute i) = Some (with_jurors d l) /\
  (forall j, j ∈ l -> ja_has_voted <$> sget (inst s') (DisputeKey.JurorAssignment i j) = Some false).
Proof.
  intros (e & He & He' & Hj & _)%assign_Ok Hd. rewrite Hd in He. injection He as <-.
  split; [done|]. intros j Hl. by rewrite Hj.
Qed.

Lemma evidence_Ok a i uri b c (s s' : St) u :
  submit_evidence a i uri b c s = Ok (u, s') ->
  exists d n, sget (inst s) (DisputeKey.Dispute i) = Some d /\ di_status d = DisputeStatus.Filed /\
    inst s' = sset (inst s) (DisputeKey.Dispute i) (with_evidence d uri n).
Proof.
  unfold submit_evidence, get_dispute_or_panic, get_config. intros R. minv. zcase.
  match goal with B : ~ di_status _ <> _ |- _ => apply dec_stable in B end.
  eexists _, _. split; [eassumption|]. by split.
Qed.

(** Evidence is submitted once: after one party's, the other party's is refused. *)
Theorem one_party_is_heard a b i u v x y c1 c2 (s s1 s2 : St) :
  submit_evidence a i u x c1 s = Ok (tt, s1) -> submit_evidence b i v y c2 s1 <> Ok (tt, s2).
Proof.
  intros (d & n & _ & _ & E1)%evidence_Ok (e & m & He & Hs & _)%evidence_Ok.
  rewrite E1, sset_eq in He. by injection He as <-.
Qed.

Definition next_appeal (st : store) : Z :=
  match sget st DisputeKey.AppealCounter with Some n => n | None => 1 end.

Definition appealed (st : store) (a : Address) (i : Z) (r : string) : store :=
  sset (sset st DisputeKey.AppealCounter (next_appeal st + 1)) (DisputeKey.Appeal (next_appeal st))
    (mkAppeal (next_appeal st) i a r 2 DisputeStatus.Appealed).

(** Who may appeal against a dispute, and when. *)
Definition may_appeal (st : store) (a : Address) (i : Z) : Prop :=
  exists d, sget st (DisputeKey.Dispute i) = Some d /\ di_status d = DisputeStatus.Decided /\
    (a = di_plaintiff d \/ a = di_defendant d).

Lemma appeal_Ok a i r c (s s' : St) n :
  file_appeal a i r c s = Ok (n, s') ->
  may_appeal (inst s) a i /\ n = next_appeal (inst s) /\ inst s' = appealed (inst s) a i r.
Proof.
  unfold file_appeal, get_dispute_or_panic, get_next_appeal_id. intros R. minv. zcase.
  match goal with B : ~ di_status _ <> _ |- _ => apply dec_stable in B end.
  split; [|done]. eexists. split; [eassumption|]. split; [done|].
  match goal with B : _ \/ _ |- _ => destruct B as [B|B]; apply bool_decide_eq_false, dec_stable in B end; auto.
Qed.

Lemma next_appeal_run c (s : St) :
  next_appeal (inst s) + 1 <= u32_max ->
  get_next_appeal_id c s = Ok (next_appeal (inst s),
    mkSt (sset (inst s) DisputeKey.AppealCounter (next_appeal (inst s) + 1)) (pers s) (temp s)
      (published s) (host_calls s)).
Proof.
  intros H. unfold get_next_appeal_id.
  rewrite (bind_run _ _ _ _ (next_appeal (inst s)) s eq_refl).
  by rewrite (bind_run _ _ _ _ _ _ (u32_add_run _ _ _ _ H)).
Qed.

Lemma appeal_run a i r c (s : St) :
  may_appeal (inst s) a i -> next_appeal (inst s) + 1 <= u32_max ->
  exists s', file_appeal a i r c s = Ok (next_appeal (inst s), s').
Proof.
  intros (d & Hd & Hs & Hp) Hn. eexists.
  unfold file_appeal, get_dispute_or_panic.
  erewrite bind_run. 2: { unfold bind, iget, unwrap_or_raise. rewrite Hd. reflexivity. }
  erewrite bind_run. 2: { rewrite bool_decide_eq_false_2 by (intros X; by apply X). reflexivity. }
  erewrite bind_run.
  2: { assert (bool_decide (a <> di_plaintiff d) && bool_decide (a <> di_defendant d) = false) as ->; [|reflexivity].
       apply andb_false_iff. destruct Hp as [Hp|Hp]; [left|right]; apply bool_decide_eq_false_2; auto. }
  erewrite bind_run; [|by apply next_appeal_run].
  reflexivity.
Qed.

(** An appeal of a party against a decision is recorded, and changes no dispute: the decision stands,
    and can be appealed against again. *)
Theorem appeals_change_nothing a i r c (s s' : St) n :
  file_appeal a i r c s = Ok (n, s') ->
  may_appeal (inst s) a i /\
  (forall j, sget (inst s') (DisputeKey.Dispute j) = sget (inst s) (DisputeKey.Dispute j)) /\
  (n + 2 <= u32_max -> exists s'', file_appeal a i r c s' = Ok (n + 1, s'')).
Proof.
  intros (Hm & -> & E)%appeal_Ok. split; [done|].
  assert (forall j, sget (inst s') (DisputeKey.Dispute j) = sget (inst s) (DisputeKey.Dispute j)) as Hj
    by (intros j; rewrite E; unfold appealed; by store_reads).
  split; [done|]. intros Hn.
  assert (next_appeal (inst s') = next_appeal (inst s) + 1) as Hx
    by (unfold next_appeal at 1; rewrite E; unfold appealed; by store_reads).
  rewrite <- Hx. apply appeal_run; [|lia].
  destruct Hm as (d & Hd & Hs). exists d. by rewrite Hj.
Qed.

(** *** At concrete states *)

(** A dispute of alice with bob, decided for alice by one juror of two. *)
Definition d_run (n : Z) (k : dcall) (s : St) : St := post (dexec k) (at_ledger n) s.
Definition bob : Address := "bob".
Definition jury : list Address := ["carol"; "dave"].
Definition d_init : St := d_run 100 (DInit owner 2 10 10 500 2000 1) empty_state.
Definition d_filed : St := d_run 101 (DFile alice bob "late" "uri" 500) d_init.
Definition d_unheard : St := d_run 102 (DAssign 0 jury) d_filed.
Definition d_heard : St := d_run 102 (DEvidence alice 0 "uri2" true) d_filed.
Definition d_trial : St := d_run 103 (DAssign 0 jury) d_heard.
Definition d_voted : St := d_run 104 (DVote "carol" 0 DisputeOutcome.PlaintiffWins) d_trial.
Definition d_decided : St := d_run 113 (DFinalize 0) d_voted.

Lemma d_run_reach n k s :
  dreach s -> 0 < n -> period_ok k -> outcome (dexec k) (at_ledger n) s = Ok tt -> dreach (d_run n k s).
Proof.
  intros Hr Hn Hk H. apply (dreach_call k (at_ledger n) s); [exact Hr|exact Hn|exact Hk|].
  by apply run_outcome.
Qed.

Lemma d_filed_reach : dreach d_filed.
Proof.
  do 2 (apply d_run_reach; [|lia|simpl; try lia; exact I|vm_compute; reflexivity]). apply dreach_nil.
Qed.

Lemma verdicts_follow_the_votes_witness :
  exists d, sget (inst d_decided) (DisputeKey.Dispute 0) = Some d /\
    di_outcome d = Some DisputeOutcome.PlaintiffWins /\ di_votes_cast d = 1.
Proof.
  assert (dreach d_decided) as T.
  { do 4 (apply d_run_reach; [|lia|exact I|vm_compute; reflexivity]). exact d_filed_reach. }
  destruct (sget (inst d_decided) (DisputeKey.Dispute 0)) as [d|] eqn:E;
    [|vm_compute in E; discriminate E].
  destruct (verdicts_follow_the_votes d_decided 0 d T E) as (Hsum & _ & Ho).
  exists d. split; [reflexivity|]. rewrite <- Hsum. vm_compute in E. injection E as <-.
  split; [rewrite Ho by reflexivity|]; reflexivity.
Defined.

Lemma unheard_disputes_are_dismissed_witness :
  (forall a o s', cast_juror_vote a 0 o (at_ledger 103) d_unheard <> Ok (tt, s')) /\
  exists s', finalize_dispute 0 (at_ledger 103) d_unheard = Ok (tt, s').
Proof.
  assert (dreach d_unheard) as T by (apply d_run_reach; [exact d_filed_reach|lia|exact I|vm_compute; reflexivity]).
  destruct (sget (inst d_unheard) (DisputeKey.Dispute 0)) as [d|] eqn:E;
    [|vm_compute in E; discriminate E].
  split.
  - apply (unheard_disputes_are_dismissed d_unheard 0 d (at_ledger 103) T); [reflexivity|exact E|].
    vm_compute in E. by injection E as <-.
  - eexists. apply run_outcome. vm_compute. reflexivity.
Defined.

Lemma finalizing_decides_witness : slashed (inst d_decided) bob <= 500.
Proof.
  destruct (sget (inst d_voted) (DisputeKey.Dispute 0)) as [d|] eqn:E; [|vm_compute in E; discriminate E].
  destruct (sget (inst d_voted) DisputeKey.Config) as [g|] eqn:G; [|vm_compute in G; discriminate G].
  assert (outcome (finalize_dispute 0) (at_ledger 113) d_voted = Ok tt) as R%run_outcome
    by (vm_compute; reflexivity).
  pose proof E as E1. vm_compute in E1, G. injection E1 as E1. injection G as G1.
  destruct (finalizing_decides 0 _ _ _ d g R E) as (_ & _ & _ & H & _).
  - rewrite <- G1. vm_compute. reflexivity.
  - rewrite <- E1. simpl. lia.
  - rewrite <- G1. simpl. lia.
  - assert (di_defendant d = bob) as Hb by (rewrite <- E1; reflexivity).
    assert (di_stake_amount d = 500) as Hst by (rewrite <- E1; reflexivity).
    assert (slashed (inst d_voted) bob = 0) as H0 by (vm_compute; reflexivity).
    rewrite Hb, Hst, H0, Z.sub_0_r in H. exact (proj2 H).
Defined.

Lemma reassigned_jurors_vote_twice_witness :
  let s := d_run 105 (DAssign 0 jury) d_voted in
  di_votes_for <$> sget (inst (d_run 106 (DVote "carol" 0 DisputeOutcome.PlaintiffWins) s))
    (DisputeKey.Dispute 0) = Some (0 + 2).
Proof.
  intros s.
  destruct (sget (inst d_trial) (DisputeKey.Dispute 0)) as [d|] eqn:E; [|vm_compute in E; discriminate E].
  destruct (sget (inst (d_run 106 (DVote "carol" 0 DisputeOutcome.PlaintiffWins) s)) (DisputeKey.Dispute 0))
    as [d'|] eqn:E'; [|vm_compute in E'; discriminate E'].
  assert (outcome (dexec (DVote "carol" 0 DisputeOutcome.PlaintiffWins)) (at_ledger 104) d_trial = Ok tt)
    as R1%run_outcome by (vm_compute; reflexivity).
  assert (outcome (dexec (DAssign 0 jury)) (at_ledger 105) d_voted = Ok tt)
    as R2%run_outcome by (vm_compute; reflexivity).
  assert (outcome (dexec (DVote "carol" 0 DisputeOutcome.PlaintiffWins)) (at_ledger 106) s = Ok tt)
    as R3%run_outcome by (vm_compute; reflexivity).
  pose proof (reassigned_jurors_vote_twice "carol" 0 jury (at_ledger 104) (at_ledger 105) (at_ledger 106)
    d_trial d_voted s (d_run 106 (DVote "carol" 0 DisputeOutcome.PlaintiffWins) s) d d' R1 R2 R3 E E') as H.
  clear - E H. simpl. rewrite H. vm_compute in E. injection E as <-. reflexivity.
Defined.

Lemma decided_disputes_reopen_witness :
  ja_has_voted <$> sget (inst (d_run 114 (DAssign 0 jury) d_decided)) (DisputeKey.JurorAssignment 0 "carol")
  = Some false.
Proof.
  destruct (sget (inst d_decided) (DisputeKey.Dispute 0)) as [d|] eqn:E; [|vm_compute in E; discriminate E].
  assert (outcome (dexec (DAssign 0 jury)) (at_ledger 114) d_decided = Ok tt) as R%run_outcome
    by (vm_compute; reflexivity).
  apply (proj2 (decided_disputes_reopen 0 jury (at_ledger 114) d_decided _ d R E) "carol").
  apply elem_of_cons. left. reflexivity.
Defined.

Lemma one_party_is_heard_witness :
  ~ exists s2, submit_evidence bob 0 "uri3" false (at_ledger 103) d_heard = Ok (tt, s2).
Proof.
  assert (outcome (dexec (DEvidence alice 0 "uri2" true)) (at_ledger 102) d_filed = Ok tt) as R%run_outcome
    by (vm_compute; reflexivity).
  intros [s2 R2]. exact (one_party_is_heard alice bob 0 "uri2" "uri3" true false _ _ d_filed d_heard s2 R R2).
Defined.

Lemma appeals_change_nothing_witness :
  di_status <$> sget (inst (d_run 114 (DAppeal bob 0 "why") d_decided)) (DisputeKey.Dispute 0) =
    Some DisputeStatus.Decided.
Proof.
  assert (outcome (file_appeal bob 0 "why") (at_ledger 114) d_decided = Ok 0) as R%run_outcome
    by (vm_compute; reflexivity).
  assert (sget (inst (d_run 114 (DAppeal bob 0 "why") d_decided)) (DisputeKey.Dispute 0) =
          sget (inst (post (file_appeal bob 0 "why") (at_ledger 114) d_decided)) (DisputeKey.Dispute 0))
    as -> by (vm_compute; reflexivity).
  rewrite (proj1 (proj2 (appeals_change_nothing bob 0 "why" (at_ledger 114) d_decided _ 0 R)) 0).
  vm_compute. reflexivity.
Defined.

End Disputes.
