(* ===== verification/Markets.v ===== *)
(** * Prediction markets, insurance, token gating and reputation

    The market maker and settlement of src/prediction_markets.rs, its oracle
    (src/prediction_market_oracle.rs), the policies, claims and capital pools of
    src/parametric_insurance.rs, the tiers and listings of src/token_gating.rs
    and the scores of src/reputation_system.rs: five contracts, each with its
    own instance storage.  As in [Dao], the invoker is an argument. *)

From S2P Require Import Prelude Contract Fallible StorageLemmas Codec.

(** ** Prediction markets *)

Module PredictionMarket.

Module MarketType.
(** [MarketType], src/prediction_markets.rs:28-37 *)
Inductive MarketType : Set :=
  | ComplianceAudit | BridgeLatency | EventVolume | Custom.
#[global] Instance MarketType_eq_dec : EqDecision MarketType.
Proof. solve_decision. Defined.
End MarketType.
Abbreviation MarketType := MarketType.MarketType.

Module MarketStatus.
(** [MarketStatus], src/prediction_markets.rs:43-56 *)
Inductive MarketStatus : Set :=
  | Active | Closed | Pending | Resolved | Settled | Cancelled.
#[global] Instance MarketStatus_eq_dec : EqDecision MarketStatus.
Proof. solve_decision. Defined.
End MarketStatus.
Abbreviation MarketStatus := MarketStatus.MarketStatus.

Module Outcome.
(** [Outcome], src/prediction_markets.rs:62-69 *)
Inductive Outcome : Set :=
  | Yes | No | Invalid.
#[global] Instance Outcome_eq_dec : EqDecision Outcome.
Proof. solve_decision. Defined.
End Outcome.
Abbreviation Outcome := Outcome.Outcome.
(** [Market], src/prediction_markets.rs:74-111 *)
Record Market := mkMarket {
  mk_market_id : Z;
  mk_market_type : MarketType;
  mk_title : string;
  mk_description : string;
  mk_outcome_yes_label : string;
  mk_outcome_no_label : string;
  mk_status : MarketStatus;
  mk_trading_deadline : Z;
  mk_resolution_deadline : Z;
  mk_resolved_outcome : option Outcome;
  mk_total_liquidity : Z;
  mk_yes_shares_outstanding : Z;
  mk_no_shares_outstanding : Z;
  mk_yes_price : Z;
  mk_no_price : Z;
  mk_oracle_address : Address;
  mk_created_ledger : Z;
  mk_settlement_fee_bps : Z }.
Definition set_mk_status (v : MarketStatus) (r : Market) : Market :=
  mkMarket (mk_market_id r) (mk_market_type r) (mk_title r) (mk_description r)
  (mk_outcome_yes_label r) (mk_outcome_no_label r) v (mk_trading_deadline r)
  (mk_resolution_deadline r) (mk_resolved_outcome r) (mk_total_liquidity r)
  (mk_yes_shares_outstanding r) (mk_no_shares_outstanding r) (mk_yes_price r) (mk_no_price r)
  (mk_oracle_address r) (mk_created_ledger r) (mk_settlement_fee_bps r).
Definition set_mk_resolved_outcome (v : option Outcome) (r : Market) : Market :=
  mkMarket (mk_market_id r) (mk_market_type r) (mk_title r) (mk_description r)
  (mk_outcome_yes_label r) (mk_outcome_no_label r) (mk_status r) (mk_trading_deadline r)
  (mk_resolution_deadline r) v (mk_total_liquidity r) (mk_yes_shares_outstanding r)
  (mk_no_shares_outstanding r) (mk_yes_price r) (mk_no_price r) (mk_oracle_address r)
  (mk_created_ledger r) (mk_settlement_fee_bps r).
(** [Position], src/prediction_markets.rs:116-129 *)
Record Position := mkPosition {
  po_user : Address;
  po_market_id : Z;
  po_yes_shares : Z;
  po_no_shares : Z;
  po_cost_basis : Z;
  po_settled : bool }.
Definition set_po_settled (v : bool) (r : Position) : Position :=
  mkPosition (po_user r) (po_market_id r) (po_yes_shares r) (po_no_shares r) (po_cost_basis r) v.

(** [Order], src/prediction_markets.rs:134-153 *)
Record Order := mkOrder {
  od_order_id : Z;
  od_market_id : Z;
  od_creator : Address;
  od_is_buy : bool;
  od_is_yes : bool;
  od_price : Z;
  od_quantity : Z;
  od_filled : Z;
  od_active : bool }.

(** [Trade], src/prediction_markets.rs:158-175 *)
Record Trade := mkTrade {
  tr_trade_id : Z;
  tr_market_id : Z;
  tr_buyer : Address;
  tr_seller : Address;
  tr_price : Z;
  tr_quantity : Z;
  tr_is_yes : bool;
  tr_timestamp : Z }.

(** [MarketConfig], src/prediction_markets.rs:180-191 *)
Record MarketConfig := mkMarketConfig {
  mc_base_token : Address;
  mc_min_liquidity : Z;
  mc_max_shares : Z;
  mc_default_settlement_fee_bps : Z;
  mc_oracle_min_threshold : Z }.
Module MarketKey.
(** [MarketKey], src/prediction_markets.rs:198-221 *)
Inductive MarketKey : Set :=
  | Owner
  | Config
  | Market (a0 : Z)
  | MarketCounter
  | Position (a0 : Address) (a1 : Z)
  | Order (a0 : Z)
  | OrderCounter
  | Trade (a0 : Z)
  | TradeCounter
  | MarketOrders (a0 : Z)
  | UserMarkets (a0 : Address).
#[global] Instance MarketKey_eq_dec : EqDecision MarketKey.
Proof. solve_decision. Defined.
End MarketKey.
Abbreviation MarketKey := MarketKey.MarketKey.

Module MarketError.
(** [MarketError], src/prediction_markets.rs:230-261 *)
Inductive MarketError : Set :=
  | Unauthorized | MarketNotFound | InvalidStatus | InsufficientLiquidity | InvalidPrice
  | InsufficientBalance | OrderNotFound | AlreadyResolved | OracleCallFailed | InvalidOutcome
  | DeadlinePassed | TradingNotStarted | MarketNotResolved | PositionNotFound | InvalidQuantity.
#[global] Instance MarketError_eq_dec : EqDecision MarketError.
Proof. solve_decision. Defined.
End MarketError.
Abbreviation MarketError := MarketError.MarketError.

Inductive MarketTy : Set := MvAddress | MvConfig | MvMarket | MvCount | MvPosition | MvOrder | MvTrade | MvIds.
#[global] Instance MarketTy_eq_dec : EqDecision MarketTy.
Proof. solve_decision. Defined.

Definition market_el (t : MarketTy) : Type :=
  match t with
  | MvAddress => Address
  | MvConfig => MarketConfig
  | MvMarket => Market
  | MvCount => Z
  | MvPosition => Position
  | MvOrder => Order
  | MvTrade => Trade
  | MvIds => list Z
  end.

Definition market_key_ty (k : MarketKey) : MarketTy :=
  match k with
  | MarketKey.Owner => MvAddress
  | MarketKey.Config => MvConfig
  | MarketKey.Market _ => MvMarket
  | MarketKey.MarketCounter | MarketKey.OrderCounter | MarketKey.TradeCounter => MvCount
  | MarketKey.Position _ _ => MvPosition
  | MarketKey.Order _ => MvOrder
  | MarketKey.Trade _ => MvTrade
  | MarketKey.MarketOrders _ | MarketKey.UserMarkets _ => MvIds
  end.

Canonical market_layout : Layout := {|
  key := MarketKey; ty := MarketTy; el := market_el; layout_key_ty := market_key_ty;
  key_dec := _; ty_dec := _; error := MarketError; datum := Payload |}.

Abbreviation M := (CM market_layout).
Abbreviation St := (CSt market_layout).
Abbreviation store := (kvstore market_layout).

(** [get_owner], src/prediction_markets.rs:732-737 *)
Definition get_owner : M Address :=
  let* o := iget MarketKey.Owner in unwrap_or_raise o MarketError.Unauthorized.

(** [get_config], src/prediction_markets.rs:739-744 *)
Definition get_config : M MarketConfig :=
  let* o := iget MarketKey.Config in unwrap_or_raise o MarketError.Unauthorized.

(** [get_market_or_panic], src/prediction_markets.rs:746-751 *)
Definition get_market_or_panic (market_id : Z) : M Market :=
  let* o := iget (MarketKey.Market market_id) in unwrap_or_raise o MarketError.MarketNotFound.

(** [get_position], src/prediction_markets.rs:753-765 *)
Definition get_position (user : Address) (market_id : Z) : M Position :=
  iget_or (MarketKey.Position user market_id) (mkPosition user market_id 0 0 0 false).

(** [get_next_market_id], src/prediction_markets.rs:767-779 *)
Definition get_next_market_id : M Z :=
  let* current := iget_or MarketKey.MarketCounter 1 in
  let* next := u64_add current 1 in
  do* iset MarketKey.MarketCounter next in
  ret current.

(** [initialize], src/prediction_markets.rs:273-312 *)
Definition initialize (owner base_token : Address) (min_liquidity max_shares default_settlement_fee_bps : Z)
    : M unit :=
  do* require_auth owner in
  let* there := ihas MarketKey.Owner in
  do* reject_if there MarketError.Unauthorized in
  let config := mkMarketConfig base_token min_liquidity max_shares default_settlement_fee_bps 2 in
  do* iset MarketKey.Owner owner in
  do* iset MarketKey.Config config in
  do* iset MarketKey.MarketCounter 0 in
  do* iset MarketKey.OrderCounter 0 in
  iset MarketKey.TradeCounter 0.

(** [create_market], src/prediction_markets.rs:319-396 *)
Definition create_market (invoker : Address) (market_type : MarketType)
    (title description outcome_yes_label outcome_no_label : string)
    (initial_liquidity trading_deadline_ledgers resolution_deadline_ledgers : Z)
    (oracle_address : Address) (settlement_fee_bps : Z) : M Z :=
  let* config := get_config in
  let* current_ledger := ledger_sequence in
  do* reject_if (Z.ltb initial_liquidity (mc_min_liquidity config)) MarketError.InsufficientLiquidity in
  do* reject_if (Z.eqb trading_deadline_ledgers 0 ||
                 Z.leb resolution_deadline_ledgers trading_deadline_ledgers) MarketError.InvalidStatus in
  let* market_id := get_next_market_id in
  let* trading_deadline := u32_add current_ledger trading_deadline_ledgers in
  let* resolution_deadline := u32_add current_ledger resolution_deadline_ledgers in
  let market :=
    mkMarket market_id market_type title description outcome_yes_label outcome_no_label
      MarketStatus.Active trading_deadline resolution_deadline None initial_liquidity
      (initial_liquidity / 2) (initial_liquidity / 2) 5000 5000 oracle_address current_ledger
      settlement_fee_bps in
  do* iset (MarketKey.Market market_id) market in
  let* user_markets := iget_or (MarketKey.UserMarkets invoker) [] in
  do* iset (MarketKey.UserMarkets invoker) (user_markets ++ [market_id]) in
  ret market_id.

(** The shares of the side that is traded, and those of the other side. *)
Definition supplies (market : Market) (is_yes : bool) : Z * Z :=
  if is_yes then (mk_yes_shares_outstanding market, mk_no_shares_outstanding market)
  else (mk_no_shares_outstanding market, mk_yes_shares_outstanding market).

(** The market with [n] shares of a side outstanding, at price [p]. *)
Definition set_side (m : Market) (is_yes : bool) (n p : Z) : Market :=
  mkMarket (mk_market_id m) (mk_market_type m) (mk_title m) (mk_description m) (mk_outcome_yes_label m)
    (mk_outcome_no_label m) (mk_status m) (mk_trading_deadline m) (mk_resolution_deadline m)
    (mk_resolved_outcome m) (mk_total_liquidity m)
    (if is_yes then n else mk_yes_shares_outstanding m)
    (if is_yes then mk_no_shares_outstanding m else n)
    (if is_yes then p else mk_yes_price m) (if is_yes then mk_no_price m else p)
    (mk_oracle_address m) (mk_created_ledger m) (mk_settlement_fee_bps m).

(** The shares of a side in a position, and the position with [n] of them. *)
Definition holding (p : Position) (is_yes : bool) : Z :=
  if is_yes then po_yes_shares p else po_no_shares p.
Definition set_holding (p : Position) (is_yes : bool) (n cost_basis : Z) : Position :=
  mkPosition (po_user p) (po_market_id p) (if is_yes then n else po_yes_shares p)
    (if is_yes then po_no_shares p else n) cost_basis (po_settled p).

(** [buy_shares], src/prediction_markets.rs:403-478 *)
Definition buy_shares (invoker : Address) (market_id : Z) (is_yes : bool) (quantity max_price : Z) : M Z :=
  let* market := get_market_or_panic market_id in
  let* current_ledger := ledger_sequence in
  do* reject_if (bool_decide (mk_status market <> MarketStatus.Active)) MarketError.InvalidStatus in
  do* reject_if (Z.ltb (mk_trading_deadline market) current_ledger) MarketError.DeadlinePassed in
  let '(current_supply, other_supply) := supplies market is_yes in
  let* scaled := lift (u128_chk (other_supply * 10000)) in
  let* both := lift (u128_chk (current_supply + other_supply)) in
  let* total := lift (u128_chk (both + quantity)) in
  let* avg_price := lift (div_chk scaled total) in
  do* reject_if (Z.ltb max_price avg_price) MarketError.InvalidPrice in
  let* product := lift (u128_chk (quantity * avg_price)) in
  let cost := product / 10000 in
  let* position := get_position invoker market_id in
  let* held := lift (u128_chk (holding position is_yes + quantity)) in
  let* basis := lift (u128_chk (po_cost_basis position + cost)) in
  let* supply := lift (u128_chk (current_supply + quantity)) in
  do* iset (MarketKey.Position invoker market_id) (set_holding position is_yes held basis) in
  do* iset (MarketKey.Market market_id) (set_side market is_yes supply (as_u32 avg_price)) in
  ret (as_u32 avg_price).

(** [sell_shares], src/prediction_markets.rs:481-569 *)
Definition sell_shares (invoker : Address) (market_id : Z) (is_yes : bool) (quantity min_price : Z) : M Z :=
  let* market := get_market_or_panic market_id in
  let* current_ledger := ledger_sequence in
  do* reject_if (bool_decide (mk_status market <> MarketStatus.Active)) MarketError.InvalidStatus in
  do* reject_if (Z.ltb (mk_trading_deadline market) current_ledger) MarketError.DeadlinePassed in
  let* position := iget (MarketKey.Position invoker market_id) in
  let* position := unwrap_or_raise position MarketError.PositionNotFound in
  let balance := holding position is_yes in
  do* reject_if (Z.ltb balance quantity) MarketError.InsufficientBalance in
  let '(current_supply, other_supply) := supplies market is_yes in
  let* scaled := lift (u128_chk (other_supply * 10000)) in
  let* rest := u_sub current_supply quantity in
  let* total := lift (u128_chk (rest + other_supply)) in
  let* avg_price := lift (div_chk scaled total) in
  do* reject_if (Z.ltb avg_price min_price) MarketError.InvalidPrice in
  let* product := lift (u128_chk (quantity * avg_price)) in
  let proceeds := product / 10000 in
  let* held := u_sub balance quantity in
  do* iset (MarketKey.Position invoker market_id)
        (set_holding position is_yes held (po_cost_basis position)) in
  do* iset (MarketKey.Market market_id) (set_side market is_yes rest (as_u32 avg_price)) in
  ret (as_u32 avg_price).

(** [resolve_market], src/prediction_markets.rs:576-603 *)
Definition resolve_market (invoker : Address) (market_id : Z) (outcome : Outcome) : M unit :=
  let* market := get_market_or_panic market_id in
  do* reject_if (bool_decide (invoker <> mk_oracle_address market)) MarketError.Unauthorized in
  do* reject_if (bool_decide (mk_status market <> MarketStatus.Closed) &&
                 bool_decide (mk_status market <> MarketStatus.Pending)) MarketError.InvalidStatus in
  iset (MarketKey.Market market_id)
    (set_mk_status MarketStatus.Resolved (set_mk_resolved_outcome (Some outcome) market)).

(** [close_market], src/prediction_markets.rs:606-632 *)
Definition close_market (market_id : Z) : M unit :=
  let* owner := get_owner in
  do* require_auth owner in
  let* market := get_market_or_panic market_id in
  let* current_ledger := ledger_sequence in
  do* reject_if (Z.ltb current_ledger (mk_trading_deadline market)) MarketError.TradingNotStarted in
  do* reject_if (bool_decide (mk_status market <> MarketStatus.Active)) MarketError.InvalidStatus in
  iset (MarketKey.Market market_id) (set_mk_status MarketStatus.Closed market).

(** [settle_position], src/prediction_markets.rs:639-697 *)
Definition settle_position (market_id : Z) (user : Address) : M Z :=
  let* market := get_market_or_panic market_id in
  do* reject_if (bool_decide (mk_status market <> MarketStatus.Resolved)) MarketError.MarketNotResolved in
  let* resolved_outcome := unwrap_or_raise (mk_resolved_outcome market) MarketError.InvalidOutcome in
  let* position := iget (MarketKey.Position user market_id) in
  let* position := unwrap_or_raise position MarketError.PositionNotFound in
  if po_settled position then ret 0
  else
    let* payout := match resolved_outcome with
                   | Outcome.Yes =>
                       let* n := lift (u128_chk (po_yes_shares position * 10000)) in
                       lift (div_chk n (mk_yes_shares_outstanding market))
                   | Outcome.No =>
                       let* n := lift (u128_chk (po_no_shares position * 10000)) in
                       lift (div_chk n (mk_no_shares_outstanding market))
                   | Outcome.Invalid => ret (po_cost_basis position)
                   end in
    let* product := lift (u128_chk (payout * mk_settlement_fee_bps market)) in
    let fee := product / 10000 in
    let* net_payout := u_sub payout fee in
    do* iset (MarketKey.Position user market_id) (set_po_settled true position) in
    ret net_payout.

(** [get_market], src/prediction_markets.rs:704-708 *)
Definition get_market (market_id : Z) : M (option Market) := iget (MarketKey.Market market_id).
(** [get_position_info], src/prediction_markets.rs:711-715 *)
Definition get_position_info (user : Address) (market_id : Z) : M (option Position) :=
  iget (MarketKey.Position user market_id).
(** [get_prices], src/prediction_markets.rs:718-721 *)
Definition get_prices (market_id : Z) : M (Z * Z) :=
  let* market := get_market_or_panic market_id in ret (mk_yes_price market, mk_no_price market).
(** [get_market_config], src/prediction_markets.rs:724-726 *)
Definition get_market_config : M MarketConfig := get_config.

End PredictionMarket.

(** ** The oracle of the markets *)

Module PredictionMarketOracle.

Module OracleFeedType.
(** [OracleFeedType], src/prediction_market_oracle.rs:22-31 *)
Inductive OracleFeedType : Set :=
  | ComplianceAudit | BridgeLatency | EventVolume | CustomFeed.
#[global] Instance OracleFeedType_eq_dec : EqDecision OracleFeedType.
Proof. solve_decision. Defined.
End OracleFeedType.
Abbreviation OracleFeedType := OracleFeedType.OracleFeedType.

(** [PriceData], src/prediction_market_oracle.rs:36-49 *)
Record PriceData := mkPriceData {
  pd_feed_type : OracleFeedType;
  pd_value : Z;
  pd_timestamp : Z;
  pd_decimals : Z;
  pd_source : Address;
  pd_confidence : Z }.

(** [AggregatedPrice], src/prediction_market_oracle.rs:54-69 *)
Record AggregatedPrice := mkAggregatedPrice {
  ag_feed_id : Symbol;
  ag_median_price : Z;
  ag_mean_price : Z;
  ag_source_count : Z;
  ag_last_updated : Z;
  ag_confidence : Z;
  ag_status : Z }.
(** [OracleProvider], src/prediction_market_oracle.rs:74-87 *)
Record OracleProvider := mkOracleProvider {
  op_address : Address;
  op_feed_types : list OracleFeedType;
  op_reputation : Z;
  op_valid_reports : Z;
  op_disputed_reports : Z;
  op_active : bool }.
Definition set_op_active (v : bool) (r : OracleProvider) : OracleProvider :=
  mkOracleProvider (op_address r) (op_feed_types r) (op_reputation r) (op_valid_reports r)
  (op_disputed_reports r) v.
Definition set_op_valid_reports (v : Z) (r : OracleProvider) : OracleProvider :=
  mkOracleProvider (op_address r) (op_feed_types r) (op_reputation r) v (op_disputed_reports r)
  (op_active r).

(** [OutcomeThreshold], src/prediction_market_oracle.rs:92-101 *)
Record OutcomeThreshold := mkOutcomeThreshold {
  ot_market_id : Z;
  ot_feed_id : Symbol;
  ot_threshold : Z;
  ot_deadline : Z }.

(** [OracleConfig], src/prediction_market_oracle.rs:106-113 *)
Record OracleConfig := mkOracleConfig {
  oc_min_oracles : Z;
  oc_max_staleness_ledgers : Z;
  oc_deviation_tolerance_bps : Z }.
Module OracleKey.
(** [OracleKey], src/prediction_market_oracle.rs:120-135 *)
Inductive OracleKey : Set :=
  | Owner
  | Config
  | OracleProvider (a0 : Address)
  | PriceData (a0 : Symbol) (a1 : Address)
  | AggregatedPrice (a0 : Symbol)
  | OutcomeThreshold (a0 : Z)
  | LastUpdate (a0 : Symbol).
#[global] Instance OracleKey_eq_dec : EqDecision OracleKey.
Proof. solve_decision. Defined.
End OracleKey.
Abbreviation OracleKey := OracleKey.OracleKey.

Module OracleError.
(** [OracleError], src/prediction_market_oracle.rs:144-169 *)
Inductive OracleError : Set :=
  | Unauthorized | ProviderNotFound | InsufficientReports | PriceStale | PriceDeviation
  | InvalidFeedType | ThresholdNotFound | DeadlineExceeded | InvalidPrice | ProviderAlreadyExists
  | AggregationFailed | FeedNotFound.
#[global] Instance OracleError_eq_dec : EqDecision OracleError.
Proof. solve_decision. Defined.
End OracleError.
Abbreviation OracleError := OracleError.OracleError.

Inductive OracleTy : Set := OvAddress | OvConfig | OvProvider | OvPrice | OvAggregate | OvThreshold | OvTime.
#[global] Instance OracleTy_eq_dec : EqDecision OracleTy.
Proof. solve_decision. Defined.

Definition oracle_el (t : OracleTy) : Type :=
  match t with
  | OvAddress => Address
  | OvConfig => OracleConfig
  | OvProvider => OracleProvider
  | OvPrice => PriceData
  | OvAggregate => AggregatedPrice
  | OvThreshold => OutcomeThreshold
  | OvTime => Z
  end.

Definition oracle_key_ty (k : OracleKey) : OracleTy :=
  match k with
  | OracleKey.Owner => OvAddress
  | OracleKey.Config => OvConfig
  | OracleKey.OracleProvider _ => OvProvider
  | OracleKey.PriceData _ _ => OvPrice
  | OracleKey.AggregatedPrice _ => OvAggregate
  | OracleKey.OutcomeThreshold _ => OvThreshold
  | OracleKey.LastUpdate _ => OvTime
  end.

Canonical oracle_layout : Layout := {|
  key := OracleKey; ty := OracleTy; el := oracle_el; layout_key_ty := oracle_key_ty;
  key_dec := _; ty_dec := _; error := OracleError; datum := Payload |}.

Abbreviation M := (CM oracle_layout).
Abbreviation St := (CSt oracle_layout).
Abbreviation store := (kvstore oracle_layout).

(** [get_owner], src/prediction_market_oracle.rs:458-463 *)
Definition get_owner : M Address :=
  let* o := iget OracleKey.Owner in unwrap_or_raise o OracleError.Unauthorized.

(** [get_config], src/prediction_market_oracle.rs:465-470 *)
Definition get_config : M OracleConfig :=
  let* o := iget OracleKey.Config in unwrap_or_raise o OracleError.Unauthorized.

(** [initialize], src/prediction_market_oracle.rs:181-209 *)
Definition initialize (owner : Address) (min_oracles max_staleness_ledgers deviation_tolerance_bps : Z)
    : M unit :=
  do* require_auth owner in
  let* there := ihas OracleKey.Owner in
  do* reject_if there OracleError.Unauthorized in
  do* iset OracleKey.Owner owner in
  iset OracleKey.Config (mkOracleConfig min_oracles max_staleness_ledgers deviation_tolerance_bps).

(** [register_provider], src/prediction_market_oracle.rs:216-251 *)
Definition register_provider (provider_address : Address) (feed_types : list OracleFeedType) : M unit :=
  let* owner := get_owner in
  do* require_auth owner in
  let* there := iget (OracleKey.OracleProvider provider_address) in
  do* reject_if (bool_decide (is_Some there)) OracleError.ProviderAlreadyExists in
  iset (OracleKey.OracleProvider provider_address)
    (mkOracleProvider provider_address feed_types 100 0 0 true).

(** [deactivate_provider], src/prediction_market_oracle.rs:254-275 *)
Definition deactivate_provider (provider_address : Address) : M unit :=
  let* owner := get_owner in
  do* require_auth owner in
  let* provider := iget (OracleKey.OracleProvider provider_address) in
  let* provider := unwrap_or_raise provider OracleError.ProviderNotFound in
  iset (OracleKey.OracleProvider provider_address) (set_op_active false provider).

(** [submit_price], src/prediction_market_oracle.rs:282-333 *)
Definition submit_price (invoker : Address) (feed_id : Symbol) (value decimals confidence : Z) : M unit :=
  let* oracle_provider := iget (OracleKey.OracleProvider invoker) in
  let* oracle_provider := unwrap_or_raise oracle_provider OracleError.ProviderNotFound in
  do* reject_if (negb (op_active oracle_provider)) OracleError.ProviderNotFound in
  let* now := ledger_timestamp in
  do* iset (OracleKey.PriceData feed_id invoker)
        (mkPriceData OracleFeedType.CustomFeed value now decimals invoker confidence) in
  do* iset (OracleKey.LastUpdate feed_id) now in
  let* n := u32_add (op_valid_reports oracle_provider) 1 in
  iset (OracleKey.OracleProvider invoker) (set_op_valid_reports n oracle_provider).

(** [aggregate_prices], src/prediction_market_oracle.rs:340-368 *)
Definition aggregate_prices (feed_id : Symbol) : M AggregatedPrice :=
  do* get_config in
  let* now := ledger_timestamp in
  let aggregated := mkAggregatedPrice feed_id 0 0 0 now 0 0 in
  do* iset (OracleKey.AggregatedPrice feed_id) aggregated in
  ret aggregated.

(** [set_outcome_threshold], src/prediction_market_oracle.rs:375-402 *)
Definition set_outcome_threshold (market_id : Z) (feed_id : Symbol) (threshold deadline : Z) : M unit :=
  let* owner := get_owner in
  do* require_auth owner in
  iset (OracleKey.OutcomeThreshold market_id) (mkOutcomeThreshold market_id feed_id threshold deadline).

(** [get_market_outcome], src/prediction_market_oracle.rs:405-429 *)
Definition get_market_outcome (market_id : Z) : M Z :=
  let* threshold_config := iget (OracleKey.OutcomeThreshold market_id) in
  let* threshold_config := unwrap_or_raise threshold_config OracleError.ThresholdNotFound in
  let* current_ledger := ledger_sequence in
  do* reject_if (Z.ltb (ot_deadline threshold_config) current_ledger) OracleError.DeadlineExceeded in
  let* aggregated := iget (OracleKey.AggregatedPrice (ot_feed_id threshold_config)) in
  let* aggregated := unwrap_or_raise aggregated OracleError.FeedNotFound in
  ret (if Z.leb (ot_threshold threshold_config) (ag_median_price aggregated) then 0 else 1).

(** [get_price], src/prediction_market_oracle.rs:436-440 *)
Definition get_price (feed_id : Symbol) : M (option AggregatedPrice) :=
  iget (OracleKey.AggregatedPrice feed_id).
(** [get_provider], src/prediction_market_oracle.rs:443-447 *)
Definition get_provider (provider_address : Address) : M (option OracleProvider) :=
  iget (OracleKey.OracleProvider provider_address).
(** [get_oracle_config], src/prediction_market_oracle.rs:450-452 *)
Definition get_oracle_config : M OracleConfig := get_config.

End PredictionMarketOracle.

(** ** Insurance *)

Module ParametricInsurance.

Module PolicyType.
(** [PolicyType], src/parametric_insurance.rs:28-39 *)
Inductive PolicyType : Set :=
  | DataLoss | DataCorruption | Availability | BridgeLatency | Custom.
#[global] Instance PolicyType_eq_dec : EqDecision PolicyType.
Proof. solve_decision. Defined.
End PolicyType.
Abbreviation PolicyType := PolicyType.PolicyType.

Module PolicyStatus.
(** [PolicyStatus], src/parametric_insurance.rs:45-54 *)
Inductive PolicyStatus : Set :=
  | Active | Lapsed | Cancelled | Matured.
#[global] Instance PolicyStatus_eq_dec : EqDecision PolicyStatus.
Proof. solve_decision. Defined.
End PolicyStatus.
Abbreviation PolicyStatus := PolicyStatus.PolicyStatus.
(** [Policy], src/parametric_insurance.rs:59-90 *)
Record Policy := mkPolicy {
  pl_policy_id : Z;
  pl_policy_type : PolicyType;
  pl_holder : Address;
  pl_coverage_amount : Z;
  pl_annual_premium : Z;
  pl_premium_frequency_ledgers : Z;
  pl_last_premium_ledger : Z;
  pl_expiration_ledger : Z;
  pl_max_claims_per_year : Z;
  pl_claims_filed_this_year : Z;
  pl_deductible : Z;
  pl_status : PolicyStatus;
  pl_oracle_address : Address;
  pl_trigger_parameter : Z;
  pl_capital_pool_id : Z }.
Definition set_pl_status (v : PolicyStatus) (r : Policy) : Policy :=
  mkPolicy (pl_policy_id r) (pl_policy_type r) (pl_holder r) (pl_coverage_amount r)
  (pl_annual_premium r) (pl_premium_frequency_ledgers r) (pl_last_premium_ledger r)
  (pl_expiration_ledger r) (pl_max_claims_per_year r) (pl_claims_filed_this_year r)
  (pl_deductible r) v (pl_oracle_address r) (pl_trigger_parameter r) (pl_capital_pool_id r).

(** [CapitalPool], src/parametric_insurance.rs:95-116 *)
Record CapitalPool := mkCapitalPool {
  cp_pool_id : Z;
  cp_manager : Address;
  cp_total_capital : Z;
  cp_available_capital : Z;
  cp_reserved_capital : Z;
  cp_minimum_capital : Z;
  cp_premium_share_bps : Z;
  cp_policy_ids : list Z;
  cp_total_claims_paid : Z;
  cp_pool_fee_bps : Z }.

(** [Claim], src/parametric_insurance.rs:121-146 *)
Record Claim := mkClaim {
  cl_claim_id : Z;
  cl_policy_id : Z;
  cl_claimant : Address;
  cl_coverage_requested : Z;
  cl_verified_loss : Z;
  cl_deductible_applied : Z;
  cl_payout_amount : Z;
  cl_status : Z;
  cl_oracle_verification : Bytes;
  cl_filed_ledger : Z;
  cl_resolved_ledger : Z;
  cl_settlement_tx_hash : option Bytes }.

(** [PoolShare], src/parametric_insurance.rs:151-166 *)
Record PoolShare := mkPoolShare {
  ps_underwriter : Address;
  ps_pool_id : Z;
  ps_capital_contributed : Z;
  ps_share_bps : Z;
  ps_unrealized_losses : Z;
  ps_realized_losses : Z;
  ps_rewards_earned : Z }.

(** [InsuranceConfig], src/parametric_insurance.rs:171-184 *)
Record InsuranceConfig := mkInsuranceConfig {
  ic_base_token : Address;
  ic_min_coverage : Z;
  ic_max_coverage : Z;
  ic_min_pool_capital : Z;
  ic_solvency_ratio_bps : Z;
  ic_claim_fee_bps : Z }.
Module InsuranceKey.
(** [InsuranceKey], src/parametric_insurance.rs:191-218 *)
Inductive InsuranceKey : Set :=
  | Owner
  | Config
  | Policy (a0 : Z)
  | PolicyCounter
  | Claim (a0 : Z)
  | ClaimCounter
  | CapitalPool (a0 : Z)
  | PoolCounter
  | PoolShare (a0 : Address) (a1 : Z)
  | UserPolicies (a0 : Address)
  | PoolPolicies (a0 : Z)
  | TotalPremiumCollected
  | PoolPremiumEarned (a0 : Z).
#[global] Instance InsuranceKey_eq_dec : EqDecision InsuranceKey.
Proof. solve_decision. Defined.
End InsuranceKey.
Abbreviation InsuranceKey := InsuranceKey.InsuranceKey.

Module InsuranceError.
(** [InsuranceError], src/parametric_insurance.rs:227-258 *)
Inductive InsuranceError : Set :=
  | Unauthorized | PolicyNotFound | InvalidCoverage | InsufficientCapital | PremiumPaymentDue
  | PolicyExpired | ClaimLimitExceeded | ClaimNotFound | PoolNotFound | InsufficientSolvency
  | OracleVerificationFailed | AlreadyClaimed | InvalidPolicyStatus | PoolMinimumNotMet
  | InsufficientUnderwriterStake.
#[global] Instance InsuranceError_eq_dec : EqDecision InsuranceError.
Proof. solve_decision. Defined.
End InsuranceError.
Abbreviation InsuranceError := InsuranceError.InsuranceError.

Inductive InsTy : Set :=
  | IvAddress | IvConfig | IvPolicy | IvCount | IvClaim | IvPool | IvShare | IvIds | IvAmount.
#[global] Instance InsTy_eq_dec : EqDecision InsTy.
Proof. solve_decision. Defined.

Definition ins_el (t : InsTy) : Type :=
  match t with
  | IvAddress => Address
  | IvConfig => InsuranceConfig
  | IvPolicy => Policy
  | IvCount => Z
  | IvClaim => Claim
  | IvPool => CapitalPool
  | IvShare => PoolShare
  | IvIds => list Z
  | IvAmount => Z
  end.

Definition ins_key_ty (k : InsuranceKey) : InsTy :=
  match k with
  | InsuranceKey.Owner => IvAddress
  | InsuranceKey.Config => IvConfig
  | InsuranceKey.Policy _ => IvPolicy
  | InsuranceKey.PolicyCounter | InsuranceKey.ClaimCounter | InsuranceKey.PoolCounter => IvCount
  | InsuranceKey.Claim _ => IvClaim
  | InsuranceKey.CapitalPool _ => IvPool
  | InsuranceKey.PoolShare _ _ => IvShare
  | InsuranceKey.UserPolicies _ | InsuranceKey.PoolPolicies _ => IvIds
  | InsuranceKey.TotalPremiumCollected | InsuranceKey.PoolPremiumEarned _ => IvAmount
  end.

Canonical ins_layout : Layout := {|
  key := InsuranceKey; ty := InsTy; el := ins_el; layout_key_ty := ins_key_ty;
  key_dec := _; ty_dec := _; error := InsuranceError; datum := Payload |}.

Abbreviation M := (CM ins_layout).
Abbreviation St := (CSt ins_layout).
Abbreviation store := (kvstore ins_layout).

(** [get_config], src/parametric_insurance.rs:708-713 *)
Definition get_config : M InsuranceConfig :=
  let* o := iget InsuranceKey.Config in unwrap_or_raise o InsuranceError.Unauthorized.

(** [get_policy_or_panic], src/parametric_insurance.rs:715-720 *)
Definition get_policy_or_panic (policy_id : Z) : M Policy :=
  let* o := iget (InsuranceKey.Policy policy_id) in unwrap_or_raise o InsuranceError.PolicyNotFound.

(** [get_pool_or_panic], src/parametric_insurance.rs:722-727 *)
Definition get_pool_or_panic (pool_id : Z) : M CapitalPool :=
  let* o := iget (InsuranceKey.CapitalPool pool_id) in unwrap_or_raise o InsuranceError.PoolNotFound.

(** [get_next_policy_id], src/parametric_insurance.rs:729-741 *)
Definition get_next_policy_id : M Z :=
  let* current := iget_or InsuranceKey.PolicyCounter 1 in
  let* next := u64_add current 1 in
  do* iset InsuranceKey.PolicyCounter next in
  ret current.

(** [get_next_claim_id], src/parametric_insurance.rs:743-755 *)
Definition get_next_claim_id : M Z :=
  let* current := iget_or InsuranceKey.ClaimCounter 1 in
  let* next := u64_add current 1 in
  do* iset InsuranceKey.ClaimCounter next in
  ret current.

(** [get_next_pool_id], src/parametric_insurance.rs:757-769 *)
Definition get_next_pool_id : M Z :=
  let* current := iget_or InsuranceKey.PoolCounter 1 in
  let* next := u64_add current 1 in
  do* iset InsuranceKey.PoolCounter next in
  ret current.

(** [initialize], src/parametric_insurance.rs:270-312 *)
Definition initialize (owner base_token : Address)
    (min_coverage max_coverage min_pool_capital solvency_ratio_bps : Z) : M unit :=
  do* require_auth owner in
  let* there := ihas InsuranceKey.Owner in
  do* reject_if there InsuranceError.Unauthorized in
  let config :=
    mkInsuranceConfig base_token min_coverage max_coverage min_pool_capital solvency_ratio_bps 100 in
  do* iset InsuranceKey.Owner owner in
  do* iset InsuranceKey.Config config in
  do* iset InsuranceKey.PolicyCounter 0 in
  do* iset InsuranceKey.ClaimCounter 0 in
  iset InsuranceKey.PoolCounter 0.

(** The pool with other amounts. *)
Definition with_capital (p : CapitalPool) (total available reserved paid : Z) : CapitalPool :=
  mkCapitalPool (cp_pool_id p) (cp_manager p) total available reserved (cp_minimum_capital p)
    (cp_premium_share_bps p) (cp_policy_ids p) paid (cp_pool_fee_bps p).

(** The pool with one more policy, whose coverage is reserved. *)
Definition with_policy (p : CapitalPool) (policy_id available reserved : Z) : CapitalPool :=
  mkCapitalPool (cp_pool_id p) (cp_manager p) (cp_total_capital p) available reserved
    (cp_minimum_capital p) (cp_premium_share_bps p) (cp_policy_ids p ++ [policy_id])
    (cp_total_claims_paid p) (cp_pool_fee_bps p).

(** [purchase_policy], src/parametric_insurance.rs:319-402 *)
Definition purchase_policy (invoker : Address) (policy_type : PolicyType)
    (coverage_amount annual_premium duration_ledgers max_claims_per_year deductible : Z)
    (oracle_address : Address) (trigger_parameter capital_pool_id : Z) : M Z :=
  let* config := get_config in
  let* current_ledger := ledger_sequence in
  do* reject_if (Z.ltb coverage_amount (ic_min_coverage config) ||
                 Z.ltb (ic_max_coverage config) coverage_amount) InsuranceError.InvalidCoverage in
  let* pool := get_pool_or_panic capital_pool_id in
  do* reject_if (Z.ltb (cp_available_capital pool) coverage_amount) InsuranceError.InsufficientCapital in
  let* policy_id := get_next_policy_id in
  let* expiration_ledger := u32_add current_ledger duration_ledgers in
  let policy :=
    mkPolicy policy_id policy_type invoker coverage_amount annual_premium 52560 current_ledger
      expiration_ledger max_claims_per_year 0 deductible PolicyStatus.Active oracle_address
      trigger_parameter capital_pool_id in
  let* available := u_sub (cp_available_capital pool) coverage_amount in
  let* reserved := lift (u128_chk (cp_reserved_capital pool + coverage_amount)) in
  do* iset (InsuranceKey.Policy policy_id) policy in
  do* iset (InsuranceKey.CapitalPool capital_pool_id) (with_policy pool policy_id available reserved) in
  let* user_policies := iget_or (InsuranceKey.UserPolicies invoker) [] in
  do* iset (InsuranceKey.UserPolicies invoker) (user_policies ++ [policy_id]) in
  ret policy_id.

(** The policy after a premium, and after a claim. *)
Definition with_premium (p : Policy) (current_ledger : Z) : Policy :=
  mkPolicy (pl_policy_id p) (pl_policy_type p) (pl_holder p) (pl_coverage_amount p)
    (pl_annual_premium p) (pl_premium_frequency_ledgers p) current_ledger (pl_expiration_ledger p)
    (pl_max_claims_per_year p) (pl_claims_filed_this_year p) (pl_deductible p) PolicyStatus.Active
    (pl_oracle_address p) (pl_trigger_parameter p) (pl_capital_pool_id p).
Definition with_claims (p : Policy) (n : Z) : Policy :=
  mkPolicy (pl_policy_id p) (pl_policy_type p) (pl_holder p) (pl_coverage_amount p)
    (pl_annual_premium p) (pl_premium_frequency_ledgers p) (pl_last_premium_ledger p)
    (pl_expiration_ledger p) (pl_max_claims_per_year p) n (pl_deductible p) (pl_status p)
    (pl_oracle_address p) (pl_trigger_parameter p) (pl_capital_pool_id p).

(** [pay_premium], src/parametric_insurance.rs:405-449 *)
Definition pay_premium (invoker : Address) (policy_id premium_amount : Z) : M unit :=
  let* policy := get_policy_or_panic policy_id in
  do* reject_if (bool_decide (invoker <> pl_holder policy)) InsuranceError.Unauthorized in
  let* current_ledger := ledger_sequence in
  do* reject_if (Z.ltb (pl_expiration_ledger policy) current_ledger) InsuranceError.PolicyExpired in
  let policy := with_premium policy current_ledger in
  let* pool := get_pool_or_panic (pl_capital_pool_id policy) in
  let* product := lift (u128_chk (premium_amount * cp_premium_share_bps pool)) in
  let pool_premium_share := product / 10000 in
  let* current_earned := iget_or (InsuranceKey.PoolPremiumEarned (cp_pool_id pool)) 0 in
  let* n := lift (u128_chk (current_earned + pool_premium_share)) in
  do* iset (InsuranceKey.PoolPremiumEarned (cp_pool_id pool)) n in
  iset (InsuranceKey.Policy policy_id) policy.

(** [cancel_policy], src/parametric_insurance.rs:452-479 *)
Definition cancel_policy (invoker : Address) (policy_id : Z) : M unit :=
  let* policy := get_policy_or_panic policy_id in
  do* reject_if (bool_decide (invoker <> pl_holder policy)) InsuranceError.Unauthorized in
  let* pool := get_pool_or_panic (pl_capital_pool_id policy) in
  let* available := lift (u128_chk (cp_available_capital pool + pl_coverage_amount policy)) in
  let* reserved := u_sub (cp_reserved_capital pool) (pl_coverage_amount policy) in
  do* iset (InsuranceKey.Policy policy_id) (set_pl_status PolicyStatus.Cancelled policy) in
  iset (InsuranceKey.CapitalPool (pl_capital_pool_id policy))
    (with_capital pool (cp_total_capital pool) available reserved (cp_total_claims_paid pool)).

(** [file_claim], src/parametric_insurance.rs:486-573 *)
Definition file_claim (invoker : Address) (policy_id : Z) (oracle_verification : Bytes) : M Z :=
  let* policy := get_policy_or_panic policy_id in
  do* reject_if (bool_decide (pl_status policy <> PolicyStatus.Active)) InsuranceError.InvalidPolicyStatus in
  let* current_ledger := ledger_sequence in
  do* reject_if (Z.ltb (pl_expiration_ledger policy) current_ledger) InsuranceError.PolicyExpired in
  do* reject_if (Z.leb (pl_max_claims_per_year policy) (pl_claims_filed_this_year policy))
        InsuranceError.ClaimLimitExceeded in
  let* claim_id := get_next_claim_id in
  let verified_loss := pl_coverage_amount policy in
  let deductible_to_apply := Z.min verified_loss (pl_deductible policy) in
  let payout_amount := u64_sat_sub verified_loss deductible_to_apply in
  let claim :=
    mkClaim claim_id policy_id invoker (pl_coverage_amount policy) verified_loss deductible_to_apply
      payout_amount 1 oracle_verification current_ledger current_ledger None in
  let* claims := u32_add (pl_claims_filed_this_year policy) 1 in
  let* pool := get_pool_or_panic (pl_capital_pool_id policy) in
  let* config := get_config in
  let* product := lift (u128_chk (cp_total_capital pool * ic_solvency_ratio_bps config)) in
  let required_reserve := product / 10000 in
  let* needed := lift (u128_chk (required_reserve + payout_amount)) in
  do* reject_if (Z.ltb (cp_available_capital pool) needed) InsuranceError.InsufficientSolvency in
  let* available := u_sub (cp_available_capital pool) payout_amount in
  let* paid := lift (u128_chk (cp_total_claims_paid pool + payout_amount)) in
  let* reserved := u_sub (cp_reserved_capital pool) verified_loss in
  do* iset (InsuranceKey.Claim claim_id) claim in
  do* iset (InsuranceKey.Policy policy_id) (with_claims policy claims) in
  do* iset (InsuranceKey.CapitalPool (pl_capital_pool_id policy))
        (with_capital pool (cp_total_capital pool) available reserved paid) in
  ret claim_id.

(** [create_capital_pool], src/parametric_insurance.rs:580-616 *)
Definition create_capital_pool (manager : Address) (minimum_capital premium_share_bps : Z) : M Z :=
  do* require_auth manager in
  let* pool_id := get_next_pool_id in
  do* iset (InsuranceKey.CapitalPool pool_id)
        (mkCapitalPool pool_id manager 0 0 0 minimum_capital premium_share_bps [] 0 500) in
  ret pool_id.

(** [contribute_to_pool], src/parametric_insurance.rs:619-672 *)
Definition contribute_to_pool (invoker : Address) (pool_id amount : Z) : M unit :=
  let* pool := get_pool_or_panic pool_id in
  let total_before := cp_total_capital pool in
  let* total := lift (u128_chk (cp_total_capital pool + amount)) in
  let* available := lift (u128_chk (cp_available_capital pool + amount)) in
  let* share_bps := if Z.ltb 0 total_before
                    then (let* added := u_sub total total_before in
                          let* scaled := lift (u128_chk (added * 10000)) in
                          lift (div_chk scaled total))
                    else ret 10000 in
  let* pool_share := iget_or (InsuranceKey.PoolShare invoker pool_id)
                       (mkPoolShare invoker pool_id 0 0 0 0 0) in
  let* contributed := lift (u128_chk (ps_capital_contributed pool_share + amount)) in
  do* iset (InsuranceKey.CapitalPool pool_id)
        (with_capital pool total available (cp_reserved_capital pool) (cp_total_claims_paid pool)) in
  iset (InsuranceKey.PoolShare invoker pool_id)
    (mkPoolShare (ps_underwriter pool_share) (ps_pool_id pool_share) contributed share_bps
       (ps_unrealized_losses pool_share) (ps_realized_losses pool_share) (ps_rewards_earned pool_share)).

(** [get_policy], src/parametric_insurance.rs:679-683 *)
Definition get_policy (policy_id : Z) : M (option Policy) := iget (InsuranceKey.Policy policy_id).
(** [get_claim], src/parametric_insurance.rs:686-690 *)
Definition get_claim (claim_id : Z) : M (option Claim) := iget (InsuranceKey.Claim claim_id).
(** [get_capital_pool], src/parametric_insurance.rs:693-697 *)
Definition get_capital_pool (pool_id : Z) : M (option CapitalPool) := iget (InsuranceKey.CapitalPool pool_id).
(** [get_insurance_config], src/parametric_insurance.rs:700-702 *)
Definition get_insurance_config : M InsuranceConfig := get_config.

End ParametricInsurance.

(** ** Token gating *)

Module TokenGating.

Module TokenStandard.
(** [TokenStandard], src/token_gating.rs:28-37 *)
Inductive TokenStandard : Set :=
  | StellarAsset | ERC20 | ERC721 | ERC1155.
#[global] Instance TokenStandard_eq_dec : EqDecision TokenStandard.
Proof. solve_decision. Defined.
End TokenStandard.
Abbreviation TokenStandard := TokenStandard.TokenStandard.

(** [TokenSpec], src/token_gating.rs:42-51 *)
Record TokenSpec := mkTokenSpec {
  ts_standard : TokenStandard;
  ts_contract_address : Bytes;
  ts_token_id : Z;
  ts_required_amount : Z }.

(** [TokenTier], src/token_gating.rs:56-71 *)
Record TokenTier := mkTokenTier {
  tt_tier_id : Symbol;
  tt_description : string;
  tt_token_requirements : list TokenSpec;
  tt_purchase_price : Z;
  tt_duration_ledgers : Z;
  tt_tradeable : bool;
  tt_enabled : bool }.
Definition set_tt_enabled (v : bool) (r : TokenTier) : TokenTier :=
  mkTokenTier (tt_tier_id r) (tt_description r) (tt_token_requirements r) (tt_purchase_price r)
  (tt_duration_ledgers r) (tt_tradeable r) v.

(** [TierHolding], src/token_gating.rs:76-87 *)
Record TierHolding := mkTierHolding {
  th_holder : Address;
  th_tier_id : Symbol;
  th_expiry_ledger : Z;
  th_purchased_at : Z;
  th_verified : bool }.
(** [VerificationRecord], src/token_gating.rs:92-105 *)
Record VerificationRecord := mkVerificationRecord {
  vr_user : Address;
  vr_token_spec : TokenSpec;
  vr_verified_balance : Z;
  vr_verified_at_ledger : Z;
  vr_ttl_ledgers : Z;
  vr_verified_by_bridge : Bytes }.

(** [MarketplaceListingDetails], src/token_gating.rs:110-123 *)
Record MarketplaceListingDetails := mkMarketplaceListingDetails {
  ml_seller : Address;
  ml_tier_id : Symbol;
  ml_price : Z;
  ml_quantity : Z;
  ml_active : bool;
  ml_created_at : Z }.
Definition set_ml_active (v : bool) (r : MarketplaceListingDetails) : MarketplaceListingDetails :=
  mkMarketplaceListingDetails (ml_seller r) (ml_tier_id r) (ml_price r) (ml_quantity r) v
  (ml_created_at r).

(** [StreamAccessControl], src/token_gating.rs:128-135 *)
Record StreamAccessControl := mkStreamAccessControl {
  sa_event_type : Symbol;
  sa_required_tier : Symbol;
  sa_premium : bool }.
Module TokenGatingError.
(** [TokenGatingError], src/token_gating.rs:170-201 *)
Inductive TokenGatingError : Set :=
  | Unauthorized | InsufficientTier | VerificationFailed | TierNotFound | InsufficientFunds
  | BridgeVerificationTimeout | InvalidTokenSpec | TierAlreadyExists | ListingNotFound
  | InsufficientInventory | StreamAccessControlNotFound | TierDisabled | InvalidPurchasePrice
  | VerificationRateLimitExceeded | BridgeNotConfigured.
#[global] Instance TokenGatingError_eq_dec : EqDecision TokenGatingError.
Proof. solve_decision. Defined.
End TokenGatingError.
Abbreviation TokenGatingError := TokenGatingError.TokenGatingError.

Module TokenGatingKey.
(** [TokenGatingKey]; the key of the rate limit is used with the bytes of a
    contract where it declares a symbol, src/token_gating.rs:142-161 *)
Inductive TokenGatingKey : Set :=
  | Owner
  | Tier (a0 : Symbol)
  | UserTiers (a0 : Address)
  | VerificationCache (a0 : Address) (a1 : Hash)
  | MarketplaceListing (a0 : Z)
  | NextListingId
  | StreamAccessControl (a0 : Symbol)
  | BridgeContracts
  | VerificationRateLimit (a0 : Address) (a1 : Bytes).
#[global] Instance TokenGatingKey_eq_dec : EqDecision TokenGatingKey.
Proof. solve_decision. Defined.
End TokenGatingKey.
Abbreviation TokenGatingKey := TokenGatingKey.TokenGatingKey.

Inductive GateTy : Set :=
  | XvAddress | XvTier | XvHoldings | XvRecord | XvListing | XvCount | XvControl | XvList | XvPair.
#[global] Instance GateTy_eq_dec : EqDecision GateTy.
Proof. solve_decision. Defined.

Definition gate_el (t : GateTy) : Type :=
  match t with
  | XvAddress => Address
  | XvTier => TokenTier
  | XvHoldings => list TierHolding
  | XvRecord => VerificationRecord
  | XvListing => MarketplaceListingDetails
  | XvCount => Z
  | XvControl => StreamAccessControl
  | XvList => list Address
  | XvPair => (Z * Z)%type
  end.

Definition gate_key_ty (k : TokenGatingKey) : GateTy :=
  match k with
  | TokenGatingKey.Owner => XvAddress
  | TokenGatingKey.Tier _ => XvTier
  | TokenGatingKey.UserTiers _ => XvHoldings
  | TokenGatingKey.VerificationCache _ _ => XvRecord
  | TokenGatingKey.MarketplaceListing _ => XvListing
  | TokenGatingKey.NextListingId => XvCount
  | TokenGatingKey.StreamAccessControl _ => XvControl
  | TokenGatingKey.BridgeContracts => XvList
  | TokenGatingKey.VerificationRateLimit _ _ => XvPair
  end.

Canonical gate_layout : Layout := {|
  key := TokenGatingKey; ty := GateTy; el := gate_el; layout_key_ty := gate_key_ty;
  key_dec := _; ty_dec := _; error := TokenGatingError; datum := Payload |}.

Abbreviation M := (CM gate_layout).
Abbreviation St := (CSt gate_layout).
Abbreviation store := (kvstore gate_layout).

(** [get_owner], src/token_gating.rs:544-549 *)
Definition get_owner : M Address :=
  let* o := iget TokenGatingKey.Owner in unwrap_or_raise o TokenGatingError.Unauthorized.

(** [get_tier_or_panic], src/token_gating.rs:551-556 *)
Definition get_tier_or_panic (tier_id : Symbol) : M TokenTier :=
  let* o := iget (TokenGatingKey.Tier tier_id) in unwrap_or_raise o TokenGatingError.TierNotFound.

(** [get_next_listing_id], src/token_gating.rs:558-570 *)
Definition get_next_listing_id : M Z :=
  let* current := iget_or TokenGatingKey.NextListingId 1 in
  let* next := u32_add current 1 in
  do* iset TokenGatingKey.NextListingId next in
  ret current.

(** [initialize], src/token_gating.rs:213-221 *)
Definition initialize (owner : Address) : M unit :=
  do* require_auth owner in
  let* there := ihas TokenGatingKey.Owner in
  do* reject_if there TokenGatingError.Unauthorized in
  iset TokenGatingKey.Owner owner.

(** [create_token_tier], src/token_gating.rs:228-264 *)
Definition create_token_tier (tier_id : Symbol) (description : string) (token_requirements : list TokenSpec)
    (purchase_price duration_ledgers : Z) (tradeable : bool) : M TokenTier :=
  let* owner := get_owner in
  do* require_auth owner in
  do* reject_if (bool_decide (token_requirements = [])) TokenGatingError.InvalidTokenSpec in
  let tier := mkTokenTier tier_id description token_requirements purchase_price duration_ledgers
                tradeable true in
  do* iset (TokenGatingKey.Tier tier_id) tier in
  ret tier.

(** [set_tier_enabled], src/token_gating.rs:267-281 *)
Definition set_tier_enabled (tier_id : Symbol) (enabled : bool) : M unit :=
  let* owner := get_owner in
  do* require_auth owner in
  let* tier := get_tier_or_panic tier_id in
  iset (TokenGatingKey.Tier tier_id) (set_tt_enabled enabled tier).

(** [get_tier], src/token_gating.rs:284-288 *)
Definition get_tier (tier_id : Symbol) : M (option TokenTier) := iget (TokenGatingKey.Tier tier_id).

(** Whether a holding gives access to a tier at a ledger. *)
Definition opens (tier_id : Symbol) (now : Z) (holding : TierHolding) : bool :=
  bool_decide (th_tier_id holding = tier_id) && th_verified holding &&
  (Z.eqb (th_expiry_ledger holding) 0 || Z.ltb now (th_expiry_ledger holding)).

(** [has_tier_access], src/token_gating.rs:295-310 *)
Definition has_tier_access (user : Address) (tier_id : Symbol) : M bool :=
  let* holdings := iget (TokenGatingKey.UserTiers user) in
  let* now := ledger_sequence in
  ret match holdings with
      | Some holdings => existsb (opens tier_id now) holdings
      | None => false
      end.

(** [grant_tier_to_user], src/token_gating.rs:313-354 *)
Definition grant_tier_to_user (user : Address) (tier_id : Symbol) (duration_ledgers : Z) : M unit :=
  let* tier := get_tier_or_panic tier_id in
  do* reject_if (negb (tt_enabled tier)) TokenGatingError.TierDisabled in
  let* holdings := iget_or (TokenGatingKey.UserTiers user) [] in
  let* now := ledger_sequence in
  let* expiry_ledger := if Z.ltb 0 duration_ledgers then u32_add now duration_ledgers else ret 0 in
  let* time := ledger_timestamp in
  let holding := mkTierHolding user tier_id expiry_ledger time true in
  iset (TokenGatingKey.UserTiers user) (holdings ++ [holding]).

(** [check_verification_rate_limit], src/token_gating.rs:572-595 *)
Definition check_verification_rate_limit (user : Address) (contract_addr : Bytes) : M unit :=
  let key := TokenGatingKey.VerificationRateLimit user contract_addr in
  let* last := iget_or key (0, 0) in
  let* current_ledger := ledger_sequence in
  let* new_count := if Z.eqb current_ledger (fst last) then u32_add (snd last) 1 else ret 1 in
  do* reject_if (Z.ltb 10 new_count) TokenGatingError.VerificationRateLimitExceeded in
  iset key (current_ledger, new_count).

(** [verify_stellar_balance], src/token_gating.rs:597-609 *)
Definition verify_stellar_balance (user : Address) (spec : TokenSpec) : bool := true.
(** [verify_evm_balance], src/token_gating.rs:611-623 *)
Definition verify_evm_balance (user : Address) (spec : TokenSpec) : bool := true.

(** [verify_token_balance], src/token_gating.rs:357-375 *)
Definition verify_token_balance (user : Address) (token_spec : TokenSpec) : M bool :=
  do* check_verification_rate_limit user (ts_contract_address token_spec) in
  ret match ts_standard token_spec with
      | TokenStandard.StellarAsset => verify_stellar_balance user token_spec
      | TokenStandard.ERC20 | TokenStandard.ERC721 | TokenStandard.ERC1155 =>
          verify_evm_balance user token_spec
      end.

(** [set_stream_access_control], src/token_gating.rs:382-407 *)
Definition set_stream_access_control (event_type required_tier : Symbol) (premium : bool) : M unit :=
  let* owner := get_owner in
  do* require_auth owner in
  iset (TokenGatingKey.StreamAccessControl event_type)
    (mkStreamAccessControl event_type required_tier premium).

(** [can_access_stream], src/token_gating.rs:410-421 *)
Definition can_access_stream (user : Address) (event_type : Symbol) : M bool :=
  let* control := iget (TokenGatingKey.StreamAccessControl event_type) in
  match control with
  | Some control => has_tier_access user (sa_required_tier control)
  | None => ret true
  end.

(** [list_tier_for_sale], src/token_gating.rs:428-470 *)
Definition list_tier_for_sale (invoker : Address) (tier_id : Symbol) (price quantity : Z) : M Z :=
  let* access := has_tier_access invoker tier_id in
  do* reject_if (negb access) TokenGatingError.InsufficientTier in
  let* tier := get_tier_or_panic tier_id in
  do* reject_if (negb (tt_tradeable tier)) TokenGatingError.Unauthorized in
  let* listing_id := get_next_listing_id in
  let* now := ledger_timestamp in
  do* iset (TokenGatingKey.MarketplaceListing listing_id)
        (mkMarketplaceListingDetails invoker tier_id price quantity true now) in
  ret listing_id.

(** The listing after a sale. *)
Definition sold_one (listing : MarketplaceListingDetails) : MarketplaceListingDetails :=
  if Z.ltb 0 (ml_quantity listing) then
    mkMarketplaceListingDetails (ml_seller listing) (ml_tier_id listing) (ml_price listing)
      (ml_quantity listing - 1)
      (if Z.eqb (ml_quantity listing - 1) 0 then false else ml_active listing) (ml_created_at listing)
  else listing.

(** [purchase_from_marketplace], src/token_gating.rs:473-515 *)
Definition purchase_from_marketplace (listing_id : Z) (buyer : Address) : M unit :=
  do* require_auth buyer in
  let* listing := iget (TokenGatingKey.MarketplaceListing listing_id) in
  let* listing := unwrap_or_raise listing TokenGatingError.ListingNotFound in
  do* reject_if (negb (ml_active listing)) TokenGatingError.ListingNotFound in
  do* reject_if (Z.ltb 0 (ml_quantity listing) && Z.ltb (ml_quantity listing) 1)
        TokenGatingError.InsufficientInventory in
  let* tier := get_tier_or_panic (ml_tier_id listing) in
  do* grant_tier_to_user buyer (tt_tier_id tier) (tt_duration_ledgers tier) in
  iset (TokenGatingKey.MarketplaceListing listing_id) (sold_one listing).

(** [cancel_marketplace_listing], src/token_gating.rs:518-538 *)
Definition cancel_marketplace_listing (listing_id : Z) : M unit :=
  let* listing := iget (TokenGatingKey.MarketplaceListing listing_id) in
  let* listing := unwrap_or_raise listing TokenGatingError.ListingNotFound in
  do* require_auth (ml_seller listing) in
  iset (TokenGatingKey.MarketplaceListing listing_id) (set_ml_active false listing).

End TokenGating.

(** ** Reputation *)

Module ReputationSystem.

Module ReputationTier.
(** [ReputationTier], src/reputation_system.rs:23-28 *)
Inductive ReputationTier : Set :=
  | Bronze | Silver | Gold | Platinum.
#[global] Instance ReputationTier_eq_dec : EqDecision ReputationTier.
Proof. solve_decision. Defined.
End ReputationTier.
Abbreviation ReputationTier := ReputationTier.ReputationTier.

(** [PeerReview], src/reputation_system.rs:33-41 *)
Record PeerReview := mkPeerReview {
  pr_id : Hash;
  pr_reviewer : Address;
  pr_subject : Address;
  pr_rating : Z;
  pr_comment : Bytes;
  pr_created_at : Z;
  pr_event_ref : Hash }.

(** [DisputeRecord], src/reputation_system.rs:46-55 *)
Record DisputeRecord := mkDisputeRecord {
  dr_id : Hash;
  dr_plaintiff : Address;
  dr_defendant : Address;
  dr_reason : Bytes;
  dr_status : Symbol;
  dr_created_at : Z;
  dr_resolved_at : Z;
  dr_resolution : Bytes }.

(** [ReputationScore], src/reputation_system.rs:60-71 *)
Record ReputationScore := mkReputationScore {
  rs_submitter : Address;
  rs_score : Z;
  rs_tier : Z;
  rs_event_count : Z;
  rs_positive_reviews : Z;
  rs_negative_reviews : Z;
  rs_disputes_won : Z;
  rs_disputes_lost : Z;
  rs_compliance_violations : Z;
  rs_last_updated : Z }.
Definition set_rs_tier (v : Z) (r : ReputationScore) : ReputationScore :=
  mkReputationScore (rs_submitter r) (rs_score r) v (rs_event_count r) (rs_positive_reviews r)
    (rs_negative_reviews r) (rs_disputes_won r) (rs_disputes_lost r) (rs_compliance_violations r)
    (rs_last_updated r).
(** [IncentiveRecord], src/reputation_system.rs:76-83 *)
Record IncentiveRecord := mkIncentiveRecord {
  ir_id : Hash;
  ir_recipient : Address;
  ir_incentive_type : Symbol;
  ir_amount : Z;
  ir_reason : Bytes;
  ir_awarded_at : Z }.

(** [ReputationConfig], src/reputation_system.rs:88-97 *)
Record ReputationConfig := mkReputationConfig {
  rc_base_score : Z;
  rc_bronze_threshold : Z;
  rc_silver_threshold : Z;
  rc_gold_threshold : Z;
  rc_platinum_threshold : Z;
  rc_review_weight : Z;
  rc_dispute_weight : Z;
  rc_compliance_penalty : Z }.

Module ReputationKey.
(** [ReputationKey], src/reputation_system.rs:104-118 *)
Inductive ReputationKey : Set :=
  | Owner
  | ReputationScore (a0 : Address)
  | AllSubmitterAddresses
  | PeerReview (a0 : Hash)
  | AllReviewIds
  | DisputeRecord (a0 : Hash)
  | AllDisputeIds
  | IncentiveRecord (a0 : Hash)
  | AllIncentiveIds
  | ReputationConfig
  | NextReviewId
  | NextDisputeId
  | NextIncentiveId.
#[global] Instance ReputationKey_eq_dec : EqDecision ReputationKey.
Proof. solve_decision. Defined.
End ReputationKey.
Abbreviation ReputationKey := ReputationKey.ReputationKey.

Module ReputationError.
(** [ReputationError], src/reputation_system.rs:127-140 *)
Inductive ReputationError : Set :=
  | Unauthorized | SubmitternotFound | ReviewNotFound | DisputeNotFound | IncentiveNotFound
  | InvalidRating | InvalidTier | SelfReview | DuplicateReview | DisputeAlreadyResolved
  | InsufficientReputation | ConfigNotFound.
#[global] Instance ReputationError_eq_dec : EqDecision ReputationError.
Proof. solve_decision. Defined.
End ReputationError.
Abbreviation ReputationError := ReputationError.ReputationError.

Inductive RepTy : Set :=
  | RvAddress | RvScore | RvAddresses | RvReview | RvHashes | RvDispute | RvIncentive | RvConfig | RvCount.
#[global] Instance RepTy_eq_dec : EqDecision RepTy.
Proof. solve_decision. Defined.

Definition rep_el (t : RepTy) : Type :=
  match t with
  | RvAddress => Address
  | RvScore => ReputationScore
  | RvAddresses => list Address
  | RvReview => PeerReview
  | RvHashes => list Hash
  | RvDispute => DisputeRecord
  | RvIncentive => IncentiveRecord
  | RvConfig => ReputationConfig
  | RvCount => Z
  end.

Definition rep_key_ty (k : ReputationKey) : RepTy :=
  match k with
  | ReputationKey.Owner => RvAddress
  | ReputationKey.ReputationScore _ => RvScore
  | ReputationKey.AllSubmitterAddresses => RvAddresses
  | ReputationKey.PeerReview _ => RvReview
  | ReputationKey.AllReviewIds | ReputationKey.AllDisputeIds | ReputationKey.AllIncentiveIds => RvHashes
  | ReputationKey.DisputeRecord _ => RvDispute
  | ReputationKey.IncentiveRecord _ => RvIncentive
  | ReputationKey.ReputationConfig => RvConfig
  | ReputationKey.NextReviewId | ReputationKey.NextDisputeId | ReputationKey.NextIncentiveId => RvCount
  end.

Canonical rep_layout : Layout := {|
  key := ReputationKey; ty := RepTy; el := rep_el; layout_key_ty := rep_key_ty;
  key_dec := _; ty_dec := _; error := ReputationError; datum := Payload |}.

Abbreviation M := (CM rep_layout).
Abbreviation St := (CSt rep_layout).
Abbreviation store := (kvstore rep_layout).

(** The configuration of a new contract. *)
Definition default_config : ReputationConfig := mkReputationConfig 100 100 500 1000 5000 10 50 100.

(** [require_owner], src/reputation_system.rs:551-560 *)
Definition require_owner (caller : Address) : M unit :=
  let* owner := iget ReputationKey.Owner in
  let* owner := unwrap_or_raise owner ReputationError.Unauthorized in
  reject_if (bool_decide (owner <> caller)) ReputationError.Unauthorized.

(** [get_review_or_panic], src/reputation_system.rs:562-567 *)
Definition get_review_or_panic (review_id : Hash) : M PeerReview :=
  let* o := iget (ReputationKey.PeerReview review_id) in unwrap_or_raise o ReputationError.ReviewNotFound.
(** [get_dispute_or_panic], src/reputation_system.rs:569-574 *)
Definition get_dispute_or_panic (dispute_id : Hash) : M DisputeRecord :=
  let* o := iget (ReputationKey.DisputeRecord dispute_id) in
  unwrap_or_raise o ReputationError.DisputeNotFound.
(** [get_incentive_or_panic], src/reputation_system.rs:576-581 *)
Definition get_incentive_or_panic (incentive_id : Hash) : M IncentiveRecord :=
  let* o := iget (ReputationKey.IncentiveRecord incentive_id) in
  unwrap_or_raise o ReputationError.IncentiveNotFound.


(** [get_next_review_id], src/reputation_system.rs:583-593 *)
Definition get_next_review_id : M Z :=
  let* current := iget_or ReputationKey.NextReviewId 1 in
  let* next := u32_add current 1 in
  do* iset ReputationKey.NextReviewId next in
  ret current.
(** [get_next_dispute_id], src/reputation_system.rs:595-605 *)
Definition get_next_dispute_id : M Z :=
  let* current := iget_or ReputationKey.NextDisputeId 1 in
  let* next := u32_add current 1 in
  do* iset ReputationKey.NextDisputeId next in
  ret current.
(** [get_next_incentive_id], src/reputation_system.rs:607-617 *)
Definition get_next_incentive_id : M Z :=
  let* current := iget_or ReputationKey.NextIncentiveId 1 in
  let* next := u32_add current 1 in
  do* iset ReputationKey.NextIncentiveId next in
  ret current.

(** [get_config], src/reputation_system.rs:238-252 *)
Definition get_config : M ReputationConfig := iget_or ReputationKey.ReputationConfig default_config.

(** [initialize], src/reputation_system.rs:152-178 *)
Definition initialize (owner : Address) : M unit :=
  do* require_auth owner in
  let* there := ihas ReputationKey.Owner in
  do* reject_if there ReputationError.Unauthorized in
  do* iset ReputationKey.Owner owner in
  do* iset ReputationKey.NextReviewId 1 in
  do* iset ReputationKey.NextDisputeId 1 in
  do* iset ReputationKey.NextIncentiveId 1 in
  iset ReputationKey.ReputationConfig default_config.

(** [get_reputation], src/reputation_system.rs:185-204 *)
Definition get_reputation (submitter : Address) : M ReputationScore :=
  let* score := iget (ReputationKey.ReputationScore submitter) in
  match score with
  | Some score => ret score
  | None =>
      let* config := get_config in
      let* now := ledger_timestamp in
      ret (mkReputationScore submitter (rc_base_score config) 0 0 0 0 0 0 0 now)
  end.

(** [compute_tier], src/reputation_system.rs:522-534 *)
Definition compute_tier (score : ReputationScore) : M Z :=
  let* config := get_config in
  ret (if Z.leb (rc_platinum_threshold config) (rs_score score) then 3
       else if Z.leb (rc_gold_threshold config) (rs_score score) then 2
       else if Z.leb (rc_silver_threshold config) (rs_score score) then 1
       else 0).

(** A score with new numbers, the time and then its tier; what does not change is passed again. *)
Definition with_score (r : ReputationScore) (score events positive negative won lost violations : Z)
    : M ReputationScore :=
  let* now := ledger_timestamp in
  let r := mkReputationScore (rs_submitter r) score (rs_tier r) events positive negative won lost
             violations now in
  let* tier := compute_tier r in
  ret (set_rs_tier tier r).

(** [update_event_count], src/reputation_system.rs:207-218 *)
Definition update_event_count (caller submitter : Address) : M unit :=
  do* require_owner caller in
  let* r := get_reputation submitter in
  let* n := u32_add (rs_event_count r) 1 in
  let* r := with_score r (rs_score r) n (rs_positive_reviews r) (rs_negative_reviews r)
              (rs_disputes_won r) (rs_disputes_lost r) (rs_compliance_violations r) in
  iset (ReputationKey.ReputationScore submitter) r.

(** [record_violation], src/reputation_system.rs:221-235 *)
Definition record_violation (caller submitter : Address) : M unit :=
  do* require_owner caller in
  let* r := get_reputation submitter in
  let* config := get_config in
  let* n := u32_add (rs_compliance_violations r) 1 in
  let* r := with_score r (u64_sat_sub (rs_score r) (rc_compliance_penalty config)) (rs_event_count r)
              (rs_positive_reviews r) (rs_negative_reviews r) (rs_disputes_won r)
              (rs_disputes_lost r) n in
  iset (ReputationKey.ReputationScore submitter) r.

(** [get_tier_name], src/reputation_system.rs:537-545 *)
Definition get_tier_name (tier : Z) : string :=
  if Z.eqb tier 0 then "Bronze"
  else if Z.eqb tier 1 then "Silver"
  else if Z.eqb tier 2 then "Gold"
  else if Z.eqb tier 3 then "Platinum"
  else "Unknown".

Section Hashed.
Context {C : Crypto}.

(** [sha2_digest], src/reputation_system.rs:619-627 *)
Definition sha2_digest (data : Bytes) : Hash := sha256 data.

(** [submit_review], src/reputation_system.rs:259-331 *)
Definition submit_review (reviewer subject : Address) (rating : Z) (comment : Bytes) (event_ref : Hash)
    : M PeerReview :=
  do* require_auth reviewer in
  do* reject_if (bool_decide (reviewer = subject)) ReputationError.SelfReview in
  do* reject_if (Z.ltb 5 rating) ReputationError.InvalidRating in
  let* id := get_next_review_id in
  let id_bytes := sha2_digest (u32_to_bytes id) in
  let* now := ledger_timestamp in
  let review := mkPeerReview id_bytes reviewer subject rating comment now event_ref in
  do* iset (ReputationKey.PeerReview id_bytes) review in
  let* all_ids := iget_or ReputationKey.AllReviewIds [] in
  do* iset ReputationKey.AllReviewIds (all_ids ++ [id_bytes]) in
  let* r := get_reputation subject in
  let* config := get_config in
  let* r := if Z.leb 3 rating then
              (let* n := u32_add (rs_positive_reviews r) 1 in
               let* score := u32_add (rs_score r) (rc_review_weight config) in
               with_score r score (rs_event_count r) n (rs_negative_reviews r) (rs_disputes_won r)
                 (rs_disputes_lost r) (rs_compliance_violations r))
            else
              (let* n := u32_add (rs_negative_reviews r) 1 in
               let score := u64_sat_sub (rs_score r) (rc_review_weight config) in
               with_score r score (rs_event_count r) (rs_positive_reviews r) n (rs_disputes_won r)
                 (rs_disputes_lost r) (rs_compliance_violations r)) in
  do* iset (ReputationKey.ReputationScore subject) r in
  ret review.

(** [file_dispute], src/reputation_system.rs:351-395 *)
Definition file_dispute (plaintiff defendant : Address) (reason : Bytes) : M DisputeRecord :=
  do* require_auth plaintiff in
  let* id := get_next_dispute_id in
  let id_bytes := sha2_digest (u32_to_bytes id) in
  let* now := ledger_timestamp in
  let dispute := mkDisputeRecord id_bytes plaintiff defendant reason "open" now 0 [] in
  do* iset (ReputationKey.DisputeRecord id_bytes) dispute in
  let* all_ids := iget_or ReputationKey.AllDisputeIds [] in
  do* iset ReputationKey.AllDisputeIds (all_ids ++ [id_bytes]) in
  ret dispute.

(** [award_incentive], src/reputation_system.rs:458-502 *)
Definition award_incentive (caller recipient : Address) (incentive_type : Symbol) (amount : Z)
    (reason : Bytes) : M IncentiveRecord :=
  do* require_owner caller in
  let* id := get_next_incentive_id in
  let id_bytes := sha2_digest (u32_to_bytes id) in
  let* now := ledger_timestamp in
  let incentive := mkIncentiveRecord id_bytes recipient incentive_type amount reason now in
  do* iset (ReputationKey.IncentiveRecord id_bytes) incentive in
  let* all_ids := iget_or ReputationKey.AllIncentiveIds [] in
  do* iset ReputationKey.AllIncentiveIds (all_ids ++ [id_bytes]) in
  ret incentive.

End Hashed.

(** The dispute once it is resolved. *)
Definition resolved (d : DisputeRecord) (now : Z) (resolution : Bytes) : DisputeRecord :=
  mkDisputeRecord (dr_id d) (dr_plaintiff d) (dr_defendant d) (dr_reason d) "resolved" (dr_created_at d)
    now resolution.

(** [resolve_dispute], src/reputation_system.rs:398-438 *)
Definition resolve_dispute (caller : Address) (dispute_id : Hash) (defendant_won : bool)
    (resolution : Bytes) : M unit :=
  do* require_owner caller in
  let* dispute := get_dispute_or_panic dispute_id in
  do* reject_if (bool_decide (dr_status dispute = "resolved"%string))
        ReputationError.DisputeAlreadyResolved in
  let* now := ledger_timestamp in
  let dispute := resolved dispute now resolution in
  do* iset (ReputationKey.DisputeRecord dispute_id) dispute in
  let* r := get_reputation (dr_defendant dispute) in
  let* config := get_config in
  let* r := if defendant_won then
              (let* n := u32_add (rs_disputes_won r) 1 in
               let* score := u32_add (rs_score r) (rc_dispute_weight config) in
               with_score r score (rs_event_count r) (rs_positive_reviews r) (rs_negative_reviews r) n
                 (rs_disputes_lost r) (rs_compliance_violations r))
            else
              (let* n := u32_add (rs_disputes_lost r) 1 in
               let score := u64_sat_sub (rs_score r) (rc_dispute_weight config) in
               with_score r score (rs_event_count r) (rs_positive_reviews r) (rs_negative_reviews r)
                 (rs_disputes_won r) n (rs_compliance_violations r)) in
  iset (ReputationKey.ReputationScore (dr_defendant dispute)) r.

(** [get_review], src/reputation_system.rs:334-336 *)
Definition get_review (review_id : Hash) : M PeerReview := get_review_or_panic review_id.
(** [list_review_ids], src/reputation_system.rs:339-344 *)
Definition list_review_ids : M (list Hash) := iget_or ReputationKey.AllReviewIds [].
(** [get_dispute], src/reputation_system.rs:441-443 *)
Definition get_dispute (dispute_id : Hash) : M DisputeRecord := get_dispute_or_panic dispute_id.
(** [list_dispute_ids], src/reputation_system.rs:446-451 *)
Definition list_dispute_ids : M (list Hash) := iget_or ReputationKey.AllDisputeIds [].
(** [get_incentive], src/reputation_system.rs:505-507 *)
Definition get_incentive (incentive_id : Hash) : M IncentiveRecord := get_incentive_or_panic incentive_id.
(** [list_incentive_ids], src/reputation_system.rs:510-515 *)
Definition list_incentive_ids : M (list Hash) := iget_or ReputationKey.AllIncentiveIds [].

End ReputationSystem.
