(* ===== verification/MarketsProps.v ===== *)
(** * Properties of the markets, insurance, token gating and reputation

    Shares and capital are accounted for, what a trade, a settlement and a
    claim do, how listings sell, and how scores follow from their history.
    Where the contracts leave a door open, the theorem says which. *)

From stdpp Require Import relations.
From S2P Require Import Prelude Contract Fallible StorageLemmas Sample Markets.

(** Inversion of runs that mix the contract monad and checked arithmetic. *)
Ltac cinv := repeat first [minv_step | rinv_step]; simpl in *.

(** The context at time [5 * n] and ledger [n] in which everyone has signed. *)
Definition at_ledger (n : Z) : Ctx := mkCtx (5 * n) n (fun _ => true) ledger.

(** A computation that does not heed who has signed. *)
Definition heedless {L A} (m : CM L A) : Prop :=
  forall t n self auth auth' s, m (mkCtx t n auth self) s = m (mkCtx t n auth' self) s.

Lemma heedless_bind {L A B} (m : CM L A) (f : A -> CM L B) :
  heedless m -> (forall x, heedless (f x)) -> heedless (bind m f).
Proof.
  intros Hm Hf t n self auth auth' s. unfold bind. rewrite (Hm t n self auth auth' s).
  destruct (m _ s) as [[x s']|]; [apply Hf|done].
Qed.

Ltac heedless_tac :=
  repeat first
    [ apply heedless_bind; [|intros ?]
    | match goal with |- heedless (match ?x with _ => _ end) => destruct x end
    | progress unfold u32_add, u64_add, u_sub, reject_if, unwrap_or_raise
    | by intros ? ? ? ? ? ? ].

(** ** Trading *)

Module Trading.
Import PredictionMarket.

Inductive pcall : Type :=
  | PInit (owner token : Address) (min_liquidity max_shares fee : Z)
  | PCreate (a : Address) (t : MarketType) (title description yes no : string)
      (liquidity trading resolution : Z) (oracle : Address) (fee : Z)
  | PBuy (a : Address) (i : Z) (b : bool) (q p : Z)
  | PSell (a : Address) (i : Z) (b : bool) (q p : Z)
  | PResolve (a : Address) (i : Z) (o : Outcome)
  | PClose (i : Z)
  | PSettle (i : Z) (u : Address).

Definition pexec (k : pcall) : M unit :=
  match k with
  | PInit o t l m f => initialize o t l m f
  | PCreate a t x d y n l tr r o f => do* create_market a t x d y n l tr r o f in ret tt
  | PBuy a i b q p => do* buy_shares a i b q p in ret tt
  | PSell a i b q p => do* sell_shares a i b q p in ret tt
  | PResolve a i o => resolve_market a i o
  | PClose i => close_market i
  | PSettle i u => do* settle_position i u in ret tt
  end.

(** Amounts are unsigned. *)
Definition unsigned (k : pcall) : Prop :=
  match k with
  | PCreate _ _ _ _ _ _ l _ _ _ _ => 0 <= l
  | PBuy _ _ _ q _ | PSell _ _ _ q _ => 0 <= q
  | _ => True
  end.

Inductive preach : St -> Prop :=
  | preach_nil : preach empty_state
  | preach_call k c s s' : preach s -> unsigned k -> pexec k c s = Ok (tt, s') -> preach s'.

(** The shares outstanding on a side, and those a user holds. *)
Definition side (m : Market) (b : bool) : Z := fst (supplies m b).
Definition held (st : store) (u : Address) (i : Z) (b : bool) : Z :=
  match sget st (MarketKey.Position u i) with Some p => holding p b | None => 0 end.

(** [n] shares of a side are in the positions of users. *)
Definition backed (st : store) (i : Z) (b : bool) (n : Z) : Prop :=
  exists us, NoDup us /\ (forall u, 0 <= held st u i b /\ (held st u i b <> 0 -> u ∈ us)) /\
    n = total_of (fun u => held st u i b) us.

Lemma backed_same st st' i b n :
  (forall u, held st' u i b = held st u i b) -> backed st i b n -> backed st' i b n.
Proof.
  intros H (us & Hd & Hu & ->). exists us. split; [done|]. split; [intros u; by rewrite H|].
  apply total_of_ext. intros u _. by rewrite H.
Qed.

Lemma backed_add st st' i b n a q :
  (forall u, u <> a -> held st' u i b = held st u i b) ->
  held st' a i b = held st a i b + q -> 0 <= held st' a i b -> backed st i b n -> backed st' i b (n + q).
Proof.
  intros Ho Ha H0 (us & Hd & Hu & ->).
  assert (exists vs, NoDup vs /\ a ∈ vs /\ (forall u, held st u i b <> 0 -> u ∈ vs) /\
    total_of (fun u => held st u i b) us = total_of (fun u => held st u i b) vs) as (vs & Hv & Hav & Hvs & ->).
  { destruct (decide (a ∈ us)) as [Hin|Hin].
    - exists us. split; [done|]. split; [done|]. split; [|done]. intros u. apply Hu.
    - exists (a :: us). split; [by constructor|]. split; [by left|]. split; [intros u Hx; right; by apply Hu|].
      simpl. destruct (decide (held st a i b = 0)) as [->|Hx]; [done|]. by apply Hu in Hx. }
  exists vs. split; [done|]. split.
  - intros u. destruct (decide (u = a)) as [->|Hne]; [done|]. rewrite Ho by done.
    split; [apply Hu|apply Hvs].
  - rewrite (total_of_update (fun u => held st u i b) (fun u => held st' u i b) vs a) by done. lia.
Qed.

Lemma backed_part st i b n u : backed st i b n -> held st u i b <= n.
Proof.
  intros (us & Hd & Hu & ->). destruct (decide (held st u i b = 0)) as [->|Hx].
  - apply total_of_nonneg. intros x. apply Hu.
  - apply (total_of_member (fun u => held st u i b)); [intros x; apply Hu|by apply Hu].
Qed.

Lemma held_position st a j (p : Position) u i b :
  held (sset st (MarketKey.Position a j) p) u i b =
  if bool_decide (u = a /\ i = j) then holding p b else held st u i b.
Proof.
  unfold held. destruct (decide (u = a /\ i = j)) as [[-> ->]|Hne].
  - rewrite bool_decide_eq_true_2 by done. by store_reads.
  - rewrite bool_decide_eq_false_2 by done. rewrite sset_ne; [done|]. intros [= -> ->]. by apply Hne.
Qed.

Definition position_key (k : MarketKey) : bool :=
  match k with MarketKey.Position _ _ => true | _ => false end.

Lemma held_other st k v u i b : position_key k = false -> held (sset st k v) u i b = held st u i b.
Proof. intros Hk. unfold held. rewrite sset_ne; [done|]. by intros ->. Qed.

Definition next_market (st : store) : Z :=
  match sget st MarketKey.MarketCounter with Some n => n | None => 1 end.

Record PInv (st : store) : Prop := {
  p_init : sget st MarketKey.Owner = None ->
    sget st MarketKey.Config = None /\ forall i, sget st (MarketKey.Market i) = None;
  p_next : forall i, is_Some (sget st (MarketKey.Market i)) -> i < next_market st;
  p_there : forall u i p, sget st (MarketKey.Position u i) = Some p ->
    is_Some (sget st (MarketKey.Market i));
  p_market : forall i m, sget st (MarketKey.Market i) = Some m -> 0 <= mk_total_liquidity m /\
    (forall b, backed st i b (side m b - mk_total_liquidity m / 2)) }.

Definition market_inv_key (k : MarketKey) : bool :=
  match k with
  | MarketKey.Owner | MarketKey.Config | MarketKey.MarketCounter | MarketKey.Market _
  | MarketKey.Position _ _ => true
  | _ => false
  end.

Lemma PInv_other st k v : market_inv_key k = false -> PInv st -> PInv (sset st k v).
Proof.
  intros Hk [H1 H2 H3 H4].
  assert (Hne : forall k' : MarketKey, market_inv_key k' = true -> sget (sset st k v) k' = sget st k').
  { intros k' Hk'. apply sset_ne. congruence. }
  split; unfold next_market in *.
  - rewrite !Hne by done. intros Ho. destruct (H1 Ho) as [Hc Hn]. split; [done|].
    intros i. by rewrite Hne.
  - intros i. rewrite !Hne by done. apply H2.
  - intros u i p. rewrite !Hne by done. apply H3.
  - intros i m. rewrite Hne by done. intros Hm. destruct (H4 i m Hm) as [Hl Hb]. split; [done|].
    intros b. eapply backed_same; [|apply Hb]. intros u. apply held_other. by destruct k.
Qed.

(** A market replaced by one with the same shares. *)
Lemma PInv_market st i m m' :
  sget st (MarketKey.Market i) = Some m -> mk_total_liquidity m' = mk_total_liquidity m ->
  (forall b, side m' b = side m b) -> PInv st -> PInv (sset st (MarketKey.Market i) m').
Proof.
  intros Hm Hl Hs [H1 H2 H3 H4].
  split; unfold next_market in *.
  - store_reads. intros Ho. by rewrite (proj2 (H1 Ho) i) in Hm.
  - intros j. destruct (decide (j = i)) as [->|Hj]; store_reads; [|apply H2].
    intros _. apply H2. by rewrite Hm.
  - intros u j p. store_reads. intros Hp. destruct (decide (j = i)) as [->|Hj]; store_reads; eauto.
  - intros j x. destruct (decide (j = i)) as [->|Hj]; store_reads.
    + intros [= <-]. destruct (H4 i m Hm) as [Hl' Hb]. rewrite Hl. split; [done|].
      intros b. rewrite Hs. eapply backed_same; [|apply Hb]. intros u. by apply held_other.
    + intros Hx. destruct (H4 j x Hx) as [Hl' Hb]. split; [done|].
      intros b. eapply backed_same; [|apply Hb]. intros u. by apply held_other.
Qed.

Lemma other_side (b b' : bool) : b' <> b -> b' = negb b.
Proof. by destruct b, b'. Qed.

(** A position that gains [q] shares of a side, and the side with it. *)
Lemma PInv_trade st i m m' a b p q :
  sget st (MarketKey.Market i) = Some m -> mk_total_liquidity m' = mk_total_liquidity m ->
  side m' b = side m b + q -> side m' (negb b) = side m (negb b) ->
  holding p b = held st a i b + q -> holding p (negb b) = held st a i (negb b) -> 0 <= holding p b ->
  PInv st -> PInv (sset (sset st (MarketKey.Position a i) p) (MarketKey.Market i) m').
Proof.
  intros Hm Hl Hs Hs' Hp Hp' H0 [H1 H2 H3 H4].
  match goal with |- PInv ?t => set (st' := t) end.
  assert (Hheld : forall u j b', held st' u j b' =
    if bool_decide (u = a /\ j = i) then holding p b' else held st u j b').
  { intros u j b'. unfold st'. rewrite held_other by done. apply held_position. }
  assert (Hsame : forall j b', (j, b') <> (i, b) -> forall u, held st' u j b' = held st u j b').
  { intros j b' Hne u. rewrite Hheld. case_bool_decide as Hx; [|done]. destruct Hx as [-> ->].
    rewrite (other_side b b'); [done|congruence]. }
  split; unfold next_market, st' in *.
  - store_reads. intros Ho. by rewrite (proj2 (H1 Ho) i) in Hm.
  - intros j. destruct (decide (j = i)) as [->|Hj]; store_reads; [|apply H2].
    intros _. apply H2. by rewrite Hm.
  - intros u j x. destruct (decide (j = i)) as [->|Hj]; store_reads; [done|apply H3].
  - intros j x. destruct (decide (j = i)) as [->|Hj]; store_reads.
    + intros [= <-]. destruct (H4 i m Hm) as [Hl' Hb]. rewrite Hl. split; [done|]. intros b'.
      destruct (decide (b' = b)) as [->|Hne].
      * replace (side m' b - mk_total_liquidity m / 2)
          with (side m b - mk_total_liquidity m / 2 + q) by lia.
        eapply (backed_add st _ i b _ a q); [| | |apply Hb].
        -- intros u Hu. rewrite Hheld, bool_decide_eq_false_2; [done|]. by intros [? _].
        -- by rewrite Hheld, bool_decide_eq_true_2.
        -- by rewrite Hheld, bool_decide_eq_true_2.
      * rewrite (other_side b b') by done. rewrite Hs'.
        eapply backed_same; [|apply Hb]. apply Hsame. intros [= ?]. by destruct b.
    + intros Hx. destruct (H4 j x Hx) as [Hl' Hb]. split; [done|].
      intros b'. eapply backed_same; [|apply Hb]. apply Hsame. by intros [= ? _].
Qed.
(** A position replaced by one with the same shares. *)
Lemma PInv_position st u i p p' :
  sget st (MarketKey.Position u i) = Some p -> is_Some (sget st (MarketKey.Market i)) ->
  (forall b, holding p' b = holding p b) -> PInv st -> PInv (sset st (MarketKey.Position u i) p').
Proof.
  intros Hp Hm Hb [H1 H2 H3 H4].
  assert (Hheld : forall v j b, held (sset st (MarketKey.Position u i) p') v j b = held st v j b).
  { intros v j b. rewrite held_position. case_bool_decide as Hx; [|done]. destruct Hx as [-> ->].
    rewrite Hb. unfold held. by rewrite Hp. }
  split; unfold next_market in *.
  - store_reads. intros Ho. destruct (H1 Ho) as [Hc Hn]. split; [done|]. intros j. by store_reads.
  - intros j. store_reads. apply H2.
  - intros v j q. destruct (decide ((v, j) = (u, i))) as [[= -> ->]|Hne]; store_reads; [done|apply H3].
  - intros j m. store_reads. intros Hj. destruct (H4 j m Hj) as [Hl Hs]. split; [done|].
    intros b. eapply backed_same; [|apply Hs]. intros v. apply Hheld.
Qed.

(** What a successful purchase does. *)
Lemma buy_Ok a i b q mx c (s s' : St) n :
  buy_shares a i b q mx c s = Ok (n, s') ->
  exists m p, sget (inst s) (MarketKey.Market i) = Some m /\ mk_status m = MarketStatus.Active /\
    cx_sequence c <= mk_trading_deadline m /\
    let x := side m b in let y := side m (negb b) in
    x + y + q <> 0 /\ y * 10000 / (x + y + q) <= mx /\ n = as_u32 (y * 10000 / (x + y + q)) /\
    0 <= held (inst s) a i b + q /\
    (forall b', holding p b' = held (inst s) a i b' + if bool_decide (b' = b) then q else 0) /\
    inst s' = sset (sset (inst s) (MarketKey.Position a i) p) (MarketKey.Market i) (set_side m b (x + q) n).
Proof.
  unfold buy_shares, get_market_or_panic, get_position. intros R.
  destruct b; simpl in R; cinv; zcase;
    (match goal with B : ~ mk_status _ <> _ |- _ => apply dec_stable in B end);
    eexists _, _; (split; [eassumption|]; split; [done|]; split; [lia|]).
  all: unfold side; simpl; split; [lia|]; split; [lia|]; split; [done|]; split; [|split; [|reflexivity]];
    unfold held; (match goal with |- context [sget ?t (MarketKey.Position ?u ?j)] =>
      destruct (sget t (MarketKey.Position u j)) as [p|] end); simpl in *; try lia;
    intros [|]; simpl; lia.
Qed.

Lemma sell_Ok a i b q mn c (s s' : St) n :
  sell_shares a i b q mn c s = Ok (n, s') ->
  exists m p, sget (inst s) (MarketKey.Market i) = Some m /\ mk_status m = MarketStatus.Active /\
    cx_sequence c <= mk_trading_deadline m /\
    let x := side m b in let y := side m (negb b) in
    x - q + y <> 0 /\ n = as_u32 (y * 10000 / (x - q + y)) /\ q <= held (inst s) a i b /\ q <= x /\
    (forall b', holding p b' = held (inst s) a i b' - if bool_decide (b' = b) then q else 0) /\
    inst s' = sset (sset (inst s) (MarketKey.Position a i) p) (MarketKey.Market i) (set_side m b (x - q) n).
Proof.
  unfold sell_shares, get_market_or_panic. intros R.
  destruct b; simpl in R; cinv; zcase;
    (match goal with B : ~ mk_status _ <> _ |- _ => apply dec_stable in B end);
    eexists _, _; (split; [eassumption|]; split; [done|]; split; [lia|]).
  all: unfold side, held; simpl;
    (match goal with B : sget _ (MarketKey.Position _ _) = Some _ |- _ => rewrite B end); simpl;
    split; [lia|]; split; [done|]; split; [lia|]; split; [lia|]; split; [|reflexivity];
    intros [|]; simpl; lia.
Qed.

Lemma settle_Ok i u c (s s' : St) n :
  settle_position i u c s = Ok (n, s') ->
  exists m o p, sget (inst s) (MarketKey.Market i) = Some m /\ mk_status m = MarketStatus.Resolved /\
    mk_resolved_outcome m = Some o /\ sget (inst s) (MarketKey.Position u i) = Some p /\
    ((po_settled p = true /\ n = 0 /\ s' = s) \/
     (po_settled p = false /\
      inst s' = sset (inst s) (MarketKey.Position u i) (set_po_settled true p) /\
      let payout := match o with
                    | Outcome.Yes => po_yes_shares p * 10000 / mk_yes_shares_outstanding m
                    | Outcome.No => po_no_shares p * 10000 / mk_no_shares_outstanding m
                    | Outcome.Invalid => po_cost_basis p
                    end in
      n = payout - payout * mk_settlement_fee_bps m / 10000 /\ 0 <= n /\
      0 <= payout * mk_settlement_fee_bps m /\
      (o = Outcome.Yes -> mk_yes_shares_outstanding m <> 0) /\
      (o = Outcome.No -> mk_no_shares_outstanding m <> 0))).
Proof.
  unfold settle_position, get_market_or_panic. intros R. minv. zcase.
  match goal with B : ~ mk_status _ <> _ |- _ => apply dec_stable in B end.
  destruct (po_settled _) eqn:Es.
  - cinv. eexists _, _, _. do 4 (split; [eassumption|]). left. done.
  - match type of R with bind (match ?x with _ => _ end) _ _ _ = _ => destruct x end;
      cinv; eexists _, _, _; (do 4 (split; [eassumption|])); right; (split; [done|]; split; [reflexivity|]);
      simpl; repeat split; try done; lia.
Qed.

Lemma create_Ok a t x d y n l tr rl o f c (s s' : St) z :
  create_market a t x d y n l tr rl o f c s = Ok (z, s') ->
  exists m ids,
    inst s' = sset (sset (sset (inst s) MarketKey.MarketCounter (next_market (inst s) + 1))
                      (MarketKey.Market (next_market (inst s))) m) (MarketKey.UserMarkets a) ids /\
    z = next_market (inst s) /\ is_Some (sget (inst s) MarketKey.Config) /\
    mk_total_liquidity m = l /\ mk_status m = MarketStatus.Active /\ mk_resolved_outcome m = None /\
    (forall b, side m b = l / 2).
Proof.
  unfold create_market, get_config, get_next_market_id. intros R. minv.
  eexists _, _. split; [reflexivity|]. repeat (split; [by eauto|]). by intros [|].
Qed.

(** A new market, which nobody has a position in. *)
Lemma PInv_create st m l :
  is_Some (sget st MarketKey.Config) -> 0 <= l -> mk_total_liquidity m = l ->
  (forall b, side m b = l / 2) -> PInv st ->
  PInv (sset (sset st MarketKey.MarketCounter (next_market st + 1)) (MarketKey.Market (next_market st)) m).
Proof.
  intros Hc H0 Hl Hs [H1 H2 H3 H4].
  assert (Hno : forall u, sget st (MarketKey.Position u (next_market st)) = None).
  { intros u. destruct (sget st (MarketKey.Position u _)) eqn:E; [|done]. apply H3, H2 in E. lia. }
  match goal with |- PInv ?t => set (st' := t) end.
  assert (Hheld : forall u j b, held st' u j b = held st u j b)
    by (intros u j b; unfold st'; by rewrite !held_other).
  assert (Hn : next_market st' = next_market st + 1) by (unfold next_market at 1, st'; by store_reads).
  split.
  - unfold st'. store_reads. intros Ho. destruct (H1 Ho) as [Hx _]. rewrite Hx in Hc. by destruct Hc.
  - intros i. rewrite Hn. unfold st'. destruct (decide (i = next_market st)) as [->|Hj]; store_reads; [lia|].
    intros Hi%H2. lia.
  - intros u i p. unfold st'. store_reads. intros Hp.
    destruct (decide (i = next_market st)) as [->|Hj]; store_reads; eauto.
  - intros i x. unfold st' at 1. destruct (decide (i = next_market st)) as [->|Hj]; store_reads.
    + intros [= <-]. rewrite Hl. split; [done|]. intros b. rewrite Hs, Z.sub_diag.
      exists []. split; [apply NoDup_nil_2|]. split; [|done]. intros u. rewrite Hheld. unfold held.
      by rewrite Hno.
    + intros Hx. destruct (H4 i x Hx) as [Hl' Hb]. split; [done|].
      intros b. eapply backed_same; [|apply Hb]. intros u. apply Hheld.
Qed.

Lemma PInv_step k c (s s' : St) :
  PInv (inst s) -> unsigned k -> pexec k c s = Ok (tt, s') -> PInv (inst s').
Proof.
  intros H Hk R. destruct k; simpl in R, Hk.
  - unfold initialize in R. minv.
    match goal with B : shas _ _ = false |- _ =>
      apply shas_false in B; destruct (p_init _ H B) as [_ Hn] end.
    do 2 (apply PInv_other; [done|]). destruct H as [I1 I2 I3 I4].
    split; unfold next_market.
    + store_reads. done.
    + intros i. store_reads. rewrite Hn. by intros [? ?].
    + intros u i p. store_reads. apply I3.
    + intros i m. store_reads. by rewrite Hn.
  - apply bind_Ok in R as (z & s1 & R & R2). injection R2 as <-.
    apply create_Ok in R as (m & ids & -> & _ & Hc & Hl & _ & _ & Hs).
    apply PInv_other; [done|]. by eapply PInv_create.
  - apply bind_Ok in R as (z & s1 & R & R2). injection R2 as <-.
    apply buy_Ok in R as (m & pos & Hm & _ & _ & _ & _ & _ & H0 & Hp & ->).
    eapply (PInv_trade _ i m _ a b pos q); try done; try by destruct b.
    + rewrite Hp, bool_decide_eq_false_2; [lia|by destruct b].
    + by rewrite Hp, bool_decide_eq_true_2.
  - apply bind_Ok in R as (z & s1 & R & R2). injection R2 as <-.
    apply sell_Ok in R as (m & pos & Hm & _ & _ & _ & _ & H0 & _ & Hp & ->).
    eapply (PInv_trade _ i m _ a b pos (- q)); try done; try by destruct b.
    + rewrite Hp, bool_decide_eq_false_2; [lia|by destruct b].
    + rewrite Hp, bool_decide_eq_true_2 by done. lia.
  - unfold resolve_market, get_market_or_panic in R. minv.
    eapply PInv_market; [eassumption|done|by intros [|]|done].
  - unfold close_market, get_owner, get_market_or_panic in R. minv.
    eapply PInv_market; [eassumption|done|by intros [|]|done].
  - apply bind_Ok in R as (z & s1 & R & R2). injection R2 as <-.
    apply settle_Ok in R as (m & o & p & Hm & _ & _ & Hp & [(_ & _ & ->)|(_ & -> & _)]); [done|].
    by eapply (PInv_position _ _ _ p); [| |by intros [|]|].
Qed.
Lemma preach_PInv s : preach s -> PInv (inst s).
Proof.
  induction 1 as [|k c s s' _ IH Hk R]; [|by eapply PInv_step].
  split; [done|by intros i [? ?]|done|done].
Qed.

(** C37: In every reachable state the shares outstanding on a side of a market are half of the liquidity it
    started with and what its users hold, each of whom holds no less than nothing. *)
Theorem shares_are_accounted_for (s : St) i m b :
  preach s -> sget (inst s) (MarketKey.Market i) = Some m ->
  exists us, NoDup us /\ (forall u, u ∉ us -> held (inst s) u i b = 0) /\
    (forall u, 0 <= held (inst s) u i b) /\
    side m b = mk_total_liquidity m / 2 + total_of (fun u => held (inst s) u i b) us.
Proof.
  intros H%preach_PInv Hm. destruct (p_market _ H i m Hm) as [_ Hb].
  destruct (Hb b) as (us & Hd & Hu & Hs). exists us. split; [done|]. split; [|split; [apply Hu|lia]].
  intros u Hn. destruct (decide (held (inst s) u i b = 0)) as [|Hx]; [done|]. by apply Hu in Hx.
Qed.

(** Buying shares and selling them at once is never done at a loss: the price of the sale is no less
    than that of the purchase, since only the purchase counts its shares in the total; the market is
    left with the shares it had. *)
Theorem round_trips_never_lose a i b q mx mn c1 c2 (s s1 s2 : St) n1 n2 m :
  preach s -> 0 <= q -> buy_shares a i b q mx c1 s = Ok (n1, s1) ->
  sell_shares a i b q mn c2 s1 = Ok (n2, s2) -> sget (inst s) (MarketKey.Market i) = Some m ->
  n1 <= n2 /\ (forall e, side m e = match sget (inst s2) (MarketKey.Market i) with
                                   | Some m2 => side m2 e | None => 0 end).
Proof.
  intros H%preach_PInv Hq (m1 & p1 & Hm1 & _ & _ & Ht1 & _ & -> & _ & _ & Es1)%buy_Ok
    (m2 & p2 & Hm2 & _ & _ & Ht2 & -> & _ & _ & _ & Es2)%sell_Ok Hm.
  rewrite Hm in Hm1. injection Hm1 as <-.
  rewrite Es1 in Hm2. rewrite sset_eq in Hm2. injection Hm2 as <-.
  destruct (p_market _ H i m Hm) as [Hl Hb].
  assert (forall e, 0 <= side m e) as Hpos.
  { intros e. pose proof (backed_part _ _ _ _ a (Hb e)) as Hx. destruct (Hb e) as (us & _ & Hu & _).
    destruct (Hu a) as [H0 _]. assert (0 <= mk_total_liquidity m / 2) by (apply Z.div_pos; lia). lia. }
  pose proof (Hpos b) as Hx. pose proof (Hpos (negb b)) as Hy.
  rewrite Es2. rewrite sset_eq. split.
  - assert (forall k, side (set_side m b (side m b + q) k) b = side m b + q) as Hs1 by (by destruct b).
    assert (forall k, side (set_side m b (side m b + q) k) (negb b) = side m (negb b)) as Hs2 by (by destruct b).
    rewrite !Hs1, !Hs2 in *. rewrite Z.add_simpl_r in *.
    assert (0 <= side m (negb b) * 10000 / (side m b + side m (negb b) + q)
            <= side m (negb b) * 10000 / (side m b + side m (negb b))) as Hle.
    { split; [apply Z.div_pos; lia|]. apply Z.div_le_compat_l; lia. }
    assert (side m (negb b) * 10000 / (side m b + side m (negb b)) <= 10000)
      by (apply Z.div_le_upper_bound; nia).
    unfold as_u32. rewrite !Z.mod_small by lia. lia.
  - intros e. destruct b, e; unfold side; simpl; lia.
Qed.

(** A settlement pays a share of 10,000, whatever was staked: with an outcome, no position is ever paid
    more than 10,000 units. *)
Theorem winners_are_paid_in_basis_points i u c (s s' : St) n m :
  preach s -> settle_position i u c s = Ok (n, s') -> sget (inst s) (MarketKey.Market i) = Some m ->
  0 <= mk_settlement_fee_bps m -> mk_resolved_outcome m <> Some Outcome.Invalid -> 0 <= n <= 10000.
Proof.
  intros H%preach_PInv (m' & o & p & Hm & _ & Ho & Hp & Hn)%settle_Ok Hm' Hf Hi.
  rewrite Hm in Hm'. injection Hm' as ->. rewrite Ho in Hi.
  destruct Hn as [(_ & -> & _)|(_ & _ & -> & H0 & Hfee & Hy & Hno)]; [lia|]. split; [done|].
  destruct (p_market _ H i m Hm) as [Hl Hb].
  assert (forall b, side m b <> 0 -> holding p b * 10000 / side m b <= 10000) as Hmax.
  { intros b Hne. assert (held (inst s) u i b = holding p b) as Eh by (unfold held; by rewrite Hp).
    pose proof (backed_part _ _ _ _ u (Hb b)) as Hx. destruct (Hb b) as (us & _ & Hu & _).
    destruct (Hu u) as [Hp0 _]. rewrite Eh in *.
    assert (0 <= mk_total_liquidity m / 2) by (apply Z.div_pos; lia).
    apply Z.div_le_upper_bound; lia. }
  destruct o; [specialize (Hmax true (Hy eq_refl))|specialize (Hmax false (Hno eq_refl))|done];
    unfold side in Hmax; simpl in Hmax;
    match goal with |- ?x - ?y / 10000 <= _ => assert (0 <= y / 10000) by (apply Z.div_pos; lia) end; lia.
Qed.

(** A position is paid once: after a settlement any other pays nothing and changes nothing. *)
Theorem positions_are_paid_once i u c1 c2 (s s1 s2 : St) n1 n2 :
  settle_position i u c1 s = Ok (n1, s1) -> settle_position i u c2 s1 = Ok (n2, s2) -> n2 = 0 /\ s2 = s1.
Proof.
  intros (m & o & p & Hm & _ & _ & Hp & Hn)%settle_Ok (m' & o' & p' & _ & _ & _ & Hp' & Hn')%settle_Ok.
  assert (po_settled p' = true) as Hs.
  { destruct Hn as [(Hs & _ & ->)|(_ & Es & _)].
    - rewrite Hp in Hp'. by injection Hp' as <-.
    - rewrite Es, sset_eq in Hp'. by injection Hp' as <-. }
  destruct Hn' as [(_ & -> & ->)|(Hs' & _)]; [done|]. by rewrite Hs in Hs'.
Qed.

(** *** The life of a market *)

Definition still (m m' : Market) : Prop :=
  mk_status m' = mk_status m /\ mk_resolved_outcome m' = mk_resolved_outcome m /\
  mk_oracle_address m' = mk_oracle_address m /\ mk_trading_deadline m' = mk_trading_deadline m.

(** How a call moves a market on. *)
Definition moves (k : pcall) (c : Ctx) (st : store) (i : Z) (m m' : Market) : Prop :=
  still m m' \/
  (k = PClose i /\ (exists o, sget st MarketKey.Owner = Some o /\ cx_auth c o = true) /\
   mk_status m = MarketStatus.Active /\ mk_trading_deadline m <= cx_sequence c /\
   m' = set_mk_status MarketStatus.Closed m) \/
  (exists o, k = PResolve (mk_oracle_address m) i o /\
   (mk_status m = MarketStatus.Closed \/ mk_status m = MarketStatus.Pending) /\
   m' = set_mk_status MarketStatus.Resolved (set_mk_resolved_outcome (Some o) m)).

Definition newborn (m : Market) : Prop :=
  mk_status m = MarketStatus.Active /\ mk_resolved_outcome m = None.

Lemma same_markets k c (st st' : store) :
  (forall i, sget st' (MarketKey.Market i) = sget st (MarketKey.Market i)) ->
  forall i, match sget st (MarketKey.Market i) with
            | Some m => exists m', sget st' (MarketKey.Market i) = Some m' /\ moves k c st i m m'
            | None => forall m', sget st' (MarketKey.Market i) = Some m' -> newborn m'
            end.
Proof.
  intros H i. rewrite H. destruct (sget st (MarketKey.Market i)) as [m|]; [|done].
  exists m. split; [done|]. by left.
Qed.

Lemma one_market k c (st st' : store) j m m' :
  (forall i, i <> j -> sget st' (MarketKey.Market i) = sget st (MarketKey.Market i)) ->
  sget st (MarketKey.Market j) = Some m -> sget st' (MarketKey.Market j) = Some m' ->
  moves k c st j m m' ->
  forall i, match sget st (MarketKey.Market i) with
            | Some m => exists m', sget st' (MarketKey.Market i) = Some m' /\ moves k c st i m m'
            | None => forall m', sget st' (MarketKey.Market i) = Some m' -> newborn m'
            end.
Proof.
  intros Ho Hm Hm' Hv i. destruct (decide (i = j)) as [->|Hne].
  - rewrite Hm. eauto.
  - rewrite Ho by done. destruct (sget st (MarketKey.Market i)) as [x|]; [|done].
    exists x. split; [done|]. by left.
Qed.

Lemma market_step k c (s s' : St) :
  PInv (inst s) -> pexec k c s = Ok (tt, s') ->
  forall i, match sget (inst s) (MarketKey.Market i) with
            | Some m => exists m', sget (inst s') (MarketKey.Market i) = Some m' /\ moves k c (inst s) i m m'
            | None => forall m', sget (inst s') (MarketKey.Market i) = Some m' -> newborn m'
            end.
Proof.
  intros H R. destruct k; simpl in R.
  - unfold initialize in R. minv. apply same_markets. intros i. by store_reads.
  - apply bind_Ok in R as (z & s1 & R & R2). injection R2 as <-.
    apply create_Ok in R as (m & ids & -> & _ & _ & _ & Hs & Ho & _). intros i.
    destruct (decide (i = next_market (inst s))) as [->|Hne]; store_reads.
    + destruct (sget (inst s) (MarketKey.Market _)) as [x|] eqn:E.
      * assert (is_Some (sget (inst s) (MarketKey.Market (next_market (inst s))))) as Hx by (rewrite E; eauto).
        apply (p_next _ H) in Hx. lia.
      * by intros m' [= <-].
    + destruct (sget (inst s) (MarketKey.Market i)) as [x|]; [|done]. exists x. split; [done|]. by left.
  - apply bind_Ok in R as (z & s1 & R & R2). injection R2 as <-.
    apply buy_Ok in R as (m & pos & Hm & _ & _ & _ & _ & _ & _ & _ & ->).
    eapply one_market; [|exact Hm|by store_reads|by left]. intros j Hj. by store_reads.
  - apply bind_Ok in R as (z & s1 & R & R2). injection R2 as <-.
    apply sell_Ok in R as (m & pos & Hm & _ & _ & _ & _ & _ & _ & _ & ->).
    eapply one_market; [|exact Hm|by store_reads|by left]. intros j Hj. by store_reads.
  - unfold resolve_market, get_market_or_panic in R. minv. zcase.
    eapply one_market; [|eassumption|by store_reads|].
    { intros j Hj. by store_reads. }
    right; right. exists o. split; [|split; [|done]].
    + f_equal. by apply dec_stable.
    + match goal with B : _ \/ _ |- _ => destruct B as [B|B]; apply bool_decide_eq_false, dec_stable in B end; auto.
  - unfold close_market, get_owner, get_market_or_panic in R. minv. zcase.
    eapply one_market; [|eassumption|by store_reads|].
    { intros j Hj. by store_reads. }
    right; left. split; [done|]. split; [eauto|]. split; [by apply dec_stable|]. split; [lia|done].
  - apply bind_Ok in R as (z & s1 & R & R2). injection R2 as <-.
    apply settle_Ok in R as (m & o & p & Hm & _ & _ & Hp & [(_ & _ & ->)|(_ & -> & _)]);
      apply same_markets; intros j; [done|by store_reads].
Qed.

(** The phases of a market: active, closed, resolved with an outcome. *)
Definition phase (m : Market) : Prop :=
  newborn m \/ (mk_status m = MarketStatus.Closed /\ mk_resolved_outcome m = None) \/
  (mk_status m = MarketStatus.Resolved /\ is_Some (mk_resolved_outcome m)).

Lemma preach_phase s : preach s -> forall i m, sget (inst s) (MarketKey.Market i) = Some m -> phase m.
Proof.
  induction 1 as [|k c s s' Hr IH Hk R]; [done|]. intros i m' Hm'.
  pose proof (market_step k c s s' (preach_PInv s Hr) R i) as Hs.
  destruct (sget (inst s) (MarketKey.Market i)) as [m|] eqn:Em; [|left; by apply Hs].
  destruct Hs as (x & Hx & Hv). rewrite Hm' in Hx. injection Hx as <-. specialize (IH i m Em).
  unfold phase, newborn in *. destruct Hv as [(E1 & E2 & _)|[(_ & _ & Hs & _ & ->)|(o & _ & Hs & ->)]].
  - by rewrite E1, E2.
  - right; left. simpl. split; [done|]. destruct IH as [[_ IH]|[[IH _]|[IH _]]]; congruence.
  - right; right. simpl. eauto.
Qed.

(** A market is closed by the owner after its trading deadline and then resolved by its oracle, and
    nothing else ever moves it: its outcome, once there, stays. *)
Theorem markets_only_advance k c (s s' : St) i m :
  preach s -> pexec k c s = Ok (tt, s') -> sget (inst s) (MarketKey.Market i) = Some m ->
  exists m', sget (inst s') (MarketKey.Market i) = Some m' /\ moves k c (inst s) i m m' /\ phase m /\
    (mk_status m = MarketStatus.Resolved -> still m m').
Proof.
  intros Hr R Hm. pose proof (market_step k c s s' (preach_PInv s Hr) R i) as Hs. rewrite Hm in Hs.
  destruct Hs as (m' & Hm' & Hv). exists m'. split; [done|]. split; [done|].
  split; [by apply (preach_phase s Hr i)|].
  intros Es. destruct Hv as [Hv|[(_ & _ & Hs & _)|(o & _ & [Hs|Hs] & _)]]; [done|congruence..].
Qed.

(** *** At concrete states *)

(** A market of 1000 in which alice bought 200 shares of "yes"; sold again, or resolved. *)
Definition p_run (n : Z) (k : pcall) (s : St) : St := post (pexec k) (at_ledger n) s.
Definition p_start : St := p_run 100 (PInit owner ledger 100 100000 100) empty_state.
Definition p_created : St :=
  p_run 101 (PCreate alice MarketType.Custom "t" "d" "y" "n" 1000 10 20 "oracle" 100) p_start.
Definition p_bought : St := p_run 102 (PBuy alice 0 true 200 10000) p_created.
Definition p_sold : St := p_run 103 (PSell alice 0 true 200 0) p_bought.
Definition p_closed : St := p_run 112 (PClose 0) p_bought.
Definition p_resolved : St := p_run 113 (PResolve "oracle" 0 Outcome.Yes) p_closed.
Definition p_settled : St := p_run 114 (PSettle 0 alice) p_resolved.

Lemma p_run_reach n k s :
  preach s -> unsigned k -> outcome (pexec k) (at_ledger n) s = Ok tt -> preach (p_run n k s).
Proof. intros Hr Hk H. eapply preach_call; [exact Hr|exact Hk|]. by apply run_outcome. Qed.

Lemma p_created_reach : preach p_created.
Proof. do 2 (apply p_run_reach; [|simpl; try lia; exact I|vm_compute; reflexivity]). apply preach_nil. Qed.

Lemma p_resolved_reach : preach p_resolved.
Proof.
  do 3 (apply p_run_reach; [|simpl; try lia; exact I|vm_compute; reflexivity]). exact p_created_reach.
Qed.

Lemma shares_are_accounted_for_witness :
  exists m us, sget (inst p_resolved) (MarketKey.Market 0) = Some m /\
    side m true = 500 + total_of (fun u => held (inst p_resolved) u 0 true) us /\ side m true = 700.
Proof.
  destruct (sget (inst p_resolved) (MarketKey.Market 0)) as [m|] eqn:E; [|vm_compute in E; discriminate E].
  destruct (shares_are_accounted_for p_resolved 0 m true p_resolved_reach E) as (us & _ & _ & _ & H).
  exists m, us. split; [reflexivity|]. vm_compute in E. injection E as <-. split; [exact H|reflexivity].
Defined.

Lemma round_trips_never_lose_witness :
  exists n1 n2, buy_shares alice 0 true 200 10000 (at_ledger 102) p_created = Ok (n1, p_bought) /\
    n1 < n2 /\ outcome (sell_shares alice 0 true 200 0) (at_ledger 103) p_bought = Ok n2.
Proof.
  assert (outcome (buy_shares alice 0 true 200 10000) (at_ledger 102) p_created = Ok 4166) as R1%run_outcome
    by (vm_compute; reflexivity).
  assert (outcome (sell_shares alice 0 true 200 0) (at_ledger 103) p_bought = Ok 5000) as R2
    by (vm_compute; reflexivity).
  assert (post (buy_shares alice 0 true 200 10000) (at_ledger 102) p_created = p_bought) as Es by reflexivity.
  rewrite Es in R1.
  destruct (sget (inst p_created) (MarketKey.Market 0)) as [m|] eqn:E; [|vm_compute in E; discriminate E].
  destruct (round_trips_never_lose alice 0 true 200 10000 0 _ _ _ _ _ _ _ m p_created_reach ltac:(lia) R1
    (run_outcome _ _ _ _ R2) E) as [H _].
  exists 4166, 5000. split; [exact R1|]. split; [|exact R2]. clear - H. lia.
Defined.

Lemma winners_are_paid_in_basis_points_witness :
  exists n, outcome (settle_position 0 alice) (at_ledger 114) p_resolved = Ok n /\ n <= 10000.
Proof.
  assert (outcome (settle_position 0 alice) (at_ledger 114) p_resolved = Ok 2829) as R
    by (vm_compute; reflexivity).
  destruct (sget (inst p_resolved) (MarketKey.Market 0)) as [m|] eqn:E; [|vm_compute in E; discriminate E].
  exists 2829. split; [exact R|].
  refine (proj2 (winners_are_paid_in_basis_points 0 alice _ _ _ 2829 m p_resolved_reach
    (run_outcome _ _ _ _ R) E _ _)); vm_compute in E; injection E as <-; simpl; [lia|discriminate].
Defined.

Lemma positions_are_paid_once_witness :
  exists n s', settle_position 0 alice (at_ledger 115) p_settled = Ok (n, s') /\ n = 0.
Proof.
  assert (outcome (settle_position 0 alice) (at_ledger 114) p_resolved = Ok 2829) as R1%run_outcome
    by (vm_compute; reflexivity).
  assert (outcome (settle_position 0 alice) (at_ledger 115) p_settled = Ok 0) as R2%run_outcome
    by (vm_compute; reflexivity).
  eexists _, _. split; [exact R2|].
  exact (proj1 (positions_are_paid_once 0 alice (at_ledger 114) (at_ledger 115) p_resolved p_settled _ _ 0 R1 R2)).
Defined.

Lemma markets_only_advance_witness :
  exists m m', sget (inst p_closed) (MarketKey.Market 0) = Some m /\
    sget (inst p_resolved) (MarketKey.Market 0) = Some m' /\ mk_resolved_outcome m' = Some Outcome.Yes /\
    phase m.
Proof.
  assert (preach p_closed) as Hr.
  { do 2 (apply p_run_reach; [|simpl; try lia; exact I|vm_compute; reflexivity]). exact p_created_reach. }
  assert (outcome (pexec (PResolve "oracle" 0 Outcome.Yes)) (at_ledger 113) p_closed = Ok tt) as R%run_outcome
    by (vm_compute; reflexivity).
  destruct (sget (inst p_closed) (MarketKey.Market 0)) as [m|] eqn:E; [|vm_compute in E; discriminate E].
  destruct (markets_only_advance _ _ _ _ 0 m Hr R E) as (m' & Hm' & _ & Hp & _).
  exists m, m'. split; [reflexivity|]. split; [exact Hm'|]. split; [|exact Hp].
  clear - Hm'. vm_compute in Hm'. by injection Hm' as <-.
Defined.

End Trading.

(** ** The oracle of the markets *)

Module Feeds.
Import PredictionMarketOracle.

Inductive fcall : Type :=
  | FInit (owner : Address) (min_oracles staleness tolerance : Z)
  | FRegister (a : Address) (l : list OracleFeedType)
  | FDeactivate (a : Address)
  | FSubmit (a : Address) (f : Symbol) (v d n : Z)
  | FAggregate (f : Symbol)
  | FThreshold (i : Z) (f : Symbol) (n d : Z).

Definition fexec (k : fcall) : M unit :=
  match k with
  | FInit o m s t => initialize o m s t
  | FRegister a l => register_provider a l
  | FDeactivate a => deactivate_provider a
  | FSubmit a f v d n => submit_price a f v d n
  | FAggregate f => do* aggregate_prices f in ret tt
  | FThreshold i f n d => set_outcome_threshold i f n d
  end.

Definition fstep (s s' : St) : Prop := exists k c, fexec k c s = Ok (tt, s').

Definition priced (st : store) : Prop :=
  forall f g, sget st (OracleKey.AggregatedPrice f) = Some g -> ag_median_price g = 0.

Lemma priced_other st k v :
  match k with OracleKey.AggregatedPrice _ => False | _ => True end -> priced st -> priced (sset st k v).
Proof. intros Hk H f g. rewrite sset_ne; [apply H|]. by intros ->. Qed.

Lemma priced_step s s' : priced (inst s) -> fstep s s' -> priced (inst s').
Proof.
  intros H (k & c & R). destruct k; simpl in R.
  - unfold initialize in R. minv. by repeat (apply priced_other; [done|]).
  - unfold register_provider, get_owner in R. minv. by repeat (apply priced_other; [done|]).
  - unfold deactivate_provider, get_owner in R. minv. by repeat (apply priced_other; [done|]).
  - unfold submit_price in R. minv. by repeat (apply priced_other; [done|]).
  - apply bind_Ok in R as (z & s1 & R & R2). injection R2 as <-.
    unfold aggregate_prices, get_config in R. minv. intros f' g.
    destruct (decide (f' = f)) as [->|Hne]; store_reads; [by intros [= <-]|apply H].
  - unfold set_outcome_threshold, get_owner in R. minv. by repeat (apply priced_other; [done|]).
Qed.

(** Whatever the providers report, every outcome is "no", unless its threshold is 0: the prices are
    never aggregated. *)
Theorem every_outcome_is_no (s : St) i c n s' t :
  rtc fstep empty_state s -> get_market_outcome i c s = Ok (n, s') ->
  sget (inst s) (OracleKey.OutcomeThreshold i) = Some t -> 0 < ot_threshold t -> n = 1.
Proof.
  intros Hr R Ht H0.
  assert (priced (inst s)) as H.
  { revert s Hr R Ht. intros s Hr _ _.
    apply (rtc_invariant fstep (fun s => priced (inst s)) empty_state); [by intros f g|..|done].
    intros y z _ Hy Hs. by eapply priced_step. }
  unfold get_market_outcome in R. minv.
  match goal with B : sget _ (OracleKey.OutcomeThreshold i) = Some _ |- _ => rewrite Ht in B; injection B as <- end.
  match goal with B : sget _ (OracleKey.AggregatedPrice _) = Some _ |- _ => rewrite (H _ _ B) end.
  destruct (Z.leb_spec (ot_threshold t) 0); [lia|done].
Qed.

Definition retired (st : store) (a : Address) : Prop :=
  exists p, sget st (OracleKey.OracleProvider a) = Some p /\ op_active p = false.

(** A provider that was deactivated stays so, and reports no price any more. *)
Theorem deactivation_is_final (s s1 s2 : St) a c :
  deactivate_provider a c s = Ok (tt, s1) -> rtc fstep s1 s2 ->
  retired (inst s2) a /\ forall f v d n c' s3, submit_price a f v d n c' s2 <> Ok (tt, s3).
Proof.
  intros R Hr. assert (retired (inst s1) a) as H1.
  { unfold deactivate_provider, get_owner in R. minv. eexists. split; [by store_reads|done]. }
  assert (retired (inst s2) a) as H2.
  { apply (rtc_invariant fstep (fun s => retired (inst s) a) s1); [done| |done]. clear.
    intros y z _ (p & Hp & Ha) (k & c & R). destruct k; simpl in R.
    - unfold initialize in R. minv. exists p. by store_reads.
    - unfold register_provider, get_owner in R. minv. zcase. exists p.
      rewrite sset_ne; [done|]. intros [= ->]. match goal with B : ~ is_Some _ |- _ => apply B; by eexists end.
    - unfold deactivate_provider, get_owner in R. minv.
      match goal with |- retired (sset _ (OracleKey.OracleProvider ?b) _) _ => destruct (decide (a = b)) as [->|Hne] end;
        [eexists; by store_reads|exists p; by store_reads].
    - unfold submit_price in R. minv. zcase.
      match goal with |- retired (sset _ (OracleKey.OracleProvider ?b) _) _ => destruct (decide (a = b)) as [->|Hne] end;
        [congruence|exists p; by store_reads].
    - apply bind_Ok in R as (u & s' & R & R2). injection R2 as <-.
      unfold aggregate_prices, get_config in R. minv. exists p. by store_reads.
    - unfold set_outcome_threshold, get_owner in R. minv. exists p. by store_reads. }
  split; [done|]. intros f v d n c' s3 R'. destruct H2 as (p & Hp & Ha). unfold submit_price in R'. minv.
  zcase. congruence.
Qed.

(** *** At concrete states *)

(** A provider that reported 100 for a feed, aggregated for market 7. *)
Definition f_run (n : Z) (k : fcall) (s : St) : St := post (fexec k) (at_ledger n) s.
Definition f_registered : St := f_run 101 (FRegister alice []) (f_run 100 (FInit owner 1 10 100) empty_state).
Definition f_asked : St :=
  f_run 104 (FThreshold 7 "f" 50 200) (f_run 103 (FAggregate "f") (f_run 102 (FSubmit alice "f" 100 2 90) f_registered)).

Lemma f_run_reach n k s0 s :
  rtc fstep s0 s -> outcome (fexec k) (at_ledger n) s = Ok tt -> rtc fstep s0 (f_run n k s).
Proof. intros Hr H. eapply rtc_r; [exact Hr|]. exists k, (at_ledger n). by apply run_outcome. Qed.

Lemma every_outcome_is_no_witness :
  outcome (get_market_outcome 7) (at_ledger 105) f_asked = Ok 1.
Proof.
  assert (rtc fstep empty_state f_asked) as Hr
    by (do 5 (apply f_run_reach; [|vm_compute; reflexivity]); apply rtc_refl).
  destruct (outcome (get_market_outcome 7) (at_ledger 105) f_asked) as [n|] eqn:R;
    [|vm_compute in R; discriminate R].
  destruct (sget (inst f_asked) (OracleKey.OutcomeThreshold 7)) as [t|] eqn:E; [|vm_compute in E; discriminate E].
  f_equal. apply (every_outcome_is_no f_asked 7 (at_ledger 105) n _ t Hr (run_outcome _ _ _ _ R) E).
  clear - E. vm_compute in E. injection E as <-. simpl. lia.
Defined.

Lemma deactivation_is_final_witness :
  ~ exists s3, submit_price alice "f" 1 2 3 (at_ledger 106) (f_run 105 (FDeactivate alice) f_asked) = Ok (tt, s3).
Proof.
  assert (outcome (deactivate_provider alice) (at_ledger 105) f_asked = Ok tt) as R%run_outcome
    by (vm_compute; reflexivity).
  intros [s3 R3]. exact (proj2 (deactivation_is_final _ _ _ alice _ R (rtc_refl _ _)) _ _ _ _ _ _ R3).
Defined.

End Feeds.

(** ** Insurance *)

Module Policies.
Import ParametricInsurance.

Inductive icall : Type :=
  | IInit (owner token : Address) (lo hi capital ratio : Z)
  | IBuy (a : Address) (t : PolicyType) (coverage premium duration claims deductible : Z)
      (oracle : Address) (trigger pool : Z)
  | IPay (a : Address) (i n : Z)
  | ICancel (a : Address) (i : Z)
  | IClaim (a : Address) (i : Z) (proof : Bytes)
  | IPool (manager : Address) (minimum share : Z)
  | IContribute (a : Address) (i n : Z).

Definition iexec (k : icall) : M unit :=
  match k with
  | IInit o t l h m r => initialize o t l h m r
  | IBuy a t c p d n x o r i => do* purchase_policy a t c p d n x o r i in ret tt
  | IPay a i n => pay_premium a i n
  | ICancel a i => cancel_policy a i
  | IClaim a i b => do* file_claim a i b in ret tt
  | IPool m n b => do* create_capital_pool m n b in ret tt
  | IContribute a i n => contribute_to_pool a i n
  end.

Definition next_pool (st : store) : Z :=
  match sget st InsuranceKey.PoolCounter with Some n => n | None => 1 end.

(** The coverage of the claims on a pool, since the pool was created. *)
Definition claimed (p n : Z) (k : icall) (st : store) : Z :=
  match k with
  | IClaim _ i _ => match sget st (InsuranceKey.Policy i) with
                    | Some x => if bool_decide (pl_capital_pool_id x = p) then n + pl_coverage_amount x else n
                    | None => n
                    end
  | IPool _ _ _ => if bool_decide (next_pool st = p) then 0 else n
  | _ => n
  end.

Inductive itrace (p : Z) : Z -> St -> Prop :=
  | itrace_nil : itrace p 0 empty_state
  | itrace_call k c n s s' :
      itrace p n s -> iexec k c s = Ok (tt, s') -> itrace p (claimed p n k (inst s)) s'.

Definition IInv (p n : Z) (st : store) : Prop :=
  forall x, sget st (InsuranceKey.CapitalPool p) = Some x ->
    cp_total_capital x = cp_available_capital x + cp_reserved_capital x + cp_total_claims_paid x + n.

Lemma IInv_other p n st k v : k <> InsuranceKey.CapitalPool p -> IInv p n st -> IInv p n (sset st k v).
Proof. intros Hk H x. rewrite sset_ne by done. apply H. Qed.

(** A pool replaced by one with the same sum. *)
Lemma IInv_pool p n st q x y :
  sget st (InsuranceKey.CapitalPool q) = Some x ->
  cp_total_capital y - (cp_available_capital y + cp_reserved_capital y + cp_total_claims_paid y) =
  cp_total_capital x - (cp_available_capital x + cp_reserved_capital x + cp_total_claims_paid x) ->
  IInv p n st -> IInv p n (sset st (InsuranceKey.CapitalPool q) y).
Proof.
  intros Hx E H z. destruct (decide (q = p)) as [->|Hne]; store_reads; [|apply H].
  intros [= <-]. specialize (H x Hx). lia.
Qed.

(** What a successful claim does: the policy is active, unexpired and under its limit; the coverage
    less the deductible is paid out of the available capital, of which what the ratio asks for stays. *)
Lemma claim_Ok a i b c (s s' : St) z :
  file_claim a i b c s = Ok (z, s') ->
  exists x y cfg cl n, sget (inst s) (InsuranceKey.Policy i) = Some x /\
    sget (inst s) (InsuranceKey.CapitalPool (pl_capital_pool_id x)) = Some y /\
    sget (inst s) InsuranceKey.Config = Some cfg /\
    pl_status x = PolicyStatus.Active /\ cx_sequence c <= pl_expiration_ledger x /\
    pl_claims_filed_this_year x < pl_max_claims_per_year x /\
    let payout := u64_sat_sub (pl_coverage_amount x) (Z.min (pl_coverage_amount x) (pl_deductible x)) in
    cp_total_capital y * ic_solvency_ratio_bps cfg / 10000 + payout <= cp_available_capital y /\
    pl_coverage_amount x <= cp_reserved_capital y /\
    cl_payout_amount cl = payout /\ cl_claimant cl = a /\ cl_policy_id cl = i /\
    inst s' = sset (sset (sset (sset (inst s) InsuranceKey.ClaimCounter n) (InsuranceKey.Claim z) cl)
      (InsuranceKey.Policy i) (with_claims x (pl_claims_filed_this_year x + 1)))
      (InsuranceKey.CapitalPool (pl_capital_pool_id x))
      (with_capital y (cp_total_capital y) (cp_available_capital y - payout)
         (cp_reserved_capital y - pl_coverage_amount x) (cp_total_claims_paid y + payout)).
Proof.
  unfold file_claim, get_policy_or_panic, get_pool_or_panic, get_config, get_next_claim_id. intros R.
  minv. store_reads. zcase.
  match goal with B : ~ pl_status _ <> _ |- _ => apply dec_stable in B end.
  repeat match goal with B : sget (sset _ _ _) _ = _ |- _ => rewrite sset_ne in B by done end.
  eexists _, _, _, _, _. do 4 (split; [eassumption|]). do 2 (split; [lia|]).
  split; [|split; [|split; [|split; [|split; [|reflexivity]]]]]; try done; lia.
Qed.

(** A new pool is empty. *)
Lemma pool_Ok m n b c (s s' : St) z :
  create_capital_pool m n b c s = Ok (z, s') ->
  z = next_pool (inst s) /\ exists x,
    cp_total_capital x = cp_available_capital x + cp_reserved_capital x + cp_total_claims_paid x + 0 /\
    inst s' = sset (sset (inst s) InsuranceKey.PoolCounter (next_pool (inst s) + 1))
      (InsuranceKey.CapitalPool (next_pool (inst s))) x.
Proof.
  unfold create_capital_pool, get_next_pool_id. intros R. minv. split; [done|].
  eexists. split; [|reflexivity]. done.
Qed.

(** A contribution adds to the capital, and only the share of its underwriter is written. *)
Lemma contribute_Ok a i n c (s s' : St) u :
  contribute_to_pool a i n c s = Ok (u, s') ->
  exists y w, sget (inst s) (InsuranceKey.CapitalPool i) = Some y /\
    inst s' = sset (sset (inst s) (InsuranceKey.CapitalPool i)
      (with_capital y (cp_total_capital y + n) (cp_available_capital y + n) (cp_reserved_capital y)
         (cp_total_claims_paid y))) (InsuranceKey.PoolShare a i) w /\
    ps_share_bps w = (if Z.ltb 0 (cp_total_capital y) then n * 10000 / (cp_total_capital y + n) else 10000).
Proof.
  unfold contribute_to_pool, get_pool_or_panic. intros R.
  apply bind_Ok in R as (y & s1 & Ry & R). minv.
  match goal with B : (if ?b then _ else _) _ _ = Ok _ |- _ => destruct b eqn:Eb end; cinv;
    (eexists _, _; split; [eassumption|]; split; [reflexivity|]); simpl; rewrite Eb; [|done].
  by rewrite Z.add_simpl_l.
Qed.

Lemma IInv_step p n k c (s s' : St) :
  IInv p n (inst s) -> iexec k c s = Ok (tt, s') -> IInv p (claimed p n k (inst s)) (inst s').
Proof.
  intros H R. destruct k; simpl in R; unfold claimed.
  - unfold initialize in R. minv. by repeat (apply IInv_other; [done|]).
  - apply bind_Ok in R as (z & s1 & R & R2). injection R2 as <-.
    unfold purchase_policy, get_config, get_pool_or_panic, get_next_policy_id in R. minv.
    apply IInv_other; [done|]. eapply IInv_pool; [store_reads; eassumption|simpl; lia|].
    by repeat (apply IInv_other; [done|]).
  - unfold pay_premium, get_policy_or_panic, get_pool_or_panic in R. minv.
    by repeat (apply IInv_other; [done|]).
  - unfold cancel_policy, get_policy_or_panic, get_pool_or_panic in R. minv.
    eapply IInv_pool; [store_reads; eassumption|simpl; lia|]. by repeat (apply IInv_other; [done|]).
  - apply bind_Ok in R as (z & s1 & R & R2). injection R2 as <-.
    apply claim_Ok in R as (x & y & cfg & cl & m & Hx & Hy & _ & _ & _ & _ & _ & _ & _ & _ & _ & ->).
    rewrite Hx. intros w. destruct (decide (pl_capital_pool_id x = p)) as [<-|Hne].
    + rewrite bool_decide_eq_true_2 by done. store_reads. intros [= <-]. simpl. specialize (H y Hy). lia.
    + rewrite bool_decide_eq_false_2 by done. store_reads. apply H.
  - apply bind_Ok in R as (z & s1 & R & R2). injection R2 as <-.
    apply pool_Ok in R as (-> & w & Hw & ->). intros x.
    destruct (decide (next_pool (inst s) = p)) as [<-|Hne].
    + rewrite bool_decide_eq_true_2 by done. store_reads. by intros [= <-].
    + rewrite bool_decide_eq_false_2 by done. store_reads. apply H.
  - apply contribute_Ok in R as (y & w & Hy & -> & _).
    apply IInv_other; [done|]. eapply IInv_pool; [exact Hy|simpl; lia|done].
Qed.

(** In every reachable state the capital of a pool is what is available, what is reserved, what was
    paid out and the coverage of all claims on it: each claim takes its coverage once more. *)
Theorem capital_is_accounted_for p n (s : St) x :
  itrace p n s -> sget (inst s) (InsuranceKey.CapitalPool p) = Some x ->
  cp_total_capital x = cp_available_capital x + cp_reserved_capital x + cp_total_claims_paid x + n.
Proof.
  intros Ht. assert (IInv p n (inst s)) as H; [|apply H].
  induction Ht as [|k c n s s' _ IH R]; [done|by eapply IInv_step].
Qed.

(** A claim is paid only under an active policy, in its term and under its limit, and only while the
    pool keeps what its solvency ratio asks for; the payout is the coverage less the deductible. *)
Theorem claims_need_cover a i b c (s s' : St) z x y cfg :
  file_claim a i b c s = Ok (z, s') -> sget (inst s) (InsuranceKey.Policy i) = Some x ->
  sget (inst s) (InsuranceKey.CapitalPool (pl_capital_pool_id x)) = Some y ->
  sget (inst s) InsuranceKey.Config = Some cfg -> 0 <= pl_deductible x ->
  pl_status x = PolicyStatus.Active /\ cx_sequence c <= pl_expiration_ledger x /\
  pl_claims_filed_this_year x < pl_max_claims_per_year x /\
  exists cl y', sget (inst s') (InsuranceKey.Claim z) = Some cl /\
    sget (inst s') (InsuranceKey.CapitalPool (pl_capital_pool_id x)) = Some y' /\
    cl_payout_amount cl = Z.max 0 (pl_coverage_amount x - pl_deductible x) /\
    cp_available_capital y' = cp_available_capital y - cl_payout_amount cl /\
    cp_total_capital y' * ic_solvency_ratio_bps cfg / 10000 <= cp_available_capital y'.
Proof.
  intros (x' & y1 & cfg' & cl & n & Hx & Hy & Hc & Hs & Hl & Hn & Hr & _ & Hp & _ & _ & ->)%claim_Ok Hx' Hy' Hc' H0.
  rewrite Hx' in Hx. injection Hx as <-. rewrite Hy' in Hy. injection Hy as <-.
  rewrite Hc' in Hc. injection Hc as <-. split; [done|]. split; [done|]. split; [done|].
  exists cl. eexists. split; [by store_reads|]. split; [by store_reads|].
  rewrite Hp. simpl. unfold u64_sat_sub in *. split; [lia|]. split; [done|]. lia.
Qed.

Lemma outcome_bind {L A B} (m : CM L A) (f g : A -> CM L B) c s :
  (forall x s', outcome (f x) c s' = outcome (g x) c s') -> outcome (bind m f) c s = outcome (bind m g) c s.
Proof. intros H. unfold outcome, bind in *. destruct (m c s) as [[x s']|]; [apply H|done]. Qed.

(** Whoever files a claim gets the same answer: neither the holder of the policy nor the oracle is
    asked. *)
Theorem anyone_may_claim a a' i b c (s : St) :
  outcome (file_claim a i b) c s = outcome (file_claim a' i b) c s.
Proof. unfold file_claim. repeat (apply outcome_bind; intros ? ?). reflexivity. Qed.

Lemma cancel_Ok a i c (s s' : St) u :
  cancel_policy a i c s = Ok (u, s') ->
  exists x y, sget (inst s) (InsuranceKey.Policy i) = Some x /\ a = pl_holder x /\
    sget (inst s) (InsuranceKey.CapitalPool (pl_capital_pool_id x)) = Some y /\
    inst s' = sset (sset (inst s) (InsuranceKey.Policy i) (set_pl_status PolicyStatus.Cancelled x))
      (InsuranceKey.CapitalPool (pl_capital_pool_id x))
      (with_capital y (cp_total_capital y) (cp_available_capital y + pl_coverage_amount x)
         (cp_reserved_capital y - pl_coverage_amount x) (cp_total_claims_paid y)).
Proof.
  unfold cancel_policy, get_policy_or_panic, get_pool_or_panic. intros R. minv. zcase.
  eexists _, _. split; [eassumption|]. split; [by apply dec_stable|]. split; [eassumption|done].
Qed.

(** A policy that is cancelled twice frees its coverage twice: the second time out of what is reserved
    for other policies. *)
Theorem coverage_is_freed_twice a i c1 c2 (s s1 s2 : St) x y :
  cancel_policy a i c1 s = Ok (tt, s1) -> cancel_policy a i c2 s1 = Ok (tt, s2) ->
  sget (inst s) (InsuranceKey.Policy i) = Some x ->
  sget (inst s) (InsuranceKey.CapitalPool (pl_capital_pool_id x)) = Some y ->
  exists y2, sget (inst s2) (InsuranceKey.CapitalPool (pl_capital_pool_id x)) = Some y2 /\
    cp_available_capital y2 = cp_available_capital y + 2 * pl_coverage_amount x /\
    cp_reserved_capital y2 = cp_reserved_capital y - 2 * pl_coverage_amount x.
Proof.
  intros (x0 & y0 & Hx0 & _ & Hy0 & E1)%cancel_Ok (x1 & y1 & Hx1 & _ & Hy1 & E2)%cancel_Ok Hx Hy.
  rewrite Hx in Hx0. injection Hx0 as <-. rewrite Hy in Hy0. injection Hy0 as <-.
  rewrite E1, sset_ne, sset_eq in Hx1 by done. injection Hx1 as <-. simpl in *.
  rewrite E1, sset_eq in Hy1. injection Hy1 as <-. simpl in *.
  eexists. rewrite E2. split; [by store_reads|]. simpl. lia.
Qed.

(** A premium of nothing makes a cancelled policy active again, and reserves nothing for it. *)
Theorem cancelled_policies_revive a i n c (s s' : St) x :
  pay_premium a i n c s = Ok (tt, s') -> sget (inst s) (InsuranceKey.Policy i) = Some x ->
  pl_status <$> sget (inst s') (InsuranceKey.Policy i) = Some PolicyStatus.Active /\
  (forall p, sget (inst s') (InsuranceKey.CapitalPool p) = sget (inst s) (InsuranceKey.CapitalPool p)).
Proof.
  intros R Hx. unfold pay_premium, get_policy_or_panic, get_pool_or_panic in R. minv.
  split; [by store_reads|]. intros p. by store_reads.
Qed.

(** The shares of a pool are more than the whole: the first underwriter keeps all of it when a second
    one joins. *)
Theorem shares_exceed_the_whole a b p n m c1 c2 (s s1 s2 : St) x :
  a <> b -> sget (inst s) (InsuranceKey.CapitalPool p) = Some x -> cp_total_capital x = 0 -> 0 < n ->
  contribute_to_pool a p n c1 s = Ok (tt, s1) -> contribute_to_pool b p m c2 s1 = Ok (tt, s2) ->
  ps_share_bps <$> sget (inst s2) (InsuranceKey.PoolShare a p) = Some 10000 /\
  ps_share_bps <$> sget (inst s2) (InsuranceKey.PoolShare b p) = Some (m * 10000 / (n + m)).
Proof.
  intros Hab Hx H0 Hn (x1 & w1 & Hx1 & E1 & S1)%contribute_Ok (x2 & w2 & Hx2 & E2 & S2)%contribute_Ok.
  rewrite Hx in Hx1. injection Hx1 as <-. rewrite E1, sset_ne, sset_eq in Hx2 by done. injection Hx2 as <-.
  cbn [cp_total_capital with_capital] in S2. rewrite H0 in S1, S2. rewrite Z.add_0_l in S2. simpl in S1.
  rewrite (proj2 (Z.ltb_lt 0 n) Hn) in S2. rewrite E2, E1. split.
  - store_reads. simpl. by rewrite S1.
  - store_reads. simpl. by rewrite S2.
Qed.

(** *** At concrete states *)

(** A pool of 1000 with two policies of 200; a claim, and cancellations. *)
Definition i_run (n : Z) (k : icall) (s : St) : St := post (iexec k) (at_ledger n) s.
Definition bob : Address := "bob".
Definition i_pool : St := i_run 101 (IPool owner 100 8000) (i_run 100 (IInit owner ledger 10 500 100 1000) empty_state).
Definition i_funded : St := i_run 102 (IContribute alice 0 1000) i_pool.
Definition i_policy (a : Address) : icall := IBuy a PolicyType.DataLoss 200 12 1000 3 50 "oracle" 7 0.
Definition i_covered : St := i_run 104 (i_policy bob) (i_run 103 (i_policy alice) i_funded).
Definition i_claimed : St := i_run 105 (IClaim bob 0 []) i_covered.
Definition i_cancelled : St := i_run 106 (ICancel alice 0) i_covered.

Lemma i_run_trace p n m k s :
  itrace p m s -> outcome (iexec k) (at_ledger n) s = Ok tt -> itrace p (claimed p m k (inst s)) (i_run n k s).
Proof. intros Ht H. eapply itrace_call; [exact Ht|]. by apply run_outcome. Qed.

Lemma capital_is_accounted_for_witness :
  exists x, sget (inst i_claimed) (InsuranceKey.CapitalPool 0) = Some x /\ cp_total_capital x = 1000 /\
    cp_available_capital x + cp_reserved_capital x + cp_total_claims_paid x = 1000 - 200.
Proof.
  assert (exists n, n = 200 /\ itrace 0 n i_claimed) as (n & -> & T).
  { eexists. split; [|do 6 (eapply i_run_trace; [|vm_compute; reflexivity]); constructor].
    vm_compute. reflexivity. }
  destruct (sget (inst i_claimed) (InsuranceKey.CapitalPool 0)) as [x|] eqn:E; [|vm_compute in E; discriminate E].
  pose proof (capital_is_accounted_for 0 200 i_claimed x T E) as H.
  assert (cp_total_capital x = 1000) as H1 by (clear - E; vm_compute in E; by injection E as <-).
  exists x. split; [reflexivity|]. split; [exact H1|]. clear - H H1. lia.
Defined.

Lemma claims_need_cover_witness :
  exists cl, sget (inst (post (file_claim bob 0 []) (at_ledger 105) i_covered)) (InsuranceKey.Claim 0) = Some cl /\
    cl_payout_amount cl = 150.
Proof.
  assert (outcome (file_claim bob 0 []) (at_ledger 105) i_covered = Ok 0) as R%run_outcome
    by (vm_compute; reflexivity).
  destruct (sget (inst i_covered) (InsuranceKey.Policy 0)) as [x|] eqn:Ex; [|vm_compute in Ex; discriminate Ex].
  assert (pl_capital_pool_id x = 0 /\ pl_coverage_amount x = 200 /\ pl_deductible x = 50) as (E1 & E2 & E3)
    by (clear - Ex; vm_compute in Ex; by injection Ex as <-).
  destruct (sget (inst i_covered) (InsuranceKey.CapitalPool (pl_capital_pool_id x))) as [y|] eqn:Ey;
    [|rewrite E1 in Ey; vm_compute in Ey; discriminate Ey].
  destruct (sget (inst i_covered) InsuranceKey.Config) as [g|] eqn:Eg; [|vm_compute in Eg; discriminate Eg].
  destruct (claims_need_cover bob 0 [] _ _ _ 0 x y g R Ex Ey Eg) as (_ & _ & _ & cl & y' & Hcl & _ & Hp & _);
    [rewrite E3; discriminate|].
  exists cl. split; [exact Hcl|]. rewrite Hp, E2, E3. reflexivity.
Defined.

Lemma coverage_is_freed_twice_witness :
  exists y, sget (inst (i_run 107 (ICancel alice 0) i_cancelled)) (InsuranceKey.CapitalPool 0) = Some y /\
    cp_available_capital y = 1000.
Proof.
  assert (outcome (cancel_policy alice 0) (at_ledger 106) i_covered = Ok tt) as R1%run_outcome
    by (vm_compute; reflexivity).
  assert (outcome (cancel_policy alice 0) (at_ledger 107) i_cancelled = Ok tt) as R2%run_outcome
    by (vm_compute; reflexivity).
  destruct (sget (inst i_covered) (InsuranceKey.Policy 0)) as [x|] eqn:Ex; [|vm_compute in Ex; discriminate Ex].
  assert (pl_capital_pool_id x = 0 /\ pl_coverage_amount x = 200) as (E1 & E2)
    by (clear - Ex; vm_compute in Ex; by injection Ex as <-).
  destruct (sget (inst i_covered) (InsuranceKey.CapitalPool (pl_capital_pool_id x))) as [y|] eqn:Ey;
    [|rewrite E1 in Ey; vm_compute in Ey; discriminate Ey].
  destruct (coverage_is_freed_twice alice 0 _ _ i_covered i_cancelled _ x y R1 R2 Ex Ey) as (y2 & Hy2 & Ha & _).
  rewrite E1 in Hy2. exists y2. split; [exact Hy2|]. rewrite Ha, E2.
  assert (cp_available_capital y = 600) as ->; [|reflexivity].
  clear - Ey E1. rewrite E1 in Ey. vm_compute in Ey. by injection Ey as <-.
Defined.

Lemma cancelled_policies_revive_witness :
  pl_status <$> sget (inst (i_run 107 (IPay alice 0 0) i_cancelled)) (InsuranceKey.Policy 0) =
  Some PolicyStatus.Active.
Proof.
  assert (outcome (pay_premium alice 0 0) (at_ledger 107) i_cancelled = Ok tt) as R%run_outcome
    by (vm_compute; reflexivity).
  destruct (sget (inst i_cancelled) (InsuranceKey.Policy 0)) as [x|] eqn:Ex; [|vm_compute in Ex; discriminate Ex].
  exact (proj1 (cancelled_policies_revive alice 0 0 (at_ledger 107) i_cancelled _ x R Ex)).
Defined.

Lemma shares_exceed_the_whole_witness :
  ps_share_bps <$> sget (inst (i_run 103 (IContribute bob 0 1000) i_funded)) (InsuranceKey.PoolShare alice 0)
  = Some 10000 /\
  ps_share_bps <$> sget (inst (i_run 103 (IContribute bob 0 1000) i_funded)) (InsuranceKey.PoolShare bob 0)
  = Some 5000.
Proof.
  assert (outcome (contribute_to_pool alice 0 1000) (at_ledger 102) i_pool = Ok tt) as R1%run_outcome
    by (vm_compute; reflexivity).
  assert (outcome (contribute_to_pool bob 0 1000) (at_ledger 103) i_funded = Ok tt) as R2%run_outcome
    by (vm_compute; reflexivity).
  destruct (sget (inst i_pool) (InsuranceKey.CapitalPool 0)) as [x|] eqn:Ex; [|vm_compute in Ex; discriminate Ex].
  assert (alice <> bob) as Hne by done.
  refine (shares_exceed_the_whole alice bob 0 1000 1000 _ _ i_pool i_funded _ x Hne Ex _ _ R1 R2); [|reflexivity].
  clear - Ex. vm_compute in Ex. by injection Ex as <-.
Defined.

End Policies.

(** ** Token gating *)

Module Gates.
Import TokenGating.

Inductive xcall : Type :=
  | XInit (owner : Address)
  | XTier (t : Symbol) (d : string) (l : list TokenSpec) (price duration : Z) (tradeable : bool)
  | XEnable (t : Symbol) (b : bool)
  | XGrant (u : Address) (t : Symbol) (d : Z)
  | XVerify (u : Address) (t : TokenSpec)
  | XControl (e t : Symbol) (b : bool)
  | XList (a : Address) (t : Symbol) (price quantity : Z)
  | XBuy (i : Z) (buyer : Address)
  | XCancel (i : Z).

Definition xexec (k : xcall) : M unit :=
  match k with
  | XInit o => initialize o
  | XTier t d l p n b => do* create_token_tier t d l p n b in ret tt
  | XEnable t b => set_tier_enabled t b
  | XGrant u t d => grant_tier_to_user u t d
  | XVerify u t => do* verify_token_balance u t in ret tt
  | XControl e t b => set_stream_access_control e t b
  | XList a t p q => do* list_tier_for_sale a t p q in ret tt
  | XBuy i b => purchase_from_marketplace i b
  | XCancel i => cancel_marketplace_listing i
  end.

Definition next_listing (st : store) : Z :=
  match sget st TokenGatingKey.NextListingId with Some n => n | None => 1 end.

Lemma access_run u t c (s : St) :
  has_tier_access u t c s =
  Ok (match sget (inst s) (TokenGatingKey.UserTiers u) with
      | Some l => existsb (opens t (cx_sequence c)) l
      | None => false
      end, s).
Proof. reflexivity. Qed.

(** What the operations that write holdings, limits and listings do. *)
Lemma grant_Ok u t d c (s s' : St) x :
  grant_tier_to_user u t d c s = Ok (x, s') ->
  exists tier h l, sget (inst s) (TokenGatingKey.Tier t) = Some tier /\ tt_enabled tier = true /\
    opens t (cx_sequence c) h = true /\
    inst s' = sset (inst s) (TokenGatingKey.UserTiers u) (l ++ [h]).
Proof.
  unfold grant_tier_to_user, get_tier_or_panic. intros R. minv. zcase.
  destruct (Z.ltb_spec 0 d); minv; (eexists _, _, _; split; [eassumption|]; split; [done|]; split; [|reflexivity]);
    unfold opens; simpl; rewrite bool_decide_eq_true_2 by done; simpl; [|done].
  apply orb_true_iff. right. apply Z.ltb_lt. lia.
Qed.

(** The ledger of the last verification of a pair, and how many that ledger has seen. *)
Definition last_check (st : store) (u : Address) (a : Bytes) : Z * Z :=
  match sget st (TokenGatingKey.VerificationRateLimit u a) with Some p => p | None => (0, 0) end.

Lemma verification_Ok u t c (s s' : St) b :
  verify_token_balance u t c s = Ok (b, s') ->
  b = true /\ exists n,
    n = (if Z.eqb (cx_sequence c) (fst (last_check (inst s) u (ts_contract_address t)))
         then snd (last_check (inst s) u (ts_contract_address t)) + 1 else 1) /\ n <= 10 /\
    inst s' = sset (inst s) (TokenGatingKey.VerificationRateLimit u (ts_contract_address t))
                (cx_sequence c, n).
Proof.
  unfold verify_token_balance, check_verification_rate_limit. intros R.
  apply bind_Ok in R as (y & s1 & R1 & R). minv.
  split; [by destruct (ts_standard t)|].
  match goal with B : (if ?e then _ else _) _ _ = Ok _ |- _ => destruct e eqn:E end; minv;
    (match goal with B : Z.ltb 10 _ = false |- _ => apply Z.ltb_ge in B end);
    (eexists; split; [|split; [|reflexivity]]; [|assumption]); unfold last_check;
    match goal with |- _ = if ?b then _ else _ => destruct b eqn:E' end;
    first [reflexivity | discriminate (eq_trans (eq_sym E) E')].
Qed.

Lemma list_Ok a t p q c (s s' : St) z :
  list_tier_for_sale a t p q c s = Ok (z, s') ->
  z = next_listing (inst s) /\ (exists tier, sget (inst s) (TokenGatingKey.Tier t) = Some tier /\ tt_tradeable tier = true) /\
  has_tier_access a t c s = Ok (true, s) /\
  exists l, inst s' = sset (sset (inst s) TokenGatingKey.NextListingId (next_listing (inst s) + 1))
      (TokenGatingKey.MarketplaceListing (next_listing (inst s))) l /\
    ml_seller l = a /\ ml_tier_id l = t /\ ml_quantity l = q /\ ml_active l = true.
Proof.
  unfold list_tier_for_sale, get_tier_or_panic, get_next_listing_id. intros R.
  apply bind_Ok in R as (b & s1 & Ra & R). pose proof Ra as Ra'. rewrite access_run in Ra. injection Ra as <- <-.
  minv. zcase. split; [done|]. split; [eauto|]. split; [|by eexists].
  rewrite Ra'. congruence.
Qed.

Lemma purchase_Ok i b c (s s' : St) u :
  purchase_from_marketplace i b c s = Ok (u, s') ->
  exists l tier h hs, sget (inst s) (TokenGatingKey.MarketplaceListing i) = Some l /\ ml_active l = true /\
    cx_auth c b = true /\
    sget (inst s) (TokenGatingKey.Tier (ml_tier_id l)) = Some tier /\
    opens (tt_tier_id tier) (cx_sequence c) h = true /\
    inst s' = sset (sset (inst s) (TokenGatingKey.UserTiers b) (hs ++ [h]))
      (TokenGatingKey.MarketplaceListing i) (sold_one l).
Proof.
  unfold purchase_from_marketplace, get_tier_or_panic. intros R.
  apply bind_Ok in R as (y & s1 & R1 & R). minv. clear B. zcase.
  match goal with B : grant_tier_to_user _ _ _ _ _ = Ok _ |- _ => apply grant_Ok in B as (tier' & h & hs & _ & _ & Ho & E) end.
  eexists _, _, h, hs. split; [eassumption|]. split; [done|]. split; [done|]. split; [eassumption|].
  split; [done|]. by rewrite E.
Qed.
(** *** Listings *)

Definition listing (st : store) (i : Z) : option MarketplaceListingDetails :=
  sget st (TokenGatingKey.MarketplaceListing i).

Lemma cancel_listing_Ok i c (s s' : St) u :
  cancel_marketplace_listing i c s = Ok (u, s') ->
  exists l, listing (inst s) i = Some l /\ cx_auth c (ml_seller l) = true /\
    inst s' = sset (inst s) (TokenGatingKey.MarketplaceListing i) (set_ml_active false l).
Proof. unfold cancel_marketplace_listing. intros R. minv. eauto. Qed.

(** How a call changes the listings: one is new, one is sold from, one is cancelled. *)
Definition listings_after (k : xcall) (st st' : store) : Prop :=
  match k with
  | XList a t _ q => next_listing st' = next_listing st + 1 /\
      exists l, listing st' (next_listing st) = Some l /\ ml_quantity l = q /\ ml_active l = true /\
      forall j, j <> next_listing st -> listing st' j = listing st j
  | XBuy i _ => next_listing st' = next_listing st /\
      exists l, listing st i = Some l /\ ml_active l = true /\ listing st' i = Some (sold_one l) /\
      forall j, j <> i -> listing st' j = listing st j
  | XCancel i => next_listing st' = next_listing st /\
      exists l, listing st i = Some l /\ listing st' i = Some (set_ml_active false l) /\
      forall j, j <> i -> listing st' j = listing st j
  | _ => next_listing st' = next_listing st /\ forall j, listing st' j = listing st j
  end.

Definition listing_key (k : TokenGatingKey) : bool :=
  match k with TokenGatingKey.NextListingId | TokenGatingKey.MarketplaceListing _ => true | _ => false end.

Lemma no_listing st k v :
  listing_key k = false ->
  next_listing (sset st k v) = next_listing st /\ forall j, listing (sset st k v) j = listing st j.
Proof.
  intros Hk. unfold next_listing, listing.
  split; [|intros j]; (rewrite sset_ne; [done|]); by intros ->.
Qed.

Lemma listings_step k c (s s' : St) :
  xexec k c s = Ok (tt, s') -> listings_after k (inst s) (inst s').
Proof.
  intros R. destruct k; simpl in R; unfold listings_after.
  - unfold initialize in R. minv. by apply no_listing.
  - apply bind_Ok in R as (z & s1 & R & R2). injection R2 as <-.
    unfold create_token_tier, get_owner in R. minv. by apply no_listing.
  - unfold set_tier_enabled, get_owner, get_tier_or_panic in R. minv. by apply no_listing.
  - apply grant_Ok in R as (tier & h & l & _ & _ & _ & ->). by apply no_listing.
  - apply bind_Ok in R as (z & s1 & R & R2). injection R2 as <-.
    apply verification_Ok in R as (_ & n & _ & _ & ->). by apply no_listing.
  - unfold set_stream_access_control, get_owner in R. minv. by apply no_listing.
  - apply bind_Ok in R as (z & s1 & R & R2). injection R2 as <-.
    apply list_Ok in R as (_ & _ & _ & l & -> & _ & _ & Hq & Ha).
    split; [unfold next_listing at 1; by store_reads|].
    exists l. unfold listing. split; [by store_reads|]. split; [done|]. split; [done|].
    intros j Hj. by store_reads.
  - apply purchase_Ok in R as (l & tier & h & hs & Hl & Ha & _ & _ & _ & ->).
    split; [unfold next_listing; by store_reads|].
    exists l. unfold listing. split; [done|]. split; [done|]. split; [by store_reads|].
    intros j Hj. by store_reads.
  - apply cancel_listing_Ok in R as (l & Hl & _ & ->).
    split; [unfold next_listing; by store_reads|].
    exists l. unfold listing. split; [done|]. split; [by store_reads|]. intros j Hj. by store_reads.
Qed.

(** The quantity a listing was created with, and how many times it was sold from. *)
Definition listed (i : Z) (k : xcall) (st : store) (q : Z) : Z :=
  match k with XList _ _ _ q' => if bool_decide (next_listing st = i) then q' else q | _ => q end.
Definition sold (i : Z) (k : xcall) (st : store) (n : Z) : Z :=
  match k with
  | XList _ _ _ _ => if bool_decide (next_listing st = i) then 0 else n
  | XBuy j _ => if bool_decide (j = i) then n + 1 else n
  | _ => n
  end.
Definition xunsigned (k : xcall) : Prop := match k with XList _ _ _ q => 0 <= q | _ => True end.

Inductive ltrace (i : Z) : Z -> Z -> St -> Prop :=
  | ltrace_nil : ltrace i 0 0 empty_state
  | ltrace_call k c q n s s' :
      ltrace i q n s -> xunsigned k -> xexec k c s = Ok (tt, s') ->
      ltrace i (listed i k (inst s) q) (sold i k (inst s) n) s'.

Record LInv (i q n : Z) (st : store) : Prop := {
  l_next : forall j, is_Some (listing st j) -> j < next_listing st;
  l_sold : forall l, listing st i = Some l -> 0 <= ml_quantity l /\ 0 <= n /\
    (0 < q -> ml_quantity l + n = q /\ (ml_active l = true -> 0 < ml_quantity l)) }.

Lemma LInv_step i k c q n (s s' : St) :
  LInv i q n (inst s) -> xunsigned k -> xexec k c s = Ok (tt, s') ->
  LInv i (listed i k (inst s) q) (sold i k (inst s) n) (inst s').
Proof.
  intros [H1 H2] Hk R%listings_step. destruct k; simpl in R, Hk |- *.
  1-6: destruct R as [E1 E2]; split;
    [intros j; rewrite E1, E2; apply H1|intros x; rewrite E2; apply H2].
  - destruct R as (E1 & l & Hl & Hq & Ha & E2). split.
    + intros j. rewrite E1. destruct (decide (j = next_listing (inst s))) as [->|Hj]; [lia|].
      rewrite E2 by done. intros Hx%H1. lia.
    + intros x. case_bool_decide as Hi.
      * subst i. rewrite Hl. intros [= <-]. rewrite Hq, Ha. split; [lia|]. split; lia.
      * rewrite E2 by done. apply H2.
  - destruct R as (E1 & l & Hl & Ha & Hl' & E2). split.
    + intros j. rewrite E1. destruct (decide (j = i0)) as [->|Hj]; [|rewrite E2 by done; apply H1].
      intros _. apply H1. by rewrite Hl.
    + intros x. case_bool_decide as Hi.
      * subst i0. rewrite Hl'. intros [= <-]. destruct (H2 l Hl) as (P1 & P2 & P3). unfold sold_one.
        destruct (Z.ltb_spec 0 (ml_quantity l)) as [Hlt|Hlt]; simpl.
        -- split; [lia|]. split; [lia|]. intros Hq. destruct (P3 Hq) as [P4 _]. split; [lia|].
           destruct (Z.eqb_spec (ml_quantity l - 1) 0); [done|lia].
        -- split; [lia|]. split; [lia|]. intros Hq. destruct (P3 Hq) as [_ P5]. specialize (P5 Ha). lia.
      * rewrite E2 by done. apply H2.
  - destruct R as (E1 & l & Hl & Hl' & E2). split.
    + intros j. rewrite E1. destruct (decide (j = i0)) as [->|Hj]; [|rewrite E2 by done; apply H1].
      intros _. apply H1. by rewrite Hl.
    + intros x. destruct (decide (i = i0)) as [->|Hi]; [|rewrite E2 by done; apply H2].
      rewrite Hl'. intros [= <-]. destruct (H2 l Hl) as (P1 & P2 & P3). simpl. split; [done|].
      split; [done|]. intros Hq. split; [by apply P3|done].
Qed.

(** A listing of [q] is sold from [q] times at most, and then no more. *)
Theorem listings_sell_what_they_list i q n (s : St) l :
  ltrace i q n s -> listing (inst s) i = Some l -> 0 < q ->
  n <= q /\ ml_quantity l = q - n /\
  (n = q -> forall b c s', purchase_from_marketplace i b c s <> Ok (tt, s')).
Proof.
  intros Ht Hl Hq. assert (LInv i q n (inst s)) as [H1 H2].
  { clear Hl Hq. induction Ht as [|k c q n s s' _ IH Hk R]; [|by eapply LInv_step].
    split; [by intros j [? ?]|done]. }
  destruct (H2 l Hl) as (P1 & P2 & P3). destruct (P3 Hq) as [P4 P5]. split; [lia|]. split; [lia|].
  intros Hn b c s' (l' & tier & h & hs & Hl' & Ha & _)%purchase_Ok. unfold listing in Hl.
  rewrite Hl in Hl'. injection Hl' as <-. specialize (P5 Ha). lia.
Qed.

(** *** Access *)

Definition xstep (s s' : St) : Prop := exists k c, xexec k c s = Ok (tt, s').

Definition named (st : store) : Prop :=
  forall t x, sget st (TokenGatingKey.Tier t) = Some x -> tt_tier_id x = t.

Lemma named_other st k v :
  match k with TokenGatingKey.Tier _ => False | _ => True end -> named st -> named (sset st k v).
Proof. intros Hk H t x. rewrite sset_ne; [apply H|]. by intros ->. Qed.

Lemma named_tier st t x : tt_tier_id x = t -> named st -> named (sset st (TokenGatingKey.Tier t) x).
Proof.
  intros Hx H u y. destruct (decide (u = t)) as [->|Hne]; store_reads; [by intros [= <-]|apply H].
Qed.

Lemma named_step s s' : named (inst s) -> xstep s s' -> named (inst s').
Proof.
  intros H (k & c & R). destruct k; simpl in R.
  - unfold initialize in R. minv. by apply named_other.
  - apply bind_Ok in R as (z & s1 & R & R2). injection R2 as <-.
    unfold create_token_tier, get_owner in R. minv. by apply named_tier.
  - unfold set_tier_enabled, get_owner, get_tier_or_panic in R. minv. apply named_tier; [|done].
    simpl. by apply H.
  - apply grant_Ok in R as (tier & h & l & _ & _ & _ & ->). by apply named_other.
  - apply bind_Ok in R as (z & s1 & R & R2). injection R2 as <-.
    apply verification_Ok in R as (_ & n & _ & _ & ->). by apply named_other.
  - unfold set_stream_access_control, get_owner in R. minv. by apply named_other.
  - apply bind_Ok in R as (z & s1 & R & R2). injection R2 as <-.
    apply list_Ok in R as (_ & _ & _ & l & -> & _). by repeat (apply named_other; [done|]).
  - apply purchase_Ok in R as (l & tier & h & hs & _ & _ & _ & _ & _ & ->).
    by repeat (apply named_other; [done|]).
  - apply cancel_listing_Ok in R as (l & _ & _ & ->). by apply named_other.
Qed.

(** A purchase gives the buyer the tier of the listing, and takes it from nobody: the seller keeps
    what was sold. *)
Theorem purchases_open_the_tier (s s' : St) i b c l :
  rtc xstep empty_state s -> purchase_from_marketplace i b c s = Ok (tt, s') ->
  sget (inst s) (TokenGatingKey.MarketplaceListing i) = Some l ->
  has_tier_access b (ml_tier_id l) c s' = Ok (true, s') /\
  (forall a, a <> b -> sget (inst s') (TokenGatingKey.UserTiers a) = sget (inst s) (TokenGatingKey.UserTiers a)).
Proof.
  intros Hr (l' & tier & h & hs & Hl' & _ & _ & Ht & Ho & E)%purchase_Ok Hl.
  rewrite Hl in Hl'. injection Hl' as <-.
  assert (named (inst s)) as Hn.
  { apply (rtc_invariant xstep (fun s => named (inst s)) empty_state); [by intros t x|..|done].
    intros y z _ Hy Hs. by eapply named_step. }
  rewrite (Hn _ _ Ht) in Ho. split.
  - rewrite access_run, E. store_reads. by rewrite existsb_app, (orb_comm (existsb _ hs)); simpl; rewrite Ho.
  - intros a Ha. rewrite E. by store_reads.
Qed.

(** Tiers are granted to whoever asks: a grant needs nobody's signature. *)
Theorem anyone_grants_tiers u t d : heedless (grant_tier_to_user u t d).
Proof. unfold grant_tier_to_user, get_tier_or_panic. heedless_tac. Qed.

(** *** Verifications *)

Definition check : Type := Address * Bytes * Z.

(** The verifications made, on ledgers that do not go back. *)
Inductive vtrace : Z -> list check -> St -> Prop :=
  | vtrace_nil : vtrace 0 [] empty_state
  | vtrace_call k c now l s s' :
      vtrace now l s -> now <= cx_sequence c -> xexec k c s = Ok (tt, s') ->
      vtrace (cx_sequence c)
        (match k with XVerify u t => [(u, ts_contract_address t, cx_sequence c)] | _ => [] end ++ l) s'.

Definition checks (u : Address) (a : Bytes) (n : Z) (l : list check) : Z :=
  Z.of_nat (length (filter (fun x => x = (u, a, n)) l)).

(** What is on record: the ledger of the last verification and how many it has seen. *)
Definition tallied (now : Z) (l : list check) (u : Address) (a : Bytes) (p : Z * Z) : Prop :=
  fst p <= now /\ (snd p = checks u a (fst p) l) /\ forall n, fst p < n -> checks u a n l = 0.

Definition VInv (now : Z) (l : list check) (st : store) : Prop :=
  0 <= now /\ forall u a,
    tallied now l u a (last_check st u a) /\
    (forall n, checks u a n l <= 10).

Lemma checks_cons u a n x l :
  checks u a n (x :: l) = (if bool_decide (x = (u, a, n)) then 1 else 0) + checks u a n l.
Proof.
  unfold checks. rewrite filter_cons. case_decide.
  - rewrite bool_decide_eq_true_2 by done. rewrite length_cons, Nat2Z.inj_succ. unfold Z.succ. apply Z.add_comm.
  - by rewrite bool_decide_eq_false_2.
Qed.

Definition rate_key (k : TokenGatingKey) : bool :=
  match k with TokenGatingKey.VerificationRateLimit _ _ => true | _ => false end.

Lemma VInv_kept now now' l st k v :
  rate_key k = false -> now <= now' -> VInv now l st -> VInv now' l (sset st k v).
Proof.
  intros Hk Hn [H0 H]. split; [lia|]. intros u a. destruct (H u a) as [(T1 & T2 & T3) Hc].
  assert (last_check (sset st k v) u a = last_check st u a) as ->
    by (unfold last_check; rewrite sset_ne; [done|by intros ->]).
  split; [|done]. split; [lia|done].
Qed.

Lemma VInv_step k c now l (s s' : St) :
  VInv now l (inst s) -> now <= cx_sequence c -> xexec k c s = Ok (tt, s') ->
  VInv (cx_sequence c)
    (match k with XVerify u t => [(u, ts_contract_address t, cx_sequence c)] | _ => [] end ++ l) (inst s').
Proof.
  intros H Hn R. destruct k; simpl in R; simpl app.
  - unfold initialize in R. minv. by eapply VInv_kept.
  - apply bind_Ok in R as (z & s1 & R & R2). injection R2 as <-.
    unfold create_token_tier, get_owner in R. minv. by eapply VInv_kept.
  - unfold set_tier_enabled, get_owner, get_tier_or_panic in R. minv. by eapply VInv_kept.
  - apply grant_Ok in R as (tier & h & hs & _ & _ & _ & ->). by eapply VInv_kept.
  - apply bind_Ok in R as (z & s1 & R & R2). injection R2 as <-.
    apply verification_Ok in R as (_ & n & En & Hle & ->).
    destruct H as [H0 H]. split; [lia|]. intros v b.
    set (a := ts_contract_address t) in *. destruct (H v b) as [(T1 & T2 & T3) Hc].
    destruct (decide ((v, b) = (u, a))) as [[= -> ->]|Hne].
    + assert (last_check (sset (inst s) (TokenGatingKey.VerificationRateLimit u a) (cx_sequence c, n)) u a
              = (cx_sequence c, n)) as -> by (unfold last_check; by store_reads).
      destruct (last_check (inst s) u a) as [l0 k0]. simpl in *. assert (checks u a (cx_sequence c) ((u, a, cx_sequence c) :: l) = n) as Ec.
      { rewrite checks_cons, bool_decide_eq_true_2 by done. rewrite En.
        destruct (Z.eqb_spec (cx_sequence c) l0) as [->|Hx]; [lia|]. rewrite T3; lia. }
      split.
      * split; [simpl; lia|]. split; [simpl; by rewrite Ec|]. simpl. intros m Hm.
        rewrite checks_cons, bool_decide_eq_false_2 by (intros [=]; lia). rewrite T3; lia.
      * intros m. destruct (decide (m = cx_sequence c)) as [->|Hm]; [by rewrite Ec|].
        rewrite checks_cons, bool_decide_eq_false_2 by (intros [=]; lia). apply Hc.
    + assert (forall m, checks v b m ((u, a, cx_sequence c) :: l) = checks v b m l) as Es.
      { intros m. rewrite checks_cons, bool_decide_eq_false_2; [lia|]. intros [= -> -> _]. by apply Hne. }
      assert (last_check (sset (inst s) (TokenGatingKey.VerificationRateLimit u a) (cx_sequence c, n)) v b
              = last_check (inst s) v b) as ->
        by (unfold last_check; rewrite sset_ne; [done|]; intros [= -> ->]; by apply Hne).
      split; [|intros m; by rewrite Es]. split; [lia|]. rewrite Es. split; [done|]. intros m Hm.
      rewrite Es. by apply T3.
  - unfold set_stream_access_control, get_owner in R. minv. by eapply VInv_kept.
  - apply bind_Ok in R as (z & s1 & R & R2). injection R2 as <-.
    apply list_Ok in R as (_ & _ & _ & x & -> & _).
    eapply VInv_kept; [done|exact Hn|]. by eapply VInv_kept.
  - apply purchase_Ok in R as (x & tier & h & hs & _ & _ & _ & _ & _ & ->).
    eapply VInv_kept; [done|exact Hn|]. by eapply VInv_kept.
  - apply cancel_listing_Ok in R as (x & _ & _ & ->). by eapply VInv_kept.
Qed.

(** On one ledger a user has no more than ten verifications of one token contract. *)
Theorem ten_verifications_a_ledger now l (s : St) u a n :
  vtrace now l s -> checks u a n l <= 10.
Proof.
  intros Ht. enough (VInv now l (inst s)) as [_ H] by apply H.
  induction Ht as [|k c now l s s' _ IH Hn R]; [|by eapply VInv_step].
  split; [done|]. intros v b. split; [done|]. intros m. unfold checks. simpl. lia.
Qed.

(** A verification that is made succeeds: no balance is looked at. *)
Theorem every_balance_is_verified u t c (s s' : St) b :
  verify_token_balance u t c s = Ok (b, s') -> b = true.
Proof. by intros [-> _]%verification_Ok. Qed.

(** *** At concrete states *)

(** A tier of alice, listed twice over and sold once to bob. *)
Definition x_run (n : Z) (k : xcall) (s : St) : St := post (xexec k) (at_ledger n) s.
Definition bob : Address := "bob".
Definition spec : TokenSpec := mkTokenSpec TokenStandard.ERC20 [1; 2] 0 10.
Definition x_tier : St := x_run 101 (XTier "gold" "d" [spec] 10 50 true) (x_run 100 (XInit owner) empty_state).
Definition x_granted : St := x_run 102 (XGrant alice "gold" 0) x_tier.
Definition x_listed : St := x_run 103 (XList alice "gold" 5 2) x_granted.
Definition x_bought : St := x_run 104 (XBuy 1 bob) x_listed.
Definition x_verified : St := x_run 105 (XVerify bob spec) x_bought.

Lemma x_run_ltrace i q m n k s :
  ltrace i q m s -> xunsigned k -> outcome (xexec k) (at_ledger n) s = Ok tt ->
  ltrace i (listed i k (inst s) q) (sold i k (inst s) m) (x_run n k s).
Proof. intros Ht Hk H. eapply ltrace_call; [exact Ht|exact Hk|]. by apply run_outcome. Qed.

Lemma x_run_reach n k s :
  rtc xstep empty_state s -> outcome (xexec k) (at_ledger n) s = Ok tt -> rtc xstep empty_state (x_run n k s).
Proof. intros Hr H. eapply rtc_r; [exact Hr|]. exists k, (at_ledger n). by apply run_outcome. Qed.

Lemma x_run_vtrace now l n k s :
  vtrace now l s -> now <= n -> outcome (xexec k) (at_ledger n) s = Ok tt ->
  vtrace n (match k with XVerify u t => [(u, ts_contract_address t, n)] | _ => [] end ++ l) (x_run n k s).
Proof. intros Ht Hn H. apply (vtrace_call k (at_ledger n) now l s); [exact Ht|exact Hn|]. by apply run_outcome. Qed.

Lemma listings_sell_what_they_list_witness :
  exists l, listing (inst x_bought) 1 = Some l /\ ml_quantity l = 2 - 1 /\ 1 <= 2.
Proof.
  assert (exists q n, q = 2 /\ n = 1 /\ ltrace 1 q n x_bought) as (q & n & -> & -> & T).
  { eexists _, _. split; [|split; [|do 5 (eapply x_run_ltrace; [|simpl; try lia; exact I|vm_compute; reflexivity]);
      apply ltrace_nil]]; vm_compute; reflexivity. }
  destruct (listing (inst x_bought) 1) as [l|] eqn:E; [|vm_compute in E; discriminate E].
  assert (0 < 2) as H0 by reflexivity.
  destruct (listings_sell_what_they_list 1 2 1 x_bought l T E H0) as (H1 & H2 & _).
  exists l. split; [reflexivity|]. split; [exact H2|exact H1].
Defined.

Lemma purchases_open_the_tier_witness :
  outcome (has_tier_access bob "gold") (at_ledger 104) x_bought = Ok true.
Proof.
  assert (rtc xstep empty_state x_listed) as Hr
    by (do 4 (apply x_run_reach; [|vm_compute; reflexivity]); apply rtc_refl).
  assert (outcome (purchase_from_marketplace 1 bob) (at_ledger 104) x_listed = Ok tt) as R%run_outcome
    by (vm_compute; reflexivity).
  destruct (sget (inst x_listed) (TokenGatingKey.MarketplaceListing 1)) as [l|] eqn:E;
    [|vm_compute in E; discriminate E].
  destruct (purchases_open_the_tier x_listed _ 1 bob (at_ledger 104) l Hr R E) as [H _].
  assert (ml_tier_id l = "gold"%string) as Et by (clear - E; vm_compute in E; by injection E as <-).
  rewrite Et in H. exact (outcome_run _ _ _ _ _ H).
Defined.

Lemma ten_verifications_a_ledger_witness :
  exists l, vtrace 105 l x_verified /\ checks bob [1; 2] 105 l = 1 /\ checks bob [1; 2] 105 l <= 10.
Proof.
  assert (exists l, l = [(bob, [1; 2], 105)] /\ vtrace 105 l x_verified) as (l & -> & T).
  { eexists. split; [|do 6 (eapply x_run_vtrace; [|shelve|vm_compute; reflexivity]); apply vtrace_nil].
    reflexivity. Unshelve. all: discriminate. }
  exists [(bob, [1; 2], 105)]. split; [exact T|]. split; [reflexivity|].
  exact (ten_verifications_a_ledger 105 _ x_verified bob [1; 2] 105 T).
Defined.

Lemma every_balance_is_verified_witness :
  exists b s', verify_token_balance bob spec (at_ledger 105) x_bought = Ok (b, s') /\ b = true.
Proof.
  assert (outcome (verify_token_balance bob spec) (at_ledger 105) x_bought = Ok true) as R%run_outcome
    by (vm_compute; reflexivity).
  eexists _, _. split; [exact R|]. exact (every_balance_is_verified _ _ _ _ _ _ R).
Defined.

End Gates.

(** ** Reputation *)

Module Scores.
Import ReputationSystem.

Inductive deed : Type := Logged | Violated | Won | Lost | Rated (rating : Z).

Section Scored.
Context {C : Crypto}.

Inductive rcall : Type :=
  | RInit (owner : Address)
  | REvent (caller a : Address)
  | RViolation (caller a : Address)
  | RReview (a b : Address) (rating : Z) (comment : Bytes) (e : Hash)
  | RFile (a b : Address) (reason : Bytes)
  | RResolve (caller : Address) (i : Hash) (won : bool) (b : Bytes)
  | RAward (caller a : Address) (t : Symbol) (n : Z) (reason : Bytes).

Definition rexec (k : rcall) : M unit :=
  match k with
  | RInit o => initialize o
  | REvent c a => update_event_count c a
  | RViolation c a => record_violation c a
  | RReview a b n c e => do* submit_review a b n c e in ret tt
  | RFile a b r => do* file_dispute a b r in ret tt
  | RResolve c i w b => resolve_dispute c i w b
  | RAward c a t n b => do* award_incentive c a t n b in ret tt
  end.

(** What a call does to whose score. *)
Definition deed_of (k : rcall) (st : store) : list (Address * deed) :=
  match k with
  | REvent _ a => [(a, Logged)]
  | RViolation _ a => [(a, Violated)]
  | RReview _ b n _ _ => [(b, Rated n)]
  | RResolve _ i w _ => match sget st (ReputationKey.DisputeRecord i) with
                        | Some d => [(dr_defendant d, if w then Won else Lost)]
                        | None => []
                        end
  | _ => []
  end.

Inductive htrace : list (Address * deed) -> St -> Prop :=
  | htrace_nil : htrace [] empty_state
  | htrace_call k c l s s' :
      htrace l s -> rexec k c s = Ok (tt, s') -> htrace (l ++ deed_of k (inst s)) s'.

Definition deeds (a : Address) (l : list (Address * deed)) : list deed :=
  (filter (fun x => x.1 = a) l).*2.

(** The specification: a score starts at 100, and each deed moves it. *)
Definition effect (n : Z) (d : deed) : Z :=
  match d with
  | Logged => n
  | Violated => Z.max (n - 100) 0
  | Won => n + 50
  | Lost => Z.max (n - 50) 0
  | Rated r => if Z.leb 3 r then n + 10 else Z.max (n - 10) 0
  end.
Definition score_of (l : list deed) : Z := fold_left effect l 100.

Definition tier_of (n : Z) : Z :=
  if Z.leb 5000 n then 3 else if Z.leb 1000 n then 2 else if Z.leb 500 n then 1 else 0.

Definition count (p : deed -> bool) (l : list deed) : Z := total_of (fun d => Z.b2z (p d)) l.

Definition favourable (d : deed) : bool := match d with Rated r => Z.leb 3 r | _ => false end.
Definition unfavourable (d : deed) : bool := match d with Rated r => Z.ltb r 3 | _ => false end.

Definition earned (l : list deed) (r : ReputationScore) : Prop :=
  rs_score r = score_of l /\ rs_tier r = tier_of (score_of l) /\
  rs_event_count r = count (fun d => match d with Logged => true | _ => false end) l /\
  rs_positive_reviews r = count favourable l /\ rs_negative_reviews r = count unfavourable l /\
  rs_disputes_won r = count (fun d => match d with Won => true | _ => false end) l /\
  rs_disputes_lost r = count (fun d => match d with Lost => true | _ => false end) l /\
  rs_compliance_violations r = count (fun d => match d with Violated => true | _ => false end) l.

Record RInv (l : list (Address * deed)) (st : store) : Prop := {
  r_config : sget st ReputationKey.ReputationConfig = None \/
             sget st ReputationKey.ReputationConfig = Some default_config;
  r_score : forall a, match sget st (ReputationKey.ReputationScore a) with
                      | Some r => earned (deeds a l) r
                      | None => deeds a l = []
                      end }.

Definition score_key (k : ReputationKey) : bool :=
  match k with ReputationKey.ReputationConfig | ReputationKey.ReputationScore _ => true | _ => false end.

Lemma RepInv_kept l st k v : score_key k = false -> RInv l st -> RInv l (sset st k v).
Proof.
  intros Hk [H1 H2]. split.
  - rewrite sset_ne; [done|]. by intros ->.
  - intros a. rewrite sset_ne; [apply H2|]. by intros ->.
Qed.

Lemma deeds_snoc a b d l : deeds a (l ++ [(b, d)]) = deeds a l ++ (if bool_decide (b = a) then [d] else []).
Proof.
  unfold deeds. rewrite filter_app, fmap_app. f_equal. rewrite filter_cons. simpl.
  case_decide as E; [by rewrite bool_decide_eq_true_2|by rewrite bool_decide_eq_false_2].
Qed.

Lemma RInv_deed l st a d r :
  earned (deeds a l ++ [d]) r -> RInv l st -> RInv (l ++ [(a, d)]) (sset st (ReputationKey.ReputationScore a) r).
Proof.
  intros Hr [H1 H2]. split; [by store_reads|]. intros b. rewrite deeds_snoc.
  destruct (decide (b = a)) as [->|Hne]; store_reads.
  - by rewrite bool_decide_eq_true_2.
  - rewrite bool_decide_eq_false_2 by congruence. rewrite app_nil_r. apply H2.
Qed.

Lemma config_run l c (s : St) : RInv l (inst s) -> get_config c s = Ok (default_config, s).
Proof. intros [[H|H] _]; unfold get_config, iget_or; by rewrite H. Qed.

Lemma reputation_Ok l a c (s s' : St) r :
  RInv l (inst s) -> get_reputation a c s = Ok (r, s') -> s' = s /\ earned (deeds a l) r.
Proof.
  intros H R. unfold get_reputation in R. apply bind_Ok in R as (o & s1 & R1 & R). injection R1 as <- <-.
  pose proof (r_score _ _ H a) as Ha.
  destruct (sget (inst s) (ReputationKey.ReputationScore a)) as [x|]; [by minv|].
  rewrite (bind_run _ _ _ _ _ _ (config_run l c s H)) in R. minv. by rewrite Ha.
Qed.

Lemma with_score_Ok l r x e p n w o v c (s s' : St) r' :
  RInv l (inst s) -> with_score r x e p n w o v c s = Ok (r', s') ->
  s' = s /\ rs_score r' = x /\ rs_tier r' = tier_of x /\ rs_event_count r' = e /\
  rs_positive_reviews r' = p /\ rs_negative_reviews r' = n /\ rs_disputes_won r' = w /\
  rs_disputes_lost r' = o /\ rs_compliance_violations r' = v.
Proof.
  intros H R. unfold with_score, compute_tier in R.
  apply bind_Ok in R as (t & s1 & R1 & R). injection R1 as <- <-.
  apply bind_Ok in R as (t & s1 & R1 & R). rewrite (bind_run _ _ _ _ _ _ (config_run l c s H)) in R1.
  minv. done.
Qed.

(** What is written after a deed is what has then been earned. *)
Lemma with_score_earned L l d r x e p n w o v c (s s' : St) r' :
  RInv L (inst s) -> earned l r -> with_score r x e p n w o v c s = Ok (r', s') ->
  x = effect (rs_score r) d ->
  e = rs_event_count r + Z.b2z (match d with Logged => true | _ => false end) ->
  p = rs_positive_reviews r + Z.b2z (favourable d) ->
  n = rs_negative_reviews r + Z.b2z (unfavourable d) ->
  w = rs_disputes_won r + Z.b2z (match d with Won => true | _ => false end) ->
  o = rs_disputes_lost r + Z.b2z (match d with Lost => true | _ => false end) ->
  v = rs_compliance_violations r + Z.b2z (match d with Violated => true | _ => false end) ->
  s' = s /\ earned (l ++ [d]) r'.
Proof.
  intros H (E1 & _ & E3 & E4 & E5 & E6 & E7 & E8) R -> -> -> -> -> -> ->.
  eapply with_score_Ok in R as (-> & F1 & F2 & F3 & F4 & F5 & F6 & F7 & F8); [|exact H]. split; [done|].
  unfold earned, score_of, count in *.
  rewrite fold_left_app, !total_of_app. simpl. rewrite <- E1. repeat split; lia || done.
Qed.

(** Reads a score and the configuration in a state that holds the scores of [l], and writes what has
    been earned with one more deed. *)
Lemma RInv_write L l a d r r' x e p n w o v c (s s' : St) :
  RInv L (inst s) -> l = deeds a L -> earned l r -> with_score r x e p n w o v c s = Ok (r', s') ->
  x = effect (rs_score r) d ->
  e = rs_event_count r + Z.b2z (match d with Logged => true | _ => false end) ->
  p = rs_positive_reviews r + Z.b2z (favourable d) ->
  n = rs_negative_reviews r + Z.b2z (unfavourable d) ->
  w = rs_disputes_won r + Z.b2z (match d with Won => true | _ => false end) ->
  o = rs_disputes_lost r + Z.b2z (match d with Lost => true | _ => false end) ->
  v = rs_compliance_violations r + Z.b2z (match d with Violated => true | _ => false end) ->
  RInv (L ++ [(a, d)]) (sset (inst s') (ReputationKey.ReputationScore a) r').
Proof.
  intros H -> Hr R. intros.
  eapply with_score_earned in R as [-> He]; [|exact H|exact Hr|eassumption..]. by apply RInv_deed.
Qed.

Ltac known H :=
  match goal with
  | R : get_reputation _ _ ?t = Ok _ |- _ =>
      let K := fresh "K" in
      assert (K : RInv _ (inst t)) by (simpl; repeat (apply RepInv_kept; [done|]); exact H);
      eapply reputation_Ok in R as [-> ?]; [|exact K]; simpl in K
  end;
  repeat match goal with
  | K : RInv _ _, R : get_config _ ?t = Ok _ |- _ =>
      rewrite (config_run _ _ t K) in R; injection R as <- <-
  end.

Ltac wrote d :=
  match goal with
  | K : RInv _ _, E : earned _ _, R : with_score _ _ _ _ _ _ _ _ _ ?t = Ok _ |- _ =>
      eapply (RInv_write _ _ _ d _ _ _ _ _ _ _ _ _ _ t); [exact K|reflexivity|exact E|exact R|..];
      simpl; unfold u64_sat_sub; try lia
  end.

Lemma RepInv_call k c l (s s' : St) :
  RInv l (inst s) -> rexec k c s = Ok (tt, s') -> RInv (l ++ deed_of k (inst s)) (inst s').
Proof.
  intros H R. destruct k; simpl in R; simpl deed_of; rewrite ?app_nil_r.
  - unfold initialize in R. minv. destruct H as [H1 H2]. split.
    + right. by store_reads.
    + intros z. store_reads. apply H2.
  - unfold update_event_count, require_owner in R. minv. known H. wrote Logged.
  - unfold record_violation, require_owner in R. minv. known H. wrote Violated.
  - apply bind_Ok in R as (z & s1 & R & R2). injection R2 as <-.
    unfold submit_review, get_next_review_id in R. minv. known H.
    match goal with R : (if _ then _ else _) _ _ = Ok _ |- _ => destruct (Z.leb 3 rating) eqn:E3 end; minv;
      wrote (Rated rating); simpl; unfold favourable, unfavourable; rewrite ?E3; zcase;
      rewrite ?(proj2 (Z.ltb_ge _ _)), ?(proj2 (Z.ltb_lt _ _)) by lia; simpl; lia.
  - apply bind_Ok in R as (z & s1 & R & R2). injection R2 as <-.
    unfold file_dispute, get_next_dispute_id in R. minv. by repeat (apply RepInv_kept; [done|]).
  - unfold resolve_dispute, require_owner, get_dispute_or_panic in R.
    apply bind_Ok in R as ([] & s1 & R1 & R). minv.
    match goal with B : sget _ (ReputationKey.DisputeRecord i) = Some _ |- _ => rewrite B end.
    known H.
    match goal with R : (if _ then _ else _) _ _ = Ok _ |- _ => destruct won end; minv;
      [wrote Won|wrote Lost].
  - apply bind_Ok in R as (z & s1 & R & R2). injection R2 as <-.
    unfold award_incentive, require_owner, get_next_incentive_id in R. minv.
    by repeat (apply RepInv_kept; [done|]).
Qed.

(** C24: In every reachable state a reputation is what its submitter has earned: the score is the fold of
    the deeds, in order, from 100, the tier is that of the score, and each counter counts its deeds. *)
Theorem reputations_are_earned l (s : St) a c r s' :
  htrace l s -> get_reputation a c s = Ok (r, s') -> s' = s /\ earned (deeds a l) r.
Proof.
  intros Ht. assert (RInv l (inst s)) as H; [|by apply reputation_Ok].
  induction Ht as [|k c' l s s1 _ IH R]; [|by eapply RepInv_call].
  split; [by left|done].
Qed.

End Scored.

(** What the owner alone may do, whoever names the owner may: no signature is asked for. *)
Theorem the_owner_is_not_asked {C : Crypto} caller a i b n t :
  heedless (update_event_count caller a) /\ heedless (record_violation caller a) /\
  (forall won, heedless (resolve_dispute caller i won b)) /\ heedless (award_incentive caller a t n b).
Proof.
  unfold update_event_count, record_violation, resolve_dispute, award_incentive, require_owner,
    get_dispute_or_panic, get_reputation, get_config, with_score, compute_tier, get_next_incentive_id.
  repeat split; intros; heedless_tac.
Qed.

(** *** At concrete states *)

#[local] Existing Instance sample_crypto.

(** A submitter reviewed twice, who lost a dispute. *)
Definition r_run (n : Z) (k : rcall) (s : St) : St := post (rexec k) (at_ledger n) s.
Definition bob : Address := "bob".
Definition r_reviewed : St :=
  r_run 102 (RReview alice bob 5 [] []) (r_run 101 (RReview alice bob 1 [] []) (r_run 100 (RInit owner) empty_state)).
Definition r_filed : St := r_run 103 (RFile alice bob []) r_reviewed.
Definition r_resolved : St :=
  r_run 104 (RResolve owner (sha2_digest (Codec.u32_to_bytes 1)) false []) r_filed.

Lemma r_run_trace n l k s :
  htrace l s -> outcome (rexec k) (at_ledger n) s = Ok tt -> htrace (l ++ deed_of k (inst s)) (r_run n k s).
Proof. intros Ht H. eapply htrace_call; [exact Ht|]. by apply run_outcome. Qed.

Lemma reputations_are_earned_witness :
  exists r, outcome (get_reputation bob) (at_ledger 105) r_resolved = Ok r /\
    rs_score r = score_of [Rated 1; Rated 5; Lost] /\ rs_positive_reviews r = 1.
Proof.
  assert (exists l, deeds bob l = [Rated 1; Rated 5; Lost] /\ htrace l r_resolved) as (l & El & T).
  { eexists. split; [|do 5 (eapply r_run_trace; [|vm_compute; reflexivity]); apply htrace_nil].
    vm_compute. reflexivity. }
  destruct (outcome (get_reputation bob) (at_ledger 105) r_resolved) as [r|] eqn:R;
    [|vm_compute in R; discriminate R].
  destruct (reputations_are_earned l r_resolved bob (at_ledger 105) r _ T (run_outcome _ _ _ _ R)) as [_ He].
  rewrite El in He. destruct He as (H1 & _ & _ & H2 & _).
  exists r. split; [reflexivity|]. split; [exact H1|exact H2].
Defined.

End Scores.
