(* ===== verification/Rwa.v ===== *)
(** * Real-world assets

    The types of src/rwa_types.rs, the registry of asset tokens
    (src/rwa_asset.rs), valuations (src/rwa_valuation.rs) and the compliance of
    investors (src/rwa_compliance.rs), which write instance storage and answer
    with a [Result] whose error is a text; the decisions of custody
    (src/rwa_custody.rs), KYC and AML (src/rwa_kyc_aml.rs), monitoring
    (src/rwa_monitoring.rs) and tokenization (src/rwa_tokenization.rs), which
    keep no state of their own; and the price oracles (src/rwa_oracle.rs).  Each
    source file has its own classes of assets and its own statuses, so each has
    its Module. *)

From S2P Require Import Prelude Contract Fallible StorageLemmas Codec Chain.

(** ** Types *)

Module RwaTypes.

Module AssetClass.
(** [AssetClass], src/rwa_types.rs:16-33 *)
Inductive AssetClass : Set :=
  | RealEstate | Equity | Debt | Commodity | IntellectualProperty | Infrastructure | TradeFinance
  | PrivateFund.
#[global] Instance AssetClass_eq_dec : EqDecision AssetClass.
Proof. solve_decision. Defined.

(** [AssetClass], its discriminants, src/rwa_types.rs:16-33 *)
Definition code (x : AssetClass) : Z :=
  match x with
  | RealEstate => 0 | Equity => 1 | Debt => 2 | Commodity => 3 | IntellectualProperty => 4
  | Infrastructure => 5 | TradeFinance => 6 | PrivateFund => 7
  end.
End AssetClass.
Abbreviation AssetClass := AssetClass.AssetClass.

Module TokenizationStatus.
(** [TokenizationStatus], src/rwa_types.rs:111-126 *)
Inductive TokenizationStatus : Set :=
  | Draft | PendingApproval | Active | Suspended | Redeeming | Matured | Rejected.
#[global] Instance TokenizationStatus_eq_dec : EqDecision TokenizationStatus.
Proof. solve_decision. Defined.

(** [TokenizationStatus], its discriminants, src/rwa_types.rs:111-126 *)
Definition code (x : TokenizationStatus) : Z :=
  match x with
  | Draft => 0 | PendingApproval => 1 | Active => 2 | Suspended => 3 | Redeeming => 4
  | Matured => 5 | Rejected => 6
  end.
End TokenizationStatus.
Abbreviation TokenizationStatus := TokenizationStatus.TokenizationStatus.

Module ComplianceFramework.
(** [ComplianceFramework], src/rwa_types.rs:167-184 *)
Inductive ComplianceFramework : Set :=
  | SEC | MiCA | AIFMD | CFTC | BaselIII | FATF | RegD | RegS.
#[global] Instance ComplianceFramework_eq_dec : EqDecision ComplianceFramework.
Proof. solve_decision. Defined.

(** [ComplianceFramework], its discriminants, src/rwa_types.rs:167-184 *)
Definition code (x : ComplianceFramework) : Z :=
  match x with
  | SEC => 0 | MiCA => 1 | AIFMD => 2 | CFTC => 3 | BaselIII => 4 | FATF => 5 | RegD => 6
  | RegS => 7
  end.
End ComplianceFramework.
Abbreviation ComplianceFramework := ComplianceFramework.ComplianceFramework.

Module KycTier.
(** [KycTier], src/rwa_types.rs:223-232 *)
Inductive KycTier : Set :=
  | None | Basic | Enhanced | Institutional.
#[global] Instance KycTier_eq_dec : EqDecision KycTier.
Proof. solve_decision. Defined.

(** [KycTier], its discriminants, src/rwa_types.rs:223-232 *)
Definition code (x : KycTier) : Z :=
  match x with
  | None => 0 | Basic => 1 | Enhanced => 2 | Institutional => 3
  end.
End KycTier.
Abbreviation KycTier := KycTier.KycTier.

(** [AssetClass::as_symbol], src/rwa_types.rs:37-48 *)
Definition as_symbol (c : AssetClass) : Symbol :=
  match c with
  | AssetClass.RealEstate => "REAL_EST"
  | AssetClass.Equity => "EQUITY"
  | AssetClass.Debt => "DEBT"
  | AssetClass.Commodity => "COMMODITY"
  | AssetClass.IntellectualProperty => "IP"
  | AssetClass.Infrastructure => "INFRA"
  | AssetClass.TradeFinance => "TRADE_FIN"
  | AssetClass.PrivateFund => "PVT_FUND"
  end.

(** [AssetClass::name], src/rwa_types.rs:51-62 *)
Definition class_name (c : AssetClass) : string :=
  match c with
  | AssetClass.RealEstate => "Real Estate"
  | AssetClass.Equity => "Equity"
  | AssetClass.Debt => "Debt / Fixed Income"
  | AssetClass.Commodity => "Commodity"
  | AssetClass.IntellectualProperty => "Intellectual Property"
  | AssetClass.Infrastructure => "Infrastructure"
  | AssetClass.TradeFinance => "Trade Finance"
  | AssetClass.PrivateFund => "Private Fund"
  end.

(** [AssetClass::requires_appraisal], src/rwa_types.rs:65-73 *)
Definition requires_appraisal (c : AssetClass) : bool :=
  match c with
  | AssetClass.RealEstate | AssetClass.Infrastructure | AssetClass.IntellectualProperty
  | AssetClass.Commodity => true
  | _ => false
  end.

(** [AssetClass::min_valuation_frequency_days], src/rwa_types.rs:76-87 *)
Definition min_valuation_frequency_days (c : AssetClass) : Z :=
  match c with
  | AssetClass.RealEstate => 365
  | AssetClass.Equity => 1
  | AssetClass.Debt => 1
  | AssetClass.Commodity => 1
  | AssetClass.IntellectualProperty => 180
  | AssetClass.Infrastructure => 365
  | AssetClass.TradeFinance => 30
  | AssetClass.PrivateFund => 90
  end.

(** [AssetClass::from_u8], src/rwa_types.rs:90-102 *)
Definition class_from_u8 (v : Z) : option AssetClass :=
  match v with
  | 0 => Some AssetClass.RealEstate
  | 1 => Some AssetClass.Equity
  | 2 => Some AssetClass.Debt
  | 3 => Some AssetClass.Commodity
  | 4 => Some AssetClass.IntellectualProperty
  | 5 => Some AssetClass.Infrastructure
  | 6 => Some AssetClass.TradeFinance
  | 7 => Some AssetClass.PrivateFund
  | _ => None
  end.

(** [TokenizationStatus::allows_issuance], src/rwa_types.rs:130-132 *)
Definition allows_issuance (s : TokenizationStatus) : bool :=
  match s with TokenizationStatus.Active => true | _ => false end.

(** [TokenizationStatus::allows_transfer], src/rwa_types.rs:135-137 *)
Definition allows_transfer (s : TokenizationStatus) : bool :=
  match s with TokenizationStatus.Active | TokenizationStatus.Redeeming => true | _ => false end.

(** [TokenizationStatus::is_terminal], src/rwa_types.rs:140-145 *)
Definition is_terminal (s : TokenizationStatus) : bool :=
  match s with TokenizationStatus.Matured | TokenizationStatus.Rejected => true | _ => false end.

(** [TokenizationStatus::from_u8], src/rwa_types.rs:147-158 *)
Definition status_from_u8 (v : Z) : option TokenizationStatus :=
  match v with
  | 0 => Some TokenizationStatus.Draft
  | 1 => Some TokenizationStatus.PendingApproval
  | 2 => Some TokenizationStatus.Active
  | 3 => Some TokenizationStatus.Suspended
  | 4 => Some TokenizationStatus.Redeeming
  | 5 => Some TokenizationStatus.Matured
  | 6 => Some TokenizationStatus.Rejected
  | _ => None
  end.

(** [ComplianceFramework::as_str], src/rwa_types.rs:187-198 *)
Definition framework_as_str (f : ComplianceFramework) : string :=
  match f with
  | ComplianceFramework.SEC => "SEC"
  | ComplianceFramework.MiCA => "MiCA"
  | ComplianceFramework.AIFMD => "AIFMD"
  | ComplianceFramework.CFTC => "CFTC"
  | ComplianceFramework.BaselIII => "Basel III"
  | ComplianceFramework.FATF => "FATF"
  | ComplianceFramework.RegD => "Reg D"
  | ComplianceFramework.RegS => "Reg S"
  end.

(** [ComplianceFramework::requires_kyc], src/rwa_types.rs:201-203 *)
Definition requires_kyc (f : ComplianceFramework) : bool :=
  match f with ComplianceFramework.RegS => false | _ => true end.

(** [ComplianceFramework::requires_periodic_audit], src/rwa_types.rs:206-214 *)
Definition requires_periodic_audit (f : ComplianceFramework) : bool :=
  match f with
  | ComplianceFramework.SEC | ComplianceFramework.MiCA | ComplianceFramework.AIFMD
  | ComplianceFramework.BaselIII => true
  | _ => false
  end.

(** [KycTier::minimum_for_transfer], src/rwa_types.rs:236-238 *)
Definition minimum_for_transfer : KycTier := KycTier.Basic.

(** [KycTier::from_u8], src/rwa_types.rs:240-248 *)
Definition tier_from_u8 (v : Z) : option KycTier :=
  match v with
  | 0 => Some KycTier.None
  | 1 => Some KycTier.Basic
  | 2 => Some KycTier.Enhanced
  | 3 => Some KycTier.Institutional
  | _ => None
  end.

(** [KycTier::satisfies], src/rwa_types.rs:251-253 *)
Definition satisfies (t required : KycTier) : bool := Z.leb (KycTier.code required) (KycTier.code t).

(** [RwaToken], src/rwa_types.rs:261-292 *)
Record RwaToken := mkRwaToken {
  rt_token_id : Hash;
  rt_external_id : Bytes;
  rt_name : Bytes;
  rt_asset_class : Z;
  rt_status : Z;
  rt_issuer : Address;
  rt_compliance_framework : Z;
  rt_total_supply : Z;
  rt_circulating_supply : Z;
  rt_latest_valuation_usd_cents : Z;
  rt_valuation_timestamp : Z;
  rt_created_at : Z;
  rt_updated_at : Z;
  rt_metadata : Bytes;
  rt_prev_state_hash : Hash }.

(** [InvestorProfile], src/rwa_types.rs:364-387 *)
Record InvestorProfile := mkInvestorProfile {
  ip_profile_id : Hash;
  ip_address : Address;
  ip_kyc_tier : Z;
  ip_aml_cleared : bool;
  ip_is_accredited : bool;
  ip_jurisdiction : Bytes;
  ip_kyc_verified_at : Z;
  ip_kyc_expiry : Z;
  ip_created_at : Z;
  ip_is_restricted : bool;
  ip_notes : Bytes }.

(** [ValuationRecord], src/rwa_types.rs:404-425 *)
Record ValuationRecord := mkValuationRecord {
  va_valuation_index : Z;
  va_token_id : Hash;
  va_value_usd_cents : Z;
  va_methodology : Bytes;
  va_appraiser : Address;
  va_valuation_date : Z;
  va_logged_at : Z;
  va_document_hash : Hash;
  va_confidence_score : Z;
  va_is_independent : bool }.

(** [TransferRecord], src/rwa_types.rs:432-453 *)
Record TransferRecord := mkTransferRecord {
  tf_transfer_id : Hash;
  tf_token_id : Hash;
  tf_from : Address;
  tf_to : Address;
  tf_amount : Z;
  tf_price_per_token_usd_cents : Z;
  tf_timestamp : Z;
  tf_compliance_passed : bool;
  tf_compliance_ref : Bytes;
  tf_transfer_type : Symbol }.

(** [CollateralPosition], src/rwa_types.rs:460-483 *)
Record CollateralPosition := mkCollateralPosition {
  co_position_id : Hash;
  co_token_id : Hash;
  co_borrower : Address;
  co_lender : Address;
  co_locked_amount : Z;
  co_locked_value_usd_cents : Z;
  co_ltv_bps : Z;
  co_created_at : Z;
  co_maturity : Z;
  co_is_active : bool;
  co_margin_call_triggered : bool }.
(** [DistributionRecord], src/rwa_types.rs:508-527 *)
Record DistributionRecord := mkDistributionRecord {
  di_distribution_index : Z;
  di_token_id : Hash;
  di_distribution_type : Symbol;
  di_total_amount_usd_cents : Z;
  di_per_token_usd_cents : Z;
  di_record_date : Z;
  di_payment_date : Z;
  di_declared_by : Address;
  di_is_paid : bool }.

(** [ComplianceCheck], src/rwa_types.rs:534-553 *)
Record ComplianceCheck := mkComplianceCheck {
  cc_check_id : Hash;
  cc_subject : Bytes;
  cc_check_type : Symbol;
  cc_result : Symbol;
  cc_score : Z;
  cc_checked_at : Z;
  cc_checked_by : Address;
  cc_finding : Bytes;
  cc_requires_refresh : bool }.

(** [RwaConfig], src/rwa_types.rs:560-579 *)
Record RwaConfig := mkRwaConfig {
  rc_max_tokens : Z;
  rc_token_count : Z;
  rc_default_framework : Z;
  rc_min_kyc_tier : Z;
  rc_max_metadata_size : Z;
  rc_is_paused : bool;
  rc_enforce_accreditation : bool;
  rc_enforce_aml : bool;
  rc_version : Z }.
Definition set_rc_token_count (v : Z) (r : RwaConfig) : RwaConfig :=
  mkRwaConfig (rc_max_tokens r) v (rc_default_framework r) (rc_min_kyc_tier r)
  (rc_max_metadata_size r) (rc_is_paused r) (rc_enforce_accreditation r) (rc_enforce_aml r)
  (rc_version r).

(** [RwaToken::new], src/rwa_types.rs:296-325 *)
Definition new_token (token_id : Hash) (external_id name : Bytes) (asset_class : AssetClass)
    (issuer : Address) (compliance_framework : ComplianceFramework) (total_supply : Z)
    (metadata : Bytes) (now : Z) (prev_state_hash : Hash) : RwaToken :=
  mkRwaToken token_id external_id name (AssetClass.code asset_class)
    (TokenizationStatus.code TokenizationStatus.Draft) issuer
    (ComplianceFramework.code compliance_framework) total_supply 0 0 0 now now metadata prev_state_hash.

(** [RwaToken::asset_class], src/rwa_types.rs:328-330 *)
Definition asset_class (t : RwaToken) : option AssetClass := class_from_u8 (rt_asset_class t).
(** [RwaToken::status], src/rwa_types.rs:333-335 *)
Definition status (t : RwaToken) : option TokenizationStatus := status_from_u8 (rt_status t).
(** [RwaToken::is_active], src/rwa_types.rs:338-340 *)
Definition is_active (t : RwaToken) : bool :=
  Z.eqb (rt_status t) (TokenizationStatus.code TokenizationStatus.Active).
(** [RwaToken::remaining_supply], src/rwa_types.rs:343-345 *)
Definition remaining_supply (t : RwaToken) : Z := u64_sat_sub (rt_total_supply t) (rt_circulating_supply t).
(** [RwaToken::price_per_token_usd_cents], src/rwa_types.rs:349-356 *)
Definition price_per_token_usd_cents (t : RwaToken) : Z :=
  if Z.eqb (rt_total_supply t) 0 || Z.eqb (rt_latest_valuation_usd_cents t) 0 then 0
  else rt_latest_valuation_usd_cents t / rt_total_supply t.

(** [InvestorProfile::is_kyc_valid], src/rwa_types.rs:391-396 *)
Definition is_kyc_valid (p : InvestorProfile) (now : Z) : bool :=
  let tier := match tier_from_u8 (ip_kyc_tier p) with Some t => t | None => KycTier.None end in
  let tier_ok := satisfies tier minimum_for_transfer in
  let not_expired := Z.eqb (ip_kyc_expiry p) 0 || Z.ltb now (ip_kyc_expiry p) in
  tier_ok && not_expired && negb (ip_is_restricted p).

(** [CollateralPosition::current_ltv_bps], src/rwa_types.rs:488-495 *)
Definition current_ltv_bps (p : CollateralPosition) (current_value_usd_cents : Z) : Z :=
  if Z.eqb current_value_usd_cents 0 then 10000
  else
    let loan_value := co_locked_value_usd_cents p * co_ltv_bps p / 10000 in
    let ltv := loan_value * 10000 / current_value_usd_cents in
    Z.min ltv 10000.

(** [CollateralPosition::is_undercollateralized], src/rwa_types.rs:498-500 *)
Definition is_undercollateralized (p : CollateralPosition) (current_value_usd_cents threshold_bps : Z) : bool :=
  Z.leb threshold_bps (current_ltv_bps p current_value_usd_cents).

(** [RwaConfig::default_config], src/rwa_types.rs:583-595 *)
Definition default_config : RwaConfig :=
  mkRwaConfig 10000 0 (ComplianceFramework.code ComplianceFramework.SEC) (KycTier.code KycTier.Basic)
    4096 false true true 1.
(** [RwaConfig::sandbox_config], src/rwa_types.rs:598-610 *)
Definition sandbox_config : RwaConfig :=
  mkRwaConfig 100 0 (ComplianceFramework.code ComplianceFramework.RegD) (KycTier.code KycTier.None)
    1024 false false false 1.
(** [RwaConfig::can_register_token], src/rwa_types.rs:613-615 *)
Definition can_register_token (c : RwaConfig) : bool :=
  negb (rc_is_paused c) && Z.ltb (rc_token_count c) (rc_max_tokens c).

End RwaTypes.

(** ** The registry of asset tokens *)

Module AssetRegistry.
Import RwaTypes.

Module AssetRegistryKey.
(** [AssetRegistryKey], src/rwa_asset.rs:18-31 *)
Inductive AssetRegistryKey : Set :=
  | Config
  | Token (a0 : Hash)
  | TokenIndex
  | IssuerTokens (a0 : Address)
  | ClassTokens (a0 : Z)
  | TokenCount.
#[global] Instance AssetRegistryKey_eq_dec : EqDecision AssetRegistryKey.
Proof. solve_decision. Defined.
End AssetRegistryKey.
Abbreviation AssetRegistryKey := AssetRegistryKey.AssetRegistryKey.

Inductive RegTy : Set := AvConfig | AvToken | AvIds | AvCount.
#[global] Instance RegTy_eq_dec : EqDecision RegTy.
Proof. solve_decision. Defined.

Definition reg_el (t : RegTy) : Type :=
  match t with AvConfig => RwaConfig | AvToken => RwaToken | AvIds => list Hash | AvCount => Z end.

Definition reg_key_ty (k : AssetRegistryKey) : RegTy :=
  match k with
  | AssetRegistryKey.Config => AvConfig
  | AssetRegistryKey.Token _ => AvToken
  | AssetRegistryKey.TokenIndex | AssetRegistryKey.IssuerTokens _ | AssetRegistryKey.ClassTokens _ => AvIds
  | AssetRegistryKey.TokenCount => AvCount
  end.

Canonical reg_layout : Layout := {|
  key := AssetRegistryKey; ty := RegTy; el := reg_el; layout_key_ty := reg_key_ty;
  key_dec := _; ty_dec := _; error := string; datum := Payload |}.

Abbreviation M := (CM reg_layout).
Abbreviation St := (CSt reg_layout).
Abbreviation store := (kvstore reg_layout).

(** [initialize], src/rwa_asset.rs:42-46 *)
Definition initialize (config : RwaConfig) : M unit := iset AssetRegistryKey.Config config.
(** [get_config], src/rwa_asset.rs:49-54 *)
Definition get_config : M RwaConfig := iget_or AssetRegistryKey.Config default_config.
(** [update_config], src/rwa_asset.rs:57-61 *)
Definition update_config (config : RwaConfig) : M unit := iset AssetRegistryKey.Config config.

(** [get_token], src/rwa_asset.rs:366-371 *)
Definition get_token (token_id : Hash) : M RwaToken :=
  let* o := iget (AssetRegistryKey.Token token_id) in unwrap_or_raise (L := reg_layout) o "Token not found"%string.
(** [save_token], src/rwa_asset.rs:405-409 *)
Definition save_token (token : RwaToken) : M unit := iset (AssetRegistryKey.Token (rt_token_id token)) token.

(** The token in another status, at a time; and with other metadata. *)
Definition with_status (t : RwaToken) (s : TokenizationStatus) (now : Z) : RwaToken :=
  mkRwaToken (rt_token_id t) (rt_external_id t) (rt_name t) (rt_asset_class t)
    (TokenizationStatus.code s) (rt_issuer t) (rt_compliance_framework t) (rt_total_supply t)
    (rt_circulating_supply t) (rt_latest_valuation_usd_cents t) (rt_valuation_timestamp t)
    (rt_created_at t) now (rt_metadata t) (rt_prev_state_hash t).
Definition with_metadata (t : RwaToken) (metadata : Bytes) : RwaToken :=
  mkRwaToken (rt_token_id t) (rt_external_id t) (rt_name t) (rt_asset_class t)
    (rt_status t) (rt_issuer t) (rt_compliance_framework t) (rt_total_supply t)
    (rt_circulating_supply t) (rt_latest_valuation_usd_cents t) (rt_valuation_timestamp t)
    (rt_created_at t) (rt_updated_at t) metadata (rt_prev_state_hash t).

(** What the transitions begin with: the token and its status. *)
Definition token_and_status (token_id : Hash) : M (RwaToken * TokenizationStatus) :=
  let* token := get_token token_id in
  let* current := unwrap_or_raise (L := reg_layout) (status_from_u8 (rt_status token))
                    "Invalid token status"%string in
  ret (token, current).

(** [reject_if] with a text. *)
Definition fail_with (b : bool) (e : string) : M unit := reject_if (L := reg_layout) b e.

(** [submit_for_approval], src/rwa_asset.rs:176-202 *)
Definition submit_for_approval (token_id : Hash) (caller : Address) : M RwaToken :=
  let* found := token_and_status token_id in
  let '(token, current) := found in
  do* fail_with (bool_decide (rt_issuer token <> caller)) "Only the issuer can submit for approval" in
  do* fail_with (bool_decide (current <> TokenizationStatus.Draft))
        "Token must be in Draft state to submit for approval" in
  let* now := ledger_timestamp in
  let token := with_status token TokenizationStatus.PendingApproval now in
  do* save_token token in
  do* publish ["rwa_asset"; "submitted"]%string [PHash token_id] in
  ret token.

(** [approve_token], src/rwa_asset.rs:205-227 *)
Definition approve_token (token_id : Hash) : M RwaToken :=
  let* found := token_and_status token_id in
  let '(token, current) := found in
  do* fail_with (bool_decide (current <> TokenizationStatus.PendingApproval))
        "Token must be PendingApproval to be approved" in
  let* now := ledger_timestamp in
  let token := with_status token TokenizationStatus.Active now in
  do* save_token token in
  do* publish ["rwa_asset"; "approved"]%string [PHash token_id] in
  ret token.

(** [reject_token], src/rwa_asset.rs:230-254 *)
Definition reject_token (token_id : Hash) (reason : Bytes) : M RwaToken :=
  let* found := token_and_status token_id in
  let '(token, current) := found in
  do* fail_with (bool_decide (current <> TokenizationStatus.PendingApproval))
        "Token must be PendingApproval to be rejected" in
  let* now := ledger_timestamp in
  let token := with_metadata (with_status token TokenizationStatus.Rejected now) reason in
  do* save_token token in
  do* publish ["rwa_asset"; "rejected"]%string [PHash token_id; PBytes reason] in
  ret token.

(** [suspend_token], src/rwa_asset.rs:257-280 *)
Definition suspend_token (token_id : Hash) (reason : Bytes) : M RwaToken :=
  let* found := token_and_status token_id in
  let '(token, current) := found in
  do* fail_with (bool_decide (current <> TokenizationStatus.Active)) "Only Active tokens can be suspended" in
  let* now := ledger_timestamp in
  let token := with_status token TokenizationStatus.Suspended now in
  do* save_token token in
  do* publish ["rwa_asset"; "suspended"]%string [PHash token_id; PBytes reason] in
  ret token.

(** [reactivate_token], src/rwa_asset.rs:283-308 *)
Definition reactivate_token (token_id : Hash) : M RwaToken :=
  let* found := token_and_status token_id in
  let '(token, current) := found in
  do* fail_with (bool_decide (current <> TokenizationStatus.Suspended))
        "Only Suspended tokens can be reactivated" in
  let* now := ledger_timestamp in
  let token := with_status token TokenizationStatus.Active now in
  do* save_token token in
  do* publish ["rwa_asset"; "reactivated"]%string [PHash token_id] in
  ret token.

(** [begin_redemption], src/rwa_asset.rs:311-336 *)
Definition begin_redemption (token_id : Hash) : M RwaToken :=
  let* found := token_and_status token_id in
  let '(token, current) := found in
  do* fail_with (bool_decide (current <> TokenizationStatus.Active))
        "Only Active tokens can enter Redeeming state" in
  let* now := ledger_timestamp in
  let token := with_status token TokenizationStatus.Redeeming now in
  do* save_token token in
  do* publish ["rwa_asset"; "redeeming"]%string [PHash token_id] in
  ret token.

(** [mature_token], src/rwa_asset.rs:339-361 *)
Definition mature_token (token_id : Hash) : M RwaToken :=
  let* found := token_and_status token_id in
  let '(token, current) := found in
  do* fail_with (bool_decide (current <> TokenizationStatus.Redeeming))
        "Token must be in Redeeming state to be matured" in
  let* now := ledger_timestamp in
  let token := with_status token TokenizationStatus.Matured now in
  do* save_token token in
  do* publish ["rwa_asset"; "matured"]%string [PHash token_id] in
  ret token.

(** [list_tokens], src/rwa_asset.rs:374-379 *)
Definition list_tokens : M (list Hash) := iget_or AssetRegistryKey.TokenIndex [].
(** [list_tokens_by_issuer], src/rwa_asset.rs:382-387 *)
Definition list_tokens_by_issuer (issuer : Address) : M (list Hash) :=
  iget_or (AssetRegistryKey.IssuerTokens issuer) [].
(** [list_tokens_by_class], src/rwa_asset.rs:390-395 *)
Definition list_tokens_by_class (class : AssetClass) : M (list Hash) :=
  iget_or (AssetRegistryKey.ClassTokens (AssetClass.code class)) [].
(** [token_count], src/rwa_asset.rs:398-400 *)
Definition token_count : M Z := let* config := get_config in ret (rc_token_count config).

Section Registered.
Context `{C : Crypto} `{X : AddressXdr}.

(** [compute_token_id], src/rwa_asset.rs:412-421 *)
Definition compute_token_id (issuer : Address) (external_id : Bytes) : M Hash :=
  let* now := ledger_timestamp in
  ret (sha256 (address_xdr issuer ++ external_id ++ u64_to_bytes now)).

(** [register_token], src/rwa_asset.rs:68-171 *)
Definition register_token (issuer : Address) (external_id name : Bytes) (asset_class : AssetClass)
    (compliance_framework : ComplianceFramework) (total_supply : Z) (metadata : Bytes) : M RwaToken :=
  let* config := get_config in
  do* fail_with (negb (can_register_token config)) "Registry is paused or token cap reached" in
  do* fail_with (bool_decide (name = [])) "Token name must not be empty" in
  do* fail_with (bool_decide (external_id = [])) "External identifier must not be empty" in
  do* fail_with (Z.eqb total_supply 0) "Total supply must be greater than zero" in
  do* fail_with (Z.ltb (rc_max_metadata_size config) (Z.of_nat (length metadata)))
        "Metadata exceeds maximum allowed size" in
  let* token_id := compute_token_id issuer external_id in
  let* there := ihas (AssetRegistryKey.Token token_id) in
  do* fail_with there "Token with this ID already registered" in
  let genesis_hash := zero32 in
  let* now := ledger_timestamp in
  let token := new_token token_id external_id name asset_class issuer compliance_framework total_supply
                 metadata now genesis_hash in
  do* iset (AssetRegistryKey.Token token_id) token in
  let* index := iget_or AssetRegistryKey.TokenIndex [] in
  do* iset AssetRegistryKey.TokenIndex (index ++ [token_id]) in
  let* issuer_tokens := iget_or (AssetRegistryKey.IssuerTokens issuer) [] in
  do* iset (AssetRegistryKey.IssuerTokens issuer) (issuer_tokens ++ [token_id]) in
  let class_key := AssetRegistryKey.ClassTokens (AssetClass.code asset_class) in
  let* class_tokens := iget_or class_key [] in
  do* iset class_key (class_tokens ++ [token_id]) in
  let* n := u32_add (rc_token_count config) 1 in
  do* update_config (set_rc_token_count n config) in
  do* publish ["rwa_asset"; "registered"]%string [PHash token_id; PInt (AssetClass.code asset_class)] in
  ret token.

End Registered.

End AssetRegistry.

(** ** Valuations *)

Module ValuationEngine.
Import RwaTypes.

Module ValuationKey.
(** [ValuationKey], src/rwa_valuation.rs:15-26 *)
Inductive ValuationKey : Set :=
  | TokenValuations (a0 : Hash)
  | Valuation (a0 : Hash)
  | LatestValuation (a0 : Hash)
  | AuthorizedOracle (a0 : Address)
  | ValuationCount.
#[global] Instance ValuationKey_eq_dec : EqDecision ValuationKey.
Proof. solve_decision. Defined.
End ValuationKey.
Abbreviation ValuationKey := ValuationKey.ValuationKey.

Inductive ValTy : Set := WvIds | WvRecord | WvId | WvBool | WvCount.
#[global] Instance ValTy_eq_dec : EqDecision ValTy.
Proof. solve_decision. Defined.

Definition val_el (t : ValTy) : Type :=
  match t with
  | WvIds => list Hash
  | WvRecord => ValuationRecord
  | WvId => Hash
  | WvBool => bool
  | WvCount => Z
  end.

Definition val_key_ty (k : ValuationKey) : ValTy :=
  match k with
  | ValuationKey.TokenValuations _ => WvIds
  | ValuationKey.Valuation _ => WvRecord
  | ValuationKey.LatestValuation _ => WvId
  | ValuationKey.AuthorizedOracle _ => WvBool
  | ValuationKey.ValuationCount => WvCount
  end.

Canonical val_layout : Layout := {|
  key := ValuationKey; ty := ValTy; el := val_el; layout_key_ty := val_key_ty;
  key_dec := _; ty_dec := _; error := string; datum := Payload |}.

Abbreviation M := (CM val_layout).
Abbreviation St := (CSt val_layout).
Abbreviation store := (kvstore val_layout).

Definition fail_with (b : bool) (e : string) : M unit := reject_if (L := val_layout) b e.

(** [authorize_oracle], src/rwa_valuation.rs:37-48 *)
Definition authorize_oracle (oracle : Address) : M unit :=
  do* iset (ValuationKey.AuthorizedOracle oracle) true in
  publish ["rwa_valuation"; "oracle_authorized"]%string [PAddr oracle].
(** [revoke_oracle], src/rwa_valuation.rs:51-62 *)
Definition revoke_oracle (oracle : Address) : M unit :=
  do* iremove (ValuationKey.AuthorizedOracle oracle) in
  publish ["rwa_valuation"; "oracle_revoked"]%string [PAddr oracle].
(** [is_authorized_oracle], src/rwa_valuation.rs:65-70 *)
Definition is_authorized_oracle (oracle : Address) : M bool :=
  iget_or (ValuationKey.AuthorizedOracle oracle) false.

(** [get_valuation], src/rwa_valuation.rs:172-180 *)
Definition get_valuation (record_id : Hash) : M ValuationRecord :=
  let* o := iget (ValuationKey.Valuation record_id) in
  unwrap_or_raise (L := val_layout) o "Valuation record not found"%string.
(** [list_valuations], src/rwa_valuation.rs:183-188 *)
Definition list_valuations (token_id : Hash) : M (list Hash) :=
  iget_or (ValuationKey.TokenValuations token_id) [].
(** [valuation_count_for_token], src/rwa_valuation.rs:191-193 *)
Definition valuation_count_for_token (token_id : Hash) : M Z :=
  let* l := list_valuations token_id in ret (Z.of_nat (length l)).
(** [latest_valuation], src/rwa_valuation.rs:196-206 *)
Definition latest_valuation (token_id : Hash) : M ValuationRecord :=
  let* o := iget (ValuationKey.LatestValuation token_id) in
  let* latest_id := unwrap_or_raise (L := val_layout) o "No valuation on record for this token"%string in
  get_valuation latest_id.
(** [total_valuations], src/rwa_valuation.rs:209-214 *)
Definition total_valuations : M Z := iget_or ValuationKey.ValuationCount 0.

(** [is_valuation_stale], src/rwa_valuation.rs:219-230 *)
Definition is_valuation_stale (token : RwaToken) : M bool :=
  if Z.eqb (rt_valuation_timestamp token) 0 then ret true
  else
    match class_from_u8 (rt_asset_class token) with
    | None => ret true
    | Some class =>
        let max_age_secs := min_valuation_frequency_days class * 86400 in
        let* now := ledger_timestamp in
        ret (Z.ltb max_age_secs (u64_sat_sub now (rt_valuation_timestamp token)))
    end.

(** [valuation_age_secs], src/rwa_valuation.rs:233-240 *)
Definition valuation_age_secs (token : RwaToken) : M Z :=
  if Z.eqb (rt_valuation_timestamp token) 0 then ret u64_max
  else (let* now := ledger_timestamp in ret (u64_sat_sub now (rt_valuation_timestamp token))).

(** One round of the loop of [average_valuation]: a missing record is skipped. *)
Definition average_step (sum : Z) (id : Hash) : M Z :=
  let* o := iget (ValuationKey.Valuation id) in
  match o with
  | Some rec => lift (u128_chk (sum + va_value_usd_cents rec))
  | None => ret sum
  end.

(** [average_valuation], src/rwa_valuation.rs:246-262 *)
Definition average_valuation (token_id : Hash) : M Z :=
  let* ids := list_valuations token_id in
  if bool_decide (ids = []) then ret 0
  else
    let* sum := fold_m average_step 0 ids in
    let* count := valuation_count_for_token token_id in
    if Z.eqb count 0 then ret 0 else ret ((sum / count) mod 2 ^ 64).

Section Valued.
Context `{C : Crypto}.

(** [compute_valuation_id], src/rwa_valuation.rs:266-275 *)
Definition compute_valuation_id (token_id : Hash) (index : Z) : M Hash :=
  let* now := ledger_timestamp in
  ret (sha256 (token_id ++ u32_to_bytes index ++ u64_to_bytes now)).

(** The token with a new valuation. *)
Definition valued (t : RwaToken) (value_usd_cents valuation_date : Z) : RwaToken :=
  mkRwaToken (rt_token_id t) (rt_external_id t) (rt_name t) (rt_asset_class t)
    (rt_status t) (rt_issuer t) (rt_compliance_framework t) (rt_total_supply t)
    (rt_circulating_supply t) value_usd_cents valuation_date
    (rt_created_at t) (rt_updated_at t) (rt_metadata t) (rt_prev_state_hash t).

(** [submit_valuation], which also updates the token it is given, src/rwa_valuation.rs:78-167 *)
Definition submit_valuation (token : RwaToken) (appraiser : Address) (value_usd_cents : Z)
    (methodology : Bytes) (valuation_date : Z) (document_hash : Hash) (confidence_score : Z)
    (is_independent : bool) : M (ValuationRecord * RwaToken) :=
  let* authorized := is_authorized_oracle appraiser in
  do* fail_with (negb authorized) "Appraiser is not an authorized oracle" in
  do* fail_with (Z.eqb value_usd_cents 0) "Valuation must be greater than zero" in
  do* fail_with (Z.ltb 100 confidence_score) "Confidence score must be 0-100" in
  do* fail_with (bool_decide (methodology = [])) "Methodology must be specified" in
  let* now := ledger_timestamp in
  let* existing := iget_or (ValuationKey.TokenValuations (rt_token_id token)) [] in
  let valuation_index := Z.of_nat (length existing) in
  let* record_id := compute_valuation_id (rt_token_id token) valuation_index in
  let record := mkValuationRecord valuation_index (rt_token_id token) value_usd_cents methodology
                  appraiser valuation_date now document_hash confidence_score is_independent in
  do* iset (ValuationKey.Valuation record_id) record in
  do* iset (ValuationKey.TokenValuations (rt_token_id token)) (existing ++ [record_id]) in
  do* iset (ValuationKey.LatestValuation (rt_token_id token)) record_id in
  let token := valued token value_usd_cents valuation_date in
  let* count := iget_or ValuationKey.ValuationCount 0 in
  let* n := u32_add count 1 in
  do* iset ValuationKey.ValuationCount n in
  do* publish ["rwa_valuation"; "submitted"]%string
        [PHash (rt_token_id token); PInt value_usd_cents; PAddr appraiser] in
  ret (record, token).

End Valued.

End ValuationEngine.

(** ** Compliance of investors *)

Module ComplianceEngine.
Import RwaTypes.

Module ComplianceKey.
(** [ComplianceKey], src/rwa_compliance.rs:18-31 *)
Inductive ComplianceKey : Set :=
  | InvestorProfile (a0 : Address)
  | InvestorIndex
  | CheckRecord (a0 : Hash)
  | SubjectChecks (a0 : Bytes)
  | Blocked (a0 : Address)
  | CheckCount.
#[global] Instance ComplianceKey_eq_dec : EqDecision ComplianceKey.
Proof. solve_decision. Defined.
End ComplianceKey.
Abbreviation ComplianceKey := ComplianceKey.ComplianceKey.

Inductive CompTy : Set := KvProfile | KvAddresses | KvCheck | KvIds | KvBool | KvCount.
#[global] Instance CompTy_eq_dec : EqDecision CompTy.
Proof. solve_decision. Defined.

Definition comp_el (t : CompTy) : Type :=
  match t with
  | KvProfile => InvestorProfile
  | KvAddresses => list Address
  | KvCheck => ComplianceCheck
  | KvIds => list Hash
  | KvBool => bool
  | KvCount => Z
  end.

Definition comp_key_ty (k : ComplianceKey) : CompTy :=
  match k with
  | ComplianceKey.InvestorProfile _ => KvProfile
  | ComplianceKey.InvestorIndex => KvAddresses
  | ComplianceKey.CheckRecord _ => KvCheck
  | ComplianceKey.SubjectChecks _ => KvIds
  | ComplianceKey.Blocked _ => KvBool
  | ComplianceKey.CheckCount => KvCount
  end.

Canonical comp_layout : Layout := {|
  key := ComplianceKey; ty := CompTy; el := comp_el; layout_key_ty := comp_key_ty;
  key_dec := _; ty_dec := _; error := string; datum := Payload |}.

Abbreviation M := (CM comp_layout).
Abbreviation St := (CSt comp_layout).
Abbreviation store := (kvstore comp_layout).

Definition fail_with (b : bool) (e : string) : M unit := reject_if (L := comp_layout) b e.

(** [get_investor], src/rwa_compliance.rs:282-287 *)
Definition get_investor (address : Address) : M InvestorProfile :=
  let* o := iget (ComplianceKey.InvestorProfile address) in
  unwrap_or_raise (L := comp_layout) o "Investor profile not found"%string.
(** [list_investors], src/rwa_compliance.rs:290-295 *)
Definition list_investors : M (list Address) := iget_or ComplianceKey.InvestorIndex [].
(** [is_blocked], src/rwa_compliance.rs:298-303 *)
Definition is_blocked (address : Address) : M bool := iget_or (ComplianceKey.Blocked address) false.
(** [get_check], src/rwa_compliance.rs:306-314 *)
Definition get_check (check_id : Hash) : M ComplianceCheck :=
  let* o := iget (ComplianceKey.CheckRecord check_id) in
  unwrap_or_raise (L := comp_layout) o "Compliance check not found"%string.
(** [total_checks], src/rwa_compliance.rs:317-322 *)
Definition total_checks : M Z := iget_or ComplianceKey.CheckCount 0.

(** [update_investor_kyc], src/rwa_compliance.rs:108-136 *)
Definition update_investor_kyc (address : Address) (new_tier : KycTier) (aml_cleared : bool)
    (kyc_expiry : Z) : M InvestorProfile :=
  let* p := get_investor address in
  let* now := ledger_timestamp in
  let old_tier := ip_kyc_tier p in
  let profile :=
    mkInvestorProfile (ip_profile_id p) (ip_address p) (KycTier.code new_tier) aml_cleared
      (ip_is_accredited p) (ip_jurisdiction p) now kyc_expiry (ip_created_at p) (ip_is_restricted p)
      (ip_notes p) in
  do* iset (ComplianceKey.InvestorProfile address) profile in
  do* publish ["rwa_compliance"; "kyc_updated"]%string
        [PAddr address; PInt old_tier; PInt (KycTier.code new_tier)] in
  ret profile.

(** The profile restricted or not, with notes. *)
Definition restricted (p : InvestorProfile) (b : bool) (notes : Bytes) : InvestorProfile :=
  mkInvestorProfile (ip_profile_id p) (ip_address p) (ip_kyc_tier p) (ip_aml_cleared p)
    (ip_is_accredited p) (ip_jurisdiction p) (ip_kyc_verified_at p) (ip_kyc_expiry p)
    (ip_created_at p) b notes.

(** [restrict_investor], src/rwa_compliance.rs:139-165 *)
Definition restrict_investor (address : Address) (reason : Bytes) : M unit :=
  let* profile := get_investor address in
  do* iset (ComplianceKey.InvestorProfile address) (restricted profile true reason) in
  do* iset (ComplianceKey.Blocked address) true in
  publish ["rwa_compliance"; "investor_restricted"]%string [PAddr address; PBytes reason].

(** [unrestrict_investor], src/rwa_compliance.rs:168-178 *)
Definition unrestrict_investor (address : Address) : M unit :=
  let* profile := get_investor address in
  do* iset (ComplianceKey.InvestorProfile address) (restricted profile false (ip_notes profile)) in
  iremove (ComplianceKey.Blocked address).

(** [validate_transfer], src/rwa_compliance.rs:246-277 *)
Definition validate_transfer (token : RwaToken) (from to : Address)
    (enforce_accreditation enforce_aml : bool) : M unit :=
  let* status := unwrap_or_raise (L := comp_layout) (status_from_u8 (rt_status token))
                   "Invalid token status"%string in
  do* fail_with (negb (allows_transfer status)) "Token status does not permit transfers" in
  let* from_profile := get_investor from in
  let* to_profile := get_investor to in
  let* now := ledger_timestamp in
  do* fail_with (negb (is_kyc_valid from_profile now)) "Sender KYC is invalid or expired" in
  do* fail_with (negb (is_kyc_valid to_profile now)) "Recipient KYC is invalid or expired" in
  do* fail_with (enforce_aml && (negb (ip_aml_cleared from_profile) || negb (ip_aml_cleared to_profile)))
        "AML clearance required for both parties" in
  fail_with (enforce_accreditation &&
             (negb (ip_is_accredited from_profile) || negb (ip_is_accredited to_profile)))
    "Both parties must be accredited investors".

Section Checked.
Context `{C : Crypto} `{X : AddressXdr}.

(** [compute_profile_id], src/rwa_compliance.rs:326-334 *)
Definition compute_profile_id (address : Address) : M Hash :=
  let* now := ledger_timestamp in
  ret (sha256 (address_xdr address ++ u64_to_bytes now)).

(** [compute_check_id], src/rwa_compliance.rs:336-344 *)
Definition compute_check_id (subject : Bytes) (check_type : Symbol) : M Hash :=
  let* now := ledger_timestamp in
  ret (sha256 (subject ++ u64_to_bytes now)).

(** [register_investor], src/rwa_compliance.rs:42-105 *)
Definition register_investor (address : Address) (kyc_tier : KycTier) (aml_cleared is_accredited : bool)
    (jurisdiction : Bytes) (kyc_expiry : Z) (notes : Bytes) : M InvestorProfile :=
  do* fail_with (bool_decide (jurisdiction = [])) "Jurisdiction must be provided" in
  let* there := ihas (ComplianceKey.InvestorProfile address) in
  do* fail_with there "Investor already registered; use update_investor_kyc" in
  let* now := ledger_timestamp in
  let* profile_id := compute_profile_id address in
  let profile :=
    mkInvestorProfile profile_id address (KycTier.code kyc_tier) aml_cleared is_accredited jurisdiction
      now kyc_expiry now false notes in
  do* iset (ComplianceKey.InvestorProfile address) profile in
  let* index := iget_or ComplianceKey.InvestorIndex [] in
  do* iset ComplianceKey.InvestorIndex (index ++ [address]) in
  do* publish ["rwa_compliance"; "investor_registered"]%string
        [PAddr address; PInt (KycTier.code kyc_tier)] in
  ret profile.

(** [record_compliance_check], src/rwa_compliance.rs:183-238 *)
Definition record_compliance_check (subject : Bytes) (check_type result : Symbol) (score : Z)
    (checked_by : Address) (finding : Bytes) (requires_refresh : bool) : M ComplianceCheck :=
  do* fail_with (Z.ltb 100 score) "Compliance score must be 0-100" in
  let* check_id := compute_check_id subject check_type in
  let* now := ledger_timestamp in
  let check := mkComplianceCheck check_id subject check_type result score now checked_by finding
                 requires_refresh in
  do* iset (ComplianceKey.CheckRecord check_id) check in
  let* ids := iget_or (ComplianceKey.SubjectChecks subject) [] in
  do* iset (ComplianceKey.SubjectChecks subject) (ids ++ [check_id]) in
  let* count := iget_or ComplianceKey.CheckCount 0 in
  let* n := u32_add count 1 in
  do* iset ComplianceKey.CheckCount n in
  ret check.

End Checked.

End ComplianceEngine.

(** ** Custody *)

Module Custody.

Module CustodianStatus.
(** [CustodianStatus], src/rwa_custody.rs:51-66 *)
Inductive CustodianStatus : Set :=
  | Applicant | Pending | Active | Rejected | Suspended | Retired | Revoked.
#[global] Instance CustodianStatus_eq_dec : EqDecision CustodianStatus.
Proof. solve_decision. Defined.

(** [CustodianStatus], its discriminants, src/rwa_custody.rs:51-66 *)
Definition code (x : CustodianStatus) : Z :=
  match x with
  | Applicant => 0 | Pending => 1 | Active => 2 | Rejected => 3 | Suspended => 4 | Retired => 5
  | Revoked => 6
  end.
End CustodianStatus.
Abbreviation CustodianStatus := CustodianStatus.CustodianStatus.

Module AssetClass.
(** [AssetClass], src/rwa_custody.rs:115-132 *)
Inductive AssetClass : Set :=
  | PreciousMetals | RealEstate | Bonds | Equities | PrivateCredit | Commodity | Art | Other.
#[global] Instance AssetClass_eq_dec : EqDecision AssetClass.
Proof. solve_decision. Defined.

(** [AssetClass], its discriminants, src/rwa_custody.rs:115-132 *)
Definition code (x : AssetClass) : Z :=
  match x with
  | PreciousMetals => 0 | RealEstate => 1 | Bonds => 2 | Equities => 3 | PrivateCredit => 4
  | Commodity => 5 | Art => 6 | Other => 255
  end.
End AssetClass.
Abbreviation AssetClass := AssetClass.AssetClass.

Module SettlementState.
(** [SettlementState], src/rwa_custody.rs:181-198 *)
Inductive SettlementState : Set :=
  | Initiated | AwaitingConfirmation | Confirmed | Settling | Settled | Rejected | Failed
  | Cancelled.
#[global] Instance SettlementState_eq_dec : EqDecision SettlementState.
Proof. solve_decision. Defined.

(** [SettlementState], its discriminants, src/rwa_custody.rs:181-198 *)
Definition code (x : SettlementState) : Z :=
  match x with
  | Initiated => 0 | AwaitingConfirmation => 1 | Confirmed => 2 | Settling => 3 | Settled => 4
  | Rejected => 5 | Failed => 6 | Cancelled => 7
  end.
End SettlementState.
Abbreviation SettlementState := SettlementState.SettlementState.

Module CollateralState.
(** [CollateralState], src/rwa_custody.rs:270-281 *)
Inductive CollateralState : Set :=
  | Unencumbered | Pledged | Locked | Released | Liquidated.
#[global] Instance CollateralState_eq_dec : EqDecision CollateralState.
Proof. solve_decision. Defined.

(** [CollateralState], its discriminants, src/rwa_custody.rs:270-281 *)
Definition code (x : CollateralState) : Z :=
  match x with
  | Unencumbered => 0 | Pledged => 1 | Locked => 2 | Released => 3 | Liquidated => 4
  end.
End CollateralState.
Abbreviation CollateralState := CollateralState.CollateralState.

(** [CustodianRecord], src/rwa_custody.rs:328-355 *)
Record CustodianRecord := mkCustodianRecord {
  cr_custodian : Address;
  cr_status : Z;
  cr_reputation_score : Z;
  cr_asset_count : Z;
  cr_total_value_held : Z;
  cr_jurisdiction : Bytes;
  cr_registered_at : Z;
  cr_last_updated : Z;
  cr_audit_count : Z;
  cr_violation_count : Z;
  cr_legal_agreement_hash : Hash;
  cr_insurance_coverage : Z;
  cr_supported_asset_classes : Z }.

(** [AssetStorageRecord], src/rwa_custody.rs:388-413 *)
Record AssetStorageRecord := mkAssetStorageRecord {
  as_asset_id : Hash;
  as_custodian : Address;
  as_asset_class : Z;
  as_collateral_state : Z;
  as_notional_value : Z;
  as_valued_at : Z;
  as_documentation_hash : Hash;
  as_created_at : Z;
  as_updated_at : Z;
  as_legal_owner : Address;
  as_external_ref : Bytes;
  as_version : Z }.

(** [SettlementInstruction], src/rwa_custody.rs:448-475 *)
Record SettlementInstruction := mkSettlementInstruction {
  si_instruction_id : Hash;
  si_state : Z;
  si_delivering_custodian : Address;
  si_receiving_custodian : Address;
  si_asset_id : Hash;
  si_notional : Z;
  si_currency : Bytes;
  si_settlement_date : Z;
  si_created_at : Z;
  si_updated_at : Z;
  si_payment_leg_id : option Hash;
  si_retry_count : Z;
  si_failure_reason : Bytes }.

(** [CollateralRecord], src/rwa_custody.rs:511-536 *)
Record CollateralRecord := mkCollateralRecord {
  cl_position_id : Hash;
  cl_asset_id : Hash;
  cl_custodian : Address;
  cl_beneficiary : Address;
  cl_collateral_state : Z;
  cl_pledged_value : Z;
  cl_ltv_bps : Z;
  cl_margin_call_threshold_bps : Z;
  cl_pledged_at : Z;
  cl_released_at : Z;
  cl_current_value : Z;
  cl_margin_call_active : bool }.

(** [ReputationSignal], src/rwa_custody.rs:569-584 *)
Record ReputationSignal := mkReputationSignal {
  rs_audit_pass : bool;
  rs_audit_fail : bool;
  rs_compliance_violation : bool;
  rs_settlement_success : bool;
  rs_settlement_failure : bool;
  rs_voluntary_disclosure : bool;
  rs_insurance_claim : bool }.

(** [CustodyConfig], src/rwa_custody.rs:659-670 *)
Record CustodyConfig := mkCustodyConfig {
  cy_min_reputation_for_activation : Z;
  cy_max_settlement_retries : Z;
  cy_max_ltv_bps : Z;
  cy_min_insurance_coverage_bps : Z;
  cy_require_art_appraisal : bool }.

(** [CustodianStatus::can_accept_deposits], src/rwa_custody.rs:70-72 *)
Definition can_accept_deposits (s : CustodianStatus) : bool :=
  match s with CustodianStatus.Active => true | _ => false end.

(** [CustodianStatus::assets_frozen], src/rwa_custody.rs:75-80 *)
Definition assets_frozen (s : CustodianStatus) : bool :=
  match s with CustodianStatus.Suspended | CustodianStatus.Revoked => true | _ => false end.

(** [CustodianStatus::can_transition_to], src/rwa_custody.rs:83-95 *)
Definition custodian_transition (s next : CustodianStatus) : bool :=
  match s, next with
  | CustodianStatus.Applicant, CustodianStatus.Pending
  | CustodianStatus.Pending, CustodianStatus.Active
  | CustodianStatus.Pending, CustodianStatus.Rejected
  | CustodianStatus.Active, CustodianStatus.Suspended
  | CustodianStatus.Active, CustodianStatus.Retired
  | CustodianStatus.Suspended, CustodianStatus.Active
  | CustodianStatus.Suspended, CustodianStatus.Revoked => true
  | _, _ => false
  end.

(** [CustodianStatus::label], src/rwa_custody.rs:98-108 *)
Definition custodian_label (s : CustodianStatus) : string :=
  match s with
  | CustodianStatus.Applicant => "APPLICANT"
  | CustodianStatus.Pending => "PENDING"
  | CustodianStatus.Active => "ACTIVE"
  | CustodianStatus.Rejected => "REJECTED"
  | CustodianStatus.Suspended => "SUSPENDED"
  | CustodianStatus.Retired => "RETIRED"
  | CustodianStatus.Revoked => "REVOKED"
  end.

(** [AssetClass::min_custodian_reputation], src/rwa_custody.rs:136-147 *)
Definition min_custodian_reputation (c : AssetClass) : Z :=
  match c with
  | AssetClass.PreciousMetals => 60
  | AssetClass.RealEstate => 70
  | AssetClass.Bonds => 65
  | AssetClass.Equities => 65
  | AssetClass.PrivateCredit => 75
  | AssetClass.Commodity => 60
  | AssetClass.Art => 80
  | AssetClass.Other => 50
  end.

(** [AssetClass::requires_audit], src/rwa_custody.rs:150-158 *)
Definition requires_audit (c : AssetClass) : bool :=
  match c with
  | AssetClass.PreciousMetals | AssetClass.RealEstate | AssetClass.Art | AssetClass.PrivateCredit => true
  | _ => false
  end.

(** [AssetClass::label], src/rwa_custody.rs:161-172 *)
Definition class_label (c : AssetClass) : string :=
  match c with
  | AssetClass.PreciousMetals => "PRECIOUS_METALS"
  | AssetClass.RealEstate => "REAL_ESTATE"
  | AssetClass.Bonds => "BONDS"
  | AssetClass.Equities => "EQUITIES"
  | AssetClass.PrivateCredit => "PRIVATE_CREDIT"
  | AssetClass.Commodity => "COMMODITY"
  | AssetClass.Art => "ART"
  | AssetClass.Other => "OTHER"
  end.

(** [SettlementState::Revoked], src/rwa_custody.rs:260-260 *)
Definition Revoked : SettlementState := SettlementState.Rejected.
(** [revoked_sentinel], src/rwa_custody.rs:259-259 *)
Definition revoked_sentinel : SettlementState := SettlementState.Rejected.

(** [SettlementState::is_terminal], src/rwa_custody.rs:202-210 *)
Definition settlement_terminal (s : SettlementState) : bool :=
  match s with
  | SettlementState.Settled | SettlementState.Rejected | SettlementState.Cancelled => true
  | _ => bool_decide (s = Revoked)
  end.

(** [SettlementState::is_complete], src/rwa_custody.rs:213-215 *)
Definition is_complete (s : SettlementState) : bool :=
  match s with SettlementState.Settled => true | _ => false end.

(** [SettlementState::is_retryable], src/rwa_custody.rs:218-220 *)
Definition is_retryable (s : SettlementState) : bool :=
  match s with SettlementState.Failed => true | _ => false end.

(** [SettlementState::can_transition_to], src/rwa_custody.rs:223-238 *)
Definition settlement_transition (s next : SettlementState) : bool :=
  match s, next with
  | SettlementState.Initiated, SettlementState.AwaitingConfirmation
  | SettlementState.Initiated, SettlementState.Cancelled
  | SettlementState.AwaitingConfirmation, SettlementState.Confirmed
  | SettlementState.AwaitingConfirmation, SettlementState.Rejected
  | SettlementState.AwaitingConfirmation, SettlementState.Cancelled
  | SettlementState.Confirmed, SettlementState.Settling
  | SettlementState.Confirmed, SettlementState.Cancelled
  | SettlementState.Settling, SettlementState.Settled
  | SettlementState.Settling, SettlementState.Failed
  | SettlementState.Failed, SettlementState.Initiated => true
  | _, _ => false
  end.

(** [SettlementState::label], src/rwa_custody.rs:241-253 *)
Definition settlement_label (s : SettlementState) : string :=
  match s with
  | SettlementState.Initiated => "INITIATED"
  | SettlementState.AwaitingConfirmation => "AWAITING_CONF"
  | SettlementState.Confirmed => "CONFIRMED"
  | SettlementState.Settling => "SETTLING"
  | SettlementState.Settled => "SETTLED"
  | SettlementState.Rejected => "REJECTED"
  | SettlementState.Failed => "FAILED"
  | SettlementState.Cancelled => "CANCELLED"
  end.

(** [CollateralState::can_pledge], src/rwa_custody.rs:285-287 *)
Definition state_can_pledge (s : CollateralState) : bool :=
  match s with CollateralState.Unencumbered => true | _ => false end.

(** [CollateralState::is_encumbered], src/rwa_custody.rs:290-292 *)
Definition is_encumbered (s : CollateralState) : bool :=
  match s with CollateralState.Pledged | CollateralState.Locked => true | _ => false end.

(** [CollateralState::can_transition_to], src/rwa_custody.rs:295-307 *)
Definition collateral_transition (s next : CollateralState) : bool :=
  match s, next with
  | CollateralState.Unencumbered, CollateralState.Pledged
  | CollateralState.Pledged, CollateralState.Locked
  | CollateralState.Pledged, CollateralState.Released
  | CollateralState.Pledged, CollateralState.Liquidated
  | CollateralState.Locked, CollateralState.Released
  | CollateralState.Locked, CollateralState.Liquidated
  | CollateralState.Released, CollateralState.Pledged => true
  | _, _ => false
  end.

(** [CollateralState::label], src/rwa_custody.rs:310-318 *)
Definition collateral_label (s : CollateralState) : string :=
  match s with
  | CollateralState.Unencumbered => "UNENCUMBERED"
  | CollateralState.Pledged => "PLEDGED"
  | CollateralState.Locked => "LOCKED"
  | CollateralState.Released => "RELEASED"
  | CollateralState.Liquidated => "LIQUIDATED"
  end.

(** [CollateralState::from_u8], src/rwa_custody.rs:433-442 *)
Definition collateral_from_u8 (v : Z) : option CollateralState :=
  match v with
  | 0 => Some CollateralState.Unencumbered
  | 1 => Some CollateralState.Pledged
  | 2 => Some CollateralState.Locked
  | 3 => Some CollateralState.Released
  | 4 => Some CollateralState.Liquidated
  | _ => None
  end.

(** [SettlementState::from_u8], src/rwa_custody.rs:493-505 *)
Definition settlement_from_u8 (v : Z) : option SettlementState :=
  match v with
  | 0 => Some SettlementState.Initiated
  | 1 => Some SettlementState.AwaitingConfirmation
  | 2 => Some SettlementState.Confirmed
  | 3 => Some SettlementState.Settling
  | 4 => Some SettlementState.Settled
  | 5 => Some SettlementState.Rejected
  | 6 => Some SettlementState.Failed
  | 7 => Some SettlementState.Cancelled
  | _ => None
  end.

(** The outcome of a function whose arithmetic may panic; none of them fails
    otherwise. *)
Abbreviation checked := (result Empty_set).

(** [1 << n] of a [u32]: a shift by 32 or more panics. *)
Definition u32_shl_1 (n : Z) : checked Z :=
  if Z.ltb n 32 then Ok (Z.shiftl 1 n) else Err (Panic Overflow).

(** [CustodianRecord::supports_asset_class], src/rwa_custody.rs:359-361 *)
Definition supports_asset_class (r : CustodianRecord) (class : AssetClass) : checked bool :=
  let? bit := u32_shl_1 (AssetClass.code class) in
  Ok (negb (Z.eqb (Z.land (cr_supported_asset_classes r) bit) 0)).

(** [CustodianRecord::meets_reputation_for], src/rwa_custody.rs:364-366 *)
Definition meets_reputation_for (r : CustodianRecord) (class : AssetClass) : bool :=
  Z.leb (min_custodian_reputation class) (cr_reputation_score r).

(** [CustodianRecord::is_eligible_for], src/rwa_custody.rs:369-373 *)
Definition is_eligible_for (r : CustodianRecord) (class : AssetClass) : checked bool :=
  if negb (Z.eqb (cr_status r) (CustodianStatus.code CustodianStatus.Active)) then Ok false
  else
    let? supported := supports_asset_class r class in
    Ok (supported && meets_reputation_for r class).

(** [CustodianRecord::solvency_ratio_bps], src/rwa_custody.rs:377-382 *)
Definition solvency_ratio_bps (r : CustodianRecord) : checked (option Z) :=
  if Z.eqb (cr_total_value_held r) 0 then Ok None
  else
    let? scaled := u128_chk (cr_insurance_coverage r * 10000) in
    Ok (Some (scaled / cr_total_value_held r)).

(** [AssetStorageRecord::is_tradeable], src/rwa_custody.rs:417-421 *)
Definition is_tradeable (r : AssetStorageRecord) : bool :=
  let col_state := default CollateralState.Liquidated (collateral_from_u8 (as_collateral_state r)) in
  bool_decide (col_state = CollateralState.Unencumbered).

(** [AssetStorageRecord::can_pledge], src/rwa_custody.rs:424-428 *)
Definition can_pledge (r : AssetStorageRecord) : bool :=
  default false (state_can_pledge <$> collateral_from_u8 (as_collateral_state r)).

(** [SettlementInstruction::is_active], src/rwa_custody.rs:479-482 *)
Definition settlement_active (i : SettlementInstruction) : bool :=
  let state := default SettlementState.Cancelled (settlement_from_u8 (si_state i)) in
  negb (settlement_terminal state).

(** [SettlementInstruction::can_retry], src/rwa_custody.rs:485-488 *)
Definition can_retry (i : SettlementInstruction) (max_retries : Z) : bool :=
  let state := default SettlementState.Cancelled (settlement_from_u8 (si_state i)) in
  is_retryable state && Z.ltb (si_retry_count i) max_retries.

(** [CollateralRecord::effective_ltv_bps], src/rwa_custody.rs:541-547 *)
Definition effective_ltv_bps (r : CollateralRecord) : checked Z :=
  if Z.eqb (cl_current_value r) 0 then Ok 10000
  else
    let? scaled := u128_chk (cl_pledged_value r * cl_ltv_bps r) in
    let loan_value := scaled / 10000 in
    let? again := u128_chk (loan_value * 10000) in
    Ok (as_u32 (again / cl_current_value r)).

(** [CollateralRecord::should_trigger_margin_call], src/rwa_custody.rs:550-552 *)
Definition should_trigger_margin_call (r : CollateralRecord) : checked bool :=
  let? ltv := effective_ltv_bps r in
  Ok (Z.leb (cl_margin_call_threshold_bps r) ltv).

(** [CollateralRecord::is_active], src/rwa_custody.rs:555-559 *)
Definition collateral_active (r : CollateralRecord) : bool :=
  let state := default CollateralState.Liquidated (collateral_from_u8 (cl_collateral_state r)) in
  is_encumbered state.

(** [ReputationEngine::apply_signals], src/rwa_custody.rs:604-628 *)
Definition apply_signals (base_score : Z) (signal : ReputationSignal) : Z :=
  let score := base_score in
  let score := if rs_audit_pass signal then score + 10 else score in
  let score := if rs_audit_fail signal then score - 20 else score in
  let score := if rs_compliance_violation signal then score - 15 else score in
  let score := if rs_settlement_success signal then score + 2 else score in
  let score := if rs_settlement_failure signal then score - 5 else score in
  let score := if rs_voluntary_disclosure signal then score + 5 else score in
  let score := if rs_insurance_claim signal then score - 10 else score in
  Z.max 0 (Z.min score 100).

(** [ReputationEngine::should_auto_suspend], src/rwa_custody.rs:636-638 *)
Definition should_auto_suspend (reputation_score violation_count : Z) : bool :=
  Z.ltb reputation_score 30 || Z.leb 3 violation_count.

(** [ReputationEngine::trust_tier], src/rwa_custody.rs:641-649 *)
Definition trust_tier (score : Z) : string :=
  if Z.leb score 29 then "UNTRUSTED"
  else if Z.leb score 49 then "PROBATION"
  else if Z.leb score 69 then "STANDARD"
  else if Z.leb score 89 then "TRUSTED"
  else "PREMIUM".

(** [CustodyConfig::institutional_defaults], src/rwa_custody.rs:674-682 *)
Definition institutional_defaults : CustodyConfig := mkCustodyConfig 60 3 7500 10000 true.

(** [CustodyConfig::is_valid_ltv], src/rwa_custody.rs:685-687 *)
Definition is_valid_ltv (c : CustodyConfig) (ltv_bps : Z) : bool := Z.leb ltv_bps (cy_max_ltv_bps c).

End Custody.

(** ** KYC and AML *)

Module KycAml.

Module VerificationStatus.
(** [VerificationStatus], src/rwa_kyc_aml.rs:51-64 *)
Inductive VerificationStatus : Set :=
  | Unverified | Pending | Approved | Rejected | Expired | Suspended.
#[global] Instance VerificationStatus_eq_dec : EqDecision VerificationStatus.
Proof. solve_decision. Defined.

(** [VerificationStatus], its discriminants, src/rwa_kyc_aml.rs:51-64 *)
Definition code (x : VerificationStatus) : Z :=
  match x with
  | Unverified => 0 | Pending => 1 | Approved => 2 | Rejected => 3 | Expired => 4
  | Suspended => 5
  end.
End VerificationStatus.
Abbreviation VerificationStatus := VerificationStatus.VerificationStatus.

Module RiskLevel.
(** [RiskLevel], src/rwa_kyc_aml.rs:126-137 *)
Inductive RiskLevel : Set :=
  | Unknown | Low | Medium | High | Critical.
#[global] Instance RiskLevel_eq_dec : EqDecision RiskLevel.
Proof. solve_decision. Defined.

(** [RiskLevel], its discriminants, src/rwa_kyc_aml.rs:126-137 *)
Definition code (x : RiskLevel) : Z :=
  match x with
  | Unknown => 0 | Low => 1 | Medium => 2 | High => 3 | Critical => 4
  end.
End RiskLevel.
Abbreviation RiskLevel := RiskLevel.RiskLevel.

Module AmlScreeningState.
(** [AmlScreeningState], src/rwa_kyc_aml.rs:194-209 *)
Inductive AmlScreeningState : Set :=
  | NotScreened | Screening | Clear | Flagged | UnderReview | Cleared | Blocked.
#[global] Instance AmlScreeningState_eq_dec : EqDecision AmlScreeningState.
Proof. solve_decision. Defined.

(** [AmlScreeningState], its discriminants, src/rwa_kyc_aml.rs:194-209 *)
Definition code (x : AmlScreeningState) : Z :=
  match x with
  | NotScreened => 0 | Screening => 1 | Clear => 2 | Flagged => 3 | UnderReview => 4
  | Cleared => 5 | Blocked => 6
  end.
End AmlScreeningState.
Abbreviation AmlScreeningState := AmlScreeningState.AmlScreeningState.

Module Jurisdiction.
(** [Jurisdiction], src/rwa_kyc_aml.rs:258-275 *)
Inductive Jurisdiction : Set :=
  | US | EU | UK | SG | UAE | CH | KY | Unknown.
#[global] Instance Jurisdiction_eq_dec : EqDecision Jurisdiction.
Proof. solve_decision. Defined.

(** [Jurisdiction], its discriminants, src/rwa_kyc_aml.rs:258-275 *)
Definition code (x : Jurisdiction) : Z :=
  match x with
  | US => 0 | EU => 1 | UK => 2 | SG => 3 | UAE => 4 | CH => 5 | KY => 6 | Unknown => 255
  end.
End Jurisdiction.
Abbreviation Jurisdiction := Jurisdiction.Jurisdiction.

Module SanctionsList.
(** [SanctionsList], src/rwa_kyc_aml.rs:316-327 *)
Inductive SanctionsList : Set :=
  | OFAC | EUSanctions | UNSanctions | OFSI | Interpol.
#[global] Instance SanctionsList_eq_dec : EqDecision SanctionsList.
Proof. solve_decision. Defined.

(** [SanctionsList], its discriminants, src/rwa_kyc_aml.rs:316-327 *)
Definition code (x : SanctionsList) : Z :=
  match x with
  | OFAC => 0 | EUSanctions => 1 | UNSanctions => 2 | OFSI => 3 | Interpol => 4
  end.
End SanctionsList.
Abbreviation SanctionsList := SanctionsList.SanctionsList.

(** [SanctionsMatch], src/rwa_kyc_aml.rs:360-371 *)
Record SanctionsMatch := mkSanctionsMatch {
  sm_list : Z;
  sm_confidence : Z;
  sm_detected_at : Z;
  sm_match_ref : Hash;
  sm_notes : Bytes }.

(** [KycRecord], src/rwa_kyc_aml.rs:388-407 *)
Record KycRecord := mkKycRecord {
  kr_entity : Address;
  kr_status : Z;
  kr_jurisdiction : Z;
  kr_last_updated : Z;
  kr_expires_at : Z;
  kr_document_hash : Hash;
  kr_reviewed_by : option Address;
  kr_version : Z;
  kr_notes : Bytes }.

(** [AmlScreeningResult], src/rwa_kyc_aml.rs:425-442 *)
Record AmlScreeningResult := mkAmlScreeningResult {
  ar_entity : Address;
  ar_state : Z;
  ar_risk_score : Z;
  ar_rule_hits : Z;
  ar_screened_at : Z;
  ar_sanctions_matches : list SanctionsMatch;
  ar_session_id : Hash;
  ar_officer_notes : Bytes }.

(** [ComplianceProfile], src/rwa_kyc_aml.rs:478-499 *)
Record ComplianceProfile := mkComplianceProfile {
  cp_entity : Address;
  cp_kyc_status : Z;
  cp_aml_state : Z;
  cp_risk_level : Z;
  cp_compliance_score : Z;
  cp_aml_flag_count : Z;
  cp_sanctions_hit_count : Z;
  cp_watchlisted : bool;
  cp_last_review_at : Z;
  cp_jurisdiction : Z }.

(** [KycAmlConfig], src/rwa_kyc_aml.rs:534-545 *)
Record KycAmlConfig := mkKycAmlConfig {
  ka_edd_threshold : Z;
  ka_sanctions_block_confidence : Z;
  ka_kyc_ttl_seconds : Z;
  ka_auto_suspend_score : Z;
  ka_highrisk_jurisdiction_edd : bool }.

(** [ComplianceScoringResult], src/rwa_kyc_aml.rs:578-595 *)
Record ComplianceScoringResult := mkComplianceScoringResult {
  sr_score : Z;
  sr_risk_level : Z;
  sr_jurisdiction_score : Z;
  sr_aml_rule_score : Z;
  sr_sanctions_score : Z;
  sr_history_score : Z;
  sr_requires_edd : bool;
  sr_auto_suspend : bool }.

(** [SanctionsCheckOutcome], src/rwa_kyc_aml.rs:696-707 *)
Record SanctionsCheckOutcome := mkSanctionsCheckOutcome {
  so_any_match : bool;
  so_blocked : bool;
  so_matches : list SanctionsMatch;
  so_aggregate_severity : Z;
  so_checked_at : Z }.

(** [VerificationStatus::is_eligible], src/rwa_kyc_aml.rs:68-70 *)
Definition is_eligible (s : VerificationStatus) : bool :=
  match s with VerificationStatus.Approved => true | _ => false end.

(** [VerificationStatus::requires_review], src/rwa_kyc_aml.rs:73-78 *)
Definition requires_review (s : VerificationStatus) : bool :=
  match s with VerificationStatus.Pending | VerificationStatus.Suspended => true | _ => false end.

(** [VerificationStatus::is_blocked], src/rwa_kyc_aml.rs:81-88 *)
Definition is_blocked (s : VerificationStatus) : bool :=
  match s with
  | VerificationStatus.Rejected | VerificationStatus.Suspended | VerificationStatus.Expired => true
  | _ => false
  end.

(** [VerificationStatus::label], src/rwa_kyc_aml.rs:91-100 *)
Definition verification_label (s : VerificationStatus) : string :=
  match s with
  | VerificationStatus.Unverified => "UNVERIFIED"
  | VerificationStatus.Pending => "PENDING"
  | VerificationStatus.Approved => "APPROVED"
  | VerificationStatus.Rejected => "REJECTED"
  | VerificationStatus.Expired => "EXPIRED"
  | VerificationStatus.Suspended => "SUSPENDED"
  end.

(** [VerificationStatus::can_transition_to], src/rwa_kyc_aml.rs:103-117 *)
Definition verification_transition (s next : VerificationStatus) : bool :=
  match s, next with
  | VerificationStatus.Unverified, VerificationStatus.Pending
  | VerificationStatus.Pending, VerificationStatus.Approved
  | VerificationStatus.Pending, VerificationStatus.Rejected
  | VerificationStatus.Rejected, VerificationStatus.Pending
  | VerificationStatus.Approved, VerificationStatus.Expired
  | VerificationStatus.Approved, VerificationStatus.Suspended
  | VerificationStatus.Expired, VerificationStatus.Pending
  | VerificationStatus.Suspended, VerificationStatus.Approved
  | VerificationStatus.Suspended, VerificationStatus.Rejected => true
  | _, _ => false
  end.

(** [RiskLevel::score_ceiling], src/rwa_kyc_aml.rs:141-149 *)
Definition score_ceiling (r : RiskLevel) : Z :=
  match r with
  | RiskLevel.Unknown => 0
  | RiskLevel.Low => 25
  | RiskLevel.Medium => 50
  | RiskLevel.High => 75
  | RiskLevel.Critical => 100
  end.

(** [RiskLevel::from_score], src/rwa_kyc_aml.rs:152-160 *)
Definition from_score (score : Z) : RiskLevel :=
  if Z.eqb score 0 then RiskLevel.Unknown
  else if Z.leb score 25 then RiskLevel.Low
  else if Z.leb score 50 then RiskLevel.Medium
  else if Z.leb score 75 then RiskLevel.High
  else RiskLevel.Critical.

(** [RiskLevel::permits_trading], src/rwa_kyc_aml.rs:163-165 *)
Definition permits_trading (r : RiskLevel) : bool :=
  match r with RiskLevel.Low | RiskLevel.Medium => true | _ => false end.

(** [RiskLevel::requires_edd], src/rwa_kyc_aml.rs:168-170 *)
Definition requires_edd (r : RiskLevel) : bool :=
  match r with RiskLevel.Medium | RiskLevel.High | RiskLevel.Critical => true | _ => false end.

(** [RiskLevel::label], src/rwa_kyc_aml.rs:173-181 *)
Definition risk_label (r : RiskLevel) : string :=
  match r with
  | RiskLevel.Unknown => "UNKNOWN"
  | RiskLevel.Low => "LOW"
  | RiskLevel.Medium => "MEDIUM"
  | RiskLevel.High => "HIGH"
  | RiskLevel.Critical => "CRITICAL"
  end.

(** [AmlScreeningState::allows_activity], src/rwa_kyc_aml.rs:213-215 *)
Definition allows_activity (s : AmlScreeningState) : bool :=
  match s with AmlScreeningState.Clear | AmlScreeningState.Cleared => true | _ => false end.

(** [AmlScreeningState::needs_officer_action], src/rwa_kyc_aml.rs:218-223 *)
Definition needs_officer_action (s : AmlScreeningState) : bool :=
  match s with AmlScreeningState.Flagged | AmlScreeningState.UnderReview => true | _ => false end.

(** [AmlScreeningState::can_transition_to], src/rwa_kyc_aml.rs:226-238 *)
Definition screening_transition (s next : AmlScreeningState) : bool :=
  match s, next with
  | AmlScreeningState.NotScreened, AmlScreeningState.Screening
  | AmlScreeningState.Screening, AmlScreeningState.Clear
  | AmlScreeningState.Screening, AmlScreeningState.Flagged
  | AmlScreeningState.Flagged, AmlScreeningState.UnderReview
  | AmlScreeningState.UnderReview, AmlScreeningState.Cleared
  | AmlScreeningState.UnderReview, AmlScreeningState.Blocked
  | AmlScreeningState.Cleared, AmlScreeningState.Screening => true
  | _, _ => false
  end.

(** [AmlScreeningState::label], src/rwa_kyc_aml.rs:241-251 *)
Definition screening_label (s : AmlScreeningState) : string :=
  match s with
  | AmlScreeningState.NotScreened => "NOT_SCREENED"
  | AmlScreeningState.Screening => "SCREENING"
  | AmlScreeningState.Clear => "CLEAR"
  | AmlScreeningState.Flagged => "FLAGGED"
  | AmlScreeningState.UnderReview => "UNDER_REVIEW"
  | AmlScreeningState.Cleared => "CLEARED"
  | AmlScreeningState.Blocked => "BLOCKED"
  end.

(** [AmlScreeningState::from_u8], src/rwa_kyc_aml.rs:461-472 *)
Definition screening_from_u8 (v : Z) : option AmlScreeningState :=
  match v with
  | 0 => Some AmlScreeningState.NotScreened
  | 1 => Some AmlScreeningState.Screening
  | 2 => Some AmlScreeningState.Clear
  | 3 => Some AmlScreeningState.Flagged
  | 4 => Some AmlScreeningState.UnderReview
  | 5 => Some AmlScreeningState.Cleared
  | 6 => Some AmlScreeningState.Blocked
  | _ => None
  end.

(** [Jurisdiction::is_high_risk], src/rwa_kyc_aml.rs:279-281 *)
Definition is_high_risk (j : Jurisdiction) : bool :=
  match j with Jurisdiction.KY | Jurisdiction.Unknown => true | _ => false end.

(** [Jurisdiction::base_risk_score], src/rwa_kyc_aml.rs:284-295 *)
Definition base_risk_score (j : Jurisdiction) : Z :=
  match j with
  | Jurisdiction.US => 5
  | Jurisdiction.EU => 5
  | Jurisdiction.UK => 5
  | Jurisdiction.SG => 10
  | Jurisdiction.UAE => 15
  | Jurisdiction.CH => 10
  | Jurisdiction.KY => 30
  | Jurisdiction.Unknown => 40
  end.

(** [Jurisdiction::code], src/rwa_kyc_aml.rs:298-309 *)
Definition iso_code (j : Jurisdiction) : string :=
  match j with
  | Jurisdiction.US => "US"
  | Jurisdiction.EU => "EU"
  | Jurisdiction.UK => "GB"
  | Jurisdiction.SG => "SG"
  | Jurisdiction.UAE => "AE"
  | Jurisdiction.CH => "CH"
  | Jurisdiction.KY => "KY"
  | Jurisdiction.Unknown => "XX"
  end.

(** [SanctionsList::weight], src/rwa_kyc_aml.rs:331-339 *)
Definition weight (l : SanctionsList) : Z :=
  match l with
  | SanctionsList.OFAC => 50
  | SanctionsList.EUSanctions => 45
  | SanctionsList.UNSanctions => 50
  | SanctionsList.OFSI => 45
  | SanctionsList.Interpol => 40
  end.

(** [SanctionsList::name], src/rwa_kyc_aml.rs:342-350 *)
Definition list_name (l : SanctionsList) : string :=
  match l with
  | SanctionsList.OFAC => "OFAC SDN"
  | SanctionsList.EUSanctions => "EU Sanctions"
  | SanctionsList.UNSanctions => "UN Sanctions"
  | SanctionsList.OFSI => "UK OFSI"
  | SanctionsList.Interpol => "Interpol Red Notice"
  end.

(** [SanctionsMatch::is_blocking], src/rwa_kyc_aml.rs:375-377 *)
Definition is_blocking (m : SanctionsMatch) : bool := Z.leb 80 (sm_confidence m).
(** [SanctionsMatch::is_definitive], src/rwa_kyc_aml.rs:380-382 *)
Definition is_definitive (m : SanctionsMatch) : bool := Z.eqb (sm_confidence m) 100.

(** [KycRecord::is_active], src/rwa_kyc_aml.rs:411-414 *)
Definition is_active (r : KycRecord) (current_time : Z) : bool :=
  Z.eqb (kr_status r) (VerificationStatus.code VerificationStatus.Approved) &&
  (Z.eqb (kr_expires_at r) 0 || Z.ltb current_time (kr_expires_at r)).

(** [KycRecord::is_expired], src/rwa_kyc_aml.rs:417-419 *)
Definition is_expired (r : KycRecord) (current_time : Z) : bool :=
  Z.ltb 0 (kr_expires_at r) && Z.leb (kr_expires_at r) current_time.

(** What a stored screening state allows: [Clear] or [Cleared]. *)
Definition screened_clear (state : Z) : bool :=
  match screening_from_u8 state with
  | Some AmlScreeningState.Clear | Some AmlScreeningState.Cleared => true
  | _ => false
  end.

(** [AmlScreeningResult::is_clear], src/rwa_kyc_aml.rs:446-451 *)
Definition is_clear (r : AmlScreeningResult) : bool := screened_clear (ar_state r).

(** [AmlScreeningResult::has_blocking_sanctions], src/rwa_kyc_aml.rs:454-456 *)
Definition has_blocking_sanctions (r : AmlScreeningResult) : bool :=
  existsb is_blocking (ar_sanctions_matches r).

(** [ComplianceProfile::is_fully_compliant], src/rwa_kyc_aml.rs:503-511 *)
Definition is_fully_compliant (p : ComplianceProfile) : bool :=
  let kyc_ok := Z.eqb (cp_kyc_status p) (VerificationStatus.code VerificationStatus.Approved) in
  let aml_ok := screened_clear (cp_aml_state p) in
  let risk_ok := permits_trading (from_score (cp_compliance_score p)) in
  kyc_ok && aml_ok && risk_ok && negb (cp_watchlisted p).

(** [ComplianceProfile::effective_risk_level], src/rwa_kyc_aml.rs:514-528 *)
Definition effective_risk_level (p : ComplianceProfile) : RiskLevel :=
  let stored := from_score (cp_compliance_score p) in
  let explicit :=
    if Z.eqb (cp_risk_level p) (RiskLevel.code RiskLevel.Critical) then RiskLevel.Critical
    else if Z.eqb (cp_risk_level p) (RiskLevel.code RiskLevel.High) then RiskLevel.High
    else stored in
  if Z.ltb (RiskLevel.code stored) (RiskLevel.code explicit) then explicit else stored.

(** [KycAmlConfig::institutional_defaults], src/rwa_kyc_aml.rs:549-557 *)
Definition institutional_defaults : KycAmlConfig := mkKycAmlConfig 40 70 (365 * 24 * 3600) 80 true.
(** [KycAmlConfig::retail_defaults], src/rwa_kyc_aml.rs:560-568 *)
Definition retail_defaults : KycAmlConfig := mkKycAmlConfig 60 90 (2 * 365 * 24 * 3600) 90 false.

Abbreviation checked := (result Empty_set).

(** The list a match comes from. *)
Definition list_of (m : SanctionsMatch) : SanctionsList :=
  match sm_list m with
  | 0 => SanctionsList.OFAC
  | 1 => SanctionsList.EUSanctions
  | 2 => SanctionsList.UNSanctions
  | 3 => SanctionsList.OFSI
  | _ => SanctionsList.Interpol
  end.

(** The weight of a match scaled by its confidence. *)
Definition severity (m : SanctionsMatch) : checked Z :=
  let? scaled := u32_chk (weight (list_of m) * sm_confidence m) in Ok (scaled / 100).

(** The severities of matches, added up with saturation. *)
Definition severities (matches : list SanctionsMatch) : checked Z :=
  try_fold (fun acc m => let? s := severity m in Ok (u32_sat_add acc s)) 0 matches.

(** [ComplianceScoringEngine::compute], src/rwa_kyc_aml.rs:612-660 *)
Definition compute (jurisdiction : Jurisdiction) (aml_rule_hits : Z)
    (sanctions_matches : list SanctionsMatch) (historical_flags : Z) (config : KycAmlConfig)
    : checked ComplianceScoringResult :=
  let jurisdiction_score := Z.min (base_risk_score jurisdiction) 40 in
  let? hits := u32_chk (aml_rule_hits * 5) in
  let aml_rule_score := Z.min hits 30 in
  let? sanctions := severities sanctions_matches in
  let sanctions_score := Z.min sanctions 50 in
  let? flags := u32_chk (historical_flags * 2) in
  let history_score := Z.min flags 20 in
  let raw := u32_sat_add (u32_sat_add (u32_sat_add jurisdiction_score aml_rule_score) sanctions_score)
               history_score in
  let score := Z.min raw 100 in
  let risk_level := from_score score in
  Ok (mkComplianceScoringResult score (RiskLevel.code risk_level) jurisdiction_score aml_rule_score
        sanctions_score history_score
        (Z.leb (ka_edd_threshold config) score ||
         (ka_highrisk_jurisdiction_edd config && is_high_risk jurisdiction))
        (Z.leb (ka_auto_suspend_score config) score)).

(** [ComplianceScoringEngine::rescore_profile], src/rwa_kyc_aml.rs:663-686 *)
Definition rescore_profile (profile : ComplianceProfile) (additional_rule_hits : Z)
    (new_sanctions_matches : list SanctionsMatch) (config : KycAmlConfig)
    : checked ComplianceScoringResult :=
  let jurisdiction :=
    match cp_jurisdiction profile with
    | 0 => Jurisdiction.US
    | 1 => Jurisdiction.EU
    | 2 => Jurisdiction.UK
    | 3 => Jurisdiction.SG
    | 4 => Jurisdiction.UAE
    | 5 => Jurisdiction.CH
    | 6 => Jurisdiction.KY
    | _ => Jurisdiction.Unknown
    end in
  let? hits := u32_plus (cp_aml_flag_count profile) additional_rule_hits in
  compute jurisdiction hits new_sanctions_matches (cp_aml_flag_count profile) config.

(** [SanctionsCheckOutcome::must_block], src/rwa_kyc_aml.rs:711-713 *)
Definition must_block (o : SanctionsCheckOutcome) : bool := so_blocked o.
(** [SanctionsCheckOutcome::needs_review], src/rwa_kyc_aml.rs:717-719 *)
Definition needs_review (o : SanctionsCheckOutcome) : bool := so_any_match o && negb (so_blocked o).

(** [SanctionsChecker::evaluate], src/rwa_kyc_aml.rs:731-772 *)
Definition evaluate (matches : list SanctionsMatch) (config : KycAmlConfig) (current_time : Z)
    : checked SanctionsCheckOutcome :=
  match matches with
  | [] => Ok (mkSanctionsCheckOutcome false false [] 0 current_time)
  | _ =>
      let blocked := existsb (fun m => Z.leb (ka_sanctions_block_confidence config) (sm_confidence m))
                       matches in
      let? sum := severities matches in
      let aggregate_severity := Z.min sum 100 in
      Ok (mkSanctionsCheckOutcome true blocked [] aggregate_severity current_time)
  end.

End KycAml.

(** ** Monitoring *)

Module Monitoring.

Module ComplianceEventType.
(** [ComplianceEventType], src/rwa_monitoring.rs:29-97 *)
Inductive ComplianceEventType : Set :=
  | TokenProposed | TokenApproved | TokenRejected | TokenStateChanged | TokenRetired
  | TokensMinted | TokensBurned | MintDenied | TransferCompleted | TransferBlocked
  | LargeTransfer | CrossJurisdictionTransfer | HolderRegistered | HolderKycUpdated
  | HolderBlocked | HolderUnblocked | HolderAllowlisted | VelocityBreach | WashTradingDetected
  | DormantAccountActivated | ConcentrationRisk | StructuringDetected | SanctionsMatch | SarFiled
  | CtrFiled | TravelRuleShared | MicaDisclosure | BcbsCreditReport.
#[global] Instance ComplianceEventType_eq_dec : EqDecision ComplianceEventType.
Proof. solve_decision. Defined.

(** [ComplianceEventType], its discriminants, src/rwa_monitoring.rs:29-97 *)
Definition code (x : ComplianceEventType) : Z :=
  match x with
  | TokenProposed => 0 | TokenApproved => 1 | TokenRejected => 2 | TokenStateChanged => 3
  | TokenRetired => 4 | TokensMinted => 10 | TokensBurned => 11 | MintDenied => 12
  | TransferCompleted => 20 | TransferBlocked => 21 | LargeTransfer => 22
  | CrossJurisdictionTransfer => 23 | HolderRegistered => 30 | HolderKycUpdated => 31
  | HolderBlocked => 32 | HolderUnblocked => 33 | HolderAllowlisted => 34 | VelocityBreach => 40
  | WashTradingDetected => 41 | DormantAccountActivated => 42 | ConcentrationRisk => 43
  | StructuringDetected => 44 | SanctionsMatch => 45 | SarFiled => 50 | CtrFiled => 51
  | TravelRuleShared => 52 | MicaDisclosure => 53 | BcbsCreditReport => 54
  end.
End ComplianceEventType.
Abbreviation ComplianceEventType := ComplianceEventType.ComplianceEventType.

(** [ComplianceEvent], src/rwa_monitoring.rs:178-201 *)
Record ComplianceEvent := mkComplianceEvent {
  ce_event_id : Hash;
  ce_event_type : Z;
  ce_token_id : Hash;
  ce_actor : Address;
  ce_counterparty : option Address;
  ce_amount : Z;
  ce_severity : Z;
  ce_timestamp : Z;
  ce_payload : Bytes;
  ce_filing_ref : option Hash;
  ce_prev_event_hash : Hash }.

(** [RedFlagThresholds], src/rwa_monitoring.rs:259-276 *)
Record RedFlagThresholds := mkRedFlagThresholds {
  rf_large_transfer_threshold : Z;
  rf_velocity_max_transfers : Z;
  rf_velocity_window_seconds : Z;
  rf_concentration_limit_bps : Z;
  rf_dormancy_period_seconds : Z;
  rf_wash_trade_roundtrip_limit : Z;
  rf_structuring_tx_count : Z;
  rf_structuring_amount_ceiling : Z }.

Module RedFlagOutcome.
(** [RedFlagOutcome], src/rwa_monitoring.rs:298-307 *)
Inductive RedFlagOutcome : Set :=
  | Clean | FlaggedForReview | AutoFileSar | SanctionsHit.
#[global] Instance RedFlagOutcome_eq_dec : EqDecision RedFlagOutcome.
Proof. solve_decision. Defined.

(** [RedFlagOutcome], its discriminants, src/rwa_monitoring.rs:298-307 *)
Definition code (x : RedFlagOutcome) : Z :=
  match x with
  | Clean => 0 | FlaggedForReview => 1 | AutoFileSar => 2 | SanctionsHit => 3
  end.
End RedFlagOutcome.
Abbreviation RedFlagOutcome := RedFlagOutcome.RedFlagOutcome.

Module ReportStatus.
(** [ReportStatus], src/rwa_monitoring.rs:415-430 *)
Inductive ReportStatus : Set :=
  | Draft | InReview | Approved | Filed | Acknowledged | Rejected | Withdrawn.
#[global] Instance ReportStatus_eq_dec : EqDecision ReportStatus.
Proof. solve_decision. Defined.

(** [ReportStatus], its discriminants, src/rwa_monitoring.rs:415-430 *)
Definition code (x : ReportStatus) : Z :=
  match x with
  | Draft => 0 | InReview => 1 | Approved => 2 | Filed => 3 | Acknowledged => 4 | Rejected => 5
  | Withdrawn => 6
  end.
End ReportStatus.
Abbreviation ReportStatus := ReportStatus.ReportStatus.

Module FilingType.
(** [FilingType], src/rwa_monitoring.rs:473-488 *)
Inductive FilingType : Set :=
  | FinCenSar | FinCenCtr | FatfTravelRule | MicaArticle76 | BcbsCreditExposure | EsmaPosition
  | IosCoCrossBorder.
#[global] Instance FilingType_eq_dec : EqDecision FilingType.
Proof. solve_decision. Defined.

(** [FilingType], its discriminants, src/rwa_monitoring.rs:473-488 *)
Definition code (x : FilingType) : Z :=
  match x with
  | FinCenSar => 0 | FinCenCtr => 1 | FatfTravelRule => 2 | MicaArticle76 => 3
  | BcbsCreditExposure => 4 | EsmaPosition => 5 | IosCoCrossBorder => 6
  end.
End FilingType.
Abbreviation FilingType := FilingType.FilingType.

(** [RegulatoryFiling], src/rwa_monitoring.rs:534-559 *)
Record RegulatoryFiling := mkRegulatoryFiling {
  rg_filing_id : Hash;
  rg_filing_type : Z;
  rg_status : Z;
  rg_token_id : Hash;
  rg_subject : Address;
  rg_filed_by : Address;
  rg_created_at : Z;
  rg_updated_at : Z;
  rg_regulator_ref : option Bytes;
  rg_payload : Bytes;
  rg_trigger_event_ids : list Hash;
  rg_payload_hash : Hash }.

(** [MonitoringConfig], src/rwa_monitoring.rs:611-624 *)
Record MonitoringConfig := mkMonitoringConfig {
  mo_max_events_per_token : Z;
  mo_max_open_filings : Z;
  mo_auto_sar_enabled : bool;
  mo_travel_rule_mandatory : bool;
  mo_travel_rule_threshold : Z;
  mo_red_flag_thresholds : RedFlagThresholds }.

(** [ComplianceEventType::topic_name], src/rwa_monitoring.rs:101-132 *)
Definition topic_name (e : ComplianceEventType) : string :=
  match e with
  | ComplianceEventType.TokenProposed => "TKN_PROPOSED"
  | ComplianceEventType.TokenApproved => "TKN_APPROVED"
  | ComplianceEventType.TokenRejected => "TKN_REJECTED"
  | ComplianceEventType.TokenStateChanged => "TKN_STATE"
  | ComplianceEventType.TokenRetired => "TKN_RETIRED"
  | ComplianceEventType.TokensMinted => "MINT"
  | ComplianceEventType.TokensBurned => "BURN"
  | ComplianceEventType.MintDenied => "MINT_DENIED"
  | ComplianceEventType.TransferCompleted => "XFER_OK"
  | ComplianceEventType.TransferBlocked => "XFER_BLOCKED"
  | ComplianceEventType.LargeTransfer => "LARGE_XFER"
  | ComplianceEventType.CrossJurisdictionTransfer => "CROSS_JUR"
  | ComplianceEventType.HolderRegistered => "HLDR_REG"
  | ComplianceEventType.HolderKycUpdated => "HLDR_KYC"
  | ComplianceEventType.HolderBlocked => "HLDR_BLOCKED"
  | ComplianceEventType.HolderUnblocked => "HLDR_UNBLOCKED"
  | ComplianceEventType.HolderAllowlisted => "HLDR_ALLOW"
  | ComplianceEventType.VelocityBreach => "VEL_BREACH"
  | ComplianceEventType.WashTradingDetected => "WASH_TRADE"
  | ComplianceEventType.DormantAccountActivated => "DORMANT_ACT"
  | ComplianceEventType.ConcentrationRisk => "CONC_RISK"
  | ComplianceEventType.StructuringDetected => "STRUCTURING"
  | ComplianceEventType.SanctionsMatch => "SANCTIONS"
  | ComplianceEventType.SarFiled => "SAR_FILED"
  | ComplianceEventType.CtrFiled => "CTR_FILED"
  | ComplianceEventType.TravelRuleShared => "TRAVEL_RULE"
  | ComplianceEventType.MicaDisclosure => "MICA_DISC"
  | ComplianceEventType.BcbsCreditReport => "BCBS_CREDIT"
  end.

(** [ComplianceEventType::is_red_flag], src/rwa_monitoring.rs:135-145 *)
Definition is_red_flag (e : ComplianceEventType) : bool :=
  match e with
  | ComplianceEventType.VelocityBreach | ComplianceEventType.WashTradingDetected
  | ComplianceEventType.DormantAccountActivated | ComplianceEventType.ConcentrationRisk
  | ComplianceEventType.StructuringDetected | ComplianceEventType.SanctionsMatch => true
  | _ => false
  end.

(** [ComplianceEventType::triggers_auto_filing], src/rwa_monitoring.rs:148-155 *)
Definition triggers_auto_filing (e : ComplianceEventType) : bool :=
  match e with
  | ComplianceEventType.WashTradingDetected | ComplianceEventType.SanctionsMatch
  | ComplianceEventType.LargeTransfer => true
  | _ => false
  end.

(** [ComplianceEventType::default_severity], src/rwa_monitoring.rs:158-168 *)
Definition default_severity (e : ComplianceEventType) : Z :=
  match e with
  | ComplianceEventType.SanctionsMatch | ComplianceEventType.WashTradingDetected => 2
  | ComplianceEventType.VelocityBreach | ComplianceEventType.StructuringDetected
  | ComplianceEventType.ConcentrationRisk | ComplianceEventType.TransferBlocked => 1
  | _ => 0
  end.

(** [ComplianceEventType::from_u8], src/rwa_monitoring.rs:217-249 *)
Definition event_from_u8 (v : Z) : ComplianceEventType :=
  match v with
  | 0 => ComplianceEventType.TokenProposed
  | 1 => ComplianceEventType.TokenApproved
  | 2 => ComplianceEventType.TokenRejected
  | 3 => ComplianceEventType.TokenStateChanged
  | 4 => ComplianceEventType.TokenRetired
  | 10 => ComplianceEventType.TokensMinted
  | 11 => ComplianceEventType.TokensBurned
  | 12 => ComplianceEventType.MintDenied
  | 20 => ComplianceEventType.TransferCompleted
  | 21 => ComplianceEventType.TransferBlocked
  | 22 => ComplianceEventType.LargeTransfer
  | 23 => ComplianceEventType.CrossJurisdictionTransfer
  | 30 => ComplianceEventType.HolderRegistered
  | 31 => ComplianceEventType.HolderKycUpdated
  | 32 => ComplianceEventType.HolderBlocked
  | 33 => ComplianceEventType.HolderUnblocked
  | 34 => ComplianceEventType.HolderAllowlisted
  | 40 => ComplianceEventType.VelocityBreach
  | 41 => ComplianceEventType.WashTradingDetected
  | 42 => ComplianceEventType.DormantAccountActivated
  | 43 => ComplianceEventType.ConcentrationRisk
  | 44 => ComplianceEventType.StructuringDetected
  | 45 => ComplianceEventType.SanctionsMatch
  | 50 => ComplianceEventType.SarFiled
  | 51 => ComplianceEventType.CtrFiled
  | 52 => ComplianceEventType.TravelRuleShared
  | 53 => ComplianceEventType.MicaDisclosure
  | 54 => ComplianceEventType.BcbsCreditReport
  | _ => ComplianceEventType.TransferCompleted
  end.

(** [ComplianceEvent::compliance_event_type], src/rwa_monitoring.rs:205-207 *)
Definition compliance_event_type (e : ComplianceEvent) : ComplianceEventType :=
  event_from_u8 (ce_event_type e).

(** [ComplianceEvent::requires_action], src/rwa_monitoring.rs:210-212 *)
Definition requires_action (e : ComplianceEvent) : bool :=
  Z.leb 1 (ce_severity e) || is_red_flag (compliance_event_type e).

(** [RedFlagThresholds::default], src/rwa_monitoring.rs:280-291 *)
Definition default_thresholds : RedFlagThresholds :=
  mkRedFlagThresholds 1000000 50 86400 2500 15552000 3 5 999999.

(** [RedFlagOutcome::requires_immediate_action], src/rwa_monitoring.rs:310-315 *)
Definition requires_immediate_action (o : RedFlagOutcome) : bool :=
  match o with RedFlagOutcome.AutoFileSar | RedFlagOutcome.SanctionsHit => true | _ => false end.

(** [RedFlagOutcome::as_str], src/rwa_monitoring.rs:317-324 *)
Definition outcome_str (o : RedFlagOutcome) : string :=
  match o with
  | RedFlagOutcome.Clean => "CLEAN"
  | RedFlagOutcome.FlaggedForReview => "REVIEW"
  | RedFlagOutcome.AutoFileSar => "AUTO_SAR"
  | RedFlagOutcome.SanctionsHit => "SANCTIONS_HIT"
  end.

(** [RedFlagDetector::check_large_transfer], src/rwa_monitoring.rs:332-337 *)
Definition check_large_transfer (amount : Z) (t : RedFlagThresholds) : bool :=
  Z.leb (rf_large_transfer_threshold t) amount.

(** [RedFlagDetector::check_velocity_breach], src/rwa_monitoring.rs:341-346 *)
Definition check_velocity_breach (transfers_in_window : Z) (t : RedFlagThresholds) : bool :=
  Z.ltb (rf_velocity_max_transfers t) transfers_in_window.

(** [u128::saturating_mul]. *)
Definition u128_sat_mul (a b : Z) : Z := Z.min (a * b) u128_max.

(** [RedFlagDetector::check_concentration_risk], src/rwa_monitoring.rs:350-361 *)
Definition check_concentration_risk (holder_balance total_supply : Z) (t : RedFlagThresholds) : bool :=
  if Z.eqb total_supply 0 then false
  else
    let holder_bps := u128_sat_mul holder_balance 10000 / total_supply in
    Z.ltb (rf_concentration_limit_bps t) holder_bps.

(** [RedFlagDetector::check_dormant_activation], src/rwa_monitoring.rs:365-371 *)
Definition check_dormant_activation (last_active_ts now_ts : Z) (t : RedFlagThresholds) : bool :=
  Z.leb (rf_dormancy_period_seconds t) (u64_sat_sub now_ts last_active_ts).

(** [RedFlagDetector::check_wash_trading], src/rwa_monitoring.rs:375-380 *)
Definition check_wash_trading (roundtrip_count : Z) (t : RedFlagThresholds) : bool :=
  Z.leb (rf_wash_trade_roundtrip_limit t) roundtrip_count.

(** [RedFlagDetector::check_structuring], src/rwa_monitoring.rs:384-391 *)
Definition check_structuring (sub_threshold_tx_count single_amount : Z) (t : RedFlagThresholds) : bool :=
  Z.ltb single_amount (rf_structuring_amount_ceiling t) &&
  Z.leb (rf_structuring_tx_count t) sub_threshold_tx_count.

(** [RedFlagDetector::aggregate_outcome], src/rwa_monitoring.rs:394-404 *)
Definition aggregate_outcome (flags : list bool) (has_sanctions_hit : bool) : RedFlagOutcome :=
  if has_sanctions_hit then RedFlagOutcome.SanctionsHit
  else
    let flag_count := length (List.filter (fun f => f) flags) in
    match flag_count with
    | O => RedFlagOutcome.Clean
    | 1%nat => RedFlagOutcome.FlaggedForReview
    | _ => RedFlagOutcome.AutoFileSar
    end.

(** [ReportStatus::can_transition_to], src/rwa_monitoring.rs:434-447 *)
Definition report_transition (s to : ReportStatus) : bool :=
  match s, to with
  | ReportStatus.Draft, ReportStatus.InReview
  | ReportStatus.Draft, ReportStatus.Withdrawn
  | ReportStatus.InReview, ReportStatus.Approved
  | ReportStatus.InReview, ReportStatus.Draft
  | ReportStatus.Approved, ReportStatus.Filed
  | ReportStatus.Approved, ReportStatus.Withdrawn
  | ReportStatus.Filed, ReportStatus.Acknowledged
  | ReportStatus.Filed, ReportStatus.Rejected
  | ReportStatus.Rejected, ReportStatus.Draft => true
  | _, _ => false
  end.

(** [ReportStatus::is_terminal], src/rwa_monitoring.rs:449-454 *)
Definition report_terminal (s : ReportStatus) : bool :=
  match s with ReportStatus.Acknowledged | ReportStatus.Withdrawn => true | _ => false end.

(** [ReportStatus::as_str], src/rwa_monitoring.rs:456-466 *)
Definition report_str (s : ReportStatus) : string :=
  match s with
  | ReportStatus.Draft => "DRAFT"
  | ReportStatus.InReview => "IN_REVIEW"
  | ReportStatus.Approved => "APPROVED"
  | ReportStatus.Filed => "FILED"
  | ReportStatus.Acknowledged => "ACKNOWLEDGED"
  | ReportStatus.Rejected => "REJECTED"
  | ReportStatus.Withdrawn => "WITHDRAWN"
  end.

(** [FilingType::label], src/rwa_monitoring.rs:491-501 *)
Definition filing_label (f : FilingType) : string :=
  match f with
  | FilingType.FinCenSar => "FinCEN SAR"
  | FilingType.FinCenCtr => "FinCEN CTR"
  | FilingType.FatfTravelRule => "FATF Travel Rule"
  | FilingType.MicaArticle76 => "MiCA Article 76"
  | FilingType.BcbsCreditExposure => "BCBS Credit Exposure"
  | FilingType.EsmaPosition => "ESMA Position"
  | FilingType.IosCoCrossBorder => "IOSCO Cross-Border"
  end.

(** [FilingType::deadline_hours], src/rwa_monitoring.rs:504-514 *)
Definition deadline_hours (f : FilingType) : option Z :=
  match f with
  | FilingType.FinCenSar => Some (30 * 24)
  | FilingType.FinCenCtr => Some (15 * 24)
  | FilingType.FatfTravelRule => Some 1
  | FilingType.MicaArticle76 => Some (90 * 24)
  | FilingType.BcbsCreditExposure => Some (30 * 24)
  | FilingType.EsmaPosition => Some (1 * 24)
  | FilingType.IosCoCrossBorder => None
  end.

(** [FilingType::is_cross_border], src/rwa_monitoring.rs:517-524 *)
Definition is_cross_border (f : FilingType) : bool :=
  match f with
  | FilingType.FatfTravelRule | FilingType.MicaArticle76 | FilingType.IosCoCrossBorder => true
  | _ => false
  end.

(** [RegulatoryFiling::filing_type_enum], src/rwa_monitoring.rs:563-573 *)
Definition filing_type_enum (r : RegulatoryFiling) : FilingType :=
  match rg_filing_type r with
  | 0 => FilingType.FinCenSar
  | 1 => FilingType.FinCenCtr
  | 2 => FilingType.FatfTravelRule
  | 3 => FilingType.MicaArticle76
  | 4 => FilingType.BcbsCreditExposure
  | 5 => FilingType.EsmaPosition
  | _ => FilingType.IosCoCrossBorder
  end.

(** [RegulatoryFiling::report_status], src/rwa_monitoring.rs:576-586 *)
Definition report_status (r : RegulatoryFiling) : ReportStatus :=
  match rg_status r with
  | 0 => ReportStatus.Draft
  | 1 => ReportStatus.InReview
  | 2 => ReportStatus.Approved
  | 3 => ReportStatus.Filed
  | 4 => ReportStatus.Acknowledged
  | 5 => ReportStatus.Rejected
  | _ => ReportStatus.Withdrawn
  end.

(** [RegulatoryFiling::is_overdue], src/rwa_monitoring.rs:589-601 *)
Definition is_overdue (r : RegulatoryFiling) (now_ts : Z) : bool :=
  if report_terminal (report_status r) then false
  else
    match deadline_hours (filing_type_enum r) with
    | Some deadline_h =>
        let deadline_ts := u64_sat_add (rg_created_at r) (deadline_h * 3600) in
        Z.ltb deadline_ts now_ts
    | None => false
    end.

(** [MonitoringConfig::default], src/rwa_monitoring.rs:627-636 *)
Definition default_monitoring : MonitoringConfig :=
  mkMonitoringConfig 50000 1000 true false 100000 default_thresholds.

(** [MonitoringConfig::requires_travel_rule], src/rwa_monitoring.rs:639-641 *)
Definition requires_travel_rule (c : MonitoringConfig) (amount : Z) : bool :=
  mo_travel_rule_mandatory c || Z.leb (mo_travel_rule_threshold c) amount.

(** [ReportingWorkflow::transition], src/rwa_monitoring.rs:654-663 *)
Definition transition (current target : ReportStatus) : result string ReportStatus :=
  if report_transition current target then Ok target else Err (Raise "INVALID_TRANSITION"%string).

(** [ReportingWorkflow::should_auto_file_sar], src/rwa_monitoring.rs:667-676 *)
Definition should_auto_file_sar (outcome : RedFlagOutcome) (config : MonitoringConfig) : bool :=
  mo_auto_sar_enabled config &&
  match outcome with RedFlagOutcome.AutoFileSar | RedFlagOutcome.SanctionsHit => true | _ => false end.

(** [ReportingWorkflow::requires_travel_rule_payload], src/rwa_monitoring.rs:679-688 *)
Definition requires_travel_rule_payload (event_type : ComplianceEventType) (amount : Z)
    (config : MonitoringConfig) : bool :=
  match event_type with
  | ComplianceEventType.TransferCompleted | ComplianceEventType.LargeTransfer => true
  | _ => false
  end && requires_travel_rule config amount.

(** [ReportingWorkflow::recommend_filing_type], src/rwa_monitoring.rs:691-712 *)
Definition recommend_filing_type (outcome : RedFlagOutcome) (event_type : ComplianceEventType)
    : option FilingType :=
  match outcome with
  | RedFlagOutcome.SanctionsHit => Some FilingType.FinCenSar
  | RedFlagOutcome.AutoFileSar => Some FilingType.FinCenSar
  | RedFlagOutcome.FlaggedForReview =>
      match event_type with
      | ComplianceEventType.LargeTransfer => Some FilingType.FinCenCtr
      | ComplianceEventType.CrossJurisdictionTransfer => Some FilingType.FatfTravelRule
      | ComplianceEventType.ConcentrationRisk => Some FilingType.BcbsCreditExposure
      | _ => None
      end
  | RedFlagOutcome.Clean => None
  end.

End Monitoring.

(** ** Tokenization *)

Module Tokenization.

Module AssetClass.
(** [AssetClass], src/rwa_tokenization.rs:26-39 *)
Inductive AssetClass : Set :=
  | RealEstate | PrivateEquity | Debt | Commodity | AlternativeAsset | Infrastructure.
#[global] Instance AssetClass_eq_dec : EqDecision AssetClass.
Proof. solve_decision. Defined.

(** [AssetClass], its discriminants, src/rwa_tokenization.rs:26-39 *)
Definition code (x : AssetClass) : Z :=
  match x with
  | RealEstate => 0 | PrivateEquity => 1 | Debt => 2 | Commodity => 3 | AlternativeAsset => 4
  | Infrastructure => 5
  end.
End AssetClass.
Abbreviation AssetClass := AssetClass.AssetClass.

Module TokenizationState.
(** [TokenizationState], src/rwa_tokenization.rs:89-102 *)
Inductive TokenizationState : Set :=
  | Proposed | Approved | Active | Paused | Retired | Rejected.
#[global] Instance TokenizationState_eq_dec : EqDecision TokenizationState.
Proof. solve_decision. Defined.

(** [TokenizationState], its discriminants, src/rwa_tokenization.rs:89-102 *)
Definition code (x : TokenizationState) : Z :=
  match x with
  | Proposed => 0 | Approved => 1 | Active => 2 | Paused => 3 | Retired => 4 | Rejected => 5
  end.
End TokenizationState.
Abbreviation TokenizationState := TokenizationState.TokenizationState.

Module KycStatus.
(** [KycStatus], src/rwa_tokenization.rs:158-171 *)
Inductive KycStatus : Set :=
  | None | Basic | Enhanced | Institutional | Suspended | Revoked.
#[global] Instance KycStatus_eq_dec : EqDecision KycStatus.
Proof. solve_decision. Defined.

(** [KycStatus], its discriminants, src/rwa_tokenization.rs:158-171 *)
Definition code (x : KycStatus) : Z :=
  match x with
  | None => 0 | Basic => 1 | Enhanced => 2 | Institutional => 3 | Suspended => 4 | Revoked => 5
  end.
End KycStatus.
Abbreviation KycStatus := KycStatus.KycStatus.

Module TransferRestriction.
(** [TransferRestriction], src/rwa_tokenization.rs:193-204 *)
Inductive TransferRestriction : Set :=
  | None | AllowlistOnly | Locked | JurisdictionGated | KycRequired.
#[global] Instance TransferRestriction_eq_dec : EqDecision TransferRestriction.
Proof. solve_decision. Defined.

(** [TransferRestriction], its discriminants, src/rwa_tokenization.rs:193-204 *)
Definition code (x : TransferRestriction) : Z :=
  match x with
  | None => 0 | AllowlistOnly => 1 | Locked => 2 | JurisdictionGated => 3 | KycRequired => 4
  end.
End TransferRestriction.
Abbreviation TransferRestriction := TransferRestriction.TransferRestriction.

(** [TokenDefinition], src/rwa_tokenization.rs:225-248 *)
Record TokenDefinition := mkTokenDefinition {
  td_token_id : Hash;
  td_ticker : Symbol;
  td_name : Bytes;
  td_asset_class : Z;
  td_legal_doc_hash : Hash;
  td_max_supply : Z;
  td_decimals : Z;
  td_issuer : Address;
  td_created_at : Z;
  td_transfer_restriction : Z;
  td_min_kyc_tier : Z }.

(** [TokenState], src/rwa_tokenization.rs:263-278 *)
Record TokenState := mkTokenState {
  ts_state : Z;
  ts_current_supply : Z;
  ts_total_minted : Z;
  ts_total_burned : Z;
  ts_holder_count : Z;
  ts_last_transition_at : Z;
  ts_pause_reason : option Bytes }.

(** [HolderRecord], src/rwa_tokenization.rs:310-327 *)
Record HolderRecord := mkHolderRecord {
  hr_holder : Address;
  hr_balance : Z;
  hr_kyc_status : Z;
  hr_jurisdictions : list Symbol;
  hr_allowlisted : bool;
  hr_blocked : bool;
  hr_last_updated : Z;
  hr_compliance_note : option Bytes }.

(** [MintBurnRecord], src/rwa_tokenization.rs:383-402 *)
Record MintBurnRecord := mkMintBurnRecord {
  mb_op_id : Hash;
  mb_token_id : Hash;
  mb_is_mint : bool;
  mb_amount : Z;
  mb_holder : Address;
  mb_authorized_by : Address;
  mb_timestamp : Z;
  mb_doc_hash : option Hash;
  mb_reference : Bytes }.

(** [TransferRecord], src/rwa_tokenization.rs:411-428 *)
Record TransferRecord := mkTransferRecord {
  tr_transfer_id : Hash;
  tr_token_id : Hash;
  tr_from : Address;
  tr_to : Address;
  tr_amount : Z;
  tr_timestamp : Z;
  tr_validation_result : Z;
  tr_trade_ref : option Bytes }.

Module TransferValidation.
(** [TransferValidation], src/rwa_tokenization.rs:438-461 *)
Inductive TransferValidation : Set :=
  | Allowed | TokenNotActive | InsufficientBalance | SenderBlocked | ReceiverBlocked
  | ReceiverNotAllowlisted | TransferLocked | KycFailed | JurisdictionMismatch | ZeroAmount
  | SenderKycFailed.
#[global] Instance TransferValidation_eq_dec : EqDecision TransferValidation.
Proof. solve_decision. Defined.

(** [TransferValidation], its discriminants, src/rwa_tokenization.rs:438-461 *)
Definition code (x : TransferValidation) : Z :=
  match x with
  | Allowed => 0 | TokenNotActive => 1 | InsufficientBalance => 2 | SenderBlocked => 3
  | ReceiverBlocked => 4 | ReceiverNotAllowlisted => 5 | TransferLocked => 6 | KycFailed => 7
  | JurisdictionMismatch => 8 | ZeroAmount => 9 | SenderKycFailed => 10
  end.
End TransferValidation.
Abbreviation TransferValidation := TransferValidation.TransferValidation.

(** [RwaConfig], src/rwa_tokenization.rs:576-587 *)
Record RwaConfig := mkRwaConfig {
  tc_max_tokens : Z;
  tc_max_holders_per_token : Z;
  tc_max_single_op_amount : Z;
  tc_atomic_swaps_enabled : bool;
  tc_min_legal_doc_hash_len : Z }.

(** [AssetClass::label], src/rwa_tokenization.rs:43-52 *)
Definition class_label (c : AssetClass) : string :=
  match c with
  | AssetClass.RealEstate => "Real Estate"
  | AssetClass.PrivateEquity => "Private Equity"
  | AssetClass.Debt => "Debt Instrument"
  | AssetClass.Commodity => "Commodity"
  | AssetClass.AlternativeAsset => "Alternative Asset"
  | AssetClass.Infrastructure => "Infrastructure"
  end.

(** [AssetClass::allows_fractional], src/rwa_tokenization.rs:55-62 *)
Definition allows_fractional (c : AssetClass) : bool :=
  match c with
  | AssetClass.RealEstate | AssetClass.Debt | AssetClass.Infrastructure => true
  | _ => false
  end.

(** [AssetClass::default_decimals], src/rwa_tokenization.rs:65-72 *)
Definition default_decimals (c : AssetClass) : Z :=
  match c with
  | AssetClass.RealEstate | AssetClass.Debt | AssetClass.Infrastructure => 6
  | AssetClass.PrivateEquity => 4
  | AssetClass.Commodity => 8
  | AssetClass.AlternativeAsset => 0
  end.

(** [TokenizationState::can_transition_to], src/rwa_tokenization.rs:106-117 *)
Definition token_transition (s to : TokenizationState) : bool :=
  match s, to with
  | TokenizationState.Proposed, TokenizationState.Approved
  | TokenizationState.Proposed, TokenizationState.Rejected
  | TokenizationState.Approved, TokenizationState.Active
  | TokenizationState.Active, TokenizationState.Paused
  | TokenizationState.Paused, TokenizationState.Active
  | TokenizationState.Active, TokenizationState.Retired
  | TokenizationState.Paused, TokenizationState.Retired => true
  | _, _ => false
  end.

(** [TokenizationState::allows_mint_burn], src/rwa_tokenization.rs:120-122 *)
Definition allows_mint_burn (s : TokenizationState) : bool :=
  match s with TokenizationState.Active => true | _ => false end.
(** [TokenizationState::allows_transfer], src/rwa_tokenization.rs:125-127 *)
Definition allows_transfer (s : TokenizationState) : bool :=
  match s with TokenizationState.Active => true | _ => false end.
(** [TokenizationState::is_terminal], src/rwa_tokenization.rs:130-135 *)
Definition token_terminal (s : TokenizationState) : bool :=
  match s with TokenizationState.Retired | TokenizationState.Rejected => true | _ => false end.

(** [TokenizationState::as_str], src/rwa_tokenization.rs:138-147 *)
Definition token_state_str (s : TokenizationState) : string :=
  match s with
  | TokenizationState.Proposed => "PROPOSED"
  | TokenizationState.Approved => "APPROVED"
  | TokenizationState.Active => "ACTIVE"
  | TokenizationState.Paused => "PAUSED"
  | TokenizationState.Retired => "RETIRED"
  | TokenizationState.Rejected => "REJECTED"
  end.

(** [KycStatus::allows_trading], src/rwa_tokenization.rs:175-180 *)
Definition allows_trading (k : KycStatus) : bool :=
  match k with KycStatus.Basic | KycStatus.Enhanced | KycStatus.Institutional => true | _ => false end.

(** [KycStatus::meets_minimum_tier], src/rwa_tokenization.rs:183-186 *)
Definition meets_minimum_tier (k required : KycStatus) : bool :=
  Z.leb (KycStatus.code required) (KycStatus.code k) &&
  negb match k with KycStatus.Suspended | KycStatus.Revoked => true | _ => false end.

(** [KycStatus::from_u8], src/rwa_tokenization.rs:364-373 *)
Definition kyc_from_u8 (v : Z) : KycStatus :=
  match v with
  | 0 => KycStatus.None
  | 1 => KycStatus.Basic
  | 2 => KycStatus.Enhanced
  | 3 => KycStatus.Institutional
  | 4 => KycStatus.Suspended
  | _ => KycStatus.Revoked
  end.

(** [TransferRestriction::as_str], src/rwa_tokenization.rs:207-215 *)
Definition restriction_str (r : TransferRestriction) : string :=
  match r with
  | TransferRestriction.None => "NONE"
  | TransferRestriction.AllowlistOnly => "ALLOWLIST"
  | TransferRestriction.Locked => "LOCKED"
  | TransferRestriction.JurisdictionGated => "JURISDICTION"
  | TransferRestriction.KycRequired => "KYC_REQUIRED"
  end.

(** [TokenDefinition::can_mint], src/rwa_tokenization.rs:252-257 *)
Definition can_mint (d : TokenDefinition) (current_supply amount : Z) : bool :=
  if Z.eqb (td_max_supply d) 0 then true
  else Z.leb (current_supply + amount) u128_max && Z.leb (current_supply + amount) (td_max_supply d).

(** [TokenState::initial], src/rwa_tokenization.rs:282-292 *)
Definition initial (ts : Z) : TokenState :=
  mkTokenState (TokenizationState.code TokenizationState.Proposed) 0 0 0 0 ts None.

(** [TokenState::lifecycle_state], src/rwa_tokenization.rs:295-304 *)
Definition lifecycle_state (s : TokenState) : TokenizationState :=
  match ts_state s with
  | 0 => TokenizationState.Proposed
  | 1 => TokenizationState.Approved
  | 2 => TokenizationState.Active
  | 3 => TokenizationState.Paused
  | 4 => TokenizationState.Retired
  | _ => TokenizationState.Rejected
  end.

(** [HolderRecord::can_receive], src/rwa_tokenization.rs:331-359 *)
Definition can_receive (h : HolderRecord) (restriction : TransferRestriction)
    (sender_jurisdictions : list Symbol) : bool :=
  if hr_blocked h then false
  else
    match restriction with
    | TransferRestriction.None => true
    | TransferRestriction.AllowlistOnly => hr_allowlisted h
    | TransferRestriction.Locked => false
    | TransferRestriction.KycRequired => allows_trading (kyc_from_u8 (hr_kyc_status h))
    | TransferRestriction.JurisdictionGated =>
        existsb (fun j => existsb (String.eqb j) sender_jurisdictions) (hr_jurisdictions h)
    end.

(** [TransferValidation::is_allowed], src/rwa_tokenization.rs:464-466 *)
Definition is_allowed (v : TransferValidation) : bool :=
  match v with TransferValidation.Allowed => true | _ => false end.

(** [TransferValidation::error_code], src/rwa_tokenization.rs:469-483 *)
Definition error_code (v : TransferValidation) : string :=
  match v with
  | TransferValidation.Allowed => "OK"
  | TransferValidation.TokenNotActive => "E_NOT_ACTIVE"
  | TransferValidation.InsufficientBalance => "E_INSUF_BAL"
  | TransferValidation.SenderBlocked => "E_SENDER_BLOCKED"
  | TransferValidation.ReceiverBlocked => "E_RECV_BLOCKED"
  | TransferValidation.ReceiverNotAllowlisted => "E_NOT_ALLOWLISTED"
  | TransferValidation.TransferLocked => "E_LOCKED"
  | TransferValidation.KycFailed => "E_KYC"
  | TransferValidation.JurisdictionMismatch => "E_JURISDICTION"
  | TransferValidation.ZeroAmount => "E_ZERO_AMT"
  | TransferValidation.SenderKycFailed => "E_SENDER_KYC"
  end.

(** [TransferValidator::validate], src/rwa_tokenization.rs:499-566 *)
Definition validate (amount : Z) (token_state : TokenState) (token_def : TokenDefinition)
    (sender_balance : Z) (sender_record receiver_record : HolderRecord) : TransferValidation :=
  if Z.eqb amount 0 then TransferValidation.ZeroAmount
  else if negb (allows_transfer (lifecycle_state token_state)) then TransferValidation.TokenNotActive
  else if Z.ltb sender_balance amount then TransferValidation.InsufficientBalance
  else if hr_blocked sender_record then TransferValidation.SenderBlocked
  else if hr_blocked receiver_record then TransferValidation.ReceiverBlocked
  else
    let restriction :=
      match td_transfer_restriction token_def with
      | 1 => TransferRestriction.AllowlistOnly
      | 2 => TransferRestriction.Locked
      | 3 => TransferRestriction.JurisdictionGated
      | 4 => TransferRestriction.KycRequired
      | _ => TransferRestriction.None
      end in
    match restriction with
    | TransferRestriction.Locked => TransferValidation.TransferLocked
    | TransferRestriction.AllowlistOnly =>
        if negb (hr_allowlisted receiver_record) then TransferValidation.ReceiverNotAllowlisted
        else TransferValidation.Allowed
    | TransferRestriction.KycRequired =>
        let min_tier := td_min_kyc_tier token_def in
        let sender_ok :=
          meets_minimum_tier (kyc_from_u8 (hr_kyc_status sender_record)) (kyc_from_u8 min_tier) in
        let receiver_ok :=
          meets_minimum_tier (kyc_from_u8 (hr_kyc_status receiver_record)) (kyc_from_u8 min_tier) in
        if negb sender_ok then TransferValidation.SenderKycFailed
        else if negb receiver_ok then TransferValidation.KycFailed
        else TransferValidation.Allowed
    | TransferRestriction.JurisdictionGated =>
        if can_receive receiver_record restriction (hr_jurisdictions sender_record)
        then TransferValidation.Allowed
        else TransferValidation.JurisdictionMismatch
    | TransferRestriction.None => TransferValidation.Allowed
    end.

(** [RwaConfig::default], src/rwa_tokenization.rs:591-599 *)
Definition default_config : RwaConfig := mkRwaConfig 10000 100000 1000000000000 false 32.
(** [RwaConfig::can_add_token], src/rwa_tokenization.rs:601-603 *)
Definition can_add_token (c : RwaConfig) (current_count : Z) : bool := Z.ltb current_count (tc_max_tokens c).
(** [RwaConfig::is_valid_op_amount], src/rwa_tokenization.rs:605-608 *)
Definition is_valid_op_amount (c : RwaConfig) (amount : Z) : bool :=
  Z.ltb 0 amount && (Z.eqb (tc_max_single_op_amount c) 0 || Z.leb amount (tc_max_single_op_amount c)).

End Tokenization.

(** ** Price oracles *)

Module RwaOracle.

(** [MAX_PENDING_FEEDS], src/rwa_oracle.rs:33-33 *)
Definition MAX_PENDING_FEEDS : Z := 10.
(** [DEFAULT_STALENESS_WINDOW_SECS], src/rwa_oracle.rs:36-36 *)
Definition DEFAULT_STALENESS_WINDOW_SECS : Z := 3600.
(** [DEFAULT_QUORUM], src/rwa_oracle.rs:40-40 *)
Definition DEFAULT_QUORUM : Z := 2.
(** [MAX_DEVIATION_BPS], src/rwa_oracle.rs:45-45 *)
Definition MAX_DEVIATION_BPS : Z := 500.
(** [PRICE_PRECISION], src/rwa_oracle.rs:49-49 *)
Definition PRICE_PRECISION : Z := 100000000.
(** [MAX_ORACLE_NAME_LEN], src/rwa_oracle.rs:52-52 *)
Definition MAX_ORACLE_NAME_LEN : Z := 64.
(** [MAX_PRICE_HISTORY], src/rwa_oracle.rs:55-55 *)
Definition MAX_PRICE_HISTORY : Z := 1000.

Module OracleStatus.
(** [OracleStatus], src/rwa_oracle.rs:65-72 *)
Inductive OracleStatus : Set :=
  | Active | Suspended | Revoked.
#[global] Instance OracleStatus_eq_dec : EqDecision OracleStatus.
Proof. solve_decision. Defined.

(** [OracleStatus], its discriminants, src/rwa_oracle.rs:65-72 *)
Definition code (x : OracleStatus) : Z :=
  match x with
  | Active => 0 | Suspended => 1 | Revoked => 2
  end.
End OracleStatus.
Abbreviation OracleStatus := OracleStatus.OracleStatus.

Module AssetClass.
(** [AssetClass], src/rwa_oracle.rs:92-109 *)
Inductive AssetClass : Set :=
  | RealEstate | PrivateCredit | Commodity | PrivateEquity | FixedIncome | Infrastructure
  | Collectible | Other.
#[global] Instance AssetClass_eq_dec : EqDecision AssetClass.
Proof. solve_decision. Defined.

(** [AssetClass], its discriminants, src/rwa_oracle.rs:92-109 *)
Definition code (x : AssetClass) : Z :=
  match x with
  | RealEstate => 0 | PrivateCredit => 1 | Commodity => 2 | PrivateEquity => 3 | FixedIncome => 4
  | Infrastructure => 5 | Collectible => 6 | Other => 7
  end.
End AssetClass.
Abbreviation AssetClass := AssetClass.AssetClass.

Module ConsensusResult.
(** [ConsensusResult], src/rwa_oracle.rs:143-152 *)
Inductive ConsensusResult : Set :=
  | Accepted | InsufficientQuorum | DeviationExceeded | AllStale.
#[global] Instance ConsensusResult_eq_dec : EqDecision ConsensusResult.
Proof. solve_decision. Defined.

(** [ConsensusResult], its discriminants, src/rwa_oracle.rs:143-152 *)
Definition code (x : ConsensusResult) : Z :=
  match x with
  | Accepted => 0 | InsufficientQuorum => 1 | DeviationExceeded => 2 | AllStale => 3
  end.
End ConsensusResult.
Abbreviation ConsensusResult := ConsensusResult.ConsensusResult.

Module OracleError.
(** [OracleError], src/rwa_oracle.rs:162-193 *)
Inductive OracleError : Set :=
  | AlreadyRegistered | NotRegistered | OracleNotActive | AssetNotRegistered
  | AssetAlreadyRegistered | InvalidPrice | StaleTimestamp | FutureTimestamp | ConfidenceTooWide
  | HistoryCapReached | Unauthorized | InvalidReputationScore | OracleNameTooLong
  | NoFeedsAvailable | Overflow.
#[global] Instance OracleError_eq_dec : EqDecision OracleError.
Proof. solve_decision. Defined.
End OracleError.
Abbreviation OracleError := OracleError.OracleError.

(** [OracleRecord], src/rwa_oracle.rs:202-221 *)
Record OracleRecord := mkOracleRecord {
  or_address : Address;
  or_name : Bytes;
  or_supported_classes : list Z;
  or_reputation_score : Z;
  or_registered_at : Z;
  or_last_submission_at : Z;
  or_total_submissions : Z;
  or_total_rejections : Z;
  or_status : Z }.
Definition set_or_total_submissions (v : Z) (r : OracleRecord) : OracleRecord :=
  mkOracleRecord (or_address r) (or_name r) (or_supported_classes r) (or_reputation_score r)
  (or_registered_at r) (or_last_submission_at r) v (or_total_rejections r) (or_status r).
Definition set_or_last_submission_at (v : Z) (r : OracleRecord) : OracleRecord :=
  mkOracleRecord (or_address r) (or_name r) (or_supported_classes r) (or_reputation_score r)
  (or_registered_at r) v (or_total_submissions r) (or_total_rejections r) (or_status r).
Definition set_or_total_rejections (v : Z) (r : OracleRecord) : OracleRecord :=
  mkOracleRecord (or_address r) (or_name r) (or_supported_classes r) (or_reputation_score r)
  (or_registered_at r) (or_last_submission_at r) (or_total_submissions r) v (or_status r).
Definition set_or_status (v : Z) (r : OracleRecord) : OracleRecord :=
  mkOracleRecord (or_address r) (or_name r) (or_supported_classes r) (or_reputation_score r)
  (or_registered_at r) (or_last_submission_at r) (or_total_submissions r) (or_total_rejections r)
  v.

(** [PriceFeed], src/rwa_oracle.rs:253-270 *)
Record PriceFeed := mkPriceFeed {
  pf_asset_id : Symbol;
  pf_price : Z;
  pf_confidence : Z;
  pf_observed_at : Z;
  pf_submitted_at : Z;
  pf_oracle : Address;
  pf_metadata : Bytes;
  pf_integrity_hash : Hash }.

(** [CanonicalPrice], src/rwa_oracle.rs:290-311 *)
Record CanonicalPrice := mkCanonicalPrice {
  cn_asset_id : Symbol;
  cn_price : Z;
  cn_confidence : Z;
  cn_oracle_count : Z;
  cn_consensus_at : Z;
  cn_oldest_observation : Z;
  cn_result : Z;
  cn_history_index : Z;
  cn_chain_hash : Hash;
  cn_prev_hash : Hash }.

(** [AssetRecord], src/rwa_oracle.rs:330-349 *)
Record AssetRecord := mkAssetRecord {
  ac_asset_id : Symbol;
  ac_asset_class : Z;
  ac_name : Bytes;
  ac_issuer : Address;
  ac_quorum : Z;
  ac_staleness_window_override : Z;
  ac_active : bool;
  ac_registered_at : Z;
  ac_total_updates : Z }.
Definition set_ac_total_updates (v : Z) (r : AssetRecord) : AssetRecord :=
  mkAssetRecord (ac_asset_id r) (ac_asset_class r) (ac_name r) (ac_issuer r) (ac_quorum r)
  (ac_staleness_window_override r) (ac_active r) (ac_registered_at r) v.

Module OracleDataKey.
(** [OracleDataKey], src/rwa_oracle.rs:359-382 *)
Inductive OracleDataKey : Set :=
  | Oracle (a0 : Address)
  | OracleCount
  | Asset (a0 : Symbol)
  | AssetCount
  | PendingFeeds (a0 : Symbol)
  | LatestPrice (a0 : Symbol)
  | PriceHistory (a0 : Symbol)
  | Owner
  | StalenessWindow
  | GlobalQuorum
  | TotalRounds.
#[global] Instance OracleDataKey_eq_dec : EqDecision OracleDataKey.
Proof. solve_decision. Defined.
End OracleDataKey.
Abbreviation OracleDataKey := OracleDataKey.OracleDataKey.

(** [OracleStatus::is_active], src/rwa_oracle.rs:75-77 *)
Definition status_active (s : OracleStatus) : bool :=
  match s with OracleStatus.Active => true | _ => false end.

(** [OracleStatus::as_str], src/rwa_oracle.rs:79-85 *)
Definition status_str (s : OracleStatus) : string :=
  match s with
  | OracleStatus.Active => "active"
  | OracleStatus.Suspended => "suspended"
  | OracleStatus.Revoked => "revoked"
  end.

(** [AssetClass::as_symbol], src/rwa_oracle.rs:112-123 *)
Definition as_symbol (c : AssetClass) : Symbol :=
  match c with
  | AssetClass.RealEstate => "RealEstate"
  | AssetClass.PrivateCredit => "PrivCredit"
  | AssetClass.Commodity => "Commodity"
  | AssetClass.PrivateEquity => "PrivEquity"
  | AssetClass.FixedIncome => "FixedIncome"
  | AssetClass.Infrastructure => "Infra"
  | AssetClass.Collectible => "Collect"
  | AssetClass.Other => "Other"
  end.

(** [AssetClass::name], src/rwa_oracle.rs:125-136 *)
Definition class_name (c : AssetClass) : string :=
  match c with
  | AssetClass.RealEstate => "Real Estate"
  | AssetClass.PrivateCredit => "Private Credit"
  | AssetClass.Commodity => "Commodity"
  | AssetClass.PrivateEquity => "Private Equity"
  | AssetClass.FixedIncome => "Fixed Income"
  | AssetClass.Infrastructure => "Infrastructure"
  | AssetClass.Collectible => "Collectible"
  | AssetClass.Other => "Other"
  end.

Inductive OracleTy : Set :=
  | OtOracle | OtCount | OtAsset | OtFeeds | OtPrice | OtPrices | OtAddress | OtSecs.
#[global] Instance OracleTy_eq_dec : EqDecision OracleTy.
Proof. solve_decision. Defined.

Definition oracle_el (t : OracleTy) : Type :=
  match t with
  | OtOracle => OracleRecord
  | OtCount => Z
  | OtAsset => AssetRecord
  | OtFeeds => list PriceFeed
  | OtPrice => CanonicalPrice
  | OtPrices => list CanonicalPrice
  | OtAddress => Address
  | OtSecs => Z
  end.

Definition oracle_key_ty (k : OracleDataKey) : OracleTy :=
  match k with
  | OracleDataKey.Oracle _ => OtOracle
  | OracleDataKey.OracleCount | OracleDataKey.AssetCount | OracleDataKey.GlobalQuorum
  | OracleDataKey.TotalRounds => OtCount
  | OracleDataKey.Asset _ => OtAsset
  | OracleDataKey.PendingFeeds _ => OtFeeds
  | OracleDataKey.LatestPrice _ => OtPrice
  | OracleDataKey.PriceHistory _ => OtPrices
  | OracleDataKey.Owner => OtAddress
  | OracleDataKey.StalenessWindow => OtSecs
  end.

Canonical oracle_layout : Layout := {|
  key := OracleDataKey; ty := OracleTy; el := oracle_el; layout_key_ty := oracle_key_ty;
  key_dec := _; ty_dec := _; error := OracleError; datum := Payload |}.

Abbreviation M := (CM oracle_layout).
Abbreviation St := (CSt oracle_layout).
Abbreviation store := (kvstore oracle_layout).

Definition fail_with (b : bool) (e : OracleError) : M unit := reject_if (L := oracle_layout) b e.

(** [PriceFeed::is_fresh], src/rwa_oracle.rs:282-284 *)
Definition is_fresh (f : PriceFeed) (now staleness_window : Z) : bool :=
  Z.leb (u64_sat_sub now (pf_observed_at f)) staleness_window.

(** [is_feed_stale], src/rwa_oracle.rs:444-446 *)
Definition is_feed_stale (f : PriceFeed) (now staleness_window : Z) : bool :=
  negb (is_fresh f now staleness_window).

(** [OracleRecord::is_active], src/rwa_oracle.rs:245-247 *)
Definition is_active (r : OracleRecord) : bool :=
  Z.eqb (or_status r) (OracleStatus.code OracleStatus.Active).

(** [OracleRecord::new], src/rwa_oracle.rs:225-243 *)
Definition new_oracle (address : Address) (name : Bytes) (supported_classes : list Z)
    (reputation_score : Z) : M OracleRecord :=
  let* now := ledger_timestamp in
  ret (mkOracleRecord address name supported_classes reputation_score now 0 0 0
         (OracleStatus.code OracleStatus.Active)).

(** [to_le_bytes] of a [u128]; of a [u64] it is [u64_to_bytes] of [Codec]. *)
Definition u128_to_le_bytes (v : Z) : Bytes := u64_to_bytes (v mod 2 ^ 64) ++ u64_to_bytes (v / 2 ^ 64).

(** [vec.get(i).unwrap()]. *)
Definition at_index {E} (l : list Z) (i : nat) : result E Z :=
  match l !! i with Some x => Ok x | None => Err (Panic Unwrap) end.

(** The inner loop of the insertion sort of [run_consensus]: the larger prices
    before position [j] move up by one, and the position left free is returned. *)
Fixpoint shift_up {E} (prices : list Z) (key : Z) (j : nat) : result E (list Z * nat) :=
  match j with
  | O => Ok (prices, O)
  | S i =>
      let? prev := at_index prices i in
      if Z.ltb key prev then shift_up (<[j := prev]> prices) key i else Ok (prices, j)
  end.

(** The body of the outer loop at index [i]. *)
Definition insert_at {E} (prices : list Z) (i : nat) : result E (list Z) :=
  let? key := at_index prices i in
  let? moved := shift_up prices key i in
  let '(prices, j) := moved in
  Ok (<[j := key]> prices).

(** [for i in 1..n { .. }]. *)
Definition sort_prices {E} (prices : list Z) : result E (list Z) :=
  try_fold insert_at prices (seq 1 (length prices - 1)).

(** The distance of two prices. *)
Definition deviation (price median : Z) : Z :=
  if Z.leb median price then price - median else median - price.

(** [u128::saturating_add] and [u128::saturating_mul]. *)
Definition u128_sat_add (a b : Z) : Z := Z.min (a + b) u128_max.
Definition u128_sat_mul (a b : Z) : Z := Z.min (a * b) u128_max.

(** The sums of the weights, of the weighted prices and of the confidences. *)
Definition add_survivor (sums : Z * Z * Z) (entry : Z * Z * Z) : Z * Z * Z :=
  let '(weight_sum, price_sum, conf_sum) := sums in
  let '(price, conf, w) := entry in
  (u128_sat_add weight_sum w, u128_sat_add price_sum (u128_sat_mul price w), u128_sat_add conf_sum conf).

Section Priced.
Context `{C : Crypto}.

(** [compute_feed_hash], src/rwa_oracle.rs:391-406 *)
Definition compute_feed_hash (asset_id : Symbol) (price confidence observed_at : Z) : Hash :=
  sha256 (str_bytes asset_id ++ u128_to_le_bytes price ++ u128_to_le_bytes confidence ++
          u64_to_bytes observed_at).

(** [compute_canonical_hash], src/rwa_oracle.rs:411-425 *)
Definition compute_canonical_hash (asset_id : Symbol) (price consensus_at : Z) (prev_hash : Hash) : Hash :=
  sha256 (str_bytes asset_id ++ u128_to_le_bytes price ++ u64_to_bytes consensus_at ++ prev_hash).

(** [PriceFeed::verify_integrity], src/rwa_oracle.rs:276-279 *)
Definition verify_integrity (f : PriceFeed) : bool :=
  bool_decide (compute_feed_hash (pf_asset_id f) (pf_price f) (pf_confidence f) (pf_observed_at f)
               = pf_integrity_hash f).

(** [CanonicalPrice::verify_chain_hash], src/rwa_oracle.rs:315-324 *)
Definition verify_chain_hash (p : CanonicalPrice) : bool :=
  bool_decide (compute_canonical_hash (cn_asset_id p) (cn_price p) (cn_consensus_at p) (cn_prev_hash p)
               = cn_chain_hash p).

(** [verify_feed_integrity], src/rwa_oracle.rs:430-441 *)
Definition verify_feed_integrity (f : PriceFeed) : bool * string :=
  if Z.eqb (pf_price f) 0 then (false, "price_zero"%string)
  else if Z.leb (pf_price f / 2) (pf_confidence f) then (false, "confidence_too_wide"%string)
  else if negb (verify_integrity f) then (false, "hash_mismatch"%string)
  else (true, "ok"%string).

(** Steps 1 and 2: the price, confidence and reputation of each feed that is
    fresh and intact. *)
Fixpoint valid_entries (feeds : list PriceFeed) (reputation_scores : list Z) (now staleness_window : Z)
    : list (Z * Z * Z) :=
  match feeds with
  | [] => []
  | feed :: feeds =>
      let rest := valid_entries feeds (tail reputation_scores) now staleness_window in
      if is_feed_stale feed now staleness_window then rest
      else if negb (fst (verify_feed_integrity feed)) then rest
      else (pf_price feed, pf_confidence feed, default 1 (head reputation_scores)) :: rest
  end.

(** [run_consensus], src/rwa_oracle.rs:458-547 *)
Definition run_consensus {E} (feeds : list PriceFeed) (reputation_scores : list Z)
    (now staleness_window quorum : Z) : result E (ConsensusResult * Z * Z * Z) :=
  let valid := valid_entries feeds reputation_scores now staleness_window in
  if Z.ltb (Z.of_nat (length valid)) quorum then
    Ok (if bool_decide (valid = []) && negb (bool_decide (feeds = []))
        then (ConsensusResult.AllStale, 0, 0, 0)
        else (ConsensusResult.InsufficientQuorum, 0, 0, 0))
  else
    let? prices := sort_prices ((fun e => fst (fst e)) <$> valid) in
    let? median := at_index prices (length valid / 2) in
    let dev_cap := u128_sat_mul median MAX_DEVIATION_BPS / 10000 in
    let survivors := List.filter (fun e => Z.leb (deviation (fst (fst e)) median) dev_cap) valid in
    if bool_decide (survivors = []) then Ok (ConsensusResult.DeviationExceeded, 0, 0, 0)
    else
      let count := Z.of_nat (length survivors) in
      let '(weight_sum, price_sum, conf_sum) := fold_left add_survivor survivors (0, 0, 0) in
      if Z.eqb weight_sum 0 then Ok (ConsensusResult.InsufficientQuorum, 0, 0, 0)
      else Ok (ConsensusResult.Accepted, price_sum / weight_sum, conf_sum / count, count).

End Priced.

(** [get_staleness_window], src/rwa_oracle.rs:555-560 *)
Definition get_staleness_window : M Z :=
  iget_or OracleDataKey.StalenessWindow DEFAULT_STALENESS_WINDOW_SECS.
(** [get_global_quorum], src/rwa_oracle.rs:563-568 *)
Definition get_global_quorum : M Z := iget_or OracleDataKey.GlobalQuorum DEFAULT_QUORUM.

(** [register_oracle], src/rwa_oracle.rs:572-603 *)
Definition register_oracle (address : Address) (name : Bytes) (supported_classes : list Z)
    (reputation_score : Z) : M OracleRecord :=
  do* fail_with (Z.ltb MAX_ORACLE_NAME_LEN (len name)) OracleError.OracleNameTooLong in
  do* fail_with (Z.ltb 100 reputation_score) OracleError.InvalidReputationScore in
  let* there := ihas (OracleDataKey.Oracle address) in
  do* fail_with there OracleError.AlreadyRegistered in
  let* record := new_oracle address name supported_classes reputation_score in
  do* iset (OracleDataKey.Oracle address) record in
  let* count := iget_or OracleDataKey.OracleCount 0 in
  let* n := u32_add count 1 in
  do* iset OracleDataKey.OracleCount n in
  ret record.

(** [get_oracle], src/rwa_oracle.rs:606-611 *)
Definition get_oracle (address : Address) : M OracleRecord :=
  let* o := iget (OracleDataKey.Oracle address) in
  unwrap_or_raise (L := oracle_layout) o OracleError.NotRegistered.

(** [set_oracle_status], src/rwa_oracle.rs:614-628 *)
Definition set_oracle_status (address : Address) (status : OracleStatus) : M unit :=
  let* record := get_oracle address in
  iset (OracleDataKey.Oracle address) (set_or_status (OracleStatus.code status) record).

(** [register_asset], src/rwa_oracle.rs:631-669 *)
Definition register_asset (asset_id : Symbol) (asset_class : AssetClass) (name : Bytes)
    (issuer : Address) (quorum staleness_window_override : option Z) : M AssetRecord :=
  let* there := ihas (OracleDataKey.Asset asset_id) in
  do* fail_with there OracleError.AssetAlreadyRegistered in
  let* effective_quorum := match quorum with Some q => ret q | None => get_global_quorum end in
  let* now := ledger_timestamp in
  let record := mkAssetRecord asset_id (AssetClass.code asset_class) name issuer effective_quorum
                  (default 0 staleness_window_override) true now 0 in
  do* iset (OracleDataKey.Asset asset_id) record in
  let* count := iget_or OracleDataKey.AssetCount 0 in
  let* n := u32_add count 1 in
  do* iset OracleDataKey.AssetCount n in
  ret record.

(** [get_asset], src/rwa_oracle.rs:672-677 *)
Definition get_asset (asset_id : Symbol) : M AssetRecord :=
  let* o := iget (OracleDataKey.Asset asset_id) in
  unwrap_or_raise (L := oracle_layout) o OracleError.AssetNotRegistered.

(** The staleness window of an asset: its own, or that of the contract. *)
Definition window_of (asset_record : AssetRecord) : M Z :=
  if Z.ltb 0 (ac_staleness_window_override asset_record)
  then ret (ac_staleness_window_override asset_record)
  else get_staleness_window.

Section Submitted.
Context `{C : Crypto}.

(** [submit_price_feed], src/rwa_oracle.rs:682-759 *)
Definition submit_price_feed (oracle : Address) (asset_id : Symbol) (price confidence observed_at : Z)
    (metadata : Bytes) : M PriceFeed :=
  let* oracle_record := get_oracle oracle in
  do* fail_with (negb (is_active oracle_record)) OracleError.OracleNotActive in
  let* asset_record := get_asset asset_id in
  do* fail_with (negb (ac_active asset_record)) OracleError.AssetNotRegistered in
  do* fail_with (Z.eqb price 0) OracleError.InvalidPrice in
  do* fail_with (Z.leb (price / 2) confidence) OracleError.ConfidenceTooWide in
  let* now := ledger_timestamp in
  let* window := window_of asset_record in
  let* latest := u64_add now 60 in
  do* fail_with (Z.ltb latest observed_at) OracleError.FutureTimestamp in
  do* fail_with (Z.ltb window (u64_sat_sub now observed_at)) OracleError.StaleTimestamp in
  let integrity_hash := compute_feed_hash asset_id price confidence observed_at in
  let feed := mkPriceFeed asset_id price confidence observed_at now oracle metadata integrity_hash in
  let* pending := iget_or (OracleDataKey.PendingFeeds asset_id) [] in
  let pending := if Z.leb MAX_PENDING_FEEDS (Z.of_nat (length pending)) then [] else pending in
  do* iset (OracleDataKey.PendingFeeds asset_id) (pending ++ [feed]) in
  let* o := iget (OracleDataKey.Oracle oracle) in
  do* match o with
      | Some orec =>
          let* n := u32_add (or_total_submissions orec) 1 in
          iset (OracleDataKey.Oracle oracle)
            (set_or_last_submission_at now (set_or_total_submissions n orec))
      | None => ret tt
      end in
  ret feed.

(** One rejection more for the oracle of a feed. *)
Definition mark_rejection (u : unit) (feed : PriceFeed) : M unit :=
  let* o := iget (OracleDataKey.Oracle (pf_oracle feed)) in
  match o with
  | Some orec =>
      iset (OracleDataKey.Oracle (pf_oracle feed))
        (set_or_total_rejections (u32_sat_add (or_total_rejections orec) 1) orec)
  | None => ret tt
  end.

(** The reputation of the oracle of a feed, 1 when it is not registered. *)
Definition add_reputation (reps : list Z) (feed : PriceFeed) : M (list Z) :=
  let* o := iget (OracleDataKey.Oracle (pf_oracle feed)) in
  ret (reps ++ [match o with Some orec => or_reputation_score orec | None => 1 end]).

(** The error a round that is not accepted ends with. *)
Definition round_error (r : ConsensusResult) : OracleError :=
  match r with
  | ConsensusResult.AllStale => OracleError.StaleTimestamp
  | _ => OracleError.InvalidPrice
  end.

(** A round that is not accepted is an error of the source after writes that
    stay, and a value on the right here; an error before any write is raised.
    [process_consensus], src/rwa_oracle.rs:764-919 *)
Definition process_consensus (asset_id : Symbol) : M (CanonicalPrice + OracleError) :=
  let* asset_record := get_asset asset_id in
  let pkey := OracleDataKey.PendingFeeds asset_id in
  let* pending := iget_or (OracleDataKey.PendingFeeds asset_id) [] in
  do* fail_with (bool_decide (pending = [])) OracleError.NoFeedsAvailable in
  let* reps := fold_m add_reputation [] pending in
  let* now := ledger_timestamp in
  let* staleness := window_of asset_record in
  let* round := lift (L := oracle_layout)
                  (run_consensus (take 10 pending) (take 10 reps) now staleness (ac_quorum asset_record)) in
  let '(result, price, confidence, count) := round in
  if bool_decide (result <> ConsensusResult.Accepted) then
    do* fold_m mark_rejection tt pending in
    do* iset (OracleDataKey.PendingFeeds asset_id) [] in
    ret (inr (round_error result))
  else
    let oldest := fold_left (fun o f => if Z.ltb (pf_observed_at f) o then pf_observed_at f else o)
                    pending now in
    let* history := iget_or (OracleDataKey.PriceHistory asset_id) [] in
    let history_index := Z.of_nat (length history) in
    let prev_hash := match last history with Some p => cn_chain_hash p | None => zero32 end in
    let chain_hash := compute_canonical_hash asset_id price now prev_hash in
    let canonical := mkCanonicalPrice asset_id price confidence count now oldest
                       (ConsensusResult.code ConsensusResult.Accepted) history_index chain_hash prev_hash in
    do* when (Z.ltb (Z.of_nat (length history)) MAX_PRICE_HISTORY)
          (iset (OracleDataKey.PriceHistory asset_id) (history ++ [canonical])) in
    do* iset (OracleDataKey.LatestPrice asset_id) canonical in
    let* a := iget (OracleDataKey.Asset asset_id) in
    do* match a with
        | Some arec =>
            iset (OracleDataKey.Asset asset_id)
              (set_ac_total_updates (u32_sat_add (ac_total_updates arec) 1) arec)
        | None => ret tt
        end in
    let* rounds := iget_or OracleDataKey.TotalRounds 0 in
    let* n := u32_add rounds 1 in
    do* iset OracleDataKey.TotalRounds n in
    do* iset (OracleDataKey.PendingFeeds asset_id) [] in
    ret (inl canonical).

End Submitted.

(** [get_latest_price], src/rwa_oracle.rs:922-926 *)
Definition get_latest_price (asset_id : Symbol) : M (option CanonicalPrice) :=
  iget (OracleDataKey.LatestPrice asset_id).
(** [get_price_history], src/rwa_oracle.rs:929-934 *)
Definition get_price_history (asset_id : Symbol) : M (list CanonicalPrice) :=
  iget_or (OracleDataKey.PriceHistory asset_id) [].
(** [is_latest_price_stale], src/rwa_oracle.rs:937-946 *)
Definition is_latest_price_stale (asset_id : Symbol) : M bool :=
  let* window := get_staleness_window in
  let* o := get_latest_price asset_id in
  match o with
  | Some cp => let* now := ledger_timestamp in ret (Z.ltb window (u64_sat_sub now (cn_consensus_at cp)))
  | None => ret true
  end.
(** [pending_feed_count], src/rwa_oracle.rs:949-953 *)
Definition pending_feed_count (asset_id : Symbol) : M Z :=
  let* pending := iget_or (OracleDataKey.PendingFeeds asset_id) [] in
  ret (Z.of_nat (length pending)).

End RwaOracle.
