(* ===== verification/RwaProps.v ===== *)
(** * Properties of real-world assets

    The price oracles agree on a price near the median and keep a chain of
    what they agreed on; the registry's indices agree with its tokens, which
    walk their life cycle; the latest valuation is the one submitted last; a
    transfer passes when its conditions hold; scores and ratios stay within
    their bounds.  Where a file leaves a door open, the theorem says which. *)

From stdpp Require Import relations sorting.
From S2P Require Import Prelude Contract Fallible StorageLemmas Codec Sample MarketsProps Rwa.

(** ** Prices *)

Module Prices.
Import RwaOracle.

(** *** The sort in place *)

Lemma at_index_middle {E} (l k : list Z) x : @at_index E (l ++ x :: k) (length l) = Ok x.
Proof. unfold at_index. by rewrite list_lookup_middle. Qed.

(** The prices larger than the key at the end of [pre] move up by one; [x] is
    what was at the free position. *)
Lemma shift_up_run {E} key pre : forall x post, exists a b y, pre = a ++ b /\
  Forall (Z.lt key) b /\ (forall z, last a = Some z -> z <= key) /\
  @shift_up E (pre ++ x :: post) key (length pre) = Ok (a ++ y :: b ++ post, length a).
Proof.
  induction pre as [|p pre IH] using rev_ind; intros x post.
  - by exists [], [], x.
  - rewrite length_app, Nat.add_1_r. simpl. rewrite <- app_assoc. simpl. rewrite at_index_middle. simpl.
    destruct (Z.ltb_spec key p) as [Hlt|Hge].
    + replace (<[S (length pre):=p]> (pre ++ p :: x :: post)) with (pre ++ p :: p :: post).
      2:{ rewrite insert_app_r_alt by lia. by replace (S (length pre) - length pre)%nat with 1%nat by lia. }
      destruct (IH p (p :: post)) as (a & b & y & -> & Hb & Ha & ->).
      exists a, (b ++ [p]), y. rewrite <- !app_assoc. split; [done|]. split; [by apply Forall_app_2; [|constructor]|].
      split; [done|]. done.
    + exists (pre ++ [p]), [], x. rewrite app_nil_r. split; [done|]. split; [done|]. split.
      * intros z. rewrite last_snoc. by intros [= <-].
      * by rewrite length_app, Nat.add_1_r, <- app_assoc.
Qed.

Lemma sorted_below (l : list Z) key z :
  StronglySorted Z.le l -> last l = Some z -> z <= key -> Forall (fun y => y <= key) l.
Proof.
  destruct l as [|w l] using rev_ind; [done|]. intros Hs. rewrite last_snoc. intros [= ->] Hz.
  apply Forall_forall. intros y Hy. apply elem_of_app in Hy as [Hy|Hy%list_elem_of_singleton]; [|lia].
  pose proof (StronglySorted_app_1_elem_of _ _ _ y z Hs Hy ltac:(by left)). lia.
Qed.

Lemma insert_at_run {E} pre x post : StronglySorted Z.le pre ->
  exists pre', @insert_at E (pre ++ x :: post) (length pre) = Ok (pre' ++ post) /\
    pre' ≡ₚ x :: pre /\ StronglySorted Z.le pre'.
Proof.
  intros Hs. unfold insert_at. rewrite at_index_middle. simpl.
  destruct (shift_up_run (E := E) x pre x post) as (a & b & y & -> & Hb & Ha & ->). simpl.
  exists (a ++ x :: b). rewrite insert_app_r_alt, Nat.sub_diag, <- app_assoc by done; simpl. split; [done|].
  split; [by rewrite Permutation_middle|].
  assert (Forall (fun z => z <= x) a) as Hax.
  { destruct (last a) as [z|] eqn:Hl; [|by apply last_None in Hl as ->].
    eapply sorted_below; [|done|by apply Ha]. by eapply StronglySorted_app_1_l. }
  rewrite Forall_forall in Hax, Hb. apply StronglySorted_app. split; [|split].
  - intros u v Hu Hv. apply Hax in Hu. apply elem_of_cons in Hv as [->|Hv]; [lia|]. apply Hb in Hv. lia.
  - by eapply StronglySorted_app_1_l.
  - apply StronglySorted_cons. split; [|by eapply StronglySorted_app_1_r].
    apply Forall_forall. intros v Hv. apply Hb in Hv. lia.
Qed.

Lemma sort_run {E} post : forall pre, StronglySorted Z.le pre ->
  exists l, @try_fold E _ _ insert_at (pre ++ post) (seq (length pre) (length post)) = Ok l /\
    l ≡ₚ pre ++ post /\ StronglySorted Z.le l.
Proof.
  induction post as [|x post IH]; intros pre Hs; simpl.
  - exists (pre ++ []). by rewrite app_nil_r.
  - destruct (insert_at_run (E := E) pre x post Hs) as (pre' & -> & Hp & Hs'). simpl.
    destruct (IH pre' Hs') as (l & Hl & Hpl & Hsl).
    replace (S (length pre)) with (length pre') by (by rewrite Hp). rewrite Hl.
    exists l. split; [done|]. split; [|done]. rewrite Hpl, Hp. simpl. by rewrite Permutation_middle.
Qed.

Lemma sort_prices_run {E} prices :
  exists l, @sort_prices E prices = Ok l /\ l ≡ₚ prices /\ StronglySorted Z.le l.
Proof.
  destruct prices as [|p prices]; [exists []; split; [done|]; split; [done|]; constructor|].
  unfold sort_prices. simpl. rewrite Nat.sub_0_r.
  apply (sort_run prices [p]). by repeat constructor.
Qed.

(** The insertion sort of [run_consensus] never reads out of range and computes
    the merge sort of the prices. *)
Lemma sort_is_merge {E} prices : @sort_prices E prices = Ok (merge_sort Z.le prices).
Proof.
  destruct (sort_prices_run (E := E) prices) as (l & -> & Hp & Hs). f_equal.
  apply (StronglySorted_unique Z.le); [done|apply StronglySorted_merge_sort; apply _|].
  by rewrite merge_sort_Permutation.
Qed.

(** *** A round *)

Section Rounds.
Context `{C : Crypto}.

Definition price_of (e : Z * Z * Z) : Z := fst (fst e).
Definition weight_of (e : Z * Z * Z) : Z := snd e.

(** The entries a round works with are those of its feeds. *)
Definition in_range (e : Z * Z * Z) : Prop := 0 < price_of e < 2 ^ 110 /\ 0 <= weight_of e <= 100.

Lemma valid_entries_range feeds : forall reps now w,
  Forall (fun f => pf_price f < 2 ^ 110) feeds -> Forall (fun f => 0 <= pf_price f) feeds ->
  Forall (fun r => 0 <= r <= 100) reps ->
  Forall in_range (valid_entries feeds reps now w) /\
  (length (valid_entries feeds reps now w) <= length feeds)%nat.
Proof.
  induction feeds as [|f feeds IH]; intros reps now w Hf Hn Hr; [by split|].
  inversion_clear Hf as [|? ? Hf1 Hf2]. inversion_clear Hn as [|? ? Hn1 Hn2]. simpl.
  destruct (IH (tail reps) now w Hf2 Hn2) as [H1 H2]; [by destruct reps; inversion_clear Hr|].
  unfold verify_feed_integrity. destruct (is_feed_stale f now w); [by split; [|lia]|].
  destruct (Z.eqb_spec (pf_price f) 0); [by split; [|simpl; lia]|].
  repeat (case_match; [by split; [|simpl; lia]|]). split; [|simpl; lia]. constructor; [|done].
  unfold in_range, price_of, weight_of. simpl. split; [lia|].
  destruct reps; simpl; [lia|]. by inversion_clear Hr.
Qed.

Lemma total_of_bounds {A} (f : A -> Z) l b : Forall (fun x => 0 <= f x <= b) l ->
  0 <= total_of f l <= b * Z.of_nat (length l).
Proof.
  induction 1 as [|x l Hx H IH]; simpl; [lia|]. rewrite Nat2Z.inj_succ. nia.
Qed.

(** Without saturation the sums are those of the weights and of the weighted prices. *)
Lemma add_survivors l : forall w p cs, 0 <= w -> 0 <= p -> Forall in_range l ->
  w + 100 * Z.of_nat (length l) <= u128_max -> p + 100 * 2 ^ 110 * Z.of_nat (length l) <= u128_max ->
  exists cs', fold_left add_survivor l (w, p, cs) =
    (w + total_of weight_of l, p + total_of (fun e => price_of e * weight_of e) l, cs').
Proof.
  induction l as [|e l IH]; intros w p cs Hw Hp Hl Hbw Hbp; simpl.
  - exists cs. by rewrite !Z.add_0_r.
  - inversion_clear Hl as [|? ? [He1 He2] Hl']. destruct e as [[pr cf] we].
    unfold price_of, weight_of in He1, He2. simpl in *. rewrite Nat2Z.inj_succ in Hbw, Hbp.
    unfold u128_sat_add, u128_sat_mul.
    assert (0 <= pr * we <= 100 * 2 ^ 110) by nia.
    rewrite (Z.min_l (w + we)), (Z.min_l (pr * we)), (Z.min_l (p + pr * we)) by nia.
    destruct (IH (w + we) (p + pr * we) (Z.min (cs + cf) u128_max)) as [cs' ->]; [lia|lia|done|lia|nia|].
    exists cs'. unfold price_of, weight_of. simpl. by rewrite !Z.add_assoc.
Qed.

(** An average lies between bounds of what is averaged. *)
Lemma weighted_bounds l lo hi : Forall (fun e => lo <= price_of e <= hi /\ 0 <= weight_of e) l ->
  0 < total_of weight_of l ->
  lo <= total_of (fun e => price_of e * weight_of e) l / total_of weight_of l <= hi.
Proof.
  intros H Hw.
  assert (lo * total_of weight_of l <= total_of (fun e => price_of e * weight_of e) l
    <= hi * total_of weight_of l) as [H1 H2].
  { clear Hw. induction H as [|e l He H IH]; simpl; [lia|]. nia. }
  split; [apply Z.div_le_lower_bound; lia|].
  apply Z.div_le_upper_bound; lia.
Qed.

(** The prices of a round in order, and the middle one. *)
Definition sorted_prices (feeds : list PriceFeed) (reps : list Z) (now w : Z) : list Z :=
  merge_sort Z.le (price_of <$> valid_entries feeds reps now w).
Definition median_of (feeds : list PriceFeed) (reps : list Z) (now w : Z) : option Z :=
  sorted_prices feeds reps now w !! (length (valid_entries feeds reps now w) / 2)%nat.

Lemma median_there feeds reps now w :
  valid_entries feeds reps now w <> [] ->
  exists e, e ∈ valid_entries feeds reps now w /\ median_of feeds reps now w = Some (price_of e).
Proof.
  intros Hne. unfold median_of, sorted_prices.
  set (v := valid_entries feeds reps now w) in *.
  assert (length v / 2 < length v)%nat by (apply Nat.div_lt; [destruct v; [done|simpl; lia]|lia]).
  destruct (lookup_lt_is_Some_2 (merge_sort Z.le (price_of <$> v)) (length v / 2)) as [m Hm].
  { by rewrite merge_sort_Permutation, length_fmap. }
  rewrite Hm. apply list_elem_of_lookup_2 in Hm. rewrite merge_sort_Permutation in Hm.
  apply list_elem_of_fmap in Hm as (e & -> & He). eauto.
Qed.

(** A round with a quorum of valid feeds, as a function of its median. *)
Definition near (median : Z) (e : Z * Z * Z) : bool :=
  Z.leb (deviation (price_of e) median) (u128_sat_mul median MAX_DEVIATION_BPS / 10000).

Lemma round_run {E} feeds reps now w q median :
  q <= Z.of_nat (length (valid_entries feeds reps now w)) ->
  median_of feeds reps now w = Some median ->
  @run_consensus _ E feeds reps now w q =
    let survivors := List.filter (near median) (valid_entries feeds reps now w) in
    if bool_decide (survivors = []) then Ok (ConsensusResult.DeviationExceeded, 0, 0, 0)
    else
      let '(ws, ps, cs) := fold_left add_survivor survivors (0, 0, 0) in
      if Z.eqb ws 0 then Ok (ConsensusResult.InsufficientQuorum, 0, 0, 0)
      else Ok (ConsensusResult.Accepted, ps / ws, cs / Z.of_nat (length survivors),
               Z.of_nat (length survivors)).
Proof.
  intros Hq Hm. unfold run_consensus.
  destruct (Z.ltb_spec (Z.of_nat (length (valid_entries feeds reps now w))) q); [lia|].
  change (fun e : Z * Z * Z => fst (fst e)) with price_of.
  rewrite sort_is_merge. cbn [rbind]. unfold median_of, sorted_prices in Hm. unfold at_index. by rewrite Hm.
Qed.

Lemma near_self median e : price_of e = median -> 0 <= median -> near median e = true.
Proof.
  intros <- Hm. unfold near, deviation. rewrite Z.leb_refl, Z.sub_diag. apply Z.leb_le.
  apply Z.div_pos; [|lia]. unfold u128_sat_mul, u128_max, MAX_DEVIATION_BPS. lia.
Qed.

(** Weights add up to something when one of them is positive. *)
Lemma some_weight l : Forall in_range l ->
  0 < total_of weight_of l <-> exists e, e ∈ l /\ 0 < weight_of e.
Proof.
  induction 1 as [|x l [_ Hx] Hl IH]; simpl.
  - split; [lia|by intros (e & ?%elem_of_nil & _)].
  - destruct (total_of_bounds weight_of l 100) as [H0 _]; [by eapply Forall_impl; [exact Hl|intros y [_ ?]]|].
    setoid_rewrite elem_of_cons. split.
    + intros Hp. destruct (Z.ltb_spec 0 (weight_of x)); [by exists x; split; [left|]|].
      destruct (proj1 IH) as (e & He & Hw); [lia|]. exists e. by split; [right|].
    + intros (e & [->|He] & Hw); [lia|]. assert (0 < total_of weight_of l) by (apply IH; eauto). lia.
Qed.

(** The average of entries near the median is within 5 % of it. *)
Lemma near_average l median : Forall in_range l -> 0 < median < 2 ^ 110 -> 0 < total_of weight_of l ->
  (forall e, e ∈ l -> near median e = true /\ in_range e) ->
  20 * Z.abs (total_of (fun e => price_of e * weight_of e) l / total_of weight_of l - median) <= median.
Proof.
  intros Hl Hm Hw Hn. set (cap := median * MAX_DEVIATION_BPS / 10000).
  assert (20 * cap <= median /\ 0 <= cap) as [Hcap Hc0].
  { unfold cap, MAX_DEVIATION_BPS. pose proof (Z.mul_div_le (median * 500) 10000).
    split; [lia|]. apply Z.div_pos; lia. }
  destruct (weighted_bounds l (median - cap) (median + cap)) as [Hlo Hhi]; [|done|lia].
  apply Forall_forall. intros e He. destruct (Hn e He) as [Hen [Hp Hwe]].
  split; [|lia]. unfold near, deviation in Hen. apply Z.leb_le in Hen.
  unfold u128_sat_mul in Hen. rewrite Z.min_l in Hen by (unfold u128_max, MAX_DEVIATION_BPS; lia).
  fold cap in Hen. destruct (Z.leb_spec median (price_of e)); lia.
Qed.

(** A quorum of zero makes a round without valid feeds read the median of an
    empty list, and abort. *)
Lemma zero_quorum {E} feeds reps now w :
  valid_entries feeds reps now w = [] -> @run_consensus _ E feeds reps now w 0 = Err (Panic Unwrap).
Proof. intros Hv. unfold run_consensus. rewrite Hv. reflexivity. Qed.

(** C39: A round over at most ten feeds, with prices below 2^110 and reputations of at
    most 100, aborts when its quorum is zero and no feed is valid, and is decided in
    every other case - never by the deviation of its prices, since the median
    deviates from nothing: without a quorum of valid feeds it is not accepted, and
    with one it is accepted exactly when an oracle near the median has some
    reputation.  An accepted price is within 5 % of the median of the valid
    prices. *)
Theorem rounds_settle_near_the_median feeds reps now w q :
  0 <= q -> (length feeds <= 10)%nat ->
  Forall (fun f => pf_price f < 2 ^ 110) feeds -> Forall (fun f => 0 <= pf_price f) feeds ->
  Forall (fun r => 0 <= r <= 100) reps ->
  let v := valid_entries feeds reps now w in
  (q = 0 /\ v = [] -> @run_consensus _ OracleError feeds reps now w q = Err (Panic Unwrap)) /\
  (0 < q \/ v <> [] -> exists r p cs n, @run_consensus _ OracleError feeds reps now w q = Ok (r, p, cs, n) /\
    r <> ConsensusResult.DeviationExceeded /\
    (Z.of_nat (length v) < q -> r <> ConsensusResult.Accepted) /\
    (q <= Z.of_nat (length v) -> exists median, median_of feeds reps now w = Some median /\
       (r = ConsensusResult.Accepted <->
          exists e, e ∈ v /\ near median e = true /\ 0 < weight_of e) /\
       (r = ConsensusResult.Accepted -> 20 * Z.abs (p - median) <= median /\ 0 < n <= 10))).
Proof.
  intros Hq0 Hlen Hf Hn Hr v. split; [intros [-> Hv]; by apply zero_quorum|]. intros Hq. destruct (valid_entries_range feeds reps now w Hf Hn Hr) as [Hv Hvl].
  fold v in Hv, Hvl. destruct (Z.ltb_spec (Z.of_nat (length v)) q) as [Hlt|Hge].
  { unfold run_consensus. fold v. rewrite (proj2 (Z.ltb_lt _ _) Hlt).
    destruct (bool_decide (v = []) && negb (bool_decide (feeds = [])));
      (do 4 eexists; split; [reflexivity|]; split; [done|]; split; [done|lia]). }
  destruct (median_there feeds reps now w) as (em & Hem & Hm).
  { intros E. fold v in E. destruct Hq as [Hq|]; [|done]. rewrite E in Hge. simpl in Hge. lia. }
  fold v in Hem. set (median := price_of em) in *.
  rewrite (round_run feeds reps now w q median) by done. fold v. cbv zeta.
  set (sv := List.filter (near median) v).
  assert (Hsv : forall e, e ∈ sv <-> e ∈ v /\ near median e = true).
  { intros e. unfold sv. rewrite !list_elem_of_In. apply filter_In. }
  assert (Hin : forall e, e ∈ v -> in_range e) by (by apply Forall_forall).
  assert (Hmr : 0 < median < 2 ^ 110) by apply (Hin em Hem).
  assert (em ∈ sv) as Hems by (apply Hsv; split; [done|apply near_self; [done|lia]]).
  rewrite bool_decide_eq_false_2 by (intros E; rewrite E in Hems; by apply elem_of_nil in Hems).
  assert (Hsvr : Forall in_range sv) by (apply Forall_forall; intros e [He _]%Hsv; by apply Hin).
  assert (Hsl : (0 < length sv <= 10)%nat).
  { split; [destruct sv; [by apply elem_of_nil in Hems|simpl; lia]|].
    etransitivity; [unfold sv; apply filter_length_le|]. lia. }
  destruct (add_survivors sv 0 0 0) as [cs ->]; [lia|lia|done|unfold u128_max; lia|unfold u128_max; lia|].
  rewrite !Z.add_0_l. destruct (total_of_bounds weight_of sv 100) as [Hw _];
    [by eapply Forall_impl; [exact Hsvr|intros e [_ ?]]|].
  assert (Hpos : 0 < total_of weight_of sv <-> exists e, e ∈ v /\ near median e = true /\ 0 < weight_of e).
  { rewrite (some_weight sv Hsvr). setoid_rewrite Hsv. naive_solver. }
  destruct (Z.eqb_spec (total_of weight_of sv) 0) as [E0|E0].
  - do 4 eexists. split; [reflexivity|]. split; [done|]. split; [done|]. intros _.
    exists median. split; [done|]. split; [|done]. rewrite <- Hpos, E0. split; [done|lia].
  - do 4 eexists. split; [reflexivity|]. split; [done|]. split; [lia|]. intros _.
    exists median. split; [done|]. split; [rewrite <- Hpos; split; [lia|done]|]. intros _.
    split; [|lia]. apply (near_average sv); [done|lia|lia|].
    intros e He. apply Hsv in He as [Hev Hen]. split; [done|by apply Hin].
Qed.

(** *** Chains of prices *)

Inductive ocall : Type :=
  | ORegister (a : Address) (name : Bytes) (classes : list Z) (rep : Z)
  | OStatus (a : Address) (t : OracleStatus)
  | OAsset (i : Symbol) (k : AssetClass) (name : Bytes) (issuer : Address) (q w : option Z)
  | OSubmit (a : Address) (i : Symbol) (price conf at_ : Z) (meta : Bytes)
  | OProcess (i : Symbol).

Definition oexec (k : ocall) : M unit :=
  match k with
  | ORegister a n l r => do* register_oracle a n l r in ret tt
  | OStatus a t => set_oracle_status a t
  | OAsset i k n a q w => do* register_asset i k n a q w in ret tt
  | OSubmit a i p f t m => do* submit_price_feed a i p f t m in ret tt
  | OProcess i => do* process_consensus i in ret tt
  end.

Inductive oreach : St -> Prop :=
  | oreach_nil : oreach empty_state
  | oreach_call k c s s' : oreach s -> oexec k c s = Ok (tt, s') -> oreach s'.

Definition history (st : store) (i : Symbol) : list CanonicalPrice :=
  match sget st (OracleDataKey.PriceHistory i) with Some h => h | None => [] end.
Definition feeds_of (st : store) (i : Symbol) : list PriceFeed :=
  match sget st (OracleDataKey.PendingFeeds i) with Some l => l | None => [] end.

(** The keys of agreed prices, and those that also hold feeds. *)
Definition priced (k : OracleDataKey) : bool :=
  match k with OracleDataKey.LatestPrice _ | OracleDataKey.PriceHistory _ => true | _ => false end.
Definition fed (k : OracleDataKey) : bool :=
  match k with OracleDataKey.PendingFeeds _ => true | _ => priced k end.

(** What the price after a history refers back to. *)
Definition link (h : list CanonicalPrice) : Hash :=
  match last h with Some p => cn_chain_hash p | None => zero32 end.

Lemma reputations_run l : forall reps c (s s' : St) r,
  fold_m add_reputation reps l c s = Ok (r, s') -> s' = s.
Proof.
  induction l as [|f l IH]; intros reps c s s' r R; simpl in R; minv; [done|].
  unfold add_reputation in *. minv. by eapply IH.
Qed.

Lemma window_keeps a c (s s' : St) w : window_of a c s = Ok (w, s') -> s' = s.
Proof. unfold window_of, get_staleness_window. intros R. destruct (Z.ltb 0 _); by minv. Qed.

Lemma rejections_keep l : keeps fed (fold_m mark_rejection tt l).
Proof. apply keeps_fold. intros [] f. unfold mark_rejection. keeps_tac. Qed.

Lemma round_Ok i c (s s' : St) r : process_consensus i c s = Ok (r, s') ->
  feeds_of (inst s) i <> [] /\ sget (inst s') (OracleDataKey.PendingFeeds i) = Some [] /\
  (forall j, j <> i -> sget (inst s') (OracleDataKey.PendingFeeds j) = sget (inst s) (OracleDataKey.PendingFeeds j)) /\
  match r with
  | inr _ => forall k, priced k = true -> sget (inst s') k = sget (inst s) k
  | inl p =>
      let h := history (inst s) i in
      cn_asset_id p = i /\ cn_history_index p = Z.of_nat (length h) /\ verify_chain_hash p = true /\
      cn_prev_hash p = link h /\ cn_consensus_at p = cx_timestamp c /\
      sget (inst s') (OracleDataKey.LatestPrice i) = Some p /\
      history (inst s') i = (if Z.ltb (Z.of_nat (length h)) MAX_PRICE_HISTORY then h ++ [p] else h) /\
      forall k, priced k = true -> k <> OracleDataKey.LatestPrice i -> k <> OracleDataKey.PriceHistory i ->
        sget (inst s') k = sget (inst s) k
  end.
Proof.
  unfold process_consensus, get_asset, fail_with. intros R. minv. zcase.
  match goal with B : fold_m add_reputation _ _ _ _ = Ok _ |- _ => apply reputations_run in B as -> end.
  match goal with B : window_of _ _ _ = Ok _ |- _ => apply window_keeps in B as -> end.
  match goal with B : (let '(_, _) := ?x in _) _ _ = Ok _ |- _ => destruct x as [[[rr price] conf] cnt] end.
  split; [assumption|].
  destruct (bool_decide (rr <> ConsensusResult.Accepted)).
  - apply bind_Ok in R as (u & s2 & Rk & R). minv.
    match goal with B : fold_m mark_rejection _ _ _ _ = _ |- _ => pose proof (rejections_keep _ _ _ _ _ B) as K end.
    split; [by store_reads|]. split.
    + intros j Hj. store_reads. exact (K (OracleDataKey.PendingFeeds j) eq_refl).
    + intros k Hk. rewrite sset_ne by (intros E; by subst k). apply K. by destruct k.
  - apply bind_Ok in R as (h & s2 & Rh & R).
    assert (h = history (inst s1) i /\ s2 = s1) as [-> ->] by (by injection Rh as <- <-).
    clear Rh. set (h := history (inst s1) i) in *. apply bind_Ok in R as (u & s2 & Rk & R). unfold when in Rk.
    destruct (Z.ltb (Z.of_nat (length h)) MAX_PRICE_HISTORY); minv;
      (match goal with B : (match ?x with Some _ => _ | None => _ end) _ _ = Ok _ |- _ => destruct x end); minv.
  all: split; [by store_reads|]; split; [intros j Hj; by store_reads|].
  all: split; [done|]; split; [done|]; split; [by apply bool_decide_eq_true_2|]; split; [done|]; split; [done|].
  all: unfold history at 1; split; [by store_reads|]; split; [by store_reads|].
  all: intros k' Hk Hk1 Hk2; rewrite !sset_ne; [done|..]; intros E; by subst k'.
Qed.

(** The history of an asset is a chain: each price has its position, its hash
    is that of its contents, and it refers to the hash of the one before. *)
Record Chained (i : Symbol) (h : list CanonicalPrice) : Prop := {
  ch_len : Z.of_nat (length h) <= MAX_PRICE_HISTORY;
  ch_link : forall k p, h !! k = Some p -> cn_asset_id p = i /\ cn_history_index p = Z.of_nat k /\
    verify_chain_hash p = true /\ cn_prev_hash p = link (take k h) }.

Lemma Chained_snoc i h p : Chained i h -> Z.of_nat (length h) < MAX_PRICE_HISTORY ->
  cn_asset_id p = i -> cn_history_index p = Z.of_nat (length h) -> verify_chain_hash p = true ->
  cn_prev_hash p = link h -> Chained i (h ++ [p]).
Proof.
  intros [H1 H2] Hl Ha Hi Hv Hp. split; [rewrite length_app; simpl; lia|].
  intros k q Hq. apply lookup_app_Some in Hq as [Hq|[Hk Hq]].
  - rewrite take_app_le by (apply lookup_lt_Some in Hq; lia). by apply H2.
  - apply list_lookup_singleton_Some in Hq as [Hk0 ->]. replace k with (length h) by lia.
    by rewrite take_app_length.
Qed.

(** Feeds that wait are of their asset and intact; at most ten wait. *)
Definition waiting (i : Symbol) (l : list PriceFeed) : Prop :=
  (length l <= 10)%nat /\
  Forall (fun f => pf_asset_id f = i /\ verify_feed_integrity f = (true, "ok"%string)) l.

Record OInv (st : store) : Prop := {
  o_chain : forall i, Chained i (history st i);
  o_latest : forall i, Z.of_nat (length (history st i)) < MAX_PRICE_HISTORY ->
    sget st (OracleDataKey.LatestPrice i) = last (history st i);
  o_feeds : forall i, waiting i (feeds_of st i) }.

Lemma OInv_other st st' : (forall k, fed k = true -> sget st' k = sget st k) -> OInv st -> OInv st'.
Proof.
  intros K [H1 H2 H3].
  assert (Hh : forall i, history st' i = history st i).
  { intros i. unfold history. by rewrite (K (OracleDataKey.PriceHistory i) eq_refl). }
  split; intros i.
  - rewrite Hh. apply H1.
  - rewrite Hh. pose proof (K (OracleDataKey.LatestPrice i) eq_refl) as E. simpl in E. rewrite E. apply H2.
  - unfold feeds_of. pose proof (K (OracleDataKey.PendingFeeds i) eq_refl) as E. simpl in E. rewrite E. apply H3.
Qed.

Lemma submit_feed_Ok a i p f t m c (s s' : St) x : submit_price_feed a i p f t m c s = Ok (x, s') ->
  pf_asset_id x = i /\ verify_feed_integrity x = (true, "ok"%string) /\
  feeds_of (inst s') i =
    (if Z.leb MAX_PENDING_FEEDS (Z.of_nat (length (feeds_of (inst s) i))) then [] else feeds_of (inst s) i) ++ [x] /\
  forall k, fed k = true -> k <> OracleDataKey.PendingFeeds i -> sget (inst s') k = sget (inst s) k.
Proof.
  unfold submit_price_feed, get_oracle, get_asset, fail_with. intros R. minv. zcase.
  match goal with B : window_of _ _ _ = Ok _ |- _ => apply window_keeps in B as -> end.
  split; [done|]. split.
  { unfold verify_feed_integrity. simpl. destruct (Z.eqb_spec p 0); [done|].
    destruct (Z.leb_spec (p / 2) f); [lia|]. unfold verify_integrity. simpl.
    by rewrite bool_decide_eq_true_2. }
  match goal with B : (match ?x with Some _ => _ | None => _ end) _ _ = Ok _ |- _ => destruct x end; minv.
  all: split; [unfold feeds_of at 1; by store_reads|].
  all: intros k' Hk Hk1; rewrite !sset_ne; [done|..]; intros E; by subst k'.
Qed.

Lemma OInv_submit a i p f t m c (s s' : St) x :
  OInv (inst s) -> submit_price_feed a i p f t m c s = Ok (x, s') -> OInv (inst s').
Proof.
  intros [H1 H2 H3] (Ha & Hv & Hf & K)%submit_feed_Ok.
  assert (Hh : forall j, history (inst s') j = history (inst s) j).
  { intros j. unfold history. pose proof (K (OracleDataKey.PriceHistory j) eq_refl ltac:(done)) as E.
    simpl in E. by rewrite E. }
  split; intros j.
  - rewrite Hh. apply H1.
  - rewrite Hh. pose proof (K (OracleDataKey.LatestPrice j) eq_refl ltac:(done)) as E.
    simpl in E. rewrite E. apply H2.
  - destruct (decide (j = i)) as [->|Hj].
    + rewrite Hf. destruct (H3 i) as [Hl HF]. unfold MAX_PENDING_FEEDS.
      destruct (Z.leb_spec 10 (Z.of_nat (length (feeds_of (inst s) i)))); split;
        rewrite ?length_app; simpl; try lia; [by constructor|].
      apply Forall_app_2; [done|by constructor].
    + unfold feeds_of. pose proof (K (OracleDataKey.PendingFeeds j) eq_refl ltac:(congruence)) as E.
      simpl in E. rewrite E. apply H3.
Qed.

Lemma OInv_round i c (s s' : St) r : OInv (inst s) -> process_consensus i c s = Ok (r, s') -> OInv (inst s').
Proof.
  intros [H1 H2 H3] (Hne & Hp & Ho & R)%round_Ok.
  assert (Hw : forall j, waiting j (feeds_of (inst s') j)).
  { intros j. unfold feeds_of. destruct (decide (j = i)) as [->|Hj]; [|rewrite Ho by done; apply H3].
    rewrite Hp. split; [simpl; lia|constructor]. }
  destruct r as [p|e].
  - destruct R as (Ha & Hi & Hv & Hpr & _ & Hl & Hh & K).
    split; [| |done]; intros j; (destruct (decide (j = i)) as [->|Hj];
      [|unfold history; pose proof (K (OracleDataKey.PriceHistory j) eq_refl ltac:(done) ltac:(congruence)) as E;
        pose proof (K (OracleDataKey.LatestPrice j) eq_refl ltac:(congruence) ltac:(done)) as E';
        simpl in E, E'; rewrite E, ?E'; first [apply H1|apply H2]]).
    + rewrite Hh. destruct (Z.ltb_spec (Z.of_nat (length (history (inst s) i))) MAX_PRICE_HISTORY); [|apply H1].
      by apply Chained_snoc.
    + rewrite Hl, Hh. destruct (Z.ltb_spec (Z.of_nat (length (history (inst s) i))) MAX_PRICE_HISTORY); [|lia].
      by rewrite last_snoc.
  - split; [| |done]; intros j; unfold history;
      pose proof (R (OracleDataKey.PriceHistory j) eq_refl) as E;
      pose proof (R (OracleDataKey.LatestPrice j) eq_refl) as E';
      simpl in E, E'; rewrite E, ?E'; first [apply H1|apply H2].
Qed.

Lemma OInv_step k c (s s' : St) : OInv (inst s) -> oexec k c s = Ok (tt, s') -> OInv (inst s').
Proof.
  intros Hinv R. destruct k; simpl in R.
  - assert (keeps fed (register_oracle a name classes rep)) as K.
    { unfold register_oracle, new_oracle, fail_with. keeps_tac. }
    apply bind_Ok in R as (x & s1 & R & R2). injection R2 as <-. by eapply OInv_other; [apply (K _ _ _ _ R)|].
  - assert (keeps fed (set_oracle_status a t)) as K.
    { unfold set_oracle_status, get_oracle. keeps_tac. }
    by eapply OInv_other; [apply (K _ _ _ _ R)|].
  - assert (keeps fed (register_asset i k name issuer q w)) as K.
    { unfold register_asset, get_global_quorum, fail_with. keeps_tac. }
    apply bind_Ok in R as (x & s1 & R & R2). injection R2 as <-. by eapply OInv_other; [apply (K _ _ _ _ R)|].
  - apply bind_Ok in R as (x & s1 & R & R2). injection R2 as <-. by eapply OInv_submit.
  - apply bind_Ok in R as (r & s1 & R & R2). injection R2 as <-. by eapply OInv_round.
Qed.

(** The prices agreed for an asset form a chain: each is at its position, its
    hash is that of its contents and it refers to the hash of the price before
    it.  There are at most 1000, and until then the latest price is the last of
    them.  At most ten feeds wait, each of that asset and intact. *)
Theorem agreed_prices_form_a_chain s i : oreach s ->
  Z.of_nat (length (history (inst s) i)) <= 1000 /\
  (forall k p, history (inst s) i !! k = Some p -> cn_asset_id p = i /\ cn_history_index p = Z.of_nat k /\
     verify_chain_hash p = true /\
     cn_prev_hash p = match k with
                      | O => zero32
                      | S j => match history (inst s) i !! j with Some q => cn_chain_hash q | None => zero32 end
                      end) /\
  (Z.of_nat (length (history (inst s) i)) < 1000 ->
     sget (inst s) (OracleDataKey.LatestPrice i) = last (history (inst s) i)) /\
  (length (feeds_of (inst s) i) <= 10)%nat /\
  Forall (fun f => pf_asset_id f = i /\ verify_feed_integrity f = (true, "ok"%string)) (feeds_of (inst s) i).
Proof.
  intros Hr. assert (OInv (inst s)) as [H1 H2 H3].
  { induction Hr as [|k c s s' _ IH R]; [|by eapply OInv_step].
    split; intros j; [split; [done|by intros ? ?]|done|split; [simpl; lia|constructor]]. }
  destruct (H1 i) as [Hl Hk]. split; [exact Hl|]. split; [|split; [apply H2|apply H3]].
  intros k p Hp. destruct (Hk k p Hp) as (Ha & Hi & Hv & Hpr). do 3 (split; [done|]). rewrite Hpr.
  unfold link. destruct k as [|j]; [done|].
  destruct (history (inst s) i !! j) as [q|] eqn:Eq.
  - by rewrite (take_S_r _ _ _ Eq), last_snoc.
  - apply lookup_ge_None in Eq. apply lookup_lt_Some in Hp. lia.
Qed.

(** Once 1000 prices are kept, an accepted price is still the latest but is no
    longer kept: every price from then on has the same position and refers to
    the same price. *)
Theorem full_histories_are_frozen i c s s' p :
  length (history (inst s) i) = 1000%nat -> process_consensus i c s = Ok (inl p, s') ->
  sget (inst s') (OracleDataKey.LatestPrice i) = Some p /\ history (inst s') i = history (inst s) i /\
  cn_history_index p = 1000 /\ cn_prev_hash p = link (history (inst s) i).
Proof.
  intros Hl R. apply round_Ok in R as (_ & _ & _ & _ & Hi & _ & Hp & _ & Hlp & Hh & _).
  rewrite Hl in Hi, Hh. done.
Qed.

(** A round that is not accepted drops the feeds that waited and keeps every
    agreed price. *)
Theorem failed_rounds_keep_the_price i c s s' e :
  process_consensus i c s = Ok (inr e, s') ->
  feeds_of (inst s') i = [] /\ forall j,
  history (inst s') j = history (inst s) j /\
  sget (inst s') (OracleDataKey.LatestPrice j) = sget (inst s) (OracleDataKey.LatestPrice j).
Proof.
  intros R. apply round_Ok in R as (_ & Hp & _ & R). split; [unfold feeds_of; by rewrite Hp|].
  intros j. split; [|exact (R (OracleDataKey.LatestPrice j) eq_refl)].
  unfold history. pose proof (R (OracleDataKey.PriceHistory j) eq_refl) as E. simpl in E. by rewrite E.
Qed.

Lemma reputations_there l : forall reps c (s : St), exists r, fold_m add_reputation reps l c s = Ok (r, s).
Proof. induction l as [|f l IH]; intros reps c s; simpl; [by eexists|]. apply IH. Qed.

Lemma all_stale feeds reps now w :
  Forall (fun f => is_feed_stale f now w = true) feeds -> valid_entries feeds reps now w = [].
Proof. intros H. revert reps. induction H as [|f l Hf Hl IH]; intros reps; [done|]. simpl. by rewrite Hf. Qed.

(** The staleness window in force for an asset. *)
Definition window_in_force (st : store) (a : AssetRecord) : Z :=
  if Z.ltb 0 (ac_staleness_window_override a) then ac_staleness_window_override a
  else match sget st OracleDataKey.StalenessWindow with Some w => w | None => 3600 end.

(** An asset may be registered with a quorum of zero; a round over stale feeds
    then aborts instead of dropping them, and so does every later one. *)
Theorem zero_quorums_abort i c s a :
  sget (inst s) (OracleDataKey.Asset i) = Some a -> ac_quorum a = 0 -> feeds_of (inst s) i <> [] ->
  Forall (fun f => is_feed_stale f (cx_timestamp c) (window_in_force (inst s) a) = true) (feeds_of (inst s) i) ->
  process_consensus i c s = Err (Panic Unwrap).
Proof.
  intros Ha Hq Hne Hst. unfold process_consensus, get_asset.
  assert (window_of a c s = Ok (window_in_force (inst s) a, s)) as Hw.
  { unfold window_of, window_in_force. destruct (Z.ltb 0 _); reflexivity. }
  destruct (reputations_there (feeds_of (inst s) i) [] c s) as [reps Hreps].
  unfold bind, iget, unwrap_or_raise, iget_or. rewrite Ha. cbn [ret].
  change (match sget (inst s) (OracleDataKey.PendingFeeds i) with Some v => v | None => [] end)
    with (feeds_of (inst s) i).
  unfold fail_with, reject_if. rewrite bool_decide_eq_false_2 by done. unfold ret. rewrite Hreps.
  unfold ledger_timestamp. rewrite Hw. unfold lift. rewrite Hq, zero_quorum; [done|].
  apply all_stale. by apply Forall_take.
Qed.

End Rounds.
#[local] Existing Instance sample_crypto.

(** Two oracles price gold; one round is accepted, the next finds only stale
    feeds. *)
Definition o_call (n : Z) (k : ocall) (s : St) : St := post (oexec k) (at_ledger n) s.

Lemma o_call_reach n k s : oreach s -> outcome (oexec k) (at_ledger n) s = Ok tt -> oreach (o_call n k s).
Proof. intros Hr Ho. eapply oreach_call; [exact Hr|]. by apply run_outcome. Qed.

Definition o_asset : St :=
  o_call 100 (OAsset "GOLD" AssetClass.Commodity [71] owner None None)
    (o_call 100 (ORegister owner [79] [2] 60) (o_call 100 (ORegister alice [65] [2] 90) empty_state)).
Definition o_fed : St :=
  o_call 102 (OSubmit owner "GOLD" 1010 5 500 []) (o_call 101 (OSubmit alice "GOLD" 1000 4 500 []) o_asset).
Definition o_priced : St := o_call 103 (OProcess "GOLD") o_fed.
Definition o_again : St := o_call 104 (OSubmit alice "GOLD" 1001 4 515 []) o_priced.

Lemma o_priced_reach : oreach o_priced.
Proof.
  do 6 (apply o_call_reach; [|vm_compute; reflexivity]). apply oreach_nil.
Qed.

Lemma rounds_settle_near_the_median_witness :
  exists r p cs n, run_consensus (feeds_of (inst o_fed) "GOLD") [90; 60] 515 3600 2 = @Ok OracleError _ (r, p, cs, n) /\
    r = ConsensusResult.Accepted /\ 20 * Z.abs (p - 1010) <= 1010.
Proof.
  destruct (rounds_settle_near_the_median (feeds_of (inst o_fed) "GOLD") [90; 60] 515 3600 2)
    as [_ H0].
  - discriminate.
  - apply Nat.leb_le. vm_compute. reflexivity.
  - apply Forall_forall. intros f Hf. apply list_elem_of_In in Hf. vm_compute in Hf.
    destruct Hf as [<-|[<-|[]]]; reflexivity.
  - apply Forall_forall. intros f Hf. apply list_elem_of_In in Hf. vm_compute in Hf.
    destruct Hf as [<-|[<-|[]]]; discriminate.
  - repeat constructor; discriminate.
  - destruct H0 as (r & p & cs & n & R & _ & _ & H); [by left|].
    destruct H as (median & Hm & Hr & Hp); [vm_compute; discriminate|].
    vm_compute in Hm. injection Hm as <-. exists r, p, cs, n. split; [exact R|].
    assert (r = ConsensusResult.Accepted) as Ha by (clear - R; vm_compute in R; by injection R as <-).
    split; [exact Ha|]. apply (Hp Ha).
Defined.

Lemma agreed_prices_form_a_chain_witness :
  exists p, history (inst o_priced) "GOLD" !! 0%nat = Some p /\ cn_price p = 1004 /\ cn_prev_hash p = zero32.
Proof.
  destruct (history (inst o_priced) "GOLD" !! 0%nat) as [p|] eqn:E; [|vm_compute in E; discriminate E].
  exists p. split; [reflexivity|]. split; [vm_compute in E; by injection E as <-|].
  exact (proj2 (proj2 (proj2 (proj1 (proj2 (agreed_prices_form_a_chain o_priced "GOLD" o_priced_reach)) 0%nat p E)))).
Defined.

(** The same contract with a full history. *)
Definition o_full : St :=
  mkSt (sset (inst o_fed) (OracleDataKey.PriceHistory "GOLD")
          (replicate 1000 (mkCanonicalPrice "GOLD" 1000 4 2 400 390 0 999 zero32 zero32)))
    (pers o_fed) (temp o_fed) (published o_fed) (host_calls o_fed).

Lemma full_histories_are_frozen_witness :
  exists p, outcome (process_consensus "GOLD") (at_ledger 103) o_full = Ok (inl p) /\ cn_history_index p = 1000.
Proof.
  destruct (outcome (process_consensus "GOLD") (at_ledger 103) o_full) as [[p|e]|] eqn:R;
    [|vm_compute in R; discriminate R|vm_compute in R; discriminate R].
  exists p. split; [reflexivity|].
  refine (proj1 (proj2 (proj2 (full_histories_are_frozen "GOLD" _ _ _ p _ (run_outcome _ _ _ _ R))))).
  vm_compute. reflexivity.
Defined.

Lemma failed_rounds_keep_the_price_witness :
  outcome (process_consensus "GOLD") (at_ledger 1000) o_again = Ok (inr OracleError.StaleTimestamp) /\
  sget (inst (post (process_consensus "GOLD") (at_ledger 1000) o_again)) (OracleDataKey.LatestPrice "GOLD") =
    sget (inst o_again) (OracleDataKey.LatestPrice "GOLD").
Proof.
  assert (outcome (process_consensus "GOLD") (at_ledger 1000) o_again = Ok (inr OracleError.StaleTimestamp)) as R
    by (vm_compute; reflexivity).
  split; [exact R|].
  exact (proj2 (proj2 (failed_rounds_keep_the_price "GOLD" _ _ _ _ (run_outcome _ _ _ _ R)) "GOLD"%string)).
Defined.

(** Silver is registered with a quorum of zero; its one feed grows stale. *)
Definition o_silver : St :=
  o_call 101 (OSubmit alice "SILVER" 20 4 500 [])
    (o_call 100 (OAsset "SILVER" AssetClass.Commodity [83] owner (Some 0) None) o_asset).

Lemma zero_quorums_abort_witness :
  process_consensus "SILVER" (at_ledger 1000) o_silver = Err (Panic Unwrap).
Proof.
  destruct (sget (inst o_silver) (OracleDataKey.Asset "SILVER")) as [a|] eqn:E; [|vm_compute in E; discriminate E].
  apply (zero_quorums_abort "SILVER" (at_ledger 1000) o_silver a E).
  - vm_compute in E. by injection E as <-.
  - vm_compute. discriminate.
  - apply Forall_forall. intros f Hf. apply list_elem_of_In in Hf.
    vm_compute in E. injection E as <-. vm_compute in Hf. destruct Hf as [<-|[]]. vm_compute. reflexivity.
Defined.

End Prices.

(** ** The registry *)

Module Registry.
Import RwaTypes AssetRegistry.

Section Tokens.
Context `{C : Crypto} `{X : AddressXdr}.

Inductive gcall : Type :=
  | GInit (cfg : RwaConfig)
  | GConfig (cfg : RwaConfig)
  | GRegister (issuer : Address) (ext name : Bytes) (k : AssetClass) (f : ComplianceFramework)
      (supply : Z) (meta : Bytes)
  | GSubmit (i : Hash) (caller : Address)
  | GApprove (i : Hash)
  | GReject (i : Hash) (reason : Bytes)
  | GSuspend (i : Hash) (reason : Bytes)
  | GReactivate (i : Hash)
  | GRedeem (i : Hash)
  | GMature (i : Hash).

Definition gexec (k : gcall) : M unit :=
  match k with
  | GInit cfg => AssetRegistry.initialize cfg
  | GConfig cfg => update_config cfg
  | GRegister a e n k f q m => do* register_token a e n k f q m in ret tt
  | GSubmit i a => do* submit_for_approval i a in ret tt
  | GApprove i => do* approve_token i in ret tt
  | GReject i r => do* reject_token i r in ret tt
  | GSuspend i r => do* suspend_token i r in ret tt
  | GReactivate i => do* reactivate_token i in ret tt
  | GRedeem i => do* begin_redemption i in ret tt
  | GMature i => do* mature_token i in ret tt
  end.

Inductive greach : St -> Prop :=
  | greach_nil : greach empty_state
  | greach_call k c s s' : greach s -> gexec k c s = Ok (tt, s') -> greach s'.

(** The steps of a token's life. *)
Definition edge (a b : TokenizationStatus) : Prop :=
  match a, b with
  | TokenizationStatus.Draft, TokenizationStatus.PendingApproval
  | TokenizationStatus.PendingApproval, TokenizationStatus.Active
  | TokenizationStatus.PendingApproval, TokenizationStatus.Rejected
  | TokenizationStatus.Active, TokenizationStatus.Suspended
  | TokenizationStatus.Suspended, TokenizationStatus.Active
  | TokenizationStatus.Active, TokenizationStatus.Redeeming
  | TokenizationStatus.Redeeming, TokenizationStatus.Matured => True
  | _, _ => False
  end.

(** What a token is, whatever happens to it. *)
Definition terms (t : RwaToken) : Hash * Bytes * Bytes * Z * Address * Z * Z * Z * Z :=
  (rt_token_id t, rt_external_id t, rt_name t, rt_asset_class t, rt_issuer t, rt_compliance_framework t,
   rt_total_supply t, rt_circulating_supply t, rt_created_at t).

Definition token (st : store) (i : Hash) : option RwaToken := sget st (AssetRegistryKey.Token i).
Definition index (st : store) : list Hash :=
  match sget st AssetRegistryKey.TokenIndex with Some l => l | None => [] end.
Definition of_issuer (st : store) (a : Address) : list Hash :=
  match sget st (AssetRegistryKey.IssuerTokens a) with Some l => l | None => [] end.
Definition of_class (st : store) (k : Z) : list Hash :=
  match sget st (AssetRegistryKey.ClassTokens k) with Some l => l | None => [] end.

(** A call that moves the token [i] along an edge and writes nothing else. *)
Definition moved (i : Hash) (st st' : store) : Prop :=
  exists t t' a b, token st i = Some t /\ st' = sset st (AssetRegistryKey.Token (rt_token_id t)) t' /\
    terms t' = terms t /\ status t = Some a /\ status t' = Some b /\ edge a b.

Definition moves (k : gcall) : option Hash :=
  match k with
  | GSubmit i _ | GApprove i | GReject i _ | GSuspend i _ | GReactivate i | GRedeem i | GMature i => Some i
  | _ => None
  end.

Lemma moves_Ok k c (s s' : St) i :
  moves k = Some i -> gexec k c s = Ok (tt, s') -> moved i (inst s) (inst s').
Proof.
  intros Hk R. destruct k; simpl in Hk; try discriminate; injection Hk as ->; simpl in R;
    apply bind_Ok in R as (x & s1 & R & R2); injection R2 as <-;
    unfold submit_for_approval, approve_token, reject_token, suspend_token, reactivate_token,
      begin_redemption, mature_token, token_and_status, get_token, save_token, AssetRegistry.fail_with in R;
    minv; zcase; unfold moved, token;
    (match goal with B : ~ _ <> _ |- _ => apply dec_stable in B end); try subst;
    eexists _, _, _, _; (split; [eassumption|]); (split; [reflexivity|]); (split; [reflexivity|]);
    (split; [eassumption|]); (split; [reflexivity|]); done.
Qed.

Lemma register_token_Ok a e n k f q m c (s s' : St) t :
  register_token a e n k f q m c s = Ok (t, s') ->
  exists cfg, let i := rt_token_id t in
    inst s' = sset (sset (sset (sset (sset (inst s) (AssetRegistryKey.Token i) t)
      AssetRegistryKey.TokenIndex (index (inst s) ++ [i]))
      (AssetRegistryKey.IssuerTokens a) (of_issuer (inst s) a ++ [i]))
      (AssetRegistryKey.ClassTokens (AssetClass.code k)) (of_class (inst s) (AssetClass.code k) ++ [i]))
      AssetRegistryKey.Config cfg /\
    token (inst s) i = None /\ rt_issuer t = a /\ rt_asset_class t = AssetClass.code k /\
    status t = Some TokenizationStatus.Draft /\ rt_circulating_supply t = 0 /\ 0 <> q /\ rt_total_supply t = q.
Proof.
  unfold register_token, get_config, update_config, compute_token_id, AssetRegistry.fail_with. intros R. minv. zcase.
  eexists. simpl. split; [unfold index, of_issuer, of_class; by store_reads|].
  split; [match goal with B : shas _ _ = false |- _ => exact (shas_false _ _ B) end|].
  do 4 (split; [reflexivity|]). split; [|reflexivity]. congruence.
Qed.

Record GInv (st : store) : Prop := {
  g_id : forall i t, token st i = Some t -> rt_token_id t = i;
  g_index : forall i, i ∈ index st <-> is_Some (token st i);
  g_issuer : forall a i, i ∈ of_issuer st a <-> exists t, token st i = Some t /\ rt_issuer t = a;
  g_class : forall k i, i ∈ of_class st k <-> exists t, token st i = Some t /\ rt_asset_class t = k;
  g_once : NoDup (index st) /\ (forall a, NoDup (of_issuer st a)) /\ (forall k, NoDup (of_class st k)) }.

Lemma token_set st i t j :
  token (sset st (AssetRegistryKey.Token i) t) j = if decide (j = i) then Some t else token st j.
Proof. unfold token. destruct (decide (j = i)) as [->|Hj]; by store_reads. Qed.

(** A token replaced by one with the same terms. *)
Lemma GInv_moved st st' i : moved i st st' -> GInv st -> GInv st'.
Proof.
  intros (t & t' & a & b & Ht & -> & Htm & _) [H1 H2 H3 H4 H5].
  rewrite (H1 i t Ht).
  assert (forall (P : RwaToken -> Prop), (forall u v, terms u = terms v -> P v -> P u) -> forall j,
    (exists u, token (sset st (AssetRegistryKey.Token i) t') j = Some u /\ P u) <->
    (exists u, token st j = Some u /\ P u)) as Hsame.
  { intros P HP j. rewrite token_set. destruct (decide (j = i)) as [->|Hj]; [|done]. split.
    - intros (u & [= <-] & Hu). exists t. split; [done|]. by eapply HP; [|exact Hu].
    - intros (u & Hu & HPu). rewrite Ht in Hu. injection Hu as <-. exists t'. split; [done|]. by eapply HP. }
  split; unfold index, of_issuer, of_class.
  - intros j u. rewrite token_set. destruct (decide (j = i)) as [->|Hj]; [|apply H1].
    intros [= <-]. unfold terms in Htm. rewrite <- (H1 i t Ht). congruence.
  - intros j. store_reads. rewrite (H2 j), token_set. destruct (decide (j = i)) as [->|Hj]; [|done].
    rewrite Ht. split; by eexists.
  - intros x j. store_reads. rewrite (H3 x j). symmetry. apply Hsame. unfold terms. intros u v E <-. congruence.
  - intros k j. store_reads. rewrite (H4 k j). symmetry. apply Hsame. unfold terms. intros u v E <-. congruence.
  - store_reads. split; [apply H5|]. split; intros x; store_reads; apply H5.
Qed.

Lemma snoc_member (l : list Hash) i j : j ∈ l ++ [i] <-> j ∈ l \/ j = i.
Proof. by rewrite elem_of_app, list_elem_of_singleton. Qed.

Lemma snoc_once (l : list Hash) i : NoDup l -> ~ i ∈ l -> NoDup (l ++ [i]).
Proof.
  intros Hl Hi. apply NoDup_app. split; [done|]. split; [|apply NoDup_singleton].
  intros x Hx Hx'%list_elem_of_singleton. by subst x.
Qed.

Lemma GInv_register a e n k f q m c (s s' : St) t :
  register_token a e n k f q m c s = Ok (t, s') -> GInv (inst s) -> GInv (inst s').
Proof.
  intros (cfg & -> & Hno & Ha & Hk & _)%register_token_Ok [H1 H2 H3 H4 [H5 [H6 H7]]].
  set (i := rt_token_id t) in *.
  match goal with |- GInv ?x => set (st := x) end.
  assert (forall j, token st j = if decide (j = i) then Some t else token (inst s) j) as Ht.
  { intros j. rewrite <- token_set. unfold token, st. by store_reads. }
  assert (forall x, of_issuer st x = if decide (x = a) then of_issuer (inst s) a ++ [i] else of_issuer (inst s) x) as Hi.
  { intros x. unfold of_issuer, st. destruct (decide (x = a)) as [->|Hx]; by store_reads. }
  assert (forall x, of_class st x = if decide (x = AssetClass.code k)
    then of_class (inst s) (AssetClass.code k) ++ [i] else of_class (inst s) x) as Hc.
  { intros x. unfold of_class, st. destruct (decide (x = AssetClass.code k)) as [->|Hx]; by store_reads. }
  assert (index st = index (inst s) ++ [i]) as Hx by (unfold index, st; by store_reads).
  assert (forall (P : RwaToken -> Prop) j,
    (exists u, (if decide (j = i) then Some t else token (inst s) j) = Some u /\ P u) <->
    (exists u, token (inst s) j = Some u /\ P u) \/ (j = i /\ P t)) as Hadd.
  { intros P j. destruct (decide (j = i)) as [->|Hj]; [|naive_solver]. rewrite Hno. naive_solver. }
  split.
  - intros j u. rewrite Ht. destruct (decide (j = i)) as [->|Hj]; [by intros [= <-]|apply H1].
  - intros j. rewrite Ht, Hx, snoc_member, H2.
    destruct (decide (j = i)) as [->|Hj]; [split; [by eexists|by right]|].
    split; [by intros [?|?]|by left].
  - intros x j. rewrite Ht, Hadd, Hi. destruct (decide (x = a)) as [->|Hxa].
    + rewrite snoc_member, (H3 a j). naive_solver.
    + rewrite (H3 x j). naive_solver.
  - intros x j. rewrite Ht, Hadd, Hc. destruct (decide (x = AssetClass.code k)) as [->|Hxk].
    + rewrite snoc_member, (H4 (AssetClass.code k) j). naive_solver.
    + rewrite (H4 x j). naive_solver.
  - rewrite Hx. split; [|split; intros x; rewrite ?Hi, ?Hc].
    + apply snoc_once; [done|]. rewrite H2, Hno. by intros [? ?].
    + destruct (decide (x = a)) as [->|Hxa]; [|apply H6].
      apply snoc_once; [apply H6|]. rewrite H3, Hno. by intros (? & ? & ?).
    + destruct (decide (x = AssetClass.code k)) as [->|Hxk]; [|apply H7].
      apply snoc_once; [apply H7|]. rewrite H4, Hno. by intros (? & ? & ?).
Qed.

Lemma GInv_config st cfg : GInv st -> GInv (sset st AssetRegistryKey.Config cfg).
Proof.
  intros [H1 H2 H3 H4 H5]. split; unfold token, index, of_issuer, of_class in *.
  - intros i t. store_reads. apply H1.
  - intros i. store_reads. apply H2.
  - intros a i. store_reads. apply H3.
  - intros k i. store_reads. apply H4.
  - store_reads. split; [apply H5|]. split; intros x; store_reads; apply H5.
Qed.

Lemma GInv_call k c (s s' : St) : GInv (inst s) -> gexec k c s = Ok (tt, s') -> GInv (inst s').
Proof.
  intros Hinv R. destruct (moves k) as [i|] eqn:Hk; [by eapply GInv_moved; [eapply moves_Ok|]|].
  destruct k; try discriminate; simpl in R.
  - unfold AssetRegistry.initialize in R. minv. by apply GInv_config.
  - unfold update_config in R. minv. by apply GInv_config.
  - apply bind_Ok in R as (t & s1 & R & R2). injection R2 as <-. by eapply GInv_register.
Qed.

Lemma GInv_reach s : greach s -> GInv (inst s).
Proof.
  induction 1 as [|k c s s' _ IH R]; [|by eapply GInv_call].
  split; [done|..].
  - intros i. split; [by intros ?%elem_of_nil|by intros [? ?]].
  - intros a i. split; [by intros ?%elem_of_nil|by intros (? & ? & _)].
  - intros a i. split; [by intros ?%elem_of_nil|by intros (? & ? & _)].
  - split; [constructor|]. split; intros; constructor.
Qed.

(** C29: The indices of the registry agree with its tokens: the index lists each
    token once, and the lists of an issuer and of a class are exactly the
    tokens of that issuer and of that class, each once. *)
Theorem indices_list_the_tokens s : greach s ->
  NoDup (index (inst s)) /\ (forall i, i ∈ index (inst s) <-> is_Some (token (inst s) i)) /\
  (forall a, NoDup (of_issuer (inst s) a) /\
     forall i, i ∈ of_issuer (inst s) a <-> exists t, token (inst s) i = Some t /\ rt_issuer t = a) /\
  (forall k, NoDup (of_class (inst s) k) /\
     forall i, i ∈ of_class (inst s) k <-> exists t, token (inst s) i = Some t /\ rt_asset_class t = k).
Proof.
  intros [H1 H2 H3 H4 [H5 [H6 H7]]]%GInv_reach. split; [done|]. split; [done|]. split; intros x; split; auto.
Qed.

(** A call leaves a token as it is or moves it along an edge of its life
    cycle, in which a matured or rejected token stays and an active one was
    approved; its terms never change, and nothing is ever issued.  A token
    that appears is a draft. *)
Theorem tokens_walk_their_life k c s s' i t' :
  greach s -> gexec k c s = Ok (tt, s') -> token (inst s') i = Some t' ->
  match token (inst s) i with
  | Some t => terms t' = terms t /\
      (t' = t \/ exists a b, status t = Some a /\ status t' = Some b /\ edge a b)
  | None => status t' = Some TokenizationStatus.Draft /\ rt_circulating_supply t' = 0
  end.
Proof.
  intros Hr R Ht'. destruct (GInv_reach s Hr) as [H1 _ _ _ _].
  destruct (moves k) as [j|] eqn:Hk.
  - destruct (moves_Ok k c s s' j Hk R) as (t & u & a & b & Ht & E & Htm & Ha & Hb & Hab).
    rewrite E, (H1 j t Ht), token_set in Ht'. destruct (decide (i = j)) as [->|Hij].
    + injection Ht' as <-. rewrite Ht. split; [done|]. right. eauto.
    + rewrite Ht'. split; [done|by left].
  - destruct k; try discriminate; simpl in R.
    1-2: unfold AssetRegistry.initialize, update_config in R; minv; unfold token in *;
      rewrite sset_ne in Ht' by done; rewrite Ht'; split; [done|by left].
    apply bind_Ok in R as (t & s1 & R & R2). injection R2 as <-.
    apply register_token_Ok in R as (cfg & E & Hno & _ & _ & Hs & Hc & _ & _).
    rewrite E in Ht'. unfold token in Ht' at 1. rewrite !sset_ne in Ht' by done.
    pose proof (token_set (inst s) (rt_token_id t) t i) as Hset. unfold token in Hset at 1.
    rewrite Ht' in Hset. destruct (decide (i = rt_token_id t)) as [->|Hij].
    + injection Hset as ->. by rewrite Hno.
    + rewrite <- Hset. split; [done|by left].
Qed.

End Tokens.

#[local] Existing Instance sample_crypto.

(** A tower is registered, submitted and approved. *)
Definition g_call (n : Z) (k : gcall) (s : St) : St := post (gexec k) (at_ledger n) s.

Lemma g_call_reach n k s : greach s -> outcome (gexec k) (at_ledger n) s = Ok tt -> greach (g_call n k s).
Proof. intros Hr Ho. eapply greach_call; [exact Hr|]. by apply run_outcome. Qed.

Definition g_tower : St :=
  g_call 100 (GRegister alice [1] [84] AssetClass.RealEstate ComplianceFramework.SEC 1000 [])
    (g_call 99 (GInit default_config) empty_state).
Definition tower_id : Hash := match index (inst g_tower) with i :: _ => i | [] => [] end.
Definition g_submitted : St := g_call 101 (GSubmit tower_id alice) g_tower.

Lemma g_tower_reach : greach g_tower.
Proof. do 2 (apply g_call_reach; [|vm_compute; reflexivity]). apply greach_nil. Qed.

Lemma indices_list_the_tokens_witness :
  index (inst g_tower) = [tower_id] /\ exists t, token (inst g_tower) tower_id = Some t /\ rt_issuer t = alice.
Proof.
  assert (index (inst g_tower) = [tower_id]) as E by (vm_compute; reflexivity). split; [exact E|].
  apply (proj2 (proj1 (proj2 (proj2 (indices_list_the_tokens g_tower g_tower_reach))) alice)).
  apply list_elem_of_In. vm_compute. by left.
Defined.

Lemma tokens_walk_their_life_witness :
  exists t, token (inst g_submitted) tower_id = Some t /\ status t = Some TokenizationStatus.PendingApproval /\
    (forall u, token (inst g_tower) tower_id = Some u -> terms t = terms u).
Proof.
  assert (outcome (gexec (GSubmit tower_id alice)) (at_ledger 101) g_tower = Ok tt) as R%run_outcome
    by (vm_compute; reflexivity).
  destruct (token (inst g_submitted) tower_id) as [t|] eqn:E; [|vm_compute in E; discriminate E].
  exists t. split; [reflexivity|]. split; [vm_compute in E; by injection E as <-|].
  intros u Hu. pose proof (tokens_walk_their_life _ _ _ _ tower_id t g_tower_reach R E) as H.
  rewrite Hu in H. apply H.
Defined.

End Registry.

(** ** Valuations *)

Module Values.
Import RwaTypes ValuationEngine.

Section Submissions.
Context `{C : Crypto}.

Inductive vcall : Type :=
  | VAuthorize (a : Address)
  | VRevoke (a : Address)
  | VSubmit (t : RwaToken) (a : Address) (value : Z) (method : Bytes) (date : Z) (doc : Hash) (conf : Z)
      (indep : bool).

Definition vexec (k : vcall) : M unit :=
  match k with
  | VAuthorize a => authorize_oracle a
  | VRevoke a => revoke_oracle a
  | VSubmit t a v m d h f b => do* submit_valuation t a v m d h f b in ret tt
  end.

Inductive vreach : St -> Prop :=
  | vreach_nil : vreach empty_state
  | vreach_call k c s s' : vreach s -> vexec k c s = Ok (tt, s') -> vreach s'.

Definition record (st : store) (r : Hash) : option ValuationRecord := sget st (ValuationKey.Valuation r).
Definition records_of (st : store) (t : Hash) : list Hash :=
  match sget st (ValuationKey.TokenValuations t) with Some l => l | None => [] end.

Lemma submit_valuation_Ok t a v m d h f b c (s s' : St) r u :
  submit_valuation t a v m d h f b c s = Ok ((r, u), s') ->
  exists i n, inst s' = sset (sset (sset (sset (inst s) (ValuationKey.Valuation i) r)
      (ValuationKey.TokenValuations (rt_token_id t)) (records_of (inst s) (rt_token_id t) ++ [i]))
      (ValuationKey.LatestValuation (rt_token_id t)) i) ValuationKey.ValuationCount n /\
    sget (inst s) (ValuationKey.AuthorizedOracle a) = Some true /\
    va_token_id r = rt_token_id t /\ va_value_usd_cents r = v /\ va_appraiser r = a /\ v <> 0 /\
    va_confidence_score r <= 100 /\ u = valued t v d.
Proof.
  unfold submit_valuation, is_authorized_oracle, compute_valuation_id, ValuationEngine.fail_with.
  intros R. minv. zcase. simplify_eq.
  eexists _, _. split; [reflexivity|]. split.
  { match goal with B : _ = true |- _ => clear - B; revert B end.
    match goal with |- _ -> sget ?st ?k = _ => destruct (sget st k) as [[|]|] end; done. }
  done.
Qed.

Lemma latest_run t i r c (s : St) :
  sget (inst s) (ValuationKey.LatestValuation t) = Some i -> record (inst s) i = Some r ->
  latest_valuation t c s = Ok (r, s).
Proof.
  intros H1 H2. assert (iget (ValuationKey.LatestValuation t) c s = Ok (Some i, s)) as E1 by (unfold iget; by rewrite H1).
  assert (iget (ValuationKey.Valuation i) c s = Ok (Some r, s)) as E2.
  { unfold iget. unfold record in H2. by rewrite H2. }
  unfold latest_valuation, get_valuation. rewrite (bind_run _ _ _ _ _ _ E1).
  rewrite (bind_run _ _ _ _ i s) by reflexivity. by rewrite (bind_run _ _ _ _ _ _ E2).
Qed.

(** A valuation that is accepted is the latest one of its token, for the price
    of the token too; the appraiser was authorized. *)
Theorem latest_valuations_come_back t a v m d h f b c c' s s' r u :
  submit_valuation t a v m d h f b c s = Ok ((r, u), s') ->
  latest_valuation (rt_token_id t) c' s' = Ok (r, s') /\ va_value_usd_cents r = v /\ va_appraiser r = a /\
  rt_latest_valuation_usd_cents u = v /\ sget (inst s) (ValuationKey.AuthorizedOracle a) = Some true /\
  (rt_total_supply t <> 0 -> price_per_token_usd_cents u = v / rt_total_supply t).
Proof.
  intros (i & n & E & Ha & Ht & Hv & Hap & Hv0 & _ & Hu)%submit_valuation_Ok.
  split; [|split; [done|]; split; [done|]; split; [by subst u|]; split; [done|]].
  - apply (latest_run _ i); unfold record; rewrite E; by store_reads.
  - intros Hs. unfold price_per_token_usd_cents. subst u. simpl.
    destruct (Z.eqb_spec (rt_total_supply t) 0); [done|]. by destruct (Z.eqb_spec v 0).
Qed.

(** Every valuation of a token that is listed is there. *)
Definition listed_there (st : store) : Prop :=
  forall t r, r ∈ records_of st t -> is_Some (record st r).

Lemma records_kept st st' : (forall t, records_of st' t = records_of st t) ->
  (forall r, is_Some (record st r) -> is_Some (record st' r)) -> listed_there st -> listed_there st'.
Proof. intros H1 H2 H t r. rewrite H1. intros Hr. eapply H2, H, Hr. Qed.

Lemma listed_reach s : vreach s -> listed_there (inst s).
Proof.
  induction 1 as [|k c s s' _ IH R]; [by intros t r ?%elem_of_nil|]. destruct k; simpl in R.
  - unfold authorize_oracle in R. minv.
    by eapply records_kept; [..|exact IH]; intros x; unfold records_of, record; store_reads.
  - unfold revoke_oracle in R. minv.
    by eapply records_kept; [..|exact IH]; intros x; unfold records_of, record; store_reads.
  - apply bind_Ok in R as ([r u] & s1 & R & R2). injection R2 as <-.
    apply submit_valuation_Ok in R as (i & n & -> & _). intros x y. unfold records_of at 1, record. store_reads.
    destruct (decide (x = rt_token_id t)) as [->|Hx]; store_reads.
    + intros [Hy|Hy%list_elem_of_singleton]%elem_of_app; [|subst y; by store_reads].
      destruct (decide (y = i)) as [->|Hyi]; store_reads; [done|by apply (IH (rt_token_id t))].
    + intros Hy. destruct (decide (y = i)) as [->|Hyi]; store_reads; [done|by apply (IH x)].
Qed.

(** The values of the listed records that are there, added up. *)
Definition value_in (st : store) (r : Hash) : Z :=
  match record st r with Some v => va_value_usd_cents v | None => 0 end.

Lemma sum_run l c s : forall z, 0 <= z -> (forall r, r ∈ l -> 0 <= value_in (inst s) r <= u64_max) ->
  z + u64_max * Z.of_nat (length l) <= u128_max ->
  fold_m average_step z l c s = Ok (z + total_of (value_in (inst s)) l, s).
Proof.
  unfold u64_max. induction l as [|r l IH]; intros z Hz Hl Hb; simpl; [by rewrite Z.add_0_r|].
  assert (0 <= value_in (inst s) r <= u64_max) as Hr by (apply Hl; by left).
  unfold u64_max in Hr. cbn [length] in Hb. rewrite Nat2Z.inj_succ in Hb.
  rewrite (bind_run _ _ _ _ (z + value_in (inst s) r) s).
  - rewrite IH; [by rewrite Z.add_assoc|lia|intros y Hy; apply Hl; by right|lia].
  - unfold average_step, bind, iget, value_in, record in *. simpl.
    destruct (sget (inst s) (ValuationKey.Valuation r)) as [w|]; simpl in *; [|by rewrite Z.add_0_r].
    unfold lift, u128_chk, within. by rewrite (proj2 (Z.leb_le 0 _)), (proj2 (Z.leb_le _ u128_max)) by lia.
Qed.

(** The average of the valuations of a token lies between the smallest and the
    largest of them; it is always there for fewer than [2^63] of them. *)
Theorem averages_lie_between t lo hi c s :
  vreach s -> records_of (inst s) t <> [] -> Z.of_nat (length (records_of (inst s) t)) < 2 ^ 63 ->
  0 <= lo -> hi <= u64_max ->
  (forall r v, r ∈ records_of (inst s) t -> record (inst s) r = Some v -> lo <= va_value_usd_cents v <= hi) ->
  exists a, average_valuation t c s = Ok (a, s) /\ lo <= a <= hi.
Proof.
  intros Hr Hne Hlen Hlo Hhi Hb. pose proof (listed_reach s Hr) as Hl.
  set (l := records_of (inst s) t) in *. set (n := Z.of_nat (length l)) in *.
  assert (0 < n) as Hn by (unfold n; destruct l; [done|simpl; lia]).
  assert (forall r, r ∈ l -> lo <= value_in (inst s) r <= hi) as Hv.
  { intros r Hin. unfold value_in. destruct (Hl t r Hin) as [v Ev]. rewrite Ev. by apply (Hb r). }
  assert (lo * n <= total_of (value_in (inst s)) l <= hi * n) as [H1 H2].
  { clear -Hv. unfold n. clear n. induction l as [|r l IH]; simpl; [lia|].
    rewrite Nat2Z.inj_succ. destruct IH as [? ?]; [intros; apply Hv; by right|].
    assert (lo <= value_in (inst s) r <= hi) by (apply Hv; by left). lia. }
  exists (total_of (value_in (inst s)) l / n).
  assert (lo <= total_of (value_in (inst s)) l / n <= hi) as Ha.
  { split; [apply Z.div_le_lower_bound; lia|apply Z.div_le_upper_bound; lia]. }
  split; [|done]. unfold average_valuation, valuation_count_for_token, list_valuations.
  unfold bind at 1, iget_or. fold l.
  change (match sget (inst s) (ValuationKey.TokenValuations t) with Some v => v | None => [] end) with l.
  rewrite bool_decide_eq_false_2 by done.
  rewrite (bind_run _ _ _ _ _ _ (sum_run l c s 0 ltac:(lia) ltac:(intros r Hin; apply Hv in Hin; lia)
    ltac:(unfold u64_max, u128_max; fold n; lia))).
  unfold bind, ret.
  change (match sget (inst s) (ValuationKey.TokenValuations t) with Some v => v | None => [] end) with l.
  fold n. destruct (Z.eqb_spec n 0); [lia|]. rewrite Z.add_0_l, Z.mod_small; [done|].
  unfold u64_max in Hhi. lia.
Qed.

End Submissions.

#[local] Existing Instance sample_crypto.

(** The tower is valued twice by an authorized appraiser. *)
Definition v_call (n : Z) (k : vcall) (s : St) : St := post (vexec k) (at_ledger n) s.

Lemma v_call_reach n k s : vreach s -> outcome (vexec k) (at_ledger n) s = Ok tt -> vreach (v_call n k s).
Proof. intros Hr Ho. eapply vreach_call; [exact Hr|]. by apply run_outcome. Qed.

Definition v_token : RwaToken :=
  new_token [7] [1] [84] AssetClass.RealEstate alice ComplianceFramework.SEC 1000 [] 500 zero32.
Definition v_first : St :=
  v_call 101 (VSubmit v_token owner 500000 [65] 505 zero32 90 true) (v_call 100 (VAuthorize owner) empty_state).
Definition v_second : St := v_call 102 (VSubmit v_token owner 700000 [65] 510 zero32 80 true) v_first.

Lemma v_second_reach : vreach v_second.
Proof. do 3 (apply v_call_reach; [|vm_compute; reflexivity]). apply vreach_nil. Qed.

Lemma latest_valuations_come_back_witness :
  exists r u, outcome (submit_valuation v_token owner 700000 [65] 510 zero32 80 true) (at_ledger 102) v_first = Ok (r, u) /\
    latest_valuation [7] (at_ledger 110) v_second = Ok (r, v_second) /\ price_per_token_usd_cents u = 700.
Proof.
  destruct (outcome (submit_valuation v_token owner 700000 [65] 510 zero32 80 true) (at_ledger 102) v_first)
    as [[r u]|] eqn:R; [|vm_compute in R; discriminate R].
  exists r, u. split; [reflexivity|].
  destruct (latest_valuations_come_back v_token owner 700000 [65] 510 zero32 80 true _ (at_ledger 110) _ _ r u
    (run_outcome _ _ _ _ R)) as (H1 & _ & _ & _ & _ & H2).
  split; [exact H1|]. rewrite H2 by done. reflexivity.
Defined.

Lemma averages_lie_between_witness :
  exists a, average_valuation [7] (at_ledger 110) v_second = Ok (a, v_second) /\ 500000 <= a <= 700000.
Proof.
  apply (averages_lie_between [7] 500000 700000 (at_ledger 110) v_second v_second_reach).
  - vm_compute. discriminate.
  - vm_compute. reflexivity.
  - discriminate.
  - discriminate.
  - intros r v Hr Hv. apply list_elem_of_In in Hr. vm_compute in Hr.
    destruct Hr as [<-|[<-|[]]]; vm_compute in Hv; injection Hv as <-; split; discriminate.
Defined.

End Values.

(** ** Compliance *)

Module Checks.
Import RwaTypes ComplianceEngine.

Section Investors.
Context `{C : Crypto} `{X : AddressXdr}.

Inductive kcall : Type :=
  | KRegister (a : Address) (t : KycTier) (aml acc : bool) (j : Bytes) (expiry : Z) (notes : Bytes)
  | KUpdate (a : Address) (t : KycTier) (aml : bool) (expiry : Z)
  | KRestrict (a : Address) (reason : Bytes)
  | KUnrestrict (a : Address)
  | KCheck (subject : Bytes) (k r : Symbol) (score : Z) (by_ : Address) (finding : Bytes) (refresh : bool).

Definition kexec (k : kcall) : M unit :=
  match k with
  | KRegister a t m c j e n => do* register_investor a t m c j e n in ret tt
  | KUpdate a t m e => do* update_investor_kyc a t m e in ret tt
  | KRestrict a r => restrict_investor a r
  | KUnrestrict a => unrestrict_investor a
  | KCheck s k r z b f q => do* record_compliance_check s k r z b f q in ret tt
  end.

Definition profile (st : store) (a : Address) : option InvestorProfile :=
  sget st (ComplianceKey.InvestorProfile a).

(** The conditions of a transfer, between the profiles of its parties. *)
Definition passes (st : TokenizationStatus) (pf pt : InvestorProfile) (accr aml : bool) (now : Z) : bool :=
  allows_transfer st && is_kyc_valid pf now && is_kyc_valid pt now &&
  negb (aml && (negb (ip_aml_cleared pf) || negb (ip_aml_cleared pt))) &&
  negb (accr && (negb (ip_is_accredited pf) || negb (ip_is_accredited pt))).

Lemma validate_run tok from to accr aml c (s s' : St) u :
  validate_transfer tok from to accr aml c s = Ok (u, s') <->
  s' = s /\ exists st pf pt, status tok = Some st /\ profile (inst s) from = Some pf /\
    profile (inst s) to = Some pt /\ passes st pf pt accr aml (cx_timestamp c) = true.
Proof.
  destruct u. unfold validate_transfer, get_investor, fail_with, profile, status, passes.
  unfold bind, iget, reject_if, unwrap_or_raise, ledger_timestamp, ret, raise.
  destruct (status_from_u8 (rt_status tok)) as [st|]; [|split; [done|by intros (_ & ? & ? & ? & ? & _)]].
  simpl. destruct (allows_transfer st) eqn:Ea; simpl.
  2:{ split; [intros R; discriminate R|]. intros (_ & st' & ? & ? & [= <-] & _ & _ & H). by rewrite Ea in H. }
  destruct (sget (inst s) (ComplianceKey.InvestorProfile from)) as [pf|];
    [|split; [done|by intros (_ & ? & ? & ? & _ & ? & _)]].
  simpl. destruct (sget (inst s) (ComplianceKey.InvestorProfile to)) as [pt|];
    [|split; [done|by intros (_ & ? & ? & ? & _ & _ & ? & _)]].
  simpl. split.
  - intros R. destruct (is_kyc_valid pf _) eqn:E1, (is_kyc_valid pt _) eqn:E2; try discriminate R. simpl in R.
    destruct (aml && _) eqn:E3; [discriminate R|]. simpl in R.
    destruct (accr && _) eqn:E4; [discriminate R|]. injection R as <-. split; [done|].
    exists st, pf, pt. do 3 (split; [done|]). by rewrite Ea, E1, E2, E3, E4.
  - intros (-> & st' & pf' & pt' & [= <-] & [= <-] & [= <-] & H).
    rewrite !andb_true_iff, !negb_true_iff in H. destruct H as ((((_ & E1) & E2) & E3) & E4). by rewrite E1, E2, E3, E4.
Qed.

(** What a valid KYC is. *)
Lemma kyc_valid_iff p now : is_kyc_valid p now = true <-> 1 <= ip_kyc_tier p <= 3 /\
  (ip_kyc_expiry p = 0 \/ now < ip_kyc_expiry p) /\ ip_is_restricted p = false.
Proof.
  unfold is_kyc_valid. rewrite !andb_true_iff, orb_true_iff, negb_true_iff, Z.eqb_eq, Z.ltb_lt.
  assert (satisfies (match tier_from_u8 (ip_kyc_tier p) with Some t => t | None => KycTier.None end)
    minimum_for_transfer = true <-> 1 <= ip_kyc_tier p <= 3) as ->; [|tauto].
  unfold satisfies, minimum_for_transfer. rewrite Z.leb_le.
  destruct (decide (0 <= ip_kyc_tier p <= 3)) as [Hr|Hr].
  - assert (ip_kyc_tier p = 0 \/ ip_kyc_tier p = 1 \/ ip_kyc_tier p = 2 \/ ip_kyc_tier p = 3) as Hc by lia.
    destruct Hc as [Hc|[Hc|[Hc|Hc]]]; rewrite Hc; simpl; lia.
  - assert (tier_from_u8 (ip_kyc_tier p) = None) as ->; [|simpl; lia].
    destruct (ip_kyc_tier p) as [|q|q]; [lia| |done]. do 2 (destruct q as [q|q|]; try done; try lia).
Qed.

(** A transfer passes exactly when the status of the token allows transfers,
    both parties are known with a valid KYC and not restricted, and the
    clearances that are enforced are there on both sides. *)
Theorem transfers_pass_when_compliant tok from to accr aml c s :
  validate_transfer tok from to accr aml c s = Ok (tt, s) <->
  exists st pf pt, status tok = Some st /\ (st = TokenizationStatus.Active \/ st = TokenizationStatus.Redeeming) /\
    profile (inst s) from = Some pf /\ profile (inst s) to = Some pt /\
    (forall p, p = pf \/ p = pt ->
       (1 <= ip_kyc_tier p <= 3 /\ (ip_kyc_expiry p = 0 \/ cx_timestamp c < ip_kyc_expiry p) /\
        ip_is_restricted p = false) /\ (aml = true -> ip_aml_cleared p = true) /\
       (accr = true -> ip_is_accredited p = true)).
Proof.
  assert (forall st, allows_transfer st = true <->
    st = TokenizationStatus.Active \/ st = TokenizationStatus.Redeeming) as Hst.
  { intros []; simpl; naive_solver. }
  assert (forall b x y, negb (b && (negb x || negb y)) = true <-> (b = true -> x = true) /\ (b = true -> y = true)) as Hb.
  { intros [] [] []; naive_solver. }
  rewrite validate_run. unfold passes. setoid_rewrite <- kyc_valid_iff.
  repeat setoid_rewrite andb_true_iff. repeat setoid_rewrite Hb. setoid_rewrite Hst. split.
  - intros (_ & st & pf & pt & H1 & H2 & H3 & H). exists st, pf, pt. split; [done|]. split; [tauto|].
    split; [done|]. split; [done|]. intros p [->| ->]; tauto.
  - intros (st & pf & pt & H1 & H4 & H2 & H3 & H). split; [done|]. exists st, pf, pt. do 3 (split; [done|]).
    pose proof (H pf (or_introl eq_refl)). pose proof (H pt (or_intror eq_refl)). tauto.
Qed.

(** Calls other than the one that lifts the restriction of [x]. *)
Definition keeps_restricted (x : Address) (s s' : St) : Prop :=
  exists k c, k <> KUnrestrict x /\ kexec k c s = Ok (tt, s').

Definition restricted_at (x : Address) (st : store) : Prop :=
  exists p, profile st x = Some p /\ ip_is_restricted p = true.

Lemma restricted_set x a p st :
  (a = x -> ip_is_restricted p = true) -> restricted_at x st ->
  restricted_at x (sset st (ComplianceKey.InvestorProfile a) p).
Proof.
  intros Hp (q & Hq & Hr). unfold restricted_at, profile.
  destruct (decide (a = x)) as [->|Hax]; [exists p|exists q]; store_reads; auto.
Qed.

Definition profile_key (k : ComplianceKey) : bool :=
  match k with ComplianceKey.InvestorProfile _ => true | _ => false end.

Lemma restricted_kept x st st' :
  (forall k, profile_key k = true -> sget st' k = sget st k) -> restricted_at x st -> restricted_at x st'.
Proof.
  intros K (q & Hq & Hr). exists q. split; [|done]. unfold profile in *.
  by rewrite <- Hq, (K (ComplianceKey.InvestorProfile x) eq_refl).
Qed.

Lemma restricted_step x s s' : restricted_at x (inst s) -> keeps_restricted x s s' -> restricted_at x (inst s').
Proof.
  intros Hr (k & c & Hk & R). destruct k; simpl in R.
  - apply bind_Ok in R as (z & s1 & R & R2). injection R2 as <-.
    unfold register_investor, compute_profile_id, fail_with in R. minv.
    match goal with |- restricted_at _ (sset ?st _ _) => apply (restricted_kept x st) end.
    { intros k Hk'. rewrite sset_ne; [done|]. intros E; by subst k. }
    apply restricted_set; [|done]. intros ->. destruct Hr as (p & Hp & _). unfold profile in Hp.
    match goal with B : shas _ _ = false |- _ => pose proof (shas_false _ _ B) as Hn end.
    discriminate (eq_trans (eq_sym Hp) Hn).
  - apply bind_Ok in R as (z & s1 & R & R2). injection R2 as <-.
    unfold update_investor_kyc, get_investor in R. minv.
    apply restricted_set; [|done]. intros ->. simpl. destruct Hr as (p & Hp & Hr). unfold profile in Hp. congruence.
  - unfold restrict_investor, get_investor in R. minv.
    match goal with |- restricted_at _ (sset ?st _ _) => apply (restricted_kept x st) end.
    { intros k Hk'. rewrite sset_ne; [done|]. intros E; by subst k. }
    by apply restricted_set.
  - unfold unrestrict_investor, get_investor in R. minv.
    match goal with |- restricted_at _ (sdel ?st _) => apply (restricted_kept x st) end.
    { intros k Hk'. rewrite sdel_ne; [done|]. intros E; by subst k. }
    apply restricted_set; [|done]. intros ->. by destruct Hk.
  - apply bind_Ok in R as (z & s1 & R & R2). injection R2 as <-.
    unfold record_compliance_check, compute_check_id, fail_with in R. minv.
    eapply restricted_kept; [|exact Hr]. intros k' Hk'. rewrite !sset_ne; [done|..]; intros E; by subst k'.
Qed.

(** A restricted investor neither sends nor receives until the restriction is
    lifted, whatever is registered, updated, restricted or checked meanwhile. *)
Theorem restricted_investors_do_not_trade x reason c s s1 s2 tok from to accr aml c' s' :
  restrict_investor x reason c s = Ok (tt, s1) -> rtc (keeps_restricted x) s1 s2 -> from = x \/ to = x ->
  validate_transfer tok from to accr aml c' s2 <> Ok (tt, s').
Proof.
  intros R Hrtc Hx Hv. assert (restricted_at x (inst s2)) as (p & Hp & Hr).
  { apply (rtc_invariant (keeps_restricted x) (fun s => restricted_at x (inst s)) s1); [| |exact Hrtc].
    - unfold restrict_investor, get_investor in R. minv.
      match goal with |- restricted_at _ (sset ?st _ _) => apply (restricted_kept x st) end.
      { intros k Hk'. rewrite sset_ne; [done|]. intros E; by subst k. }
      eexists. unfold profile. store_reads. split; [reflexivity|done].
    - intros a b _ Ha Hab. by eapply restricted_step. }
  apply validate_run in Hv as (_ & st & pf & pt & _ & Hf & Ht & H). unfold passes in H.
  rewrite !andb_true_iff, !kyc_valid_iff in H. destruct H as ((((_ & (_ & _ & H1)) & (_ & _ & H2)) & _) & _).
  destruct Hx as [->| ->]; congruence.
Qed.

(** The id of a check does not depend on its type: of two checks of a subject
    at one time only the second can be read. *)
Theorem checks_of_a_moment_overwrite subject k1 r1 z1 b1 f1 q1 k2 r2 z2 b2 f2 q2 c s s1 s2 x1 x2 :
  record_compliance_check subject k1 r1 z1 b1 f1 q1 c s = Ok (x1, s1) ->
  record_compliance_check subject k2 r2 z2 b2 f2 q2 c s1 = Ok (x2, s2) ->
  cc_check_id x1 = cc_check_id x2 /\ get_check (cc_check_id x1) c s2 = Ok (x2, s2).
Proof.
  unfold record_compliance_check, compute_check_id, fail_with. intros R1 R2. minv.
  split; [done|]. unfold get_check, iget. unfold bind. cbn [inst]. by store_reads.
Qed.

End Investors.

#[local] Existing Instance sample_crypto.

(** Alice and the owner are known; alice is restricted, then updated. *)
Definition k_call (n : Z) (k : kcall) (s : St) : St := post (kexec k) (at_ledger n) s.
Definition k_known : St :=
  k_call 101 (KRegister owner KycTier.Enhanced true true [85] 0 [])
    (k_call 100 (KRegister alice KycTier.Basic true true [85] 5000 []) empty_state).
Definition k_restricted : St := k_call 102 (KRestrict alice [33]) k_known.
Definition k_updated : St := k_call 103 (KUpdate alice KycTier.Institutional true 0) k_restricted.
Definition k_token : RwaToken :=
  AssetRegistry.with_status (new_token [7] [1] [84] AssetClass.RealEstate alice ComplianceFramework.SEC 1000 [] 500 zero32)
    TokenizationStatus.Active 505.

Lemma restricted_investors_do_not_trade_witness :
  validate_transfer k_token alice owner true true (at_ledger 101) k_known = Ok (tt, k_known) /\
  ~ exists s', validate_transfer k_token alice owner true true (at_ledger 104) k_updated = Ok (tt, s').
Proof.
  split; [by vm_compute|]. intros [s' H].
  assert (outcome (restrict_investor alice [33]) (at_ledger 102) k_known = Ok tt) as R%run_outcome
    by (vm_compute; reflexivity).
  assert (outcome (kexec (KUpdate alice KycTier.Institutional true 0)) (at_ledger 103) k_restricted = Ok tt) as R2%run_outcome
    by (vm_compute; reflexivity).
  refine (restricted_investors_do_not_trade alice [33] (at_ledger 102) k_known k_restricted k_updated k_token alice owner
    true true (at_ledger 104) s' R _ (or_introl eq_refl) H).
  apply rtc_once. exists (KUpdate alice KycTier.Institutional true 0), (at_ledger 103). split; [discriminate|exact R2].
Defined.

Definition k_checked : St := k_call 103 (KCheck [1] "AML" "PASS" 10 owner [] false) k_known.

Lemma checks_of_a_moment_overwrite_witness :
  exists x1 x2, outcome (record_compliance_check [1] "AML" "PASS" 10 owner [] false) (at_ledger 103) k_known = Ok x1 /\
    cc_check_type x1 = "AML"%string /\ cc_check_type x2 = "KYC"%string /\
    outcome (get_check (cc_check_id x1)) (at_ledger 103)
      (post (record_compliance_check [1] "KYC" "FAIL" 90 owner [] true) (at_ledger 103) k_checked) = Ok x2.
Proof.
  destruct (outcome (record_compliance_check [1] "AML" "PASS" 10 owner [] false) (at_ledger 103) k_known)
    as [x1|] eqn:R1; [|vm_compute in R1; discriminate R1].
  destruct (outcome (record_compliance_check [1] "KYC" "FAIL" 90 owner [] true) (at_ledger 103) k_checked)
    as [x2|] eqn:R2; [|vm_compute in R2; discriminate R2].
  exists x1, x2. split; [reflexivity|].
  split; [vm_compute in R1; by injection R1 as <-|]. split; [vm_compute in R2; by injection R2 as <-|].
  pose proof (run_outcome _ _ _ _ R1) as R1'.
  assert (post (record_compliance_check [1] "AML" "PASS" 10 owner [] false) (at_ledger 103) k_known = k_checked) as Es
    by reflexivity.
  rewrite Es in R1'.
  exact (outcome_run _ _ _ _ _ (proj2 (checks_of_a_moment_overwrite [1] _ _ _ _ _ _ _ _ _ _ _ _ (at_ledger 103)
    k_known k_checked _ x1 x2 R1' (run_outcome _ _ _ _ R2)))).
Defined.

End Checks.

(** ** Custodians *)

Module Custodians.
Import Custody.

(** Unclassified assets have the code 255, which no mask of 32 bits holds: an
    active custodian cannot be asked about them. *)
Theorem unclassified_assets_abort r :
  supports_asset_class r AssetClass.Other = Err (Panic Overflow) /\
  is_eligible_for r AssetClass.Other =
    if Z.eqb (cr_status r) 2 then Err (Panic Overflow) else Ok false.
Proof. split; [done|]. unfold is_eligible_for. simpl. by destruct (Z.eqb (cr_status r) 2). Qed.

(** A margin call follows the loan-to-value ratio while the ratio fits 32
    bits; the cast that ends its computation drops the rest, so that collateral
    worth a hair of its loan is at ratio zero. *)
Theorem margin_calls_follow_the_ratio r :
  0 < cl_current_value r -> 0 <= cl_pledged_value r -> 0 <= cl_ltv_bps r ->
  cl_pledged_value r * cl_ltv_bps r <= 2 ^ 114 ->
  let ratio := cl_pledged_value r * cl_ltv_bps r / 10000 * 10000 / cl_current_value r in
  (ratio < 2 ^ 32 -> should_trigger_margin_call r = Ok (Z.leb (cl_margin_call_threshold_bps r) ratio)) /\
  (forall k, ratio = k * 2 ^ 32 -> 0 < cl_margin_call_threshold_bps r -> should_trigger_margin_call r = Ok false).
Proof.
  intros Hc Hp Hl Hb ratio.
  assert (effective_ltv_bps r = Ok (as_u32 ratio)) as He.
  { unfold effective_ltv_bps. destruct (Z.eqb_spec (cl_current_value r) 0); [lia|].
    unfold u128_chk, within. rewrite (proj2 (Z.leb_le 0 _)), (proj2 (Z.leb_le _ u128_max)) by (unfold u128_max; lia).
    cbn [andb rbind]. pose proof (Z.mul_div_le (cl_pledged_value r * cl_ltv_bps r) 10000).
    assert (0 <= cl_pledged_value r * cl_ltv_bps r / 10000) by (apply Z.div_pos; lia).
    by rewrite (proj2 (Z.leb_le 0 _)), (proj2 (Z.leb_le _ u128_max)) by (unfold u128_max; lia). }
  unfold should_trigger_margin_call. rewrite He. cbn [rbind]. unfold as_u32. split.
  - intros Hr. rewrite Z.mod_small; [done|]. split; [|done]. apply Z.div_pos; [|done].
    apply Z.mul_nonneg_nonneg; [apply Z.div_pos; lia|lia].
  - intros k -> Ht. rewrite Z.mod_mul by lia. f_equal. apply Z.leb_gt. lia.
Qed.

(** A bar of gold pledged for 2^32 cents that is now worth a dollar. *)
Definition worthless : CollateralRecord :=
  mkCollateralRecord [1] [2] owner alice (CollateralState.code CollateralState.Pledged) (2 ^ 32) 10000 8000 0 0 10000 false.

Lemma margin_calls_follow_the_ratio_witness :
  cl_current_value worthless < cl_pledged_value worthless / 400000 /\
  should_trigger_margin_call worthless = Ok false.
Proof.
  split; [reflexivity|].
  refine (proj2 (margin_calls_follow_the_ratio worthless _ _ _ _) 1 _ _); reflexivity || discriminate.
Defined.

(** The states an instruction has been in, the last one first. *)
Inductive settles : list SettlementState -> SettlementState -> Prop :=
  | settles_start : settles [SettlementState.Initiated] SettlementState.Initiated
  | settles_step l a b : settles l a -> settlement_transition a b = true -> settles (b :: l) b.

(** A settled instruction was confirmed by the counterparty before; it is
    final, like a rejected and a cancelled one, while a failed one starts again. *)
Theorem settlements_are_confirmed_first l a :
  settles l a ->
  (a = SettlementState.Settled ->
     [SettlementState.AwaitingConfirmation; SettlementState.Confirmed; SettlementState.Settling] ⊆ l) /\
  (settlement_terminal a = true <-> forall b, settlement_transition a b = false).
Proof.
  intros H. split.
  - enough (match a with
      | SettlementState.Confirmed => [SettlementState.AwaitingConfirmation; SettlementState.Confirmed] ⊆ l
      | SettlementState.AwaitingConfirmation => [SettlementState.AwaitingConfirmation] ⊆ l
      | SettlementState.Settling | SettlementState.Settled =>
          [SettlementState.AwaitingConfirmation; SettlementState.Confirmed; SettlementState.Settling] ⊆ l
      | _ => True end) as K by (by intros ->).
    induction H as [|l a b H IH Hab]; [done|]. destruct a, b; try discriminate Hab; set_solver.
  - split; [by intros Ht []; destruct a|]. intros Hn. destruct a; try done.
    + by specialize (Hn SettlementState.Cancelled).
    + by specialize (Hn SettlementState.Cancelled).
    + by specialize (Hn SettlementState.Cancelled).
    + by specialize (Hn SettlementState.Settled).
    + by specialize (Hn SettlementState.Initiated).
Qed.

Lemma settlements_are_confirmed_first_witness :
  [SettlementState.AwaitingConfirmation; SettlementState.Confirmed; SettlementState.Settling] ⊆
  [SettlementState.Settled; SettlementState.Settling; SettlementState.Confirmed;
   SettlementState.AwaitingConfirmation; SettlementState.Initiated].
Proof.
  refine (proj1 (settlements_are_confirmed_first _ SettlementState.Settled _) eq_refl).
  apply (settles_step _ SettlementState.Settling); [|reflexivity].
  apply (settles_step _ SettlementState.Confirmed); [|reflexivity].
  apply (settles_step _ SettlementState.AwaitingConfirmation); [|reflexivity].
  apply (settles_step _ SettlementState.Initiated); [exact settles_start|reflexivity].
Defined.

End Custodians.

(** ** Screening *)

Module Screening.
Import KycAml.

(** The confidence of a match is a percentage. *)
Definition sound_match (m : SanctionsMatch) : Prop := 0 <= sm_confidence m <= 100.

Lemma severity_run m : sound_match m -> exists z, severity m = Ok z /\ 0 <= z <= 50.
Proof.
  intros H. unfold severity. assert (40 <= weight (list_of m) <= 50) as Hw by (destruct (list_of m); simpl; lia).
  unfold sound_match in H. unfold u32_chk, within.
  rewrite (proj2 (Z.leb_le 0 _)), (proj2 (Z.leb_le _ u32_max)) by (unfold u32_max; nia). simpl.
  eexists. split; [done|]. split; [apply Z.div_pos; nia|apply Z.div_le_upper_bound; nia].
Qed.

Lemma severities_run ms : Forall sound_match ms -> exists z, severities ms = Ok z /\ 0 <= z.
Proof.
  unfold severities. intros H. cut (forall acc, 0 <= acc -> exists z, try_fold (fun acc m =>
    let? s := severity m in Ok (u32_sat_add acc s)) acc ms = @Ok Empty_set _ z /\ 0 <= z); [intros K; by apply K|].
  induction H as [|m ms Hm H IH]; intros acc Ha; simpl; [eauto|].
  destruct (severity_run m Hm) as (s & -> & Hs). simpl. apply IH. unfold u32_sat_add, u32_max. lia.
Qed.

(** The score of an entity: the parts stay within their caps, the whole is
    their sum capped at 100, so nobody is of unknown risk.  The flags and hits
    an entity collects are multiplied before they are capped: too many of them
    abort the scoring. *)
Theorem scores_are_capped_sums j hits ms flags cfg :
  0 <= hits -> 0 <= flags -> Forall sound_match ms ->
  (5 * hits <= u32_max -> 2 * flags <= u32_max -> exists r, compute j hits ms flags cfg = Ok r /\
     5 <= sr_score r <= 100 /\ sr_aml_rule_score r = Z.min (5 * hits) 30 /\ sr_history_score r = Z.min (2 * flags) 20 /\
     0 <= sr_sanctions_score r <= 50 /\
     sr_score r = Z.min 100 (base_risk_score j + sr_aml_rule_score r + sr_sanctions_score r + sr_history_score r) /\
     sr_risk_level r = RiskLevel.code (from_score (sr_score r)) /\ sr_risk_level r <> 0) /\
  (u32_max < 5 * hits \/ u32_max < 2 * flags -> compute j hits ms flags cfg = Err (Panic Overflow)).
Proof.
  intros Hh Hf Hms. destruct (severities_run ms Hms) as (z & Hz & Hz0).
  assert (5 <= base_risk_score j <= 40) as Hj by (destruct j; simpl; lia).
  unfold compute. rewrite Hz. unfold u32_chk, within.
  rewrite (proj2 (Z.leb_le 0 (hits * 5))), (proj2 (Z.leb_le 0 (flags * 2))) by lia. cbn [andb]. split.
  - intros H1 H2. rewrite (proj2 (Z.leb_le (hits * 5) u32_max)), (proj2 (Z.leb_le (flags * 2) u32_max)) by lia.
    cbn [rbind]. eexists. split; [reflexivity|].
    cbn [sr_score sr_aml_rule_score sr_history_score sr_sanctions_score sr_risk_level].
    unfold u32_sat_add. assert (Z.min (base_risk_score j) 40 = base_risk_score j) as -> by lia.
    set (a := Z.min (hits * 5) 30). set (b := Z.min z 50). set (h := Z.min (flags * 2) 20).
    assert (0 <= a <= 30 /\ 0 <= b <= 50 /\ 0 <= h <= 20) as (Ha & Hb & Hhh) by (unfold a, b, h; lia).
    rewrite !Z.min_l with (m := u32_max) by (unfold u32_max; lia).
    split; [lia|]. split; [unfold a; f_equal; lia|]. split; [unfold h; f_equal; lia|]. split; [lia|].
    split; [lia|]. split; [done|]. unfold from_score.
    destruct (Z.eqb_spec (Z.min (base_risk_score j + a + b + h) 100) 0); [lia|]. by repeat case_match.
  - intros [H|H].
    + by rewrite (proj2 (Z.leb_gt (hits * 5) u32_max)) by lia.
    + destruct (Z.leb (hits * 5) u32_max); [|done]. cbn [rbind].
      by rewrite (proj2 (Z.leb_gt (flags * 2) u32_max)) by lia.
Qed.

Lemma scores_are_capped_sums_witness :
  exists r, compute Jurisdiction.KY 3 [mkSanctionsMatch 0 80 0 [] []] 2 institutional_defaults = Ok r /\
    sr_score r <= 100 /\ sr_risk_level r <> 0.
Proof.
  destruct (scores_are_capped_sums Jurisdiction.KY 3 [mkSanctionsMatch 0 80 0 [] []] 2 institutional_defaults)
    as [H _]; [done|done|by repeat constructor|].
  destruct H as (r & H1 & H2 & _ & _ & _ & _ & _ & H3); [done|done|]. exists r. split; [exact H1|]. split; [apply H2|exact H3].
Defined.

(** An entity found clear is never screened again: no transition leaves that
    state, while one cleared by an officer may be screened again. *)
Theorem clear_entities_are_never_screened_again x :
  rtc (fun a b => screening_transition a b = true) AmlScreeningState.Clear x -> x = AmlScreeningState.Clear.
Proof. intros H. inversion H as [|? y ? Hy]; [done|]. by destruct y. Qed.

Lemma clear_entities_are_never_screened_again_witness :
  rtc (fun a b => screening_transition a b = true) AmlScreeningState.Clear AmlScreeningState.Clear /\
  ~ rtc (fun a b => screening_transition a b = true) AmlScreeningState.Clear AmlScreeningState.Screening.
Proof.
  split; [apply rtc_refl|]. intros H. discriminate (clear_entities_are_never_screened_again _ H).
Defined.

(** Whether a match blocks has two answers: the configured threshold in a
    check, 80 in a screening result. *)
Theorem matches_block_by_two_measures m cfg now :
  sound_match m -> ka_sanctions_block_confidence cfg <> 80 ->
  exists o, evaluate [m] cfg now = Ok o /\
    (must_block o <> is_blocking m <->
     Z.min 80 (ka_sanctions_block_confidence cfg) <= sm_confidence m < Z.max 80 (ka_sanctions_block_confidence cfg)).
Proof.
  intros Hm Hc. destruct (severities_run [m]) as (z & Hz & _); [by constructor|].
  unfold evaluate. rewrite Hz. cbn [rbind]. eexists. split; [reflexivity|].
  unfold must_block, is_blocking. cbn [so_blocked existsb]. rewrite orb_false_r.
  destruct (Z.leb_spec (ka_sanctions_block_confidence cfg) (sm_confidence m)), (Z.leb_spec 80 (sm_confidence m));
    split; intros; try done; try lia; try congruence.
Qed.

Lemma matches_block_by_two_measures_witness :
  exists o, evaluate [mkSanctionsMatch 0 75 0 [] []] institutional_defaults 0 = Ok o /\ must_block o <> false.
Proof.
  destruct (matches_block_by_two_measures (mkSanctionsMatch 0 75 0 [] []) institutional_defaults 0) as (o & H1 & H2);
    [done|discriminate|]. exists o. split; [exact H1|]. apply H2. done.
Defined.

End Screening.

(** ** Token transfers *)

Module Transfers.
Import Tokenization.

(** The tiers by their codes; anything beyond 4 is a revocation. *)
Lemma kyc_code z : 0 <= z -> KycStatus.code (kyc_from_u8 z) = Z.min z 5 /\
  match kyc_from_u8 z with KycStatus.Suspended | KycStatus.Revoked => true | _ => false end = Z.leb 4 z.
Proof.
  intros Hz. destruct (decide (z <= 4)) as [Hl|Hl].
  - assert (z = 0 \/ z = 1 \/ z = 2 \/ z = 3 \/ z = 4) as Hc by lia.
    by destruct Hc as [Hc|[Hc|[Hc|[Hc|Hc]]]]; rewrite Hc.
  - assert (kyc_from_u8 z = KycStatus.Revoked) as ->.
    { destruct z as [|q|q]; [lia| |lia]. do 3 (destruct q as [q|q|]; try done; try lia). }
    rewrite (proj2 (Z.leb_le 4 z)) by lia. split; [simpl; lia|done].
Qed.

Lemma meets_tier h m : 0 <= h -> 0 <= m ->
  meets_minimum_tier (kyc_from_u8 h) (kyc_from_u8 m) = true <-> m <= h <= 3.
Proof.
  intros Hh Hm. unfold meets_minimum_tier.
  destruct (kyc_code h Hh) as [-> ->]. destruct (kyc_code m Hm) as [-> _].
  rewrite andb_true_iff, negb_true_iff, Z.leb_le, Z.leb_gt. lia.
Qed.

Lemma live_iff st : allows_transfer (lifecycle_state st) = true <-> ts_state st = 2.
Proof.
  unfold lifecycle_state. destruct (ts_state st) as [|q|q]; [done| |done].
  do 3 (destruct q as [q|q|]; try done).
Qed.

Lemma shared_iff (l k : list Symbol) :
  existsb (fun j => existsb (String.eqb j) k) l = true <-> exists j, j ∈ l /\ j ∈ k.
Proof.
  rewrite existsb_exists. setoid_rewrite existsb_exists. setoid_rewrite <- list_elem_of_In.
  split; [intros (j & Hj & x & Hx & E%String.eqb_eq); subst x; eauto|].
  intros (j & Hj & Hk). exists j. split; [done|]. exists j. split; [done|]. apply String.eqb_refl.
Qed.

(** A transfer is allowed exactly when the token is live, the sender has the
    amount, nobody is blocked, and the restriction of the token is met: the
    receiver is listed, a jurisdiction is shared, or both sides have a tier of
    at least the minimum. *)
Theorem transfers_are_allowed_when amount st d balance s r :
  0 <= hr_kyc_status s -> 0 <= hr_kyc_status r -> 0 <= td_min_kyc_tier d ->
  (validate amount st d balance s r = TransferValidation.Allowed <->
   amount <> 0 /\ ts_state st = 2 /\ amount <= balance /\ hr_blocked s = false /\ hr_blocked r = false /\
   match td_transfer_restriction d with
   | 1 => hr_allowlisted r = true
   | 2 => False
   | 3 => exists j, j ∈ hr_jurisdictions r /\ j ∈ hr_jurisdictions s
   | 4 => td_min_kyc_tier d <= hr_kyc_status s <= 3 /\ td_min_kyc_tier d <= hr_kyc_status r <= 3
   | _ => True
   end).
Proof.
  intros Hs Hr Hd. unfold validate. pose proof (live_iff st) as Hlive.
  destruct (Z.eqb_spec amount 0); [split; [done|tauto]|].
  destruct (allows_transfer (lifecycle_state st)).
  2:{ split; [done|]. intros (_ & H2 & _). by apply Hlive in H2. }
  cbn [negb]. destruct (Z.ltb_spec balance amount); [split; [done|lia]|].
  destruct (hr_blocked s); [by split; [|intros (_ & _ & _ & ? & _)]|].
  destruct (hr_blocked r) eqn:Eb; [by split; [|intros (_ & _ & _ & _ & ? & _)]|].
  assert (ts_state st = 2) as Hl by (by apply Hlive).
  assert (forall P : Prop, (amount <> 0 /\ ts_state st = 2 /\ amount <= balance /\ false = false /\ false = false /\ P) <-> P)
    as HP by tauto.
  rewrite HP. clear HP Hlive.
  pose proof (meets_tier (hr_kyc_status s) (td_min_kyc_tier d) Hs Hd) as Ht1.
  pose proof (meets_tier (hr_kyc_status r) (td_min_kyc_tier d) Hr Hd) as Ht2.
  assert (can_receive r TransferRestriction.JurisdictionGated (hr_jurisdictions s) = true <->
    exists j, j ∈ hr_jurisdictions r /\ j ∈ hr_jurisdictions s) as Hj.
  { unfold can_receive. rewrite Eb. apply shared_iff. }
  destruct (td_transfer_restriction d) as [|q|q]; [done| |done].
  destruct q as [[q|q|]|[q|[q|q|]|]|]; cbn -[meets_minimum_tier kyc_from_u8 can_receive]; try done.
  - destruct (can_receive _ _ _); (split; intros Hx; try done); [by apply Hj|by apply Hj in Hx].
  - destruct (meets_minimum_tier (kyc_from_u8 (hr_kyc_status s)) _); cbn [negb];
      [|split; [done|]; intros [H1 _]; by apply Ht1 in H1].
    destruct (meets_minimum_tier (kyc_from_u8 (hr_kyc_status r)) _); cbn [negb];
      [|split; [done|]; intros [_ H1]; by apply Ht2 in H1].
    split; [intros _|done]. split; [by apply Ht1|by apply Ht2].
  - by destruct (hr_allowlisted r).
Qed.

Definition holder (kyc : Z) (js : list Symbol) (listed blocked : bool) : HolderRecord :=
  mkHolderRecord alice 100 kyc js listed blocked 0 None.
Definition bond (restriction tier : Z) : TokenDefinition :=
  mkTokenDefinition [1] "BOND" [66] 2 zero32 0 6 owner 0 restriction tier.
Definition live : TokenState := mkTokenState 2 100 100 0 2 0 None.

Lemma transfers_are_allowed_when_witness :
  validate 10 live (bond 3 0) 100 (holder 1 ["US"%string] false false) (holder 1 ["EU"; "US"]%string false false)
  = TransferValidation.Allowed.
Proof.
  apply transfers_are_allowed_when; [discriminate|discriminate|discriminate|].
  split; [discriminate|]. split; [reflexivity|]. split; [discriminate|]. split; [reflexivity|]. split; [reflexivity|].
  exists "US"%string. split; [right; left|left].
Defined.

(** Where the minimum tier is none, holders who never were verified trade a
    token that requires KYC, which the registry entry of the receiver refuses. *)
Theorem unverified_holders_trade amount st d balance s r :
  td_transfer_restriction d = 4 -> td_min_kyc_tier d = 0 -> hr_kyc_status s = 0 -> hr_kyc_status r = 0 ->
  amount <> 0 -> ts_state st = 2 -> amount <= balance -> hr_blocked s = false -> hr_blocked r = false ->
  validate amount st d balance s r = TransferValidation.Allowed /\
  can_receive r TransferRestriction.KycRequired (hr_jurisdictions s) = false.
Proof.
  intros Hd Hm Hs Hr Ha Hst Hb Hbs Hbr. split.
  - unfold validate. apply live_iff in Hst. rewrite Hst, Hbs, Hbr, Hd, Hm, Hs, Hr. cbn [negb].
    destruct (Z.eqb_spec amount 0); [done|]. by rewrite (proj2 (Z.ltb_ge _ _)).
  - unfold can_receive. by rewrite Hbr, Hr.
Qed.

Lemma unverified_holders_trade_witness :
  validate 10 live (bond 4 0) 100 (holder 0 [] false false) (holder 0 [] false false) = TransferValidation.Allowed.
Proof.
  refine (proj1 (unverified_holders_trade 10 live (bond 4 0) 100 _ _ _ _ _ _ _ _ _ _ _)); reflexivity || discriminate.
Defined.

End Transfers.

(** ** Alerts *)

Module Alerts.
Import Monitoring.

(** With the default thresholds every amount is either large, or small enough
    to count as structuring once five were seen, but one: 999,999 cents. *)
Theorem one_amount_escapes amount n :
  check_large_transfer amount default_thresholds = false ->
  (5 <= n -> check_structuring n amount default_thresholds = false -> amount = 999999) /\
  (amount = 999999 -> check_structuring n amount default_thresholds = false).
Proof.
  unfold check_large_transfer, check_structuring, default_thresholds. simpl. intros Hl%Z.leb_gt. split.
  - intros Hn H. rewrite (proj2 (Z.leb_le 5 n) Hn), andb_true_r in H. apply Z.ltb_ge in H. lia.
  - by intros ->.
Qed.

Lemma one_amount_escapes_witness : check_structuring 100 999999 default_thresholds = false.
Proof. refine (proj2 (one_amount_escapes 999999 100 _) _); reflexivity. Defined.

(** The reports of a filing, the first state last. *)
Inductive files : list ReportStatus -> ReportStatus -> Prop :=
  | files_draft : files [ReportStatus.Draft] ReportStatus.Draft
  | files_step l a b : files l a -> transition a b = Ok b -> files (b :: l) b.

(** A filing that reached a regulator was reviewed and approved, and was not
    withdrawn; only an acknowledged and a withdrawn one are final. *)
Theorem filings_are_approved_first l a :
  files l a ->
  (a = ReportStatus.Filed \/ a = ReportStatus.Acknowledged ->
     [ReportStatus.InReview; ReportStatus.Approved; ReportStatus.Filed] ⊆ l /\ ReportStatus.Withdrawn ∉ l) /\
  (report_terminal a = true <-> forall b, transition a b = Err (Raise "INVALID_TRANSITION"%string)).
Proof.
  intros H. split.
  - enough (match a with
      | ReportStatus.Approved => [ReportStatus.InReview; ReportStatus.Approved] ⊆ l /\ ReportStatus.Withdrawn ∉ l
      | ReportStatus.InReview => [ReportStatus.InReview] ⊆ l /\ ReportStatus.Withdrawn ∉ l
      | ReportStatus.Filed | ReportStatus.Acknowledged =>
          [ReportStatus.InReview; ReportStatus.Approved; ReportStatus.Filed] ⊆ l /\ ReportStatus.Withdrawn ∉ l
      | ReportStatus.Withdrawn => True
      | _ => ReportStatus.Withdrawn ∉ l end) as K by (intros [->| ->]; exact K).
    induction H as [|l a b H IH Hab]; [set_solver|].
    destruct a, b; try discriminate Hab; set_solver.
  - split; [by intros Ht []; destruct a|]. intros Hn. destruct a; try done.
    + specialize (Hn ReportStatus.InReview). discriminate Hn.
    + specialize (Hn ReportStatus.Draft). discriminate Hn.
    + specialize (Hn ReportStatus.Filed). discriminate Hn.
    + specialize (Hn ReportStatus.Rejected). discriminate Hn.
    + specialize (Hn ReportStatus.Draft). discriminate Hn.
Qed.

Lemma filings_are_approved_first_witness :
  ReportStatus.Withdrawn ∉ [ReportStatus.Filed; ReportStatus.Approved; ReportStatus.InReview; ReportStatus.Draft].
Proof.
  refine (proj2 (proj1 (filings_are_approved_first _ ReportStatus.Filed _) (or_introl eq_refl))).
  apply (files_step _ ReportStatus.Approved); [|reflexivity].
  apply (files_step _ ReportStatus.InReview); [|reflexivity].
  apply (files_step _ ReportStatus.Draft); [exact files_draft|reflexivity].
Defined.

End Alerts.
