(* ===== verification/SearchIndex.v ===== *)
(** * Keyword search

    The inverted index of src/inverted_index.rs: the extraction of keywords from
    metadata, the buckets of packed event indices in instance storage, their
    maintenance, search, and the older buckets whose keys are bytes.  The
    theorems: extraction is what its comment lists, but for words longer
    than the buffer ([Words]); a bucket is a list,
    a search over an index built from a log answers as a scan of the log, and
    removing an event takes it out of every answer ([Searching]).

    A bucket of the host has fewer than [2^32] bytes, so the arithmetic on
    positions inside one does not overflow. *)

From stdpp Require Import relations.
From S2P Require Import Prelude Contract Fallible StorageLemmas Codec Sample.

(** ** The index *)

Module Index.

(** [DEFAULT_MIN_KEYWORD_LEN], src/inverted_index.rs:67-67 *)
Definition DEFAULT_MIN_KEYWORD_LEN : Z := 3.
(** [DEFAULT_MAX_KEYWORD_LEN], src/inverted_index.rs:69-69 *)
Definition DEFAULT_MAX_KEYWORD_LEN : Z := 32.
(** [DEFAULT_MAX_KEYWORDS_PER_EVENT], src/inverted_index.rs:71-71 *)
Definition DEFAULT_MAX_KEYWORDS_PER_EVENT : Z := 20.
(** [DEFAULT_BUCKET_MAX_ENTRIES], src/inverted_index.rs:73-73 *)
Definition DEFAULT_BUCKET_MAX_ENTRIES : Z := 10000.
(** [MAX_REINDEX_BATCH], src/inverted_index.rs:75-75 *)
Definition MAX_REINDEX_BATCH : Z := 50.
(** [MAX_SEARCH_PAGE_SIZE], src/inverted_index.rs:77-77 *)
Definition MAX_SEARCH_PAGE_SIZE : Z := 100.

(** [STOP_WORDS], src/inverted_index.rs:80-83 *)
Definition STOP_WORDS : list Bytes :=
  str_bytes <$> ["the"; "a"; "an"; "in"; "of"; "at"; "to"; "is"; "it"; "and"; "or"; "for"; "on"; "by";
                 "as"; "be"; "no"]%string.

Module IndexKey.
(** [IndexKey], src/inverted_index.rs:89-102 *)
Inductive IndexKey : Set :=
  | IndexConfig
  | IndexTypeEnabled (a0 : Symbol)
  | KeywordIndex (a0 : Hash)
  | KeywordCount (a0 : Hash)
  | EventKeywords (a0 : Z)
  | IndexStats.
#[global] Instance IndexKey_eq_dec : EqDecision IndexKey.
Proof. solve_decision. Defined.
End IndexKey.
Abbreviation IndexKey := IndexKey.IndexKey.

(** [IndexConfig], src/inverted_index.rs:109-120 *)
Record IndexConfig := mkIndexConfig {
  ic_indexing_enabled : bool;
  ic_min_keyword_len : Z;
  ic_max_keyword_len : Z;
  ic_max_keywords_per_event : Z;
  ic_bucket_max_entries : Z }.

(** [IndexStats], src/inverted_index.rs:137-146 *)
Record IndexStats := mkIndexStats {
  xs_total_indexed_events : Z;
  xs_total_index_entries : Z;
  xs_total_unique_keywords : Z;
  xs_last_reindex_event : Z }.
Definition set_xs_total_indexed_events (v : Z) (r : IndexStats) : IndexStats :=
  mkIndexStats v (xs_total_index_entries r) (xs_total_unique_keywords r)
  (xs_last_reindex_event r).
Definition set_xs_total_index_entries (v : Z) (r : IndexStats) : IndexStats :=
  mkIndexStats (xs_total_indexed_events r) v (xs_total_unique_keywords r)
  (xs_last_reindex_event r).
Definition set_xs_total_unique_keywords (v : Z) (r : IndexStats) : IndexStats :=
  mkIndexStats (xs_total_indexed_events r) (xs_total_index_entries r) v
  (xs_last_reindex_event r).
Definition set_xs_last_reindex_event (v : Z) (r : IndexStats) : IndexStats :=
  mkIndexStats (xs_total_indexed_events r) (xs_total_index_entries r)
  (xs_total_unique_keywords r) v.

(** [KeywordSearchResult], src/inverted_index.rs:151-156 *)
Record KeywordSearchResult := mkKeywordSearchResult {
  ks_event_index : Z;
  ks_keyword_hash : Hash }.

Module LegacyIndexKey.
(** [LegacyIndexKey], src/inverted_index.rs:704-710 *)
Inductive LegacyIndexKey : Set :=
  | MetadataFieldIndex (a0 : Symbol) (a1 : Hash)
  | CategoryTypeIndex (a0 : Symbol) (a1 : Symbol)
  | SubmitterTypeIndex (a0 : Address) (a1 : Symbol)
  | SubEventTypeIndex (a0 : Symbol)
  | IndexedFieldCount.
#[global] Instance LegacyIndexKey_eq_dec : EqDecision LegacyIndexKey.
Proof. solve_decision. Defined.
End LegacyIndexKey.
Abbreviation LegacyIndexKey := LegacyIndexKey.LegacyIndexKey.

(** The keys of the instance storage this module writes: its own, and bytes. *)
Inductive SlotKey : Set :=
  | Slot (k : IndexKey)
  | LegacySlot (k : Bytes).
#[global] Instance SlotKey_eq_dec : EqDecision SlotKey.
Proof. solve_decision. Defined.

Inductive SlotTy : Set := StConfig | StBool | StBytes | StCount | StHashes | StStats.
#[global] Instance SlotTy_eq_dec : EqDecision SlotTy.
Proof. solve_decision. Defined.

Definition slot_el (t : SlotTy) : Type :=
  match t with
  | StConfig => IndexConfig
  | StBool => bool
  | StBytes => Bytes
  | StCount => Z
  | StHashes => list Hash
  | StStats => IndexStats
  end.

Definition slot_ty (k : SlotKey) : SlotTy :=
  match k with
  | Slot IndexKey.IndexConfig => StConfig
  | Slot (IndexKey.IndexTypeEnabled _) => StBool
  | Slot (IndexKey.KeywordIndex _) | LegacySlot _ => StBytes
  | Slot (IndexKey.KeywordCount _) => StCount
  | Slot (IndexKey.EventKeywords _) => StHashes
  | Slot IndexKey.IndexStats => StStats
  end.

Canonical index_layout : Layout := {|
  key := SlotKey; ty := SlotTy; el := slot_el; layout_key_ty := slot_ty;
  key_dec := _; ty_dec := _; error := Empty_set; datum := Payload |}.

Abbreviation M := (CM index_layout).
Abbreviation St := (CSt index_layout).
Abbreviation store := (kvstore index_layout).

(** *** Configuration *)

(** [IndexConfig::default_config], src/inverted_index.rs:123-131 *)
Definition default_config : IndexConfig :=
  mkIndexConfig true DEFAULT_MIN_KEYWORD_LEN DEFAULT_MAX_KEYWORD_LEN DEFAULT_MAX_KEYWORDS_PER_EVENT
    DEFAULT_BUCKET_MAX_ENTRIES.

(** [get_index_config], src/inverted_index.rs:161-166 *)
Definition get_index_config : M IndexConfig := iget_or (Slot IndexKey.IndexConfig) default_config.

(** [init_index_config], src/inverted_index.rs:414-416 *)
Definition init_index_config (config : IndexConfig) : M unit := iset (Slot IndexKey.IndexConfig) config.

(** [set_index_type_enabled], src/inverted_index.rs:422-426 *)
Definition set_index_type_enabled (event_type : Symbol) (enabled : bool) : M unit :=
  iset (Slot (IndexKey.IndexTypeEnabled event_type)) enabled.

(** [get_index_type_enabled], src/inverted_index.rs:430-434 *)
Definition get_index_type_enabled (event_type : Symbol) : M (option bool) :=
  iget (Slot (IndexKey.IndexTypeEnabled event_type)).

(** [is_indexing_enabled_for_type], src/inverted_index.rs:173-183 *)
Definition is_indexing_enabled_for_type (event_type : Symbol) : M bool :=
  let* config := get_index_config in
  if negb (ic_indexing_enabled config) then ret false
  else iget_or (Slot (IndexKey.IndexTypeEnabled event_type)) true.

(** [load_stats], src/inverted_index.rs:266-276 *)
Definition load_stats : M IndexStats := iget_or (Slot IndexKey.IndexStats) (mkIndexStats 0 0 0 0).
(** [save_stats], src/inverted_index.rs:278-280 *)
Definition save_stats (stats : IndexStats) : M unit := iset (Slot IndexKey.IndexStats) stats.
(** [get_index_stats], src/inverted_index.rs:681-683 *)
Definition get_index_stats : M IndexStats := load_stats.

(** *** Buckets *)

(** [load_bucket], src/inverted_index.rs:195-200 *)
Definition load_bucket (kw_hash : Hash) : M Bytes := iget_or (Slot (IndexKey.KeywordIndex kw_hash)) [].

(** [store_bucket], src/inverted_index.rs:203-211 *)
Definition store_bucket (kw_hash : Hash) (packed : Bytes) : M unit :=
  do* iset (Slot (IndexKey.KeywordIndex kw_hash)) packed in
  let count := len packed / 4 in
  iset (Slot (IndexKey.KeywordCount kw_hash)) count.

(** The bytes [packed.get(from + i)] for [i] below [n], those that are there. *)
Definition copy_bytes (packed : Bytes) (from n : Z) : Bytes :=
  omap (fun i => vget packed (from + i)) (range 0 n).

(** A bucket cut to its newest entries. *)
Definition evict (packed : Bytes) (bucket_max : Z) : Bytes :=
  let entry_count := len packed / 4 in
  if Z.ltb bucket_max entry_count then
    let drop_entries := entry_count - bucket_max in
    copy_bytes packed (drop_entries * 4) (bucket_max * 4)
  else packed.

(** [bucket_append], src/inverted_index.rs:215-251 *)
Definition bucket_append (kw_hash : Hash) (event_idx bucket_max : Z) : M unit :=
  let* packed := load_bucket kw_hash in
  let packed := evict (packed ++ u32_to_bytes event_idx) bucket_max in
  let* count := iget (Slot (IndexKey.KeywordCount kw_hash)) in
  let is_new := bool_decide (count = None) in
  do* store_bucket kw_hash packed in
  when is_new
    (let* stats := load_stats in
     save_stats (set_xs_total_unique_keywords (u64_sat_add (xs_total_unique_keywords stats) 1) stats)).

(** The little-endian word at a position, a missing byte as 0. *)
Definition word_at (packed : Bytes) (off : Z) : Z :=
  let byte i := default 0 (vget packed (off + i)) in
  Z.lor (Z.lor (Z.lor (byte 0) (Z.shiftl (byte 1) 8)) (Z.shiftl (byte 2) 16)) (Z.shiftl (byte 3) 24).

(** [decode_bucket], src/inverted_index.rs:254-264 *)
Definition decode_bucket (packed : Bytes) : list Z :=
  omap (fun i => read_u32_le packed (i * 4)) (range 0 (len packed / 4)).

(** *** Keywords *)

(** [is_delimiter], src/inverted_index.rs:289-294 *)
Definition is_delimiter (b : Z) : bool :=
  existsb (Z.eqb b) [32; 9; 10; 13; 59; 61; 44; 58; 124; 47; 45; 46; 95].

(** [to_lower], src/inverted_index.rs:298-304 *)
Definition to_lower (b : Z) : Z := if Z.leb 65 b && Z.leb b 90 then b + 32 else b.

(** [is_stop_word], src/inverted_index.rs:307-323 *)
Definition is_stop_word (token : Bytes) : bool := existsb (fun stop => bool_decide (token = stop)) STOP_WORDS.

Section Hashed.
Context `{C : Crypto}.

(** [keyword_hash], src/inverted_index.rs:186-192 *)
Definition keyword_hash (keyword : Bytes) : Hash := sha256 keyword.

(** [flush_token], src/inverted_index.rs:350-376 *)
Definition flush_token (min_len max_len max_keywords : Z) (result : list Hash) (token : Bytes) : list Hash :=
  if Z.leb max_keywords (Z.of_nat (length result)) then result
  else if Z.ltb (len token) min_len || Z.ltb max_len (len token) then result
  else if is_stop_word token then result
  else
    let h := keyword_hash token in
    if existsb (fun x => bool_decide (x = h)) result then result else result ++ [h].

(** The loop over the bytes of [extract_keywords], with the token read so far:
    src/inverted_index.rs:378-402 *)
Fixpoint scan_bytes (min_len max_len max_keywords : Z) (l : Bytes) (token : Bytes) (result : list Hash)
    : Bytes * list Hash :=
  match l with
  | [] => (token, result)
  | b :: l =>
      if is_delimiter b then
        let result := flush_token min_len max_len max_keywords result token in
        if Z.leb max_keywords (Z.of_nat (length result)) then ([], result)
        else scan_bytes min_len max_len max_keywords l [] result
      else if Z.ltb b 32 || Z.ltb 126 b then scan_bytes min_len max_len max_keywords l token result
      else
        let token := if Nat.ltb (length token) 32 then token ++ [to_lower b] else token in
        if Z.leb max_keywords (Z.of_nat (length result)) then (token, result)
        else scan_bytes min_len max_len max_keywords l token result
  end.

(** [extract_keywords], src/inverted_index.rs:339-406 *)
Definition extract_keywords (metadata : Bytes) (min_len max_len max_keywords : Z) : list Hash :=
  if bool_decide (metadata = []) || Z.eqb max_keywords 0 then []
  else
    let '(token, result) := scan_bytes min_len max_len max_keywords metadata [] [] in
    flush_token min_len max_len max_keywords result token.

(** The keywords of a text under a configuration. *)
Definition keywords_under (config : IndexConfig) (metadata : Bytes) : list Hash :=
  extract_keywords metadata (ic_min_keyword_len config) (ic_max_keyword_len config)
    (ic_max_keywords_per_event config).

(** The event is appended to the bucket of each keyword. *)
Definition append_all (kw_hashes : list Hash) (event_idx bucket_max : Z) : M unit :=
  fold_m (fun _ h => bucket_append h event_idx bucket_max) tt kw_hashes.

(** [index_event], src/inverted_index.rs:449-484 *)
Definition index_event (event_idx : Z) (event_type : Symbol) (metadata : Bytes) : M unit :=
  let* enabled := is_indexing_enabled_for_type event_type in
  if negb enabled then ret tt
  else
    let* config := get_index_config in
    let kw_hashes := keywords_under config metadata in
    let num_keywords := Z.of_nat (length kw_hashes) in
    if Z.eqb num_keywords 0 then ret tt
    else
      do* append_all kw_hashes event_idx (ic_bucket_max_entries config) in
      do* iset (Slot (IndexKey.EventKeywords event_idx)) kw_hashes in
      let* stats := load_stats in
      save_stats (set_xs_total_index_entries (u64_sat_add (xs_total_index_entries stats) num_keywords)
                    (set_xs_total_indexed_events (u32_sat_add (xs_total_indexed_events stats) 1) stats)).

(** *** Search *)

(** [search_events_by_keyword], src/inverted_index.rs:509-553 *)
Definition search_events_by_keyword (keyword : Bytes) (page page_size : Z) : M (list KeywordSearchResult) :=
  if bool_decide (keyword = []) || Z.eqb page_size 0 then ret []
  else
    let effective_size := Z.min page_size MAX_SEARCH_PAGE_SIZE in
    let lowered := to_lower <$> keyword in
    let kw_hash := sha256 lowered in
    let* packed := load_bucket kw_hash in
    if bool_decide (packed = []) then ret []
    else
      let total_entries := len packed / 4 in
      let start := Z.min (page * effective_size) u32_max in
      if Z.leb total_entries start then ret []
      else
        let finish := Z.min (start + effective_size) total_entries in
        ret ((fun i => mkKeywordSearchResult (word_at packed (i * 4)) kw_hash) <$> range start finish).

(** [keyword_entry_count], src/inverted_index.rs:558-572 *)
Definition keyword_entry_count (keyword : Bytes) : M Z :=
  if bool_decide (keyword = []) then ret 0
  else
    let lowered := to_lower <$> keyword in
    iget_or (Slot (IndexKey.KeywordCount (sha256 lowered))) 0.

(** [get_event_keywords], src/inverted_index.rs:688-693 *)
Definition get_event_keywords (event_idx : Z) : M (list Hash) :=
  iget_or (Slot (IndexKey.EventKeywords event_idx)) [].

(** *** Maintenance *)

(** A bucket without the entries of an event. *)
Definition without_event (packed : Bytes) (event_idx : Z) : Bytes :=
  pack (List.filter (fun idx => negb (Z.eqb idx event_idx))
          ((fun j => word_at packed (j * 4)) <$> range 0 (len packed / 4))).

(** The round of [remove_event_from_index] for one keyword. *)
Definition remove_from_bucket (event_idx : Z) (u : unit) (h : Hash) : M unit :=
  let* packed := load_bucket h in
  if bool_decide (packed = []) then ret tt else store_bucket h (without_event packed event_idx).

(** [remove_event_from_index], src/inverted_index.rs:646-678 *)
Definition remove_event_from_index (event_idx : Z) : M unit :=
  let* kw_hashes := get_event_keywords event_idx in
  do* fold_m (remove_from_bucket event_idx) tt kw_hashes in
  iremove (Slot (IndexKey.EventKeywords event_idx)).

(** The round of [reindex_events] for one event. *)
Definition reindex_one (config : IndexConfig) (load_event : Z -> option (Symbol * Bytes)) (processed event_idx : Z)
    : M Z :=
  do* match load_event event_idx with
      | Some (event_type, metadata) =>
          do* remove_event_from_index event_idx in
          let* enabled := is_indexing_enabled_for_type event_type in
          when enabled
            (let kw_hashes := keywords_under config metadata in
             do* append_all kw_hashes event_idx (ic_bucket_max_entries config) in
             when (Z.ltb 0 (Z.of_nat (length kw_hashes)))
               (iset (Slot (IndexKey.EventKeywords event_idx)) kw_hashes))
      | None => ret tt
      end in
  ret (event_idx + 1).

(** [reindex_events], src/inverted_index.rs:593-638 *)
Definition reindex_events (start finish : Z) (load_event : Z -> option (Symbol * Bytes)) : M Z :=
  let* config := get_index_config in
  let batch_end := Z.min finish (u32_sat_add start MAX_REINDEX_BATCH) in
  let* processed := fold_m (reindex_one config load_event) start (range start batch_end) in
  let* stats := load_stats in
  let stats := if Z.ltb (xs_last_reindex_event stats) processed then set_xs_last_reindex_event processed stats
               else stats in
  do* save_stats stats in
  ret processed.

(** *** The older buckets *)

(** [legacy_to_bytes_key], src/inverted_index.rs:810-841 *)
Definition legacy_to_bytes_key (k : LegacyIndexKey) : Bytes :=
  match k with
  | LegacyIndexKey.MetadataFieldIndex sym hash => 1 :: u64_to_bytes (sym_payload sym) ++ hash
  | LegacyIndexKey.CategoryTypeIndex cat etype =>
      2 :: u64_to_bytes (sym_payload cat) ++ u64_to_bytes (sym_payload etype)
  | LegacyIndexKey.SubmitterTypeIndex addr etype => 3 :: str_bytes addr ++ u64_to_bytes (sym_payload etype)
  | LegacyIndexKey.SubEventTypeIndex sub => 4 :: u64_to_bytes (sym_payload sub)
  | LegacyIndexKey.IndexedFieldCount => [5]
  end.

(** The bucket of a legacy key. *)
Definition load_legacy (k : LegacyIndexKey) : M Bytes := iget_or (LegacySlot (legacy_to_bytes_key k)) [].

(** [index_add_entry], src/inverted_index.rs:715-737 *)
Definition index_add_entry (k : LegacyIndexKey) (event_global_index : Z) : M unit :=
  let* packed := load_legacy k in
  iset (LegacySlot (legacy_to_bytes_key k))
    (evict (packed ++ u32_to_bytes event_global_index) DEFAULT_BUCKET_MAX_ENTRIES).

(** [index_query], src/inverted_index.rs:740-758 *)
Definition index_query (k : LegacyIndexKey) : M (list Z) :=
  let* packed := load_legacy k in
  ret ((fun i => word_at packed (i * 4)) <$> range 0 (len packed / 4)).

(** [index_get_count], src/inverted_index.rs:761-769 *)
Definition index_get_count (k : LegacyIndexKey) : M Z :=
  let* packed := load_legacy k in ret (len packed / 4).

(** A byte that a field name may have. *)
Definition is_field_byte (b : Z) : bool :=
  (Z.leb 97 b && Z.leb b 122) || (Z.leb 65 b && Z.leb b 90) || (Z.leb 48 b && Z.leb b 57) || Z.eqb b 95.

(** [legacy_bytes_to_symbol], for bytes below 128, which are their own text:
    src/inverted_index.rs:898-916 *)
Definition legacy_bytes_to_symbol (buf : Bytes) : option Symbol :=
  if Nat.eqb (length buf) 0 || Nat.ltb 32 (length buf) then None
  else Some (String.string_of_list_ascii ((fun b => Ascii.ascii_of_N (Z.to_N b)) <$> buf)).

(** [flush] of the parser of fields, src/inverted_index.rs:852-874 *)
Definition flush_field (key_buf val_buf : Bytes) (idx : Z) : M unit :=
  if bool_decide (key_buf = []) || bool_decide (val_buf = []) then ret tt
  else if Nat.ltb 32 (length key_buf) then ret tt
  else if negb (forallb is_field_byte key_buf) then ret tt
  else
    let val_hash := sha256 val_buf in
    match legacy_bytes_to_symbol key_buf with
    | Some sym => index_add_entry (LegacyIndexKey.MetadataFieldIndex sym val_hash) idx
    | None => ret tt
    end.

(** The buffers of the parser: the name and the value read so far, and whether
    the value has begun. *)
Definition parse_field_byte (idx : Z) (st : Bytes * Bytes * bool) (b : Z) : M (Bytes * Bytes * bool) :=
  let '(key_buf, val_buf, in_value) := st in
  if Z.eqb b 59 then
    do* when in_value (flush_field key_buf val_buf idx) in
    ret ([], [], false)
  else if Z.eqb b 61 && negb in_value then ret (key_buf, val_buf, true)
  else if in_value then ret (key_buf, val_buf ++ [b], in_value)
  else ret (key_buf ++ [b], val_buf, in_value).

(** [legacy_parse_and_index_metadata], src/inverted_index.rs:843-896 *)
Definition legacy_parse_and_index_metadata (event_global_index : Z) (metadata : Bytes) : M unit :=
  if bool_decide (metadata = []) then ret tt
  else
    let* st := fold_m (parse_field_byte event_global_index) ([], [], false) metadata in
    let '(key_buf, val_buf, in_value) := st in
    when in_value (flush_field key_buf val_buf event_global_index).

(** [index_event_metadata], src/inverted_index.rs:774-801 *)
Definition index_event_metadata (event_global_index : Z) (event_type category : Symbol) (submitter : Address)
    (sub_event_type : option Symbol) (metadata : Bytes) : M unit :=
  do* index_add_entry (LegacyIndexKey.CategoryTypeIndex category event_type) event_global_index in
  do* index_add_entry (LegacyIndexKey.SubmitterTypeIndex submitter event_type) event_global_index in
  do* match sub_event_type with
      | Some sub => index_add_entry (LegacyIndexKey.SubEventTypeIndex sub) event_global_index
      | None => ret tt
      end in
  legacy_parse_and_index_metadata event_global_index metadata.

End Hashed.

End Index.

(** ** Extraction *)

Module Words.
Import Index.

Section Reference.
Context `{C : Crypto}.

(** The pieces of a text between delimiters, [cur] being the piece begun. *)
Fixpoint pieces (cur l : Bytes) : list Bytes :=
  match l with
  | [] => [cur]
  | b :: l => if is_delimiter b then cur :: pieces [] l else pieces (cur ++ [b]) l
  end.

Definition printable (b : Z) : bool := negb (Z.ltb b 32 || Z.ltb 126 b).

(** A piece as a word: its printable bytes in lower case, and what the buffer of
    the code keeps of it. *)
Definition word_of (p : Bytes) : Bytes := to_lower <$> List.filter printable p.
Definition buffered (p : Bytes) : Bytes := take 32 (word_of p).

(** The words that are keywords. *)
Definition admissible (min_len max_len : Z) (w : Bytes) : bool :=
  Z.leb min_len (len w) && Z.leb (len w) max_len && negb (is_stop_word w).

(** The first occurrences of the elements of a list, but those seen before. *)
Fixpoint fresh_in (seen l : list Hash) : list Hash :=
  match l with
  | [] => []
  | x :: l => if bool_decide (x ∈ seen) then fresh_in seen l else x :: fresh_in (seen ++ [x]) l
  end.

(** The comment of [extract_keywords], step by step: a word is discarded when its length is
    outside the bounds, however long it is. *)
Definition keywords_of (metadata : Bytes) (min_len max_len max_keywords : Z) : list Hash :=
  take (Z.to_nat max_keywords)
    (fresh_in [] (keyword_hash <$> List.filter (admissible min_len max_len) (word_of <$> pieces [] metadata))).

Section Bounds.
Context (min_len max_len max_keywords : Z).
Let flush := flush_token min_len max_len max_keywords.
Definition full (result : list Hash) : Prop := max_keywords <= Z.of_nat (length result).

Lemma flush_full result w : full result -> flush result w = result.
Proof. unfold full, flush, flush_token. intros H. by rewrite (proj2 (Z.leb_le _ _) H). Qed.

Lemma flush_all_full ws : forall result, full result -> fold_left flush ws result = result.
Proof. induction ws as [|w ws IH]; intros result H; simpl; [done|]. rewrite flush_full by done. by apply IH. Qed.

Lemma flush_step result w : ~ full result ->
  flush result w = if admissible min_len max_len w
                   then (if bool_decide (keyword_hash w ∈ result) then result else result ++ [keyword_hash w])
                   else result.
Proof.
  unfold full, flush, flush_token, admissible. intros H. rewrite (proj2 (Z.leb_gt _ _)) by lia.
  destruct (Z.ltb_spec (len w) min_len), (Z.leb_spec min_len (len w)); try lia; simpl; try done.
  destruct (Z.ltb_spec max_len (len w)), (Z.leb_spec (len w) max_len); try lia; simpl; try done.
  destruct (is_stop_word w); simpl; [done|].
  assert (existsb (fun x => bool_decide (x = keyword_hash w)) result = bool_decide (keyword_hash w ∈ result)) as ->;
    [|done].
  apply eq_iff_eq_true. rewrite existsb_exists, bool_decide_eq_true. setoid_rewrite <- list_elem_of_In. split.
  - by intros (x & Hx & ->%bool_decide_eq_true).
  - intros Hx. exists (keyword_hash w). split; [done|]. by apply bool_decide_eq_true.
Qed.

Lemma flush_all ws : forall result, Z.of_nat (length result) <= max_keywords ->
  fold_left flush ws result =
  take (Z.to_nat max_keywords)
    (result ++ fresh_in result (keyword_hash <$> List.filter (admissible min_len max_len) ws)).
Proof.
  induction ws as [|w ws IH]; intros result Hl; simpl.
  - rewrite app_nil_r, take_ge by lia. done.
  - destruct (decide (full result)) as [Hf|Hf].
    + rewrite flush_full, flush_all_full by done. unfold full in Hf. by rewrite take_app_length' by lia.
    + rewrite flush_step by done. unfold full in Hf. destruct (admissible min_len max_len w); [|by apply IH].
      simpl. case_bool_decide; [by apply IH|]. rewrite IH by (rewrite length_app; simpl; lia).
      by rewrite <- app_assoc.
Qed.

Lemma word_snoc p b : printable b = true ->
  buffered (p ++ [b]) = if Nat.ltb (length (buffered p)) 32 then buffered p ++ [to_lower b] else buffered p.
Proof.
  intros Hb. unfold buffered, word_of. rewrite List.filter_app, fmap_app. simpl. rewrite Hb. simpl.
  set (x := to_lower <$> List.filter printable p). rewrite length_take.
  destruct (Nat.ltb_spec (32 `min` length x) 32).
  - rewrite !take_ge by (rewrite ?length_app; simpl; lia). done.
  - by rewrite take_app_le by lia.
Qed.

Lemma scan_words l : forall cur result, Z.of_nat (length result) <= max_keywords ->
  (let '(token, r) := scan_bytes min_len max_len max_keywords l (buffered cur) result in flush r token) =
  fold_left flush (buffered <$> pieces cur l) result.
Proof.
  assert (forall r w, Z.of_nat (length r) <= max_keywords -> Z.of_nat (length (flush r w)) <= max_keywords) as Hlen.
  { intros r w Hr. destruct (decide (full r)) as [Hf|Hf]; [by rewrite flush_full|]. rewrite flush_step by done.
    unfold full in Hf. destruct (admissible _ _ w); [|done]. case_bool_decide; [done|].
    rewrite length_app. simpl. lia. }
  induction l as [|b l IH]; intros cur result Hr; simpl; [done|]. destruct (is_delimiter b).
  - fold flush. simpl. destruct (Z.leb_spec max_keywords (Z.of_nat (length (flush result (buffered cur))))) as [Hf|Hf].
    + by rewrite flush_full, flush_all_full.
    + change (@nil Z) with (buffered []) at 1. apply IH. by apply Hlen.
  - destruct (Z.ltb b 32 || Z.ltb 126 b) eqn:Eb.
    + rewrite <- IH by done. unfold buffered at 2. unfold word_of at 1. rewrite List.filter_app. simpl. unfold printable at 2.
      rewrite Eb. simpl. by rewrite app_nil_r.
    + assert (printable b = true) as Hb by (unfold printable; by rewrite Eb).
      rewrite <- (word_snoc cur b Hb).
      destruct (Z.leb_spec max_keywords (Z.of_nat (length result))) as [Hf|Hf]; [|by apply IH].
      by rewrite flush_full, flush_all_full.
Qed.

(** A word is kept or discarded as its buffered beginning is, and as the same keyword, when the
    bound on the length is below the size of the buffer or the word fits it. *)
Lemma filter_buffered ps :
  max_len < 32 \/ Forall (fun p => len (word_of p) <= 32) ps ->
  List.filter (admissible min_len max_len) (buffered <$> ps) =
  List.filter (admissible min_len max_len) (word_of <$> ps).
Proof.
  intros H. induction ps as [|p ps IH]; [done|]. rewrite !fmap_cons. cbn [List.filter].
  rewrite IH by (destruct H as [|H]; [by left|right; by inversion H]).
  assert (len (word_of p) <= 32 \/ max_len < 32 < len (word_of p)) as [Hp|Hp].
  { destruct H as [H|H]; [lia|left; by inversion H]. }
  - unfold buffered. rewrite take_ge by (unfold len in Hp; lia). done.
  - assert (admissible min_len max_len (buffered p) = false) as ->.
    { unfold admissible, buffered. assert (len (take 32 (word_of p)) = 32) as ->.
      { unfold len in *. rewrite length_take. lia. }
      rewrite (proj2 (Z.leb_gt 32 max_len)) by lia. by rewrite andb_false_r. }
    unfold admissible. rewrite (proj2 (Z.leb_gt (len (word_of p)) max_len)) by lia.
    by rewrite andb_false_r.
Qed.

(** C31: The extraction with its buffer of 32 bytes, its early exit and its comparison of hashes
    computes the steps its comment lists, on texts whose words have 32 bytes at most, and on any text
    when the maximal length is below 32: words that are too long are discarded then.  (With a maximal
    length of 32 or more the first 32 bytes of a longer word are indexed, against the comment.) *)
Theorem extraction_follows_its_comment metadata :
  0 <= max_keywords -> metadata <> [] \/ 0 < min_len ->
  max_len < 32 \/ Forall (fun p => len (word_of p) <= 32) (pieces [] metadata) ->
  extract_keywords metadata min_len max_len max_keywords = keywords_of metadata min_len max_len max_keywords.
Proof.
  intros Hk Hm Hw. unfold extract_keywords, keywords_of.
  destruct (Z.eqb_spec max_keywords 0) as [E|E]; [by rewrite orb_true_r, E|]. rewrite orb_false_r.
  case_bool_decide as Hnil.
  - subst metadata. destruct Hm as [?|Hm]; [done|]. simpl. unfold admissible at 1.
    rewrite (proj2 (Z.leb_gt _ _)) by (change (len (word_of [])) with 0; lia). simpl. by rewrite take_nil.
  - pose proof (scan_words metadata [] [] ltac:(simpl; lia)) as H.
    change (buffered []) with (@nil Z) in H. unfold flush in H. rewrite H.
    fold flush. rewrite flush_all by (simpl; lia). by rewrite filter_buffered.
Qed.
End Bounds.
End Reference.

#[local] Existing Instance sample_crypto.

(** A bound of 12 below the buffer: a word of 45 bytes is discarded. *)
Definition long_text : Bytes := str_bytes "Disk full: supercalifragilisticexpialidociousextralong the DISK".

Lemma extraction_follows_its_comment_witness :
  (0 <= 20 /\ long_text <> []) /\
  extract_keywords long_text 3 12 20 = [sha256 (str_bytes "disk"); sha256 (str_bytes "full")] /\
  extract_keywords (str_bytes "Disk full: the DISK") 3 32 20
    = [sha256 (str_bytes "disk"); sha256 (str_bytes "full")].
Proof.
  split; [done|]. split.
  - rewrite (extraction_follows_its_comment 3 12 20); [reflexivity|done|by left|by left].
  - rewrite (extraction_follows_its_comment 3 32 20); [reflexivity|done|by left|].
    right. repeat constructor; vm_compute; discriminate.
Defined.

(** The text of [test_extract_keywords_max_length_filter]: the test expects one hash; the code
    answers two, that of the first 32 bytes of the long word before that of "payment". *)
Example the_long_word_of_the_test_is_indexed :
  extract_keywords (str_bytes "averylongkeywordthatexceedsthirtytwocharacters payment") 3 32 20 =
  [sha256 (str_bytes "averylongkeywordthatexceedsthirt"); sha256 (str_bytes "payment")] /\
  keywords_of (str_bytes "averylongkeywordthatexceedsthirtytwocharacters payment") 3 32 20 =
  [sha256 (str_bytes "payment")].
Proof. vm_compute. split; reflexivity. Qed.

End Words.

(** ** Buckets *)

Module Searching.
Import Index.

(** The newest [m] elements of a list. *)
Definition newest {A} (m : nat) (l : list A) : list A := drop (length l - m) l.

Lemma newest_ge {A} m (l : list A) : (length l <= m)%nat -> newest m l = l.
Proof. intros. unfold newest. by replace (length l - m)%nat with 0%nat by lia. Qed.

Lemma newest_app {A} m (l k : list A) : newest m (newest m l ++ k) = newest m (l ++ k).
Proof.
  unfold newest. rewrite !length_app, length_drop.
  destruct (decide (length l <= m)%nat).
  - by replace (length l - m)%nat with 0%nat by lia; rewrite drop_0, Nat.sub_0_r.
  - replace (l ++ k) with (take (length l - m) l ++ (drop (length l - m) l ++ k))
      by (by rewrite app_assoc, take_drop).
    rewrite (drop_app_ge (take _ _)) by (rewrite length_take; lia). f_equal.
    rewrite length_take. lia.
Qed.

Lemma newest_length {A} m (l : list A) : (length (newest m l) <= m)%nat.
Proof. unfold newest. rewrite length_drop. lia. Qed.

Lemma elem_of_newest {A} m (l : list A) x : x ∈ newest m l -> x ∈ l.
Proof. unfold newest. by apply elem_of_drop_1 || (intros H; rewrite <- (take_drop (length l - m) l); set_solver). Qed.

Lemma Forall_newest {A} (P : A -> Prop) m l : Forall P l -> Forall P (newest m l).
Proof. intros. by apply Forall_drop. Qed.

Lemma length_pack l : length (pack l) = (4 * length l)%nat.
Proof. pose proof (len_pack l). unfold len in *. lia. Qed.

Lemma count_pack l : len (pack l) / 4 = len l.
Proof. apply packed_count_pack. Qed.

Lemma pack_nil l : pack l = [] -> l = [].
Proof. by destruct l. Qed.

(** Copying the rest of a text byte by byte. *)
Lemma copy_bytes_rest p k : forall n, (k + n = length p)%nat ->
  copy_bytes p (Z.of_nat k) (Z.of_nat n) = drop k p.
Proof.
  unfold copy_bytes. intros n H.
  assert (forall j, (j <= n)%nat ->
    omap (fun i => vget p (Z.of_nat k + i)) (range 0 (Z.of_nat j)) = take j (drop k p)) as K.
  { induction j as [|j IH]; intros Hj; [by rewrite range_nil by lia|].
    replace (Z.of_nat (S j)) with (Z.of_nat j + 1) by lia.
    rewrite range_snoc, omap_app, IH by lia. simpl.
    replace (Z.of_nat k + Z.of_nat j) with (Z.of_nat (k + j)) by lia. rewrite vget_nth.
    destruct (lookup_lt_is_Some_2 p (k + j)) as [x Hx]; [lia|]. rewrite Hx. symmetry.
    apply take_S_r. by rewrite lookup_drop. }
  rewrite K by lia. apply take_ge. rewrite length_drop. lia.
Qed.

Lemma drop_pack n l : drop (4 * n) (pack l) = pack (drop n l).
Proof.
  destruct (decide (length l <= n)%nat).
  - rewrite !drop_ge by (rewrite ?length_pack; lia). done.
  - rewrite <- (take_drop n l) at 1. rewrite pack_app, drop_app_length'; [done|].
    rewrite length_pack, length_take. lia.
Qed.

Lemma evict_pack l m : 0 <= m -> evict (pack l) m = pack (newest (Z.to_nat m) l).
Proof.
  intros Hm. unfold evict, newest. rewrite count_pack. unfold len.
  destruct (Z.ltb_spec m (Z.of_nat (length l))).
  - replace ((Z.of_nat (length l) - m) * 4) with (Z.of_nat (4 * (length l - Z.to_nat m))) by lia.
    replace (m * 4) with (Z.of_nat (4 * Z.to_nat m)) by lia.
    rewrite copy_bytes_rest by (rewrite length_pack; lia). apply drop_pack.
  - by replace (length l - Z.to_nat m)%nat with 0%nat by lia.
Qed.

Lemma word_at_read p off v : read_u32_le p off = Some v -> word_at p off = v.
Proof.
  unfold read_u32_le, word_at. rewrite Z.add_0_r.
  destruct (vget p off), (vget p (off + 1)), (vget p (off + 2)), (vget p (off + 3)); simpl; try done.
  by intros [= ->].
Qed.

(** The words of a bucket at a range of positions. *)
Lemma words_pack l a n : Forall is_u32 l -> (a + n <= length l)%nat ->
  (fun i => word_at (pack l) (i * 4)) <$> range (Z.of_nat a) (Z.of_nat (a + n)) = take n (drop a l).
Proof.
  intros Hl. induction n as [|n IH]; intros Hn; [by rewrite range_nil by lia|].
  replace (Z.of_nat (a + S n)) with (Z.of_nat (a + n) + 1) by lia.
  rewrite range_snoc, fmap_app, IH by lia. simpl.
  destruct (lookup_lt_is_Some_2 l (a + n)) as [x Hx]; [lia|].
  rewrite (word_at_read _ _ x) by (apply read_pack; [done|by rewrite vget_nth]).
  symmetry. apply take_S_r. by rewrite lookup_drop.
Qed.

Lemma entries_pack l : Forall is_u32 l ->
  (fun i => word_at (pack l) (i * 4)) <$> range 0 (len (pack l) / 4) = l.
Proof.
  intros Hl. rewrite count_pack. transitivity (take (length l) (drop 0 l)); [|by rewrite take_ge].
  exact (words_pack l 0 (length l) Hl ltac:(lia)).
Qed.

Lemma without_event_pack l e : Forall is_u32 l ->
  without_event (pack l) e = pack (List.filter (fun i => negb (Z.eqb i e)) l).
Proof. intros Hl. unfold without_event. by rewrite entries_pack. Qed.

(** ** The index as lists *)

Abbreviation config_slot := (Slot IndexKey.IndexConfig).
Abbreviation type_slot ty := (Slot (IndexKey.IndexTypeEnabled ty)).
Abbreviation bucket_slot h := (Slot (IndexKey.KeywordIndex h)).
Abbreviation count_slot h := (Slot (IndexKey.KeywordCount h)).
Abbreviation words_slot e := (Slot (IndexKey.EventKeywords e)).
Abbreviation stats_slot := (Slot IndexKey.IndexStats).

(** The bucket of [h] is the list [l]: both are absent, or the bytes are the
    list packed and the count is its length. *)
Definition holds (st : store) (h : Hash) (l : list Z) : Prop :=
  Forall is_u32 l /\
  ((sget st (bucket_slot h) = Some (pack l) /\ sget st (count_slot h) = Some (len l)) \/
   (sget st (bucket_slot h) = None /\ sget st (count_slot h) = None /\ l = [])).

(** The settings under which events are indexed. *)
Definition config_of (st : store) : IndexConfig := default default_config (sget st config_slot).
Definition flag_of (st : store) (ty : Symbol) : bool :=
  ic_indexing_enabled (config_of st) && default true (sget st (type_slot ty)).

(** [st'] has the settings of [st]. *)
Definition same_settings (st st' : store) : Prop :=
  sget st' config_slot = sget st config_slot /\ forall ty, sget st' (type_slot ty) = sget st (type_slot ty).

Lemma same_settings_refl st : same_settings st st.
Proof. done. Qed.
Lemma same_settings_trans st1 st2 st3 : same_settings st1 st2 -> same_settings st2 st3 -> same_settings st1 st3.
Proof. intros [E1 F1] [E2 F2]. split; [congruence|]. intros ty. by rewrite F2. Qed.
Lemma same_settings_config st st' : same_settings st st' -> config_of st' = config_of st.
Proof. intros [E _]. unfold config_of. by rewrite E. Qed.
Lemma same_settings_flag st st' ty : same_settings st st' -> flag_of st' ty = flag_of st ty.
Proof. intros H. unfold flag_of. rewrite (same_settings_config st st' H). destruct H as [_ F]. by rewrite F. Qed.

Lemma holds_load st h l : holds st h l -> default [] (sget st (bucket_slot h)) = pack l.
Proof. by intros [_ [[-> _]|(-> & _ & ->)]]. Qed.

Lemma load_bucket_run h c s l : holds (inst s) h l -> load_bucket h c s = Ok (pack l, s).
Proof. intros [_ [[E _]|(E & _ & ->)]]; unfold load_bucket, iget_or; by rewrite E. Qed.

Lemma holds_same st st' h l :
  sget st' (bucket_slot h) = sget st (bucket_slot h) -> sget st' (count_slot h) = sget st (count_slot h) ->
  holds st h l -> holds st' h l.
Proof. intros E1 E2 [Hl H]. split; [done|]. by rewrite E1, E2. Qed.

Lemma holds_inj st h l k : holds st h l -> holds st h k -> l = k.
Proof.
  intros H1 H2. pose proof (holds_load _ _ _ H1) as E1. pose proof (holds_load _ _ _ H2) as E2.
  assert (pack l = pack k) as E by congruence. rewrite <- (entries_pack l) by apply H1. rewrite E.
  apply entries_pack, H2.
Qed.

Lemma Forall_others (P : Z -> Prop) f l : Forall P l -> Forall P (List.filter f l).
Proof. rewrite !Forall_forall. setoid_rewrite list_elem_of_In. setoid_rewrite filter_In. naive_solver. Qed.

(** What an operation on the bucket of [h] leaves as it is. *)
Definition only_bucket (h : Hash) (st st' : store) : Prop :=
  forall k, k <> bucket_slot h -> k <> count_slot h -> k <> stats_slot -> sget st' k = sget st k.

Lemma bucket_append_run h e m c s l :
  is_u32 e -> 0 <= m -> holds (inst s) h l ->
  exists s', bucket_append h e m c s = Ok (tt, s') /\
    holds (inst s') h (newest (Z.to_nat m) (l ++ [e])) /\ only_bucket h (inst s) (inst s').
Proof.
  intros He Hm Hh. pose proof (load_bucket_run _ c _ _ Hh) as El. destruct Hh as [Hl _].
  set (k := newest (Z.to_nat m) (l ++ [e])).
  assert (evict (pack l ++ u32_to_bytes e) m = pack k) as Ek by by rewrite pack_snoc, evict_pack.
  assert (Forall is_u32 k) as Hk by (apply Forall_newest, Forall_app; auto).
  assert (forall st, holds (sset (sset st (bucket_slot h) (pack k)) (count_slot h) (len (pack k) / 4)) h k) as K.
  { intros st. split; [done|]. left. split; [by rewrite sset_ne, sset_eq by done|].
    by rewrite sset_eq, count_pack. }
  unfold bucket_append. rewrite (bind_run _ _ _ _ _ _ El), Ek. unfold iget, bind at 1. simpl.
  unfold store_bucket, iset, bind, when. simpl. case_bool_decide; simpl; eexists; (split; [reflexivity|]); simpl; split.
  - eapply holds_same; [| |apply K]; by rewrite sset_ne by done.
  - intros k' ? ? ?. by rewrite !sset_ne by done.
  - apply K.
  - intros k' ? ? ?. by rewrite !sset_ne by done.
Qed.

(** A computation that rewrites buckets only. *)
Definition only_buckets (st st' : store) : Prop :=
  same_settings st st' /\ forall e, sget st' (words_slot e) = sget st (words_slot e).

Lemma only_bucket_buckets h st st' : only_bucket h st st' -> only_buckets st st'.
Proof. intros H. repeat split; intros; by rewrite H. Qed.
Lemma only_bucket_holds h st st' h' l : only_bucket h st st' -> h <> h' -> holds st h' l -> holds st' h' l.
Proof. intros H Hne. apply holds_same; rewrite H; try done; congruence. Qed.
Lemma only_buckets_trans st1 st2 st3 : only_buckets st1 st2 -> only_buckets st2 st3 -> only_buckets st1 st3.
Proof.
  intros [S1 W1] [S2 W2]. split; [by eapply same_settings_trans|]. intros e. by rewrite W2.
Qed.

(** One operation for each bucket of a list of keywords. *)
Lemma fold_buckets (f : unit -> Hash -> M unit) (g : list Z -> list Z) c :
  (forall h s l, holds (inst s) h l ->
     exists s', f tt h c s = Ok (tt, s') /\ holds (inst s') h (g l) /\ only_bucket h (inst s) (inst s')) ->
  forall ks s, NoDup ks -> (forall h, exists l, holds (inst s) h l) ->
  exists s', fold_m f tt ks c s = Ok (tt, s') /\ only_buckets (inst s) (inst s') /\
    forall h l, holds (inst s) h l -> holds (inst s') h (if decide (h ∈ ks) then g l else l).
Proof.
  intros Hf. induction ks as [|h ks IH]; intros s Hd Hall; cbn [fold_m].
  - exists s. split; [done|]. split; [done|]. intros h l H. by rewrite decide_False by apply not_elem_of_nil.
  - apply NoDup_cons in Hd as [Hh Hd]. destruct (Hall h) as [l Hl].
    destruct (Hf h s l Hl) as (s1 & R1 & H1 & O1).
    destruct (IH s1 Hd) as (s2 & R2 & O2 & H2).
    { intros h'. destruct (decide (h = h')) as [<-|Hne]; [eauto|]. destruct (Hall h') as [l' Hl'].
      exists l'. by eapply only_bucket_holds. }
    exists s2. split; [by rewrite (bind_run _ _ _ _ _ _ R1)|].
    split; [by eapply only_buckets_trans; [eapply only_bucket_buckets|]|].
    intros h' l' Hl'. destruct (decide (h = h')) as [<-|Hne].
    + rewrite decide_True by constructor. rewrite (holds_inj _ _ _ _ Hl' Hl).
      specialize (H2 h (g l) H1). by rewrite decide_False in H2.
    + pose proof (H2 h' l' (only_bucket_holds _ _ _ _ _ O1 Hne Hl')) as K.
      destruct (decide (h' ∈ ks)).
      * by rewrite decide_True by by constructor.
      * rewrite decide_False; [done|]. intros [->|?]%elem_of_cons; done.
Qed.

Lemma remove_from_bucket_run e h c s l :
  holds (inst s) h l ->
  exists s', remove_from_bucket e tt h c s = Ok (tt, s') /\
    holds (inst s') h (List.filter (fun i => negb (Z.eqb i e)) l) /\ only_bucket h (inst s) (inst s').
Proof.
  intros Hh. pose proof (load_bucket_run _ c _ _ Hh) as El. pose proof Hh as [Hl _].
  unfold remove_from_bucket. rewrite (bind_run _ _ _ _ _ _ El).
  case_bool_decide as Hn.
  - apply pack_nil in Hn as ->. exists s. by split.
  - unfold store_bucket, iset, bind. simpl. eexists. split; [reflexivity|]. simpl.
    rewrite without_event_pack by done. split.
    + split; [by apply Forall_others|].
      left. split; [by rewrite sset_ne, sset_eq by done|]. by rewrite sset_eq, count_pack.
    + intros k ? ? ?. by rewrite !sset_ne by done.
Qed.

Section Hashed.
Context `{C : Crypto}.

Lemma flush_NoDup min_len max_len n r t : NoDup r -> NoDup (flush_token min_len max_len n r t).
Proof.
  intros Hr. unfold flush_token. destruct (Z.leb _ _); [done|]. destruct (_ || _); [done|].
  destruct (is_stop_word t); [done|]. destruct (existsb _ r) eqn:E; [done|].
  apply NoDup_app. split; [done|]. split; [|apply NoDup_singleton]. intros x Hx ->%list_elem_of_singleton.
  enough (existsb (fun x => bool_decide (x = keyword_hash t)) r = true) by congruence.
  apply existsb_exists. exists (keyword_hash t). split; [by apply list_elem_of_In|by apply bool_decide_eq_true].
Qed.

Lemma keywords_NoDup cfg md : NoDup (keywords_under cfg md).
Proof.
  unfold keywords_under, extract_keywords. destruct (_ || _); [by constructor|].
  set (a := ic_min_keyword_len cfg). set (b := ic_max_keyword_len cfg). set (n := ic_max_keywords_per_event cfg).
  assert (forall l t r, NoDup r -> NoDup (snd (scan_bytes a b n l t r))) as K.
  { induction l as [|x l IH]; intros t r Hr; simpl; [done|]. destruct (is_delimiter x).
    - pose proof (flush_NoDup a b n r t Hr). destruct (Z.leb _ _); simpl; auto.
    - destruct (_ || _); [by apply IH|]. destruct (Z.leb _ _); simpl; auto. }
  specialize (K md [] [] ltac:(constructor)). destruct (scan_bytes _ _ _ _ _ _) as [t r].
  by apply flush_NoDup.
Qed.

(** An event of the log: its index, its type and its metadata. *)
Definition Logged : Type := (Z * Symbol * Bytes).

(** The keywords under which the settings of [st] have an event indexed. *)
Definition words_in (st : store) (ev : Logged) : list Hash :=
  let '(_, ty, md) := ev in if flag_of st ty then keywords_under (config_of st) md else [].

Definition index_logged (u : unit) (ev : Logged) : M unit :=
  let '(e, ty, md) := ev in index_event e ty md.

Definition limit_of (st : store) : nat := Z.to_nat (ic_bucket_max_entries (config_of st)).

Lemma get_index_config_run c (s : St) : get_index_config c s = Ok (config_of (inst s), s).
Proof. unfold get_index_config, iget_or, config_of. by destruct (sget (inst s) config_slot). Qed.

Lemma enabled_run ty c (s : St) : is_indexing_enabled_for_type ty c s = Ok (flag_of (inst s) ty, s).
Proof.
  unfold is_indexing_enabled_for_type, flag_of. rewrite (bind_run _ _ _ _ _ _ (get_index_config_run c s)).
  destruct (ic_indexing_enabled _); simpl; [|done]. unfold iget_or. simpl. by destruct (sget (inst s) _).
Qed.

(** Every bucket is a list. *)
Definition Lists (st : store) : Prop := forall h, exists l, holds st h l.

Lemma index_event_run ev c s :
  is_u32 (fst (fst ev)) -> 0 <= ic_bucket_max_entries (config_of (inst s)) -> Lists (inst s) ->
  exists s', index_logged tt ev c s = Ok (tt, s') /\ same_settings (inst s) (inst s') /\
    (forall h l, holds (inst s) h l ->
       holds (inst s') h (if decide (h ∈ words_in (inst s) ev)
                          then newest (limit_of (inst s)) (l ++ [fst (fst ev)]) else l)) /\
    (forall e, sget (inst s') (words_slot e) =
       if decide (e = fst (fst ev) /\ words_in (inst s) ev <> []) then Some (words_in (inst s) ev)
       else sget (inst s) (words_slot e)).
Proof.
  destruct ev as [[e ty] md]. cbn [fst snd index_logged words_in]. intros He Hm HL. unfold index_event.
  rewrite (bind_run _ _ _ _ _ _ (enabled_run ty c s)). destruct (flag_of (inst s) ty); cbn [negb].
  2: { exists s. split; [done|]. split; [done|]. split.
       - intros h l H. by rewrite decide_False by apply not_elem_of_nil.
       - intros e'. rewrite decide_False; [done|]. naive_solver. }
  rewrite (bind_run _ _ _ _ _ _ (get_index_config_run c s)).
  set (ks := keywords_under (config_of (inst s)) md).
  destruct (Z.eqb_spec (Z.of_nat (length ks)) 0) as [E|E].
  { assert (ks = []) as -> by (by apply nil_length_inv; lia). exists s. split; [done|]. split; [done|]. split.
    - intros h l H. by rewrite decide_False by apply not_elem_of_nil.
    - intros e'. rewrite decide_False; [done|]. naive_solver. }
  destruct (fold_buckets (fun _ h => bucket_append h e (ic_bucket_max_entries (config_of (inst s))))
              (fun l => newest (limit_of (inst s)) (l ++ [e])) c
              ltac:(intros h t l; by apply bucket_append_run)
              ks s (keywords_NoDup _ _) HL) as (s1 & R & [S W] & H).
  unfold append_all. rewrite (bind_run _ _ _ _ _ _ R).
  unfold load_stats, save_stats, iset, iget_or, bind. simpl. eexists. split; [reflexivity|]. simpl. split.
  { split; [|intros ty']; rewrite !sset_ne by done; apply S. }
  split.
  - intros h l Hl. eapply holds_same; [| |by apply H]; by rewrite !sset_ne by done.
  - intros e'. rewrite sset_ne by done. case_decide as D.
    + destruct D as [-> _]. by rewrite sset_eq.
    + rewrite sset_ne; [apply W|]. intros [= <-]. apply D. split; [done|]. by intros ->.
Qed.

(** The events of a log that have a keyword, by index. *)
Definition having (st : store) (h : Hash) (log : list Logged) : list Z :=
  (fun ev => fst (fst ev)) <$> List.filter (fun ev => bool_decide (h ∈ words_in st ev)) log.

Lemma having_app st h l k : having st h (l ++ k) = having st h l ++ having st h k.
Proof. unfold having. by rewrite List.filter_app, fmap_app. Qed.

Lemma having_one st h ev : having st h [ev] = if decide (h ∈ words_in st ev) then [fst (fst ev)] else [].
Proof. unfold having. cbn [List.filter]. case_bool_decide; by case_decide. Qed.

Lemma words_in_same st st' ev : same_settings st st' -> words_in st' ev = words_in st ev.
Proof.
  intros H. destruct ev as [[e ty] md]. simpl. by rewrite (same_settings_config _ _ H), (same_settings_flag _ _ ty H).
Qed.

Lemma having_same st st' h log : same_settings st st' -> having st' h log = having st h log.
Proof.
  intros H. unfold having. f_equal. apply List.filter_ext. intros ev. by rewrite (words_in_same _ _ ev H).
Qed.

(** Indexing a log from an empty index leaves the newest entries of each list,
    and the keywords of the events. *)
Lemma index_log_run c log s :
  Forall (fun ev => is_u32 (fst (fst ev))) log -> 0 <= ic_bucket_max_entries (config_of (inst s)) ->
  (forall h, holds (inst s) h []) ->
  exists s', fold_m index_logged tt log c s = Ok (tt, s') /\ same_settings (inst s) (inst s') /\
    (forall h, holds (inst s') h (newest (limit_of (inst s)) (having (inst s) h log))) /\
    (forall ev, NoDup ((fun ev => fst (fst ev)) <$> log) -> ev ∈ log -> words_in (inst s) ev <> [] ->
       sget (inst s') (words_slot (fst (fst ev))) = Some (words_in (inst s) ev)).
Proof.
  intros Hlog Hm H0. induction log as [|ev log IH] using rev_ind.
  - exists s. split; [done|]. split; [done|]. split; [done|]. intros ev _ []%not_elem_of_nil.
  - apply Forall_app in Hlog as [Hlog [He _]%Forall_cons]. destruct (IH Hlog) as (s1 & R1 & S1 & H1 & W1).
    assert (limit_of (inst s1) = limit_of (inst s)) as El
      by (unfold limit_of; by rewrite (same_settings_config _ _ S1)).
    destruct (index_event_run ev c s1) as (s2 & R2 & S2 & H2 & W2);
      [done|by rewrite (same_settings_config _ _ S1)|by intros h; eauto|].
    rewrite El, (words_in_same _ _ ev S1) in H2. rewrite (words_in_same _ _ ev S1) in W2.
    exists s2. split; [|split; [by eapply same_settings_trans|split]].
    + clear - R1 R2. assert (forall l t, fold_m index_logged tt l c t = Ok (tt, s1) ->
        fold_m index_logged tt (l ++ [ev]) c t = Ok (tt, s2)) as K; [|by apply K].
      induction l as [|x l IH]; intros t; simpl.
      * intros [= ->]. by rewrite (bind_run _ _ _ _ _ _ R2).
      * intros ([] & t1 & E & F)%bind_Ok. rewrite (bind_run _ _ _ _ _ _ E). by apply IH.
    + intros h. specialize (H2 h _ (H1 h)). rewrite having_app, having_one. case_decide.
      * by rewrite newest_app in H2.
      * by rewrite app_nil_r.
    + intros ev' Hd. rewrite fmap_app in Hd. simpl in Hd. apply NoDup_app in Hd as (Hd & Hx & _).
      rewrite W2. intros [Hin| ->%list_elem_of_singleton]%elem_of_app Hw.
      * rewrite decide_False; [by apply W1|]. intros [E _]. apply (Hx (fst (fst ev'))).
        -- apply list_elem_of_fmap; eauto.
        -- rewrite E. by constructor.
      * by rewrite decide_True.
Qed.

(** A page of a list. *)
Definition page_of {A} (page page_size : Z) (l : list A) : list A :=
  let size := Z.to_nat (Z.min page_size MAX_SEARCH_PAGE_SIZE) in
  take size (drop (Z.to_nat page * size) l).

(** The hash a search looks up. *)
Definition looked_up (keyword : Bytes) : Hash := sha256 (to_lower <$> keyword).

Lemma search_run keyword page page_size c s l :
  keyword <> [] -> 0 <= page -> 0 <= page_size -> len l <= u32_max -> holds (inst s) (looked_up keyword) l ->
  search_events_by_keyword keyword page page_size c s =
  Ok ((fun e => mkKeywordSearchResult e (looked_up keyword)) <$> page_of page page_size l, s).
Proof.
  intros Hk Hp Hz Hlen Hh. pose proof (load_bucket_run _ c _ _ Hh) as El. destruct Hh as [Hl _].
  unfold search_events_by_keyword, page_of. rewrite bool_decide_false by done. simpl.
  destruct (Z.eqb_spec page_size 0) as [->|Hz0]; [done|].
  fold (looked_up keyword). rewrite (bind_run _ _ _ _ _ _ El).
  case_bool_decide as Hn. { apply pack_nil in Hn as ->. by rewrite drop_nil, take_nil. }
  rewrite count_pack. set (z := Z.min page_size MAX_SEARCH_PAGE_SIZE).
  assert (0 < z) as Hz1 by (unfold z, MAX_SEARCH_PAGE_SIZE; lia).
  assert (page * z = Z.of_nat (Z.to_nat page * Z.to_nat z)) as Em by lia.
  set (a := (Z.to_nat page * Z.to_nat z)%nat) in *. rewrite Em. unfold len in *.
  destruct (Z.leb_spec (Z.of_nat (length l)) (Z.min (Z.of_nat a) u32_max)).
  - unfold ret. rewrite drop_ge, take_nil by lia. done.
  - unfold ret. rewrite Z.min_l by lia.
    replace (Z.min (Z.of_nat a + z) (Z.of_nat (length l))) with (Z.of_nat (a + Z.to_nat z `min` (length l - a))) by lia.
    rewrite (list_fmap_compose (fun i => word_at (pack l) (i * 4))
               (fun e => mkKeywordSearchResult e (looked_up keyword))).
    rewrite words_pack by (done || lia). do 3 f_equal.
    rewrite <- take_take. f_equal. rewrite take_ge; [done|]. rewrite length_drop. lia.
Qed.

(** No keyword has a bucket. *)
Definition Empty (st : store) : Prop :=
  forall h, sget st (bucket_slot h) = None /\ sget st (count_slot h) = None.

Lemma Empty_holds st h : Empty st -> holds st h [].
Proof. intros H. split; [done|]. right. by destruct (H h). Qed.

(** What the index keeps of a log for a keyword: the newest of the events whose
    type is indexed and whose metadata has it. *)
Definition kept (st : store) (h : Hash) (log : list Logged) : list Z := newest (limit_of st) (having st h log).

Lemma kept_length st h log : ic_bucket_max_entries (config_of st) <= u32_max -> len (kept st h log) <= u32_max.
Proof.
  intros H. pose proof (newest_length (limit_of st) (having st h log)). unfold kept, len, limit_of in *.
  unfold u32_max in *. lia.
Qed.

(** C40: Searching an index built from a log is scanning the log: the packed
    buckets, their eviction and the pages answer as the list of the events
    that have the keyword. *)
Theorem searching_scans_the_log c log s :
  Forall (fun ev => is_u32 (fst (fst ev))) log ->
  0 <= ic_bucket_max_entries (config_of (inst s)) <= u32_max -> Empty (inst s) ->
  exists s', fold_m index_logged tt log c s = Ok (tt, s') /\
    forall keyword page page_size, keyword <> [] -> 0 <= page -> 0 <= page_size ->
      search_events_by_keyword keyword page page_size c s' =
        Ok ((fun e => mkKeywordSearchResult e (looked_up keyword)) <$>
              page_of page page_size (kept (inst s) (looked_up keyword) log), s') /\
      keyword_entry_count keyword c s' = Ok (len (kept (inst s) (looked_up keyword) log), s').
Proof.
  intros Hlog [Hm Hm2] H0.
  destruct (index_log_run c log s Hlog Hm (fun h => Empty_holds _ h H0)) as (s' & R & _ & H & _).
  exists s'. split; [done|]. intros keyword page page_size Hk Hp Hz. specialize (H (looked_up keyword)). split.
  - apply search_run; try done. by apply kept_length.
  - unfold keyword_entry_count. rewrite bool_decide_false by done. fold (looked_up keyword). unfold iget_or.
    destruct H as [_ [[_ E]|(_ & E & K)]]; rewrite E; [done|]. unfold kept. by rewrite K.
Qed.

Lemma remove_event_run e ks c s :
  sget (inst s) (words_slot e) = Some ks -> NoDup ks -> Lists (inst s) ->
  exists s', remove_event_from_index e c s = Ok (tt, s') /\
    sget (inst s') (words_slot e) = None /\
    forall h l, holds (inst s) h l ->
      holds (inst s') h (if decide (h ∈ ks) then List.filter (fun i => negb (Z.eqb i e)) l else l).
Proof.
  intros E Hd HL. unfold remove_event_from_index.
  assert (get_event_keywords e c s = Ok (ks, s)) as G by (unfold get_event_keywords, iget_or; by rewrite E).
  rewrite (bind_run _ _ _ _ _ _ G).
  destruct (fold_buckets (remove_from_bucket e) (List.filter (fun i => negb (Z.eqb i e))) c
              ltac:(intros; by apply remove_from_bucket_run) ks s Hd HL) as (s1 & R & _ & H).
  rewrite (bind_run _ _ _ _ _ _ R). unfold iremove. eexists. split; [reflexivity|]. simpl.
  split; [by rewrite sdel_eq|]. intros h l Hl. eapply holds_same; [| |by apply H]; by rewrite sdel_ne by done.
Qed.

Lemma words_in_NoDup st ev : NoDup (words_in st ev).
Proof. destruct ev as [[e ty] md]. simpl. destruct (flag_of st ty); [apply keywords_NoDup|constructor]. Qed.

Lemma filter_absent e l : e ∉ l -> List.filter (fun i => negb (Z.eqb i e)) l = l.
Proof.
  induction l as [|x l IH]; intros H; simpl; [done|]. apply not_elem_of_cons in H as [Hx H].
  rewrite IH by done. destruct (Z.eqb_spec x e); congruence || done.
Qed.

(** An event of a log without repetition is kept under its own keywords only. *)
Lemma kept_owner st h log ev :
  NoDup ((fun ev => fst (fst ev)) <$> log) -> ev ∈ log -> fst (fst ev) ∈ kept st h log -> h ∈ words_in st ev.
Proof.
  intros Hd Hin [ev' [E Hev']]%elem_of_newest%list_elem_of_fmap.
  apply list_elem_of_In, filter_In in Hev' as [Hev' Hw%bool_decide_eq_true]. apply list_elem_of_In in Hev'.
  enough (ev = ev') by congruence. clear Hw. induction log as [|x log IH]; [by apply not_elem_of_nil in Hin|].
  apply NoDup_cons in Hd as [Hx Hd].
  apply elem_of_cons in Hin as [->|Hin], Hev' as [->|Hev']; [done| | |by apply IH].
  - destruct Hx. apply list_elem_of_fmap. eauto.
  - destruct Hx. apply list_elem_of_fmap. eauto.
Qed.

(** Taking an indexed event out of the index leaves a search with the other
    events, in their order. *)
Theorem removing_takes_an_event_out c log s ev :
  Forall (fun ev => is_u32 (fst (fst ev))) log -> NoDup ((fun ev => fst (fst ev)) <$> log) ->
  0 <= ic_bucket_max_entries (config_of (inst s)) <= u32_max -> Empty (inst s) ->
  ev ∈ log -> words_in (inst s) ev <> [] ->
  exists s' s'', fold_m index_logged tt log c s = Ok (tt, s') /\
    remove_event_from_index (fst (fst ev)) c s' = Ok (tt, s'') /\
    get_event_keywords (fst (fst ev)) c s'' = Ok ([], s'') /\
    forall keyword page page_size, keyword <> [] -> 0 <= page -> 0 <= page_size ->
      search_events_by_keyword keyword page page_size c s'' =
        Ok ((fun e => mkKeywordSearchResult e (looked_up keyword)) <$>
              page_of page page_size (List.filter (fun i => negb (Z.eqb i (fst (fst ev))))
                (kept (inst s) (looked_up keyword) log)), s'').
Proof.
  intros Hlog Hd [Hm Hm2] H0 Hin Hw.
  destruct (index_log_run c log s Hlog Hm (fun h => Empty_holds _ h H0)) as (s1 & R1 & _ & H1 & W1).
  destruct (remove_event_run _ _ c s1 (W1 _ Hd Hin Hw) (words_in_NoDup _ _)) as (s2 & R2 & G & H2).
  { intros h. eauto. }
  exists s1, s2. split; [done|]. split; [done|]. split.
  { unfold get_event_keywords, iget_or. by rewrite G. }
  intros keyword page page_size Hk Hp Hz. specialize (H2 _ _ (H1 (looked_up keyword))).
  apply search_run; try done.
  - etransitivity; [|apply (kept_length (inst s) (looked_up keyword) log Hm2)].
    unfold len. apply inj_le. apply List.filter_length_le.
  - fold (kept (inst s) (looked_up keyword) log) in H2. case_decide as D; [done|].
    rewrite filter_absent; [done|]. intros K. by apply D, (kept_owner (inst s) _ log).
Qed.

(** The letters of a word. *)
Definition is_letter (b : Z) : Prop := 97 <= b <= 122.

Lemma letter_scanned b : is_letter b -> is_delimiter b = false /\ Z.ltb b 32 || Z.ltb 126 b = false /\ to_lower b = b.
Proof.
  unfold is_letter, is_delimiter, to_lower. intros H. split.
  - cbn [existsb]. rewrite !(proj2 (Z.eqb_neq b _)) by lia. done.
  - rewrite (proj2 (Z.ltb_ge b 32)), (proj2 (Z.ltb_ge 126 b)), (proj2 (Z.leb_gt b 90)) by lia.
    split; [done|]. by rewrite andb_false_r.
Qed.

Lemma to_lower_letters w : Forall is_letter w -> to_lower <$> w = w.
Proof. induction 1 as [|b w Hb _ IH]; simpl; [done|]. destruct (letter_scanned b Hb) as (_ & _ & ->). by f_equal. Qed.

Lemma scan_letters a b n w : 0 < n -> Forall is_letter w -> forall t,
  scan_bytes a b n w t [] = (take (Nat.max 32 (length t)) (t ++ w), []).
Proof.
  intros Hn. induction 1 as [|x w Hx _ IH]; intros t; cbn [scan_bytes].
  - by rewrite app_nil_r, take_ge by lia.
  - destruct (letter_scanned x Hx) as (-> & -> & ->).
    rewrite (proj2 (Z.leb_gt n (Z.of_nat (length (@nil Hash))))) by (simpl; lia).
    destruct (Nat.ltb_spec (length t) 32); rewrite IH; f_equal.
    + rewrite <- app_assoc, length_app. simpl. f_equal. lia.
    + rewrite Nat.max_r, !take_app_length by lia. done.
Qed.

(** A word of more than 32 letters is indexed as its first 32, and a search for
    the word itself does not find it. *)
Theorem long_words_are_cut c e ty w s :
  is_u32 e -> config_of (inst s) = default_config -> flag_of (inst s) ty = true -> Empty (inst s) ->
  Forall is_letter w -> (32 < length w)%nat -> sha256 (take 32 w) <> sha256 w ->
  exists s', index_event e ty w c s = Ok (tt, s') /\
    search_events_by_keyword (take 32 w) 0 10 c s' = Ok ([mkKeywordSearchResult e (sha256 (take 32 w))], s') /\
    search_events_by_keyword w 0 10 c s' = Ok ([], s').
Proof.
  intros He Hc Hf H0 Hw Hl Hne.
  destruct (index_log_run c [(e, ty, w)] s) as (s' & R & _ & H & _);
    [by apply Forall_singleton|by rewrite Hc|intros h; by apply Empty_holds|].
  assert (words_in (inst s) (e, ty, w) = [sha256 (take 32 w)]) as Ew.
  { simpl. rewrite Hf, Hc. unfold keywords_under, extract_keywords. rewrite bool_decide_false by by destruct w.
    cbn -[scan_bytes flush_token take]. rewrite scan_letters by done.
    change (flush_token 3 32 20 [] (take 32 w) = [keyword_hash (take 32 w)]).
    assert (len (take 32 w) = 32) as Et by (unfold len; rewrite length_take; lia).
    assert (is_stop_word (take 32 w) = false) as Es.
    2: { unfold flush_token. by rewrite Et, Es. }
    apply not_true_is_false. intros Es.
    apply existsb_exists in Es as (x & Hx & Ex%bool_decide_eq_true).
    enough (Forall (fun x => (length x < 32)%nat) STOP_WORDS) as K.
    { rewrite Forall_forall in K. apply list_elem_of_In, K in Hx. rewrite <- Ex in Hx. unfold len in Et. lia. }
    by apply (bool_decide_unpack _). }
  exists s'. simpl in R. apply bind_Ok in R as ([] & s1 & R & [_ <-]%ret_Ok). split; [done|].
  assert (limit_of (inst s) = Z.to_nat 10000) as El by (unfold limit_of; by rewrite Hc).
  assert (forall k, k <> [] -> Forall is_letter k -> search_events_by_keyword k 0 10 c s' =
    Ok (if decide (sha256 k = sha256 (take 32 w)) then [mkKeywordSearchResult e (sha256 k)] else [], s')) as K.
  { intros k Hk Hk2. specialize (H (looked_up k)). unfold looked_up in H. rewrite to_lower_letters in H by done.
    rewrite having_one, Ew, El in H.
    rewrite (search_run k 0 10 c s' (if decide (sha256 k = sha256 (take 32 w)) then [e] else [])); try done.
    - unfold looked_up. rewrite to_lower_letters by done. by destruct (decide (sha256 k = _)).
    - by destruct (decide (sha256 k = _)).
    - unfold looked_up. rewrite to_lower_letters by done. destruct (decide (sha256 k = sha256 (take 32 w))) as [D|D].
      + rewrite decide_True in H by (apply list_elem_of_singleton; done). rewrite newest_ge in H by (simpl; lia). done.
      + rewrite decide_False in H by (by rewrite list_elem_of_singleton). done. }
  rewrite !K; try done; try (by destruct w); try by apply Forall_take.
  rewrite decide_True by done. by rewrite decide_False by congruence.
Qed.
End Hashed.

(** *** At concrete states *)

#[local] Existing Instance sample_crypto.

(** An index whose buckets have two entries, and three events with one word in common. *)
Definition x_small : St := post (init_index_config (mkIndexConfig true 3 32 20 2)) (at_time 0) empty_state.
Definition x_log : list Logged :=
  [(0, "login", str_bytes "disk full"); (1, "login", str_bytes "The DISK: failed");
   (2, "audit", str_bytes "disk;full")]%string.

Lemma x_small_Empty : Empty (inst x_small).
Proof. intros h. split; reflexivity. Qed.

Lemma searching_scans_the_log_witness :
  exists s', fold_m index_logged tt x_log (at_time 0) x_small = Ok (tt, s') /\
    search_events_by_keyword (str_bytes "Disk") 0 10 (at_time 0) s' =
      Ok ([mkKeywordSearchResult 1 (sha256 (str_bytes "disk"));
           mkKeywordSearchResult 2 (sha256 (str_bytes "disk"))], s').
Proof.
  destruct (searching_scans_the_log (at_time 0) x_log x_small) as (s' & R & H);
    [by apply (bool_decide_unpack _)|by split|exact x_small_Empty|].
  exists s'. split; [exact R|]. destruct (H (str_bytes "Disk") 0 10) as [H1 _]; [done|done|done|].
  rewrite H1. reflexivity.
Defined.

Lemma removing_takes_an_event_out_witness :
  exists s' s'', fold_m index_logged tt x_log (at_time 0) x_small = Ok (tt, s') /\
    remove_event_from_index 1 (at_time 0) s' = Ok (tt, s'') /\
    search_events_by_keyword (str_bytes "disk") 0 10 (at_time 0) s'' =
      Ok ([mkKeywordSearchResult 2 (sha256 (str_bytes "disk"))], s'').
Proof.
  destruct (removing_takes_an_event_out (at_time 0) x_log x_small (1, "login"%string, str_bytes "The DISK: failed"))
    as (s' & s'' & R1 & R2 & _ & H);
    [by apply (bool_decide_unpack _)|by apply (bool_decide_unpack _)|by split|exact x_small_Empty
    |by apply (bool_decide_unpack _)|done|].
  exists s', s''. split; [exact R1|]. split; [exact R2|].
  rewrite (H (str_bytes "disk") 0 10); [|done|done|done]. reflexivity.
Defined.

(** Thirty-two letters a and one letter b. *)
Definition long_word : Bytes := replicate 32 97 ++ [98].

Lemma long_words_are_cut_witness :
  exists s', index_event 7 "login" long_word (at_time 0) empty_state = Ok (tt, s') /\
    search_events_by_keyword long_word 0 10 (at_time 0) s' = Ok ([], s').
Proof.
  destruct (long_words_are_cut (at_time 0) 7 "login" long_word empty_state) as (s' & R & _ & H);
    [done|done|done|intros h; done| |simpl; lia|done|].
  - unfold is_letter. by apply (bool_decide_unpack _).
  - exists s'. split; [exact R|exact H].
Defined.

End Searching.
