(* ===== verification/Reserves.v ===== *)
(** * Reserves, tokenized assets and the bridge

    Three contracts whose modules are outside of the crate: the audit of the
    reserves of a stablecoin (src/stablecoin_reserves.rs,
    src/stablecoin_reserves_impl.rs), the bridge that records the balances its
    relays attest (src/cross_chain_bridge.rs), and the life cycle of tokenized
    assets (src/asset_lifecycle.rs, src/asset_lifecycle_impl.rs).  An entry point
    that returns an [Err] has no effect: the host rolls its writes back.  The
    invoker is an argument of the operations that ask the environment for it.

    The theorems: what the total of the reserves and the Merkle functions
    compute, what a recorded balance rests on, and what the tokens allow. *)

From stdpp Require Import relations.
From S2P Require Import Prelude Contract Fallible StorageLemmas Codec Sample.

(** [u128::saturating_add], [saturating_sub] and [saturating_mul]. *)
Definition u128_plus (a b : Z) : Z := Z.min (a + b) u128_max.
Definition u128_minus (a b : Z) : Z := Z.max (a - b) 0.
Definition u128_times (a b : Z) : Z := Z.min (a * b) u128_max.

(** [[0u8; n]]. *)
Definition zeros (n : nat) : Bytes := replicate n 0.

(** A buffer of 32 bytes that the text of an address is copied into when it fits. *)
Definition address_slot (a : Address) : Bytes :=
  let b := str_bytes a in
  if Nat.leb (length b) 32 then b ++ zeros (32 - length b) else zeros 32.

(** ** The audit of reserves *)

Module StablecoinReserves.

Module ReserveError.
(** [ReserveError], src/stablecoin_reserves.rs:15-36 *)
Inductive ReserveError : Set :=
  | AssetNotFound | InsufficientReserve | InvalidAttestation | ReportGenerationFailed
  | ZkProofVerificationFailed | UnauthorizedRedemption | StressTestNotFound | InvalidProofFormat
  | MerkleTreeValidationFailed | RangeProofValidationFailed.
#[global] Instance ReserveError_eq_dec : EqDecision ReserveError.
Proof. solve_decision. Defined.
End ReserveError.
Abbreviation ReserveError := ReserveError.ReserveError.

Module AssetType.
(** [AssetType], src/stablecoin_reserves.rs:41-52 *)
Inductive AssetType : Set :=
  | USDCash | TreasuryBills | BankDeposits | Cryptocurrency | Other.
#[global] Instance AssetType_eq_dec : EqDecision AssetType.
Proof. solve_decision. Defined.
End AssetType.
Abbreviation AssetType := AssetType.AssetType.

(** [AssetVerification], src/stablecoin_reserves.rs:57-72 *)
Record AssetVerification := mkAssetVerification {
  av_asset_id : Hash;
  av_asset_type : AssetType;
  av_quantity : Z;
  av_custody_address : Address;
  av_verified_at : Z;
  av_verified_by : Address;
  av_proof_hash : Hash }.

(** [Attestation], src/stablecoin_reserves.rs:77-94 *)
Record Attestation := mkAttestation {
  at_attestation_id : Hash;
  at_attestor : Address;
  at_asset_id : Hash;
  at_attested_quantity : Z;
  at_timestamp : Z;
  at_signature : Hash;
  at_public_key : Hash;
  at_expires_at : Z }.

(** [TransparencyReport], src/stablecoin_reserves.rs:99-118 *)
Record TransparencyReport := mkTransparencyReport {
  tr_report_id : Hash;
  tr_created_at : Z;
  tr_period_start : Z;
  tr_period_end : Z;
  tr_total_reserve : Z;
  tr_asset_count : Z;
  tr_asset_breakdown_hash : Hash;
  tr_attestations_hash : Hash;
  tr_merkle_root : Hash }.

(** [RedemptionRequest], src/stablecoin_reserves.rs:123-138 *)
Record RedemptionRequest := mkRedemptionRequest {
  rr_redemption_id : Hash;
  rr_requester : Address;
  rr_quantity : Z;
  rr_status : Z;
  rr_requested_at : Z;
  rr_executed_at : Z;
  rr_asset_id : Hash }.

(** [StressTest], src/stablecoin_reserves.rs:143-158 *)
Record StressTest := mkStressTest {
  st_test_id : Hash;
  st_description : Bytes;
  st_depletion_percent : Z;
  st_recovery_procedures_hash : Hash;
  st_executed_at : Z;
  st_outcome : Z;
  st_notes : Bytes }.

Module ZkProofType.
(** [ZkProofType], src/stablecoin_reserves.rs:163-172 *)
Inductive ZkProofType : Set :=
  | RangeProof | MerkleProof | CommitmentProof | AggregatedProof.
#[global] Instance ZkProofType_eq_dec : EqDecision ZkProofType.
Proof. solve_decision. Defined.
End ZkProofType.
Abbreviation ZkProofType := ZkProofType.ZkProofType.

(** [ZkProofOfReserves], src/stablecoin_reserves.rs:177-194 *)
Record ZkProofOfReserves := mkZkProofOfReserves {
  zk_proof_id : Hash;
  zk_proof_type : ZkProofType;
  zk_proof_data : Bytes;
  zk_commitment : Hash;
  zk_generated_at : Z;
  zk_verified_at : Z;
  zk_verified_by : Address;
  zk_expires_at : Z }.

(** [MerkleNode], src/stablecoin_reserves.rs:199-208 *)
Record MerkleNode := mkMerkleNode {
  mn_hash : Hash;
  mn_left : Hash;
  mn_right : Hash;
  mn_depth : Z }.

(** [AuditEntry], src/stablecoin_reserves.rs:213-226 *)
Record AuditEntry := mkAuditEntry {
  ae_entry_id : Hash;
  ae_event_type : Symbol;
  ae_entity_id : Hash;
  ae_actor : Address;
  ae_timestamp : Z;
  ae_notes : Bytes }.

Module ReserveDataKey.
(** [ReserveDataKey], src/stablecoin_reserves.rs:231-276 *)
Inductive ReserveDataKey : Set :=
  | Asset (a0 : Hash)
  | Attestation (a0 : Hash)
  | Report (a0 : Hash)
  | Redemption (a0 : Hash)
  | StressTest (a0 : Hash)
  | ZkProof (a0 : Hash)
  | AssetList
  | AttestationList
  | ReportList
  | RedemptionList
  | StressTestList
  | AssetCount
  | AttestationCount
  | ReportCount
  | RedemptionCount
  | StressTestCount
  | AuditEntry (a0 : Hash)
  | MerkleNode (a0 : Hash)
  | ReserveAuthority
  | LastReportTime
  | TotalAttestedReserve
  | ZkProofVerified (a0 : Hash).
#[global] Instance ReserveDataKey_eq_dec : EqDecision ReserveDataKey.
Proof. solve_decision. Defined.
End ReserveDataKey.
Abbreviation ReserveDataKey := ReserveDataKey.ReserveDataKey.

Inductive ReserveTy : Set :=
  | RvAsset | RvAttestation | RvReport | RvRedemption | RvStressTest | RvProof | RvEntry | RvNode | RvIds
  | RvNumber | RvAddress | RvBool.
#[global] Instance ReserveTy_eq_dec : EqDecision ReserveTy.
Proof. solve_decision. Defined.

Definition reserve_el (t : ReserveTy) : Type :=
  match t with
  | RvAsset => AssetVerification | RvAttestation => Attestation | RvReport => TransparencyReport
  | RvRedemption => RedemptionRequest | RvStressTest => StressTest | RvProof => ZkProofOfReserves
  | RvEntry => AuditEntry | RvNode => MerkleNode | RvIds => list Hash | RvNumber => Z | RvAddress => Address
  | RvBool => bool
  end.

Definition reserve_key_ty (k : ReserveDataKey) : ReserveTy :=
  match k with
  | ReserveDataKey.Asset _ => RvAsset
  | ReserveDataKey.Attestation _ => RvAttestation
  | ReserveDataKey.Report _ => RvReport
  | ReserveDataKey.Redemption _ => RvRedemption
  | ReserveDataKey.StressTest _ => RvStressTest
  | ReserveDataKey.ZkProof _ => RvProof
  | ReserveDataKey.AuditEntry _ => RvEntry
  | ReserveDataKey.MerkleNode _ => RvNode
  | ReserveDataKey.AssetList | ReserveDataKey.AttestationList | ReserveDataKey.ReportList
  | ReserveDataKey.RedemptionList | ReserveDataKey.StressTestList => RvIds
  | ReserveDataKey.ReserveAuthority => RvAddress
  | ReserveDataKey.ZkProofVerified _ => RvBool
  | _ => RvNumber
  end.

Canonical reserve_layout : Layout := {|
  key := ReserveDataKey; ty := ReserveTy; el := reserve_el; layout_key_ty := reserve_key_ty;
  key_dec := _; ty_dec := _; error := ReserveError; datum := Payload |}.

Abbreviation M := (CM reserve_layout).
Abbreviation St := (CSt reserve_layout).
Abbreviation store := (kvstore reserve_layout).

(** *** Storage *)

(** [storage_get_asset], src/stablecoin_reserves_impl.rs:491-494 *)
Definition storage_get_asset (asset_id : Hash) : M (option AssetVerification) := pget (ReserveDataKey.Asset asset_id).
(** [storage_set_asset], src/stablecoin_reserves_impl.rs:496-499 *)
Definition storage_set_asset (asset_id : Hash) (v : AssetVerification) : M unit :=
  pset (ReserveDataKey.Asset asset_id) v.
(** [storage_get_asset_list], src/stablecoin_reserves_impl.rs:501-508 *)
Definition storage_get_asset_list : M (list Hash) := pget_or ReserveDataKey.AssetList [].
(** [storage_set_asset_list], src/stablecoin_reserves_impl.rs:510-513 *)
Definition storage_set_asset_list (v : list Hash) : M unit := pset ReserveDataKey.AssetList v.
(** [storage_get_asset_count], src/stablecoin_reserves_impl.rs:515-522 *)
Definition storage_get_asset_count : M Z := pget_or ReserveDataKey.AssetCount 0.
(** [storage_set_asset_count], src/stablecoin_reserves_impl.rs:524-527 *)
Definition storage_set_asset_count (v : Z) : M unit := pset ReserveDataKey.AssetCount v.

(** [storage_get_attestation], src/stablecoin_reserves_impl.rs:530-533 *)
Definition storage_get_attestation (attestation_id : Hash) : M (option Attestation) :=
  pget (ReserveDataKey.Attestation attestation_id).
(** [storage_set_attestation], src/stablecoin_reserves_impl.rs:535-538 *)
Definition storage_set_attestation (attestation_id : Hash) (v : Attestation) : M unit :=
  pset (ReserveDataKey.Attestation attestation_id) v.
(** [storage_get_attestation_list], src/stablecoin_reserves_impl.rs:540-547 *)
Definition storage_get_attestation_list : M (list Hash) := pget_or ReserveDataKey.AttestationList [].
(** [storage_set_attestation_list], src/stablecoin_reserves_impl.rs:549-552 *)
Definition storage_set_attestation_list (v : list Hash) : M unit := pset ReserveDataKey.AttestationList v.
(** [storage_get_attestation_count], src/stablecoin_reserves_impl.rs:554-561 *)
Definition storage_get_attestation_count : M Z := pget_or ReserveDataKey.AttestationCount 0.
(** [storage_set_attestation_count], src/stablecoin_reserves_impl.rs:563-566 *)
Definition storage_set_attestation_count (v : Z) : M unit := pset ReserveDataKey.AttestationCount v.

(** [storage_get_report], src/stablecoin_reserves_impl.rs:569-572 *)
Definition storage_get_report (report_id : Hash) : M (option TransparencyReport) :=
  pget (ReserveDataKey.Report report_id).
(** [storage_set_report], src/stablecoin_reserves_impl.rs:574-577 *)
Definition storage_set_report (report_id : Hash) (v : TransparencyReport) : M unit :=
  pset (ReserveDataKey.Report report_id) v.
(** [storage_get_report_list], src/stablecoin_reserves_impl.rs:579-586 *)
Definition storage_get_report_list : M (list Hash) := pget_or ReserveDataKey.ReportList [].
(** [storage_set_report_list], src/stablecoin_reserves_impl.rs:588-591 *)
Definition storage_set_report_list (v : list Hash) : M unit := pset ReserveDataKey.ReportList v.
(** [storage_get_report_count], src/stablecoin_reserves_impl.rs:593-600 *)
Definition storage_get_report_count : M Z := pget_or ReserveDataKey.ReportCount 0.
(** [storage_set_report_count], src/stablecoin_reserves_impl.rs:602-605 *)
Definition storage_set_report_count (v : Z) : M unit := pset ReserveDataKey.ReportCount v.

(** [storage_get_redemption], src/stablecoin_reserves_impl.rs:613-616 *)
Definition storage_get_redemption (redemption_id : Hash) : M (option RedemptionRequest) :=
  pget (ReserveDataKey.Redemption redemption_id).
(** [storage_set_redemption], src/stablecoin_reserves_impl.rs:618-621 *)
Definition storage_set_redemption (redemption_id : Hash) (v : RedemptionRequest) : M unit :=
  pset (ReserveDataKey.Redemption redemption_id) v.
(** [storage_get_redemption_list], src/stablecoin_reserves_impl.rs:623-630 *)
Definition storage_get_redemption_list : M (list Hash) := pget_or ReserveDataKey.RedemptionList [].
(** [storage_set_redemption_list], src/stablecoin_reserves_impl.rs:632-635 *)
Definition storage_set_redemption_list (v : list Hash) : M unit := pset ReserveDataKey.RedemptionList v.
(** [storage_get_redemption_count], src/stablecoin_reserves_impl.rs:637-644 *)
Definition storage_get_redemption_count : M Z := pget_or ReserveDataKey.RedemptionCount 0.
(** [storage_set_redemption_count], src/stablecoin_reserves_impl.rs:646-649 *)
Definition storage_set_redemption_count (v : Z) : M unit := pset ReserveDataKey.RedemptionCount v.

(** [storage_get_stress_test], src/stablecoin_reserves_impl.rs:652-655 *)
Definition storage_get_stress_test (test_id : Hash) : M (option StressTest) := pget (ReserveDataKey.StressTest test_id).
(** [storage_set_stress_test], src/stablecoin_reserves_impl.rs:657-660 *)
Definition storage_set_stress_test (test_id : Hash) (v : StressTest) : M unit :=
  pset (ReserveDataKey.StressTest test_id) v.
(** [storage_get_stress_test_list], src/stablecoin_reserves_impl.rs:662-669 *)
Definition storage_get_stress_test_list : M (list Hash) := pget_or ReserveDataKey.StressTestList [].
(** [storage_set_stress_test_list], src/stablecoin_reserves_impl.rs:671-674 *)
Definition storage_set_stress_test_list (v : list Hash) : M unit := pset ReserveDataKey.StressTestList v.
(** [storage_get_stress_test_count], src/stablecoin_reserves_impl.rs:676-683 *)
Definition storage_get_stress_test_count : M Z := pget_or ReserveDataKey.StressTestCount 0.
(** [storage_set_stress_test_count], src/stablecoin_reserves_impl.rs:685-688 *)
Definition storage_set_stress_test_count (v : Z) : M unit := pset ReserveDataKey.StressTestCount v.

(** [storage_set_last_report_time], src/stablecoin_reserves_impl.rs:607-610 *)
Definition storage_set_last_report_time (v : Z) : M unit := pset ReserveDataKey.LastReportTime v.
(** [storage_get_total_attested_reserve], src/stablecoin_reserves_impl.rs:712-719 *)
Definition storage_get_total_attested_reserve : M Z := pget_or ReserveDataKey.TotalAttestedReserve 0.
(** [storage_set_total_attested_reserve], src/stablecoin_reserves_impl.rs:721-724 *)
Definition storage_set_total_attested_reserve (v : Z) : M unit := pset ReserveDataKey.TotalAttestedReserve v.
(** [storage_set_zk_proof], src/stablecoin_reserves_impl.rs:696-699 *)
Definition storage_set_zk_proof (proof_id : Hash) (v : ZkProofOfReserves) : M unit :=
  pset (ReserveDataKey.ZkProof proof_id) v.
(** [storage_set_zk_proof_verified], src/stablecoin_reserves_impl.rs:701-704 *)
Definition storage_set_zk_proof_verified (proof_id : Hash) (v : bool) : M unit :=
  pset (ReserveDataKey.ZkProofVerified proof_id) v.
(** [storage_set_audit_entry], src/stablecoin_reserves_impl.rs:707-710 *)
Definition storage_set_audit_entry (entry_id : Hash) (v : AuditEntry) : M unit :=
  pset (ReserveDataKey.AuditEntry entry_id) v.

(** A counter raised by one. *)
Definition count_one (get : M Z) (set : Z -> M unit) : M unit :=
  let* count := get in
  let* count := u32_add count 1 in
  set count.

(** An identifier entered at the end of a list. *)
Definition list_one (get : M (list Hash)) (set : list Hash -> M unit) (id : Hash) : M unit :=
  let* l := get in set (l ++ [id]).

(** *** Signatures and proofs *)

(** [verify_signature], src/stablecoin_reserves_impl.rs:792-796 *)
Definition verify_signature (_signer : Address) (_data : Attestation) (_signature : Hash) : bool := true.
(** [verify_range_proof_internal], src/stablecoin_reserves_impl.rs:800-804 *)
Definition verify_range_proof_internal (proof_data : Bytes) (_commitment : Hash) : bool := Z.ltb 0 (len proof_data).
(** [verify_merkle_proof_internal], src/stablecoin_reserves_impl.rs:806-810 *)
Definition verify_merkle_proof_internal (proof_data : Bytes) (_commitment : Hash) : bool := Z.ltb 0 (len proof_data).
(** [verify_commitment_proof_internal], src/stablecoin_reserves_impl.rs:812-816 *)
Definition verify_commitment_proof_internal (proof_data : Bytes) (_commitment : Hash) : bool :=
  Z.ltb 0 (len proof_data).
(** [verify_aggregated_proof_internal], src/stablecoin_reserves_impl.rs:818-822 *)
Definition verify_aggregated_proof_internal (proof_data : Bytes) (_commitment : Hash) : bool :=
  Z.ltb 0 (len proof_data).

(** *** Reading *)

(** [get_asset], src/stablecoin_reserves_impl.rs:114-117 *)
Definition get_asset (asset_id : Hash) : M AssetVerification :=
  let* o := storage_get_asset asset_id in unwrap_or_raise o ReserveError.AssetNotFound.
(** [get_attestation], src/stablecoin_reserves_impl.rs:184-191 *)
Definition get_attestation (attestation_id : Hash) : M Attestation :=
  let* o := storage_get_attestation attestation_id in unwrap_or_raise o ReserveError.InvalidAttestation.
(** [get_report], src/stablecoin_reserves_impl.rs:239-243 *)
Definition get_report (report_id : Hash) : M TransparencyReport :=
  let* o := storage_get_report report_id in unwrap_or_raise o ReserveError.ReportGenerationFailed.
(** [get_latest_report], src/stablecoin_reserves_impl.rs:245-255 *)
Definition get_latest_report : M TransparencyReport :=
  let* report_list := storage_get_report_list in
  do* reject_if (Z.eqb (len report_list) 0) ReserveError.ReportGenerationFailed in
  let* latest_id := unwrap (vget report_list (len report_list - 1)) in
  get_report latest_id.
(** [get_redemption], src/stablecoin_reserves_impl.rs:337-341 *)
Definition get_redemption (redemption_id : Hash) : M RedemptionRequest :=
  let* o := storage_get_redemption redemption_id in unwrap_or_raise o ReserveError.UnauthorizedRedemption.
(** [get_stress_test], src/stablecoin_reserves_impl.rs:383-387 *)
Definition get_stress_test (test_id : Hash) : M StressTest :=
  let* o := storage_get_stress_test test_id in unwrap_or_raise o ReserveError.StressTestNotFound.
(** [total_reserve], src/stablecoin_reserves_impl.rs:464-466 *)
Definition total_reserve : M Z := storage_get_total_attested_reserve.
(** [asset_count], src/stablecoin_reserves_impl.rs:468-470 *)
Definition asset_count : M Z := storage_get_asset_count.
(** [attestation_count], src/stablecoin_reserves_impl.rs:472-474 *)
Definition attestation_count : M Z := storage_get_attestation_count.
(** [report_count], src/stablecoin_reserves_impl.rs:476-478 *)
Definition report_count : M Z := storage_get_report_count.
(** [redemption_count], src/stablecoin_reserves_impl.rs:480-482 *)
Definition redemption_count : M Z := storage_get_redemption_count.
(** [stress_test_count], src/stablecoin_reserves_impl.rs:484-486 *)
Definition stress_test_count : M Z := storage_get_stress_test_count.

Section Hashed.
Context `{C : Crypto}.

(** *** Identifiers *)

(** The number [compute_asset_id] has for a type of assets. *)
Definition asset_code (asset_type : AssetType) : Z :=
  match asset_type with
  | AssetType.USDCash => 1 | AssetType.TreasuryBills => 2 | AssetType.BankDeposits => 3
  | AssetType.Cryptocurrency => 4 | AssetType.Other => 5
  end.

(** [compute_asset_id], src/stablecoin_reserves_impl.rs:728-739 *)
Definition compute_asset_id (custody_address : Address) (asset_type : AssetType) : M Hash :=
  match vget (str_bytes custody_address) 0 with
  | Some first => ret (sha256 [first; asset_code asset_type])
  | None => panic OutOfBounds
  end.
(** [compute_attestation_id], src/stablecoin_reserves_impl.rs:741-749 *)
Definition compute_attestation_id (attestor : Address) (asset_id : Hash) : Hash :=
  sha256 (address_slot attestor ++ asset_id).
(** [compute_report_id], src/stablecoin_reserves_impl.rs:751-756 *)
Definition compute_report_id (period_start period_end : Z) : Hash :=
  sha256 (u64_to_bytes period_start ++ u64_to_bytes period_end).
(** [compute_redemption_id], src/stablecoin_reserves_impl.rs:758-767 *)
Definition compute_redemption_id (requester : Address) : M Hash :=
  let* nonce := ledger_timestamp in ret (sha256 (address_slot requester ++ u64_to_bytes nonce)).
(** [compute_stress_test_id], src/stablecoin_reserves_impl.rs:769-772 *)
Definition compute_stress_test_id : M Hash :=
  let* nonce := ledger_timestamp in ret (sha256 (u64_to_bytes nonce)).
(** [compute_entry_id], src/stablecoin_reserves_impl.rs:774-780 *)
Definition compute_entry_id (entity_id : Hash) : M Hash :=
  let* nonce := ledger_timestamp in ret (sha256 (entity_id ++ u64_to_bytes nonce)).
(** [compute_zk_proof_id], src/stablecoin_reserves_impl.rs:782-788 *)
Definition compute_zk_proof_id (commitment : Hash) : M Hash :=
  let* nonce := ledger_timestamp in ret (sha256 (commitment ++ u64_to_bytes nonce)).

(** *** Assets *)

(** [register_asset], src/stablecoin_reserves_impl.rs:19-77 *)
Definition register_asset (asset_type : AssetType) (quantity : Z) (custody_address : Address) (proof_hash : Hash)
    : M Hash :=
  let* asset_id := compute_asset_id custody_address asset_type in
  let* there := storage_get_asset asset_id in
  match there with
  | Some _ => ret asset_id
  | None =>
      let* now := ledger_timestamp in
      do* storage_set_asset asset_id
            (mkAssetVerification asset_id asset_type quantity custody_address now custody_address proof_hash) in
      do* list_one storage_get_asset_list storage_set_asset_list asset_id in
      do* count_one storage_get_asset_count storage_set_asset_count in
      let* total := storage_get_total_attested_reserve in
      do* storage_set_total_attested_reserve (u128_plus total quantity) in
      let* entry_id := compute_entry_id asset_id in
      do* storage_set_audit_entry entry_id (mkAuditEntry entry_id "asset_verified" asset_id custody_address now []) in
      ret asset_id
  end.

(** An asset with another quantity, and with another proof too. *)
Definition with_quantity (a : AssetVerification) (quantity : Z) : AssetVerification :=
  mkAssetVerification (av_asset_id a) (av_asset_type a) quantity (av_custody_address a) (av_verified_at a)
    (av_verified_by a) (av_proof_hash a).
Definition verified_again (a : AssetVerification) (quantity now : Z) (proof_hash : Hash) : AssetVerification :=
  mkAssetVerification (av_asset_id a) (av_asset_type a) quantity (av_custody_address a) now (av_verified_by a)
    proof_hash.

(** [update_asset], src/stablecoin_reserves_impl.rs:79-112 *)
Definition update_asset (asset_id : Hash) (quantity : Z) (proof_hash : Hash) : M unit :=
  let* asset := get_asset asset_id in
  let diff := if Z.ltb (av_quantity asset) quantity then u128_minus quantity (av_quantity asset)
              else u128_minus (av_quantity asset) quantity in
  let* now := ledger_timestamp in
  let asset := verified_again asset quantity now proof_hash in
  do* storage_set_asset asset_id asset in
  let* total := storage_get_total_attested_reserve in
  let new_total := if Z.ltb (av_quantity asset) quantity then u128_plus total diff else u128_minus total diff in
  storage_set_total_attested_reserve new_total.

(** *** Attestations *)

(** [record_attestation], src/stablecoin_reserves_impl.rs:121-166 *)
Definition record_attestation (attestor : Address) (asset_id : Hash) (quantity : Z) (signature public_key : Hash)
    (expires_at : Z) : M Hash :=
  do* get_asset asset_id in
  let attestation_id := compute_attestation_id attestor asset_id in
  let* now := ledger_timestamp in
  let attestation := mkAttestation attestation_id attestor asset_id quantity now signature public_key expires_at in
  do* reject_if (negb (verify_signature attestor attestation signature)) ReserveError.InvalidAttestation in
  do* storage_set_attestation attestation_id attestation in
  do* list_one storage_get_attestation_list storage_set_attestation_list attestation_id in
  do* count_one storage_get_attestation_count storage_set_attestation_count in
  ret attestation_id.

(** [verify_attestation], src/stablecoin_reserves_impl.rs:168-182 *)
Definition verify_attestation (attestation_id : Hash) : M bool :=
  let* attestation := get_attestation attestation_id in
  let* now := ledger_timestamp in
  if Z.ltb (at_expires_at attestation) now then ret false
  else ret (verify_signature (at_attestor attestation) attestation (at_signature attestation)).

(** *** Reports *)

(** [generate_report], src/stablecoin_reserves_impl.rs:195-237 *)
Definition generate_report (period_start period_end : Z) (asset_breakdown_hash attestations_hash merkle_root : Hash)
    : M Hash :=
  let* now := ledger_timestamp in
  let* total_reserve := storage_get_total_attested_reserve in
  let* asset_count := storage_get_asset_count in
  let report_id := compute_report_id period_start period_end in
  do* storage_set_report report_id
        (mkTransparencyReport report_id now period_start period_end total_reserve asset_count asset_breakdown_hash
           attestations_hash merkle_root) in
  do* list_one storage_get_report_list storage_set_report_list report_id in
  do* count_one storage_get_report_count storage_set_report_count in
  do* storage_set_last_report_time now in
  ret report_id.

(** *** Redemptions *)

(** [request_redemption], src/stablecoin_reserves_impl.rs:259-298 *)
Definition request_redemption (invoker : Address) (quantity : Z) (asset_id : Hash) : M Hash :=
  let* asset := get_asset asset_id in
  do* reject_if (Z.ltb (av_quantity asset) quantity) ReserveError.InsufficientReserve in
  let requester := invoker in
  let* redemption_id := compute_redemption_id requester in
  let* now := ledger_timestamp in
  do* storage_set_redemption redemption_id (mkRedemptionRequest redemption_id requester quantity 0 now 0 asset_id) in
  do* list_one storage_get_redemption_list storage_set_redemption_list redemption_id in
  do* count_one storage_get_redemption_count storage_set_redemption_count in
  ret redemption_id.

(** A request with another status and time of execution. *)
Definition with_status (r : RedemptionRequest) (status executed_at : Z) : RedemptionRequest :=
  mkRedemptionRequest (rr_redemption_id r) (rr_requester r) (rr_quantity r) status (rr_requested_at r) executed_at
    (rr_asset_id r).

(** [execute_redemption], src/stablecoin_reserves_impl.rs:300-335 *)
Definition execute_redemption (redemption_id : Hash) : M unit :=
  let* redemption := get_redemption redemption_id in
  do* reject_if (negb (Z.eqb (rr_status redemption) 0)) ReserveError.UnauthorizedRedemption in
  let* asset := get_asset (rr_asset_id redemption) in
  if Z.ltb (av_quantity asset) (rr_quantity redemption) then
    do* storage_set_redemption redemption_id (with_status redemption 3 (rr_executed_at redemption)) in
    raise ReserveError.InsufficientReserve
  else
    do* storage_set_asset (rr_asset_id redemption)
          (with_quantity asset (u128_minus (av_quantity asset) (rr_quantity redemption))) in
    let* now := ledger_timestamp in
    do* storage_set_redemption redemption_id (with_status redemption 2 now) in
    let* total := storage_get_total_attested_reserve in
    storage_set_total_attested_reserve (u128_minus total (rr_quantity redemption)).

(** *** Stress tests and proofs *)

(** [execute_stress_test], src/stablecoin_reserves_impl.rs:345-381 *)
Definition execute_stress_test (description : Bytes) (depletion_percent : Z) (recovery_procedures_hash : Hash)
    : M Hash :=
  do* reject_if (Z.ltb 100 depletion_percent) ReserveError.InvalidProofFormat in
  let* test_id := compute_stress_test_id in
  let* now := ledger_timestamp in
  do* storage_set_stress_test test_id
        (mkStressTest test_id description depletion_percent recovery_procedures_hash now 0 []) in
  do* list_one storage_get_stress_test_list storage_set_stress_test_list test_id in
  do* count_one storage_get_stress_test_count storage_set_stress_test_count in
  ret test_id.

(** [verify_zk_proof], src/stablecoin_reserves_impl.rs:391-435 *)
Definition verify_zk_proof (invoker : Address) (proof_type : ZkProofType) (proof_data : Bytes) (commitment : Hash)
    (expires_at : Z) : M Hash :=
  let* now := ledger_timestamp in
  do* reject_if (Z.ltb expires_at now) ReserveError.ZkProofVerificationFailed in
  let is_valid :=
    match proof_type with
    | ZkProofType.RangeProof => verify_range_proof_internal proof_data commitment
    | ZkProofType.MerkleProof => verify_merkle_proof_internal proof_data commitment
    | ZkProofType.CommitmentProof => verify_commitment_proof_internal proof_data commitment
    | ZkProofType.AggregatedProof => verify_aggregated_proof_internal proof_data commitment
    end in
  do* reject_if (negb is_valid) ReserveError.ZkProofVerificationFailed in
  let* proof_id := compute_zk_proof_id commitment in
  do* storage_set_zk_proof proof_id
        (mkZkProofOfReserves proof_id proof_type proof_data commitment now now invoker expires_at) in
  do* storage_set_zk_proof_verified proof_id true in
  ret proof_id.

(** [verify_range_proof], src/stablecoin_reserves_impl.rs:437-450 *)
Definition verify_range_proof (commitment : Hash) (proof_data : Bytes) (min_value max_value : Z) : M bool :=
  do* reject_if (Z.ltb max_value min_value) ReserveError.RangeProofValidationFailed in
  ret (verify_range_proof_internal proof_data commitment).

(** *** Merkle trees *)

(** [compute_hash], src/stablecoin_reserves.rs:389-395 *)
Definition compute_hash (data : Bytes) : Hash := sha256 data.

(** The order of arrays of bytes. *)
Fixpoint bytes_lt (a b : Bytes) : bool :=
  match a, b with
  | x :: a, y :: b => Z.ltb x y || (Z.eqb x y && bytes_lt a b)
  | [], _ :: _ => true
  | _, [] => false
  end.

(** One round of [verify_merkle_path]: the smaller hash goes first. *)
Definition path_step (current node : Hash) : Hash :=
  let '(lower, upper) := if bytes_lt current node then (current, node) else (node, current) in
  compute_hash (lower ++ upper).

(** [verify_merkle_path], src/stablecoin_reserves.rs:397-422 *)
Definition verify_merkle_path (leaf root : Hash) (path : list Hash) : bool :=
  bool_decide (fold_left path_step path leaf = root).

(** [verify_merkle_proof], src/stablecoin_reserves_impl.rs:452-460 *)
Definition verify_merkle_proof (leaf_hash merkle_root : Hash) (proof_path : list Hash) : M bool :=
  ret (verify_merkle_path leaf_hash merkle_root proof_path).

(** The loop over the pairs of one level: a last hash without a partner is
    paired with itself, src/stablecoin_reserves.rs:437-456 *)
Fixpoint next_level (level : list Hash) : list Hash :=
  match level with
  | l :: r :: level => compute_hash (l ++ r) :: next_level level
  | [l] => [compute_hash (l ++ l)]
  | [] => []
  end.

(** The loop over the levels, with fuel for its rounds. *)
Fixpoint reduce (fuel : nat) (level : list Hash) : option (list Hash) :=
  if Nat.leb (length level) 1 then Some level
  else match fuel with O => None | S fuel => reduce fuel (next_level level) end.

(** [compute_merkle_root], src/stablecoin_reserves.rs:424-462 *)
Definition compute_merkle_root (leaves : list Hash) : option (result ReserveError Hash) :=
  match leaves with
  | [] => Some (Err (Raise ReserveError.InvalidProofFormat))
  | [leaf] => Some (Ok leaf)
  | _ => current_level ← reduce (length leaves) leaves;
         Some (match current_level with root :: _ => Ok root | [] => Err (Panic Unwrap) end)
  end.

End Hashed.
End StablecoinReserves.

(** ** Theorems on the reserves *)

Module Reserves.
Import StablecoinReserves.

Section Hashed.
Context `{C : Crypto}.

(** *** Merkle roots *)

Lemma next_level_length (l : list Hash) : length (next_level l) = Nat.div2 (S (length l)).
Proof.
  revert l. fix IH 1. intros [|a [|b l]]; simpl; [done|done|]. by rewrite IH.
Qed.

Lemma div2_shrinks n : (1 < n)%nat -> (0 < Nat.div2 (S n) < n)%nat.
Proof.
  intros H. pose proof (Nat.div2_odd (S n)) as E. revert E. generalize (Nat.div2 (S n)).
  intros k. destruct (Nat.odd (S n)); unfold Nat.b2n; lia.
Qed.

(** The rounds there is fuel for are enough, and leave one hash. *)
Lemma reduce_ends fuel : forall l, l <> [] -> (length l <= S fuel)%nat -> exists r, reduce fuel l = Some [r].
Proof.
  induction fuel as [|fuel IH]; intros l Hn Hl; simpl.
  - destruct (Nat.leb_spec (length l) 1); [|lia].
    destruct l as [|r [|? ?]]; simpl in *; [done|eauto|lia].
  - destruct (Nat.leb_spec (length l) 1) as [|H1].
    + destruct l as [|r [|? ?]]; simpl in *; [done|eauto|lia].
    + pose proof (div2_shrinks _ H1). apply IH.
      * intros E. apply (f_equal length) in E. rewrite next_level_length in E. cbn [length] in E. lia.
      * rewrite next_level_length. lia.
Qed.

(** The Merkle root of a list of leaves is always found, unless there are none,
    which is the one error. *)
Theorem merkle_roots_exist leaves :
  (leaves = [] /\ compute_merkle_root leaves = Some (Err (Raise ReserveError.InvalidProofFormat))) \/
  (leaves <> [] /\ exists r, compute_merkle_root leaves = Some (Ok r)).
Proof.
  destruct leaves as [|a [|b l]]; [by left|right; split; [done|by exists a]|right; split; [done|]].
  unfold compute_merkle_root. destruct (reduce_ends (length (a :: b :: l)) (a :: b :: l)) as [r E]; [done|simpl; lia|].
  rewrite E. by exists r.
Qed.

(** A tree of hashes, the hash of a branch being that of its two sides. *)
Inductive tree : Type :=
  | Leaf (h : Hash)
  | Branch (l r : tree).

Fixpoint root (t : tree) : Hash :=
  match t with Leaf h => h | Branch l r => compute_hash (root l ++ root r) end.

(** Both sides of every branch have the same height. *)
Fixpoint perfect (n : nat) (t : tree) : Prop :=
  match n, t with
  | O, Leaf _ => True
  | S n, Branch l r => perfect n l /\ perfect n r
  | _, _ => False
  end.

(** The roots of the subtrees at a depth; those at the height of the tree are its leaves. *)
Fixpoint at_depth (d : nat) (t : tree) : list Hash :=
  match d, t with
  | O, _ => [root t]
  | S d, Branch l r => at_depth d l ++ at_depth d r
  | S _, Leaf h => [h]
  end.

Lemma length_at_depth d : forall n t, (d <= n)%nat -> perfect n t -> length (at_depth d t) = (2 ^ d)%nat.
Proof.
  induction d as [|d IH]; intros n t Hd Ht; [done|]. destruct n as [|n]; [lia|]. destruct t as [h|l r]; [done|].
  destruct Ht as [Hl Hr]. simpl. rewrite length_app, (IH n l), (IH n r) by (done || lia). simpl. lia.
Qed.

Lemma next_level_app l k : Nat.Even (length l) -> next_level (l ++ k) = next_level l ++ next_level k.
Proof.
  revert l. fix IH 1. intros [|a [|b l]] He; simpl; [done| |].
  - destruct He as [m He]. simpl in He. lia.
  - rewrite IH; [done|]. destruct He as [m He]. simpl in He. exists (m - 1)%nat. lia.
Qed.

Lemma next_level_at_depth d : forall n t, (d < n)%nat -> perfect n t -> next_level (at_depth (S d) t) = at_depth d t.
Proof.
  induction d as [|d IH]; intros n t Hd Ht; (destruct n as [|n]; [lia|]); (destruct t as [h|l r]; [done|]);
    destruct Ht as [Hl Hr]; [done|].
  change (next_level (at_depth (S d) l ++ at_depth (S d) r) = at_depth d l ++ at_depth d r).
  rewrite next_level_app; [by rewrite (IH n l), (IH n r) by (done || lia)|].
  rewrite (length_at_depth (S d) n) by (done || lia). exists (2 ^ d)%nat. simpl. lia.
Qed.

Lemma reduce_tree d : forall n t fuel, (d <= n)%nat -> perfect n t -> (d <= fuel)%nat ->
  reduce fuel (at_depth d t) = Some [root t].
Proof.
  induction d as [|d IH]; intros n t fuel Hd Ht Hf; [by destruct fuel|].
  destruct fuel as [|fuel]; [lia|]. cbn [reduce]. rewrite (length_at_depth (S d) n) by done.
  pose proof (Nat.pow_nonzero 2 d ltac:(done)).
  destruct (Nat.leb_spec (2 ^ S d) 1) as [H1|H1]; [rewrite Nat.pow_succ_r' in H1; lia|].
  rewrite (next_level_at_depth d n) by (done || lia). apply (IH n); (done || lia).
Qed.

(** On the leaves of a perfect tree the two loops compute the root of the tree. *)
Theorem roots_are_those_of_trees n t :
  perfect n t -> compute_merkle_root (at_depth n t) = Some (Ok (root t)).
Proof.
  intros Ht. pose proof (length_at_depth n n t (le_n n) Ht) as Hl.
  pose proof (Nat.pow_gt_lin_r 2 n ltac:(lia)).
  pose proof (reduce_tree n n t (length (at_depth n t)) (le_n n) Ht ltac:(lia)) as R.
  destruct (at_depth n t) as [|a [|b l]] eqn:E; [simpl in Hl; lia| |].
  - simpl in R. by injection R as ->.
  - unfold compute_merkle_root. by rewrite R.
Qed.

(** A way from the root of a tree to a leaf: the leaf, and the hashes beside
    the way from the leaf up. *)
Inductive way : tree -> Hash -> list Hash -> Prop :=
  | way_leaf h : way (Leaf h) h []
  | way_left l r h p : way l h p -> way (Branch l r) h (p ++ [root r])
  | way_right l r h p : way r h p -> way (Branch l r) h (p ++ [root l]).

(** The smaller hash is on the left of every branch. *)
Fixpoint sorted (t : tree) : Prop :=
  match t with
  | Leaf _ => True
  | Branch l r => bytes_lt (root l) (root r) = true /\ sorted l /\ sorted r
  end.

Lemma bytes_lt_asym a : forall b, bytes_lt a b = true -> bytes_lt b a = false.
Proof.
  induction a as [|x a IH]; intros [|y b] H; simpl in *; try done.
  destruct (Z.ltb_spec x y); [|destruct (Z.eqb_spec x y); [simpl in H|done]].
  - by rewrite (proj2 (Z.ltb_ge y x)), (proj2 (Z.eqb_neq y x)) by lia.
  - subst. rewrite Z.ltb_irrefl, Z.eqb_refl. simpl. by apply IH.
Qed.

(** The proof of a leaf verifies when the tree is sorted. *)
Theorem ways_verify_in_sorted_trees t h p : sorted t -> way t h p -> verify_merkle_path h (root t) p = true.
Proof.
  intros Hs Hw. unfold verify_merkle_path. apply bool_decide_eq_true.
  induction Hw as [h|l r h p _ IH|l r h p _ IH]; [done| |]; destruct Hs as (Hlt & Hl & Hr);
    rewrite fold_left_app, IH by done; simpl; unfold path_step.
  - by rewrite Hlt.
  - by rewrite (bytes_lt_asym _ _ Hlt).
Qed.

(** The root of two leaves in the wrong order does not verify for either of
    them: the root is that of the leaves as they come, a path is checked with
    the smaller hash first. *)
Theorem unsorted_leaves_do_not_verify a b :
  bytes_lt a b = false -> sha256 (a ++ b) <> sha256 (b ++ a) ->
  exists r, compute_merkle_root [a; b] = Some (Ok r) /\ verify_merkle_path a r [b] = false.
Proof.
  intros Hlt Hne. exists (sha256 (a ++ b)). split; [done|]. unfold verify_merkle_path, path_step. simpl.
  rewrite Hlt. apply bool_decide_eq_false. by apply not_eq_sym.
Qed.

(** *** The total *)

Definition asset_of (st : store) (i : Hash) : option AssetVerification := sget st (ReserveDataKey.Asset i).
Definition ids (st : store) : list Hash :=
  match sget st ReserveDataKey.AssetList with Some l => l | None => [] end.
Definition total (st : store) : Z :=
  match sget st ReserveDataKey.TotalAttestedReserve with Some n => n | None => 0 end.
Definition redemption_of (st : store) (i : Hash) : option RedemptionRequest := sget st (ReserveDataKey.Redemption i).
Definition quantity_of (st : store) (i : Hash) : Z :=
  match asset_of st i with Some a => av_quantity a | None => 0 end.

(** The calls that write, each by its invoker. *)
Inductive vcall : Type :=
  | VRegister (t : AssetType) (q : Z) (a : Address) (p : Hash)
  | VUpdate (i : Hash) (q : Z) (p : Hash)
  | VAttest (a : Address) (i : Hash) (q : Z) (g k : Hash) (e : Z)
  | VReport (f t : Z) (b a m : Hash)
  | VRequest (u : Address) (q : Z) (i : Hash)
  | VExecute (i : Hash)
  | VStress (d : Bytes) (n : Z) (p : Hash)
  | VProve (u : Address) (t : ZkProofType) (d : Bytes) (m : Hash) (e : Z).

Definition vexec (k : vcall) : M unit :=
  match k with
  | VRegister t q a p => do* register_asset t q a p in ret tt
  | VUpdate i q p => update_asset i q p
  | VAttest a i q g k e => do* record_attestation a i q g k e in ret tt
  | VReport f t b a m => do* generate_report f t b a m in ret tt
  | VRequest u q i => do* request_redemption u q i in ret tt
  | VExecute i => execute_redemption i
  | VStress d n p => do* execute_stress_test d n p in ret tt
  | VProve u t d m e => do* verify_zk_proof u t d m e in ret tt
  end.

(** Quantities are unsigned. *)
Definition unsigned (k : vcall) : Prop :=
  match k with VRegister _ q _ _ | VUpdate _ q _ | VRequest _ q _ => 0 <= q | _ => True end.

Definition vstep (s s' : St) : Prop := exists k c, unsigned k /\ vexec k c s = Ok (tt, s').

Record VInv (st : store) : Prop := {
  vi_ids : NoDup (ids st);
  vi_listed : forall i, i ∈ ids st <-> is_Some (asset_of st i);
  vi_quantity : forall i, 0 <= quantity_of st i;
  vi_requests : forall i r, redemption_of st i = Some r -> 0 <= rr_quantity r;
  vi_total : 0 <= total st <= total_of (quantity_of st) (ids st) }.

(** The reserves are those of [st], and the requests too but for the one of [i]. *)
Definition same_reserves (st st' : store) : Prop :=
  (forall i, asset_of st' i = asset_of st i) /\ ids st' = ids st /\ total st' = total st.

Lemma VInv_same st st' :
  same_reserves st st' -> (forall i r, redemption_of st' i = Some r -> 0 <= rr_quantity r) -> VInv st -> VInv st'.
Proof.
  intros (Ha & Hi & Ht) Hr [H1 H2 H3 H4 H5].
  assert (forall i, quantity_of st' i = quantity_of st i) as Hq by (intros i; unfold quantity_of; by rewrite Ha).
  split; rewrite ?Hi, ?Ht; try done.
  - intros i. by rewrite Ha.
  - intros i. by rewrite Hq.
  - by rewrite (total_of_ext _ (quantity_of st)).
Qed.

(** What each operation does to the reserves. *)
Lemma asset_registered t q a p c s u s' :
  register_asset t q a p c s = Ok (u, s') ->
  (s' = s /\ is_Some (asset_of (pers s) u)) \/
  (asset_of (pers s) u = None /\
   (forall i, quantity_of (pers s') i = if decide (i = u) then q else quantity_of (pers s) i) /\
   (forall i, is_Some (asset_of (pers s') i) <-> i = u \/ is_Some (asset_of (pers s) i)) /\
   ids (pers s') = ids (pers s) ++ [u] /\ total (pers s') = u128_plus (total (pers s)) q /\
   (forall i, redemption_of (pers s') i = redemption_of (pers s) i)).
Proof.
  intros H. unfold register_asset in H. apply bind_Ok in H as (i & s0 & R & H).
  assert (s0 = s) as ->. { unfold compute_asset_id in R. destruct (vget _ _); [by minv|done]. }
  unfold storage_get_asset in H. apply bind_Ok in H as (o & s0 & [= <- <-] & H).
  destruct (sget (pers s) (ReserveDataKey.Asset i)) as [x|] eqn:E.
  - left. minv. split; [done|]. unfold asset_of. rewrite E. by eexists.
  - right. unfold list_one, count_one, storage_set_asset, storage_get_asset_list, storage_set_asset_list,
      storage_get_asset_count, storage_set_asset_count, storage_get_total_attested_reserve,
      storage_set_total_attested_reserve, compute_entry_id, storage_set_audit_entry in H.
    minv. unfold quantity_of, asset_of, ids, total, redemption_of.
    split; [done|]. split; [|split; [|split; [|split]]].
    + intros j. case_decide as D; [subst j; by store_reads|by store_reads].
    + intros j. destruct (decide (j = i)) as [->|D]; store_reads; [by split; [left|eexists]|].
      split; [by right|by intros [?|?]].
    + by store_reads.
    + by store_reads.
    + intros j. by store_reads.
Qed.

Lemma get_asset_Ok i c s a s' : get_asset i c s = Ok (a, s') <-> asset_of (pers s) i = Some a /\ s' = s.
Proof.
  unfold get_asset, storage_get_asset, asset_of. split.
  - intros H. by minv.
  - intros [E ->]. unfold pget, bind. simpl. rewrite E. done.
Qed.

Lemma update_Ok i q p c s u s' :
  update_asset i q p c s = Ok (u, s') ->
  exists a, asset_of (pers s) i = Some a /\
    (forall j, quantity_of (pers s') j = if decide (j = i) then q else quantity_of (pers s) j) /\
    (forall j, is_Some (asset_of (pers s') j) <-> is_Some (asset_of (pers s) j)) /\
    ids (pers s') = ids (pers s) /\
    total (pers s') = u128_minus (total (pers s)) (Z.abs (q - av_quantity a)) /\
    (forall j, redemption_of (pers s') j = redemption_of (pers s) j).
Proof.
  unfold update_asset. intros H. apply bind_Ok in H as (a & s1 & [Ea ->]%get_asset_Ok & H). exists a.
  split; [done|]. unfold storage_set_asset, storage_get_total_attested_reserve, storage_set_total_attested_reserve in H.
  minv. rewrite Z.ltb_irrefl. unfold quantity_of, ids, total, redemption_of, asset_of in *.
  split; [|split; [|split; [|split]]].
  - intros j. case_decide as D; [subst j; by store_reads|by store_reads].
  - intros j. destruct (decide (j = i)) as [->|D]; store_reads; [rewrite Ea; by split; eexists|done].
  - by store_reads.
  - store_reads. f_equal. unfold u128_minus. destruct (Z.ltb_spec (av_quantity a) q); lia.
  - intros j. by store_reads.
Qed.

Lemma redemption_executed i c s u s' :
  execute_redemption i c s = Ok (u, s') ->
  exists r a, redemption_of (pers s) i = Some r /\ rr_status r = 0 /\ asset_of (pers s) (rr_asset_id r) = Some a /\
    rr_quantity r <= av_quantity a /\
    (forall j, quantity_of (pers s') j =
       if decide (j = rr_asset_id r) then u128_minus (av_quantity a) (rr_quantity r) else quantity_of (pers s) j) /\
    (forall j, is_Some (asset_of (pers s') j) <-> is_Some (asset_of (pers s) j)) /\
    ids (pers s') = ids (pers s) /\
    total (pers s') = u128_minus (total (pers s)) (rr_quantity r) /\
    (forall j, redemption_of (pers s') j =
       if decide (j = i) then Some (with_status r 2 (cx_timestamp c)) else redemption_of (pers s) j).
Proof.
  unfold execute_redemption, get_redemption, storage_get_redemption. intros H.
  apply bind_Ok in H as (r & s1 & Hr & H).
  assert (redemption_of (pers s) i = Some r /\ s1 = s) as [Er ->] by (unfold redemption_of; minv; done).
  apply bind_Ok in H as (? & s1 & [B ->]%reject_if_Ok & H). zcase.
  apply bind_Ok in H as (a & s1 & [Ea ->]%get_asset_Ok & H). exists r, a.
  destruct (Z.ltb_spec (av_quantity a) (rr_quantity r)) as [Hlt|Hle].
  { apply bind_Ok in H as (? & ? & _ & H). discriminate H. }
  unfold storage_set_asset, storage_set_redemption, storage_get_total_attested_reserve,
    storage_set_total_attested_reserve in H. minv.
  unfold quantity_of, ids, total, redemption_of, asset_of in *.
  split; [done|]. split; [done|]. split; [done|]. split; [done|]. split; [|split; [|split; [|split]]].
  - intros j. case_decide as D; [subst j; by store_reads|by store_reads].
  - intros j. destruct (decide (j = rr_asset_id r)) as [->|D]; store_reads; [rewrite Ea; by split; eexists|done].
  - by store_reads.
  - by store_reads.
  - intros j. case_decide as D; [subst j; by store_reads|by store_reads].
Qed.

Lemma request_Ok w q i c s u s' :
  request_redemption w q i c s = Ok (u, s') ->
  same_reserves (pers s) (pers s') /\
  forall j r, redemption_of (pers s') j = Some r -> rr_quantity r = q \/ redemption_of (pers s) j = Some r.
Proof.
  unfold request_redemption. intros H. apply bind_Ok in H as (a & s1 & [Ea ->]%get_asset_Ok & H).
  unfold list_one, count_one, compute_redemption_id, storage_set_redemption, storage_get_redemption_list,
    storage_set_redemption_list, storage_get_redemption_count, storage_set_redemption_count in H. minv.
  unfold same_reserves, ids, total, redemption_of, asset_of in *. split.
  - split; [intros j|split]; by store_reads.
  - intros j r. match goal with |- context [ReserveDataKey.Redemption ?k] =>
      destruct (decide (j = k)) as [->|D] end; store_reads; [|by right].
    intros [= <-]. by left.
Qed.

(** Every other call leaves the reserves and the requests as they are. *)
Definition untouched (s s' : St) : Prop :=
  same_reserves (pers s) (pers s') /\ forall j, redemption_of (pers s') j = redemption_of (pers s) j.

Ltac untouched_tac :=
  minv; unfold untouched, same_reserves, ids, total, redemption_of, asset_of;
  split; [split; [intros ?|split]|intros ?]; by store_reads.

Lemma attest_untouched a i q g k e c s u s' : record_attestation a i q g k e c s = Ok (u, s') -> untouched s s'.
Proof.
  unfold record_attestation. intros H. apply bind_Ok in H as (x & s1 & [Ea ->]%get_asset_Ok & H).
  unfold list_one, count_one, storage_set_attestation, storage_get_attestation_list, storage_set_attestation_list,
    storage_get_attestation_count, storage_set_attestation_count in H. untouched_tac.
Qed.
Lemma report_untouched f t b a m c s u s' : generate_report f t b a m c s = Ok (u, s') -> untouched s s'.
Proof.
  unfold generate_report, list_one, count_one, storage_set_report, storage_get_report_list, storage_set_report_list,
    storage_get_report_count, storage_set_report_count, storage_set_last_report_time,
    storage_get_total_attested_reserve, storage_get_asset_count. intros H. untouched_tac.
Qed.
Lemma stress_untouched d n p c s u s' : execute_stress_test d n p c s = Ok (u, s') -> untouched s s'.
Proof.
  unfold execute_stress_test, compute_stress_test_id, list_one, count_one, storage_set_stress_test,
    storage_get_stress_test_list, storage_set_stress_test_list, storage_get_stress_test_count,
    storage_set_stress_test_count. intros H. untouched_tac.
Qed.
Lemma prove_untouched w t d m e c s u s' : verify_zk_proof w t d m e c s = Ok (u, s') -> untouched s s'.
Proof.
  unfold verify_zk_proof, compute_zk_proof_id, storage_set_zk_proof, storage_set_zk_proof_verified. intros H.
  untouched_tac.
Qed.

(** A call without its answer. *)
Lemma drop_answer {A} (m : M A) c s u s' : (do* m in ret tt) c s = Ok (u, s') -> exists a, m c s = Ok (a, s').
Proof. intros (a & s1 & H & [_ ->]%ret_Ok)%bind_Ok. eauto. Qed.

Lemma reserves_kept s s' : VInv (pers s) -> vstep s s' -> VInv (pers s').
Proof.
  intros HI (k & c & Hk & R). pose proof HI as [H1 H2 H3 H4 H5].
  assert (forall s', untouched s s' -> VInv (pers s')) as K.
  { intros s1 [Hs Hr]. eapply VInv_same; [done| |done]. intros i r. rewrite Hr. apply H4. }
  destruct k as [t q a p|i q p|a i q g k e|f t b a m|w q i|i|d n p|w t d m e]; simpl in R, Hk;
    try apply drop_answer in R as [o R].
  - destruct (asset_registered _ _ _ _ _ _ _ _ R) as [[-> _]|(Hn & Hq & Ha & Hi & Ht & Hr)]; [done|].
    assert (o ∉ ids (pers s)) as Ho by (intros [x E]%H2; congruence).
    assert (total_of (quantity_of (pers s')) (ids (pers s')) =
            total_of (quantity_of (pers s)) (ids (pers s)) + q) as Es.
    { rewrite Hi, total_of_app. simpl. rewrite Hq, decide_True by done.
      rewrite (total_of_ext _ (quantity_of (pers s))); [lia|]. intros x Hx. rewrite Hq, decide_False; [done|].
      by intros ->. }
    split.
    + rewrite Hi. apply NoDup_app. split; [done|]. split; [|apply NoDup_singleton].
      by intros x Hx ->%list_elem_of_singleton.
    + intros i. rewrite Hi, Ha, elem_of_app, list_elem_of_singleton, H2. tauto.
    + intros i. rewrite Hq. by case_decide.
    + intros i r. rewrite Hr. apply H4.
    + rewrite Es, Ht. unfold u128_plus, u128_max. lia.
  - destruct (update_Ok _ _ _ _ _ _ _ R) as (a & Ea & Hq & Ha & Hi & Ht & Hr).
    assert (i ∈ ids (pers s)) as Hin by (apply H2; by eexists).
    assert (quantity_of (pers s) i = av_quantity a) as Eq by (unfold quantity_of; by rewrite Ea).
    split.
    + by rewrite Hi.
    + intros j. by rewrite Hi, Ha, H2.
    + intros j. rewrite Hq. by case_decide.
    + intros j r. rewrite Hr. apply H4.
    + rewrite Hi, (total_of_update (quantity_of (pers s)) _ _ i); try done.
      * rewrite Hq, decide_True, Ht, Eq by done. unfold u128_minus.
        pose proof (total_of_member _ _ _ H3 Hin). specialize (H3 i). lia.
      * intros j Hj. by rewrite Hq, decide_False.
  - by apply K, (attest_untouched _ _ _ _ _ _ _ _ _ _ R).
  - by apply K, (report_untouched _ _ _ _ _ _ _ _ _ R).
  - destruct (request_Ok _ _ _ _ _ _ _ R) as [Hs Hr]. eapply VInv_same; [done| |done].
    intros j r Er. destruct (Hr j r Er) as [->|E]; [done|by eapply H4].
  - destruct (redemption_executed _ _ _ _ _ R) as (r & a & Er & _ & Ea & Hle & Hq & Ha & Hi & Ht & Hr).
    assert (rr_asset_id r ∈ ids (pers s)) as Hin by (apply H2; by eexists).
    assert (quantity_of (pers s) (rr_asset_id r) = av_quantity a) as Eq by (unfold quantity_of; by rewrite Ea).
    pose proof (H4 _ _ Er) as Hr0. split.
    + by rewrite Hi.
    + intros j. by rewrite Hi, Ha, H2.
    + intros j. rewrite Hq. unfold u128_minus. case_decide; [lia|done].
    + intros j x. rewrite Hr. case_decide; [intros [= <-]; done|apply H4].
    + rewrite Hi, (total_of_update (quantity_of (pers s)) _ _ (rr_asset_id r)); try done.
      * rewrite Hq, decide_True, Ht, Eq by done. unfold u128_minus.
        pose proof (total_of_member _ _ _ H3 Hin). lia.
      * intros j Hj. by rewrite Hq, decide_False.
  - by apply K, (stress_untouched _ _ _ _ _ _ _ R).
  - by apply K, (prove_untouched _ _ _ _ _ _ _ _ _ R).
Qed.

Definition vreach (s : St) : Prop := rtc vstep empty_state s.

Lemma vreach_VInv s : vreach s -> VInv (pers s).
Proof.
  apply (rtc_invariant vstep (fun s => VInv (pers s))); [|intros x y Hx; by apply reserves_kept].
  split; simpl; try done.
  - apply NoDup_nil_2.
  - intros i. split; [by intros ?%not_elem_of_nil|by intros [? ?]].
Qed.

(** C25: In every reachable state the list of the assets has each of them once, and the
    total of the reserves, which is what a report made then shows, is at most the sum
    of the quantities of the assets listed.  (It may be less: an asset that is raised
    lowers the total.) *)
Theorem reserves_are_never_overstated s :
  vreach s ->
  NoDup (ids (pers s)) /\ (forall i, i ∈ ids (pers s) <-> is_Some (asset_of (pers s) i)) /\
  0 <= total (pers s) <= total_of (quantity_of (pers s)) (ids (pers s)) /\
  (forall f t b a m c i s', generate_report f t b a m c s = Ok (i, s') ->
     exists r, sget (pers s') (ReserveDataKey.Report i) = Some r /\
       0 <= tr_total_reserve r <= total_of (quantity_of (pers s)) (ids (pers s))).
Proof.
  intros [H1 H2 _ _ H5]%vreach_VInv. do 3 (split; [done|]). intros f t b a m c i s' R.
  unfold generate_report, list_one, count_one, storage_set_report, storage_get_report_list, storage_set_report_list,
    storage_get_report_count, storage_set_report_count, storage_set_last_report_time,
    storage_get_total_attested_reserve, storage_get_asset_count in R. minv.
  eexists. split; [by store_reads|]. unfold total in H5. simpl. by destruct (sget (pers _) ReserveDataKey.TotalAttestedReserve).
Qed.

(** Raising the quantity of an asset lowers the total by as much: the new
    quantity is stored before it is compared with the old one. *)
Theorem raised_assets_lower_the_total i q p c s s' a u :
  asset_of (pers s) i = Some a -> av_quantity a <= q -> update_asset i q p c s = Ok (u, s') ->
  quantity_of (pers s') i = q /\ total (pers s') = Z.max (total (pers s) - (q - av_quantity a)) 0.
Proof.
  intros Ea Hq R. destruct (update_Ok _ _ _ _ _ _ _ R) as (a' & Ea' & Hq' & _ & _ & Ht & _). simplify_eq.
  rewrite Hq', decide_True, Ht by done. split; [done|]. unfold u128_minus. lia.
Qed.

(** A redemption is executed once, out of an asset that has the quantity. *)
Theorem redemptions_are_executed_once i c s u s' :
  execute_redemption i c s = Ok (u, s') ->
  (exists r a, redemption_of (pers s) i = Some r /\ asset_of (pers s) (rr_asset_id r) = Some a /\
     rr_quantity r <= av_quantity a /\
     quantity_of (pers s') (rr_asset_id r) = Z.max (av_quantity a - rr_quantity r) 0) /\
  forall c' , execute_redemption i c' s' = Err (Raise ReserveError.UnauthorizedRedemption).
Proof.
  intros R. destruct (redemption_executed _ _ _ _ _ R) as (r & a & Er & _ & Ea & Hle & Hq & _ & _ & _ & Hr). split.
  - exists r, a. rewrite Hq, decide_True by done. done.
  - intros c'. specialize (Hr i). rewrite decide_True in Hr by done. unfold redemption_of in Hr.
    unfold execute_redemption, get_redemption, storage_get_redemption, pget, bind. simpl. by rewrite Hr.
Qed.

(** The reserves of one type of all custodians whose addresses begin with the
    same letter are one asset: only the first is registered, the others are told
    its identifier. *)
Theorem custodians_share_assets t q1 a1 p1 q2 a2 p2 c c' s i s' :
  vget (str_bytes a1) 0 = vget (str_bytes a2) 0 ->
  register_asset t q1 a1 p1 c s = Ok (i, s') -> register_asset t q2 a2 p2 c' s' = Ok (i, s').
Proof.
  intros Ea R.
  assert (is_Some (asset_of (pers s') i)) as [x Ex].
  { destruct (asset_registered _ _ _ _ _ _ _ _ R) as [[-> H]|(_ & _ & H & _)]; [done|]. apply H. by left. }
  unfold register_asset in *. apply bind_Ok in R as (j & s1 & R & H). unfold compute_asset_id in *.
  rewrite <- Ea. destruct (vget (str_bytes a1) 0) as [b|]; [|done]. apply ret_Ok in R as [-> ->].
  assert (i = sha256 [b; asset_code t]) as ->.
  { unfold storage_get_asset in H. apply bind_Ok in H as (o & s2 & _ & H). destruct o; [by minv|].
    repeat (apply bind_Ok in H as (? & ? & _ & H)). by apply ret_Ok in H as [-> _]. }
  unfold bind, ret, storage_get_asset, pget. unfold asset_of in Ex. by rewrite Ex.
Qed.

(** The attestations of an asset by attestors whose addresses are longer than
    32 characters have one identifier: the last one overwrites the others. *)
Theorem attestations_overwrite a1 a2 i q1 g1 k1 e1 q2 g2 k2 e2 c c' s s' s'' j1 j2 :
  (32 < length (str_bytes a1))%nat -> (32 < length (str_bytes a2))%nat ->
  record_attestation a1 i q1 g1 k1 e1 c s = Ok (j1, s') -> record_attestation a2 i q2 g2 k2 e2 c' s' = Ok (j2, s'') ->
  j1 = j2 /\ exists x, get_attestation j1 c' s'' = Ok (x, s'') /\ at_attestor x = a2 /\ at_attested_quantity x = q2.
Proof.
  intros L1 L2 R1 R2.
  assert (forall a q g k e c s s' j, record_attestation a i q g k e c s = Ok (j, s') ->
    j = compute_attestation_id a i /\
    sget (pers s') (ReserveDataKey.Attestation j) = Some (mkAttestation j a i q (cx_timestamp c) g k e)) as K.
  { clear. intros a q g k e c s s' j H. unfold record_attestation in H.
    apply bind_Ok in H as (x & s1 & [Ea ->]%get_asset_Ok & H).
    unfold list_one, count_one, storage_set_attestation, storage_get_attestation_list, storage_set_attestation_list,
      storage_get_attestation_count, storage_set_attestation_count in H. minv. split; [done|]. by store_reads. }
  apply K in R1 as [-> _]. apply K in R2 as [-> E].
  assert (compute_attestation_id a1 i = compute_attestation_id a2 i) as Ej.
  { unfold compute_attestation_id, address_slot. by rewrite !(proj2 (Nat.leb_gt _ _)) by done. }
  split; [done|]. rewrite Ej. unfold get_attestation, storage_get_attestation, pget, bind. simpl. rewrite E. simpl.
  eexists. split; [done|]. by split.
Qed.

(** A proof is accepted exactly when it has not expired and has a byte, of
    whatever kind it is and whatever it is a proof of. *)
Theorem any_byte_proves w t d m e c s :
  succeeds (verify_zk_proof w t d m e) c s = true <-> cx_timestamp c <= e /\ d <> [].
Proof.
  assert (verify_range_proof_internal d m = bool_decide (d <> [])) as Ed.
  { unfold verify_range_proof_internal, len. destruct d; [done|]. by rewrite bool_decide_true by done. }
  unfold succeeds, verify_zk_proof, ledger_timestamp, bind at 1, reject_if at 1.
  destruct (Z.ltb_spec e (cx_timestamp c)); simpl; [split; [done|lia]|].
  replace (match t with
           | ZkProofType.RangeProof => verify_range_proof_internal d m
           | ZkProofType.MerkleProof => verify_merkle_proof_internal d m
           | ZkProofType.CommitmentProof => verify_commitment_proof_internal d m
           | ZkProofType.AggregatedProof => verify_aggregated_proof_internal d m
           end) with (bool_decide (d <> [])) by (by rewrite <- Ed; destruct t).
  case_bool_decide; simpl; split; try done; by intros [_ ?].
Qed.

End Hashed.

(** *** At concrete states *)

#[local] Existing Instance sample_crypto.

Definition leaf1 : Hash := replicate 32 1.
Definition leaf2 : Hash := replicate 32 2.
Definition leaf3 : Hash := replicate 32 3.
Definition leaf4 : Hash := replicate 32 4.
Definition four_leaves : tree := Branch (Branch (Leaf leaf1) (Leaf leaf2)) (Branch (Leaf leaf3) (Leaf leaf4)).

Lemma roots_are_those_of_trees_witness :
  perfect 2 four_leaves /\ compute_merkle_root [leaf1; leaf2; leaf3; leaf4] = Some (Ok (root four_leaves)).
Proof. split; [done|]. exact (roots_are_those_of_trees 2 four_leaves ltac:(done)). Defined.

Lemma ways_verify_in_sorted_trees_witness :
  verify_merkle_path leaf2 (root four_leaves) [leaf1; root (Branch (Leaf leaf3) (Leaf leaf4))] = true.
Proof.
  apply (ways_verify_in_sorted_trees four_leaves leaf2 ([leaf1] ++ [root (Branch (Leaf leaf3) (Leaf leaf4))])).
  - vm_compute. done.
  - apply way_left, (way_right (Leaf leaf1) (Leaf leaf2) leaf2 []), way_leaf.
Defined.

Lemma unsorted_leaves_do_not_verify_witness :
  exists r, compute_merkle_root [leaf2; leaf1] = Some (Ok r) /\ verify_merkle_path leaf2 r [leaf1] = false.
Proof. apply unsorted_leaves_do_not_verify; [reflexivity|]. intros E. vm_compute in E. discriminate E. Defined.

(** Two assets; a request on the first; the first raised. *)
Definition cash : AssetType := AssetType.USDCash.
Definition bills : AssetType := AssetType.TreasuryBills.
Definition cash_id : Hash := sha256 [97; 1].
Definition v_run (t : Z) (k : vcall) (s : St) : St := post (vexec k) (at_time t) s.
Definition v_assets : St := v_run 11 (VRegister bills 50 alice []) (v_run 10 (VRegister cash 100 alice []) empty_state).
Definition v_requested : St := v_run 12 (VRequest owner 30 cash_id) v_assets.
Definition v_raised : St := v_run 13 (VUpdate cash_id 120 []) v_requested.

Lemma v_run_step t k s : unsigned k -> outcome (vexec k) (at_time t) s = Ok tt -> vstep s (v_run t k s).
Proof. intros Hk H. exists k, (at_time t). split; [done|]. by apply run_outcome. Qed.

Lemma v_raised_reach : vreach v_raised.
Proof.
  do 4 (eapply rtc_r; [|by apply v_run_step; [done|vm_compute; reflexivity]]). apply rtc_refl.
Qed.

Lemma reserves_are_never_overstated_witness :
  total (pers v_raised) = 130 /\ 130 <= total_of (quantity_of (pers v_raised)) (ids (pers v_raised)).
Proof.
  assert (total (pers v_raised) = 130) as E by (vm_compute; reflexivity). split; [exact E|].
  destruct (reserves_are_never_overstated v_raised v_raised_reach) as (_ & _ & [_ H] & _). by rewrite E in H.
Defined.

Lemma raised_assets_lower_the_total_witness :
  total (pers v_requested) = 150 /\ quantity_of (pers v_raised) cash_id = 120 /\ total (pers v_raised) = 130.
Proof.
  split; [vm_compute; reflexivity|].
  destruct (asset_of (pers v_requested) cash_id) as [a|] eqn:Ea; [|vm_compute in Ea; discriminate Ea].
  assert (av_quantity a = 100) as Eq by (vm_compute in Ea; injection Ea as <-; reflexivity).
  destruct (raised_assets_lower_the_total cash_id 120 [] (at_time 13) v_requested v_raised a tt Ea) as [H1 H2];
    [rewrite Eq; lia|apply run_outcome; vm_compute; reflexivity|].
  split; [exact H1|]. rewrite H2, Eq. vm_compute. reflexivity.
Defined.

Definition request_id : Hash := sha256 (address_slot owner ++ u64_to_bytes 12).
Definition v_executed : St := v_run 14 (VExecute request_id) v_raised.

Lemma redemptions_are_executed_once_witness :
  quantity_of (pers v_executed) cash_id = 90 /\
  execute_redemption request_id (at_time 15) v_executed = Err (Raise ReserveError.UnauthorizedRedemption).
Proof.
  destruct (redemptions_are_executed_once request_id (at_time 14) v_raised tt v_executed) as [_ H];
    [apply run_outcome; vm_compute; reflexivity|].
  split; [vm_compute; reflexivity|apply H].
Defined.

Definition v_cash : St := post (register_asset cash 100 alice []) (at_time 10) empty_state.

Lemma custodians_share_assets_witness :
  register_asset cash 100 alice [] (at_time 10) empty_state = Ok (cash_id, v_cash) /\
  register_asset cash 70 "also a custodian" [] (at_time 20) v_cash = Ok (cash_id, v_cash).
Proof.
  assert (register_asset cash 100 alice [] (at_time 10) empty_state = Ok (cash_id, v_cash)) as R
    by (apply run_outcome; vm_compute; reflexivity).
  split; [exact R|].
  apply (custodians_share_assets cash 100 alice [] 70 "also a custodian" [] (at_time 10) (at_time 20)
           empty_state cash_id v_cash); [vm_compute; reflexivity|exact R].
Defined.

Definition auditor1 : Address := "GAUDITOR1AAAAAAAAAAAAAAAAAAAAAAAAAAAAAAAAAAAAAAAAAAAAAAA".
Definition auditor2 : Address := "GAUDITOR2AAAAAAAAAAAAAAAAAAAAAAAAAAAAAAAAAAAAAAAAAAAAAAA".

Definition att_id : Hash := compute_attestation_id auditor1 cash_id.
Definition v_att1 : St := post (record_attestation auditor1 cash_id 100 [] [] 99) (at_time 20) v_assets.
Definition v_att2 : St := post (record_attestation auditor2 cash_id 7 [] [] 99) (at_time 21) v_att1.

Lemma attestations_overwrite_witness :
  exists x, record_attestation auditor1 cash_id 100 [] [] 99 (at_time 20) v_assets = Ok (att_id, v_att1) /\
    record_attestation auditor2 cash_id 7 [] [] 99 (at_time 21) v_att1 = Ok (att_id, v_att2) /\
    get_attestation att_id (at_time 21) v_att2 = Ok (x, v_att2) /\ at_attestor x = auditor2.
Proof.
  assert (record_attestation auditor1 cash_id 100 [] [] 99 (at_time 20) v_assets = Ok (att_id, v_att1)) as R1.
  { refine (run_outcome (record_attestation auditor1 cash_id 100 [] [] 99) (at_time 20) v_assets att_id _).
    vm_compute. reflexivity. }
  assert (record_attestation auditor2 cash_id 7 [] [] 99 (at_time 21) v_att1 = Ok (att_id, v_att2)) as R2.
  { refine (run_outcome (record_attestation auditor2 cash_id 7 [] [] 99) (at_time 21) v_att1 att_id _).
    vm_compute. reflexivity. }
  destruct (attestations_overwrite auditor1 auditor2 cash_id 100 [] [] 99 7 [] [] 99 (at_time 20) (at_time 21)
    v_assets v_att1 v_att2 att_id att_id) as (_ & x & G & Ea & _); [simpl; lia|simpl; lia|exact R1|exact R2|].
  exists x. split; [exact R1|]. split; [exact R2|]. split; [exact G|exact Ea].
Defined.

End Reserves.

(** ** The bridge *)

Module CrossChainBridge.

(** [BridgeRelay], src/cross_chain_bridge.rs:24-33 *)
Record BridgeRelay := mkBridgeRelay {
  br_relay_address : Address;
  br_pubkey : Bytes;
  br_active : bool;
  br_reputation : Z }.

(** [BalanceAttestation], src/cross_chain_bridge.rs:38-57 *)
Record BalanceAttestation := mkBalanceAttestation {
  ba_relay : Address;
  ba_user_address : Bytes;
  ba_token_address : Bytes;
  ba_token_id : Z;
  ba_balance : Z;
  ba_block_height : Z;
  ba_timestamp : Z;
  ba_signature : Bytes;
  ba_accepted : bool }.

(** [BridgeVerificationRecord], src/cross_chain_bridge.rs:62-79 *)
Record BridgeVerificationRecord := mkBridgeVerificationRecord {
  vr_user : Bytes;
  vr_token_address : Bytes;
  vr_token_id : Z;
  vr_balance : Z;
  vr_verified_at_ledger : Z;
  vr_ttl_ledgers : Z;
  vr_verified_by_relay : Address;
  vr_confirmations : Z }.

(** [BridgeConfig], src/cross_chain_bridge.rs:84-91 *)
Record BridgeConfig := mkBridgeConfig {
  bc_signature_threshold : Z;
  bc_cache_ttl_ledgers : Z;
  bc_max_block_age : Z }.

Module BridgeKey.
(** [BridgeKey], src/cross_chain_bridge.rs:98-113 *)
Inductive BridgeKey : Set :=
  | Owner
  | BridgeRelay (a0 : Address)
  | AllRelays
  | BridgeConfig
  | PendingAttestation (a0 : Address) (a1 : Bytes) (a2 : Bytes)
  | VerificationCache (a0 : Bytes) (a1 : Bytes) (a2 : Z)
  | EthChainId.
#[global] Instance BridgeKey_eq_dec : EqDecision BridgeKey.
Proof. solve_decision. Defined.
End BridgeKey.
Abbreviation BridgeKey := BridgeKey.BridgeKey.

Module BridgeError.
(** [BridgeError], src/cross_chain_bridge.rs:122-145 *)
Inductive BridgeError : Set :=
  | Unauthorized | RelayNotFound | InvalidSignature | InsufficientConfirmations
  | AttestationTooOld | InvalidEthAddress | InvalidSignatureFormat | VerificationExpired
  | BridgeNotConfigured | RelayAlreadyExists | InvalidThreshold.
#[global] Instance BridgeError_eq_dec : EqDecision BridgeError.
Proof. solve_decision. Defined.
End BridgeError.
Abbreviation BridgeError := BridgeError.BridgeError.


Inductive BridgeTy : Set := BgOwner | BgRelay | BgAddresses | BgConfig | BgAttestation | BgRecord | BgChain.
#[global] Instance BridgeTy_eq_dec : EqDecision BridgeTy.
Proof. solve_decision. Defined.

Definition bridge_el (t : BridgeTy) : Type :=
  match t with
  | BgOwner => Address | BgRelay => BridgeRelay | BgAddresses => list Address | BgConfig => BridgeConfig
  | BgAttestation => BalanceAttestation | BgRecord => BridgeVerificationRecord | BgChain => Z
  end.

Definition bridge_key_ty (k : BridgeKey) : BridgeTy :=
  match k with
  | BridgeKey.Owner => BgOwner
  | BridgeKey.BridgeRelay _ => BgRelay
  | BridgeKey.AllRelays => BgAddresses
  | BridgeKey.BridgeConfig => BgConfig
  | BridgeKey.PendingAttestation _ _ _ => BgAttestation
  | BridgeKey.VerificationCache _ _ _ => BgRecord
  | BridgeKey.EthChainId => BgChain
  end.

Canonical bridge_layout : Layout := {|
  key := BridgeKey; ty := BridgeTy; el := bridge_el; layout_key_ty := bridge_key_ty;
  key_dec := _; ty_dec := _; error := BridgeError; datum := Payload |}.

Abbreviation M := (CM bridge_layout).
Abbreviation St := (CSt bridge_layout).
Abbreviation store := (kvstore bridge_layout).

(** *** Helpers *)

(** [get_owner], src/cross_chain_bridge.rs:446-451 *)
Definition get_owner : M Address :=
  let* o := iget BridgeKey.Owner in unwrap_or_raise (L := bridge_layout) o BridgeError.Unauthorized.
(** [get_bridge_config], src/cross_chain_bridge.rs:453-458 *)
Definition get_bridge_config : M BridgeConfig :=
  let* o := iget BridgeKey.BridgeConfig in unwrap_or_raise (L := bridge_layout) o BridgeError.BridgeNotConfigured.
(** [validate_eth_address], src/cross_chain_bridge.rs:460-466 *)
Definition validate_eth_address (addr : Bytes) : M unit :=
  reject_if (L := bridge_layout) (negb (Z.eqb (len addr) 42)) BridgeError.InvalidEthAddress.
(** [verify_signature]: the hash of the message goes into the log alone,
    src/cross_chain_bridge.rs:468-495 *)
Definition verify_signature (relay : BridgeRelay) (attestation : BalanceAttestation) : bool :=
  if negb (Z.eqb (len (ba_signature attestation)) 65) then false else true.

(** *** Entry points *)

(** [initialize_bridge], src/cross_chain_bridge.rs:156-189 *)
Definition initialize_bridge (owner : Address) (signature_threshold cache_ttl_ledgers eth_chain_id : Z) : M unit :=
  do* require_auth owner in
  do* reject_if (L := bridge_layout) (Z.eqb signature_threshold 0) BridgeError.InvalidThreshold in
  let config := mkBridgeConfig signature_threshold cache_ttl_ledgers 256 in
  do* iset BridgeKey.Owner owner in
  do* iset BridgeKey.BridgeConfig config in
  do* iset BridgeKey.EthChainId eth_chain_id in
  iset BridgeKey.AllRelays [].

(** [register_relay], src/cross_chain_bridge.rs:195-246 *)
Definition register_relay (relay_address : Address) (pubkey : Bytes) : M unit :=
  let* owner := get_owner in
  do* require_auth owner in
  do* reject_if (L := bridge_layout) (negb (Z.eqb (len pubkey) 65)) BridgeError.InvalidSignatureFormat in
  let* there := ihas (BridgeKey.BridgeRelay relay_address) in
  do* reject_if (L := bridge_layout) there BridgeError.RelayAlreadyExists in
  do* iset (BridgeKey.BridgeRelay relay_address) (mkBridgeRelay relay_address pubkey true 100) in
  let* relays := iget_or BridgeKey.AllRelays [] in
  iset BridgeKey.AllRelays (relays ++ [relay_address]).

(** [deactivate_relay], src/cross_chain_bridge.rs:248-269 *)
Definition deactivate_relay (relay_address : Address) : M unit :=
  let* owner := get_owner in
  do* require_auth owner in
  let* o := iget (BridgeKey.BridgeRelay relay_address) in
  let* relay := unwrap_or_raise (L := bridge_layout) o BridgeError.RelayNotFound in
  iset (BridgeKey.BridgeRelay relay_address)
    (mkBridgeRelay (br_relay_address relay) (br_pubkey relay) false (br_reputation relay)).

(** [submit_attestation], src/cross_chain_bridge.rs:275-320 *)
Definition submit_attestation (invoker : Address) (attestation : BalanceAttestation) : M unit :=
  let relay_address := invoker in
  let* o := iget (BridgeKey.BridgeRelay relay_address) in
  let* relay := unwrap_or_raise (L := bridge_layout) o BridgeError.RelayNotFound in
  do* reject_if (L := bridge_layout) (negb (br_active relay)) BridgeError.RelayNotFound in
  do* validate_eth_address (ba_user_address attestation) in
  do* validate_eth_address (ba_token_address attestation) in
  do* reject_if (L := bridge_layout) (negb (verify_signature relay attestation)) BridgeError.InvalidSignature in
  let* config := get_bridge_config in
  let* limit := u64_add (ba_block_height attestation) (bc_max_block_age config) in
  do* reject_if (L := bridge_layout) (Z.ltb limit (ba_block_height attestation)) BridgeError.AttestationTooOld in
  iset (BridgeKey.PendingAttestation relay_address (ba_user_address attestation) (ba_token_address attestation))
    attestation.

(** [accept_attestation], src/cross_chain_bridge.rs:322-373 *)
Definition accept_attestation (relay_address : Address) (user_address token_address : Bytes) (token_id : Z) : M unit :=
  let* owner := get_owner in
  do* require_auth owner in
  let* o := iget (BridgeKey.PendingAttestation relay_address user_address token_address) in
  let* attestation := unwrap_or_raise (L := bridge_layout) o BridgeError.RelayNotFound in
  let* config := get_bridge_config in
  let* now := ledger_sequence in
  iset (BridgeKey.VerificationCache user_address token_address token_id)
    (mkBridgeVerificationRecord user_address token_address token_id (ba_balance attestation) now
       (bc_cache_ttl_ledgers config) relay_address 1).

(** [get_verified_balance], src/cross_chain_bridge.rs:375-402 *)
Definition get_verified_balance (user_address token_address : Bytes) (token_id : Z) : M Z :=
  do* validate_eth_address user_address in
  do* validate_eth_address token_address in
  let* o := iget (BridgeKey.VerificationCache user_address token_address token_id) in
  match o with
  | Some record =>
      let* current_ledger := ledger_sequence in
      let* last := u32_add (vr_verified_at_ledger record) (vr_ttl_ledgers record) in
      do* reject_if (L := bridge_layout) (Z.ltb last current_ledger) BridgeError.VerificationExpired in
      ret (vr_balance record)
  | None => ret 0
  end.

(** [update_bridge_config], src/cross_chain_bridge.rs:408-435 *)
Definition update_bridge_config (signature_threshold cache_ttl_ledgers : Z) : M unit :=
  let* owner := get_owner in
  do* require_auth owner in
  do* reject_if (L := bridge_layout) (Z.eqb signature_threshold 0) BridgeError.InvalidThreshold in
  iset BridgeKey.BridgeConfig (mkBridgeConfig signature_threshold cache_ttl_ledgers 256).

(** [get_bridge_config_info], src/cross_chain_bridge.rs:437-440 *)
Definition get_bridge_config_info : M BridgeConfig := get_bridge_config.

End CrossChainBridge.

(** ** Theorems on the bridge *)

Module Bridge.
Import CrossChainBridge.

Inductive bcall : Type :=
  | BInit (o : Address) (n t e : Z)
  | BRegister (a : Address) (k : Bytes)
  | BDeactivate (a : Address)
  | BSubmit (w : Address) (a : BalanceAttestation)
  | BAccept (r : Address) (u t : Bytes) (i : Z)
  | BConfigure (n t : Z).

Definition bexec (k : bcall) : M unit :=
  match k with
  | BInit o n t e => initialize_bridge o n t e
  | BRegister a k => register_relay a k
  | BDeactivate a => deactivate_relay a
  | BSubmit w a => submit_attestation w a
  | BAccept r u t i => accept_attestation r u t i
  | BConfigure n t => update_bridge_config n t
  end.

Definition attested_by (k : bcall) : list (Address * BalanceAttestation) :=
  match k with BSubmit w a => [(w, a)] | _ => [] end.

(** The states reached from an empty ledger, with what was attested, by whom. *)
Inductive btrace : list (Address * BalanceAttestation) -> St -> Prop :=
  | btrace_nil : btrace [] empty_state
  | btrace_call k c l s s' : btrace l s -> bexec k c s = Ok (tt, s') -> btrace (l ++ attested_by k) s'.

Definition relay_of (st : store) (a : Address) : option BridgeRelay := sget st (BridgeKey.BridgeRelay a).
Definition pending (st : store) (r : Address) (u t : Bytes) : option BalanceAttestation :=
  sget st (BridgeKey.PendingAttestation r u t).
Definition cached (st : store) (u t : Bytes) (i : Z) : option BridgeVerificationRecord :=
  sget st (BridgeKey.VerificationCache u t i).

(** The attestation [a] is about the balance of [u] in [t]. *)
Definition about (a : BalanceAttestation) (u t : Bytes) : Prop := ba_user_address a = u /\ ba_token_address a = t.

Record BInv (l : list (Address * BalanceAttestation)) (st : store) : Prop := {
  bi_relays : forall w a, (w, a) ∈ l -> is_Some (relay_of st w);
  bi_pending : forall r u t a, pending st r u t = Some a -> (r, a) ∈ l /\ about a u t;
  bi_cached : forall u t i x, cached st u t i = Some x ->
    exists a, (vr_verified_by_relay x, a) ∈ l /\ about a u t /\ ba_balance a = vr_balance x }.

(** The three kinds of entries are kept, but that relays may be added or change. *)
Lemma BInv_kept l st st' :
  (forall a, is_Some (relay_of st a) -> is_Some (relay_of st' a)) ->
  (forall r u t, pending st' r u t = pending st r u t) -> (forall u t i, cached st' u t i = cached st u t i) ->
  BInv l st -> BInv l st'.
Proof.
  intros Hr Hp Hc [H1 H2 H3]. split.
  - intros w a H. by eapply Hr, H1.
  - intros r u t a. rewrite Hp. apply H2.
  - intros u t i x. rewrite Hc. apply H3.
Qed.

Lemma submit_Ok w a c s u s' :
  submit_attestation w a c s = Ok (u, s') ->
  (exists r, relay_of (inst s) w = Some r /\ br_active r = true) /\
  inst s' = sset (inst s) (BridgeKey.PendingAttestation w (ba_user_address a) (ba_token_address a)) a.
Proof.
  unfold submit_attestation, validate_eth_address, get_bridge_config. intros H. minv. split; [|done].
  match goal with U : sget _ (BridgeKey.BridgeRelay _) = Some ?r |- _ => exists r end. zcase. done.
Qed.

Lemma accept_Ok r u t i c s x s' :
  accept_attestation r u t i c s = Ok (x, s') ->
  exists a cfg, pending (inst s) r u t = Some a /\ sget (inst s) BridgeKey.BridgeConfig = Some cfg /\
    inst s' = sset (inst s) (BridgeKey.VerificationCache u t i)
      (mkBridgeVerificationRecord u t i (ba_balance a) (cx_sequence c) (bc_cache_ttl_ledgers cfg) r 1).
Proof.
  unfold accept_attestation, get_owner, get_bridge_config. intros H. minv.
  do 2 eexists. split; [done|]. split; [done|]. done.
Qed.

Lemma attested_kept k c l s s' : BInv l (inst s) -> bexec k c s = Ok (tt, s') -> BInv (l ++ attested_by k) (inst s').
Proof.
  intros HI R. pose proof HI as [H1 H2 H3].
  destruct k as [o n t e|b key|b|w a|r u t i|n t]; simpl in R |- *; rewrite ?app_nil_r.
  - unfold initialize_bridge in R. minv. eapply BInv_kept; [..|done];
      unfold relay_of, pending, cached; intros; by store_reads.
  - unfold register_relay, get_owner in R. minv. eapply BInv_kept; [..|done]; unfold relay_of, pending, cached;
      intros; [|by store_reads|by store_reads].
    match goal with |- is_Some (sget _ (BridgeKey.BridgeRelay ?x)) =>
      destruct (decide (x = b)) as [->|]; store_reads; [by eexists|done] end.
  - unfold deactivate_relay, get_owner in R. minv. eapply BInv_kept; [..|done]; unfold relay_of, pending, cached;
      intros; [|by store_reads|by store_reads].
    match goal with |- is_Some (sget _ (BridgeKey.BridgeRelay ?x)) =>
      destruct (decide (x = b)) as [->|]; store_reads; [by eexists|done] end.
  - destruct (submit_Ok _ _ _ _ _ _ R) as [(x & Ex & _) E]. split.
    + intros w' a' [H|[= -> ->]%list_elem_of_singleton]%elem_of_app; unfold relay_of; rewrite E; store_reads.
      * by eapply H1.
      * by eexists.
    + intros r u t a' Hp. unfold pending in Hp. rewrite E in Hp.
      destruct (decide (BridgeKey.PendingAttestation w (ba_user_address a) (ba_token_address a) =
        BridgeKey.PendingAttestation r u t)) as [[= -> <- <-]|D].
      * rewrite sset_eq in Hp. injection Hp as <-. split; [|done]. set_solver.
      * rewrite sset_ne in Hp by done. destruct (H2 _ _ _ _ Hp) as [? ?]. split; [set_solver|done].
    + intros u t i y Hc. unfold cached in Hc. rewrite E, sset_ne in Hc by done.
      destruct (H3 _ _ _ _ Hc) as (b & ? & ? & ?). exists b. split; [set_solver|done].
  - destruct (accept_Ok _ _ _ _ _ _ _ _ R) as (a & cfg & Hp & _ & E). split.
    + intros w b H. unfold relay_of. rewrite E. store_reads. by eapply H1.
    + intros r' u' t' b. unfold pending. rewrite E. store_reads. apply H2.
    + intros u' t' i' x Hc. unfold cached in Hc. rewrite E in Hc.
      destruct (decide (BridgeKey.VerificationCache u t i = BridgeKey.VerificationCache u' t' i')) as [[= <- <- <-]|D].
      * rewrite sset_eq in Hc. injection Hc as <-. exists a. simpl. destruct (H2 _ _ _ _ Hp) as [? ?]. done.
      * rewrite sset_ne in Hc by done. by eapply H3.
  - unfold update_bridge_config, get_owner in R. minv. eapply BInv_kept; [..|done];
      unfold relay_of, pending, cached; intros; by store_reads.
Qed.

(** In every reachable state a balance the bridge answers with, unless it is
    none, was attested for that user and that token by a relay the owner
    registered. *)
Theorem balances_were_attested l s u t i c b s' :
  btrace l s -> get_verified_balance u t i c s = Ok (b, s') -> b <> 0 ->
  exists w a, (w, a) ∈ l /\ is_Some (relay_of (inst s) w) /\ about a u t /\ ba_balance a = b.
Proof.
  intros Ht R Hb. assert (BInv l (inst s)) as [H1 H2 H3].
  { clear R. induction Ht as [|k c' l s s1 _ IH R]; [|by eapply attested_kept].
    split; simpl; [by intros ? ? ?%not_elem_of_nil|done|done]. }
  unfold get_verified_balance, validate_eth_address in R. mcase; try done.
  destruct (H3 u t i _ ltac:(eassumption)) as (y & Hin & Ha & Ey). do 2 eexists. split; [done|].
  split; [by eapply H1|]. done.
Qed.

(** One attestation is enough: the owner may enter it under any token id,
    whatever the id it was made for, whatever the threshold of signatures and
    whatever became of its relay. *)
Theorem one_attestation_suffices r u t i a o cfg c c' s :
  sget (inst s) BridgeKey.Owner = Some o -> cx_auth c o = true -> sget (inst s) BridgeKey.BridgeConfig = Some cfg ->
  pending (inst s) r u t = Some a -> len u = 42 -> len t = 42 ->
  cx_sequence c' <= cx_sequence c + bc_cache_ttl_ledgers cfg <= u32_max ->
  exists s', accept_attestation r u t i c s = Ok (tt, s') /\ get_verified_balance u t i c' s' = Ok (ba_balance a, s').
Proof.
  intros Ho Ha Hc Hp Hu Ht [Hs1 Hs2]. unfold pending in Hp.
  unfold accept_attestation, get_owner, get_bridge_config, require_auth, iget, iset, ledger_sequence, bind. simpl.
  rewrite Ho. simpl. rewrite Ha, Hp. simpl. rewrite Hc. simpl. eexists. split; [reflexivity|].
  unfold get_verified_balance, validate_eth_address, iget, ledger_sequence, bind. simpl.
  rewrite Hu, Ht. simpl. rewrite sset_eq. simpl. unfold u32_add. simpl.
  rewrite (proj2 (Z.leb_le _ _) Hs2). unfold ret. simpl.
  rewrite (proj2 (Z.ltb_ge (cx_sequence c + bc_cache_ttl_ledgers cfg) (cx_sequence c'))) by done. done.
Qed.

(** The age of a block never matters: an active relay attests for any height
    that leaves room for the maximal age below [2^64]. *)
Theorem old_blocks_are_attested w r a cfg c s :
  relay_of (inst s) w = Some r -> br_active r = true -> sget (inst s) BridgeKey.BridgeConfig = Some cfg ->
  len (ba_user_address a) = 42 -> len (ba_token_address a) = 42 -> len (ba_signature a) = 65 ->
  0 <= bc_max_block_age cfg ->
  succeeds (submit_attestation w a) c s = bool_decide (ba_block_height a + bc_max_block_age cfg <= u64_max).
Proof.
  intros Hr Hact Hc Hu Ht Hg Hage. unfold relay_of in Hr.
  unfold succeeds, submit_attestation, validate_eth_address, verify_signature, get_bridge_config, iget, bind. simpl.
  rewrite Hr. simpl. rewrite Hact, Hu, Ht, Hg. simpl. rewrite Hc. simpl. unfold u64_add.
  case_bool_decide as D.
  - rewrite (proj2 (Z.leb_le _ _) D). simpl. by rewrite (proj2 (Z.ltb_ge _ _)) by lia.
  - by rewrite (proj2 (Z.leb_gt _ _)) by lia.
Qed.

(** *** At concrete states *)

Definition eth (n : Z) : Bytes := replicate 42 n.
Definition att (id height : Z) : BalanceAttestation :=
  mkBalanceAttestation alice (eth 1) (eth 2) id 500 height 0 (replicate 65 0) false.
Definition b_run (t : Z) (k : bcall) (s : St) : St := post (bexec k) (at_time t) s.
Definition b_ready : St :=
  b_run 20 (BRegister alice (replicate 65 4)) (b_run 10 (BInit owner 3 100 1) empty_state).
Definition b_pending : St := b_run 30 (BSubmit alice (att 7 1)) b_ready.
Definition b_cached : St := b_run 40 (BAccept alice (eth 1) (eth 2) 9) b_pending.

Lemma b_run_trace t k l s : btrace l s -> outcome (bexec k) (at_time t) s = Ok tt ->
  btrace (l ++ attested_by k) (b_run t k s).
Proof. intros Ht H. eapply btrace_call; [exact Ht|]. exact (run_outcome (bexec k) (at_time t) s tt H). Qed.

Lemma b_cached_trace : btrace [(alice, att 7 1)] b_cached.
Proof.
  change [(alice, att 7 1)]
    with (((([] ++ []) ++ []) ++ [(alice, att 7 1)]) ++ ([] : list (Address * BalanceAttestation))).
  apply (b_run_trace 40 (BAccept alice (eth 1) (eth 2) 9)); [|vm_compute; reflexivity].
  apply (b_run_trace 30 (BSubmit alice (att 7 1))); [|vm_compute; reflexivity].
  apply (b_run_trace 20 (BRegister alice (replicate 65 4))); [|vm_compute; reflexivity].
  apply (b_run_trace 10 (BInit owner 3 100 1)); [apply btrace_nil|vm_compute; reflexivity].
Qed.

Lemma balances_were_attested_witness :
  exists w a, (w, a) ∈ [(alice, att 7 1)] /\ is_Some (relay_of (inst b_cached) w) /\ about a (eth 1) (eth 2) /\
    ba_balance a = 500.
Proof.
  eapply (balances_were_attested _ b_cached (eth 1) (eth 2) 9 (at_time 45) 500 b_cached b_cached_trace); [|done].
  assert (outcome (get_verified_balance (eth 1) (eth 2) 9) (at_time 45) b_cached = Ok 500) as E
    by (vm_compute; reflexivity).
  exact (run_outcome _ _ _ _ E).
Defined.

Lemma one_attestation_suffices_witness :
  exists s', accept_attestation alice (eth 1) (eth 2) 9 (at_time 40) b_pending = Ok (tt, s') /\
    get_verified_balance (eth 1) (eth 2) 9 (at_time 45) s' = Ok (500, s').
Proof.
  destruct (sget (inst b_pending) BridgeKey.BridgeConfig) as [cfg|] eqn:Ec; [|vm_compute in Ec; discriminate Ec].
  assert (bc_cache_ttl_ledgers cfg = 100) as Et by (vm_compute in Ec; injection Ec as <-; reflexivity).
  apply (one_attestation_suffices alice (eth 1) (eth 2) 9 (att 7 1) owner cfg (at_time 40) (at_time 45) b_pending);
    [vm_compute; reflexivity|reflexivity|exact Ec|vm_compute; reflexivity|reflexivity|reflexivity|].
  rewrite Et. vm_compute. done.
Defined.

Lemma old_blocks_are_attested_witness :
  succeeds (submit_attestation alice (att 7 1)) (at_time 1000000) b_ready = true.
Proof.
  destruct (relay_of (inst b_ready) alice) as [r|] eqn:Er; [|vm_compute in Er; discriminate Er].
  destruct (sget (inst b_ready) BridgeKey.BridgeConfig) as [cfg|] eqn:Ec; [|vm_compute in Ec; discriminate Ec].
  assert (bc_max_block_age cfg = 256) as Et by (vm_compute in Ec; injection Ec as <-; reflexivity).
  rewrite (old_blocks_are_attested alice r (att 7 1) cfg (at_time 1000000) b_ready Er);
    [rewrite Et; reflexivity| |exact Ec|reflexivity|reflexivity|reflexivity|rewrite Et; done].
  vm_compute in Er. injection Er as <-. reflexivity.
Defined.

End Bridge.

(** ** The life cycle of tokenized assets *)

Module AssetLifecycle.

Module AssetLifecycleError.
(** [AssetLifecycleError], src/asset_lifecycle.rs:14-35 *)
Inductive AssetLifecycleError : Set :=
  | AssetNotFound | ComplianceFailed | InsufficientBalance | InvalidTransfer
  | CorporateActionFailed | TradingNotAllowed | AssetNotMatured | RedemptionFailed
  | InvestorNotVerified | InvalidComplianceRule.
#[global] Instance AssetLifecycleError_eq_dec : EqDecision AssetLifecycleError.
Proof. solve_decision. Defined.
End AssetLifecycleError.
Abbreviation AssetLifecycleError := AssetLifecycleError.AssetLifecycleError.

Module AssetStatus.
(** [AssetStatus], src/asset_lifecycle.rs:40-47 *)
Inductive AssetStatus : Set :=
  | Draft | Issued | Trading | Restricted | Matured | Redeemed.
#[global] Instance AssetStatus_eq_dec : EqDecision AssetStatus.
Proof. solve_decision. Defined.
End AssetStatus.
Abbreviation AssetStatus := AssetStatus.AssetStatus.

Module ComplianceRuleType.
(** [ComplianceRuleType], src/asset_lifecycle.rs:52-58 *)
Inductive ComplianceRuleType : Set :=
  | Accredited | KYC | Whitelisted | TransferRestriction | HoldingPeriod.
#[global] Instance ComplianceRuleType_eq_dec : EqDecision ComplianceRuleType.
Proof. solve_decision. Defined.
End ComplianceRuleType.
Abbreviation ComplianceRuleType := ComplianceRuleType.ComplianceRuleType.

(** [TokenizedAsset], src/asset_lifecycle.rs:63-88 *)
Record TokenizedAsset := mkTokenizedAsset {
  ta_asset_id : Hash;
  ta_name : Bytes;
  ta_symbol : Bytes;
  ta_issuer : Address;
  ta_total_supply : Z;
  ta_decimals : Z;
  ta_status : AssetStatus;
  ta_maturity_date : Z;
  ta_coupon_rate_bp : Z;
  ta_par_value : Z;
  ta_issued_at : Z;
  ta_legal_document_hash : Hash }.

(** [InvestorProfile], src/asset_lifecycle.rs:93-110 *)
Record InvestorProfile := mkInvestorProfile {
  ip_investor : Address;
  ip_name : Bytes;
  ip_kyc_verified : bool;
  ip_accredited : bool;
  ip_whitelisted_chains : Bytes;
  ip_verified_at : Z;
  ip_portfolio_value : Z;
  ip_risk_rating : Z }.

(** [Holding], src/asset_lifecycle.rs:115-132 *)
Record Holding := mkHolding {
  ho_holding_id : Hash;
  ho_asset_id : Hash;
  ho_investor : Address;
  ho_quantity : Z;
  ho_acquisition_price : Z;
  ho_acquired_at : Z;
  ho_locked_until : Z;
  ho_accrued_coupon : Z }.

(** [CorporateAction], src/asset_lifecycle.rs:137-157 *)
Record CorporateAction := mkCorporateAction {
  ca_action_id : Hash;
  ca_asset_id : Hash;
  ca_action_type : Z;
  ca_effective_date : Z;
  ca_dividend_amount : Z;
  ca_split_numerator : Z;
  ca_split_denominator : Z;
  ca_record_date : Z;
  ca_payment_date : Z;
  ca_status : Z }.

(** [Trade], src/asset_lifecycle.rs:162-185 *)
Record Trade := mkTrade {
  td_trade_id : Hash;
  td_asset_id : Hash;
  td_seller : Address;
  td_buyer : Address;
  td_quantity : Z;
  td_price : Z;
  td_total : Z;
  td_trade_date : Z;
  td_settlement_date : Z;
  td_status : Z;
  td_compliance_passed : bool }.

(** [RedemptionRecord], src/asset_lifecycle.rs:190-209 *)
Record RedemptionRecord := mkRedemptionRecord {
  rd_redemption_id : Hash;
  rd_asset_id : Hash;
  rd_investor : Address;
  rd_quantity : Z;
  rd_redemption_price : Z;
  rd_total_amount : Z;
  rd_redemption_date : Z;
  rd_settlement_date : Z;
  rd_status : Z }.

(** [ComplianceRule], src/asset_lifecycle.rs:214-231 *)
Record ComplianceRule := mkComplianceRule {
  cr_rule_id : Hash;
  cr_asset_id : Hash;
  cr_rule_type : ComplianceRuleType;
  cr_min_holding_period : Z;
  cr_max_ownership_pct : Z;
  cr_requires_whitelist : bool;
  cr_requires_accreditation : bool;
  cr_enabled : bool }.

Module AssetLifecycleDataKey.
(** [AssetLifecycleDataKey], src/asset_lifecycle.rs:236-275 *)
Inductive AssetLifecycleDataKey : Set :=
  | Asset (a0 : Hash)
  | InvestorProfile (a0 : Address)
  | Holding (a0 : Hash)
  | InvestorAssetHoldings (a0 : Address) (a1 : Hash)
  | CorporateAction (a0 : Hash)
  | Trade (a0 : Hash)
  | Redemption (a0 : Hash)
  | ComplianceRule (a0 : Hash)
  | AssetComplianceRules (a0 : Hash)
  | AssetTradeList (a0 : Hash)
  | AssetCorporateActions (a0 : Hash)
  | AssetRedemptions (a0 : Hash)
  | AssetCount
  | InvestorCount
  | TradeCount
  | CorporateActionCount
  | RedemptionCount
  | IssuedSupply (a0 : Hash)
  | AssetInvestorList (a0 : Hash).
#[global] Instance AssetLifecycleDataKey_eq_dec : EqDecision AssetLifecycleDataKey.
Proof. solve_decision. Defined.
End AssetLifecycleDataKey.
Abbreviation AssetLifecycleDataKey := AssetLifecycleDataKey.AssetLifecycleDataKey.


Inductive LifeTy : Set :=
  | LfAsset | LfInvestor | LfHolding | LfIds | LfAction | LfTrade | LfRedemption | LfRule | LfNumber | LfAddresses.
#[global] Instance LifeTy_eq_dec : EqDecision LifeTy.
Proof. solve_decision. Defined.

Definition life_el (t : LifeTy) : Type :=
  match t with
  | LfAsset => TokenizedAsset | LfInvestor => InvestorProfile | LfHolding => Holding | LfIds => list Hash
  | LfAction => CorporateAction | LfTrade => Trade | LfRedemption => RedemptionRecord | LfRule => ComplianceRule
  | LfNumber => Z | LfAddresses => list Address
  end.

Definition life_key_ty (k : AssetLifecycleDataKey) : LifeTy :=
  match k with
  | AssetLifecycleDataKey.Asset _ => LfAsset
  | AssetLifecycleDataKey.InvestorProfile _ => LfInvestor
  | AssetLifecycleDataKey.Holding _ => LfHolding
  | AssetLifecycleDataKey.CorporateAction _ => LfAction
  | AssetLifecycleDataKey.Trade _ => LfTrade
  | AssetLifecycleDataKey.Redemption _ => LfRedemption
  | AssetLifecycleDataKey.ComplianceRule _ => LfRule
  | AssetLifecycleDataKey.InvestorAssetHoldings _ _ | AssetLifecycleDataKey.AssetComplianceRules _
  | AssetLifecycleDataKey.AssetTradeList _ | AssetLifecycleDataKey.AssetCorporateActions _
  | AssetLifecycleDataKey.AssetRedemptions _ => LfIds
  | AssetLifecycleDataKey.AssetInvestorList _ => LfAddresses
  | _ => LfNumber
  end.

Canonical life_layout : Layout := {|
  key := AssetLifecycleDataKey; ty := LifeTy; el := life_el; layout_key_ty := life_key_ty;
  key_dec := _; ty_dec := _; error := AssetLifecycleError; datum := Payload |}.

Abbreviation M := (CM life_layout).
Abbreviation St := (CSt life_layout).
Abbreviation store := (kvstore life_layout).

(** *** Storage *)

(** [storage_get_asset], src/asset_lifecycle_impl.rs:514-517 *)
Definition storage_get_asset (asset_id : Hash) : M (option TokenizedAsset) :=
  pget (AssetLifecycleDataKey.Asset asset_id).
(** [storage_set_asset], src/asset_lifecycle_impl.rs:519-522 *)
Definition storage_set_asset (asset_id : Hash) (v : TokenizedAsset) : M unit :=
  pset (AssetLifecycleDataKey.Asset asset_id) v.
(** [storage_get_investor], src/asset_lifecycle_impl.rs:524-527 *)
Definition storage_get_investor (investor : Address) : M (option InvestorProfile) :=
  pget (AssetLifecycleDataKey.InvestorProfile investor).
(** [storage_set_investor], src/asset_lifecycle_impl.rs:529-532 *)
Definition storage_set_investor (investor : Address) (v : InvestorProfile) : M unit :=
  pset (AssetLifecycleDataKey.InvestorProfile investor) v.
(** [storage_get_trade], src/asset_lifecycle_impl.rs:534-537 *)
Definition storage_get_trade (trade_id : Hash) : M (option Trade) := pget (AssetLifecycleDataKey.Trade trade_id).
(** [storage_set_trade], src/asset_lifecycle_impl.rs:539-542 *)
Definition storage_set_trade (trade_id : Hash) (v : Trade) : M unit := pset (AssetLifecycleDataKey.Trade trade_id) v.
(** [storage_get_holding], src/asset_lifecycle_impl.rs:544-547 *)
Definition storage_get_holding (holding_id : Hash) : M (option Holding) :=
  pget (AssetLifecycleDataKey.Holding holding_id).
(** [storage_set_holding], src/asset_lifecycle_impl.rs:549-552 *)
Definition storage_set_holding (holding_id : Hash) (v : Holding) : M unit :=
  pset (AssetLifecycleDataKey.Holding holding_id) v.
(** [storage_get_corporate_action], src/asset_lifecycle_impl.rs:554-557 *)
Definition storage_get_corporate_action (action_id : Hash) : M (option CorporateAction) :=
  pget (AssetLifecycleDataKey.CorporateAction action_id).
(** [storage_set_corporate_action], src/asset_lifecycle_impl.rs:559-562 *)
Definition storage_set_corporate_action (action_id : Hash) (v : CorporateAction) : M unit :=
  pset (AssetLifecycleDataKey.CorporateAction action_id) v.
(** [storage_get_redemption], src/asset_lifecycle_impl.rs:564-567 *)
Definition storage_get_redemption (redemption_id : Hash) : M (option RedemptionRecord) :=
  pget (AssetLifecycleDataKey.Redemption redemption_id).
(** [storage_set_redemption], src/asset_lifecycle_impl.rs:569-572 *)
Definition storage_set_redemption (redemption_id : Hash) (v : RedemptionRecord) : M unit :=
  pset (AssetLifecycleDataKey.Redemption redemption_id) v.
(** [storage_get_compliance_rule], src/asset_lifecycle_impl.rs:574-577 *)
Definition storage_get_compliance_rule (rule_id : Hash) : M (option ComplianceRule) :=
  pget (AssetLifecycleDataKey.ComplianceRule rule_id).
(** [storage_set_compliance_rule], src/asset_lifecycle_impl.rs:579-582 *)
Definition storage_set_compliance_rule (rule_id : Hash) (v : ComplianceRule) : M unit :=
  pset (AssetLifecycleDataKey.ComplianceRule rule_id) v.
(** [storage_get_asset_compliance_rules], src/asset_lifecycle_impl.rs:584-591 *)
Definition storage_get_asset_compliance_rules (asset_id : Hash) : M (list Hash) :=
  pget_or (AssetLifecycleDataKey.AssetComplianceRules asset_id) [].
(** [storage_set_asset_compliance_rules], src/asset_lifecycle_impl.rs:593-596 *)
Definition storage_set_asset_compliance_rules (asset_id : Hash) (v : list Hash) : M unit :=
  pset (AssetLifecycleDataKey.AssetComplianceRules asset_id) v.
(** [storage_get_asset_trade_list], src/asset_lifecycle_impl.rs:598-605 *)
Definition storage_get_asset_trade_list (asset_id : Hash) : M (list Hash) :=
  pget_or (AssetLifecycleDataKey.AssetTradeList asset_id) [].
(** [storage_set_asset_trade_list], src/asset_lifecycle_impl.rs:607-610 *)
Definition storage_set_asset_trade_list (asset_id : Hash) (v : list Hash) : M unit :=
  pset (AssetLifecycleDataKey.AssetTradeList asset_id) v.
(** [storage_get_asset_corporate_actions], src/asset_lifecycle_impl.rs:612-619 *)
Definition storage_get_asset_corporate_actions (asset_id : Hash) : M (list Hash) :=
  pget_or (AssetLifecycleDataKey.AssetCorporateActions asset_id) [].
(** [storage_set_asset_corporate_actions], src/asset_lifecycle_impl.rs:621-628 *)
Definition storage_set_asset_corporate_actions (asset_id : Hash) (v : list Hash) : M unit :=
  pset (AssetLifecycleDataKey.AssetCorporateActions asset_id) v.
(** [storage_get_asset_redemptions], src/asset_lifecycle_impl.rs:630-637 *)
Definition storage_get_asset_redemptions (asset_id : Hash) : M (list Hash) :=
  pget_or (AssetLifecycleDataKey.AssetRedemptions asset_id) [].
(** [storage_set_asset_redemptions], src/asset_lifecycle_impl.rs:639-642 *)
Definition storage_set_asset_redemptions (asset_id : Hash) (v : list Hash) : M unit :=
  pset (AssetLifecycleDataKey.AssetRedemptions asset_id) v.
(** [storage_get_asset_count], src/asset_lifecycle_impl.rs:658-665 *)
Definition storage_get_asset_count : M Z := pget_or AssetLifecycleDataKey.AssetCount 0.
(** [storage_set_asset_count], src/asset_lifecycle_impl.rs:667-670 *)
Definition storage_set_asset_count (v : Z) : M unit := pset AssetLifecycleDataKey.AssetCount v.
(** [storage_get_investor_count], src/asset_lifecycle_impl.rs:672-679 *)
Definition storage_get_investor_count : M Z := pget_or AssetLifecycleDataKey.InvestorCount 0.
(** [storage_set_investor_count], src/asset_lifecycle_impl.rs:681-684 *)
Definition storage_set_investor_count (v : Z) : M unit := pset AssetLifecycleDataKey.InvestorCount v.
(** [storage_get_trade_count], src/asset_lifecycle_impl.rs:686-693 *)
Definition storage_get_trade_count : M Z := pget_or AssetLifecycleDataKey.TradeCount 0.
(** [storage_set_trade_count], src/asset_lifecycle_impl.rs:695-698 *)
Definition storage_set_trade_count (v : Z) : M unit := pset AssetLifecycleDataKey.TradeCount v.
(** [storage_get_corporate_action_count], src/asset_lifecycle_impl.rs:700-707 *)
Definition storage_get_corporate_action_count : M Z := pget_or AssetLifecycleDataKey.CorporateActionCount 0.
(** [storage_set_corporate_action_count], src/asset_lifecycle_impl.rs:709-712 *)
Definition storage_set_corporate_action_count (v : Z) : M unit := pset AssetLifecycleDataKey.CorporateActionCount v.
(** [storage_get_redemption_count], src/asset_lifecycle_impl.rs:714-721 *)
Definition storage_get_redemption_count : M Z := pget_or AssetLifecycleDataKey.RedemptionCount 0.
(** [storage_set_redemption_count], src/asset_lifecycle_impl.rs:723-726 *)
Definition storage_set_redemption_count (v : Z) : M unit := pset AssetLifecycleDataKey.RedemptionCount v.
(** [storage_get_issued_supply], src/asset_lifecycle_impl.rs:728-735 *)
Definition storage_get_issued_supply (asset_id : Hash) : M Z := pget_or (AssetLifecycleDataKey.IssuedSupply asset_id) 0.
(** [storage_set_issued_supply], src/asset_lifecycle_impl.rs:737-740 *)
Definition storage_set_issued_supply (asset_id : Hash) (v : Z) : M unit :=
  pset (AssetLifecycleDataKey.IssuedSupply asset_id) v.

(** [storage_get_investor_balance], src/asset_lifecycle_impl.rs:644-647 *)
Definition storage_get_investor_balance (asset_id : Hash) (investor : Address) : M Z := ret 0.
(** [storage_set_investor_balance], src/asset_lifecycle_impl.rs:649-656 *)
Definition storage_set_investor_balance (asset_id : Hash) (investor : Address) (balance : Z) : M unit := ret tt.

(** A counter raised by one, and an identifier entered at the end of a list. *)
Definition count_one (get : M Z) (set : Z -> M unit) : M unit :=
  let* count := get in
  let* count := u32_add count 1 in
  set count.
Definition list_one (get : M (list Hash)) (set : list Hash -> M unit) (id : Hash) : M unit :=
  let* l := get in set (l ++ [id]).

(** *** Reading *)

(** [get_asset], src/asset_lifecycle_impl.rs:58-60 *)
Definition get_asset (asset_id : Hash) : M TokenizedAsset :=
  let* o := storage_get_asset asset_id in unwrap_or_raise o AssetLifecycleError.AssetNotFound.
(** [get_investor], src/asset_lifecycle_impl.rs:134-139 *)
Definition get_investor (investor : Address) : M InvestorProfile :=
  let* o := storage_get_investor investor in unwrap_or_raise o AssetLifecycleError.InvestorNotVerified.
(** [get_trade], src/asset_lifecycle_impl.rs:256-258 *)
Definition get_trade (trade_id : Hash) : M Trade :=
  let* o := storage_get_trade trade_id in unwrap_or_raise o AssetLifecycleError.TradingNotAllowed.
(** [get_holding], src/asset_lifecycle_impl.rs:309-314 *)
Definition get_holding (holding_id : Hash) : M Holding :=
  let* o := storage_get_holding holding_id in unwrap_or_raise o AssetLifecycleError.AssetNotFound.
(** [get_investor_balance], src/asset_lifecycle_impl.rs:316-322 *)
Definition get_investor_balance (asset_id : Hash) (investor : Address) : M Z :=
  storage_get_investor_balance asset_id investor.
(** [get_corporate_action], src/asset_lifecycle_impl.rs:378-384 *)
Definition get_corporate_action (action_id : Hash) : M CorporateAction :=
  let* o := storage_get_corporate_action action_id in unwrap_or_raise o AssetLifecycleError.CorporateActionFailed.
(** [get_redemption], src/asset_lifecycle_impl.rs:473-478 *)
Definition get_redemption (redemption_id : Hash) : M RedemptionRecord :=
  let* o := storage_get_redemption redemption_id in unwrap_or_raise o AssetLifecycleError.RedemptionFailed.
(** [total_asset_count], src/asset_lifecycle_impl.rs:482-484 *)
Definition total_asset_count : M Z := storage_get_asset_count.
(** [total_investor_count], src/asset_lifecycle_impl.rs:486-488 *)
Definition total_investor_count : M Z := storage_get_investor_count.
(** [total_trades], src/asset_lifecycle_impl.rs:490-492 *)
Definition total_trades : M Z := storage_get_trade_count.
(** [total_corporate_actions], src/asset_lifecycle_impl.rs:494-496 *)
Definition total_corporate_actions : M Z := storage_get_corporate_action_count.
(** [asset_issued_supply], src/asset_lifecycle_impl.rs:498-500 *)
Definition asset_issued_supply (asset_id : Hash) : M Z := storage_get_issued_supply asset_id.
(** [asset_remaining_supply], src/asset_lifecycle_impl.rs:502-509 *)
Definition asset_remaining_supply (asset_id : Hash) : M Z :=
  let* o := storage_get_asset asset_id in
  match o with
  | None => ret 0
  | Some asset =>
      let* issued := storage_get_issued_supply asset_id in ret (u128_minus (ta_total_supply asset) issued)
  end.

(** *** Investors and compliance *)

(** [register_investor], src/asset_lifecycle_impl.rs:78-104 *)
Definition register_investor (investor : Address) (name : Bytes) : M unit :=
  let* there := storage_get_investor investor in
  match there with
  | Some _ => ret tt
  | None =>
      do* storage_set_investor investor (mkInvestorProfile investor name false false [] 0 0 5) in
      count_one storage_get_investor_count storage_set_investor_count
  end.
(** [verify_investor_kyc], src/asset_lifecycle_impl.rs:106-118 *)
Definition verify_investor_kyc (investor : Address) : M unit :=
  let* p := get_investor investor in
  let* now := ledger_timestamp in
  storage_set_investor investor
    (mkInvestorProfile (ip_investor p) (ip_name p) true (ip_accredited p) (ip_whitelisted_chains p) now
       (ip_portfolio_value p) (ip_risk_rating p)).
(** [set_accredited_status], src/asset_lifecycle_impl.rs:120-132 *)
Definition set_accredited_status (investor : Address) (accredited : bool) : M unit :=
  let* p := get_investor investor in
  storage_set_investor investor
    (mkInvestorProfile (ip_investor p) (ip_name p) (ip_kyc_verified p) accredited (ip_whitelisted_chains p)
       (ip_verified_at p) (ip_portfolio_value p) (ip_risk_rating p)).

(** Whether a stored rule refuses an investor. *)
Definition rule_refuses (profile : InvestorProfile) (o : option ComplianceRule) : bool :=
  match o with
  | Some rule => cr_enabled rule && cr_requires_accreditation rule && negb (ip_accredited profile)
  | None => false
  end.

(** The loop over the rules of an asset, which ends with the first that refuses. *)
Fixpoint check_rules (profile : InvestorProfile) (rules : list Hash) : M bool :=
  match rules with
  | [] => ret true
  | rule_id :: rules =>
      let* o := storage_get_compliance_rule rule_id in
      if rule_refuses profile o then ret false else check_rules profile rules
  end.
(** [check_compliance], src/asset_lifecycle_impl.rs:175-207 *)
Definition check_compliance (asset_id : Hash) (investor : Address) (quantity : Z) : M bool :=
  do* get_asset asset_id in
  let* profile := get_investor investor in
  if negb (ip_kyc_verified profile) then ret false
  else
    let* rules := storage_get_asset_compliance_rules asset_id in
    check_rules profile rules.

(** An asset in another status. *)
Definition with_status (a : TokenizedAsset) (status : AssetStatus) : TokenizedAsset :=
  mkTokenizedAsset (ta_asset_id a) (ta_name a) (ta_symbol a) (ta_issuer a) (ta_total_supply a) (ta_decimals a) status
    (ta_maturity_date a) (ta_coupon_rate_bp a) (ta_par_value a) (ta_issued_at a) (ta_legal_document_hash a).
(** [update_asset_status], src/asset_lifecycle_impl.rs:62-74 *)
Definition update_asset_status (asset_id : Hash) (status : AssetStatus) : M unit :=
  let* asset := get_asset asset_id in storage_set_asset asset_id (with_status asset status).

(** A trade that failed, and one that was settled at a time. *)
Definition trade_with (t : Trade) (settlement_date status : Z) (passed : bool) : Trade :=
  mkTrade (td_trade_id t) (td_asset_id t) (td_seller t) (td_buyer t) (td_quantity t) (td_price t) (td_total t)
    (td_trade_date t) settlement_date status passed.
(** [settle_trade], src/asset_lifecycle_impl.rs:260-305 *)
Definition settle_trade (trade_id : Hash) : M unit :=
  let* trade := get_trade trade_id in
  let* is_compliant := check_compliance (td_asset_id trade) (td_buyer trade) (td_quantity trade) in
  if negb is_compliant then
    do* storage_set_trade trade_id (trade_with trade (td_settlement_date trade) 2 (td_compliance_passed trade)) in
    raise AssetLifecycleError.ComplianceFailed
  else
    let* seller_balance := storage_get_investor_balance (td_asset_id trade) (td_seller trade) in
    do* storage_set_investor_balance (td_asset_id trade) (td_seller trade)
          (u128_minus seller_balance (td_quantity trade)) in
    let* buyer_balance := storage_get_investor_balance (td_asset_id trade) (td_buyer trade) in
    do* storage_set_investor_balance (td_asset_id trade) (td_buyer trade)
          (u128_plus buyer_balance (td_quantity trade)) in
    let* now := ledger_timestamp in
    storage_set_trade trade_id (trade_with trade now 1 true).
(** [execute_corporate_action], src/asset_lifecycle_impl.rs:365-376 *)
Definition execute_corporate_action (action_id : Hash) : M unit :=
  let* a := get_corporate_action action_id in
  storage_set_corporate_action action_id
    (mkCorporateAction (ca_action_id a) (ca_asset_id a) (ca_action_type a) (ca_effective_date a)
       (ca_dividend_amount a) (ca_split_numerator a) (ca_split_denominator a) (ca_record_date a)
       (ca_payment_date a) 2).

(** A redemption in another status, settled at a time. *)
Definition redemption_with (r : RedemptionRecord) (settlement_date status : Z) : RedemptionRecord :=
  mkRedemptionRecord (rd_redemption_id r) (rd_asset_id r) (rd_investor r) (rd_quantity r) (rd_redemption_price r)
    (rd_total_amount r) (rd_redemption_date r) settlement_date status.
(** [approve_redemption], src/asset_lifecycle_impl.rs:429-440 *)
Definition approve_redemption (redemption_id : Hash) : M unit :=
  let* record := get_redemption redemption_id in
  storage_set_redemption redemption_id (redemption_with record (rd_settlement_date record) 1).
(** [process_redemption], src/asset_lifecycle_impl.rs:442-471 *)
Definition process_redemption (redemption_id : Hash) : M unit :=
  let* record := get_redemption redemption_id in
  let* balance := storage_get_investor_balance (rd_asset_id record) (rd_investor record) in
  do* storage_set_investor_balance (rd_asset_id record) (rd_investor record)
        (u128_minus balance (rd_quantity record)) in
  let* issued := storage_get_issued_supply (rd_asset_id record) in
  do* storage_set_issued_supply (rd_asset_id record) (u128_minus issued (rd_quantity record)) in
  let* now := ledger_timestamp in
  storage_set_redemption redemption_id (redemption_with record now 2).

Section Hashed.
Context `{C : Crypto}.

(** [compute_asset_id], src/asset_lifecycle.rs:428-438 *)
Definition compute_asset_id (issuer : Address) : M Hash :=
  let* nonce := ledger_timestamp in ret (sha256 (address_slot issuer ++ u64_to_bytes nonce)).
(** [compute_rule_id], src/asset_lifecycle_impl.rs:744-750 *)
Definition compute_rule_id (asset_id : Hash) : M Hash :=
  let* nonce := ledger_timestamp in ret (sha256 (asset_id ++ u64_to_bytes nonce)).
(** [compute_trade_id], src/asset_lifecycle_impl.rs:752-758 *)
Definition compute_trade_id (asset_id : Hash) (seller : Address) : M Hash :=
  let* nonce := ledger_timestamp in ret (sha256 (asset_id ++ u64_to_bytes nonce)).
(** [compute_action_id], src/asset_lifecycle_impl.rs:760-766 *)
Definition compute_action_id (asset_id : Hash) : M Hash :=
  let* nonce := ledger_timestamp in ret (sha256 (asset_id ++ u64_to_bytes nonce)).
(** [compute_redemption_id], src/asset_lifecycle_impl.rs:768-774 *)
Definition compute_redemption_id (asset_id : Hash) : M Hash :=
  let* nonce := ledger_timestamp in ret (sha256 (asset_id ++ u64_to_bytes nonce)).

(** [issue_asset], src/asset_lifecycle_impl.rs:19-56 *)
Definition issue_asset (issuer : Address) (name symbol : Bytes) (total_supply decimals maturity_date coupon_rate_bp
    par_value : Z) (legal_document_hash : Hash) : M Hash :=
  let* asset_id := compute_asset_id issuer in
  let* now := ledger_timestamp in
  do* storage_set_asset asset_id
        (mkTokenizedAsset asset_id name symbol issuer total_supply decimals AssetStatus.Issued maturity_date
           coupon_rate_bp par_value now legal_document_hash) in
  do* storage_set_issued_supply asset_id 0 in
  do* count_one storage_get_asset_count storage_set_asset_count in
  ret asset_id.
(** [add_compliance_rule], src/asset_lifecycle_impl.rs:141-173 *)
Definition add_compliance_rule (asset_id : Hash) (rule_type : ComplianceRuleType)
    (min_holding_period max_ownership_pct : Z) (requires_whitelist requires_accreditation : bool) : M Hash :=
  do* get_asset asset_id in
  let* rule_id := compute_rule_id asset_id in
  do* storage_set_compliance_rule rule_id
        (mkComplianceRule rule_id asset_id rule_type min_holding_period max_ownership_pct requires_whitelist
           requires_accreditation true) in
  do* list_one (storage_get_asset_compliance_rules asset_id) (storage_set_asset_compliance_rules asset_id) rule_id in
  ret rule_id.
(** [transfer_tokens], src/asset_lifecycle_impl.rs:211-254 *)
Definition transfer_tokens (asset_id : Hash) (from to : Address) (quantity price : Z) : M Hash :=
  do* get_asset asset_id in
  let* from_balance := storage_get_investor_balance asset_id from in
  do* reject_if (Z.ltb from_balance quantity) AssetLifecycleError.InsufficientBalance in
  let* trade_id := compute_trade_id asset_id from in
  let total := u128_times quantity price in
  let* now := ledger_timestamp in
  do* storage_set_trade trade_id (mkTrade trade_id asset_id from to quantity price total now 0 0 false) in
  do* list_one (storage_get_asset_trade_list asset_id) (storage_set_asset_trade_list asset_id) trade_id in
  do* count_one storage_get_trade_count storage_set_trade_count in
  ret trade_id.
(** [declare_corporate_action], src/asset_lifecycle_impl.rs:326-363 *)
Definition declare_corporate_action (asset_id : Hash) (action_type effective_date record_date payment_date
    dividend_amount : Z) : M Hash :=
  do* get_asset asset_id in
  let* action_id := compute_action_id asset_id in
  do* storage_set_corporate_action action_id
        (mkCorporateAction action_id asset_id action_type effective_date dividend_amount 1 1 record_date payment_date
           0) in
  do* list_one (storage_get_asset_corporate_actions asset_id) (storage_set_asset_corporate_actions asset_id)
        action_id in
  do* count_one storage_get_corporate_action_count storage_set_corporate_action_count in
  ret action_id.
(** [request_redemption], src/asset_lifecycle_impl.rs:388-427 *)
Definition request_redemption (asset_id : Hash) (investor : Address) (quantity : Z) : M Hash :=
  let* asset := get_asset asset_id in
  let* balance := storage_get_investor_balance asset_id investor in
  do* reject_if (Z.ltb balance quantity) AssetLifecycleError.InsufficientBalance in
  let* redemption_id := compute_redemption_id asset_id in
  let redemption_price := ta_par_value asset in
  let* now := ledger_timestamp in
  do* storage_set_redemption redemption_id
        (mkRedemptionRecord redemption_id asset_id investor quantity redemption_price
           (u128_times quantity redemption_price) now 0 0) in
  do* list_one (storage_get_asset_redemptions asset_id) (storage_set_asset_redemptions asset_id) redemption_id in
  do* count_one storage_get_redemption_count storage_set_redemption_count in
  ret redemption_id.

End Hashed.
End AssetLifecycle.

(** ** Theorems on tokenized assets *)

Module Tokens.
Import AssetLifecycle.

(** The loop over the rules. *)
Lemma check_rules_all p l c s :
  check_rules p l c s =
  Ok (forallb (fun r => negb (rule_refuses p (sget (pers s) (AssetLifecycleDataKey.ComplianceRule r)))) l, s).
Proof.
  induction l as [|r l IH]; simpl; [done|]. unfold bind, storage_get_compliance_rule, pget.
  destruct (rule_refuses p _); simpl; [done|exact IH].
Qed.

(** The body of [check_compliance]: an investor passes who is verified and whom
    no stored rule of the asset refuses; neither the quantity nor the holding
    period, the share and the whitelist of a rule are asked for. *)
Theorem compliance_is_accreditation i u q c s a p :
  sget (pers s) (AssetLifecycleDataKey.Asset i) = Some a ->
  sget (pers s) (AssetLifecycleDataKey.InvestorProfile u) = Some p ->
  check_compliance i u q c s =
  Ok (ip_kyc_verified p &&
        forallb (fun r => negb (rule_refuses p (sget (pers s) (AssetLifecycleDataKey.ComplianceRule r))))
          (match sget (pers s) (AssetLifecycleDataKey.AssetComplianceRules i) with Some l => l | None => [] end), s).
Proof.
  intros Ea Ep. unfold check_compliance, get_asset, get_investor, storage_get_asset, storage_get_investor, pget, bind.
  simpl. rewrite Ea. simpl. rewrite Ep. simpl. destruct (ip_kyc_verified p); simpl; [|done].
  apply check_rules_all.
Qed.

Section Hashed.
Context `{C : Crypto}.

Inductive lcall : Type :=
  | LIssue (u : Address) (n y : Bytes) (t d m r v : Z) (h : Hash)
  | LStatus (i : Hash) (x : AssetStatus)
  | LInvestor (u : Address) (n : Bytes)
  | LVerify (u : Address)
  | LAccredit (u : Address) (b : bool)
  | LRule (i : Hash) (t : ComplianceRuleType) (m o : Z) (w a : bool)
  | LTransfer (i : Hash) (f t : Address) (q p : Z)
  | LSettle (i : Hash)
  | LDeclare (i : Hash) (t e r p d : Z)
  | LAct (i : Hash)
  | LRedeem (i : Hash) (u : Address) (q : Z)
  | LApprove (i : Hash)
  | LProcess (i : Hash).

Definition lexec (k : lcall) : M unit :=
  match k with
  | LIssue u n y t d m r v h => do* issue_asset u n y t d m r v h in ret tt
  | LStatus i x => update_asset_status i x
  | LInvestor u n => register_investor u n
  | LVerify u => verify_investor_kyc u
  | LAccredit u b => set_accredited_status u b
  | LRule i t m o w a => do* add_compliance_rule i t m o w a in ret tt
  | LTransfer i f t q p => do* transfer_tokens i f t q p in ret tt
  | LSettle i => settle_trade i
  | LDeclare i t e r p d => do* declare_corporate_action i t e r p d in ret tt
  | LAct i => execute_corporate_action i
  | LRedeem i u q => do* request_redemption i u q in ret tt
  | LApprove i => approve_redemption i
  | LProcess i => process_redemption i
  end.

(** Quantities are unsigned. *)
Definition lunsigned (k : lcall) : Prop :=
  match k with LTransfer _ _ _ q _ | LRedeem _ _ q => 0 <= q | _ => True end.

Definition lstep (s s' : St) : Prop := exists k c, lunsigned k /\ lexec k c s = Ok (tt, s').
Definition lreach (s : St) : Prop := rtc lstep empty_state s.

Definition trade_of (st : store) (i : Hash) : option Trade := sget st (AssetLifecycleDataKey.Trade i).
Definition redemption_of (st : store) (i : Hash) : option RedemptionRecord :=
  sget st (AssetLifecycleDataKey.Redemption i).
Definition issued (st : store) (i : Hash) : Z :=
  match sget st (AssetLifecycleDataKey.IssuedSupply i) with Some n => n | None => 0 end.

(** A trade of nothing that waits, or was settled and found compliant. *)
Definition idle_trade (t : Trade) : Prop :=
  td_quantity t = 0 /\ ((td_status t = 0 /\ td_compliance_passed t = false) \/
                        (td_status t = 1 /\ td_compliance_passed t = true)).

Record LInv (st : store) : Prop := {
  li_trades : forall i t, trade_of st i = Some t -> idle_trade t;
  li_redemptions : forall i r, redemption_of st i = Some r -> rd_quantity r = 0;
  li_issued : forall i, issued st i = 0 }.

(** Stores that differ by entries of other kinds, and by one entry that is as it should be. *)
Lemma LInv_kept st st' :
  (forall i t, trade_of st' i = Some t -> trade_of st i = Some t \/ idle_trade t) ->
  (forall i r, redemption_of st' i = Some r -> redemption_of st i = Some r \/ rd_quantity r = 0) ->
  (forall i, issued st' i = issued st i \/ issued st' i = 0) -> LInv st -> LInv st'.
Proof.
  intros Ht Hr Hi [H1 H2 H3]. split.
  - intros i t E. destruct (Ht i t E) as [E'|?]; [by eapply H1|done].
  - intros i r E. destruct (Hr i r E) as [E'|?]; [by eapply H2|done].
  - intros i. destruct (Hi i) as [->|?]; [apply H3|done].
Qed.

(** The three parts of [LInv_kept], where the operation writes none of the three kinds. *)
Ltac same_tac :=
  unfold trade_of, redemption_of, issued; intros; left;
  repeat match goal with H : sget _ _ = Some _ |- _ => revert H end; store_reads; done.

Ltac unfold_storage :=
  unfold storage_get_asset, storage_set_asset, storage_get_investor, storage_set_investor, storage_get_trade,
    storage_set_trade, storage_get_corporate_action, storage_set_corporate_action, storage_get_redemption,
    storage_set_redemption, storage_get_compliance_rule, storage_set_compliance_rule,
    storage_get_asset_compliance_rules, storage_set_asset_compliance_rules, storage_get_asset_trade_list,
    storage_set_asset_trade_list, storage_get_asset_corporate_actions, storage_set_asset_corporate_actions,
    storage_get_asset_redemptions, storage_set_asset_redemptions, storage_get_asset_count, storage_set_asset_count,
    storage_get_investor_count, storage_set_investor_count, storage_get_trade_count, storage_set_trade_count,
    storage_get_corporate_action_count, storage_set_corporate_action_count, storage_get_redemption_count,
    storage_set_redemption_count, storage_get_issued_supply, storage_set_issued_supply,
    storage_get_investor_balance, storage_set_investor_balance, list_one, count_one in *.

Lemma check_compliance_state i u q c s b s' : check_compliance i u q c s = Ok (b, s') -> s' = s.
Proof.
  unfold check_compliance, get_asset, get_investor. unfold_storage. intros H. minv.
  destruct (ip_kyc_verified _); simpl in H; [|by minv]. minv. rewrite check_rules_all in H. by injection H as _ ->.
Qed.

Lemma settled_trade i c s u s' :
  settle_trade i c s = Ok (u, s') ->
  exists t, trade_of (pers s) i = Some t /\
    pers s' = sset (pers s) (AssetLifecycleDataKey.Trade i) (trade_with t (cx_timestamp c) 1 true).
Proof.
  unfold settle_trade, get_trade. intros H. apply bind_Ok in H as (t & s1 & E & H).
  apply bind_Ok in H as (b & s2 & R & H). apply check_compliance_state in R as ->. unfold_storage.
  destruct b; simpl in H; minv. by exists t.
Qed.

(** A call without its answer. *)
Lemma lose_answer {A} (m : M A) c s u s' : (do* m in ret tt) c s = Ok (u, s') -> exists a, m c s = Ok (a, s').
Proof. intros (a & s1 & H & [_ ->]%ret_Ok)%bind_Ok. eauto. Qed.

Lemma transfer_Ok i f t q p c s j s' :
  transfer_tokens i f t q p c s = Ok (j, s') -> q <= 0 /\
  (forall x d, trade_of (pers s') x = Some d -> trade_of (pers s) x = Some d \/
     (td_quantity d = q /\ td_status d = 0 /\ td_compliance_passed d = false)) /\
  (forall x, redemption_of (pers s') x = redemption_of (pers s) x) /\
  (forall x, issued (pers s') x = issued (pers s) x).
Proof.
  unfold transfer_tokens, get_asset, compute_trade_id. intros H. unfold_storage. minv. zcase.
  unfold trade_of, redemption_of, issued. split; [lia|]. split; [|split; intros x; by store_reads].
  intros x d. match goal with |- context [AssetLifecycleDataKey.Trade ?k] =>
    destruct (decide (x = k)) as [->|D] end; store_reads; [|by left].
  intros [= <-]. by right.
Qed.

Lemma redeem_Ok i u q c s j s' :
  request_redemption i u q c s = Ok (j, s') -> q <= 0 /\
  (forall x d, redemption_of (pers s') x = Some d -> redemption_of (pers s) x = Some d \/ rd_quantity d = q) /\
  (forall x, trade_of (pers s') x = trade_of (pers s) x) /\ (forall x, issued (pers s') x = issued (pers s) x).
Proof.
  unfold request_redemption, get_asset, compute_redemption_id. intros H. unfold_storage. minv. zcase.
  unfold trade_of, redemption_of, issued. split; [lia|]. split; [|split; intros x; by store_reads].
  intros x d. match goal with |- context [AssetLifecycleDataKey.Redemption ?k] =>
    destruct (decide (x = k)) as [->|D] end; store_reads; [|by left].
  intros [= <-]. by right.
Qed.

(** An approval or a payment: the redemption keeps its quantity, and what is
    issued is lowered by it. *)
Lemma redemption_step k i c s u s' :
  (k = LApprove i \/ k = LProcess i) -> lexec k c s = Ok (u, s') ->
  exists r, redemption_of (pers s) i = Some r /\
    (forall x d, redemption_of (pers s') x = Some d -> redemption_of (pers s) x = Some d \/
       rd_quantity d = rd_quantity r) /\
    (forall x, trade_of (pers s') x = trade_of (pers s) x) /\
    (forall x, issued (pers s') x = issued (pers s) x \/
       issued (pers s') x = u128_minus (issued (pers s) x) (rd_quantity r)).
Proof.
  intros [-> | ->]; simpl; unfold approve_redemption, process_redemption, get_redemption; intros H;
    unfold_storage; minv;
    match goal with U : sget _ (AssetLifecycleDataKey.Redemption _) = Some ?r |- _ => exists r; split; [exact U|] end;
    unfold trade_of, redemption_of, issued.
  - split; [|split; intros x; [by store_reads|left; by store_reads]].
    intros x d. destruct (decide (x = i)) as [->|D]; store_reads; [|by left]. intros [= <-]. by right.
  - split; [|split; intros x].
    + intros x d. destruct (decide (x = i)) as [->|D]; store_reads; [|by left]. intros [= <-]. by right.
    + by store_reads.
    + match goal with |- context [u128_minus _ (rd_quantity ?r)] =>
        destruct (decide (x = rd_asset_id r)) as [->|D]; store_reads; [by right|by left] end.
Qed.

Lemma tokens_kept s s' : LInv (pers s) -> lstep s s' -> LInv (pers s').
Proof.
  intros HI (k & c & Hk & R). pose proof HI as [H1 H2 H3].
  destruct k as [u n y t d m r v h|i x|u n|u|u b|i t m o w a|i f t q p|i|i t e r p d|i|i u q|i|i]; simpl in Hk;
    cbn [lexec] in R; try (apply lose_answer in R as [j R]).
  - unfold issue_asset, compute_asset_id in R. unfold_storage. minv. eapply LInv_kept; [same_tac|same_tac| |done].
    intros x. unfold issued. match goal with |- context [sset _ (AssetLifecycleDataKey.IssuedSupply ?k) _] =>
      destruct (decide (x = k)) as [->|D]; store_reads; [by right|by left] end.
  - simpl in R. unfold update_asset_status, get_asset in R. unfold_storage. minv.
    eapply LInv_kept; [same_tac|same_tac|same_tac|done].
  - simpl in R. unfold register_investor in R. unfold_storage. minv.
    destruct (sget _ _); minv; [done|]. eapply LInv_kept; [same_tac|same_tac|same_tac|done].
  - simpl in R. unfold verify_investor_kyc, get_investor in R. unfold_storage. minv.
    eapply LInv_kept; [same_tac|same_tac|same_tac|done].
  - simpl in R. unfold set_accredited_status, get_investor in R. unfold_storage. minv.
    eapply LInv_kept; [same_tac|same_tac|same_tac|done].
  - unfold add_compliance_rule, get_asset, compute_rule_id in R. unfold_storage. minv.
    eapply LInv_kept; [same_tac|same_tac|same_tac|done].
  - destruct (transfer_Ok _ _ _ _ _ _ _ _ _ R) as (Hq & Ht & Hr & Hi). eapply LInv_kept; [| | |done].
    + intros x d E. destruct (Ht x d E) as [?|(Eq & ? & ?)]; [by left|right]. split; [lia|by left].
    + intros x d. rewrite Hr. by left.
    + intros x. rewrite Hi. by left.
  - destruct (settled_trade _ _ _ _ _ R) as (t & Et & E). rewrite E.
    eapply LInv_kept; [| | |done]; [|same_tac|same_tac].
    intros x d. unfold trade_of. destruct (decide (x = i)) as [->|D]; store_reads; [|by left]. intros [= <-].
    right. destruct (H1 _ _ Et) as [Eq _]. split; [exact Eq|by right].
  - unfold declare_corporate_action, get_asset, compute_action_id in R. unfold_storage. minv.
    eapply LInv_kept; [same_tac|same_tac|same_tac|done].
  - simpl in R. unfold execute_corporate_action, get_corporate_action in R. unfold_storage. minv.
    eapply LInv_kept; [same_tac|same_tac|same_tac|done].
  - destruct (redeem_Ok _ _ _ _ _ _ _ R) as (Hq & Hr & Ht & Hi). eapply LInv_kept; [| | |done].
    + intros x d. rewrite Ht. by left.
    + intros x d E. destruct (Hr x d E) as [?| ->]; [by left|right; lia].
    + intros x. rewrite Hi. by left.
  - destruct (redemption_step _ i _ _ _ _ (or_introl eq_refl) R) as (r & Er & Hr & Ht & Hi).
    pose proof (H2 _ _ Er) as Eq. eapply LInv_kept; [| | |done].
    + intros x d. rewrite Ht. by left.
    + intros x d E. destruct (Hr x d E) as [?| ->]; [by left|by right].
    + intros x. specialize (H3 x). destruct (Hi x) as [?|E]; [by left|right]. rewrite E, H3, Eq. done.
  - destruct (redemption_step _ i _ _ _ _ (or_intror eq_refl) R) as (r & Er & Hr & Ht & Hi).
    pose proof (H2 _ _ Er) as Eq. eapply LInv_kept; [| | |done].
    + intros x d. rewrite Ht. by left.
    + intros x d E. destruct (Hr x d E) as [?| ->]; [by left|by right].
    + intros x. specialize (H3 x). destruct (Hi x) as [?|E]; [by left|right]. rewrite E, H3, Eq. done.
Qed.

(** Nothing is ever issued, held, traded or redeemed: in every reachable state
    the trades and the redemptions are of nothing and what remains of an asset is
    all of it.  A trade waits or was settled: that one failed is written and
    rolled back. *)
Theorem nothing_is_ever_traded s :
  lreach s ->
  (forall i t, trade_of (pers s) i = Some t -> td_quantity t = 0 /\ td_status t <> 2) /\
  (forall i r, redemption_of (pers s) i = Some r -> rd_quantity r = 0) /\
  (forall i a c, sget (pers s) (AssetLifecycleDataKey.Asset i) = Some a ->
     asset_remaining_supply i c s = Ok (Z.max (ta_total_supply a) 0, s)).
Proof.
  intros Hs. assert (LInv (pers s)) as [H1 H2 H3].
  { revert Hs. apply (rtc_invariant lstep (fun s => LInv (pers s))); [|intros x y Hx; by apply tokens_kept].
    split; [done|done|intros i; reflexivity]. }
  split; [|split; [exact H2|]].
  - intros i t Et. destruct (H1 i t Et) as (Eq & [[E _]|[E _]]); split; (done || lia).
  - intros i a c Ea. unfold asset_remaining_supply. unfold_storage. unfold pget, bind. simpl. rewrite Ea.
    unfold pget_or, ret. specialize (H3 i). unfold issued in H3. simpl.
    unfold u128_minus. do 2 f_equal. revert H3. generalize (sget (pers s) (AssetLifecycleDataKey.IssuedSupply i)).
    intros o Ho. destruct o as [n|]; simpl in *; [rewrite Ho|]; by rewrite Z.sub_0_r.
Qed.

(** No transfer of a positive quantity succeeds. *)
Theorem transfers_fail i f t q p c s :
  0 < q -> succeeds (transfer_tokens i f t q p) c s = false.
Proof.
  intros Hq. unfold succeeds. destruct (transfer_tokens i f t q p c s) as [[j s']|] eqn:R; [|done].
  apply transfer_Ok in R as [? _]. lia.
Qed.

End Hashed.

(** *** At concrete states *)

#[local] Existing Instance sample_crypto.

Definition token_id : Hash := sha256 (address_slot owner ++ u64_to_bytes 10).
Definition l_run (t : Z) (k : lcall) (s : St) : St := post (lexec k) (at_time t) s.
Definition l_token : St := l_run 10 (LIssue owner [] [] 1000 2 99 5 7 []) empty_state.
Definition l_ruled : St :=
  l_run 13 (LVerify alice) (l_run 12 (LInvestor alice []) (l_run 11 (LRule token_id ComplianceRuleType.Accredited 0 0
    false true) l_token)).
Definition l_traded : St := l_run 14 (LTransfer token_id owner alice 0 5) l_ruled.

Lemma l_run_step t k s : lunsigned k -> outcome (lexec k) (at_time t) s = Ok tt -> lstep s (l_run t k s).
Proof. intros Hk H. exists k, (at_time t). split; [done|]. exact (run_outcome (lexec k) (at_time t) s tt H). Qed.

Lemma l_traded_reach : lreach l_traded.
Proof. do 5 (eapply rtc_r; [|by apply l_run_step; [done|vm_compute; reflexivity]]). apply rtc_refl. Qed.

Lemma nothing_is_ever_traded_witness :
  asset_remaining_supply token_id (at_time 20) l_traded = Ok (1000, l_traded).
Proof.
  destruct (nothing_is_ever_traded l_traded l_traded_reach) as (_ & _ & H).
  destruct (sget (pers l_traded) (AssetLifecycleDataKey.Asset token_id)) as [a|] eqn:Ea;
    [|vm_compute in Ea; discriminate Ea].
  rewrite (H token_id a (at_time 20) Ea). vm_compute in Ea. injection Ea as <-. reflexivity.
Defined.

Lemma transfers_fail_witness : succeeds (transfer_tokens token_id owner alice 1 5) (at_time 14) l_ruled = false.
Proof. apply transfers_fail. lia. Defined.

Lemma compliance_is_accreditation_witness :
  outcome (check_compliance token_id alice 1) (at_time 20) l_ruled = Ok false.
Proof.
  destruct (sget (pers l_ruled) (AssetLifecycleDataKey.Asset token_id)) as [a|] eqn:Ea;
    [|vm_compute in Ea; discriminate Ea].
  destruct (sget (pers l_ruled) (AssetLifecycleDataKey.InvestorProfile alice)) as [p|] eqn:Ep;
    [|vm_compute in Ep; discriminate Ep].
  unfold outcome. rewrite (compliance_is_accreditation token_id alice 1 (at_time 20) l_ruled a p Ea Ep).
  vm_compute in Ep. injection Ep as <-. vm_compute. reflexivity.
Defined.

End Tokens.
